(* ===== verification/_CoqProject ===== *)
-Q . S2P
Prelude.v
Machine.v
Bakery.v
TmrCore.v
TmrAxi.v
SwdtMonitor.v
Gic.v
GicInit.v
CtxData.v
IntrMgmt.v
Swdt.v
System.v
Ipi.v
PmDefs.v
PmIpi.v
PmReq.v
Paged.v
ClockData.v
PmClock.v
PinctrlData.v
PmPinctrl.v
PmClient.v
PmIoctl.v
PmApi.v
PmRestart.v
PmSvc.v
PmTotal.v
Trace.v
TeeMutex.v
TaLocks.v
TaCancel.v
TeeCore.v
Csudma.v
CsuSecure.v
CsuPcap.v
FpgaMgr.v
BsDownloader.v
CtxMgmt.v
Xlat.v
XlatWalk.v
Psci.v
PsciOps.v
Cci.v
PsciTree.v
CtxFacts.v
Hotplug.v
Suspend.v
PsciPlat.v
PsciLaws.v
DelayTimer.v
PlatStartup.v
XlatPlat.v
MmuOff.v
RuntimeSvc.v
Bl31.v
StdSvc.v
Opteed.v
OpteedLaws.v
PsciSystem.v
OpteedCalls.v
ColdBoot.v
