(* ===== verification/Prelude.v ===== *)
(** * TrustZone watchdog: a verification library

    The repository is a layered watchdog for the Zynq UltraScale+ MPSoC: logic in
    the FPGA fabric (pl/), a monitor task in the firmware of the platform
    management unit (pmufw/), and the secure monitor BL31 of Trusted Firmware-A
    (arm-trusted-firmware/) with the heartbeat and the power-management service.
    The fabric itself is reconfigured from the secure world: a trusted application
    downloads an encrypted bitstream and OP-TEE's drivers (optee_os/) load it.
    This library models the code of these layers function by function and
    proves what they promise to each other.

    ** How the parts interact

    - Layer 1 (fabric): three down-counters fed over an AXI4-Lite bus; a 2-of-3
      and a 3-of-3 vote over their timeouts drive the outputs.
    - Layer 3 (BL31): the timer TTC2 raises interrupt 74 as a Group 0 FIQ.  The
      exception vector enters the EL3 interrupt framework, which calls the
      dispatcher [rdo_el3_interrupt_handler]; the dispatcher acknowledges the
      interrupt at the GICv2 and calls the handler of the per-interrupt table,
      [ttc2_fiq_handler], which writes the next heartbeat number to a TTC2
      register.
    - PMU: [SwdtMonitorCallback] runs periodically, reads that register, and
      after nine equal reads resets the fabric and the system.
    - Warm restart: a watchdog event at the PMU fires TTC3 at the APU; its
      handler finds the running processors, raises SGI 7 on each, and the last
      processor to arrive asks the PMU for the reset.
    - Power-management service: the normal world calls BL31 by SMC; BL31
      validates, answers from its clock and pin tables, or forwards the request
      to the PMU over the inter-processor interrupt (IPI) mailbox.
    - Processors come and go through PSCI: the SMC front end, the power domain
      tree, the hooks of this platform (which ask the PMU and program the GIC and
      the interconnect) and the hooks of the OP-TEE dispatcher (which enter OP-TEE
      on the processor that goes down, sleeps, wakes or comes up).  The context a started
      processor leaves EL3 with carries the interrupt routing that brings the
      heartbeat's FIQ back to EL3.
    - Boot: BL31 takes the images from the first boot loader (FSBL), sets the
      platform up, builds its translation tables and enables the MMU, registers its SMC services (SiP, architecture, PSCI, OP-TEE),
      lets OP-TEE start, arms the heartbeat and leaves to the normal world.  From
      then on an SMC goes through the table of services to its handler, and calls
      for OP-TEE switch worlds.
    - Reconfiguration: the trusted application receives the image over a socket
      and calls the FPGA manager, which checks it, isolates the reconfigurable
      region with two decouplers, pushes the blocks through the DMA and the AES
      engine into the configuration port (PCAP), and couples the region again.

    ** Files and the sources they model

    Paths are below src/; "zynqmp" is arm-trusted-firmware/plat/xilinx/zynqmp and
    "xcommon" is arm-trusted-firmware/plat/xilinx/common.

    - [Prelude]: machine integers, C notations ([c_scope]), list and bit lemmas.
    - [Machine]: the execution model.  A C function is a computation in the monad
      [M V] over one processor's state: device, trace of events, locks held,
      static variables [V].  It returns, or halts for a reason (panic, failed
      assertion, array or null access outside the object, a lock taken twice,
      the final wfi, a wait that has not ended).  The class [Env] stands for the
      hardware and for code outside the repository; the class [Has S V] gives a
      component its statics inside any image [V], [Indep] says that two
      components' statics are apart, [Latched P] that the registers in [P] hold
      what is written to them.
    - [Bakery]: include/lib/bakery_lock.h and lib/locks/bakery/bakery_lock_coherent.c,
      the locks that [Machine] takes as atomic.
    - [TmrCore], [TmrAxi]: pl/tmr_wdt_core.v and pl/tmr_wdt_v1_0_S00_AXI.v as
      clocked step functions.
    - [SwdtMonitor]: pmufw/swdt_monitor.c.
    - [Gic], [GicInit]: drivers/arm/gic/v2 and gic/common,
      plat/common/plat_gicv2.c, plat/arm/common/arm_gicv2.c, zynqmp/plat_zynqmp.c.
    - [CtxData]: the saved contexts of a processor (one per security state) with
      the accessors of bl31/bl31_context_mgmt.c and the writes to their SCR_EL3.
    - [IntrMgmt]: bl31/interrupt_mgmt.c; a registration writes the routing bits
      into the saved contexts of the processor that executes it.
    - [Swdt]: zynqmp/zynqmp_swdt.c and the dispatcher and runtime setup of
      zynqmp/bl31_zynqmp_setup.c.
    - [System]: the interleaving of BL31's heartbeat with the PMU's monitor.
    - [Ipi]: xcommon/ipi.c, zynqmp/zynqmp_ipi.c and the mailbox SMC service
      xcommon/ipi_mailbox_service/ipi_mailbox_svc.c.
    - [PmDefs]: the constants of zynqmp/pm_service.
    - [PmIpi]: xcommon/pm_service/pm_ipi.c, the transport of PM requests.
    - [PmReq], [PmApi]: zynqmp/pm_service/pm_api_sys.c (requests that are only
      forwarded; suspend, clock control and the query dispatcher).
    - [Paged]: the two loops that page through a terminated table.
    - [ClockData], [PmClock]: zynqmp/pm_service/pm_api_clock.c, tables and
      functions; [PinctrlData], [PmPinctrl]: pm_api_pinctrl.c likewise.
    - [PmClient]: zynqmp/pm_service/pm_client.c.
    - [PmIoctl]: zynqmp/pm_service/pm_api_ioctl.c.
    - [PmRestart]: the warm restart and [pm_setup] of zynqmp/pm_service/pm_svc_main.c;
      [PmSvc]: its SMC handlers and zynqmp/sip_svc_setup.c.
    - [PmTotal]: total correctness of the SMC handler.
    - [Trace]: what a computation adds to the trace ([respects], [yields]) and
      that it returns ([returns]), with composition lemmas.
    - [TeeMutex]: optee_os/core/kernel/mutex.c and wait_queue.c, threads that
      interleave at the spin locks; [TaLocks]: the locks of
      optee_os/core/kernel/tee_ta_manager.c, at the granularity of sections under
      the mutex; [TaCancel]: its deadlines of calls.
    - [TeeCore]: register access, timed waits, buffers and result codes of the
      OP-TEE core; the class [Mmu] gives the mapped addresses.
    - [Csudma], [CsuSecure], [CsuPcap]: optee_os/core/drivers/zynqmp_csudma.c,
      zynqmp_csu_secure.c, zynqmp_csu_pcap.c; [FpgaMgr]:
      optee_os/core/pta/zynqmp/fpga_mgr.c; [BsDownloader]:
      optee_examples/bs_downloader/ta/bs_downloader_ta.c.
    - [CtxMgmt]: lib/el3_runtime/aarch64/context_mgmt.c, bl31/bl31_context_mgmt.c
      and lib/extensions/spe/spe.c; [CtxFacts]: what a context set up from an entry
      point leads to.
    - [Xlat]: lib/xlat_tables (xlat_tables_common.c, aarch64/xlat_tables.c) and
      setup_page_tables of plat/common/plat_bl_common.c, with the table walk of the
      architecture ([Xlat.walk]) that the tables are written for; [XlatWalk]: the
      tables against the map of regions.
    - [Psci], [PsciOps]: lib/psci (common, setup, on, off, suspend, system_off,
      mem_protect, main) and plat/common/plat_psci_common.c, over the classes
      [PlatOps] and [SpdOps], which stand for the two tables of hooks.
    - [PsciTree]: the power domain tree and its coordination; [Hotplug]: the
      abstract specification of hotplug and suspend ([spec] on a [mode] per
      processor), the contract [Hooks] that PSCI needs from the two tables, and the
      refinement proved against it; [Suspend]: the same for CPU_SUSPEND,
      SYSTEM_SUSPEND and the resume.
    - [Cci]: drivers/arm/cci/cci.c and plat/arm/common/arm_cci.c.
    - [PsciPlat]: zynqmp/plat_psci.c, zynqmp/plat_topology.c and the silicon version
      and counter frequency of zynqmp/aarch64/zynqmp_common.c; [PsciLaws]: these
      hooks meet the contract.
    - [DelayTimer]: drivers/delay_timer (delay_timer.c, generic_delay_timer.c).
    - [PlatStartup]: xcommon/plat_startup.c, the early setup of
      zynqmp/bl31_zynqmp_setup.c and zynqmp/aarch64/zynqmp_common.c.
    - [XlatPlat]: the regions of zynqmp/bl31_zynqmp_setup.c and
      zynqmp/aarch64/zynqmp_common.c, for the layouts of bl31/bl31.ld.S, and the
      address space they give; [MmuOff]: nothing before it touches the MMU.
    - [RuntimeSvc]: common/runtime_svc.c and the SMC path of
      bl31/aarch64/runtime_exceptions.S; [StdSvc]: services/std_svc and
      services/arm_arch_svc with the weak hooks of plat/common/plat_bl_common.c.
    - [Bl31]: bl31/bl31_main.c and the architectural setup of the platform.
    - [Opteed]: services/spd/opteed (opteed_main.c, opteed_common.c, opteed_pm.c);
      [OpteedLaws]: its hooks meet the contract, given the class [OpteeComplies]
      (OP-TEE answers an entry with the matching return code).
    - [PsciSystem]: the statics of the whole EL3 image ([el3_statics]), setup,
      hotplug, suspend and the reachable states with the real hooks.
    - [OpteedCalls]: the round trips between the worlds.
    - [ColdBoot]: the five service descriptors of the image and the boot as a
      whole, from bl31/aarch64/bl31_entrypoint.S to the exit into the normal world.

    ** What the theorems show

    - System (C1, C2): with a heartbeat every nine polls no schedule resets the
      system, and a heartbeat that stops is always answered by a recovery.
    - Boot (C3, C25, C38): from zeroed statics the whole boot returns with the
      image that the theorems on hotplug start from, OP-TEE running and the
      heartbeat armed; no hand-off structure makes BL31 prepare an entry into
      the wrong level or world; what is left of the dispatcher without OP-TEE.
    - Fabric (C5 to C7, C34, C35): an unfed counter times out after exactly its
      reload value; one corrupted counter can neither raise the 3-of-3 output
      nor hide a timeout of the other two; a KICK write feeds exactly the
      addressed counters; the bus slave keeps its handshake invariant.
    - Monitor (C8, C9): from power-up the monitor refines a decision procedure
      on the history of heartbeat reads, and resets only at the end of the
      complete recovery sequence.
    - Hotplug and suspend (C10, C11, C26, C28, C29): PSCI with this platform's
      and the dispatcher's hooks refines the abstract specification; the
      invariant of every interleaving of calls, suspends and warm boots; the
      setup builds a well-formed image; the cluster gets the shallowest
      requested state; the hooks keep the contract.
    - Locks (C15, C16): four processors that take and release a bakery lock,
      one shared access at a time, are never two inside and never stuck; this
      is what lets the other files take locks as atomic.
    - Translation tables (C4, C14, C27): adding a region keeps the map sorted
      and nested; the tables that are built from a map translate, under the
      walk of the architecture, exactly as the map says; for this platform that
      is one address space, in which nothing is writable and executable and the
      registers that the monitor uses are device memory.
    - Reconfiguration (C12, C30, C31, C39): no job reaches the configuration
      port while the region is coupled; what a reported success means; the
      write ends; only the last tag is enforced.
    - Warm restart (C13, C37): in every interleaving the last processor
      requests the reset; the right processors are interrupted.
    - SMC interface (C21 to C24, C36, C40): an SMC reaches the service
      registered for it; the PM handler returns for every call but two (which
      the theorem names); a non-secure caller reaches no secure-only mailbox
      channel; calls of OP-TEE and its interrupts come back with the caller's
      context; the bounds of the name query.
    - Interrupts and time (C32, C33): the dispatcher calls the registered
      handler and nothing else; the order in which the heartbeat is armed.
    - Locks of the trusted OS (C17 to C20): a mutex of OP-TEE admits one writer
      or readers, and none of its wake-ups is lost; the locks of trusted
      applications exclude, and calls of applications return unless one enters
      an instance it is already in.
    - Further theorems without a number: the last applicable partition of the
      FSBL wins, a PM request takes lock, payload, doorbell, wait, response and
      unlock in this order, bakery tickets are served in their order, the
      wake-up loop of the client against its specification, the heartbeat
      sequence, the groups that the GIC initialisation leaves, registration of
      type handlers, the contract of the PM setup, the SiP service while it is
      down, the two dispatchers of SMCs agree, the registers an IOCTL can
      reach, the wake-up sources of a suspend to RAM, the register-access
      filter, the overrun of the callback reader, which images the secure check
      lets through, what a download delivers, PSCI_FEATURES is exact, the group
      of an interrupt round trips, the length of a delay, STATUS reads are
      live, the write-once EL3 table, paged table queries return slices, the
      clock tree is acyclic, PLL modes and power-down requests round trip,
      names identify clocks, pin and function tables agree, a failed connection
      does not reach the fabric, the time-out of a call is exact while its
      milliseconds do not carry, and six flaws of the upstream code
      ([TaCancel.timeout_carry_forgets], [TaLocks.own_instance_panics],
      [Xlat.mmap_overrun], [PsciSystem.stop_other_cores_denies],
      [PsciSystem.refused_wakeup_is_hidden], [Bakery.ticket_overflow]).

    ** Bounds and fuel

    - A busy wait on the IPI observation register is unfolded [poll_bound] times,
      a field of [Env] that theorems leave arbitrary; they assume that the PMU
      answers within it ([pmu_answers]) and the interconnect settles within it
      ([cci_answers]), and a wait that does not end is the
      outcome [StillPolling], never a result.  The same field bounds the timed
      waits of OP-TEE's drivers, the block loop of the secure write, the receive
      loop and the wait of the interconnect; the block loop needs at most a
      quarter of the data length plus one turns ([CsuPcap.secure_write_ends]).
    - The wake-up loop over an enable register takes at most 32 turns: each turn
      clears one bit of a 32-bit word; the equivalence theorem of [PmClient] shows
      that 32 are enough.
    - Loops over terminated tables have the table's length as fuel; the lemmas
      [Paged.skip_to_run] and [PmPinctrl.count_groups_run] show that a
      terminated table ends them before it is used up.
    - The loop over the partitions of the hand-off structure takes at most nine
      turns (eight partitions), and dropping factors of ten from the frequency at
      most seven ([DelayTimer.reduce_ends]).
    - The tickets of a bakery lock are 15 bits wide: the theorems on it count the
      tickets drawn since the lock was last unused and allow 32767.
    - The loop over the entries of a translation table writes an entry or passes a
      region in each turn: 520 turns for 512 entries and eight regions; the tables
      nest at most four deep.  That both are enough, and that five tables are enough
      for this platform, is part of the theorems of [XlatWalk] and [XlatPlat].
    - All other loops are structural over the ranges the C code gives.
    - Integers are [Z] with the wrap-around of their C type written out.

    ** Not modelled

    Console output (the register reads inside INFO lines are), cache maintenance
    and the assembly that runs before the first C function.  OP-TEE
    itself, seen from BL31, is the registers it comes back with; its PUF, key
    and generic AES drivers are not in the build, its PM driver is not used by the
    watchdog, and the trusted application fpga_updater is the unchanged hello-world
    template.  Of OP-TEE's core the locks are modelled; sessions, memory management,
    file systems and cryptography are not, and the rest of Trusted Firmware-A is
    upstream code for other boot stages and platforms.

    Translation is the architecture's walk of the tables in memory: the TLBs, which
    are invalidated before the MMU is enabled, are not modelled, and the accesses
    of the other files are physical; the map is flat, and covers every register
    that they use.  A processor at EL3 is the class [Xlat.El3Cpu]: it reports its
    level and a known range of addresses, and SCTLR_EL3 changes only when it is
    written.

    Memory accesses of one processor are in program order; processors interact at
    the granularity of critical sections ([PmRestart]), of single accesses to fully
    ordered memory ([Bakery], where wfe and sev are hints), of whole handlers with a
    single shared access ([System]) or of whole PSCI calls and warm boots, which
    run under the locks of the tree and of the target ([PsciSystem]).  A PMU that
    reports a wake-up as done is taken to start the target, and a processor that
    sleeps may wake at any time.  The saved contexts are
    shared: the interrupt framework ([IntrMgmt]), context management ([CtxMgmt]),
    PSCI and the dispatcher read and write the same ones.

    The build modelled is the ZynqMP one with SPD=opteed, ZYNQMP_WDT_RESTART = 1,
    assertions enabled, extended PSCI state ids and IPI_CRC_CHECK off. *)

From Stdlib Require Export ZArith Lia Bool.
From stdpp Require Export base tactics option list numbers.

#[global] Open Scope Z_scope.
#[global] Set Default Goal Selector "!".

(** ** Machine integers

    A w-bit unsigned integer of the sources is a [Z]; arithmetic that can
    leave the range is followed by [u8], [u16], [u32] or [u64]. *)

Definition u8 (z : Z) : Z := z mod 2 ^ 8.
Definition u16 (z : Z) : Z := z mod 2 ^ 16.
Definition u32 (z : Z) : Z := z mod 2 ^ 32.
Definition u64 (z : Z) : Z := z mod 2 ^ 64.

(** Complement and left shift of a [uint32_t]. *)
Definition not32 (z : Z) : Z := u32 (Z.lnot z).
Definition shl32 (z n : Z) : Z := u32 (Z.shiftl z n).
Definition shl64 (z n : Z) : Z := u64 (Z.shiftl z n).

(** [BIT(n)] and the truth value C gives an integer. *)
Definition BIT (n : Z) : Z := Z.shiftl 1 n.
Definition truthy (z : Z) : bool := negb (z =? 0).
Definition b2z (b : bool) : Z := if b then 1 else 0.

Definition is_u8 (z : Z) : Prop := 0 <= z < 2 ^ 8.
Definition is_u32 (z : Z) : Prop := 0 <= z < 2 ^ 32.

(** Number of trailing zeros of a word, [__builtin_ctz]; [None] at 0, where
    the C builtin is undefined. *)
Fixpoint ctz_pos (p : positive) : Z :=
  match p with
  | xO q => 1 + ctz_pos q
  | _ => 0
  end.

Definition ctz (z : Z) : option Z :=
  match z with
  | Zpos p => Some (ctz_pos p)
  | _ => None
  end.

Declare Scope c_scope.
Delimit Scope c_scope with C.

Notation "a '.&' b" := (Z.land a b) (at level 40, left associativity) : c_scope.
Notation "a '.|' b" := (Z.lor a b) (at level 50, left associativity) : c_scope.
Notation "a '.<<' b" := (shl32 a b) (at level 45, left associativity) : c_scope.
Notation "a '.>>' b" := (Z.shiftr a b) (at level 45, left associativity) : c_scope.

(** ** Shared lemmas on words *)

Lemma u8_range z : 0 <= u8 z < 256.
Proof. unfold u8. change (2 ^ 8) with 256. apply Z.mod_pos_bound. lia. Qed.

Lemma u32_range z : 0 <= u32 z < 2 ^ 32.
Proof. unfold u32. apply Z.mod_pos_bound. lia. Qed.

Lemma u32_small z : 0 <= z < 2 ^ 32 -> u32 z = z.
Proof. apply Z.mod_small. Qed.

Lemma u32_u32 z : u32 (u32 z) = u32 z.
Proof. apply u32_small, u32_range. Qed.

Lemma u32_add_l a b : u32 (u32 a + b) = u32 (a + b).
Proof. unfold u32. apply Z.add_mod_idemp_l. lia. Qed.

(** Adding less than a full turn changes a 32-bit counter. *)
Lemma u32_add_neq a k : 0 < k < 2 ^ 32 -> u32 (a + k) <> u32 a.
Proof.
  unfold u32. intros Hk He.
  pose proof (Z.div_mod (a + k) (2 ^ 32) ltac:(lia)).
  pose proof (Z.div_mod a (2 ^ 32) ltac:(lia)).
  nia.
Qed.

Lemma land_bit a n : 0 <= n -> truthy (Z.land a (BIT n)) = Z.testbit a n.
Proof.
  intros Hn. unfold truthy, BIT. rewrite Z.shiftl_1_l.
  destruct (Z.testbit a n) eqn:Hb.
  - apply negb_true_iff, Z.eqb_neq. intros He.
    apply (f_equal (fun z => Z.testbit z n)) in He.
    rewrite Z.land_spec, Z.pow2_bits_true, Hb, Z.bits_0 in He by done. done.
  - apply negb_false_iff, Z.eqb_eq. apply Z.bits_inj'. intros m Hm.
    rewrite Z.land_spec, Z.bits_0. destruct (decide (m = n)) as [->|Hne].
    + by rewrite Hb.
    + rewrite Z.pow2_bits_false by lia. by rewrite andb_false_r.
Qed.

Lemma testbit_u32 z n : 0 <= n < 32 -> Z.testbit (u32 z) n = Z.testbit z n.
Proof. intros [H1 H2]. unfold u32. by rewrite Z.mod_pow2_bits_low. Qed.

Lemma testbit_not32 z n : 0 <= n < 32 -> Z.testbit (not32 z) n = negb (Z.testbit z n).
Proof.
  intros H. unfold not32. rewrite testbit_u32 by done. apply Z.lnot_spec. lia.
Qed.

Lemma land_u32 a b : 0 <= a < 2 ^ 32 -> 0 <= b -> 0 <= Z.land a b < 2 ^ 32.
Proof.
  intros Ha Hb. split.
  - apply Z.land_nonneg. lia.
  - destruct (decide (Z.land a b = 0)) as [->|Hne]; [lia|].
    apply Z.log2_lt_pow2.
    + assert (0 <= Z.land a b) by (apply Z.land_nonneg; lia). lia.
    + pose proof (Z.log2_land a b ltac:(lia) Hb).
      assert (Z.log2 a < 32); [|lia].
      destruct (decide (a = 0)) as [->|]; [done|]. apply Z.log2_lt_pow2; lia.
Qed.

(** Words and bits of a register bank indexed by a small number. *)
Lemma shiftr_div a n : 0 <= n -> Z.shiftr a n = a / 2 ^ n.
Proof. apply Z.shiftr_div_pow2. Qed.

Lemma land_low a n : 0 <= n -> Z.land a (2 ^ n - 1) = a mod 2 ^ n.
Proof. intros Hn. rewrite <- Z.land_ones by done. by rewrite Z.ones_equiv. Qed.

Lemma land_31 a : Z.land a (shl32 1 5 - 1) = a mod 32.
Proof. apply (land_low a 5). lia. Qed.

Lemma shl32_small a n : 0 <= n -> 0 <= a * 2 ^ n < 2 ^ 32 -> shl32 a n = a * 2 ^ n.
Proof. intros Hn Ha. unfold shl32. rewrite Z.shiftl_mul_pow2 by done. by apply u32_small. Qed.

Lemma shl32_1 n : 0 <= n < 32 -> shl32 1 n = 2 ^ n.
Proof.
  intros Hn. rewrite shl32_small; [lia|lia|]. rewrite Z.mul_1_l.
  split; [lia|]. apply Z.pow_lt_mono_r; lia.
Qed.

Lemma testbit_shr_land1 a n : 0 <= n -> Z.land (Z.shiftr a n) 1 = b2z (Z.testbit a n).
Proof.
  intros Hn. change 1 with (Z.ones 1). rewrite Z.land_ones by lia. change (2 ^ 1) with 2.
  rewrite <- Z.bit0_mod, Z.shiftr_spec, Z.add_0_l by lia. by destruct (Z.testbit a n).
Qed.

Lemma lor_u32 a b : 0 <= a < 2 ^ 32 -> 0 <= b < 2 ^ 32 -> 0 <= Z.lor a b < 2 ^ 32.
Proof.
  intros Ha Hb. split; [apply Z.lor_nonneg; lia|].
  destruct (decide (Z.lor a b = 0)) as [->|Hne]; [lia|].
  assert (0 <= Z.lor a b) by (apply Z.lor_nonneg; lia).
  apply Z.log2_lt_pow2; [lia|]. rewrite Z.log2_lor by lia.
  assert (Hl : forall c, 0 <= c < 2 ^ 32 -> Z.log2 c < 32).
  { intros c Hc. destruct (decide (c = 0)) as [->|]; [done|]. apply Z.log2_lt_pow2; lia. }
  pose proof (Hl a Ha). pose proof (Hl b Hb). lia.
Qed.

(** The lowest set bit of a word, as [x & -x] computes it. *)
Lemma low_bit_form a k : 0 <= k -> Z.testbit a k = true ->
  (forall i, 0 <= i < k -> Z.testbit a i = false) -> exists q, a = Z.shiftl (2 * q + 1) k.
Proof.
  intros Hk Hb Hlow. exists (Z.shiftr a (k + 1)). apply Z.bits_inj'. intros i Hi.
  rewrite Z.shiftl_spec by done.
  destruct (Z.lt_trichotomy i k) as [Hlt|[->|Hgt]].
  - rewrite Hlow, Z.testbit_neg_r by lia. done.
  - by rewrite Z.sub_diag, Z.testbit_odd_0, Hb.
  - replace (i - k) with (Z.succ (i - k - 1)) by lia.
    rewrite Z.testbit_odd_succ, Z.shiftr_spec by lia. f_equal. lia.
Qed.

Lemma land_opp_lowest a k : 0 <= k < 32 -> Z.testbit a k = true ->
  (forall i, 0 <= i < k -> Z.testbit a i = false) -> 0 <= a < 2 ^ 32 ->
  Z.land a (u32 (- a)) = 2 ^ k.
Proof.
  intros Hk Hb Hlow Ha. destruct (low_bit_form a k ltac:(lia) Hb Hlow) as [q Hq].
  assert (Hn : - a = Z.shiftl (2 * Z.lnot q + 1) k).
  { rewrite Hq, !Z.shiftl_mul_pow2 by lia. unfold Z.lnot. lia. }
  apply Z.bits_inj'. intros i Hi. rewrite Z.land_spec, Z.pow2_bits_eqb by lia.
  destruct (Z.lt_trichotomy i k) as [Hlt|[->|Hgt]].
  - rewrite Hlow by lia. symmetry. apply Z.eqb_neq. lia.
  - rewrite Hb, testbit_u32, Hn, Z.shiftl_spec, Z.sub_diag, Z.testbit_odd_0, Z.eqb_refl by lia. done.
  - rewrite (proj2 (Z.eqb_neq k i)) by lia. destruct (decide (i < 32)) as [Hi32|].
    + rewrite testbit_u32, Hn, Hq, !Z.shiftl_spec by lia.
      replace (i - k) with (Z.succ (i - k - 1)) by lia.
      rewrite !Z.testbit_odd_succ, Z.lnot_spec by lia. apply andb_negb_r.
    + rewrite (Z.bits_above_log2 a); [done|lia|]. destruct (decide (a = 0)) as [->|]; [simpl; lia|].
      apply Z.lt_le_trans with 32; [|lia]. apply Z.log2_lt_pow2; lia.
Qed.

Lemma ctz_pow2 k : 0 <= k -> ctz (2 ^ k) = Some k.
Proof.
  intros Hk. pattern k. apply natlike_ind; [done| |done]. clear k Hk.
  intros k Hk IH. rewrite Z.pow_succ_r by done. destruct (2 ^ k) as [|p|p] eqn:E; try done.
  apply (inj Some) in IH. change (Some (1 + ctz_pos p) = Some (Z.succ k)).
  rewrite IH. f_equal. lia.
Qed.

(** A list with an element that satisfies a test after its first [n]. *)
Lemma existsb_drop {A} (f : A -> bool) n l : existsb f (drop n l) = true -> existsb f l = true.
Proof.
  intros He. rewrite <- (take_drop n l), existsb_app, He. apply orb_true_r.
Qed.

Lemma lookup_repeat {A} (x : A) n i : (i < n)%nat -> repeat x n !! i = Some x.
Proof.
  revert i. induction n as [|n IH]; intros i Hi; [lia|].
  destruct i as [|i]; simpl; [done|]. apply IH. lia.
Qed.

Lemma existsb_false {A} (f : A -> bool) l : Forall (fun x => f x = false) l -> existsb f l = false.
Proof. induction 1 as [|x l Hx _ IH]; simpl; [done|]. by rewrite Hx. Qed.

Create HintDb zword discriminated.
#[export] Hint Resolve u8_range u32_range : zword.

(** ** Tactics *)

(** Turn boolean tests on [Z] in the context into propositions. *)
Ltac zbool :=
  repeat match goal with
  | H : (_ =? _) = true |- _ => apply Z.eqb_eq in H
  | H : (_ =? _) = false |- _ => apply Z.eqb_neq in H
  | H : (_ <? _) = true |- _ => apply Z.ltb_lt in H
  | H : (_ <? _) = false |- _ => apply Z.ltb_ge in H
  | H : (_ <=? _) = true |- _ => apply Z.leb_le in H
  | H : (_ <=? _) = false |- _ => apply Z.leb_gt in H
  | H : (_ >=? _) = _ |- _ => rewrite Z.geb_leb in H
  | H : (_ >? _) = _ |- _ => rewrite Z.gtb_ltb in H
  | H : (_ && _) = true |- _ => apply andb_true_iff in H as [? ?]
  | H : (_ || _) = false |- _ => apply orb_false_iff in H as [? ?]
  | H : negb _ = true |- _ => apply negb_true_iff in H
  | H : negb _ = false |- _ => apply negb_false_iff in H
  end.

(** Case analysis on the test of the first [if] of the goal. *)
Ltac if_case :=
  match goal with
  | |- context [if ?b then _ else _] => destruct b eqn:?
  end.

Ltac if_cases := repeat if_case; zbool; simplify_eq/=.
