(* ===== verification/Machine.v ===== *)
(** * The execution model shared by the firmware images

    Every C function that touches a register, a static variable or a lock is a
    computation in the monad [M V]: a function from the state of one processor
    to an outcome and a new state.  The hardware is not under src/: it is the
    parameter [Env], an arbitrary state machine that answers register reads,
    absorbs register writes and answers calls of code outside the repository.
    All theorems quantify over it; the ones that rely on documented behaviour of
    a register say so by a hypothesis on [Env]. *)

From S2P Require Import Prelude.
From Stdlib Require Import String.
From stdpp Require Import strings.
#[local] Open Scope Z_scope.

Inductive width := W8 | W32 | W64.

(** The locks of the modelled sources. *)
Inductive lock_id :=
| gic_lock              (* drivers/arm/gic/v2/gicv2_main.c *)
| pm_secure_lock        (* plat/xilinx/common/pm_service/pm_ipi.c *)
| pm_client_secure_lock (* plat/xilinx/zynqmp/pm_service/pm_client.c *)
| inc_lock              (* plat/xilinx/zynqmp/pm_service/pm_svc_main.c *)
| psci_locks (i : Z)    (* lib/psci/psci_common.c, one per power domain *)
| cpu_lock (i : Z).     (* lib/psci/psci_private.h, one per processor *)

#[export] Instance lock_id_eq_dec : EqDecision lock_id.
Proof. solve_decision. Defined.

(** What one processor does that is visible outside it, in program order. *)
Inductive event :=
| EvRd (w : width) (a v : Z)        (* register read and the value it gave *)
| EvWr (w : width) (a v : Z)        (* register write *)
| EvBar                             (* dsb / dmb *)
| EvWfi
| EvDelay (n : Z)                   (* a pause: n turns of an empty loop, or n us *)
| EvLock (l : lock_id)
| EvUnlock (l : lock_id)
| EvCall (f : string) (args : list Z) (r : Z). (* code outside the repository *)

#[export] Instance width_eq_dec : EqDecision width.
Proof. solve_decision. Defined.
#[export] Instance event_eq_dec : EqDecision event.
Proof. solve_decision. Defined.

(** Ways in which a computation does not return to its caller. *)
Inductive halt :=
| Panic          (* panic() *)
| AssertFail     (* assert() in a build with ENABLE_ASSERTIONS *)
| OutOfBounds    (* array or buffer access outside the object *)
| NullDeref
| Deadlock       (* a non-recursive lock taken twice by one processor *)
| Parked         (* while (1) wfi(), the end of a __dead2 function *)
| Gone           (* control has gone to a lower exception level for good *)
| StillPolling.  (* a busy wait that has not ended after [poll_bound] turns *)

Inductive outcome (A : Type) := Ret (a : A) | Halt (h : halt).
Arguments Ret {A} _.
Arguments Halt {A} _.

Lemma Ret_inj {A} (a b : A) : Ret a = Ret b -> a = b.
Proof. intros He. by injection He. Qed.

(** The parameter for everything that is not in the repository. *)
Class Env := {
  Dev : Type;
  hw_read : width -> Z -> Dev -> Z * Dev;
  hw_write : width -> Z -> Z -> Dev -> Dev;
  hw_call : string -> list Z -> Dev -> Z * Dev;
  (** turns of an unbounded busy wait that are unfolded *)
  poll_bound : nat;
  (** contents of the uninitialised automatic variables, by position *)
  uninit : nat -> Z
}.

Section Machine.
Context `{Env}.

Record st (V : Type) := St {
  dev : Dev;
  log : list event;      (* newest first *)
  held : list lock_id;   (* locks this processor holds, newest first *)
  vars : V               (* the static variables of the image *)
}.
Arguments St {V} _ _ _ _.
Arguments dev {V} _.
Arguments log {V} _.
Arguments held {V} _.
Arguments vars {V} _.

Definition M (V A : Type) : Type := st V -> outcome A * st V.

Definition ret {V A} (a : A) : M V A := fun s => (Ret a, s).
Definition stop {V A} (h : halt) : M V A := fun s => (Halt h, s).

Definition bind {V A B} (m : M V A) (k : A -> M V B) : M V B :=
  fun s => match m s with
           | (Ret a, s') => k a s'
           | (Halt h, s') => (Halt h, s')
           end.

Definition emit {V} (e : event) : M V unit :=
  fun s => (Ret tt, St (dev s) (e :: log s) (held s) (vars s)).

Definition getv {V A} (f : V -> A) : M V A := fun s => (Ret (f (vars s)), s).
Definition modv {V} (f : V -> V) : M V unit :=
  fun s => (Ret tt, St (dev s) (log s) (held s) (f (vars s))).

(** Truncation to the width of an access. *)
Definition wtrunc (w : width) (z : Z) : Z :=
  match w with W8 => u8 z | W32 => u32 z | W64 => u64 z end.

Definition mmio_read {V} (w : width) (a : Z) : M V Z :=
  fun s =>
    let r := hw_read w a (dev s) in
    let v := wtrunc w (fst r) in
    (Ret v, St (snd r) (EvRd w a v :: log s) (held s) (vars s)).

Definition mmio_write {V} (w : width) (a v : Z) : M V unit :=
  fun s =>
    let v' := wtrunc w v in
    (Ret tt, St (hw_write w a v' (dev s)) (EvWr w a v' :: log s) (held s) (vars s)).

Definition mmio_read_32 {V} : Z -> M V Z := mmio_read W32.
Definition mmio_write_32 {V} : Z -> Z -> M V unit := mmio_write W32.
Definition mmio_read_8 {V} : Z -> M V Z := mmio_read W8.
Definition mmio_write_8 {V} : Z -> Z -> M V unit := mmio_write W8.

(** A call of a function outside the repository. *)
Definition ext_call {V} (f : string) (args : list Z) : M V Z :=
  fun s =>
    let r := hw_call f args (dev s) in
    (Ret (fst r), St (snd r) (EvCall f args (fst r) :: log s) (held s) (vars s)).

Definition c_assert {V} (b : bool) : M V unit := if b then ret tt else stop AssertFail.
Definition barrier {V} : M V unit := emit EvBar.
Definition delay_loop {V} (n : Z) : M V unit := emit (EvDelay n).
Definition mdelay {V} (n : Z) : M V unit := emit (EvDelay (1000 * n)).

(** [while (1) wfi();] *)
Definition park {V A} : M V A := bind (emit EvWfi) (fun _ => stop Parked).

Definition lock {V} (l : lock_id) : M V unit :=
  fun s => if bool_decide (l ∈ held s) then (Halt Deadlock, s)
           else (Ret tt, St (dev s) (EvLock l :: log s) (l :: held s) (vars s)).

Definition unlock {V} (l : lock_id) : M V unit :=
  fun s => (Ret tt, St (dev s) (EvUnlock l :: log s)
                       (List.filter (fun k => negb (bool_decide (k = l))) (held s)) (vars s)).

(** Array accesses: outside the object they are undefined behaviour. *)
Definition aread {V A} (l : list A) (i : Z) : M V A :=
  if i <? 0 then stop OutOfBounds
  else match l !! Z.to_nat i with Some x => ret x | None => stop OutOfBounds end.

Definition awrite {V A} (l : list A) (i : Z) (x : A) : M V (list A) :=
  if (0 <=? i) && (i <? Z.of_nat (length l))
  then ret (<[Z.to_nat i := x]> l) else stop OutOfBounds.

Definition deref {V A} (p : option A) : M V A :=
  match p with Some x => ret x | None => stop NullDeref end.

(** [for (x in l) body(x)] *)
Fixpoint for_each {V A} (l : list A) (body : A -> M V unit) : M V unit :=
  match l with
  | [] => ret tt
  | x :: l' => bind (body x) (fun _ => for_each l' body)
  end.

(** [do { v = read(); } while (again(v))], unfolded [n] times. *)
Fixpoint do_while {V} (n : nat) (read : M V Z) (again : Z -> bool) : M V Z :=
  match n with
  | O => stop StillPolling
  | S n' => bind read (fun v => if again v then do_while n' read again else ret v)
  end.

End Machine.

Arguments St {_ V} _ _ _ _.
Arguments dev {_ V} _.
Arguments log {_ V} _.
Arguments held {_ V} _.
Arguments vars {_ V} _.

Notation "x <- m ;; k" := (bind m (fun x => k))
  (at level 100, m at next level, right associativity, format "x  <-  m ;;  '//' k") : c_scope.
Notation "'let*' p ':=' m 'in' k" := (bind m (fun x => let p := x in k))
  (at level 100, p pattern, m at next level, right associativity) : c_scope.
Notation "m ;; k" := (bind m (fun _ => k))
  (at level 100, right associativity, format "m ;;  '//' k") : c_scope.

(** ** Computations that respect a preorder on states

    Frame properties ("the log only grows by such events", "these statics are
    not touched") are instances of one notion, closed under the operations of
    the monad; the hint database [respects] walks a function body. *)

Section Respects.
Context `{Env}.
Context {V : Type} (R : st V -> st V -> Prop).

Definition respects {A} (m : M V A) : Prop := forall s, R s (m s).2.

Context `{!PreOrder R}.

Lemma respects_ret {A} (a : A) : respects (ret a).
Proof. intros s. reflexivity. Qed.

Lemma respects_stop {A} h : respects (stop (A := A) h).
Proof. intros s. reflexivity. Qed.

Lemma respects_getv {A} (f : V -> A) : respects (getv f).
Proof. intros s. reflexivity. Qed.

Lemma respects_bind {A B} (m : M V A) (k : A -> M V B) :
  respects m -> (forall a, respects (k a)) -> respects (bind m k).
Proof.
  intros Hm Hk s. specialize (Hm s). unfold bind.
  destruct (m s) as [[a|h] s'] eqn:E; simpl in *; [|done].
  etrans; [exact Hm|apply Hk].
Qed.

Lemma respects_if {A} (b : bool) (m1 m2 : M V A) :
  respects m1 -> respects m2 -> respects (if b then m1 else m2).
Proof. by destruct b. Qed.

Lemma respects_assert b : respects (c_assert b).
Proof. unfold c_assert. apply respects_if; [apply respects_ret|apply respects_stop]. Qed.

Lemma respects_aread {A} (l : list A) i : respects (aread l i).
Proof.
  unfold aread. apply respects_if; [apply respects_stop|].
  destruct (l !! _); [apply respects_ret|apply respects_stop].
Qed.

Lemma respects_awrite {A} (l : list A) i x : respects (awrite l i x).
Proof. unfold awrite. apply respects_if; [apply respects_ret|apply respects_stop]. Qed.

Lemma respects_deref {A} (p : option A) : respects (deref p).
Proof. destruct p; [apply respects_ret|apply respects_stop]. Qed.

Lemma respects_for_each {A} (l : list A) body :
  (forall x, x ∈ l -> respects (body x)) -> respects (for_each l body).
Proof.
  induction l as [|x l IH]; simpl; intros Hb; [apply respects_ret|].
  apply respects_bind.
  - apply Hb. by left.
  - intros _. apply IH. intros y Hy. apply Hb. by right.
Qed.

Lemma respects_do_while n read again :
  respects read -> respects (do_while n read again).
Proof.
  intros Hr. induction n as [|n IH]; simpl; [apply respects_stop|].
  apply respects_bind; [done|]. intros v. apply respects_if; [done|apply respects_ret].
Qed.

End Respects.

Create HintDb respects discriminated.
#[export] Hint Resolve respects_ret respects_stop respects_getv respects_bind
  respects_if respects_assert respects_aread respects_awrite respects_deref
  respects_for_each respects_do_while : respects.
#[export] Hint Extern 1 (PreOrder _) => typeclasses eauto : respects.

(** The log only grows, by events that satisfy [P]. *)
Section Emits.
Context `{Env}.
Context {V : Type} (P : event -> Prop).

Definition grows (s s' : st V) : Prop :=
  exists new, log s' = new ++ log s /\ Forall P new.

#[export] Instance grows_preorder : PreOrder grows.
Proof.
  split.
  - intros s. by exists [].
  - intros s1 s2 s3 (n1 & H1 & F1) (n2 & H2 & F2). exists (n2 ++ n1).
    rewrite H2, H1, (assoc_L (++)). split; [done|]. by apply Forall_app.
Qed.

Lemma grows_one (s s' : st V) e : log s' = e :: log s -> P e -> grows s s'.
Proof. intros He HP. exists [e]. split; [done|]. by constructor. Qed.

Lemma grows_same (s s' : st V) : log s' = log s -> grows s s'.
Proof. intros He. by exists []. Qed.

Lemma emits_modv f : respects grows (modv f).
Proof. intros s. by apply grows_same. Qed.

Lemma emits_emit e : P e -> respects grows (emit e).
Proof. intros He s. by eapply grows_one. Qed.

Lemma emits_park {A} : P EvWfi -> respects grows (park (A := A)).
Proof.
  intros He. unfold park. apply respects_bind; [apply _|by apply emits_emit|].
  intros _. apply respects_stop. apply _.
Qed.

Lemma emits_read w a : (forall v, P (EvRd w a v)) -> respects grows (mmio_read w a).
Proof. intros HP s. eapply grows_one; [done|apply HP]. Qed.

Lemma emits_write w a v : P (EvWr w a (wtrunc w v)) -> respects grows (mmio_write w a v).
Proof. intros HP s. by eapply grows_one. Qed.

Lemma emits_call f args : (forall r, P (EvCall f args r)) -> respects grows (ext_call f args).
Proof. intros HP s. eapply grows_one; [done|apply HP]. Qed.

Lemma emits_lock l : P (EvLock l) -> respects grows (lock l).
Proof.
  intros HP s. unfold lock. case_bool_decide; [by apply grows_same|by eapply grows_one].
Qed.

Lemma emits_unlock l : P (EvUnlock l) -> respects grows (unlock l).
Proof. intros HP s. by eapply grows_one. Qed.

End Emits.

#[export] Hint Resolve emits_modv emits_emit emits_park emits_read emits_write
  emits_call emits_lock emits_unlock : respects.

(** A relation on the statics alone. *)
Section Frames.
Context `{Env}.
Context {V : Type} (Rv : V -> V -> Prop) `{!PreOrder Rv}.

Definition on_vars (s s' : st V) : Prop := Rv (vars s) (vars s').

#[export] Instance on_vars_preorder : PreOrder on_vars.
Proof.
  split.
  - intros s. unfold on_vars. reflexivity.
  - intros s1 s2 s3. unfold on_vars. apply transitivity.
Qed.

Lemma frame_modv f : (forall v, Rv v (f v)) -> respects on_vars (modv f).
Proof. intros Hf s. apply Hf. Qed.

Lemma frame_emit e : respects on_vars (emit e).
Proof. intros s. unfold on_vars. reflexivity. Qed.

Lemma frame_park {A} : respects on_vars (park (A := A)).
Proof. intros s. unfold on_vars. reflexivity. Qed.

Lemma frame_read w a : respects on_vars (mmio_read w a).
Proof. intros s. unfold on_vars. reflexivity. Qed.

Lemma frame_write w a v : respects on_vars (mmio_write w a v).
Proof. intros s. unfold on_vars. reflexivity. Qed.

Lemma frame_call f args : respects on_vars (ext_call f args).
Proof. intros s. unfold on_vars. reflexivity. Qed.

Lemma frame_lock l : respects on_vars (lock l).
Proof. intros s. unfold on_vars, lock. case_bool_decide; reflexivity. Qed.

Lemma frame_unlock l : respects on_vars (unlock l).
Proof. intros s. unfold on_vars. reflexivity. Qed.

End Frames.

#[export] Hint Resolve frame_modv frame_emit frame_park frame_read frame_write
  frame_call frame_lock frame_unlock : respects.

(** ** Running straight-line code *)

Section Run.
Context `{Env} {V : Type}.

Lemma bind_ret {A B} (a : A) (k : A -> M V B) s : bind (ret a) k s = k a s.
Proof. done. Qed.

Lemma bind_run {A B} (m : M V A) (k : A -> M V B) s a s' :
  m s = (Ret a, s') -> bind m k s = k a s'.
Proof. unfold bind. by intros ->. Qed.

Lemma bind_halt {A B} (m : M V A) (k : A -> M V B) s h s' :
  m s = (Halt h, s') -> bind m k s = (Halt h, s').
Proof. unfold bind. by intros ->. Qed.

Lemma bind_assoc {A B C} (m : M V A) (k : A -> M V B) (k' : B -> M V C) s :
  bind (bind m k) k' s = bind m (fun a => bind (k a) k') s.
Proof. unfold bind. by destruct (m s) as [[a|h] s']. Qed.

(** [m] returns from [s], and the result satisfies [Q]. *)
Definition returns {A} (m : M V A) (s : st V) (Q : A -> st V -> Prop) : Prop :=
  match m s with (Ret a, s') => Q a s' | (Halt _, _) => False end.

Lemma returns_ret {A} (a : A) s Q : Q a s -> returns (ret a) s Q.
Proof. done. Qed.

Lemma returns_bind {A B} (m : M V A) (k : A -> M V B) s Q :
  returns m s (fun a s' => returns (k a) s' Q) -> returns (bind m k) s Q.
Proof. unfold returns, bind. by destruct (m s) as [[a|h] s']. Qed.

Lemma returns_mono {A} (m : M V A) s (Q Q' : A -> st V -> Prop) :
  returns m s Q -> (forall a s', Q a s' -> Q' a s') -> returns m s Q'.
Proof. unfold returns. destruct (m s) as [[a|h] s']; naive_solver. Qed.

Lemma returns_run {A} (m : M V A) s Q :
  returns m s Q -> exists a s', m s = (Ret a, s') /\ Q a s'.
Proof. unfold returns. destruct (m s) as [[a|h] s']; naive_solver. Qed.

Lemma returns_for_each {A} (l : list A) (body : A -> M V unit) (I : list A -> st V -> Prop) s :
  I [] s ->
  (forall pre x post s, l = pre ++ x :: post -> I pre s ->
    returns (body x) s (fun _ s' => I (pre ++ [x]) s')) ->
  returns (for_each l body) s (fun _ s' => I l s').
Proof.
  intros H0 Hstep. enough (Hgen : forall post pre s, l = pre ++ post -> I pre s ->
    returns (for_each post body) s (fun _ s' => I l s')) by by apply (Hgen l []).
  clear s H0. induction post as [|x post IH]; intros pre s -> Hpre; simpl.
  - apply returns_ret. by rewrite app_nil_r in *.
  - apply returns_bind. eapply returns_mono; [by eapply Hstep|].
    intros [] s' Hs'. apply (IH (pre ++ [x])); [|done]. by rewrite <- (assoc_L (++)).
Qed.

Lemma returns_step {A B} (m : M V A) (k : A -> M V B) s a s' Q :
  m s = (Ret a, s') -> returns (k a) s' Q -> returns (bind m k) s Q.
Proof. unfold returns, bind. by intros ->. Qed.

Lemma returns_assert b s Q : b = true -> Q tt s -> returns (c_assert b : M V unit) s Q.
Proof. by intros ->. Qed.

(** A frame and a total-correctness statement hold together. *)
Lemma returns_respects {A} (m : M V A) (R : st V -> st V -> Prop) s Q :
  respects R m -> returns m s Q -> returns m s (fun a s' => Q a s' /\ R s s').
Proof.
  intros Hr. unfold returns. specialize (Hr s). by destruct (m s) as [[a|h] s'].
Qed.

End Run.

(** ** Symbolic execution

    One equation per primitive, on a state given by its components; the tactic
    [run] rewrites with them and keeps the terms small. *)

Section Steps.
Context `{Env} {V : Type}.
Implicit Types (d : Dev) (l : list event) (h : list lock_id) (v : V).

Lemma run_bind_assoc {A B C} (m : M V A) (k : A -> M V B) (k' : B -> M V C) s :
  bind (bind m k) k' s = bind m (fun a => bind (k a) k') s.
Proof. apply bind_assoc. Qed.

Lemma run_bind_ret {A B} (a : A) (k : A -> M V B) s : bind (ret a) k s = k a s.
Proof. done. Qed.

Lemma run_ret {A} (a : A) (s : st V) : ret a s = (Ret a, s).
Proof. done. Qed.

Lemma run_bind_stop {A B} x (k : A -> M V B) s : bind (stop x) k s = (Halt x, s).
Proof. done. Qed.

Lemma run_stop {A} x (s : st V) : stop (A := A) x s = (Halt x, s).
Proof. done. Qed.

Lemma run_bind_emit {B} e (k : unit -> M V B) d l h v :
  bind (emit e) k (St d l h v) = k tt (St d (e :: l) h v).
Proof. done. Qed.

Lemma run_emit e d l h v : emit e (St d l h v) = (Ret tt, St d (e :: l) h (v : V)).
Proof. done. Qed.

Lemma run_bind_getv {A B} (f : V -> A) (k : A -> M V B) d l h v :
  bind (getv f) k (St d l h v) = k (f v) (St d l h v).
Proof. done. Qed.

Lemma run_getv {A} (f : V -> A) d l h v : getv f (St d l h v) = (Ret (f v), St d l h v).
Proof. done. Qed.

Lemma run_bind_modv {B} (f : V -> V) (k : unit -> M V B) d l h v :
  bind (modv f) k (St d l h v) = k tt (St d l h (f v)).
Proof. done. Qed.

Lemma run_modv (f : V -> V) d l h v : modv f (St d l h v) = (Ret tt, St d l h (f v)).
Proof. done. Qed.

Lemma run_bind_read {B} w a (k : Z -> M V B) d l h v :
  bind (mmio_read w a) k (St d l h v) =
  k (wtrunc w (hw_read w a d).1)
    (St (hw_read w a d).2 (EvRd w a (wtrunc w (hw_read w a d).1) :: l) h v).
Proof. done. Qed.

Lemma run_read w a d l h v :
  mmio_read w a (St d l h v) =
  (Ret (wtrunc w (hw_read w a d).1),
   St (hw_read w a d).2 (EvRd w a (wtrunc w (hw_read w a d).1) :: l) h (v : V)).
Proof. done. Qed.

Lemma run_bind_write {B} w a z (k : unit -> M V B) d l h v :
  bind (mmio_write w a z) k (St d l h v) =
  k tt (St (hw_write w a (wtrunc w z) d) (EvWr w a (wtrunc w z) :: l) h v).
Proof. done. Qed.

Lemma run_write w a z d l h v :
  mmio_write w a z (St d l h v) =
  (Ret tt, St (hw_write w a (wtrunc w z) d) (EvWr w a (wtrunc w z) :: l) h (v : V)).
Proof. done. Qed.

Lemma run_bind_call {B} f args (k : Z -> M V B) d l h v :
  bind (ext_call f args) k (St d l h v) =
  k (hw_call f args d).1
    (St (hw_call f args d).2 (EvCall f args (hw_call f args d).1 :: l) h v).
Proof. done. Qed.

Lemma run_call f args d l h v :
  ext_call f args (St d l h v) =
  (Ret (hw_call f args d).1,
   St (hw_call f args d).2 (EvCall f args (hw_call f args d).1 :: l) h (v : V)).
Proof. done. Qed.

Lemma run_bind_lock {B} x (k : unit -> M V B) d l h v :
  bind (lock x) k (St d l h v) =
  if bool_decide (x ∈ h) then (Halt Deadlock, St d l h v)
  else k tt (St d (EvLock x :: l) (x :: h) v).
Proof. unfold bind, lock. simpl. by case_bool_decide. Qed.

Lemma run_bind_unlock {B} x (k : unit -> M V B) d l h v :
  bind (unlock x) k (St d l h v) =
  k tt (St d (EvUnlock x :: l) (List.filter (fun y => negb (bool_decide (y = x))) h) v).
Proof. done. Qed.

Lemma run_unlock x d l h v :
  unlock x (St d l h v) =
  (Ret tt, St d (EvUnlock x :: l) (List.filter (fun y => negb (bool_decide (y = x))) h) (v : V)).
Proof. done. Qed.

Lemma run_bind_assert_true {B} (k : unit -> M V B) s : bind (c_assert true) k s = k tt s.
Proof. done. Qed.

Lemma run_bind_if {A B} (b : bool) (m1 m2 : M V A) (k : A -> M V B) s :
  bind (if b then m1 else m2) k s = if b then bind m1 k s else bind m2 k s.
Proof. by destruct b. Qed.

Lemma run_if {A} (b : bool) (m1 m2 : M V A) s :
  (if b then m1 else m2) s = if b then m1 s else m2 s.
Proof. by destruct b. Qed.

End Steps.

Create Rewrite HintDb run.
#[export] Hint Rewrite @run_bind_assoc @run_bind_ret @run_ret @run_bind_stop @run_stop
  @run_bind_emit @run_emit @run_bind_getv @run_getv @run_bind_modv @run_modv
  @run_bind_read @run_read @run_bind_write @run_write @run_bind_call @run_call
  @run_bind_unlock @run_unlock @run_bind_assert_true : run.

Ltac run_unfold :=
  unfold barrier, delay_loop, mdelay, mmio_read_32, mmio_write_32, mmio_read_8, mmio_write_8 in *.
Ltac run := run_unfold; autorewrite with run; cbn [wtrunc fst snd].

(** A critical section leaves the set of held locks as it was. *)
Lemma unlock_lock x (h : list lock_id) : x ∉ h ->
  List.filter (fun y => negb (bool_decide (y = x))) (x :: h) = h.
Proof.
  intros Hx. simpl. rewrite bool_decide_eq_true_2 by done. simpl.
  induction h as [|y h IH]; simpl; [done|].
  apply not_elem_of_cons in Hx as [Hne Hx].
  rewrite bool_decide_eq_false_2 by congruence. simpl. by rewrite IH.
Qed.

(** ** Static variables of a component inside an image

    A component's statics are a record [S]; the image that links it has statics
    [V].  [Has S V] is the place of one in the other, [Indep S T V] says that
    two components do not share storage. *)

Class Has (S V : Type) := {
  sget : V -> S;
  sput : S -> V -> V;
  sget_sput : forall s v, sget (sput s v) = s;
  sput_sget : forall v, sput (sget v) v = v;
  sput_sput : forall s s' v, sput s (sput s' v) = sput s v
}.

Class Indep (S T V : Type) `{Has S V, Has T V} :=
  sget_indep : forall (t : T) (v : V), sget (S := S) (sput t v) = sget v.

#[export] Instance Has_self S : Has S S := {
  sget v := v;
  sput s _ := s;
  sget_sput _ _ := eq_refl;
  sput_sget _ := eq_refl;
  sput_sput _ _ _ := eq_refl
}.

(** An image of two components. *)
#[export] Instance Has_fst S T : Has S (S * T) := {
  sget := fst;
  sput s v := (s, v.2);
  sget_sput _ _ := eq_refl;
  sput_sget v := match v with (_, _) => eq_refl end;
  sput_sput _ _ _ := eq_refl
}.

#[export] Instance Has_snd S T : Has T (S * T) := {
  sget := snd;
  sput t v := (v.1, t);
  sget_sput _ _ := eq_refl;
  sput_sget v := match v with (_, _) => eq_refl end;
  sput_sput _ _ _ := eq_refl
}.

#[export] Instance Indep_fst_snd S T : @Indep S T (S * T) (Has_fst S T) (Has_snd S T).
Proof. by intros t v. Qed.
#[export] Instance Indep_snd_fst S T : @Indep T S (S * T) (Has_snd S T) (Has_fst S T).
Proof. by intros t v. Qed.

Section Statics.
Context `{Env} {S V : Type} `{!Has S V}.

Definition gets {A} (f : S -> A) : M V A := getv (fun v => f (sget v)).
Definition mods (f : S -> S) : M V unit := modv (fun v => sput (f (sget v)) v).

Lemma run_bind_gets {A B} (f : S -> A) (k : A -> M V B) d l h (v : V) :
  bind (gets f) k (St d l h v) = k (f (sget v)) (St d l h v).
Proof. done. Qed.

Lemma run_gets {A} (f : S -> A) d l h (v : V) :
  gets f (St d l h v) = (Ret (f (sget v)), St d l h v).
Proof. done. Qed.

Lemma run_bind_mods {B} (f : S -> S) (k : unit -> M V B) d l h (v : V) :
  bind (mods f) k (St d l h v) = k tt (St d l h (sput (f (sget v)) v)).
Proof. done. Qed.

Lemma run_mods (f : S -> S) d l h (v : V) :
  mods f (St d l h v) = (Ret tt, St d l h (sput (f (sget v)) v)).
Proof. done. Qed.

Lemma emits_mods P f : respects (grows P) (mods f).
Proof. apply emits_modv. Qed.

Lemma respects_gets R `{!PreOrder R} {A} (f : S -> A) : respects R (gets f).
Proof. intros s. reflexivity. Qed.

(** The statics of another component are left alone. *)
Lemma frame_mods {T} `{!Has T V} `{!Indep T S V} (f : S -> S) :
  respects (on_vars (fun v v' => sget (S := T) v = sget v')) (mods f).
Proof. intros s. unfold on_vars. simpl. by rewrite sget_indep. Qed.

End Statics.

#[export] Hint Rewrite @run_bind_gets @run_gets @run_bind_mods @run_mods @sget_sput
  @sput_sput @sget_indep using (typeclasses eauto) : run.
#[export] Hint Resolve emits_mods respects_gets frame_mods : respects.

(** [for (i = from; i < to; i += step)] *)
Definition steps (from to step : Z) : list Z :=
  map (fun k => from + step * Z.of_nat k) (seq 0 (Z.to_nat ((to - from + step - 1) / step))).

(** ** Registers that keep what is written to them

    Documented behaviour of a read/write register: reading has no effect on
    it, it returns the last word written, and accesses of other words leave it
    alone.  [P] says which registers are of this kind. *)

Definition word_of (a : Z) : Z := a - a mod 4.

Class Latched `{Env} (P : Z -> Prop) := {
  peek : Dev -> Z -> Z;
  read_latched : forall d a, P a -> (hw_read W32 a d).1 = peek d a;
  peek_read : forall w d a b, P b -> peek (hw_read w a d).2 b = peek d b;
  peek_write : forall d a z, P a -> 0 <= z < 2 ^ 32 -> peek (hw_write W32 a z d) a = z;
  peek_write_other : forall w d a b z, P b -> w <> W64 -> word_of a <> b ->
    peek (hw_write w a z d) b = peek d b
}.

Definition latched_sub `{Env} (P Q : Z -> Prop) (HQ : forall a, Q a -> P a) `{L : !Latched P}
    : Latched Q := {|
  peek := peek;
  read_latched d a Ha := read_latched d a (HQ a Ha);
  peek_read w d a b Hb := peek_read w d a b (HQ b Hb);
  peek_write d a z Ha := peek_write d a z (HQ a Ha);
  peek_write_other w d a b z Hb := peek_write_other w d a b z (HQ b Hb)
|}.

(** A device in which every word is such a register: the memory [Z -> Z], with
    the little-endian byte lanes of an 8-bit write. *)
Definition byte_put (old : Z) (lane v : Z) : Z :=
  Z.lor (Z.ldiff old (Z.shiftl 255 (8 * lane))) (Z.shiftl (u8 v) (8 * lane)).

Definition mem_read (w : width) (a : Z) (m : Z -> Z) : Z * (Z -> Z) :=
  (match w with
   | W8 => u8 (Z.shiftr (m (word_of a)) (8 * (a mod 4)))
   | W32 => m (word_of a)
   | W64 => m (word_of a) + 2 ^ 32 * m (word_of a + 4)
   end, m).

Definition mem_set (m : Z -> Z) (a v : Z) : Z -> Z := fun b => if b =? a then v else m b.

Definition mem_write (w : width) (a v : Z) (m : Z -> Z) : Z -> Z :=
  match w with
  | W8 => mem_set m (word_of a) (byte_put (m (word_of a)) (a mod 4) v)
  | W32 => mem_set m (word_of a) (u32 v)
  | W64 => mem_set (mem_set m (word_of a) (u32 v)) (word_of a + 4) (u32 (Z.shiftr v 32))
  end.

(** A board: memory-like registers, calls that all return [r], [n] polls. *)
Definition board (r : Z) (n : nat) : Env := {|
  Dev := Z -> Z;
  hw_read := mem_read;
  hw_write := mem_write;
  hw_call _ _ m := (r, m);
  poll_bound := n;
  uninit _ := 0
|}.

#[export] Instance board_latched r n : @Latched (board r n) (fun a => a mod 4 = 0).
Proof.
  refine {| peek := (fun m a => m a) : @Dev (board r n) -> Z -> Z |}; simpl.
  - intros m a Ha. unfold word_of. by rewrite Ha, Z.sub_0_r.
  - done.
  - intros m a z Ha Hz. unfold mem_set, word_of. rewrite Ha, Z.sub_0_r, Z.eqb_refl.
    by apply u32_small.
  - intros [] m a b z Hb Hw Hne; simpl; unfold mem_set; try done;
      destruct (b =? word_of a) eqn:E; zbool; congruence.
Defined.

(** Accesses to arrays whose contents are known element by element. *)
Section Arrays.
Context `{Env} {V : Type}.

Lemma run_bind_aread {A B} (l : list A) i x (k : A -> M V B) s :
  (i <? 0) = false -> l !! Z.to_nat i = Some x -> bind (aread l i) k s = k x s.
Proof. intros Hi Hx. unfold bind, aread. by rewrite Hi, Hx. Qed.

Lemma run_bind_aread_nat {A B} (l : list A) (i : nat) x (k : A -> M V B) s :
  l !! i = Some x -> bind (aread l (Z.of_nat i)) k s = k x s.
Proof. intros Hx. apply run_bind_aread; [apply Z.ltb_ge; lia|by rewrite Nat2Z.id]. Qed.

Lemma run_aread {A} (l : list A) i x (s : st V) :
  (i <? 0) = false -> l !! Z.to_nat i = Some x -> aread l i s = (Ret x, s).
Proof. intros Hi Hx. unfold aread. by rewrite Hi, Hx. Qed.

Lemma run_bind_awrite {A B} (l : list A) i x (k : list A -> M V B) s :
  (0 <=? i) && (i <? Z.of_nat (length l)) = true ->
  bind (awrite l i x) k s = k (<[Z.to_nat i := x]> l) s.
Proof. intros Hi. unfold bind, awrite. by rewrite Hi. Qed.

Lemma run_bind_awrite_nat {A B} (l : list A) (i : nat) x (k : list A -> M V B) s :
  (i < length l)%nat -> bind (awrite l (Z.of_nat i) x) k s = k (<[i := x]> l) s.
Proof.
  intros Hi. rewrite run_bind_awrite; [by rewrite Nat2Z.id|].
  apply andb_true_iff. split; [apply Z.leb_le|apply Z.ltb_lt]; lia.
Qed.

End Arrays.

Ltac arr :=
  repeat match goal with
  | |- context [bind (aread ?l ?i) ?k ?s] =>
      let x := eval hnf in (l !! Z.to_nat i) in
      lazymatch x with Some ?y => rewrite (run_bind_aread l i y k s eq_refl eq_refl) end
  | |- context [bind (awrite ?l ?i ?x) ?k ?s] =>
      rewrite (run_bind_awrite l i x k s eq_refl)
  end.

(** ** Confined computations

    From statics [v], the computation keeps them and the locks, only performs
    events that satisfy [P], and ends by returning or by waiting for ever. *)

Section Confined.
Context `{Env} {V : Type} (P : event -> Prop) (v : V).

Definition confined {A} (m : M V A) : Prop :=
  forall d l h, exists o d' new,
    m (St d l h v) = (o, St d' (new ++ l) h v) /\ Forall P new /\
    (o = Halt StillPolling \/ exists a, o = Ret a).

Lemma confined_pure {A} (m : M V A) a :
  (forall d l h, m (St d l h v) = (Ret a, St d l h v)) -> confined m.
Proof. intros Hm d l h. exists (Ret a), d, []. split; [apply Hm|]. split; [done|]. right. by exists a. Qed.

Lemma confined_ret {A} (a : A) : confined (ret a).
Proof. by apply confined_pure with a. Qed.

Lemma confined_bind {A B} (m : M V A) (k : A -> M V B) :
  confined m -> (forall a, confined (k a)) -> confined (bind m k).
Proof.
  intros Hm Hk d l h. destruct (Hm d l h) as (o & d1 & n1 & Hr & Hn1 & Ho).
  unfold bind. rewrite Hr. destruct Ho as [-> | [a ->]].
  - exists (Halt StillPolling), d1, n1. split; [done|]. split; [done|]. by left.
  - destruct (Hk a d1 (n1 ++ l) h) as (o & d2 & n2 & Hr2 & Hn2 & Ho).
    exists o, d2, (n2 ++ n1). rewrite Hr2, (assoc_L (++)). split; [done|].
    split; [by apply Forall_app|done].
Qed.

(** The continuation only matters at the value a pure prefix returns. *)
Lemma confined_step {A B} (m : M V A) (k : A -> M V B) a :
  (forall d l h, m (St d l h v) = (Ret a, St d l h v)) -> confined (k a) -> confined (bind m k).
Proof. intros Hm Hk d l h. unfold bind. rewrite Hm. apply Hk. Qed.

Lemma confined_if {A} (b : bool) (m1 m2 : M V A) :
  confined m1 -> confined m2 -> confined (if b then m1 else m2).
Proof. by destruct b. Qed.

Lemma confined_read w a : (forall z, P (EvRd w a z)) -> confined (mmio_read w a).
Proof.
  intros HP d l h. eexists _, _, [_]. split; [reflexivity|]. split; [by constructor|].
  right. by eexists.
Qed.

Lemma confined_write w a z : P (EvWr w a (wtrunc w z)) -> confined (mmio_write w a z).
Proof.
  intros HP d l h. eexists _, _, [_]. split; [reflexivity|]. split; [by constructor|].
  right. by eexists.
Qed.

Lemma confined_do_while n read again : confined read -> confined (do_while n read again).
Proof.
  intros Hr. induction n as [|n IH]; simpl.
  - intros d l h. exists (Halt StillPolling), d, []. split; [done|]. split; [done|]. by left.
  - apply confined_bind; [done|]. intros z. apply confined_if; [done|apply confined_ret].
Qed.

End Confined.
