(* ===== verification/Bakery.v ===== *)
(** * Bakery locks

    include/lib/bakery_lock.h and lib/locks/bakery/bakery_lock_coherent.c, the
    locks of PSCI and of the PM service, which [Machine] takes as atomic.  The lock
    is an array of one word per processor in fully ordered memory; here the four
    processors run the code of the lock concurrently, one shared access at a time,
    in any order.  A ticket is 15 bits wide: the theorems hold while no more than
    32767 tickets have been drawn since the lock was last unused, and
    [ticket_overflow] shows what happens then. *)

From S2P Require Import Prelude.
#[local] Open Scope Z_scope.
#[local] Open Scope c_scope.

Module Bakery.

Definition BAKERY_LOCK_MAX_CPUS : nat := 4.
Definition CHOOSING_TICKET : Z := 0x1.
Definition CHOSEN_TICKET : Z := 0x0.

Definition bakery_get_priority (t pos : Z) : Z := (t .<< 8) .| pos.
Definition bakery_is_choosing (info : Z) : bool := (info .& 1) =? CHOOSING_TICKET.
Definition bakery_ticket_number (info : Z) : Z := (info .>> 1) .& 0x7FFF.
Definition make_bakery_data (choosing num : Z) : Z := u16 ((choosing .& 0x1) .| (num .<< 1)).

(** ** One processor *)

(** Where a processor is, with the local variables that are live there; every
    constructor but [Failed] stands before the shared access that its comment
    names. *)
Inductive place :=
| Out                                     (* get_ticket: reads its entry, for the assertion *)
| Flag                                    (* writes CHOOSING_TICKET *)
| Scan (they : nat) (my_ticket : Z)       (* reads lock_data[they] *)
| Choose (my_ticket : Z)                  (* writes CHOSEN_TICKET *)
| Look (they : nat) (my_ticket : Z)       (* lock_get: waits for a ticket of [they] *)
| Wait (they : nat) (my_ticket their_ticket : Z)  (* waits for that ticket to change *)
| Inside                                  (* release: reads its entry, for the assertion *)
| Drop                                    (* writes 0 *)
| Failed.                                 (* an assertion has failed *)

(** The rest of the second loop, from [they] on. *)
Definition look_from (me they : nat) (my_ticket : Z) : place :=
  let they := if (they =? me)%nat then S they else they in
  if (they <? BAKERY_LOCK_MAX_CPUS)%nat then Look they my_ticket else Inside.

(** [bakery_get_ticket] up to the point where the ticket is announced. *)
Definition bakery_get_ticket (lock_data : list Z) (me : nat) (p : place) : option Z * place :=
  match p with
  | Out => (None, if bakery_ticket_number (nth me lock_data 0) =? 0 then Flag else Failed)
  | Flag => (Some (make_bakery_data CHOOSING_TICKET 0), Scan 0 0)
  | Scan they my_ticket =>
      let their_ticket := bakery_ticket_number (nth they lock_data 0) in
      let my_ticket := if their_ticket >? my_ticket then their_ticket else my_ticket in
      (None, if (S they <? BAKERY_LOCK_MAX_CPUS)%nat then Scan (S they) my_ticket
             else Choose (u32 (my_ticket + 1)))
  | Choose my_ticket => (Some (make_bakery_data CHOSEN_TICKET my_ticket), look_from me 0 my_ticket)
  | _ => (None, p)
  end.

(** The loop of [bakery_lock_get] over the other processors. *)
Definition bakery_lock_get (lock_data : list Z) (me : nat) (p : place) : option Z * place :=
  match p with
  | Look they my_ticket =>
      let their_bakery_data := nth they lock_data 0 in
      if bakery_is_choosing their_bakery_data then (None, Look they my_ticket)
      else
        let their_ticket := bakery_ticket_number their_bakery_data in
        if negb (their_ticket =? 0) &&
           (bakery_get_priority their_ticket (Z.of_nat they) <? bakery_get_priority my_ticket (Z.of_nat me))
        then (None, Wait they my_ticket their_ticket)
        else (None, look_from me (S they) my_ticket)
  | Wait they my_ticket their_ticket =>
      if their_ticket =? bakery_ticket_number (nth they lock_data 0) then (None, Wait they my_ticket their_ticket)
      else (None, look_from me (S they) my_ticket)
  | _ => bakery_get_ticket lock_data me p
  end.

Definition bakery_lock_release (lock_data : list Z) (me : nat) (p : place) : option Z * place :=
  match p with
  | Inside => (None, if negb (bakery_ticket_number (nth me lock_data 0) =? 0) then Drop else Failed)
  | Drop => (Some 0, Out)
  | _ => (None, p)
  end.

(** ** The system *)

Record state := State { lock_data : list Z; places : list place }.

(** What processor [me] writes to its entry, and where it goes: outside the lock it
    calls [bakery_lock_get], inside [bakery_lock_release]. *)
Definition moves (s : state) (me : nat) (p : place) : option Z * place :=
  match p with
  | Inside | Drop => bakery_lock_release (lock_data s) me p
  | _ => bakery_lock_get (lock_data s) me p
  end.

(** One shared access of processor [me]. *)
Definition step (me : nat) (s : state) : state :=
  match places s !! me with
  | Some p =>
      let r := moves s me p in
      State (match r.1 with Some x => <[me := x]> (lock_data s) | None => lock_data s end) (<[me := r.2]> (places s))
  | None => s
  end.

Definition draws_now (me : nat) (s : state) : nat :=
  match places s !! me with Some (Choose _) => 1 | _ => 0 end.

(** A schedule, and the tickets drawn on the way. *)
Fixpoint run (sched : list nat) (s : state) : state :=
  match sched with [] => s | me :: sched' => run sched' (step me s) end.
Fixpoint draws (sched : list nat) (s : state) : nat :=
  match sched with [] => 0%nat | me :: sched' => (draws_now me s + draws sched' (step me s))%nat end.

(** Nobody uses the lock. *)
Definition unused : state := State [0; 0; 0; 0] [Out; Out; Out; Out].

Definition max_ticket : nat := Z.to_nat 0x7FFF.

(** ** Words *)

Lemma ticket_of t : 0 <= t <= 0x7FFF -> bakery_ticket_number (2 * t) = t.
Proof.
  intros Ht. unfold bakery_ticket_number. rewrite Z.shiftr_div_pow2 by lia. change (2 ^ 1) with 2.
  rewrite Z.mul_comm, Z.div_mul by lia. change 0x7FFF with (Z.ones 15). rewrite Z.land_ones by lia.
  apply Z.mod_small. change (2 ^ 15) with 0x8000. lia.
Qed.

Lemma chosen t : bakery_is_choosing (2 * t) = false.
Proof.
  unfold bakery_is_choosing. change 1 with (Z.ones 1). rewrite Z.land_ones by lia.
  apply Z.eqb_neq. change (2 ^ 1) with 2. rewrite Z.mul_comm, Z.mod_mul by lia. done.
Qed.

Lemma data_of_ticket t : 0 <= t <= 0x7FFF -> make_bakery_data CHOSEN_TICKET t = 2 * t.
Proof.
  intros Ht. unfold make_bakery_data, CHOSEN_TICKET, shl32. rewrite Z.shiftl_mul_pow2 by lia.
  change (2 ^ 1) with 2. change (0 .& 1) with 0. rewrite Z.lor_0_l.
  rewrite u32_small by lia. unfold u16. rewrite Z.mod_small by lia. lia.
Qed.

Lemma priority t (i : nat) : 0 <= t <= 0x7FFF -> (i < 4)%nat ->
  bakery_get_priority t (Z.of_nat i) = 256 * t + Z.of_nat i.
Proof.
  intros Ht Hi. unfold bakery_get_priority, shl32. rewrite Z.shiftl_mul_pow2 by lia. change (2 ^ 8) with 256.
  rewrite u32_small by lia.
  assert (Hd : Z.land (t * 256) (Z.of_nat i) = 0).
  { rewrite <- (Z.mod_small (Z.of_nat i) (2 ^ 8)) by lia. rewrite <- Z.land_ones by lia.
    rewrite Z.land_comm, <- Z.land_assoc, (Z.land_comm (Z.ones 8)), Z.land_ones by lia.
    change (2 ^ 8) with 256. rewrite Z.mod_mul by lia. apply Z.land_0_r. }
  rewrite <- Z.lxor_lor, <- Z.add_nocarry_lxor by done. lia.
Qed.

(** ** The invariant *)

Definition has_ticket (p : place) : Prop :=
  match p with Look _ _ | Wait _ _ _ | Inside | Drop => True | _ => False end.

(** The entry [d] of processor [i] at [p], when [n] tickets have been drawn. *)
Definition entry_ok (n i : nat) (p : place) (d : Z) : Prop :=
  match p with
  | Out | Flag => d = 0
  | Scan they t => d = 1 /\ (they < 4)%nat /\ 0 <= t <= Z.of_nat n
  | Choose t => d = 1 /\ 1 <= t <= Z.of_nat n + 1
  | Look they t => d = 2 * t /\ (they < 4)%nat /\ they <> i /\ 1 <= t <= Z.of_nat n
  | Wait they t t' => d = 2 * t /\ (they < 4)%nat /\ they <> i /\ 1 <= t <= Z.of_nat n /\
      1 <= t' /\ 256 * t' + Z.of_nat they < 256 * t + Z.of_nat i
  | Inside | Drop => exists t, d = 2 * t /\ 1 <= t <= Z.of_nat n
  | Failed => False
  end.

(** A processor at [p] has compared itself with [j]. *)
Definition cleared (p : place) (j : nat) : Prop :=
  match p with Look k _ | Wait k _ _ => (j < k)%nat | Inside | Drop => True | _ => False end.

(** Processor [j], at [q] with entry [e], comes after [i] with entry [d]: its ticket
    is larger or will be. *)
Definition behind (i : nat) (d : Z) (j : nat) (q : place) (e : Z) : Prop :=
  match q with
  | Out | Flag | Failed => True
  | Scan k t => (i < k)%nat -> d <= 2 * t
  | Choose t => d < 2 * t
  | _ => 128 * d + Z.of_nat i < 128 * e + Z.of_nat j
  end.

Definition entry (s : state) (i : nat) : Z := nth i (lock_data s) 0.

Record inv (n : nat) (s : state) : Prop := {
  inv_data : length (lock_data s) = 4%nat;
  inv_places : length (places s) = 4%nat;
  inv_entry : forall i p, places s !! i = Some p -> entry_ok n i p (entry s i);
  inv_order : forall i j p q, i <> j -> places s !! i = Some p -> places s !! j = Some q ->
    cleared p j -> behind i (entry s i) j q (entry s j);
  inv_wait : forall i j t t' q, places s !! i = Some (Wait j t t') -> places s !! j = Some q ->
    (has_ticket q /\ entry s j = 2 * t') \/ behind i (entry s i) j q (entry s j)
}.

Lemma four i (s : state) p : length (places s) = 4%nat -> places s !! i = Some p -> (i < 4)%nat.
Proof. intros Hl Hi. rewrite <- Hl. by eapply lookup_lt_Some. Qed.

(** What the entries tell a reader. *)
Lemma entry_ticket n i p d : (n <= max_ticket)%nat -> entry_ok n i p d ->
  0 <= bakery_ticket_number d <= Z.of_nat n /\
  (has_ticket p -> d = 2 * bakery_ticket_number d /\ 1 <= bakery_ticket_number d) /\
  (~ has_ticket p -> bakery_ticket_number d = 0).
Proof.
  intros Hn. assert (Hmax : Z.of_nat n <= 0x7FFF) by (unfold max_ticket in Hn; lia).
  destruct p; simpl; intros Hd.
  1-4: (assert (bakery_ticket_number d = 0) as ->
        by (assert (d = 0 \/ d = 1) as [-> | ->] by naive_solver; done); split; [lia|done]).
  1-4: (assert (exists t, d = 2 * t /\ 1 <= t <= Z.of_nat n) as (t & -> & Ht) by naive_solver;
        rewrite ticket_of by lia; split; [lia|]; split; [lia|done]).
  done.
Qed.

Lemma entry_choosing n i p d : entry_ok n i p d ->
  bakery_is_choosing d = false -> p = Out \/ p = Flag \/ has_ticket p.
Proof. destruct p; simpl; auto; intros (-> & _); done. Qed.

Lemma entry_mono n n' i p d : (n <= n')%nat -> entry_ok n i p d -> entry_ok n' i p d.
Proof. intros Hn. destruct p; simpl; naive_solver lia. Qed.

Lemma cleared_from me they t j : (me < 4)%nat -> (j < 4)%nat -> j <> me ->
  cleared (look_from me they t) j -> (j < they)%nat.
Proof.
  unfold look_from, BAKERY_LOCK_MAX_CPUS. intros Hme Hj Hne. destruct (Nat.eqb_spec they me) as [->|Hd];
    match goal with |- context [(?a <? ?b)%nat] => destruct (Nat.ltb_spec a b) end; simpl; lia.
Qed.

Lemma entry_from n me they t : 1 <= t <= Z.of_nat n -> entry_ok n me (look_from me they t) (2 * t).
Proof.
  unfold look_from, BAKERY_LOCK_MAX_CPUS. intros Ht. destruct (Nat.eqb_spec they me) as [->|Hd];
    match goal with |- context [(?a <? ?b)%nat] => destruct (Nat.ltb_spec a b) end; simpl; eauto 10 with lia.
Qed.

Lemma from_ticket me they t : has_ticket (look_from me they t).
Proof. unfold look_from. destruct (Nat.ltb _ _); done. Qed.

Lemma behind_ticket i d j q e : has_ticket q -> behind i d j q e <-> 128 * d + Z.of_nat i < 128 * e + Z.of_nat j.
Proof. by destruct q. Qed.

(** ** One access keeps the invariant *)

(** What an access of [me] at [p] has to do: [me] is then at [p'] with the entry [d']. *)
Record moved (n : nat) (s : state) (me : nat) (p : place) (d' : Z) (p' : place) : Prop := {
  mv_entry : entry_ok n me p' d';
  mv_cleared : forall j q, j <> me -> places s !! j = Some q -> cleared p' j -> behind me d' j q (entry s j);
  mv_wait : forall j t t' q, p' = Wait j t t' -> places s !! j = Some q ->
    (has_ticket q /\ entry s j = 2 * t') \/ behind me d' j q (entry s j);
  mv_behind : forall i q, i <> me -> places s !! i = Some q -> has_ticket q ->
    behind i (entry s i) me p (entry s me) -> behind i (entry s i) me p' d';
  mv_kept : forall t', has_ticket p -> entry s me = 2 * t' ->
    (has_ticket p' /\ d' = 2 * t') \/ forall i d, behind i d me p' d'
}.

Section Move.
Context (n : nat) (s : state) (me : nat).
Hypothesis HI : inv n s.
Hypothesis Hn : (n <= max_ticket)%nat.

Lemma my_place p : places s !! me = Some p -> (me < 4)%nat /\ entry_ok n me p (entry s me).
Proof. intros Hp. split; [by eapply four, Hp; apply HI|by apply (inv_entry _ _ HI)]. Qed.

Lemma their_place j : (j < 4)%nat -> exists q, places s !! j = Some q /\ entry_ok n j q (entry s j).
Proof.
  intros Hj. destruct (lookup_lt_is_Some_2 (places s) j) as [q Hq]; [by rewrite (inv_places _ _ HI)|].
  exists q. split; [done|]. by apply (inv_entry _ _ HI).
Qed.

(** Nothing is written and the processor stays where it is. *)
Lemma moved_same p : places s !! me = Some p -> moved n s me p (entry s me) p.
Proof.
  intros Hp. destruct (my_place p Hp) as [Hme He]. split; try done.
  - intros j q Hne Hq. by apply (inv_order _ _ HI me j p q).
  - intros j t t' q -> Hq. by eapply (inv_wait _ _ HI).
  - auto.
Qed.

(** The assertions of the code hold. *)
Lemma moved_out : places s !! me = Some Out -> moved n s me Out (entry s me) Flag.
Proof. intros Hp. destruct (my_place _ Hp) as [Hme He]. by split. Qed.

Lemma moved_inside : places s !! me = Some Inside -> moved n s me Inside (entry s me) Drop.
Proof.
  intros Hp. destruct (my_place _ Hp) as [Hme He]. split; try done.
  - intros j q Hne Hq. by apply (inv_order _ _ HI me j Inside q).
  - intros t' _ Ht. by left.
Qed.

Lemma moved_scan they t : places s !! me = Some (Scan they t) ->
  let t' := if bakery_ticket_number (entry s they) >? t then bakery_ticket_number (entry s they) else t in
  moved n s me (Scan they t) (entry s me)
    (if (S they <? 4)%nat then Scan (S they) t' else Choose (u32 (t' + 1))).
Proof.
  intros Hp t'. destruct (my_place _ Hp) as [Hme (Hd & Hk & Ht)].
  destruct (their_place they Hk) as (q & Hq & Hqe). destruct (entry_ticket n they q _ Hn Hqe) as (Hr & Hhas & _).
  assert (Hmax : Z.of_nat n <= 0x7FFF) by (unfold max_ticket in Hn; lia).
  assert (Ht' : 0 <= t' <= Z.of_nat n /\ t <= t' /\ bakery_ticket_number (entry s they) <= t').
  { unfold t'. destruct (Z.gtb_spec (bakery_ticket_number (entry s they)) t); lia. }
  assert (Hu : u32 (t' + 1) = t' + 1) by (apply u32_small; lia).
  split; [destruct (Nat.ltb_spec (S they) 4); cbn [entry_ok]; lia|by destruct (Nat.ltb _ _)|by destruct (Nat.ltb _ _)| |done].
  intros i qi Hne Hqi Hti Hb. simpl in Hb.
  assert (Hle : (i < S they)%nat -> entry s i <= 2 * t').
  { intros Hlt. destruct (decide (i = they)) as [->|]; [simplify_eq; destruct (Hhas Hti); lia|].
    specialize (Hb ltac:(lia)). lia. }
  assert (Hi : (i < 4)%nat) by (by eapply four, Hqi; apply HI).
  destruct (Nat.ltb_spec (S they) 4); [exact Hle|]. simpl. specialize (Hle ltac:(lia)). lia.
Qed.

(** A processor that has its ticket goes past [they], which is behind it. *)
Lemma moved_pass p they t : places s !! me = Some p -> (p = Look they t \/ exists t', p = Wait they t t') ->
  (forall q, places s !! they = Some q -> behind me (entry s me) they q (entry s they)) ->
  moved n s me p (entry s me) (look_from me (S they) t).
Proof.
  intros Hp Hcase Hb. destruct (my_place _ Hp) as [Hme He].
  assert (Hcl : forall j, (j < they)%nat -> cleared p j) by by destruct Hcase as [-> |[t' ->]].
  assert (Hd : entry s me = 2 * t /\ 1 <= t <= Z.of_nat n) by (destruct Hcase as [-> |[t' ->]]; simpl in He; tauto).
  assert (Hp' : has_ticket p) by by destruct Hcase as [-> |[t' ->]].
  assert (Hj4 : forall j q, places s !! j = Some q -> (j < 4)%nat) by (intros j q Hq; by eapply four, Hq; apply HI).
  split.
  - rewrite (proj1 Hd). apply entry_from, Hd.
  - intros j q Hne Hq Hc. apply (cleared_from me _ t j) in Hc; [|done|by eapply Hj4|done].
    destruct (decide (j = they)) as [->|]; [by apply Hb|].
    apply (inv_order _ _ HI me j p q); [done|done|done|]. apply Hcl. lia.
  - intros j u t' q Hw. unfold look_from in Hw. by destruct (Nat.ltb _ _).
  - intros i q Hne Hq Hti. rewrite !behind_ticket by (done || apply from_ticket). done.
  - intros t' _ Ht. left. split; [apply from_ticket|done].
Qed.

Lemma moved_look they t : places s !! me = Some (Look they t) ->
  bakery_is_choosing (entry s they) = false ->
  moved n s me (Look they t) (entry s me)
    (if negb (bakery_ticket_number (entry s they) =? 0) &&
        (bakery_get_priority (bakery_ticket_number (entry s they)) (Z.of_nat they) <?
         bakery_get_priority t (Z.of_nat me))
     then Wait they t (bakery_ticket_number (entry s they)) else look_from me (S they) t).
Proof.
  intros Hp Hch. destruct (my_place _ Hp) as [Hme (Hd & Hk & Hne & Ht)].
  destruct (their_place they Hk) as (q & Hq & Hqe). destruct (entry_ticket n they q _ Hn Hqe) as (Hr & Hhas & Hno).
  assert (Hmax : Z.of_nat n <= 0x7FFF) by (unfold max_ticket in Hn; lia).
  rewrite !priority by lia. set (tt := bakery_ticket_number _) in *.
  pose proof (entry_choosing _ _ _ _ Hqe Hch) as Hplace.
  destruct (Z.eqb_spec tt 0) as [H0|H0]; cbn [negb andb];
    [|destruct (Z.ltb_spec (256 * tt + Z.of_nat they) (256 * t + Z.of_nat me)) as [Hlt|Hge]].
  - apply moved_pass; [done|by left|]. intros q' Hq'. simplify_eq.
    destruct Hplace as [-> |[-> |Hhq]]; [done|done|]. destruct (Hhas Hhq). lia.
  - assert (Hhq : has_ticket q).
    { destruct Hplace as [-> |[-> |Hhq]]; [..|done]; destruct H0; by apply Hno; intros []. }
    destruct (Hhas Hhq) as [He1 He2]. split.
    + cbn [entry_ok]. auto 10.
    + intros j qj Hnj Hqj Hc. by apply (inv_order _ _ HI me j (Look they t) qj).
    + intros j u t' qj [= <- <- <-] Hqj. simplify_eq. by left.
    + intros i qi Hni Hqi Hti. by rewrite !behind_ticket.
    + intros t' _ Ht'. by left.
  - apply moved_pass; [done|by left|]. intros q' Hq'. simplify_eq.
    destruct Hplace as [-> |[-> |Hhq]]; [done|done|]. destruct (Hhas Hhq) as [He1 He2].
    rewrite behind_ticket by done. rewrite Hd, He1. lia.
Qed.

Lemma moved_wait they t t' : places s !! me = Some (Wait they t t') ->
  t' <> bakery_ticket_number (entry s they) ->
  moved n s me (Wait they t t') (entry s me) (look_from me (S they) t).
Proof.
  intros Hp Hch. destruct (my_place _ Hp) as [Hme (Hd & Hk & Hne & Ht & Ht' & Hlt)].
  apply moved_pass; [done|by right; exists t'|]. intros q Hq.
  destruct (inv_wait _ _ HI me they t t' q Hp Hq) as [[Hhq He]|Hb]; [|done].
  destruct (entry_ticket n they q _ Hn (inv_entry _ _ HI _ _ Hq)) as (_ & Hhas & _). destruct (Hhas Hhq). lia.
Qed.

Lemma moved_drop : places s !! me = Some Drop -> moved n s me Drop 0 Out.
Proof. intros Hp. split; try done. intros t' _ _. by right. Qed.

Lemma moved_flag : places s !! me = Some Flag -> moved n s me Flag 1 (Scan 0 0).
Proof.
  intros Hp. split; try done.
  - cbn [entry_ok]. lia.
  - intros i q Hne Hq Hti _. cbn [behind]. lia.
Qed.

End Move.

Lemma moved_choose n s me t : inv n s -> (n < max_ticket)%nat -> places s !! me = Some (Choose t) ->
  moved (S n) s me (Choose t) (2 * t) (look_from me 0 t).
Proof.
  intros HI Hn Hp. destruct (my_place n s me HI _ Hp) as [Hme (Hd & Ht)].
  assert (Hj4 : forall j q, places s !! j = Some q -> (j < 4)%nat) by (intros j q Hq; by eapply four, Hq; apply HI).
  split.
  - apply entry_from. lia.
  - intros j q Hne Hq Hc. apply (cleared_from me _ t j) in Hc; [lia|done|by eapply Hj4|done].
  - intros j u t' q Hw. unfold look_from in Hw. by destruct (Nat.ltb _ _).
  - intros i q Hne Hq Hti Hb. rewrite behind_ticket by apply from_ticket. cbn [behind] in Hb.
    pose proof (Hj4 i q Hq). lia.
  - done.
Qed.

Lemma move_ok n s me p : inv n s -> (n + draws_now me s <= max_ticket)%nat -> places s !! me = Some p ->
  moved (n + draws_now me s) s me p (default (entry s me) (moves s me p).1) (moves s me p).2.
Proof.
  intros HI Hn Hp. unfold draws_now in *. rewrite Hp in *. destruct (my_place n s me HI p Hp) as [Hme He].
  destruct p as [| |they t|t|they t|they t t'| | |]; rewrite ?Nat.add_0_r in *.
  - cbn [entry_ok] in He. unfold moves, bakery_lock_get, bakery_get_ticket. fold (entry s me).
    assert ((bakery_ticket_number (entry s me) =? 0) = true) as -> by by rewrite He. by apply moved_out.
  - by apply moved_flag.
  - by apply moved_scan.
  - assert (Hd : make_bakery_data CHOSEN_TICKET t = 2 * t).
    { apply data_of_ticket. destruct He as (_ & Ht). unfold max_ticket in Hn. lia. }
    cbn [moves bakery_lock_get bakery_get_ticket fst snd default]. rewrite Hd, Nat.add_1_r. apply moved_choose; [done|lia|done].
  - unfold moves, bakery_lock_get. fold (entry s they). cbv zeta.
    destruct (bakery_is_choosing (entry s they)) eqn:Hch; [by apply moved_same|].
    pose proof (moved_look n s me HI Hn they t Hp Hch) as Hm. by destruct (negb _ && _).
  - unfold moves, bakery_lock_get. fold (entry s they).
    destruct (Z.eqb_spec t' (bakery_ticket_number (entry s they))); [by apply moved_same|by apply moved_wait].
  - unfold moves, bakery_lock_release. fold (entry s me).
    destruct (entry_ticket n me Inside _ Hn He) as (_ & Hhas & _). destruct (Hhas I) as [_ H1].
    rewrite (proj2 (Z.eqb_neq _ _)) by lia. by apply moved_inside.
  - by apply moved_drop.
  - done.
Qed.

Lemma step_entry n me s p j : inv n s -> places s !! me = Some p ->
  entry (step me s) j = if decide (j = me) then default (entry s me) (moves s me p).1 else entry s j.
Proof.
  intros HI Hp. assert (Hme : (me < length (lock_data s))%nat)
    by (rewrite (inv_data _ _ HI); by eapply four, Hp; apply HI).
  unfold step, entry. rewrite Hp. cbn [lock_data]. destruct (moves s me p).1 as [x|]; cbn [default].
  - rewrite !nth_lookup. case_decide as Hj; [subst j; by rewrite list_lookup_insert_eq|].
    by rewrite list_lookup_insert_ne.
  - by case_decide; subst.
Qed.

Lemma step_place n me s p j : inv n s -> places s !! me = Some p ->
  places (step me s) !! j = if decide (j = me) then Some (moves s me p).2 else places s !! j.
Proof.
  intros HI Hp. unfold step. rewrite Hp. cbn [places]. case_decide as Hj.
  - subst j. apply list_lookup_insert_eq. by eapply lookup_lt_Some.
  - by rewrite list_lookup_insert_ne.
Qed.

Lemma cleared_ticket p j : cleared p j -> has_ticket p.
Proof. by destruct p. Qed.

Lemma step_inv n me s : inv n s -> (n + draws_now me s <= max_ticket)%nat ->
  inv (n + draws_now me s) (step me s).
Proof.
  intros HI Hn. destruct (places s !! me) as [p|] eqn:Hp.
  2:{ unfold step, draws_now in *. rewrite Hp in *. by rewrite Nat.add_0_r. }
  destruct (move_ok n s me p HI Hn Hp) as [M1 M2 M3 M4 M5]. pose proof (step_place n me s p) as HP.
  pose proof (step_entry n me s p) as HE. set (d' := default _ _) in *. set (p' := (moves s me p).2) in *.
  split.
  - unfold step. rewrite Hp. cbn [lock_data]. destruct (moves s me p).1; [rewrite length_insert|]; apply HI.
  - unfold step. rewrite Hp. cbn [places]. rewrite length_insert. apply HI.
  - intros i q. rewrite HP, HE by done. case_decide; [intros [= <-]; by subst|]. intros Hq.
    apply (entry_mono n); [lia|]. by apply (inv_entry _ _ HI).
  - intros i j q r Hne. rewrite !HP, !HE by done. intros Hq Hr Hc.
    destruct (decide (i = me)) as [->|Hi], (decide (j = me)) as [->|Hj]; simplify_eq.
    + by apply M2.
    + apply (M4 i q); [done|done|by eapply cleared_ticket|]. by apply (inv_order _ _ HI i me q).
    + by apply (inv_order _ _ HI i j q).
  - intros i j t t' r. rewrite !HP, !HE by done. intros Hq Hr.
    destruct (decide (i = me)) as [->|Hi], (decide (j = me)) as [->|Hj]; try injection Hq as Hq; try injection Hr as Hr.
    + rewrite Hq in M1. destruct M1 as (_ & _ & Hne & _). done.
    + by eapply M3.
    + subst r. destruct (inv_wait _ _ HI i me t t' p Hq Hp) as [[Hh He]|Hb].
      * destruct (M5 t' Hh He) as [|Hall]; [by left|by right].
      * right. by apply (M4 i (Wait me t t')).
    + by eapply (inv_wait _ _ HI).
Qed.

Lemma run_inv sched : forall n s, inv n s -> (n + draws sched s <= max_ticket)%nat ->
  inv (n + draws sched s) (run sched s).
Proof.
  induction sched as [|me sched IH]; intros n s HI Hn; simpl in *; [by rewrite Nat.add_0_r|].
  rewrite Nat.add_assoc in *. apply IH; [|done]. apply step_inv; [done|lia].
Qed.

Lemma unused_inv : inv 0 unused.
Proof.
  split; try done.
  - intros i p Hp. by destruct i as [|[|[|[|]]]]; simplify_eq/=.
  - intros i j p q _ Hp _. by destruct i as [|[|[|[|]]]]; simplify_eq/=.
  - intros i j t t' q Hp. by destruct i as [|[|[|[|]]]]; simplify_eq/=.
Qed.

(** ** What the lock promises *)

Definition inside (p : place) : bool := match p with Inside | Drop => true | _ => false end.

(** The abstract lock: it is taken when it is free, and given back by its owner. *)
Inductive lock_spec (who : nat) : option nat -> option nat -> Prop :=
| lock_taken : lock_spec who None (Some who)
| lock_dropped : lock_spec who (Some who) None
| lock_unchanged o : lock_spec who o o.

Definition owner (s : state) : option nat := fst <$> list_find (fun p => inside p = true) (places s).

Lemma exclusive n s i j p q : inv n s -> places s !! i = Some p -> places s !! j = Some q ->
  inside p = true -> inside q = true -> i = j.
Proof.
  intros HI Hp Hq Hip Hiq. destruct (decide (i = j)) as [|Hne]; [done|].
  pose proof (inv_order _ _ HI i j p q Hne Hp Hq) as H1.
  pose proof (inv_order _ _ HI j i q p (not_eq_sym Hne) Hq Hp) as H2.
  rewrite behind_ticket in H1, H2 by (by destruct p, q).
  specialize (H1 ltac:(by destruct p)). specialize (H2 ltac:(by destruct q)). lia.
Qed.

Lemma owner_none s : owner s = None <-> forall i p, places s !! i = Some p -> inside p = false.
Proof.
  unfold owner. rewrite fmap_None, list_find_None, Forall_lookup.
  split; intros H i p Hp; specialize (H i p Hp); by destruct (inside p).
Qed.

Lemma owner_some n s i p : inv n s -> places s !! i = Some p -> inside p = true -> owner s = Some i.
Proof.
  intros HI Hp Hi. destruct (owner s) as [j|] eqn:Ho.
  - unfold owner in Ho. apply fmap_Some in Ho as ((j' & q) & Hf & ->). apply list_find_Some in Hf as (Hq & Hiq & _).
    f_equal. by eapply exclusive.
  - eapply owner_none in Ho; [|done]. congruence.
Qed.

(** Owners are the same when the same processors are inside. *)
Lemma owner_same n n' s s' : inv n s -> inv n' s' ->
  (forall i, inside <$> places s' !! i = inside <$> places s !! i) -> owner s' = owner s.
Proof.
  intros HI HI' Heq. destruct (owner s) as [i|] eqn:Ho.
  - unfold owner in Ho. apply fmap_Some in Ho as ((j' & q) & Hf & ->). apply list_find_Some in Hf as (Hq & Hiq & _).
    specialize (Heq j'). rewrite Hq in Heq. apply fmap_Some in Heq as (q' & Hq' & Hi'). simpl in *.
    eapply owner_some; [done|done|congruence].
  - apply owner_none. intros i p Hp. specialize (Heq i). rewrite Hp in Heq. symmetry in Heq.
    apply fmap_Some in Heq as (q & Hq & ->). by eapply owner_none in Ho.
Qed.

Lemma step_refines n me s : inv n s -> (n + draws_now me s <= max_ticket)%nat ->
  lock_spec me (owner s) (owner (step me s)).
Proof.
  intros HI Hn. pose proof (step_inv n me s HI Hn) as HI'. destruct (places s !! me) as [p|] eqn:Hp.
  2:{ unfold step. rewrite Hp. constructor. }
  pose proof (fun j => step_place n me s p j HI Hp) as HP. set (p' := (moves s me p).2) in *.
  pose proof (HP me) as Hme. rewrite decide_True in Hme by done.
  destruct (inside p) eqn:Hi, (inside p') eqn:Hi'.
  - rewrite (owner_some _ _ me p HI Hp Hi), (owner_some _ _ me p' HI' Hme Hi'). constructor.
  - rewrite (owner_some _ _ me p HI Hp Hi). assert (owner (step me s) = None) as ->; [|constructor].
    apply owner_none. intros i q Hq. rewrite HP in Hq. case_decide as Hd; [by simplify_eq|].
    destruct (inside q) eqn:Hiq; [|done]. destruct Hd. by apply (exclusive n s i me q p).
  - rewrite (owner_some _ _ me p' HI' Hme Hi'). assert (owner s = None) as ->; [|constructor].
    apply owner_none. intros i q Hq. destruct (inside q) eqn:Hiq; [|done].
    assert (Hd : i <> me) by congruence. destruct Hd. apply (exclusive _ _ i me q p' HI'); [|done..].
    rewrite HP. case_decide; [congruence|done].
  - rewrite (owner_same _ _ _ _ HI HI'); [constructor|]. intros i. rewrite HP. case_decide as Hd; [|done].
    subst i. rewrite Hp. simpl. congruence.
Qed.

Lemma draws_app sched sched' s : draws (sched ++ sched') s = (draws sched s + draws sched' (run sched s))%nat.
Proof. revert s. induction sched as [|me sched IH]; intros s; simpl; [done|]. rewrite IH. lia. Qed.

Lemma reached sched : (draws sched unused <= max_ticket)%nat -> inv (draws sched unused) (run sched unused).
Proof. intros Hn. apply (run_inv sched 0 unused unused_inv Hn). Qed.

(** ** Progress *)

(** Shared accesses that a processor has left at most, waiting apart. *)
Definition left (p : place) : nat :=
  match p with
  | Out | Failed => 0
  | Flag => 20
  | Scan they _ => 19 - they
  | Choose _ => 15
  | Look they _ => 12 - 2 * they
  | Wait they _ _ => 11 - 2 * they
  | Inside => 2
  | Drop => 1
  end.
Definition work (s : state) : nat := sum_list (map left (places s)).

Lemma left_from me they t : (left (look_from me they t) <= max 2 (12 - 2 * they))%nat.
Proof.
  unfold look_from, BAKERY_LOCK_MAX_CPUS. destruct (they =? me)%nat;
    match goal with |- context [(?a <? ?b)%nat] => destruct (Nat.ltb_spec a b) end; simpl; lia.
Qed.

(** An access that changes the place leaves less to do. *)
Lemma left_moves n s me p : inv n s -> places s !! me = Some p -> p <> Out ->
  (moves s me p).2 = p \/ (left (moves s me p).2 < left p)%nat.
Proof.
  intros HI Hp Hout. destruct (my_place n s me HI p Hp) as [Hme He].
  assert (Hmono : forall k t, (left (look_from me k t) <= max 2 (12 - 2 * k))%nat) by (intros; apply left_from).
  destruct p as [| |they t|t|they t|they t t'| | |]; [done|..]; simpl in He.
  - right. simpl. lia.
  - right. simpl. unfold BAKERY_LOCK_MAX_CPUS. destruct (Nat.ltb_spec (S they) 4); simpl; lia.
  - right. cbn [moves bakery_lock_get bakery_get_ticket snd]. specialize (Hmono 0%nat t). simpl. lia.
  - cbn [moves bakery_lock_get]. cbv zeta. specialize (Hmono (S they) t).
    destruct (bakery_is_choosing _); [by left|]. right. destruct (negb _ && _); simpl; lia.
  - cbn [moves bakery_lock_get]. specialize (Hmono (S they) t). destruct (_ =? _); [by left|]. right. simpl. lia.
  - right. simpl. destruct (negb _); simpl; lia.
  - right. simpl. lia.
  - done.
Qed.

Lemma work_insert (ps : list place) me p p' : ps !! me = Some p ->
  (sum_list (map left (<[me := p']> ps)) + left p = sum_list (map left ps) + left p')%nat.
Proof.
  revert me. induction ps as [|q ps IH]; intros [|me] Hp; simplify_eq/=; [lia|].
  specialize (IH me Hp). simpl in *. lia.
Qed.

Lemma work_step me s p : places s !! me = Some p ->
  (work (step me s) + left p = work s + left (moves s me p).2)%nat.
Proof. intros Hp. unfold work, step. rewrite Hp. cbn [places]. by apply work_insert. Qed.

(** Whose turn it is: a processor that still draws its ticket, or the one with the
    smallest. *)
Definition drawing (p : place) : bool :=
  match p with Flag | Scan _ _ | Choose _ => true | _ => false end.

Lemma drawing_moves n s me p : inv n s -> places s !! me = Some p -> drawing p = true -> (moves s me p).2 <> p.
Proof.
  intros HI Hp Hd. destruct p as [| |they t|t| | | | |]; try done; cbn [moves bakery_lock_get bakery_get_ticket snd].
  - destruct (Nat.ltb _ _); [|done]. intros [= Hk _]. lia.
  - unfold look_from. by destruct (Nat.ltb _ _).
Qed.

Lemma first_moves n s me p : inv n s -> (n <= max_ticket)%nat -> places s !! me = Some p -> has_ticket p ->
  (forall j q, places s !! j = Some q -> drawing q = false) ->
  (forall j q, places s !! j = Some q -> has_ticket q ->
     128 * entry s me + Z.of_nat me <= 128 * entry s j + Z.of_nat j) ->
  (moves s me p).2 <> p.
Proof.
  intros HI Hn Hp Hh Hnd Hmin. destruct (my_place n s me HI p Hp) as [Hme He].
  assert (Hfrom : forall k t u, (k < 4)%nat -> look_from me (S k) t <> Look k u /\ forall u', look_from me (S k) t <> Wait k u u').
  { intros k t u Hk. unfold look_from. destruct (S k =? me)%nat, (Nat.ltb _ _); split; try done; intros [= Hx _]; lia. }
  destruct p as [| |they t|t|they t|they t t'| | |]; try done; cbn [moves bakery_lock_get bakery_lock_release]; cbv zeta.
  - destruct He as (Hd & Hk & Hne & Ht). fold (entry s they).
    destruct (their_place n s HI they Hk) as (q & Hq & Hqe).
    assert (Hch : bakery_is_choosing (entry s they) = false).
    { specialize (Hnd they q Hq). destruct q; simpl in Hqe; try done; try (rewrite Hqe; done).
      1-2: (destruct Hqe as (-> & _); apply chosen). 1-2: (destruct Hqe as (u & -> & _); apply chosen). }
    rewrite Hch. destruct (negb _ && _); [done|]. by apply Hfrom.
  - destruct He as (Hd & Hk & Hne & Ht & Ht' & Hlt). fold (entry s they).
    destruct (their_place n s HI they Hk) as (q & Hq & Hqe).
    destruct (entry_ticket n they q _ Hn Hqe) as (_ & Hhas & Hno).
    destruct (Z.eqb_spec t' (bakery_ticket_number (entry s they))) as [Heq|]; [|by apply Hfrom].
    assert (Hhq : has_ticket q) by (destruct q; try done; rewrite (Hno (fun f => f)) in Heq; lia).
    destruct (Hhas Hhq) as [He1 He2]. specialize (Hmin they q Hq Hhq). lia.
  - by destruct (negb _).
Qed.

Lemma smallest (f : nat -> Z) (xs : list nat) : xs <> [] ->
  exists i, i ∈ xs /\ forall j, j ∈ xs -> f i <= f j.
Proof.
  induction xs as [|x xs IH]; [done|]. intros _. destruct xs as [|y xs].
  { exists x. split; [by left|]. intros j [->|[]%not_elem_of_nil]%elem_of_cons. lia. }
  destruct IH as (i & Hi & Hmin); [done|]. destruct (decide (f x <= f i)) as [Hle|Hgt].
  - exists x. split; [by left|]. intros j [->|Hj]%elem_of_cons; [lia|]. specialize (Hmin j Hj). lia.
  - exists i. split; [by right|]. intros j [->|Hj]%elem_of_cons; [lia|auto].
Qed.

#[local] Instance has_ticket_dec p : Decision (has_ticket p).
Proof. destruct p; apply _. Defined.

(** The processors with a ticket. *)
Definition ticketed (s : state) : list nat :=
  filter (fun i => match places s !! i with Some p => bool_decide (has_ticket p) | None => false end = true) (seq 0 4).

Lemma ticketed_spec n s i : inv n s -> i ∈ ticketed s <-> exists p, places s !! i = Some p /\ has_ticket p.
Proof.
  intros HI. unfold ticketed. rewrite list_elem_of_filter, elem_of_seq. split.
  - intros [Hh _]. destruct (places s !! i) as [p|]; [|done]. exists p. by apply bool_decide_eq_true in Hh.
  - intros (p & Hp & Hh). rewrite Hp. split; [by apply bool_decide_eq_true|]. pose proof (four i s p (inv_places _ _ HI) Hp). lia.
Qed.

Lemma some_turn n s j q : inv n s -> (n <= max_ticket)%nat -> places s !! j = Some q -> q <> Out ->
  exists me p, places s !! me = Some p /\ p <> Out /\ (moves s me p).2 <> p.
Proof.
  intros HI Hn Hq Hout. destruct (decide (Exists (fun p => drawing p = true) (places s))) as [Hex|Hno].
  { apply Exists_exists in Hex as (p & Hin & Hd). apply list_elem_of_In, list_elem_of_lookup in Hin as [me Hp].
    exists me, p. split; [done|]. split; [by destruct p|]. by eapply drawing_moves. }
  assert (Hnd : forall i p, places s !! i = Some p -> drawing p = false).
  { intros i p Hp. destruct (drawing p) eqn:Hd; [|done]. destruct Hno. apply Exists_exists.
    exists p. split; [by eapply list_elem_of_In, list_elem_of_lookup_2|done]. }
  assert (Hj : j ∈ ticketed s).
  { apply (ticketed_spec n s j HI). exists q. split; [done|]. specialize (Hnd j q Hq).
    pose proof (inv_entry _ _ HI j q Hq). by destruct q. }
  destruct (smallest (fun i => 128 * entry s i + Z.of_nat i) (ticketed s)) as (me & Hme & Hmin).
  { intros Hnil. rewrite Hnil in Hj. by apply not_elem_of_nil in Hj. }
  apply (ticketed_spec n s me HI) in Hme as (p & Hp & Hh). exists me, p. split; [done|]. split; [by intros ->|].
  eapply (first_moves n); [done..|]. intros i r Hr Hhr. apply Hmin, (ticketed_spec n s i HI). eauto.
Qed.

(** ** First come, first served *)

Definition waiting (p : place) : bool := match p with Look _ _ | Wait _ _ _ => true | _ => false end.

Lemma waiting_moves s me p : waiting p = true ->
  (moves s me p).1 = None /\ has_ticket (moves s me p).2 /\
  ((moves s me p).2 = Inside \/ waiting (moves s me p).2 = true).
Proof.
  intros Hw. assert (Hf : forall k t, look_from me k t = Inside \/ waiting (look_from me k t) = true).
  { intros k t. unfold look_from. destruct (Nat.ltb _ _); auto. }
  destruct p; try done; cbn [moves bakery_lock_get]; cbv zeta.
  - destruct (bakery_is_choosing _); [simpl; auto|]. destruct (negb _ && _); [simpl; auto|].
    split; [done|]. split; [apply from_ticket|apply Hf].
  - destruct (_ =? _); [simpl; auto|]. split; [done|]. split; [apply from_ticket|apply Hf].
Qed.

(** While [i] waits with its ticket, [j] stays behind it. *)
Lemma step_behind n s i j p q me : inv n s -> (n + draws_now me s <= max_ticket)%nat -> i <> j ->
  places s !! i = Some p -> waiting p = true -> places s !! j = Some q ->
  behind i (entry s i) j q (entry s j) ->
  exists p' q', places (step me s) !! i = Some p' /\ (p' = Inside \/ waiting p' = true) /\
    places (step me s) !! j = Some q' /\ behind i (entry (step me s) i) j q' (entry (step me s) j).
Proof.
  intros HI Hn Hne Hp Hw Hq Hb. destruct (places s !! me) as [r|] eqn:Hr.
  2:{ unfold step. rewrite Hr. eauto 10. }
  rewrite !(step_place n me s r), !(step_entry n me s r) by done.
  destruct (move_ok n s me r HI Hn Hr) as [_ _ _ M4 _].
  destruct (decide (i = me)) as [->|Hi], (decide (j = me)) as [->|Hj]; [done|..].
  - assert (r = p) as -> by congruence. destruct (waiting_moves s me p Hw) as (Hx & _ & Hc). rewrite Hx. cbn [default]. eauto 10.
  - do 2 eexists. split; [done|]. split; [by right|]. split; [done|].
    assert (r = q) as -> by congruence. apply (M4 i p); [done|done| |done]. by destruct p.
  - eauto 10.
Qed.

Lemma served_first sched : forall n s i j p q, inv n s -> (n + draws sched s <= max_ticket)%nat -> i <> j ->
  places s !! i = Some p -> waiting p = true -> places s !! j = Some q ->
  behind i (entry s i) j q (entry s j) ->
  (inside <$> places (run sched s) !! j = Some true) ->
  exists k, (k <= length sched)%nat /\ inside <$> places (run (take k sched) s) !! i = Some true.
Proof.
  induction sched as [|me sched IH]; intros n s i j p q HI Hn Hne Hp Hw Hq Hb Hin.
  - simpl in Hin. rewrite Hq in Hin. injection Hin as Hin.
    pose proof (inv_order _ _ HI j i q p (not_eq_sym Hne) Hq Hp) as Ho.
    rewrite behind_ticket in Hb, Ho by (by destruct p, q). specialize (Ho ltac:(by destruct q)). lia.
  - cbn [run draws] in *.
    destruct (step_behind n s i j p q me HI ltac:(lia) Hne Hp Hw Hq Hb) as (p' & q' & Hp' & [->|Hw'] & Hq' & Hb').
    { exists 1%nat. simpl. split; [lia|]. by rewrite Hp'. }
    destruct (IH (n + draws_now me s)%nat (step me s) i j p' q') as (k & Hk & Hi); try done.
    { apply step_inv; [done|lia]. }
    { lia. }
    exists (S k). simpl. split; [lia|done].
Qed.

(** ** The properties *)

(** C15: the bakery lock implements a lock.  For every interleaving of the four
    processors' accesses with at most 32767 tickets drawn since the lock was last
    unused: no assertion of the code fails, at most one processor is inside, and
    every access is a step of the abstract lock, which is taken only while it is
    free and given back only by its owner. *)
Theorem bakery_refines_lock (sched : list nat) (me : nat) :
  (draws (sched ++ [me]) unused <= max_ticket)%nat ->
  let s := run sched unused in
  (forall i p, places s !! i = Some p -> p <> Failed) /\
  (forall i j p q, places s !! i = Some p -> places s !! j = Some q ->
     inside p = true -> inside q = true -> i = j) /\
  lock_spec me (owner s) (owner (step me s)).
Proof.
  intros Hn s. rewrite draws_app in Hn. cbn [draws] in Hn. pose proof (reached sched ltac:(lia)) as HI. fold s in HI. split; [|split].
  - intros i p Hp ->. by apply (inv_entry _ _ HI) in Hp.
  - intros i j p q. by apply (exclusive _ _ _ _ _ _ HI).
  - apply (step_refines _ me s HI). fold s in Hn. lia.
Qed.

(** Processor 0 is inside, 1 waits for it; then 0 gives the lock back. *)
Definition contended : list nat := repeat 0%nat 10 ++ repeat 1%nat 8 ++ [0%nat].

Lemma bakery_refines_lock_witness :
  places (run contended unused) = [Drop; Wait 0 2 1; Out; Out] /\
  lock_spec 0 (Some 0%nat) (owner (step 0 (run contended unused))).
Proof.
  split; [vm_compute; reflexivity|].
  apply (bakery_refines_lock contended 0). apply Nat.leb_le. vm_compute. reflexivity.
Defined.



(** First come, first served.  When processor [i] waits with its ticket and [j]
    does not use the lock yet, [j] is inside only after [i] has been, however they
    are scheduled (with at most 32767 tickets). *)
Theorem bakery_first_come (sched sched' : list nat) (i j : nat) (p : place) :
  (draws (sched ++ sched') unused <= max_ticket)%nat ->
  let s := run sched unused in
  places s !! i = Some p -> waiting p = true -> places s !! j = Some Out ->
  inside <$> places (run sched' s) !! j = Some true ->
  exists k, (k <= length sched')%nat /\ inside <$> places (run (take k sched') s) !! i = Some true.
Proof.
  intros Hn s Hp Hw Hq Hin. rewrite draws_app in Hn. pose proof (reached sched ltac:(lia)) as HI. fold s in HI, Hn.
  apply (served_first sched' _ s i j p Out HI); try done. intros ->. rewrite Hp in Hq. by simplify_eq.
Qed.

(** Processor 2 comes while 1 waits for 0, and is inside after it. *)
Definition later : list nat := repeat 2%nat 8 ++ repeat 1%nat 5 ++ repeat 2%nat 3.

Lemma bakery_first_come_witness : exists k, (k <= length later)%nat /\
  inside <$> places (run (take k later) (run (contended ++ [0%nat]) unused)) !! 1%nat = Some true.
Proof.
  apply (bakery_first_come (contended ++ [0%nat]) later 1 2 (Wait 0 2 1)).
  - apply Nat.leb_le. vm_compute. reflexivity.
  - vm_compute. reflexivity.
  - reflexivity.
  - vm_compute. reflexivity.
  - vm_compute. reflexivity.
Defined.

(** ** Too many tickets *)

(** Processors 0 and 1 hand the lock to each other: one draws a ticket while the
    other is inside. *)
Definition handover (from to : nat) : list nat := repeat to 8 ++ [from; from] ++ repeat to 3.
Fixpoint handovers (n from to : nat) : list nat :=
  match n with O => [] | S n' => handover from to ++ handovers n' to from end.

(** One processor is inside with the ticket [t], the others are out. *)
Definition alone (who : nat) (t : Z) : state :=
  State (<[who := 2 * t]> (lock_data unused)) (<[who := Inside]> (places unused)).

Lemma run_cons me sched s : run (me :: sched) s = run sched (step me s).
Proof. done. Qed.

(** Evaluate the next access; [facts] rewrites what it reads. *)
Ltac access facts :=
  rewrite run_cons;
  cbn -[run bakery_ticket_number bakery_is_choosing make_bakery_data bakery_get_priority u32
      Z.add Z.mul Z.eqb Z.ltb Z.gtb CHOOSING_TICKET CHOSEN_TICKET Z.of_nat];
  facts; cbn [negb andb fst snd].

Section Handover.
Context (t : Z) (Ht : 1 <= t < 0x7FFF).

Lemma handover_facts :
  bakery_ticket_number (2 * t) = t /\ bakery_is_choosing (2 * t) = false /\ (t =? 0) = false /\ (t >? 0) = true /\
  (0 >? t) = false /\ u32 (t + 1) = t + 1 /\ make_bakery_data CHOSEN_TICKET (t + 1) = 2 * (t + 1) /\
  (bakery_get_priority t (Z.of_nat 0) <? bakery_get_priority (t + 1) (Z.of_nat 1)) = true /\
  (bakery_get_priority t (Z.of_nat 1) <? bakery_get_priority (t + 1) (Z.of_nat 0)) = true.
Proof.
  rewrite ticket_of, chosen, data_of_ticket, u32_small, !priority by lia.
  rewrite !Z.gtb_ltb. repeat split; first [done|apply Z.eqb_neq; lia|apply Z.ltb_lt; lia|apply Z.ltb_ge; lia].
Qed.

Ltac facts :=
  destruct handover_facts as (F1 & F2 & F3 & F4 & F5 & F6 & F7 & F8 & F9);
  change (bakery_ticket_number 0) with 0; change (bakery_is_choosing 0) with false;
  change (make_bakery_data CHOOSING_TICKET 0) with 1; change (bakery_ticket_number 1) with 0;
  change (0 =? 0) with true; change (0 >? 0) with false;
  rewrite ?F1, ?F2, ?F3, ?F4, ?F5, ?F6, ?F7, ?F8, ?F9; clear F1 F2 F3 F4 F5 F6 F7 F8 F9.

Lemma handover_ticket :
  run (handover 0 1) (alone 0 t) = alone 1 (t + 1) /\ run (handover 1 0) (alone 1 t) = alone 0 (t + 1).
Proof.
  unfold handover, alone, unused. cbn [repeat app lock_data places insert list_insert].
  split; repeat access facts; reflexivity.
Qed.

End Handover.

Lemma run_app sched sched' s : run (sched ++ sched') s = run sched' (run sched s).
Proof. revert s. induction sched as [|me sched IH]; intros s; [done|]. simpl. apply IH. Qed.

(** After an even number of handovers processor 0 is inside again. *)
Lemma handovers_run n t : 1 <= t -> t + 2 * Z.of_nat n <= 0x7FFF ->
  run (handovers (2 * n) 0 1) (alone 0 t) = alone 0 (t + 2 * Z.of_nat n).
Proof.
  revert t. induction n as [|n IH]; intros t Ht Hn; [simpl; f_equal; lia|].
  replace (2 * S n)%nat with (S (S (2 * n))) by lia. cbn [handovers]. rewrite !run_app.
  rewrite (proj1 (handover_ticket t ltac:(lia))), (proj2 (handover_ticket (t + 1) ltac:(lia))), IH by lia.
  f_equal. lia.
Qed.

(** After 32767 tickets in a row the next one does not fit into the word: it reads
    as no ticket at all, and two processors are inside at the same time. *)
Lemma ticket_overflow :
  let sched := repeat 0%nat 10 ++ handovers (2 * Z.to_nat 0x3FFF) 0 1 ++ handover 0 1 ++ repeat 0%nat 10 in
  places (run sched unused) = [Inside; Inside; Out; Out].
Proof.
  cbv zeta. rewrite run_app. change (run (repeat 0%nat 10) unused) with (alone 0 1).
  rewrite run_app, handovers_run by lia. rewrite Z2Nat.id by lia. reflexivity.
Qed.

End Bakery.
