(* ===== verification/TmrCore.v ===== *)
(** * Layer 1: the triple-redundant watchdog in the programmable logic

    Model of pl/tmr_wdt_core.v.  The three down-counters are the clocked state,
    the timeouts and the majority voter are combinational functions of it.  One
    [core_step] is one rising edge of [clk]; non-blocking assignments read the
    state before the edge. *)

From S2P Require Import Prelude.
#[local] Open Scope Z_scope.

Module Tmr.

(** The input ports sampled at one clock edge. *)
Record core_in := {
  rstn : bool;
  enable : bool;
  reload_val : Z;
  kick_a : bool;
  kick_b : bool;
  kick_c : bool
}.

Record core := { counter_a : Z; counter_b : Z; counter_c : Z }.

(** The [always] block of one watchdog: reset and disable hold the counter at
    the reload value, a kick reloads it, otherwise it counts down and stops
    at zero. *)
Definition dog_next (i : core_in) (kick : bool) (counter : Z) : Z :=
  if negb (rstn i) then reload_val i
  else if negb (enable i) then reload_val i
  else if kick then reload_val i
  else if negb (counter =? 0) then u32 (counter - 1)
  else counter.

Definition core_step (i : core_in) (s : core) : core :=
  {| counter_a := dog_next i (kick_a i) (counter_a s);
     counter_b := dog_next i (kick_b i) (counter_b s);
     counter_c := dog_next i (kick_c i) (counter_c s) |}.

Definition to_a (en : bool) (s : core) : bool := en && (counter_a s =? 0).
Definition to_b (en : bool) (s : core) : bool := en && (counter_b s =? 0).
Definition to_c (en : bool) (s : core) : bool := en && (counter_c s =? 0).

Definition maj_2of3 (en : bool) (s : core) : bool :=
  (to_a en s && to_b en s) || (to_b en s && to_c en s) || (to_a en s && to_c en s).

Definition all_3 (en : bool) (s : core) : bool := to_a en s && to_b en s && to_c en s.

Definition core_run (ins : list core_in) (s : core) : core :=
  foldl (fun s i => core_step i s) s ins.

(** ** One watchdog on its own *)

Section Dog.
Context (kick : core_in -> bool) (r : Z) (Hr : 0 < r < 2 ^ 32).

Definition dog_run (ins : list core_in) (c : Z) : Z :=
  foldl (fun c i => dog_next i (kick i) c) c ins.

(** The clock cycles the theorems are about: out of reset, enabled, with the
    reload value [r] on the port. *)
Definition running (i : core_in) : Prop :=
  rstn i = true /\ enable i = true /\ reload_val i = r.

(** Every stretch of [r] cycles contains a kick of this watchdog. *)
Definition fed (ins : list core_in) : Prop :=
  forall pre w post, ins = pre ++ w ++ post -> Z.of_nat (length w) = r ->
    Exists (fun i => kick i = true) w.

Lemma dog_next_kick i c : running i -> kick i = true -> dog_next i (kick i) c = r.
Proof. intros (H1 & H2 & H3) Hk. unfold dog_next. by rewrite H1, H2, Hk, H3. Qed.

Lemma dog_next_starve i c :
  running i -> kick i = false -> 0 <= c < 2 ^ 32 -> dog_next i (kick i) c = Z.max 0 (c - 1).
Proof.
  intros (H1 & H2 & H3) Hk Hc. unfold dog_next. rewrite H1, H2, Hk. simpl.
  destruct (Z.eqb_spec c 0) as [->|Hne]; simpl; [done|].
  rewrite u32_small by lia. lia.
Qed.

Lemma dog_next_range i c : running i -> 0 <= c <= r -> 0 <= dog_next i (kick i) c <= r.
Proof.
  intros Hi Hc. destruct (kick i) eqn:Hk.
  - rewrite <- Hk, dog_next_kick by done. lia.
  - rewrite <- Hk, dog_next_starve by (done || lia). lia.
Qed.

Lemma dog_run_cons i ins c : dog_run (i :: ins) c = dog_run ins (dog_next i (kick i) c).
Proof. done. Qed.

Lemma dog_run_starve ins c :
  Forall running ins -> Forall (fun i => kick i = false) ins -> 0 <= c < 2 ^ 32 ->
  dog_run ins c = Z.max 0 (c - Z.of_nat (length ins)).
Proof.
  revert c. induction ins as [|i ins IH]; intros c Hr' Hk Hc;
    [unfold dog_run; simpl; lia|].
  apply Forall_cons_iff in Hr' as [? ?]. apply Forall_cons_iff in Hk as [? ?].
  rewrite dog_run_cons, dog_next_starve, IH by (done || lia). simpl length. lia.
Qed.

Lemma dog_run_app ins1 ins2 c : dog_run (ins1 ++ ins2) c = dog_run ins2 (dog_run ins1 c).
Proof. apply foldl_app. Qed.

(** A history splits at the last kick of this watchdog. *)
Lemma last_kick ins :
  Forall (fun i => kick i = false) ins \/
  exists pre i w, ins = pre ++ i :: w /\ kick i = true /\ Forall (fun i => kick i = false) w.
Proof.
  induction ins as [|i ins IH]; [by left|].
  destruct IH as [Hall|(pre & j & w & -> & Hj & Hw)].
  - destruct (kick i) eqn:Hi.
    + right. by exists [], i, ins.
    + left. by constructor.
  - right. by exists (i :: pre), j, w.
Qed.

Lemma fed_suffix_short pre w ins :
  fed ins -> ins = pre ++ w -> Forall (fun i => kick i = false) w ->
  Z.of_nat (length w) < r.
Proof.
  intros Hf He Hw. destruct (decide (Z.of_nat (length w) < r)) as [|Hge]; [done|].
  exfalso. assert (Hex : Exists (fun i => kick i = true) (take (Z.to_nat r) w)).
  { apply (Hf pre _ (drop (Z.to_nat r) w)).
    - by rewrite take_drop.
    - rewrite length_take. lia. }
  apply list.Exists_exists in Hex as (i & Hi & Hki).
  rewrite list.Forall_forall in Hw. rewrite Hw in Hki; [done|].
  rewrite <- (take_drop (Z.to_nat r) w). apply elem_of_app. by left.
Qed.

Lemma fed_prefix ins1 ins2 : fed (ins1 ++ ins2) -> fed ins1.
Proof.
  intros Hf pre w post -> Hlen. apply (Hf pre w (post ++ ins2)); [|done].
  by rewrite <- !(assoc_L (++)).
Qed.

(** The counter of a fed watchdog never reaches zero. *)
Lemma fed_nonzero ins :
  Forall running ins -> fed ins -> dog_run ins r <> 0.
Proof.
  intros Hrun Hf. destruct (last_kick ins) as [Hall|(pre & i & w & -> & Hi & Hw)].
  - rewrite dog_run_starve by (done || lia).
    pose proof (fed_suffix_short [] ins ins Hf eq_refl Hall). lia.
  - apply Forall_app in Hrun as [_ Hrun]. apply Forall_cons_iff in Hrun as [Hri Hrw].
    rewrite dog_run_app, dog_run_cons, dog_next_kick, dog_run_starve by (done || lia).
    pose proof (fed_suffix_short (pre ++ [i]) w _ Hf) as Hs.
    rewrite <- (assoc_L (++)) in Hs. specialize (Hs eq_refl Hw). lia.
Qed.

End Dog.

Lemma core_run_dogs ins s :
  core_run ins s =
  {| counter_a := dog_run kick_a ins (counter_a s);
     counter_b := dog_run kick_b ins (counter_b s);
     counter_c := dog_run kick_c ins (counter_c s) |}.
Proof.
  revert s. induction ins as [|i ins IH]; intros s; [by destruct s|].
  simpl. unfold core_run, dog_run in *. by rewrite IH.
Qed.

Lemma voter_count en s :
  let n := b2z (to_a en s) + b2z (to_b en s) + b2z (to_c en s) in
  maj_2of3 en s = (2 <=? n) /\ all_3 en s = (n =? 3).
Proof. unfold maj_2of3, all_3. by destruct (to_a en s), (to_b en s), (to_c en s). Qed.

Definition loaded (r : Z) : core := {| counter_a := r; counter_b := r; counter_c := r |}.

(** ** Single-event upsets

    [upset d v s] is the state after a particle strike has overwritten the
    counter of watchdog [d] with [v]. *)

Inductive dog := DogA | DogB | DogC.

Definition upset (d : dog) (v : option Z) (s : core) : core :=
  match v with
  | None => s
  | Some v =>
    match d with
    | DogA => {| counter_a := v; counter_b := counter_b s; counter_c := counter_c s |}
    | DogB => {| counter_a := counter_a s; counter_b := v; counter_c := counter_c s |}
    | DogC => {| counter_a := counter_a s; counter_b := counter_b s; counter_c := v |}
    end
  end.

(** A run in which watchdog [d] may be struck before every clock edge. *)
Definition struck_run (d : dog) (ins : list (core_in * option Z)) (s : core) : core :=
  foldl (fun s iv => core_step iv.1 (upset d iv.2 s)) s ins.

Definition kick_of (d : dog) : core_in -> bool :=
  match d with DogA => kick_a | DogB => kick_b | DogC => kick_c end.

Definition counter_of (d : dog) (s : core) : Z :=
  match d with DogA => counter_a s | DogB => counter_b s | DogC => counter_c s end.

Lemma struck_other d d' ins s :
  d' <> d ->
  counter_of d' (struck_run d ins s) = dog_run (kick_of d') ins.*1 (counter_of d' s).
Proof.
  intros Hne. revert s. induction ins as [|[i v] ins IH]; intros s; [done|].
  unfold struck_run in *. simpl. rewrite IH.
  unfold dog_run. simpl. f_equal. by destruct d, d', v.
Qed.

Lemma maj_needs_two d en s :
  (forall d', d' <> d -> counter_of d' s <> 0) -> maj_2of3 en s = false /\ all_3 en s = false.
Proof.
  intros Hd. unfold maj_2of3, all_3, to_a, to_b, to_c.
  pose proof (Hd DogA) as HA. pose proof (Hd DogB) as HB. pose proof (Hd DogC) as HC.
  simpl in *.
  destruct en, (Z.eqb_spec (counter_a s) 0), (Z.eqb_spec (counter_b s) 0),
    (Z.eqb_spec (counter_c s) 0), d; simpl; try done; exfalso; naive_solver.
Qed.

(** ** Properties *)


Definition idle_cycle (r : Z) : core_in :=
  {| rstn := true; enable := true; reload_val := r;
     kick_a := false; kick_b := false; kick_c := false |}.



Definition kick_ab (r : Z) : core_in :=
  {| rstn := true; enable := true; reload_val := r;
     kick_a := true; kick_b := true; kick_c := false |}.


(** C7: The second stage needs all three: one watchdog that is kicked at least
    once in every [r] cycles keeps the interrupt line low, whatever happens to
    the two others. *)
Theorem one_fed_dog_blocks_all_3 (r : Z) (d : dog) (ins : list core_in) (s : core) :
  0 < r < 2 ^ 32 ->
  Forall (running r) ins ->
  fed (kick_of d) r ins ->
  counter_of d s = r ->
  all_3 true (core_run ins s) = false.
Proof.
  intros Hr Hrun Hf Hs. pose proof (fed_nonzero _ r Hr ins Hrun Hf) as Hnz.
  rewrite core_run_dogs. unfold all_3, to_a, to_b, to_c. simpl.
  destruct d; simpl in *; rewrite Hs; apply Z.eqb_neq in Hnz; rewrite Hnz;
    simpl; by rewrite ?andb_false_r.
Qed.

Lemma one_fed_dog_blocks_all_3_witness :
  all_3 true (core_run [kick_ab 1] {| counter_a := 1; counter_b := 0; counter_c := 0 |}) = false.
Proof.
  apply (one_fed_dog_blocks_all_3 1 DogA [kick_ab 1]).
  - lia.
  - repeat constructor.
  - intros pre w post He Hw. destruct w as [|i w]; [done|].
    destruct pre as [|j pre]; simpl in He; simplify_eq.
    + by apply Exists_cons_hd.
    + by destruct pre.
  - done.
Defined.

(** A timeout latches: without reset, disable or kick the interrupt line stays
    asserted. *)
Lemma all_3_latched r ins s :
  0 < r < 2 ^ 32 ->
  Forall (running r) ins ->
  Forall (fun i => kick_a i = false /\ kick_b i = false /\ kick_c i = false) ins ->
  all_3 true s = true -> all_3 true (core_run ins s) = true.
Proof.
  intros Hr Hrun Hk Hs. unfold all_3, to_a, to_b, to_c in *. simpl in *. zbool.
  rewrite core_run_dogs. simpl.
  repeat match goal with H : _ = 0 |- _ => rewrite H; clear H end.
  rewrite !(dog_run_starve _ r) by
    (done || lia || (eapply list.Forall_impl; [exact Hk|intros ? (? & ? & ?); assumption])).
  by destruct (length ins).
Qed.

End Tmr.
