(* ===== verification/TmrAxi.v ===== *)
(** * Layer 1: the AXI4-Lite register interface of the watchdog

    Model of pl/tmr_wdt_v1_0_S00_AXI.v with the instance [u_core] of the
    triple-redundant watchdog inside (pl/tmr_wdt_v1_0.v only renames the ports).
    One [axi_step] is one rising edge of [S_AXI_ACLK]: every [always] block of
    the slave and of the core reads the state before the edge. *)

From S2P Require Import Prelude.
From S2P Require Import TmrCore.
#[local] Open Scope Z_scope.

Module TmrAxi.
Import Tmr.

(** The input ports of the slave. *)
Record axi_in := {
  ARESETN : bool;
  AWADDR : Z; AWVALID : bool;
  WDATA : Z; WSTRB : Z; WVALID : bool;
  BREADY : bool;
  ARADDR : Z; ARVALID : bool;
  RREADY : bool
}.

Record axi := {
  axi_awaddr : Z;
  axi_awready : bool;
  axi_wready : bool;
  axi_bresp : Z;
  axi_bvalid : bool;
  axi_araddr : Z;
  axi_arready : bool;
  axi_rdata : Z;
  axi_rresp : Z;
  axi_rvalid : bool;
  slv_reg : list Z;      (* slv_reg0 .. slv_reg7 *)
  aw_en : bool;
  u_core : core
}.

Definition reg (s : axi) (i : nat) : Z := slv_reg s !!! i.

(** [addr[ADDR_LSB+OPT_MEM_ADDR_BITS:ADDR_LSB]] = [addr[4:2]]. *)
Definition reg_index (addr : Z) : nat := Z.to_nat (Z.land (Z.shiftr addr 2) 7).

Definition slv_reg_wren (i : axi_in) (s : axi) : bool :=
  axi_wready s && WVALID i && axi_awready s && AWVALID i.

Definition slv_reg_rden (i : axi_in) (s : axi) : bool :=
  axi_arready s && ARVALID i && negb (axi_rvalid s).

(** One byte lane: [r[8*k +: 8] <= wdata[8*k +: 8]] when the strobe is set. *)
Definition write_lane (wdata wstrb : Z) (r : Z) (k : Z) : Z :=
  if Z.testbit wstrb k
  then let m := shl32 0xFF (8 * k) in Z.lor (Z.land r (not32 m)) (Z.land wdata m)
  else r.

Definition write_strobed (wdata wstrb r : Z) : Z :=
  foldl (write_lane wdata wstrb) r [0; 1; 2; 3].

(** RELOAD = 0 selects the built-in one second. *)
Definition reload_eff (s : axi) : Z := if truthy (reg s 1) then reg s 1 else 100000000.

Definition reg2_wr (i : axi_in) (s : axi) : bool :=
  slv_reg_wren i s && bool_decide (reg_index (axi_awaddr s) = 2%nat).

Definition core_enable (s : axi) : bool := Z.testbit (reg s 0) 0.

(** The port map of [u_core]. *)
Definition core_ports (i : axi_in) (s : axi) : core_in :=
  {| rstn := ARESETN i;
     enable := core_enable s;
     reload_val := reload_eff s;
     kick_a := reg2_wr i s && Z.testbit (WDATA i) 0;
     kick_b := reg2_wr i s && Z.testbit (WDATA i) 1;
     kick_c := reg2_wr i s && Z.testbit (WDATA i) 2 |}.

(** [{27'd0, all_3, maj_2of3, to_c, to_b, to_a}] *)
Definition status_word (en : bool) (c : core) : Z :=
  b2z (to_a en c) + 2 * b2z (to_b en c) + 4 * b2z (to_c en c)
  + 8 * b2z (maj_2of3 en c) + 16 * b2z (all_3 en c).

Definition reg_data_out (s : axi) : Z :=
  match reg_index (axi_araddr s) with
  | 0%nat => reg s 0
  | 1%nat => reg s 1
  | 2%nat => reg s 2
  | 3%nat => status_word (core_enable s) (u_core s)
  | 4%nat => counter_a (u_core s)
  | 5%nat => counter_b (u_core s)
  | 6%nat => counter_c (u_core s)
  | 7%nat => reg s 7
  | _ => 0
  end.

(** The write channel accepts address and data together. *)
Definition aw_accept (i : axi_in) (s : axi) : bool :=
  negb (axi_awready s) && AWVALID i && WVALID i && aw_en s.

Definition next_awready (i : axi_in) (s : axi) : bool * bool :=
  if negb (ARESETN i) then (false, true)
  else if aw_accept i s then (true, false)
  else if BREADY i && axi_bvalid s then (false, true)
  else (false, aw_en s).

Definition next_awaddr (i : axi_in) (s : axi) : Z :=
  if negb (ARESETN i) then 0
  else if aw_accept i s then AWADDR i else axi_awaddr s.

Definition next_wready (i : axi_in) (s : axi) : bool :=
  if negb (ARESETN i) then false
  else negb (axi_wready s) && WVALID i && AWVALID i && aw_en s.

Definition next_regs (i : axi_in) (s : axi) : list Z :=
  if negb (ARESETN i) then replicate 8 0
  else if slv_reg_wren i s
  then alter (write_strobed (WDATA i) (WSTRB i)) (reg_index (axi_awaddr s)) (slv_reg s)
  else slv_reg s.

Definition next_bvalid (i : axi_in) (s : axi) : bool * Z :=
  if negb (ARESETN i) then (false, 0)
  else if axi_awready s && AWVALID i && negb (axi_bvalid s) && axi_wready s && WVALID i
  then (true, 0)
  else if BREADY i && axi_bvalid s then (false, axi_bresp s)
  else (axi_bvalid s, axi_bresp s).

Definition next_arready (i : axi_in) (s : axi) : bool * Z :=
  if negb (ARESETN i) then (false, 0)
  else if negb (axi_arready s) && ARVALID i then (true, ARADDR i)
  else (false, axi_araddr s).

Definition next_rvalid (i : axi_in) (s : axi) : bool * Z :=
  if negb (ARESETN i) then (false, 0)
  else if axi_arready s && ARVALID i && negb (axi_rvalid s) then (true, 0)
  else if axi_rvalid s && RREADY i then (false, axi_rresp s)
  else (axi_rvalid s, axi_rresp s).

Definition next_rdata (i : axi_in) (s : axi) : Z :=
  if negb (ARESETN i) then 0
  else if slv_reg_rden i s then reg_data_out s else axi_rdata s.

Definition axi_step (i : axi_in) (s : axi) : axi :=
  {| axi_awaddr := next_awaddr i s;
     axi_awready := (next_awready i s).1;
     axi_wready := next_wready i s;
     axi_bresp := (next_bvalid i s).2;
     axi_bvalid := (next_bvalid i s).1;
     axi_araddr := (next_arready i s).2;
     axi_arready := (next_arready i s).1;
     axi_rdata := next_rdata i s;
     axi_rresp := (next_rvalid i s).2;
     axi_rvalid := (next_rvalid i s).1;
     slv_reg := next_regs i s;
     aw_en := (next_awready i s).2;
     u_core := core_step (core_ports i s) (u_core s) |}.

Definition axi_run (ins : list axi_in) (s : axi) : axi :=
  foldl (fun s i => axi_step i s) s ins.

(** ** The handshake invariant

    Address and data are accepted together, no second write is accepted before
    the response of the first has been taken, and the eight registers and the
    responses keep their shape. *)
Record axi_ok (s : axi) : Prop := {
  ok_ready : axi_awready s = axi_wready s;
  ok_busy : axi_awready s || axi_bvalid s = true -> aw_en s = false;
  ok_excl : axi_awready s && axi_bvalid s = false;
  ok_regs : length (slv_reg s) = 8%nat;
  ok_bresp : axi_bresp s = 0;
  ok_rresp : axi_rresp s = 0
}.

Definition bus_idle : axi_in :=
  {| ARESETN := true; AWADDR := 0; AWVALID := false; WDATA := 0; WSTRB := 0;
     WVALID := false; BREADY := false; ARADDR := 0; ARVALID := false; RREADY := false |}.

Definition bus_write (addr data strb : Z) : axi_in :=
  {| ARESETN := true; AWADDR := addr; AWVALID := true; WDATA := data; WSTRB := strb;
     WVALID := true; BREADY := false; ARADDR := 0; ARVALID := false; RREADY := false |}.

Definition bus_bready : axi_in :=
  {| ARESETN := true; AWADDR := 0; AWVALID := false; WDATA := 0; WSTRB := 0;
     WVALID := false; BREADY := true; ARADDR := 0; ARVALID := false; RREADY := false |}.

Definition bus_read (addr : Z) : axi_in :=
  {| ARESETN := true; AWADDR := 0; AWVALID := false; WDATA := 0; WSTRB := 0;
     WVALID := false; BREADY := false; ARADDR := addr; ARVALID := true; RREADY := false |}.

Definition write_idle (s : axi) : Prop :=
  axi_awready s = false /\ axi_wready s = false /\ aw_en s = true /\ axi_bvalid s = false.

Lemma reload_eff_pos s : reg s 1 >= 0 -> reload_eff s > 0.
Proof.
  intros Hr. unfold reload_eff, truthy. destruct (Z.eqb_spec (reg s 1) 0); simpl; lia.
Qed.

(** The three beats of a write on an idle slave: accept, commit, respond. *)
Lemma write_accept i s :
  write_idle s -> ARESETN i = true -> AWVALID i = true -> WVALID i = true ->
  let s' := axi_step i s in
  axi_awready s' = true /\ axi_wready s' = true /\ aw_en s' = false /\
  axi_bvalid s' = false /\ axi_awaddr s' = AWADDR i /\ slv_reg s' = slv_reg s /\
  u_core s' = core_step (core_ports i s) (u_core s) /\ reg2_wr i s = false.
Proof.
  intros (H1 & H2 & H3 & H4) Hr Ha Hw. simpl.
  unfold next_awready, next_wready, next_bvalid, next_awaddr, next_regs, aw_accept,
    slv_reg_wren, reg2_wr, slv_reg_wren.
  rewrite H1, H2, H3, H4, Hr, Ha, Hw. simpl. rewrite andb_false_r. done.
Qed.

Lemma write_commit i s :
  axi_awready s = true -> axi_wready s = true -> aw_en s = false -> axi_bvalid s = false ->
  ARESETN i = true -> AWVALID i = true -> WVALID i = true ->
  let s' := axi_step i s in
  axi_awready s' = false /\ axi_wready s' = false /\ aw_en s' = false /\
  axi_bvalid s' = true /\
  slv_reg s' = alter (write_strobed (WDATA i) (WSTRB i)) (reg_index (axi_awaddr s)) (slv_reg s) /\
  slv_reg_wren i s = true.
Proof.
  intros H1 H2 H3 H4 Hr Ha Hw. simpl.
  unfold next_awready, next_wready, next_bvalid, next_regs, aw_accept, slv_reg_wren.
  rewrite H1, H2, H3, H4, Hr, Ha, Hw. simpl. rewrite andb_false_r. done.
Qed.

(** ** Properties *)

(** C35: The AXI slave never leaves its handshake invariant: it holds after
    reset, and every clock edge preserves it under any input from the bus. *)
Theorem axi_handshake_invariant (i : axi_in) (s : axi) :
  (ARESETN i = false -> axi_ok (axi_step i s)) /\ (axi_ok s -> axi_ok (axi_step i s)).
Proof.
  split.
  - intros Hr. split; simpl;
      unfold next_awready, next_wready, next_bvalid, next_rvalid, next_regs; by rewrite Hr.
  - intros [H1 H2 H3 H4 H5 H6].
    split; simpl; unfold next_awready, next_wready, next_bvalid, next_rvalid, next_regs,
      aw_accept, slv_reg_wren; rewrite <- ?H1;
    destruct (ARESETN i), (axi_awready s), (axi_bvalid s), (aw_en s), (AWVALID i),
      (WVALID i), (BREADY i); simpl in *; try done; try (by specialize (H2 eq_refl));
    try (by rewrite length_alter); repeat case_match; simpl in *; try done.
Qed.

Definition axi_reset_state : axi :=
  {| axi_awaddr := 0; axi_awready := false; axi_wready := false; axi_bresp := 0;
     axi_bvalid := false; axi_araddr := 0; axi_arready := false; axi_rdata := 0;
     axi_rresp := 0; axi_rvalid := false; slv_reg := replicate 8 0; aw_en := true;
     u_core := loaded 100000000 |}.

Lemma axi_handshake_invariant_witness : axi_ok (axi_step (bus_write 8 7 15) axi_reset_state).
Proof. apply axi_handshake_invariant. by split. Defined.

(** C34: A bus write to KICK feeds exactly the watchdogs its data selects: from
    an idle slave with the watchdog enabled, the write is accepted in one cycle
    and committed in the next, where the counters whose data bit is set are
    reloaded and the others count on; after the response the slave is idle
    again. *)
Theorem kick_write_feeds (s : axi) (d strb : Z) :
  axi_ok s -> write_idle s -> core_enable s = true ->
  let s1 := axi_step (bus_write 8 d strb) s in
  let s2 := axi_step (bus_write 8 d strb) s1 in
  let idle := {| rstn := true; enable := true; reload_val := reload_eff s;
                 kick_a := false; kick_b := false; kick_c := false |} in
  u_core s1 = core_step idle (u_core s) /\
  u_core s2 =
    {| counter_a := if Z.testbit d 0 then reload_eff s else dog_next idle false (counter_a (u_core s1));
       counter_b := if Z.testbit d 1 then reload_eff s else dog_next idle false (counter_b (u_core s1));
       counter_c := if Z.testbit d 2 then reload_eff s else dog_next idle false (counter_c (u_core s1)) |} /\
  write_idle (axi_step bus_bready s2).
Proof.
  intros Hok Hidle Hen.
  pose proof (write_accept (bus_write 8 d strb) s Hidle eq_refl eq_refl eq_refl)
    as (A1 & A2 & A3 & A4 & A5 & A6 & A7 & A8).
  cbv zeta. set (s1 := axi_step _ s) in *.
  pose proof (write_commit (bus_write 8 d strb) s1 A1 A2 A3 A4 eq_refl eq_refl eq_refl)
    as (B1 & B2 & B3 & B4 & B5 & B6).
  set (s2 := axi_step _ s1) in *.
  assert (Hreg : forall n, reg s1 n = reg s n) by (intros n; unfold reg; by rewrite A6).
  assert (Hre : reload_eff s1 = reload_eff s) by (unfold reload_eff; by rewrite Hreg).
  assert (Hen1 : core_enable s1 = true) by (unfold core_enable; by rewrite Hreg).
  split; [|split].
  - rewrite A7. unfold core_ports. rewrite A8, Hen. done.
  - assert (Hk : reg2_wr (bus_write 8 d strb) s1 = true).
    { unfold reg2_wr. rewrite B6, A5. done. }
    unfold s2. simpl. unfold core_step, core_ports, dog_next. rewrite Hk, Hre, Hen1. simpl.
    by destruct (Z.testbit d 0), (Z.testbit d 1), (Z.testbit d 2).
  - unfold write_idle. simpl.
    unfold next_awready, next_wready, next_bvalid, aw_accept.
    rewrite B1, B2, B3, B4. done.
Qed.

Definition axi_enabled_state : axi :=
  {| axi_awaddr := 0; axi_awready := false; axi_wready := false; axi_bresp := 0;
     axi_bvalid := false; axi_araddr := 0; axi_arready := false; axi_rdata := 0;
     axi_rresp := 0; axi_rvalid := false; slv_reg := 1 :: 500 :: replicate 6 0; aw_en := true;
     u_core := loaded 9 |}.

Lemma kick_write_feeds_witness :
  u_core (axi_step (bus_write 8 5 15) (axi_step (bus_write 8 5 15) axi_enabled_state))
  = {| counter_a := 500; counter_b := 7; counter_c := 500 |}.
Proof.
  destruct (kick_write_feeds axi_enabled_state 5 15) as (_ & He & _);
    [by split|done|done|]. etrans; [exact He|]. reflexivity.
Defined.

(** A bus read of STATUS returns the live voter word: from an idle read
    channel the word presented two cycles later encodes the three timeouts,
    the 2-of-3 vote and the interrupt line of the core at the sampling edge. *)
Theorem status_read_live (s : axi) :
  axi_arready s = false -> axi_rvalid s = false ->
  let s1 := axi_step (bus_read 12) s in
  let s2 := axi_step (bus_read 12) s1 in
  axi_rvalid s2 = true /\
  axi_rdata s2 = status_word (core_enable s1) (u_core s1) /\
  Z.testbit (axi_rdata s2) 3 = maj_2of3 (core_enable s1) (u_core s1) /\
  Z.testbit (axi_rdata s2) 4 = all_3 (core_enable s1) (u_core s1).
Proof.
  intros Ha Hv. cbv zeta. set (s1 := axi_step _ s).
  assert (axi_arready s1 = true /\ axi_rvalid s1 = false /\ axi_araddr s1 = 12) as (A1 & A2 & A3).
  { unfold s1. simpl. unfold next_arready, next_rvalid. rewrite Ha, Hv. done. }
  assert (Hd : axi_rdata (axi_step (bus_read 12) s1) = status_word (core_enable s1) (u_core s1)).
  { simpl. unfold next_rdata, slv_reg_rden, reg_data_out. rewrite A1, A2, A3. done. }
  rewrite Hd. split; [|split; [done|]].
  - simpl. unfold next_rvalid. rewrite A1, A2. done.
  - unfold status_word, maj_2of3, all_3.
    by destruct (to_a _ _), (to_b _ _), (to_c _ _).
Qed.

Lemma status_read_live_witness :
  axi_rdata (axi_step (bus_read 12) (axi_step (bus_read 12)
    {| axi_awaddr := 0; axi_awready := false; axi_wready := false; axi_bresp := 0;
       axi_bvalid := false; axi_araddr := 0; axi_arready := false; axi_rdata := 0;
       axi_rresp := 0; axi_rvalid := false; slv_reg := 1 :: 500 :: replicate 6 0; aw_en := true;
       u_core := loaded 1 |})) = 31.
Proof.
  etrans; [apply status_read_live; reflexivity|]. reflexivity.
Defined.

End TmrAxi.
