(* ===== verification/SwdtMonitor.v ===== *)
(** * The heartbeat monitor of the PMU firmware

    pmufw/swdt_monitor.c: the periodic task that reads the heartbeat register,
    counts consecutive reads without progress and recovers the system.  The
    PMU firmware framework (module creation, the scheduler, read-modify-write,
    the power-management state machine and the system reset) is outside the
    repository: its functions are [ext_call]s, and a call of
    [XPfw_ResetSystem] may return. *)

From S2P Require Import Prelude Machine.
From Stdlib Require Import String.
From stdpp Require Import strings.
#[local] Open Scope Z_scope.
#[local] Open Scope c_scope.

Module SwdtMonitor.

Definition HEARTBEAT_ADDR : Z := 0xFF130048.
Definition DBG_CB_COUNT_ADDR : Z := 0xFF13003C.
Definition DBG_HB_SEEN_ADDR : Z := 0xFF130040.
Definition DBG_MISS_ADDR : Z := 0xFF130044.
Definition CRL_APB_PCAP_CLK_CTRL : Z := 0xFF5E00A4.
Definition PCAP_CLK_EN : Z := 0x01000000.
Definition CSU_PCAP_PROG : Z := 0xFFCA3000.
Definition PCAP_PROG_PL_ASSERT : Z := 0.
Definition PCAP_PROG_PL_RELEASE : Z := 1.
Definition MONITOR_PERIOD_MS : Z := 2000.
Definition MISS_THRESHOLD : Z := 8.

(** The static variables of the file; [CbCount] is the function-local static
    of the callback.  [SwdtMod] is a pointer, 0 for NULL. *)
Record monitor := Monitor {
  SwdtMod : Z;
  PrevHbVal : Z;
  MissedCount : Z;
  Armed : Z;
  CbCount : Z
}.

Definition set_SwdtMod (p : Z) (v : monitor) : monitor :=
  Monitor p (PrevHbVal v) (MissedCount v) (Armed v) (CbCount v).
Definition set_PrevHbVal (h : Z) (v : monitor) : monitor :=
  Monitor (SwdtMod v) h (MissedCount v) (Armed v) (CbCount v).
Definition set_MissedCount (m : Z) (v : monitor) : monitor :=
  Monitor (SwdtMod v) (PrevHbVal v) m (Armed v) (CbCount v).
Definition set_Armed (a : Z) (v : monitor) : monitor :=
  Monitor (SwdtMod v) (PrevHbVal v) (MissedCount v) a (CbCount v).
Definition set_CbCount (c : Z) (v : monitor) : monitor :=
  Monitor (SwdtMod v) (PrevHbVal v) (MissedCount v) (Armed v) c.

Section Ops.
Context `{Env}.

Definition Xil_In32 : Z -> M monitor Z := mmio_read_32.
Definition Xil_Out32 : Z -> Z -> M monitor unit := mmio_write_32.

(** [pmMasterApu_g] and the event are passed by name; the call carries the two
    constants as 0. *)
Definition TriggerReset : M monitor unit :=
  _ <- ext_call "XPfw_RMW32" [CRL_APB_PCAP_CLK_CTRL; PCAP_CLK_EN; PCAP_CLK_EN] ;;
  Xil_Out32 CSU_PCAP_PROG PCAP_PROG_PL_ASSERT ;;
  delay_loop 200000 ;;
  Xil_Out32 CSU_PCAP_PROG PCAP_PROG_PL_RELEASE ;;
  _ <- ext_call "PmMasterFsm(pmMasterApu_g, PM_MASTER_EVENT_FORCE_DOWN)" [] ;;
  Xil_Out32 HEARTBEAT_ADDR 0 ;;
  modv (set_PrevHbVal 0) ;;
  modv (set_MissedCount 0) ;;
  modv (set_Armed 0) ;;
  _ <- ext_call "XPfw_ResetSystem" [] ;;
  ret tt.

Definition SwdtMonitorCallback : M monitor unit :=
  CurrentHb <- Xil_In32 HEARTBEAT_ADDR ;;
  modv (fun v => set_CbCount (u32 (CbCount v + 1)) v) ;;
  cb <- getv CbCount ;;
  Xil_Out32 DBG_CB_COUNT_ADDR cb ;;
  Xil_Out32 DBG_HB_SEEN_ADDR CurrentHb ;;
  armed <- getv Armed ;;
  if armed =? 0 then
    if negb (CurrentHb =? 0) then
      modv (set_Armed 1) ;;
      modv (set_PrevHbVal CurrentHb)
    else ret tt
  else
    prev <- getv PrevHbVal ;;
    if negb (CurrentHb =? prev) then
      modv (set_PrevHbVal CurrentHb) ;;
      modv (set_MissedCount 0)
    else
      modv (fun v => set_MissedCount (u32 (MissedCount v + 1)) v) ;;
      missed <- getv MissedCount ;;
      Xil_Out32 DBG_MISS_ADDR missed ;;
      missed' <- getv MissedCount ;;
      if missed' >=? MISS_THRESHOLD then TriggerReset else ret tt.

Definition SwdtMonitorInit : M monitor unit :=
  m <- ext_call "XPfw_CoreCreateMod" [] ;;
  modv (set_SwdtMod m) ;;
  if m =? 0 then ret tt
  else
    modv (set_PrevHbVal 0) ;;
    modv (set_MissedCount 0) ;;
    modv (set_Armed 0) ;;
    _ <- ext_call "XPfw_CoreScheduleTask(SwdtMonitorCallback)" [m; MONITOR_PERIOD_MS] ;;
    ret tt.

(** [n] periods of the scheduled task. *)
Fixpoint callbacks (n : nat) : M monitor unit :=
  match n with
  | O => ret tt
  | S n' => callbacks n' ;; SwdtMonitorCallback
  end.

End Ops.

(** ** Abstract specification: a decision on the history of reads

    Histories are newest first.  The heartbeat is [stalled] when the last nine
    reads agree (eight reads without progress) and a live heartbeat, a read
    other than 0, had been seen by the first of the nine. *)

Fixpoint runlen (v : Z) (l : list Z) : nat :=
  match l with
  | h :: l' => if h =? v then S (runlen v l') else O
  | [] => O
  end.

Definition stalled (l : list Z) : bool :=
  match l with
  | v :: _ => (9 <=? runlen v l)%nat && existsb truthy (drop 8 l)
  | [] => false
  end.

(** The history since the last recovery and the number of recoveries. *)
Fixpoint replay (l : list Z) : list Z * nat :=
  match l with
  | [] => ([], O)
  | h :: l' =>
      let (seen, n) := replay l' in
      if stalled (h :: seen) then ([], S n) else (h :: seen, n)
  end.

(** What the log of the PMU shows: heartbeat reads and system resets. *)
Fixpoint hb_reads (l : list event) : list Z :=
  match l with
  | [] => []
  | EvRd W32 a v :: l' => if a =? HEARTBEAT_ADDR then v :: hb_reads l' else hb_reads l'
  | _ :: l' => hb_reads l'
  end.

Definition is_reset (e : event) : bool :=
  match e with
  | EvCall f _ _ => bool_decide (f = "XPfw_ResetSystem"%string)
  | _ => false
  end.

Definition resets (l : list event) : nat := length (List.filter is_reset l).

Definition disarmed (v : monitor) : Prop :=
  Armed v = 0 /\ MissedCount v = 0.

(** The statics mirror the history since the last recovery. *)
Definition tracks (seen : list Z) (v : monitor) : Prop :=
  (disarmed v /\ Forall (fun h => h = 0) seen) \/
  (Armed v = 1 /\ 0 <= MissedCount v < 8 /\
   exists old, seen = PrevHbVal v :: old /\
     Z.of_nat (runlen (PrevHbVal v) seen) = MissedCount v + 1 /\
     existsb truthy (drop (Z.to_nat (MissedCount v)) seen) = true).

(** The recovery as the PMU log shows it, newest first. *)
Definition recovery (new : list event) : Prop :=
  exists r1 r2 r3, new =
    [EvCall "XPfw_ResetSystem" [] r3;
     EvWr W32 HEARTBEAT_ADDR 0;
     EvCall "PmMasterFsm(pmMasterApu_g, PM_MASTER_EVENT_FORCE_DOWN)" [] r2;
     EvWr W32 CSU_PCAP_PROG PCAP_PROG_PL_RELEASE;
     EvDelay 200000;
     EvWr W32 CSU_PCAP_PROG PCAP_PROG_PL_ASSERT;
     EvCall "XPfw_RMW32" [CRL_APB_PCAP_CLK_CTRL; PCAP_CLK_EN; PCAP_CLK_EN] r1].

(** One period, seen from outside: the value read, the statics after it, and
    whether it ended in a recovery. *)
Definition period (hb : Z) (v v' : monitor) (new : list event) : Prop :=
  let base := [EvWr W32 DBG_HB_SEEN_ADDR hb;
               EvWr W32 DBG_CB_COUNT_ADDR (u32 (CbCount v + 1));
               EvRd W32 HEARTBEAT_ADDR hb] in
  let m := u32 (MissedCount v + 1) in
  if Armed v =? 0 then
    new = base /\
    v' = set_CbCount (u32 (CbCount v + 1))
           (if hb =? 0 then v else set_PrevHbVal hb (set_Armed 1 v))
  else if negb (hb =? PrevHbVal v) then
    new = base /\
    v' = set_CbCount (u32 (CbCount v + 1)) (set_MissedCount 0 (set_PrevHbVal hb v))
  else if m <? MISS_THRESHOLD then
    new = EvWr W32 DBG_MISS_ADDR m :: base /\
    v' = set_CbCount (u32 (CbCount v + 1)) (set_MissedCount m v)
  else
    (exists rec, recovery rec /\ new = rec ++ EvWr W32 DBG_MISS_ADDR m :: base) /\
    v' = Monitor (SwdtMod v) 0 0 0 (u32 (CbCount v + 1)).

Section Proofs.
Context `{Env}.

Lemma TriggerReset_run d l h v : exists d' new,
  TriggerReset (St d l h v) =
    (Ret tt, St d' (new ++ l) h (Monitor (SwdtMod v) 0 0 0 (CbCount v))) /\
  recovery new.
Proof.
  unfold TriggerReset, Xil_Out32. run. eexists _, [_; _; _; _; _; _; _].
  split; [reflexivity|]. by do 3 eexists.
Qed.

(** The device after a period without recovery: the heartbeat read and the
    writes of the debug beacons. *)
Definition quiet (d d' : Dev) : Prop :=
  exists cb hb,
  let d1 := hw_write W32 DBG_HB_SEEN_ADDR hb
              (hw_write W32 DBG_CB_COUNT_ADDR cb (hw_read W32 HEARTBEAT_ADDR d).2) in
  d' = d1 \/ exists m, d' = hw_write W32 DBG_MISS_ADDR m d1.

Lemma Callback_run d l h v : exists d' hb v' new,
  SwdtMonitorCallback (St d l h v) = (Ret tt, St d' (new ++ l) h v') /\
  hb = u32 (hw_read W32 HEARTBEAT_ADDR d).1 /\ period hb v v' new /\
  (resets new = O -> quiet d d').
Proof.
  unfold SwdtMonitorCallback, period, Xil_In32, Xil_Out32. run.
  set (hb := u32 (hw_read W32 HEARTBEAT_ADDR d).1).
  assert (Hhb : 0 <= hb < 2 ^ 32) by apply u32_range.
  rewrite (u32_small hb) by done.
  destruct v as [p prev missed armed cb]. cbn [set_CbCount CbCount Armed PrevHbVal MissedCount].
  rewrite u32_u32. destruct (armed =? 0).
  - destruct (hb =? 0) eqn:E; cbn [negb]; run; eexists _, hb, _, [_; _; _];
      (split; [reflexivity|]); rewrite E; repeat (split; [done|]);
      intros _; eexists _, _; by left.
  - run. cbn [set_CbCount PrevHbVal]. destruct (hb =? prev) eqn:E; cbn [negb]; run.
    2: { eexists _, hb, _, [_; _; _]; (split; [reflexivity|]). rewrite E.
         repeat (split; [done|]). intros _. eexists _, _. by left. }
    cbn [set_MissedCount MissedCount set_CbCount].
    rewrite u32_u32, Z.geb_leb, Z.leb_antisym.
    destruct (u32 (missed + 1) <? MISS_THRESHOLD) eqn:E'; cbn [negb]; run.
    + eexists _, hb, _, [_; _; _; _]; (split; [reflexivity|]).
      cbn [MissedCount]. rewrite E. repeat (split; [done|]). intros _. eexists _, _. right. by eexists.
    + edestruct TriggerReset_run as (d' & new & -> & Hn).
      eexists _, hb, _, (new ++ [_; _; _; _]).
      split; [rewrite <- (assoc_L (++)); reflexivity|]. split; [done|].
      cbn [MissedCount]. rewrite E. cbn [negb]. split; [eauto|].
      pose proof Hn as (r1 & r2 & r3 & ->). done.
Qed.

Lemma hb_reads_app l1 l2 : hb_reads (l1 ++ l2) = hb_reads l1 ++ hb_reads l2.
Proof.
  induction l1 as [|[[] a v| | | | | | |] l1 IH]; simpl; rewrite ?IH; try done.
  by destruct (a =? _).
Qed.

Lemma resets_app l1 l2 : resets (l1 ++ l2) = (resets l1 + resets l2)%nat.
Proof. unfold resets. by rewrite List.filter_app, length_app. Qed.

Lemma runlen_zero l v : Forall (fun h => h = 0) l -> v <> 0 -> runlen v l = O.
Proof. intros [|h l' -> _]; simpl; [done|]. intros Hv. by destruct v. Qed.

Lemma stalled_zero l : Forall (fun h => h = 0) l -> stalled l = false.
Proof.
  intros Hl. destruct l as [|v l]; [done|]. unfold stalled.
  apply andb_false_iff. right. apply not_true_iff_false. intros He%existsb_drop.
  rewrite existsb_false in He; [done|]. eapply list.Forall_impl; [done|]. by intros ? ->.
Qed.

(** One period against one step of the specification. *)
Lemma period_tracks seen hb v v' new :
  tracks seen v -> period hb v v' new ->
  hb_reads new = [hb] /\
  if stalled (hb :: seen)
  then resets new = 1%nat /\ tracks [] v' /\ exists rec tl, recovery rec /\ new = rec ++ tl
  else resets new = O /\ tracks (hb :: seen) v'.
Proof.
  intros Ht Hp. unfold period in Hp. destruct Ht as [[[Ha Hm] Hz]|(Ha & Hm & old & -> & Hr & He)].
  - rewrite Ha in Hp. cbn in Hp. destruct Hp as [-> ->]. split; [done|].
    destruct (hb =? 0) eqn:E; zbool.
    + subst. rewrite stalled_zero by by constructor. split; [done|]. left.
      split; [done|]. by constructor.
    + unfold stalled. simpl runlen. rewrite Z.eqb_refl, runlen_zero by done.
      simpl. split; [done|]. right. simpl. rewrite Hm. split; [done|]. split; [lia|].
      exists seen. split; [done|]. rewrite Z.eqb_refl, runlen_zero by done.
      split; [done|]. simpl. apply Z.eqb_neq in E. unfold truthy. by rewrite E.
  - rewrite Ha in Hp. cbn -[MISS_THRESHOLD] in Hp. unfold stalled. simpl runlen in *.
    rewrite Z.eqb_refl in *. destruct (hb =? PrevHbVal v) eqn:E; cbn -[MISS_THRESHOLD] in Hp.
    + apply Z.eqb_eq in E. subst hb. rewrite Z.eqb_refl. unfold MISS_THRESHOLD in Hp.
      rewrite u32_small in Hp by lia.
      destruct (MissedCount v + 1 <? 8) eqn:E8; zbool.
      * destruct Hp as [-> ->]. split; [done|].
        replace (9 <=? _)%nat with false by (symmetry; apply Nat.leb_gt; lia).
        cbn [andb]. split; [done|]. right. simpl. split; [done|]. split; [lia|].
        eexists. split; [done|]. rewrite Z.eqb_refl. split; [lia|].
        replace (Z.to_nat (MissedCount v + 1)) with (S (Z.to_nat (MissedCount v))) by lia.
        done.
      * destruct Hp as [(rec & Hrec & ->) ->].
        assert (HM : MissedCount v = 7) by lia. rewrite HM in He.
        replace (9 <=? _)%nat with true by (symmetry; apply Nat.leb_le; lia).
        change (drop 8 _) with (drop (Z.to_nat 7) (PrevHbVal v :: old)).
        rewrite He. cbn [andb].
        pose proof Hrec as (r1 & r2 & r3 & ->). split; [done|].
        split; [done|]. split; [left; done|]. eauto.
    + apply Z.eqb_neq in E. destruct Hp as [-> ->]. split; [done|].
      assert (He' : (PrevHbVal v =? hb) = false) by (apply Z.eqb_neq; congruence).
      rewrite He'.
      cbn [Nat.leb andb]. split; [done|]. right. simpl. split; [done|]. split; [lia|].
      eexists. split; [done|].
      rewrite Z.eqb_refl, He'.
      split; [done|]. apply orb_true_iff. right. by eapply (existsb_drop _ _ (_ :: _)).
Qed.

Lemma callbacks_track n d l h v : tracks [] v -> exists d' v' new,
  callbacks n (St d l h v) = (Ret tt, St d' (new ++ l) h v') /\
  length (hb_reads new) = n /\
  tracks (replay (hb_reads new)).1 v' /\ resets new = (replay (hb_reads new)).2.
Proof.
  intros Ht. induction n as [|n (d1 & v1 & new1 & Hrun & Hlen & Htr & Hres)]; simpl.
  { by eexists _, _, []. }
  rewrite (bind_run _ _ _ _ _ Hrun).
  destruct (Callback_run d1 (new1 ++ l) h v1) as (d2 & hb & v2 & new2 & -> & _ & Hp & _).
  eexists _, _, (new2 ++ new1). rewrite (assoc_L (++)). split; [done|].
  destruct (period_tracks _ _ _ _ _ Htr Hp) as [Hhb Hst].
  rewrite hb_reads_app, resets_app, Hhb. cbn [app length replay]. split; [congruence|].
  destruct (replay (hb_reads new1)) as [seen k]; cbn [fst snd] in *.
  revert Hst. destruct (stalled (hb :: seen)); intros Hst; simpl.
  - destruct Hst as (-> & Ht' & _). split; [done|]. by rewrite Hres.
  - destruct Hst as (-> & Ht'). split; [done|]. by rewrite Hres.
Qed.

Lemma Init_run d l h v : disarmed v -> exists d' v' new,
  SwdtMonitorInit (St d l h v) = (Ret tt, St d' (new ++ l) h v') /\
  hb_reads new = [] /\ resets new = O /\ disarmed v'.
Proof.
  intros Hv. unfold SwdtMonitorInit. run. destruct (_ =? 0); run.
  - by eexists _, _, [_].
  - by eexists _, _, [_; _].
Qed.

(** The boot value of the statics (.bss). *)
Definition bss : monitor := Monitor 0 0 0 0 0.

(** C8: from power-up, for every number of periods and every behaviour of the
    hardware, the monitor returns from each callback, reads the heartbeat once
    per period, and calls [XPfw_ResetSystem] exactly as often as the abstract
    decision procedure on the history of reads asks for: when nine consecutive
    reads agree after a live heartbeat was seen, counting afresh after each
    recovery. *)
Theorem monitor_refines_history n d l h : exists s' new,
  bind SwdtMonitorInit (fun _ => callbacks n) (St d l h bss) = (Ret tt, s') /\
  log s' = new ++ l /\ length (hb_reads new) = n /\
  resets new = (replay (hb_reads new)).2.
Proof.
  destruct (Init_run d l h bss) as (d1 & v1 & new1 & Hr1 & Hh1 & Hres1 & Hd1); [done|].
  rewrite (bind_run _ _ _ _ _ Hr1).
  destruct (callbacks_track n d1 (new1 ++ l) h v1) as (d2 & v2 & new2 & -> & Hn & _ & Hres2).
  { by left. }
  exists (St d2 (new2 ++ new1 ++ l) h v2), (new2 ++ new1).
  rewrite hb_reads_app, resets_app, Hh1, Hres1, app_nil_r, Nat.add_0_r.
  simpl. by rewrite (assoc_L (++)).
Qed.

(** Every reset in a log is the last step of a recovery. *)
Definition resets_recover (l : list event) : Prop :=
  forall a e b, l = a ++ e :: b -> is_reset e = true ->
  exists rec tl, recovery rec /\ e :: b = rec ++ tl.

Lemma resets_recover_app l1 l2 :
  resets_recover l1 -> resets_recover l2 -> resets_recover (l1 ++ l2).
Proof.
  intros H1 H2 a e b Heq He. apply app_eq_inv in Heq as [(k & -> & Hk)|(k & -> & ->)].
  - destruct k as [|e' k]; simplify_eq/=.
    + by apply (H2 [] e b).
    + destruct (H1 a e' k) as (rec & tl & Hrec & Heq); [done|done|].
      exists rec, (tl ++ l2). split; [done|]. rewrite (assoc_L (++)), <- Heq. done.
  - by apply (H2 k e b).
Qed.

Lemma resets_recover_none l : resets l = O -> resets_recover l.
Proof.
  intros Hl a e b -> He. unfold resets in Hl.
  rewrite List.filter_app, length_app in Hl. simpl in Hl. rewrite He in Hl. simpl in Hl. lia.
Qed.

Lemma recovery_recovers rec tl : recovery rec -> resets tl = O -> resets_recover (rec ++ tl).
Proof.
  intros Hrec Htl. apply resets_recover_app; [|by apply resets_recover_none].
  intros a e b Heq He. pose proof Hrec as (r1 & r2 & r3 & ->).
  destruct a as [|? a]; simplify_eq/=; [eexists _, []; by rewrite app_nil_r|].
  repeat (destruct a as [|? a]; simpl in *; simplify_eq; try (vm_compute in He; discriminate)).
Qed.

Lemma Callback_recovers d l h v : exists s' new,
  SwdtMonitorCallback (St d l h v) = (Ret tt, s') /\ log s' = new ++ l /\ resets_recover new.
Proof.
  destruct (Callback_run d l h v) as (d' & hb & v' & new & Hr & _ & Hp & _).
  rewrite Hr. eexists _, new. split; [done|]. split; [done|].
  revert Hp. unfold period. repeat if_case; intros [Hn _];
    try (subst; by apply resets_recover_none).
  destruct Hn as (rec & Hrec & ->). by apply recovery_recovers.
Qed.

(** C9: whatever the hardware does and whatever the statics hold, a callback
    never calls [XPfw_ResetSystem] on its own: the call is immediately preceded
    by the complete recovery sequence, in order (PCAP clock enabled, PROG_B
    asserted, held for 200000 turns, released, the APU forced down, the
    heartbeat register cleared). *)
Theorem reset_only_after_recovery n d l h v : exists s' new,
  callbacks n (St d l h v) = (Ret tt, s') /\ log s' = new ++ l /\
  forall a e b, new = a ++ e :: b -> is_reset e = true ->
  exists r1 r2 tl, b =
    EvWr W32 HEARTBEAT_ADDR 0 ::
    EvCall "PmMasterFsm(pmMasterApu_g, PM_MASTER_EVENT_FORCE_DOWN)" [] r2 ::
    EvWr W32 CSU_PCAP_PROG PCAP_PROG_PL_RELEASE ::
    EvDelay 200000 ::
    EvWr W32 CSU_PCAP_PROG PCAP_PROG_PL_ASSERT ::
    EvCall "XPfw_RMW32" [CRL_APB_PCAP_CLK_CTRL; PCAP_CLK_EN; PCAP_CLK_EN] r1 :: tl.
Proof.
  enough (exists s' new, callbacks n (St d l h v) = (Ret tt, s') /\ log s' = new ++ l /\
    resets_recover new) as (s' & new & Hr & Hl & Hrec).
  { exists s', new. split; [done|]. split; [done|]. intros a e b Heq He.
    destruct (Hrec a e b Heq He) as (rec & tl & (r1 & r2 & r3 & ->) & Hb).
    simplify_eq/=. by eexists r1, r2, tl. }
  induction n as [|n (s1 & new1 & Hr1 & Hl1 & Hrec1)]; simpl.
  { eexists _, []. split; [done|]. split; [done|]. by apply resets_recover_none. }
  rewrite (bind_run _ _ _ _ _ Hr1). destruct s1 as [d1 l1 h1 v1].
  destruct (Callback_recovers d1 l1 h1 v1) as (s2 & new2 & -> & Hl2 & Hrec2).
  exists s2, (new2 ++ new1). simpl in Hl1. subst l1. rewrite <- (assoc_L (++)).
  split; [done|]. split; [done|]. by apply resets_recover_app.
Qed.

End Proofs.

(** ** What the abstract decision guarantees *)

Lemma runlen_split v l k : (k <= runlen v l)%nat -> exists b, l = replicate k v ++ b.
Proof.
  revert k. induction l as [|h l IH]; simpl; intros [|k] Hk; try (by eexists); try lia.
  destruct (h =? v) eqn:E; [|lia]. zbool. subst.
  destruct (IH k) as [b ->]; [lia|]. by exists b.
Qed.

Lemma runlen_replicate v k l : (k <= runlen v (replicate k v ++ l))%nat.
Proof. induction k; simpl; [lia|]. rewrite Z.eqb_refl. lia. Qed.

Lemma stalled_nine v l : v <> 0 -> stalled (replicate 9 v ++ l) = true.
Proof.
  intros Hv. unfold stalled. change (replicate 9 v ++ l) with (v :: replicate 8 v ++ l).
  apply andb_true_iff. split.
  - apply Nat.leb_le. apply (runlen_replicate v 9 l).
  - simpl. unfold truthy. apply Z.eqb_neq in Hv. by rewrite Hv.
Qed.

Lemma replay_replicate k v l :
  ((replay l).2 < (replay (replicate k v ++ l)).2)%nat \/
  replay (replicate k v ++ l) = (replicate k v ++ (replay l).1, (replay l).2).
Proof.
  induction k as [|k IH]; simpl; [right; by destruct (replay l)|].
  destruct (replay (replicate k v ++ l)) as [seen n] eqn:E; simpl in *.
  destruct IH as [Hlt|Heq]; simplify_eq.
  - left. if_case; simpl; lia.
  - if_case; [left; simpl; lia|by right].
Qed.

Lemma replay_not_stalled l : stalled (replay l).1 = false.
Proof.
  destruct l as [|h l]; [done|]. cbn [replay]. destruct (replay l) as [seen n]. by if_case.
Qed.

(** Nine equal reads of a live heartbeat make at least one recovery. *)
Lemma replay_nine v l : v <> 0 -> ((replay l).2 < (replay (replicate 9 v ++ l)).2)%nat.
Proof.
  intros Hv. destruct (replay_replicate 9 v l) as [Hlt|Heq]; [done|].
  pose proof (replay_not_stalled (replicate 9 v ++ l)) as Hn.
  rewrite Heq in Hn. cbn [fst] in Hn. by rewrite stalled_nine in Hn.
Qed.

(** Without nine consecutive equal reads there is no recovery. *)
Lemma replay_no_run l :
  (forall a v b, l <> a ++ replicate 9 v ++ b) -> replay l = (l, O).
Proof.
  induction l as [|h l IH]; intros Hno; [done|]. cbn [replay]. rewrite IH.
  - destruct (stalled (h :: l)) eqn:E; [|done]. exfalso. unfold stalled in E.
    apply andb_true_iff in E as [E _].
    apply Nat.leb_le, runlen_split in E as [b Hb]. by apply (Hno [] h b).
  - intros a v b ->. by apply (Hno (h :: a) v b).
Qed.

End SwdtMonitor.
