(* ===== verification/Gic.v ===== *)
(** * The GICv2 driver of Trusted Firmware-A

    drivers/arm/gic/common/gic_common.c, drivers/arm/gic/v2/gicv2_main.c,
    gicv2_helpers.c and gicv2_private.h, the platform layer
    plat/common/plat_gicv2.c, plat/arm/common/arm_gicv2.c and
    plat/xilinx/zynqmp/plat_zynqmp.c.  Configuration of the ZynqMP build:
    GICV2_G0_FOR_EL3 = 1, WARMBOOT_ENABLE_DCACHE_EARLY = 1 (no cache
    maintenance), assertions enabled. *)

From S2P Require Import Prelude Machine.
#[local] Open Scope Z_scope.
#[local] Open Scope c_scope.

Module Gic.

(** ** Constants: gic_common.h, gicv2.h, interrupt_mgmt.h, platform_def.h *)

Definition MIN_SGI_ID : Z := 0.
Definition MIN_PPI_ID : Z := 16.
Definition MIN_SPI_ID : Z := 32.
Definition MAX_SPI_ID : Z := 1019.
Definition GIC_PRI_MASK : Z := 0xff.
Definition GIC_CFG_MASK : Z := 0x3.
Definition GIC_SPURIOUS_INTERRUPT : Z := 1023.
Definition GIC_INTR_CFG_LEVEL : Z := 0.
Definition GIC_INTR_CFG_EDGE : Z := 2.
Definition GIC_HIGHEST_SEC_PRIORITY : Z := 0.
Definition GICD_CTLR : Z := 0x0.
Definition GICD_TYPER : Z := 0x4.
Definition GICD_IGROUPR : Z := 0x80.
Definition GICD_ISENABLER : Z := 0x100.
Definition GICD_ICENABLER : Z := 0x180.
Definition GICD_ISPENDR : Z := 0x200.
Definition GICD_ICPENDR : Z := 0x280.
Definition GICD_ISACTIVER : Z := 0x300.
Definition GICD_ICACTIVER : Z := 0x380.
Definition GICD_IPRIORITYR : Z := 0x400.
Definition GICD_ITARGETSR : Z := 0x800.
Definition GICD_ICFGR : Z := 0xc00.
Definition GICD_NSACR : Z := 0xe00.
Definition GICD_SGIR : Z := 0xF00.
Definition GICD_CPENDSGIR : Z := 0xF10.
Definition GICD_SPENDSGIR : Z := 0xF20.
Definition GICD_PIDR2_GICV2 : Z := 0xFE8.
Definition CTLR_ENABLE_G0_BIT : Z := 0x1.
Definition CTLR_ENABLE_G1_BIT : Z := 0x2.
Definition GICD_IPRIORITYR_DEF_VAL : Z := 0x80808080.
Definition GIC_TARGET_CPU_MASK : Z := 0xff.
Definition GICV2_MAX_TARGET_PE : Z := 8.
Definition GICV2_INTR_GROUP0 : Z := 0.
Definition GICV2_INTR_GROUP1 : Z := 1.
Definition PENDING_G1_INTID : Z := 1022.
Definition INT_ID_MASK : Z := 0x3ff.
Definition GICC_CTLR : Z := 0x0.
Definition GICC_PMR : Z := 0x4.
Definition GICC_IAR : Z := 0xC.
Definition GICC_EOIR : Z := 0x10.
Definition GICC_RPR : Z := 0x14.
Definition GICC_HPPIR : Z := 0x18.
Definition GICC_AHPPIR : Z := 0x28.
Definition IRQ_BYP_DIS_GRP1 : Z := BIT 8.
Definition FIQ_BYP_DIS_GRP1 : Z := BIT 7.
Definition IRQ_BYP_DIS_GRP0 : Z := BIT 6.
Definition FIQ_BYP_DIS_GRP0 : Z := BIT 5.
Definition FIQ_EN_SHIFT : Z := 3.
Definition FIQ_EN_BIT : Z := BIT 3.

Definition INTR_TYPE_S_EL1 : Z := 0.
Definition INTR_TYPE_EL3 : Z := 1.
Definition INTR_TYPE_NS : Z := 2.
Definition MAX_INTR_TYPES : Z := 3.
Definition INTR_TYPE_INVAL : Z := 3.
Definition INTR_ROUTING_MODE_PE : Z := 0.
Definition INTR_ROUTING_MODE_ANY : Z := 1.
Definition INTR_ID_UNAVAILABLE : Z := 0xFFFFFFFF.
Definition SECURE : Z := 0.
Definition NON_SECURE : Z := 1.
Definition SCR_IRQ_POS : Z := 1. (* __builtin_ctz(SCR_IRQ_BIT) *)
Definition SCR_FIQ_POS : Z := 2. (* __builtin_ctz(SCR_FIQ_BIT) *)
Definition sec_state_is_valid (s : Z) : bool := (s =? SECURE) || (s =? NON_SECURE).

Definition PLATFORM_CORE_COUNT : Z := 4.
Definition PLAT_ARM_GICD_BASE : Z := 0xF9010000.
Definition PLAT_ARM_GICC_BASE : Z := 0xF9020000.
Definition IRQ_TTC3_1 : Z := 77.
Definition ARM_IRQ_SEC_PHY_TIMER : Z := 29.
Definition ARM_IRQ_SEC_SGI_7 : Z := 15.
Definition MPIDR_CPU_MASK : Z := 0xff.
Definition MPIDR_CLUSTER_MASK : Z := 0xff00.

(** ** Data *)

Record interrupt_prop := IntrProp {
  intr_num : Z;
  intr_pri : Z;
  intr_grp : Z;
  intr_cfg : Z
}.

(** [target_masks] tells whether the pointer is set; the array it points to is
    the static [target_mask_array]. *)
Record gicv2_driver_data := DriverData {
  gicd_base : Z;
  gicc_base : Z;
  interrupt_props : option (list interrupt_prop);
  interrupt_props_num : Z;
  target_masks : bool;
  target_masks_num : Z
}.

Record gic := GicVars {
  driver_data : option gicv2_driver_data;
  target_mask_array : list Z
}.

Definition set_driver_data (p : option gicv2_driver_data) (g : gic) : gic :=
  GicVars p (target_mask_array g).
Definition set_target_mask_array (l : list Z) (g : gic) : gic :=
  GicVars (driver_data g) l.

Section Ops.
Context `{Env} {V : Type} `{!Has gic V}.

(** ** gic_common_private.h, gic_common.c: whole registers *)

Definition gicd_read_ctlr (base : Z) : M V Z := mmio_read_32 (base + GICD_CTLR).
Definition gicd_read_typer (base : Z) : M V Z := mmio_read_32 (base + GICD_TYPER).
Definition gicd_write_ctlr (base val : Z) : M V unit := mmio_write_32 (base + GICD_CTLR) val.

Definition gicd_read_igroupr (base id : Z) : M V Z :=
  let n := id .>> 5 in mmio_read_32 (base + GICD_IGROUPR + (n .<< 2)).
Definition gicd_read_isenabler (base id : Z) : M V Z :=
  let n := id .>> 5 in mmio_read_32 (base + GICD_ISENABLER + (n .<< 2)).
Definition gicd_read_icenabler (base id : Z) : M V Z :=
  let n := id .>> 5 in mmio_read_32 (base + GICD_ICENABLER + (n .<< 2)).
Definition gicd_read_ispendr (base id : Z) : M V Z :=
  let n := id .>> 5 in mmio_read_32 (base + GICD_ISPENDR + (n .<< 2)).
Definition gicd_read_icpendr (base id : Z) : M V Z :=
  let n := id .>> 5 in mmio_read_32 (base + GICD_ICPENDR + (n .<< 2)).
Definition gicd_read_isactiver (base id : Z) : M V Z :=
  let n := id .>> 5 in mmio_read_32 (base + GICD_ISACTIVER + (n .<< 2)).
Definition gicd_read_icactiver (base id : Z) : M V Z :=
  let n := id .>> 5 in mmio_read_32 (base + GICD_ICACTIVER + (n .<< 2)).
Definition gicd_read_ipriorityr (base id : Z) : M V Z :=
  let n := id .>> 2 in mmio_read_32 (base + GICD_IPRIORITYR + (n .<< 2)).
Definition gicd_read_icfgr (base id : Z) : M V Z :=
  let n := id .>> 4 in mmio_read_32 (base + GICD_ICFGR + (n .<< 2)).
Definition gicd_read_nsacr (base id : Z) : M V Z :=
  let n := id .>> 4 in mmio_read_32 (base + GICD_NSACR + (n .<< 2)).

Definition gicd_write_igroupr (base id val : Z) : M V unit :=
  let n := id .>> 5 in mmio_write_32 (base + GICD_IGROUPR + (n .<< 2)) val.
Definition gicd_write_isenabler (base id val : Z) : M V unit :=
  let n := id .>> 5 in mmio_write_32 (base + GICD_ISENABLER + (n .<< 2)) val.
Definition gicd_write_icenabler (base id val : Z) : M V unit :=
  let n := id .>> 5 in mmio_write_32 (base + GICD_ICENABLER + (n .<< 2)) val.
Definition gicd_write_ispendr (base id val : Z) : M V unit :=
  let n := id .>> 5 in mmio_write_32 (base + GICD_ISPENDR + (n .<< 2)) val.
Definition gicd_write_icpendr (base id val : Z) : M V unit :=
  let n := id .>> 5 in mmio_write_32 (base + GICD_ICPENDR + (n .<< 2)) val.
Definition gicd_write_isactiver (base id val : Z) : M V unit :=
  let n := id .>> 5 in mmio_write_32 (base + GICD_ISACTIVER + (n .<< 2)) val.
Definition gicd_write_icactiver (base id val : Z) : M V unit :=
  let n := id .>> 5 in mmio_write_32 (base + GICD_ICACTIVER + (n .<< 2)) val.
Definition gicd_write_ipriorityr (base id val : Z) : M V unit :=
  let n := id .>> 2 in mmio_write_32 (base + GICD_IPRIORITYR + (n .<< 2)) val.
Definition gicd_write_icfgr (base id val : Z) : M V unit :=
  let n := id .>> 4 in mmio_write_32 (base + GICD_ICFGR + (n .<< 2)) val.
Definition gicd_write_nsacr (base id val : Z) : M V unit :=
  let n := id .>> 4 in mmio_write_32 (base + GICD_NSACR + (n .<< 2)) val.

(** ** gic_common.c: one interrupt *)

Definition gicd_get_igroupr (base id : Z) : M V Z :=
  let bit_num := id .& ((1 .<< 5) - 1) in
  reg_val <- gicd_read_igroupr base id ;;
  ret ((reg_val .>> bit_num) .& 0x1).

Definition gicd_set_igroupr (base id : Z) : M V unit :=
  let bit_num := id .& ((1 .<< 5) - 1) in
  reg_val <- gicd_read_igroupr base id ;;
  gicd_write_igroupr base id (reg_val .| (1 .<< bit_num)).

Definition gicd_clr_igroupr (base id : Z) : M V unit :=
  let bit_num := id .& ((1 .<< 5) - 1) in
  reg_val <- gicd_read_igroupr base id ;;
  gicd_write_igroupr base id (reg_val .& not32 (1 .<< bit_num)).

Definition gicd_set_isenabler (base id : Z) : M V unit :=
  let bit_num := id .& ((1 .<< 5) - 1) in gicd_write_isenabler base id (1 .<< bit_num).
Definition gicd_set_icenabler (base id : Z) : M V unit :=
  let bit_num := id .& ((1 .<< 5) - 1) in gicd_write_icenabler base id (1 .<< bit_num).
Definition gicd_set_ispendr (base id : Z) : M V unit :=
  let bit_num := id .& ((1 .<< 5) - 1) in gicd_write_ispendr base id (1 .<< bit_num).
Definition gicd_set_icpendr (base id : Z) : M V unit :=
  let bit_num := id .& ((1 .<< 5) - 1) in gicd_write_icpendr base id (1 .<< bit_num).

Definition gicd_get_isactiver (base id : Z) : M V Z :=
  let bit_num := id .& ((1 .<< 5) - 1) in
  reg_val <- gicd_read_isactiver base id ;;
  ret ((reg_val .>> bit_num) .& 0x1).

Definition gicd_set_isactiver (base id : Z) : M V unit :=
  let bit_num := id .& ((1 .<< 5) - 1) in gicd_write_isactiver base id (1 .<< bit_num).
Definition gicd_set_icactiver (base id : Z) : M V unit :=
  let bit_num := id .& ((1 .<< 5) - 1) in gicd_write_icactiver base id (1 .<< bit_num).

Definition gicd_set_ipriorityr (base id pri : Z) : M V unit :=
  let val := u8 (pri .& GIC_PRI_MASK) in
  mmio_write_8 (base + GICD_IPRIORITYR + id) val.

Definition gicd_set_icfgr (base id cfg : Z) : M V unit :=
  let bit_num := id .& ((1 .<< 4) - 1) in
  let bit_shift := bit_num .<< 1 in
  reg_val <- gicd_read_icfgr base id ;;
  let reg_val := reg_val .& not32 (GIC_CFG_MASK .<< bit_shift) in
  let reg_val := reg_val .| ((cfg .& GIC_CFG_MASK) .<< bit_shift) in
  gicd_write_icfgr base id reg_val.

(** ** gicv2_private.h *)

Definition gicd_read_pidr2 (base : Z) : M V Z := mmio_read_32 (base + GICD_PIDR2_GICV2).
Definition gicd_get_itargetsr (base id : Z) : M V Z := mmio_read_8 (base + GICD_ITARGETSR + id).
Definition gicd_set_itargetsr (base id target : Z) : M V unit :=
  let val := u8 (target .& GIC_TARGET_CPU_MASK) in
  mmio_write_8 (base + GICD_ITARGETSR + id) val.
Definition gicd_write_sgir (base val : Z) : M V unit := mmio_write_32 (base + GICD_SGIR) val.
Definition gicc_read_ctlr (base : Z) : M V Z := mmio_read_32 (base + GICC_CTLR).
Definition gicc_read_pmr (base : Z) : M V Z := mmio_read_32 (base + GICC_PMR).
Definition gicc_read_IAR (base : Z) : M V Z := mmio_read_32 (base + GICC_IAR).
Definition gicc_read_hppir (base : Z) : M V Z := mmio_read_32 (base + GICC_HPPIR).
Definition gicc_read_ahppir (base : Z) : M V Z := mmio_read_32 (base + GICC_AHPPIR).
Definition gicc_read_rpr (base : Z) : M V Z := mmio_read_32 (base + GICC_RPR).
Definition gicc_write_ctlr (base val : Z) : M V unit := mmio_write_32 (base + GICC_CTLR) val.
Definition gicc_write_pmr (base val : Z) : M V unit := mmio_write_32 (base + GICC_PMR) val.
Definition gicc_write_EOIR (base val : Z) : M V unit := mmio_write_32 (base + GICC_EOIR) val.

(** ** gicv2_helpers.c *)

Definition gicd_read_itargetsr (base id : Z) : M V Z :=
  let n := id .>> 2 in mmio_read_32 (base + GICD_ITARGETSR + (n .<< 2)).
Definition gicd_read_cpendsgir (base id : Z) : M V Z :=
  let n := id .>> 2 in mmio_read_32 (base + GICD_CPENDSGIR + (n .<< 2)).
Definition gicd_read_spendsgir (base id : Z) : M V Z :=
  let n := id .>> 2 in mmio_read_32 (base + GICD_SPENDSGIR + (n .<< 2)).
Definition gicd_write_itargetsr (base id val : Z) : M V unit :=
  let n := id .>> 2 in mmio_write_32 (base + GICD_ITARGETSR + (n .<< 2)) val.
Definition gicd_write_cpendsgir (base id val : Z) : M V unit :=
  let n := id .>> 2 in mmio_write_32 (base + GICD_CPENDSGIR + (n .<< 2)) val.
Definition gicd_write_spendsgir (base id val : Z) : M V unit :=
  let n := id .>> 2 in mmio_write_32 (base + GICD_SPENDSGIR + (n .<< 2)) val.

Definition gicv2_get_cpuif_id (base : Z) : M V Z :=
  val <- gicd_read_itargetsr base 0 ;;
  ret (val .& GIC_TARGET_CPU_MASK).

Definition gicv2_spis_configure_defaults (base : Z) : M V unit :=
  num_ints <- gicd_read_typer base ;;
  let num_ints := num_ints .& 0x1f in
  let num_ints := (num_ints + 1) .<< 5 in
  for_each (steps MIN_SPI_ID num_ints 32)
    (fun index => gicd_write_igroupr base index (not32 0)) ;;
  for_each (steps MIN_SPI_ID num_ints 4)
    (fun index => gicd_write_ipriorityr base index GICD_IPRIORITYR_DEF_VAL) ;;
  for_each (steps MIN_SPI_ID num_ints 16)
    (fun index => gicd_write_icfgr base index 0).

(** The properties array, [interrupt_props_num] entries of it. *)
Definition props_of (props : option (list interrupt_prop)) (num : Z) : M V (list interrupt_prop) :=
  (if negb (num =? 0) then c_assert (bool_decide (is_Some props)) else ret tt) ;;
  let l := default [] props in
  if Z.of_nat (length l) <? num then stop OutOfBounds else ret (take (Z.to_nat num) l).

Definition gicv2_secure_spis_configure_props (base : Z)
    (interrupt_props : option (list interrupt_prop)) (num : Z) : M V unit :=
  props <- props_of interrupt_props num ;;
  for_each props (fun prop_desc =>
    if intr_num prop_desc <? MIN_SPI_ID then ret tt
    else
      c_assert (intr_grp prop_desc =? GICV2_INTR_GROUP0) ;;
      gicd_clr_igroupr base (intr_num prop_desc) ;;
      gicd_set_ipriorityr base (intr_num prop_desc) (intr_pri prop_desc) ;;
      me <- gicv2_get_cpuif_id base ;;
      gicd_set_itargetsr base (intr_num prop_desc) me ;;
      gicd_set_icfgr base (intr_num prop_desc) (intr_cfg prop_desc) ;;
      gicd_set_isenabler base (intr_num prop_desc)).

(** The loop over the properties, with [sec_ppi_sgi_mask] as accumulator. *)
Fixpoint sec_ppi_sgi_loop (base : Z) (props : list interrupt_prop) (mask : Z) : M V Z :=
  match props with
  | [] => ret mask
  | prop_desc :: props' =>
      if intr_num prop_desc >=? MIN_SPI_ID then sec_ppi_sgi_loop base props' mask
      else
        c_assert (intr_grp prop_desc =? GICV2_INTR_GROUP0) ;;
        (if (intr_num prop_desc >=? MIN_PPI_ID) && (intr_num prop_desc <? MIN_SPI_ID)
         then gicd_set_icfgr base (intr_num prop_desc) (intr_cfg prop_desc)
         else ret tt) ;;
        let mask := mask .| (1 .<< intr_num prop_desc) in
        gicd_set_ipriorityr base (intr_num prop_desc) (intr_pri prop_desc) ;;
        sec_ppi_sgi_loop base props' mask
  end.

Definition gicv2_secure_ppi_sgi_setup_props (base : Z)
    (interrupt_props : option (list interrupt_prop)) (num : Z) : M V unit :=
  props <- props_of interrupt_props num ;;
  gicd_write_icenabler base 0 (not32 0) ;;
  for_each (steps 0 MIN_SPI_ID 4)
    (fun i => gicd_write_ipriorityr base i GICD_IPRIORITYR_DEF_VAL) ;;
  sec_ppi_sgi_mask <- sec_ppi_sgi_loop base props 0 ;;
  gicd_write_igroupr base 0 (not32 sec_ppi_sgi_mask) ;;
  gicd_write_isenabler base 0 sec_ppi_sgi_mask.

(** ** gicv2_main.c *)

(** The assertions each operation of the driver begins with. *)
Definition driver : M V gicv2_driver_data :=
  p <- gets driver_data ;;
  c_assert (bool_decide (is_Some p)) ;;
  deref p.

Definition with_gicc : M V gicv2_driver_data :=
  d <- driver ;;
  c_assert (negb (gicc_base d =? 0)) ;;
  ret d.

Definition with_gicd : M V gicv2_driver_data :=
  d <- driver ;;
  c_assert (negb (gicd_base d =? 0)) ;;
  ret d.

Definition gicv2_cpuif_enable : M V unit :=
  d <- with_gicc ;;
  let val := CTLR_ENABLE_G0_BIT .| FIQ_EN_BIT .| FIQ_BYP_DIS_GRP0 in
  let val := val .| (IRQ_BYP_DIS_GRP0 .| FIQ_BYP_DIS_GRP1 .| IRQ_BYP_DIS_GRP1) in
  gicc_write_pmr (gicc_base d) GIC_PRI_MASK ;;
  gicc_write_ctlr (gicc_base d) val.

Definition gicv2_cpuif_disable : M V unit :=
  d <- with_gicc ;;
  val <- gicc_read_ctlr (gicc_base d) ;;
  let val := val .& not32 (CTLR_ENABLE_G0_BIT .| CTLR_ENABLE_G1_BIT) in
  let val := val .| (FIQ_BYP_DIS_GRP1 .| FIQ_BYP_DIS_GRP0) in
  let val := val .| (IRQ_BYP_DIS_GRP0 .| IRQ_BYP_DIS_GRP1) in
  gicc_write_ctlr (gicc_base d) val.

Definition gicv2_pcpu_distif_init : M V unit :=
  d <- with_gicd ;;
  gicv2_secure_ppi_sgi_setup_props (gicd_base d) (interrupt_props d) (interrupt_props_num d) ;;
  ctlr <- gicd_read_ctlr (gicd_base d) ;;
  if (ctlr .& CTLR_ENABLE_G0_BIT) =? 0
  then gicd_write_ctlr (gicd_base d) (ctlr .| CTLR_ENABLE_G0_BIT)
  else ret tt.

Definition gicv2_distif_init : M V unit :=
  d <- with_gicd ;;
  ctlr <- gicd_read_ctlr (gicd_base d) ;;
  gicd_write_ctlr (gicd_base d) (ctlr .& not32 (CTLR_ENABLE_G0_BIT .| CTLR_ENABLE_G1_BIT)) ;;
  gicv2_spis_configure_defaults (gicd_base d) ;;
  gicv2_secure_spis_configure_props (gicd_base d) (interrupt_props d) (interrupt_props_num d) ;;
  gicd_write_ctlr (gicd_base d) (ctlr .| CTLR_ENABLE_G0_BIT).

Definition gicv2_driver_init (plat_driver_data : option gicv2_driver_data) : M V unit :=
  c_assert (bool_decide (is_Some plat_driver_data)) ;;
  p <- deref plat_driver_data ;;
  c_assert (negb (gicd_base p =? 0)) ;;
  c_assert (negb (gicc_base p =? 0)) ;;
  c_assert (if interrupt_props_num p >? 0
            then bool_decide (is_Some (interrupt_props p)) else true) ;;
  gic_version <- gicd_read_pidr2 (gicd_base p) ;;
  let gic_version := (gic_version .>> 4) .& 0xf in
  c_assert ((gic_version =? 2) || (gic_version =? 1)) ;;
  mods (set_driver_data (Some p)).

Definition gicv2_is_fiq_enabled : M V Z :=
  d <- with_gicc ;;
  gicc_ctlr <- gicc_read_ctlr (gicc_base d) ;;
  ret ((gicc_ctlr .>> FIQ_EN_SHIFT) .& 0x1).

Definition gicv2_get_pending_interrupt_type : M V Z :=
  d <- with_gicc ;;
  id <- gicc_read_hppir (gicc_base d) ;;
  ret (id .& INT_ID_MASK).

Definition gicv2_get_pending_interrupt_id : M V Z :=
  d <- with_gicc ;;
  hppir <- gicc_read_hppir (gicc_base d) ;;
  let id := hppir .& INT_ID_MASK in
  if id =? PENDING_G1_INTID then
    ahppir <- gicc_read_ahppir (gicc_base d) ;;
    ret (ahppir .& INT_ID_MASK)
  else ret id.

Definition gicv2_acknowledge_interrupt : M V Z :=
  d <- with_gicc ;;
  gicc_read_IAR (gicc_base d).

Definition gicv2_end_of_interrupt (id : Z) : M V unit :=
  d <- with_gicc ;;
  barrier ;;
  gicc_write_EOIR (gicc_base d) id.

Definition gicv2_get_interrupt_group (id : Z) : M V Z :=
  d <- with_gicd ;;
  gicd_get_igroupr (gicd_base d) id.

Definition gicv2_get_running_priority : M V Z :=
  d <- with_gicc ;;
  gicc_read_rpr (gicc_base d).

Definition gicv2_set_pe_target_mask (proc_num : Z) : M V unit :=
  d <- with_gicd ;;
  c_assert (target_masks d) ;;
  c_assert (proc_num <? GICV2_MAX_TARGET_PE) ;;
  c_assert (proc_num <? target_masks_num d) ;;
  masks <- gets target_mask_array ;;
  mask <- aread masks proc_num ;;
  if negb (mask =? 0) then ret tt
  else
    me <- gicv2_get_cpuif_id (gicd_base d) ;;
    masks <- gets target_mask_array ;;
    masks' <- awrite masks proc_num me ;;
    mods (set_target_mask_array masks').

Definition gicv2_get_interrupt_active (id : Z) : M V Z :=
  d <- with_gicd ;;
  c_assert (id <=? MAX_SPI_ID) ;;
  gicd_get_isactiver (gicd_base d) id.

Definition gicv2_enable_interrupt (id : Z) : M V unit :=
  d <- with_gicd ;;
  c_assert (id <=? MAX_SPI_ID) ;;
  barrier ;;
  gicd_set_isenabler (gicd_base d) id.

Definition gicv2_disable_interrupt (id : Z) : M V unit :=
  d <- with_gicd ;;
  c_assert (id <=? MAX_SPI_ID) ;;
  gicd_set_icenabler (gicd_base d) id ;;
  barrier.

Definition gicv2_set_interrupt_priority (id priority : Z) : M V unit :=
  d <- with_gicd ;;
  c_assert (id <=? MAX_SPI_ID) ;;
  gicd_set_ipriorityr (gicd_base d) id priority.

Definition gicv2_set_interrupt_type (id type : Z) : M V unit :=
  d <- with_gicd ;;
  c_assert (id <=? MAX_SPI_ID) ;;
  lock gic_lock ;;
  (if type =? GICV2_INTR_GROUP1 then gicd_set_igroupr (gicd_base d) id
   else if type =? GICV2_INTR_GROUP0 then gicd_clr_igroupr (gicd_base d) id
   else c_assert false) ;;
  unlock gic_lock.

Definition GICV2_SGIR_VALUE (tgt_lst_flt tgt intid : Z) : Z :=
  ((tgt_lst_flt .& 0x3) .<< 24) .| ((tgt .& 0xff) .<< 16) .| (intid .& 0xf).

Definition gicv2_raise_sgi (sgi_num proc_num : Z) : M V unit :=
  d <- driver ;;
  c_assert (proc_num >=? 0) ;;
  c_assert (proc_num <? GICV2_MAX_TARGET_PE) ;;
  c_assert (negb (gicd_base d =? 0)) ;;
  c_assert (target_masks d) ;;
  c_assert (proc_num <? target_masks_num d) ;;
  masks <- gets target_mask_array ;;
  target <- aread masks proc_num ;;
  c_assert (negb (target =? 0)) ;;
  let sgir_val := u32 (GICV2_SGIR_VALUE 0 target sgi_num) in
  barrier ;;
  gicd_write_sgir (gicd_base d) sgir_val.

Definition gicv2_set_spi_routing (id proc_num : Z) : M V unit :=
  d <- with_gicd ;;
  c_assert ((id >=? MIN_SPI_ID) && (id <=? MAX_SPI_ID)) ;;
  c_assert (target_masks d) ;;
  c_assert (proc_num <? GICV2_MAX_TARGET_PE) ;;
  c_assert (target_masks_num d <? 0x7FFFFFFF) ;;
  c_assert (proc_num <? target_masks_num d) ;;
  target <- (if proc_num <? 0 then ret GIC_TARGET_CPU_MASK
             else
               masks <- gets target_mask_array ;;
               target <- aread masks proc_num ;;
               c_assert (negb (target =? 0)) ;;
               ret target) ;;
  gicd_set_itargetsr (gicd_base d) id target.

Definition gicv2_clear_interrupt_pending (id : Z) : M V unit :=
  d <- with_gicd ;;
  c_assert (id >=? MIN_PPI_ID) ;;
  gicd_set_icpendr (gicd_base d) id ;;
  barrier.

Definition gicv2_set_interrupt_pending (id : Z) : M V unit :=
  d <- with_gicd ;;
  c_assert (id >=? MIN_PPI_ID) ;;
  barrier ;;
  gicd_set_ispendr (gicd_base d) id.

Definition gicv2_set_pmr (mask : Z) : M V Z :=
  d <- with_gicc ;;
  old_mask <- gicc_read_pmr (gicc_base d) ;;
  barrier ;;
  gicc_write_pmr (gicc_base d) mask ;;
  barrier ;;
  ret old_mask.

(** No assertion here: a NULL driver is dereferenced. *)
Definition gicv2_interrupt_set_cfg (id cfg : Z) : M V unit :=
  p <- gets driver_data ;;
  d <- deref p ;;
  gicd_set_icfgr (gicd_base d) id cfg.

(** ** plat/xilinx/zynqmp/plat_zynqmp.c (and zynqmp_calc_core_pos) *)

Definition zynqmp_calc_core_pos (mpidr : Z) : Z :=
  (mpidr .& MPIDR_CPU_MASK) + ((mpidr .& MPIDR_CLUSTER_MASK) .>> 6).

Definition plat_core_pos_by_mpidr (mpidr : Z) : Z :=
  if truthy (mpidr .& MPIDR_CLUSTER_MASK) then -1
  else if (mpidr .& MPIDR_CPU_MASK) >=? PLATFORM_CORE_COUNT then -1
  else zynqmp_calc_core_pos mpidr.

(** ** plat/common/plat_gicv2.c *)

Definition plat_ic_get_pending_interrupt_id : M V Z :=
  id <- gicv2_get_pending_interrupt_id ;;
  if id =? GIC_SPURIOUS_INTERRUPT then ret INTR_ID_UNAVAILABLE else ret id.

Definition plat_ic_get_pending_interrupt_type : M V Z :=
  id <- gicv2_get_pending_interrupt_type ;;
  if id <? PENDING_G1_INTID then ret INTR_TYPE_EL3
  else if id =? GIC_SPURIOUS_INTERRUPT then ret INTR_TYPE_INVAL
  else ret INTR_TYPE_NS.

Definition plat_ic_acknowledge_interrupt : M V Z := gicv2_acknowledge_interrupt.

Definition plat_ic_get_interrupt_type (id : Z) : M V Z :=
  type <- gicv2_get_interrupt_group id ;;
  ret (if type =? GICV2_INTR_GROUP1 then INTR_TYPE_NS else INTR_TYPE_EL3).

Definition plat_ic_end_of_interrupt (id : Z) : M V unit := gicv2_end_of_interrupt id.

Definition plat_interrupt_type_to_line (type security_state : Z) : M V Z :=
  c_assert ((type =? INTR_TYPE_S_EL1) || (type =? INTR_TYPE_EL3) || (type =? INTR_TYPE_NS)) ;;
  c_assert (sec_state_is_valid security_state) ;;
  if type =? INTR_TYPE_NS then ret SCR_IRQ_POS
  else
    en <- gicv2_is_fiq_enabled ;;
    ret (if negb (en =? 0) then SCR_FIQ_POS else SCR_IRQ_POS).

Definition plat_ic_get_running_priority : M V Z := gicv2_get_running_priority.

Definition plat_ic_is_spi (id : Z) : bool := (id >=? MIN_SPI_ID) && (id <=? MAX_SPI_ID).
Definition plat_ic_is_ppi (id : Z) : bool := (id >=? MIN_PPI_ID) && (id <? MIN_SPI_ID).
Definition plat_ic_is_sgi (id : Z) : bool := (id >=? MIN_SGI_ID) && (id <? MIN_PPI_ID).

Definition plat_ic_get_interrupt_active (id : Z) : M V Z := gicv2_get_interrupt_active id.
Definition plat_ic_enable_interrupt (id : Z) : M V unit := gicv2_enable_interrupt id.
Definition plat_ic_disable_interrupt (id : Z) : M V unit := gicv2_disable_interrupt id.
Definition plat_ic_set_interrupt_priority (id priority : Z) : M V unit :=
  gicv2_set_interrupt_priority id priority.

Definition plat_ic_has_interrupt_type (type : Z) : Z :=
  if (type =? INTR_TYPE_EL3) || (type =? INTR_TYPE_NS) then 1 else 0.

Definition plat_ic_set_interrupt_type (id type : Z) : M V unit :=
  gicv2_type <- (if type =? INTR_TYPE_EL3 then ret GICV2_INTR_GROUP0
                 else if type =? INTR_TYPE_NS then ret GICV2_INTR_GROUP1
                 else c_assert false ;; ret 0) ;;
  gicv2_set_interrupt_type id gicv2_type.

Definition plat_ic_raise_el3_sgi (sgi_num target : Z) : M V unit :=
  let id := plat_core_pos_by_mpidr target in
  c_assert (id >=? 0) ;;
  type <- plat_ic_get_interrupt_type sgi_num ;;
  c_assert (type =? INTR_TYPE_EL3) ;;
  gicv2_raise_sgi sgi_num id.

Definition plat_ic_set_spi_routing (id routing_mode mpidr : Z) : M V unit :=
  proc_num <- (if routing_mode =? INTR_ROUTING_MODE_PE then
                 let proc_num := plat_core_pos_by_mpidr mpidr in
                 c_assert (proc_num >=? 0) ;; ret proc_num
               else if routing_mode =? INTR_ROUTING_MODE_ANY then ret (-1)
               else c_assert false ;; ret 0) ;;
  gicv2_set_spi_routing id proc_num.

Definition plat_ic_set_interrupt_pending (id : Z) : M V unit := gicv2_set_interrupt_pending id.
Definition plat_ic_clear_interrupt_pending (id : Z) : M V unit :=
  gicv2_clear_interrupt_pending id.
Definition plat_ic_set_priority_mask (mask : Z) : M V Z := gicv2_set_pmr mask.

Definition plat_ic_get_interrupt_id (raw : Z) : Z :=
  let id := raw .& INT_ID_MASK in
  if id =? GIC_SPURIOUS_INTERRUPT then INTR_ID_UNAVAILABLE else id.

(** ** plat/arm/common/arm_gicv2.c *)

Definition arm_interrupt_props : list interrupt_prop :=
  [IntrProp ARM_IRQ_SEC_PHY_TIMER GIC_HIGHEST_SEC_PRIORITY GICV2_INTR_GROUP0 GIC_INTR_CFG_LEVEL;
   IntrProp IRQ_TTC3_1 GIC_HIGHEST_SEC_PRIORITY GICV2_INTR_GROUP0 GIC_INTR_CFG_EDGE] ++
  map (fun n => IntrProp n GIC_HIGHEST_SEC_PRIORITY GICV2_INTR_GROUP0 GIC_INTR_CFG_EDGE)
    [8; 9; 10; 11; 12; 13; 14; 15].

Definition arm_gic_data : gicv2_driver_data :=
  DriverData PLAT_ARM_GICD_BASE PLAT_ARM_GICC_BASE (Some arm_interrupt_props) 10 true 4.

Definition plat_arm_gic_driver_init : M V unit := gicv2_driver_init (Some arm_gic_data).

(** [plat_my_core_pos] reads MPIDR_EL1 of the executing processor. *)
Definition plat_my_core_pos (mpidr_el1 : Z) : Z := zynqmp_calc_core_pos mpidr_el1.

Definition plat_arm_gic_init (mpidr_el1 : Z) : M V unit :=
  gicv2_distif_init ;;
  gicv2_pcpu_distif_init ;;
  gicv2_set_pe_target_mask (plat_my_core_pos mpidr_el1) ;;
  gicv2_cpuif_enable.

Definition plat_arm_gic_cpuif_enable : M V unit := gicv2_cpuif_enable.
Definition plat_arm_gic_cpuif_disable : M V unit := gicv2_cpuif_disable.

Definition plat_arm_gic_pcpu_init (mpidr_el1 : Z) : M V unit :=
  gicv2_pcpu_distif_init ;;
  gicv2_set_pe_target_mask (plat_my_core_pos mpidr_el1).

Definition plat_arm_gic_resume : M V unit :=
  gicv2_distif_init ;;
  gicv2_pcpu_distif_init.

End Ops.

(** ** Groups: the bank of IGROUPR words as a bit per interrupt *)

Definition igroupr_addr (base id : Z) : Z := base + GICD_IGROUPR + 4 * (id / 32).

(** The words of the group bank of the distributor at [base]. *)
Definition igroupr_word (base a : Z) : Prop :=
  exists n, 0 <= n < 32 /\ a = base + GICD_IGROUPR + 4 * n.

Lemma igroupr_addr_word base id : 0 <= id <= MAX_SPI_ID -> igroupr_word base (igroupr_addr base id).
Proof.
  unfold MAX_SPI_ID. intros Hid. exists (id / 32). split; [|done].
  split; [apply Z.div_pos; lia|apply Z.div_lt_upper_bound; lia].
Qed.

Section Group.
Context `{Env} {V : Type} `{!Has gic V} (base : Z).
Context `{!Latched (igroupr_word base)} (Hbase : base mod 4 = 0).

Definition group_bit (d : Dev) (id : Z) : bool :=
  Z.testbit (u32 (peek d (igroupr_addr base id))) (id mod 32).

Lemma igroupr_shift id : 0 <= id <= MAX_SPI_ID ->
  base + GICD_IGROUPR + shl32 (Z.shiftr id 5) 2 = igroupr_addr base id.
Proof.
  unfold MAX_SPI_ID. intros Hid. unfold igroupr_addr. rewrite shiftr_div by lia.
  change (2 ^ 5) with 32. rewrite shl32_small; [lia|lia|].
  assert (0 <= id / 32 < 32); [|lia].
  split; [apply Z.div_pos; lia|]. apply Z.div_lt_upper_bound; lia.
Qed.

Lemma get_igroupr_run id d l h (v : V) : 0 <= id <= MAX_SPI_ID -> exists d' l',
  gicd_get_igroupr base id (St d l h v) = (Ret (b2z (group_bit d id)), St d' l' h v) /\
  forall i, 0 <= i <= MAX_SPI_ID -> group_bit d' i = group_bit d i.
Proof.
  intros Hid. unfold gicd_get_igroupr, gicd_read_igroupr. cbv zeta. run.
  rewrite igroupr_shift, land_31 by done.
  pose proof (igroupr_addr_word base id Hid) as Hw.
  rewrite testbit_shr_land1 by (apply Z.mod_pos_bound; lia).
  rewrite read_latched by done. eexists _, _. split; [reflexivity|].
  intros i Hi. unfold group_bit. by rewrite peek_read by (by apply igroupr_addr_word).
Qed.

(** Both read-modify-writes, by the value of the bit they store. *)
Definition put_igroupr (g : bool) (id : Z) : M V unit :=
  if g then gicd_set_igroupr base id else gicd_clr_igroupr base id.

Lemma group_bit_other d id id' z :
  0 <= id <= MAX_SPI_ID -> 0 <= id' <= MAX_SPI_ID ->
  id / 32 <> id' / 32 -> group_bit (hw_write W32 (igroupr_addr base id) z d) id' = group_bit d id'.
Proof.
  intros Hid Hid' Hne. unfold group_bit.
  rewrite peek_write_other; [done|by apply igroupr_addr_word|done|].
  unfold word_of, igroupr_addr, GICD_IGROUPR in *.
  replace (base + 128 + 4 * (id / 32)) with (base + (32 + id / 32) * 4) by lia.
  rewrite Z.mod_add, Hbase by lia. lia.
Qed.

Lemma group_bit_same d id id' z :
  0 <= id <= MAX_SPI_ID -> 0 <= z < 2 ^ 32 ->
  id / 32 = id' / 32 ->
  group_bit (hw_write W32 (igroupr_addr base id) z d) id' = Z.testbit z (id' mod 32).
Proof.
  intros Hid Hz Heq. unfold group_bit, igroupr_addr. rewrite <- Heq.
  change (base + GICD_IGROUPR + 4 * (id / 32)) with (igroupr_addr base id).
  rewrite peek_write by (done || by apply igroupr_addr_word). by rewrite u32_small.
Qed.

Lemma put_igroupr_run g id d l h (v : V) : 0 <= id <= MAX_SPI_ID -> exists d' l',
  put_igroupr g id (St d l h v) = (Ret tt, St d' l' h v) /\
  forall id', 0 <= id' <= MAX_SPI_ID ->
    group_bit d' id' = if id' =? id then g else group_bit d id'.
Proof.
  intros Hid.
  pose proof (igroupr_addr_word base id Hid) as Hw.
  assert (Hm : forall a, 0 <= a mod 32 < 32) by (intros a; apply Z.mod_pos_bound; lia).
  set (d1 := (hw_read W32 (igroupr_addr base id) d).2).
  set (w := u32 (hw_read W32 (igroupr_addr base id) d).1).
  set (z := if g then Z.lor w (2 ^ (id mod 32)) else Z.land w (not32 (2 ^ (id mod 32)))).
  assert (Hz : 0 <= z < 2 ^ 32).
  { unfold z, w. destruct g.
    - apply lor_u32; [apply u32_range|]. split; [lia|]. apply Z.pow_lt_mono_r; specialize (Hm id); lia.
    - apply land_u32; [apply u32_range|]. unfold not32. apply u32_range. }
  exists (hw_write W32 (igroupr_addr base id) z d1),
    (EvWr W32 (igroupr_addr base id) z :: EvRd W32 (igroupr_addr base id) w :: l). split.
  - unfold put_igroupr, gicd_set_igroupr, gicd_clr_igroupr, gicd_read_igroupr,
      gicd_write_igroupr. cbv zeta.
    destruct g; run; rewrite igroupr_shift, land_31, shl32_1 by done;
      fold w; fold d1; fold z; by rewrite (u32_small z).
  - intros id' Hid'.
    assert (Hd1 : group_bit d1 id' = group_bit d id').
    { unfold group_bit, d1. by rewrite peek_read by (by apply igroupr_addr_word). }
    destruct (decide (id / 32 = id' / 32)) as [Heq|Hne].
    + rewrite group_bit_same by done.
      assert (Hw' : Z.testbit w (id' mod 32) = group_bit d id').
      { unfold w, group_bit. rewrite read_latched by done. unfold igroupr_addr. by rewrite Heq. }
      unfold z. destruct (id' =? id) eqn:E; zbool.
      * subst id'. destruct g.
        -- rewrite Z.lor_spec, Z.pow2_bits_true by (apply Hm). apply orb_true_r.
        -- rewrite Z.land_spec, testbit_not32, Z.pow2_bits_true by apply Hm. apply andb_false_r.
      * assert (id mod 32 <> id' mod 32).
        { pose proof (Z.div_mod id 32 ltac:(lia)). pose proof (Z.div_mod id' 32 ltac:(lia)). lia. }
        destruct g.
        -- rewrite Z.lor_spec, Z.pow2_bits_false, orb_false_r by (done || apply Hm). done.
        -- rewrite Z.land_spec, testbit_not32, Z.pow2_bits_false, andb_true_r by (done || apply Hm).
           done.
    + rewrite group_bit_other by done. rewrite Hd1.
      destruct (id' =? id) eqn:E; zbool; congruence.
Qed.

(** ** One interrupt: set and get *)

(** The driver has been initialised with the distributor at [base]. *)
Definition ready (p : gicv2_driver_data) (v : V) : Prop :=
  driver_data (sget v) = Some p /\ gicd_base p = base /\ base <> 0 /\ gicc_base p <> 0.

Lemma with_gicd_run p d l h v : ready p v -> with_gicd (St d l h v) = (Ret p, St d l h v).
Proof.
  intros (Hp & Hb & Hne & _). unfold with_gicd, driver. run. rewrite Hp. simpl.
  apply Z.eqb_neq in Hne. run. simpl. by rewrite Hb, Hne.
Qed.

Lemma with_gicc_run p d l h v : ready p v -> with_gicc (St d l h v) = (Ret p, St d l h v).
Proof.
  intros (Hp & _ & _ & Hne). unfold with_gicc, driver. run. rewrite Hp. simpl.
  apply Z.eqb_neq in Hne. run. simpl. by rewrite Hne.
Qed.

Lemma set_interrupt_type_run p g id d l h v :
  ready p v -> gic_lock ∉ h -> 0 <= id <= MAX_SPI_ID -> exists d' l',
  gicv2_set_interrupt_type id (b2z g) (St d l h v) = (Ret tt, St d' l' h v) /\
  forall id', 0 <= id' <= MAX_SPI_ID ->
    group_bit d' id' = if id' =? id then g else group_bit d id'.
Proof.
  intros Hp Hl Hid. unfold gicv2_set_interrupt_type.
  rewrite (bind_run _ _ _ _ _ (with_gicd_run p d l h v Hp)).
  replace (id <=? MAX_SPI_ID) with true by (symmetry; apply Z.leb_le; lia).
  run. rewrite run_bind_lock, bool_decide_eq_false_2 by done.
  destruct (put_igroupr_run g id d (EvLock gic_lock :: l) (gic_lock :: h) v Hid)
    as (d1 & l1 & Hr & Hg).
  destruct Hp as (_ & -> & _). exists d1, (EvUnlock gic_lock :: l1). split; [|done].
  unfold put_igroupr in Hr. destruct g; simpl; rewrite (bind_run _ _ _ _ _ Hr); run;
    by rewrite unlock_lock.
Qed.

Lemma get_interrupt_type_run p id d l h v :
  ready p v -> 0 <= id <= MAX_SPI_ID -> exists d' l',
  plat_ic_get_interrupt_type id (St d l h v) =
    (Ret (if group_bit d id then INTR_TYPE_NS else INTR_TYPE_EL3), St d' l' h v).
Proof.
  intros Hp Hid. unfold plat_ic_get_interrupt_type, gicv2_get_interrupt_group.
  rewrite run_bind_assoc, (bind_run _ _ _ _ _ (with_gicd_run p d l h v Hp)).
  destruct (get_igroupr_run id d l h v Hid) as (d' & l' & Hr & _).
  destruct Hp as (_ & -> & _). rewrite (bind_run _ _ _ _ _ Hr). run.
  eexists _, _. by destruct (group_bit d id).
Qed.

(** On a distributor whose group registers hold what is written to them,
    assigning a type to an interrupt and then asking for the type of any
    interrupt gives the assigned type for that interrupt and the previous type
    for every other one; the driver returns, and the lock that serialises the
    read-modify-write is released. *)
Theorem interrupt_type_roundtrip p id id' type d l h v :
  ready p v -> gic_lock ∉ h ->
  0 <= id <= MAX_SPI_ID -> 0 <= id' <= MAX_SPI_ID ->
  type = INTR_TYPE_EL3 \/ type = INTR_TYPE_NS ->
  exists d' l',
    bind (plat_ic_set_interrupt_type id type) (fun _ => plat_ic_get_interrupt_type id')
      (St d l h v) =
    (Ret (if id' =? id then type
          else if group_bit d id' then INTR_TYPE_NS else INTR_TYPE_EL3), St d' l' h v).
Proof.
  intros Hp Hl Hid Hid' Ht.
  set (g := type =? INTR_TYPE_NS).
  assert (Hset : plat_ic_set_interrupt_type id type (St d l h v) =
                 gicv2_set_interrupt_type id (b2z g) (St d l h v)).
  { unfold plat_ic_set_interrupt_type, g. by destruct Ht as [-> | ->]. }
  destruct (set_interrupt_type_run p g id d l h v Hp Hl Hid) as (d1 & l1 & Hr & Hg).
  rewrite <- Hset in Hr. rewrite (bind_run _ _ _ _ _ Hr).
  destruct (get_interrupt_type_run p id' d1 l1 h v Hp Hid') as (d2 & l2 & Hr2).
  exists d2, l2. rewrite Hr2, Hg by done. unfold g.
  destruct (id' =? id); [|done]. by destruct Ht as [-> | ->].
Qed.

End Group.

(** The witness: TTC2 (interrupt 74) on a board with memory-like registers. *)
#[export] Instance board_igroupr r n :
  @Latched (board r n) (igroupr_word PLAT_ARM_GICD_BASE).
Proof.
  pose proof (board_latched r n) as B.
  assert (Ha : forall a, igroupr_word PLAT_ARM_GICD_BASE a -> a mod 4 = 0).
  { intros a (k & _ & ->). unfold PLAT_ARM_GICD_BASE, GICD_IGROUPR.
    replace (0xF9010000 + 128 + 4 * k) with ((1044398112 + k) * 4) by lia.
    apply Z.mod_mul. lia. }
  refine {| peek := (fun m a => m a) : @Dev (board r n) -> Z -> Z |}.
  - intros. by apply (read_latched (Latched := board_latched r n)), Ha.
  - done.
  - intros. by apply (peek_write (Latched := board_latched r n)); [apply Ha|].
  - intros. by apply (peek_write_other (Latched := board_latched r n)); [apply Ha| |].
Defined.

Definition booted : gic := GicVars (Some arm_gic_data) [1; 0; 0; 0].

Lemma interrupt_type_roundtrip_witness :
  exists (d' : @Dev (board 0 0)) l',
    bind (plat_ic_set_interrupt_type 74 INTR_TYPE_EL3)
         (fun _ => plat_ic_get_interrupt_type 74)
      (St (H := board 0 0) (fun _ => 0xFFFFFFFF) [] [] booted) =
    (Ret INTR_TYPE_EL3, St d' l' [] booted).
Proof.
  apply (interrupt_type_roundtrip (H := board 0 0) PLAT_ARM_GICD_BASE eq_refl arm_gic_data
           74 74 INTR_TYPE_EL3 (fun _ => 0xFFFFFFFF) [] [] booted).
  - done.
  - apply not_elem_of_nil.
  - done.
  - done.
  - by left.
Defined.

End Gic.
