(* ===== verification/GicInit.v ===== *)
(** * What the GIC initialisation of BL31 leaves in the group registers

    [plat_arm_gic_init] (plat/arm/common/arm_gicv2.c) run on a distributor whose
    group registers hold what is written to them: exactly the interrupts of the
    property table end up secure (Group 0), all others the distributor
    implements are non-secure. *)

From S2P Require Import Prelude Machine Gic.
Import Gic.
#[local] Open Scope Z_scope.
#[local] Open Scope c_scope.

Module GicInit.

Section Init.
Context `{Env} {V : Type} `{!Has gic V} (base : Z).
Context `{!Latched (igroupr_word base)} (Hbase : base mod 4 = 0).

Abbreviation group_bit := (group_bit base).
Implicit Types (s : st V).

(** ** Code that leaves the groups alone *)

Definition same_groups s s' : Prop :=
  vars s' = vars s /\ held s' = held s /\
  forall id, 0 <= id <= MAX_SPI_ID -> group_bit (dev s') id = group_bit (dev s) id.

#[local] Instance same_groups_preorder : PreOrder same_groups.
Proof.
  split.
  - by intros s.
  - intros s1 s2 s3 (Hv & Hh & Hg) (Hv' & Hh' & Hg').
    split; [congruence|]. split; [congruence|]. intros id Hid. by rewrite Hg', Hg.
Qed.

Lemma groups_emit e : respects same_groups (emit e).
Proof. by intros s. Qed.

Lemma groups_read w a : respects same_groups (mmio_read w a).
Proof.
  intros s. split; [done|]. split; [done|]. intros id Hid. unfold Gic.group_bit. simpl.
  by rewrite peek_read by (by apply igroupr_addr_word).
Qed.

Lemma groups_write w a z :
  w <> W64 -> a < base + GICD_IGROUPR \/ base + GICD_ISENABLER <= a ->
  respects same_groups (mmio_write w a z).
Proof.
  intros Hw Ha s. split; [done|]. split; [done|]. intros id Hid. unfold Gic.group_bit. simpl.
  rewrite peek_write_other; [done|by apply igroupr_addr_word|done|].
  unfold word_of, igroupr_addr, GICD_IGROUPR, GICD_ISENABLER, MAX_SPI_ID in *.
  pose proof (Z.mod_pos_bound a 4 ltac:(lia)).
  pose proof (Z.div_mod a 4 ltac:(lia)). pose proof (Z.div_mod base 4 ltac:(lia)).
  assert (0 <= id / 32 < 32); [|lia].
  split; [apply Z.div_pos; lia|apply Z.div_lt_upper_bound; lia].
Qed.

#[local] Hint Resolve groups_emit groups_read groups_write same_groups_preorder : respects.

(** The side conditions: the registers written lie outside the group bank. *)
Ltac off_bank :=
  unfold GICD_CTLR, GICD_IGROUPR, GICD_ISENABLER, GICD_ICENABLER, GICD_IPRIORITYR,
    GICD_ITARGETSR, GICD_ICFGR in *;
  repeat match goal with
  | |- context [shl32 ?a ?b] =>
      lazymatch goal with
      | _ : 0 <= shl32 a b < _ |- _ => fail
      | _ => pose proof (u32_range (Z.shiftl a b)); fold (shl32 a b) in *
      end
  end; lia.

Lemma groups_ipriorityr id z : respects same_groups (gicd_write_ipriorityr base id z).
Proof. apply groups_write; [done|]. off_bank. Qed.

Lemma groups_write_icfgr id z : respects same_groups (gicd_write_icfgr base id z).
Proof. apply groups_write; [done|]. off_bank. Qed.

Lemma groups_set_icfgr id z : respects same_groups (gicd_set_icfgr base id z).
Proof.
  apply respects_bind; [apply _|apply groups_read|]. intros. apply groups_write_icfgr.
Qed.

Lemma groups_write_isenabler id z : respects same_groups (gicd_write_isenabler base id z).
Proof. apply groups_write; [done|]. off_bank. Qed.

Lemma groups_write_icenabler id z : respects same_groups (gicd_write_icenabler base id z).
Proof. apply groups_write; [done|]. off_bank. Qed.

Lemma groups_set_ipriorityr id z : 0 <= id -> respects same_groups (gicd_set_ipriorityr base id z).
Proof. intros Hid. apply groups_write; [done|]. off_bank. Qed.

Lemma groups_set_itargetsr id z : 0 <= id -> respects same_groups (gicd_set_itargetsr base id z).
Proof. intros Hid. apply groups_write; [done|]. off_bank. Qed.

Lemma groups_write_ctlr z : respects same_groups (gicd_write_ctlr base z).
Proof. apply groups_write; [done|]. off_bank. Qed.

Lemma groups_cpuif_id : respects same_groups (gicv2_get_cpuif_id base).
Proof. apply respects_bind; [apply _|apply groups_read|]. intros. apply respects_ret, _. Qed.

(** A computation that cannot halt and keeps the groups. *)
Definition total {A} (m : M V A) : Prop :=
  forall s, returns m s (fun _ s' => same_groups s s').

Lemma total_of {A} (m : M V A) :
  (forall s, returns m s (fun _ _ => True)) -> respects same_groups m -> total m.
Proof.
  intros Ht Hr s. eapply returns_mono; [apply (returns_respects _ _ _ _ Hr (Ht s))|].
  by intros a s' [_ Hs].
Qed.

(** Straight-line register accesses always return. *)
Lemma total_line {A} (m : M V A) :
  (forall s, exists a s', m s = (Ret a, s')) -> respects same_groups m -> total m.
Proof.
  intros Ht. apply total_of. intros s. destruct (Ht s) as (a & s' & Hm).
  unfold returns. by rewrite Hm.
Qed.

Lemma total_bind {A B} (m : M V A) (k : A -> M V B) :
  total m -> (forall a, total (k a)) -> total (bind m k).
Proof.
  intros Hm Hk s. apply returns_bind. eapply returns_mono; [apply Hm|].
  intros a s' Hs. eapply returns_mono; [apply Hk|]. intros b s'' Hs'. by transitivity s'.
Qed.

Lemma total_for_each {A} (l : list A) (body : A -> M V unit) :
  (forall x, x ∈ l -> total (body x)) -> total (for_each l body).
Proof.
  intros Hb s. apply (returns_for_each l body (fun _ s1 => same_groups s s1)); [reflexivity|].
  intros pre x post s1 -> Hs. eapply returns_mono; [apply Hb|].
  - apply elem_of_app. right. left.
  - intros [] s2 Hs2. by transitivity s1.
Qed.

Lemma total_write w a z :
  w <> W64 -> a < base + GICD_IGROUPR \/ base + GICD_ISENABLER <= a -> total (mmio_write w a z).
Proof. intros Hw Ha. apply total_of; [done|]. by apply groups_write. Qed.

(** ** The bank after a write of one of its words *)

Lemma write_igroupr_run id z s : 0 <= id <= MAX_SPI_ID -> 0 <= z < 2 ^ 32 ->
  returns (gicd_write_igroupr base id z) s (fun _ s' =>
    vars s' = vars s /\ held s' = held s /\
    forall i, 0 <= i <= MAX_SPI_ID -> group_bit (dev s') i =
      if i / 32 =? id / 32 then Z.testbit z (i mod 32) else group_bit (dev s) i).
Proof.
  intros Hid Hz. unfold gicd_write_igroupr, mmio_write_32, returns, mmio_write. cbv zeta. simpl.
  rewrite igroupr_shift, u32_small by done. split; [done|]. split; [done|].
  intros i Hi. destruct (i / 32 =? id / 32) eqn:E; zbool.
  - by apply group_bit_same.
  - by apply group_bit_other.
Qed.

(** ** The three steps of the initialisation *)

(** The number of interrupts the distributor implements, from GICD_TYPER. *)
Definition num_ints (typer : Z) : Z := 32 * (typer mod 32 + 1).

Lemma num_ints_shift t : shl32 (Z.land t 0x1f + 1) 5 = num_ints t.
Proof.
  change 0x1f with (2 ^ 5 - 1). rewrite land_low by lia. unfold num_ints.
  pose proof (Z.mod_pos_bound t (2 ^ 5) ltac:(lia)). change (2 ^ 5) with 32 in *.
  rewrite shl32_small; lia.
Qed.

Lemma elem_of_steps x from to step : 0 < step ->
  x ∈ steps from to step -> from <= x /\ (x - from) mod step = 0 /\ (from < to -> x < to).
Proof.
  intros Hs Hx. unfold steps in Hx. apply list_elem_of_In, in_map_iff in Hx as (k & <- & Hk).
  apply in_seq in Hk. split; [lia|]. split.
  - replace (from + step * Z.of_nat k - from) with (Z.of_nat k * step) by lia.
    apply Z.mod_mul. lia.
  - intros Hft. pose proof (Z.div_mod (to - from + step - 1) step ltac:(lia)).
    pose proof (Z.mod_pos_bound (to - from + step - 1) step Hs). nia.
Qed.

Lemma in_steps k from to step : 0 < step -> 0 <= k ->
  from + step * k < to -> from + step * k ∈ steps from to step.
Proof.
  intros Hs Hk Hlt. unfold steps. apply list_elem_of_In, in_map_iff. exists (Z.to_nat k).
  split; [by rewrite Z2Nat.id|]. apply in_seq. split; [lia|].
  assert (k + 1 <= (to - from + step - 1) / step); [|lia].
  apply Z.div_le_lower_bound; nia.
Qed.

Lemma num_ints_range t : 32 <= num_ints t <= 1024.
Proof. unfold num_ints. pose proof (Z.mod_pos_bound t 32 ltac:(lia)). lia. Qed.

(** The loop over the group words reaches exactly the implemented SPIs. *)
Lemma spi_word x t : x ∈ steps MIN_SPI_ID (num_ints t) 32 ->
  exists k, x = 32 * k /\ 1 <= k /\ 32 * k + 32 <= num_ints t.
Proof.
  intros Hx. unfold MIN_SPI_ID in *. pose proof (num_ints_range t).
  destruct (decide (num_ints t = 32)) as [E|].
  { rewrite E in Hx. by apply not_elem_of_nil in Hx. }
  apply elem_of_steps in Hx as (Hx1 & Hx2 & Hx3); [|lia].
  pose proof (Z.div_mod (x - 32) 32 ltac:(lia)). unfold num_ints in *.
  exists (1 + (x - 32) / 32). nia.
Qed.

Lemma spi_words_cover i t :
  existsb (fun x => i / 32 =? x / 32) (steps MIN_SPI_ID (num_ints t) 32) =
  (MIN_SPI_ID <=? i) && (i <? num_ints t).
Proof.
  apply eq_true_iff_eq. rewrite existsb_exists, andb_true_iff, Z.leb_le, Z.ltb_lt.
  pose proof (Z.div_mod i 32 ltac:(lia)). pose proof (Z.mod_pos_bound i 32 ltac:(lia)).
  unfold MIN_SPI_ID. split.
  - intros (x & Hx & Heq). zbool.
    apply list_elem_of_In, spi_word in Hx as (k & -> & Hk1 & Hk2).
    replace (32 * k) with (k * 32) in Heq by lia. rewrite Z.div_mul in Heq by lia. lia.
  - intros [Hlo Hhi]. exists (32 + 32 * (i / 32 - 1)). split.
    + apply list_elem_of_In, in_steps; lia.
    + apply Z.eqb_eq. replace (32 + 32 * (i / 32 - 1)) with (i / 32 * 32) by lia.
      by rewrite Z.div_mul.
Qed.

Lemma igroupr_loop_run typer s :
  returns (for_each (steps MIN_SPI_ID (num_ints typer) 32)
             (fun index => gicd_write_igroupr base index (not32 0))) s (fun _ s' =>
    vars s' = vars s /\ held s' = held s /\
    forall i, 0 <= i <= MAX_SPI_ID -> group_bit (dev s') i =
      if (MIN_SPI_ID <=? i) && (i <? num_ints typer) then true else group_bit (dev s) i).
Proof.
  eapply returns_mono.
  { apply (returns_for_each _ _ (fun pre s2 => vars s2 = vars s /\ held s2 = held s /\
      forall i, 0 <= i <= MAX_SPI_ID -> group_bit (dev s2) i =
        if existsb (fun x => i / 32 =? x / 32) pre then true else group_bit (dev s) i)); [done|].
    intros pre x post s2 Hl (Hv2 & Hh2 & Hg2).
    destruct (spi_word x typer) as (k & Hk & Hk1 & Hk2).
    { rewrite Hl. apply elem_of_app. right. left. }
    pose proof (num_ints_range typer). unfold MAX_SPI_ID in *.
    eapply returns_mono.
    { apply write_igroupr_run; [unfold MAX_SPI_ID; lia|]. vm_compute. split; congruence. }
    intros [] s3 (Hv3 & Hh3 & Hg3). split; [congruence|]. split; [congruence|].
    intros i Hi. rewrite Hg3, existsb_app by done. simpl. rewrite orb_false_r.
    destruct (i / 32 =? x / 32).
    - rewrite orb_true_r. pose proof (Z.mod_pos_bound i 32 ltac:(lia)).
      change (not32 0) with (Z.ones 32). by apply Z.ones_spec_low.
    - rewrite orb_false_r. by apply Hg2. }
  intros [] s2 (Hv2 & Hh2 & Hg2). split; [done|]. split; [done|]. intros i Hi.
  rewrite Hg2 by done. by rewrite spi_words_cover.
Qed.

Lemma defaults_run typer s :
  (forall d, u32 (hw_read W32 (base + GICD_TYPER) d).1 = typer) ->
  returns (gicv2_spis_configure_defaults base) s (fun _ s' =>
    vars s' = vars s /\ held s' = held s /\
    forall i, 0 <= i <= MAX_SPI_ID -> group_bit (dev s') i =
      if (MIN_SPI_ID <=? i) && (i <? num_ints typer) then true else group_bit (dev s) i).
Proof.
  intros Ht. unfold gicv2_spis_configure_defaults. apply returns_bind.
  eapply returns_mono with (Q := fun t s1 => t = typer /\ same_groups s s1).
  { pose proof (groups_read W32 (base + GICD_TYPER) s) as Hg.
    unfold gicd_read_typer, mmio_read_32, returns, mmio_read in *. simpl in *.
    split; [apply Ht|exact Hg]. }
  intros t s1 [-> (Hv1 & Hh1 & Hg1)]. rewrite num_ints_shift. apply returns_bind.
  eapply returns_mono; [apply igroupr_loop_run|]. intros [] s2 (Hv2 & Hh2 & Hg2).
  eapply returns_mono with (Q := fun _ s3 => same_groups s2 s3).
  { refine (total_bind _ _ _ _ s2); [|intros _]; apply total_for_each; intros x _;
      (apply total_of; [done|]); [apply groups_ipriorityr|apply groups_write_icfgr]. }
  intros [] s3 (Hv3 & Hh3 & Hg3). split; [congruence|]. split; [congruence|].
  intros i Hi. by rewrite Hg3, Hg2, Hg1 by done.
Qed.

(** ** The property table *)

Definition listed (ps : list interrupt_prop) (i : Z) : bool :=
  existsb (fun p => intr_num p =? i) ps.

Definition good_prop (p : interrupt_prop) : Prop :=
  intr_grp p = GICV2_INTR_GROUP0 /\ 0 <= intr_num p <= MAX_SPI_ID.

Lemma props_of_run ps s :
  props_of (Some ps) (Z.of_nat (length ps)) s = (Ret ps, s).
Proof.
  unfold props_of. destruct (negb _); run; simpl; rewrite Z.ltb_irrefl, Nat2Z.id, take_ge; done.
Qed.

Lemma returns_clr id s : 0 <= id <= MAX_SPI_ID ->
  returns (gicd_clr_igroupr base id) s (fun _ s' =>
    vars s' = vars s /\ held s' = held s /\
    forall i, 0 <= i <= MAX_SPI_ID ->
      group_bit (dev s') i = if i =? id then false else group_bit (dev s) i).
Proof.
  intros Hid. destruct s as [d l h v].
  destruct (put_igroupr_run base Hbase false id d l h v Hid) as (d' & l' & Hr & Hg).
  unfold put_igroupr in Hr. unfold returns. by rewrite Hr.
Qed.

Lemma secure_spis_run ps s :
  Forall good_prop ps ->
  returns (gicv2_secure_spis_configure_props base (Some ps) (Z.of_nat (length ps))) s (fun _ s' =>
    vars s' = vars s /\ held s' = held s /\
    forall i, 0 <= i <= MAX_SPI_ID -> group_bit (dev s') i =
      if (MIN_SPI_ID <=? i) && listed ps i then false else group_bit (dev s) i).
Proof.
  intros Hps. unfold gicv2_secure_spis_configure_props, returns.
  rewrite (bind_run _ _ _ _ _ (props_of_run ps s)).
  apply (returns_for_each _ _ (fun pre s2 => vars s2 = vars s /\ held s2 = held s /\
    forall i, 0 <= i <= MAX_SPI_ID -> group_bit (dev s2) i =
      if (MIN_SPI_ID <=? i) && listed pre i then false else group_bit (dev s) i)).
  { split; [done|]. split; [done|]. intros. by rewrite andb_false_r. }
  intros pre p post s2 Hl (Hv2 & Hh2 & Hg2).
  assert (Hp : good_prop p).
  { rewrite list.Forall_forall in Hps. apply Hps. rewrite Hl. apply elem_of_app. right. left. }
  destruct Hp as [Hgrp Hnum]. unfold listed.
  assert (Hstep : forall i, existsb (fun q => intr_num q =? i) (pre ++ [p]) =
    existsb (fun q => intr_num q =? i) pre || (intr_num p =? i)).
  { intros i. rewrite existsb_app. simpl. by rewrite orb_false_r. }
  destruct (intr_num p <? MIN_SPI_ID) eqn:E; zbool.
  { apply returns_ret. split; [done|]. split; [done|]. intros i Hi. rewrite Hstep, Hg2 by done.
    destruct (MIN_SPI_ID <=? i) eqn:E'; [|done]. zbool.
    assert ((intr_num p =? i) = false) as -> by (apply Z.eqb_neq; lia). by rewrite orb_false_r. }
  rewrite Hgrp. apply returns_bind. simpl. apply returns_bind.
  eapply returns_mono; [by apply returns_clr|]. intros [] s3 (Hv3 & Hh3 & Hg3).
  eapply returns_mono with (Q := fun _ s4 => same_groups s3 s4).
  { refine (total_bind _ _ _ _ s3); [apply total_of; [done|]; apply groups_set_ipriorityr; lia|].
    intros _. apply total_bind; [apply total_of; [done|apply groups_cpuif_id]|]. intros me.
    apply total_bind; [apply total_of; [done|]; apply groups_set_itargetsr; lia|]. intros _.
    apply total_bind; [apply total_of; [done|apply groups_set_icfgr]|]. intros _.
    apply total_of; [done|apply groups_write_isenabler]. }
  intros [] s4 (Hv4 & Hh4 & Hg4). split; [congruence|]. split; [congruence|].
  intros i Hi. rewrite Hg4, Hg3, Hstep, Hg2 by done. rewrite (Z.eqb_sym i).
  destruct (intr_num p =? i) eqn:E'; zbool.
  - subst i. rewrite orb_true_r, andb_true_r. apply Z.leb_le in E. by rewrite E.
  - by rewrite orb_false_r.
Qed.

Lemma ppi_sgi_loop_run ps mask s :
  Forall good_prop ps -> 0 <= mask < 2 ^ 32 ->
  returns (sec_ppi_sgi_loop base ps mask) s (fun m s' =>
    same_groups s s' /\ 0 <= m < 2 ^ 32 /\
    forall i, 0 <= i < 32 -> Z.testbit m i = Z.testbit mask i || listed ps i).
Proof.
  revert mask s. induction ps as [|p ps IH]; intros mask s Hps Hm; simpl.
  { apply returns_ret. split; [reflexivity|]. split; [done|]. intros. by rewrite orb_false_r. }
  apply Forall_cons_iff in Hps as [[Hgrp Hnum] Hps].
  rewrite Z.geb_leb. destruct (MIN_SPI_ID <=? intr_num p) eqn:E; zbool; unfold MIN_SPI_ID in E.
  { eapply returns_mono; [by apply IH|]. intros m s' (Hs & Hr & Hb). split; [done|].
    split; [done|]. intros i Hi. rewrite Hb by done.
    assert ((intr_num p =? i) = false) as -> by (apply Z.eqb_neq; lia). done. }
  rewrite Hgrp. apply returns_bind. simpl.
  set (mask' := Z.lor mask (shl32 1 (intr_num p))).
  assert (Hp2 : shl32 1 (intr_num p) = 2 ^ intr_num p) by (apply shl32_1; lia).
  assert (Hmask' : 0 <= mask' < 2 ^ 32).
  { unfold mask'. apply lor_u32; [done|]. rewrite Hp2. split; [lia|]. apply Z.pow_lt_mono_r; lia. }
  apply returns_bind. eapply returns_mono with (Q := fun _ s1 => same_groups s s1).
  { destruct (_ && _); [|by apply returns_ret].
    apply (total_line _ ltac:(intros; by do 2 eexists) (groups_set_icfgr _ _)). }
  intros [] s1 Hs1. apply returns_bind. eapply returns_mono with (Q := fun _ s2 => same_groups s1 s2).
  { apply (total_line _ ltac:(intros; by do 2 eexists) (groups_set_ipriorityr _ _ (proj1 Hnum))). }
  intros [] s2 Hs2. eapply returns_mono; [by apply IH|]. intros m s3 (Hs3 & Hr & Hb).
  split; [transitivity s1; [done|]; by transitivity s2|]. split; [done|].
  intros i Hi. rewrite Hb by done. unfold mask'. rewrite Z.lor_spec, Hp2, <- orb_assoc.
  do 2 f_equal. destruct (intr_num p =? i) eqn:E'; zbool.
  - subst. apply Z.pow2_bits_true. lia.
  - by apply Z.pow2_bits_false.
Qed.

Lemma ppi_sgi_run ps s :
  Forall good_prop ps ->
  returns (gicv2_secure_ppi_sgi_setup_props base (Some ps) (Z.of_nat (length ps))) s (fun _ s' =>
    vars s' = vars s /\ held s' = held s /\
    forall i, 0 <= i <= MAX_SPI_ID -> group_bit (dev s') i =
      if i <? MIN_SPI_ID then negb (listed ps i) else group_bit (dev s) i).
Proof.
  intros Hps. unfold gicv2_secure_ppi_sgi_setup_props, returns.
  rewrite (bind_run _ _ _ _ _ (props_of_run ps s)). apply returns_bind.
  eapply returns_mono with (Q := fun _ s1 => same_groups s s1).
  { apply (total_line _ ltac:(intros; by do 2 eexists) (groups_write_icenabler _ _)). }
  intros [] s1 Hs1. apply returns_bind.
  eapply returns_mono with (Q := fun _ s2 => same_groups s1 s2).
  { refine (total_for_each _ _ _ s1). intros x _. apply total_of; [done|apply groups_ipriorityr]. }
  intros [] s2 Hs2. apply returns_bind.
  eapply returns_mono; [by apply ppi_sgi_loop_run|]. intros m s3 (Hs3 & Hm & Hb).
  assert (Hs : same_groups s s3).
  { transitivity s1; [done|]. by transitivity s2. }
  clear s1 s2 Hs1 Hs2 Hs3. destruct Hs as (Hv3 & Hh3 & Hg3). apply returns_bind.
  eapply returns_mono; [apply write_igroupr_run; [done|apply u32_range]|].
  intros [] s4 (Hv4 & Hh4 & Hg4).
  eapply returns_mono with (Q := fun _ s5 => same_groups s4 s5).
  { apply (total_line _ ltac:(intros; by do 2 eexists) (groups_write_isenabler _ _)). }
  intros [] s5 (Hv5 & Hh5 & Hg5). split; [congruence|]. split; [congruence|].
  intros i Hi. rewrite Hg5, Hg4, Hg3 by done. unfold MIN_SPI_ID, MAX_SPI_ID in *.
  assert ((i / 32 =? 0 / 32) = (i <? 32)) as ->.
  { apply eq_true_iff_eq. rewrite Z.eqb_eq, Z.ltb_lt. change (0 / 32) with 0.
    pose proof (Z.div_mod i 32 ltac:(lia)). pose proof (Z.mod_pos_bound i 32 ltac:(lia)). lia. }
  destruct (i <? 32) eqn:E; [|done]. zbool. rewrite Z.mod_small by lia.
  fold (not32 m). rewrite testbit_not32 by lia. rewrite Hb by lia. by rewrite Z.bits_0.
Qed.

(** ** The whole initialisation *)

(** The boot processor's mask entry is readable. *)
Definition masks_ok (p : gicv2_driver_data) (pos : Z) (v : V) : Prop :=
  target_masks p = true /\ 0 <= pos < GICV2_MAX_TARGET_PE /\ pos < target_masks_num p /\
  pos < Z.of_nat (length (target_mask_array (sget v))).

Lemma aread_in {A} (l : list A) i (s : st V) :
  0 <= i < Z.of_nat (length l) -> exists x, aread l i s = (Ret x, s).
Proof.
  intros Hi. unfold aread. replace (i <? 0) with false by (symmetry; apply Z.ltb_ge; lia).
  destruct (lookup_lt_is_Some_2 l (Z.to_nat i)) as [x ->]; [lia|]. by exists x.
Qed.

Lemma set_pe_target_mask_run p pos s :
  ready base p (vars s) -> masks_ok p pos (vars s) ->
  returns (gicv2_set_pe_target_mask pos) s (fun _ s' =>
    ready base p (vars s') /\ held s' = held s /\
    forall i, 0 <= i <= MAX_SPI_ID -> group_bit (dev s') i = group_bit (dev s) i).
Proof.
  destruct s as [d l h v]. simpl. intros Hp (Ht & Hpos & Hn & Hlen).
  unfold gicv2_set_pe_target_mask, returns.
  rewrite (bind_run _ _ _ _ _ (with_gicd_run base p d l h v Hp)). rewrite Ht.
  replace (pos <? GICV2_MAX_TARGET_PE) with true by (symmetry; apply Z.ltb_lt; lia).
  replace (pos <? target_masks_num p) with true by (symmetry; apply Z.ltb_lt; lia).
  run. destruct (aread_in (target_mask_array (sget v)) pos (St d l h v)) as [x Hx]; [lia|].
  rewrite (bind_run _ _ _ _ _ Hx). destruct (negb (x =? 0)); [by run|].
  unfold gicv2_get_cpuif_id, gicd_read_itargetsr, awrite. cbv zeta. run.
  replace ((0 <=? pos) && _) with true
    by (symmetry; apply andb_true_iff; split; [apply Z.leb_le|apply Z.ltb_lt]; lia).
  run. split; [unfold ready in *; cbn [vars]; by rewrite sget_sput|]. split; [done|].
  simpl. intros i Hi. apply (groups_read W32 _ (St d l h v)). done.
Qed.

Lemma cpuif_enable_run p s :
  ready base p (vars s) -> base + 0x1000 <= gicc_base p ->
  returns gicv2_cpuif_enable s (fun _ s' => same_groups s s').
Proof.
  destruct s as [d l h v]. simpl. intros Hp Hc. unfold gicv2_cpuif_enable.
  eapply returns_step; [by apply (with_gicc_run base p)|].
  refine (total_bind _ _ _ _ (St d l h v)); [|intros _];
    apply total_write; unfold GICD_ISENABLER, GICC_PMR, GICC_CTLR; (done || lia).
Qed.

Lemma distif_init_run p ps typer s :
  ready base p (vars s) -> interrupt_props p = Some ps ->
  interrupt_props_num p = Z.of_nat (length ps) -> Forall good_prop ps ->
  (forall d, u32 (hw_read W32 (base + GICD_TYPER) d).1 = typer) ->
  returns gicv2_distif_init s (fun _ s' =>
    vars s' = vars s /\ held s' = held s /\
    forall i, 0 <= i <= MAX_SPI_ID -> group_bit (dev s') i =
      if (MIN_SPI_ID <=? i) && listed ps i then false
      else if (MIN_SPI_ID <=? i) && (i <? num_ints typer) then true else group_bit (dev s) i).
Proof.
  intros Hp Hps Hnum Hgood Ht. destruct s as [d l h v]. simpl in Hp.
  unfold gicv2_distif_init, returns.
  rewrite (bind_run _ _ _ _ _ (with_gicd_run base p d l h v Hp)).
  pose proof Hp as (_ & Hb & _). rewrite Hb, Hps, Hnum. apply returns_bind.
  eapply returns_mono with (Q := fun _ s1 => same_groups (St d l h v) s1).
  { apply (total_line _ ltac:(intros; by do 2 eexists) (groups_read _ _)). }
  intros ctlr s1 (Hv1 & Hh1 & Hg1). apply returns_bind.
  eapply returns_mono with (Q := fun _ s2 => same_groups s1 s2).
  { apply (total_line _ ltac:(intros; by do 2 eexists) (groups_write_ctlr _)). }
  intros [] s2 (Hv2 & Hh2 & Hg2). apply returns_bind.
  eapply returns_mono; [by apply (defaults_run typer)|]. intros [] s3 (Hv3 & Hh3 & Hg3).
  apply returns_bind. eapply returns_mono; [by apply secure_spis_run|].
  intros [] s4 (Hv4 & Hh4 & Hg4).
  eapply returns_mono with (Q := fun _ s5 => same_groups s4 s5).
  { apply (total_line _ ltac:(intros; by do 2 eexists) (groups_write_ctlr _)). }
  intros [] s5 (Hv5 & Hh5 & Hg5). simpl in *. split; [congruence|]. split; [congruence|].
  intros i Hi. by rewrite Hg5, Hg4, Hg3, Hg2, Hg1 by done.
Qed.

Lemma pcpu_init_run p ps s :
  ready base p (vars s) -> interrupt_props p = Some ps ->
  interrupt_props_num p = Z.of_nat (length ps) -> Forall good_prop ps ->
  returns gicv2_pcpu_distif_init s (fun _ s' =>
    vars s' = vars s /\ held s' = held s /\
    forall i, 0 <= i <= MAX_SPI_ID -> group_bit (dev s') i =
      if i <? MIN_SPI_ID then negb (listed ps i) else group_bit (dev s) i).
Proof.
  intros Hp Hps Hnum Hgood. destruct s as [d l h v]. simpl in Hp.
  unfold gicv2_pcpu_distif_init, returns.
  rewrite (bind_run _ _ _ _ _ (with_gicd_run base p d l h v Hp)).
  pose proof Hp as (_ & Hb & _). rewrite Hb, Hps, Hnum. apply returns_bind.
  eapply returns_mono; [by apply ppi_sgi_run|]. intros [] s1 (Hv1 & Hh1 & Hg1).
  eapply returns_mono with (Q := fun _ s2 => same_groups s1 s2).
  { refine (total_bind _ _ _ _ s1); [by apply total_of, groups_read|]. intros ctlr.
    destruct (_ =? 0); apply total_of; (done || apply groups_write_ctlr || apply respects_ret, _). }
  intros [] s2 (Hv2 & Hh2 & Hg2). split; [congruence|]. split; [congruence|].
  intros i Hi. by rewrite Hg2, Hg1 by done.
Qed.

(** The GIC initialisation of the boot processor returns, and afterwards an
    interrupt the distributor implements is secure (Group 0) exactly when the
    platform's property table lists it; nothing else can raise a FIQ. *)
Theorem gic_init_groups p ps typer mpidr s :
  ready base p (vars s) -> base + 0x1000 <= gicc_base p ->
  interrupt_props p = Some ps -> interrupt_props_num p = Z.of_nat (length ps) ->
  Forall good_prop ps -> masks_ok p (plat_my_core_pos mpidr) (vars s) ->
  (forall d, u32 (hw_read W32 (base + GICD_TYPER) d).1 = typer) ->
  returns (plat_arm_gic_init mpidr) s (fun _ s' =>
    held s' = held s /\
    forall i, 0 <= i <= MAX_SPI_ID -> i < num_ints typer ->
      group_bit (dev s') i = negb (listed ps i)).
Proof.
  intros Hp Hc Hps Hnum Hgood Hmask Ht. unfold plat_arm_gic_init. apply returns_bind.
  eapply returns_mono; [by apply (distif_init_run p ps typer)|]. intros [] s1 (Hv1 & Hh1 & Hg1).
  apply returns_bind. rewrite <- Hv1 in Hp, Hmask.
  eapply returns_mono; [by apply (pcpu_init_run p ps)|]. intros [] s2 (Hv2 & Hh2 & Hg2).
  apply returns_bind. rewrite <- Hv2 in Hp, Hmask.
  eapply returns_mono; [by apply (set_pe_target_mask_run p)|]. intros [] s3 (Hp3 & Hh3 & Hg3).
  eapply returns_mono; [by apply (cpuif_enable_run p)|]. intros [] s4 (_ & Hh4 & Hg4).
  split; [congruence|]. intros i Hi Hn. rewrite Hg4, Hg3, Hg2, Hg1 by done.
  destruct (i <? MIN_SPI_ID) eqn:E; zbool; [done|].
  apply Z.leb_le in E. apply Z.ltb_lt in Hn. rewrite E, Hn. simpl. by destruct (listed ps i).
Qed.

End Init.

(** A distributor with 160 interrupts: GICD_TYPER reads 4. *)
Definition typer_board : Env := {|
  Dev := Z -> Z;
  hw_read w a m :=
    (if a =? PLAT_ARM_GICD_BASE + GICD_TYPER then 4 else (mem_read w a m).1, m);
  hw_write := mem_write;
  hw_call _ _ m := (0, m);
  poll_bound := 0;
  uninit _ := 0
|}.

Lemma igroupr_aligned a :
  igroupr_word PLAT_ARM_GICD_BASE a -> a mod 4 = 0 /\ PLAT_ARM_GICD_BASE + 0x80 <= a.
Proof.
  intros (k & Hk & ->). unfold PLAT_ARM_GICD_BASE, GICD_IGROUPR. split; [|lia].
  replace (0xF9010000 + 128 + 4 * k) with ((1044398112 + k) * 4) by lia.
  apply Z.mod_mul. lia.
Qed.

#[export] Instance typer_board_latched :
  @Latched typer_board (igroupr_word PLAT_ARM_GICD_BASE).
Proof.
  refine {| peek := (fun m a => m a) : @Dev typer_board -> Z -> Z |}.
  - intros m a Ha. apply igroupr_aligned in Ha as [Ha Hlo]. simpl.
    unfold PLAT_ARM_GICD_BASE, GICD_TYPER in *.
    replace (a =? _) with false by (symmetry; apply Z.eqb_neq; lia).
    by apply (read_latched (Latched := board_latched 0 0)).
  - done.
  - intros m a z Ha Hz. apply igroupr_aligned in Ha as [Ha _].
    by apply (peek_write (Latched := board_latched 0 0)).
  - intros w m a b z Hb Hw Hne. apply igroupr_aligned in Hb as [Hb _].
    by apply (peek_write_other (Latched := board_latched 0 0)).
Defined.

(** The ZynqMP table: TTC3_1 (77) becomes secure, TTC2_0 (74) does not. *)
Lemma gic_init_groups_witness :
  returns (plat_arm_gic_init 0)
    (St (H := typer_board) (fun _ => 0) [] [] (GicVars (Some arm_gic_data) [0; 0; 0; 0]))
    (fun _ s' => held s' = [] /\
       Gic.group_bit (H := typer_board) PLAT_ARM_GICD_BASE (dev s') 77 = false /\
       Gic.group_bit (H := typer_board) PLAT_ARM_GICD_BASE (dev s') 74 = true).
Proof.
  eapply returns_mono.
  - apply (gic_init_groups (H := typer_board) PLAT_ARM_GICD_BASE eq_refl arm_gic_data
             arm_interrupt_props 4 0).
    + done.
    + by vm_compute.
    + reflexivity.
    + reflexivity.
    + unfold arm_interrupt_props. repeat constructor; by vm_compute.
    + repeat split; by vm_compute.
    + reflexivity.
  - intros [] s' [Hh Hg]. split; [done|]. split; by rewrite Hg.
Defined.

End GicInit.
