(* ===== verification/CtxData.v ===== *)
(** * The saved contexts of the processors

    The data of lib/el3_runtime/aarch64/context_mgmt.c and the pointers of
    bl31/bl31_context_mgmt.c: every processor has one context per security state,
    through which the monitor returns to a lower exception level.  The contexts
    are read and written by the interrupt framework ([IntrMgmt]), the context
    library ([CtxMgmt]), PSCI and the OP-TEE dispatcher. *)

From S2P Require Import Prelude Machine Gic.
Import Gic.
#[local] Open Scope Z_scope.
#[local] Open Scope c_scope.

Module CtxData.

(** A context: x0 to x30, the EL3 state, and the two EL1 registers that the
    sources set; the other EL1 registers are 0 after [cm_setup_context]. *)
Record cpu_context := CpuContext {
  gp_regs : list Z;
  ctx_scr_el3 : Z;
  ctx_elr_el3 : Z;
  ctx_spsr_el3 : Z;
  ctx_sctlr_el1 : Z;
  ctx_actlr_el1 : Z
}.
Definition zero_context : cpu_context := CpuContext (repeat 0 31) 0 0 0 0 0.
Definition set_scr (x : Z) (c : cpu_context) : cpu_context :=
  CpuContext (gp_regs c) x (ctx_elr_el3 c) (ctx_spsr_el3 c) (ctx_sctlr_el1 c) (ctx_actlr_el1 c).
Definition set_elr (x : Z) (c : cpu_context) : cpu_context :=
  CpuContext (gp_regs c) (ctx_scr_el3 c) x (ctx_spsr_el3 c) (ctx_sctlr_el1 c) (ctx_actlr_el1 c).
Definition set_spsr (x : Z) (c : cpu_context) : cpu_context :=
  CpuContext (gp_regs c) (ctx_scr_el3 c) (ctx_elr_el3 c) x (ctx_sctlr_el1 c) (ctx_actlr_el1 c).
Definition set_gp_regs (l : list Z) (c : cpu_context) : cpu_context :=
  CpuContext l (ctx_scr_el3 c) (ctx_elr_el3 c) (ctx_spsr_el3 c) (ctx_sctlr_el1 c) (ctx_actlr_el1 c).

(** The per-processor pointer to the context of a security state.  Only one
    object is ever stored in a slot ([psci_ns_context[i]] in the non-secure
    one, [opteed_sp_context[i].cpu_ctx] in the secure one), so a slot is that
    object with a flag for "the pointer is set". *)
Record slot := Slot { linked : bool; object : cpu_context }.

(** [cpu_contexts !! cpu !! security_state] *)
Record ctx_vars := CtxVars { cpu_contexts : list (list slot) }.

Definition SCR_VALID_BIT_MASK : Z := 0x2f8f.

Section Ops.
Context `{Env} {V : Type} `{!Has ctx_vars V}.

(** bl31_context_mgmt.c; [cpu] is the executing processor where the C function
    works on its own data. *)
Definition cm_get_slot (cpu security_state : Z) : M V slot :=
  c_assert (sec_state_is_valid security_state) ;;
  l <- gets cpu_contexts ;;
  per_cpu <- aread l cpu ;;
  aread per_cpu security_state.

Definition cm_put_slot (cpu security_state : Z) (x : slot) : M V unit :=
  l <- gets cpu_contexts ;;
  per_cpu <- aread l cpu ;;
  per_cpu' <- awrite per_cpu security_state x ;;
  l' <- awrite l cpu per_cpu' ;;
  mods (fun _ => CtxVars l').

Definition cm_get_context_by_index (cpu security_state : Z) : M V (option cpu_context) :=
  x <- cm_get_slot cpu security_state ;;
  ret (if linked x then Some (object x) else None).

Definition cm_set_context_by_index (cpu security_state : Z) : M V unit :=
  x <- cm_get_slot cpu security_state ;;
  cm_put_slot cpu security_state (Slot true (object x)).

(** [assert(ctx != NULL)], then a change of the object. *)
Definition cm_update (cpu security_state : Z) (f : cpu_context -> cpu_context) : M V unit :=
  ctx <- cm_get_context_by_index cpu security_state ;;
  c_assert (bool_decide (is_Some ctx)) ;;
  c <- deref ctx ;;
  cm_put_slot cpu security_state (Slot true (f c)).

(** The assertions come before the word is read. *)
Definition cm_write_scr_el3_bit (cpu security_state bit_pos value : Z) : M V unit :=
  ctx <- cm_get_context_by_index cpu security_state ;;
  c_assert (bool_decide (is_Some ctx)) ;;
  c_assert (negb (((shl64 1 bit_pos) .& SCR_VALID_BIT_MASK) =? 0)) ;;
  c_assert (value <=? 1) ;;
  cm_update cpu security_state (fun c =>
    let scr := ctx_scr_el3 c .& (u64 (Z.lnot (shl64 1 bit_pos))) in
    set_scr (scr .| shl64 value bit_pos) c).

End Ops.

(** ** The shape of the table *)

(** Four processors with two slots each, the non-secure one linked. *)
Definition slots_ok (per_cpu : list slot) : Prop :=
  exists s n, per_cpu = [s; n] /\ linked n = true.
Definition ctx_ok (c : ctx_vars) : Prop :=
  length (cpu_contexts c) = 4%nat /\ Forall slots_ok (cpu_contexts c).

(** The context of processor [j] for a security state (0 or 1), when the slot is
    linked; the slot with another object in it. *)
Definition context_of (ss : nat) (c : ctx_vars) (j : nat) : option cpu_context :=
  per_cpu ← cpu_contexts c !! j;
  x ← per_cpu !! ss;
  if linked x then Some (object x) else None.
Definition put_context (ss j : nat) (x : cpu_context) (c : ctx_vars) : ctx_vars :=
  CtxVars (alter (fun per_cpu => <[ss := Slot true x]> per_cpu) j (cpu_contexts c)).
Abbreviation ns_context := (context_of 1).
Abbreviation put_ns := (put_context 1).
Abbreviation s_context := (context_of 0).
Abbreviation put_s := (put_context 0).


(** Four processors with two slots each, linked or not. *)
Definition ctx_shape (c : ctx_vars) : Prop :=
  length (cpu_contexts c) = 4%nat /\ Forall (fun per_cpu => length per_cpu = 2%nat) (cpu_contexts c).

(** The control word of the context of processor [j], if it is linked. *)
Definition upd_scr (f : Z -> Z) (ss j : nat) (c : ctx_vars) : ctx_vars :=
  match context_of ss c j with
  | Some x => put_context ss j (set_scr (f (ctx_scr_el3 x)) x) c
  | None => c
  end.

Section Facts.
Context `{Env} {V : Type} `{!Has ctx_vars V}.
Implicit Types (d : Dev) (l : list event) (h : list lock_id) (v : V).

Lemma last_bind {A} (m : M V A) s : bind m ret s = m s.
Proof. unfold bind. by destruct (m s) as [[a|x] s']. Qed.

Lemma slot_ns c j : ctx_ok c -> (j < 4)%nat -> exists x, ns_context c j = Some x.
Proof.
  intros [Hl Hs] Hj. destruct (lookup_lt_is_Some_2 (cpu_contexts c) j) as [per_cpu Hp]; [lia|].
  rewrite Forall_lookup in Hs. destruct (Hs _ _ Hp) as (s & [b x] & -> & Hb). simpl in Hb. subst b.
  exists x. unfold context_of. by rewrite Hp.
Qed.

Lemma ok_shape c : ctx_ok c -> ctx_shape c.
Proof.
  intros [Hl Hs]. split; [done|]. eapply Forall_impl; [|exact Hs]. by intros per_cpu (s & n & -> & _).
Qed.

Lemma slot_at ss c j x : ctx_ok c -> context_of ss c j = Some x -> exists per_cpu,
  cpu_contexts c !! j = Some per_cpu /\ length per_cpu = 2%nat /\ per_cpu !! ss = Some (Slot true x) /\
  (j < 4)%nat /\ (ss < 2)%nat.
Proof.
  intros [Hl Hs] Hx. unfold context_of in Hx.
  destruct (cpu_contexts c !! j) as [per_cpu|] eqn:Hp; [|done]. simpl in Hx.
  destruct (per_cpu !! ss) as [[b y]|] eqn:Hy; [|done]. destruct b; [|done]. simplify_eq/=.
  rewrite Forall_lookup in Hs. destruct (Hs _ _ Hp) as (s & n & -> & _).
  exists [s; n]. apply lookup_lt_Some in Hp, Hy as Hy2. split; [done|]. split; [done|]. split; [done|].
  simpl in Hy2. lia.
Qed.

Lemma put_ok ss c j x : ctx_ok c -> ctx_ok (put_context ss j x c).
Proof.
  intros [Hl Hs]. split; simpl; [by rewrite length_alter|].
  apply Forall_alter; [done|]. intros per_cpu Hp _.
  rewrite Forall_lookup in Hs. destruct (Hs _ _ Hp) as (s & n & -> & Hb).
  destruct ss as [|[|ss]]; simpl; by do 2 eexists.
Qed.

Lemma put_same ss c j x y : ctx_ok c -> context_of ss c j = Some y ->
  context_of ss (put_context ss j x c) j = Some x.
Proof.
  intros Hc Hy. destruct (slot_at _ _ _ _ Hc Hy) as (per_cpu & Hp & Hl & _ & _ & Hss).
  unfold context_of, put_context. simpl. rewrite list_lookup_alter_eq, Hp. simpl.
  by rewrite list_lookup_insert_eq by lia.
Qed.

Lemma put_new ss c j x : ctx_ok c -> (j < 4)%nat -> (ss < 2)%nat ->
  context_of ss (put_context ss j x c) j = Some x.
Proof.
  intros [Hl Hs] Hj Hss. destruct (lookup_lt_is_Some_2 (cpu_contexts c) j) as [per_cpu Hp]; [lia|].
  rewrite Forall_lookup in Hs. destruct (Hs _ _ Hp) as (s & n & -> & _).
  unfold context_of, put_context. simpl. rewrite list_lookup_alter_eq, Hp. simpl.
  by rewrite list_lookup_insert_eq.
Qed.

Lemma put_other ss ss' c j k x : ss <> ss' \/ j <> k ->
  context_of ss' (put_context ss j x c) k = context_of ss' c k.
Proof.
  intros Hne. unfold context_of, put_context. simpl. destruct (decide (k = j)) as [->|Hk].
  - rewrite list_lookup_alter_eq. destruct (cpu_contexts c !! j) as [per_cpu|]; [|done]. simpl.
    destruct Hne as [Hne|[]]; [|done]. by rewrite list_lookup_insert_ne.
  - by rewrite list_lookup_alter_ne.
Qed.

Lemma put_twice ss c j x y : put_context ss j x (put_context ss j y c) = put_context ss j x c.
Proof.
  unfold put_context. simpl. f_equal. apply list_eq. intros n. destruct (decide (n = j)) as [->|Hne].
  - rewrite !list_lookup_alter_eq. destruct (cpu_contexts c !! j) as [per_cpu|]; [|done].
    simpl. by rewrite list_insert_insert_eq.
  - by rewrite !list_lookup_alter_ne by done.
Qed.

(** Reading and replacing the context. *)
Lemma get_slot_run {B} (k : slot -> M V B) ss j per_cpu x d l h v : (ss < 2)%nat ->
  cpu_contexts (sget v) !! j = Some per_cpu -> per_cpu !! ss = Some x ->
  bind (cm_get_slot (Z.of_nat j) (Z.of_nat ss)) k (St d l h v) = k x (St d l h v).
Proof.
  intros Hss Hp Hx. unfold cm_get_slot.
  assert (sec_state_is_valid (Z.of_nat ss) = true) as -> by by destruct ss as [|[|]]; [..|lia].
  run. rewrite (run_bind_aread_nat _ _ per_cpu) by done. run. by rewrite (run_bind_aread_nat _ _ x) by done.
Qed.

Lemma put_slot_run {B} (k : unit -> M V B) ss j per_cpu x d l h v : (ss < 2)%nat ->
  cpu_contexts (sget v) !! j = Some per_cpu -> length per_cpu = 2%nat ->
  bind (cm_put_slot (Z.of_nat j) (Z.of_nat ss) (Slot true x)) k (St d l h v) =
  k tt (St d l h (sput (put_context ss j x (sget v)) v)).
Proof.
  intros Hss Hp Hl. unfold cm_put_slot. run. rewrite (run_bind_aread_nat _ _ per_cpu) by done. run.
  rewrite run_bind_awrite_nat by lia. run. rewrite run_bind_awrite_nat by by eapply lookup_lt_Some. run.
  do 4 f_equal. unfold put_context. f_equal.
  apply list_eq. intros n. destruct (decide (n = j)) as [->|Hne].
  - rewrite list_lookup_alter_eq, Hp. apply list_lookup_insert_eq. by eapply lookup_lt_Some.
  - by rewrite list_lookup_alter_ne, list_lookup_insert_ne by done.
Qed.

Lemma get_ctx_run {B} (k : option cpu_context -> M V B) ss j x d l h v :
  ctx_ok (sget v) -> context_of ss (sget v) j = Some x ->
  bind (cm_get_context_by_index (Z.of_nat j) (Z.of_nat ss)) k (St d l h v) = k (Some x) (St d l h v).
Proof.
  intros Hc Hx. destruct (slot_at _ _ _ _ Hc Hx) as (per_cpu & Hp & Hl & Hy & Hj & Hss).
  unfold cm_get_context_by_index. run. rewrite (get_slot_run _ ss j per_cpu (Slot true x)) by done. by run.
Qed.

Lemma update_run {B} (k : unit -> M V B) f ss j x d l h v :
  ctx_ok (sget v) -> context_of ss (sget v) j = Some x ->
  bind (cm_update (Z.of_nat j) (Z.of_nat ss) f) k (St d l h v) =
  k tt (St d l h (sput (put_context ss j (f x) (sget v)) v)).
Proof.
  intros Hc Hx. unfold cm_update. run. rewrite (get_ctx_run _ ss j x) by done.
  rewrite bool_decide_eq_true_2 by done. cbn [deref]. run.
  destruct (slot_at _ _ _ _ Hc Hx) as (per_cpu & Hp & Hl & Hy & Hj & Hss).
  by rewrite (put_slot_run _ ss j per_cpu) by done.
Qed.

(** [cm_set_context_by_index]: the slot gets linked. *)
Lemma link_run {B} (k : unit -> M V B) ss j d l h v : ctx_ok (sget v) -> (j < 4)%nat -> (ss < 2)%nat ->
  exists x, bind (cm_set_context_by_index (Z.of_nat j) (Z.of_nat ss)) k (St d l h v) =
    k tt (St d l h (sput (put_context ss j x (sget v)) v)).
Proof.
  intros [Hl Hs] Hj Hss. destruct (lookup_lt_is_Some_2 (cpu_contexts (sget v)) j) as [per_cpu Hp]; [lia|].
  rewrite Forall_lookup in Hs. destruct (Hs _ _ Hp) as (s & n & -> & _).
  destruct (lookup_lt_is_Some_2 [s; n] ss) as [x Hx]; [done|].
  exists (object x). unfold cm_set_context_by_index. run. rewrite (get_slot_run _ ss j [s; n] x) by done.
  by rewrite (put_slot_run _ ss j [s; n]) by done.
Qed.

(** ** The control word, with the slots linked or not *)

Lemma shape_slots c j : ctx_shape c -> (j < 4)%nat -> exists s n, cpu_contexts c !! j = Some [s; n].
Proof.
  intros [Hl Hs] Hj. destruct (lookup_lt_is_Some_2 (cpu_contexts c) j) as [per_cpu Hp]; [lia|].
  rewrite Forall_lookup in Hs. pose proof (Hs _ _ Hp) as H2.
  destruct per_cpu as [|s [|n []]]; try done. by exists s, n.
Qed.

Lemma shape_put ss j x c : ctx_shape c -> ctx_shape (put_context ss j x c).
Proof.
  intros [Hl Hs]. split; simpl; [by rewrite length_alter|].
  apply Forall_alter; [done|]. intros per_cpu Hp _. rewrite length_insert.
  rewrite Forall_lookup in Hs. by apply (Hs j).
Qed.

Lemma upd_scr_shape f ss j c : ctx_shape c -> ctx_shape (upd_scr f ss j c).
Proof. intros Hc. unfold upd_scr. destruct (context_of ss c j); [by apply shape_put|done]. Qed.

Lemma upd_scr_ok f ss j c : ctx_ok c -> ctx_ok (upd_scr f ss j c).
Proof. intros Hc. unfold upd_scr. destruct (context_of ss c j); [by apply put_ok|done]. Qed.

Lemma upd_scr_same f ss j c : ctx_shape c ->
  context_of ss (upd_scr f ss j c) j =
  option_map (fun x => set_scr (f (ctx_scr_el3 x)) x) (context_of ss c j).
Proof.
  intros [Hl Hs]. unfold upd_scr. destruct (context_of ss c j) as [x|] eqn:Hx; [|by rewrite Hx].
  unfold context_of in Hx. destruct (cpu_contexts c !! j) as [per_cpu|] eqn:Hp; [|done]. simpl in Hx.
  destruct (per_cpu !! ss) as [y|] eqn:Hy; [|done]. apply lookup_lt_Some in Hy.
  unfold context_of, put_context. simpl. rewrite list_lookup_alter_eq, Hp. simpl.
  by rewrite list_lookup_insert_eq.
Qed.

Lemma upd_scr_other f ss ss' j k c : ss <> ss' \/ j <> k ->
  context_of ss' (upd_scr f ss j c) k = context_of ss' c k.
Proof. intros Hne. unfold upd_scr. destruct (context_of ss c j); [by apply put_other|done]. Qed.

Lemma get_any_run {B} (k : option cpu_context -> M V B) ss j d l h v :
  ctx_shape (sget v) -> (j < 4)%nat -> (ss < 2)%nat ->
  bind (cm_get_context_by_index (Z.of_nat j) (Z.of_nat ss)) k (St d l h v) =
  k (context_of ss (sget v) j) (St d l h v).
Proof.
  intros Hc Hj Hss. destruct (shape_slots _ j Hc Hj) as (s & n & Hp).
  destruct (lookup_lt_is_Some_2 [s; n] ss) as [x Hx]; [done|].
  unfold cm_get_context_by_index. run. rewrite (get_slot_run _ ss j [s; n] x) by done. run.
  unfold context_of. rewrite Hp. simpl. by rewrite Hx.
Qed.

(** A bit of the word of a linked context. *)
Definition put_bit (z pos b : Z) : Z :=
  Z.lor (Z.land z (u64 (Z.lnot (shl64 1 pos)))) (shl64 b pos).

Lemma write_scr_run {B} (k : unit -> M V B) ss j x pos b d l h v :
  ctx_shape (sget v) -> (j < 4)%nat -> (ss < 2)%nat -> context_of ss (sget v) j = Some x ->
  shl64 1 pos .& SCR_VALID_BIT_MASK <> 0 -> b <= 1 ->
  bind (cm_write_scr_el3_bit (Z.of_nat j) (Z.of_nat ss) pos b) k (St d l h v) =
  k tt (St d l h (sput (upd_scr (fun z => put_bit z pos b) ss j (sget v)) v)).
Proof.
  intros Hc Hj Hss Hx Hpos Hb. unfold cm_write_scr_el3_bit, cm_update. run.
  rewrite get_any_run, Hx by done. rewrite bool_decide_eq_true_2 by done.
  rewrite (proj2 (Z.eqb_neq _ 0)) by done. rewrite (proj2 (Z.leb_le b 1)) by done. run.
  rewrite get_any_run, Hx by done. rewrite bool_decide_eq_true_2 by done. cbn [deref]. run.
  destruct (shape_slots _ j Hc Hj) as (s & n & Hp).
  rewrite (put_slot_run _ ss j [s; n]) by done. unfold upd_scr. by rewrite Hx.
Qed.

End Facts.
End CtxData.
