(* ===== verification/IntrMgmt.v ===== *)
(** * The EL3 interrupt management framework

    bl31/interrupt_mgmt.c with the helpers of include/bl31/interrupt_mgmt.h.  The
    framework decides, per interrupt type and security state, whether the type
    is routed to EL3, keeps one handler per type, and writes the routing bit into
    the saved contexts ([CtxData]) of the executing processor [cpu]. *)

From S2P Require Import Prelude Machine Gic CtxData.
Import Gic CtxData.
#[local] Open Scope Z_scope.
#[local] Open Scope c_scope.

Module IntrMgmt.

(** The functions of type [interrupt_type_handler_t] of the image; a NULL
    function pointer is [None]. *)
Inductive handler :=
| rdo_el3_interrupt_handler_ptr
| opteed_sel1_interrupt_handler_ptr
| ttc2_fiq_handler_ptr
| ttc_fiq_handler_ptr
| zynqmp_sgi7_irq_ptr.

#[export] Instance handler_eq_dec : EqDecision handler.
Proof. solve_decision. Defined.

Record intr_type_desc := IntrTypeDesc {
  type_handler : option handler;
  scr_el3 : list Z;
  type_flags : Z
}.

Record intr_mgmt := IntrVars { intr_type_descs : list intr_type_desc }.

Definition set_desc_handler (h : option handler) (t : intr_type_desc) : intr_type_desc :=
  IntrTypeDesc h (scr_el3 t) (type_flags t).
Definition set_desc_scr (l : list Z) (t : intr_type_desc) : intr_type_desc :=
  IntrTypeDesc (type_handler t) l (type_flags t).
Definition set_desc_flags (f : Z) (t : intr_type_desc) : intr_type_desc :=
  IntrTypeDesc (type_handler t) (scr_el3 t) f.

Definition EINVAL : Z := 22.
Definition EALREADY : Z := 37.
Definition INTR_TYPE_FLAGS_MASK : Z := 0xFFFFFFFC.
Definition INTR_DEFAULT_RM : Z := 0.

Definition get_interrupt_rm_flag (flag ss : Z) : Z := ((flag .>> 0) .>> ss) .& 1.
Definition set_interrupt_rm_flag (flag ss : Z) : Z := flag .| (1 .<< ss).

Definition validate_sel1_interrupt_rm (x : Z) : Z :=
  if (x =? 2) || (x =? 3) then 0 else - EINVAL.
Definition validate_ns_interrupt_rm (x : Z) : Z :=
  if (x =? 0) || (x =? 1) then 0 else - EINVAL.
Definition validate_el3_interrupt_rm (x : Z) : Z :=
  if (x =? 2) || (x =? 3) then 0 else - EINVAL.

Definition validate_interrupt_type (type : Z) : Z :=
  if (type =? INTR_TYPE_S_EL1) || (type =? INTR_TYPE_NS) || (type =? INTR_TYPE_EL3)
  then 0 else - EINVAL.

Definition validate_routing_model (type flags : Z) : Z :=
  let rm_flags := (flags .>> 0) .& 3 in
  if type =? INTR_TYPE_S_EL1 then validate_sel1_interrupt_rm rm_flags
  else if type =? INTR_TYPE_NS then validate_ns_interrupt_rm rm_flags
  else if type =? INTR_TYPE_EL3 then validate_el3_interrupt_rm rm_flags
  else - EINVAL.

Section Ops.
Context `{Env} {V : Type} `{!Has gic V} `{!Has intr_mgmt V} `{!Has ctx_vars V}.

Definition desc (type : Z) : M V intr_type_desc :=
  l <- gets intr_type_descs ;; aread l type.

Definition upd_desc (type : Z) (f : intr_type_desc -> intr_type_desc) : M V unit :=
  l <- gets intr_type_descs ;;
  t <- aread l type ;;
  l' <- awrite l type (f t) ;;
  mods (fun _ => IntrVars l').

Definition get_scr_el3_from_routing_model (security_state : Z) : M V Z :=
  c_assert (sec_state_is_valid security_state) ;;
  t_ns <- desc INTR_TYPE_NS ;;
  a <- aread (scr_el3 t_ns) security_state ;;
  t_s <- desc INTR_TYPE_S_EL1 ;;
  b <- aread (scr_el3 t_s) security_state ;;
  t_el3 <- desc INTR_TYPE_EL3 ;;
  c <- aread (scr_el3 t_el3) security_state ;;
  ret (a .| b .| c).

Definition set_scr_el3_from_rm (cpu type interrupt_type_flags security_state : Z) : M V unit :=
  let flag := get_interrupt_rm_flag interrupt_type_flags security_state in
  bit_pos <- plat_interrupt_type_to_line type security_state ;;
  t <- desc type ;;
  l <- awrite (scr_el3 t) security_state (shl64 flag bit_pos) ;;
  upd_desc type (set_desc_scr l) ;;
  ctx <- cm_get_context_by_index cpu security_state ;;
  if bool_decide (is_Some ctx) then cm_write_scr_el3_bit cpu security_state bit_pos flag else ret tt.

Definition set_routing_model (cpu type flags : Z) : M V Z :=
  let rc := validate_interrupt_type type in
  if negb (rc =? 0) then ret rc
  else
    let rc := validate_routing_model type flags in
    if negb (rc =? 0) then ret rc
    else
      upd_desc type (set_desc_flags flags) ;;
      set_scr_el3_from_rm cpu type flags SECURE ;;
      set_scr_el3_from_rm cpu type flags NON_SECURE ;;
      ret 0.

Definition disable_intr_rm_local (cpu type security_state : Z) : M V Z :=
  t <- desc type ;;
  c_assert (bool_decide (is_Some (type_handler t))) ;;
  let flag := get_interrupt_rm_flag INTR_DEFAULT_RM security_state in
  bit_pos <- plat_interrupt_type_to_line type security_state ;;
  cm_write_scr_el3_bit cpu security_state bit_pos flag ;;
  ret 0.

Definition enable_intr_rm_local (cpu type security_state : Z) : M V Z :=
  t <- desc type ;;
  c_assert (bool_decide (is_Some (type_handler t))) ;;
  t' <- desc type ;;
  let flag := get_interrupt_rm_flag (type_flags t') security_state in
  bit_pos <- plat_interrupt_type_to_line type security_state ;;
  cm_write_scr_el3_bit cpu security_state bit_pos flag ;;
  ret 0.

Definition register_interrupt_type_handler (cpu type : Z) (h : option handler) (flags : Z) : M V Z :=
  if negb (bool_decide (is_Some h)) then ret (- EINVAL)
  else if negb ((flags .& INTR_TYPE_FLAGS_MASK) =? 0) then ret (- EINVAL)
  else
    t <- desc type ;;
    if bool_decide (is_Some (type_handler t)) then ret (- EALREADY)
    else
      rc <- set_routing_model cpu type flags ;;
      if negb (rc =? 0) then ret rc
      else
        upd_desc type (set_desc_handler h) ;;
        ret 0.

Definition get_interrupt_type_handler (type : Z) : M V (option handler) :=
  if negb (validate_interrupt_type type =? 0) then ret None
  else
    t <- desc type ;;
    ret (type_handler t).

End Ops.

(** ** The state of the framework *)

(** Three descriptors with two words each. *)
Definition wf (v : intr_mgmt) : Prop :=
  length (intr_type_descs v) = 3%nat /\
  Forall (fun t => length (scr_el3 t) = 2%nat) (intr_type_descs v).

Definition line_of (type : Z) : Z := if type =? INTR_TYPE_NS then SCR_IRQ_POS else SCR_FIQ_POS.

(** The word a routing model gives a descriptor for one security state. *)
Definition rm_word (type flags ss : Z) : Z := shl64 (get_interrupt_rm_flag flags ss) (line_of type).

(** The statics after a successful registration: the descriptor, and the words
    of the linked contexts of the executing processor. *)
Definition registered (type : Z) (h : handler) (flags : Z) (v : intr_mgmt) : intr_mgmt :=
  IntrVars (<[Z.to_nat type := IntrTypeDesc (Some h)
                [rm_word type flags SECURE; rm_word type flags NON_SECURE] flags]> (intr_type_descs v)).

Definition reroute (type flags : Z) (ss j : nat) : ctx_vars -> ctx_vars :=
  upd_scr (fun z => put_bit z (line_of type) (get_interrupt_rm_flag flags (Z.of_nat ss))) ss j.
Definition rerouted (type flags : Z) (j : nat) (c : ctx_vars) : ctx_vars :=
  reroute type flags 1 j (reroute type flags 0 j c).

Definition valid_type (type : Z) : Prop :=
  type = INTR_TYPE_S_EL1 \/ type = INTR_TYPE_EL3 \/ type = INTR_TYPE_NS.

(** Nothing but the descriptors and the contexts has changed. *)
Definition only_routing {V : Type} `{!Has intr_mgmt V} `{!Has ctx_vars V} (v v' : V) : Prop :=
  forall (S : Type) (HS : Has S V), Indep S intr_mgmt V -> Indep S ctx_vars V ->
    sget (S := S) v' = sget v.

Section Proofs.
Context `{Env} {V : Type} `{!Has gic V} `{!Has intr_mgmt V} `{!Has ctx_vars V}.
Context `{!Indep gic intr_mgmt V} `{!Indep gic ctx_vars V}.
Context `{!Indep intr_mgmt ctx_vars V} `{!Indep ctx_vars intr_mgmt V}.
Context (base : Z) (p : gicv2_driver_data) (i : nat) (Hi : (i < 4)%nat).

(** GICC_CTLR.FIQEn, set by [gicv2_cpuif_enable], reads back as 1. *)
Context (Hfiq : forall d, Z.testbit (u32 (hw_read W32 (gicc_base p + GICC_CTLR) d).1) FIQ_EN_SHIFT = true).
Implicit Types (d : Dev) (l : list event) (h : list lock_id) (v : V).

Lemma line_run type ss d l h v :
  ready base p v -> valid_type type -> sec_state_is_valid ss = true -> exists d' l',
  plat_interrupt_type_to_line type ss (St d l h v) = (Ret (line_of type), St d' l' h v).
Proof.
  intros Hp Ht Hs. unfold plat_interrupt_type_to_line, line_of. rewrite Hs.
  replace (_ || _ || _) with true by (by destruct Ht as [-> | [-> | ->]]). run.
  destruct (type =? INTR_TYPE_NS); [by eexists _, _|].
  unfold gicv2_is_fiq_enabled. rewrite run_bind_assoc.
  rewrite (bind_run _ _ _ _ _ (with_gicc_run base p d l h v Hp)).
  unfold gicc_read_ctlr. run. rewrite testbit_shr_land1 by done. rewrite Hfiq. by eexists _, _.
Qed.

Lemma upd_desc_run type f d l h v t :
  valid_type type -> intr_type_descs (sget v) !! Z.to_nat type = Some t ->
  upd_desc type f (St d l h v) =
    (Ret tt, St d l h (sput (IntrVars (<[Z.to_nat type := f t]> (intr_type_descs (sget v)))) v)).
Proof.
  intros Hty Ht. unfold upd_desc. run.
  assert (Hlt : (Z.to_nat type < length (intr_type_descs (sget v)))%nat)
    by (apply lookup_lt_is_Some; by exists t).
  assert (H0 : 0 <= type) by (destruct Hty as [-> | [-> | ->]]; done).
  rewrite (run_bind_aread _ _ t) by (done || by apply Z.ltb_ge).
  rewrite run_bind_awrite.
  2: { apply andb_true_iff. split; [by apply Z.leb_le|apply Z.ltb_lt; lia]. }
  by run.
Qed.

(** One security state: the descriptor's word and the context's bit. *)
Definition rm_desc (type flags : Z) (ss : nat) (t : intr_type_desc) : intr_type_desc :=
  set_desc_scr (<[ss := rm_word type flags (Z.of_nat ss)]> (scr_el3 t)) t.

Lemma set_scr_run type flags ss d l h v t :
  ready base p v -> valid_type type -> (ss < 2)%nat -> ctx_shape (sget v) ->
  intr_type_descs (sget v) !! Z.to_nat type = Some t -> length (scr_el3 t) = 2%nat ->
  exists d' l' v', set_scr_el3_from_rm (Z.of_nat i) type flags (Z.of_nat ss) (St d l h v) =
    (Ret tt, St d' l' h v') /\ only_routing v v' /\
    intr_type_descs (sget v') = <[Z.to_nat type := rm_desc type flags ss t]> (intr_type_descs (sget v)) /\
    sget v' = reroute type flags ss i (sget v).
Proof.
  intros Hp Hty Hss Hc Ht Htl. unfold set_scr_el3_from_rm. cbv zeta.
  assert (Hval : sec_state_is_valid (Z.of_nat ss) = true) by (destruct ss as [|[|]]; done || lia).
  destruct (line_run type (Z.of_nat ss) d l h v Hp Hty Hval) as (d1 & l1 & Hline).
  rewrite (bind_run _ _ _ _ _ Hline). unfold desc. run.
  rewrite (run_bind_aread _ _ t); [|by destruct Hty as [-> | [-> | ->]]|done].
  rewrite run_bind_awrite_nat by lia. fold (rm_word type flags (Z.of_nat ss)).
  rewrite (bind_run _ _ _ _ _ (upd_desc_run type _ d1 l1 h v t Hty Ht)). fold (rm_desc type flags ss t).
  set (v1 := sput _ v). assert (Hc1 : sget (S := ctx_vars) v1 = sget v) by apply sget_indep.
  rewrite get_any_run by (by rewrite ?Hc1).
  assert (Hflag : get_interrupt_rm_flag flags (Z.of_nat ss) <= 1).
  { unfold get_interrupt_rm_flag. rewrite testbit_shr_land1 by lia. by destruct (Z.testbit _ _). }
  destruct (context_of ss (sget v1) i) as [x|] eqn:Hx.
  - rewrite bool_decide_eq_true_2 by done. rewrite <- last_bind, (write_scr_run _ ss i x);
      [|by rewrite Hc1|done|done|done|unfold line_of; by destruct (type =? INTR_TYPE_NS)|done].
    eexists d1, l1, _. split; [reflexivity|]. split; [|split].
    + intros S HS H1 H2. rewrite sget_indep. apply sget_indep.
    + rewrite sget_indep. unfold v1. by rewrite sget_sput.
    + by rewrite sget_sput, Hc1.
  - rewrite bool_decide_eq_false_2 by (by intros [? ?]). eexists d1, l1, v1. split; [reflexivity|].
    split; [|split].
    + intros S HS H1 H2. apply sget_indep.
    + unfold v1. by rewrite sget_sput.
    + rewrite Hc1 in *. unfold reroute, upd_scr. by rewrite Hx.
Qed.

Lemma only_trans v v1 v2 : only_routing v v1 -> only_routing v1 v2 -> only_routing v v2.
Proof. intros H1 H2 S HS Ha Hb. by rewrite (H2 S HS), (H1 S HS). Qed.

Lemma only_ready v v' : only_routing v v' -> ready base p v -> ready base p v'.
Proof. intros Ho. unfold ready. by rewrite (Ho gic _). Qed.

Lemma only_desc v m : only_routing v (sput (S := intr_mgmt) m v).
Proof. intros S HS H1 H2. apply sget_indep. Qed.

Lemma wf_lookup type v : valid_type type -> wf (sget v) -> exists t,
  intr_type_descs (sget v) !! Z.to_nat type = Some t /\ length (scr_el3 t) = 2%nat.
Proof.
  intros Hty [Hl Hf]. destruct (lookup_lt_is_Some_2 (intr_type_descs (sget v)) (Z.to_nat type)) as [t Ht].
  { rewrite Hl. destruct Hty as [-> | [-> | ->]]; vm_compute; lia. }
  exists t. split; [done|]. rewrite Forall_lookup in Hf. by eapply Hf.
Qed.

Lemma set_routing_model_run type flags d l h v t :
  ready base p v -> valid_type type -> validate_routing_model type flags = 0 ->
  ctx_shape (sget v) -> wf (sget v) -> intr_type_descs (sget v) !! Z.to_nat type = Some t ->
  exists d' l' v', set_routing_model (Z.of_nat i) type flags (St d l h v) = (Ret 0, St d' l' h v') /\
    only_routing v v' /\ sget v' = rerouted type flags i (sget v) /\
    intr_type_descs (sget v') = <[Z.to_nat type := IntrTypeDesc (type_handler t)
       [rm_word type flags SECURE; rm_word type flags NON_SECURE] flags]> (intr_type_descs (sget v)).
Proof.
  intros Hp Hty Hrm Hc Hwf Ht. unfold set_routing_model. cbv zeta.
  assert (Hvt : validate_interrupt_type type = 0) by (by destruct Hty as [-> | [-> | ->]]).
  rewrite Hvt, Hrm. cbn [Z.eqb negb].
  destruct (wf_lookup type v Hty Hwf) as (t' & Ht' & Htl). rewrite Ht in Ht'. injection Ht' as <-.
  assert (Hlt : (Z.to_nat type < length (intr_type_descs (sget v)))%nat) by by eapply lookup_lt_Some.
  rewrite (bind_run _ _ _ _ _ (upd_desc_run _ _ _ _ _ _ _ Hty Ht)). set (v1 := sput _ v).
  assert (Hi1 : intr_type_descs (sget v1) =
    <[Z.to_nat type := set_desc_flags flags t]> (intr_type_descs (sget v))) by (unfold v1; by rewrite sget_sput).
  assert (Hc1 : sget (S := ctx_vars) v1 = sget v) by apply sget_indep.
  pose proof (only_desc v _ : only_routing v v1) as Ho1.
  destruct (set_scr_run type flags 0 d l h v1 (set_desc_flags flags t)) as (d2 & l2 & v2 & E2 & Ho2 & Hi2 & Hc2);
    [by eapply only_ready|done|lia|by rewrite Hc1|rewrite Hi1; by apply list_lookup_insert_eq|done|].
  rewrite (bind_run _ _ _ _ _ E2). rewrite Hi1, list_insert_insert_eq in Hi2.
  destruct (set_scr_run type flags 1 d2 l2 h v2 (rm_desc type flags 0 (set_desc_flags flags t)))
    as (d3 & l3 & v3 & E3 & Ho3 & Hi3 & Hc3);
    [by eapply only_ready, only_ready|done|lia|rewrite Hc2, Hc1; by apply upd_scr_shape
    |rewrite Hi2; by apply list_lookup_insert_eq|simpl; by rewrite length_insert|].
  rewrite (bind_run _ _ _ _ _ E3), run_ret. exists d3, l3, v3. split; [done|].
  split; [by eapply only_trans, only_trans|]. split; [by rewrite Hc3, Hc2, Hc1|].
  rewrite Hi3, Hi2, list_insert_insert_eq. do 2 f_equal.
  destruct t as [th [|w0 [|w1 []]] tf]; done.
Qed.

(** The return code the code's checks give, in their order. *)
Definition register_code (type : Z) (hd : option handler) (flags : Z) (v : intr_mgmt) : Z :=
  match hd, intr_type_descs v !! Z.to_nat type with
  | None, _ => - EINVAL
  | Some _, Some t =>
      if negb ((flags .& INTR_TYPE_FLAGS_MASK) =? 0) then - EINVAL
      else if bool_decide (is_Some (type_handler t)) then - EALREADY
      else validate_routing_model type flags
  | Some _, None => - EINVAL
  end.

Lemma validate_routing_model_cases type flags :
  validate_routing_model type flags = 0 \/ validate_routing_model type flags = - EINVAL.
Proof.
  unfold validate_routing_model, validate_sel1_interrupt_rm, validate_ns_interrupt_rm,
    validate_el3_interrupt_rm. repeat if_case; auto.
Qed.

(** The whole effect of a registration. *)
Lemma register_run type hd flags d l h v :
  ready base p v -> valid_type type -> ctx_shape (sget v) -> wf (sget v) ->
  let rc := register_code type hd flags (sget v) in
  exists d' l' v', register_interrupt_type_handler (Z.of_nat i) type hd flags (St d l h v) =
    (Ret rc, St d' l' h v') /\ only_routing v v' /\
    match hd with
    | Some f => if rc =? 0 then sget v' = registered type f flags (sget v) /\
                                sget v' = rerouted type flags i (sget v)
                else v' = v
    | None => v' = v
    end.
Proof.
  intros Hp Hty Hc Hwf. cbv zeta. unfold register_interrupt_type_handler, register_code.
  assert (Ho : only_routing v v) by done.
  destruct hd as [f|]; simpl; [|by exists d, l, v].
  destruct (wf_lookup type v Hty Hwf) as (t & Ht & _). rewrite Ht.
  destruct (negb _); [by exists d, l, v|]. unfold desc. run.
  rewrite (run_bind_aread _ _ t); [|by destruct Hty as [-> | [-> | ->]]|done].
  destruct (bool_decide _) eqn:Hb; [by exists d, l, v|].
  destruct (validate_routing_model_cases type flags) as [Hrm|Hrm].
  - rewrite Hrm. destruct (set_routing_model_run type flags d l h v t)
      as (d1 & l1 & v1 & Hr & Ho1 & Hc1 & Hi1); try done. rewrite (bind_run _ _ _ _ _ Hr).
    change (negb (0 =? 0)) with false. cbn match.
    rewrite (bind_run _ _ _ _ _ (upd_desc_run type (set_desc_handler (Some f)) d1 l1 h v1 _ Hty
      ltac:(rewrite Hi1; by apply list_lookup_insert_eq, (lookup_lt_Some _ _ _ Ht)))).
    rewrite run_ret. eexists d1, l1, _. split; [reflexivity|].
    split; [by eapply only_trans, only_desc|]. cbn [Z.eqb].
    rewrite sget_sput, sget_indep, Hi1, list_insert_insert_eq. done.
  - rewrite Hrm. unfold set_routing_model.
    assert (Hvt : validate_interrupt_type type = 0) by (by destruct Hty as [-> | [-> | ->]]).
    rewrite Hvt, Hrm. run. by exists d, l, v.
Qed.

Lemma registered_wf type f flags m : wf m -> wf (registered type f flags m).
Proof. intros [Hl Hf]. split; simpl; [by rewrite length_insert|]. by apply Forall_insert. Qed.

Lemma get_handler_run type d l h (v : V) t :
  valid_type type -> intr_type_descs (sget v) !! Z.to_nat type = Some t ->
  get_interrupt_type_handler type (St d l h v) = (Ret (type_handler t), St d l h v).
Proof.
  intros Hty Ht. unfold get_interrupt_type_handler, desc.
  assert (Hvt : validate_interrupt_type type = 0) by (by destruct Hty as [-> | [-> | ->]]).
  rewrite Hvt. cbn [Z.eqb negb]. run.
  rewrite (run_bind_aread _ _ t) by (done || by destruct Hty as [-> | [-> | ->]]).
  by run.
Qed.

(** The SCR_EL3 value of a security state has the bits of every type. *)
Lemma get_scr_run type ss d l h (v : V) t w :
  wf (sget v) -> valid_type type -> ss = SECURE \/ ss = NON_SECURE ->
  intr_type_descs (sget v) !! Z.to_nat type = Some t -> scr_el3 t !! Z.to_nat ss = Some w ->
  exists scr, get_scr_el3_from_routing_model ss (St d l h v) = (Ret scr, St d l h v) /\
    forall i, Z.testbit w i = true -> Z.testbit scr i = true.
Proof.
  intros (Hl & Hf) Hty Hss Ht Hw. unfold get_scr_el3_from_routing_model, desc.
  destruct (sget v) as [descs] eqn:Hv. simpl in *.
  destruct descs as [|t0 [|t1 [|t2 []]]]; try done.
  apply Forall_cons_iff in Hf as [H0 Hf]. apply Forall_cons_iff in Hf as [H1 Hf].
  apply Forall_cons_iff in Hf as [H2 _].
  destruct t0 as [h0 [|a0 [|b0 []]] f0], t1 as [h1 [|a1 [|b1 []]] f1],
    t2 as [h2 [|a2 [|b2 []]] f2]; try done.
  destruct Hss as [-> | ->]; repeat (run; rewrite ?Hv; cbn [intr_type_descs]; arr);
    (eexists; split; [reflexivity|]); intros b Hb; rewrite !Z.lor_spec;
    destruct Hty as [-> | [-> | ->]]; simplify_eq/=; rewrite Hb, ?orb_true_r; done.
Qed.

Lemma line_bit type : Z.testbit (shl64 1 (line_of type)) (line_of type) = true.
Proof. unfold line_of. by destruct (type =? INTR_TYPE_NS). Qed.

Lemma put_bit_same z type b : b = 0 \/ b = 1 ->
  Z.testbit (put_bit z (line_of type) b) (line_of type) = Z.testbit b 0.
Proof.
  intros Hb. unfold put_bit. rewrite Z.lor_spec, Z.land_spec.
  assert (Z.testbit (u64 (Z.lnot (shl64 1 (line_of type)))) (line_of type) = false) as ->.
  { unfold line_of. by destruct (type =? INTR_TYPE_NS). }
  rewrite andb_false_r. unfold line_of. by destruct Hb as [-> | ->], (type =? INTR_TYPE_NS).
Qed.

Lemma rm_flag_cases flags ss : 0 <= ss ->
  get_interrupt_rm_flag flags ss = 0 \/ get_interrupt_rm_flag flags ss = 1.
Proof.
  intros Hs. unfold get_interrupt_rm_flag. rewrite testbit_shr_land1 by done.
  destruct (Z.testbit _ _); auto.
Qed.

(** The saved words have the bits of the routing model. *)
Lemma rerouted_bit type flags ss c x : ctx_shape c -> (ss < 2)%nat ->
  context_of ss (rerouted type flags i c) i = Some x ->
  Z.testbit (ctx_scr_el3 x) (line_of type) =
  Z.testbit (get_interrupt_rm_flag flags (Z.of_nat ss)) 0.
Proof.
  intros Hc Hss Hx. unfold rerouted, reroute in Hx. destruct ss as [|[|]]; [| |lia].
  - rewrite upd_scr_other, upd_scr_same in Hx by auto. destruct (context_of 0 c i); [|done].
    simplify_eq/=. apply put_bit_same, rm_flag_cases. done.
  - rewrite upd_scr_same, upd_scr_other in Hx by (auto || by apply upd_scr_shape).
    destruct (context_of 1 c i); [|done]. simplify_eq/=. apply put_bit_same, rm_flag_cases. done.
Qed.

(** Registration of a handler for an interrupt type.  When a check fails
    (no handler, reserved flags, type already taken, unsupported routing model)
    the code of the first failing check is returned and nothing changes.
    Otherwise 0 is returned, the framework afterwards gives this handler for the
    type, the SCR_EL3 value of each security state routes the type's line to EL3
    when the flag of that state asks for it, and so does the word saved in the
    executing processor's context of that state, if it has one; the descriptors
    stay well formed, and a second registration is refused with -EALREADY. *)
Theorem register_get_roundtrip type hd flags ss d l h v :
  ready base p v -> valid_type type -> ctx_shape (sget v) -> wf (sget v) -> (ss < 2)%nat ->
  exists d' l' v',
    register_interrupt_type_handler (Z.of_nat i) type hd flags (St d l h v) =
      (Ret (register_code type hd flags (sget v)), St d' l' h v') /\
    (register_code type hd flags (sget v) <> 0 -> v' = v) /\
    (register_code type hd flags (sget v) = 0 ->
       wf (sget v') /\
       get_interrupt_type_handler type (St d' l' h v') = (Ret hd, St d' l' h v') /\
       (exists scr, get_scr_el3_from_routing_model (Z.of_nat ss) (St d' l' h v') = (Ret scr, St d' l' h v') /\
          (get_interrupt_rm_flag flags (Z.of_nat ss) = 1 -> Z.testbit scr (line_of type) = true)) /\
       (forall x, context_of ss (sget v') i = Some x ->
          Z.testbit (ctx_scr_el3 x) (line_of type) =
          Z.testbit (get_interrupt_rm_flag flags (Z.of_nat ss)) 0) /\
       exists d'' l'', register_interrupt_type_handler (Z.of_nat i) type hd flags (St d' l' h v') =
          (Ret (- EALREADY), St d'' l'' h v')).
Proof.
  intros Hp Hty Hc Hwf Hss.
  destruct (register_run type hd flags d l h v Hp Hty Hc Hwf) as (d' & l' & v' & Hr & Ho & Hv').
  exists d', l', v'. split; [exact Hr|].
  destruct hd as [f|]; [|split; [done|by intros]].
  split; [intros Hne; apply Z.eqb_neq in Hne; by rewrite Hne in Hv'|]. intros H0.
  rewrite (proj2 (Z.eqb_eq _ _) H0) in Hv'. destruct Hv' as [Hi' Hc'].
  destruct (wf_lookup type v Hty Hwf) as (t & Ht & _).
  assert (Hd : intr_type_descs (sget v') !! Z.to_nat type = Some (IntrTypeDesc (Some f)
    [rm_word type flags SECURE; rm_word type flags NON_SECURE] flags)).
  { rewrite Hi'. simpl. by eapply list_lookup_insert_eq, lookup_lt_Some. }
  assert (Hwf' : wf (sget v')) by (rewrite Hi'; by apply registered_wf).
  split; [done|]. split; [by rewrite (get_handler_run _ _ _ _ _ _ Hty Hd)|]. split; [|split].
  - destruct (get_scr_run type (Z.of_nat ss) d' l' h v' _ (rm_word type flags (Z.of_nat ss)) Hwf' Hty
      ltac:(destruct ss as [|[|]]; [by left|by right|lia]) Hd) as (scr & Hs & Hb).
    { rewrite Nat2Z.id. by destruct ss as [|[|]]; [..|lia]. }
    exists scr. split; [done|]. intros Hf. apply Hb. unfold rm_word. by rewrite Hf, line_bit.
  - intros x Hx. rewrite Hc' in Hx. by eapply rerouted_bit.
  - destruct (register_run type (Some f) flags d' l' h v' (only_ready _ _ Ho Hp) Hty)
      as (d'' & l'' & v'' & Hr2 & _ & Hv2); [|done|].
    { rewrite Hc'. by apply upd_scr_shape, upd_scr_shape. }
    assert (Hcode : register_code type (Some f) flags (sget v') = - EALREADY).
    { unfold register_code in *. rewrite Hd. simpl. rewrite Ht in H0. by destruct (negb _). }
    rewrite Hcode in Hr2, Hv2. simpl in Hv2. subst v''. by exists d'', l''.
Qed.

(** The type is used as an array index before it is validated: with a handler
    and legal flags, a type beyond the table is read out of bounds. *)
Lemma register_type_unchecked cpu type hd flags d l h v :
  wf (sget v) -> 3 <= type -> flags .& INTR_TYPE_FLAGS_MASK = 0 ->
  register_interrupt_type_handler cpu type (Some hd) flags (St d l h v) =
    (Halt OutOfBounds, St d l h v).
Proof.
  intros (Hl & _) Hty Hf. unfold register_interrupt_type_handler. rewrite Hf. simpl.
  unfold desc. run. unfold bind, aread. 
  replace (type <? 0) with false by (symmetry; apply Z.ltb_ge; lia).
  rewrite lookup_ge_None_2 by lia. done.
Qed.

End Proofs.

(** The witness: the EL3 dispatcher with both routing flags, contexts present. *)
Definition fiq_board : Env := {|
  Dev := unit;
  hw_read _ _ d := (8, d);
  hw_write _ _ _ d := d;
  hw_call _ _ d := (0, d);
  poll_bound := 0;
  uninit _ := 0
|}.

Definition blank_desc : intr_type_desc := IntrTypeDesc None [0; 0] 0.
Definition blank : intr_mgmt := IntrVars [blank_desc; blank_desc; blank_desc].

(** Processor 0 with both contexts, the others with neither. *)
Definition boot_contexts : ctx_vars :=
  CtxVars ([Slot true (set_scr 0x30 zero_context); Slot true (set_scr 0x531 zero_context)] ::
           repeat (repeat (Slot false zero_context) 2) 3).

(** The statics of the framework with those it uses. *)
Record intr_image := IntrImage { ii_gic : gic; ii_intr : intr_mgmt; ii_ctx : ctx_vars }.

#[export] Instance ii_has_gic : Has gic intr_image := {
  sget := ii_gic;
  sput g v := IntrImage g (ii_intr v) (ii_ctx v);
  sget_sput _ _ := eq_refl;
  sput_sget v := match v with IntrImage _ _ _ => eq_refl end;
  sput_sput _ _ _ := eq_refl
}.
#[export] Instance ii_has_intr : Has intr_mgmt intr_image := {
  sget := ii_intr;
  sput m v := IntrImage (ii_gic v) m (ii_ctx v);
  sget_sput _ _ := eq_refl;
  sput_sget v := match v with IntrImage _ _ _ => eq_refl end;
  sput_sput _ _ _ := eq_refl
}.
#[export] Instance ii_has_ctx : Has ctx_vars intr_image := {
  sget := ii_ctx;
  sput c v := IntrImage (ii_gic v) (ii_intr v) c;
  sget_sput _ _ := eq_refl;
  sput_sget v := match v with IntrImage _ _ _ => eq_refl end;
  sput_sput _ _ _ := eq_refl
}.
#[export] Instance ii_gic_intr : Indep gic intr_mgmt intr_image := fun _ _ => eq_refl.
#[export] Instance ii_gic_ctx : Indep gic ctx_vars intr_image := fun _ _ => eq_refl.
#[export] Instance ii_intr_ctx : Indep intr_mgmt ctx_vars intr_image := fun _ _ => eq_refl.
#[export] Instance ii_ctx_intr : Indep ctx_vars intr_mgmt intr_image := fun _ _ => eq_refl.

(** The EL3 dispatcher with both routing flags: the secure context gets the bit. *)
Lemma register_get_roundtrip_witness :
  exists (d' : @Dev fiq_board) l' (v' : intr_image),
    register_interrupt_type_handler (H := fiq_board) 0 INTR_TYPE_EL3
      (Some rdo_el3_interrupt_handler_ptr) 3
      (St (H := fiq_board) tt [] [] (IntrImage booted blank boot_contexts)) =
      (Ret 0, St (H := fiq_board) d' l' [] v') /\
    get_interrupt_type_handler (H := fiq_board) INTR_TYPE_EL3 (St (H := fiq_board) d' l' [] v') =
      (Ret (Some rdo_el3_interrupt_handler_ptr), St (H := fiq_board) d' l' [] v') /\
    forall x, context_of 0 (ii_ctx v') 0 = Some x -> Z.testbit (ctx_scr_el3 x) SCR_FIQ_POS = true.
Proof.
  destruct (register_get_roundtrip (H := fiq_board) (V := intr_image) PLAT_ARM_GICD_BASE
    arm_gic_data 0 ltac:(lia) (fun _ => eq_refl) INTR_TYPE_EL3 (Some rdo_el3_interrupt_handler_ptr) 3 0
    tt [] [] (IntrImage booted blank boot_contexts)) as (d' & l' & v' & Hr & _ & Hok).
  - done.
  - right. by left.
  - repeat constructor.
  - repeat constructor.
  - lia.
  - destruct Hok as (_ & Hh & _ & Hb & _); [reflexivity|].
    exists d', l', v'. split; [exact Hr|]. split; [exact Hh|exact Hb].
Defined.

End IntrMgmt.
