(* ===== verification/Swdt.v ===== *)
(** * The EL3 dispatcher and the heartbeat of BL31

    plat/xilinx/zynqmp/bl31_zynqmp_setup.c (the per-interrupt EL3 table, its
    dispatcher and the runtime setup) and plat/xilinx/zynqmp/zynqmp_swdt.c (the
    TTC2 heartbeat), built with ZYNQMP_WDT_RESTART = 1.  Console output is not
    modelled; the register reads of the INFO lines are, behind the flag
    [info_enabled] (LOG_LEVEL >= INFO). *)

From S2P Require Import Prelude Machine Gic CtxData IntrMgmt.
From Stdlib Require Import String.
From stdpp Require Import strings.
Import Gic CtxData IntrMgmt.
#[local] Open Scope Z_scope.
#[local] Open Scope c_scope.

Module Swdt.

Definition MAX_INTR_EL3 : Z := 128.
Definition IRQ_TTC2_0 : Z := 74.
Definition TTC2_BASE_ADDR : Z := 0xFF130000.
Definition TTC2_CLK_CNTRL_0 : Z := TTC2_BASE_ADDR + 0x00.
Definition TTC2_CNT_CNTRL_0 : Z := TTC2_BASE_ADDR + 0x0C.
Definition TTC2_INTERVAL_VAL_0 : Z := TTC2_BASE_ADDR + 0x24.
Definition TTC2_ISR_0 : Z := TTC2_BASE_ADDR + 0x54.
Definition TTC2_IER_0 : Z := TTC2_BASE_ADDR + 0x60.
Definition TTC_CNTRL_DIS : Z := 0x1.
Definition TTC_CNTRL_INT_MODE : Z := 0x2.
Definition TTC_CNTRL_RST : Z := 0x10.
Definition TTC_CLK_PS_EN : Z := 0x1.
Definition TTC2_CLK_PS_VAL : Z := 15.
Definition TTC2_INTERVAL_TICKS : Z := 3052.
Definition TTC2_IRQ_PRIORITY : Z := 0x40.

(** The statics of the two files. *)
Record swdt := SwdtVars {
  type_el3_interrupt_table : list (option handler);
  dbg_entry_cnt : Z;
  ttc2_hb_seq : Z
}.

Definition set_table (l : list (option handler)) (v : swdt) : swdt :=
  SwdtVars l (dbg_entry_cnt v) (ttc2_hb_seq v).
Definition set_dbg_entry_cnt (c : Z) (v : swdt) : swdt :=
  SwdtVars (type_el3_interrupt_table v) c (ttc2_hb_seq v).
Definition set_ttc2_hb_seq (q : Z) (v : swdt) : swdt :=
  SwdtVars (type_el3_interrupt_table v) (dbg_entry_cnt v) q.

(** Boot value: an empty table of 128 entries. *)
Definition bss : swdt := SwdtVars (replicate 128 None) 0 0.

Section Ops.
Context `{Env} {V : Type} `{!Has gic V} `{!Has intr_mgmt V} `{!Has ctx_vars V} `{!Has swdt V}.

(** ** bl31_zynqmp_setup.c *)

Definition request_intr_type_el3 (id : Z) (hd : option handler) : M V Z :=
  if negb (bool_decide (is_Some hd)) || (id >=? MAX_INTR_EL3) then ret (- EINVAL)
  else
    tbl <- gets type_el3_interrupt_table ;;
    cur <- aread tbl id ;;
    if bool_decide (is_Some cur) then ret (- EALREADY)
    else
      tbl' <- awrite tbl id hd ;;
      mods (set_table tbl') ;;
      ret 0.

Section Dispatch.
(** The bodies of the registered handlers: [invoke h id flags]. *)
Variable invoke : handler -> Z -> Z -> M V Z.

Definition rdo_el3_interrupt_handler (id flags : Z) : M V Z :=
  mods (fun v => set_dbg_entry_cnt (u32 (dbg_entry_cnt v + 1)) v) ;;
  cnt <- gets dbg_entry_cnt ;;
  mmio_write_32 0xFF130034 cnt ;;
  intr_id <- plat_ic_get_pending_interrupt_id ;;
  mmio_write_32 0xFF130038 intr_id ;;
  if intr_id >=? MAX_INTR_EL3 then ret 0
  else
    tbl <- gets type_el3_interrupt_table ;;
    hd <- aread tbl intr_id ;;
    match hd with
    | Some f => _ <- invoke f intr_id flags ;; ret 0
    | None => ret 0
    end.
End Dispatch.

(** ** zynqmp_swdt.c *)

Definition ttc2_fiq_handler (id flags : Z) : M V Z :=
  _ <- mmio_read_32 TTC2_ISR_0 ;;
  mods (fun v => set_ttc2_hb_seq (u32 (ttc2_hb_seq v + 1)) v) ;;
  seq <- gets ttc2_hb_seq ;;
  mmio_write_32 (TTC2_BASE_ADDR + 0x48) seq ;;
  seq' <- gets ttc2_hb_seq ;;
  mmio_write_32 (TTC2_BASE_ADDR + 0x30) seq' ;;
  plat_ic_end_of_interrupt IRQ_TTC2_0 ;;
  ret 0.

Definition ttc2_hw_init : M V unit :=
  mmio_write_32 TTC2_CNT_CNTRL_0 TTC_CNTRL_DIS ;;
  mmio_write_32 TTC2_CLK_CNTRL_0 (TTC_CLK_PS_EN .| (TTC2_CLK_PS_VAL .<< 1)) ;;
  mmio_write_32 TTC2_CNT_CNTRL_0 (TTC_CNTRL_DIS .| TTC_CNTRL_RST) ;;
  mmio_write_32 TTC2_INTERVAL_VAL_0 TTC2_INTERVAL_TICKS ;;
  _ <- mmio_read_32 TTC2_ISR_0 ;;
  mmio_write_32 TTC2_IER_0 0x1 ;;
  mmio_write_32 TTC2_CNT_CNTRL_0 TTC_CNTRL_INT_MODE.

Context (info_enabled : bool).

Definition swdt_readback : M V unit :=
  if info_enabled then
    _ <- mmio_read_32 (PLAT_ARM_GICD_BASE + 0x0) ;;
    _ <- mmio_read_32 (PLAT_ARM_GICC_BASE + 0x0) ;;
    _ <- mmio_read_32 (PLAT_ARM_GICD_BASE + 0x088) ;;
    _ <- mmio_read_32 (PLAT_ARM_GICD_BASE + 0x108) ;;
    _ <- ext_call "read_scr_el3" [] ;;
    ret tt
  else ret tt.

Definition zynqmp_swdt_init : M V unit :=
  plat_ic_set_interrupt_type IRQ_TTC2_0 INTR_TYPE_EL3 ;;
  plat_ic_set_interrupt_priority IRQ_TTC2_0 TTC2_IRQ_PRIORITY ;;
  plat_ic_set_spi_routing IRQ_TTC2_0 INTR_ROUTING_MODE_ANY 0 ;;
  plat_ic_enable_interrupt IRQ_TTC2_0 ;;
  r <- request_intr_type_el3 IRQ_TTC2_0 (Some ttc2_fiq_handler_ptr) ;;
  if negb (r =? 0) then ret tt
  else
    ttc2_hw_init ;;
    swdt_readback.

(** ** bl31_zynqmp_setup.c: setup *)

Definition bl31_platform_setup (mpidr_el1 : Z) : M V unit :=
  plat_arm_gic_driver_init ;;
  plat_arm_gic_init mpidr_el1.

Definition bl31_plat_runtime_setup (mpidr_el1 : Z) : M V unit :=
  let flags := 0 in
  let flags := set_interrupt_rm_flag flags NON_SECURE in
  let flags := set_interrupt_rm_flag flags SECURE in
  rc <- register_interrupt_type_handler (plat_my_core_pos mpidr_el1) INTR_TYPE_EL3
          (Some rdo_el3_interrupt_handler_ptr) flags ;;
  if negb (rc =? 0) then stop Panic
  else zynqmp_swdt_init.

End Ops.

(** ** The EL3 table as a partial map

    [lookup_el3] is the abstract view: which handler answers an interrupt. *)

Definition table_ok (v : swdt) : Prop := length (type_el3_interrupt_table v) = 128%nat.

Definition lookup_el3 (v : swdt) (id : Z) : option handler :=
  if (0 <=? id) && (id <? MAX_INTR_EL3)
  then mjoin (type_el3_interrupt_table v !! Z.to_nat id) else None.

Lemma lookup_el3_set v id id' hd :
  table_ok v -> 0 <= id < MAX_INTR_EL3 ->
  lookup_el3 (set_table (<[Z.to_nat id := Some hd]> (type_el3_interrupt_table v)) v) id' =
  if id' =? id then Some hd else lookup_el3 v id'.
Proof.
  unfold table_ok, lookup_el3, MAX_INTR_EL3. intros Hok Hid. simpl.
  destruct (id' =? id) eqn:E; zbool.
  - subst. replace (_ && _) with true
      by (symmetry; apply andb_true_iff; split; [apply Z.leb_le|apply Z.ltb_lt]; lia).
    rewrite list_lookup_insert_eq; [done|]. rewrite Hok. lia.
  - destruct ((0 <=? id') && (id' <? 128)) eqn:E'; [|done]. zbool.
    by rewrite list_lookup_insert_ne by lia.
Qed.

Lemma lookup_el3_Some v id hd :
  lookup_el3 v id = Some hd -> type_el3_interrupt_table v !! Z.to_nat id = Some (Some hd).
Proof.
  unfold lookup_el3. destruct (_ && _); [|done].
  destruct (_ !! _) as [[g|]|]; simpl; congruence.
Qed.

Section Proofs.
Context `{Env} {V : Type} `{!Has gic V} `{!Has intr_mgmt V} `{!Has ctx_vars V} `{!Has swdt V}.
Context `{!Indep gic swdt V} `{!Indep gic intr_mgmt V} `{!Indep gic ctx_vars V}.
Context `{!Indep swdt intr_mgmt V} `{!Indep swdt ctx_vars V} `{!Indep swdt gic V}.
Context `{!Indep intr_mgmt swdt V} `{!Indep intr_mgmt ctx_vars V}.
Context `{!Indep ctx_vars swdt V} `{!Indep ctx_vars intr_mgmt V}.

(** What the code promises about the table. *)
Definition request_code (id : Z) (hd : option handler) (v : swdt) : Z :=
  if negb (bool_decide (is_Some hd)) || (MAX_INTR_EL3 <=? id) then - EINVAL
  else if bool_decide (is_Some (lookup_el3 v id)) then - EALREADY else 0.

Lemma request_run id hd d l h (v : V) :
  table_ok (sget v) -> 0 <= id ->
  request_intr_type_el3 id hd (St d l h v) =
    (Ret (request_code id hd (sget v)),
     St d l h (if request_code id hd (sget v) =? 0
               then sput (set_table (<[Z.to_nat id := hd]> (type_el3_interrupt_table (sget v))) (sget v)) v
               else v)).
Proof.
  intros Hok Hid. unfold request_intr_type_el3, request_code, lookup_el3.
  rewrite Z.geb_leb. destruct hd as [f|]; simpl; [|done].
  destruct (MAX_INTR_EL3 <=? id) eqn:E; simpl; [done|]. zbool. unfold MAX_INTR_EL3 in *.
  replace ((0 <=? id) && (id <? 128)) with true
    by (symmetry; apply andb_true_iff; split; [apply Z.leb_le|apply Z.ltb_lt]; lia).
  run. destruct (lookup_lt_is_Some_2 (type_el3_interrupt_table (sget v)) (Z.to_nat id)) as [cur Hc].
  { unfold table_ok in Hok. lia. }
  rewrite (run_bind_aread _ _ cur) by (done || by apply Z.ltb_ge). rewrite Hc. simpl.
  destruct cur as [g|]; simpl; [done|]. rewrite run_bind_awrite.
  2: { apply andb_true_iff. unfold table_ok in Hok. split; [apply Z.leb_le|apply Z.ltb_lt]; lia. }
  by run.
Qed.

(** The pending interrupt as the dispatcher sees it: 1023 becomes all ones. *)
Lemma pending_id_range base p d l h (v : V) : ready base p v -> exists id d' l',
  plat_ic_get_pending_interrupt_id (St d l h v) = (Ret id, St d' l' h v) /\
  (0 <= id < 1023 \/ id = INTR_ID_UNAVAILABLE).
Proof.
  intros Hp. unfold plat_ic_get_pending_interrupt_id, gicv2_get_pending_interrupt_id.
  assert (Hm : forall a, 0 <= Z.land a INT_ID_MASK <= 1023).
  { intros a. unfold INT_ID_MASK. change 1023 with (2 ^ 10 - 1). rewrite land_low by lia.
    pose proof (Z.mod_pos_bound a (2 ^ 10) ltac:(lia)). lia. }
  rewrite run_bind_assoc, (bind_run _ _ _ _ _ (with_gicc_run base p d l h v Hp)).
  unfold gicc_read_hppir, gicc_read_ahppir. run. rewrite run_bind_if.
  unfold GIC_SPURIOUS_INTERRUPT.
  destruct (_ =? PENDING_G1_INTID); run;
  match goal with |- context [Z.land ?a INT_ID_MASK =? 1023] => specialize (Hm a);
    destruct (Z.land a INT_ID_MASK =? 1023) eqn:E end; zbool; run;
  (eexists _, _, _; split; [reflexivity|]); (by right) || (left; lia).
Qed.

(** The per-interrupt table behaves as a write-once map.  A request is
    refused with -EINVAL for a NULL handler or an id beyond the table and with
    -EALREADY when the id has a handler, and then changes nothing; otherwise it
    returns 0 and afterwards exactly that id is answered by the new handler.
    The table keeps its 128 entries. *)
Theorem request_intr_el3_map id hd d l h (v : V) :
  table_ok (sget v) -> 0 <= id ->
  exists v', request_intr_type_el3 id hd (St d l h v) =
      (Ret (request_code id hd (sget v)), St d l h v') /\
    table_ok (sget v') /\ sget (S := gic) v' = sget v /\ sget (S := intr_mgmt) v' = sget v /\
    forall id', lookup_el3 (sget v') id' =
      if (request_code id hd (sget v) =? 0) && (id' =? id) then hd else lookup_el3 (sget v) id'.
Proof.
  intros Hok Hid. rewrite request_run by done. eexists. split; [reflexivity|].
  destruct (request_code id hd (sget v) =? 0) eqn:E; simpl; [|done].
  rewrite !sget_sput, !sget_indep. split; [unfold table_ok in *; simpl; by rewrite length_insert|].
  split; [done|]. split; [done|]. intros id'.
  unfold request_code in E. destruct hd as [f|]; simpl in E; [|done].
  destruct (MAX_INTR_EL3 <=? id) eqn:E'; zbool; [done|]. apply lookup_el3_set; [done|lia].
Qed.


(** ** The heartbeat *)

Definition HEARTBEAT : Z := 0xFF130048.

(** Values written to the heartbeat register, newest first. *)
Fixpoint beats (l : list event) : list Z :=
  match l with
  | [] => []
  | EvWr W32 a z :: l' => if a =? HEARTBEAT then z :: beats l' else beats l'
  | _ :: l' => beats l'
  end.

Lemma beats_app l1 l2 : beats (l1 ++ l2) = beats l1 ++ beats l2.
Proof.
  induction l1 as [|e l1 IH]; simpl; [done|]. rewrite IH.
  destruct e as [| [] a z| | | | | |]; try done. by destruct (a =? HEARTBEAT).
Qed.

(** One timer interrupt as the handler serves it. *)
Lemma ttc2_fiq_run base p id flags d l h (v : V) :
  ready base p v -> gicc_base p = PLAT_ARM_GICC_BASE -> exists d' isr,
  ttc2_fiq_handler id flags (St d l h v) =
    (Ret 0, St d'
      (EvWr W32 (PLAT_ARM_GICC_BASE + GICC_EOIR) IRQ_TTC2_0 :: EvBar ::
       EvWr W32 (TTC2_BASE_ADDR + 0x30) (u32 (ttc2_hb_seq (sget v) + 1)) ::
       EvWr W32 HEARTBEAT (u32 (ttc2_hb_seq (sget v) + 1)) ::
       EvRd W32 TTC2_ISR_0 isr :: l)
      h (sput (set_ttc2_hb_seq (u32 (ttc2_hb_seq (sget v) + 1)) (sget v)) v)) /\
  forall L : Latched (fun a => a = HEARTBEAT),
    peek d' HEARTBEAT = u32 (ttc2_hb_seq (sget v) + 1).
Proof.
  intros Hp Hc. unfold ttc2_fiq_handler, plat_ic_end_of_interrupt, gicv2_end_of_interrupt. run.
  set (v1 := sput (set_ttc2_hb_seq _ _) v).
  assert (Hp1 : ready base p v1) by (unfold ready, v1; by rewrite sget_indep).
  rewrite (bind_run _ _ _ _ _ (with_gicc_run base p _ _ _ _ Hp1)).
  unfold gicc_write_EOIR. run. rewrite Hc. cbn [set_ttc2_hb_seq ttc2_hb_seq]. rewrite u32_u32.
  eexists _, _. split; [reflexivity|]. intros L.
  rewrite !(peek_write_other W32) by done. by rewrite peek_write by (done || apply u32_range).
Qed.

(** [n] timer interrupts. *)
Fixpoint ticks (n : nat) : M V unit :=
  match n with
  | O => ret tt
  | S n' => ticks n' ;; _ <- ttc2_fiq_handler IRQ_TTC2_0 0 ;; ret tt
  end.

(** Served [n] times, the heartbeat handler returns each time, ends the
    interrupt after the heartbeat is written, and writes the heartbeat register
    once per interrupt with the consecutive values seq+1, ..., seq+n modulo
    2^32. *)
Theorem heartbeat_counts base p n d l h (v : V) :
  ready base p v -> gicc_base p = PLAT_ARM_GICC_BASE ->
  exists d' new v',
    ticks n (St d l h v) = (Ret tt, St d' (new ++ l) h v') /\ ready base p v' /\
    beats new = rev (map (fun k => u32 (ttc2_hb_seq (sget v) + Z.of_nat k)) (seq 1 n)) /\
    u32 (ttc2_hb_seq (sget v')) = u32 (ttc2_hb_seq (sget v) + Z.of_nat n).
Proof.
  intros Hp Hc. induction n as [|n (d1 & new1 & v1 & Hr & Hp1 & Hb & Hq)]; simpl ticks.
  { exists d, [], v. by rewrite Z.add_0_r. }
  rewrite (bind_run _ _ _ _ _ Hr).
  destruct (ttc2_fiq_run base p IRQ_TTC2_0 0 d1 (new1 ++ l) h v1 Hp1 Hc) as (d2 & isr & Hr2 & _).
  rewrite (bind_run _ _ _ _ _ Hr2), run_ret.
  assert (Hu : u32 (ttc2_hb_seq (sget v1) + 1) = u32 (ttc2_hb_seq (sget v) + Z.of_nat (S n))).
  { rewrite <- u32_add_l, Hq, u32_add_l. f_equal. lia. }
  eexists d2, (_ :: _ :: _ :: _ :: _ :: new1), _. split; [reflexivity|].
  split; [unfold ready; by rewrite sget_indep|].
  split; [|rewrite sget_sput; simpl; by rewrite u32_u32, Hu].
  rewrite seq_S, map_app, rev_app_distr. simpl. by rewrite Hb, Hu.
Qed.

(** ** Arming the heartbeat *)

Definition masks_wired (p : gicv2_driver_data) : Prop :=
  gicd_base p = PLAT_ARM_GICD_BASE /\ gicc_base p = PLAT_ARM_GICC_BASE /\
  target_masks p = true /\ 0 <= target_masks_num p < 0x7FFFFFFF.

(** The interrupt controller part, newest first: interrupt 74 made Group 0 under
    the lock, priority 0x40, routed to every CPU interface, enabled. *)
Definition gic_trace (rd : Z) : list event :=
  [EvWr W32 0xF9010108 0x400; EvBar; EvWr W8 0xF901084A 0xff; EvWr W8 0xF901044A 0x40;
   EvUnlock gic_lock; EvWr W32 0xF9010088 (rd .& 0xFFFFFBFF); EvRd W32 0xF9010088 rd;
   EvLock gic_lock].

(** The timer part: stopped, prescaler 2^16, counter reset while stopped,
    interval 3052, stale status cleared, interrupt enabled, started. *)
Definition ttc2_trace (isr : Z) : list event :=
  [EvWr W32 TTC2_CNT_CNTRL_0 2; EvWr W32 TTC2_IER_0 1; EvRd W32 TTC2_ISR_0 isr;
   EvWr W32 TTC2_INTERVAL_VAL_0 3052; EvWr W32 TTC2_CNT_CNTRL_0 0x11;
   EvWr W32 TTC2_CLK_CNTRL_0 0x1f; EvWr W32 TTC2_CNT_CNTRL_0 1].

Definition is_read (e : event) : Prop :=
  match e with EvRd _ _ _ | EvCall _ _ _ => True | _ => False end.

Lemma set_type_trace p d l h (v : V) :
  ready PLAT_ARM_GICD_BASE p v -> gic_lock ∉ h -> exists d' rd,
  plat_ic_set_interrupt_type IRQ_TTC2_0 INTR_TYPE_EL3 (St d l h v) =
  (Ret tt, St d' (EvUnlock gic_lock :: EvWr W32 0xF9010088 (rd .& 0xFFFFFBFF) ::
                  EvRd W32 0xF9010088 rd :: EvLock gic_lock :: l) h v).
Proof.
  intros Hp Hl.
  change (plat_ic_set_interrupt_type IRQ_TTC2_0 INTR_TYPE_EL3)
    with (gicv2_set_interrupt_type (V := V) IRQ_TTC2_0 0).
  unfold gicv2_set_interrupt_type, gicd_clr_igroupr, gicd_read_igroupr, gicd_write_igroupr.
  rewrite (bind_run _ _ _ _ _ (with_gicd_run PLAT_ARM_GICD_BASE p _ _ _ _ Hp)).
  pose proof Hp as (_ & Hd & _). rewrite Hd. cbv zeta.
  replace (IRQ_TTC2_0 <=? MAX_SPI_ID) with true by done. run.
  rewrite run_bind_lock, bool_decide_eq_false_2 by done.
  change (0 =? GICV2_INTR_GROUP1) with false. change (0 =? GICV2_INTR_GROUP0) with true.
  cbn match. run. rewrite unlock_lock by done.
  set (rd := u32 (hw_read _ _ _).1). exists (hw_write W32 0xF9010088 (rd .& 0xFFFFFBFF)
    (hw_read W32 0xF9010088 d).2), rd.
  assert (Hrd : u32 (rd .& 0xFFFFFBFF) = rd .& 0xFFFFFBFF).
  { apply u32_small, land_u32; [apply u32_range|done]. }
  rewrite <- Hrd. reflexivity.
Qed.

Lemma gic_part_run p d l h (v : V) :
  ready PLAT_ARM_GICD_BASE p v -> masks_wired p -> gic_lock ∉ h -> exists d' rd, forall k : M V unit,
  (plat_ic_set_interrupt_type IRQ_TTC2_0 INTR_TYPE_EL3 ;;
   plat_ic_set_interrupt_priority IRQ_TTC2_0 TTC2_IRQ_PRIORITY ;;
   plat_ic_set_spi_routing IRQ_TTC2_0 INTR_ROUTING_MODE_ANY 0 ;;
   plat_ic_enable_interrupt IRQ_TTC2_0 ;; k) (St d l h v) = k (St d' (gic_trace rd ++ l) h v).
Proof.
  intros Hp (Hd & Hc & Ht & Hn) Hl.
  destruct (set_type_trace p d l h v Hp Hl) as (d1 & rd & Hr).
  eexists _, rd. intros k. rewrite (bind_run _ _ _ _ _ Hr).
  unfold plat_ic_set_interrupt_priority, gicv2_set_interrupt_priority,
    plat_ic_enable_interrupt, gicv2_enable_interrupt.
  change (plat_ic_set_spi_routing IRQ_TTC2_0 INTR_ROUTING_MODE_ANY 0)
    with (gicv2_set_spi_routing (V := V) IRQ_TTC2_0 (-1)).
  unfold gicv2_set_spi_routing, gicd_set_ipriorityr, gicd_set_itargetsr, gicd_set_isenabler,
    gicd_write_isenabler.
  replace (IRQ_TTC2_0 <=? MAX_SPI_ID) with true by done.
  replace ((IRQ_TTC2_0 >=? MIN_SPI_ID) && (IRQ_TTC2_0 <=? MAX_SPI_ID)) with true by done.
  replace (-1 <? GICV2_MAX_TARGET_PE) with true by done.
  replace (-1 <? 0) with true by done. cbv zeta. cbn match.
  pose proof (fun d l h => with_gicd_run PLAT_ARM_GICD_BASE p d l h v Hp) as Hg.
  rewrite run_bind_assoc, (bind_run _ _ _ _ _ (Hg _ _ _)). run.
  rewrite (bind_run _ _ _ _ _ (Hg _ _ _)). rewrite Ht.
  replace (target_masks_num p <? 0x7FFFFFFF) with true by (symmetry; apply Z.ltb_lt; lia).
  replace (-1 <? target_masks_num p) with true by (symmetry; apply Z.ltb_lt; lia). run.
  rewrite (bind_run _ _ _ _ _ (Hg _ _ _)). run. rewrite Hd. reflexivity.
Qed.

Lemma hw_init_run d l h (v : V) : exists d' isr,
  forall k : M V unit, bind ttc2_hw_init (fun _ => k) (St d l h v) =
    k (St d' (ttc2_trace isr ++ l) h v).
Proof. eexists _, _. intros k. unfold ttc2_hw_init. run. reflexivity. Qed.

Lemma readback_run info d l h (v : V) : exists d' new,
  swdt_readback info (St d l h v) = (Ret tt, St d' (new ++ l) h v) /\ Forall is_read new.
Proof.
  destruct info; simpl.
  - unfold swdt_readback. run. eexists _, [_; _; _; _; _]. split; [reflexivity|]. by repeat constructor.
  - by eexists _, [].
Qed.

(** [zynqmp_swdt_init] returns with the lock released.  When interrupt 74 has no
    handler yet, the controller is configured, then the handler is in the table,
    then the timer is programmed and started; when the registration is refused no
    timer register is touched. *)
Lemma swdt_init_run info p d l h (v : V) :
  ready PLAT_ARM_GICD_BASE p v -> masks_wired p -> gic_lock ∉ h -> table_ok (sget v) ->
  exists d' v' rd,
  match lookup_el3 (sget v) IRQ_TTC2_0 with
  | None => exists isr reads, Forall is_read reads /\
      v' = sput (set_table (<[Z.to_nat IRQ_TTC2_0 := Some ttc2_fiq_handler_ptr]>
                   (type_el3_interrupt_table (sget v))) (sget v)) v /\
      zynqmp_swdt_init info (St d l h v) =
        (Ret tt, St d' (reads ++ ttc2_trace isr ++ gic_trace rd ++ l) h v')
  | Some _ => v' = v /\
      zynqmp_swdt_init info (St d l h v) = (Ret tt, St d' (gic_trace rd ++ l) h v')
  end.
Proof.
  intros Hp Hm Hl Hok. destruct (gic_part_run p d l h v Hp Hm Hl) as (d1 & rd & Hg).
  unfold zynqmp_swdt_init. rewrite Hg.
  rewrite (bind_run _ _ _ _ _ (request_run IRQ_TTC2_0 (Some ttc2_fiq_handler_ptr)
    d1 (gic_trace rd ++ l) h v Hok ltac:(done))).
  assert (Hrc : request_code IRQ_TTC2_0 (Some ttc2_fiq_handler_ptr) (sget v) =
    if bool_decide (is_Some (lookup_el3 (sget v) IRQ_TTC2_0)) then - EALREADY else 0) by done.
  rewrite Hrc. destruct (lookup_el3 (sget v) IRQ_TTC2_0) as [f|] eqn:E.
  - exists d1, v, rd. split; [done|]. by rewrite bool_decide_eq_true_2.
  - rewrite bool_decide_eq_false_2 by (by intros [? ?]). cbn [Z.eqb negb].
    destruct (hw_init_run d1 (gic_trace rd ++ l) h
      (sput (set_table (<[Z.to_nat IRQ_TTC2_0 := Some ttc2_fiq_handler_ptr]>
        (type_el3_interrupt_table (sget v))) (sget v)) v)) as (d2 & isr & Hh).
    rewrite Hh. edestruct readback_run as (d3 & reads & Hr & Hf). rewrite Hr.
    eexists d3, _, rd, isr, reads. split; [exact Hf|].
    split; reflexivity.
Qed.

Lemma runtime_setup_run info mpidr i p d l h (v : V) :
  plat_my_core_pos mpidr = Z.of_nat i -> (i < 4)%nat ->
  (forall d, Z.testbit (u32 (hw_read W32 (gicc_base p + GICC_CTLR) d).1) FIQ_EN_SHIFT = true) ->
  ready PLAT_ARM_GICD_BASE p v -> masks_wired p -> gic_lock ∉ h ->
  ctx_shape (sget v) -> wf (sget v) -> table_ok (sget v) ->
  register_code INTR_TYPE_EL3 (Some rdo_el3_interrupt_handler_ptr) 3 (sget v) = 0 ->
  lookup_el3 (sget v) IRQ_TTC2_0 = None ->
  exists d' v1 v' rd isr reads pre,
    bl31_plat_runtime_setup info mpidr (St d l h v) =
      (Ret tt, St d' (reads ++ ttc2_trace isr ++ gic_trace rd ++ pre) h v') /\
    Forall is_read reads /\ only_routing v v1 /\
    sget v1 = registered INTR_TYPE_EL3 rdo_el3_interrupt_handler_ptr 3 (sget v) /\
    sget v1 = rerouted INTR_TYPE_EL3 3 i (sget v) /\
    v' = sput (set_table (<[Z.to_nat IRQ_TTC2_0 := Some ttc2_fiq_handler_ptr]>
                 (type_el3_interrupt_table (sget v))) (sget v)) v1.
Proof.
  intros Hme Hi Hfiq Hp Hm Hl Hc Hwf Hok Hcode Hfree. unfold bl31_plat_runtime_setup. cbv zeta. rewrite Hme.
  change (set_interrupt_rm_flag (set_interrupt_rm_flag 0 NON_SECURE) SECURE) with 3.
  destruct (register_run PLAT_ARM_GICD_BASE p i Hi Hfiq INTR_TYPE_EL3
    (Some rdo_el3_interrupt_handler_ptr) 3 d l h v Hp) as (d1 & l1 & v1 & Hr & Ho & Hv1);
    [right; by left|done|done|].
  rewrite Hcode in Hr, Hv1. rewrite (bind_run _ _ _ _ _ Hr). destruct Hv1 as [Hi1 Hc1]. cbn [Z.eqb negb].
  assert (Hsw : sget (S := swdt) v1 = sget v) by by apply (Ho swdt _).
  destruct (swdt_init_run info p d1 l1 h v1) as (d2 & v2 & rd & Hs);
    [by eapply only_ready|done|done|by rewrite Hsw|].
  rewrite Hsw, Hfree in Hs. destruct Hs as (isr & reads & Hf & -> & Hs). rewrite Hs.
  by eexists d2, v1, _, rd, isr, reads, l1.
Qed.

(** C33: the runtime setup of BL31 arms the heartbeat in the right order.  With
    the driver up, FIQ signalling enabled, no EL3 handler registered and
    interrupt 74 free, it returns with the lock released; the EL3 dispatcher is
    installed, FIQs are routed to EL3 from both security states (SCR_EL3.FIQ in
    the descriptor and in every saved context of the booting processor), and the
    trace ends with: interrupt 74 made secure, priority 0x40, routed to all CPUs,
    enabled; then, with its handler in the table, the timer stopped, reset, given
    its interval and started, followed by reads only. *)
Theorem runtime_setup_arms_heartbeat info mpidr i p d l h (v : V) :
  plat_my_core_pos mpidr = Z.of_nat i -> (i < 4)%nat ->
  (forall d, Z.testbit (u32 (hw_read W32 (gicc_base p + GICC_CTLR) d).1) FIQ_EN_SHIFT = true) ->
  ready PLAT_ARM_GICD_BASE p v -> masks_wired p -> gic_lock ∉ h ->
  ctx_shape (sget v) -> wf (sget v) -> table_ok (sget v) ->
  register_code INTR_TYPE_EL3 (Some rdo_el3_interrupt_handler_ptr) 3 (sget v) = 0 ->
  lookup_el3 (sget v) IRQ_TTC2_0 = None ->
  exists d' v' rd isr reads pre,
    bl31_plat_runtime_setup info mpidr (St d l h v) =
      (Ret tt, St d' (reads ++ ttc2_trace isr ++ gic_trace rd ++ pre) h v') /\
    Forall is_read reads /\
    intr_type_descs (sget v') !! 1%nat =
      Some (IntrTypeDesc (Some rdo_el3_interrupt_handler_ptr) [4; 4] 3) /\
    (forall ss x, (ss < 2)%nat -> context_of ss (sget v') i = Some x ->
       Z.testbit (ctx_scr_el3 x) SCR_FIQ_POS = true) /\
    lookup_el3 (sget v') IRQ_TTC2_0 = Some ttc2_fiq_handler_ptr.
Proof.
  intros Hme Hi Hfiq Hp Hm Hl Hc Hwf Hok Hcode Hfree.
  destruct (runtime_setup_run info mpidr i p d l h v) as
    (d' & v1 & v' & rd & isr & reads & pre & E & Hf & Ho & Hi1 & Hc1 & ->); try done.
  eexists d', _, rd, isr, reads, pre. split; [exact E|]. split; [done|]. split; [|split].
  - rewrite sget_indep, Hi1. apply list_lookup_insert_eq. destruct Hwf as (-> & _). vm_compute. lia.
  - intros ss x Hss Hx. rewrite sget_indep, Hc1 in Hx.
    eapply rerouted_bit in Hx as Hb; [|done..].
    change SCR_FIQ_POS with (line_of INTR_TYPE_EL3). rewrite Hb. by destruct ss as [|[|]]; [..|lia].
  - rewrite sget_sput, lookup_el3_set by (done || by vm_compute). by rewrite Z.eqb_refl.
Qed.

End Proofs.

(** ** The statics of the interrupt path of BL31 *)

Record el3_image := El3Image {
  im_gic : gic;
  im_intr : intr_mgmt;
  im_ctx : ctx_vars;
  im_swdt : swdt
}.

#[export] Instance el3_has_gic : Has gic el3_image := {
  sget := im_gic;
  sput x v := El3Image x (im_intr v) (im_ctx v) (im_swdt v);
  sget_sput _ _ := eq_refl;
  sput_sget v := match v with El3Image _ _ _ _ => eq_refl end;
  sput_sput _ _ _ := eq_refl
}.
#[export] Instance el3_has_intr : Has intr_mgmt el3_image := {
  sget := im_intr;
  sput x v := El3Image (im_gic v) x (im_ctx v) (im_swdt v);
  sget_sput _ _ := eq_refl;
  sput_sget v := match v with El3Image _ _ _ _ => eq_refl end;
  sput_sput _ _ _ := eq_refl
}.
#[export] Instance el3_has_ctx : Has ctx_vars el3_image := {
  sget := im_ctx;
  sput x v := El3Image (im_gic v) (im_intr v) x (im_swdt v);
  sget_sput _ _ := eq_refl;
  sput_sget v := match v with El3Image _ _ _ _ => eq_refl end;
  sput_sput _ _ _ := eq_refl
}.
#[export] Instance el3_has_swdt : Has swdt el3_image := {
  sget := im_swdt;
  sput x v := El3Image (im_gic v) (im_intr v) (im_ctx v) x;
  sget_sput _ _ := eq_refl;
  sput_sget v := match v with El3Image _ _ _ _ => eq_refl end;
  sput_sput _ _ _ := eq_refl
}.
#[export] Instance el3_gic_intr : Indep gic intr_mgmt el3_image := fun _ _ => eq_refl.
#[export] Instance el3_gic_ctx : Indep gic ctx_vars el3_image := fun _ _ => eq_refl.
#[export] Instance el3_gic_swdt : Indep gic swdt el3_image := fun _ _ => eq_refl.
#[export] Instance el3_intr_gic : Indep intr_mgmt gic el3_image := fun _ _ => eq_refl.
#[export] Instance el3_intr_ctx : Indep intr_mgmt ctx_vars el3_image := fun _ _ => eq_refl.
#[export] Instance el3_intr_swdt : Indep intr_mgmt swdt el3_image := fun _ _ => eq_refl.
#[export] Instance el3_ctx_gic : Indep ctx_vars gic el3_image := fun _ _ => eq_refl.
#[export] Instance el3_ctx_intr : Indep ctx_vars intr_mgmt el3_image := fun _ _ => eq_refl.
#[export] Instance el3_ctx_swdt : Indep ctx_vars swdt el3_image := fun _ _ => eq_refl.
#[export] Instance el3_swdt_gic : Indep swdt gic el3_image := fun _ _ => eq_refl.
#[export] Instance el3_swdt_intr : Indep swdt intr_mgmt el3_image := fun _ _ => eq_refl.
#[export] Instance el3_swdt_ctx : Indep swdt ctx_vars el3_image := fun _ _ => eq_refl.

(** Before the runtime setup: driver up, nothing registered. *)
Definition before_setup : el3_image := El3Image booted blank boot_contexts bss.

Definition idle_state : st (H := board 0 0) el3_image :=
  St (H := board 0 0) (fun _ => 0) [] [] before_setup.

Lemma request_intr_el3_map_witness :
  exists v' : el3_image,
    request_intr_type_el3 77 (Some ttc_fiq_handler_ptr) idle_state =
      (Ret 0, St (H := board 0 0) (fun _ => 0) [] [] v') /\
    lookup_el3 (im_swdt v') 77 = Some ttc_fiq_handler_ptr /\
    lookup_el3 (im_swdt v') 74 = None.
Proof.
  destruct (request_intr_el3_map (H := board 0 0) 77 (Some ttc_fiq_handler_ptr)
    (fun _ => 0) [] [] before_setup) as (v' & Hr & _ & _ & _ & Hlk).
  - reflexivity.
  - done.
  - exists v'. split; [exact Hr|]. split; [exact (Hlk 77)|exact (Hlk 74)].
Defined.

(** A controller that reports interrupt 74 pending. *)
Definition pending_board (n : Z) : Env := {|
  Dev := unit;
  hw_read _ _ d := (n, d);
  hw_write _ _ _ d := d;
  hw_call _ _ d := (0, d);
  poll_bound := 0;
  uninit _ := 0
|}.


Lemma heartbeat_counts_witness :
  exists d' new (v' : el3_image),
    ticks (H := board 0 0) 3 idle_state = (Ret tt, St (H := board 0 0) d' (new ++ []) [] v') /\
    beats new = [3; 2; 1].
Proof.
  destruct (heartbeat_counts (H := board 0 0) PLAT_ARM_GICD_BASE arm_gic_data 3
    (fun _ => 0) [] [] before_setup) as (d' & new & v' & Hr & _ & Hb & _).
  - done.
  - reflexivity.
  - exists d', new, v'. split; [exact Hr|exact Hb].
Defined.

(** A board whose registers all read as ones: FIQEn is set. *)
Lemma runtime_setup_arms_heartbeat_witness :
  exists d' (v' : el3_image) rd isr reads pre,
    bl31_plat_runtime_setup (H := pending_board 0xFFFFFFFF) true 0
        (St (H := pending_board 0xFFFFFFFF) tt [] [] before_setup) =
      (Ret tt, St (H := pending_board 0xFFFFFFFF) d'
         (reads ++ ttc2_trace isr ++ gic_trace rd ++ pre) [] v') /\
    (forall ss x, (ss < 2)%nat -> context_of ss (im_ctx v') 0 = Some x ->
       Z.testbit (ctx_scr_el3 x) SCR_FIQ_POS = true) /\
    lookup_el3 (im_swdt v') IRQ_TTC2_0 = Some ttc2_fiq_handler_ptr.
Proof.
  destruct (runtime_setup_arms_heartbeat (H := pending_board 0xFFFFFFFF) (V := el3_image) true 0 0
    arm_gic_data tt [] [] before_setup)
    as (d' & v' & rd & isr & reads & pre & Hr & _ & _ & Hb & Hlk).
  - reflexivity.
  - lia.
  - reflexivity.
  - done.
  - by vm_compute.
  - apply not_elem_of_nil.
  - repeat constructor.
  - repeat constructor.
  - reflexivity.
  - reflexivity.
  - reflexivity.
  - exists d', v', rd, isr, reads, pre. split; [exact Hr|]. split; [exact Hb|exact Hlk].
Defined.

End Swdt.
