(* ===== verification/System.v ===== *)
(** * The heartbeat across the two processors

    BL31 on the APU (Swdt) and the monitor on the PMU (SwdtMonitor) share only
    the scratch register 0xFF130048.  A schedule interleaves timer interrupts,
    served through the EL3 dispatcher, with polls of the monitor; each handler
    makes a single access to the shared register, so whole handlers are the
    steps. *)

From S2P Require Import Prelude Machine Gic CtxData IntrMgmt Swdt SwdtMonitor.
Import Gic CtxData IntrMgmt Swdt SwdtMonitor.
#[local] Open Scope Z_scope.
#[local] Open Scope c_scope.

Module System.

Inductive sys_event := Tick | Poll.

(** Schedules are newest first. *)
Fixpoint tick_count (es : list sys_event) : Z :=
  match es with
  | [] => 0
  | Tick :: es' => tick_count es' + 1
  | Poll :: es' => tick_count es'
  end.

Fixpoint poll_count (es : list sys_event) : nat :=
  match es with
  | [] => O
  | Tick :: es' => poll_count es'
  | Poll :: es' => S (poll_count es')
  end.

Lemma poll_count_app es1 es2 : poll_count (es1 ++ es2) = (poll_count es1 + poll_count es2)%nat.
Proof. induction es1 as [|[] es1 IH]; simpl; lia. Qed.

Lemma tick_count_app es1 es2 : tick_count (es1 ++ es2) = tick_count es1 + tick_count es2.
Proof. induction es1 as [|[] es1 IH]; simpl; lia. Qed.

Lemma tick_count_nonneg es : 0 <= tick_count es.
Proof. induction es as [|[] es IH]; simpl; lia. Qed.

(** The value the heartbeat register holds after a schedule, and what the polls
    of the schedule see, newest first; [q] is the sequence number at the start. *)
Definition hb_at (q : Z) (es : list sys_event) : Z := u32 (q + tick_count es).

Fixpoint seen_by (q : Z) (es : list sys_event) : list Z :=
  match es with
  | [] => []
  | Tick :: es' => seen_by q es'
  | Poll :: es' => hb_at q es' :: seen_by q es'
  end.

Section Sys.
Context `{Env}.
Context (p : gicv2_driver_data).

(** The shared device and what each processor has of its own. *)
Record sys := Sys {
  sdev : Dev;
  apu_log : list event;
  apu_vars : el3_image;
  pmu_log : list event;
  pmu_vars : monitor
}.

(** The bodies behind the handler pointers; of them, only that the heartbeat
    handler's pointer stands for [ttc2_fiq_handler] is used. *)
Context (invoke : handler -> Z -> Z -> M el3_image Z).
Context (Hinvoke : forall id flags, invoke ttc2_fiq_handler_ptr id flags = ttc2_fiq_handler id flags).

Definition sys_step (e : sys_event) (s : sys) : option sys :=
  match e with
  | Tick =>
      match rdo_el3_interrupt_handler invoke INTR_ID_UNAVAILABLE 0
              (St (sdev s) (apu_log s) [] (apu_vars s)) with
      | (Ret _, s') => Some (Sys (dev s') (log s') (vars s') (pmu_log s) (pmu_vars s))
      | (Halt _, _) => None
      end
  | Poll =>
      match SwdtMonitorCallback (St (sdev s) (pmu_log s) [] (pmu_vars s)) with
      | (Ret _, s') => Some (Sys (dev s') (apu_log s) (apu_vars s) (log s') (vars s'))
      | (Halt _, _) => None
      end
  end.

Fixpoint sys_run (es : list sys_event) (s : sys) : option sys :=
  match es with
  | [] => Some s
  | e :: es' => sys_run es' s ≫= sys_step e
  end.

(** After the setup: driver up, heartbeat handler registered, monitor idle, the
    register and the sequence number agree. *)
Definition armed_system `{!Latched (fun a => a = HEARTBEAT)} (q : Z) (s : sys) : Prop :=
  ready PLAT_ARM_GICD_BASE p (apu_vars s) /\ gicc_base p = PLAT_ARM_GICC_BASE /\
  table_ok (im_swdt (apu_vars s)) /\
  lookup_el3 (im_swdt (apu_vars s)) IRQ_TTC2_0 = Some ttc2_fiq_handler_ptr /\
  ttc2_hb_seq (im_swdt (apu_vars s)) = q /\ u32 (peek (sdev s) HEARTBEAT) = u32 q /\
  disarmed (pmu_vars s).

Context `{!Latched (fun a => a = HEARTBEAT)}.
(** The FIQ that enters the dispatcher is the timer's: the highest pending
    interrupt reads as 74. *)
Context (Hpend : forall d,
  Z.land (u32 (hw_read W32 (PLAT_ARM_GICC_BASE + GICC_HPPIR) d).1) INT_ID_MASK = IRQ_TTC2_0).

Lemma tick_run d l v :
  ready PLAT_ARM_GICD_BASE p v -> gicc_base p = PLAT_ARM_GICC_BASE ->
  table_ok (im_swdt v) -> lookup_el3 (im_swdt v) IRQ_TTC2_0 = Some ttc2_fiq_handler_ptr ->
  exists d' l' v', 
    rdo_el3_interrupt_handler invoke INTR_ID_UNAVAILABLE 0 (St d l [] v) =
      (Ret 0, St d' l' [] v') /\
    ready PLAT_ARM_GICD_BASE p v' /\ table_ok (im_swdt v') /\
    lookup_el3 (im_swdt v') IRQ_TTC2_0 = Some ttc2_fiq_handler_ptr /\
    ttc2_hb_seq (im_swdt v') = u32 (ttc2_hb_seq (im_swdt v) + 1) /\
    peek d' HEARTBEAT = u32 (ttc2_hb_seq (im_swdt v) + 1).
Proof.
  intros Hp Hc Hok Hlk. unfold rdo_el3_interrupt_handler, plat_ic_get_pending_interrupt_id,
    gicv2_get_pending_interrupt_id. run.
  set (v1 := sput (set_dbg_entry_cnt _ _) v).
  assert (Hp1 : ready PLAT_ARM_GICD_BASE p v1) by (unfold ready, v1; by rewrite sget_indep).
  rewrite (bind_run _ _ _ _ _ (with_gicc_run PLAT_ARM_GICD_BASE p _ _ _ _ Hp1)).
  unfold gicc_read_hppir. run. rewrite Hc, Hpend.
  change (IRQ_TTC2_0 =? PENDING_G1_INTID) with false. run.
  change (IRQ_TTC2_0 =? GIC_SPURIOUS_INTERRUPT) with false. run.
  change (IRQ_TTC2_0 >=? MAX_INTR_EL3) with false. run.
  assert (Htab : type_el3_interrupt_table (sget v1) !! Z.to_nat IRQ_TTC2_0 =
                 Some (Some ttc2_fiq_handler_ptr)).
  { unfold v1. rewrite sget_sput. by apply lookup_el3_Some in Hlk. }
  rewrite (run_bind_aread _ IRQ_TTC2_0 _ _ _ eq_refl Htab), Hinvoke.
  edestruct (ttc2_fiq_run (V := el3_image) PLAT_ARM_GICD_BASE p IRQ_TTC2_0 0) as (d2 & isr & Hr & Hpk);
    [exact Hp1|done|].
  rewrite (bind_run _ _ _ _ _ Hr), run_ret. eexists _, _, _. split; [reflexivity|].
  split; [unfold ready; by rewrite sget_indep|]. split; [done|]. split; [done|]. split; [done|].
  by rewrite Hpk.
Qed.

Lemma quiet_peek d d' : quiet d d' -> peek d' HEARTBEAT = peek d HEARTBEAT.
Proof.
  intros (cb & hb & [-> | [m ->]]); rewrite !(peek_write_other W32) by done; by rewrite peek_read.
Qed.

(** What a run keeps: the statics of both sides mirror the schedule as long as
    no recovery has happened. *)
Definition tracking (q : Z) (s0 : sys) (es : list sys_event) (s : sys) : Prop :=
  ready PLAT_ARM_GICD_BASE p (apu_vars s) /\ table_ok (im_swdt (apu_vars s)) /\
  lookup_el3 (im_swdt (apu_vars s)) IRQ_TTC2_0 = Some ttc2_fiq_handler_ptr /\
  u32 (ttc2_hb_seq (im_swdt (apu_vars s))) = hb_at q es /\
  exists new, pmu_log s = new ++ pmu_log s0 /\
    tracks (replay (hb_reads new)).1 (pmu_vars s) /\
    resets new = (replay (hb_reads new)).2 /\
    (resets new = O -> hb_reads new = seen_by q es /\ u32 (peek (sdev s) HEARTBEAT) = hb_at q es) /\
    ((replay (seen_by q es)).2 = O -> resets new = O).

Lemma replay_mono x l : (replay (x :: l)).2 = O -> (replay l).2 = O.
Proof. cbn [replay]. destruct (replay l) as [seen n]. by if_case. Qed.

Lemma tick_tracking q s0 es s :
  gicc_base p = PLAT_ARM_GICC_BASE -> tracking q s0 es s ->
  exists s', sys_step Tick s = Some s' /\ tracking q s0 (Tick :: es) s'.
Proof.
  intros Hc (Hp & Hok & Hlk & Hq & new & Hl & Ht & Hr & Hsee & Hno).
  destruct (tick_run (sdev s) (apu_log s) (apu_vars s) Hp Hc Hok Hlk)
    as (d' & l' & v' & Hrun & Hp' & Hok' & Hlk' & Hq' & Hpk).
  unfold sys_step. rewrite Hrun. eexists. split; [reflexivity|].
  assert (Hu : u32 (ttc2_hb_seq (im_swdt (apu_vars s)) + 1) = hb_at q (Tick :: es)).
  { rewrite <- u32_add_l, Hq. unfold hb_at. rewrite u32_add_l. simpl. f_equal. lia. }
  split; [done|]. split; [done|]. split; [done|]. simpl. split; [by rewrite Hq', u32_u32|].
  exists new. split; [done|]. split; [done|]. split; [done|].
  split; [|done]. intros H0. split; [by apply Hsee|]. by rewrite Hpk, u32_u32.
Qed.

Lemma poll_tracking q s0 es s :
  tracking q s0 es s -> exists s', sys_step Poll s = Some s' /\ tracking q s0 (Poll :: es) s'.
Proof.
  intros (Hp & Hok & Hlk & Hq & new & Hl & Ht & Hr & Hsee & Hno).
  destruct (Callback_run (sdev s) (pmu_log s) [] (pmu_vars s))
    as (d' & hb & v' & new1 & Hrun & Hhb & Hper & Hquiet).
  unfold sys_step. rewrite Hrun. eexists. split; [reflexivity|].
  split; [done|]. split; [done|]. split; [done|]. split; [done|]. simpl.
  destruct (period_tracks _ _ _ _ _ Ht Hper) as [Hrd Hst].
  exists (new1 ++ new). split; [by rewrite Hl, (assoc_L (++))|].
  rewrite (read_latched (P := fun a => a = HEARTBEAT) _ HEARTBEAT eq_refl) in Hhb.
  assert (Hres : tracks (replay (hb :: hb_reads new)).1 v' /\
                 (resets new1 + resets new)%nat = (replay (hb :: hb_reads new)).2).
  { cbn [replay]. rewrite Hr. destruct (replay (hb_reads new)) as [seen k]. cbn [fst snd] in *.
    revert Hst. destruct (stalled (hb :: seen)); intros [-> Hst']; [by destruct Hst'|done]. }
  destruct Hres as [Ht' Hr']. rewrite hb_reads_app, resets_app, Hrd. cbn [app].
  split; [done|]. split; [done|].
  assert (Hcur : resets new = O -> hb :: hb_reads new = seen_by q (Poll :: es)).
  { intros H0. destruct (Hsee H0) as [Hs Hpk]. simpl. by rewrite Hhb, Hpk, Hs. }
  split.
  - intros H0. assert (H1 : resets new1 = O) by lia. assert (H2 : resets new = O) by lia.
    split; [by apply Hcur|]. rewrite (quiet_peek _ _ (Hquiet H1)). by apply Hsee.
  - intros H0. rewrite Hr', Hcur; [done|]. apply Hno. by apply replay_mono in H0.
Qed.

Lemma run_tracking q es s0 :
  armed_system q s0 -> exists s, sys_run es s0 = Some s /\ tracking q s0 es s.
Proof.
  intros (Hp & Hc & Hok & Hlk & Hq & Hpk & Hd).
  induction es as [|e es (s & Hrun & Htr)]; simpl.
  - exists s0. split; [done|]. split; [done|]. split; [done|]. split; [done|].
    unfold hb_at. simpl. rewrite Z.add_0_r. split; [by rewrite Hq|].
    exists []. split; [done|]. split; [by left|]. done.
  - rewrite Hrun. simpl. destruct e; [by apply tick_tracking|by apply poll_tracking].
Qed.

(** Recoveries the PMU has started during a run. *)
Definition recoveries (s0 s : sys) : nat := resets (pmu_log s) - resets (pmu_log s0).

(** ** Polls that see a frozen or a moving heartbeat *)

Lemma seen_by_polls q n es : seen_by q (replicate n Poll ++ es) =
  replicate n (hb_at q es) ++ seen_by q es.
Proof.
  induction n as [|n IH]; simpl; [done|]. rewrite IH. f_equal.
  unfold hb_at. rewrite tick_count_app. do 2 f_equal.
  enough (tick_count (replicate n Poll) = 0) by lia. clear. induction n; simpl; lia.
Qed.

(** The poll that made an observation. *)
Lemma seen_by_split q es a x b : seen_by q es = a ++ x :: b ->
  exists es1 es2, es = es1 ++ Poll :: es2 /\ x = hb_at q es2 /\ seen_by q es2 = b /\
    poll_count es1 = length a.
Proof.
  revert a. induction es as [|e es IH]; intros a Hs.
  - by destruct a.
  - destruct e; simpl in Hs.
    + destruct (IH a Hs) as (es1 & es2 & -> & Hx & Hb & Hl). by exists (Tick :: es1), es2.
    + destruct a as [|y a]; simpl in Hs.
      * injection Hs as <- Hs. by exists [], es.
      * injection Hs as _ Hs. destruct (IH a Hs) as (es1 & es2 & -> & Hx & Hb & Hl).
        exists (Poll :: es1), es2. simpl. by rewrite Hl.
Qed.

(** Every window of the schedule with nine polls has a timer interrupt. *)
Definition fed (es : list sys_event) : Prop :=
  forall a w b, es = a ++ w ++ b -> poll_count w = 9%nat -> 0 < tick_count w.

Lemma fed_no_run q es : fed es -> tick_count es < 2 ^ 32 ->
  forall a v b, seen_by q es <> a ++ replicate 9 v ++ b.
Proof.
  intros Hf Hn a v b Hs.
  change (replicate 9 v) with (v :: replicate 7 v ++ [v]) in Hs.
  destruct (seen_by_split q es a v (replicate 7 v ++ [v] ++ b)) as (es1 & es2 & -> & Hx & Hs2 & _).
  { rewrite Hs. done. }
  destruct (seen_by_split q es2 (replicate 7 v) v b Hs2) as (es3 & es4 & -> & Hy & _ & Hl).
  rewrite length_replicate in Hl.
  specialize (Hf es1 (Poll :: es3 ++ [Poll]) es4).
  assert (0 < tick_count (Poll :: es3 ++ [Poll])) as Ht.
  { apply Hf.
    - simpl. by rewrite <- (assoc_L (++)).
    - simpl. rewrite poll_count_app, Hl. done. }
  simpl in Ht. rewrite tick_count_app in Ht. simpl in Ht.
  rewrite tick_count_app in Hn. simpl in Hn. rewrite tick_count_app in Hn. simpl in Hn.
  pose proof (tick_count_nonneg es1). pose proof (tick_count_nonneg es4).
  subst v. unfold hb_at in Hy. rewrite tick_count_app in Hy. simpl in Hy.
  apply (u32_add_neq (q + tick_count es4) (tick_count es3)); [lia|].
  rewrite <- Hy. f_equal. lia.
Qed.


(** C2: bounded detection.  From an armed system, after any schedule in which
    the heartbeat became live (the last value written is not 0), nine polls
    without a timer interrupt make the PMU start a recovery: a dead BL31 is
    detected within nine monitor periods. *)
Theorem dead_is_reset q es s0 :
  armed_system q s0 -> hb_at q es <> 0 ->
  exists s, sys_run (replicate 9 Poll ++ es) s0 = Some s /\ (1 <= recoveries s0 s)%nat.
Proof.
  intros Ha Hne. destruct (run_tracking q (replicate 9 Poll ++ es) s0 Ha) as (s & Hrun & Htr).
  exists s. split; [done|]. destruct Htr as (_ & _ & _ & _ & new & Hl & Ht & Hr & Hsee & Hno).
  unfold recoveries. rewrite Hl, resets_app.
  destruct (decide (resets new = O)) as [H0|]; [|lia].
  destruct (Hsee H0) as [Hs _]. rewrite H0, Hs, seen_by_polls in Hr.
  pose proof (replay_nine (hb_at q es) (seen_by q es) Hne). lia.
Qed.

End Sys.

(** ** Witnesses: memory-like registers, interrupt 74 pending *)

Definition hb_board : Env := {|
  Dev := Z -> Z;
  hw_read w a m :=
    (if a =? PLAT_ARM_GICC_BASE + GICC_HPPIR then 74 else (mem_read w a m).1, m);
  hw_write := mem_write;
  hw_call _ _ m := (0, m);
  poll_bound := 0;
  uninit _ := 0
|}.

#[export] Instance hb_board_latched : @Latched hb_board (fun a => a = HEARTBEAT).
Proof.
  refine {| peek := (fun m a => m a) : @Dev hb_board -> Z -> Z |}.
  - intros m a ->. reflexivity.
  - done.
  - intros m a z -> Hz. by apply (peek_write (Latched := board_latched 0 0)).
  - intros w m a b z -> Hw Hne. by apply (peek_write_other (Latched := board_latched 0 0)).
Defined.

Definition armed_image : el3_image :=
  El3Image booted (registered INTR_TYPE_EL3 rdo_el3_interrupt_handler_ptr 3 blank)
    (rerouted INTR_TYPE_EL3 3 0 boot_contexts)
    (set_table (<[74%nat := Some ttc2_fiq_handler_ptr]> (type_el3_interrupt_table Swdt.bss)) Swdt.bss).

Definition power_up : sys (H := hb_board) :=
  Sys (H := hb_board) (fun _ => 0) [] armed_image [] SwdtMonitor.bss.

Lemma power_up_armed : armed_system (H := hb_board) arm_gic_data 0 power_up.
Proof. unfold armed_system, ready, disarmed. repeat split; done. Qed.


(** One tick, then silence: a recovery within nine polls. *)
Lemma dead_is_reset_witness :
  exists s, sys_run (H := hb_board) (fun _ => ttc2_fiq_handler) (replicate 9 Poll ++ [Tick]) power_up = Some s /\
    (1 <= recoveries (H := hb_board) power_up s)%nat.
Proof.
  apply (dead_is_reset (H := hb_board) arm_gic_data (fun _ => ttc2_fiq_handler) (fun _ _ => eq_refl)
    (fun _ => eq_refl) 0).
  - apply power_up_armed.
  - done.
Defined.

End System.
