(* ===== verification/Ipi.v ===== *)
(** * Inter-processor interrupts

    plat/xilinx/common/ipi.c, plat/xilinx/zynqmp/zynqmp_ipi.c and the mailbox SMC
    service plat/xilinx/common/ipi_mailbox_service/ipi_mailbox_svc.c.  A
    do-while wait on the observation register is unfolded [poll_bound] times. *)

From S2P Require Import Prelude Machine.
From stdpp Require Import sets.
#[local] Open Scope Z_scope.
#[local] Open Scope c_scope.

Module Ipi.

Definition EPERM : Z := 1.
Definition EINVAL : Z := 22.
Definition SMC_UNK : Z := -1.

Definition IPI_TRIG_OFFSET : Z := 0x00.
Definition IPI_OBR_OFFSET : Z := 0x04.
Definition IPI_ISR_OFFSET : Z := 0x10.
Definition IPI_IMR_OFFSET : Z := 0x14.
Definition IPI_IER_OFFSET : Z := 0x18.
Definition IPI_IDR_OFFSET : Z := 0x1C.
Definition IPI_MB_STATUS_SEND_PENDING : Z := 1.
Definition IPI_MB_STATUS_RECV_PENDING : Z := 2.
Definition IPI_SECURE_MASK : Z := 0x1.

Definition IPI_ID_APU : Z := 0.
Definition IPI_ID_PMU0 : Z := 3.

Record ipi_config := IpiConfig {
  ipi_bit_mask : Z;
  ipi_reg_base : Z;
  secure_only : Z
}.

(** [ipi_table] points to a constant table; NULL before initialisation. *)
Record ipi := IpiVars {
  ipi_table : option (list ipi_config);
  ipi_total : Z
}.

Definition zynqmp_ipi_table : list ipi_config :=
  [IpiConfig 0x1 0xFF300000 0;                       (* APU *)
   IpiConfig 0x100 0xFF310000 0;                     (* RPU0 *)
   IpiConfig 0x200 0xFF320000 0;                     (* RPU1 *)
   IpiConfig 0x10000 0xFF330000 IPI_SECURE_MASK;     (* PMU0 *)
   IpiConfig 0x20000 0xFF331000 0;                   (* PMU1 *)
   IpiConfig 0x40000 0xFF332000 IPI_SECURE_MASK;     (* PMU2 *)
   IpiConfig 0x80000 0xFF333000 IPI_SECURE_MASK;     (* PMU3 *)
   IpiConfig 0x1000000 0xFF340000 0;                 (* PL0 *)
   IpiConfig 0x2000000 0xFF350000 0;                 (* PL1 *)
   IpiConfig 0x4000000 0xFF360000 0;                 (* PL2 *)
   IpiConfig 0x8000000 0xFF370000 0].                (* PL3 *)

Definition SMC_ENTITY (fid : Z) : Z := (fid .& 0x3F000000) .>> 24.
Definition SMC_FUNCTION (fid : Z) : Z := fid .& 0xFFFF.
Definition SMC_ENTITY_TRUSTED_APP : Z := 48.

Definition IPI_MAILBOX_OPEN : Z := 0x1000.
Definition IPI_MAILBOX_RELEASE : Z := 0x1001.
Definition IPI_MAILBOX_STATUS_ENQUIRY : Z := 0x1002.
Definition IPI_MAILBOX_NOTIFY : Z := 0x1003.
Definition IPI_MAILBOX_ACK : Z := 0x1004.
Definition IPI_MAILBOX_ENABLE_IRQ : Z := 0x1005.
Definition IPI_MAILBOX_DISABLE_IRQ : Z := 0x1006.

Section Ops.
Context `{Env} {V : Type} `{!Has ipi V}.

Definition ipi_config_table_init (tbl : option (list ipi_config)) (total : Z) : M V unit :=
  mods (fun _ => IpiVars tbl total).

Definition zynqmp_ipi_config_table_init : M V unit :=
  ipi_config_table_init (Some zynqmp_ipi_table) 11.

(** [ipi_table\[I\]] *)
Definition ipi_entry (i : Z) : M V ipi_config :=
  p <- gets ipi_table ;;
  tbl <- deref p ;;
  aread tbl i.

Definition IPI_REG_BASE (i : Z) : M V Z := c <- ipi_entry i ;; ret (ipi_reg_base c).
Definition IPI_BIT_MASK (i : Z) : M V Z := c <- ipi_entry i ;; ret (ipi_bit_mask c).
Definition IPI_IS_SECURE (i : Z) : M V bool :=
  c <- ipi_entry i ;; ret (truthy (secure_only c .& IPI_SECURE_MASK)).

Definition is_ipi_mb_within_range (local remote : Z) : M V bool :=
  total <- gets ipi_total ;;
  ret (negb ((remote >=? total) || (local >=? total))).

Definition ipi_mb_validate (local remote : Z) (is_secure : bool) : M V Z :=
  ok <- is_ipi_mb_within_range local remote ;;
  if negb ok then ret (- EINVAL)
  else
    ls <- IPI_IS_SECURE local ;;
    if ls && negb is_secure then ret (- EPERM)
    else
      rs <- IPI_IS_SECURE remote ;;
      if rs && negb is_secure then ret (- EPERM) else ret 0.

(** [mmio_write_32(IPI_REG_BASE(local) + off, IPI_BIT_MASK(remote))] *)
Definition ipi_poke (off local remote : Z) : M V unit :=
  base <- IPI_REG_BASE local ;;
  mask <- IPI_BIT_MASK remote ;;
  mmio_write_32 (base + off) mask.

Definition ipi_mb_open (local remote : Z) : M V unit :=
  ipi_poke IPI_IDR_OFFSET local remote ;;
  ipi_poke IPI_ISR_OFFSET local remote.

Definition ipi_mb_release (local remote : Z) : M V unit :=
  ipi_poke IPI_IDR_OFFSET local remote.

Definition ipi_mb_enquire_status (local remote : Z) : M V Z :=
  base <- IPI_REG_BASE local ;;
  status <- mmio_read_32 (base + IPI_OBR_OFFSET) ;;
  mask <- IPI_BIT_MASK remote ;;
  let r := if truthy (status .& mask) then IPI_MB_STATUS_SEND_PENDING else 0 in
  base <- IPI_REG_BASE local ;;
  status <- mmio_read_32 (base + IPI_ISR_OFFSET) ;;
  mask <- IPI_BIT_MASK remote ;;
  ret (if truthy (status .& mask) then r .| IPI_MB_STATUS_RECV_PENDING else r).

Definition ipi_mb_notify (local remote : Z) (is_blocking : bool) : M V unit :=
  ipi_poke IPI_TRIG_OFFSET local remote ;;
  if is_blocking then
    base <- IPI_REG_BASE local ;;
    mask <- IPI_BIT_MASK remote ;;
    _ <- do_while poll_bound (mmio_read_32 (base + IPI_OBR_OFFSET))
           (fun status => truthy (status .& mask)) ;;
    ret tt
  else ret tt.

Definition ipi_mb_ack (local remote : Z) : M V unit := ipi_poke IPI_ISR_OFFSET local remote.
Definition ipi_mb_disable_irq (local remote : Z) : M V unit :=
  ipi_poke IPI_IDR_OFFSET local remote.
Definition ipi_mb_enable_irq (local remote : Z) : M V unit :=
  ipi_poke IPI_IER_OFFSET local remote.

(** The value an SMC handler leaves in the caller's x0. *)
Definition ipi_smc_handler (smc_fid x1 x2 x3 : Z) : M V Z :=
  let ipi_local_id := x1 .& 0xFFFFFFFF in
  let ipi_remote_id := x2 .& 0xFFFFFFFF in
  let is_secure := SMC_ENTITY smc_fid >=? SMC_ENTITY_TRUSTED_APP in
  r <- ipi_mb_validate ipi_local_id ipi_remote_id is_secure ;;
  if truthy r then ret r
  else
    let f := SMC_FUNCTION smc_fid in
    if f =? IPI_MAILBOX_OPEN then ipi_mb_open ipi_local_id ipi_remote_id ;; ret 0
    else if f =? IPI_MAILBOX_RELEASE then ipi_mb_release ipi_local_id ipi_remote_id ;; ret 0
    else if f =? IPI_MAILBOX_STATUS_ENQUIRY then
      let disable_irq := truthy (x3 .& 0x1) in
      st <- ipi_mb_enquire_status ipi_local_id ipi_remote_id ;;
      (if truthy (st .& IPI_MB_STATUS_RECV_PENDING) && disable_irq
       then ipi_mb_disable_irq ipi_local_id ipi_remote_id else ret tt) ;;
      ret st
    else if f =? IPI_MAILBOX_NOTIFY then
      ipi_mb_notify ipi_local_id ipi_remote_id (truthy (x3 .& 0x1)) ;; ret 0
    else if f =? IPI_MAILBOX_ACK then
      let enable_irq := truthy (x3 .& 0x1) in
      ipi_mb_ack ipi_local_id ipi_remote_id ;;
      (if enable_irq then ipi_mb_enable_irq ipi_local_id ipi_remote_id else ret tt) ;;
      ret 0
    else if f =? IPI_MAILBOX_ENABLE_IRQ then
      ipi_mb_enable_irq ipi_local_id ipi_remote_id ;; ret 0
    else if f =? IPI_MAILBOX_DISABLE_IRQ then
      ipi_mb_disable_irq ipi_local_id ipi_remote_id ;; ret 0
    else ret SMC_UNK.

End Ops.

(** ** Access control *)

(** The channel the PMU service uses is reserved for secure callers. *)
Definition secure_entry (tbl : list ipi_config) (i : Z) : bool :=
  match tbl !! Z.to_nat i with
  | Some c => truthy (secure_only c .& IPI_SECURE_MASK)
  | None => false
  end.

Definition wf_ipi (v : ipi) : Prop :=
  match ipi_table v with
  | Some tbl => ipi_total v = Z.of_nat (length tbl)
  | None => ipi_total v = 0
  end.

(** Registers of the channels that non-secure callers may use. *)
Definition open_register (tbl : list ipi_config) (e : event) : Prop :=
  match e with
  | EvWr W32 a m | EvRd W32 a m => exists c c' off,
      c ∈ tbl /\ truthy (secure_only c .& IPI_SECURE_MASK) = false /\
      off ∈ [IPI_TRIG_OFFSET; IPI_OBR_OFFSET; IPI_ISR_OFFSET; IPI_IER_OFFSET; IPI_IDR_OFFSET] /\
      a = ipi_reg_base c + off /\
      (match e with
       | EvWr _ _ _ => c' ∈ tbl /\ truthy (secure_only c' .& IPI_SECURE_MASK) = false /\
                       m = u32 (ipi_bit_mask c')
       | _ => True
       end)
  | _ => False
  end.

Section Proofs.
Context `{Env} {V : Type} `{!Has ipi V}.

Lemma entry_run tbl i c d l h (v : V) :
  ipi_table (sget v) = Some tbl -> 0 <= i -> tbl !! Z.to_nat i = Some c ->
  ipi_entry i (St d l h v) = (Ret c, St d l h v).
Proof.
  intros Ht Hi Hc. unfold ipi_entry. run. rewrite Ht. run.
  unfold deref. run. apply run_aread; [by apply Z.ltb_ge|done].
Qed.

Lemma is_secure_run tbl i d l h (v : V) :
  ipi_table (sget v) = Some tbl -> 0 <= i < Z.of_nat (length tbl) ->
  IPI_IS_SECURE i (St d l h v) = (Ret (secure_entry tbl i), St d l h v).
Proof.
  intros Ht Hi. unfold IPI_IS_SECURE, secure_entry.
  destruct (lookup_lt_is_Some_2 tbl (Z.to_nat i)) as [c Hc]; [lia|].
  rewrite (bind_run _ _ _ _ _ (entry_run tbl i c d l h v Ht ltac:(lia) Hc)), Hc. by run.
Qed.

(** The access decision as a function of the table. *)
Definition validate_code (v : ipi) (local remote : Z) (is_secure : bool) : Z :=
  match ipi_table v with
  | Some tbl =>
      if (remote >=? Z.of_nat (length tbl)) || (local >=? Z.of_nat (length tbl)) then - EINVAL
      else if (secure_entry tbl local || secure_entry tbl remote) && negb is_secure
      then - EPERM else 0
  | None => - EINVAL
  end.

Lemma validate_run local remote is_secure d l h (v : V) :
  wf_ipi (sget v) -> 0 <= local -> 0 <= remote ->
  ipi_mb_validate local remote is_secure (St d l h v) =
    (Ret (validate_code (sget v) local remote is_secure), St d l h v).
Proof.
  intros Hwf Hl Hr. unfold ipi_mb_validate, is_ipi_mb_within_range, validate_code, wf_ipi in *.
  run. destruct (ipi_table (sget v)) as [tbl|] eqn:Ht.
  - rewrite Hwf. destruct ((remote >=? _) || (local >=? _)) eqn:E; [by run|]. cbn [negb].
    rewrite !Z.geb_leb in E. zbool.
    rewrite (bind_run _ _ _ _ _ (is_secure_run tbl local d l h v Ht ltac:(lia))).
    destruct (secure_entry tbl local); cbn [andb orb].
    + destruct is_secure; cbn [negb]; run; [|done].
      rewrite (bind_run _ _ _ _ _ (is_secure_run tbl remote d l h v Ht ltac:(lia))).
      by rewrite andb_false_r.
    + rewrite (bind_run _ _ _ _ _ (is_secure_run tbl remote d l h v Ht ltac:(lia))).
      by destruct (secure_entry tbl remote), is_secure.
  - rewrite Hwf. replace (remote >=? 0) with true by (rewrite Z.geb_leb; symmetry; by apply Z.leb_le).
    by run.
Qed.

(** An access to the channel pair (local, remote) that is open to everyone. *)
Section Open.
Context (v : V) (tbl : list ipi_config) (Htbl : ipi_table (sget v) = Some tbl).
Context (local remote : Z) (cl cr : ipi_config).
Context (Hl0 : 0 <= local) (Hl : tbl !! Z.to_nat local = Some cl).
Context (Hr0 : 0 <= remote) (Hr : tbl !! Z.to_nat remote = Some cr).
Context (Hls : truthy (secure_only cl .& IPI_SECURE_MASK) = false).
Context (Hrs : truthy (secure_only cr .& IPI_SECURE_MASK) = false).

Let reg_offsets : list Z :=
  [IPI_TRIG_OFFSET; IPI_OBR_OFFSET; IPI_ISR_OFFSET; IPI_IER_OFFSET; IPI_IDR_OFFSET].

Lemma reg_base_pure d l h : IPI_REG_BASE local (St d l h v) = (Ret (ipi_reg_base cl), St d l h v).
Proof.
  unfold IPI_REG_BASE. rewrite (bind_run _ _ _ _ _ (entry_run tbl local cl d l h v Htbl Hl0 Hl)). by run.
Qed.

Lemma bit_mask_pure d l h : IPI_BIT_MASK remote (St d l h v) = (Ret (ipi_bit_mask cr), St d l h v).
Proof.
  unfold IPI_BIT_MASK. rewrite (bind_run _ _ _ _ _ (entry_run tbl remote cr d l h v Htbl Hr0 Hr)). by run.
Qed.

Lemma open_read off z : off ∈ reg_offsets -> open_register tbl (EvRd W32 (ipi_reg_base cl + off) z).
Proof.
  intros Hoff. exists cl, cl, off. split; [by eapply list_elem_of_lookup_2|]. done.
Qed.

Lemma poke_confined off : off ∈ reg_offsets ->
  confined (open_register tbl) v (ipi_poke off local remote).
Proof.
  intros Hoff. unfold ipi_poke. eapply confined_step; [apply reg_base_pure|].
  eapply confined_step; [apply bit_mask_pure|]. apply confined_write.
  exists cl, cr, off. split; [by eapply list_elem_of_lookup_2|]. split; [done|]. split; [done|].
  split; [done|]. split; [by eapply list_elem_of_lookup_2|]. done.
Qed.

Lemma status_confined : confined (open_register tbl) v (ipi_mb_enquire_status local remote).
Proof.
  unfold ipi_mb_enquire_status. eapply confined_step; [apply reg_base_pure|].
  apply confined_bind; [apply confined_read; intros z; apply open_read; set_solver|]. intros s1.
  eapply confined_step; [apply bit_mask_pure|]. eapply confined_step; [apply reg_base_pure|].
  apply confined_bind; [apply confined_read; intros z; apply open_read; set_solver|]. intros s2.
  eapply confined_step; [apply bit_mask_pure|]. apply confined_ret.
Qed.

Lemma notify_confined b : confined (open_register tbl) v (ipi_mb_notify local remote b).
Proof.
  unfold ipi_mb_notify. apply confined_bind; [apply poke_confined; set_solver|]. intros _.
  destruct b; [|apply confined_ret].
  eapply confined_step; [apply reg_base_pure|]. eapply confined_step; [apply bit_mask_pure|].
  apply confined_bind; [|intros; apply confined_ret]. apply confined_do_while.
  apply confined_read. intros z. apply open_read. set_solver.
Qed.

End Open.

(** C22: the mailbox service gives non-secure software no access to a secure
    channel.  For every function id of an entity below the trusted
    applications, all arguments and every behaviour of the hardware, the handler
    returns (or waits for the remote side), changes no statics, stays inside the
    channel table, and every register it reads or writes belongs to a channel
    that is not secure-only, with only non-secure channels addressed. *)
Theorem ipi_smc_confined fid x1 x2 x3 (v : V) tbl :
  wf_ipi (sget v) -> ipi_table (sget v) = Some tbl ->
  SMC_ENTITY fid < SMC_ENTITY_TRUSTED_APP ->
  confined (open_register tbl) v (ipi_smc_handler fid x1 x2 x3).
Proof.
  intros Hwf Ht He. unfold ipi_smc_handler. cbv zeta.
  replace (SMC_ENTITY fid >=? SMC_ENTITY_TRUSTED_APP) with false
    by (symmetry; rewrite Z.geb_leb; by apply Z.leb_gt).
  assert (Hu : forall x, 0 <= x .& 0xFFFFFFFF) by (intros x; apply Z.land_nonneg; lia).
  set (lo := x1 .& 0xFFFFFFFF). set (re := x2 .& 0xFFFFFFFF).
  eapply confined_step; [intros; apply validate_run; [done|apply Hu|apply Hu]|].
  unfold validate_code. rewrite Ht.
  destruct ((re >=? _) || (lo >=? _)) eqn:E; [apply confined_ret|].
  rewrite !Z.geb_leb in E. zbool. rewrite andb_true_r.
  destruct (secure_entry tbl lo || secure_entry tbl re) eqn:Es; [apply confined_ret|].
  apply orb_false_iff in Es as [Es1 Es2]. cbn [truthy Z.eqb negb].
  unfold secure_entry in Es1, Es2.
  destruct (lookup_lt_is_Some_2 tbl (Z.to_nat lo)) as [cl Hcl]; [unfold lo in *; specialize (Hu x1); lia|].
  destruct (lookup_lt_is_Some_2 tbl (Z.to_nat re)) as [cr Hcr]; [unfold re in *; specialize (Hu x2); lia|].
  rewrite Hcl in Es1. rewrite Hcr in Es2.
  pose proof (Hu x1 : 0 <= lo) as Hlo. pose proof (Hu x2 : 0 <= re) as Hre.
  assert (Hpoke : forall off, off ∈ [IPI_TRIG_OFFSET; IPI_OBR_OFFSET; IPI_ISR_OFFSET;
    IPI_IER_OFFSET; IPI_IDR_OFFSET] -> confined (open_register tbl) v (ipi_poke off lo re)).
  { intros. by apply (poke_confined v tbl Ht lo re cl cr). }
  assert (Hstat : confined (open_register tbl) v (ipi_mb_enquire_status lo re)).
  { by apply (status_confined v tbl Ht lo re cl cr). }
  assert (Hnote : forall b, confined (open_register tbl) v (ipi_mb_notify lo re b)).
  { intros. by apply (notify_confined v tbl Ht lo re cl cr). }
  unfold ipi_mb_open, ipi_mb_release, ipi_mb_ack, ipi_mb_disable_irq, ipi_mb_enable_irq.
  repeat first [ apply confined_ret | apply Hnote | apply Hstat
               | apply Hpoke; clear; set_solver | apply confined_if
               | apply confined_bind; [|intros] ].
Qed.

End Proofs.

(** A boot-time table; the APU asks the PMU0 channel from the normal world. *)
Definition ipi_booted : ipi := IpiVars (Some zynqmp_ipi_table) 11.

Lemma ipi_smc_confined_witness :
  confined (H := board 0 1) (open_register zynqmp_ipi_table) ipi_booted
    (ipi_smc_handler 0x82001003 0 3 1) /\
  (ipi_smc_handler (H := board 0 1) 0x82001003 0 3 1
     (St (H := board 0 1) (fun _ => 0) [] [] ipi_booted)).1 = Ret (- EPERM).
Proof.
  split.
  - apply (ipi_smc_confined (H := board 0 1)); reflexivity.
  - reflexivity.
Defined.

End Ipi.
