(* ===== verification/PmDefs.v ===== *)
(** * Constants of the power-management service

    The enumerations and macros of pm_service/pm_defs.h, pm_api_sys.h,
    pm_api_ioctl.h and include/zynqmp_def.h that the service uses, with the
    source's names and values. *)

From S2P Require Import Prelude.
#[local] Open Scope Z_scope.
#[local] Open Scope c_scope.

Module PmDefs.

(** pm_defs.h *)
Definition PM_GET_API_VERSION : Z := 1.
Definition PM_SET_CONFIGURATION : Z := 2.
Definition PM_GET_NODE_STATUS : Z := 3.
Definition PM_GET_OP_CHARACTERISTIC : Z := 4.
Definition PM_REGISTER_NOTIFIER : Z := 5.
Definition PM_REQ_SUSPEND : Z := 6.
Definition PM_SELF_SUSPEND : Z := 7.
Definition PM_FORCE_POWERDOWN : Z := 8.
Definition PM_ABORT_SUSPEND : Z := 9.
Definition PM_REQ_WAKEUP : Z := 10.
Definition PM_SET_WAKEUP_SOURCE : Z := 11.
Definition PM_SYSTEM_SHUTDOWN : Z := 12.
Definition PM_REQ_NODE : Z := 13.
Definition PM_RELEASE_NODE : Z := 14.
Definition PM_SET_REQUIREMENT : Z := 15.
Definition PM_SET_MAX_LATENCY : Z := 16.
Definition PM_RESET_ASSERT : Z := 17.
Definition PM_RESET_GET_STATUS : Z := 18.
Definition PM_MMIO_WRITE : Z := 19.
Definition PM_MMIO_READ : Z := 20.
Definition PM_INIT_FINALIZE : Z := 21.
Definition PM_FPGA_LOAD : Z := 22.
Definition PM_FPGA_GET_STATUS : Z := 23.
Definition PM_GET_CHIPID : Z := 24.
Definition PM_SECURE_RSA_AES : Z := 25.
Definition PM_SECURE_SHA : Z := 26.
Definition PM_SECURE_RSA : Z := 27.
Definition PM_PINCTRL_REQUEST : Z := 28.
Definition PM_PINCTRL_RELEASE : Z := 29.
Definition PM_PINCTRL_GET_FUNCTION : Z := 30.
Definition PM_PINCTRL_SET_FUNCTION : Z := 31.
Definition PM_PINCTRL_CONFIG_PARAM_GET : Z := 32.
Definition PM_PINCTRL_CONFIG_PARAM_SET : Z := 33.
Definition PM_IOCTL : Z := 34.
Definition PM_QUERY_DATA : Z := 35.
Definition PM_CLOCK_ENABLE : Z := 36.
Definition PM_CLOCK_DISABLE : Z := 37.
Definition PM_CLOCK_GETSTATE : Z := 38.
Definition PM_CLOCK_SETDIVIDER : Z := 39.
Definition PM_CLOCK_GETDIVIDER : Z := 40.
Definition PM_CLOCK_SETRATE : Z := 41.
Definition PM_CLOCK_GETRATE : Z := 42.
Definition PM_CLOCK_SETPARENT : Z := 43.
Definition PM_CLOCK_GETPARENT : Z := 44.
Definition PM_SECURE_IMAGE : Z := 45.
Definition PM_FPGA_READ : Z := 46.
Definition PM_SECURE_AES : Z := 47.
Definition PM_PLL_SET_PARAMETER : Z := 48.
Definition PM_PLL_GET_PARAMETER : Z := 49.
Definition PM_PLL_SET_MODE : Z := 50.
Definition PM_PLL_GET_MODE : Z := 51.
Definition PM_REGISTER_ACCESS : Z := 52.
Definition PM_EFUSE_ACCESS : Z := 53.
Definition PM_API_MAX : Z := 54.

Definition NODE_UNKNOWN : Z := 0.
Definition NODE_APU : Z := 1.
Definition NODE_APU_0 : Z := 2.
Definition NODE_APU_1 : Z := 3.
Definition NODE_APU_2 : Z := 4.
Definition NODE_APU_3 : Z := 5.
Definition NODE_RPU : Z := 6.
Definition NODE_RPU_0 : Z := 7.
Definition NODE_RPU_1 : Z := 8.
Definition NODE_PLD : Z := 9.
Definition NODE_FPD : Z := 10.
Definition NODE_OCM_BANK_0 : Z := 11.
Definition NODE_OCM_BANK_1 : Z := 12.
Definition NODE_OCM_BANK_2 : Z := 13.
Definition NODE_OCM_BANK_3 : Z := 14.
Definition NODE_TCM_0_A : Z := 15.
Definition NODE_TCM_0_B : Z := 16.
Definition NODE_TCM_1_A : Z := 17.
Definition NODE_TCM_1_B : Z := 18.
Definition NODE_L2 : Z := 19.
Definition NODE_GPU_PP_0 : Z := 20.
Definition NODE_GPU_PP_1 : Z := 21.
Definition NODE_USB_0 : Z := 22.
Definition NODE_USB_1 : Z := 23.
Definition NODE_TTC_0 : Z := 24.
Definition NODE_TTC_1 : Z := 25.
Definition NODE_TTC_2 : Z := 26.
Definition NODE_TTC_3 : Z := 27.
Definition NODE_SATA : Z := 28.
Definition NODE_ETH_0 : Z := 29.
Definition NODE_ETH_1 : Z := 30.
Definition NODE_ETH_2 : Z := 31.
Definition NODE_ETH_3 : Z := 32.
Definition NODE_UART_0 : Z := 33.
Definition NODE_UART_1 : Z := 34.
Definition NODE_SPI_0 : Z := 35.
Definition NODE_SPI_1 : Z := 36.
Definition NODE_I2C_0 : Z := 37.
Definition NODE_I2C_1 : Z := 38.
Definition NODE_SD_0 : Z := 39.
Definition NODE_SD_1 : Z := 40.
Definition NODE_DP : Z := 41.
Definition NODE_GDMA : Z := 42.
Definition NODE_ADMA : Z := 43.
Definition NODE_NAND : Z := 44.
Definition NODE_QSPI : Z := 45.
Definition NODE_GPIO : Z := 46.
Definition NODE_CAN_0 : Z := 47.
Definition NODE_CAN_1 : Z := 48.
Definition NODE_EXTERN : Z := 49.
Definition NODE_APLL : Z := 50.
Definition NODE_VPLL : Z := 51.
Definition NODE_DPLL : Z := 52.
Definition NODE_RPLL : Z := 53.
Definition NODE_IOPLL : Z := 54.
Definition NODE_DDR : Z := 55.
Definition NODE_IPI_APU : Z := 56.
Definition NODE_IPI_RPU_0 : Z := 57.
Definition NODE_GPU : Z := 58.
Definition NODE_PCIE : Z := 59.
Definition NODE_PCAP : Z := 60.
Definition NODE_RTC : Z := 61.
Definition NODE_LPD : Z := 62.
Definition NODE_VCU : Z := 63.
Definition NODE_IPI_RPU_1 : Z := 64.
Definition NODE_IPI_PL_0 : Z := 65.
Definition NODE_IPI_PL_1 : Z := 66.
Definition NODE_IPI_PL_2 : Z := 67.
Definition NODE_IPI_PL_3 : Z := 68.
Definition NODE_PL : Z := 69.
Definition NODE_GEM_TSU : Z := 70.
Definition NODE_SWDT_0 : Z := 71.
Definition NODE_SWDT_1 : Z := 72.
Definition NODE_CSU : Z := 73.
Definition NODE_PJTAG : Z := 74.
Definition NODE_TRACE : Z := 75.
Definition NODE_TESTSCAN : Z := 76.
Definition NODE_PMU : Z := 77.
Definition NODE_MAX : Z := 78.

Definition REQ_ACK_NO : Z := 1.
Definition REQ_ACK_BLOCKING : Z := 2.
Definition REQ_ACK_NON_BLOCKING : Z := 3.

Definition ABORT_REASON_WKUP_EVENT : Z := 100.
Definition ABORT_REASON_PU_BUSY : Z := 101.
Definition ABORT_REASON_NO_PWRDN : Z := 102.
Definition ABORT_REASON_UNKNOWN : Z := 103.

Definition SUSPEND_REASON_PU_REQ : Z := 201.
Definition SUSPEND_REASON_ALERT : Z := 202.
Definition SUSPEND_REASON_SYS_SHUTDOWN : Z := 203.

Definition PM_RAM_STATE_OFF : Z := 1.
Definition PM_RAM_STATE_RETENTION : Z := 2.
Definition PM_RAM_STATE_ON : Z := 3.

Definition PM_OPCHAR_TYPE_POWER : Z := 1.
Definition PM_OPCHAR_TYPE_TEMP : Z := 2.
Definition PM_OPCHAR_TYPE_LATENCY : Z := 3.

Definition PM_RET_SUCCESS : Z := 0.
Definition PM_RET_ERROR_ARGS : Z := 1.
Definition PM_RET_ERROR_NOTSUPPORTED : Z := 4.
Definition PM_RET_ERROR_INTERNAL : Z := 2000.
Definition PM_RET_ERROR_CONFLICT : Z := 2001.
Definition PM_RET_ERROR_ACCESS : Z := 2002.
Definition PM_RET_ERROR_INVALID_NODE : Z := 2003.
Definition PM_RET_ERROR_DOUBLE_REQ : Z := 2004.
Definition PM_RET_ERROR_ABORT_SUSPEND : Z := 2005.
Definition PM_RET_ERROR_TIMEOUT : Z := 2006.
Definition PM_RET_ERROR_NODE_USED : Z := 2007.

Definition PM_INITIAL_BOOT : Z := 0.
Definition PM_RESUME : Z := 1.
Definition PM_BOOT_ERROR : Z := 2.

Definition PMF_SHUTDOWN_TYPE_SHUTDOWN : Z := 0.
Definition PMF_SHUTDOWN_TYPE_RESET : Z := 1.
Definition PMF_SHUTDOWN_TYPE_SETSCOPE_ONLY : Z := 2.

Definition PMF_SHUTDOWN_SUBTYPE_SUBSYSTEM : Z := 0.
Definition PMF_SHUTDOWN_SUBTYPE_PS_ONLY : Z := 1.
Definition PMF_SHUTDOWN_SUBTYPE_SYSTEM : Z := 2.

Definition PM_PLL_PARAM_DIV2 : Z := 0.
Definition PM_PLL_PARAM_FBDIV : Z := 1.
Definition PM_PLL_PARAM_DATA : Z := 2.
Definition PM_PLL_PARAM_PRE_SRC : Z := 3.
Definition PM_PLL_PARAM_POST_SRC : Z := 4.
Definition PM_PLL_PARAM_LOCK_DLY : Z := 5.
Definition PM_PLL_PARAM_LOCK_CNT : Z := 6.
Definition PM_PLL_PARAM_LFHF : Z := 7.
Definition PM_PLL_PARAM_CP : Z := 8.
Definition PM_PLL_PARAM_RES : Z := 9.
Definition PM_PLL_PARAM_MAX : Z := 10.

Definition PM_PLL_MODE_RESET : Z := 0.
Definition PM_PLL_MODE_INTEGER : Z := 1.
Definition PM_PLL_MODE_FRACTIONAL : Z := 2.
Definition PM_PLL_MODE_MAX : Z := 3.

Definition PM_CLOCK_DIV0_ID : Z := 0.
Definition PM_CLOCK_DIV1_ID : Z := 1.

Definition EM_SET_ACTION : Z := 1.
Definition EM_REMOVE_ACTION : Z := 2.
Definition EM_SEND_ERRORS : Z := 3.

Definition PM_VERSION_MAJOR : Z := 1.
Definition PM_VERSION_MINOR : Z := 1.
Definition PM_VERSION : Z := ((PM_VERSION_MAJOR .<< 16) .| PM_VERSION_MINOR).
Definition PM_STATE_CPU_IDLE : Z := 0x0.
Definition PM_STATE_SUSPEND_TO_RAM : Z := 0xF.
Definition PM_PROC_STATE_ACTIVE : Z := 1.
Definition MAX_LATENCY : Z := not32 0.
Definition EM_FUNID_NUM_MASK : Z := 0xF0000.

(** pm_api_sys.h *)
Definition PM_QID_INVALID : Z := 0.
Definition PM_QID_CLOCK_GET_NAME : Z := 1.
Definition PM_QID_CLOCK_GET_TOPOLOGY : Z := 2.
Definition PM_QID_CLOCK_GET_FIXEDFACTOR_PARAMS : Z := 3.
Definition PM_QID_CLOCK_GET_PARENTS : Z := 4.
Definition PM_QID_CLOCK_GET_ATTRIBUTES : Z := 5.
Definition PM_QID_PINCTRL_GET_NUM_PINS : Z := 6.
Definition PM_QID_PINCTRL_GET_NUM_FUNCTIONS : Z := 7.
Definition PM_QID_PINCTRL_GET_NUM_FUNCTION_GROUPS : Z := 8.
Definition PM_QID_PINCTRL_GET_FUNCTION_NAME : Z := 9.
Definition PM_QID_PINCTRL_GET_FUNCTION_GROUPS : Z := 10.
Definition PM_QID_PINCTRL_GET_PIN_GROUPS : Z := 11.
Definition PM_QID_CLOCK_GET_NUM_CLOCKS : Z := 12.
Definition PM_QID_CLOCK_GET_MAX_DIVISOR : Z := 13.

Definition CONFIG_REG_WRITE : Z := 0.
Definition CONFIG_REG_READ : Z := 1.

(** pm_api_ioctl.h *)
Definition IOCTL_GET_RPU_OPER_MODE : Z := 0.
Definition IOCTL_SET_RPU_OPER_MODE : Z := 1.
Definition IOCTL_RPU_BOOT_ADDR_CONFIG : Z := 2.
Definition IOCTL_TCM_COMB_CONFIG : Z := 3.
Definition IOCTL_SET_TAPDELAY_BYPASS : Z := 4.
Definition IOCTL_SET_SGMII_MODE : Z := 5.
Definition IOCTL_SD_DLL_RESET : Z := 6.
Definition IOCTL_SET_SD_TAPDELAY : Z := 7.
Definition IOCTL_SET_PLL_FRAC_MODE : Z := 8.
Definition IOCTL_GET_PLL_FRAC_MODE : Z := 9.
Definition IOCTL_SET_PLL_FRAC_DATA : Z := 10.
Definition IOCTL_GET_PLL_FRAC_DATA : Z := 11.
Definition IOCTL_WRITE_GGS : Z := 12.
Definition IOCTL_READ_GGS : Z := 13.
Definition IOCTL_WRITE_PGGS : Z := 14.
Definition IOCTL_READ_PGGS : Z := 15.
Definition IOCTL_ULPI_RESET : Z := 16.
Definition IOCTL_SET_BOOT_HEALTH_STATUS : Z := 17.
Definition IOCTL_AFI : Z := 18.
Definition IOCTL_PROBE_COUNTER_READ : Z := 19.
Definition IOCTL_PROBE_COUNTER_WRITE : Z := 20.
Definition IOCTL_OSPI_MUX_SELECT : Z := 21.
Definition IOCTL_USB_SET_STATE : Z := 22.
Definition IOCTL_GET_LAST_RESET_REASON : Z := 23.
Definition IOCTL_AIE_ISR_CLEAR : Z := 24.
Definition IOCTL_REGISTER_SGI : Z := 25.
Definition IOCTL_SET_FEATURE_CONFIG : Z := 26.
Definition IOCTL_GET_FEATURE_CONFIG : Z := 27.

Definition PM_TAPDELAY_INPUT : Z := 0.
Definition PM_TAPDELAY_OUTPUT : Z := 1.

Definition PM_RPU_MODE_LOCKSTEP : Z := 0.
Definition PM_RPU_MODE_SPLIT : Z := 1.
Definition PM_RPU_BOOTMEM_LOVEC : Z := 0.
Definition PM_RPU_BOOTMEM_HIVEC : Z := 1.
Definition PM_RPU_TCM_SPLIT : Z := 0.
Definition PM_RPU_TCM_COMB : Z := 1.
Definition PM_TAPDELAY_MAX : Z := 3.
Definition PM_TAPDELAY_BYPASS_DISABLE : Z := 0.
Definition PM_TAPDELAY_BYPASS_ENABLE : Z := 1.
Definition PM_SGMII_DISABLE : Z := 0.
Definition PM_SGMII_ENABLE : Z := 1.
Definition PM_DLL_RESET_ASSERT : Z := 0.
Definition PM_DLL_RESET_RELEASE : Z := 1.
Definition PM_DLL_RESET_PULSE : Z := 2.

(** zynqmp_def.h *)
Definition CRL_APB_BASE : Z := 0xFF5E0000.
Definition CRL_APB_RST_LPD_TOP : Z := CRL_APB_BASE + 0x23C.
Definition CRL_APB_RPU_AMBA_RESET : Z := 1 .<< 2.
Definition CRL_APB_BOOT_PIN_CTRL : Z := CRL_APB_BASE + 0x250.
Definition CRL_APB_BOOT_PIN_MASK : Z := 0xf0f .<< 0.
Definition CRL_APB_BOOT_DRIVE_PIN_1_SHIFT : Z := 9.
Definition CRL_APB_BOOT_ENABLE_PIN_1_SHIFT : Z := 1.
Definition CRL_APB_BOOT_ENABLE_PIN_1 : Z := 0x1 .<< CRL_APB_BOOT_ENABLE_PIN_1_SHIFT.
Definition CRL_APB_BOOT_DRIVE_PIN_1 : Z := 0x1 .<< CRL_APB_BOOT_DRIVE_PIN_1_SHIFT.
Definition ZYNQMP_ULPI_RESET_VAL_HIGH : Z := CRL_APB_BOOT_ENABLE_PIN_1 .| CRL_APB_BOOT_DRIVE_PIN_1.
Definition ZYNQMP_ULPI_RESET_VAL_LOW : Z := CRL_APB_BOOT_ENABLE_PIN_1.
Definition PMU_GLOBAL_BASE : Z := 0xFFD80000.
Definition ZYNQMP_CSU_BASEADDR : Z := 0xFFCA0000.
Definition ZYNQMP_RPU_GLBL_CNTL : Z := 0xFF9A0000.
Definition ZYNQMP_RPU0_CFG : Z := 0xFF9A0100.
Definition ZYNQMP_RPU1_CFG : Z := 0xFF9A0200.
Definition ZYNQMP_SLSPLIT_MASK : Z := 0x08.
Definition ZYNQMP_TCM_COMB_MASK : Z := 0x40.
Definition ZYNQMP_SLCLAMP_MASK : Z := 0x10.
Definition ZYNQMP_VINITHI_MASK : Z := 0x04.
Definition IOU_TAPDLY_BYPASS : Z := 0xFF180390.
Definition TAP_DELAY_MASK : Z := 0x7.
Definition IOU_GEM_CTRL : Z := 0xFF180360.
Definition IOU_GEM_CLK_CTRL : Z := 0xFF180308.
Definition SGMII_SD_MASK : Z := 0x3.
Definition SGMII_SD_OFFSET : Z := 2.
Definition SGMII_PCS_SD_1 : Z := 0x1.
Definition GEM_SGMII_MASK : Z := 0x4.
Definition GEM_CLK_CTRL_MASK : Z := 0xF.
Definition GEM_CLK_CTRL_OFFSET : Z := 5.
Definition GEM_RX_SRC_SEL_GTR : Z := 0x1.
Definition GEM_SGMII_MODE : Z := 0x4.
Definition ZYNQMP_SD_DLL_CTRL : Z := 0xFF180358.
Definition ZYNQMP_SD0_DLL_RST_MASK : Z := 0x00000004.
Definition ZYNQMP_SD0_DLL_RST : Z := 0x00000004.
Definition ZYNQMP_SD1_DLL_RST_MASK : Z := 0x00040000.
Definition ZYNQMP_SD1_DLL_RST : Z := 0x00040000.
Definition ZYNQMP_SD_ITAP_DLY : Z := 0xFF180314.
Definition ZYNQMP_SD_OTAP_DLY : Z := 0xFF180318.
Definition ZYNQMP_SD_TAP_OFFSET : Z := 16.
Definition ZYNQMP_SD_ITAPCHGWIN_MASK : Z := 0x200.
Definition ZYNQMP_SD_ITAPCHGWIN : Z := 0x200.
Definition ZYNQMP_SD_ITAPDLYENA_MASK : Z := 0x100.
Definition ZYNQMP_SD_ITAPDLYENA : Z := 0x100.
Definition ZYNQMP_SD_ITAPDLYSEL_MASK : Z := 0xFF.
Definition ZYNQMP_SD_OTAPDLYSEL_MASK : Z := 0x3F.
Definition ZYNQMP_SD_OTAPDLYENA_MASK : Z := 0x40.
Definition GGS_BASEADDR : Z := 0xFFD80030.
Definition GGS_NUM_REGS : Z := 4.
Definition PGGS_BASEADDR : Z := 0xFFD80050.
Definition PGGS_NUM_REGS : Z := 4.
Definition PMU_GLOBAL_GEN_STORAGE4 : Z := GGS_BASEADDR + 0x10.
Definition PM_BOOT_HEALTH_STATUS_MASK : Z := 0x01.
Definition AFIFM6_WRCTRL : Z := 13.
Definition FABRIC_WIDTH : Z := 3.
Definition CSUDMA_BASE : Z := 0xFFC80000.
Definition RSA_CORE_BASE : Z := 0xFFCE0000.

End PmDefs.
