(* ===== verification/PmIpi.v ===== *)
(** * The IPI transport of the power-management service

    plat/xilinx/common/pm_service/pm_ipi.c (built without IPI_CRC_CHECK) and the
    payload macros of plat/xilinx/zynqmp/pm_service/pm_api_sys.c.  A destination
    pointer [value] of the C code is the number of words that may be written
    through it, and the words read are returned; a write past the object is
    [OutOfBounds].  The words of a payload that the macros do not set keep the
    contents of the stack, [uninit]. *)

From S2P Require Import Prelude Machine Ipi PmDefs.
From stdpp Require Import sets.
Import Ipi PmDefs.
#[local] Open Scope Z_scope.
#[local] Open Scope c_scope.

Module PmIpi.

Definition PAYLOAD_ARG_CNT : Z := 6.
Definition PAYLOAD_ARG_SIZE : Z := 4.
Definition IPI_BUFFER_BASEADDR : Z := 0xFF990000.
Definition IPI_BUFFER_APU_BASE : Z := IPI_BUFFER_BASEADDR + 0x400.
Definition IPI_BUFFER_PMU_BASE : Z := IPI_BUFFER_BASEADDR + 0xE00.
Definition IPI_BUFFER_TARGET_LOCAL_OFFSET : Z := 0x80.
Definition IPI_BUFFER_TARGET_REMOTE_OFFSET : Z := 0x1C0.
Definition IPI_BUFFER_MAX_WORDS : Z := 8.
Definition IPI_BUFFER_REQ_OFFSET : Z := 0x0.
Definition IPI_BUFFER_RESP_OFFSET : Z := 0x20.
Definition ERROR_CODE_MASK : Z := 0xFFFF.

Record pm_ipi := PmIpiChan {
  local_ipi_id : Z;
  remote_ipi_id : Z;
  buffer_base : Z
}.

Record pm_proc := PmProc {
  node_id : Z;
  pwrdn_mask : Z;
  proc_ipi : pm_ipi
}.

(** pm_client.c *)
Definition apu_ipi : pm_ipi := PmIpiChan IPI_ID_APU IPI_ID_PMU0 IPI_BUFFER_APU_BASE.

Definition pm_procs_all : list pm_proc :=
  [PmProc NODE_APU_0 0x1 apu_ipi; PmProc NODE_APU_1 0x2 apu_ipi;
   PmProc NODE_APU_2 0x4 apu_ipi; PmProc NODE_APU_3 0x8 apu_ipi].

Definition primary_proc : pm_proc := PmProc NODE_APU_0 0x1 apu_ipi.

Section Ops.
Context `{Env} {V : Type} `{!Has ipi V}.

(** [PM_PACK_PAYLOAD1] .. [PM_PACK_PAYLOAD6]: the first words are set. *)
Definition PM_PACK_PAYLOAD (args : list Z) : list Z :=
  map u32 args ++
  map (fun k => u32 (uninit k)) (seq (length args) (6 - length args)).

Definition EM_PACK_PAYLOAD1 (arg0 : Z) : list Z :=
  PM_PACK_PAYLOAD [(0xE .<< 16) .| u16 arg0].

(** [bakery_lock_init] of the shared lock has no effect on a free lock. *)
Definition pm_ipi_init (proc : pm_proc) : M V Z :=
  ipi_mb_open (local_ipi_id (proc_ipi proc)) (remote_ipi_id (proc_ipi proc)) ;;
  ret 0.

Definition pm_ipi_send_common (proc : pm_proc) (payload : list Z) (is_blocking : bool) : M V Z :=
  let base := buffer_base (proc_ipi proc) + IPI_BUFFER_TARGET_REMOTE_OFFSET +
              IPI_BUFFER_REQ_OFFSET in
  for_each (steps 0 PAYLOAD_ARG_CNT 1) (fun i =>
    w <- aread payload i ;;
    mmio_write_32 (base + i * PAYLOAD_ARG_SIZE) w) ;;
  ipi_mb_notify (local_ipi_id (proc_ipi proc)) (remote_ipi_id (proc_ipi proc)) is_blocking ;;
  ret PM_RET_SUCCESS.

Definition pm_ipi_send_non_blocking (proc : pm_proc) (payload : list Z) : M V Z :=
  lock pm_secure_lock ;;
  r <- pm_ipi_send_common proc payload false ;;
  unlock pm_secure_lock ;;
  ret r.

Definition pm_ipi_send (proc : pm_proc) (payload : list Z) : M V Z :=
  lock pm_secure_lock ;;
  r <- pm_ipi_send_common proc payload true ;;
  unlock pm_secure_lock ;;
  ret r.

(** [for (i = first; ...) *value++ = mmio_read_32(base + i * 4);], [n] turns,
    into an object with room for [room] words. *)
Fixpoint read_words (base i : Z) (n room : nat) : M V (list Z) :=
  match n with
  | O => ret []
  | S n' =>
      w <- mmio_read_32 (base + i * PAYLOAD_ARG_SIZE) ;;
      match room with
      | O => stop OutOfBounds
      | S room' => ws <- read_words base (i + 1) n' room' ;; ret (w :: ws)
      end
  end.

Definition pm_ipi_buff_read (proc : pm_proc) (room : nat) (count : Z) : M V (Z * list Z) :=
  let base := buffer_base (proc_ipi proc) + IPI_BUFFER_TARGET_REMOTE_OFFSET +
              IPI_BUFFER_RESP_OFFSET in
  ws <- read_words base 1 (Z.to_nat count) room ;;
  r <- mmio_read_32 base ;;
  ret (r, ws).

(** The loop runs for i = 0, ..., count: one turn more than [count]. *)
Definition pm_ipi_buff_read_callb (room : nat) (count : Z) : M V (list Z) :=
  let base := IPI_BUFFER_PMU_BASE + IPI_BUFFER_TARGET_LOCAL_OFFSET + IPI_BUFFER_REQ_OFFSET in
  let count := if count >? IPI_BUFFER_MAX_WORDS then IPI_BUFFER_MAX_WORDS else count in
  read_words base 0 (Z.to_nat (count + 1)) room.

Definition pm_ipi_send_sync (proc : pm_proc) (payload : list Z) (room : nat) (count : Z)
    : M V (Z * list Z) :=
  lock pm_secure_lock ;;
  r <- pm_ipi_send_common proc payload true ;;
  res <- (if negb (r =? PM_RET_SUCCESS) then ret (r, [])
          else
            rv <- pm_ipi_buff_read proc room count ;;
            ret (ERROR_CODE_MASK .& rv.1, rv.2)) ;;
  unlock pm_secure_lock ;;
  ret res.

Definition pm_ipi_irq_enable (proc : pm_proc) : M V unit :=
  ipi_mb_enable_irq (local_ipi_id (proc_ipi proc)) (remote_ipi_id (proc_ipi proc)).

Definition pm_ipi_irq_clear (proc : pm_proc) : M V unit :=
  ipi_mb_ack (local_ipi_id (proc_ipi proc)) (remote_ipi_id (proc_ipi proc)).

Definition pm_ipi_irq_status (proc : pm_proc) : M V Z :=
  r <- ipi_mb_enquire_status (local_ipi_id (proc_ipi proc)) (remote_ipi_id (proc_ipi proc)) ;;
  ret (if truthy (r .& IPI_MB_STATUS_RECV_PENDING) then 1 else 0).

End Ops.

(** ** What a request does *)

Definition apu_base : Z := 0xFF300000.
Definition pmu0_mask : Z := 0x10000.
Definition req_buffer : Z := 0xFF9905C0.
Definition resp_buffer : Z := 0xFF9905E0.

(** The writes of a payload followed by the doorbell, newest first. *)
Definition request_trace (p : list Z) : list event :=
  EvWr W32 (apu_base + IPI_TRIG_OFFSET) pmu0_mask ::
  rev (imap (fun i w => EvWr W32 (req_buffer + 4 * Z.of_nat i) (u32 w)) p).

Definition obr_read (e : event) : Prop :=
  match e with EvRd W32 a _ => a = apu_base + IPI_OBR_OFFSET | _ => False end.

(** Reads of the response words [i], [i+1], ..., newest first. *)
Fixpoint resp_trace (base i : Z) (ws : list Z) : list event :=
  match ws with
  | [] => []
  | w :: ws' => resp_trace base (i + 1) ws' ++ [EvRd W32 (base + 4 * i) w]
  end.

(** The IPI component of the image has been initialised. *)
Definition ipi_up (v : ipi) : Prop := v = ipi_booted.

Section Proofs.
Context `{Env}.

(** The wait on the observation register, on the device alone. *)
Fixpoint polls (n : nat) (d : Dev) : option Dev :=
  match n with
  | O => None
  | S n' =>
      let r := hw_read W32 (apu_base + IPI_OBR_OFFSET) d in
      if truthy (u32 r.1 .& pmu0_mask) then polls n' r.2 else Some r.2
  end.

(** Documented behaviour of the channel: the remote side acknowledges, and the
    bit of the observation register falls within [poll_bound] reads. *)
Definition pmu_answers : Prop := forall d, is_Some (polls poll_bound d).

Context {V : Type} `{!Has ipi V}.

Lemma do_while_polls n d d' l h (v : V) : polls n d = Some d' -> exists z new,
  do_while n (mmio_read_32 (apu_base + IPI_OBR_OFFSET)) (fun st => truthy (st .& pmu0_mask))
    (St d l h v) = (Ret z, St d' (new ++ l) h v) /\ Forall obr_read new.
Proof.
  revert d l. induction n as [|n IH]; intros d l Hp; simpl in *; [done|]. run.
  destruct (truthy _); [|simplify_eq; run].
  - destruct (IH _ (EvRd W32 (apu_base + IPI_OBR_OFFSET)
      (u32 (hw_read W32 (apu_base + IPI_OBR_OFFSET) d).1) :: l) Hp) as (z & new & -> & Hf).
    exists z, (new ++ [EvRd W32 (apu_base + IPI_OBR_OFFSET)
      (u32 (hw_read W32 (apu_base + IPI_OBR_OFFSET) d).1)]).
    rewrite <- (assoc_L (++)). split; [done|]. apply Forall_app. split; [done|]. by constructor.
  - eexists _, [_]. split; [reflexivity|]. by constructor.
Qed.

Lemma entry_apu d l h (v : V) : ipi_up (sget v) ->
  ipi_entry 0 (St d l h v) = (Ret (IpiConfig 0x1 0xFF300000 0), St d l h v).
Proof. intros Hv. by apply (entry_run zynqmp_ipi_table); [rewrite Hv|..]. Qed.

Lemma entry_pmu0 d l h (v : V) : ipi_up (sget v) ->
  ipi_entry 3 (St d l h v) = (Ret (IpiConfig 0x10000 0xFF330000 IPI_SECURE_MASK), St d l h v).
Proof. intros Hv. by apply (entry_run zynqmp_ipi_table); [rewrite Hv|..]. Qed.

Lemma notify_blocking_run d l h (v : V) :
  ipi_up (sget v) -> pmu_answers -> exists d' new,
  ipi_mb_notify 0 3 true (St d l h v) =
    (Ret tt, St d' (new ++ EvWr W32 (apu_base + IPI_TRIG_OFFSET) pmu0_mask :: l) h v) /\
  Forall obr_read new.
Proof.
  intros Hv Ha. unfold ipi_mb_notify, ipi_poke, IPI_REG_BASE, IPI_BIT_MASK.
  rewrite !run_bind_assoc, (bind_run _ _ _ _ _ (entry_apu d l h v Hv)). run.
  rewrite (bind_run _ _ _ _ _ (entry_pmu0 _ _ _ v Hv)). run.
  rewrite (bind_run _ _ _ _ _ (entry_apu _ _ _ v Hv)). run.
  rewrite (bind_run _ _ _ _ _ (entry_pmu0 _ _ _ v Hv)). run. cbn [ipi_reg_base ipi_bit_mask].
  match goal with |- context [bind (do_while _ _ _) _ (St ?d1 ?l1 _ _)] =>
    destruct (Ha d1) as [d' Hp]; destruct (do_while_polls _ _ _ l1 h v Hp) as (z & new & Hd & Hf) end.
  change (0xFF300000 + IPI_OBR_OFFSET) with (apu_base + IPI_OBR_OFFSET).
  unfold mmio_read_32 in Hd. rewrite (bind_run _ _ _ _ _ Hd). run.
  exists d', new. split; [reflexivity|done].
Qed.

(** The six payload words reach the request buffer in order. *)
Lemma payload_run d l h (v : V) w0 w1 w2 w3 w4 w5 tl : exists d',
  for_each (steps 0 PAYLOAD_ARG_CNT 1) (fun i =>
    w <- aread (w0 :: w1 :: w2 :: w3 :: w4 :: w5 :: tl) i ;;
    mmio_write_32 (req_buffer + i * PAYLOAD_ARG_SIZE) w) (St d l h v) =
  (Ret tt, St d'
     (rev (imap (fun i w => EvWr W32 (req_buffer + 4 * Z.of_nat i) (u32 w))
        [w0; w1; w2; w3; w4; w5]) ++ l) h v).
Proof.
  change (steps 0 PAYLOAD_ARG_CNT 1) with [0; 1; 2; 3; 4; 5]. cbn [for_each].
  eexists. repeat (arr; run). reflexivity.
Qed.

Lemma resp_trace_length base i ws : length (resp_trace base i ws) = length ws.
Proof.
  revert i. induction ws as [|w ws IH]; intros i; simpl; [done|].
  rewrite length_app, IH. simpl. lia.
Qed.

Lemma read_words_run base i n room d l h (v : V) : (n <= room)%nat -> exists ws d',
  read_words base i n room (St d l h v) = (Ret ws, St d' (resp_trace base i ws ++ l) h v) /\
  length ws = n.
Proof.
  revert i room d l. induction n as [|n IH]; intros i room d l Hn; simpl.
  { exists [], d. done. }
  destruct room as [|room]; [lia|]. run.
  destruct (IH (i + 1) room (hw_read W32 (base + i * PAYLOAD_ARG_SIZE) d).2
    (EvRd W32 (base + i * PAYLOAD_ARG_SIZE)
      (u32 (hw_read W32 (base + i * PAYLOAD_ARG_SIZE) d).1) :: l)) as (ws & d' & Hr & Hl); [lia|].
  rewrite (bind_run _ _ _ _ _ Hr). run.
  eexists (_ :: ws), d'. simpl. rewrite <- (assoc_L (++)). unfold PAYLOAD_ARG_SIZE.
  rewrite (Z.mul_comm i 4). split; [reflexivity|]. by rewrite Hl.
Qed.

(** A buffer that is too small is overrun. *)
Lemma read_words_overflow base i n room d l h (v : V) : (room < n)%nat ->
  exists s', read_words base i n room (St d l h v) = (Halt OutOfBounds, s').
Proof.
  revert i room d l. induction n as [|n IH]; intros i room d l Hn; [lia|]. simpl. run.
  destruct room as [|room]; [by eexists|].
  edestruct (IH (i + 1) room) as [s' Hr]; [lia|].
  rewrite (bind_halt _ _ _ _ _ Hr). by eexists.
Qed.

Lemma notify_run d l h (v : V) is_blocking :
  ipi_up (sget v) -> (is_blocking = true -> pmu_answers) -> exists d' new,
  ipi_mb_notify 0 3 is_blocking (St d l h v) =
    (Ret tt, St d' (new ++ EvWr W32 (apu_base + IPI_TRIG_OFFSET) pmu0_mask :: l) h v) /\
  Forall obr_read new.
Proof.
  intros Hv Ha. destruct is_blocking; [by apply notify_blocking_run; [|apply Ha]|].
  unfold ipi_mb_notify, ipi_poke, IPI_REG_BASE, IPI_BIT_MASK.
  rewrite !run_bind_assoc, (bind_run _ _ _ _ _ (entry_apu d l h v Hv)). run.
  rewrite (bind_run _ _ _ _ _ (entry_pmu0 _ _ _ v Hv)). run.
  eexists _, []. split; [reflexivity|constructor].
Qed.

(** The common part of all requests: payload, doorbell, and the wait. *)
Lemma send_common_run d l h (v : V) w0 w1 w2 w3 w4 w5 is_blocking :
  ipi_up (sget v) -> (is_blocking = true -> pmu_answers) -> exists d' waits,
  pm_ipi_send_common primary_proc [w0; w1; w2; w3; w4; w5] is_blocking (St d l h v) =
    (Ret PM_RET_SUCCESS, St d' (waits ++ request_trace [w0; w1; w2; w3; w4; w5] ++ l) h v) /\
  Forall obr_read waits.
Proof.
  intros Hv Ha. unfold pm_ipi_send_common.
  cbn [proc_ipi primary_proc apu_ipi buffer_base local_ipi_id remote_ipi_id].
  change (IPI_BUFFER_APU_BASE + IPI_BUFFER_TARGET_REMOTE_OFFSET + IPI_BUFFER_REQ_OFFSET)
    with req_buffer.
  destruct (payload_run d l h v w0 w1 w2 w3 w4 w5 []) as [d1 Hp].
  rewrite (bind_run _ _ _ _ _ Hp).
  destruct (notify_run d1 (rev (imap (fun i w => EvWr W32 (req_buffer + 4 * Z.of_nat i) (u32 w))
    [w0; w1; w2; w3; w4; w5]) ++ l) h v is_blocking Hv Ha) as (d2 & waits & Hn & Hw).
  change IPI_ID_APU with 0. change IPI_ID_PMU0 with 3.
  rewrite (bind_run _ _ _ _ _ Hn). run.
  exists d2, waits. done.
Qed.

(** A request without a response, blocking or not. *)
Lemma send_run (is_blocking : bool) w0 w1 w2 w3 w4 w5 d l h (v : V) :
  ipi_up (sget v) -> (is_blocking = true -> pmu_answers) -> pm_secure_lock ∉ h ->
  exists d' waits,
    (if is_blocking then pm_ipi_send primary_proc [w0; w1; w2; w3; w4; w5]
     else pm_ipi_send_non_blocking primary_proc [w0; w1; w2; w3; w4; w5]) (St d l h v) =
      (Ret PM_RET_SUCCESS, St d' (EvUnlock pm_secure_lock :: waits ++
         request_trace [w0; w1; w2; w3; w4; w5] ++ EvLock pm_secure_lock :: l) h v) /\
    Forall obr_read waits.
Proof.
  intros Hv Ha Hl.
  destruct (send_common_run d (EvLock pm_secure_lock :: l) (pm_secure_lock :: h) v
    w0 w1 w2 w3 w4 w5 is_blocking Hv Ha) as (d' & waits & E & Hw).
  exists d', waits. split; [|done].
  destruct is_blocking; unfold pm_ipi_send, pm_ipi_send_non_blocking; run;
    rewrite run_bind_lock, bool_decide_eq_false_2 by done;
    rewrite (bind_run _ _ _ _ _ E); run; by rewrite unlock_lock.
Qed.

(** A whole request, from the lock to its release. *)
Lemma send_sync_run w0 w1 w2 w3 w4 w5 room count d l h (v : V) :
  ipi_up (sget v) -> pmu_answers -> pm_secure_lock ∉ h ->
  0 <= count <= Z.of_nat room ->
  exists r ws d' waits st,
    pm_ipi_send_sync primary_proc [w0; w1; w2; w3; w4; w5] room count (St d l h v) =
      (Ret (r, ws), St d'
         (EvUnlock pm_secure_lock :: EvRd W32 resp_buffer st :: resp_trace resp_buffer 1 ws ++
          waits ++ request_trace [w0; w1; w2; w3; w4; w5] ++ EvLock pm_secure_lock :: l) h v) /\
    r = ERROR_CODE_MASK .& st /\ Z.of_nat (length ws) = count /\ Forall obr_read waits /\
    (exists dr, st = u32 (hw_read W32 resp_buffer dr).1).
Proof.
  intros Hv Ha Hl Hc. unfold pm_ipi_send_sync. run.
  rewrite run_bind_lock, bool_decide_eq_false_2 by done.
  destruct (send_common_run d (EvLock pm_secure_lock :: l) (pm_secure_lock :: h) v
    w0 w1 w2 w3 w4 w5 true Hv (fun _ => Ha)) as (d2 & waits & E & Hw).
  rewrite (bind_run _ _ _ _ _ E).
  change (negb (PM_RET_SUCCESS =? PM_RET_SUCCESS)) with false. cbn match.
  unfold pm_ipi_buff_read. cbn [proc_ipi primary_proc apu_ipi buffer_base].
  change (IPI_BUFFER_APU_BASE + IPI_BUFFER_TARGET_REMOTE_OFFSET + IPI_BUFFER_RESP_OFFSET)
    with resp_buffer.
  edestruct (read_words_run resp_buffer 1 (Z.to_nat count) room d2) as (ws & d3 & Hr & Hlen); [lia|].
  rewrite !run_bind_assoc, (bind_run _ _ _ _ _ Hr). run. rewrite unlock_lock by done.
  eexists _, ws, _, waits, _.
  split; [|split; [reflexivity|split; [lia|split; [exact Hw|by eexists]]]].
  cbn [fst snd]. do 2 f_equal.
Qed.

(** The request protocol.  With the channel table installed, the lock free
    and a remote side that answers, a synchronous request with a six-word payload
    returns a 16-bit status and exactly the words asked for, leaves statics and
    locks as they were, and its trace is: lock taken, the six words written to
    the request buffer in order, the doorbell rung, only the observation register
    polled, then the response words and the status read, then the lock
    released. *)
Theorem request_protocol w0 w1 w2 w3 w4 w5 room count d l h (v : V) :
  ipi_up (sget v) -> pmu_answers -> pm_secure_lock ∉ h ->
  0 <= count <= Z.of_nat room ->
  exists r ws d' waits st,
    pm_ipi_send_sync primary_proc [w0; w1; w2; w3; w4; w5] room count (St d l h v) =
      (Ret (r, ws), St d'
         (EvUnlock pm_secure_lock :: EvRd W32 resp_buffer st :: resp_trace resp_buffer 1 ws ++
          waits ++ request_trace [w0; w1; w2; w3; w4; w5] ++ EvLock pm_secure_lock :: l) h v) /\
    r = ERROR_CODE_MASK .& st /\ Z.of_nat (length ws) = count /\ Forall obr_read waits.
Proof.
  intros Hv Ha Hl Hc.
  destruct (send_sync_run w0 w1 w2 w3 w4 w5 room count d l h v Hv Ha Hl Hc)
    as (r & ws & d' & waits & st & E & Hr & Hlen & Hw & _).
  by exists r, ws, d', waits, st.
Qed.

(** The callback reader copies one word more than its count.  It returns
    when the destination has room for min(count, 8) + 1 words, and otherwise
    writes past the destination. *)
Theorem callback_read_overruns room count d l h (v : V) :
  0 <= count ->
  if (Z.to_nat (Z.min count 8) <? room)%nat
  then exists ws s', pm_ipi_buff_read_callb room count (St d l h v) = (Ret ws, s') /\
         Z.of_nat (length ws) = Z.min count 8 + 1
  else exists s', pm_ipi_buff_read_callb room count (St d l h v) = (Halt OutOfBounds, s').
Proof.
  intros Hc. unfold pm_ipi_buff_read_callb, IPI_BUFFER_MAX_WORDS. cbv zeta.
  assert ((if count >? 8 then 8 else count) = Z.min count 8) as ->.
  { rewrite Z.gtb_ltb. destruct (8 <? count) eqn:E; zbool; lia. }
  destruct (_ <? room)%nat eqn:E.
  - apply Nat.ltb_lt in E. destruct (read_words_run
      (IPI_BUFFER_PMU_BASE + IPI_BUFFER_TARGET_LOCAL_OFFSET + IPI_BUFFER_REQ_OFFSET) 0
      (Z.to_nat (Z.min count 8 + 1)) room d l h v) as (ws & d' & Hr & Hl); [lia|].
    rewrite Hr. eexists ws, _. split; [reflexivity|]. lia.
  - apply Nat.ltb_ge in E. apply read_words_overflow. lia.
Qed.

End Proofs.

(** ** Witnesses: a board whose registers read 0 answers at once *)

Definition quiet_board : Env := {|
  Dev := unit;
  hw_read _ _ d := (0, d);
  hw_write _ _ _ d := d;
  hw_call _ _ d := (0, d);
  poll_bound := 1;
  uninit k := Z.of_nat k
|}.

Lemma quiet_board_answers : pmu_answers (H := quiet_board).
Proof. intros []. by exists tt. Qed.

Lemma request_protocol_witness :
  exists r ws d' waits st,
    pm_ipi_send_sync (H := quiet_board) primary_proc [3; 2; 0; 0; 0; 0] 3 3
        (St (H := quiet_board) tt [] [] ipi_booted) =
      (Ret (r, ws), St (H := quiet_board) d'
         (EvUnlock pm_secure_lock :: EvRd W32 resp_buffer st :: resp_trace resp_buffer 1 ws ++
          waits ++ request_trace [3; 2; 0; 0; 0; 0] ++ [EvLock pm_secure_lock]) [] ipi_booted) /\
    r = ERROR_CODE_MASK .& st /\ Z.of_nat (length ws) = 3 /\ Forall obr_read waits.
Proof.
  apply (request_protocol (H := quiet_board) (V := ipi) 3 2 0 0 0 0 3 3 tt [] [] ipi_booted).
  - reflexivity.
  - apply quiet_board_answers.
  - apply not_elem_of_nil.
  - lia.
Defined.

(** Four words for a count of four, as the SMC handler passes: overrun. *)
Lemma callback_read_overruns_witness :
  exists s', pm_ipi_buff_read_callb (H := quiet_board) 4 4
    (St (H := quiet_board) tt [] [] ipi_booted) = (Halt OutOfBounds, s').
Proof. apply (callback_read_overruns (H := quiet_board) (V := ipi) 4 4 tt [] [] ipi_booted). lia. Defined.

End PmIpi.
