(* ===== verification/PmReq.v ===== *)
(** * Requests of the power-management service to the PMU

    The functions of pm_service/pm_api_sys.c that pack a payload and send it
    over the IPI transport of [PmIpi].  A pointer parameter through which a
    function returns words is an in-out parameter of the model: the caller's
    object before the call, and beside the status its contents after it.  The
    scope of the next PSCI reset is the static [pm_shutdown_scope] of [pm]. *)

From S2P Require Import Prelude Machine Ipi PmDefs PmIpi.
From stdpp Require Import sets.
Import Ipi PmDefs PmIpi.
#[local] Open Scope Z_scope.
#[local] Open Scope c_scope.

Module PmReq.

(** The static variables of the power-management service: pm_shutdown_scope
    (pm_api_sys.c), suspend_mode (pm_client.c), the modes buffered in pm_plls
    (pm_api_clock.c), pm_up, ipi_irq_flag, active_cores and pm_ctx.api_version
    (pm_svc_main.c). *)
Record pm := PmStatics {
  pm_shutdown_scope : Z;
  suspend_mode : Z;
  pll_modes : list Z;
  pm_up : Z;
  ipi_irq_flag : Z;
  active_cores : Z;
  api_version : Z
}.

Definition set_shutdown_scope (x : Z) (v : pm) : pm :=
  PmStatics x (suspend_mode v) (pll_modes v) (pm_up v) (ipi_irq_flag v) (active_cores v)
    (api_version v).
Definition set_suspend_mode (x : Z) (v : pm) : pm :=
  PmStatics (pm_shutdown_scope v) x (pll_modes v) (pm_up v) (ipi_irq_flag v) (active_cores v)
    (api_version v).
Definition set_pll_modes (x : list Z) (v : pm) : pm :=
  PmStatics (pm_shutdown_scope v) (suspend_mode v) x (pm_up v) (ipi_irq_flag v) (active_cores v)
    (api_version v).
Definition set_pm_up (x : Z) (v : pm) : pm :=
  PmStatics (pm_shutdown_scope v) (suspend_mode v) (pll_modes v) x (ipi_irq_flag v)
    (active_cores v) (api_version v).
Definition set_ipi_irq_flag (x : Z) (v : pm) : pm :=
  PmStatics (pm_shutdown_scope v) (suspend_mode v) (pll_modes v) (pm_up v) x (active_cores v)
    (api_version v).
Definition set_active_cores (x : Z) (v : pm) : pm :=
  PmStatics (pm_shutdown_scope v) (suspend_mode v) (pll_modes v) (pm_up v) (ipi_irq_flag v) x
    (api_version v).
Definition set_api_version (x : Z) (v : pm) : pm :=
  PmStatics (pm_shutdown_scope v) (suspend_mode v) (pll_modes v) (pm_up v) (ipi_irq_flag v)
    (active_cores v) x.

(** Initial values of the static storage. *)
Definition pm_bss : pm := PmStatics PMF_SHUTDOWN_SUBTYPE_SYSTEM 0 [0; 0; 0; 0; 0] 0 0 0 0.

Section Ops.
Context `{Env} {V : Type} `{!Has ipi V} `{!Has pm V}.

(** [pm_ipi_send_sync(primary_proc, payload, value, count)], with the caller's
    object [value] updated by the words received. *)
Definition sync_out (payload value : list Z) (count : Z) : M V (Z * list Z) :=
  r <- pm_ipi_send_sync primary_proc payload (length value) count ;;
  ret (r.1, r.2 ++ drop (length r.2) value).

(** The same for a pointer to one word. *)
Definition sync_out1 (payload : list Z) (value : Z) : M V (Z * Z) :=
  r <- sync_out payload [value] 1 ;;
  ret (r.1, hd value r.2).

(** [pm_ipi_send_sync(primary_proc, payload, NULL, 0)] *)
Definition sync (payload : list Z) : M V Z :=
  r <- pm_ipi_send_sync primary_proc payload 0 0 ;;
  ret r.1.

(** The choice most requests make on their acknowledge argument. *)
Definition send_ack (ack : Z) (payload : list Z) : M V Z :=
  if ack =? REQ_ACK_BLOCKING then sync payload else pm_ipi_send primary_proc payload.

Definition pm_get_shutdown_scope : M V Z := gets pm_shutdown_scope.

Definition pm_req_suspend (target ack latency state : Z) : M V Z :=
  send_ack ack (PM_PACK_PAYLOAD [PM_REQ_SUSPEND; target; ack; latency; state]).

Definition pm_req_wakeup (target set_address address ack : Z) : M V Z :=
  let encoded_address := u64 address .| b2z (truthy set_address) in
  send_ack ack (PM_PACK_PAYLOAD [PM_REQ_WAKEUP; target; encoded_address;
                                 encoded_address .>> 32; ack]).

Definition pm_force_powerdown (target ack : Z) : M V Z :=
  send_ack ack (PM_PACK_PAYLOAD [PM_FORCE_POWERDOWN; target; ack]).

Definition pm_set_wakeup_source (target wkup_node enable : Z) : M V Z :=
  sync (PM_PACK_PAYLOAD [PM_SET_WAKEUP_SOURCE; target; wkup_node; enable]).

Definition pm_system_shutdown (type subtype : Z) : M V Z :=
  if type =? PMF_SHUTDOWN_TYPE_SETSCOPE_ONLY then
    mods (set_shutdown_scope subtype) ;;
    ret PM_RET_SUCCESS
  else
    pm_ipi_send_non_blocking primary_proc (PM_PACK_PAYLOAD [PM_SYSTEM_SHUTDOWN; type; subtype]).

Definition pm_req_node (nid capabilities qos ack : Z) : M V Z :=
  send_ack ack (PM_PACK_PAYLOAD [PM_REQ_NODE; nid; capabilities; qos; ack]).

Definition pm_set_requirement (nid capabilities qos ack : Z) : M V Z :=
  send_ack ack (PM_PACK_PAYLOAD [PM_SET_REQUIREMENT; nid; capabilities; qos; ack]).

Definition pm_release_node (nid : Z) : M V Z := sync (PM_PACK_PAYLOAD [PM_RELEASE_NODE; nid]).

Definition pm_set_max_latency (nid latency : Z) : M V Z :=
  sync (PM_PACK_PAYLOAD [PM_SET_MAX_LATENCY; nid; latency]).

Definition pm_get_api_version (version : Z) : M V (Z * Z) :=
  sync_out1 (PM_PACK_PAYLOAD [PM_GET_API_VERSION]) version.

Definition pm_set_configuration (phys_addr : Z) : M V Z :=
  sync (PM_PACK_PAYLOAD [PM_SET_CONFIGURATION; phys_addr]).

Definition pm_init_finalize : M V Z := sync (PM_PACK_PAYLOAD [PM_INIT_FINALIZE]).

Definition pm_get_node_status (nid : Z) (ret_buff : list Z) : M V (Z * list Z) :=
  sync_out (PM_PACK_PAYLOAD [PM_GET_NODE_STATUS; nid]) ret_buff 3.

Definition pm_register_notifier (nid event wake enable : Z) : M V Z :=
  sync (PM_PACK_PAYLOAD [PM_REGISTER_NOTIFIER; nid; event; wake; enable]).

Definition pm_get_op_characteristic (nid type result : Z) : M V (Z * Z) :=
  sync_out1 (PM_PACK_PAYLOAD [PM_GET_OP_CHARACTERISTIC; nid; type]) result.

Definition pm_reset_assert (reset assert : Z) : M V Z :=
  sync (PM_PACK_PAYLOAD [PM_RESET_ASSERT; reset; assert]).

Definition pm_reset_get_status (reset reset_status : Z) : M V (Z * Z) :=
  sync_out1 (PM_PACK_PAYLOAD [PM_RESET_GET_STATUS; reset]) reset_status.

Definition pm_mmio_write (address mask value : Z) : M V Z :=
  sync (PM_PACK_PAYLOAD [PM_MMIO_WRITE; address; mask; value]).

Definition pm_mmio_read (address value : Z) : M V (Z * Z) :=
  sync_out1 (PM_PACK_PAYLOAD [PM_MMIO_READ; address]) value.

Definition pm_fpga_load (address_low address_high size flags : Z) : M V Z :=
  sync (PM_PACK_PAYLOAD [PM_FPGA_LOAD; address_high; address_low; size; flags]).

Definition pm_fpga_get_status (value : Z) : M V (Z * Z) :=
  sync_out1 (PM_PACK_PAYLOAD [PM_FPGA_GET_STATUS]) value.

Definition pm_get_chipid (value : list Z) : M V (Z * list Z) :=
  sync_out (PM_PACK_PAYLOAD [PM_GET_CHIPID]) value 2.

Definition pm_secure_rsaaes (address_low address_high size flags : Z) : M V Z :=
  sync (PM_PACK_PAYLOAD [PM_SECURE_RSA_AES; address_high; address_low; size; flags]).

Definition pm_aes_engine (address_high address_low value : Z) : M V (Z * Z) :=
  sync_out1 (PM_PACK_PAYLOAD [PM_SECURE_AES; address_high; address_low]) value.

(** [data] is the caller's object, [count] the number it passes. *)
Definition pm_get_callbackdata (data : list Z) (count : Z) : M V (list Z) :=
  st <- pm_ipi_irq_status primary_proc ;;
  if negb (truthy st) then ret data
  else
    ws <- pm_ipi_buff_read_callb (length data) count ;;
    pm_ipi_irq_clear primary_proc ;;
    ret (ws ++ drop (length ws) data).

Definition pm_pinctrl_request (pin : Z) : M V Z :=
  sync (PM_PACK_PAYLOAD [PM_PINCTRL_REQUEST; pin]).

Definition pm_pinctrl_release (pin : Z) : M V Z :=
  sync (PM_PACK_PAYLOAD [PM_PINCTRL_RELEASE; pin]).

Definition pm_pinctrl_get_function (pin fid : Z) : M V (Z * Z) :=
  sync_out1 (PM_PACK_PAYLOAD [PM_PINCTRL_GET_FUNCTION; pin]) fid.

Definition pm_pinctrl_set_function (pin fid : Z) : M V Z :=
  sync (PM_PACK_PAYLOAD [PM_PINCTRL_SET_FUNCTION; pin; fid]).

Definition pm_pinctrl_get_config (pin param value : Z) : M V (Z * Z) :=
  sync_out1 (PM_PACK_PAYLOAD [PM_PINCTRL_CONFIG_PARAM_GET; pin; param]) value.

Definition pm_pinctrl_set_config (pin param value : Z) : M V Z :=
  sync (PM_PACK_PAYLOAD [PM_PINCTRL_CONFIG_PARAM_SET; pin; param; value]).

Definition pm_sha_hash (address_high address_low size flags : Z) : M V Z :=
  sync (PM_PACK_PAYLOAD [PM_SECURE_SHA; address_high; address_low; size; flags]).

Definition pm_rsa_core (address_high address_low size flags : Z) : M V Z :=
  sync (PM_PACK_PAYLOAD [PM_SECURE_RSA; address_high; address_low; size; flags]).

Definition pm_secure_image (address_low address_high key_lo key_hi : Z) (value : list Z)
    : M V (Z * list Z) :=
  sync_out (PM_PACK_PAYLOAD [PM_SECURE_IMAGE; address_high; address_low; key_hi; key_lo]) value 2.

Definition pm_fpga_read (reg_numframes address_low address_high readback_type value : Z)
    : M V (Z * Z) :=
  sync_out1 (PM_PACK_PAYLOAD [PM_FPGA_READ; reg_numframes; address_low; address_high;
                              readback_type]) value.

Definition is_pll_node (nid : Z) : bool := negb ((nid <? NODE_APLL) || (NODE_IOPLL <? nid)).

Definition pm_pll_set_parameter (nid param_id value : Z) : M V Z :=
  if negb (is_pll_node nid) then ret PM_RET_ERROR_ARGS
  else if PM_PLL_PARAM_MAX <=? param_id then ret PM_RET_ERROR_ARGS
  else sync (PM_PACK_PAYLOAD [PM_PLL_SET_PARAMETER; nid; param_id; value]).

Definition pm_pll_get_parameter (nid param_id value : Z) : M V (Z * Z) :=
  if negb (is_pll_node nid) then ret (PM_RET_ERROR_ARGS, value)
  else if PM_PLL_PARAM_MAX <=? param_id then ret (PM_RET_ERROR_ARGS, value)
  else sync_out1 (PM_PACK_PAYLOAD [PM_PLL_GET_PARAMETER; nid; param_id]) value.

Definition pm_pll_set_mode (nid mode : Z) : M V Z :=
  if negb (is_pll_node nid) then ret PM_RET_ERROR_ARGS
  else if PM_PLL_MODE_MAX <=? mode then ret PM_RET_ERROR_ARGS
  else sync (PM_PACK_PAYLOAD [PM_PLL_SET_MODE; nid; mode]).

Definition pm_pll_get_mode (nid mode : Z) : M V (Z * Z) :=
  if negb (is_pll_node nid) then ret (PM_RET_ERROR_ARGS, mode)
  else sync_out1 (PM_PACK_PAYLOAD [PM_PLL_GET_MODE; nid]) mode.

(** The guard of [pm_register_access]. *)
Definition reg_access_denied (address : Z) : bool :=
  negb ((ZYNQMP_CSU_BASEADDR .& address) =? ZYNQMP_CSU_BASEADDR) &&
  negb ((CSUDMA_BASE .& address) =? CSUDMA_BASE) &&
  negb ((RSA_CORE_BASE .& address) =? RSA_CORE_BASE) &&
  negb ((PMU_GLOBAL_BASE .& address) =? PMU_GLOBAL_BASE).

Definition pm_register_access (register_access_id address mask value out : Z) : M V (Z * Z) :=
  if reg_access_denied address then ret (PM_RET_ERROR_ACCESS, out)
  else if register_access_id =? CONFIG_REG_WRITE then
    r <- pm_mmio_write address mask value ;; ret (r, out)
  else if register_access_id =? CONFIG_REG_READ then pm_mmio_read address out
  else ret (PM_RET_ERROR_ARGS, out).

Definition pm_efuse_access (address_high address_low value : Z) : M V (Z * Z) :=
  sync_out1 (PM_PACK_PAYLOAD [PM_EFUSE_ACCESS; address_high; address_low]) value.

Definition em_set_action (value : Z) : M V (Z * Z) :=
  sync_out1 (EM_PACK_PAYLOAD1 EM_SET_ACTION) value.
Definition em_remove_action (value : Z) : M V (Z * Z) :=
  sync_out1 (EM_PACK_PAYLOAD1 EM_REMOVE_ACTION) value.
Definition em_send_errors (value : Z) : M V (Z * Z) :=
  sync_out1 (EM_PACK_PAYLOAD1 EM_SEND_ERRORS) value.

Definition pm_feature_config (ioctl_id config_id value response : Z) : M V (Z * Z) :=
  let payload := PM_PACK_PAYLOAD [PM_IOCTL; 0; ioctl_id; config_id; value] in
  if ioctl_id =? IOCTL_GET_FEATURE_CONFIG then sync_out1 payload response
  else if ioctl_id =? IOCTL_SET_FEATURE_CONFIG then r <- sync payload ;; ret (r, response)
  else ret (PM_RET_ERROR_ARGS, response).

End Ops.

(** ** What a request leaves behind *)

(** Events of the transport: its lock, the request and response buffers, the
    doorbell and the observation register. *)
Definition ipc_event (e : event) : Prop :=
  match e with
  | EvLock l | EvUnlock l => l = pm_secure_lock
  | EvWr W32 a _ => (req_buffer <= a < req_buffer + 24) \/ a = apu_base + IPI_TRIG_OFFSET
  | EvRd W32 a _ => (resp_buffer <= a < resp_buffer + 32) \/ a = apu_base + IPI_OBR_OFFSET
  | _ => False
  end.

(** Values written to word [k] of the request buffer, oldest first. *)
Definition sent (k : Z) (new : list event) : list Z :=
  omap (fun e => match e with
                 | EvWr W32 a v => if a =? req_buffer + 4 * k then Some v else None
                 | _ => None
                 end) (rev new).

Lemma sent_app k n1 n2 : sent k (n2 ++ n1) = sent k n1 ++ sent k n2.
Proof. unfold sent. by rewrite rev_app_distr, omap_app. Qed.

Lemma sent_none k new :
  Forall (fun e => match e with EvWr W32 a _ => a <> req_buffer + 4 * k | _ => True end) new ->
  sent k new = [].
Proof.
  induction 1 as [|e new He _ IH]; [done|].
  change (e :: new) with ([e] ++ new). rewrite sent_app, IH. simpl. unfold sent. simpl.
  destruct e as [| [] a v | | | | | |]; simpl; try done. by rewrite (proj2 (Z.eqb_neq _ _)).
Qed.

(** Properties of traces that hold of the empty one and of concatenations. *)
Class TraceProp (T : list event -> Prop) := {
  trace_nil : T [];
  trace_app : forall n1 n2, T n1 -> T n2 -> T (n2 ++ n1)
}.

#[export] Instance TraceProp_Forall P : TraceProp (Forall P).
Proof. split; [constructor|]. intros n1 n2 ? ?. by apply Forall_app. Qed.

(** All events satisfy [P] and all requests, by their first three words, [Q]. *)
Definition obeys (P : event -> Prop) (Q : Z -> Z -> Z -> Prop) (new : list event) : Prop :=
  Forall P new /\ Forall3 Q (sent 0 new) (sent 1 new) (sent 2 new).

#[export] Instance TraceProp_obeys P Q : TraceProp (obeys P Q).
Proof.
  split; [split; constructor|]. intros n1 n2 [F1 G1] [F2 G2]. split; [by apply Forall_app|].
  rewrite !sent_app. by apply Forall3_app.
Qed.

Section Served.
Context `{Env} {V : Type}.

(** From statics [v] and with the transport's lock free, the computation
    returns, keeps statics and locks, and what it adds to the log satisfies
    [T]. *)
Definition served {A} (T : list event -> Prop) (v : V) (m : M V A) : Prop :=
  forall d l h, pm_secure_lock ∉ h -> exists a d' new,
    m (St d l h v) = (Ret a, St d' (new ++ l) h v) /\ T new.

Context (T : list event -> Prop) `{!TraceProp T}.

Lemma served_ret {A} v (a : A) : served T v (ret a).
Proof. intros d l h _. exists a, d, []. split; [done|apply trace_nil]. Qed.

Lemma served_bind {A B} v (m : M V A) (k : A -> M V B) :
  served T v m -> (forall a, served T v (k a)) -> served T v (bind m k).
Proof.
  intros Hm Hk d l h Hh. destruct (Hm d l h Hh) as (a & d1 & n1 & E1 & F1).
  destruct (Hk a d1 (n1 ++ l) h Hh) as (b & d2 & n2 & E2 & F2).
  exists b, d2, (n2 ++ n1). rewrite (bind_run _ _ _ _ _ E1), E2, (assoc_L (++)).
  split; [done|]. by apply trace_app.
Qed.

Lemma served_if {A} v (b : bool) (m1 m2 : M V A) :
  served T v m1 -> served T v m2 -> served T v (if b then m1 else m2).
Proof. by destruct b. Qed.

(** A prefix that returns [a] without effect. *)
Lemma served_pure {A B} v (m : M V A) (k : A -> M V B) a :
  (forall d l h, m (St d l h v) = (Ret a, St d l h v)) -> served T v (k a) -> served T v (bind m k).
Proof. intros Hm Hk d l h Hh. rewrite (bind_run _ _ _ _ _ (Hm d l h)). by apply Hk. Qed.

Lemma served_read v w a : (forall z, T [EvRd w a z]) -> served T v (mmio_read w a).
Proof. intros HP d l h _. eexists _, _, [_]. split; [reflexivity|]. apply HP. Qed.

Lemma served_write v w a z : T [EvWr w a (wtrunc w z)] -> served T v (mmio_write w a z).
Proof. intros HP d l h _. eexists _, _, [_]. split; [reflexivity|]. apply HP. Qed.

Lemma served_emit v e : T [e] -> served T v (emit e).
Proof. intros HP d l h _. eexists _, _, [_]. split; [reflexivity|]. apply HP. Qed.

End Served.

Section Requests.
Context `{Env} {V : Type} `{!Has ipi V}.

Lemma payload_length args : (length args <= 6)%nat -> length (PM_PACK_PAYLOAD args) = 6%nat.
Proof.
  intros Hl. unfold PM_PACK_PAYLOAD. rewrite length_app, !length_map, length_seq. lia.
Qed.

Lemma request_trace_ipc w0 w1 w2 w3 w4 w5 :
  Forall ipc_event (request_trace [w0; w1; w2; w3; w4; w5]).
Proof.
  unfold request_trace, req_buffer. simpl.
  repeat (constructor; [unfold ipc_event, req_buffer; lia|]). constructor.
Qed.

Lemma resp_trace_ipc i ws : 0 <= i -> i + Z.of_nat (length ws) <= 8 ->
  Forall ipc_event (resp_trace resp_buffer i ws).
Proof.
  revert i. induction ws as [|w ws IH]; intros i Hi Hl; simpl in *; [constructor|].
  apply Forall_app. split; [apply IH; lia|]. constructor; [|constructor]. simpl. lia.
Qed.

Lemma obr_ipc new : Forall obr_read new -> Forall ipc_event new.
Proof.
  intros Hf. eapply Forall_impl; [exact Hf|].
  intros e. destruct e as [[]| | | | | | |]; simpl; try done. intros ->. by right.
Qed.

(** The whole effect of a synchronous request for [count] words. *)
Lemma send_sync_served (p : list Z) room count d l h (v : V) :
  ipi_up (sget v) -> pmu_answers -> length p = 6%nat -> pm_secure_lock ∉ h ->
  0 <= count <= Z.of_nat room -> count <= 7 ->
  exists r ws d' new,
    pm_ipi_send_sync primary_proc p room count (St d l h v) =
      (Ret (r, ws), St d' (new ++ l) h v) /\
    Z.of_nat (length ws) = count /\ Forall ipc_event new /\
    (forall k, sent k new = sent k (request_trace p)) /\
    (exists dr, r = ERROR_CODE_MASK .& u32 (hw_read W32 resp_buffer dr).1).
Proof.
  intros Hv Ha Hp Hh Hc H7.
  destruct p as [|w0 [|w1 [|w2 [|w3 [|w4 [|w5 [|]]]]]]]; try discriminate. clear Hp.
  destruct (send_sync_run w0 w1 w2 w3 w4 w5 room count d l h v Hv Ha Hh Hc)
    as (r & ws & d' & waits & st & E & -> & Hl & Hw & dr & ->).
  eexists _, ws, d', (EvUnlock pm_secure_lock :: EvRd W32 resp_buffer _ ::
    resp_trace resp_buffer 1 ws ++ waits ++ request_trace [w0; w1; w2; w3; w4; w5] ++
    [EvLock pm_secure_lock]).
  split.
  { rewrite E. do 3 f_equal. simpl. do 2 f_equal. by rewrite <- !(assoc_L (++)). }
  split; [done|]. split.
  - constructor; [done|]. constructor; [simpl; lia|].
    repeat (apply Forall_app; split); [apply resp_trace_ipc; lia|by apply obr_ipc|
      apply request_trace_ipc|by constructor].
  - split; [|by exists dr]. intros k.
    match goal with |- sent k (?a :: ?b :: ?t) = _ => change (a :: b :: t) with ([a; b] ++ t) end.
    rewrite !sent_app, (sent_none k (resp_trace _ _ _)), (sent_none k waits).
    + simpl. rewrite !app_nil_r. done.
    + eapply Forall_impl; [exact Hw|]. intros e. by destruct e as [[]| | | | | | |].
    + clear. generalize 1. induction ws as [|w ws IH]; intros i; simpl; [constructor|].
      apply Forall_app. split; [apply IH|]. by constructor.
Qed.

End Requests.

(** The calls below return when the transport is up and the PMU answers. *)
Section Calls.
Context `{Env} {V : Type} `{!Has ipi V} `{!Has pm V} (v : V).
Context (Hup : ipi_up (sget v)) (Hans : pmu_answers).

(** A trace property that accepts the trace of a request with payload [p]. *)
Definition accepts_request (T : list event -> Prop) (p : list Z) : Prop :=
  forall new, Forall ipc_event new -> (forall k, sent k new = sent k (request_trace p)) -> T new.

Lemma accepts_ipc p : accepts_request (Forall ipc_event) p.
Proof. by intros new Hf _. Qed.

(** Payloads built by the macros: the first three words are the arguments. *)
Lemma accepts_obeys P Q w0 w1 w2 args :
  (forall e, ipc_event e -> P e) -> (length args <= 3)%nat -> Q (u32 w0) (u32 w1) (u32 w2) ->
  accepts_request (obeys P Q) (PM_PACK_PAYLOAD (w0 :: w1 :: w2 :: args)).
Proof.
  intros HP Hl HQ new Hf Hs. split; [by eapply Forall_impl|]. rewrite !Hs.
  destruct args as [|a [|b [|c [|]]]]; simpl in Hl; [..|lia];
    unfold PM_PACK_PAYLOAD, request_trace, sent; simpl; rewrite !u32_u32; repeat constructor; done.
Qed.

Lemma accepts_obeys2 P Q w0 w1 :
  (forall e, ipc_event e -> P e) -> (forall w2, Q (u32 w0) (u32 w1) w2) ->
  accepts_request (obeys P Q) (PM_PACK_PAYLOAD [w0; w1]).
Proof.
  intros HP HQ new Hf Hs. split; [by eapply Forall_impl|]. rewrite !Hs.
  unfold PM_PACK_PAYLOAD, request_trace, sent; simpl; rewrite !u32_u32; repeat constructor; done.
Qed.

Lemma served_send_sync T p room count :
  accepts_request T p -> length p = 6%nat -> 0 <= count <= Z.of_nat room -> count <= 7 ->
  served T v (pm_ipi_send_sync primary_proc p room count).
Proof.
  intros HP Hp Hc H7 d l h Hh.
  destruct (send_sync_served p room count d l h v Hup Hans Hp Hh Hc H7)
    as (r & ws & d' & new & E & _ & F & Hs & _).
  exists (r, ws), d', new. split; [done|]. by apply HP.
Qed.

(** A request without a response. *)
Lemma served_send T p (is_blocking : bool) :
  accepts_request T p -> length p = 6%nat ->
  served T v (if is_blocking then pm_ipi_send primary_proc p
              else pm_ipi_send_non_blocking primary_proc p).
Proof.
  intros HP Hp d l h Hh.
  destruct p as [|w0 [|w1 [|w2 [|w3 [|w4 [|w5 [|]]]]]]]; try discriminate. clear Hp.
  destruct (send_run is_blocking w0 w1 w2 w3 w4 w5 d l h v Hup (fun _ => Hans) Hh)
    as (d' & waits & E & Hw).
  exists PM_RET_SUCCESS, d', (EvUnlock pm_secure_lock :: waits ++
    request_trace [w0; w1; w2; w3; w4; w5] ++ [EvLock pm_secure_lock]).
  split.
  { rewrite E. do 3 f_equal. simpl. f_equal. by rewrite <- !(assoc_L (++)). }
  apply HP.
  - constructor; [done|].
    repeat (apply Forall_app; split); [by apply obr_ipc|apply request_trace_ipc|by constructor].
  - intros k. match goal with |- sent k (?a :: ?t) = _ => change (a :: t) with ([a] ++ t) end.
    rewrite !sent_app, (sent_none k waits).
    + simpl. rewrite !app_nil_r. done.
    + eapply Forall_impl; [exact Hw|]. intros e. by destruct e as [[]| | | | | | |].
Qed.

Lemma served_sync T `{!TraceProp T} args :
  accepts_request T (PM_PACK_PAYLOAD args) -> (length args <= 6)%nat ->
  served T v (sync (PM_PACK_PAYLOAD args)).
Proof.
  intros HP Hl. apply served_bind; [done| |intros; by apply served_ret].
  apply served_send_sync; [done|by apply payload_length|lia|lia].
Qed.

Lemma served_sync_out T `{!TraceProp T} args value count :
  accepts_request T (PM_PACK_PAYLOAD args) ->
  (length args <= 6)%nat -> 0 <= count <= Z.of_nat (length value) -> count <= 7 ->
  served T v (sync_out (PM_PACK_PAYLOAD args) value count).
Proof.
  intros HP Hl Hc H7. apply served_bind; [done| |intros; by apply served_ret].
  apply served_send_sync; [done|by apply payload_length|lia|lia].
Qed.

Lemma served_sync_out1 T `{!TraceProp T} args value :
  accepts_request T (PM_PACK_PAYLOAD args) -> (length args <= 6)%nat ->
  served T v (sync_out1 (PM_PACK_PAYLOAD args) value).
Proof.
  intros HP Hl. apply served_bind; [done| |intros; by apply served_ret].
  apply served_sync_out; simpl; [done|done|done|lia|lia].
Qed.

Lemma served_send_ack T `{!TraceProp T} ack args :
  accepts_request T (PM_PACK_PAYLOAD args) -> (length args <= 6)%nat ->
  served T v (send_ack ack (PM_PACK_PAYLOAD args)).
Proof.
  intros HP Hl. unfold send_ack. apply served_if; [by apply served_sync|].
  apply (served_send T _ true); [done|by apply payload_length].
Qed.

(** Documented behaviour of a PMU that accepts a request: status 0. *)
Definition pmu_accepts : Prop :=
  forall d, ERROR_CODE_MASK .& u32 (hw_read W32 resp_buffer d).1 = PM_RET_SUCCESS.

Lemma sync_accepted args d l h : pmu_accepts -> (length args <= 6)%nat -> pm_secure_lock ∉ h ->
  exists d' new, sync (PM_PACK_PAYLOAD args) (St d l h v) =
    (Ret PM_RET_SUCCESS, St d' (new ++ l) h v) /\ Forall ipc_event new /\
    (forall k, sent k new = sent k (request_trace (PM_PACK_PAYLOAD args))).
Proof.
  intros Hacc Hl Hh. destruct (send_sync_served (PM_PACK_PAYLOAD args) 0 0 d l h v Hup Hans)
    as (r & ws & d' & new & E & _ & F & Hs & dr & ->); [by apply payload_length|done|lia|lia|].
  exists d', new. unfold sync. rewrite (bind_run _ _ _ _ _ E), Hacc. done.
Qed.

(** The words of a request reach the PMU as they are. *)
Lemma sync_words args d l h : (length args <= 6)%nat -> pm_secure_lock ∉ h ->
  exists r d' new, sync (PM_PACK_PAYLOAD args) (St d l h v) = (Ret r, St d' (new ++ l) h v) /\
    forall k, sent k new = sent k (request_trace (PM_PACK_PAYLOAD args)).
Proof.
  intros Hl Hh. destruct (send_sync_served (PM_PACK_PAYLOAD args) 0 0 d l h v Hup Hans)
    as (r & ws & d' & new & E & _ & _ & Hs & _); [by apply payload_length|done|lia|lia|].
  exists r, d', new. unfold sync. by rewrite (bind_run _ _ _ _ _ E).
Qed.

Lemma sync_out1_words args value d l h : (length args <= 6)%nat -> pm_secure_lock ∉ h ->
  exists r d' new,
    sync_out1 (PM_PACK_PAYLOAD args) value (St d l h v) = (Ret r, St d' (new ++ l) h v) /\
    forall k, sent k new = sent k (request_trace (PM_PACK_PAYLOAD args)).
Proof.
  intros Hl Hh. destruct (send_sync_served (PM_PACK_PAYLOAD args) 1 1 d l h v Hup Hans)
    as (r & ws & d' & new & E & _ & _ & Hs & _); [by apply payload_length|done|simpl; lia|lia|].
  eexists _, d', new. unfold sync_out1, sync_out. cbn [length].
  by rewrite run_bind_assoc, (bind_run _ _ _ _ _ E).
Qed.

End Calls.

(** ** Register access from the normal world *)

(** All bits of a base that has none below bit 17 are set in an address of the
    top 128 KiB. *)
Lemma top_admitted b a : 0 <= b < 2 ^ 15 -> 0xFFFE0000 <= a < 2 ^ 32 ->
  Z.land (Z.shiftl b 17) a = Z.shiftl b 17.
Proof.
  intros Hb Ha. apply Z.bits_inj'. intros n Hn. rewrite Z.land_spec, Z.shiftl_spec by done.
  destruct (decide (n < 17)) as [Hlt|Hge]; [by rewrite Z.testbit_neg_r by lia|].
  destruct (Z.testbit b (n - 17)) eqn:E; [|done]. simpl.
  assert (Hn' : n - 17 < 15).
  { destruct (decide (n - 17 < 15)); [done|]. rewrite Z.bits_above_log2 in E; [done|lia|].
    destruct (decide (b = 0)) as [->|]; [simpl; lia|]. pose proof (proj1 (Z.log2_lt_pow2 b 15 ltac:(lia))). lia. }
  replace n with (17 + (n - 17)) by lia. replace (17 + (n - 17)) with ((n - 17) + 17) by lia.
  rewrite <- Z.shiftr_spec, Z.shiftr_div_pow2 by lia.
  replace (a / 2 ^ 17) with (Z.ones 15); [by apply Z.ones_spec_low; lia|].
  change (Z.ones 15) with 32767. apply Z.div_unique with (a - 32767 * 2 ^ 17); lia.
Qed.

Lemma top_not_denied a : 0xFFFE0000 <= a < 2 ^ 32 -> reg_access_denied a = false.
Proof.
  intros Ha. unfold reg_access_denied. change ZYNQMP_CSU_BASEADDR with (Z.shiftl 0x7FE5 17).
  rewrite top_admitted by lia. by rewrite Z.eqb_refl.
Qed.

Section Access.
Context `{Env} {V : Type} `{!Has ipi V} `{!Has pm V} (v : V).
Context (Hup : ipi_up (sget v)) (Hans : pmu_answers).

(** The register-access call.  An address in which no base address of the
    four register blocks is contained bit by bit is refused without any access;
    otherwise a write or a read is passed on to the PMU word by word, and other
    ids are refused.  The filter is not a range check: every address of the top
    128 KiB, which is outside the four blocks, is passed on. *)
Theorem register_access_filter id address mask value out d l h :
  is_u32 address -> pm_secure_lock ∉ h ->
  (if reg_access_denied address then
     pm_register_access id address mask value out (St d l h v) =
       (Ret (PM_RET_ERROR_ACCESS, out), St d l h v)
   else if id =? CONFIG_REG_WRITE then
     exists r d' new, pm_register_access id address mask value out (St d l h v) =
       (Ret (r, out), St d' (new ++ l) h v) /\
       sent 0 new = [PM_MMIO_WRITE] /\ sent 1 new = [address] /\ sent 2 new = [u32 mask] /\
       sent 3 new = [u32 value]
   else if id =? CONFIG_REG_READ then
     exists r d' new, pm_register_access id address mask value out (St d l h v) =
       (Ret r, St d' (new ++ l) h v) /\ sent 0 new = [PM_MMIO_READ] /\ sent 1 new = [address]
   else pm_register_access id address mask value out (St d l h v) =
       (Ret (PM_RET_ERROR_ARGS, out), St d l h v)) /\
  (0xFFFE0000 <= address -> reg_access_denied address = false).
Proof.
  intros Ha Hh. split; [|intros Ht; apply top_not_denied; unfold is_u32 in Ha; lia].
  unfold pm_register_access. destruct (reg_access_denied address); [done|].
  assert (Hu : u32 (u32 address) = address) by (rewrite u32_u32; by apply u32_small).
  destruct (id =? CONFIG_REG_WRITE).
  - destruct (sync_words v Hup Hans [PM_MMIO_WRITE; address; mask; value] d l h)
      as (r & d' & new & E & Hs); [simpl; lia|done|].
    unfold pm_mmio_write. rewrite (bind_run _ _ _ _ _ E). exists r, d', new.
    rewrite !Hs. split; [done|]. unfold PM_PACK_PAYLOAD, request_trace, sent. simpl.
    by rewrite Hu, !u32_u32.
  - destruct (id =? CONFIG_REG_READ); [|done].
    destruct (sync_out1_words v Hup Hans [PM_MMIO_READ; address] out d l h)
      as (r & d' & new & E & Hs); [simpl; lia|done|].
    exists r, d', new. rewrite !Hs. split; [exact E|].
    unfold PM_PACK_PAYLOAD, request_trace, sent. simpl. by rewrite Hu.
Qed.

End Access.

(** A write to the last word of the on-chip memory. *)
Lemma register_access_filter_witness :
  exists r d' new, pm_register_access (H := quiet_board) CONFIG_REG_WRITE 0xFFFFFFFC 0xFFFFFFFF 7 0
      (St (H := quiet_board) tt [] [] (ipi_booted, pm_bss)) =
    (Ret (r, 0), St (H := quiet_board) d' (new ++ []) [] (ipi_booted, pm_bss)) /\
    sent 0 new = [PM_MMIO_WRITE] /\ sent 1 new = [0xFFFFFFFC] /\ sent 2 new = [0xFFFFFFFF] /\
    sent 3 new = [7].
Proof.
  assert (Hup : ipi_up (sget (V := ipi * pm) (ipi_booted, pm_bss))) by reflexivity.
  destruct (register_access_filter (H := quiet_board) (V := ipi * pm) (ipi_booted, pm_bss) Hup
    quiet_board_answers CONFIG_REG_WRITE 0xFFFFFFFC 0xFFFFFFFF 7 0 tt [] []) as [E _].
  - easy.
  - apply not_elem_of_nil.
  - exact E.
Defined.

End PmReq.
