(* ===== verification/Paged.v ===== *)
(** * Paged queries over terminated tables

    Clock parents, function groups and pin groups are arrays that end with a
    marker; a query copies a fixed number of entries from an index on, and stops
    at the marker.  The same two C loops serve all three (pm_api_clock.c,
    pm_api_pinctrl.c); they are modelled and proved here once. *)

From S2P Require Import Prelude Machine.
#[local] Open Scope Z_scope.
#[local] Open Scope c_scope.

Module Paged.

Section Loops.
Context `{Env} {V : Type} (fin : Z) (conv : Z -> Z).

(** [for (i = 0; i < index; i++) if (tbl[i] == fin) return], [true] when it
    returns; an array of n elements is left after n turns. *)
Fixpoint skip_to (tbl : list Z) (index : Z) (fuel : nat) (i : Z) : M V bool :=
  if i <? index then
    match fuel with
    | O => stop OutOfBounds
    | S fuel' =>
        p <- aread tbl i ;;
        if p =? fin then ret true else skip_to tbl index fuel' (i + 1)
    end
  else ret false.

(** [for (i = 0; i < n; i++) { out[i] = tbl[index + i]; if (it is fin) break; }],
    with [n] turns left. *)
Fixpoint copy_page (tbl : list Z) (index : Z) (n : nat) (i : Z) (out : list Z) : M V (list Z) :=
  match n with
  | O => ret out
  | S n' =>
      p <- aread tbl (u32 (index + i)) ;;
      out <- awrite out i (conv p) ;;
      if p =? fin then ret out else copy_page tbl index n' (i + 1) out
  end.

(** [memcpy] or [memset] at the start of an object of the caller. *)
Definition overwrite {A} (dst src : list A) : option (list A) :=
  if (length src <=? length dst)%nat then Some (src ++ drop (length src) dst) else None.

Definition copy_into {A} (dst src : list A) : M V (list A) :=
  match overwrite dst src with Some r => ret r | None => stop OutOfBounds end.

(** [n] entries of a list from [k] on, filled with [z] past its end. *)
Definition page (z : Z) (n k : nat) (l : list Z) : list Z := take n (drop k l ++ repeat z n).

(** The marker is the last entry and only that. *)
Fixpoint terminated (ps : list Z) : bool :=
  match ps with
  | [] => false
  | [p] => p =? fin
  | p :: ps' => negb (p =? fin) && terminated ps'
  end.

Lemma page_step z n k l x : l !! k = Some x -> page z (S n) k l = x :: page z n (S k) l.
Proof.
  intros Hx. unfold page. rewrite (drop_S _ _ _ Hx). simpl. f_equal.
  change (z :: repeat z n) with (repeat z (S n)). replace (S n) with (n + 1)%nat by lia.
  rewrite repeat_app, (assoc_L (++)), take_app_le; [done|].
  rewrite length_app, repeat_length. lia.
Qed.

Lemma page_end z n k l : (length l <= k)%nat -> page z n k l = repeat z n.
Proof.
  intros Hk. unfold page. rewrite drop_ge by done. simpl.
  apply take_ge. by rewrite repeat_length.
Qed.

Lemma page_length z n k l : length (page z n k l) = n.
Proof. unfold page. rewrite length_take, length_app, repeat_length. lia. Qed.

Lemma terminated_lookup ps : terminated ps = true ->
  (0 < length ps)%nat /\ forall j p, ps !! j = Some p -> p = fin <-> S j = length ps.
Proof.
  induction ps as [|p ps IH]; [done|]. intros Ht. split; [simpl; lia|].
  destruct ps as [|q ps].
  - simpl in Ht. zbool. intros [|j] p'; simpl; [|done]. intros ?. simplify_eq. done.
  - change (negb (p =? fin) && terminated (q :: ps) = true) in Ht.
    zbool. destruct IH as [_ IH]; [done|]. intros [|j] p'; simpl.
    + intros ?. simplify_eq. split; [done|lia].
    + intros Hj. rewrite (IH j p' Hj). simpl. lia.
Qed.

Lemma insert_after {A} (done : list A) x y l :
  <[length done := x]> (done ++ y :: l) = (done ++ [x]) ++ l.
Proof. rewrite insert_app_r_alt, Nat.sub_diag by lia. simpl. by rewrite <- (assoc_L (++)). Qed.

Lemma copy_into_run {A} (dst src : list A) (s : st V) : (length src <= length dst)%nat ->
  copy_into dst src s = (Ret (src ++ drop (length src) dst), s).
Proof. intros Hl. unfold copy_into, overwrite. by rewrite (proj2 (Nat.leb_le _ _) Hl). Qed.

Lemma skip_to_run ps index fuel i (s : st V) :
  terminated ps = true -> (i + fuel = length ps)%nat -> (i < length ps)%nat ->
  Z.of_nat i <= index ->
  skip_to ps index fuel (Z.of_nat i) s = (Ret (Z.of_nat (length ps) <=? index), s).
Proof.
  intros Ht. destruct (terminated_lookup ps Ht) as [_ Hna].
  revert i. induction fuel as [|fuel IH]; intros i Hf Hi Hle; [lia|]. simpl.
  destruct (Z.of_nat i <? index) eqn:E; zbool.
  - destruct (lookup_lt_is_Some_2 ps i) as [p Hp]; [lia|].
    rewrite (run_bind_aread_nat ps _ p) by done.
    destruct (p =? fin) eqn:E'; zbool.
    + apply (Hna _ _ Hp) in E'. run. do 2 f_equal. symmetry. apply Z.leb_le. lia.
    + assert (S i <> length ps) by (intros He; apply E'; by apply (Hna _ _ Hp)).
      replace (Z.of_nat i + 1) with (Z.of_nat (S i)) by lia. apply IH; lia.
  - run. do 2 f_equal. symmetry. apply Z.leb_gt. lia.
Qed.

Lemma copy_page_run z ps n k done (s : st V) :
  terminated ps = true -> (length ps <= 200)%nat -> (k + length done < length ps)%nat ->
  copy_page ps (Z.of_nat k) n (Z.of_nat (length done)) (done ++ repeat z n) s =
  (Ret (done ++ page z n (k + length done) (map conv ps)), s).
Proof.
  intros Ht Hlt. destruct (terminated_lookup ps Ht) as [_ Hna].
  revert done. induction n as [|n IH]; intros done Hk.
  { by unfold page. }
  cbn [copy_page]. rewrite u32_small, <- Nat2Z.inj_add by lia.
  destruct (lookup_lt_is_Some_2 ps (k + length done)) as [p Hp]; [lia|].
  rewrite (run_bind_aread_nat ps _ p) by done.
  rewrite run_bind_awrite_nat by (rewrite length_app; simpl; lia).
  change (repeat z (S n)) with (z :: repeat z n). rewrite insert_after.
  rewrite (page_step z n (k + length done) _ (conv p)) by (by rewrite list_lookup_fmap, Hp).
  destruct (p =? fin) eqn:E; zbool.
  - apply (Hna _ _ Hp) in E. rewrite page_end by (rewrite length_map; lia).
    by rewrite <- (assoc_L (++)).
  - assert (S (k + length done) <> length ps) by (intros He; apply E; by apply (Hna _ _ Hp)).
    replace (Z.of_nat (length done) + 1) with (Z.of_nat (length (done ++ [conv p])))
      by (rewrite length_app; simpl; lia).
    rewrite IH by (rewrite length_app; simpl; lia).
    rewrite length_app. simpl. rewrite <- (assoc_L (++)). simpl.
    by replace (k + (length done + 1))%nat with (S (k + length done)) by lia.
Qed.

(** The two loops together, before a continuation: the slice at any index. *)
Lemma paged_run {B} z ps n index (k : list Z -> M V B) (s : st V) :
  terminated ps = true -> (length ps <= 200)%nat -> 0 <= index ->
  (b <- skip_to ps index (length ps) 0 ;;
   if (b : bool) then k (repeat z n)
   else out <- copy_page ps index n 0 (repeat z n) ;; k out) s =
  k (page z n (Z.to_nat index) (map conv ps)) s.
Proof.
  intros Ht Hl Hi. destruct (terminated_lookup ps Ht) as [Hpos _].
  rewrite (bind_run _ _ _ _ _ (skip_to_run ps index (length ps) 0 s Ht (Nat.add_0_l _) Hpos Hi)).
  destruct (_ <=? index) eqn:E; zbool.
  - rewrite page_end; [done|]. rewrite length_map. lia.
  - pose proof (copy_page_run z ps n (Z.to_nat index) [] s Ht Hl) as Hr.
    rewrite Z2Nat.id, Nat.add_0_r in Hr by lia.
    erewrite bind_run; [reflexivity|]. apply Hr. simpl. lia.
Qed.

End Loops.
End Paged.
