(* ===== verification/ClockData.v ===== *)
(** * The clock tree of pm_api_clock.c: identifiers and tables

    A literal rendering of the constants of pm_service/pm_api_clock.h, of the
    register addresses of include/zynqmp_def.h and of the static tables of
    pm_service/pm_api_clock.c (clock nodes, output clocks, external clocks, the
    list of clocks that are invalid for this variant).  A null pointer in a
    table is [None]; an array is a list; a designated initialiser [[i] = x] is
    the pair [(i, x)], and [designated] builds the array as C does: elements
    that no designator names are zero. *)

From S2P Require Import Prelude.
From Stdlib Require Import String.
#[local] Open Scope Z_scope.
#[local] Open Scope c_scope.

Module ClockData.

Definition ARRAY_SIZE {A} (l : list A) : Z := Z.of_nat (Datatypes.length l).

Definition CLK_NAME_LEN : Z := 15.
Definition MAX_PARENTS : Z := 100.
Definition CLK_NA_PARENT : Z := (-1).
Definition CLK_DUMMY_PARENT : Z := (-2).
Definition PARENT_CLK_NODE2 : Z := 2.
Definition PARENT_CLK_NODE3 : Z := 3.
Definition PARENT_CLK_EXTERNAL : Z := 5.
Definition CLK_SET_RATE_GATE : Z := BIT 0.
Definition CLK_SET_RATE_PARENT : Z := BIT 2.
Definition CLK_IGNORE_UNUSED : Z := BIT 3.
Definition CLK_IS_BASIC : Z := BIT 5.
Definition CLK_SET_RATE_NO_REPARENT : Z := BIT 7.
Definition CLK_IS_CRITICAL : Z := BIT 11.
Definition CLK_DIVIDER_ONE_BASED : Z := BIT 0.
Definition CLK_DIVIDER_POWER_OF_TWO : Z := BIT 1.
Definition CLK_DIVIDER_ALLOW_ZERO : Z := BIT 2.
Definition CLK_FRAC : Z := BIT 8.
Definition CLK_TYPE_OUTPUT : Z := 0.
Definition CLK_TYPE_EXTERNAL : Z := 1.
Definition TYPE_INVALID : Z := 0.
Definition TYPE_MUX : Z := 1.
Definition TYPE_PLL : Z := 2.
Definition TYPE_FIXEDFACTOR : Z := 3.
Definition TYPE_DIV1 : Z := 4.
Definition TYPE_DIV2 : Z := 5.
Definition TYPE_GATE : Z := 6.

(** enum clock_id and the external clock ids that continue it *)
Definition CLK_IOPLL : Z := 0.
Definition CLK_RPLL : Z := 1.
Definition CLK_APLL : Z := 2.
Definition CLK_DPLL : Z := 3.
Definition CLK_VPLL : Z := 4.
Definition CLK_IOPLL_TO_FPD : Z := 5.
Definition CLK_RPLL_TO_FPD : Z := 6.
Definition CLK_APLL_TO_LPD : Z := 7.
Definition CLK_DPLL_TO_LPD : Z := 8.
Definition CLK_VPLL_TO_LPD : Z := 9.
Definition CLK_ACPU : Z := 10.
Definition CLK_ACPU_HALF : Z := 11.
Definition CLK_DBG_FPD : Z := 12.
Definition CLK_DBG_LPD : Z := 13.
Definition CLK_DBG_TRACE : Z := 14.
Definition CLK_DBG_TSTMP : Z := 15.
Definition CLK_DP_VIDEO_REF : Z := 16.
Definition CLK_DP_AUDIO_REF : Z := 17.
Definition CLK_DP_STC_REF : Z := 18.
Definition CLK_GDMA_REF : Z := 19.
Definition CLK_DPDMA_REF : Z := 20.
Definition CLK_DDR_REF : Z := 21.
Definition CLK_SATA_REF : Z := 22.
Definition CLK_PCIE_REF : Z := 23.
Definition CLK_GPU_REF : Z := 24.
Definition CLK_GPU_PP0_REF : Z := 25.
Definition CLK_GPU_PP1_REF : Z := 26.
Definition CLK_TOPSW_MAIN : Z := 27.
Definition CLK_TOPSW_LSBUS : Z := 28.
Definition CLK_GTGREF0_REF : Z := 29.
Definition CLK_LPD_SWITCH : Z := 30.
Definition CLK_LPD_LSBUS : Z := 31.
Definition CLK_USB0_BUS_REF : Z := 32.
Definition CLK_USB1_BUS_REF : Z := 33.
Definition CLK_USB3_DUAL_REF : Z := 34.
Definition CLK_USB0 : Z := 35.
Definition CLK_USB1 : Z := 36.
Definition CLK_CPU_R5 : Z := 37.
Definition CLK_CPU_R5_CORE : Z := 38.
Definition CLK_CSU_SPB : Z := 39.
Definition CLK_CSU_PLL : Z := 40.
Definition CLK_PCAP : Z := 41.
Definition CLK_IOU_SWITCH : Z := 42.
Definition CLK_GEM_TSU_REF : Z := 43.
Definition CLK_GEM_TSU : Z := 44.
Definition CLK_GEM0_TX : Z := 45.
Definition CLK_GEM1_TX : Z := 46.
Definition CLK_GEM2_TX : Z := 47.
Definition CLK_GEM3_TX : Z := 48.
Definition CLK_GEM0_RX : Z := 49.
Definition CLK_GEM1_RX : Z := 50.
Definition CLK_GEM2_RX : Z := 51.
Definition CLK_GEM3_RX : Z := 52.
Definition CLK_QSPI_REF : Z := 53.
Definition CLK_SDIO0_REF : Z := 54.
Definition CLK_SDIO1_REF : Z := 55.
Definition CLK_UART0_REF : Z := 56.
Definition CLK_UART1_REF : Z := 57.
Definition CLK_SPI0_REF : Z := 58.
Definition CLK_SPI1_REF : Z := 59.
Definition CLK_NAND_REF : Z := 60.
Definition CLK_I2C0_REF : Z := 61.
Definition CLK_I2C1_REF : Z := 62.
Definition CLK_CAN0_REF : Z := 63.
Definition CLK_CAN1_REF : Z := 64.
Definition CLK_CAN0 : Z := 65.
Definition CLK_CAN1 : Z := 66.
Definition CLK_DLL_REF : Z := 67.
Definition CLK_ADMA_REF : Z := 68.
Definition CLK_TIMESTAMP_REF : Z := 69.
Definition CLK_AMS_REF : Z := 70.
Definition CLK_PL0_REF : Z := 71.
Definition CLK_PL1_REF : Z := 72.
Definition CLK_PL2_REF : Z := 73.
Definition CLK_PL3_REF : Z := 74.
Definition CLK_FPD_WDT : Z := 75.
Definition CLK_IOPLL_INT : Z := 76.
Definition CLK_IOPLL_PRE_SRC : Z := 77.
Definition CLK_IOPLL_HALF : Z := 78.
Definition CLK_IOPLL_INT_MUX : Z := 79.
Definition CLK_IOPLL_POST_SRC : Z := 80.
Definition CLK_RPLL_INT : Z := 81.
Definition CLK_RPLL_PRE_SRC : Z := 82.
Definition CLK_RPLL_HALF : Z := 83.
Definition CLK_RPLL_INT_MUX : Z := 84.
Definition CLK_RPLL_POST_SRC : Z := 85.
Definition CLK_APLL_INT : Z := 86.
Definition CLK_APLL_PRE_SRC : Z := 87.
Definition CLK_APLL_HALF : Z := 88.
Definition CLK_APLL_INT_MUX : Z := 89.
Definition CLK_APLL_POST_SRC : Z := 90.
Definition CLK_DPLL_INT : Z := 91.
Definition CLK_DPLL_PRE_SRC : Z := 92.
Definition CLK_DPLL_HALF : Z := 93.
Definition CLK_DPLL_INT_MUX : Z := 94.
Definition CLK_DPLL_POST_SRC : Z := 95.
Definition CLK_VPLL_INT : Z := 96.
Definition CLK_VPLL_PRE_SRC : Z := 97.
Definition CLK_VPLL_HALF : Z := 98.
Definition CLK_VPLL_INT_MUX : Z := 99.
Definition CLK_VPLL_POST_SRC : Z := 100.
Definition CLK_CAN0_MIO : Z := 101.
Definition CLK_CAN1_MIO : Z := 102.
Definition CLK_ACPU_FULL : Z := 103.
Definition CLK_GEM0_REF : Z := 104.
Definition CLK_GEM1_REF : Z := 105.
Definition CLK_GEM2_REF : Z := 106.
Definition CLK_GEM3_REF : Z := 107.
Definition CLK_GEM0_REF_UNGATED : Z := 108.
Definition CLK_GEM1_REF_UNGATED : Z := 109.
Definition CLK_GEM2_REF_UNGATED : Z := 110.
Definition CLK_GEM3_REF_UNGATED : Z := 111.
Definition CLK_LPD_WDT : Z := 112.
Definition END_OF_OUTPUT_CLKS : Z := 113.
Definition EXT_CLK_PSS_REF : Z := 113.
Definition EXT_CLK_VIDEO : Z := 114.
Definition EXT_CLK_PSS_ALT_REF : Z := 115.
Definition EXT_CLK_AUX_REF : Z := 116.
Definition EXT_CLK_GT_CRX_REF : Z := 117.
Definition EXT_CLK_SWDT0 : Z := 118.
Definition EXT_CLK_SWDT1 : Z := 119.
Definition EXT_CLK_GEM0_TX_EMIO : Z := 120.
Definition EXT_CLK_GEM1_TX_EMIO : Z := 121.
Definition EXT_CLK_GEM2_TX_EMIO : Z := 122.
Definition EXT_CLK_GEM3_TX_EMIO : Z := 123.
Definition EXT_CLK_GEM0_RX_EMIO : Z := 124.
Definition EXT_CLK_GEM1_RX_EMIO : Z := 125.
Definition EXT_CLK_GEM2_RX_EMIO : Z := 126.
Definition EXT_CLK_GEM3_RX_EMIO : Z := 127.
Definition EXT_CLK_MIO50_OR_MIO51 : Z := 128.
Definition EXT_CLK_MIO0 : Z := 129.
Definition EXT_CLK_MIO1 : Z := 130.
Definition EXT_CLK_MIO2 : Z := 131.
Definition EXT_CLK_MIO3 : Z := 132.
Definition EXT_CLK_MIO4 : Z := 133.
Definition EXT_CLK_MIO5 : Z := 134.
Definition EXT_CLK_MIO6 : Z := 135.
Definition EXT_CLK_MIO7 : Z := 136.
Definition EXT_CLK_MIO8 : Z := 137.
Definition EXT_CLK_MIO9 : Z := 138.
Definition EXT_CLK_MIO10 : Z := 139.
Definition EXT_CLK_MIO11 : Z := 140.
Definition EXT_CLK_MIO12 : Z := 141.
Definition EXT_CLK_MIO13 : Z := 142.
Definition EXT_CLK_MIO14 : Z := 143.
Definition EXT_CLK_MIO15 : Z := 144.
Definition EXT_CLK_MIO16 : Z := 145.
Definition EXT_CLK_MIO17 : Z := 146.
Definition EXT_CLK_MIO18 : Z := 147.
Definition EXT_CLK_MIO19 : Z := 148.
Definition EXT_CLK_MIO20 : Z := 149.
Definition EXT_CLK_MIO21 : Z := 150.
Definition EXT_CLK_MIO22 : Z := 151.
Definition EXT_CLK_MIO23 : Z := 152.
Definition EXT_CLK_MIO24 : Z := 153.
Definition EXT_CLK_MIO25 : Z := 154.
Definition EXT_CLK_MIO26 : Z := 155.
Definition EXT_CLK_MIO27 : Z := 156.
Definition EXT_CLK_MIO28 : Z := 157.
Definition EXT_CLK_MIO29 : Z := 158.
Definition EXT_CLK_MIO30 : Z := 159.
Definition EXT_CLK_MIO31 : Z := 160.
Definition EXT_CLK_MIO32 : Z := 161.
Definition EXT_CLK_MIO33 : Z := 162.
Definition EXT_CLK_MIO34 : Z := 163.
Definition EXT_CLK_MIO35 : Z := 164.
Definition EXT_CLK_MIO36 : Z := 165.
Definition EXT_CLK_MIO37 : Z := 166.
Definition EXT_CLK_MIO38 : Z := 167.
Definition EXT_CLK_MIO39 : Z := 168.
Definition EXT_CLK_MIO40 : Z := 169.
Definition EXT_CLK_MIO41 : Z := 170.
Definition EXT_CLK_MIO42 : Z := 171.
Definition EXT_CLK_MIO43 : Z := 172.
Definition EXT_CLK_MIO44 : Z := 173.
Definition EXT_CLK_MIO45 : Z := 174.
Definition EXT_CLK_MIO46 : Z := 175.
Definition EXT_CLK_MIO47 : Z := 176.
Definition EXT_CLK_MIO48 : Z := 177.
Definition EXT_CLK_MIO49 : Z := 178.
Definition EXT_CLK_MIO50 : Z := 179.
Definition EXT_CLK_MIO51 : Z := 180.
Definition EXT_CLK_MIO52 : Z := 181.
Definition EXT_CLK_MIO53 : Z := 182.
Definition EXT_CLK_MIO54 : Z := 183.
Definition EXT_CLK_MIO55 : Z := 184.
Definition EXT_CLK_MIO56 : Z := 185.
Definition EXT_CLK_MIO57 : Z := 186.
Definition EXT_CLK_MIO58 : Z := 187.
Definition EXT_CLK_MIO59 : Z := 188.
Definition EXT_CLK_MIO60 : Z := 189.
Definition EXT_CLK_MIO61 : Z := 190.
Definition EXT_CLK_MIO62 : Z := 191.
Definition EXT_CLK_MIO63 : Z := 192.
Definition EXT_CLK_MIO64 : Z := 193.
Definition EXT_CLK_MIO65 : Z := 194.
Definition EXT_CLK_MIO66 : Z := 195.
Definition EXT_CLK_MIO67 : Z := 196.
Definition EXT_CLK_MIO68 : Z := 197.
Definition EXT_CLK_MIO69 : Z := 198.
Definition EXT_CLK_MIO70 : Z := 199.
Definition EXT_CLK_MIO71 : Z := 200.
Definition EXT_CLK_MIO72 : Z := 201.
Definition EXT_CLK_MIO73 : Z := 202.
Definition EXT_CLK_MIO74 : Z := 203.
Definition EXT_CLK_MIO75 : Z := 204.
Definition EXT_CLK_MIO76 : Z := 205.
Definition EXT_CLK_MIO77 : Z := 206.
Definition END_OF_CLKS : Z := 207.

Definition CLK_MAX_OUTPUT_CLK : Z := END_OF_OUTPUT_CLKS.
Definition CLK_MAX : Z := END_OF_CLKS.

(** Clock control registers *)
Definition CRF_APB_CLK_BASE : Z := 0xFD1A0020.
Definition CRL_APB_CLK_BASE : Z := 0xFF5E0020.
Definition FPD_SLCR_BASEADDR : Z := 0xFD610000.
Definition IOU_SLCR_BASEADDR : Z := 0xFF180000.
Definition CRF_APB_ACPU_CTRL : Z := CRF_APB_CLK_BASE + 0x40.
Definition CRF_APB_APLL_CTRL : Z := CRF_APB_CLK_BASE + 0x00.
Definition CRF_APB_APLL_TO_LPD_CTRL : Z := CRF_APB_CLK_BASE + 0x28.
Definition CRF_APB_DBG_FPD_CTRL : Z := CRF_APB_CLK_BASE + 0x48.
Definition CRF_APB_DBG_TRACE_CTRL : Z := CRF_APB_CLK_BASE + 0x44.
Definition CRF_APB_DBG_TSTMP_CTRL : Z := CRF_APB_CLK_BASE + 0xd8.
Definition CRF_APB_DDR_CTRL : Z := CRF_APB_CLK_BASE + 0x60.
Definition CRF_APB_DPDMA_REF_CTRL : Z := CRF_APB_CLK_BASE + 0x9c.
Definition CRF_APB_DPLL_CTRL : Z := CRF_APB_CLK_BASE + 0x0c.
Definition CRF_APB_DPLL_TO_LPD_CTRL : Z := CRF_APB_CLK_BASE + 0x2c.
Definition CRF_APB_DP_AUDIO_REF_CTRL : Z := CRF_APB_CLK_BASE + 0x54.
Definition CRF_APB_DP_STC_REF_CTRL : Z := CRF_APB_CLK_BASE + 0x5c.
Definition CRF_APB_DP_VIDEO_REF_CTRL : Z := CRF_APB_CLK_BASE + 0x50.
Definition CRF_APB_GDMA_REF_CTRL : Z := CRF_APB_CLK_BASE + 0x98.
Definition CRF_APB_GPU_REF_CTRL : Z := CRF_APB_CLK_BASE + 0x64.
Definition CRF_APB_GTGREF0_REF_CTRL : Z := CRF_APB_CLK_BASE + 0xa8.
Definition CRF_APB_PCIE_REF_CTRL : Z := CRF_APB_CLK_BASE + 0x94.
Definition CRF_APB_PLL_STATUS : Z := CRF_APB_CLK_BASE + 0x24.
Definition CRF_APB_SATA_REF_CTRL : Z := CRF_APB_CLK_BASE + 0x80.
Definition CRF_APB_TOPSW_LSBUS_CTRL : Z := CRF_APB_CLK_BASE + 0xa4.
Definition CRF_APB_TOPSW_MAIN_CTRL : Z := CRF_APB_CLK_BASE + 0xa0.
Definition CRF_APB_VPLL_CTRL : Z := CRF_APB_CLK_BASE + 0x18.
Definition CRF_APB_VPLL_TO_LPD_CTRL : Z := CRF_APB_CLK_BASE + 0x30.
Definition CRL_APB_ADMA_REF_CTRL : Z := CRL_APB_CLK_BASE + 0x98.
Definition CRL_APB_AMS_REF_CTRL : Z := CRL_APB_CLK_BASE + 0xe8.
Definition CRL_APB_CAN0_REF_CTRL : Z := CRL_APB_CLK_BASE + 0x64.
Definition CRL_APB_CAN1_REF_CTRL : Z := CRL_APB_CLK_BASE + 0x68.
Definition CRL_APB_CPU_R5_CTRL : Z := CRL_APB_CLK_BASE + 0x70.
Definition CRL_APB_CSU_PLL_CTRL : Z := CRL_APB_CLK_BASE + 0x80.
Definition CRL_APB_DBG_LPD_CTRL : Z := CRL_APB_CLK_BASE + 0x90.
Definition CRL_APB_DLL_REF_CTRL : Z := CRL_APB_CLK_BASE + 0xe4.
Definition CRL_APB_GEM0_REF_CTRL : Z := CRL_APB_CLK_BASE + 0x30.
Definition CRL_APB_GEM1_REF_CTRL : Z := CRL_APB_CLK_BASE + 0x34.
Definition CRL_APB_GEM2_REF_CTRL : Z := CRL_APB_CLK_BASE + 0x38.
Definition CRL_APB_GEM3_REF_CTRL : Z := CRL_APB_CLK_BASE + 0x3c.
Definition CRL_APB_GEM_TSU_REF_CTRL : Z := CRL_APB_CLK_BASE + 0xe0.
Definition CRL_APB_I2C0_REF_CTRL : Z := CRL_APB_CLK_BASE + 0x100.
Definition CRL_APB_I2C1_REF_CTRL : Z := CRL_APB_CLK_BASE + 0x104.
Definition CRL_APB_IOPLL_CTRL : Z := CRL_APB_CLK_BASE + 0x00.
Definition CRL_APB_IOPLL_TO_FPD_CTRL : Z := CRL_APB_CLK_BASE + 0x24.
Definition CRL_APB_IOU_SWITCH_CTRL : Z := CRL_APB_CLK_BASE + 0x7c.
Definition CRL_APB_LPD_LSBUS_CTRL : Z := CRL_APB_CLK_BASE + 0x8c.
Definition CRL_APB_LPD_SWITCH_CTRL : Z := CRL_APB_CLK_BASE + 0x88.
Definition CRL_APB_NAND_REF_CTRL : Z := CRL_APB_CLK_BASE + 0x94.
Definition CRL_APB_PCAP_CTRL : Z := CRL_APB_CLK_BASE + 0x84.
Definition CRL_APB_PL0_REF_CTRL : Z := CRL_APB_CLK_BASE + 0xa0.
Definition CRL_APB_PL1_REF_CTRL : Z := CRL_APB_CLK_BASE + 0xa4.
Definition CRL_APB_PL2_REF_CTRL : Z := CRL_APB_CLK_BASE + 0xa8.
Definition CRL_APB_PL3_REF_CTRL : Z := CRL_APB_CLK_BASE + 0xac.
Definition CRL_APB_PLL_STATUS : Z := CRL_APB_CLK_BASE + 0x20.
Definition CRL_APB_QSPI_REF_CTRL : Z := CRL_APB_CLK_BASE + 0x48.
Definition CRL_APB_RPLL_CTRL : Z := CRL_APB_CLK_BASE + 0x10.
Definition CRL_APB_RPLL_TO_FPD_CTRL : Z := CRL_APB_CLK_BASE + 0x28.
Definition CRL_APB_SDIO0_REF_CTRL : Z := CRL_APB_CLK_BASE + 0x4c.
Definition CRL_APB_SDIO1_REF_CTRL : Z := CRL_APB_CLK_BASE + 0x50.
Definition CRL_APB_SPI0_REF_CTRL : Z := CRL_APB_CLK_BASE + 0x5c.
Definition CRL_APB_SPI1_REF_CTRL : Z := CRL_APB_CLK_BASE + 0x60.
Definition CRL_APB_TIMESTAMP_REF_CTRL : Z := CRL_APB_CLK_BASE + 0x108.
Definition CRL_APB_UART0_REF_CTRL : Z := CRL_APB_CLK_BASE + 0x54.
Definition CRL_APB_UART1_REF_CTRL : Z := CRL_APB_CLK_BASE + 0x58.
Definition CRL_APB_USB0_BUS_REF_CTRL : Z := CRL_APB_CLK_BASE + 0x40.
Definition CRL_APB_USB1_BUS_REF_CTRL : Z := CRL_APB_CLK_BASE + 0x44.
Definition CRL_APB_USB3_DUAL_REF_CTRL : Z := CRL_APB_CLK_BASE + 0x2c.
Definition FPD_SLCR_WDT_CLK_SEL : Z := FPD_SLCR_BASEADDR + 0x100.
Definition IOU_SLCR_CAN_MIO_CTRL : Z := IOU_SLCR_BASEADDR + 0x304.
Definition IOU_SLCR_GEM_CLK_CTRL : Z := IOU_SLCR_BASEADDR + 0x308.
Definition IOU_SLCR_WDT_CLK_SEL : Z := IOU_SLCR_BASEADDR + 0x300.

Definition CLK_PARENTS_ID_LEN : Z := 16.
Definition CLK_TOPOLOGY_PAYLOAD_LEN : Z := 12.
Definition CLK_PARENTS_PAYLOAD_LEN : Z := 12.
Definition CLK_TYPE_SHIFT : Z := 2.
Definition CLK_CLKFLAGS_SHIFT : Z := 8.
Definition CLK_TYPEFLAGS_SHIFT : Z := 24.
Definition CLK_TYPEFLAGS2_SHIFT : Z := 4.
Definition CLK_TYPEFLAGS_BITS_MASK : Z := 0xFF.
Definition CLK_TYPEFLAGS2_BITS_MASK : Z := 0x0F00.
Definition CLK_TYPEFLAGS_BITS : Z := 8.
Definition CLK_EXTERNAL_PARENT : Z := PARENT_CLK_EXTERNAL .<< CLK_PARENTS_ID_LEN.
Definition NA_MULT : Z := 0.
Definition NA_DIV : Z := 0.
Definition NA_SHIFT : Z := 0.
Definition NA_WIDTH : Z := 0.
Definition NA_CLK_FLAGS : Z := 0.
Definition NA_TYPE_FLAGS : Z := 0.
Definition PLL_PRESRC_MUX_SHIFT : Z := 20.
Definition PLL_PRESRC_MUX_WIDTH : Z := 3.
Definition PLL_POSTSRC_MUX_SHIFT : Z := 24.
Definition PLL_POSTSRC_MUX_WIDTH : Z := 3.
Definition PLL_DIV2_MUX_SHIFT : Z := 16.
Definition PLL_DIV2_MUX_WIDTH : Z := 1.
Definition PLL_BYPASS_MUX_SHIFT : Z := 3.
Definition PLL_BYPASS_MUX_WIDTH : Z := 1.
Definition PERIPH_MUX_SHIFT : Z := 0.
Definition PERIPH_MUX_WIDTH : Z := 3.
Definition PERIPH_DIV1_SHIFT : Z := 8.
Definition PERIPH_DIV1_WIDTH : Z := 6.
Definition PERIPH_DIV2_SHIFT : Z := 16.
Definition PERIPH_DIV2_WIDTH : Z := 6.
Definition PERIPH_GATE_SHIFT : Z := 24.
Definition PERIPH_GATE_WIDTH : Z := 1.
Definition USB_GATE_SHIFT : Z := 25.
Definition PLL_FRAC_MODE : Z := 1.
Definition PLL_INT_MODE : Z := 0.

Record pm_clock_node := PmClockNode {
  clkflags : Z;    (* uint16_t *)
  typeflags : Z;   (* uint16_t *)
  node_type : Z;   (* uint8_t *)
  offset : Z;      (* uint8_t *)
  node_width : Z;  (* uint8_t *)
  mult : Z;        (* 4 bits *)
  div : Z          (* 4 bits *)
}.

Record pm_clock := PmClock {
  name : string;   (* char[CLK_NAME_LEN] *)
  num_nodes : Z;   (* uint8_t *)
  control_reg : Z;
  status_reg : Z;
  parents : option (list Z);             (* int32_t [], or null *)
  nodes : option (list pm_clock_node)    (* or null *)
}.

Record pm_ext_clock := PmExtClock { ext_name : string }.

(** The element of a static array that no designator names. *)
Definition zero_clock : pm_clock := PmClock EmptyString 0 0 0 None None.

Definition designated {A} (z : A) (l : list (Z * A)) : list A :=
  let size := fold_left (fun n p => Z.max n (fst p + 1)) l 0 in
  fold_left (fun a p => <[Z.to_nat (fst p) := snd p]> a) l (repeat z (Z.to_nat size)).

Definition GENERIC_MUX : pm_clock_node :=
    {| node_type := TYPE_MUX;
       offset := PERIPH_MUX_SHIFT;
       node_width := PERIPH_MUX_WIDTH;
       clkflags := CLK_SET_RATE_NO_REPARENT .| CLK_IS_BASIC;
       typeflags := NA_TYPE_FLAGS;
       mult := NA_MULT;
       div := NA_DIV |}.
Definition IGNORE_UNUSED_MUX : pm_clock_node :=
    {| node_type := TYPE_MUX;
       offset := PERIPH_MUX_SHIFT;
       node_width := PERIPH_MUX_WIDTH;
       clkflags := CLK_IGNORE_UNUSED .| CLK_SET_RATE_NO_REPARENT .| CLK_IS_BASIC;
       typeflags := NA_TYPE_FLAGS;
       mult := NA_MULT;
       div := NA_DIV |}.
Definition GENERIC_DIV1 : pm_clock_node :=
    {| node_type := TYPE_DIV1;
       offset := PERIPH_DIV1_SHIFT;
       node_width := PERIPH_DIV1_WIDTH;
       clkflags := CLK_SET_RATE_NO_REPARENT .| CLK_IS_BASIC;
       typeflags := CLK_DIVIDER_ONE_BASED .| CLK_DIVIDER_ALLOW_ZERO;
       mult := NA_MULT;
       div := NA_DIV |}.
Definition GENERIC_DIV2 : pm_clock_node :=
    {| node_type := TYPE_DIV2;
       offset := PERIPH_DIV2_SHIFT;
       node_width := PERIPH_DIV2_WIDTH;
       clkflags := CLK_SET_RATE_NO_REPARENT .| CLK_SET_RATE_PARENT .| CLK_IS_BASIC;
       typeflags := CLK_DIVIDER_ONE_BASED .| CLK_DIVIDER_ALLOW_ZERO;
       mult := NA_MULT;
       div := NA_DIV |}.
Definition GENERIC_GATE : pm_clock_node :=
    {| node_type := TYPE_GATE;
       offset := PERIPH_GATE_SHIFT;
       node_width := PERIPH_GATE_WIDTH;
       clkflags := CLK_SET_RATE_PARENT .| CLK_SET_RATE_GATE .| CLK_IS_BASIC;
       typeflags := NA_TYPE_FLAGS;
       mult := NA_MULT;
       div := NA_DIV |}.
Definition IGNORE_UNUSED_GATE : pm_clock_node :=
    {| node_type := TYPE_GATE;
       offset := PERIPH_GATE_SHIFT;
       node_width := PERIPH_GATE_WIDTH;
       clkflags := CLK_SET_RATE_PARENT .| CLK_IGNORE_UNUSED .| CLK_IS_BASIC;
       typeflags := NA_TYPE_FLAGS;
       mult := NA_MULT;
       div := NA_DIV |}.

Definition generic_pll_nodes : list pm_clock_node :=
  [ {| node_type := TYPE_PLL;
       offset := NA_SHIFT;
       node_width := NA_WIDTH;
       clkflags := CLK_SET_RATE_NO_REPARENT;
       typeflags := NA_TYPE_FLAGS;
       mult := NA_MULT;
       div := NA_DIV |} ].

Definition ignore_unused_pll_nodes : list pm_clock_node :=
  [ {| node_type := TYPE_PLL;
       offset := NA_SHIFT;
       node_width := NA_WIDTH;
       clkflags := CLK_IGNORE_UNUSED .| CLK_SET_RATE_NO_REPARENT;
       typeflags := NA_TYPE_FLAGS;
       mult := NA_MULT;
       div := NA_DIV |} ].

Definition generic_pll_pre_src_nodes : list pm_clock_node :=
  [ {| node_type := TYPE_MUX;
       offset := PLL_PRESRC_MUX_SHIFT;
       node_width := PLL_PRESRC_MUX_WIDTH;
       clkflags := CLK_IS_BASIC;
       typeflags := NA_TYPE_FLAGS;
       mult := NA_MULT;
       div := NA_DIV |} ].

Definition generic_pll_half_nodes : list pm_clock_node :=
  [ {| node_type := TYPE_FIXEDFACTOR;
       offset := NA_SHIFT;
       node_width := NA_WIDTH;
       clkflags := CLK_SET_RATE_NO_REPARENT .| CLK_SET_RATE_PARENT;
       typeflags := NA_TYPE_FLAGS;
       mult := 1;
       div := 2 |} ].

Definition generic_pll_int_nodes : list pm_clock_node :=
  [ {| node_type := TYPE_MUX;
       offset := PLL_DIV2_MUX_SHIFT;
       node_width := PLL_DIV2_MUX_WIDTH;
       clkflags := CLK_SET_RATE_NO_REPARENT .| CLK_SET_RATE_PARENT .| CLK_IS_BASIC;
       typeflags := NA_TYPE_FLAGS;
       mult := NA_MULT;
       div := NA_DIV |} ].

Definition generic_pll_post_src_nodes : list pm_clock_node :=
  [ {| node_type := TYPE_MUX;
       offset := PLL_POSTSRC_MUX_SHIFT;
       node_width := PLL_POSTSRC_MUX_WIDTH;
       clkflags := CLK_IS_BASIC;
       typeflags := NA_TYPE_FLAGS;
       mult := NA_MULT;
       div := NA_DIV |} ].

Definition generic_pll_system_nodes : list pm_clock_node :=
  [ {| node_type := TYPE_MUX;
       offset := PLL_BYPASS_MUX_SHIFT;
       node_width := PLL_BYPASS_MUX_WIDTH;
       clkflags := CLK_SET_RATE_NO_REPARENT .| CLK_SET_RATE_PARENT .| CLK_IS_BASIC;
       typeflags := NA_TYPE_FLAGS;
       mult := NA_MULT;
       div := NA_DIV |} ].

Definition acpu_nodes : list pm_clock_node :=
  [ {| node_type := TYPE_MUX;
       offset := PERIPH_MUX_SHIFT;
       node_width := PERIPH_MUX_WIDTH;
       clkflags := CLK_SET_RATE_NO_REPARENT .| CLK_IS_BASIC;
       typeflags := NA_TYPE_FLAGS;
       mult := NA_MULT;
       div := NA_DIV |};
    {| node_type := TYPE_DIV1;
       offset := PERIPH_DIV1_SHIFT;
       node_width := PERIPH_DIV1_WIDTH;
       clkflags := CLK_IS_BASIC;
       typeflags := CLK_DIVIDER_ONE_BASED .| CLK_DIVIDER_ALLOW_ZERO;
       mult := NA_MULT;
       div := NA_DIV |} ].

Definition generic_mux_div_nodes : list pm_clock_node :=
  [ GENERIC_MUX;
    GENERIC_DIV1 ].

Definition generic_mux_div_gate_nodes : list pm_clock_node :=
  [ GENERIC_MUX;
    GENERIC_DIV1;
    GENERIC_GATE ].

Definition generic_mux_div_unused_gate_nodes : list pm_clock_node :=
  [ GENERIC_MUX;
    GENERIC_DIV1;
    IGNORE_UNUSED_GATE ].

Definition generic_mux_div_div_gate_nodes : list pm_clock_node :=
  [ GENERIC_MUX;
    GENERIC_DIV1;
    GENERIC_DIV2;
    GENERIC_GATE ].

Definition dp_audio_video_ref_nodes : list pm_clock_node :=
  [ {| node_type := TYPE_MUX;
       offset := PERIPH_MUX_SHIFT;
       node_width := PERIPH_MUX_WIDTH;
       clkflags := CLK_SET_RATE_NO_REPARENT .| CLK_SET_RATE_PARENT .| CLK_IS_BASIC;
       typeflags := CLK_FRAC;
       mult := NA_MULT;
       div := NA_DIV |};
    {| node_type := TYPE_DIV1;
       offset := PERIPH_DIV1_SHIFT;
       node_width := PERIPH_DIV1_WIDTH;
       clkflags := CLK_SET_RATE_NO_REPARENT .| CLK_SET_RATE_PARENT .| CLK_IS_BASIC;
       typeflags := CLK_DIVIDER_ONE_BASED .| CLK_DIVIDER_ALLOW_ZERO .| CLK_FRAC;
       mult := NA_MULT;
       div := NA_DIV |};
    {| node_type := TYPE_DIV2;
       offset := PERIPH_DIV2_SHIFT;
       node_width := PERIPH_DIV2_WIDTH;
       clkflags := CLK_SET_RATE_NO_REPARENT .| CLK_SET_RATE_PARENT .| CLK_IS_BASIC;
       typeflags := CLK_DIVIDER_ONE_BASED .| CLK_DIVIDER_ALLOW_ZERO .| CLK_FRAC;
       mult := NA_MULT;
       div := NA_DIV |};
    {| node_type := TYPE_GATE;
       offset := PERIPH_GATE_SHIFT;
       node_width := PERIPH_GATE_WIDTH;
       clkflags := CLK_SET_RATE_PARENT .| CLK_SET_RATE_GATE .| CLK_IS_BASIC;
       typeflags := NA_TYPE_FLAGS;
       mult := NA_MULT;
       div := NA_DIV |} ].

Definition usb_nodes : list pm_clock_node :=
  [ GENERIC_MUX;
    GENERIC_DIV1;
    GENERIC_DIV2;
    {| node_type := TYPE_GATE;
       offset := USB_GATE_SHIFT;
       node_width := PERIPH_GATE_WIDTH;
       clkflags := CLK_SET_RATE_PARENT .| CLK_IS_BASIC .| CLK_SET_RATE_GATE;
       typeflags := NA_TYPE_FLAGS;
       mult := NA_MULT;
       div := NA_DIV |} ].

Definition generic_domain_crossing_nodes : list pm_clock_node :=
  [ {| node_type := TYPE_DIV1;
       offset := 8;
       node_width := 6;
       clkflags := CLK_IS_BASIC;
       typeflags := CLK_DIVIDER_ONE_BASED .| CLK_DIVIDER_ALLOW_ZERO;
       mult := NA_MULT;
       div := NA_DIV |} ].

Definition rpll_to_fpd_nodes : list pm_clock_node :=
  [ {| node_type := TYPE_DIV1;
       offset := 8;
       node_width := 6;
       clkflags := CLK_SET_RATE_PARENT .| CLK_IS_BASIC;
       typeflags := CLK_DIVIDER_ONE_BASED .| CLK_DIVIDER_ALLOW_ZERO;
       mult := NA_MULT;
       div := NA_DIV |} ].

Definition acpu_half_nodes : list pm_clock_node :=
  [ {| node_type := TYPE_FIXEDFACTOR;
       offset := 0;
       node_width := 1;
       clkflags := 0;
       typeflags := 0;
       mult := 1;
       div := 2 |};
    {| node_type := TYPE_GATE;
       offset := 25;
       node_width := PERIPH_GATE_WIDTH;
       clkflags := CLK_IGNORE_UNUSED .| CLK_SET_RATE_PARENT .| CLK_IS_BASIC;
       typeflags := NA_TYPE_FLAGS;
       mult := NA_MULT;
       div := NA_DIV |} ].

Definition acpu_full_nodes : list pm_clock_node :=
  [ {| node_type := TYPE_GATE;
       offset := 24;
       node_width := PERIPH_GATE_WIDTH;
       clkflags := CLK_IGNORE_UNUSED .| CLK_SET_RATE_PARENT .| CLK_IS_BASIC;
       typeflags := NA_TYPE_FLAGS;
       mult := NA_MULT;
       div := NA_DIV |} ].

Definition wdt_nodes : list pm_clock_node :=
  [ {| node_type := TYPE_MUX;
       offset := 0;
       node_width := 1;
       clkflags := CLK_SET_RATE_PARENT .| CLK_SET_RATE_NO_REPARENT .| CLK_IS_BASIC;
       typeflags := NA_TYPE_FLAGS;
       mult := NA_MULT;
       div := NA_DIV |} ].

Definition ddr_nodes : list pm_clock_node :=
  [ GENERIC_MUX;
    {| node_type := TYPE_DIV1;
       offset := 8;
       node_width := 6;
       clkflags := CLK_IS_BASIC .| CLK_IS_CRITICAL;
       typeflags := CLK_DIVIDER_ONE_BASED .| CLK_DIVIDER_ALLOW_ZERO;
       mult := NA_MULT;
       div := NA_DIV |} ].

Definition pl_nodes : list pm_clock_node :=
  [ GENERIC_MUX;
    {| node_type := TYPE_DIV1;
       offset := PERIPH_DIV1_SHIFT;
       node_width := PERIPH_DIV1_WIDTH;
       clkflags := CLK_IS_BASIC;
       typeflags := CLK_DIVIDER_ONE_BASED .| CLK_DIVIDER_ALLOW_ZERO;
       mult := NA_MULT;
       div := NA_DIV |};
    {| node_type := TYPE_DIV2;
       offset := PERIPH_DIV2_SHIFT;
       node_width := PERIPH_DIV2_WIDTH;
       clkflags := CLK_IS_BASIC .| CLK_SET_RATE_PARENT;
       typeflags := CLK_DIVIDER_ONE_BASED .| CLK_DIVIDER_ALLOW_ZERO;
       mult := NA_MULT;
       div := NA_DIV |};
    {| node_type := TYPE_GATE;
       offset := PERIPH_GATE_SHIFT;
       node_width := PERIPH_GATE_WIDTH;
       clkflags := CLK_SET_RATE_PARENT .| CLK_IS_BASIC;
       typeflags := NA_TYPE_FLAGS;
       mult := NA_MULT;
       div := NA_DIV |} ].

Definition gpu_pp0_nodes : list pm_clock_node :=
  [ {| node_type := TYPE_GATE;
       offset := 25;
       node_width := PERIPH_GATE_WIDTH;
       clkflags := CLK_SET_RATE_PARENT .| CLK_IS_BASIC;
       typeflags := NA_TYPE_FLAGS;
       mult := NA_MULT;
       div := NA_DIV |} ].

Definition gpu_pp1_nodes : list pm_clock_node :=
  [ {| node_type := TYPE_GATE;
       offset := 26;
       node_width := PERIPH_GATE_WIDTH;
       clkflags := CLK_SET_RATE_PARENT .| CLK_IS_BASIC;
       typeflags := NA_TYPE_FLAGS;
       mult := NA_MULT;
       div := NA_DIV |} ].

Definition gem_ref_ungated_nodes : list pm_clock_node :=
  [ GENERIC_MUX;
    {| node_type := TYPE_DIV1;
       offset := 8;
       node_width := 6;
       clkflags := CLK_SET_RATE_NO_REPARENT .| CLK_IS_BASIC;
       typeflags := CLK_DIVIDER_ONE_BASED .| CLK_DIVIDER_ALLOW_ZERO;
       mult := NA_MULT;
       div := NA_DIV |};
    {| node_type := TYPE_DIV2;
       offset := 16;
       node_width := 6;
       clkflags := CLK_SET_RATE_NO_REPARENT .| CLK_IS_BASIC .| CLK_SET_RATE_PARENT;
       typeflags := CLK_DIVIDER_ONE_BASED .| CLK_DIVIDER_ALLOW_ZERO;
       mult := NA_MULT;
       div := NA_DIV |} ].

Definition gem0_ref_nodes : list pm_clock_node :=
  [ {| node_type := TYPE_MUX;
       offset := 1;
       node_width := 1;
       clkflags := CLK_SET_RATE_PARENT .| CLK_SET_RATE_NO_REPARENT .| CLK_IS_BASIC;
       typeflags := NA_TYPE_FLAGS;
       mult := NA_MULT;
       div := NA_DIV |} ].

Definition gem1_ref_nodes : list pm_clock_node :=
  [ {| node_type := TYPE_MUX;
       offset := 6;
       node_width := 1;
       clkflags := CLK_SET_RATE_PARENT .| CLK_SET_RATE_NO_REPARENT .| CLK_IS_BASIC;
       typeflags := NA_TYPE_FLAGS;
       mult := NA_MULT;
       div := NA_DIV |} ].

Definition gem2_ref_nodes : list pm_clock_node :=
  [ {| node_type := TYPE_MUX;
       offset := 11;
       node_width := 1;
       clkflags := CLK_SET_RATE_PARENT .| CLK_SET_RATE_NO_REPARENT .| CLK_IS_BASIC;
       typeflags := NA_TYPE_FLAGS;
       mult := NA_MULT;
       div := NA_DIV |} ].

Definition gem3_ref_nodes : list pm_clock_node :=
  [ {| node_type := TYPE_MUX;
       offset := 16;
       node_width := 1;
       clkflags := CLK_SET_RATE_PARENT .| CLK_SET_RATE_NO_REPARENT .| CLK_IS_BASIC;
       typeflags := NA_TYPE_FLAGS;
       mult := NA_MULT;
       div := NA_DIV |} ].

Definition gem_tx_nodes : list pm_clock_node :=
  [ {| node_type := TYPE_GATE;
       offset := 25;
       node_width := PERIPH_GATE_WIDTH;
       clkflags := CLK_SET_RATE_PARENT .| CLK_IS_BASIC;
       typeflags := NA_TYPE_FLAGS;
       mult := NA_MULT;
       div := NA_DIV |} ].

Definition gem_rx_nodes : list pm_clock_node :=
  [ {| node_type := TYPE_GATE;
       offset := 26;
       node_width := PERIPH_GATE_WIDTH;
       clkflags := CLK_IS_BASIC;
       typeflags := NA_TYPE_FLAGS;
       mult := NA_MULT;
       div := NA_DIV |} ].

Definition gem_tsu_nodes : list pm_clock_node :=
  [ {| node_type := TYPE_MUX;
       offset := 20;
       node_width := 2;
       clkflags := CLK_SET_RATE_PARENT .| CLK_SET_RATE_NO_REPARENT .| CLK_IS_BASIC;
       typeflags := NA_TYPE_FLAGS;
       mult := NA_MULT;
       div := NA_DIV |} ].

Definition can0_mio_nodes : list pm_clock_node :=
  [ {| node_type := TYPE_MUX;
       offset := 0;
       node_width := 7;
       clkflags := CLK_SET_RATE_PARENT .| CLK_SET_RATE_NO_REPARENT .| CLK_IS_BASIC;
       typeflags := NA_TYPE_FLAGS;
       mult := NA_MULT;
       div := NA_DIV |} ].

Definition can1_mio_nodes : list pm_clock_node :=
  [ {| node_type := TYPE_MUX;
       offset := 15;
       node_width := 1;
       clkflags := CLK_SET_RATE_PARENT .| CLK_SET_RATE_NO_REPARENT .| CLK_IS_BASIC;
       typeflags := NA_TYPE_FLAGS;
       mult := NA_MULT;
       div := NA_DIV |} ].

Definition can0_nodes : list pm_clock_node :=
  [ {| node_type := TYPE_MUX;
       offset := 7;
       node_width := 1;
       clkflags := CLK_SET_RATE_PARENT .| CLK_SET_RATE_NO_REPARENT .| CLK_IS_BASIC;
       typeflags := NA_TYPE_FLAGS;
       mult := NA_MULT;
       div := NA_DIV |} ].

Definition can1_nodes : list pm_clock_node :=
  [ {| node_type := TYPE_MUX;
       offset := 22;
       node_width := 1;
       clkflags := CLK_SET_RATE_PARENT .| CLK_SET_RATE_NO_REPARENT .| CLK_IS_BASIC;
       typeflags := NA_TYPE_FLAGS;
       mult := NA_MULT;
       div := NA_DIV |} ].

Definition cpu_r5_core_nodes : list pm_clock_node :=
  [ {| node_type := TYPE_GATE;
       offset := 25;
       node_width := PERIPH_GATE_WIDTH;
       clkflags := CLK_IGNORE_UNUSED .| CLK_IS_BASIC;
       typeflags := NA_TYPE_FLAGS;
       mult := NA_MULT;
       div := NA_DIV |} ].

Definition dll_ref_nodes : list pm_clock_node :=
  [ {| node_type := TYPE_MUX;
       offset := 0;
       node_width := 3;
       clkflags := CLK_SET_RATE_PARENT .| CLK_SET_RATE_NO_REPARENT .| CLK_IS_BASIC;
       typeflags := NA_TYPE_FLAGS;
       mult := NA_MULT;
       div := NA_DIV |} ].

Definition timestamp_ref_nodes : list pm_clock_node :=
  [ GENERIC_MUX;
    {| node_type := TYPE_DIV1;
       offset := 8;
       node_width := 6;
       clkflags := CLK_IS_BASIC;
       typeflags := CLK_DIVIDER_ONE_BASED .| CLK_DIVIDER_ALLOW_ZERO;
       mult := NA_MULT;
       div := NA_DIV |};
    IGNORE_UNUSED_GATE ].

Definition can_mio_parents : list Z :=
  [ EXT_CLK_MIO0; EXT_CLK_MIO1; EXT_CLK_MIO2; EXT_CLK_MIO3;
    EXT_CLK_MIO4; EXT_CLK_MIO5; EXT_CLK_MIO6; EXT_CLK_MIO7;
    EXT_CLK_MIO8; EXT_CLK_MIO9; EXT_CLK_MIO10; EXT_CLK_MIO11;
    EXT_CLK_MIO12; EXT_CLK_MIO13; EXT_CLK_MIO14; EXT_CLK_MIO15;
    EXT_CLK_MIO16; EXT_CLK_MIO17; EXT_CLK_MIO18; EXT_CLK_MIO19;
    EXT_CLK_MIO20; EXT_CLK_MIO21; EXT_CLK_MIO22; EXT_CLK_MIO23;
    EXT_CLK_MIO24; EXT_CLK_MIO25; EXT_CLK_MIO26; EXT_CLK_MIO27;
    EXT_CLK_MIO28; EXT_CLK_MIO29; EXT_CLK_MIO30; EXT_CLK_MIO31;
    EXT_CLK_MIO32; EXT_CLK_MIO33; EXT_CLK_MIO34; EXT_CLK_MIO35;
    EXT_CLK_MIO36; EXT_CLK_MIO37; EXT_CLK_MIO38; EXT_CLK_MIO39;
    EXT_CLK_MIO40; EXT_CLK_MIO41; EXT_CLK_MIO42; EXT_CLK_MIO43;
    EXT_CLK_MIO44; EXT_CLK_MIO45; EXT_CLK_MIO46; EXT_CLK_MIO47;
    EXT_CLK_MIO48; EXT_CLK_MIO49; EXT_CLK_MIO50; EXT_CLK_MIO51;
    EXT_CLK_MIO52; EXT_CLK_MIO53; EXT_CLK_MIO54; EXT_CLK_MIO55;
    EXT_CLK_MIO56; EXT_CLK_MIO57; EXT_CLK_MIO58; EXT_CLK_MIO59;
    EXT_CLK_MIO60; EXT_CLK_MIO61; EXT_CLK_MIO62; EXT_CLK_MIO63;
    EXT_CLK_MIO64; EXT_CLK_MIO65; EXT_CLK_MIO66; EXT_CLK_MIO67;
    EXT_CLK_MIO68; EXT_CLK_MIO69; EXT_CLK_MIO70; EXT_CLK_MIO71;
    EXT_CLK_MIO72; EXT_CLK_MIO73; EXT_CLK_MIO74; EXT_CLK_MIO75;
    EXT_CLK_MIO76; EXT_CLK_MIO77; CLK_NA_PARENT ].

Definition clocks_apll : list (Z * pm_clock) :=
  [ (CLK_APLL_INT, {| name := "apll_int";
      control_reg := CRF_APB_APLL_CTRL; status_reg := CRF_APB_PLL_STATUS;
      parents := Some [CLK_APLL_PRE_SRC;
        CLK_NA_PARENT];
      nodes := Some ignore_unused_pll_nodes; num_nodes := ARRAY_SIZE ignore_unused_pll_nodes |});
    (CLK_APLL_PRE_SRC, {| name := "apll_pre_src";
      control_reg := CRF_APB_APLL_CTRL; status_reg := CRF_APB_PLL_STATUS;
      parents := Some [EXT_CLK_PSS_REF .| CLK_EXTERNAL_PARENT;
        EXT_CLK_PSS_REF .| CLK_EXTERNAL_PARENT;
        EXT_CLK_PSS_REF .| CLK_EXTERNAL_PARENT;
        EXT_CLK_PSS_REF .| CLK_EXTERNAL_PARENT;
        EXT_CLK_VIDEO .| CLK_EXTERNAL_PARENT;
        EXT_CLK_PSS_ALT_REF .| CLK_EXTERNAL_PARENT;
        EXT_CLK_AUX_REF .| CLK_EXTERNAL_PARENT;
        EXT_CLK_GT_CRX_REF .| CLK_EXTERNAL_PARENT;
        CLK_NA_PARENT];
      nodes := Some generic_pll_pre_src_nodes; num_nodes := ARRAY_SIZE generic_pll_pre_src_nodes |});
    (CLK_APLL_HALF, {| name := "apll_half";
      control_reg := CRF_APB_APLL_CTRL; status_reg := CRF_APB_PLL_STATUS;
      parents := Some [CLK_APLL_INT;
        CLK_NA_PARENT];
      nodes := Some generic_pll_half_nodes; num_nodes := ARRAY_SIZE generic_pll_half_nodes |});
    (CLK_APLL_INT_MUX, {| name := "apll_int_mux";
      control_reg := CRF_APB_APLL_CTRL; status_reg := CRF_APB_PLL_STATUS;
      parents := Some [CLK_APLL_INT;
        CLK_APLL_HALF;
        CLK_NA_PARENT];
      nodes := Some generic_pll_int_nodes; num_nodes := ARRAY_SIZE generic_pll_int_nodes |});
    (CLK_APLL_POST_SRC, {| name := "apll_post_src";
      control_reg := CRF_APB_APLL_CTRL; status_reg := CRF_APB_PLL_STATUS;
      parents := Some [EXT_CLK_PSS_REF .| CLK_EXTERNAL_PARENT;
        EXT_CLK_PSS_REF .| CLK_EXTERNAL_PARENT;
        EXT_CLK_PSS_REF .| CLK_EXTERNAL_PARENT;
        EXT_CLK_PSS_REF .| CLK_EXTERNAL_PARENT;
        EXT_CLK_VIDEO .| CLK_EXTERNAL_PARENT;
        EXT_CLK_PSS_ALT_REF .| CLK_EXTERNAL_PARENT;
        EXT_CLK_AUX_REF .| CLK_EXTERNAL_PARENT;
        EXT_CLK_GT_CRX_REF .| CLK_EXTERNAL_PARENT;
        CLK_NA_PARENT];
      nodes := Some generic_pll_post_src_nodes; num_nodes := ARRAY_SIZE generic_pll_post_src_nodes |});
    (CLK_APLL, {| name := "apll";
      control_reg := CRF_APB_APLL_CTRL; status_reg := CRF_APB_PLL_STATUS;
      parents := Some [CLK_APLL_INT_MUX;
        CLK_APLL_POST_SRC;
        CLK_NA_PARENT];
      nodes := Some generic_pll_system_nodes; num_nodes := ARRAY_SIZE generic_pll_system_nodes |}) ].

Definition clocks_dpll : list (Z * pm_clock) :=
  [ (CLK_DPLL_INT, {| name := "dpll_int";
      control_reg := CRF_APB_DPLL_CTRL; status_reg := CRF_APB_PLL_STATUS;
      parents := Some [CLK_DPLL_PRE_SRC;
        CLK_NA_PARENT];
      nodes := Some generic_pll_nodes; num_nodes := ARRAY_SIZE generic_pll_nodes |});
    (CLK_DPLL_PRE_SRC, {| name := "dpll_pre_src";
      control_reg := CRF_APB_DPLL_CTRL; status_reg := CRF_APB_PLL_STATUS;
      parents := Some [EXT_CLK_PSS_REF .| CLK_EXTERNAL_PARENT;
        EXT_CLK_PSS_REF .| CLK_EXTERNAL_PARENT;
        EXT_CLK_PSS_REF .| CLK_EXTERNAL_PARENT;
        EXT_CLK_PSS_REF .| CLK_EXTERNAL_PARENT;
        EXT_CLK_VIDEO .| CLK_EXTERNAL_PARENT;
        EXT_CLK_PSS_ALT_REF .| CLK_EXTERNAL_PARENT;
        EXT_CLK_AUX_REF .| CLK_EXTERNAL_PARENT;
        EXT_CLK_GT_CRX_REF .| CLK_EXTERNAL_PARENT;
        CLK_NA_PARENT];
      nodes := Some generic_pll_pre_src_nodes; num_nodes := ARRAY_SIZE generic_pll_pre_src_nodes |});
    (CLK_DPLL_HALF, {| name := "dpll_half";
      control_reg := CRF_APB_DPLL_CTRL; status_reg := CRF_APB_PLL_STATUS;
      parents := Some [CLK_DPLL_INT;
        CLK_NA_PARENT];
      nodes := Some generic_pll_half_nodes; num_nodes := ARRAY_SIZE generic_pll_half_nodes |});
    (CLK_DPLL_INT_MUX, {| name := "dpll_int_mux";
      control_reg := CRF_APB_DPLL_CTRL; status_reg := CRF_APB_PLL_STATUS;
      parents := Some [CLK_DPLL_INT;
        CLK_DPLL_HALF;
        CLK_NA_PARENT];
      nodes := Some generic_pll_int_nodes; num_nodes := ARRAY_SIZE generic_pll_int_nodes |});
    (CLK_DPLL_POST_SRC, {| name := "dpll_post_src";
      control_reg := CRF_APB_DPLL_CTRL; status_reg := CRF_APB_PLL_STATUS;
      parents := Some [EXT_CLK_PSS_REF .| CLK_EXTERNAL_PARENT;
        EXT_CLK_PSS_REF .| CLK_EXTERNAL_PARENT;
        EXT_CLK_PSS_REF .| CLK_EXTERNAL_PARENT;
        EXT_CLK_PSS_REF .| CLK_EXTERNAL_PARENT;
        EXT_CLK_VIDEO .| CLK_EXTERNAL_PARENT;
        EXT_CLK_PSS_ALT_REF .| CLK_EXTERNAL_PARENT;
        EXT_CLK_AUX_REF .| CLK_EXTERNAL_PARENT;
        EXT_CLK_GT_CRX_REF .| CLK_EXTERNAL_PARENT;
        CLK_NA_PARENT];
      nodes := Some generic_pll_post_src_nodes; num_nodes := ARRAY_SIZE generic_pll_post_src_nodes |});
    (CLK_DPLL, {| name := "dpll";
      control_reg := CRF_APB_DPLL_CTRL; status_reg := CRF_APB_PLL_STATUS;
      parents := Some [CLK_DPLL_INT_MUX;
        CLK_DPLL_POST_SRC;
        CLK_NA_PARENT];
      nodes := Some generic_pll_system_nodes; num_nodes := ARRAY_SIZE generic_pll_system_nodes |}) ].

Definition clocks_vpll : list (Z * pm_clock) :=
  [ (CLK_VPLL_INT, {| name := "vpll_int";
      control_reg := CRF_APB_VPLL_CTRL; status_reg := CRF_APB_PLL_STATUS;
      parents := Some [CLK_VPLL_PRE_SRC;
        CLK_NA_PARENT];
      nodes := Some ignore_unused_pll_nodes; num_nodes := ARRAY_SIZE ignore_unused_pll_nodes |});
    (CLK_VPLL_PRE_SRC, {| name := "vpll_pre_src";
      control_reg := CRF_APB_VPLL_CTRL; status_reg := CRF_APB_PLL_STATUS;
      parents := Some [EXT_CLK_PSS_REF .| CLK_EXTERNAL_PARENT;
        EXT_CLK_PSS_REF .| CLK_EXTERNAL_PARENT;
        EXT_CLK_PSS_REF .| CLK_EXTERNAL_PARENT;
        EXT_CLK_PSS_REF .| CLK_EXTERNAL_PARENT;
        EXT_CLK_VIDEO .| CLK_EXTERNAL_PARENT;
        EXT_CLK_PSS_ALT_REF .| CLK_EXTERNAL_PARENT;
        EXT_CLK_AUX_REF .| CLK_EXTERNAL_PARENT;
        EXT_CLK_GT_CRX_REF .| CLK_EXTERNAL_PARENT;
        CLK_NA_PARENT];
      nodes := Some generic_pll_pre_src_nodes; num_nodes := ARRAY_SIZE generic_pll_pre_src_nodes |});
    (CLK_VPLL_HALF, {| name := "vpll_half";
      control_reg := CRF_APB_VPLL_CTRL; status_reg := CRF_APB_PLL_STATUS;
      parents := Some [CLK_VPLL_INT;
        CLK_NA_PARENT];
      nodes := Some generic_pll_half_nodes; num_nodes := ARRAY_SIZE generic_pll_half_nodes |});
    (CLK_VPLL_INT_MUX, {| name := "vpll_int_mux";
      control_reg := CRF_APB_VPLL_CTRL; status_reg := CRF_APB_PLL_STATUS;
      parents := Some [CLK_VPLL_INT;
        CLK_VPLL_HALF;
        CLK_NA_PARENT];
      nodes := Some generic_pll_int_nodes; num_nodes := ARRAY_SIZE generic_pll_int_nodes |});
    (CLK_VPLL_POST_SRC, {| name := "vpll_post_src";
      control_reg := CRF_APB_VPLL_CTRL; status_reg := CRF_APB_PLL_STATUS;
      parents := Some [EXT_CLK_PSS_REF .| CLK_EXTERNAL_PARENT;
        EXT_CLK_PSS_REF .| CLK_EXTERNAL_PARENT;
        EXT_CLK_PSS_REF .| CLK_EXTERNAL_PARENT;
        EXT_CLK_PSS_REF .| CLK_EXTERNAL_PARENT;
        EXT_CLK_VIDEO .| CLK_EXTERNAL_PARENT;
        EXT_CLK_PSS_ALT_REF .| CLK_EXTERNAL_PARENT;
        EXT_CLK_AUX_REF .| CLK_EXTERNAL_PARENT;
        EXT_CLK_GT_CRX_REF .| CLK_EXTERNAL_PARENT;
        CLK_NA_PARENT];
      nodes := Some generic_pll_post_src_nodes; num_nodes := ARRAY_SIZE generic_pll_post_src_nodes |});
    (CLK_VPLL, {| name := "vpll";
      control_reg := CRF_APB_VPLL_CTRL; status_reg := CRF_APB_PLL_STATUS;
      parents := Some [CLK_VPLL_INT_MUX;
        CLK_VPLL_POST_SRC;
        CLK_NA_PARENT];
      nodes := Some generic_pll_system_nodes; num_nodes := ARRAY_SIZE generic_pll_system_nodes |}) ].

Definition clocks_iopll : list (Z * pm_clock) :=
  [ (CLK_IOPLL_INT, {| name := "iopll_int";
      control_reg := CRL_APB_IOPLL_CTRL; status_reg := CRF_APB_PLL_STATUS;
      parents := Some [CLK_IOPLL_PRE_SRC;
        CLK_NA_PARENT];
      nodes := Some generic_pll_nodes; num_nodes := ARRAY_SIZE generic_pll_nodes |});
    (CLK_IOPLL_PRE_SRC, {| name := "iopll_pre_src";
      control_reg := CRL_APB_IOPLL_CTRL; status_reg := CRF_APB_PLL_STATUS;
      parents := Some [EXT_CLK_PSS_REF .| CLK_EXTERNAL_PARENT;
        EXT_CLK_PSS_REF .| CLK_EXTERNAL_PARENT;
        EXT_CLK_PSS_REF .| CLK_EXTERNAL_PARENT;
        EXT_CLK_PSS_REF .| CLK_EXTERNAL_PARENT;
        EXT_CLK_VIDEO .| CLK_EXTERNAL_PARENT;
        EXT_CLK_PSS_ALT_REF .| CLK_EXTERNAL_PARENT;
        EXT_CLK_AUX_REF .| CLK_EXTERNAL_PARENT;
        EXT_CLK_GT_CRX_REF .| CLK_EXTERNAL_PARENT;
        CLK_NA_PARENT];
      nodes := Some generic_pll_pre_src_nodes; num_nodes := ARRAY_SIZE generic_pll_pre_src_nodes |});
    (CLK_IOPLL_HALF, {| name := "iopll_half";
      control_reg := CRL_APB_IOPLL_CTRL; status_reg := CRF_APB_PLL_STATUS;
      parents := Some [CLK_IOPLL_INT;
        CLK_NA_PARENT];
      nodes := Some generic_pll_half_nodes; num_nodes := ARRAY_SIZE generic_pll_half_nodes |});
    (CLK_IOPLL_INT_MUX, {| name := "iopll_int_mux";
      control_reg := CRL_APB_IOPLL_CTRL; status_reg := CRF_APB_PLL_STATUS;
      parents := Some [CLK_IOPLL_INT;
        CLK_IOPLL_HALF;
        CLK_NA_PARENT];
      nodes := Some generic_pll_int_nodes; num_nodes := ARRAY_SIZE generic_pll_int_nodes |});
    (CLK_IOPLL_POST_SRC, {| name := "iopll_post_src";
      control_reg := CRL_APB_IOPLL_CTRL; status_reg := CRF_APB_PLL_STATUS;
      parents := Some [EXT_CLK_PSS_REF .| CLK_EXTERNAL_PARENT;
        EXT_CLK_PSS_REF .| CLK_EXTERNAL_PARENT;
        EXT_CLK_PSS_REF .| CLK_EXTERNAL_PARENT;
        EXT_CLK_PSS_REF .| CLK_EXTERNAL_PARENT;
        EXT_CLK_VIDEO .| CLK_EXTERNAL_PARENT;
        EXT_CLK_PSS_ALT_REF .| CLK_EXTERNAL_PARENT;
        EXT_CLK_AUX_REF .| CLK_EXTERNAL_PARENT;
        EXT_CLK_GT_CRX_REF .| CLK_EXTERNAL_PARENT;
        CLK_NA_PARENT];
      nodes := Some generic_pll_post_src_nodes; num_nodes := ARRAY_SIZE generic_pll_post_src_nodes |});
    (CLK_IOPLL, {| name := "iopll";
      control_reg := CRL_APB_IOPLL_CTRL; status_reg := CRF_APB_PLL_STATUS;
      parents := Some [CLK_IOPLL_INT_MUX;
        CLK_IOPLL_POST_SRC;
        CLK_NA_PARENT];
      nodes := Some generic_pll_system_nodes; num_nodes := ARRAY_SIZE generic_pll_system_nodes |}) ].

Definition clocks_rpll : list (Z * pm_clock) :=
  [ (CLK_RPLL_INT, {| name := "rpll_int";
      control_reg := CRL_APB_RPLL_CTRL; status_reg := CRF_APB_PLL_STATUS;
      parents := Some [CLK_RPLL_PRE_SRC;
        CLK_NA_PARENT];
      nodes := Some generic_pll_nodes; num_nodes := ARRAY_SIZE generic_pll_nodes |});
    (CLK_RPLL_PRE_SRC, {| name := "rpll_pre_src";
      control_reg := CRL_APB_RPLL_CTRL; status_reg := CRF_APB_PLL_STATUS;
      parents := Some [EXT_CLK_PSS_REF .| CLK_EXTERNAL_PARENT;
        EXT_CLK_PSS_REF .| CLK_EXTERNAL_PARENT;
        EXT_CLK_PSS_REF .| CLK_EXTERNAL_PARENT;
        EXT_CLK_PSS_REF .| CLK_EXTERNAL_PARENT;
        EXT_CLK_VIDEO .| CLK_EXTERNAL_PARENT;
        EXT_CLK_PSS_ALT_REF .| CLK_EXTERNAL_PARENT;
        EXT_CLK_AUX_REF .| CLK_EXTERNAL_PARENT;
        EXT_CLK_GT_CRX_REF .| CLK_EXTERNAL_PARENT;
        CLK_NA_PARENT];
      nodes := Some generic_pll_pre_src_nodes; num_nodes := ARRAY_SIZE generic_pll_pre_src_nodes |});
    (CLK_RPLL_HALF, {| name := "rpll_half";
      control_reg := CRL_APB_RPLL_CTRL; status_reg := CRF_APB_PLL_STATUS;
      parents := Some [CLK_RPLL_INT;
        CLK_NA_PARENT];
      nodes := Some generic_pll_half_nodes; num_nodes := ARRAY_SIZE generic_pll_half_nodes |});
    (CLK_RPLL_INT_MUX, {| name := "rpll_int_mux";
      control_reg := CRL_APB_RPLL_CTRL; status_reg := CRF_APB_PLL_STATUS;
      parents := Some [CLK_RPLL_INT;
        CLK_RPLL_HALF;
        CLK_NA_PARENT];
      nodes := Some generic_pll_int_nodes; num_nodes := ARRAY_SIZE generic_pll_int_nodes |});
    (CLK_RPLL_POST_SRC, {| name := "rpll_post_src";
      control_reg := CRL_APB_RPLL_CTRL; status_reg := CRF_APB_PLL_STATUS;
      parents := Some [EXT_CLK_PSS_REF .| CLK_EXTERNAL_PARENT;
        EXT_CLK_PSS_REF .| CLK_EXTERNAL_PARENT;
        EXT_CLK_PSS_REF .| CLK_EXTERNAL_PARENT;
        EXT_CLK_PSS_REF .| CLK_EXTERNAL_PARENT;
        EXT_CLK_VIDEO .| CLK_EXTERNAL_PARENT;
        EXT_CLK_PSS_ALT_REF .| CLK_EXTERNAL_PARENT;
        EXT_CLK_AUX_REF .| CLK_EXTERNAL_PARENT;
        EXT_CLK_GT_CRX_REF .| CLK_EXTERNAL_PARENT;
        CLK_NA_PARENT];
      nodes := Some generic_pll_post_src_nodes; num_nodes := ARRAY_SIZE generic_pll_post_src_nodes |});
    (CLK_RPLL, {| name := "rpll";
      control_reg := CRL_APB_RPLL_CTRL; status_reg := CRL_APB_PLL_STATUS;
      parents := Some [CLK_RPLL_INT_MUX;
        CLK_RPLL_POST_SRC;
        CLK_NA_PARENT];
      nodes := Some generic_pll_system_nodes; num_nodes := ARRAY_SIZE generic_pll_system_nodes |}) ].

Definition clocks_periph_1 : list (Z * pm_clock) :=
  [ (CLK_ACPU, {| name := "acpu";
      control_reg := CRF_APB_ACPU_CTRL; status_reg := 0;
      parents := Some [CLK_APLL;
        CLK_DUMMY_PARENT;
        CLK_DPLL;
        CLK_VPLL;
        CLK_NA_PARENT];
      nodes := Some acpu_nodes; num_nodes := ARRAY_SIZE acpu_nodes |});
    (CLK_ACPU_FULL, {| name := "acpu_full";
      control_reg := CRF_APB_ACPU_CTRL; status_reg := 0;
      parents := Some [CLK_ACPU .| (PARENT_CLK_NODE2 .<< CLK_PARENTS_ID_LEN);
        CLK_NA_PARENT];
      nodes := Some acpu_full_nodes; num_nodes := ARRAY_SIZE acpu_full_nodes |});
    (CLK_DBG_TRACE, {| name := "dbg_trace";
      control_reg := CRF_APB_DBG_TRACE_CTRL; status_reg := 0;
      parents := Some [CLK_IOPLL_TO_FPD;
        CLK_DUMMY_PARENT;
        CLK_DPLL;
        CLK_APLL;
        CLK_NA_PARENT];
      nodes := Some generic_mux_div_gate_nodes; num_nodes := ARRAY_SIZE generic_mux_div_gate_nodes |});
    (CLK_DBG_FPD, {| name := "dbg_fpd";
      control_reg := CRF_APB_DBG_FPD_CTRL; status_reg := 0;
      parents := Some [CLK_IOPLL_TO_FPD;
        CLK_DUMMY_PARENT;
        CLK_DPLL;
        CLK_APLL;
        CLK_NA_PARENT];
      nodes := Some generic_mux_div_gate_nodes; num_nodes := ARRAY_SIZE generic_mux_div_gate_nodes |});
    (CLK_DBG_TSTMP, {| name := "dbg_tstmp";
      control_reg := CRF_APB_DBG_TSTMP_CTRL; status_reg := 0;
      parents := Some [CLK_IOPLL_TO_FPD;
        CLK_DUMMY_PARENT;
        CLK_DPLL;
        CLK_APLL;
        CLK_NA_PARENT];
      nodes := Some generic_mux_div_nodes; num_nodes := ARRAY_SIZE generic_mux_div_nodes |});
    (CLK_DP_VIDEO_REF, {| name := "dp_video_ref";
      control_reg := CRF_APB_DP_VIDEO_REF_CTRL; status_reg := 0;
      parents := Some [CLK_VPLL;
        CLK_DUMMY_PARENT;
        CLK_DPLL;
        CLK_RPLL_TO_FPD;
        CLK_NA_PARENT];
      nodes := Some dp_audio_video_ref_nodes; num_nodes := ARRAY_SIZE dp_audio_video_ref_nodes |});
    (CLK_DP_AUDIO_REF, {| name := "dp_audio_ref";
      control_reg := CRF_APB_DP_AUDIO_REF_CTRL; status_reg := 0;
      parents := Some [CLK_VPLL;
        CLK_DUMMY_PARENT;
        CLK_DPLL;
        CLK_RPLL_TO_FPD;
        CLK_NA_PARENT];
      nodes := Some dp_audio_video_ref_nodes; num_nodes := ARRAY_SIZE dp_audio_video_ref_nodes |});
    (CLK_DP_STC_REF, {| name := "dp_stc_ref";
      control_reg := CRF_APB_DP_STC_REF_CTRL; status_reg := 0;
      parents := Some [CLK_VPLL;
        CLK_DUMMY_PARENT;
        CLK_DPLL;
        CLK_RPLL_TO_FPD;
        CLK_NA_PARENT];
      nodes := Some generic_mux_div_div_gate_nodes; num_nodes := ARRAY_SIZE generic_mux_div_div_gate_nodes |});
    (CLK_DPDMA_REF, {| name := "dpdma_ref";
      control_reg := CRF_APB_DPDMA_REF_CTRL; status_reg := 0;
      parents := Some [CLK_APLL;
        CLK_DUMMY_PARENT;
        CLK_VPLL;
        CLK_DPLL;
        CLK_NA_PARENT];
      nodes := Some generic_mux_div_gate_nodes; num_nodes := ARRAY_SIZE generic_mux_div_gate_nodes |});
    (CLK_DDR_REF, {| name := "ddr_ref";
      control_reg := CRF_APB_DDR_CTRL; status_reg := 0;
      parents := Some [CLK_DPLL;
        CLK_VPLL;
        CLK_NA_PARENT];
      nodes := Some ddr_nodes; num_nodes := ARRAY_SIZE ddr_nodes |}) ].

Definition clocks_periph_2 : list (Z * pm_clock) :=
  [ (CLK_GPU_REF, {| name := "gpu_ref";
      control_reg := CRF_APB_GPU_REF_CTRL; status_reg := 0;
      parents := Some [CLK_IOPLL_TO_FPD;
        CLK_DUMMY_PARENT;
        CLK_VPLL;
        CLK_DPLL;
        CLK_NA_PARENT];
      nodes := Some generic_mux_div_gate_nodes; num_nodes := ARRAY_SIZE generic_mux_div_gate_nodes |});
    (CLK_SATA_REF, {| name := "sata_ref";
      control_reg := CRF_APB_SATA_REF_CTRL; status_reg := 0;
      parents := Some [CLK_IOPLL_TO_FPD;
        CLK_DUMMY_PARENT;
        CLK_APLL;
        CLK_DPLL;
        CLK_NA_PARENT];
      nodes := Some generic_mux_div_gate_nodes; num_nodes := ARRAY_SIZE generic_mux_div_gate_nodes |});
    (CLK_PCIE_REF, {| name := "pcie_ref";
      control_reg := CRF_APB_PCIE_REF_CTRL; status_reg := 0;
      parents := Some [CLK_IOPLL_TO_FPD;
        CLK_DUMMY_PARENT;
        CLK_RPLL_TO_FPD;
        CLK_DPLL;
        CLK_NA_PARENT];
      nodes := Some generic_mux_div_gate_nodes; num_nodes := ARRAY_SIZE generic_mux_div_gate_nodes |});
    (CLK_GDMA_REF, {| name := "gdma_ref";
      control_reg := CRF_APB_GDMA_REF_CTRL; status_reg := 0;
      parents := Some [CLK_APLL;
        CLK_DUMMY_PARENT;
        CLK_VPLL;
        CLK_DPLL;
        CLK_NA_PARENT];
      nodes := Some generic_mux_div_gate_nodes; num_nodes := ARRAY_SIZE generic_mux_div_gate_nodes |});
    (CLK_GTGREF0_REF, {| name := "gtgref0_ref";
      control_reg := CRF_APB_GTGREF0_REF_CTRL; status_reg := 0;
      parents := Some [CLK_IOPLL_TO_FPD;
        CLK_DUMMY_PARENT;
        CLK_APLL;
        CLK_DPLL;
        CLK_NA_PARENT];
      nodes := Some generic_mux_div_gate_nodes; num_nodes := ARRAY_SIZE generic_mux_div_gate_nodes |});
    (CLK_TOPSW_MAIN, {| name := "topsw_main";
      control_reg := CRF_APB_TOPSW_MAIN_CTRL; status_reg := 0;
      parents := Some [CLK_APLL;
        CLK_DUMMY_PARENT;
        CLK_VPLL;
        CLK_DPLL;
        CLK_NA_PARENT];
      nodes := Some generic_mux_div_unused_gate_nodes; num_nodes := ARRAY_SIZE generic_mux_div_unused_gate_nodes |});
    (CLK_TOPSW_LSBUS, {| name := "topsw_lsbus";
      control_reg := CRF_APB_TOPSW_LSBUS_CTRL; status_reg := 0;
      parents := Some [CLK_APLL;
        CLK_DUMMY_PARENT;
        CLK_IOPLL_TO_FPD;
        CLK_DPLL;
        CLK_NA_PARENT];
      nodes := Some generic_mux_div_unused_gate_nodes; num_nodes := ARRAY_SIZE generic_mux_div_unused_gate_nodes |});
    (CLK_IOU_SWITCH, {| name := "iou_switch";
      control_reg := CRL_APB_IOU_SWITCH_CTRL; status_reg := 0;
      parents := Some [CLK_RPLL;
        CLK_DUMMY_PARENT;
        CLK_IOPLL;
        CLK_DPLL_TO_LPD;
        CLK_NA_PARENT];
      nodes := Some generic_mux_div_unused_gate_nodes; num_nodes := ARRAY_SIZE generic_mux_div_unused_gate_nodes |});
    (CLK_GEM0_REF_UNGATED, {| name := "gem0_ref_ung";
      control_reg := CRL_APB_GEM0_REF_CTRL; status_reg := 0;
      parents := Some [CLK_IOPLL;
        CLK_DUMMY_PARENT;
        CLK_RPLL;
        CLK_DPLL_TO_LPD;
        CLK_NA_PARENT];
      nodes := Some gem_ref_ungated_nodes; num_nodes := ARRAY_SIZE gem_ref_ungated_nodes |});
    (CLK_GEM1_REF_UNGATED, {| name := "gem1_ref_ung";
      control_reg := CRL_APB_GEM1_REF_CTRL; status_reg := 0;
      parents := Some [CLK_IOPLL;
        CLK_DUMMY_PARENT;
        CLK_RPLL;
        CLK_DPLL_TO_LPD;
        CLK_NA_PARENT];
      nodes := Some gem_ref_ungated_nodes; num_nodes := ARRAY_SIZE gem_ref_ungated_nodes |}) ].

Definition clocks_periph_3 : list (Z * pm_clock) :=
  [ (CLK_GEM2_REF_UNGATED, {| name := "gem2_ref_ung";
      control_reg := CRL_APB_GEM2_REF_CTRL; status_reg := 0;
      parents := Some [CLK_IOPLL;
        CLK_DUMMY_PARENT;
        CLK_RPLL;
        CLK_DPLL_TO_LPD;
        CLK_NA_PARENT];
      nodes := Some gem_ref_ungated_nodes; num_nodes := ARRAY_SIZE gem_ref_ungated_nodes |});
    (CLK_GEM3_REF_UNGATED, {| name := "gem3_ref_ung";
      control_reg := CRL_APB_GEM3_REF_CTRL; status_reg := 0;
      parents := Some [CLK_IOPLL;
        CLK_DUMMY_PARENT;
        CLK_RPLL;
        CLK_DPLL_TO_LPD;
        CLK_NA_PARENT];
      nodes := Some gem_ref_ungated_nodes; num_nodes := ARRAY_SIZE gem_ref_ungated_nodes |});
    (CLK_GEM0_REF, {| name := "gem0_ref";
      control_reg := IOU_SLCR_GEM_CLK_CTRL; status_reg := 0;
      parents := Some [CLK_GEM0_REF_UNGATED .| ((PARENT_CLK_NODE3 .<< CLK_PARENTS_ID_LEN));
        EXT_CLK_GEM0_TX_EMIO .| CLK_EXTERNAL_PARENT;
        CLK_NA_PARENT];
      nodes := Some gem0_ref_nodes; num_nodes := ARRAY_SIZE gem0_ref_nodes |});
    (CLK_GEM1_REF, {| name := "gem1_ref";
      control_reg := IOU_SLCR_GEM_CLK_CTRL; status_reg := 0;
      parents := Some [CLK_GEM1_REF_UNGATED .| ((PARENT_CLK_NODE3 .<< CLK_PARENTS_ID_LEN));
        EXT_CLK_GEM1_TX_EMIO .| CLK_EXTERNAL_PARENT;
        CLK_NA_PARENT];
      nodes := Some gem1_ref_nodes; num_nodes := ARRAY_SIZE gem1_ref_nodes |});
    (CLK_GEM2_REF, {| name := "gem2_ref";
      control_reg := IOU_SLCR_GEM_CLK_CTRL; status_reg := 0;
      parents := Some [CLK_GEM2_REF_UNGATED .| ((PARENT_CLK_NODE3 .<< CLK_PARENTS_ID_LEN));
        EXT_CLK_GEM2_TX_EMIO .| CLK_EXTERNAL_PARENT;
        CLK_NA_PARENT];
      nodes := Some gem2_ref_nodes; num_nodes := ARRAY_SIZE gem2_ref_nodes |});
    (CLK_GEM3_REF, {| name := "gem3_ref";
      control_reg := IOU_SLCR_GEM_CLK_CTRL; status_reg := 0;
      parents := Some [CLK_GEM3_REF_UNGATED .| ((PARENT_CLK_NODE3 .<< CLK_PARENTS_ID_LEN));
        EXT_CLK_GEM3_TX_EMIO .| CLK_EXTERNAL_PARENT;
        CLK_NA_PARENT];
      nodes := Some gem3_ref_nodes; num_nodes := ARRAY_SIZE gem3_ref_nodes |});
    (CLK_USB0_BUS_REF, {| name := "usb0_bus_ref";
      control_reg := CRL_APB_USB0_BUS_REF_CTRL; status_reg := 0;
      parents := Some [CLK_IOPLL;
        CLK_DUMMY_PARENT;
        CLK_RPLL;
        CLK_DPLL_TO_LPD;
        CLK_NA_PARENT];
      nodes := Some usb_nodes; num_nodes := ARRAY_SIZE usb_nodes |});
    (CLK_USB1_BUS_REF, {| name := "usb1_bus_ref";
      control_reg := CRL_APB_USB1_BUS_REF_CTRL; status_reg := 0;
      parents := Some [CLK_IOPLL;
        CLK_DUMMY_PARENT;
        CLK_RPLL;
        CLK_DPLL_TO_LPD;
        CLK_NA_PARENT];
      nodes := Some usb_nodes; num_nodes := ARRAY_SIZE usb_nodes |});
    (CLK_USB3_DUAL_REF, {| name := "usb3_dual_ref";
      control_reg := CRL_APB_USB3_DUAL_REF_CTRL; status_reg := 0;
      parents := Some [CLK_IOPLL;
        CLK_DUMMY_PARENT;
        CLK_RPLL;
        CLK_DPLL_TO_LPD;
        CLK_NA_PARENT];
      nodes := Some usb_nodes; num_nodes := ARRAY_SIZE usb_nodes |});
    (CLK_QSPI_REF, {| name := "qspi_ref";
      control_reg := CRL_APB_QSPI_REF_CTRL; status_reg := 0;
      parents := Some [CLK_IOPLL;
        CLK_DUMMY_PARENT;
        CLK_RPLL;
        CLK_DPLL_TO_LPD;
        CLK_NA_PARENT];
      nodes := Some generic_mux_div_div_gate_nodes; num_nodes := ARRAY_SIZE generic_mux_div_div_gate_nodes |}) ].

Definition clocks_periph_4 : list (Z * pm_clock) :=
  [ (CLK_SDIO0_REF, {| name := "sdio0_ref";
      control_reg := CRL_APB_SDIO0_REF_CTRL; status_reg := 0;
      parents := Some [CLK_IOPLL;
        CLK_DUMMY_PARENT;
        CLK_RPLL;
        CLK_VPLL_TO_LPD;
        CLK_NA_PARENT];
      nodes := Some generic_mux_div_div_gate_nodes; num_nodes := ARRAY_SIZE generic_mux_div_div_gate_nodes |});
    (CLK_SDIO1_REF, {| name := "sdio1_ref";
      control_reg := CRL_APB_SDIO1_REF_CTRL; status_reg := 0;
      parents := Some [CLK_IOPLL;
        CLK_DUMMY_PARENT;
        CLK_RPLL;
        CLK_VPLL_TO_LPD;
        CLK_NA_PARENT];
      nodes := Some generic_mux_div_div_gate_nodes; num_nodes := ARRAY_SIZE generic_mux_div_div_gate_nodes |});
    (CLK_UART0_REF, {| name := "uart0_ref";
      control_reg := CRL_APB_UART0_REF_CTRL; status_reg := 0;
      parents := Some [CLK_IOPLL;
        CLK_DUMMY_PARENT;
        CLK_RPLL;
        CLK_DPLL_TO_LPD;
        CLK_NA_PARENT];
      nodes := Some generic_mux_div_div_gate_nodes; num_nodes := ARRAY_SIZE generic_mux_div_div_gate_nodes |});
    (CLK_UART1_REF, {| name := "uart1_ref";
      control_reg := CRL_APB_UART1_REF_CTRL; status_reg := 0;
      parents := Some [CLK_IOPLL;
        CLK_DUMMY_PARENT;
        CLK_RPLL;
        CLK_DPLL_TO_LPD;
        CLK_NA_PARENT];
      nodes := Some generic_mux_div_div_gate_nodes; num_nodes := ARRAY_SIZE generic_mux_div_div_gate_nodes |});
    (CLK_SPI0_REF, {| name := "spi0_ref";
      control_reg := CRL_APB_SPI0_REF_CTRL; status_reg := 0;
      parents := Some [CLK_IOPLL;
        CLK_DUMMY_PARENT;
        CLK_RPLL;
        CLK_DPLL_TO_LPD;
        CLK_NA_PARENT];
      nodes := Some generic_mux_div_div_gate_nodes; num_nodes := ARRAY_SIZE generic_mux_div_div_gate_nodes |});
    (CLK_SPI1_REF, {| name := "spi1_ref";
      control_reg := CRL_APB_SPI1_REF_CTRL; status_reg := 0;
      parents := Some [CLK_IOPLL;
        CLK_DUMMY_PARENT;
        CLK_RPLL;
        CLK_DPLL_TO_LPD;
        CLK_NA_PARENT];
      nodes := Some generic_mux_div_div_gate_nodes; num_nodes := ARRAY_SIZE generic_mux_div_div_gate_nodes |});
    (CLK_CAN0_REF, {| name := "can0_ref";
      control_reg := CRL_APB_CAN0_REF_CTRL; status_reg := 0;
      parents := Some [CLK_IOPLL;
        CLK_DUMMY_PARENT;
        CLK_RPLL;
        CLK_DPLL_TO_LPD;
        CLK_NA_PARENT];
      nodes := Some generic_mux_div_div_gate_nodes; num_nodes := ARRAY_SIZE generic_mux_div_div_gate_nodes |});
    (CLK_CAN1_REF, {| name := "can1_ref";
      control_reg := CRL_APB_CAN1_REF_CTRL; status_reg := 0;
      parents := Some [CLK_IOPLL;
        CLK_DUMMY_PARENT;
        CLK_RPLL;
        CLK_DPLL_TO_LPD;
        CLK_NA_PARENT];
      nodes := Some generic_mux_div_div_gate_nodes; num_nodes := ARRAY_SIZE generic_mux_div_div_gate_nodes |});
    (CLK_NAND_REF, {| name := "nand_ref";
      control_reg := CRL_APB_NAND_REF_CTRL; status_reg := 0;
      parents := Some [CLK_IOPLL;
        CLK_DUMMY_PARENT;
        CLK_RPLL;
        CLK_DPLL_TO_LPD;
        CLK_NA_PARENT];
      nodes := Some generic_mux_div_div_gate_nodes; num_nodes := ARRAY_SIZE generic_mux_div_div_gate_nodes |});
    (CLK_GEM_TSU_REF, {| name := "gem_tsu_ref";
      control_reg := CRL_APB_GEM_TSU_REF_CTRL; status_reg := 0;
      parents := Some [CLK_IOPLL;
        CLK_DUMMY_PARENT;
        CLK_RPLL;
        CLK_DPLL_TO_LPD;
        CLK_NA_PARENT];
      nodes := Some generic_mux_div_div_gate_nodes; num_nodes := ARRAY_SIZE generic_mux_div_div_gate_nodes |}) ].

Definition clocks_periph_5 : list (Z * pm_clock) :=
  [ (CLK_DLL_REF, {| name := "dll_ref";
      control_reg := CRL_APB_DLL_REF_CTRL; status_reg := 0;
      parents := Some [CLK_IOPLL;
        CLK_RPLL;
        CLK_NA_PARENT];
      nodes := Some dll_ref_nodes; num_nodes := ARRAY_SIZE dll_ref_nodes |});
    (CLK_ADMA_REF, {| name := "adma_ref";
      control_reg := CRL_APB_ADMA_REF_CTRL; status_reg := 0;
      parents := Some [CLK_RPLL;
        CLK_DUMMY_PARENT;
        CLK_IOPLL;
        CLK_DPLL_TO_LPD;
        CLK_NA_PARENT];
      nodes := Some generic_mux_div_gate_nodes; num_nodes := ARRAY_SIZE generic_mux_div_gate_nodes |});
    (CLK_DBG_LPD, {| name := "dbg_lpd";
      control_reg := CRL_APB_DBG_LPD_CTRL; status_reg := 0;
      parents := Some [CLK_RPLL;
        CLK_DUMMY_PARENT;
        CLK_IOPLL;
        CLK_DPLL_TO_LPD;
        CLK_NA_PARENT];
      nodes := Some generic_mux_div_gate_nodes; num_nodes := ARRAY_SIZE generic_mux_div_gate_nodes |});
    (CLK_CPU_R5, {| name := "cpu_r5";
      control_reg := CRL_APB_CPU_R5_CTRL; status_reg := 0;
      parents := Some [CLK_RPLL;
        CLK_DUMMY_PARENT;
        CLK_IOPLL;
        CLK_DPLL_TO_LPD;
        CLK_NA_PARENT];
      nodes := Some generic_mux_div_unused_gate_nodes; num_nodes := ARRAY_SIZE generic_mux_div_unused_gate_nodes |});
    (CLK_CSU_PLL, {| name := "csu_pll";
      control_reg := CRL_APB_CSU_PLL_CTRL; status_reg := 0;
      parents := Some [CLK_IOPLL;
        CLK_DUMMY_PARENT;
        CLK_RPLL;
        CLK_DPLL_TO_LPD;
        CLK_NA_PARENT];
      nodes := Some generic_mux_div_gate_nodes; num_nodes := ARRAY_SIZE generic_mux_div_gate_nodes |});
    (CLK_PCAP, {| name := "pcap";
      control_reg := CRL_APB_PCAP_CTRL; status_reg := 0;
      parents := Some [CLK_IOPLL;
        CLK_DUMMY_PARENT;
        CLK_RPLL;
        CLK_DPLL_TO_LPD;
        CLK_NA_PARENT];
      nodes := Some generic_mux_div_gate_nodes; num_nodes := ARRAY_SIZE generic_mux_div_gate_nodes |});
    (CLK_LPD_LSBUS, {| name := "lpd_lsbus";
      control_reg := CRL_APB_LPD_LSBUS_CTRL; status_reg := 0;
      parents := Some [CLK_RPLL;
        CLK_DUMMY_PARENT;
        CLK_IOPLL;
        CLK_DPLL_TO_LPD;
        CLK_NA_PARENT];
      nodes := Some generic_mux_div_unused_gate_nodes; num_nodes := ARRAY_SIZE generic_mux_div_unused_gate_nodes |});
    (CLK_LPD_SWITCH, {| name := "lpd_switch";
      control_reg := CRL_APB_LPD_SWITCH_CTRL; status_reg := 0;
      parents := Some [CLK_RPLL;
        CLK_DUMMY_PARENT;
        CLK_IOPLL;
        CLK_DPLL_TO_LPD;
        CLK_NA_PARENT];
      nodes := Some generic_mux_div_unused_gate_nodes; num_nodes := ARRAY_SIZE generic_mux_div_unused_gate_nodes |});
    (CLK_I2C0_REF, {| name := "i2c0_ref";
      control_reg := CRL_APB_I2C0_REF_CTRL; status_reg := 0;
      parents := Some [CLK_IOPLL;
        CLK_DUMMY_PARENT;
        CLK_RPLL;
        CLK_DPLL_TO_LPD;
        CLK_NA_PARENT];
      nodes := Some generic_mux_div_div_gate_nodes; num_nodes := ARRAY_SIZE generic_mux_div_div_gate_nodes |});
    (CLK_I2C1_REF, {| name := "i2c1_ref";
      control_reg := CRL_APB_I2C1_REF_CTRL; status_reg := 0;
      parents := Some [CLK_IOPLL;
        CLK_DUMMY_PARENT;
        CLK_RPLL;
        CLK_DPLL_TO_LPD;
        CLK_NA_PARENT];
      nodes := Some generic_mux_div_div_gate_nodes; num_nodes := ARRAY_SIZE generic_mux_div_div_gate_nodes |}) ].

Definition clocks_periph_6 : list (Z * pm_clock) :=
  [ (CLK_TIMESTAMP_REF, {| name := "timestamp_ref";
      control_reg := CRL_APB_TIMESTAMP_REF_CTRL; status_reg := 0;
      parents := Some [CLK_IOPLL;
        CLK_DUMMY_PARENT;
        CLK_RPLL;
        CLK_DPLL_TO_LPD;
        EXT_CLK_PSS_REF .| CLK_EXTERNAL_PARENT;
        EXT_CLK_PSS_REF .| CLK_EXTERNAL_PARENT;
        EXT_CLK_PSS_REF .| CLK_EXTERNAL_PARENT;
        EXT_CLK_PSS_REF .| CLK_EXTERNAL_PARENT;
        CLK_NA_PARENT];
      nodes := Some timestamp_ref_nodes; num_nodes := ARRAY_SIZE timestamp_ref_nodes |});
    (CLK_PL0_REF, {| name := "pl0_ref";
      control_reg := CRL_APB_PL0_REF_CTRL; status_reg := 0;
      parents := Some [CLK_IOPLL;
        CLK_DUMMY_PARENT;
        CLK_RPLL;
        CLK_DPLL_TO_LPD;
        CLK_NA_PARENT];
      nodes := Some pl_nodes; num_nodes := ARRAY_SIZE pl_nodes |});
    (CLK_PL1_REF, {| name := "pl1_ref";
      control_reg := CRL_APB_PL1_REF_CTRL; status_reg := 0;
      parents := Some [CLK_IOPLL;
        CLK_DUMMY_PARENT;
        CLK_RPLL;
        CLK_DPLL_TO_LPD;
        CLK_NA_PARENT];
      nodes := Some pl_nodes; num_nodes := ARRAY_SIZE pl_nodes |});
    (CLK_PL2_REF, {| name := "pl2_ref";
      control_reg := CRL_APB_PL2_REF_CTRL; status_reg := 0;
      parents := Some [CLK_IOPLL;
        CLK_DUMMY_PARENT;
        CLK_RPLL;
        CLK_DPLL_TO_LPD;
        CLK_NA_PARENT];
      nodes := Some pl_nodes; num_nodes := ARRAY_SIZE pl_nodes |});
    (CLK_PL3_REF, {| name := "pl3_ref";
      control_reg := CRL_APB_PL3_REF_CTRL; status_reg := 0;
      parents := Some [CLK_IOPLL;
        CLK_DUMMY_PARENT;
        CLK_RPLL;
        CLK_DPLL_TO_LPD;
        CLK_NA_PARENT];
      nodes := Some pl_nodes; num_nodes := ARRAY_SIZE pl_nodes |});
    (CLK_AMS_REF, {| name := "ams_ref";
      control_reg := CRL_APB_AMS_REF_CTRL; status_reg := 0;
      parents := Some [CLK_RPLL;
        CLK_DUMMY_PARENT;
        CLK_IOPLL;
        CLK_DPLL_TO_LPD;
        CLK_NA_PARENT];
      nodes := Some generic_mux_div_div_gate_nodes; num_nodes := ARRAY_SIZE generic_mux_div_div_gate_nodes |});
    (CLK_IOPLL_TO_FPD, {| name := "iopll_to_fpd";
      control_reg := CRL_APB_IOPLL_TO_FPD_CTRL; status_reg := 0;
      parents := Some [CLK_IOPLL;
        CLK_NA_PARENT];
      nodes := Some generic_domain_crossing_nodes; num_nodes := ARRAY_SIZE generic_domain_crossing_nodes |});
    (CLK_RPLL_TO_FPD, {| name := "rpll_to_fpd";
      control_reg := CRL_APB_RPLL_TO_FPD_CTRL; status_reg := 0;
      parents := Some [CLK_RPLL;
        CLK_NA_PARENT];
      nodes := Some rpll_to_fpd_nodes; num_nodes := ARRAY_SIZE rpll_to_fpd_nodes |});
    (CLK_APLL_TO_LPD, {| name := "apll_to_lpd";
      control_reg := CRF_APB_APLL_TO_LPD_CTRL; status_reg := 0;
      parents := Some [CLK_APLL;
        CLK_NA_PARENT];
      nodes := Some generic_domain_crossing_nodes; num_nodes := ARRAY_SIZE generic_domain_crossing_nodes |});
    (CLK_DPLL_TO_LPD, {| name := "dpll_to_lpd";
      control_reg := CRF_APB_DPLL_TO_LPD_CTRL; status_reg := 0;
      parents := Some [CLK_DPLL;
        CLK_NA_PARENT];
      nodes := Some generic_domain_crossing_nodes; num_nodes := ARRAY_SIZE generic_domain_crossing_nodes |});
    (CLK_VPLL_TO_LPD, {| name := "vpll_to_lpd";
      control_reg := CRF_APB_VPLL_TO_LPD_CTRL; status_reg := 0;
      parents := Some [CLK_VPLL;
        CLK_NA_PARENT];
      nodes := Some generic_domain_crossing_nodes; num_nodes := ARRAY_SIZE generic_domain_crossing_nodes |});
    (CLK_GEM0_TX, {| name := "gem0_tx";
      control_reg := CRL_APB_GEM0_REF_CTRL; status_reg := 0;
      parents := Some [CLK_GEM0_REF;
        CLK_NA_PARENT];
      nodes := Some gem_tx_nodes; num_nodes := ARRAY_SIZE gem_tx_nodes |}) ].

Definition clocks_periph_7 : list (Z * pm_clock) :=
  [ (CLK_GEM1_TX, {| name := "gem1_tx";
      control_reg := CRL_APB_GEM1_REF_CTRL; status_reg := 0;
      parents := Some [CLK_GEM1_REF;
        CLK_NA_PARENT];
      nodes := Some gem_tx_nodes; num_nodes := ARRAY_SIZE gem_tx_nodes |});
    (CLK_GEM2_TX, {| name := "gem2_tx";
      control_reg := CRL_APB_GEM2_REF_CTRL; status_reg := 0;
      parents := Some [CLK_GEM2_REF;
        CLK_NA_PARENT];
      nodes := Some gem_tx_nodes; num_nodes := ARRAY_SIZE gem_tx_nodes |});
    (CLK_GEM3_TX, {| name := "gem3_tx";
      control_reg := CRL_APB_GEM3_REF_CTRL; status_reg := 0;
      parents := Some [CLK_GEM3_REF;
        CLK_NA_PARENT];
      nodes := Some gem_tx_nodes; num_nodes := ARRAY_SIZE gem_tx_nodes |});
    (CLK_GEM0_RX, {| name := "gem0_rx";
      control_reg := CRL_APB_GEM0_REF_CTRL; status_reg := 0;
      parents := Some [EXT_CLK_GEM0_RX_EMIO .| CLK_EXTERNAL_PARENT;
        CLK_NA_PARENT];
      nodes := Some gem_rx_nodes; num_nodes := ARRAY_SIZE gem_rx_nodes |});
    (CLK_GEM1_RX, {| name := "gem1_rx";
      control_reg := CRL_APB_GEM1_REF_CTRL; status_reg := 0;
      parents := Some [EXT_CLK_GEM1_RX_EMIO .| CLK_EXTERNAL_PARENT;
        CLK_NA_PARENT];
      nodes := Some gem_rx_nodes; num_nodes := ARRAY_SIZE gem_rx_nodes |});
    (CLK_GEM2_RX, {| name := "gem2_rx";
      control_reg := CRL_APB_GEM2_REF_CTRL; status_reg := 0;
      parents := Some [EXT_CLK_GEM2_RX_EMIO .| CLK_EXTERNAL_PARENT;
        CLK_NA_PARENT];
      nodes := Some gem_rx_nodes; num_nodes := ARRAY_SIZE gem_rx_nodes |});
    (CLK_GEM3_RX, {| name := "gem3_rx";
      control_reg := CRL_APB_GEM3_REF_CTRL; status_reg := 0;
      parents := Some [EXT_CLK_GEM3_RX_EMIO .| CLK_EXTERNAL_PARENT;
        CLK_NA_PARENT];
      nodes := Some gem_rx_nodes; num_nodes := ARRAY_SIZE gem_rx_nodes |});
    (CLK_ACPU_HALF, {| name := "acpu_half";
      control_reg := CRF_APB_ACPU_CTRL; status_reg := 0;
      parents := Some [CLK_ACPU .| (PARENT_CLK_NODE2 .<< CLK_PARENTS_ID_LEN);
        CLK_NA_PARENT];
      nodes := Some acpu_half_nodes; num_nodes := ARRAY_SIZE acpu_half_nodes |});
    (CLK_FPD_WDT, {| name := "fpd_wdt";
      control_reg := FPD_SLCR_WDT_CLK_SEL; status_reg := 0;
      parents := Some [CLK_TOPSW_LSBUS;
        EXT_CLK_SWDT0 .| CLK_EXTERNAL_PARENT;
        CLK_NA_PARENT];
      nodes := Some wdt_nodes; num_nodes := ARRAY_SIZE wdt_nodes |});
    (CLK_GPU_PP0_REF, {| name := "gpu_pp0_ref";
      control_reg := CRF_APB_GPU_REF_CTRL; status_reg := 0;
      parents := Some [CLK_GPU_REF .| (PARENT_CLK_NODE2 .<< CLK_PARENTS_ID_LEN);
        CLK_NA_PARENT];
      nodes := Some gpu_pp0_nodes; num_nodes := ARRAY_SIZE gpu_pp0_nodes |});
    (CLK_GPU_PP1_REF, {| name := "gpu_pp1_ref";
      control_reg := CRF_APB_GPU_REF_CTRL; status_reg := 0;
      parents := Some [CLK_GPU_REF .| (PARENT_CLK_NODE2 .<< CLK_PARENTS_ID_LEN);
        CLK_NA_PARENT];
      nodes := Some gpu_pp1_nodes; num_nodes := ARRAY_SIZE gpu_pp1_nodes |});
    (CLK_GEM_TSU, {| name := "gem_tsu";
      control_reg := IOU_SLCR_GEM_CLK_CTRL; status_reg := 0;
      parents := Some [CLK_GEM_TSU_REF;
        CLK_GEM_TSU_REF;
        EXT_CLK_MIO26 .| CLK_EXTERNAL_PARENT;
        EXT_CLK_MIO50_OR_MIO51 .| CLK_EXTERNAL_PARENT;
        CLK_NA_PARENT];
      nodes := Some gem_tsu_nodes; num_nodes := ARRAY_SIZE gem_tsu_nodes |});
    (CLK_CPU_R5_CORE, {| name := "cpu_r5_core";
      control_reg := CRL_APB_CPU_R5_CTRL; status_reg := 0;
      parents := Some [CLK_CPU_R5 .| (PARENT_CLK_NODE2 .<< CLK_PARENTS_ID_LEN);
        CLK_DUMMY_PARENT;
        CLK_NA_PARENT];
      nodes := Some cpu_r5_core_nodes; num_nodes := ARRAY_SIZE cpu_r5_core_nodes |}) ].

Definition clocks_periph_8 : list (Z * pm_clock) :=
  [ (CLK_CAN0_MIO, {| name := "can0_mio";
      control_reg := IOU_SLCR_CAN_MIO_CTRL; status_reg := 0;
      parents := Some can_mio_parents;
      nodes := Some can0_mio_nodes; num_nodes := ARRAY_SIZE can0_mio_nodes |});
    (CLK_CAN1_MIO, {| name := "can1_mio";
      control_reg := IOU_SLCR_CAN_MIO_CTRL; status_reg := 0;
      parents := Some can_mio_parents;
      nodes := Some can1_mio_nodes; num_nodes := ARRAY_SIZE can1_mio_nodes |});
    (CLK_CAN0, {| name := "can0";
      control_reg := IOU_SLCR_CAN_MIO_CTRL; status_reg := 0;
      parents := Some [CLK_CAN0_REF;
        CLK_CAN0_MIO;
        CLK_NA_PARENT];
      nodes := Some can0_nodes; num_nodes := ARRAY_SIZE can0_nodes |});
    (CLK_CAN1, {| name := "can1";
      control_reg := IOU_SLCR_CAN_MIO_CTRL; status_reg := 0;
      parents := Some [CLK_CAN1_REF;
        CLK_CAN1_MIO;
        CLK_NA_PARENT];
      nodes := Some can1_nodes; num_nodes := ARRAY_SIZE can1_nodes |});
    (CLK_LPD_WDT, {| name := "lpd_wdt";
      control_reg := IOU_SLCR_WDT_CLK_SEL; status_reg := 0;
      parents := Some [CLK_LPD_LSBUS;
        EXT_CLK_SWDT1 .| CLK_EXTERNAL_PARENT;
        CLK_NA_PARENT];
      nodes := Some wdt_nodes; num_nodes := ARRAY_SIZE wdt_nodes |}) ].

Definition clocks : list pm_clock :=
  designated zero_clock
    (clocks_apll ++
     clocks_dpll ++
     clocks_vpll ++
     clocks_iopll ++
     clocks_rpll ++
     clocks_periph_1 ++
     clocks_periph_2 ++
     clocks_periph_3 ++
     clocks_periph_4 ++
     clocks_periph_5 ++
     clocks_periph_6 ++
     clocks_periph_7 ++
     clocks_periph_8).

Definition EXT_CLK_INDEX (n : Z) : Z := n - CLK_MAX_OUTPUT_CLK.
(** The macro pastes its argument into both the designator and the name. *)
Definition EXT_CLK_MIO_DATA (mio : Z) (n : string) : Z * pm_ext_clock :=
  (EXT_CLK_INDEX mio, PmExtClock n).

Definition ext_clocks : list pm_ext_clock :=
  designated (PmExtClock EmptyString)
  [ (EXT_CLK_INDEX EXT_CLK_PSS_REF, PmExtClock "pss_ref_clk");
    (EXT_CLK_INDEX EXT_CLK_VIDEO, PmExtClock "video_clk");
    (EXT_CLK_INDEX EXT_CLK_PSS_ALT_REF, PmExtClock "pss_alt_ref_clk");
    (EXT_CLK_INDEX EXT_CLK_AUX_REF, PmExtClock "aux_ref_clk");
    (EXT_CLK_INDEX EXT_CLK_GT_CRX_REF, PmExtClock "video_clk");
    (EXT_CLK_INDEX EXT_CLK_SWDT0, PmExtClock "swdt0_ext_clk");
    (EXT_CLK_INDEX EXT_CLK_SWDT1, PmExtClock "swdt1_ext_clk");
    (EXT_CLK_INDEX EXT_CLK_GEM0_TX_EMIO, PmExtClock "gem0_tx_ext");
    (EXT_CLK_INDEX EXT_CLK_GEM1_TX_EMIO, PmExtClock "gem1_tx_ext");
    (EXT_CLK_INDEX EXT_CLK_GEM2_TX_EMIO, PmExtClock "gem2_tx_ext");
    (EXT_CLK_INDEX EXT_CLK_GEM3_TX_EMIO, PmExtClock "gem3_tx_ext");
    (EXT_CLK_INDEX EXT_CLK_GEM0_RX_EMIO, PmExtClock "gem0_rx_ext");
    (EXT_CLK_INDEX EXT_CLK_GEM1_RX_EMIO, PmExtClock "gem1_rx_ext");
    (EXT_CLK_INDEX EXT_CLK_GEM2_RX_EMIO, PmExtClock "gem2_rx_ext");
    (EXT_CLK_INDEX EXT_CLK_GEM3_RX_EMIO, PmExtClock "gem3_rx_ext");
    (EXT_CLK_INDEX EXT_CLK_MIO50_OR_MIO51, PmExtClock "mio_clk_50_51");
    EXT_CLK_MIO_DATA EXT_CLK_MIO0 "mio_clk_0";
    EXT_CLK_MIO_DATA EXT_CLK_MIO1 "mio_clk_1";
    EXT_CLK_MIO_DATA EXT_CLK_MIO2 "mio_clk_2";
    EXT_CLK_MIO_DATA EXT_CLK_MIO3 "mio_clk_3";
    EXT_CLK_MIO_DATA EXT_CLK_MIO4 "mio_clk_4";
    EXT_CLK_MIO_DATA EXT_CLK_MIO5 "mio_clk_5";
    EXT_CLK_MIO_DATA EXT_CLK_MIO6 "mio_clk_6";
    EXT_CLK_MIO_DATA EXT_CLK_MIO7 "mio_clk_7";
    EXT_CLK_MIO_DATA EXT_CLK_MIO8 "mio_clk_8";
    EXT_CLK_MIO_DATA EXT_CLK_MIO9 "mio_clk_9";
    EXT_CLK_MIO_DATA EXT_CLK_MIO10 "mio_clk_10";
    EXT_CLK_MIO_DATA EXT_CLK_MIO11 "mio_clk_11";
    EXT_CLK_MIO_DATA EXT_CLK_MIO12 "mio_clk_12";
    EXT_CLK_MIO_DATA EXT_CLK_MIO13 "mio_clk_13";
    EXT_CLK_MIO_DATA EXT_CLK_MIO14 "mio_clk_14";
    EXT_CLK_MIO_DATA EXT_CLK_MIO15 "mio_clk_15";
    EXT_CLK_MIO_DATA EXT_CLK_MIO16 "mio_clk_16";
    EXT_CLK_MIO_DATA EXT_CLK_MIO17 "mio_clk_17";
    EXT_CLK_MIO_DATA EXT_CLK_MIO18 "mio_clk_18";
    EXT_CLK_MIO_DATA EXT_CLK_MIO19 "mio_clk_19";
    EXT_CLK_MIO_DATA EXT_CLK_MIO20 "mio_clk_20";
    EXT_CLK_MIO_DATA EXT_CLK_MIO21 "mio_clk_21";
    EXT_CLK_MIO_DATA EXT_CLK_MIO22 "mio_clk_22";
    EXT_CLK_MIO_DATA EXT_CLK_MIO23 "mio_clk_23";
    EXT_CLK_MIO_DATA EXT_CLK_MIO24 "mio_clk_24";
    EXT_CLK_MIO_DATA EXT_CLK_MIO25 "mio_clk_25";
    EXT_CLK_MIO_DATA EXT_CLK_MIO26 "mio_clk_26";
    EXT_CLK_MIO_DATA EXT_CLK_MIO27 "mio_clk_27";
    EXT_CLK_MIO_DATA EXT_CLK_MIO28 "mio_clk_28";
    EXT_CLK_MIO_DATA EXT_CLK_MIO29 "mio_clk_29";
    EXT_CLK_MIO_DATA EXT_CLK_MIO30 "mio_clk_30";
    EXT_CLK_MIO_DATA EXT_CLK_MIO31 "mio_clk_31";
    EXT_CLK_MIO_DATA EXT_CLK_MIO32 "mio_clk_32";
    EXT_CLK_MIO_DATA EXT_CLK_MIO33 "mio_clk_33";
    EXT_CLK_MIO_DATA EXT_CLK_MIO34 "mio_clk_34";
    EXT_CLK_MIO_DATA EXT_CLK_MIO35 "mio_clk_35";
    EXT_CLK_MIO_DATA EXT_CLK_MIO36 "mio_clk_36";
    EXT_CLK_MIO_DATA EXT_CLK_MIO37 "mio_clk_37";
    EXT_CLK_MIO_DATA EXT_CLK_MIO38 "mio_clk_38";
    EXT_CLK_MIO_DATA EXT_CLK_MIO39 "mio_clk_39";
    EXT_CLK_MIO_DATA EXT_CLK_MIO40 "mio_clk_40";
    EXT_CLK_MIO_DATA EXT_CLK_MIO41 "mio_clk_41";
    EXT_CLK_MIO_DATA EXT_CLK_MIO42 "mio_clk_42";
    EXT_CLK_MIO_DATA EXT_CLK_MIO43 "mio_clk_43";
    EXT_CLK_MIO_DATA EXT_CLK_MIO44 "mio_clk_44";
    EXT_CLK_MIO_DATA EXT_CLK_MIO45 "mio_clk_45";
    EXT_CLK_MIO_DATA EXT_CLK_MIO46 "mio_clk_46";
    EXT_CLK_MIO_DATA EXT_CLK_MIO47 "mio_clk_47";
    EXT_CLK_MIO_DATA EXT_CLK_MIO48 "mio_clk_48";
    EXT_CLK_MIO_DATA EXT_CLK_MIO49 "mio_clk_49";
    EXT_CLK_MIO_DATA EXT_CLK_MIO50 "mio_clk_50";
    EXT_CLK_MIO_DATA EXT_CLK_MIO51 "mio_clk_51";
    EXT_CLK_MIO_DATA EXT_CLK_MIO52 "mio_clk_52";
    EXT_CLK_MIO_DATA EXT_CLK_MIO53 "mio_clk_53";
    EXT_CLK_MIO_DATA EXT_CLK_MIO54 "mio_clk_54";
    EXT_CLK_MIO_DATA EXT_CLK_MIO55 "mio_clk_55";
    EXT_CLK_MIO_DATA EXT_CLK_MIO56 "mio_clk_56";
    EXT_CLK_MIO_DATA EXT_CLK_MIO57 "mio_clk_57";
    EXT_CLK_MIO_DATA EXT_CLK_MIO58 "mio_clk_58";
    EXT_CLK_MIO_DATA EXT_CLK_MIO59 "mio_clk_59";
    EXT_CLK_MIO_DATA EXT_CLK_MIO60 "mio_clk_60";
    EXT_CLK_MIO_DATA EXT_CLK_MIO61 "mio_clk_61";
    EXT_CLK_MIO_DATA EXT_CLK_MIO62 "mio_clk_62";
    EXT_CLK_MIO_DATA EXT_CLK_MIO63 "mio_clk_63";
    EXT_CLK_MIO_DATA EXT_CLK_MIO64 "mio_clk_64";
    EXT_CLK_MIO_DATA EXT_CLK_MIO65 "mio_clk_65";
    EXT_CLK_MIO_DATA EXT_CLK_MIO66 "mio_clk_66";
    EXT_CLK_MIO_DATA EXT_CLK_MIO67 "mio_clk_67";
    EXT_CLK_MIO_DATA EXT_CLK_MIO68 "mio_clk_68";
    EXT_CLK_MIO_DATA EXT_CLK_MIO69 "mio_clk_69";
    EXT_CLK_MIO_DATA EXT_CLK_MIO70 "mio_clk_70";
    EXT_CLK_MIO_DATA EXT_CLK_MIO71 "mio_clk_71";
    EXT_CLK_MIO_DATA EXT_CLK_MIO72 "mio_clk_72";
    EXT_CLK_MIO_DATA EXT_CLK_MIO73 "mio_clk_73";
    EXT_CLK_MIO_DATA EXT_CLK_MIO74 "mio_clk_74";
    EXT_CLK_MIO_DATA EXT_CLK_MIO75 "mio_clk_75";
    EXT_CLK_MIO_DATA EXT_CLK_MIO76 "mio_clk_76";
    EXT_CLK_MIO_DATA EXT_CLK_MIO77 "mio_clk_77" ].

Definition pm_clk_invalid_list : list Z :=
  [ CLK_USB0; CLK_USB1; CLK_CSU_SPB; CLK_ACPU_FULL;
    CLK_ACPU_HALF; CLK_APLL_TO_LPD; CLK_DBG_FPD; CLK_DBG_LPD;
    CLK_DBG_TRACE; CLK_DBG_TSTMP; CLK_DDR_REF; CLK_TOPSW_MAIN;
    CLK_GTGREF0_REF; CLK_LPD_SWITCH; CLK_CPU_R5; CLK_CPU_R5_CORE;
    CLK_CSU_SPB; CLK_CSU_PLL; CLK_PCAP; CLK_IOU_SWITCH;
    CLK_DLL_REF; CLK_TIMESTAMP_REF ].

End ClockData.
