(* ===== verification/PmClock.v ===== *)
(** * Clock queries and PLL control

    The functions of pm_service/pm_api_clock.c over the tables of [ClockData].
    Buffers that the caller passes are in-out lists of words or bytes; every
    table access is checked, so a function that returns has stayed inside the
    tables.  A [struct pm_pll *] is the index of an element of [pm_plls], or
    [None]; the only mutable field, [mode], lives in the statics of the
    service.  The pointers for results are those of the callers in the service,
    which are never null. *)

From S2P Require Import Prelude Machine Ipi PmDefs PmIpi PmReq Paged ClockData.
From Stdlib Require Import String Ascii.
From stdpp Require Import sets strings.
Import Ipi PmDefs PmIpi PmReq Paged ClockData.
#[local] Open Scope Z_scope.
#[local] Open Scope c_scope.

Module PmClock.

(** ** Characters and words *)

Definition byte_of_ascii (c : ascii) : Z := Z.of_N (N_of_ascii c).

(** The characters of a string literal, without the terminator. *)
Definition chars (s : string) : list Z := map byte_of_ascii (list_ascii_of_string s).

(** [char a[n] = s]: filled with zeros, cut at the size of the array. *)
Definition char_array (n : nat) (s : string) : list Z := take n (chars s ++ repeat 0 n).

Definition END_OF_CLK : list Z := chars "END_OF_CLK" ++ [0].

Record pm_pll := PmPll {
  nid : Z;
  cid : Z;
  pre_src : Z;
  post_src : Z;
  div2 : Z;
  bypass : Z
}.

Definition pm_plls : list pm_pll :=
  [PmPll NODE_IOPLL CLK_IOPLL_INT CLK_IOPLL_PRE_SRC CLK_IOPLL_POST_SRC CLK_IOPLL_INT_MUX CLK_IOPLL;
   PmPll NODE_RPLL CLK_RPLL_INT CLK_RPLL_PRE_SRC CLK_RPLL_POST_SRC CLK_RPLL_INT_MUX CLK_RPLL;
   PmPll NODE_APLL CLK_APLL_INT CLK_APLL_PRE_SRC CLK_APLL_POST_SRC CLK_APLL_INT_MUX CLK_APLL;
   PmPll NODE_VPLL CLK_VPLL_INT CLK_VPLL_PRE_SRC CLK_VPLL_POST_SRC CLK_VPLL_INT_MUX CLK_VPLL;
   PmPll NODE_DPLL CLK_DPLL_INT CLK_DPLL_PRE_SRC CLK_DPLL_POST_SRC CLK_DPLL_INT_MUX CLK_DPLL].

Definition pm_clock_valid (clock_id : Z) : bool :=
  negb (existsb (fun c => c =? clock_id) pm_clk_invalid_list).

Definition pm_clock_type (clock_id : Z) : Z :=
  if clock_id <? CLK_MAX_OUTPUT_CLK then CLK_TYPE_OUTPUT else CLK_TYPE_EXTERNAL.

(** Word describing one node of a topology. *)
Definition topology_word (n : pm_clock_node) : Z :=
  u32 (node_type n .| (clkflags n .<< CLK_CLKFLAGS_SHIFT)
       .| ((typeflags n .& CLK_TYPEFLAGS_BITS_MASK) .<< CLK_TYPEFLAGS_SHIFT)
       .| ((typeflags n .& CLK_TYPEFLAGS2_BITS_MASK) .>> (CLK_TYPEFLAGS_BITS - CLK_TYPEFLAGS2_SHIFT))).

Section Ops.
Context `{Env} {V : Type} `{!Has ipi V} `{!Has pm V}.

Definition pm_api_clock_get_num_clocks (nclocks : Z) : M V (Z * Z) := ret (PM_RET_SUCCESS, CLK_MAX).

Definition pm_api_clock_get_name (clock_id : Z) (name : list Z) : M V (list Z) :=
  if clock_id =? CLK_MAX then
    copy_into name (take (Z.to_nat (if ARRAY_SIZE END_OF_CLK >? CLK_NAME_LEN
                                    then CLK_NAME_LEN else ARRAY_SIZE END_OF_CLK)) END_OF_CLK)
  else if negb (pm_clock_valid clock_id) then copy_into name (repeat 0 (Z.to_nat CLK_NAME_LEN))
  else if clock_id <? CLK_MAX_OUTPUT_CLK then
    c <- aread clocks clock_id ;;
    copy_into name (char_array (Z.to_nat CLK_NAME_LEN) (ClockData.name c))
  else
    e <- aread ext_clocks (clock_id - CLK_MAX_OUTPUT_CLK) ;;
    copy_into name (char_array (Z.to_nat CLK_NAME_LEN) (ext_name e)).

(** Node [i] of a clock: its node array may be a null pointer. *)
Definition node_at (c : pm_clock) (i : Z) : M V pm_clock_node :=
  ns <- deref (nodes c) ;;
  aread ns i.

(** [for (i = 0; i < 3U; i++)], with [n] turns left. *)
Fixpoint topology_loop (c : pm_clock) (index : Z) (n : nat) (i : Z) (topology : list Z)
    : M V (list Z) :=
  match n with
  | O => ret topology
  | S n' =>
      if u32 (index + i) =? num_nodes c then ret topology
      else
        nd <- node_at c (u32 (index + i)) ;;
        topology <- awrite topology i (topology_word nd) ;;
        topology_loop c index n' (i + 1) topology
  end.

Definition pm_api_clock_get_topology (clock_id index : Z) (topology : list Z)
    : M V (Z * list Z) :=
  if negb (pm_clock_valid clock_id) then ret (PM_RET_ERROR_ARGS, topology)
  else if negb (pm_clock_type clock_id =? CLK_TYPE_OUTPUT) then
    ret (PM_RET_ERROR_NOTSUPPORTED, topology)
  else
    topology <- copy_into topology (repeat 0 (Z.to_nat (CLK_TOPOLOGY_PAYLOAD_LEN / 4))) ;;
    c <- aread clocks clock_id ;;
    if num_nodes c <=? index then ret (PM_RET_SUCCESS, topology)
    else
      topology <- topology_loop c index 3 0 topology ;;
      ret (PM_RET_SUCCESS, topology).

(** The first node that satisfies [p], by index order, of the first [n] from [i]. *)
Fixpoint find_node (c : pm_clock) (p : pm_clock_node -> bool) (n : nat) (i : Z)
    : M V (option pm_clock_node) :=
  match n with
  | O => ret None
  | S n' =>
      nd <- node_at c i ;;
      if p nd then ret (Some nd) else find_node c p n' (i + 1)
  end.

Definition pm_api_clock_get_fixedfactor_params (clock_id mul div : Z) : M V (Z * (Z * Z)) :=
  if negb (pm_clock_valid clock_id) then ret (PM_RET_ERROR_ARGS, (mul, div))
  else if negb (pm_clock_type clock_id =? CLK_TYPE_OUTPUT) then
    ret (PM_RET_ERROR_NOTSUPPORTED, (mul, div))
  else
    c <- aread clocks clock_id ;;
    o <- find_node c (fun nd => node_type nd =? TYPE_FIXEDFACTOR) (Z.to_nat (num_nodes c)) 0 ;;
    match o with
    | Some nd => ret (PM_RET_SUCCESS, (mult nd, ClockData.div nd))
    | None => ret (PM_RET_ERROR_ARGS, (mul, div))
    end.

Definition pm_api_clock_get_parents (clock_id index : Z) (parents : list Z) : M V (Z * list Z) :=
  if negb (pm_clock_valid clock_id) then ret (PM_RET_ERROR_ARGS, parents)
  else if negb (pm_clock_type clock_id =? CLK_TYPE_OUTPUT) then
    ret (PM_RET_ERROR_NOTSUPPORTED, parents)
  else
    c <- aread clocks clock_id ;;
    match ClockData.parents c with
    | None => ret (PM_RET_ERROR_ARGS, parents)
    | Some clk_parents =>
        parents <- copy_into parents (repeat 0 (Z.to_nat (CLK_PARENTS_PAYLOAD_LEN / 4))) ;;
        b <- skip_to CLK_NA_PARENT clk_parents index (length clk_parents) 0 ;;
        if (b : bool) then ret (PM_RET_SUCCESS, parents)
        else
          parents <- copy_page CLK_NA_PARENT u32 clk_parents index 3 0 parents ;;
          ret (PM_RET_SUCCESS, parents)
    end.

Definition pm_api_clock_get_attributes (clock_id attr : Z) : M V (Z * Z) :=
  if CLK_MAX <=? clock_id then ret (PM_RET_ERROR_ARGS, attr)
  else ret (PM_RET_SUCCESS,
            b2z (pm_clock_valid clock_id) .| (pm_clock_type clock_id .<< CLK_TYPE_SHIFT)).

Definition pm_api_clock_get_max_divisor (clock_id div_type max_div : Z) : M V (Z * Z) :=
  if CLK_MAX_OUTPUT_CLK <=? clock_id then ret (PM_RET_ERROR_ARGS, max_div)
  else
    c <- aread clocks clock_id ;;
    o <- find_node c (fun nd => node_type nd =? div_type) (Z.to_nat (num_nodes c)) 0 ;;
    match o with
    | Some nd =>
        if truthy (CLK_DIVIDER_POWER_OF_TWO .& typeflags nd)
        then ret (PM_RET_SUCCESS, 1 .<< (BIT (node_width nd) - 1))
        else ret (PM_RET_SUCCESS, u32 (BIT (node_width nd) - 1))
    | None => ret (PM_RET_ERROR_ARGS, max_div)
    end.

(** ** PLLs *)

(** Index of the first PLL that satisfies [p]. *)
Definition find_pll (p : pm_pll -> bool) : option nat := fst <$> list_find p pm_plls.

Definition pm_clock_get_pll (clock_id : Z) : option nat := find_pll (fun p => cid p =? clock_id).

Definition pll_of (i : nat) : M V pm_pll := deref (pm_plls !! i).

Definition pm_clock_get_pll_node_id (clock_id node_id : Z) : M V (Z * Z) :=
  match pm_clock_get_pll clock_id with
  | Some i => p <- pll_of i ;; ret (PM_RET_SUCCESS, nid p)
  | None => ret (PM_RET_ERROR_ARGS, node_id)
  end.

Definition pm_clock_get_pll_by_related_clk (clock_id : Z) : option nat :=
  find_pll (fun p => (pre_src p =? clock_id) || (post_src p =? clock_id) ||
                     (div2 p =? clock_id) || (bypass p =? clock_id)).

Definition pll_mode (i : nat) : M V Z :=
  ms <- gets pll_modes ;;
  aread ms (Z.of_nat i).

Definition pm_clock_pll_enable (pll : option nat) : M V Z :=
  match pll with
  | None => ret PM_RET_ERROR_ARGS
  | Some i =>
      p <- pll_of i ;;
      mode <- pll_mode i ;;
      if mode =? PLL_FRAC_MODE then pm_pll_set_mode (nid p) PM_PLL_MODE_FRACTIONAL
      else pm_pll_set_mode (nid p) PM_PLL_MODE_INTEGER
  end.

Definition pm_clock_pll_disable (pll : option nat) : M V Z :=
  match pll with
  | None => ret PM_RET_ERROR_ARGS
  | Some i => p <- pll_of i ;; pm_pll_set_mode (nid p) PM_PLL_MODE_RESET
  end.

Definition pm_clock_pll_get_state (pll : option nat) (state : Z) : M V (Z * Z) :=
  match pll with
  | None => ret (PM_RET_ERROR_ARGS, state)
  | Some i =>
      p <- pll_of i ;;
      r <- pm_pll_get_mode (nid p) (uninit 0) ;;
      if negb (r.1 =? PM_RET_SUCCESS) then ret (r.1, state)
      else ret (PM_RET_SUCCESS, if r.2 =? PM_PLL_MODE_RESET then 0 else 1)
  end.

Definition pm_clock_pll_set_parent (pll : option nat) (clock_id parent_index : Z) : M V Z :=
  match pll with
  | None => ret PM_RET_ERROR_ARGS
  | Some i =>
      p <- pll_of i ;;
      if pre_src p =? clock_id then pm_pll_set_parameter (nid p) PM_PLL_PARAM_PRE_SRC parent_index
      else if post_src p =? clock_id then
        pm_pll_set_parameter (nid p) PM_PLL_PARAM_POST_SRC parent_index
      else if div2 p =? clock_id then
        pm_pll_set_parameter (nid p) PM_PLL_PARAM_DIV2 parent_index
      else ret PM_RET_ERROR_ARGS
  end.

Definition pm_clock_pll_get_parent (pll : option nat) (clock_id parent_index : Z) : M V (Z * Z) :=
  match pll with
  | None => ret (PM_RET_ERROR_ARGS, parent_index)
  | Some i =>
      p <- pll_of i ;;
      if pre_src p =? clock_id then pm_pll_get_parameter (nid p) PM_PLL_PARAM_PRE_SRC parent_index
      else if post_src p =? clock_id then
        pm_pll_get_parameter (nid p) PM_PLL_PARAM_POST_SRC parent_index
      else if div2 p =? clock_id then
        pm_pll_get_parameter (nid p) PM_PLL_PARAM_DIV2 parent_index
      else if bypass p =? clock_id then ret (PM_RET_SUCCESS, 0)
      else ret (PM_RET_ERROR_ARGS, parent_index)
  end.

Definition pm_clock_set_pll_mode (clock_id mode : Z) : M V Z :=
  match pm_clock_get_pll clock_id with
  | None => ret PM_RET_ERROR_ARGS
  | Some i =>
      if negb (mode =? PLL_FRAC_MODE) && negb (mode =? PLL_INT_MODE) then ret PM_RET_ERROR_ARGS
      else
        ms <- gets pll_modes ;;
        ms' <- awrite ms (Z.of_nat i) (u8 mode) ;;
        mods (set_pll_modes ms') ;;
        ret PM_RET_SUCCESS
  end.

Definition pm_clock_get_pll_mode (clock_id mode : Z) : M V (Z * Z) :=
  match pm_clock_get_pll clock_id with
  | None => ret (PM_RET_ERROR_ARGS, mode)
  | Some i => m <- pll_mode i ;; ret (PM_RET_SUCCESS, m)
  end.

Definition pm_clock_id_is_valid (clock_id : Z) : Z :=
  if negb (pm_clock_valid clock_id) then PM_RET_ERROR_ARGS
  else if negb (pm_clock_type clock_id =? CLK_TYPE_OUTPUT) then PM_RET_ERROR_NOTSUPPORTED
  else PM_RET_SUCCESS.

Definition pm_clock_has_div (clock_id div_id : Z) : M V Z :=
  if CLK_MAX_OUTPUT_CLK <=? clock_id then ret 0
  else
    c <- aread clocks clock_id ;;
    o <- find_node c (fun nd =>
           if node_type nd =? TYPE_DIV1 then div_id =? PM_CLOCK_DIV0_ID
           else if node_type nd =? TYPE_DIV2 then div_id =? PM_CLOCK_DIV1_ID
           else false) (Z.to_nat (num_nodes c)) 0 ;;
    ret (match o with Some _ => 1 | None => 0 end).

End Ops.

(** ** Well-formed tables *)

Definition id_of (p : Z) : Z := p .& 0xFFFF.

(** A parent entry names a clock of one of the two tables, or is the dummy. *)
Definition parent_ok (p : Z) : bool :=
  (p =? CLK_DUMMY_PARENT) || ((0 <=? p) && (id_of p <? CLK_MAX)).

Definition node_ok (n : pm_clock_node) : bool :=
  (0 <=? clkflags n) && (clkflags n <? 2 ^ 16) && (0 <=? typeflags n) && (typeflags n <? 2 ^ 12) &&
  (0 <=? node_type n) && (node_type n <? 16) && (0 <=? node_width n) && (node_width n <? 32) &&
  negb (truthy (CLK_DIVIDER_POWER_OF_TWO .& typeflags n)).

Definition clock_ok (c : pm_clock) : bool :=
  match nodes c, parents c with
  | Some ns, Some ps =>
      (num_nodes c =? ARRAY_SIZE ns) && (0 <? num_nodes c) && (num_nodes c <? 2 ^ 8) &&
      forallb node_ok ns && terminated CLK_NA_PARENT ps &&
      forallb (fun p => (p =? CLK_NA_PARENT) || parent_ok p) ps && (length ps <=? Z.to_nat MAX_PARENTS)%nat
  | None, None => num_nodes c =? 0
  | _, _ => false
  end.

(** Only clocks of the invalid list are missing from the table. *)
Definition entry_ok (i : nat) : bool :=
  match clocks !! i with
  | Some c => clock_ok c && (negb (pm_clock_valid (Z.of_nat i)) || bool_decide (is_Some (nodes c)))
  | None => false
  end.

Lemma entries_ok : forallb entry_ok (seq 0 (Z.to_nat CLK_MAX_OUTPUT_CLK)) = true.
Proof. vm_compute. reflexivity. Qed.

Lemma clock_entry i : 0 <= i < CLK_MAX_OUTPUT_CLK ->
  exists c, clocks !! Z.to_nat i = Some c /\ clock_ok c = true /\
    (pm_clock_valid i = true -> is_Some (nodes c)).
Proof.
  intros Hi. pose proof entries_ok as He. rewrite forallb_forall in He.
  unfold CLK_MAX_OUTPUT_CLK, END_OF_OUTPUT_CLKS in *.
  specialize (He (Z.to_nat i) ltac:(apply in_seq; lia)). unfold entry_ok in He. destruct (clocks !! Z.to_nat i) as [c|]; [|done].
  exists c. apply andb_true_iff in He as [Hc Hv]. split; [done|]. split; [done|].
  intros Hvalid. rewrite Z2Nat.id, Hvalid in Hv by lia. simpl in Hv.
  by apply bool_decide_eq_true in Hv.
Qed.

#[global] Opaque clocks ext_clocks.

(** The nodes and the parents of an output clock. *)
Definition nodes_of (i : Z) : list pm_clock_node :=
  match clocks !! Z.to_nat i with Some c => default [] (nodes c) | None => [] end.
Definition parents_of (i : Z) : list Z :=
  match clocks !! Z.to_nat i with Some c => default [] (parents c) | None => [] end.

Lemma clock_valid_entry i : 0 <= i < CLK_MAX_OUTPUT_CLK -> pm_clock_valid i = true ->
  exists c, clocks !! Z.to_nat i = Some c /\ nodes c = Some (nodes_of i) /\
    num_nodes c = ARRAY_SIZE (nodes_of i) /\ 0 < num_nodes c < 2 ^ 8 /\
    forallb node_ok (nodes_of i) = true /\
    parents c = Some (parents_of i) /\ terminated CLK_NA_PARENT (parents_of i) = true /\
    (length (parents_of i) <= 100)%nat.
Proof.
  intros Hi Hv. destruct (clock_entry i Hi) as (c & Hc & Hok & Hn). exists c.
  unfold nodes_of, parents_of. rewrite Hc. specialize (Hn Hv) as [ns Hns].
  unfold clock_ok in Hok. rewrite Hns in Hok |- *. destruct (parents c) as [ps|]; [|done].
  simpl. rewrite !andb_true_iff in Hok. destruct Hok as [[[[[[H1 H2] H3] H4] H5] _] H6].
  apply Nat.leb_le in H6. zbool. repeat split; auto with lia.
Qed.

(** ** Answers of the queries *)

Section Queries.
Context `{Env} {V : Type}.
Implicit Types s : st V.

Lemma topology_loop_run c ns n k done s :
  nodes c = Some ns -> num_nodes c = Z.of_nat (length ns) ->
  (length ns < 256)%nat -> (k + length done <= length ns)%nat ->
  topology_loop c (Z.of_nat k) n (Z.of_nat (length done)) (done ++ repeat 0 n) s =
  (Ret (done ++ page 0 n (k + length done) (map topology_word ns)), s).
Proof.
  intros Hn Hnum Hlt. revert done. induction n as [|n IH]; intros done Hk.
  { by unfold page. }
  cbn [topology_loop]. rewrite u32_small, <- Nat2Z.inj_add, Hnum by lia.
  destruct (decide (k + length done = length ns)%nat) as [He|Hne].
  - rewrite He, Z.eqb_refl, page_end; [done|]. rewrite length_map. lia.
  - rewrite (proj2 (Z.eqb_neq _ _)) by lia.
    destruct (lookup_lt_is_Some_2 ns (k + length done)) as [nd Hnd]; [lia|].
    unfold node_at, deref. rewrite Hn. run.
    rewrite (run_bind_aread_nat ns _ nd) by done.
    rewrite run_bind_awrite_nat by (rewrite length_app; simpl; lia).
    change (repeat 0 (S n)) with (0 :: repeat 0 n). rewrite insert_after.
    replace (Z.of_nat (length done) + 1) with (Z.of_nat (length (done ++ [topology_word nd])))
      by (rewrite length_app; simpl; lia).
    rewrite IH by (rewrite length_app; simpl; lia).
    rewrite length_app. simpl. rewrite <- (assoc_L (++)). simpl.
    replace (k + (length done + 1))%nat with (S (k + length done)) by lia.
    by rewrite (page_step 0 n (k + length done) _ (topology_word nd))
      by (by rewrite list_lookup_fmap, Hnd).
Qed.

Lemma find_node_run c ns p n i s :
  nodes c = Some ns -> (i + n = length ns)%nat ->
  find_node c p n (Z.of_nat i) s = (Ret (List.find p (drop i ns)), s).
Proof.
  intros Hn. revert i. induction n as [|n IH]; intros i Hi; simpl.
  { rewrite drop_ge by lia. done. }
  destruct (lookup_lt_is_Some_2 ns i) as [nd Hnd]; [lia|].
  unfold node_at, deref. rewrite Hn. run. rewrite (run_bind_aread_nat ns _ nd) by done.
  rewrite (drop_S _ _ _ Hnd). simpl. destruct (p nd); [done|].
  replace (Z.of_nat i + 1) with (Z.of_nat (S i)) by lia. apply IH. lia.
Qed.

(** A search over the nodes of any output clock stays inside its table. *)
Lemma find_node_total c p s : clock_ok c = true ->
  exists o, find_node c p (Z.to_nat (num_nodes c)) 0 s = (Ret o, s).
Proof.
  unfold clock_ok. intros Hok. destruct (nodes c) as [ns|] eqn:Hn; destruct (parents c); try done.
  - zbool. rewrite (find_node_run c ns p _ 0); [by eexists|done|].
    unfold ARRAY_SIZE in *. lia.
  - zbool. rewrite Hok. by eexists.
Qed.

Lemma copy_zeros (t : list Z) s : length t = 3%nat -> copy_into t (repeat 0 3) s = (Ret [0; 0; 0], s).
Proof.
  intros Ht. unfold copy_into, overwrite. rewrite Ht. simpl. by rewrite drop_ge by lia.
Qed.

Lemma output_type i : (pm_clock_type i =? CLK_TYPE_OUTPUT) = (i <? CLK_MAX_OUTPUT_CLK).
Proof. unfold pm_clock_type. by destruct (i <? CLK_MAX_OUTPUT_CLK). Qed.

(** Topology queries: three node words at the index, zeros past the end. *)
Lemma topology_run clock_id index topology s :
  0 <= clock_id -> 0 <= index -> length topology = 3%nat ->
  pm_api_clock_get_topology clock_id index topology s =
  (Ret (if negb (pm_clock_valid clock_id) then (PM_RET_ERROR_ARGS, topology)
        else if CLK_MAX_OUTPUT_CLK <=? clock_id then (PM_RET_ERROR_NOTSUPPORTED, topology)
        else (PM_RET_SUCCESS, page 0 3 (Z.to_nat index) (map topology_word (nodes_of clock_id)))), s).
Proof.
  intros Hid Hix Ht. unfold pm_api_clock_get_topology. rewrite output_type, Z.leb_antisym.
  destruct (pm_clock_valid clock_id) eqn:Hv; cbn [negb]; [|done].
  destruct (clock_id <? CLK_MAX_OUTPUT_CLK) eqn:Ho; cbn [negb]; [|done]. zbool.
  rewrite (bind_run _ _ _ _ _ (copy_zeros _ s Ht)).
  destruct (clock_valid_entry clock_id) as (c & Hc & Hn & Hnum & Hpos & _); [lia|exact Hv|].
  rewrite (run_bind_aread _ _ c _ _ (proj2 (Z.ltb_ge _ _) Hid) Hc).
  destruct (num_nodes c <=? index) eqn:E; zbool.
  - rewrite page_end; [done|]. rewrite length_map. unfold ARRAY_SIZE in Hnum. lia.
  - pose proof (topology_loop_run c _ 3 (Z.to_nat index) [] s Hn Hnum) as Hr.
    unfold ARRAY_SIZE in Hnum. rewrite Z2Nat.id, Nat.add_0_r in Hr by lia.
    erewrite bind_run; [reflexivity|]. apply Hr; lia.
Qed.

(** Parent queries: the last entry of a list is its terminator. *)
Lemma parents_run clock_id index parents s :
  0 <= clock_id -> 0 <= index -> length parents = 3%nat ->
  pm_api_clock_get_parents clock_id index parents s =
  (Ret (if negb (pm_clock_valid clock_id) then (PM_RET_ERROR_ARGS, parents)
        else if CLK_MAX_OUTPUT_CLK <=? clock_id then (PM_RET_ERROR_NOTSUPPORTED, parents)
        else (PM_RET_SUCCESS, page 0 3 (Z.to_nat index) (map u32 (parents_of clock_id)))), s).
Proof.
  intros Hid Hix Ht. unfold pm_api_clock_get_parents. rewrite output_type, Z.leb_antisym.
  destruct (pm_clock_valid clock_id) eqn:Hv; cbn [negb]; [|done].
  destruct (clock_id <? CLK_MAX_OUTPUT_CLK) eqn:Ho; cbn [negb]; [|done]. zbool.
  destruct (clock_valid_entry clock_id) as (c & Hc & _ & _ & _ & _ & Hp & Hterm & Hlen); [lia|exact Hv|].
  rewrite (run_bind_aread _ _ c _ _ (proj2 (Z.ltb_ge _ _) Hid) Hc). rewrite Hp.
  rewrite (bind_run _ _ _ _ _ (copy_zeros _ s Ht)).
  apply (paged_run CLK_NA_PARENT u32 0 _ 3 index (fun out => ret (PM_RET_SUCCESS, out)));
    [done|lia|done].
Qed.

(** Paged clock queries.  For every clock id and index, the topology and the
    parent query report an invalid clock or an external one as such and otherwise
    return the slice of three entries of the clock's table at that index, filled
    with zeros past its end; no table is left, and the state is unchanged. *)
Theorem paged_clock_queries clock_id index topology parents s :
  0 <= clock_id -> 0 <= index -> length topology = 3%nat -> length parents = 3%nat ->
  let answer out page :=
    Ret (if negb (pm_clock_valid clock_id) then (PM_RET_ERROR_ARGS, out)
         else if CLK_MAX_OUTPUT_CLK <=? clock_id then (PM_RET_ERROR_NOTSUPPORTED, out)
         else (PM_RET_SUCCESS, page)) in
  pm_api_clock_get_topology clock_id index topology s =
  (answer topology (page 0 3 (Z.to_nat index) (map topology_word (nodes_of clock_id))), s) /\
  pm_api_clock_get_parents clock_id index parents s =
  (answer parents (page 0 3 (Z.to_nat index) (map u32 (parents_of clock_id))), s).
Proof. intros Hid Hix Ht Hp answer. split; [by apply topology_run|by apply parents_run]. Qed.

(** The remaining clock queries return for every id, valid or not, without
    leaving a table and without changing the state. *)
Lemma clock_queries_total clock_id div_type div_id mul div max_div attr s :
  0 <= clock_id ->
  (exists r, pm_api_clock_get_fixedfactor_params clock_id mul div s = (Ret r, s)) /\
  (exists r, pm_api_clock_get_max_divisor clock_id div_type max_div s = (Ret r, s)) /\
  (exists r, pm_clock_has_div clock_id div_id s = (Ret r, s)) /\
  (exists r, pm_api_clock_get_attributes clock_id attr s = (Ret r, s)).
Proof.
  intros Hid.
  assert (Hin : clock_id < CLK_MAX_OUTPUT_CLK -> exists c,
    (forall B (k : pm_clock -> M V B), bind (aread clocks clock_id) k s = k c s) /\
    clock_ok c = true).
  { intros Hlt. destruct (clock_entry clock_id) as (c & Hc & Hok & _); [lia|].
    exists c. split; [|done]. intros B k. apply run_bind_aread; [by apply Z.ltb_ge|done]. }
  unfold pm_api_clock_get_fixedfactor_params, pm_api_clock_get_max_divisor, pm_clock_has_div,
    pm_api_clock_get_attributes. rewrite output_type, !Z.leb_antisym.
  split_and!; [if_case; [by eexists|]| | |if_case; by eexists];
    (destruct (clock_id <? CLK_MAX_OUTPUT_CLK) eqn:E; cbn [negb]; [|by eexists]; zbool;
     destruct (Hin E) as (c & Hr & Hok); rewrite Hr;
     match goal with |- context [find_node c ?p] =>
       destruct (find_node_total c p s Hok) as [o Ho]; rewrite (bind_run _ _ _ _ _ Ho) end;
     destruct o; repeat if_case; by eexists).
Qed.

End Queries.

(** ** The shape of the clock tree *)

(** Output clock [p] is named in the parent list of output clock [c]. *)
Definition clock_parent (p c : Z) : Prop :=
  0 <= c < CLK_MAX_OUTPUT_CLK /\
  exists e, e ∈ parents_of c /\ 0 <= e /\ id_of e = p /\ p < CLK_MAX_OUTPUT_CLK.

(** Length of the longest chain of parents above a clock, at most [fuel]. *)
Fixpoint depth (fuel : nat) (c : Z) : nat :=
  match fuel with
  | O => O
  | S f =>
      fold_right Nat.max 0%nat
        (map (fun e => if (0 <=? e) && (id_of e <? CLK_MAX_OUTPUT_CLK)
                       then S (depth f (id_of e)) else 0%nat) (parents_of c))
  end.

Definition tree_height : nat := 12.

Lemma depths_decrease :
  forallb (fun i => forallb (fun e =>
    negb ((0 <=? e) && (id_of e <? CLK_MAX_OUTPUT_CLK)) ||
    (depth tree_height (id_of e) <? depth tree_height (Z.of_nat i))%nat)
    (parents_of (Z.of_nat i))) (seq 0 (Z.to_nat CLK_MAX_OUTPUT_CLK)) = true.
Proof. vm_compute. reflexivity. Qed.

(** The clock tree has no cycle: following the parents of any output clock
    through the tables ends, so a client that walks up to compute a rate
    terminates. *)
Theorem clock_tree_well_founded : well_founded clock_parent.
Proof.
  apply (well_founded_lt_compat _ (depth tree_height)). intros p c (Hc & e & He & Hpos & <- & Hlt).
  pose proof depths_decrease as Hd. rewrite forallb_forall in Hd.
  unfold CLK_MAX_OUTPUT_CLK, END_OF_OUTPUT_CLKS in Hc.
  specialize (Hd (Z.to_nat c) ltac:(apply in_seq; unfold CLK_MAX_OUTPUT_CLK, END_OF_OUTPUT_CLKS; lia)).
  rewrite Z2Nat.id, forallb_forall in Hd by lia.
  specialize (Hd e (proj1 (list_elem_of_In _ _) He)).
  apply orb_true_iff in Hd as [Hn|Hd]; [|by apply Nat.ltb_lt].
  apply negb_true_iff, andb_false_iff in Hn as [Hn|Hn]; zbool; lia.
Qed.

(** ** The buffered PLL modes *)

Section Plls.
Context `{Env} {V : Type} `{!Has pm V}.

Lemma get_pll_some c i : pm_clock_get_pll c = Some i ->
  (i < 5)%nat /\ cid <$> pm_plls !! i = Some c.
Proof.
  unfold pm_clock_get_pll, find_pll. intros Hf. apply fmap_Some in Hf as ([j p] & Hf & ->).
  apply list_find_Some in Hf as (Hj & Hp & _). apply Is_true_true, Z.eqb_eq in Hp.
  split; [by apply lookup_lt_Some in Hj|]. simpl. by rewrite Hj, <- Hp.
Qed.

Lemma get_pll_inj c c' i : pm_clock_get_pll c = Some i -> pm_clock_get_pll c' = Some i -> c = c'.
Proof. intros H1%get_pll_some H2%get_pll_some. destruct H1, H2. congruence. Qed.

Lemma pll_mode_run i d l h (v : V) : (i < length (pll_modes (sget v)))%nat ->
  exists m, pll_modes (sget v) !! i = Some m /\
    pll_mode i (St d l h v) = (Ret m, St d l h v).
Proof.
  intros Hi. destruct (lookup_lt_is_Some_2 _ _ Hi) as [m Hm]. exists m. split; [done|].
  unfold pll_mode. run. apply run_aread; [apply Z.ltb_ge; lia|by rewrite Nat2Z.id].
Qed.

(** Setting a mode returns and changes the buffered modes at most. *)
Lemma set_pll_mode_total clock_id mode d l h (v : V) :
  length (pll_modes (sget v)) = 5%nat -> exists r ms,
  pm_clock_set_pll_mode clock_id mode (St d l h v) =
    (Ret r, St d l h (sput (set_pll_modes ms (sget v)) v)) /\ length ms = 5%nat.
Proof.
  intros Hlen. assert (Hsame : sput (set_pll_modes (pll_modes (sget v)) (sget v)) v = v).
  { assert (set_pll_modes (pll_modes (sget v)) (sget v) = sget v) as -> by
      (by destruct (sget (S := pm) v)). apply sput_sget. }
  unfold pm_clock_set_pll_mode. destruct (pm_clock_get_pll clock_id) as [i|] eqn:Hi.
  - destruct (get_pll_some _ _ Hi) as [Hi5 _].
    destruct (negb (mode =? PLL_FRAC_MODE) && negb (mode =? PLL_INT_MODE)).
    + exists PM_RET_ERROR_ARGS, (pll_modes (sget v)). by rewrite Hsame.
    + run. rewrite run_bind_awrite_nat by lia. run. eexists _, _. split; [reflexivity|].
      by rewrite length_insert.
  - exists PM_RET_ERROR_ARGS, (pll_modes (sget v)). by rewrite Hsame.
Qed.

(** Buffering a PLL mode.  Setting succeeds exactly for the five PLL clocks
    and the two modes; then the mode reads back, and the modes of the other PLLs
    are as before.  Otherwise the request is refused and nothing changes. *)
Theorem pll_mode_roundtrip clock_id mode other m d l h (v : V) :
  length (pll_modes (sget v)) = 5%nat ->
  let s := St d l h v in
  if bool_decide (is_Some (pm_clock_get_pll clock_id)) && ((mode =? 0) || (mode =? 1))
  then exists s',
    pm_clock_set_pll_mode clock_id mode s = (Ret PM_RET_SUCCESS, s') /\
    pm_clock_get_pll_mode clock_id m s' = (Ret (PM_RET_SUCCESS, mode), s') /\
    (other = clock_id \/
     fst (pm_clock_get_pll_mode other m s') = fst (pm_clock_get_pll_mode other m s))
  else pm_clock_set_pll_mode clock_id mode s = (Ret PM_RET_ERROR_ARGS, s).
Proof.
  intros Hlen s. unfold s. clear s. unfold pm_clock_set_pll_mode, pm_clock_get_pll_mode.
  destruct (pm_clock_get_pll clock_id) as [i|] eqn:Hi; simpl; [|done].
  change PLL_FRAC_MODE with 1. change PLL_INT_MODE with 0.
  rewrite <- negb_orb, (orb_comm (mode =? 1)). destruct ((mode =? 0) || (mode =? 1)) eqn:Hm; simpl; [|done].
  assert (Hu : u8 mode = mode).
  { apply orb_true_iff in Hm as [Hm|Hm]; zbool; by subst. }
  destruct (get_pll_some _ _ Hi) as [Hi5 _]. run. rewrite run_bind_awrite_nat by lia. run.
  eexists. split; [reflexivity|]. split.
  - destruct (pll_mode_run i d l h (sput (set_pll_modes (<[i := u8 mode]> (pll_modes (sget v)))
      (sget v)) v)) as (m' & Hl & Hr).
    { rewrite sget_sput. simpl. rewrite length_insert. lia. }
    rewrite (bind_run _ _ _ _ _ Hr). rewrite sget_sput in Hl. simpl in Hl.
    rewrite list_lookup_insert_eq in Hl by lia. simplify_eq. by rewrite Hu.
  - destruct (decide (other = clock_id)) as [->|Hne]; [by left|]. right.
    destruct (pm_clock_get_pll other) as [j|] eqn:Hj; [|done].
    destruct (get_pll_some _ _ Hj) as [Hj5 _].
    destruct (pll_mode_run j d l h v) as (m1 & Hl1 & Hr1); [lia|].
    destruct (pll_mode_run j d l h (sput (set_pll_modes (<[i := u8 mode]> (pll_modes (sget v)))
      (sget v)) v)) as (m2 & Hl2 & Hr2).
    { rewrite sget_sput. simpl. rewrite length_insert. lia. }
    rewrite (bind_run _ _ _ _ _ Hr1), (bind_run _ _ _ _ _ Hr2).
    rewrite sget_sput in Hl2. simpl in Hl2. rewrite list_lookup_insert_ne in Hl2.
    + by simplify_eq.
    + intros ->. apply Hne. by eapply get_pll_inj.
Qed.

End Plls.

(** ** Names *)

Section Names.
Context `{Env} {V : Type}.
Implicit Types s : st V.

Lemma chars_length n x : length (char_array n x) = n.
Proof. unfold char_array. rewrite length_take, length_app, repeat_length. lia. Qed.

Lemma invalid_small : forallb (fun c => c <? CLK_MAX_OUTPUT_CLK) pm_clk_invalid_list = true.
Proof. reflexivity. Qed.

Lemma external_valid c : CLK_MAX_OUTPUT_CLK <= c -> pm_clock_valid c = true.
Proof.
  intros Hc. unfold pm_clock_valid. apply negb_true_iff, existsb_false, list.Forall_forall.
  intros x Hx. pose proof invalid_small as Hs. rewrite forallb_forall in Hs.
  specialize (Hs x (proj1 (list_elem_of_In _ _) Hx)). apply Z.eqb_neq. zbool. lia.
Qed.

Lemma ext_clocks_length : length ext_clocks = 94%nat.
Proof. vm_compute. reflexivity. Qed.

(** The name an output clock is reported under. *)
Definition name_of (i : Z) : list Z :=
  match clocks !! Z.to_nat i with
  | Some c => char_array 15 (ClockData.name c)
  | None => []
  end.

Lemma get_name_output i buf s :
  0 <= i < CLK_MAX_OUTPUT_CLK -> pm_clock_valid i = true -> (15 <= length buf)%nat ->
  pm_api_clock_get_name i buf s = (Ret (name_of i ++ drop 15 buf), s).
Proof.
  intros Hi Hv Hb. unfold pm_api_clock_get_name, name_of. rewrite Hv. cbn [negb].
  rewrite (proj2 (Z.eqb_neq _ _)), (proj2 (Z.ltb_lt _ _))
    by (unfold CLK_MAX, CLK_MAX_OUTPUT_CLK, END_OF_CLKS, END_OF_OUTPUT_CLKS in *; lia).
  destruct (clock_entry i Hi) as (c & Hc & _). rewrite Hc.
  rewrite (run_bind_aread _ _ c _ _ (proj2 (Z.ltb_ge _ _) (proj1 Hi)) Hc).
  change (Z.to_nat CLK_NAME_LEN) with 15%nat.
  rewrite copy_into_run, chars_length by (by rewrite chars_length). done.
Qed.

(** Every id up to the end marker has a name of at most 16 bytes. *)
Lemma get_name_in_range clock_id buf s :
  0 <= clock_id <= CLK_MAX -> length buf = 16%nat ->
  exists buf', pm_api_clock_get_name clock_id buf s = (Ret buf', s) /\ length buf' = 16%nat.
Proof.
  intros Hid Hb. unfold pm_api_clock_get_name. change (Z.to_nat CLK_NAME_LEN) with 15%nat.
  change CLK_MAX with 207 in *. change CLK_MAX_OUTPUT_CLK with 113.
  assert (Hcopy : forall src, (length src <= 16)%nat -> exists buf',
    copy_into buf src s = (Ret buf', s) /\ length buf' = 16%nat).
  { intros src Hs. rewrite copy_into_run by lia. eexists. split; [reflexivity|].
    rewrite length_app, length_drop. lia. }
  destruct (clock_id =? 207) eqn:E1; zbool; [apply Hcopy; vm_compute; lia|].
  destruct (clock_id <? 113) eqn:E2; zbool.
  - destruct (negb _); [apply Hcopy; simpl; lia|].
    destruct (clock_entry clock_id) as (c & Hc & _); [split; [lia|exact E2]|].
    rewrite (run_bind_aread _ _ c _ _ (proj2 (Z.ltb_ge _ _) (proj1 Hid)) Hc).
    apply Hcopy. rewrite chars_length. lia.
  - rewrite (external_valid clock_id E2). cbn [negb]. unfold bind, aread.
    rewrite (proj2 (Z.ltb_ge _ _)) by lia.
    destruct (lookup_lt_is_Some_2 ext_clocks (Z.to_nat (clock_id - 113))) as [e He].
    { rewrite ext_clocks_length. lia. }
    rewrite He. apply Hcopy. rewrite chars_length. lia.
Qed.

(** C40: the name query fills at most the caller's 16 bytes for the ids up to
    and including CLK_MAX, and reads past the table of external clocks for every
    larger id. *)
Theorem clock_name_bounds clock_id buf s :
  0 <= clock_id -> length buf = 16%nat ->
  if clock_id <=? CLK_MAX
  then exists buf', pm_api_clock_get_name clock_id buf s = (Ret buf', s) /\ length buf' = 16%nat
  else pm_api_clock_get_name clock_id buf s = (Halt OutOfBounds, s).
Proof.
  intros Hid Hb. destruct (clock_id <=? CLK_MAX) eqn:E; zbool; [by apply get_name_in_range|].
  unfold pm_api_clock_get_name. change CLK_MAX with 207 in *. change CLK_MAX_OUTPUT_CLK with 113.
  rewrite (proj2 (Z.eqb_neq _ _)), (proj2 (Z.ltb_ge _ 113)) by lia.
  rewrite (external_valid clock_id ltac:(unfold CLK_MAX_OUTPUT_CLK, END_OF_OUTPUT_CLKS; lia)).
  cbn [negb]. unfold bind, aread. rewrite (proj2 (Z.ltb_ge _ _)) by lia.
  rewrite lookup_ge_None_2; [done|]. rewrite ext_clocks_length. lia.
Qed.

Lemma names_distinct :
  forallb (fun i => forallb (fun j =>
    (Z.of_nat i =? Z.of_nat j) || negb (pm_clock_valid (Z.of_nat i)) ||
    negb (pm_clock_valid (Z.of_nat j)) ||
    negb (bool_decide (name_of (Z.of_nat i) = name_of (Z.of_nat j)))) (seq 0 113)) (seq 0 113) = true.
Proof. vm_compute. reflexivity. Qed.

(** A client that finds a clock by the name the query returns finds the
    right one: valid output clocks with the same name are the same clock. *)
Theorem clock_names_identify i j buf name s :
  0 <= i < CLK_MAX_OUTPUT_CLK -> 0 <= j < CLK_MAX_OUTPUT_CLK ->
  pm_clock_valid i = true -> pm_clock_valid j = true -> length buf = 16%nat ->
  fst (pm_api_clock_get_name i buf s) = Ret name ->
  fst (pm_api_clock_get_name j buf s) = Ret name -> i = j.
Proof.
  intros Hi Hj Hvi Hvj Hb Ri Rj.
  rewrite (get_name_output i buf s Hi Hvi) in Ri by lia.
  rewrite (get_name_output j buf s Hj Hvj) in Rj by lia. cbn [fst] in Ri, Rj.
  rewrite <- Ri in Rj. apply Ret_inj, app_inv_tail in Rj. rename Rj into Hn.
  pose proof names_distinct as Hd. rewrite forallb_forall in Hd.
  unfold CLK_MAX_OUTPUT_CLK, END_OF_OUTPUT_CLKS in Hi, Hj.
  specialize (Hd (Z.to_nat i) ltac:(apply in_seq; lia)). rewrite forallb_forall in Hd.
  specialize (Hd (Z.to_nat j) ltac:(apply in_seq; lia)).
  rewrite !Z2Nat.id, Hvi, Hvj, Hn, (bool_decide_eq_true_2 _ eq_refl) in Hd by lia.
  cbn [negb] in Hd. rewrite !orb_false_r in Hd. by apply Z.eqb_eq.
Qed.

(** The external clocks lack this property: two of them are reported under the
    name of the video clock. *)
Lemma external_names_clash buf s : length buf = 16%nat ->
  pm_api_clock_get_name EXT_CLK_VIDEO buf s = pm_api_clock_get_name EXT_CLK_GT_CRX_REF buf s.
Proof. intros Hb. vm_compute. reflexivity. Qed.

End Names.

(** ** Witnesses *)

Definition s_pm : @st quiet_board pm := St (H := quiet_board) tt [] [] pm_bss.

(** The second page of the DisplayPort video clock: divider 2 and gate, and the
    rest of its parents. *)
Lemma paged_clock_queries_witness :
  pm_api_clock_get_topology (H := quiet_board) CLK_DP_VIDEO_REF 2 [7; 7; 7] s_pm =
  (Ret (PM_RET_SUCCESS, [0x500A415; 0x2506; 0]), s_pm) /\
  pm_api_clock_get_parents (H := quiet_board) CLK_DP_VIDEO_REF 2 [7; 7; 7] s_pm =
  (Ret (PM_RET_SUCCESS, page 0 3 2 (map u32 (parents_of CLK_DP_VIDEO_REF))), s_pm).
Proof.
  destruct (paged_clock_queries (H := quiet_board) CLK_DP_VIDEO_REF 2 [7; 7; 7] [7; 7; 7] s_pm)
    as [E1 E2]; [easy|easy|reflexivity|reflexivity|].
  rewrite E1, E2. split; vm_compute; reflexivity.
Defined.

Lemma pll_mode_roundtrip_witness :
  exists s',
    pm_clock_set_pll_mode (H := quiet_board) CLK_VPLL_INT 1 s_pm = (Ret PM_RET_SUCCESS, s') /\
    pm_clock_get_pll_mode (H := quiet_board) CLK_VPLL_INT 0 s' = (Ret (PM_RET_SUCCESS, 1), s') /\
    (CLK_RPLL_INT = CLK_VPLL_INT \/
     fst (pm_clock_get_pll_mode (H := quiet_board) CLK_RPLL_INT 0 s') =
     fst (pm_clock_get_pll_mode (H := quiet_board) CLK_RPLL_INT 0 s_pm)).
Proof.
  apply (pll_mode_roundtrip (H := quiet_board) (V := pm) CLK_VPLL_INT 1 CLK_RPLL_INT 0 tt [] []
    pm_bss). reflexivity.
Defined.

(** The first id after the external clocks is the end marker, the next one is
    outside the table. *)
Lemma clock_name_bounds_witness :
  pm_api_clock_get_name (H := quiet_board) 208 (repeat 0 16) s_pm = (Halt OutOfBounds, s_pm).
Proof. apply (clock_name_bounds (H := quiet_board) 208 (repeat 0 16) s_pm); done. Defined.

Lemma clock_names_identify_witness :
  CLK_ACPU = CLK_DP_VIDEO_REF - 6.
Proof.
  apply (clock_names_identify (H := quiet_board) CLK_ACPU (CLK_DP_VIDEO_REF - 6) (repeat 0 16)
    (chars "acpu" ++ repeat 0 12) s_pm); done.
Defined.

End PmClock.
