(* ===== verification/PinctrlData.v ===== *)
(** * The pin multiplexer tables of pm_api_pinctrl.c

    A literal rendering of the identifiers of pm_service/pm_api_pinctrl.h and of
    the two static tables of pm_service/pm_api_pinctrl.c: the groups of every
    function and the groups of every pin.  Group numbers are [uint16_t]: the end
    marker -1 and the reserved entry -2 are stored as 0xFFFF and 0xFFFE. *)

From S2P Require Import Prelude ClockData.
From Stdlib Require Import String.
Import ClockData.
#[local] Open Scope Z_scope.

Module PinctrlData.

Definition FUNCTION_NAME_LEN : Z := 16.
Definition GROUPS_PAYLOAD_LEN : Z := 12.
Definition NUM_GROUPS_PER_RESP : Z := 6.
Definition END_OF_GROUPS : Z := (-1).
Definition PINCTRL_GRP_RESERVED : Z := (-2).
Definition END_OF_FUNCTION : string := "END_OF_FUNCTION".

Definition PINCTRL_FUNC_CAN0 : Z := 0.
Definition PINCTRL_FUNC_CAN1 : Z := 1.
Definition PINCTRL_FUNC_ETHERNET0 : Z := 2.
Definition PINCTRL_FUNC_ETHERNET1 : Z := 3.
Definition PINCTRL_FUNC_ETHERNET2 : Z := 4.
Definition PINCTRL_FUNC_ETHERNET3 : Z := 5.
Definition PINCTRL_FUNC_GEMTSU0 : Z := 6.
Definition PINCTRL_FUNC_GPIO0 : Z := 7.
Definition PINCTRL_FUNC_I2C0 : Z := 8.
Definition PINCTRL_FUNC_I2C1 : Z := 9.
Definition PINCTRL_FUNC_MDIO0 : Z := 10.
Definition PINCTRL_FUNC_MDIO1 : Z := 11.
Definition PINCTRL_FUNC_MDIO2 : Z := 12.
Definition PINCTRL_FUNC_MDIO3 : Z := 13.
Definition PINCTRL_FUNC_QSPI0 : Z := 14.
Definition PINCTRL_FUNC_QSPI_FBCLK : Z := 15.
Definition PINCTRL_FUNC_QSPI_SS : Z := 16.
Definition PINCTRL_FUNC_SPI0 : Z := 17.
Definition PINCTRL_FUNC_SPI1 : Z := 18.
Definition PINCTRL_FUNC_SPI0_SS : Z := 19.
Definition PINCTRL_FUNC_SPI1_SS : Z := 20.
Definition PINCTRL_FUNC_SDIO0 : Z := 21.
Definition PINCTRL_FUNC_SDIO0_PC : Z := 22.
Definition PINCTRL_FUNC_SDIO0_CD : Z := 23.
Definition PINCTRL_FUNC_SDIO0_WP : Z := 24.
Definition PINCTRL_FUNC_SDIO1 : Z := 25.
Definition PINCTRL_FUNC_SDIO1_PC : Z := 26.
Definition PINCTRL_FUNC_SDIO1_CD : Z := 27.
Definition PINCTRL_FUNC_SDIO1_WP : Z := 28.
Definition PINCTRL_FUNC_NAND0 : Z := 29.
Definition PINCTRL_FUNC_NAND0_CE : Z := 30.
Definition PINCTRL_FUNC_NAND0_RB : Z := 31.
Definition PINCTRL_FUNC_NAND0_DQS : Z := 32.
Definition PINCTRL_FUNC_TTC0_CLK : Z := 33.
Definition PINCTRL_FUNC_TTC0_WAV : Z := 34.
Definition PINCTRL_FUNC_TTC1_CLK : Z := 35.
Definition PINCTRL_FUNC_TTC1_WAV : Z := 36.
Definition PINCTRL_FUNC_TTC2_CLK : Z := 37.
Definition PINCTRL_FUNC_TTC2_WAV : Z := 38.
Definition PINCTRL_FUNC_TTC3_CLK : Z := 39.
Definition PINCTRL_FUNC_TTC3_WAV : Z := 40.
Definition PINCTRL_FUNC_UART0 : Z := 41.
Definition PINCTRL_FUNC_UART1 : Z := 42.
Definition PINCTRL_FUNC_USB0 : Z := 43.
Definition PINCTRL_FUNC_USB1 : Z := 44.
Definition PINCTRL_FUNC_SWDT0_CLK : Z := 45.
Definition PINCTRL_FUNC_SWDT0_RST : Z := 46.
Definition PINCTRL_FUNC_SWDT1_CLK : Z := 47.
Definition PINCTRL_FUNC_SWDT1_RST : Z := 48.
Definition PINCTRL_FUNC_PMU0 : Z := 49.
Definition PINCTRL_FUNC_PCIE0 : Z := 50.
Definition PINCTRL_FUNC_CSU0 : Z := 51.
Definition PINCTRL_FUNC_DPAUX0 : Z := 52.
Definition PINCTRL_FUNC_PJTAG0 : Z := 53.
Definition PINCTRL_FUNC_TRACE0 : Z := 54.
Definition PINCTRL_FUNC_TRACE0_CLK : Z := 55.
Definition PINCTRL_FUNC_TESTSCAN0 : Z := 56.
Definition END_FUNCTION : Z := 57.

Definition PINCTRL_PIN_0 : Z := 0.
Definition PINCTRL_PIN_1 : Z := 1.
Definition PINCTRL_PIN_2 : Z := 2.
Definition PINCTRL_PIN_3 : Z := 3.
Definition PINCTRL_PIN_4 : Z := 4.
Definition PINCTRL_PIN_5 : Z := 5.
Definition PINCTRL_PIN_6 : Z := 6.
Definition PINCTRL_PIN_7 : Z := 7.
Definition PINCTRL_PIN_8 : Z := 8.
Definition PINCTRL_PIN_9 : Z := 9.
Definition PINCTRL_PIN_10 : Z := 10.
Definition PINCTRL_PIN_11 : Z := 11.
Definition PINCTRL_PIN_12 : Z := 12.
Definition PINCTRL_PIN_13 : Z := 13.
Definition PINCTRL_PIN_14 : Z := 14.
Definition PINCTRL_PIN_15 : Z := 15.
Definition PINCTRL_PIN_16 : Z := 16.
Definition PINCTRL_PIN_17 : Z := 17.
Definition PINCTRL_PIN_18 : Z := 18.
Definition PINCTRL_PIN_19 : Z := 19.
Definition PINCTRL_PIN_20 : Z := 20.
Definition PINCTRL_PIN_21 : Z := 21.
Definition PINCTRL_PIN_22 : Z := 22.
Definition PINCTRL_PIN_23 : Z := 23.
Definition PINCTRL_PIN_24 : Z := 24.
Definition PINCTRL_PIN_25 : Z := 25.
Definition PINCTRL_PIN_26 : Z := 26.
Definition PINCTRL_PIN_27 : Z := 27.
Definition PINCTRL_PIN_28 : Z := 28.
Definition PINCTRL_PIN_29 : Z := 29.
Definition PINCTRL_PIN_30 : Z := 30.
Definition PINCTRL_PIN_31 : Z := 31.
Definition PINCTRL_PIN_32 : Z := 32.
Definition PINCTRL_PIN_33 : Z := 33.
Definition PINCTRL_PIN_34 : Z := 34.
Definition PINCTRL_PIN_35 : Z := 35.
Definition PINCTRL_PIN_36 : Z := 36.
Definition PINCTRL_PIN_37 : Z := 37.
Definition PINCTRL_PIN_38 : Z := 38.
Definition PINCTRL_PIN_39 : Z := 39.
Definition PINCTRL_PIN_40 : Z := 40.
Definition PINCTRL_PIN_41 : Z := 41.
Definition PINCTRL_PIN_42 : Z := 42.
Definition PINCTRL_PIN_43 : Z := 43.
Definition PINCTRL_PIN_44 : Z := 44.
Definition PINCTRL_PIN_45 : Z := 45.
Definition PINCTRL_PIN_46 : Z := 46.
Definition PINCTRL_PIN_47 : Z := 47.
Definition PINCTRL_PIN_48 : Z := 48.
Definition PINCTRL_PIN_49 : Z := 49.
Definition PINCTRL_PIN_50 : Z := 50.
Definition PINCTRL_PIN_51 : Z := 51.
Definition PINCTRL_PIN_52 : Z := 52.
Definition PINCTRL_PIN_53 : Z := 53.
Definition PINCTRL_PIN_54 : Z := 54.
Definition PINCTRL_PIN_55 : Z := 55.
Definition PINCTRL_PIN_56 : Z := 56.
Definition PINCTRL_PIN_57 : Z := 57.
Definition PINCTRL_PIN_58 : Z := 58.
Definition PINCTRL_PIN_59 : Z := 59.
Definition PINCTRL_PIN_60 : Z := 60.
Definition PINCTRL_PIN_61 : Z := 61.
Definition PINCTRL_PIN_62 : Z := 62.
Definition PINCTRL_PIN_63 : Z := 63.
Definition PINCTRL_PIN_64 : Z := 64.
Definition PINCTRL_PIN_65 : Z := 65.
Definition PINCTRL_PIN_66 : Z := 66.
Definition PINCTRL_PIN_67 : Z := 67.
Definition PINCTRL_PIN_68 : Z := 68.
Definition PINCTRL_PIN_69 : Z := 69.
Definition PINCTRL_PIN_70 : Z := 70.
Definition PINCTRL_PIN_71 : Z := 71.
Definition PINCTRL_PIN_72 : Z := 72.
Definition PINCTRL_PIN_73 : Z := 73.
Definition PINCTRL_PIN_74 : Z := 74.
Definition PINCTRL_PIN_75 : Z := 75.
Definition PINCTRL_PIN_76 : Z := 76.
Definition PINCTRL_PIN_77 : Z := 77.
Definition END_PINS : Z := 78.

Definition PINCTRL_GRP_ETHERNET0_0 : Z := 0.
Definition PINCTRL_GRP_ETHERNET1_0 : Z := 1.
Definition PINCTRL_GRP_ETHERNET2_0 : Z := 2.
Definition PINCTRL_GRP_ETHERNET3_0 : Z := 3.
Definition PINCTRL_GRP_GEMTSU0_0 : Z := 4.
Definition PINCTRL_GRP_GEMTSU0_1 : Z := 5.
Definition PINCTRL_GRP_GEMTSU0_2 : Z := 6.
Definition PINCTRL_GRP_MDIO0_0 : Z := 7.
Definition PINCTRL_GRP_MDIO1_0 : Z := 8.
Definition PINCTRL_GRP_MDIO1_1 : Z := 9.
Definition PINCTRL_GRP_MDIO2_0 : Z := 10.
Definition PINCTRL_GRP_MDIO3_0 : Z := 11.
Definition PINCTRL_GRP_QSPI0_0 : Z := 12.
Definition PINCTRL_GRP_QSPI_SS : Z := 13.
Definition PINCTRL_GRP_QSPI_FBCLK : Z := 14.
Definition PINCTRL_GRP_SPI0_0 : Z := 15.
Definition PINCTRL_GRP_SPI0_0_SS0 : Z := 16.
Definition PINCTRL_GRP_SPI0_0_SS1 : Z := 17.
Definition PINCTRL_GRP_SPI0_0_SS2 : Z := 18.
Definition PINCTRL_GRP_SPI0_1 : Z := 19.
Definition PINCTRL_GRP_SPI0_1_SS0 : Z := 20.
Definition PINCTRL_GRP_SPI0_1_SS1 : Z := 21.
Definition PINCTRL_GRP_SPI0_1_SS2 : Z := 22.
Definition PINCTRL_GRP_SPI0_2 : Z := 23.
Definition PINCTRL_GRP_SPI0_2_SS0 : Z := 24.
Definition PINCTRL_GRP_SPI0_2_SS1 : Z := 25.
Definition PINCTRL_GRP_SPI0_2_SS2 : Z := 26.
Definition PINCTRL_GRP_SPI0_3 : Z := 27.
Definition PINCTRL_GRP_SPI0_3_SS0 : Z := 28.
Definition PINCTRL_GRP_SPI0_3_SS1 : Z := 29.
Definition PINCTRL_GRP_SPI0_3_SS2 : Z := 30.
Definition PINCTRL_GRP_SPI0_4 : Z := 31.
Definition PINCTRL_GRP_SPI0_4_SS0 : Z := 32.
Definition PINCTRL_GRP_SPI0_4_SS1 : Z := 33.
Definition PINCTRL_GRP_SPI0_4_SS2 : Z := 34.
Definition PINCTRL_GRP_SPI0_5 : Z := 35.
Definition PINCTRL_GRP_SPI0_5_SS0 : Z := 36.
Definition PINCTRL_GRP_SPI0_5_SS1 : Z := 37.
Definition PINCTRL_GRP_SPI0_5_SS2 : Z := 38.
Definition PINCTRL_GRP_SPI1_0 : Z := 39.
Definition PINCTRL_GRP_SPI1_0_SS0 : Z := 40.
Definition PINCTRL_GRP_SPI1_0_SS1 : Z := 41.
Definition PINCTRL_GRP_SPI1_0_SS2 : Z := 42.
Definition PINCTRL_GRP_SPI1_1 : Z := 43.
Definition PINCTRL_GRP_SPI1_1_SS0 : Z := 44.
Definition PINCTRL_GRP_SPI1_1_SS1 : Z := 45.
Definition PINCTRL_GRP_SPI1_1_SS2 : Z := 46.
Definition PINCTRL_GRP_SPI1_2 : Z := 47.
Definition PINCTRL_GRP_SPI1_2_SS0 : Z := 48.
Definition PINCTRL_GRP_SPI1_2_SS1 : Z := 49.
Definition PINCTRL_GRP_SPI1_2_SS2 : Z := 50.
Definition PINCTRL_GRP_SPI1_3 : Z := 51.
Definition PINCTRL_GRP_SPI1_3_SS0 : Z := 52.
Definition PINCTRL_GRP_SPI1_3_SS1 : Z := 53.
Definition PINCTRL_GRP_SPI1_3_SS2 : Z := 54.
Definition PINCTRL_GRP_SPI1_4 : Z := 55.
Definition PINCTRL_GRP_SPI1_4_SS0 : Z := 56.
Definition PINCTRL_GRP_SPI1_4_SS1 : Z := 57.
Definition PINCTRL_GRP_SPI1_4_SS2 : Z := 58.
Definition PINCTRL_GRP_SPI1_5 : Z := 59.
Definition PINCTRL_GRP_SPI1_5_SS0 : Z := 60.
Definition PINCTRL_GRP_SPI1_5_SS1 : Z := 61.
Definition PINCTRL_GRP_SPI1_5_SS2 : Z := 62.
Definition PINCTRL_GRP_SDIO0_0 : Z := 63.
Definition PINCTRL_GRP_SDIO0_1 : Z := 64.
Definition PINCTRL_GRP_SDIO0_2 : Z := 65.
Definition PINCTRL_GRP_SDIO0_4BIT_0_0 : Z := 66.
Definition PINCTRL_GRP_SDIO0_4BIT_0_1 : Z := 67.
Definition PINCTRL_GRP_SDIO0_4BIT_1_0 : Z := 68.
Definition PINCTRL_GRP_SDIO0_4BIT_1_1 : Z := 69.
Definition PINCTRL_GRP_SDIO0_4BIT_2_0 : Z := 70.
Definition PINCTRL_GRP_SDIO0_4BIT_2_1 : Z := 71.
Definition PINCTRL_GRP_SDIO0_1BIT_0_0 : Z := 72.
Definition PINCTRL_GRP_SDIO0_1BIT_0_1 : Z := 73.
Definition PINCTRL_GRP_SDIO0_1BIT_0_2 : Z := 74.
Definition PINCTRL_GRP_SDIO0_1BIT_0_3 : Z := 75.
Definition PINCTRL_GRP_SDIO0_1BIT_0_4 : Z := 76.
Definition PINCTRL_GRP_SDIO0_1BIT_0_5 : Z := 77.
Definition PINCTRL_GRP_SDIO0_1BIT_0_6 : Z := 78.
Definition PINCTRL_GRP_SDIO0_1BIT_0_7 : Z := 79.
Definition PINCTRL_GRP_SDIO0_1BIT_1_0 : Z := 80.
Definition PINCTRL_GRP_SDIO0_1BIT_1_1 : Z := 81.
Definition PINCTRL_GRP_SDIO0_1BIT_1_2 : Z := 82.
Definition PINCTRL_GRP_SDIO0_1BIT_1_3 : Z := 83.
Definition PINCTRL_GRP_SDIO0_1BIT_1_4 : Z := 84.
Definition PINCTRL_GRP_SDIO0_1BIT_1_5 : Z := 85.
Definition PINCTRL_GRP_SDIO0_1BIT_1_6 : Z := 86.
Definition PINCTRL_GRP_SDIO0_1BIT_1_7 : Z := 87.
Definition PINCTRL_GRP_SDIO0_1BIT_2_0 : Z := 88.
Definition PINCTRL_GRP_SDIO0_1BIT_2_1 : Z := 89.
Definition PINCTRL_GRP_SDIO0_1BIT_2_2 : Z := 90.
Definition PINCTRL_GRP_SDIO0_1BIT_2_3 : Z := 91.
Definition PINCTRL_GRP_SDIO0_1BIT_2_4 : Z := 92.
Definition PINCTRL_GRP_SDIO0_1BIT_2_5 : Z := 93.
Definition PINCTRL_GRP_SDIO0_1BIT_2_6 : Z := 94.
Definition PINCTRL_GRP_SDIO0_1BIT_2_7 : Z := 95.
Definition PINCTRL_GRP_SDIO0_0_PC : Z := 96.
Definition PINCTRL_GRP_SDIO0_0_CD : Z := 97.
Definition PINCTRL_GRP_SDIO0_0_WP : Z := 98.
Definition PINCTRL_GRP_SDIO0_1_PC : Z := 99.
Definition PINCTRL_GRP_SDIO0_1_CD : Z := 100.
Definition PINCTRL_GRP_SDIO0_1_WP : Z := 101.
Definition PINCTRL_GRP_SDIO0_2_PC : Z := 102.
Definition PINCTRL_GRP_SDIO0_2_CD : Z := 103.
Definition PINCTRL_GRP_SDIO0_2_WP : Z := 104.
Definition PINCTRL_GRP_SDIO1_0 : Z := 105.
Definition PINCTRL_GRP_SDIO1_4BIT_0_0 : Z := 106.
Definition PINCTRL_GRP_SDIO1_4BIT_0_1 : Z := 107.
Definition PINCTRL_GRP_SDIO1_4BIT_1_0 : Z := 108.
Definition PINCTRL_GRP_SDIO1_1BIT_0_0 : Z := 109.
Definition PINCTRL_GRP_SDIO1_1BIT_0_1 : Z := 110.
Definition PINCTRL_GRP_SDIO1_1BIT_0_2 : Z := 111.
Definition PINCTRL_GRP_SDIO1_1BIT_0_3 : Z := 112.
Definition PINCTRL_GRP_SDIO1_1BIT_0_4 : Z := 113.
Definition PINCTRL_GRP_SDIO1_1BIT_0_5 : Z := 114.
Definition PINCTRL_GRP_SDIO1_1BIT_0_6 : Z := 115.
Definition PINCTRL_GRP_SDIO1_1BIT_0_7 : Z := 116.
Definition PINCTRL_GRP_SDIO1_1BIT_1_0 : Z := 117.
Definition PINCTRL_GRP_SDIO1_1BIT_1_1 : Z := 118.
Definition PINCTRL_GRP_SDIO1_1BIT_1_2 : Z := 119.
Definition PINCTRL_GRP_SDIO1_1BIT_1_3 : Z := 120.
Definition PINCTRL_GRP_SDIO1_0_PC : Z := 121.
Definition PINCTRL_GRP_SDIO1_0_CD : Z := 122.
Definition PINCTRL_GRP_SDIO1_0_WP : Z := 123.
Definition PINCTRL_GRP_SDIO1_1_PC : Z := 124.
Definition PINCTRL_GRP_SDIO1_1_CD : Z := 125.
Definition PINCTRL_GRP_SDIO1_1_WP : Z := 126.
Definition PINCTRL_GRP_NAND0_0 : Z := 127.
Definition PINCTRL_GRP_NAND0_0_CE : Z := 128.
Definition PINCTRL_GRP_NAND0_0_RB : Z := 129.
Definition PINCTRL_GRP_NAND0_0_DQS : Z := 130.
Definition PINCTRL_GRP_NAND0_1_CE : Z := 131.
Definition PINCTRL_GRP_NAND0_1_RB : Z := 132.
Definition PINCTRL_GRP_NAND0_1_DQS : Z := 133.
Definition PINCTRL_GRP_CAN0_0 : Z := 134.
Definition PINCTRL_GRP_CAN0_1 : Z := 135.
Definition PINCTRL_GRP_CAN0_2 : Z := 136.
Definition PINCTRL_GRP_CAN0_3 : Z := 137.
Definition PINCTRL_GRP_CAN0_4 : Z := 138.
Definition PINCTRL_GRP_CAN0_5 : Z := 139.
Definition PINCTRL_GRP_CAN0_6 : Z := 140.
Definition PINCTRL_GRP_CAN0_7 : Z := 141.
Definition PINCTRL_GRP_CAN0_8 : Z := 142.
Definition PINCTRL_GRP_CAN0_9 : Z := 143.
Definition PINCTRL_GRP_CAN0_10 : Z := 144.
Definition PINCTRL_GRP_CAN0_11 : Z := 145.
Definition PINCTRL_GRP_CAN0_12 : Z := 146.
Definition PINCTRL_GRP_CAN0_13 : Z := 147.
Definition PINCTRL_GRP_CAN0_14 : Z := 148.
Definition PINCTRL_GRP_CAN0_15 : Z := 149.
Definition PINCTRL_GRP_CAN0_16 : Z := 150.
Definition PINCTRL_GRP_CAN0_17 : Z := 151.
Definition PINCTRL_GRP_CAN0_18 : Z := 152.
Definition PINCTRL_GRP_CAN1_0 : Z := 153.
Definition PINCTRL_GRP_CAN1_1 : Z := 154.
Definition PINCTRL_GRP_CAN1_2 : Z := 155.
Definition PINCTRL_GRP_CAN1_3 : Z := 156.
Definition PINCTRL_GRP_CAN1_4 : Z := 157.
Definition PINCTRL_GRP_CAN1_5 : Z := 158.
Definition PINCTRL_GRP_CAN1_6 : Z := 159.
Definition PINCTRL_GRP_CAN1_7 : Z := 160.
Definition PINCTRL_GRP_CAN1_8 : Z := 161.
Definition PINCTRL_GRP_CAN1_9 : Z := 162.
Definition PINCTRL_GRP_CAN1_10 : Z := 163.
Definition PINCTRL_GRP_CAN1_11 : Z := 164.
Definition PINCTRL_GRP_CAN1_12 : Z := 165.
Definition PINCTRL_GRP_CAN1_13 : Z := 166.
Definition PINCTRL_GRP_CAN1_14 : Z := 167.
Definition PINCTRL_GRP_CAN1_15 : Z := 168.
Definition PINCTRL_GRP_CAN1_16 : Z := 169.
Definition PINCTRL_GRP_CAN1_17 : Z := 170.
Definition PINCTRL_GRP_CAN1_18 : Z := 171.
Definition PINCTRL_GRP_CAN1_19 : Z := 172.
Definition PINCTRL_GRP_UART0_0 : Z := 173.
Definition PINCTRL_GRP_UART0_1 : Z := 174.
Definition PINCTRL_GRP_UART0_2 : Z := 175.
Definition PINCTRL_GRP_UART0_3 : Z := 176.
Definition PINCTRL_GRP_UART0_4 : Z := 177.
Definition PINCTRL_GRP_UART0_5 : Z := 178.
Definition PINCTRL_GRP_UART0_6 : Z := 179.
Definition PINCTRL_GRP_UART0_7 : Z := 180.
Definition PINCTRL_GRP_UART0_8 : Z := 181.
Definition PINCTRL_GRP_UART0_9 : Z := 182.
Definition PINCTRL_GRP_UART0_10 : Z := 183.
Definition PINCTRL_GRP_UART0_11 : Z := 184.
Definition PINCTRL_GRP_UART0_12 : Z := 185.
Definition PINCTRL_GRP_UART0_13 : Z := 186.
Definition PINCTRL_GRP_UART0_14 : Z := 187.
Definition PINCTRL_GRP_UART0_15 : Z := 188.
Definition PINCTRL_GRP_UART0_16 : Z := 189.
Definition PINCTRL_GRP_UART0_17 : Z := 190.
Definition PINCTRL_GRP_UART0_18 : Z := 191.
Definition PINCTRL_GRP_UART1_0 : Z := 192.
Definition PINCTRL_GRP_UART1_1 : Z := 193.
Definition PINCTRL_GRP_UART1_2 : Z := 194.
Definition PINCTRL_GRP_UART1_3 : Z := 195.
Definition PINCTRL_GRP_UART1_4 : Z := 196.
Definition PINCTRL_GRP_UART1_5 : Z := 197.
Definition PINCTRL_GRP_UART1_6 : Z := 198.
Definition PINCTRL_GRP_UART1_7 : Z := 199.
Definition PINCTRL_GRP_UART1_8 : Z := 200.
Definition PINCTRL_GRP_UART1_9 : Z := 201.
Definition PINCTRL_GRP_UART1_10 : Z := 202.
Definition PINCTRL_GRP_UART1_11 : Z := 203.
Definition PINCTRL_GRP_UART1_12 : Z := 204.
Definition PINCTRL_GRP_UART1_13 : Z := 205.
Definition PINCTRL_GRP_UART1_14 : Z := 206.
Definition PINCTRL_GRP_UART1_15 : Z := 207.
Definition PINCTRL_GRP_UART1_16 : Z := 208.
Definition PINCTRL_GRP_UART1_17 : Z := 209.
Definition PINCTRL_GRP_UART1_18 : Z := 210.
Definition PINCTRL_GRP_I2C0_0 : Z := 211.
Definition PINCTRL_GRP_I2C0_1 : Z := 212.
Definition PINCTRL_GRP_I2C0_2 : Z := 213.
Definition PINCTRL_GRP_I2C0_3 : Z := 214.
Definition PINCTRL_GRP_I2C0_4 : Z := 215.
Definition PINCTRL_GRP_I2C0_5 : Z := 216.
Definition PINCTRL_GRP_I2C0_6 : Z := 217.
Definition PINCTRL_GRP_I2C0_7 : Z := 218.
Definition PINCTRL_GRP_I2C0_8 : Z := 219.
Definition PINCTRL_GRP_I2C0_9 : Z := 220.
Definition PINCTRL_GRP_I2C0_10 : Z := 221.
Definition PINCTRL_GRP_I2C0_11 : Z := 222.
Definition PINCTRL_GRP_I2C0_12 : Z := 223.
Definition PINCTRL_GRP_I2C0_13 : Z := 224.
Definition PINCTRL_GRP_I2C0_14 : Z := 225.
Definition PINCTRL_GRP_I2C0_15 : Z := 226.
Definition PINCTRL_GRP_I2C0_16 : Z := 227.
Definition PINCTRL_GRP_I2C0_17 : Z := 228.
Definition PINCTRL_GRP_I2C0_18 : Z := 229.
Definition PINCTRL_GRP_I2C1_0 : Z := 230.
Definition PINCTRL_GRP_I2C1_1 : Z := 231.
Definition PINCTRL_GRP_I2C1_2 : Z := 232.
Definition PINCTRL_GRP_I2C1_3 : Z := 233.
Definition PINCTRL_GRP_I2C1_4 : Z := 234.
Definition PINCTRL_GRP_I2C1_5 : Z := 235.
Definition PINCTRL_GRP_I2C1_6 : Z := 236.
Definition PINCTRL_GRP_I2C1_7 : Z := 237.
Definition PINCTRL_GRP_I2C1_8 : Z := 238.
Definition PINCTRL_GRP_I2C1_9 : Z := 239.
Definition PINCTRL_GRP_I2C1_10 : Z := 240.
Definition PINCTRL_GRP_I2C1_11 : Z := 241.
Definition PINCTRL_GRP_I2C1_12 : Z := 242.
Definition PINCTRL_GRP_I2C1_13 : Z := 243.
Definition PINCTRL_GRP_I2C1_14 : Z := 244.
Definition PINCTRL_GRP_I2C1_15 : Z := 245.
Definition PINCTRL_GRP_I2C1_16 : Z := 246.
Definition PINCTRL_GRP_I2C1_17 : Z := 247.
Definition PINCTRL_GRP_I2C1_18 : Z := 248.
Definition PINCTRL_GRP_I2C1_19 : Z := 249.
Definition PINCTRL_GRP_TTC0_0_CLK : Z := 250.
Definition PINCTRL_GRP_TTC0_0_WAV : Z := 251.
Definition PINCTRL_GRP_TTC0_1_CLK : Z := 252.
Definition PINCTRL_GRP_TTC0_1_WAV : Z := 253.
Definition PINCTRL_GRP_TTC0_2_CLK : Z := 254.
Definition PINCTRL_GRP_TTC0_2_WAV : Z := 255.
Definition PINCTRL_GRP_TTC0_3_CLK : Z := 256.
Definition PINCTRL_GRP_TTC0_3_WAV : Z := 257.
Definition PINCTRL_GRP_TTC0_4_CLK : Z := 258.
Definition PINCTRL_GRP_TTC0_4_WAV : Z := 259.
Definition PINCTRL_GRP_TTC0_5_CLK : Z := 260.
Definition PINCTRL_GRP_TTC0_5_WAV : Z := 261.
Definition PINCTRL_GRP_TTC0_6_CLK : Z := 262.
Definition PINCTRL_GRP_TTC0_6_WAV : Z := 263.
Definition PINCTRL_GRP_TTC0_7_CLK : Z := 264.
Definition PINCTRL_GRP_TTC0_7_WAV : Z := 265.
Definition PINCTRL_GRP_TTC0_8_CLK : Z := 266.
Definition PINCTRL_GRP_TTC0_8_WAV : Z := 267.
Definition PINCTRL_GRP_TTC1_0_CLK : Z := 268.
Definition PINCTRL_GRP_TTC1_0_WAV : Z := 269.
Definition PINCTRL_GRP_TTC1_1_CLK : Z := 270.
Definition PINCTRL_GRP_TTC1_1_WAV : Z := 271.
Definition PINCTRL_GRP_TTC1_2_CLK : Z := 272.
Definition PINCTRL_GRP_TTC1_2_WAV : Z := 273.
Definition PINCTRL_GRP_TTC1_3_CLK : Z := 274.
Definition PINCTRL_GRP_TTC1_3_WAV : Z := 275.
Definition PINCTRL_GRP_TTC1_4_CLK : Z := 276.
Definition PINCTRL_GRP_TTC1_4_WAV : Z := 277.
Definition PINCTRL_GRP_TTC1_5_CLK : Z := 278.
Definition PINCTRL_GRP_TTC1_5_WAV : Z := 279.
Definition PINCTRL_GRP_TTC1_6_CLK : Z := 280.
Definition PINCTRL_GRP_TTC1_6_WAV : Z := 281.
Definition PINCTRL_GRP_TTC1_7_CLK : Z := 282.
Definition PINCTRL_GRP_TTC1_7_WAV : Z := 283.
Definition PINCTRL_GRP_TTC1_8_CLK : Z := 284.
Definition PINCTRL_GRP_TTC1_8_WAV : Z := 285.
Definition PINCTRL_GRP_TTC2_0_CLK : Z := 286.
Definition PINCTRL_GRP_TTC2_0_WAV : Z := 287.
Definition PINCTRL_GRP_TTC2_1_CLK : Z := 288.
Definition PINCTRL_GRP_TTC2_1_WAV : Z := 289.
Definition PINCTRL_GRP_TTC2_2_CLK : Z := 290.
Definition PINCTRL_GRP_TTC2_2_WAV : Z := 291.
Definition PINCTRL_GRP_TTC2_3_CLK : Z := 292.
Definition PINCTRL_GRP_TTC2_3_WAV : Z := 293.
Definition PINCTRL_GRP_TTC2_4_CLK : Z := 294.
Definition PINCTRL_GRP_TTC2_4_WAV : Z := 295.
Definition PINCTRL_GRP_TTC2_5_CLK : Z := 296.
Definition PINCTRL_GRP_TTC2_5_WAV : Z := 297.
Definition PINCTRL_GRP_TTC2_6_CLK : Z := 298.
Definition PINCTRL_GRP_TTC2_6_WAV : Z := 299.
Definition PINCTRL_GRP_TTC2_7_CLK : Z := 300.
Definition PINCTRL_GRP_TTC2_7_WAV : Z := 301.
Definition PINCTRL_GRP_TTC2_8_CLK : Z := 302.
Definition PINCTRL_GRP_TTC2_8_WAV : Z := 303.
Definition PINCTRL_GRP_TTC3_0_CLK : Z := 304.
Definition PINCTRL_GRP_TTC3_0_WAV : Z := 305.
Definition PINCTRL_GRP_TTC3_1_CLK : Z := 306.
Definition PINCTRL_GRP_TTC3_1_WAV : Z := 307.
Definition PINCTRL_GRP_TTC3_2_CLK : Z := 308.
Definition PINCTRL_GRP_TTC3_2_WAV : Z := 309.
Definition PINCTRL_GRP_TTC3_3_CLK : Z := 310.
Definition PINCTRL_GRP_TTC3_3_WAV : Z := 311.
Definition PINCTRL_GRP_TTC3_4_CLK : Z := 312.
Definition PINCTRL_GRP_TTC3_4_WAV : Z := 313.
Definition PINCTRL_GRP_TTC3_5_CLK : Z := 314.
Definition PINCTRL_GRP_TTC3_5_WAV : Z := 315.
Definition PINCTRL_GRP_TTC3_6_CLK : Z := 316.
Definition PINCTRL_GRP_TTC3_6_WAV : Z := 317.
Definition PINCTRL_GRP_TTC3_7_CLK : Z := 318.
Definition PINCTRL_GRP_TTC3_7_WAV : Z := 319.
Definition PINCTRL_GRP_TTC3_8_CLK : Z := 320.
Definition PINCTRL_GRP_TTC3_8_WAV : Z := 321.
Definition PINCTRL_GRP_SWDT0_0_CLK : Z := 322.
Definition PINCTRL_GRP_SWDT0_0_RST : Z := 323.
Definition PINCTRL_GRP_SWDT0_1_CLK : Z := 324.
Definition PINCTRL_GRP_SWDT0_1_RST : Z := 325.
Definition PINCTRL_GRP_SWDT0_2_CLK : Z := 326.
Definition PINCTRL_GRP_SWDT0_2_RST : Z := 327.
Definition PINCTRL_GRP_SWDT0_3_CLK : Z := 328.
Definition PINCTRL_GRP_SWDT0_3_RST : Z := 329.
Definition PINCTRL_GRP_SWDT0_4_CLK : Z := 330.
Definition PINCTRL_GRP_SWDT0_4_RST : Z := 331.
Definition PINCTRL_GRP_SWDT0_5_CLK : Z := 332.
Definition PINCTRL_GRP_SWDT0_5_RST : Z := 333.
Definition PINCTRL_GRP_SWDT0_6_CLK : Z := 334.
Definition PINCTRL_GRP_SWDT0_6_RST : Z := 335.
Definition PINCTRL_GRP_SWDT0_7_CLK : Z := 336.
Definition PINCTRL_GRP_SWDT0_7_RST : Z := 337.
Definition PINCTRL_GRP_SWDT0_8_CLK : Z := 338.
Definition PINCTRL_GRP_SWDT0_8_RST : Z := 339.
Definition PINCTRL_GRP_SWDT0_9_CLK : Z := 340.
Definition PINCTRL_GRP_SWDT0_9_RST : Z := 341.
Definition PINCTRL_GRP_SWDT0_10_CLK : Z := 342.
Definition PINCTRL_GRP_SWDT0_10_RST : Z := 343.
Definition PINCTRL_GRP_SWDT0_11_CLK : Z := 344.
Definition PINCTRL_GRP_SWDT0_11_RST : Z := 345.
Definition PINCTRL_GRP_SWDT0_12_CLK : Z := 346.
Definition PINCTRL_GRP_SWDT0_12_RST : Z := 347.
Definition PINCTRL_GRP_SWDT1_0_CLK : Z := 348.
Definition PINCTRL_GRP_SWDT1_0_RST : Z := 349.
Definition PINCTRL_GRP_SWDT1_1_CLK : Z := 350.
Definition PINCTRL_GRP_SWDT1_1_RST : Z := 351.
Definition PINCTRL_GRP_SWDT1_2_CLK : Z := 352.
Definition PINCTRL_GRP_SWDT1_2_RST : Z := 353.
Definition PINCTRL_GRP_SWDT1_3_CLK : Z := 354.
Definition PINCTRL_GRP_SWDT1_3_RST : Z := 355.
Definition PINCTRL_GRP_SWDT1_4_CLK : Z := 356.
Definition PINCTRL_GRP_SWDT1_4_RST : Z := 357.
Definition PINCTRL_GRP_SWDT1_5_CLK : Z := 358.
Definition PINCTRL_GRP_SWDT1_5_RST : Z := 359.
Definition PINCTRL_GRP_SWDT1_6_CLK : Z := 360.
Definition PINCTRL_GRP_SWDT1_6_RST : Z := 361.
Definition PINCTRL_GRP_SWDT1_7_CLK : Z := 362.
Definition PINCTRL_GRP_SWDT1_7_RST : Z := 363.
Definition PINCTRL_GRP_SWDT1_8_CLK : Z := 364.
Definition PINCTRL_GRP_SWDT1_8_RST : Z := 365.
Definition PINCTRL_GRP_SWDT1_9_CLK : Z := 366.
Definition PINCTRL_GRP_SWDT1_9_RST : Z := 367.
Definition PINCTRL_GRP_SWDT1_10_CLK : Z := 368.
Definition PINCTRL_GRP_SWDT1_10_RST : Z := 369.
Definition PINCTRL_GRP_SWDT1_11_CLK : Z := 370.
Definition PINCTRL_GRP_SWDT1_11_RST : Z := 371.
Definition PINCTRL_GRP_SWDT1_12_CLK : Z := 372.
Definition PINCTRL_GRP_SWDT1_12_RST : Z := 373.
Definition PINCTRL_GRP_GPIO0_0 : Z := 374.
Definition PINCTRL_GRP_GPIO0_1 : Z := 375.
Definition PINCTRL_GRP_GPIO0_2 : Z := 376.
Definition PINCTRL_GRP_GPIO0_3 : Z := 377.
Definition PINCTRL_GRP_GPIO0_4 : Z := 378.
Definition PINCTRL_GRP_GPIO0_5 : Z := 379.
Definition PINCTRL_GRP_GPIO0_6 : Z := 380.
Definition PINCTRL_GRP_GPIO0_7 : Z := 381.
Definition PINCTRL_GRP_GPIO0_8 : Z := 382.
Definition PINCTRL_GRP_GPIO0_9 : Z := 383.
Definition PINCTRL_GRP_GPIO0_10 : Z := 384.
Definition PINCTRL_GRP_GPIO0_11 : Z := 385.
Definition PINCTRL_GRP_GPIO0_12 : Z := 386.
Definition PINCTRL_GRP_GPIO0_13 : Z := 387.
Definition PINCTRL_GRP_GPIO0_14 : Z := 388.
Definition PINCTRL_GRP_GPIO0_15 : Z := 389.
Definition PINCTRL_GRP_GPIO0_16 : Z := 390.
Definition PINCTRL_GRP_GPIO0_17 : Z := 391.
Definition PINCTRL_GRP_GPIO0_18 : Z := 392.
Definition PINCTRL_GRP_GPIO0_19 : Z := 393.
Definition PINCTRL_GRP_GPIO0_20 : Z := 394.
Definition PINCTRL_GRP_GPIO0_21 : Z := 395.
Definition PINCTRL_GRP_GPIO0_22 : Z := 396.
Definition PINCTRL_GRP_GPIO0_23 : Z := 397.
Definition PINCTRL_GRP_GPIO0_24 : Z := 398.
Definition PINCTRL_GRP_GPIO0_25 : Z := 399.
Definition PINCTRL_GRP_GPIO0_26 : Z := 400.
Definition PINCTRL_GRP_GPIO0_27 : Z := 401.
Definition PINCTRL_GRP_GPIO0_28 : Z := 402.
Definition PINCTRL_GRP_GPIO0_29 : Z := 403.
Definition PINCTRL_GRP_GPIO0_30 : Z := 404.
Definition PINCTRL_GRP_GPIO0_31 : Z := 405.
Definition PINCTRL_GRP_GPIO0_32 : Z := 406.
Definition PINCTRL_GRP_GPIO0_33 : Z := 407.
Definition PINCTRL_GRP_GPIO0_34 : Z := 408.
Definition PINCTRL_GRP_GPIO0_35 : Z := 409.
Definition PINCTRL_GRP_GPIO0_36 : Z := 410.
Definition PINCTRL_GRP_GPIO0_37 : Z := 411.
Definition PINCTRL_GRP_GPIO0_38 : Z := 412.
Definition PINCTRL_GRP_GPIO0_39 : Z := 413.
Definition PINCTRL_GRP_GPIO0_40 : Z := 414.
Definition PINCTRL_GRP_GPIO0_41 : Z := 415.
Definition PINCTRL_GRP_GPIO0_42 : Z := 416.
Definition PINCTRL_GRP_GPIO0_43 : Z := 417.
Definition PINCTRL_GRP_GPIO0_44 : Z := 418.
Definition PINCTRL_GRP_GPIO0_45 : Z := 419.
Definition PINCTRL_GRP_GPIO0_46 : Z := 420.
Definition PINCTRL_GRP_GPIO0_47 : Z := 421.
Definition PINCTRL_GRP_GPIO0_48 : Z := 422.
Definition PINCTRL_GRP_GPIO0_49 : Z := 423.
Definition PINCTRL_GRP_GPIO0_50 : Z := 424.
Definition PINCTRL_GRP_GPIO0_51 : Z := 425.
Definition PINCTRL_GRP_GPIO0_52 : Z := 426.
Definition PINCTRL_GRP_GPIO0_53 : Z := 427.
Definition PINCTRL_GRP_GPIO0_54 : Z := 428.
Definition PINCTRL_GRP_GPIO0_55 : Z := 429.
Definition PINCTRL_GRP_GPIO0_56 : Z := 430.
Definition PINCTRL_GRP_GPIO0_57 : Z := 431.
Definition PINCTRL_GRP_GPIO0_58 : Z := 432.
Definition PINCTRL_GRP_GPIO0_59 : Z := 433.
Definition PINCTRL_GRP_GPIO0_60 : Z := 434.
Definition PINCTRL_GRP_GPIO0_61 : Z := 435.
Definition PINCTRL_GRP_GPIO0_62 : Z := 436.
Definition PINCTRL_GRP_GPIO0_63 : Z := 437.
Definition PINCTRL_GRP_GPIO0_64 : Z := 438.
Definition PINCTRL_GRP_GPIO0_65 : Z := 439.
Definition PINCTRL_GRP_GPIO0_66 : Z := 440.
Definition PINCTRL_GRP_GPIO0_67 : Z := 441.
Definition PINCTRL_GRP_GPIO0_68 : Z := 442.
Definition PINCTRL_GRP_GPIO0_69 : Z := 443.
Definition PINCTRL_GRP_GPIO0_70 : Z := 444.
Definition PINCTRL_GRP_GPIO0_71 : Z := 445.
Definition PINCTRL_GRP_GPIO0_72 : Z := 446.
Definition PINCTRL_GRP_GPIO0_73 : Z := 447.
Definition PINCTRL_GRP_GPIO0_74 : Z := 448.
Definition PINCTRL_GRP_GPIO0_75 : Z := 449.
Definition PINCTRL_GRP_GPIO0_76 : Z := 450.
Definition PINCTRL_GRP_GPIO0_77 : Z := 451.
Definition PINCTRL_GRP_USB0_0 : Z := 452.
Definition PINCTRL_GRP_USB1_0 : Z := 453.
Definition PINCTRL_GRP_PMU0_0 : Z := 454.
Definition PINCTRL_GRP_PMU0_1 : Z := 455.
Definition PINCTRL_GRP_PMU0_2 : Z := 456.
Definition PINCTRL_GRP_PMU0_3 : Z := 457.
Definition PINCTRL_GRP_PMU0_4 : Z := 458.
Definition PINCTRL_GRP_PMU0_5 : Z := 459.
Definition PINCTRL_GRP_PMU0_6 : Z := 460.
Definition PINCTRL_GRP_PMU0_7 : Z := 461.
Definition PINCTRL_GRP_PMU0_8 : Z := 462.
Definition PINCTRL_GRP_PMU0_9 : Z := 463.
Definition PINCTRL_GRP_PMU0_10 : Z := 464.
Definition PINCTRL_GRP_PMU0_11 : Z := 465.
Definition PINCTRL_GRP_PCIE0_0 : Z := 466.
Definition PINCTRL_GRP_PCIE0_1 : Z := 467.
Definition PINCTRL_GRP_PCIE0_2 : Z := 468.
Definition PINCTRL_GRP_PCIE0_3 : Z := 469.
Definition PINCTRL_GRP_PCIE0_4 : Z := 470.
Definition PINCTRL_GRP_PCIE0_5 : Z := 471.
Definition PINCTRL_GRP_PCIE0_6 : Z := 472.
Definition PINCTRL_GRP_PCIE0_7 : Z := 473.
Definition PINCTRL_GRP_CSU0_0 : Z := 474.
Definition PINCTRL_GRP_CSU0_1 : Z := 475.
Definition PINCTRL_GRP_CSU0_2 : Z := 476.
Definition PINCTRL_GRP_CSU0_3 : Z := 477.
Definition PINCTRL_GRP_CSU0_4 : Z := 478.
Definition PINCTRL_GRP_CSU0_5 : Z := 479.
Definition PINCTRL_GRP_CSU0_6 : Z := 480.
Definition PINCTRL_GRP_CSU0_7 : Z := 481.
Definition PINCTRL_GRP_CSU0_8 : Z := 482.
Definition PINCTRL_GRP_CSU0_9 : Z := 483.
Definition PINCTRL_GRP_CSU0_10 : Z := 484.
Definition PINCTRL_GRP_CSU0_11 : Z := 485.
Definition PINCTRL_GRP_DPAUX0_0 : Z := 486.
Definition PINCTRL_GRP_DPAUX0_1 : Z := 487.
Definition PINCTRL_GRP_DPAUX0_2 : Z := 488.
Definition PINCTRL_GRP_DPAUX0_3 : Z := 489.
Definition PINCTRL_GRP_PJTAG0_0 : Z := 490.
Definition PINCTRL_GRP_PJTAG0_1 : Z := 491.
Definition PINCTRL_GRP_PJTAG0_2 : Z := 492.
Definition PINCTRL_GRP_PJTAG0_3 : Z := 493.
Definition PINCTRL_GRP_PJTAG0_4 : Z := 494.
Definition PINCTRL_GRP_PJTAG0_5 : Z := 495.
Definition PINCTRL_GRP_TRACE0_0 : Z := 496.
Definition PINCTRL_GRP_TRACE0_0_CLK : Z := 497.
Definition PINCTRL_GRP_TRACE0_1 : Z := 498.
Definition PINCTRL_GRP_TRACE0_1_CLK : Z := 499.
Definition PINCTRL_GRP_TRACE0_2 : Z := 500.
Definition PINCTRL_GRP_TRACE0_2_CLK : Z := 501.
Definition PINCTRL_GRP_TESTSCAN0_0 : Z := 502.

Definition MAX_FUNCTION : Z := END_FUNCTION.
Definition MAX_PIN : Z := END_PINS.

Record pinctrl_function := PinctrlFunction {
  fname : string;              (* char[FUNCTION_NAME_LEN] *)
  fgroups : option (list Z);   (* uint16_t [], or null *)
  regval : Z
}.

Record zynqmp_pin_group := PinGroup { pgroups : option (list Z) }.

(** A [uint16_t []] with these initialisers. *)
Definition u16s (l : list Z) : option (list Z) := Some (map u16 l).

Definition pinctrl_functions_1 : list (Z * pinctrl_function) :=
  [ (PINCTRL_FUNC_CAN0, {| fname := "can0"; regval := 0x20;
      fgroups := u16s [PINCTRL_GRP_CAN0_0; PINCTRL_GRP_CAN0_1; PINCTRL_GRP_CAN0_2; PINCTRL_GRP_CAN0_3;
        PINCTRL_GRP_CAN0_4; PINCTRL_GRP_CAN0_5; PINCTRL_GRP_CAN0_6; PINCTRL_GRP_CAN0_7;
        PINCTRL_GRP_CAN0_8; PINCTRL_GRP_CAN0_9; PINCTRL_GRP_CAN0_10; PINCTRL_GRP_CAN0_11;
        PINCTRL_GRP_CAN0_12; PINCTRL_GRP_CAN0_13; PINCTRL_GRP_CAN0_14; PINCTRL_GRP_CAN0_15;
        PINCTRL_GRP_CAN0_16; PINCTRL_GRP_CAN0_17; PINCTRL_GRP_CAN0_18; END_OF_GROUPS] |});
    (PINCTRL_FUNC_CAN1, {| fname := "can1"; regval := 0x20;
      fgroups := u16s [PINCTRL_GRP_CAN1_0; PINCTRL_GRP_CAN1_1; PINCTRL_GRP_CAN1_2; PINCTRL_GRP_CAN1_3;
        PINCTRL_GRP_CAN1_4; PINCTRL_GRP_CAN1_5; PINCTRL_GRP_CAN1_6; PINCTRL_GRP_CAN1_7;
        PINCTRL_GRP_CAN1_8; PINCTRL_GRP_CAN1_9; PINCTRL_GRP_CAN1_10; PINCTRL_GRP_CAN1_11;
        PINCTRL_GRP_CAN1_12; PINCTRL_GRP_CAN1_13; PINCTRL_GRP_CAN1_14; PINCTRL_GRP_CAN1_15;
        PINCTRL_GRP_CAN1_16; PINCTRL_GRP_CAN1_17; PINCTRL_GRP_CAN1_18; PINCTRL_GRP_CAN1_19;
        END_OF_GROUPS] |});
    (PINCTRL_FUNC_ETHERNET0, {| fname := "ethernet0"; regval := 0x02;
      fgroups := u16s [PINCTRL_GRP_ETHERNET0_0; END_OF_GROUPS] |});
    (PINCTRL_FUNC_ETHERNET1, {| fname := "ethernet1"; regval := 0x02;
      fgroups := u16s [PINCTRL_GRP_ETHERNET1_0; END_OF_GROUPS] |});
    (PINCTRL_FUNC_ETHERNET2, {| fname := "ethernet2"; regval := 0x02;
      fgroups := u16s [PINCTRL_GRP_ETHERNET2_0; END_OF_GROUPS] |});
    (PINCTRL_FUNC_ETHERNET3, {| fname := "ethernet3"; regval := 0x02;
      fgroups := u16s [PINCTRL_GRP_ETHERNET3_0; END_OF_GROUPS] |});
    (PINCTRL_FUNC_GEMTSU0, {| fname := "gemtsu0"; regval := 0x02;
      fgroups := u16s [PINCTRL_GRP_GEMTSU0_0; PINCTRL_GRP_GEMTSU0_1; PINCTRL_GRP_GEMTSU0_2; END_OF_GROUPS] |}) ].

Definition pinctrl_functions_2 : list (Z * pinctrl_function) :=
  [ (PINCTRL_FUNC_GPIO0, {| fname := "gpio0"; regval := 0x00;
      fgroups := u16s [PINCTRL_GRP_GPIO0_0; PINCTRL_GRP_GPIO0_1; PINCTRL_GRP_GPIO0_2; PINCTRL_GRP_GPIO0_3;
        PINCTRL_GRP_GPIO0_4; PINCTRL_GRP_GPIO0_5; PINCTRL_GRP_GPIO0_6; PINCTRL_GRP_GPIO0_7;
        PINCTRL_GRP_GPIO0_8; PINCTRL_GRP_GPIO0_9; PINCTRL_GRP_GPIO0_10; PINCTRL_GRP_GPIO0_11;
        PINCTRL_GRP_GPIO0_12; PINCTRL_GRP_GPIO0_13; PINCTRL_GRP_GPIO0_14; PINCTRL_GRP_GPIO0_15;
        PINCTRL_GRP_GPIO0_16; PINCTRL_GRP_GPIO0_17; PINCTRL_GRP_GPIO0_18; PINCTRL_GRP_GPIO0_19;
        PINCTRL_GRP_GPIO0_20; PINCTRL_GRP_GPIO0_21; PINCTRL_GRP_GPIO0_22; PINCTRL_GRP_GPIO0_23;
        PINCTRL_GRP_GPIO0_24; PINCTRL_GRP_GPIO0_25; PINCTRL_GRP_GPIO0_26; PINCTRL_GRP_GPIO0_27;
        PINCTRL_GRP_GPIO0_28; PINCTRL_GRP_GPIO0_29; PINCTRL_GRP_GPIO0_30; PINCTRL_GRP_GPIO0_31;
        PINCTRL_GRP_GPIO0_32; PINCTRL_GRP_GPIO0_33; PINCTRL_GRP_GPIO0_34; PINCTRL_GRP_GPIO0_35;
        PINCTRL_GRP_GPIO0_36; PINCTRL_GRP_GPIO0_37; PINCTRL_GRP_GPIO0_38; PINCTRL_GRP_GPIO0_39;
        PINCTRL_GRP_GPIO0_40; PINCTRL_GRP_GPIO0_41; PINCTRL_GRP_GPIO0_42; PINCTRL_GRP_GPIO0_43;
        PINCTRL_GRP_GPIO0_44; PINCTRL_GRP_GPIO0_45; PINCTRL_GRP_GPIO0_46; PINCTRL_GRP_GPIO0_47;
        PINCTRL_GRP_GPIO0_48; PINCTRL_GRP_GPIO0_49; PINCTRL_GRP_GPIO0_50; PINCTRL_GRP_GPIO0_51;
        PINCTRL_GRP_GPIO0_52; PINCTRL_GRP_GPIO0_53; PINCTRL_GRP_GPIO0_54; PINCTRL_GRP_GPIO0_55;
        PINCTRL_GRP_GPIO0_56; PINCTRL_GRP_GPIO0_57; PINCTRL_GRP_GPIO0_58; PINCTRL_GRP_GPIO0_59;
        PINCTRL_GRP_GPIO0_60; PINCTRL_GRP_GPIO0_61; PINCTRL_GRP_GPIO0_62; PINCTRL_GRP_GPIO0_63;
        PINCTRL_GRP_GPIO0_64; PINCTRL_GRP_GPIO0_65; PINCTRL_GRP_GPIO0_66; PINCTRL_GRP_GPIO0_67;
        PINCTRL_GRP_GPIO0_68; PINCTRL_GRP_GPIO0_69; PINCTRL_GRP_GPIO0_70; PINCTRL_GRP_GPIO0_71;
        PINCTRL_GRP_GPIO0_72; PINCTRL_GRP_GPIO0_73; PINCTRL_GRP_GPIO0_74; PINCTRL_GRP_GPIO0_75;
        PINCTRL_GRP_GPIO0_76; PINCTRL_GRP_GPIO0_77; END_OF_GROUPS] |});
    (PINCTRL_FUNC_I2C0, {| fname := "i2c0"; regval := 0x40;
      fgroups := u16s [PINCTRL_GRP_I2C0_0; PINCTRL_GRP_I2C0_1; PINCTRL_GRP_I2C0_2; PINCTRL_GRP_I2C0_3;
        PINCTRL_GRP_I2C0_4; PINCTRL_GRP_I2C0_5; PINCTRL_GRP_I2C0_6; PINCTRL_GRP_I2C0_7;
        PINCTRL_GRP_I2C0_8; PINCTRL_GRP_I2C0_9; PINCTRL_GRP_I2C0_10; PINCTRL_GRP_I2C0_11;
        PINCTRL_GRP_I2C0_12; PINCTRL_GRP_I2C0_13; PINCTRL_GRP_I2C0_14; PINCTRL_GRP_I2C0_15;
        PINCTRL_GRP_I2C0_16; PINCTRL_GRP_I2C0_17; PINCTRL_GRP_I2C0_18; END_OF_GROUPS] |});
    (PINCTRL_FUNC_I2C1, {| fname := "i2c1"; regval := 0x40;
      fgroups := u16s [PINCTRL_GRP_I2C1_0; PINCTRL_GRP_I2C1_1; PINCTRL_GRP_I2C1_2; PINCTRL_GRP_I2C1_3;
        PINCTRL_GRP_I2C1_4; PINCTRL_GRP_I2C1_5; PINCTRL_GRP_I2C1_6; PINCTRL_GRP_I2C1_7;
        PINCTRL_GRP_I2C1_8; PINCTRL_GRP_I2C1_9; PINCTRL_GRP_I2C1_10; PINCTRL_GRP_I2C1_11;
        PINCTRL_GRP_I2C1_12; PINCTRL_GRP_I2C1_13; PINCTRL_GRP_I2C1_14; PINCTRL_GRP_I2C1_15;
        PINCTRL_GRP_I2C1_16; PINCTRL_GRP_I2C1_17; PINCTRL_GRP_I2C1_18; PINCTRL_GRP_I2C1_19;
        END_OF_GROUPS] |});
    (PINCTRL_FUNC_MDIO0, {| fname := "mdio0"; regval := 0x60;
      fgroups := u16s [PINCTRL_GRP_MDIO0_0; END_OF_GROUPS] |}) ].

Definition pinctrl_functions_3 : list (Z * pinctrl_function) :=
  [ (PINCTRL_FUNC_MDIO1, {| fname := "mdio1"; regval := 0x80;
      fgroups := u16s [PINCTRL_GRP_MDIO1_0; PINCTRL_GRP_MDIO1_1; END_OF_GROUPS] |});
    (PINCTRL_FUNC_MDIO2, {| fname := "mdio2"; regval := 0xa0;
      fgroups := u16s [PINCTRL_GRP_MDIO2_0; END_OF_GROUPS] |});
    (PINCTRL_FUNC_MDIO3, {| fname := "mdio3"; regval := 0xc0;
      fgroups := u16s [PINCTRL_GRP_MDIO3_0; END_OF_GROUPS] |});
    (PINCTRL_FUNC_QSPI0, {| fname := "qspi0"; regval := 0x02;
      fgroups := u16s [PINCTRL_GRP_QSPI0_0; END_OF_GROUPS] |});
    (PINCTRL_FUNC_QSPI_FBCLK, {| fname := "qspi_fbclk"; regval := 0x02;
      fgroups := u16s [PINCTRL_GRP_QSPI_FBCLK; END_OF_GROUPS] |});
    (PINCTRL_FUNC_QSPI_SS, {| fname := "qspi_ss"; regval := 0x02;
      fgroups := u16s [PINCTRL_GRP_QSPI_SS; END_OF_GROUPS] |});
    (PINCTRL_FUNC_SPI0, {| fname := "spi0"; regval := 0x80;
      fgroups := u16s [PINCTRL_GRP_SPI0_0; PINCTRL_GRP_SPI0_1; PINCTRL_GRP_SPI0_2; PINCTRL_GRP_SPI0_3;
        PINCTRL_GRP_SPI0_4; PINCTRL_GRP_SPI0_5; END_OF_GROUPS] |});
    (PINCTRL_FUNC_SPI1, {| fname := "spi1"; regval := 0x80;
      fgroups := u16s [PINCTRL_GRP_SPI1_0; PINCTRL_GRP_SPI1_1; PINCTRL_GRP_SPI1_2; PINCTRL_GRP_SPI1_3;
        PINCTRL_GRP_SPI1_4; PINCTRL_GRP_SPI1_5; END_OF_GROUPS] |});
    (PINCTRL_FUNC_SPI0_SS, {| fname := "spi0_ss"; regval := 0x80;
      fgroups := u16s [PINCTRL_GRP_SPI0_0_SS0; PINCTRL_GRP_SPI0_0_SS1; PINCTRL_GRP_SPI0_0_SS2;
        PINCTRL_GRP_SPI0_1_SS0; PINCTRL_GRP_SPI0_1_SS1; PINCTRL_GRP_SPI0_1_SS2;
        PINCTRL_GRP_SPI0_2_SS0; PINCTRL_GRP_SPI0_2_SS1; PINCTRL_GRP_SPI0_2_SS2;
        PINCTRL_GRP_SPI0_3_SS0; PINCTRL_GRP_SPI0_3_SS1; PINCTRL_GRP_SPI0_3_SS2;
        PINCTRL_GRP_SPI0_4_SS0; PINCTRL_GRP_SPI0_4_SS1; PINCTRL_GRP_SPI0_4_SS2;
        PINCTRL_GRP_SPI0_5_SS0; PINCTRL_GRP_SPI0_5_SS1; PINCTRL_GRP_SPI0_5_SS2; END_OF_GROUPS] |});
    (PINCTRL_FUNC_SPI1_SS, {| fname := "spi1_ss"; regval := 0x80;
      fgroups := u16s [PINCTRL_GRP_SPI1_0_SS0; PINCTRL_GRP_SPI1_0_SS1; PINCTRL_GRP_SPI1_0_SS2;
        PINCTRL_GRP_SPI1_1_SS0; PINCTRL_GRP_SPI1_1_SS1; PINCTRL_GRP_SPI1_1_SS2;
        PINCTRL_GRP_SPI1_2_SS0; PINCTRL_GRP_SPI1_2_SS1; PINCTRL_GRP_SPI1_2_SS2;
        PINCTRL_GRP_SPI1_3_SS0; PINCTRL_GRP_SPI1_3_SS1; PINCTRL_GRP_SPI1_3_SS2;
        PINCTRL_GRP_SPI1_4_SS0; PINCTRL_GRP_SPI1_4_SS1; PINCTRL_GRP_SPI1_4_SS2;
        PINCTRL_GRP_SPI1_5_SS0; PINCTRL_GRP_SPI1_5_SS1; PINCTRL_GRP_SPI1_5_SS2; END_OF_GROUPS] |}) ].

Definition pinctrl_functions_4 : list (Z * pinctrl_function) :=
  [ (PINCTRL_FUNC_SDIO0, {| fname := "sdio0"; regval := 0x08;
      fgroups := u16s [PINCTRL_GRP_SDIO0_0; PINCTRL_GRP_SDIO0_1; PINCTRL_GRP_SDIO0_2;
        PINCTRL_GRP_SDIO0_4BIT_0_0; PINCTRL_GRP_SDIO0_4BIT_0_1; PINCTRL_GRP_SDIO0_4BIT_1_0;
        PINCTRL_GRP_SDIO0_4BIT_1_1; PINCTRL_GRP_SDIO0_4BIT_2_0; PINCTRL_GRP_SDIO0_4BIT_2_1;
        PINCTRL_GRP_SDIO0_1BIT_0_0; PINCTRL_GRP_SDIO0_1BIT_0_1; PINCTRL_GRP_SDIO0_1BIT_0_2;
        PINCTRL_GRP_SDIO0_1BIT_0_3; PINCTRL_GRP_SDIO0_1BIT_0_4; PINCTRL_GRP_SDIO0_1BIT_0_5;
        PINCTRL_GRP_SDIO0_1BIT_0_6; PINCTRL_GRP_SDIO0_1BIT_0_7; PINCTRL_GRP_SDIO0_1BIT_1_0;
        PINCTRL_GRP_SDIO0_1BIT_1_1; PINCTRL_GRP_SDIO0_1BIT_1_2; PINCTRL_GRP_SDIO0_1BIT_1_3;
        PINCTRL_GRP_SDIO0_1BIT_1_4; PINCTRL_GRP_SDIO0_1BIT_1_5; PINCTRL_GRP_SDIO0_1BIT_1_6;
        PINCTRL_GRP_SDIO0_1BIT_1_7; PINCTRL_GRP_SDIO0_1BIT_2_0; PINCTRL_GRP_SDIO0_1BIT_2_1;
        PINCTRL_GRP_SDIO0_1BIT_2_2; PINCTRL_GRP_SDIO0_1BIT_2_3; PINCTRL_GRP_SDIO0_1BIT_2_4;
        PINCTRL_GRP_SDIO0_1BIT_2_5; PINCTRL_GRP_SDIO0_1BIT_2_6; PINCTRL_GRP_SDIO0_1BIT_2_7;
        END_OF_GROUPS] |});
    (PINCTRL_FUNC_SDIO0_PC, {| fname := "sdio0_pc"; regval := 0x08;
      fgroups := u16s [PINCTRL_GRP_SDIO0_0_PC; PINCTRL_GRP_SDIO0_1_PC; PINCTRL_GRP_SDIO0_2_PC; END_OF_GROUPS] |});
    (PINCTRL_FUNC_SDIO0_CD, {| fname := "sdio0_cd"; regval := 0x08;
      fgroups := u16s [PINCTRL_GRP_SDIO0_0_CD; PINCTRL_GRP_SDIO0_1_CD; PINCTRL_GRP_SDIO0_2_CD; END_OF_GROUPS] |});
    (PINCTRL_FUNC_SDIO0_WP, {| fname := "sdio0_wp"; regval := 0x08;
      fgroups := u16s [PINCTRL_GRP_SDIO0_0_WP; PINCTRL_GRP_SDIO0_1_WP; PINCTRL_GRP_SDIO0_2_WP; END_OF_GROUPS] |});
    (PINCTRL_FUNC_SDIO1, {| fname := "sdio1"; regval := 0x10;
      fgroups := u16s [PINCTRL_GRP_SDIO1_0; PINCTRL_GRP_SDIO1_4BIT_0_0; PINCTRL_GRP_SDIO1_4BIT_0_1;
        PINCTRL_GRP_SDIO1_4BIT_1_0; PINCTRL_GRP_SDIO1_1BIT_0_0; PINCTRL_GRP_SDIO1_1BIT_0_1;
        PINCTRL_GRP_SDIO1_1BIT_0_2; PINCTRL_GRP_SDIO1_1BIT_0_3; PINCTRL_GRP_SDIO1_1BIT_0_4;
        PINCTRL_GRP_SDIO1_1BIT_0_5; PINCTRL_GRP_SDIO1_1BIT_0_6; PINCTRL_GRP_SDIO1_1BIT_0_7;
        PINCTRL_GRP_SDIO1_1BIT_1_0; PINCTRL_GRP_SDIO1_1BIT_1_1; PINCTRL_GRP_SDIO1_1BIT_1_2;
        PINCTRL_GRP_SDIO1_1BIT_1_3; END_OF_GROUPS] |});
    (PINCTRL_FUNC_SDIO1_PC, {| fname := "sdio1_pc"; regval := 0x10;
      fgroups := u16s [PINCTRL_GRP_SDIO1_0_PC; PINCTRL_GRP_SDIO1_1_PC; END_OF_GROUPS] |});
    (PINCTRL_FUNC_SDIO1_CD, {| fname := "sdio1_cd"; regval := 0x10;
      fgroups := u16s [PINCTRL_GRP_SDIO1_0_CD; PINCTRL_GRP_SDIO1_1_CD; END_OF_GROUPS] |});
    (PINCTRL_FUNC_SDIO1_WP, {| fname := "sdio1_wp"; regval := 0x10;
      fgroups := u16s [PINCTRL_GRP_SDIO1_0_WP; PINCTRL_GRP_SDIO1_1_WP; END_OF_GROUPS] |});
    (PINCTRL_FUNC_NAND0, {| fname := "nand0"; regval := 0x04;
      fgroups := u16s [PINCTRL_GRP_NAND0_0; END_OF_GROUPS] |});
    (PINCTRL_FUNC_NAND0_CE, {| fname := "nand0_ce"; regval := 0x04;
      fgroups := u16s [PINCTRL_GRP_NAND0_0_CE; PINCTRL_GRP_NAND0_1_CE; END_OF_GROUPS] |});
    (PINCTRL_FUNC_NAND0_RB, {| fname := "nand0_rb"; regval := 0x04;
      fgroups := u16s [PINCTRL_GRP_NAND0_0_RB; PINCTRL_GRP_NAND0_1_RB; END_OF_GROUPS] |}) ].

Definition pinctrl_functions_5 : list (Z * pinctrl_function) :=
  [ (PINCTRL_FUNC_NAND0_DQS, {| fname := "nand0_dqs"; regval := 0x04;
      fgroups := u16s [PINCTRL_GRP_NAND0_0_DQS; PINCTRL_GRP_NAND0_1_DQS; END_OF_GROUPS] |});
    (PINCTRL_FUNC_TTC0_CLK, {| fname := "ttc0_clk"; regval := 0xa0;
      fgroups := u16s [PINCTRL_GRP_TTC0_0_CLK; PINCTRL_GRP_TTC0_1_CLK; PINCTRL_GRP_TTC0_2_CLK;
        PINCTRL_GRP_TTC0_3_CLK; PINCTRL_GRP_TTC0_4_CLK; PINCTRL_GRP_TTC0_5_CLK;
        PINCTRL_GRP_TTC0_6_CLK; PINCTRL_GRP_TTC0_7_CLK; PINCTRL_GRP_TTC0_8_CLK; END_OF_GROUPS] |});
    (PINCTRL_FUNC_TTC0_WAV, {| fname := "ttc0_wav"; regval := 0xa0;
      fgroups := u16s [PINCTRL_GRP_TTC0_0_WAV; PINCTRL_GRP_TTC0_1_WAV; PINCTRL_GRP_TTC0_2_WAV;
        PINCTRL_GRP_TTC0_3_WAV; PINCTRL_GRP_TTC0_4_WAV; PINCTRL_GRP_TTC0_5_WAV;
        PINCTRL_GRP_TTC0_6_WAV; PINCTRL_GRP_TTC0_7_WAV; PINCTRL_GRP_TTC0_8_WAV; END_OF_GROUPS] |});
    (PINCTRL_FUNC_TTC1_CLK, {| fname := "ttc1_clk"; regval := 0xa0;
      fgroups := u16s [PINCTRL_GRP_TTC1_0_CLK; PINCTRL_GRP_TTC1_1_CLK; PINCTRL_GRP_TTC1_2_CLK;
        PINCTRL_GRP_TTC1_3_CLK; PINCTRL_GRP_TTC1_4_CLK; PINCTRL_GRP_TTC1_5_CLK;
        PINCTRL_GRP_TTC1_6_CLK; PINCTRL_GRP_TTC1_7_CLK; PINCTRL_GRP_TTC1_8_CLK; END_OF_GROUPS] |});
    (PINCTRL_FUNC_TTC1_WAV, {| fname := "ttc1_wav"; regval := 0xa0;
      fgroups := u16s [PINCTRL_GRP_TTC1_0_WAV; PINCTRL_GRP_TTC1_1_WAV; PINCTRL_GRP_TTC1_2_WAV;
        PINCTRL_GRP_TTC1_3_WAV; PINCTRL_GRP_TTC1_4_WAV; PINCTRL_GRP_TTC1_5_WAV;
        PINCTRL_GRP_TTC1_6_WAV; PINCTRL_GRP_TTC1_7_WAV; PINCTRL_GRP_TTC1_8_WAV; END_OF_GROUPS] |});
    (PINCTRL_FUNC_TTC2_CLK, {| fname := "ttc2_clk"; regval := 0xa0;
      fgroups := u16s [PINCTRL_GRP_TTC2_0_CLK; PINCTRL_GRP_TTC2_1_CLK; PINCTRL_GRP_TTC2_2_CLK;
        PINCTRL_GRP_TTC2_3_CLK; PINCTRL_GRP_TTC2_4_CLK; PINCTRL_GRP_TTC2_5_CLK;
        PINCTRL_GRP_TTC2_6_CLK; PINCTRL_GRP_TTC2_7_CLK; PINCTRL_GRP_TTC2_8_CLK; END_OF_GROUPS] |});
    (PINCTRL_FUNC_TTC2_WAV, {| fname := "ttc2_wav"; regval := 0xa0;
      fgroups := u16s [PINCTRL_GRP_TTC2_0_WAV; PINCTRL_GRP_TTC2_1_WAV; PINCTRL_GRP_TTC2_2_WAV;
        PINCTRL_GRP_TTC2_3_WAV; PINCTRL_GRP_TTC2_4_WAV; PINCTRL_GRP_TTC2_5_WAV;
        PINCTRL_GRP_TTC2_6_WAV; PINCTRL_GRP_TTC2_7_WAV; PINCTRL_GRP_TTC2_8_WAV; END_OF_GROUPS] |});
    (PINCTRL_FUNC_TTC3_CLK, {| fname := "ttc3_clk"; regval := 0xa0;
      fgroups := u16s [PINCTRL_GRP_TTC3_0_CLK; PINCTRL_GRP_TTC3_1_CLK; PINCTRL_GRP_TTC3_2_CLK;
        PINCTRL_GRP_TTC3_3_CLK; PINCTRL_GRP_TTC3_4_CLK; PINCTRL_GRP_TTC3_5_CLK;
        PINCTRL_GRP_TTC3_6_CLK; PINCTRL_GRP_TTC3_7_CLK; PINCTRL_GRP_TTC3_8_CLK; END_OF_GROUPS] |});
    (PINCTRL_FUNC_TTC3_WAV, {| fname := "ttc3_wav"; regval := 0xa0;
      fgroups := u16s [PINCTRL_GRP_TTC3_0_WAV; PINCTRL_GRP_TTC3_1_WAV; PINCTRL_GRP_TTC3_2_WAV;
        PINCTRL_GRP_TTC3_3_WAV; PINCTRL_GRP_TTC3_4_WAV; PINCTRL_GRP_TTC3_5_WAV;
        PINCTRL_GRP_TTC3_6_WAV; PINCTRL_GRP_TTC3_7_WAV; PINCTRL_GRP_TTC3_8_WAV; END_OF_GROUPS] |}) ].

Definition pinctrl_functions_6 : list (Z * pinctrl_function) :=
  [ (PINCTRL_FUNC_UART0, {| fname := "uart0"; regval := 0xc0;
      fgroups := u16s [PINCTRL_GRP_UART0_0; PINCTRL_GRP_UART0_1; PINCTRL_GRP_UART0_2; PINCTRL_GRP_UART0_3;
        PINCTRL_GRP_UART0_4; PINCTRL_GRP_UART0_5; PINCTRL_GRP_UART0_6; PINCTRL_GRP_UART0_7;
        PINCTRL_GRP_UART0_8; PINCTRL_GRP_UART0_9; PINCTRL_GRP_UART0_10; PINCTRL_GRP_UART0_11;
        PINCTRL_GRP_UART0_12; PINCTRL_GRP_UART0_13; PINCTRL_GRP_UART0_14; PINCTRL_GRP_UART0_15;
        PINCTRL_GRP_UART0_16; PINCTRL_GRP_UART0_17; PINCTRL_GRP_UART0_18; END_OF_GROUPS] |});
    (PINCTRL_FUNC_UART1, {| fname := "uart1"; regval := 0xc0;
      fgroups := u16s [PINCTRL_GRP_UART1_0; PINCTRL_GRP_UART1_1; PINCTRL_GRP_UART1_2; PINCTRL_GRP_UART1_3;
        PINCTRL_GRP_UART1_4; PINCTRL_GRP_UART1_5; PINCTRL_GRP_UART1_6; PINCTRL_GRP_UART1_7;
        PINCTRL_GRP_UART1_8; PINCTRL_GRP_UART1_9; PINCTRL_GRP_UART1_10; PINCTRL_GRP_UART1_11;
        PINCTRL_GRP_UART1_12; PINCTRL_GRP_UART1_13; PINCTRL_GRP_UART1_14; PINCTRL_GRP_UART1_15;
        PINCTRL_GRP_UART1_16; PINCTRL_GRP_UART1_17; PINCTRL_GRP_UART1_18; END_OF_GROUPS] |});
    (PINCTRL_FUNC_USB0, {| fname := "usb0"; regval := 0x04;
      fgroups := u16s [PINCTRL_GRP_USB0_0; END_OF_GROUPS] |});
    (PINCTRL_FUNC_USB1, {| fname := "usb1"; regval := 0x04;
      fgroups := u16s [PINCTRL_GRP_USB1_0; END_OF_GROUPS] |});
    (PINCTRL_FUNC_SWDT0_CLK, {| fname := "swdt0_clk"; regval := 0x60;
      fgroups := u16s [PINCTRL_GRP_SWDT0_0_CLK; PINCTRL_GRP_SWDT0_1_CLK; PINCTRL_GRP_SWDT0_2_CLK;
        PINCTRL_GRP_SWDT0_3_CLK; PINCTRL_GRP_SWDT0_4_CLK; PINCTRL_GRP_SWDT0_5_CLK;
        PINCTRL_GRP_SWDT0_6_CLK; PINCTRL_GRP_SWDT0_7_CLK; PINCTRL_GRP_SWDT0_8_CLK;
        PINCTRL_GRP_SWDT0_9_CLK; PINCTRL_GRP_SWDT0_10_CLK; PINCTRL_GRP_SWDT0_11_CLK;
        PINCTRL_GRP_SWDT0_12_CLK; END_OF_GROUPS] |});
    (PINCTRL_FUNC_SWDT0_RST, {| fname := "swdt0_rst"; regval := 0x60;
      fgroups := u16s [PINCTRL_GRP_SWDT0_0_RST; PINCTRL_GRP_SWDT0_1_RST; PINCTRL_GRP_SWDT0_2_RST;
        PINCTRL_GRP_SWDT0_3_RST; PINCTRL_GRP_SWDT0_4_RST; PINCTRL_GRP_SWDT0_5_RST;
        PINCTRL_GRP_SWDT0_6_RST; PINCTRL_GRP_SWDT0_7_RST; PINCTRL_GRP_SWDT0_8_RST;
        PINCTRL_GRP_SWDT0_9_RST; PINCTRL_GRP_SWDT0_10_RST; PINCTRL_GRP_SWDT0_11_RST;
        PINCTRL_GRP_SWDT0_12_RST; END_OF_GROUPS] |});
    (PINCTRL_FUNC_SWDT1_CLK, {| fname := "swdt1_clk"; regval := 0x60;
      fgroups := u16s [PINCTRL_GRP_SWDT1_0_CLK; PINCTRL_GRP_SWDT1_1_CLK; PINCTRL_GRP_SWDT1_2_CLK;
        PINCTRL_GRP_SWDT1_3_CLK; PINCTRL_GRP_SWDT1_4_CLK; PINCTRL_GRP_SWDT1_5_CLK;
        PINCTRL_GRP_SWDT1_6_CLK; PINCTRL_GRP_SWDT1_7_CLK; PINCTRL_GRP_SWDT1_8_CLK;
        PINCTRL_GRP_SWDT1_9_CLK; PINCTRL_GRP_SWDT1_10_CLK; PINCTRL_GRP_SWDT1_11_CLK;
        PINCTRL_GRP_SWDT1_12_CLK; END_OF_GROUPS] |});
    (PINCTRL_FUNC_SWDT1_RST, {| fname := "swdt1_rst"; regval := 0x60;
      fgroups := u16s [PINCTRL_GRP_SWDT1_0_RST; PINCTRL_GRP_SWDT1_1_RST; PINCTRL_GRP_SWDT1_2_RST;
        PINCTRL_GRP_SWDT1_3_RST; PINCTRL_GRP_SWDT1_4_RST; PINCTRL_GRP_SWDT1_5_RST;
        PINCTRL_GRP_SWDT1_6_RST; PINCTRL_GRP_SWDT1_7_RST; PINCTRL_GRP_SWDT1_8_RST;
        PINCTRL_GRP_SWDT1_9_RST; PINCTRL_GRP_SWDT1_10_RST; PINCTRL_GRP_SWDT1_11_RST;
        PINCTRL_GRP_SWDT1_12_RST; END_OF_GROUPS] |}) ].

Definition pinctrl_functions_7 : list (Z * pinctrl_function) :=
  [ (PINCTRL_FUNC_PMU0, {| fname := "pmu0"; regval := 0x08;
      fgroups := u16s [PINCTRL_GRP_PMU0_0; PINCTRL_GRP_PMU0_1; PINCTRL_GRP_PMU0_2; PINCTRL_GRP_PMU0_3;
        PINCTRL_GRP_PMU0_4; PINCTRL_GRP_PMU0_5; PINCTRL_GRP_PMU0_6; PINCTRL_GRP_PMU0_7;
        PINCTRL_GRP_PMU0_8; PINCTRL_GRP_PMU0_9; PINCTRL_GRP_PMU0_10; PINCTRL_GRP_PMU0_11;
        END_OF_GROUPS] |});
    (PINCTRL_FUNC_PCIE0, {| fname := "pcie0"; regval := 0x04;
      fgroups := u16s [PINCTRL_GRP_PCIE0_0; PINCTRL_GRP_PCIE0_1; PINCTRL_GRP_PCIE0_2; PINCTRL_GRP_PCIE0_3;
        PINCTRL_GRP_PCIE0_4; PINCTRL_GRP_PCIE0_5; PINCTRL_GRP_PCIE0_6; PINCTRL_GRP_PCIE0_7;
        END_OF_GROUPS] |});
    (PINCTRL_FUNC_CSU0, {| fname := "csu0"; regval := 0x18;
      fgroups := u16s [PINCTRL_GRP_CSU0_0; PINCTRL_GRP_CSU0_1; PINCTRL_GRP_CSU0_2; PINCTRL_GRP_CSU0_3;
        PINCTRL_GRP_CSU0_4; PINCTRL_GRP_CSU0_5; PINCTRL_GRP_CSU0_6; PINCTRL_GRP_CSU0_7;
        PINCTRL_GRP_CSU0_8; PINCTRL_GRP_CSU0_9; PINCTRL_GRP_CSU0_10; PINCTRL_GRP_CSU0_11;
        END_OF_GROUPS] |});
    (PINCTRL_FUNC_DPAUX0, {| fname := "dpaux0"; regval := 0x18;
      fgroups := u16s [PINCTRL_GRP_DPAUX0_0; PINCTRL_GRP_DPAUX0_1; PINCTRL_GRP_DPAUX0_2; PINCTRL_GRP_DPAUX0_3;
        END_OF_GROUPS] |});
    (PINCTRL_FUNC_PJTAG0, {| fname := "pjtag0"; regval := 0x60;
      fgroups := u16s [PINCTRL_GRP_PJTAG0_0; PINCTRL_GRP_PJTAG0_1; PINCTRL_GRP_PJTAG0_2; PINCTRL_GRP_PJTAG0_3;
        PINCTRL_GRP_PJTAG0_4; PINCTRL_GRP_PJTAG0_5; END_OF_GROUPS] |});
    (PINCTRL_FUNC_TRACE0, {| fname := "trace0"; regval := 0xe0;
      fgroups := u16s [PINCTRL_GRP_TRACE0_0; PINCTRL_GRP_TRACE0_1; PINCTRL_GRP_TRACE0_2; END_OF_GROUPS] |});
    (PINCTRL_FUNC_TRACE0_CLK, {| fname := "trace0_clk"; regval := 0xe0;
      fgroups := u16s [PINCTRL_GRP_TRACE0_0_CLK; PINCTRL_GRP_TRACE0_1_CLK; PINCTRL_GRP_TRACE0_2_CLK;
        END_OF_GROUPS] |});
    (PINCTRL_FUNC_TESTSCAN0, {| fname := "testscan0"; regval := 0x10;
      fgroups := u16s [PINCTRL_GRP_TESTSCAN0_0; END_OF_GROUPS] |}) ].

(** The array has MAX_FUNCTION elements, all of them initialised. *)
Definition pinctrl_functions : list pinctrl_function :=
  designated (PinctrlFunction EmptyString None 0)
    (pinctrl_functions_1 ++ pinctrl_functions_2 ++ pinctrl_functions_3 ++ pinctrl_functions_4 ++ pinctrl_functions_5 ++ pinctrl_functions_6 ++ pinctrl_functions_7).

Definition pin_groups_1 : list (Z * zynqmp_pin_group) :=
  [ (PINCTRL_PIN_0, PinGroup (u16s [PINCTRL_GRP_QSPI0_0; PINCTRL_GRP_RESERVED; PINCTRL_GRP_RESERVED; PINCTRL_GRP_TESTSCAN0_0;
      PINCTRL_GRP_RESERVED; PINCTRL_GRP_GPIO0_0; PINCTRL_GRP_CAN1_0; PINCTRL_GRP_I2C1_0;
      PINCTRL_GRP_PJTAG0_0; PINCTRL_GRP_SPI0_0; PINCTRL_GRP_TTC3_0_CLK; PINCTRL_GRP_UART1_0;
      PINCTRL_GRP_TRACE0_0_CLK; END_OF_GROUPS]));
    (PINCTRL_PIN_1, PinGroup (u16s [PINCTRL_GRP_QSPI0_0; PINCTRL_GRP_RESERVED; PINCTRL_GRP_RESERVED; PINCTRL_GRP_TESTSCAN0_0;
      PINCTRL_GRP_RESERVED; PINCTRL_GRP_GPIO0_1; PINCTRL_GRP_CAN1_0; PINCTRL_GRP_I2C1_0;
      PINCTRL_GRP_PJTAG0_0; PINCTRL_GRP_SPI0_0_SS2; PINCTRL_GRP_TTC3_0_WAV; PINCTRL_GRP_UART1_0;
      PINCTRL_GRP_TRACE0_0_CLK; END_OF_GROUPS]));
    (PINCTRL_PIN_2, PinGroup (u16s [PINCTRL_GRP_QSPI0_0; PINCTRL_GRP_RESERVED; PINCTRL_GRP_RESERVED; PINCTRL_GRP_TESTSCAN0_0;
      PINCTRL_GRP_RESERVED; PINCTRL_GRP_GPIO0_2; PINCTRL_GRP_CAN0_0; PINCTRL_GRP_I2C0_0;
      PINCTRL_GRP_PJTAG0_0; PINCTRL_GRP_SPI0_0_SS1; PINCTRL_GRP_TTC2_0_CLK; PINCTRL_GRP_UART0_0;
      PINCTRL_GRP_TRACE0_0; END_OF_GROUPS]));
    (PINCTRL_PIN_3, PinGroup (u16s [PINCTRL_GRP_QSPI0_0; PINCTRL_GRP_RESERVED; PINCTRL_GRP_RESERVED; PINCTRL_GRP_TESTSCAN0_0;
      PINCTRL_GRP_RESERVED; PINCTRL_GRP_GPIO0_3; PINCTRL_GRP_CAN0_0; PINCTRL_GRP_I2C0_0;
      PINCTRL_GRP_PJTAG0_0; PINCTRL_GRP_SPI0_0_SS0; PINCTRL_GRP_TTC2_0_WAV; PINCTRL_GRP_UART0_0;
      PINCTRL_GRP_TRACE0_0; END_OF_GROUPS]));
    (PINCTRL_PIN_4, PinGroup (u16s [PINCTRL_GRP_QSPI0_0; PINCTRL_GRP_RESERVED; PINCTRL_GRP_RESERVED; PINCTRL_GRP_TESTSCAN0_0;
      PINCTRL_GRP_RESERVED; PINCTRL_GRP_GPIO0_4; PINCTRL_GRP_CAN1_1; PINCTRL_GRP_I2C1_1;
      PINCTRL_GRP_SWDT1_0_CLK; PINCTRL_GRP_SPI0_0; PINCTRL_GRP_TTC1_0_CLK; PINCTRL_GRP_UART1_1;
      PINCTRL_GRP_TRACE0_0; END_OF_GROUPS]));
    (PINCTRL_PIN_5, PinGroup (u16s [PINCTRL_GRP_QSPI_SS; PINCTRL_GRP_RESERVED; PINCTRL_GRP_RESERVED; PINCTRL_GRP_TESTSCAN0_0;
      PINCTRL_GRP_RESERVED; PINCTRL_GRP_GPIO0_5; PINCTRL_GRP_CAN1_1; PINCTRL_GRP_I2C1_1;
      PINCTRL_GRP_SWDT1_0_RST; PINCTRL_GRP_SPI0_0; PINCTRL_GRP_TTC1_0_WAV; PINCTRL_GRP_UART1_1;
      PINCTRL_GRP_TRACE0_0; END_OF_GROUPS]));
    (PINCTRL_PIN_6, PinGroup (u16s [PINCTRL_GRP_QSPI_FBCLK; PINCTRL_GRP_RESERVED; PINCTRL_GRP_RESERVED;
      PINCTRL_GRP_TESTSCAN0_0; PINCTRL_GRP_RESERVED; PINCTRL_GRP_GPIO0_6; PINCTRL_GRP_CAN0_1;
      PINCTRL_GRP_I2C0_1; PINCTRL_GRP_SWDT0_0_CLK; PINCTRL_GRP_SPI1_0; PINCTRL_GRP_TTC0_0_CLK;
      PINCTRL_GRP_UART0_1; PINCTRL_GRP_TRACE0_0; END_OF_GROUPS]));
    (PINCTRL_PIN_7, PinGroup (u16s [PINCTRL_GRP_QSPI_SS; PINCTRL_GRP_RESERVED; PINCTRL_GRP_RESERVED; PINCTRL_GRP_TESTSCAN0_0;
      PINCTRL_GRP_RESERVED; PINCTRL_GRP_GPIO0_7; PINCTRL_GRP_CAN0_1; PINCTRL_GRP_I2C0_1;
      PINCTRL_GRP_SWDT0_0_RST; PINCTRL_GRP_SPI1_0_SS2; PINCTRL_GRP_TTC0_0_WAV;
      PINCTRL_GRP_UART0_1; PINCTRL_GRP_TRACE0_0; END_OF_GROUPS])) ].

Definition pin_groups_2 : list (Z * zynqmp_pin_group) :=
  [ (PINCTRL_PIN_8, PinGroup (u16s [PINCTRL_GRP_QSPI0_0; PINCTRL_GRP_RESERVED; PINCTRL_GRP_RESERVED; PINCTRL_GRP_TESTSCAN0_0;
      PINCTRL_GRP_RESERVED; PINCTRL_GRP_GPIO0_8; PINCTRL_GRP_CAN1_2; PINCTRL_GRP_I2C1_2;
      PINCTRL_GRP_SWDT1_1_CLK; PINCTRL_GRP_SPI1_0_SS1; PINCTRL_GRP_TTC3_1_CLK;
      PINCTRL_GRP_UART1_2; PINCTRL_GRP_TRACE0_0; END_OF_GROUPS]));
    (PINCTRL_PIN_9, PinGroup (u16s [PINCTRL_GRP_QSPI0_0; PINCTRL_GRP_NAND0_0_CE; PINCTRL_GRP_RESERVED; PINCTRL_GRP_TESTSCAN0_0;
      PINCTRL_GRP_RESERVED; PINCTRL_GRP_GPIO0_9; PINCTRL_GRP_CAN1_2; PINCTRL_GRP_I2C1_2;
      PINCTRL_GRP_SWDT1_1_RST; PINCTRL_GRP_SPI1_0_SS0; PINCTRL_GRP_TTC3_1_WAV;
      PINCTRL_GRP_UART1_2; PINCTRL_GRP_TRACE0_0; END_OF_GROUPS]));
    (PINCTRL_PIN_10, PinGroup (u16s [PINCTRL_GRP_QSPI0_0; PINCTRL_GRP_NAND0_0_RB; PINCTRL_GRP_RESERVED; PINCTRL_GRP_TESTSCAN0_0;
      PINCTRL_GRP_RESERVED; PINCTRL_GRP_GPIO0_10; PINCTRL_GRP_CAN0_2; PINCTRL_GRP_I2C0_2;
      PINCTRL_GRP_SWDT0_1_CLK; PINCTRL_GRP_SPI1_0; PINCTRL_GRP_TTC2_1_CLK; PINCTRL_GRP_UART0_2;
      PINCTRL_GRP_TRACE0_0; END_OF_GROUPS]));
    (PINCTRL_PIN_11, PinGroup (u16s [PINCTRL_GRP_QSPI0_0; PINCTRL_GRP_NAND0_0_RB; PINCTRL_GRP_RESERVED; PINCTRL_GRP_TESTSCAN0_0;
      PINCTRL_GRP_RESERVED; PINCTRL_GRP_GPIO0_11; PINCTRL_GRP_CAN0_2; PINCTRL_GRP_I2C0_2;
      PINCTRL_GRP_SWDT0_1_RST; PINCTRL_GRP_SPI1_0; PINCTRL_GRP_TTC2_1_WAV; PINCTRL_GRP_UART0_2;
      PINCTRL_GRP_TRACE0_0; END_OF_GROUPS]));
    (PINCTRL_PIN_12, PinGroup (u16s [PINCTRL_GRP_QSPI0_0; PINCTRL_GRP_NAND0_0_DQS; PINCTRL_GRP_RESERVED;
      PINCTRL_GRP_TESTSCAN0_0; PINCTRL_GRP_RESERVED; PINCTRL_GRP_GPIO0_12; PINCTRL_GRP_CAN1_3;
      PINCTRL_GRP_I2C1_3; PINCTRL_GRP_PJTAG0_1; PINCTRL_GRP_SPI0_1; PINCTRL_GRP_TTC1_1_CLK;
      PINCTRL_GRP_UART1_3; PINCTRL_GRP_TRACE0_0; END_OF_GROUPS]));
    (PINCTRL_PIN_13, PinGroup (u16s [PINCTRL_GRP_RESERVED; PINCTRL_GRP_NAND0_0; PINCTRL_GRP_SDIO0_0; PINCTRL_GRP_TESTSCAN0_0;
      PINCTRL_GRP_RESERVED; PINCTRL_GRP_GPIO0_13; PINCTRL_GRP_CAN1_3; PINCTRL_GRP_I2C1_3;
      PINCTRL_GRP_PJTAG0_1; PINCTRL_GRP_SPI0_1_SS2; PINCTRL_GRP_TTC1_1_WAV; PINCTRL_GRP_UART1_3;
      PINCTRL_GRP_TRACE0_0; PINCTRL_GRP_SDIO0_4BIT_0_0; PINCTRL_GRP_SDIO0_1BIT_0_0;
      END_OF_GROUPS]));
    (PINCTRL_PIN_14, PinGroup (u16s [PINCTRL_GRP_RESERVED; PINCTRL_GRP_NAND0_0; PINCTRL_GRP_SDIO0_0; PINCTRL_GRP_TESTSCAN0_0;
      PINCTRL_GRP_RESERVED; PINCTRL_GRP_GPIO0_14; PINCTRL_GRP_CAN0_3; PINCTRL_GRP_I2C0_3;
      PINCTRL_GRP_PJTAG0_1; PINCTRL_GRP_SPI0_1_SS1; PINCTRL_GRP_TTC0_1_CLK; PINCTRL_GRP_UART0_3;
      PINCTRL_GRP_TRACE0_0; PINCTRL_GRP_SDIO0_4BIT_0_0; PINCTRL_GRP_SDIO0_1BIT_0_1;
      END_OF_GROUPS])) ].

Definition pin_groups_3 : list (Z * zynqmp_pin_group) :=
  [ (PINCTRL_PIN_15, PinGroup (u16s [PINCTRL_GRP_RESERVED; PINCTRL_GRP_NAND0_0; PINCTRL_GRP_SDIO0_0; PINCTRL_GRP_TESTSCAN0_0;
      PINCTRL_GRP_RESERVED; PINCTRL_GRP_GPIO0_15; PINCTRL_GRP_CAN0_3; PINCTRL_GRP_I2C0_3;
      PINCTRL_GRP_PJTAG0_1; PINCTRL_GRP_SPI0_1_SS0; PINCTRL_GRP_TTC0_1_WAV; PINCTRL_GRP_UART0_3;
      PINCTRL_GRP_TRACE0_0; PINCTRL_GRP_SDIO0_4BIT_0_0; PINCTRL_GRP_SDIO0_1BIT_0_2;
      END_OF_GROUPS]));
    (PINCTRL_PIN_16, PinGroup (u16s [PINCTRL_GRP_RESERVED; PINCTRL_GRP_NAND0_0; PINCTRL_GRP_SDIO0_0; PINCTRL_GRP_TESTSCAN0_0;
      PINCTRL_GRP_RESERVED; PINCTRL_GRP_GPIO0_16; PINCTRL_GRP_CAN1_4; PINCTRL_GRP_I2C1_4;
      PINCTRL_GRP_SWDT1_2_CLK; PINCTRL_GRP_SPI0_1; PINCTRL_GRP_TTC3_2_CLK; PINCTRL_GRP_UART1_4;
      PINCTRL_GRP_TRACE0_0; PINCTRL_GRP_SDIO0_4BIT_0_0; PINCTRL_GRP_SDIO0_1BIT_0_3;
      END_OF_GROUPS]));
    (PINCTRL_PIN_17, PinGroup (u16s [PINCTRL_GRP_RESERVED; PINCTRL_GRP_NAND0_0; PINCTRL_GRP_SDIO0_0; PINCTRL_GRP_TESTSCAN0_0;
      PINCTRL_GRP_RESERVED; PINCTRL_GRP_GPIO0_17; PINCTRL_GRP_CAN1_4; PINCTRL_GRP_I2C1_4;
      PINCTRL_GRP_SWDT1_2_RST; PINCTRL_GRP_SPI0_1; PINCTRL_GRP_TTC3_2_WAV; PINCTRL_GRP_UART1_4;
      PINCTRL_GRP_TRACE0_0; PINCTRL_GRP_SDIO0_4BIT_0_1; PINCTRL_GRP_SDIO0_1BIT_0_4;
      END_OF_GROUPS]));
    (PINCTRL_PIN_18, PinGroup (u16s [PINCTRL_GRP_RESERVED; PINCTRL_GRP_NAND0_0; PINCTRL_GRP_SDIO0_0; PINCTRL_GRP_TESTSCAN0_0;
      PINCTRL_GRP_CSU0_0; PINCTRL_GRP_GPIO0_18; PINCTRL_GRP_CAN0_4; PINCTRL_GRP_I2C0_4;
      PINCTRL_GRP_SWDT0_2_CLK; PINCTRL_GRP_SPI1_1; PINCTRL_GRP_TTC2_2_CLK; PINCTRL_GRP_UART0_4;
      PINCTRL_GRP_RESERVED; PINCTRL_GRP_SDIO0_4BIT_0_1; PINCTRL_GRP_SDIO0_1BIT_0_5;
      END_OF_GROUPS]));
    (PINCTRL_PIN_19, PinGroup (u16s [PINCTRL_GRP_RESERVED; PINCTRL_GRP_NAND0_0; PINCTRL_GRP_SDIO0_0; PINCTRL_GRP_TESTSCAN0_0;
      PINCTRL_GRP_CSU0_1; PINCTRL_GRP_GPIO0_19; PINCTRL_GRP_CAN0_4; PINCTRL_GRP_I2C0_4;
      PINCTRL_GRP_SWDT0_2_RST; PINCTRL_GRP_SPI1_1_SS2; PINCTRL_GRP_TTC2_2_WAV;
      PINCTRL_GRP_UART0_4; PINCTRL_GRP_RESERVED; PINCTRL_GRP_SDIO0_4BIT_0_1;
      PINCTRL_GRP_SDIO0_1BIT_0_6; END_OF_GROUPS]));
    (PINCTRL_PIN_20, PinGroup (u16s [PINCTRL_GRP_RESERVED; PINCTRL_GRP_NAND0_0; PINCTRL_GRP_SDIO0_0; PINCTRL_GRP_TESTSCAN0_0;
      PINCTRL_GRP_CSU0_2; PINCTRL_GRP_GPIO0_20; PINCTRL_GRP_CAN1_5; PINCTRL_GRP_I2C1_5;
      PINCTRL_GRP_SWDT1_3_CLK; PINCTRL_GRP_SPI1_1_SS1; PINCTRL_GRP_TTC1_2_CLK;
      PINCTRL_GRP_UART1_5; PINCTRL_GRP_RESERVED; PINCTRL_GRP_SDIO0_4BIT_0_1;
      PINCTRL_GRP_SDIO0_1BIT_0_7; END_OF_GROUPS]));
    (PINCTRL_PIN_21, PinGroup (u16s [PINCTRL_GRP_RESERVED; PINCTRL_GRP_NAND0_0; PINCTRL_GRP_SDIO0_0; PINCTRL_GRP_TESTSCAN0_0;
      PINCTRL_GRP_CSU0_3; PINCTRL_GRP_GPIO0_21; PINCTRL_GRP_CAN1_5; PINCTRL_GRP_I2C1_5;
      PINCTRL_GRP_SWDT1_3_RST; PINCTRL_GRP_SPI1_1_SS0; PINCTRL_GRP_TTC1_2_WAV;
      PINCTRL_GRP_UART1_5; PINCTRL_GRP_RESERVED; PINCTRL_GRP_SDIO0_4BIT_0_0;
      PINCTRL_GRP_SDIO0_4BIT_0_1; PINCTRL_GRP_SDIO0_1BIT_0_0; PINCTRL_GRP_SDIO0_1BIT_0_1;
      PINCTRL_GRP_SDIO0_1BIT_0_2; PINCTRL_GRP_SDIO0_1BIT_0_3; PINCTRL_GRP_SDIO0_1BIT_0_4;
      PINCTRL_GRP_SDIO0_1BIT_0_5; PINCTRL_GRP_SDIO0_1BIT_0_6; PINCTRL_GRP_SDIO0_1BIT_0_7;
      END_OF_GROUPS])) ].

Definition pin_groups_4 : list (Z * zynqmp_pin_group) :=
  [ (PINCTRL_PIN_22, PinGroup (u16s [PINCTRL_GRP_RESERVED; PINCTRL_GRP_NAND0_0; PINCTRL_GRP_SDIO0_0; PINCTRL_GRP_TESTSCAN0_0;
      PINCTRL_GRP_CSU0_4; PINCTRL_GRP_GPIO0_22; PINCTRL_GRP_CAN0_5; PINCTRL_GRP_I2C0_5;
      PINCTRL_GRP_SWDT0_3_CLK; PINCTRL_GRP_SPI1_1; PINCTRL_GRP_TTC0_2_CLK; PINCTRL_GRP_UART0_5;
      PINCTRL_GRP_RESERVED; PINCTRL_GRP_SDIO0_4BIT_0_0; PINCTRL_GRP_SDIO0_4BIT_0_1;
      PINCTRL_GRP_SDIO0_1BIT_0_0; PINCTRL_GRP_SDIO0_1BIT_0_1; PINCTRL_GRP_SDIO0_1BIT_0_2;
      PINCTRL_GRP_SDIO0_1BIT_0_3; PINCTRL_GRP_SDIO0_1BIT_0_4; PINCTRL_GRP_SDIO0_1BIT_0_5;
      PINCTRL_GRP_SDIO0_1BIT_0_6; PINCTRL_GRP_SDIO0_1BIT_0_7; END_OF_GROUPS]));
    (PINCTRL_PIN_23, PinGroup (u16s [PINCTRL_GRP_RESERVED; PINCTRL_GRP_NAND0_0; PINCTRL_GRP_SDIO0_0_PC; PINCTRL_GRP_TESTSCAN0_0;
      PINCTRL_GRP_CSU0_5; PINCTRL_GRP_GPIO0_23; PINCTRL_GRP_CAN0_5; PINCTRL_GRP_I2C0_5;
      PINCTRL_GRP_SWDT0_3_RST; PINCTRL_GRP_SPI1_1; PINCTRL_GRP_TTC0_2_WAV; PINCTRL_GRP_UART0_5;
      PINCTRL_GRP_RESERVED; END_OF_GROUPS]));
    (PINCTRL_PIN_24, PinGroup (u16s [PINCTRL_GRP_RESERVED; PINCTRL_GRP_NAND0_0; PINCTRL_GRP_SDIO0_0_CD; PINCTRL_GRP_TESTSCAN0_0;
      PINCTRL_GRP_CSU0_6; PINCTRL_GRP_GPIO0_24; PINCTRL_GRP_CAN1_6; PINCTRL_GRP_I2C1_6;
      PINCTRL_GRP_SWDT1_4_CLK; PINCTRL_GRP_RESERVED; PINCTRL_GRP_TTC3_3_CLK; PINCTRL_GRP_UART1_6;
      PINCTRL_GRP_RESERVED; END_OF_GROUPS]));
    (PINCTRL_PIN_25, PinGroup (u16s [PINCTRL_GRP_RESERVED; PINCTRL_GRP_NAND0_0; PINCTRL_GRP_SDIO0_0_WP; PINCTRL_GRP_TESTSCAN0_0;
      PINCTRL_GRP_CSU0_7; PINCTRL_GRP_GPIO0_25; PINCTRL_GRP_CAN1_6; PINCTRL_GRP_I2C1_6;
      PINCTRL_GRP_SWDT1_4_RST; PINCTRL_GRP_RESERVED; PINCTRL_GRP_TTC3_3_WAV; PINCTRL_GRP_UART1_6;
      PINCTRL_GRP_RESERVED; END_OF_GROUPS]));
    (PINCTRL_PIN_26, PinGroup (u16s [PINCTRL_GRP_ETHERNET0_0; PINCTRL_GRP_GEMTSU0_0; PINCTRL_GRP_NAND0_1_CE; PINCTRL_GRP_PMU0_0;
      PINCTRL_GRP_TESTSCAN0_0; PINCTRL_GRP_CSU0_8; PINCTRL_GRP_GPIO0_26; PINCTRL_GRP_CAN0_6;
      PINCTRL_GRP_I2C0_6; PINCTRL_GRP_PJTAG0_2; PINCTRL_GRP_SPI0_2; PINCTRL_GRP_TTC2_3_CLK;
      PINCTRL_GRP_UART0_6; PINCTRL_GRP_TRACE0_1; END_OF_GROUPS]));
    (PINCTRL_PIN_27, PinGroup (u16s [PINCTRL_GRP_ETHERNET0_0; PINCTRL_GRP_NAND0_1_RB; PINCTRL_GRP_PMU0_1;
      PINCTRL_GRP_TESTSCAN0_0; PINCTRL_GRP_DPAUX0_0; PINCTRL_GRP_GPIO0_27; PINCTRL_GRP_CAN0_6;
      PINCTRL_GRP_I2C0_6; PINCTRL_GRP_PJTAG0_2; PINCTRL_GRP_SPI0_2_SS2; PINCTRL_GRP_TTC2_3_WAV;
      PINCTRL_GRP_UART0_6; PINCTRL_GRP_TRACE0_1; END_OF_GROUPS]));
    (PINCTRL_PIN_28, PinGroup (u16s [PINCTRL_GRP_ETHERNET0_0; PINCTRL_GRP_NAND0_1_RB; PINCTRL_GRP_PMU0_2;
      PINCTRL_GRP_TESTSCAN0_0; PINCTRL_GRP_DPAUX0_0; PINCTRL_GRP_GPIO0_28; PINCTRL_GRP_CAN1_7;
      PINCTRL_GRP_I2C1_7; PINCTRL_GRP_PJTAG0_2; PINCTRL_GRP_SPI0_2_SS1; PINCTRL_GRP_TTC1_3_CLK;
      PINCTRL_GRP_UART1_7; PINCTRL_GRP_TRACE0_1; END_OF_GROUPS])) ].

Definition pin_groups_5 : list (Z * zynqmp_pin_group) :=
  [ (PINCTRL_PIN_29, PinGroup (u16s [PINCTRL_GRP_ETHERNET0_0; PINCTRL_GRP_PCIE0_0; PINCTRL_GRP_PMU0_3; PINCTRL_GRP_TESTSCAN0_0;
      PINCTRL_GRP_DPAUX0_1; PINCTRL_GRP_GPIO0_29; PINCTRL_GRP_CAN1_7; PINCTRL_GRP_I2C1_7;
      PINCTRL_GRP_PJTAG0_2; PINCTRL_GRP_SPI0_2_SS0; PINCTRL_GRP_TTC1_3_WAV; PINCTRL_GRP_UART1_7;
      PINCTRL_GRP_TRACE0_1; END_OF_GROUPS]));
    (PINCTRL_PIN_30, PinGroup (u16s [PINCTRL_GRP_ETHERNET0_0; PINCTRL_GRP_PCIE0_1; PINCTRL_GRP_PMU0_4; PINCTRL_GRP_TESTSCAN0_0;
      PINCTRL_GRP_DPAUX0_1; PINCTRL_GRP_GPIO0_30; PINCTRL_GRP_CAN0_7; PINCTRL_GRP_I2C0_7;
      PINCTRL_GRP_SWDT0_4_CLK; PINCTRL_GRP_SPI0_2; PINCTRL_GRP_TTC0_3_CLK; PINCTRL_GRP_UART0_7;
      PINCTRL_GRP_TRACE0_1; END_OF_GROUPS]));
    (PINCTRL_PIN_31, PinGroup (u16s [PINCTRL_GRP_ETHERNET0_0; PINCTRL_GRP_PCIE0_2; PINCTRL_GRP_PMU0_5; PINCTRL_GRP_TESTSCAN0_0;
      PINCTRL_GRP_CSU0_9; PINCTRL_GRP_GPIO0_31; PINCTRL_GRP_CAN0_7; PINCTRL_GRP_I2C0_7;
      PINCTRL_GRP_SWDT0_4_RST; PINCTRL_GRP_SPI0_2; PINCTRL_GRP_TTC0_3_WAV; PINCTRL_GRP_UART0_7;
      PINCTRL_GRP_TRACE0_1; END_OF_GROUPS]));
    (PINCTRL_PIN_32, PinGroup (u16s [PINCTRL_GRP_ETHERNET0_0; PINCTRL_GRP_NAND0_1_DQS; PINCTRL_GRP_PMU0_6;
      PINCTRL_GRP_TESTSCAN0_0; PINCTRL_GRP_CSU0_10; PINCTRL_GRP_GPIO0_32; PINCTRL_GRP_CAN1_8;
      PINCTRL_GRP_I2C1_8; PINCTRL_GRP_SWDT1_5_CLK; PINCTRL_GRP_SPI1_2; PINCTRL_GRP_TTC3_4_CLK;
      PINCTRL_GRP_UART1_8; PINCTRL_GRP_TRACE0_1; END_OF_GROUPS]));
    (PINCTRL_PIN_33, PinGroup (u16s [PINCTRL_GRP_ETHERNET0_0; PINCTRL_GRP_PCIE0_3; PINCTRL_GRP_PMU0_7; PINCTRL_GRP_TESTSCAN0_0;
      PINCTRL_GRP_CSU0_11; PINCTRL_GRP_GPIO0_33; PINCTRL_GRP_CAN1_8; PINCTRL_GRP_I2C1_8;
      PINCTRL_GRP_SWDT1_5_RST; PINCTRL_GRP_SPI1_2_SS2; PINCTRL_GRP_TTC3_4_WAV;
      PINCTRL_GRP_UART1_8; PINCTRL_GRP_TRACE0_1; END_OF_GROUPS]));
    (PINCTRL_PIN_34, PinGroup (u16s [PINCTRL_GRP_ETHERNET0_0; PINCTRL_GRP_PCIE0_4; PINCTRL_GRP_PMU0_8; PINCTRL_GRP_TESTSCAN0_0;
      PINCTRL_GRP_DPAUX0_2; PINCTRL_GRP_GPIO0_34; PINCTRL_GRP_CAN0_8; PINCTRL_GRP_I2C0_8;
      PINCTRL_GRP_SWDT0_5_CLK; PINCTRL_GRP_SPI1_2_SS1; PINCTRL_GRP_TTC2_4_CLK;
      PINCTRL_GRP_UART0_8; PINCTRL_GRP_TRACE0_1; END_OF_GROUPS]));
    (PINCTRL_PIN_35, PinGroup (u16s [PINCTRL_GRP_ETHERNET0_0; PINCTRL_GRP_PCIE0_5; PINCTRL_GRP_PMU0_9; PINCTRL_GRP_TESTSCAN0_0;
      PINCTRL_GRP_DPAUX0_2; PINCTRL_GRP_GPIO0_35; PINCTRL_GRP_CAN0_8; PINCTRL_GRP_I2C0_8;
      PINCTRL_GRP_SWDT0_5_RST; PINCTRL_GRP_SPI1_2_SS0; PINCTRL_GRP_TTC2_4_WAV;
      PINCTRL_GRP_UART0_8; PINCTRL_GRP_TRACE0_1; END_OF_GROUPS]));
    (PINCTRL_PIN_36, PinGroup (u16s [PINCTRL_GRP_ETHERNET0_0; PINCTRL_GRP_PCIE0_6; PINCTRL_GRP_PMU0_10; PINCTRL_GRP_TESTSCAN0_0;
      PINCTRL_GRP_DPAUX0_3; PINCTRL_GRP_GPIO0_36; PINCTRL_GRP_CAN1_9; PINCTRL_GRP_I2C1_9;
      PINCTRL_GRP_SWDT1_6_CLK; PINCTRL_GRP_SPI1_2; PINCTRL_GRP_TTC1_4_CLK; PINCTRL_GRP_UART1_9;
      PINCTRL_GRP_TRACE0_1; END_OF_GROUPS])) ].

Definition pin_groups_6 : list (Z * zynqmp_pin_group) :=
  [ (PINCTRL_PIN_37, PinGroup (u16s [PINCTRL_GRP_ETHERNET0_0; PINCTRL_GRP_PCIE0_7; PINCTRL_GRP_PMU0_11; PINCTRL_GRP_TESTSCAN0_0;
      PINCTRL_GRP_DPAUX0_3; PINCTRL_GRP_GPIO0_37; PINCTRL_GRP_CAN1_9; PINCTRL_GRP_I2C1_9;
      PINCTRL_GRP_SWDT1_6_RST; PINCTRL_GRP_SPI1_2; PINCTRL_GRP_TTC1_4_WAV; PINCTRL_GRP_UART1_9;
      PINCTRL_GRP_TRACE0_1; END_OF_GROUPS]));
    (PINCTRL_PIN_38, PinGroup (u16s [PINCTRL_GRP_ETHERNET1_0; PINCTRL_GRP_RESERVED; PINCTRL_GRP_SDIO0_1; PINCTRL_GRP_RESERVED;
      PINCTRL_GRP_RESERVED; PINCTRL_GRP_GPIO0_38; PINCTRL_GRP_CAN0_9; PINCTRL_GRP_I2C0_9;
      PINCTRL_GRP_PJTAG0_3; PINCTRL_GRP_SPI0_3; PINCTRL_GRP_TTC0_4_CLK; PINCTRL_GRP_UART0_9;
      PINCTRL_GRP_TRACE0_1_CLK; PINCTRL_GRP_SDIO0_4BIT_1_0; PINCTRL_GRP_SDIO0_4BIT_1_1;
      PINCTRL_GRP_SDIO0_1BIT_1_0; PINCTRL_GRP_SDIO0_1BIT_1_1; PINCTRL_GRP_SDIO0_1BIT_1_2;
      PINCTRL_GRP_SDIO0_1BIT_1_3; PINCTRL_GRP_SDIO0_1BIT_1_4; PINCTRL_GRP_SDIO0_1BIT_1_5;
      PINCTRL_GRP_SDIO0_1BIT_1_6; PINCTRL_GRP_SDIO0_1BIT_1_7; END_OF_GROUPS]));
    (PINCTRL_PIN_39, PinGroup (u16s [PINCTRL_GRP_ETHERNET1_0; PINCTRL_GRP_RESERVED; PINCTRL_GRP_SDIO0_1_CD; PINCTRL_GRP_SDIO1_0;
      PINCTRL_GRP_RESERVED; PINCTRL_GRP_GPIO0_39; PINCTRL_GRP_CAN0_9; PINCTRL_GRP_I2C0_9;
      PINCTRL_GRP_PJTAG0_3; PINCTRL_GRP_SPI0_3_SS2; PINCTRL_GRP_TTC0_4_WAV; PINCTRL_GRP_UART0_9;
      PINCTRL_GRP_TRACE0_1_CLK; PINCTRL_GRP_SDIO1_4BIT_0_0; PINCTRL_GRP_SDIO1_1BIT_0_0;
      END_OF_GROUPS]));
    (PINCTRL_PIN_40, PinGroup (u16s [PINCTRL_GRP_ETHERNET1_0; PINCTRL_GRP_RESERVED; PINCTRL_GRP_SDIO0_1; PINCTRL_GRP_SDIO1_0;
      PINCTRL_GRP_RESERVED; PINCTRL_GRP_GPIO0_40; PINCTRL_GRP_CAN1_10; PINCTRL_GRP_I2C1_10;
      PINCTRL_GRP_PJTAG0_3; PINCTRL_GRP_SPI0_3_SS1; PINCTRL_GRP_TTC3_5_CLK; PINCTRL_GRP_UART1_10;
      PINCTRL_GRP_TRACE0_1; PINCTRL_GRP_SDIO0_4BIT_1_0; PINCTRL_GRP_SDIO0_4BIT_1_1;
      PINCTRL_GRP_SDIO0_1BIT_1_0; PINCTRL_GRP_SDIO0_1BIT_1_1; PINCTRL_GRP_SDIO0_1BIT_1_2;
      PINCTRL_GRP_SDIO0_1BIT_1_3; PINCTRL_GRP_SDIO0_1BIT_1_4; PINCTRL_GRP_SDIO0_1BIT_1_5;
      PINCTRL_GRP_SDIO0_1BIT_1_6; PINCTRL_GRP_SDIO0_1BIT_1_7; PINCTRL_GRP_SDIO1_4BIT_0_0;
      PINCTRL_GRP_SDIO1_1BIT_0_1; END_OF_GROUPS]));
    (PINCTRL_PIN_41, PinGroup (u16s [PINCTRL_GRP_ETHERNET1_0; PINCTRL_GRP_RESERVED; PINCTRL_GRP_SDIO0_1; PINCTRL_GRP_SDIO1_0;
      PINCTRL_GRP_RESERVED; PINCTRL_GRP_GPIO0_41; PINCTRL_GRP_CAN1_10; PINCTRL_GRP_I2C1_10;
      PINCTRL_GRP_PJTAG0_3; PINCTRL_GRP_SPI0_3_SS0; PINCTRL_GRP_TTC3_5_WAV; PINCTRL_GRP_UART1_10;
      PINCTRL_GRP_TRACE0_1; PINCTRL_GRP_SDIO0_4BIT_1_0; PINCTRL_GRP_SDIO0_1BIT_1_0;
      PINCTRL_GRP_SDIO1_4BIT_0_0; PINCTRL_GRP_SDIO1_1BIT_0_2; END_OF_GROUPS]));
    (PINCTRL_PIN_42, PinGroup (u16s [PINCTRL_GRP_ETHERNET1_0; PINCTRL_GRP_RESERVED; PINCTRL_GRP_SDIO0_1; PINCTRL_GRP_SDIO1_0;
      PINCTRL_GRP_RESERVED; PINCTRL_GRP_GPIO0_42; PINCTRL_GRP_CAN0_10; PINCTRL_GRP_I2C0_10;
      PINCTRL_GRP_SWDT0_6_CLK; PINCTRL_GRP_SPI0_3; PINCTRL_GRP_TTC2_5_CLK; PINCTRL_GRP_UART0_10;
      PINCTRL_GRP_TRACE0_1; PINCTRL_GRP_SDIO0_1; PINCTRL_GRP_SDIO0_4BIT_1_0;
      PINCTRL_GRP_SDIO0_1BIT_1_1; PINCTRL_GRP_SDIO1_4BIT_0_0; PINCTRL_GRP_SDIO1_1BIT_0_3;
      END_OF_GROUPS])) ].

Definition pin_groups_7 : list (Z * zynqmp_pin_group) :=
  [ (PINCTRL_PIN_43, PinGroup (u16s [PINCTRL_GRP_ETHERNET1_0; PINCTRL_GRP_RESERVED; PINCTRL_GRP_SDIO0_1; PINCTRL_GRP_SDIO1_0_PC;
      PINCTRL_GRP_RESERVED; PINCTRL_GRP_GPIO0_43; PINCTRL_GRP_CAN0_10; PINCTRL_GRP_I2C0_10;
      PINCTRL_GRP_SWDT0_6_RST; PINCTRL_GRP_SPI0_3; PINCTRL_GRP_TTC2_5_WAV; PINCTRL_GRP_UART0_10;
      PINCTRL_GRP_TRACE0_1; PINCTRL_GRP_SDIO0_4BIT_1_0; PINCTRL_GRP_SDIO0_1BIT_1_2;
      END_OF_GROUPS]));
    (PINCTRL_PIN_44, PinGroup (u16s [PINCTRL_GRP_ETHERNET1_0; PINCTRL_GRP_RESERVED; PINCTRL_GRP_SDIO0_1; PINCTRL_GRP_SDIO1_0_WP;
      PINCTRL_GRP_RESERVED; PINCTRL_GRP_GPIO0_44; PINCTRL_GRP_CAN1_11; PINCTRL_GRP_I2C1_11;
      PINCTRL_GRP_SWDT1_7_CLK; PINCTRL_GRP_SPI1_3; PINCTRL_GRP_TTC1_5_CLK; PINCTRL_GRP_UART1_11;
      PINCTRL_GRP_RESERVED; PINCTRL_GRP_SDIO0_4BIT_1_0; PINCTRL_GRP_SDIO0_1BIT_1_3;
      END_OF_GROUPS]));
    (PINCTRL_PIN_45, PinGroup (u16s [PINCTRL_GRP_ETHERNET1_0; PINCTRL_GRP_RESERVED; PINCTRL_GRP_SDIO0_1; PINCTRL_GRP_SDIO1_0_CD;
      PINCTRL_GRP_RESERVED; PINCTRL_GRP_GPIO0_45; PINCTRL_GRP_CAN1_11; PINCTRL_GRP_I2C1_11;
      PINCTRL_GRP_SWDT1_7_RST; PINCTRL_GRP_SPI1_3_SS2; PINCTRL_GRP_TTC1_5_WAV;
      PINCTRL_GRP_UART1_11; PINCTRL_GRP_RESERVED; PINCTRL_GRP_SDIO0_4BIT_1_1;
      PINCTRL_GRP_SDIO0_1BIT_1_4; END_OF_GROUPS]));
    (PINCTRL_PIN_46, PinGroup (u16s [PINCTRL_GRP_ETHERNET1_0; PINCTRL_GRP_RESERVED; PINCTRL_GRP_SDIO0_1; PINCTRL_GRP_SDIO1_0;
      PINCTRL_GRP_RESERVED; PINCTRL_GRP_GPIO0_46; PINCTRL_GRP_CAN0_11; PINCTRL_GRP_I2C0_11;
      PINCTRL_GRP_SWDT0_7_CLK; PINCTRL_GRP_SPI1_3_SS1; PINCTRL_GRP_TTC0_5_CLK;
      PINCTRL_GRP_UART0_11; PINCTRL_GRP_RESERVED; PINCTRL_GRP_SDIO0_4BIT_1_1;
      PINCTRL_GRP_SDIO0_1BIT_1_5; PINCTRL_GRP_SDIO1_4BIT_0_1; PINCTRL_GRP_SDIO1_1BIT_0_4;
      END_OF_GROUPS]));
    (PINCTRL_PIN_47, PinGroup (u16s [PINCTRL_GRP_ETHERNET1_0; PINCTRL_GRP_RESERVED; PINCTRL_GRP_SDIO0_1; PINCTRL_GRP_SDIO1_0;
      PINCTRL_GRP_RESERVED; PINCTRL_GRP_GPIO0_47; PINCTRL_GRP_CAN0_11; PINCTRL_GRP_I2C0_11;
      PINCTRL_GRP_SWDT0_7_RST; PINCTRL_GRP_SPI1_3_SS0; PINCTRL_GRP_TTC0_5_WAV;
      PINCTRL_GRP_UART0_11; PINCTRL_GRP_RESERVED; PINCTRL_GRP_SDIO0_4BIT_1_1;
      PINCTRL_GRP_SDIO0_1BIT_1_6; PINCTRL_GRP_SDIO1_4BIT_0_1; PINCTRL_GRP_SDIO1_1BIT_0_5;
      END_OF_GROUPS]));
    (PINCTRL_PIN_48, PinGroup (u16s [PINCTRL_GRP_ETHERNET1_0; PINCTRL_GRP_RESERVED; PINCTRL_GRP_SDIO0_1; PINCTRL_GRP_SDIO1_0;
      PINCTRL_GRP_RESERVED; PINCTRL_GRP_GPIO0_48; PINCTRL_GRP_CAN1_12; PINCTRL_GRP_I2C1_12;
      PINCTRL_GRP_SWDT1_8_CLK; PINCTRL_GRP_SPI1_3; PINCTRL_GRP_TTC3_6_CLK; PINCTRL_GRP_UART1_12;
      PINCTRL_GRP_RESERVED; PINCTRL_GRP_SDIO0_4BIT_1_1; PINCTRL_GRP_SDIO0_1BIT_1_7;
      PINCTRL_GRP_SDIO1_4BIT_0_1; PINCTRL_GRP_SDIO1_1BIT_0_6; END_OF_GROUPS]));
    (PINCTRL_PIN_49, PinGroup (u16s [PINCTRL_GRP_ETHERNET1_0; PINCTRL_GRP_RESERVED; PINCTRL_GRP_SDIO0_1_PC; PINCTRL_GRP_SDIO1_0;
      PINCTRL_GRP_RESERVED; PINCTRL_GRP_GPIO0_49; PINCTRL_GRP_CAN1_12; PINCTRL_GRP_I2C1_12;
      PINCTRL_GRP_SWDT1_8_RST; PINCTRL_GRP_SPI1_3; PINCTRL_GRP_TTC3_6_WAV; PINCTRL_GRP_UART1_12;
      PINCTRL_GRP_RESERVED; PINCTRL_GRP_SDIO1_4BIT_0_1; PINCTRL_GRP_SDIO1_1BIT_0_7;
      END_OF_GROUPS])) ].

Definition pin_groups_8 : list (Z * zynqmp_pin_group) :=
  [ (PINCTRL_PIN_50, PinGroup (u16s [PINCTRL_GRP_GEMTSU0_1; PINCTRL_GRP_RESERVED; PINCTRL_GRP_SDIO0_1_WP; PINCTRL_GRP_SDIO1_0;
      PINCTRL_GRP_RESERVED; PINCTRL_GRP_GPIO0_50; PINCTRL_GRP_CAN0_12; PINCTRL_GRP_I2C0_12;
      PINCTRL_GRP_SWDT0_8_CLK; PINCTRL_GRP_MDIO1_0; PINCTRL_GRP_TTC2_6_CLK; PINCTRL_GRP_UART0_12;
      PINCTRL_GRP_RESERVED; PINCTRL_GRP_SDIO1_4BIT_0_0; PINCTRL_GRP_SDIO1_4BIT_0_1;
      PINCTRL_GRP_SDIO1_1BIT_0_0; PINCTRL_GRP_SDIO1_1BIT_0_1; PINCTRL_GRP_SDIO1_1BIT_0_2;
      PINCTRL_GRP_SDIO1_1BIT_0_3; PINCTRL_GRP_SDIO1_1BIT_0_4; PINCTRL_GRP_SDIO1_1BIT_0_5;
      PINCTRL_GRP_SDIO1_1BIT_0_6; PINCTRL_GRP_SDIO1_1BIT_0_7; END_OF_GROUPS]));
    (PINCTRL_PIN_51, PinGroup (u16s [PINCTRL_GRP_GEMTSU0_2; PINCTRL_GRP_RESERVED; PINCTRL_GRP_RESERVED; PINCTRL_GRP_SDIO1_0;
      PINCTRL_GRP_RESERVED; PINCTRL_GRP_GPIO0_51; PINCTRL_GRP_CAN0_12; PINCTRL_GRP_I2C0_12;
      PINCTRL_GRP_SWDT0_8_RST; PINCTRL_GRP_MDIO1_0; PINCTRL_GRP_TTC2_6_WAV; PINCTRL_GRP_UART0_12;
      PINCTRL_GRP_RESERVED; PINCTRL_GRP_SDIO1_4BIT_0_0; PINCTRL_GRP_SDIO1_4BIT_0_1;
      PINCTRL_GRP_SDIO1_1BIT_0_0; PINCTRL_GRP_SDIO1_1BIT_0_1; PINCTRL_GRP_SDIO1_1BIT_0_2;
      PINCTRL_GRP_SDIO1_1BIT_0_3; PINCTRL_GRP_SDIO1_1BIT_0_4; PINCTRL_GRP_SDIO1_1BIT_0_5;
      PINCTRL_GRP_SDIO1_1BIT_0_6; PINCTRL_GRP_SDIO1_1BIT_0_7; END_OF_GROUPS]));
    (PINCTRL_PIN_52, PinGroup (u16s [PINCTRL_GRP_ETHERNET2_0; PINCTRL_GRP_USB0_0; PINCTRL_GRP_RESERVED; PINCTRL_GRP_RESERVED;
      PINCTRL_GRP_RESERVED; PINCTRL_GRP_GPIO0_52; PINCTRL_GRP_CAN1_13; PINCTRL_GRP_I2C1_13;
      PINCTRL_GRP_PJTAG0_4; PINCTRL_GRP_SPI0_4; PINCTRL_GRP_TTC1_6_CLK; PINCTRL_GRP_UART1_13;
      PINCTRL_GRP_TRACE0_2_CLK; END_OF_GROUPS]));
    (PINCTRL_PIN_53, PinGroup (u16s [PINCTRL_GRP_ETHERNET2_0; PINCTRL_GRP_USB0_0; PINCTRL_GRP_RESERVED; PINCTRL_GRP_RESERVED;
      PINCTRL_GRP_RESERVED; PINCTRL_GRP_GPIO0_53; PINCTRL_GRP_CAN1_13; PINCTRL_GRP_I2C1_13;
      PINCTRL_GRP_PJTAG0_4; PINCTRL_GRP_SPI0_4_SS2; PINCTRL_GRP_TTC1_6_WAV; PINCTRL_GRP_UART1_13;
      PINCTRL_GRP_TRACE0_2_CLK; END_OF_GROUPS]));
    (PINCTRL_PIN_54, PinGroup (u16s [PINCTRL_GRP_ETHERNET2_0; PINCTRL_GRP_USB0_0; PINCTRL_GRP_RESERVED; PINCTRL_GRP_RESERVED;
      PINCTRL_GRP_RESERVED; PINCTRL_GRP_GPIO0_54; PINCTRL_GRP_CAN0_13; PINCTRL_GRP_I2C0_13;
      PINCTRL_GRP_PJTAG0_4; PINCTRL_GRP_SPI0_4_SS1; PINCTRL_GRP_TTC0_6_CLK; PINCTRL_GRP_UART0_13;
      PINCTRL_GRP_TRACE0_2; END_OF_GROUPS]));
    (PINCTRL_PIN_55, PinGroup (u16s [PINCTRL_GRP_ETHERNET2_0; PINCTRL_GRP_USB0_0; PINCTRL_GRP_RESERVED; PINCTRL_GRP_RESERVED;
      PINCTRL_GRP_RESERVED; PINCTRL_GRP_GPIO0_55; PINCTRL_GRP_CAN0_13; PINCTRL_GRP_I2C0_13;
      PINCTRL_GRP_PJTAG0_4; PINCTRL_GRP_SPI0_4_SS0; PINCTRL_GRP_TTC0_6_WAV; PINCTRL_GRP_UART0_13;
      PINCTRL_GRP_TRACE0_2; END_OF_GROUPS]));
    (PINCTRL_PIN_56, PinGroup (u16s [PINCTRL_GRP_ETHERNET2_0; PINCTRL_GRP_USB0_0; PINCTRL_GRP_RESERVED; PINCTRL_GRP_RESERVED;
      PINCTRL_GRP_RESERVED; PINCTRL_GRP_GPIO0_56; PINCTRL_GRP_CAN1_14; PINCTRL_GRP_I2C1_14;
      PINCTRL_GRP_SWDT1_9_CLK; PINCTRL_GRP_SPI0_4; PINCTRL_GRP_TTC3_7_CLK; PINCTRL_GRP_UART1_14;
      PINCTRL_GRP_TRACE0_2; END_OF_GROUPS])) ].

Definition pin_groups_9 : list (Z * zynqmp_pin_group) :=
  [ (PINCTRL_PIN_57, PinGroup (u16s [PINCTRL_GRP_ETHERNET2_0; PINCTRL_GRP_USB0_0; PINCTRL_GRP_RESERVED; PINCTRL_GRP_RESERVED;
      PINCTRL_GRP_RESERVED; PINCTRL_GRP_GPIO0_57; PINCTRL_GRP_CAN1_14; PINCTRL_GRP_I2C1_14;
      PINCTRL_GRP_SWDT1_9_RST; PINCTRL_GRP_SPI0_4; PINCTRL_GRP_TTC3_7_WAV; PINCTRL_GRP_UART1_14;
      PINCTRL_GRP_TRACE0_2; END_OF_GROUPS]));
    (PINCTRL_PIN_58, PinGroup (u16s [PINCTRL_GRP_ETHERNET2_0; PINCTRL_GRP_USB0_0; PINCTRL_GRP_RESERVED; PINCTRL_GRP_RESERVED;
      PINCTRL_GRP_RESERVED; PINCTRL_GRP_GPIO0_58; PINCTRL_GRP_CAN0_14; PINCTRL_GRP_I2C0_14;
      PINCTRL_GRP_PJTAG0_5; PINCTRL_GRP_SPI1_4; PINCTRL_GRP_TTC2_7_CLK; PINCTRL_GRP_UART0_14;
      PINCTRL_GRP_TRACE0_2; END_OF_GROUPS]));
    (PINCTRL_PIN_59, PinGroup (u16s [PINCTRL_GRP_ETHERNET2_0; PINCTRL_GRP_USB0_0; PINCTRL_GRP_RESERVED; PINCTRL_GRP_RESERVED;
      PINCTRL_GRP_RESERVED; PINCTRL_GRP_GPIO0_59; PINCTRL_GRP_CAN0_14; PINCTRL_GRP_I2C0_14;
      PINCTRL_GRP_PJTAG0_5; PINCTRL_GRP_SPI1_4_SS2; PINCTRL_GRP_TTC2_7_WAV; PINCTRL_GRP_UART0_14;
      PINCTRL_GRP_TRACE0_2; END_OF_GROUPS]));
    (PINCTRL_PIN_60, PinGroup (u16s [PINCTRL_GRP_ETHERNET2_0; PINCTRL_GRP_USB0_0; PINCTRL_GRP_RESERVED; PINCTRL_GRP_RESERVED;
      PINCTRL_GRP_RESERVED; PINCTRL_GRP_GPIO0_60; PINCTRL_GRP_CAN1_15; PINCTRL_GRP_I2C1_15;
      PINCTRL_GRP_PJTAG0_5; PINCTRL_GRP_SPI1_4_SS1; PINCTRL_GRP_TTC1_7_CLK; PINCTRL_GRP_UART1_15;
      PINCTRL_GRP_TRACE0_2; END_OF_GROUPS]));
    (PINCTRL_PIN_61, PinGroup (u16s [PINCTRL_GRP_ETHERNET2_0; PINCTRL_GRP_USB0_0; PINCTRL_GRP_RESERVED; PINCTRL_GRP_RESERVED;
      PINCTRL_GRP_RESERVED; PINCTRL_GRP_GPIO0_61; PINCTRL_GRP_CAN1_15; PINCTRL_GRP_I2C1_15;
      PINCTRL_GRP_PJTAG0_5; PINCTRL_GRP_SPI1_4_SS0; PINCTRL_GRP_TTC1_7_WAV; PINCTRL_GRP_UART1_15;
      PINCTRL_GRP_TRACE0_2; END_OF_GROUPS]));
    (PINCTRL_PIN_62, PinGroup (u16s [PINCTRL_GRP_ETHERNET2_0; PINCTRL_GRP_USB0_0; PINCTRL_GRP_RESERVED; PINCTRL_GRP_RESERVED;
      PINCTRL_GRP_RESERVED; PINCTRL_GRP_GPIO0_62; PINCTRL_GRP_CAN0_15; PINCTRL_GRP_I2C0_15;
      PINCTRL_GRP_SWDT0_9_CLK; PINCTRL_GRP_SPI1_4; PINCTRL_GRP_TTC0_7_CLK; PINCTRL_GRP_UART0_15;
      PINCTRL_GRP_TRACE0_2; END_OF_GROUPS]));
    (PINCTRL_PIN_63, PinGroup (u16s [PINCTRL_GRP_ETHERNET2_0; PINCTRL_GRP_USB0_0; PINCTRL_GRP_RESERVED; PINCTRL_GRP_RESERVED;
      PINCTRL_GRP_RESERVED; PINCTRL_GRP_GPIO0_63; PINCTRL_GRP_CAN0_15; PINCTRL_GRP_I2C0_15;
      PINCTRL_GRP_SWDT0_9_RST; PINCTRL_GRP_SPI1_4; PINCTRL_GRP_TTC0_7_WAV; PINCTRL_GRP_UART0_15;
      PINCTRL_GRP_TRACE0_2; END_OF_GROUPS])) ].

Definition pin_groups_10 : list (Z * zynqmp_pin_group) :=
  [ (PINCTRL_PIN_64, PinGroup (u16s [PINCTRL_GRP_ETHERNET3_0; PINCTRL_GRP_USB1_0; PINCTRL_GRP_SDIO0_2; PINCTRL_GRP_RESERVED;
      PINCTRL_GRP_RESERVED; PINCTRL_GRP_GPIO0_64; PINCTRL_GRP_CAN1_16; PINCTRL_GRP_I2C1_16;
      PINCTRL_GRP_SWDT1_10_CLK; PINCTRL_GRP_SPI0_5; PINCTRL_GRP_TTC3_8_CLK; PINCTRL_GRP_UART1_16;
      PINCTRL_GRP_TRACE0_2; PINCTRL_GRP_SDIO0_4BIT_2_0; PINCTRL_GRP_SDIO0_4BIT_2_1;
      PINCTRL_GRP_SDIO0_1BIT_2_0; PINCTRL_GRP_SDIO0_1BIT_2_1; PINCTRL_GRP_SDIO0_1BIT_2_2;
      PINCTRL_GRP_SDIO0_1BIT_2_3; PINCTRL_GRP_SDIO0_1BIT_2_4; PINCTRL_GRP_SDIO0_1BIT_2_5;
      PINCTRL_GRP_SDIO0_1BIT_2_6; PINCTRL_GRP_SDIO0_1BIT_2_7; END_OF_GROUPS]));
    (PINCTRL_PIN_65, PinGroup (u16s [PINCTRL_GRP_ETHERNET3_0; PINCTRL_GRP_USB1_0; PINCTRL_GRP_SDIO0_2_CD; PINCTRL_GRP_RESERVED;
      PINCTRL_GRP_RESERVED; PINCTRL_GRP_GPIO0_65; PINCTRL_GRP_CAN1_16; PINCTRL_GRP_I2C1_16;
      PINCTRL_GRP_SWDT1_10_RST; PINCTRL_GRP_SPI0_5_SS2; PINCTRL_GRP_TTC3_8_WAV;
      PINCTRL_GRP_UART1_16; PINCTRL_GRP_TRACE0_2; END_OF_GROUPS]));
    (PINCTRL_PIN_66, PinGroup (u16s [PINCTRL_GRP_ETHERNET3_0; PINCTRL_GRP_USB1_0; PINCTRL_GRP_SDIO0_2; PINCTRL_GRP_RESERVED;
      PINCTRL_GRP_RESERVED; PINCTRL_GRP_GPIO0_66; PINCTRL_GRP_CAN0_16; PINCTRL_GRP_I2C0_16;
      PINCTRL_GRP_SWDT0_10_CLK; PINCTRL_GRP_SPI0_5_SS1; PINCTRL_GRP_TTC2_8_CLK;
      PINCTRL_GRP_UART0_16; PINCTRL_GRP_TRACE0_2; PINCTRL_GRP_SDIO0_4BIT_2_0;
      PINCTRL_GRP_SDIO0_4BIT_2_1; PINCTRL_GRP_SDIO0_1BIT_2_0; PINCTRL_GRP_SDIO0_1BIT_2_1;
      PINCTRL_GRP_SDIO0_1BIT_2_2; PINCTRL_GRP_SDIO0_1BIT_2_3; PINCTRL_GRP_SDIO0_1BIT_2_4;
      PINCTRL_GRP_SDIO0_1BIT_2_5; PINCTRL_GRP_SDIO0_1BIT_2_6; PINCTRL_GRP_SDIO0_1BIT_2_7;
      END_OF_GROUPS]));
    (PINCTRL_PIN_67, PinGroup (u16s [PINCTRL_GRP_ETHERNET3_0; PINCTRL_GRP_USB1_0; PINCTRL_GRP_SDIO0_2; PINCTRL_GRP_RESERVED;
      PINCTRL_GRP_RESERVED; PINCTRL_GRP_GPIO0_67; PINCTRL_GRP_CAN0_16; PINCTRL_GRP_I2C0_16;
      PINCTRL_GRP_SWDT0_10_RST; PINCTRL_GRP_SPI0_5_SS0; PINCTRL_GRP_TTC2_8_WAV;
      PINCTRL_GRP_UART0_16; PINCTRL_GRP_TRACE0_2; PINCTRL_GRP_SDIO0_4BIT_2_0;
      PINCTRL_GRP_SDIO0_1BIT_2_0; END_OF_GROUPS]));
    (PINCTRL_PIN_68, PinGroup (u16s [PINCTRL_GRP_ETHERNET3_0; PINCTRL_GRP_USB1_0; PINCTRL_GRP_SDIO0_2; PINCTRL_GRP_RESERVED;
      PINCTRL_GRP_RESERVED; PINCTRL_GRP_GPIO0_68; PINCTRL_GRP_CAN1_17; PINCTRL_GRP_I2C1_17;
      PINCTRL_GRP_SWDT1_11_CLK; PINCTRL_GRP_SPI0_5; PINCTRL_GRP_TTC1_8_CLK; PINCTRL_GRP_UART1_17;
      PINCTRL_GRP_TRACE0_2; PINCTRL_GRP_SDIO0_4BIT_2_0; PINCTRL_GRP_SDIO0_1BIT_2_1;
      END_OF_GROUPS]));
    (PINCTRL_PIN_69, PinGroup (u16s [PINCTRL_GRP_ETHERNET3_0; PINCTRL_GRP_USB1_0; PINCTRL_GRP_SDIO0_2; PINCTRL_GRP_SDIO1_1_WP;
      PINCTRL_GRP_RESERVED; PINCTRL_GRP_GPIO0_69; PINCTRL_GRP_CAN1_17; PINCTRL_GRP_I2C1_17;
      PINCTRL_GRP_SWDT1_11_RST; PINCTRL_GRP_SPI0_5; PINCTRL_GRP_TTC1_8_WAV; PINCTRL_GRP_UART1_17;
      PINCTRL_GRP_TRACE0_2; PINCTRL_GRP_SDIO0_4BIT_2_0; PINCTRL_GRP_SDIO0_1BIT_2_2;
      END_OF_GROUPS])) ].

Definition pin_groups_11 : list (Z * zynqmp_pin_group) :=
  [ (PINCTRL_PIN_70, PinGroup (u16s [PINCTRL_GRP_ETHERNET3_0; PINCTRL_GRP_USB1_0; PINCTRL_GRP_SDIO0_2; PINCTRL_GRP_SDIO1_1_PC;
      PINCTRL_GRP_RESERVED; PINCTRL_GRP_GPIO0_70; PINCTRL_GRP_CAN0_17; PINCTRL_GRP_I2C0_17;
      PINCTRL_GRP_SWDT0_11_CLK; PINCTRL_GRP_SPI1_5; PINCTRL_GRP_TTC0_8_CLK; PINCTRL_GRP_UART0_17;
      PINCTRL_GRP_RESERVED; PINCTRL_GRP_SDIO0_4BIT_2_0; PINCTRL_GRP_SDIO0_1BIT_2_3;
      END_OF_GROUPS]));
    (PINCTRL_PIN_71, PinGroup (u16s [PINCTRL_GRP_ETHERNET3_0; PINCTRL_GRP_USB1_0; PINCTRL_GRP_SDIO0_2;
      PINCTRL_GRP_SDIO1_4BIT_1_0; PINCTRL_GRP_RESERVED; PINCTRL_GRP_GPIO0_71;
      PINCTRL_GRP_CAN0_17; PINCTRL_GRP_I2C0_17; PINCTRL_GRP_SWDT0_11_RST; PINCTRL_GRP_SPI1_5_SS2;
      PINCTRL_GRP_TTC0_8_WAV; PINCTRL_GRP_UART0_17; PINCTRL_GRP_RESERVED; PINCTRL_GRP_SDIO0_2;
      PINCTRL_GRP_SDIO0_4BIT_2_1; PINCTRL_GRP_SDIO0_1BIT_2_4; PINCTRL_GRP_SDIO1_1BIT_1_0;
      END_OF_GROUPS]));
    (PINCTRL_PIN_72, PinGroup (u16s [PINCTRL_GRP_ETHERNET3_0; PINCTRL_GRP_USB1_0; PINCTRL_GRP_SDIO0_2;
      PINCTRL_GRP_SDIO1_4BIT_1_0; PINCTRL_GRP_RESERVED; PINCTRL_GRP_GPIO0_72;
      PINCTRL_GRP_CAN1_18; PINCTRL_GRP_I2C1_18; PINCTRL_GRP_SWDT1_12_CLK; PINCTRL_GRP_SPI1_5_SS1;
      PINCTRL_GRP_RESERVED; PINCTRL_GRP_UART1_18; PINCTRL_GRP_RESERVED;
      PINCTRL_GRP_SDIO0_4BIT_2_1; PINCTRL_GRP_SDIO0_1BIT_2_5; PINCTRL_GRP_SDIO1_1BIT_1_1;
      END_OF_GROUPS]));
    (PINCTRL_PIN_73, PinGroup (u16s [PINCTRL_GRP_ETHERNET3_0; PINCTRL_GRP_USB1_0; PINCTRL_GRP_SDIO0_2;
      PINCTRL_GRP_SDIO1_4BIT_1_0; PINCTRL_GRP_RESERVED; PINCTRL_GRP_GPIO0_73;
      PINCTRL_GRP_CAN1_18; PINCTRL_GRP_I2C1_18; PINCTRL_GRP_SWDT1_12_RST; PINCTRL_GRP_SPI1_5_SS0;
      PINCTRL_GRP_RESERVED; PINCTRL_GRP_UART1_18; PINCTRL_GRP_RESERVED;
      PINCTRL_GRP_SDIO0_4BIT_2_1; PINCTRL_GRP_SDIO0_1BIT_2_6; PINCTRL_GRP_SDIO1_1BIT_1_2;
      END_OF_GROUPS]));
    (PINCTRL_PIN_74, PinGroup (u16s [PINCTRL_GRP_ETHERNET3_0; PINCTRL_GRP_USB1_0; PINCTRL_GRP_SDIO0_2;
      PINCTRL_GRP_SDIO1_4BIT_1_0; PINCTRL_GRP_RESERVED; PINCTRL_GRP_GPIO0_74;
      PINCTRL_GRP_CAN0_18; PINCTRL_GRP_I2C0_18; PINCTRL_GRP_SWDT0_12_CLK; PINCTRL_GRP_SPI1_5;
      PINCTRL_GRP_RESERVED; PINCTRL_GRP_UART0_18; PINCTRL_GRP_RESERVED;
      PINCTRL_GRP_SDIO0_4BIT_2_1; PINCTRL_GRP_SDIO0_1BIT_2_7; PINCTRL_GRP_SDIO1_1BIT_1_3;
      END_OF_GROUPS]));
    (PINCTRL_PIN_75, PinGroup (u16s [PINCTRL_GRP_ETHERNET3_0; PINCTRL_GRP_USB1_0; PINCTRL_GRP_SDIO0_2_PC;
      PINCTRL_GRP_SDIO1_4BIT_1_0; PINCTRL_GRP_RESERVED; PINCTRL_GRP_GPIO0_75;
      PINCTRL_GRP_CAN0_18; PINCTRL_GRP_I2C0_18; PINCTRL_GRP_SWDT0_12_RST; PINCTRL_GRP_SPI1_5;
      PINCTRL_GRP_RESERVED; PINCTRL_GRP_UART0_18; PINCTRL_GRP_RESERVED;
      PINCTRL_GRP_SDIO1_1BIT_1_0; PINCTRL_GRP_SDIO1_1BIT_1_1; PINCTRL_GRP_SDIO1_1BIT_1_2;
      PINCTRL_GRP_SDIO1_1BIT_1_3; END_OF_GROUPS])) ].

Definition pin_groups_12 : list (Z * zynqmp_pin_group) :=
  [ (PINCTRL_PIN_76, PinGroup (u16s [PINCTRL_GRP_RESERVED; PINCTRL_GRP_RESERVED; PINCTRL_GRP_SDIO0_2_WP;
      PINCTRL_GRP_SDIO1_4BIT_1_0; PINCTRL_GRP_RESERVED; PINCTRL_GRP_GPIO0_76;
      PINCTRL_GRP_CAN1_19; PINCTRL_GRP_I2C1_19; PINCTRL_GRP_MDIO0_0; PINCTRL_GRP_MDIO1_1;
      PINCTRL_GRP_MDIO2_0; PINCTRL_GRP_MDIO3_0; PINCTRL_GRP_RESERVED; PINCTRL_GRP_SDIO1_1BIT_1_0;
      PINCTRL_GRP_SDIO1_1BIT_1_1; PINCTRL_GRP_SDIO1_1BIT_1_2; PINCTRL_GRP_SDIO1_1BIT_1_3;
      END_OF_GROUPS]));
    (PINCTRL_PIN_77, PinGroup (u16s [PINCTRL_GRP_RESERVED; PINCTRL_GRP_RESERVED; PINCTRL_GRP_RESERVED; PINCTRL_GRP_SDIO1_1_CD;
      PINCTRL_GRP_RESERVED; PINCTRL_GRP_GPIO0_77; PINCTRL_GRP_CAN1_19; PINCTRL_GRP_I2C1_19;
      PINCTRL_GRP_MDIO0_0; PINCTRL_GRP_MDIO1_1; PINCTRL_GRP_MDIO2_0; PINCTRL_GRP_MDIO3_0;
      PINCTRL_GRP_RESERVED; END_OF_GROUPS])) ].

Definition zynqmp_pin_groups : list zynqmp_pin_group :=
  designated (PinGroup None)
    (pin_groups_1 ++ pin_groups_2 ++ pin_groups_3 ++ pin_groups_4 ++ pin_groups_5 ++ pin_groups_6 ++
     pin_groups_7 ++ pin_groups_8 ++ pin_groups_9 ++ pin_groups_10 ++ pin_groups_11 ++ pin_groups_12).

End PinctrlData.
