(* ===== verification/PmPinctrl.v ===== *)
(** * Pin control queries

    The functions of pm_service/pm_api_pinctrl.c over the tables of
    [PinctrlData].  The caller's buffers are in-out lists of half-words (groups)
    or bytes (names). *)

From S2P Require Import Prelude Machine PmDefs PmIpi Paged ClockData PinctrlData PmClock.
From Stdlib Require Import String.
From stdpp Require Import sets.
Import PmDefs Paged ClockData PinctrlData PmClock.
#[local] Open Scope Z_scope.
#[local] Open Scope c_scope.

Module PmPinctrl.

Section Ops.
Context `{Env} {V : Type}.

Definition pm_api_pinctrl_get_num_pins (npins : Z) : M V (Z * Z) := ret (PM_RET_SUCCESS, MAX_PIN).
Definition pm_api_pinctrl_get_num_functions (nfuncs : Z) : M V (Z * Z) :=
  ret (PM_RET_SUCCESS, MAX_FUNCTION).

(** [while (grps[i++] != END_OF_GROUPS) ( *ngroups)++]; an array of n elements is
    left after n turns. *)
Fixpoint count_groups (grps : list Z) (fuel : nat) (i ngroups : Z) : M V Z :=
  match fuel with
  | O => stop OutOfBounds
  | S fuel' =>
      g <- aread grps i ;;
      if g =? u16 END_OF_GROUPS then ret ngroups
      else count_groups grps fuel' (i + 1) (u32 (ngroups + 1))
  end.

Definition pm_api_pinctrl_get_num_func_groups (fid ngroups : Z) : M V (Z * Z) :=
  if MAX_FUNCTION <=? fid then ret (PM_RET_ERROR_ARGS, ngroups)
  else
    f <- aread pinctrl_functions fid ;;
    match fgroups f with
    | None => ret (PM_RET_SUCCESS, 0)
    | Some grps => n <- count_groups grps (S (length grps)) 0 0 ;; ret (PM_RET_SUCCESS, n)
    end.

Definition pm_api_pinctrl_get_function_name (fid : Z) (name : list Z) : M V (list Z) :=
  if MAX_FUNCTION <=? fid then
    copy_into name (char_array (Z.to_nat FUNCTION_NAME_LEN) END_OF_FUNCTION)
  else
    f <- aread pinctrl_functions fid ;;
    copy_into name (char_array (Z.to_nat FUNCTION_NAME_LEN) (fname f)).

(** The common part of the two group queries: [memset] of the answer, then the
    loops over the table of the function or the pin. *)
Definition get_groups (table : M V (option (list Z))) (index : Z) (groups : list Z)
    : M V (Z * list Z) :=
  groups <- copy_into groups (repeat (u16 END_OF_GROUPS) (Z.to_nat (GROUPS_PAYLOAD_LEN / 2))) ;;
  o <- table ;;
  match o with
  | None => ret (PM_RET_SUCCESS, groups)
  | Some grps =>
      b <- skip_to (u16 END_OF_GROUPS) grps index (length grps) 0 ;;
      if (b : bool) then ret (PM_RET_SUCCESS, groups)
      else
        groups <- copy_page (u16 END_OF_GROUPS) u16 grps index (Z.to_nat NUM_GROUPS_PER_RESP) 0
                    groups ;;
        ret (PM_RET_SUCCESS, groups)
  end.

Definition pm_api_pinctrl_get_function_groups (fid index : Z) (groups : list Z)
    : M V (Z * list Z) :=
  if MAX_FUNCTION <=? fid then ret (PM_RET_ERROR_ARGS, groups)
  else get_groups (f <- aread pinctrl_functions fid ;; ret (fgroups f)) index groups.

Definition pm_api_pinctrl_get_pin_groups (pin index : Z) (groups : list Z) : M V (Z * list Z) :=
  if MAX_PIN <=? pin then ret (PM_RET_ERROR_ARGS, groups)
  else get_groups (p <- aread zynqmp_pin_groups pin ;; ret (pgroups p)) index groups.

End Ops.

(** ** Well-formed tables *)

Definition groups_ok (o : option (list Z)) : bool :=
  match o with
  | Some l => terminated (u16 END_OF_GROUPS) l && (length l <=? 200)%nat &&
              forallb (fun g => (0 <=? g) && (g <? 2 ^ 16)) l
  | None => false
  end.

Lemma functions_ok :
  (length pinctrl_functions =? Z.to_nat MAX_FUNCTION)%nat &&
  forallb (fun f => groups_ok (fgroups f)) pinctrl_functions = true.
Proof. vm_compute. reflexivity. Qed.

Lemma pins_ok :
  (length zynqmp_pin_groups =? Z.to_nat MAX_PIN)%nat &&
  forallb (fun p => groups_ok (pgroups p)) zynqmp_pin_groups = true.
Proof. vm_compute. reflexivity. Qed.

#[global] Opaque pinctrl_functions zynqmp_pin_groups.

(** Groups of a function and of a pin, with the end marker. *)
Definition function_groups (fid : Z) : list Z :=
  match pinctrl_functions !! Z.to_nat fid with Some f => default [] (fgroups f) | None => [] end.
Definition pin_groups (pin : Z) : list Z :=
  match zynqmp_pin_groups !! Z.to_nat pin with Some p => default [] (pgroups p) | None => [] end.

(** A well-formed table of [n] entries gives a well-formed group list. *)
Lemma table_entry {A} (tbl : list A) (get : A -> option (list Z)) n i :
  (length tbl =? Z.to_nat n)%nat && forallb (fun f => groups_ok (get f)) tbl = true ->
  0 <= i < n -> exists f gs, tbl !! Z.to_nat i = Some f /\ get f = Some gs /\
    terminated (u16 END_OF_GROUPS) gs = true /\ (length gs <= 200)%nat /\
    Forall (fun g => 0 <= g < 2 ^ 16) gs.
Proof.
  intros [Hl Hf]%andb_true_iff Hi. apply Nat.eqb_eq in Hl. rewrite forallb_forall in Hf.
  destruct (lookup_lt_is_Some_2 tbl (Z.to_nat i)) as [f Hlk]; [lia|].
  specialize (Hf f (proj1 (list_elem_of_In _ _) (list_elem_of_lookup_2 _ _ _ Hlk))).
  unfold groups_ok in Hf. destruct (get f) as [gs|] eqn:Hg; [|discriminate]. exists f, gs.
  apply andb_true_iff in Hf as [[Ht Hn]%andb_true_iff Hr]. apply Nat.leb_le in Hn.
  split; [exact Hlk|]. split; [exact Hg|]. split; [exact Ht|]. split; [exact Hn|].
  apply list.Forall_forall. intros g Hin. rewrite forallb_forall in Hr.
  specialize (Hr g (proj1 (list_elem_of_In _ _) Hin)). zbool. lia.
Qed.

Lemma map_u16 gs : Forall (fun g => 0 <= g < 2 ^ 16) gs -> map u16 gs = gs.
Proof.
  induction 1 as [|g gs Hg _ IH]; simpl; [done|]. rewrite IH. f_equal. unfold u16.
  by apply Z.mod_small.
Qed.

Section Queries.
Context `{Env} {V : Type}.
Implicit Types s : st V.

Lemma get_groups_run (table : M V (option (list Z))) gs index groups s :
  table s = (Ret (Some gs), s) -> terminated (u16 END_OF_GROUPS) gs = true ->
  (length gs <= 200)%nat -> Forall (fun g => 0 <= g < 2 ^ 16) gs ->
  0 <= index -> length groups = 6%nat ->
  get_groups table index groups s =
  (Ret (PM_RET_SUCCESS, page 0xFFFF 6 (Z.to_nat index) gs), s).
Proof.
  intros Htab Ht Hl Hr Hi Hg. unfold get_groups.
  change (u16 END_OF_GROUPS) with 0xFFFF in *. change (Z.to_nat (GROUPS_PAYLOAD_LEN / 2)) with 6%nat.
  change (Z.to_nat NUM_GROUPS_PER_RESP) with 6%nat.
  rewrite (bind_run _ _ _ _ _ (copy_into_run groups (repeat 0xFFFF 6) s ltac:(simpl; lia))).
  rewrite (drop_ge groups) by (simpl; lia). rewrite app_nil_r.
  rewrite (bind_run _ _ _ _ _ Htab).
  rewrite (paged_run 0xFFFF u16 0xFFFF gs 6 index (fun out => ret (PM_RET_SUCCESS, out))) by done.
  by rewrite map_u16.
Qed.

Lemma function_groups_run fid index groups s :
  0 <= fid -> 0 <= index -> length groups = 6%nat ->
  pm_api_pinctrl_get_function_groups fid index groups s =
  (Ret (if MAX_FUNCTION <=? fid then (PM_RET_ERROR_ARGS, groups)
        else (PM_RET_SUCCESS, page 0xFFFF 6 (Z.to_nat index) (function_groups fid))), s).
Proof.
  intros Hf Hi Hg. unfold pm_api_pinctrl_get_function_groups.
  destruct (MAX_FUNCTION <=? fid) eqn:E; [done|]. zbool.
  destruct (table_entry _ fgroups _ fid functions_ok (conj Hf E))
    as (f & gs & Hlk & Hgs & Ht & Hl & Hr).
  unfold function_groups. rewrite Hlk, Hgs. apply get_groups_run; try assumption.
  rewrite (run_bind_aread _ _ f _ _ (proj2 (Z.ltb_ge _ _) Hf) Hlk), Hgs. reflexivity.
Qed.

Lemma pin_groups_run pin index groups s :
  0 <= pin -> 0 <= index -> length groups = 6%nat ->
  pm_api_pinctrl_get_pin_groups pin index groups s =
  (Ret (if MAX_PIN <=? pin then (PM_RET_ERROR_ARGS, groups)
        else (PM_RET_SUCCESS, page 0xFFFF 6 (Z.to_nat index) (pin_groups pin))), s).
Proof.
  intros Hp Hi Hg. unfold pm_api_pinctrl_get_pin_groups.
  destruct (MAX_PIN <=? pin) eqn:E; [done|]. zbool.
  destruct (table_entry _ pgroups _ pin pins_ok (conj Hp E))
    as (f & gs & Hlk & Hgs & Ht & Hl & Hr).
  unfold pin_groups. rewrite Hlk, Hgs. apply get_groups_run; try assumption.
  rewrite (run_bind_aread _ _ f _ _ (proj2 (Z.ltb_ge _ _) Hp) Hlk), Hgs. reflexivity.
Qed.

(** Group queries.  For every function or pin number and every index the
    query refuses numbers outside the tables and otherwise returns the slice of
    six groups at the index, filled with the end marker; no table is left and
    the state is unchanged. *)
Theorem group_queries fid pin index groups s :
  0 <= fid -> 0 <= pin -> 0 <= index -> length groups = 6%nat ->
  pm_api_pinctrl_get_function_groups fid index groups s =
  (Ret (if MAX_FUNCTION <=? fid then (PM_RET_ERROR_ARGS, groups)
        else (PM_RET_SUCCESS, page 0xFFFF 6 (Z.to_nat index) (function_groups fid))), s) /\
  pm_api_pinctrl_get_pin_groups pin index groups s =
  (Ret (if MAX_PIN <=? pin then (PM_RET_ERROR_ARGS, groups)
        else (PM_RET_SUCCESS, page 0xFFFF 6 (Z.to_nat index) (pin_groups pin))), s).
Proof.
  intros Hf Hp Hi Hg. split; [by apply function_groups_run|by apply pin_groups_run].
Qed.

Lemma count_groups_run gs fuel i n s :
  terminated (u16 END_OF_GROUPS) gs = true -> (i < length gs)%nat -> (length gs < i + fuel)%nat ->
  (length gs <= 200)%nat -> 0 <= n <= Z.of_nat i ->
  count_groups gs fuel (Z.of_nat i) n s = (Ret (n + Z.of_nat (length gs - 1 - i)), s).
Proof.
  intros Ht. destruct (terminated_lookup _ gs Ht) as [_ Hna].
  revert i n. induction fuel as [|fuel IH]; intros i n Hi Hf Hl Hn; [lia|]. simpl.
  destruct (lookup_lt_is_Some_2 gs i Hi) as [g Hg]. rewrite (run_bind_aread_nat gs _ g) by done.
  destruct (g =? u16 END_OF_GROUPS) eqn:E; zbool.
  - apply (Hna _ _ Hg) in E. run. do 2 f_equal. lia.
  - assert (S i <> length gs) by (intros He; apply E; by apply (Hna _ _ Hg)).
    rewrite u32_small by lia. replace (Z.of_nat i + 1) with (Z.of_nat (S i)) by lia.
    rewrite IH by lia. do 2 f_equal. lia.
Qed.

(** The number of groups that is reported is the number of entries before the
    end marker: what the paged query then enumerates. *)
Lemma num_func_groups_run fid n s : 0 <= fid < MAX_FUNCTION ->
  pm_api_pinctrl_get_num_func_groups fid n s =
  (Ret (PM_RET_SUCCESS, Z.of_nat (length (function_groups fid) - 1)), s).
Proof.
  intros Hf. unfold pm_api_pinctrl_get_num_func_groups.
  rewrite (proj2 (Z.leb_gt _ _)) by lia.
  destruct (table_entry _ fgroups _ fid functions_ok Hf) as (f & gs & Hlk & Hgs & Ht & Hl & _).
  unfold function_groups. rewrite Hlk, Hgs.
  rewrite (run_bind_aread _ _ f _ _ (proj2 (Z.ltb_ge _ _) (proj1 Hf)) Hlk), Hgs.
  destruct (terminated_lookup _ gs Ht) as [Hpos _].
  erewrite bind_run; [|apply (count_groups_run gs _ 0 0); [exact Ht|lia|lia|lia|lia]].
  simpl. by rewrite Nat.sub_0_r.
Qed.

Lemma function_name_total fid name s : 0 <= fid -> length name = 16%nat ->
  exists name', pm_api_pinctrl_get_function_name fid name s = (Ret name', s) /\
    length name' = 16%nat.
Proof.
  intros Hf Hn. unfold pm_api_pinctrl_get_function_name.
  change (Z.to_nat FUNCTION_NAME_LEN) with 16%nat.
  assert (Hc : forall x, exists name', copy_into name (char_array 16 x) s = (Ret name', s) /\
    length name' = 16%nat).
  { intros x. rewrite copy_into_run by (rewrite chars_length; lia). eexists. split; [reflexivity|].
    rewrite length_app, length_drop, chars_length. lia. }
  destruct (MAX_FUNCTION <=? fid) eqn:E; [apply Hc|]. zbool.
  destruct (table_entry _ fgroups _ fid functions_ok (conj Hf E)) as (f & gs & Hlk & _).
  rewrite (run_bind_aread _ _ f _ _ (proj2 (Z.ltb_ge _ _) Hf) Hlk). apply Hc.
Qed.

End Queries.

(** ** The two tables agree *)

(** The functions that list a group. *)
Definition owners (g : Z) : list Z :=
  List.filter (fun f => existsb (Z.eqb g) (function_groups f)) (map Z.of_nat (seq 0 57)).

Definition is_group (g : Z) : bool := negb (g =? 0xFFFF) && negb (g =? 0xFFFE).

Lemma one_owner :
  forallb (fun p => forallb (fun g => negb (is_group g) || (length (owners g) =? 1)%nat)
    (pin_groups (Z.of_nat p))) (seq 0 78) = true.
Proof. vm_compute. reflexivity. Qed.

Lemma owners_spec g f : f ∈ owners g <-> 0 <= f < MAX_FUNCTION /\ g ∈ function_groups f.
Proof.
  unfold owners. rewrite list_elem_of_In, filter_In, in_map_iff, existsb_exists. split.
  - intros [(k & <- & Hk%in_seq) (x & Hx & ->%Z.eqb_eq)].
    unfold MAX_FUNCTION, END_FUNCTION. rewrite list_elem_of_In. split; [lia|exact Hx].
  - intros [Hf Hg]. unfold MAX_FUNCTION, END_FUNCTION in Hf. split.
    + exists (Z.to_nat f). rewrite in_seq. lia.
    + exists g. rewrite list_elem_of_In in Hg. split; [exact Hg|apply Z.eqb_refl].
Qed.

(** The pin table and the function table agree: every group that a pin
    lists, apart from reserved slots, is a group of exactly one function, so
    selecting a group on a pin determines the function. *)
Theorem pin_mux_consistent pin g :
  0 <= pin < MAX_PIN -> g ∈ pin_groups pin -> is_group g = true ->
  exists f, (0 <= f < MAX_FUNCTION /\ g ∈ function_groups f) /\
    forall f', 0 <= f' < MAX_FUNCTION -> g ∈ function_groups f' -> f' = f.
Proof.
  intros Hp Hg Hgrp. pose proof one_owner as Ho. rewrite forallb_forall in Ho.
  unfold MAX_PIN, END_PINS in Hp.
  specialize (Ho (Z.to_nat pin) ltac:(apply in_seq; lia)). rewrite Z2Nat.id, forallb_forall in Ho by lia.
  specialize (Ho g (proj1 (list_elem_of_In _ _) Hg)). apply orb_true_iff in Ho as [Hn|Ho];
    [rewrite Hgrp in Hn; discriminate|].
  apply Nat.eqb_eq in Ho. pose proof (owners_spec g) as Hs.
  destruct (owners g) as [|f [|]]; simpl in Ho; try lia. exists f. split.
  - apply Hs. by left.
  - intros f' Hf' Hg'. by apply list_elem_of_singleton, Hs.
Qed.

(** ** Witnesses *)

(** The last page of the UART 0 function. *)
Lemma group_queries_witness :
  pm_api_pinctrl_get_function_groups (H := PmIpi.quiet_board) PINCTRL_FUNC_UART0 18 (repeat 0 6)
    s_pm =
  (Ret (PM_RET_SUCCESS, [PINCTRL_GRP_UART0_18; 0xFFFF; 0xFFFF; 0xFFFF; 0xFFFF; 0xFFFF]), s_pm).
Proof.
  destruct (group_queries (H := PmIpi.quiet_board) PINCTRL_FUNC_UART0 38 18 (repeat 0 6) s_pm)
    as [E _]; [easy|easy|easy|reflexivity|]. rewrite E. vm_compute. reflexivity.
Defined.

Lemma pin_mux_consistent_witness :
  exists f, (0 <= f < MAX_FUNCTION /\ PINCTRL_GRP_TTC2_6_WAV ∈ function_groups f) /\
    forall f', 0 <= f' < MAX_FUNCTION -> PINCTRL_GRP_TTC2_6_WAV ∈ function_groups f' -> f' = f.
Proof.
  apply (pin_mux_consistent PINCTRL_PIN_51).
  - easy.
  - apply (bool_decide_unpack _). vm_compute. exact I.
  - reflexivity.
Defined.

End PmPinctrl.
