(* ===== verification/PmClient.v ===== *)
(** * The APU as a client of the power-management service

    pm_service/pm_client.c: the suspend, abort and wake-up actions of the APU,
    and the loop that makes every peripheral with an enabled interrupt a wake-up
    source before the system suspends. *)

From S2P Require Import Prelude Machine Gic Ipi PmDefs PmIpi PmReq.
From stdpp Require Import sets.
Import Ipi PmDefs PmIpi PmReq.
#[local] Open Scope Z_scope.
#[local] Open Scope c_scope.

Module PmClient.

Definition IRQ_MAX : Z := 84.
Definition NUM_GICD_ISENABLER : Z := (IRQ_MAX .>> 5) + 1.
Definition UNDEFINED_CPUID : Z := not32 0.
Definition PM_SUSPEND_MODE_STD : Z := 0.
Definition PM_SUSPEND_MODE_POWER_OFF : Z := 1.
Definition ISENABLER_SHIFT : Z := 5.
Definition APU_PWRCTL : Z := 0xFD5C0090.

Definition irq_node_map : list Z :=
  [ NODE_UNKNOWN; NODE_UNKNOWN; NODE_UNKNOWN; NODE_UNKNOWN;
    NODE_UNKNOWN; NODE_UNKNOWN; NODE_UNKNOWN; NODE_UNKNOWN;
    NODE_UNKNOWN; NODE_UNKNOWN; NODE_UNKNOWN; NODE_UNKNOWN;
    NODE_UNKNOWN; NODE_UNKNOWN; NODE_NAND; NODE_QSPI;
    NODE_GPIO; NODE_I2C_0; NODE_I2C_1; NODE_SPI_0;
    NODE_SPI_1; NODE_UART_0; NODE_UART_1; NODE_CAN_0;
    NODE_CAN_1; NODE_UNKNOWN; NODE_RTC; NODE_RTC;
    NODE_UNKNOWN; NODE_UNKNOWN; NODE_UNKNOWN; NODE_UNKNOWN;
    NODE_UNKNOWN; NODE_UNKNOWN; NODE_UNKNOWN; NODE_UNKNOWN;
    NODE_TTC_0; NODE_TTC_0; NODE_TTC_0; NODE_TTC_1;
    NODE_TTC_1; NODE_TTC_1; NODE_TTC_2; NODE_TTC_2;
    NODE_TTC_2; NODE_TTC_3; NODE_TTC_3; NODE_TTC_3;
    NODE_SD_0; NODE_SD_1; NODE_SD_0; NODE_SD_1;
    NODE_UNKNOWN; NODE_UNKNOWN; NODE_UNKNOWN; NODE_UNKNOWN;
    NODE_UNKNOWN; NODE_ETH_0; NODE_ETH_0; NODE_ETH_1;
    NODE_ETH_1; NODE_ETH_2; NODE_ETH_2; NODE_ETH_3;
    NODE_ETH_3; NODE_USB_0; NODE_USB_0; NODE_USB_0;
    NODE_USB_0; NODE_USB_0; NODE_USB_1; NODE_USB_1;
    NODE_USB_1; NODE_USB_1; NODE_USB_1; NODE_USB_0;
    NODE_USB_0; NODE_ADMA; NODE_ADMA; NODE_ADMA;
    NODE_ADMA; NODE_ADMA; NODE_ADMA; NODE_ADMA;
    NODE_ADMA ].

Section Ops.
Context `{Env} {V : Type} `{!Has ipi V} `{!Has pm V} `{!Has Gic.gic V}.

Definition irq_to_pm_node (irq : Z) : M V Z :=
  c_assert (irq <=? IRQ_MAX) ;;
  aread irq_node_map irq.

(** The test and the request for one enabled interrupt; the result is the set of
    nodes that are wake-up sources already. *)
Definition wakeup_node (node : Z) (pm_wakeup_nodes_set : list Z) : M V (list Z) :=
  if node =? NODE_UNKNOWN then ret pm_wakeup_nodes_set
  else
    x <- aread pm_wakeup_nodes_set node ;;
    if truthy x then ret pm_wakeup_nodes_set
    else
      r <- pm_set_wakeup_source NODE_APU node 1 ;;
      awrite pm_wakeup_nodes_set node (b2z (negb (truthy r))).

(** [while (reg)]: every turn clears one bit, so 32 turns are enough. *)
Fixpoint wakeup_while (n : nat) (base_irq reg : Z) (pm_wakeup_nodes_set : list Z)
    : M V (list Z) :=
  if negb (truthy reg) then ret pm_wakeup_nodes_set
  else match n with
  | O => stop StillPolling
  | S n' =>
      let lowest_set := reg .& u32 (- reg) in
      idx <- deref (ctz lowest_set) ;;
      let irq := u32 (base_irq + idx) in
      if irq >? IRQ_MAX then ret pm_wakeup_nodes_set
      else
        node <- irq_to_pm_node irq ;;
        let reg := reg .& not32 lowest_set in
        s <- wakeup_node node pm_wakeup_nodes_set ;;
        wakeup_while n' base_irq reg s
  end.

(** One turn of the loop over the enable registers. *)
Definition wakeup_reg (reg_num : Z) (pm_wakeup_nodes_set : list Z) : M V (list Z) :=
  let isenabler1 := Gic.PLAT_ARM_GICD_BASE + Gic.GICD_ISENABLER + 4 in
  let base_irq := reg_num .<< ISENABLER_SHIFT in
  reg <- mmio_read_32 (isenabler1 + (reg_num .<< 2)) ;;
  if negb (truthy reg) then ret pm_wakeup_nodes_set
  else wakeup_while 32 base_irq reg pm_wakeup_nodes_set.

Fixpoint wakeup_regs (l : list Z) (pm_wakeup_nodes_set : list Z) : M V unit :=
  match l with
  | [] => ret tt
  | r :: l' => s <- wakeup_reg r pm_wakeup_nodes_set ;; wakeup_regs l' s
  end.

Definition pm_client_set_wakeup_sources : M V unit :=
  mode <- gets suspend_mode ;;
  done <- (if mode =? PM_SUSPEND_MODE_POWER_OFF then
             r <- pm_set_wakeup_source NODE_APU NODE_EXTERN 1 ;;
             ret (r =? PM_RET_SUCCESS)
           else ret false) ;;
  if (done : bool) then ret tt
  else wakeup_regs (steps 0 NUM_GICD_ISENABLER 1) (repeat 0 (Z.to_nat NODE_MAX)).

Definition pm_get_proc (cpuid : Z) : option pm_proc :=
  if cpuid <? Z.of_nat (length pm_procs_all) then pm_procs_all !! Z.to_nat cpuid else None.

Definition pm_get_proc_by_node (nid : Z) : option pm_proc :=
  snd <$> list_find (fun p => nid =? node_id p) pm_procs_all.

Definition pm_get_cpuid (nid : Z) : Z :=
  match list_find (fun p => node_id p =? nid) pm_procs_all with
  | Some (i, _) => Z.of_nat i
  | None => UNDEFINED_CPUID
  end.

Definition pm_client_suspend (proc : pm_proc) (state : Z) : M V unit :=
  lock pm_client_secure_lock ;;
  (if state =? PM_STATE_SUSPEND_TO_RAM then pm_client_set_wakeup_sources else ret tt) ;;
  w <- mmio_read_32 APU_PWRCTL ;;
  mmio_write_32 APU_PWRCTL (w .| pwrdn_mask proc) ;;
  unlock pm_client_secure_lock.

Definition pm_client_abort_suspend : M V unit :=
  Gic.gicv2_cpuif_enable ;;
  lock pm_client_secure_lock ;;
  w <- mmio_read_32 APU_PWRCTL ;;
  mmio_write_32 APU_PWRCTL (w .& not32 (pwrdn_mask primary_proc)) ;;
  unlock pm_client_secure_lock.

Definition pm_client_wakeup (proc : pm_proc) : M V unit :=
  let cpuid := pm_get_cpuid (node_id proc) in
  if cpuid =? UNDEFINED_CPUID then ret tt
  else
    lock pm_client_secure_lock ;;
    val <- mmio_read_32 APU_PWRCTL ;;
    mmio_write_32 APU_PWRCTL (val .& not32 (pwrdn_mask proc)) ;;
    unlock pm_client_secure_lock.

Definition pm_set_suspend_mode (mode : Z) : M V Z :=
  if negb (mode =? PM_SUSPEND_MODE_STD) && negb (mode =? PM_SUSPEND_MODE_POWER_OFF)
  then ret PM_RET_ERROR_ARGS
  else mods (PmReq.set_suspend_mode mode) ;; ret PM_RET_SUCCESS.

End Ops.

(** ** The wake-up loop *)

Section Loop.
Context `{Env} {V : Type} `{!Has ipi V}.
Implicit Types s : st V.

(** Reference: the interrupts are visited one after the other. *)
Fixpoint visit (irqs : list Z) (nodes_set : list Z) : M V (list Z) :=
  match irqs with
  | [] => ret nodes_set
  | q :: irqs' =>
      node <- irq_to_pm_node q ;;
      nodes_set <- wakeup_node node nodes_set ;;
      visit irqs' nodes_set
  end.

(** Numbers of the interrupts enabled in a register, from bit [k] upwards. *)
Definition enabled_from (k : nat) (base reg : Z) : list Z :=
  omap (fun i => let i := Z.of_nat i in
                 if Z.testbit reg i && (base + i <=? IRQ_MAX) then Some (base + i) else None)
       (seq k (32 - k)).

Definition enabled_irqs (base reg : Z) : list Z := enabled_from 0 base reg.

Lemma enabled_step k base reg : (k < 32)%nat ->
  enabled_from k base reg =
  (if Z.testbit reg (Z.of_nat k) && (base + Z.of_nat k <=? IRQ_MAX) then [base + Z.of_nat k] else [])
  ++ enabled_from (S k) base reg.
Proof.
  intros Hk. unfold enabled_from. replace (32 - k)%nat with (S (32 - S k)) by lia. simpl.
  by destruct (_ && _).
Qed.

Lemma enabled_ext k base reg reg' :
  (forall i, Z.of_nat k <= i -> Z.testbit reg i = Z.testbit reg' i) ->
  enabled_from k base reg = enabled_from k base reg'.
Proof.
  intros He. unfold enabled_from. assert (Hs : Forall (fun i => (k <= i)%nat) (seq k (32 - k))).
  { apply list.Forall_forall. intros i Hi. apply elem_of_seq in Hi. lia. }
  induction Hs as [|i l Hi _ IH]; simpl; [done|]. rewrite He by lia.
  destruct (_ && _); [f_equal|]; exact IH.
Qed.

Lemma enabled_above k base reg : IRQ_MAX < base + Z.of_nat k -> enabled_from k base reg = [].
Proof.
  intros Hb. unfold enabled_from. assert (Hs : Forall (fun i => (k <= i)%nat) (seq k (32 - k))).
  { apply list.Forall_forall. intros i Hi. apply elem_of_seq in Hi. lia. }
  induction Hs as [|i l Hi _ IH]; simpl; [done|].
  rewrite (proj2 (Z.leb_gt _ _)) by lia. rewrite andb_false_r. exact IH.
Qed.

Lemma bits_zero reg : 0 <= reg < 2 ^ 32 ->
  (forall i, 0 <= i < 32 -> Z.testbit reg i = false) -> reg = 0.
Proof.
  intros Hr Hb. apply Z.bits_inj'. intros i Hi. rewrite Z.bits_0.
  destruct (decide (i < 32)); [apply Hb; lia|].
  destruct (decide (reg = 0)) as [->|]; [by rewrite Z.bits_0|].
  apply Z.bits_above_log2; [lia|]. apply Z.lt_le_trans with 32; [|lia]. apply Z.log2_lt_pow2; lia.
Qed.

(** The loop from a register whose bits below [k] are clear. *)
Lemma wakeup_while_run m k n base reg nodes_set s :
  (m = 32 - k)%nat -> (k <= 32)%nat -> (m <= n)%nat -> 0 <= base <= IRQ_MAX ->
  0 <= reg < 2 ^ 32 -> (forall i, 0 <= i < Z.of_nat k -> Z.testbit reg i = false) ->
  wakeup_while n base reg nodes_set s = visit (enabled_from k base reg) nodes_set s.
Proof.
  revert k n reg nodes_set s. induction m as [|m IH]; intros k n reg nodes_set s Hm Hk Hn Hb Hr Hz.
  { assert (k = 32)%nat as -> by lia. assert (reg = 0) as -> by by apply bits_zero.
    by destruct n. }
  rewrite enabled_step by lia. destruct (Z.testbit reg (Z.of_nat k)) eqn:Hbit.
  - destruct n as [|n]; [lia|].
    assert (Hne : truthy reg = true).
    { apply negb_true_iff, Z.eqb_neq. intros ->. by rewrite Z.bits_0 in Hbit. }
    cbn [wakeup_while]. rewrite Hne. cbn [negb].
    rewrite (land_opp_lowest reg (Z.of_nat k)), ctz_pow2 by (lia || done).
    unfold deref. run. unfold IRQ_MAX in *. rewrite u32_small by lia.
    rewrite Z.gtb_ltb, Z.ltb_antisym. destruct (base + Z.of_nat k <=? 84) eqn:E; cbn [negb andb];
      [|zbool; by rewrite enabled_above by (unfold IRQ_MAX; lia)].
    cbn [app visit]. unfold bind at 1 3.
    destruct (irq_to_pm_node (base + Z.of_nat k) s) as [[node|x] s1]; [|done].
    unfold bind at 1 2. destruct (wakeup_node node nodes_set s1) as [[ns|x] s2]; [|done].
    assert (Hclear : forall i, 0 <= i -> Z.testbit (reg .& not32 (2 ^ Z.of_nat k)) i =
      Z.testbit reg i && negb (i =? Z.of_nat k)).
    { intros i Hi. rewrite Z.land_spec. destruct (decide (i < 32)).
      - rewrite testbit_not32, Z.pow2_bits_eqb, (Z.eqb_sym i) by lia. done.
      - assert (Hi0 : Z.testbit reg i = false).
        { apply Z.bits_above_log2; [lia|]. destruct (decide (reg = 0)) as [->|]; [simpl; lia|].
          apply Z.lt_le_trans with 32; [|lia]. apply Z.log2_lt_pow2; lia. }
        by rewrite Hi0. }
    rewrite (IH (S k)).
    + rewrite (enabled_ext (S k) base (reg .& not32 (2 ^ Z.of_nat k)) reg); [done|].
      intros i Hi. rewrite Hclear, (proj2 (Z.eqb_neq _ _)) by lia. apply andb_true_r.
    + lia.
    + lia.
    + lia.
    + done.
    + apply land_u32; [lia|]. apply u32_range.
    + intros i Hi. rewrite Hclear by lia. destruct (decide (i = Z.of_nat k)) as [->|].
      * by rewrite Z.eqb_refl, andb_false_r.
      * rewrite Hz by lia. done.
  - cbn [andb app]. apply IH; [lia|lia|lia|done|done|]. intros i Hi.
    destruct (decide (i = Z.of_nat k)) as [->|]; [done|]. apply Hz. lia.
Qed.

(** The loop over the set bits of an enable register, which isolates the
    lowest bit with [reg & -reg] and clears it, visits exactly the enabled
    interrupts of the register up to IRQ_MAX, in increasing order: it is
    equivalent, from every state and with any answers of the PMU, to visiting
    the interrupts one by one. *)
Theorem wakeup_while_enumerates base reg nodes_set s :
  0 <= base <= IRQ_MAX -> 0 <= reg < 2 ^ 32 ->
  wakeup_while 32 base reg nodes_set s = visit (enabled_irqs base reg) nodes_set s.
Proof. intros Hb Hr. apply (wakeup_while_run 32 0); try done; lia. Qed.

End Loop.

(** ** What becomes a wake-up source *)

Definition isenabler (k : Z) : Z := Gic.PLAT_ARM_GICD_BASE + Gic.GICD_ISENABLER + 4 + 4 * k.

(** Values read from the enable registers, oldest first. *)
Definition isenabler_reads (new : list event) : list Z :=
  omap (fun e => match e with
                 | EvRd W32 a v => if (isenabler 0 <=? a) && (a <? isenabler 3) then Some v else None
                 | _ => None
                 end) (rev new).

Lemma isenabler_reads_app n1 n2 :
  isenabler_reads (n2 ++ n1) = isenabler_reads n1 ++ isenabler_reads n2.
Proof. unfold isenabler_reads. by rewrite rev_app_distr, omap_app. Qed.

Lemma isenabler_reads_ipc new : Forall ipc_event new -> isenabler_reads new = [].
Proof.
  induction 1 as [|e new He _ IH]; [done|].
  change (e :: new) with ([e] ++ new). rewrite isenabler_reads_app, IH.
  destruct e as [[] a v| | | | | | |]; try done. unfold isenabler_reads, isenabler. simpl in *.
  unfold resp_buffer, apu_base, Gic.PLAT_ARM_GICD_BASE, Gic.GICD_ISENABLER in *.
  destruct (_ && _) eqn:E; [|done]. zbool. unfold IPI_OBR_OFFSET in *. lia.
Qed.

(** [node] is the peripheral of one of the interrupts. *)
Definition node_of_some (irqs : list Z) (node : Z) : Prop :=
  node <> NODE_UNKNOWN /\ exists q, q ∈ irqs /\ irq_node_map !! Z.to_nat q = Some node.

(** The array marks exactly the nodes of [ns]. *)
Definition marks (ns : list Z) (a : list Z) : Prop :=
  length a = Z.to_nat NODE_MAX /\
  forall n, 0 <= n < NODE_MAX -> a !! Z.to_nat n = Some (b2z (bool_decide (n ∈ ns))).

Lemma irq_nodes_small : forallb (fun n => (0 <=? n) && (n <? NODE_MAX)) irq_node_map = true.
Proof. reflexivity. Qed.

Lemma irq_node_range q node : irq_node_map !! q = Some node -> 0 <= node < NODE_MAX.
Proof.
  intros Hq%list_elem_of_lookup_2. pose proof irq_nodes_small as Hs. rewrite forallb_forall in Hs.
  specialize (Hs node (proj1 (list_elem_of_In _ _) Hq)). zbool. lia.
Qed.

Lemma marks_insert ns a node : marks ns a -> 0 <= node < NODE_MAX ->
  marks (ns ++ [node]) (<[Z.to_nat node := 1]> a).
Proof.
  intros [Hl Hm] Hn. split; [by rewrite length_insert|]. intros n Hr.
  destruct (decide (n = node)) as [->|Hne].
  - rewrite list_lookup_insert_eq, bool_decide_eq_true_2; [done|clear; set_solver|].
    rewrite Hl. unfold NODE_MAX in *. lia.
  - rewrite list_lookup_insert_ne by lia. rewrite Hm by done. do 2 f_equal.
    apply bool_decide_ext. rewrite elem_of_app, list_elem_of_singleton. tauto.
Qed.

Lemma marks_nil : marks [] (repeat 0 (Z.to_nat NODE_MAX)).
Proof.
  split; [by rewrite repeat_length|]. intros n Hn. rewrite bool_decide_eq_false_2 by set_solver.
  apply lookup_repeat. unfold NODE_MAX in *. lia.
Qed.

(** A node is added unless it is unknown or marked. *)
Lemma fresh_node node ns : NoDup ns ->
  let fresh := if bool_decide (node = NODE_UNKNOWN \/ node ∈ ns) then [] else [node] in
  NoDup (ns ++ fresh) /\
  forall n, n ∈ ns ++ fresh <-> n ∈ ns \/ n = node /\ node <> NODE_UNKNOWN.
Proof.
  intros Hnd fresh. unfold fresh. case_bool_decide as Hb.
  - rewrite app_nil_r. split; [done|]. intros n. split; [by left|].
    intros [?|[-> ?]]; [done|]. by destruct Hb.
  - apply Decidable.not_or in Hb as [Hb1 Hb2]. split.
    + apply NoDup_app. split; [done|]. split; [|apply NoDup_singleton].
      intros x Hx ->%list_elem_of_singleton. done.
    + intros n. rewrite elem_of_app, list_elem_of_singleton. tauto.
Qed.

Lemma node_of_some_cons q node irqs n : irq_node_map !! Z.to_nat q = Some node ->
  node_of_some (q :: irqs) n <-> (n = node /\ node <> NODE_UNKNOWN) \/ node_of_some irqs n.
Proof.
  intros Hq. unfold node_of_some. split.
  - intros (Hn & q' & [->|Hin]%elem_of_cons & Hl); [left; split; congruence|right; eauto].
  - intros [[-> Hn]|(Hn & q' & Hin & Hl)]; (split; [done|]).
    + exists q. split; [by left|done].
    + exists q'. split; [by right|done].
Qed.

Lemma enabled_zero base : enabled_irqs base 0 = [].
Proof.
  unfold enabled_irqs, enabled_from. induction (seq 0 (32 - 0)) as [|i l IH]; simpl; [done|].
  rewrite Z.bits_0. exact IH.
Qed.

Lemma elem_of_enabled base reg q : q ∈ enabled_irqs base reg <->
  exists i, 0 <= i < 32 /\ q = base + i /\ Z.testbit reg i = true /\ q <= IRQ_MAX.
Proof.
  unfold enabled_irqs, enabled_from. rewrite list_elem_of_omap. split.
  - intros (i & Hi%elem_of_seq & Hq). destruct (_ && _) eqn:E; simplify_eq. zbool.
    exists (Z.of_nat i). split; [lia|]. done.
  - intros (i & Hi & -> & Hb & Hle). exists (Z.to_nat i). rewrite elem_of_seq, Z2Nat.id by lia.
    split; [lia|]. rewrite Hb, (proj2 (Z.leb_le _ _)) by done. done.
Qed.

Lemma enabled_range base reg : 0 <= base -> Forall (fun q => 0 <= q <= IRQ_MAX) (enabled_irqs base reg).
Proof.
  intros Hb. apply list.Forall_forall. intros q (i & Hi & -> & _ & Hle)%elem_of_enabled. lia.
Qed.

(** Interrupt q is bit q mod 32 of register q / 32. *)
Lemma enabled_three r0 r1 r2 n :
  node_of_some (enabled_irqs (32 * 0) r0) n \/ node_of_some (enabled_irqs (32 * 1) r1) n \/
  node_of_some (enabled_irqs (32 * 2) r2) n <->
  n <> NODE_UNKNOWN /\ exists q, 0 <= q <= IRQ_MAX /\ irq_node_map !! Z.to_nat q = Some n /\
    Z.testbit (nth (Z.to_nat (q / 32)) [r0; r1; r2] 0) (q mod 32) = true.
Proof.
  unfold node_of_some. split.
  - assert (Hone : forall k r, (k = 0 /\ r = r0) \/ (k = 1 /\ r = r1) \/ (k = 2 /\ r = r2) ->
      (exists q, q ∈ enabled_irqs (32 * k) r /\ irq_node_map !! Z.to_nat q = Some n) ->
      exists q, 0 <= q <= IRQ_MAX /\ irq_node_map !! Z.to_nat q = Some n /\
        Z.testbit (nth (Z.to_nat (q / 32)) [r0; r1; r2] 0) (q mod 32) = true).
    { intros k r Hk (q & (i & Hi & -> & Hb & Hle)%elem_of_enabled & Hn). exists (32 * k + i).
      split; [lia|]. split; [done|].
      rewrite (Z.add_comm (32 * k)), (Z.mul_comm 32), Z.div_add, Z.mod_add, Z.div_small,
        Z.mod_small by lia.
      by destruct Hk as [[-> ->]|[[-> ->]|[-> ->]]]. }
    intros [(Hn & Hq)|[(Hn & Hq)|(Hn & Hq)]]; (split; [done|]); eapply Hone; try exact Hq; tauto.
  - intros (Hn & q & Hq & Hl & Hb). unfold IRQ_MAX in Hq.
    pose proof (Z.div_mod q 32 ltac:(lia)). pose proof (Z.mod_pos_bound q 32 ltac:(lia)).
    assert (Hk : q / 32 = 0 \/ q / 32 = 1 \/ q / 32 = 2) by lia.
    destruct Hk as [E|[E|E]]; rewrite E in Hb; simpl in Hb;
      [left|right; left|right; right]; (split; [done|]); exists q; (split; [|done]);
      apply elem_of_enabled; exists (q mod 32); unfold IRQ_MAX; repeat split; try lia; done.
Qed.

Section Sources.
Context `{Env} {V : Type} `{!Has ipi V} `{!Has pm V} (v : V).
Context (Hup : ipi_up (sget v)) (Hans : pmu_answers) (Hacc : pmu_accepts).

(** The third word of a wake-up request is the node. *)
Lemma sent_node node : 0 <= node < NODE_MAX ->
  sent 2 (request_trace (PM_PACK_PAYLOAD [PM_SET_WAKEUP_SOURCE; NODE_APU; node; 1])) = [node].
Proof.
  intros Hn. unfold NODE_MAX in Hn.
  transitivity [u32 (u32 node)]; [reflexivity|]. rewrite u32_u32, u32_small by lia. done.
Qed.

Lemma wakeup_node_run node ns a d l h :
  marks ns a -> 0 <= node < NODE_MAX -> pm_secure_lock ∉ h ->
  exists a' d' new, wakeup_node node a (St d l h v) = (Ret a', St d' (new ++ l) h v) /\
    Forall ipc_event new /\ marks (ns ++ sent 2 new) a' /\
    sent 2 new = if bool_decide (node = NODE_UNKNOWN \/ node ∈ ns) then [] else [node].
Proof.
  intros Hm Hn Hh. unfold wakeup_node. destruct (node =? NODE_UNKNOWN) eqn:E0; zbool.
  { exists a, d, []. rewrite bool_decide_eq_true_2, app_nil_r by (by left). done. }
  destruct Hm as [Hl Hm]. pose proof (Hm node Hn) as Hx.
  rewrite (run_bind_aread _ _ _ _ _ (proj2 (Z.ltb_ge _ _) (proj1 Hn)) Hx).
  destruct (bool_decide (node ∈ ns)) eqn:E1; simpl.
  { apply bool_decide_eq_true in E1. exists a, d, [].
    rewrite bool_decide_eq_true_2, app_nil_r by (by right). done. }
  apply bool_decide_eq_false in E1. rewrite bool_decide_eq_false_2 by tauto.
  destruct (sync_accepted v Hup Hans [PM_SET_WAKEUP_SOURCE; NODE_APU; node; 1] d l h Hacc)
    as (d' & new & E & F & Hs); [simpl; lia|done|].
  unfold pm_set_wakeup_source. rewrite (bind_run _ _ _ _ _ E).
  exists (<[Z.to_nat node := 1]> a), d', new. rewrite Hs, sent_node by done.
  split; [|split; [done|split; [by apply marks_insert|done]]].
  unfold awrite. rewrite (proj2 (andb_true_iff _ _)); [done|].
  split; [apply Z.leb_le; lia|]. apply Z.ltb_lt. rewrite Hl. unfold NODE_MAX in *. lia.
Qed.

Lemma irq_to_pm_node_run q s : 0 <= q <= IRQ_MAX ->
  exists node, irq_node_map !! Z.to_nat q = Some node /\
    irq_to_pm_node q s = (Ret node, s : st V).
Proof.
  intros Hq. unfold IRQ_MAX in Hq. destruct (lookup_lt_is_Some_2 irq_node_map (Z.to_nat q)) as [node Hn].
  { change (length irq_node_map) with 85%nat. lia. }
  exists node. split; [done|]. unfold irq_to_pm_node, c_assert, IRQ_MAX.
  rewrite (proj2 (Z.leb_le _ _)) by lia. run. by apply run_aread; [apply Z.ltb_ge; lia|].
Qed.

(** Visiting a list of interrupts adds the nodes that are not marked yet. *)
Lemma visit_run irqs ns a d l h :
  Forall (fun q => 0 <= q <= IRQ_MAX) irqs -> marks ns a -> NoDup ns -> pm_secure_lock ∉ h ->
  exists a' d' new, visit irqs a (St d l h v) = (Ret a', St d' (new ++ l) h v) /\
    Forall ipc_event new /\ marks (ns ++ sent 2 new) a' /\ NoDup (ns ++ sent 2 new) /\
    forall n, n ∈ ns ++ sent 2 new <-> n ∈ ns \/ node_of_some irqs n.
Proof.
  intros Hq. revert ns a d l. induction Hq as [|q irqs Hq _ IH]; intros ns a d l Hm Hnd Hh.
  { exists a, d, []. simpl. rewrite app_nil_r. split; [done|]. split; [done|].
    split; [done|]. split; [done|]. intros n. split; [by left|].
    intros [?|(_ & q & Hq & _)]; [done|]. by apply not_elem_of_nil in Hq. }
  simpl. destruct (irq_to_pm_node_run q (St d l h v) Hq) as (node & Hnode & Er).
  rewrite (bind_run _ _ _ _ _ Er). pose proof (irq_node_range _ _ Hnode) as Hrange.
  destruct (wakeup_node_run node ns a d l h Hm Hrange Hh) as (a1 & d1 & n1 & E1 & F1 & M1 & S1).
  rewrite (bind_run _ _ _ _ _ E1).
  destruct (fresh_node node ns Hnd) as [Hnd1 Hin1]. rewrite <- S1 in Hnd1, Hin1.
  destruct (IH _ a1 d1 (n1 ++ l) M1 Hnd1 Hh) as (a2 & d2 & n2 & E2 & F2 & M2 & Hnd2 & S2).
  exists a2, d2, (n2 ++ n1). rewrite E2, (assoc_L (++)), sent_app, (assoc_L (++)).
  split; [done|]. split; [by apply Forall_app|]. split; [done|]. split; [done|].
  intros n. rewrite S2, Hin1, (node_of_some_cons q node irqs n Hnode). tauto.
Qed.
(** Reading an enable register and visiting its interrupts. *)
Lemma wakeup_reg_visit k a d l h : k = 0 \/ k = 1 \/ k = 2 ->
  let r := u32 (hw_read W32 (isenabler k) d).1 in
  wakeup_reg k a (St d l h v) =
  visit (enabled_irqs (32 * k) r) a
    (St (hw_read W32 (isenabler k) d).2 (EvRd W32 (isenabler k) r :: l) h v).
Proof.
  intros Hk r. unfold wakeup_reg.
  assert (Ha : Gic.PLAT_ARM_GICD_BASE + Gic.GICD_ISENABLER + 4 + (k .<< 2) = isenabler k)
    by (destruct Hk as [-> |[-> | ->]]; reflexivity).
  assert (Hb : k .<< ISENABLER_SHIFT = 32 * k) by (destruct Hk as [-> |[-> | ->]]; reflexivity).
  rewrite Ha, Hb. run. fold r. destruct (truthy r) eqn:E; cbn [negb].
  - apply (wakeup_while_run 32 0);
      [lia|lia|lia|unfold IRQ_MAX; lia|apply u32_range|lia].
  - apply negb_false_iff, Z.eqb_eq in E. rewrite E, enabled_zero. done.
Qed.

Lemma wakeup_reg_run k ns a d l h : k = 0 \/ k = 1 \/ k = 2 ->
  marks ns a -> NoDup ns -> pm_secure_lock ∉ h ->
  exists r a' d' new, wakeup_reg k a (St d l h v) = (Ret a', St d' (new ++ l) h v) /\
    isenabler_reads new = [r] /\ marks (ns ++ sent 2 new) a' /\ NoDup (ns ++ sent 2 new) /\
    forall n, n ∈ ns ++ sent 2 new <-> n ∈ ns \/ node_of_some (enabled_irqs (32 * k) r) n.
Proof.
  intros Hk Hm Hnd Hh. rewrite (wakeup_reg_visit k a d l h Hk).
  set (r := u32 (hw_read W32 (isenabler k) d).1).
  destruct (visit_run (enabled_irqs (32 * k) r) ns a (hw_read W32 (isenabler k) d).2
    (EvRd W32 (isenabler k) r :: l) h) as (a' & d' & new & E & F & M & D & S); try done.
  { apply enabled_range. lia. }
  exists r, a', d', (new ++ [EvRd W32 (isenabler k) r]). rewrite E, <- (assoc_L (++)).
  split; [done|]. rewrite isenabler_reads_app, (isenabler_reads_ipc new F), app_nil_r, sent_app.
  split; [|done]. unfold isenabler_reads. simpl.
  rewrite (proj2 (andb_true_iff _ _)); [done|].
  split; [apply Z.leb_le|apply Z.ltb_lt]; unfold isenabler; lia.
Qed.

(** Before a suspend to RAM, with a PMU that answers and accepts, the
    client ends with every lock and static as before; in power-off mode only the
    external source is requested, otherwise each peripheral is requested at most
    once, and a peripheral is requested exactly when one of its interrupts is
    enabled in the three registers that were read. *)
Theorem wakeup_sources_exact d l h : pm_secure_lock ∉ h ->
  exists d' new, pm_client_set_wakeup_sources (St d l h v) = (Ret tt, St d' (new ++ l) h v) /\
    if suspend_mode (sget v) =? PM_SUSPEND_MODE_POWER_OFF then sent 2 new = [NODE_EXTERN]
    else exists r0 r1 r2, isenabler_reads new = [r0; r1; r2] /\ NoDup (sent 2 new) /\
      forall n, n ∈ sent 2 new <-> n <> NODE_UNKNOWN /\ exists q,
        0 <= q <= IRQ_MAX /\ irq_node_map !! Z.to_nat q = Some n /\
        Z.testbit (nth (Z.to_nat (q / 32)) [r0; r1; r2] 0) (q mod 32) = true.
Proof.
  intros Hh. unfold pm_client_set_wakeup_sources. run.
  destruct (suspend_mode (sget v) =? PM_SUSPEND_MODE_POWER_OFF).
  { destruct (sync_accepted v Hup Hans [PM_SET_WAKEUP_SOURCE; NODE_APU; NODE_EXTERN; 1] d l h Hacc)
      as (d' & new & E & _ & Hs); [simpl; lia|done|].
    unfold pm_set_wakeup_source. run. rewrite (bind_run _ _ _ _ _ E). run.
    exists d', new. split; [reflexivity|]. rewrite Hs. by apply sent_node. }
  run. change (steps 0 NUM_GICD_ISENABLER 1) with [0; 1; 2].
  cbn [wakeup_regs].
  destruct (wakeup_reg_run 0 [] _ d l h ltac:(lia) marks_nil (NoDup_nil_2) Hh)
    as (r0 & a0 & d0 & n0 & E0 & R0 & M0 & D0 & S0). rewrite (bind_run _ _ _ _ _ E0).
  destruct (wakeup_reg_run 1 _ a0 d0 (n0 ++ l) h ltac:(lia) M0 D0 Hh)
    as (r1 & a1 & d1 & n1 & E1 & R1 & M1 & D1 & S1). rewrite (bind_run _ _ _ _ _ E1).
  destruct (wakeup_reg_run 2 _ a1 d1 (n1 ++ n0 ++ l) h ltac:(lia) M1 D1 Hh)
    as (r2 & a2 & d2 & n2 & E2 & R2 & M2 & D2 & S2). rewrite (bind_run _ _ _ _ _ E2). run.
  exists d2, (n2 ++ n1 ++ n0). split; [by rewrite <- !(assoc_L (++))|].
  exists r0, r1, r2. rewrite !isenabler_reads_app, R0, R1, R2. split; [done|].
  rewrite !sent_app. simpl app in D2, S2, S1, S0.
  split; [exact D2|]. intros n. rewrite S2, S1, S0, <- (enabled_three r0 r1 r2 n).
  rewrite elem_of_nil. tauto.
Qed.

End Sources.

(** ** The power-down request bits *)

Section PowerControl.
Context `{Env} {V : Type} `{!Has ipi V} `{!Has pm V} `{!Latched (eq APU_PWRCTL)}.

Lemma procs_mask cpu proc : pm_procs_all !! cpu = Some proc ->
  (cpu < 4)%nat /\ pwrdn_mask proc = 2 ^ Z.of_nat cpu /\ pm_get_cpuid (node_id proc) = Z.of_nat cpu.
Proof. by destruct cpu as [|[|[|[|]]]]; simpl; intros ?; simplify_eq; repeat split; try lia. Qed.

(** The power-down request of a processor.  Suspending processor [cpu] to
    an idle state sets bit [cpu] of APU_PWRCTL and no other; waking it up clears
    that bit and no other; locks and statics are left as they were. *)
Theorem powerdown_request_roundtrip cpu proc state d l h (v : V) :
  pm_procs_all !! cpu = Some proc -> state <> PM_STATE_SUSPEND_TO_RAM ->
  pm_client_secure_lock ∉ h ->
  exists d1 l1 d2 l2,
    pm_client_suspend proc state (St d l h v) = (Ret tt, St d1 l1 h v) /\
    pm_client_wakeup proc (St d1 l1 h v) = (Ret tt, St d2 l2 h v) /\
    forall i, 0 <= i < 32 ->
      Z.testbit (peek d1 APU_PWRCTL) i =
        (i =? Z.of_nat cpu) || Z.testbit (peek d APU_PWRCTL) i /\
      Z.testbit (peek d2 APU_PWRCTL) i =
        negb (i =? Z.of_nat cpu) && Z.testbit (peek d APU_PWRCTL) i.
Proof.
  intros Hp Hs Hh. destruct (procs_mask cpu proc Hp) as (Hc & Hm & Hid).
  unfold pm_client_suspend, pm_client_wakeup. rewrite Hm, Hid.
  rewrite (proj2 (Z.eqb_neq (Z.of_nat cpu) _)) by (unfold UNDEFINED_CPUID; vm_compute not32; lia).
  rewrite (proj2 (Z.eqb_neq state _)) by done.
  repeat rewrite run_bind_lock. rewrite bool_decide_eq_false_2 by done. run.
  rewrite unlock_lock by done.
  do 4 eexists. split; [reflexivity|]. rewrite run_bind_lock, bool_decide_eq_false_2 by done. run.
  rewrite unlock_lock by done. split; [reflexivity|]. intros i Hi.
  repeat rewrite ?peek_write, ?peek_read, ?read_latched by (try done; apply u32_range).
  rewrite !u32_u32. change (wtrunc W32) with u32.
  rewrite !testbit_u32, Z.land_spec, Z.lor_spec, testbit_not32, testbit_u32 by done.
  rewrite ?testbit_u32, Z.lor_spec, testbit_u32, Z.pow2_bits_eqb, (Z.eqb_sym (Z.of_nat cpu)) by lia.
  by destruct (i =? Z.of_nat cpu), (Z.testbit _ i).
Qed.

End PowerControl.

(** ** Witnesses *)

Lemma wakeup_while_enumerates_witness :
  wakeup_while (H := quiet_board) 32 32 0x400 (repeat 0 78)
    (St (H := quiet_board) tt [] [] ipi_booted) =
  visit (H := quiet_board) [42] (repeat 0 78) (St (H := quiet_board) tt [] [] ipi_booted).
Proof.
  rewrite (wakeup_while_enumerates (H := quiet_board) 32 0x400); [reflexivity|split; easy|split; easy].
Defined.

(** A board on which two of the TTC2 interrupts are enabled. *)
Definition ttc2_board : Env := {|
  Dev := unit;
  hw_read _ a d := (if a =? isenabler 1 then 0xC00 else 0, d);
  hw_write _ _ _ d := d;
  hw_call _ _ d := (0, d);
  poll_bound := 1;
  uninit k := Z.of_nat k
|}.

Lemma wakeup_sources_exact_witness :
  exists d' new,
    pm_client_set_wakeup_sources (H := ttc2_board)
      (St (H := ttc2_board) tt [] [] (ipi_booted, pm_bss)) =
      (Ret tt, St (H := ttc2_board) d' (new ++ []) [] (ipi_booted, pm_bss)) /\
    exists r0 r1 r2, isenabler_reads new = [r0; r1; r2] /\ NoDup (sent 2 new) /\
      forall n, n ∈ sent 2 new <-> n <> NODE_UNKNOWN /\ exists q,
        0 <= q <= IRQ_MAX /\ irq_node_map !! Z.to_nat q = Some n /\
        Z.testbit (nth (Z.to_nat (q / 32)) [r0; r1; r2] 0) (q mod 32) = true.
Proof.
  assert (Hup : ipi_up (sget (V := ipi * pm) (ipi_booted, pm_bss))) by reflexivity.
  assert (Hans : pmu_answers (H := ttc2_board)) by (intros []; by exists tt).
  assert (Hacc : pmu_accepts (H := ttc2_board)) by (intros []; reflexivity).
  destruct (wakeup_sources_exact (H := ttc2_board) (V := ipi * pm) (ipi_booted, pm_bss)
    Hup Hans Hacc tt [] [] (not_elem_of_nil _)) as (d' & new & E & Hr).
  exists d', new. split; [exact E|exact Hr].
Defined.

#[local] Instance board_pwrctl r n : @Latched (board r n) (eq APU_PWRCTL) :=
  latched_sub (H := board r n) (fun a => a mod 4 = 0) (eq APU_PWRCTL)
    (fun a (e : APU_PWRCTL = a) => match e with eq_refl => eq_refl end).

Lemma powerdown_request_roundtrip_witness :
  exists d1 l1 d2 l2,
    pm_client_suspend (H := board 0 0) primary_proc PM_STATE_CPU_IDLE
      (St (H := board 0 0) (fun _ => 0xF00) [] [] (ipi_booted, pm_bss)) =
      (Ret tt, St (H := board 0 0) d1 l1 [] (ipi_booted, pm_bss)) /\
    pm_client_wakeup (H := board 0 0) primary_proc
      (St (H := board 0 0) d1 l1 [] (ipi_booted, pm_bss)) =
      (Ret tt, St (H := board 0 0) d2 l2 [] (ipi_booted, pm_bss)) /\
    forall i, 0 <= i < 32 ->
      Z.testbit ((d1 : Z -> Z) APU_PWRCTL) i = (i =? 0) || Z.testbit 0xF00 i /\
      Z.testbit ((d2 : Z -> Z) APU_PWRCTL) i = negb (i =? 0) && Z.testbit 0xF00 i.
Proof.
  destruct (powerdown_request_roundtrip (H := board 0 0) (V := ipi * pm) 0 primary_proc
    PM_STATE_CPU_IDLE (fun _ => 0xF00) [] [] (ipi_booted, pm_bss)) as (d1 & l1 & d2 & l2 & E).
  - reflexivity.
  - discriminate.
  - apply not_elem_of_nil.
  - exists d1, l1, d2, l2. exact E.
Defined.

End PmClient.
