(* ===== verification/PmIoctl.v ===== *)
(** * Device control requests

    pm_service/pm_api_ioctl.c: the RPU and TCM configuration, tap delays, SGMII
    mode, SD DLL, fractional PLLs, general storage registers and AFI registers.
    Registers of the PMU domain are reached through [pm_mmio_write] and
    [pm_mmio_read]; the RPU registers are accessed directly. *)

From S2P Require Import Prelude Machine Ipi PmDefs PmIpi PmReq ClockData PmClock.
From stdpp Require Import sets.
Import Ipi PmDefs PmIpi PmReq ClockData PmClock.
#[local] Open Scope Z_scope.
#[local] Open Scope c_scope.

Module PmIoctl.

(** The registers of [pm_ioctl_afi]. *)
Definition regarr : list Z :=
  [0xFD360000; 0xFD360014; 0xFD370000; 0xFD370014; 0xFD380000; 0xFD380014; 0xFD390000; 0xFD390014;
   0xFD3a0000; 0xFD3a0014; 0xFD3b0000; 0xFD3b0014; 0xFF9b0000; 0xFF9b0014; 0xFD615000; 0xFF419000].

Section Ops.
Context `{Env} {V : Type} `{!Has ipi V} `{!Has pm V}.

Definition pm_ioctl_get_rpu_oper_mode (mode : Z) : M V (Z * Z) :=
  val <- mmio_read_32 ZYNQMP_RPU_GLBL_CNTL ;;
  ret (PM_RET_SUCCESS,
       if (val .& ZYNQMP_SLSPLIT_MASK) =? 0 then PM_RPU_MODE_LOCKSTEP else PM_RPU_MODE_SPLIT).

Definition pm_ioctl_set_rpu_oper_mode (mode : Z) : M V Z :=
  rst <- mmio_read_32 CRL_APB_RST_LPD_TOP ;;
  if truthy (rst .& CRL_APB_RPU_AMBA_RESET) then ret PM_RET_ERROR_ACCESS
  else
    val <- mmio_read_32 ZYNQMP_RPU_GLBL_CNTL ;;
    if mode =? PM_RPU_MODE_SPLIT then
      let val := val .| ZYNQMP_SLSPLIT_MASK in
      let val := val .& not32 ZYNQMP_TCM_COMB_MASK in
      let val := val .& not32 ZYNQMP_SLCLAMP_MASK in
      mmio_write_32 ZYNQMP_RPU_GLBL_CNTL val ;; ret PM_RET_SUCCESS
    else if mode =? PM_RPU_MODE_LOCKSTEP then
      let val := val .& not32 ZYNQMP_SLSPLIT_MASK in
      let val := val .| ZYNQMP_TCM_COMB_MASK in
      let val := val .| ZYNQMP_SLCLAMP_MASK in
      mmio_write_32 ZYNQMP_RPU_GLBL_CNTL val ;; ret PM_RET_SUCCESS
    else ret PM_RET_ERROR_ARGS.

Definition pm_ioctl_config_boot_addr (nid value : Z) : M V Z :=
  let go rpu_cfg_addr :=
    val <- mmio_read_32 rpu_cfg_addr ;;
    if value =? PM_RPU_BOOTMEM_LOVEC then
      mmio_write_32 rpu_cfg_addr (val .& not32 ZYNQMP_VINITHI_MASK) ;; ret PM_RET_SUCCESS
    else if value =? PM_RPU_BOOTMEM_HIVEC then
      mmio_write_32 rpu_cfg_addr (val .| ZYNQMP_VINITHI_MASK) ;; ret PM_RET_SUCCESS
    else ret PM_RET_ERROR_ARGS in
  if nid =? NODE_RPU_0 then go ZYNQMP_RPU0_CFG
  else if nid =? NODE_RPU_1 then go ZYNQMP_RPU1_CFG
  else ret PM_RET_ERROR_ARGS.

Definition pm_ioctl_config_tcm_comb (value : Z) : M V Z :=
  val <- mmio_read_32 ZYNQMP_RPU_GLBL_CNTL ;;
  if value =? PM_RPU_TCM_SPLIT then
    mmio_write_32 ZYNQMP_RPU_GLBL_CNTL (val .& not32 ZYNQMP_TCM_COMB_MASK) ;; ret PM_RET_SUCCESS
  else if value =? PM_RPU_TCM_COMB then
    mmio_write_32 ZYNQMP_RPU_GLBL_CNTL (val .| ZYNQMP_TCM_COMB_MASK) ;; ret PM_RET_SUCCESS
  else ret PM_RET_ERROR_ARGS.

Definition pm_ioctl_set_tapdelay_bypass (type value : Z) : M V Z :=
  if (negb (value =? PM_TAPDELAY_BYPASS_ENABLE) && negb (value =? PM_TAPDELAY_BYPASS_DISABLE)) ||
     (PM_TAPDELAY_MAX <=? type)
  then ret PM_RET_ERROR_ARGS
  else pm_mmio_write IOU_TAPDLY_BYPASS TAP_DELAY_MASK (value .<< type).

Definition pm_ioctl_set_sgmii_mode (nid value : Z) : M V Z :=
  if negb (value =? PM_SGMII_DISABLE) && negb (value =? PM_SGMII_ENABLE) then ret PM_RET_ERROR_ARGS
  else
    let go shift :=
      if value =? PM_SGMII_DISABLE then
        pm_mmio_write IOU_GEM_CLK_CTRL (GEM_SGMII_MASK .<< (GEM_CLK_CTRL_OFFSET * shift)) 0
      else
        r <- pm_mmio_write IOU_GEM_CTRL (SGMII_SD_MASK .<< (SGMII_SD_OFFSET * shift))
               (SGMII_PCS_SD_1 .<< (SGMII_SD_OFFSET * shift)) ;;
        if negb (r =? PM_RET_SUCCESS) then ret r
        else
          pm_mmio_write IOU_GEM_CLK_CTRL (GEM_CLK_CTRL_MASK .<< (GEM_CLK_CTRL_OFFSET * shift))
            ((GEM_RX_SRC_SEL_GTR .| GEM_SGMII_MODE) .<< (GEM_CLK_CTRL_OFFSET * shift)) in
    if nid =? NODE_ETH_0 then go 0
    else if nid =? NODE_ETH_1 then go 1
    else if nid =? NODE_ETH_2 then go 2
    else if nid =? NODE_ETH_3 then go 3
    else ret PM_RET_ERROR_ARGS.

(** Reset mask and value of the DLL of an SD controller. *)
Definition sd_dll_rst (nid : Z) : option (Z * Z) :=
  if nid =? NODE_SD_0 then Some (ZYNQMP_SD0_DLL_RST_MASK, ZYNQMP_SD0_DLL_RST)
  else if nid =? NODE_SD_1 then Some (ZYNQMP_SD1_DLL_RST_MASK, ZYNQMP_SD1_DLL_RST)
  else None.

Definition pm_ioctl_sd_dll_reset (nid type : Z) : M V Z :=
  match sd_dll_rst nid with
  | None => ret PM_RET_ERROR_ARGS
  | Some (mask, val) =>
      if (type =? PM_DLL_RESET_ASSERT) || (type =? PM_DLL_RESET_PULSE) then
        r <- pm_mmio_write ZYNQMP_SD_DLL_CTRL mask val ;;
        if negb (r =? PM_RET_SUCCESS) then ret r
        else if type =? PM_DLL_RESET_ASSERT then ret r
        else mdelay 1 ;; pm_mmio_write ZYNQMP_SD_DLL_CTRL mask 0
      else if type =? PM_DLL_RESET_RELEASE then pm_mmio_write ZYNQMP_SD_DLL_CTRL mask 0
      else ret PM_RET_ERROR_ARGS
  end.

(** The writes of one kind of tap delay, stopped by the first error. *)
Definition sd_tap_writes (type value shift : Z) : M V Z :=
  if type =? PM_TAPDELAY_INPUT then
    r <- pm_mmio_write ZYNQMP_SD_ITAP_DLY (ZYNQMP_SD_ITAPCHGWIN_MASK .<< shift)
           (ZYNQMP_SD_ITAPCHGWIN .<< shift) ;;
    if negb (r =? PM_RET_SUCCESS) then ret r else
    r <- (if value =? 0 then
            pm_mmio_write ZYNQMP_SD_ITAP_DLY (ZYNQMP_SD_ITAPDLYENA_MASK .<< shift) 0
          else
            pm_mmio_write ZYNQMP_SD_ITAP_DLY (ZYNQMP_SD_ITAPDLYENA_MASK .<< shift)
              (ZYNQMP_SD_ITAPDLYENA .<< shift)) ;;
    if negb (r =? PM_RET_SUCCESS) then ret r else
    r <- pm_mmio_write ZYNQMP_SD_ITAP_DLY (ZYNQMP_SD_ITAPDLYSEL_MASK .<< shift) (value .<< shift) ;;
    if negb (r =? PM_RET_SUCCESS) then ret r else
    pm_mmio_write ZYNQMP_SD_ITAP_DLY (ZYNQMP_SD_ITAPCHGWIN_MASK .<< shift) 0
  else if type =? PM_TAPDELAY_OUTPUT then
    r <- pm_mmio_write ZYNQMP_SD_OTAP_DLY (ZYNQMP_SD_OTAPDLYENA_MASK .<< shift) 0 ;;
    if negb (r =? PM_RET_SUCCESS) then ret r else
    pm_mmio_write ZYNQMP_SD_OTAP_DLY (ZYNQMP_SD_OTAPDLYSEL_MASK .<< shift) (value .<< shift)
  else ret PM_RET_ERROR_ARGS.

Definition pm_ioctl_sd_set_tapdelay (nid type value : Z) : M V Z :=
  match sd_dll_rst nid with
  | None => ret PM_RET_ERROR_ARGS
  | Some (mask, _) =>
      let shift := if nid =? NODE_SD_0 then 0 else ZYNQMP_SD_TAP_OFFSET in
      rv <- pm_mmio_read ZYNQMP_SD_DLL_CTRL (uninit 0) ;;
      if negb (rv.1 =? PM_RET_SUCCESS) then ret rv.1
      else
        let was_out := (rv.2 .& mask) =? 0 in
        r <- (if was_out then pm_ioctl_sd_dll_reset nid PM_DLL_RESET_ASSERT
              else ret PM_RET_SUCCESS) ;;
        if negb (r =? PM_RET_SUCCESS) then ret r
        else
          r <- sd_tap_writes type value shift ;;
          (if was_out then pm_ioctl_sd_dll_reset nid PM_DLL_RESET_RELEASE else ret 0) ;;
          ret r
  end.

Definition pm_ioctl_set_pll_frac_mode (pll mode : Z) : M V Z := pm_clock_set_pll_mode pll mode.
Definition pm_ioctl_get_pll_frac_mode (pll mode : Z) : M V (Z * Z) := pm_clock_get_pll_mode pll mode.

Definition pm_ioctl_set_pll_frac_data (pll data : Z) : M V Z :=
  r <- pm_clock_get_pll_node_id pll (uninit 0) ;;
  if negb (r.1 =? PM_RET_SUCCESS) then ret r.1
  else pm_pll_set_parameter r.2 PM_PLL_PARAM_DATA data.

Definition pm_ioctl_get_pll_frac_data (pll data : Z) : M V (Z * Z) :=
  r <- pm_clock_get_pll_node_id pll (uninit 0) ;;
  if negb (r.1 =? PM_RET_SUCCESS) then ret (r.1, data)
  else pm_pll_get_parameter r.2 PM_PLL_PARAM_DATA data.

Definition pm_ioctl_write_ggs (index value : Z) : M V Z :=
  if GGS_NUM_REGS <=? index then ret PM_RET_ERROR_ARGS
  else pm_mmio_write (GGS_BASEADDR + (index .<< 2)) 0xFFFFFFFF value.

Definition pm_ioctl_read_ggs (index value : Z) : M V (Z * Z) :=
  if GGS_NUM_REGS <=? index then ret (PM_RET_ERROR_ARGS, value)
  else pm_mmio_read (GGS_BASEADDR + (index .<< 2)) value.

Definition pm_ioctl_write_pggs (index value : Z) : M V Z :=
  if PGGS_NUM_REGS <=? index then ret PM_RET_ERROR_ARGS
  else pm_mmio_write (PGGS_BASEADDR + (index .<< 2)) 0xFFFFFFFF value.

Definition pm_ioctl_afi (index value : Z) : M V Z :=
  if Z.of_nat (length regarr) <=? index then ret PM_RET_ERROR_ARGS
  else
    let mask := if index <? AFIFM6_WRCTRL then FABRIC_WIDTH else 0xf00 in
    reg <- aread regarr index ;;
    pm_mmio_write reg mask value.

Definition pm_ioctl_read_pggs (index value : Z) : M V (Z * Z) :=
  if PGGS_NUM_REGS <=? index then ret (PM_RET_ERROR_ARGS, value)
  else pm_mmio_read (PGGS_BASEADDR + (index .<< 2)) value.

Definition pm_ioctl_ulpi_reset : M V Z :=
  r <- pm_mmio_write CRL_APB_BOOT_PIN_CTRL CRL_APB_BOOT_PIN_MASK ZYNQMP_ULPI_RESET_VAL_HIGH ;;
  if negb (r =? PM_RET_SUCCESS) then ret r
  else
    mdelay 1 ;;
    r <- pm_mmio_write CRL_APB_BOOT_PIN_CTRL CRL_APB_BOOT_PIN_MASK ZYNQMP_ULPI_RESET_VAL_LOW ;;
    if negb (r =? PM_RET_SUCCESS) then ret r
    else
      mdelay 1 ;;
      pm_mmio_write CRL_APB_BOOT_PIN_CTRL CRL_APB_BOOT_PIN_MASK ZYNQMP_ULPI_RESET_VAL_HIGH.

Definition pm_ioctl_set_boot_health_status (value : Z) : M V Z :=
  pm_mmio_write PMU_GLOBAL_GEN_STORAGE4 PM_BOOT_HEALTH_STATUS_MASK value.

(** A call without a result leaves the caller's word as it was. *)
Definition keep (value : Z) (m : M V Z) : M V (Z * Z) := r <- m ;; ret (r, value).

Definition pm_api_ioctl (nid ioctl_id arg1 arg2 value : Z) : M V (Z * Z) :=
  if ioctl_id =? IOCTL_GET_RPU_OPER_MODE then pm_ioctl_get_rpu_oper_mode value
  else if ioctl_id =? IOCTL_SET_RPU_OPER_MODE then keep value (pm_ioctl_set_rpu_oper_mode arg1)
  else if ioctl_id =? IOCTL_RPU_BOOT_ADDR_CONFIG then keep value (pm_ioctl_config_boot_addr nid arg1)
  else if ioctl_id =? IOCTL_TCM_COMB_CONFIG then keep value (pm_ioctl_config_tcm_comb arg1)
  else if ioctl_id =? IOCTL_SET_TAPDELAY_BYPASS then
    keep value (pm_ioctl_set_tapdelay_bypass arg1 arg2)
  else if ioctl_id =? IOCTL_SET_SGMII_MODE then keep value (pm_ioctl_set_sgmii_mode nid arg1)
  else if ioctl_id =? IOCTL_SD_DLL_RESET then keep value (pm_ioctl_sd_dll_reset nid arg1)
  else if ioctl_id =? IOCTL_SET_SD_TAPDELAY then keep value (pm_ioctl_sd_set_tapdelay nid arg1 arg2)
  else if ioctl_id =? IOCTL_SET_PLL_FRAC_MODE then keep value (pm_ioctl_set_pll_frac_mode arg1 arg2)
  else if ioctl_id =? IOCTL_GET_PLL_FRAC_MODE then pm_ioctl_get_pll_frac_mode arg1 value
  else if ioctl_id =? IOCTL_SET_PLL_FRAC_DATA then keep value (pm_ioctl_set_pll_frac_data arg1 arg2)
  else if ioctl_id =? IOCTL_GET_PLL_FRAC_DATA then pm_ioctl_get_pll_frac_data arg1 value
  else if ioctl_id =? IOCTL_WRITE_GGS then keep value (pm_ioctl_write_ggs arg1 arg2)
  else if ioctl_id =? IOCTL_READ_GGS then pm_ioctl_read_ggs arg1 value
  else if ioctl_id =? IOCTL_WRITE_PGGS then keep value (pm_ioctl_write_pggs arg1 arg2)
  else if ioctl_id =? IOCTL_READ_PGGS then pm_ioctl_read_pggs arg1 value
  else if ioctl_id =? IOCTL_ULPI_RESET then keep value pm_ioctl_ulpi_reset
  else if ioctl_id =? IOCTL_SET_BOOT_HEALTH_STATUS then
    keep value (pm_ioctl_set_boot_health_status arg1)
  else if ioctl_id =? IOCTL_AFI then keep value (pm_ioctl_afi arg1 arg2)
  else if (ioctl_id =? IOCTL_SET_FEATURE_CONFIG) || (ioctl_id =? IOCTL_GET_FEATURE_CONFIG) then
    pm_feature_config ioctl_id arg1 arg2 value
  else ret (PM_RET_ERROR_NOTSUPPORTED, value).

End Ops.

(** ** What the normal world can reach by an IOCTL *)

(** Register and mask of every write the PMU can be asked for. *)
Definition ioctl_writable : list (Z * Z) :=
  [(IOU_TAPDLY_BYPASS, TAP_DELAY_MASK)] ++
  map (fun k => (IOU_GEM_CLK_CTRL, GEM_SGMII_MASK .<< (GEM_CLK_CTRL_OFFSET * k))) [0; 1; 2; 3] ++
  map (fun k => (IOU_GEM_CLK_CTRL, GEM_CLK_CTRL_MASK .<< (GEM_CLK_CTRL_OFFSET * k))) [0; 1; 2; 3] ++
  map (fun k => (IOU_GEM_CTRL, SGMII_SD_MASK .<< (SGMII_SD_OFFSET * k))) [0; 1; 2; 3] ++
  [(ZYNQMP_SD_DLL_CTRL, ZYNQMP_SD0_DLL_RST_MASK); (ZYNQMP_SD_DLL_CTRL, ZYNQMP_SD1_DLL_RST_MASK)] ++
  map (fun m => (ZYNQMP_SD_ITAP_DLY, m)) [0x200; 0x100; 0xFF; 0x2000000; 0x1000000; 0xFF0000] ++
  map (fun m => (ZYNQMP_SD_OTAP_DLY, m)) [0x40; 0x3F; 0x400000; 0x3F0000] ++
  map (fun k => (GGS_BASEADDR + 4 * k, 0xFFFFFFFF)) [0; 1; 2; 3] ++
  map (fun k => (PGGS_BASEADDR + 4 * k, 0xFFFFFFFF)) [0; 1; 2; 3] ++
  map (fun a => (a, FABRIC_WIDTH)) (take 13 regarr) ++
  map (fun a => (a, 0xf00)) (drop 13 regarr) ++
  [(CRL_APB_BOOT_PIN_CTRL, CRL_APB_BOOT_PIN_MASK);
   (PMU_GLOBAL_GEN_STORAGE4, PM_BOOT_HEALTH_STATUS_MASK)].

Definition ioctl_readable : list Z :=
  ZYNQMP_SD_DLL_CTRL :: map (fun k => GGS_BASEADDR + 4 * k) [0; 1; 2; 3] ++
  map (fun k => PGGS_BASEADDR + 4 * k) [0; 1; 2; 3].

(** The requests to the PMU, by function, first and second argument. *)
Definition ioctl_request (w0 w1 w2 : Z) : Prop :=
  (w0 = PM_MMIO_WRITE /\ (w1, w2) ∈ ioctl_writable) \/
  (w0 = PM_MMIO_READ /\ w1 ∈ ioctl_readable) \/
  ((w0 = PM_PLL_SET_PARAMETER \/ w0 = PM_PLL_GET_PARAMETER) /\
   NODE_APLL <= w1 <= NODE_IOPLL /\ w2 = PM_PLL_PARAM_DATA) \/
  (w0 = PM_IOCTL /\ w1 = 0 /\ (w2 = IOCTL_SET_FEATURE_CONFIG \/ w2 = IOCTL_GET_FEATURE_CONFIG)).

(** The accesses of the APU itself: the transport and the RPU registers. *)
Definition ioctl_event (e : event) : Prop :=
  ipc_event e \/
  match e with
  | EvRd W32 a _ => a ∈ [ZYNQMP_RPU_GLBL_CNTL; ZYNQMP_RPU0_CFG; ZYNQMP_RPU1_CFG; CRL_APB_RST_LPD_TOP]
  | EvWr W32 a _ => a ∈ [ZYNQMP_RPU_GLBL_CNTL; ZYNQMP_RPU0_CFG; ZYNQMP_RPU1_CFG]
  | EvDelay n => n = 1000
  | _ => False
  end.

Abbreviation ioctl_trace := (obeys ioctl_event ioctl_request).

Section Reach.
Context `{Env} {V : Type} `{!Has ipi V} `{!Has pm V} (v : V).
Context (Hup : ipi_up (sget v)) (Hans : pmu_answers).

Lemma mmio_write_served a m x : (u32 a, u32 m) ∈ ioctl_writable ->
  served ioctl_trace v (pm_mmio_write a m x).
Proof.
  intros Hin. apply served_sync; [done|done|apply _| |simpl; lia].
  apply accepts_obeys; [by left|simpl; lia|]. left. by split.
Qed.

Lemma mmio_read_served a x : u32 a ∈ ioctl_readable -> served ioctl_trace v (pm_mmio_read a x).
Proof.
  intros Hin. apply served_sync_out1; [done|done|apply _| |simpl; lia].
  apply accepts_obeys2; [by left|]. intros w2. right. left. by split.
Qed.

Lemma rpu_read_served a : a ∈ [ZYNQMP_RPU_GLBL_CNTL; ZYNQMP_RPU0_CFG; ZYNQMP_RPU1_CFG;
  CRL_APB_RST_LPD_TOP] -> served ioctl_trace v (mmio_read_32 a).
Proof.
  intros Hin. apply served_read. intros z. split; [|constructor]. constructor; [by right|constructor].
Qed.

Lemma rpu_write_served a x : a ∈ [ZYNQMP_RPU_GLBL_CNTL; ZYNQMP_RPU0_CFG; ZYNQMP_RPU1_CFG] ->
  served ioctl_trace v (mmio_write_32 a x).
Proof.
  intros Hin. apply served_write. split; [constructor; [by right|constructor]|].
  assert (Hno : forall k, 0 <= k < 3 -> sent k [EvWr W32 a (wtrunc W32 x)] = []).
  { intros k Hk. apply sent_none. constructor; [|constructor]. intros ->.
    repeat (apply elem_of_cons in Hin as [Hin|Hin];
      [unfold req_buffer, ZYNQMP_RPU_GLBL_CNTL, ZYNQMP_RPU0_CFG, ZYNQMP_RPU1_CFG in Hin; lia|]).
    by apply not_elem_of_nil in Hin. }
  rewrite !Hno by lia. constructor.
Qed.

Lemma mdelay_served : served ioctl_trace v (mdelay 1).
Proof. apply served_emit. split; [|constructor]. constructor; [by right|constructor]. Qed.

End Reach.

(** Membership of closed values in a closed list. *)
Ltac member := apply (bool_decide_unpack _); vm_compute; exact I.

Ltac serve :=
  repeat lazymatch goal with
  | |- served _ _ (ret _) => apply served_ret; apply _
  | |- served _ _ (pm_mmio_write _ _ _) => apply mmio_write_served; [done|done|member]
  | |- served _ _ (pm_mmio_read _ _) => apply mmio_read_served; [done|done|member]
  | |- served _ _ (mmio_read_32 _) => apply rpu_read_served; member
  | |- served _ _ (mmio_write_32 _ _) => apply rpu_write_served; member
  | |- served _ _ (mdelay _) => apply mdelay_served
  | |- served _ _ (if _ then _ else _) => apply served_if
  | |- served _ _ (bind _ _) => apply served_bind; [apply _| |intros ?]
  end.

Section Reach2.
Context `{Env} {V : Type} `{!Has ipi V} `{!Has pm V} (v : V).
Context (Hup : ipi_up (sget v)) (Hans : pmu_answers).

Lemma rpu_served nid mode value :
  served ioctl_trace v (pm_ioctl_get_rpu_oper_mode value) /\
  served ioctl_trace v (pm_ioctl_set_rpu_oper_mode mode) /\
  served ioctl_trace v (pm_ioctl_config_boot_addr nid mode) /\
  served ioctl_trace v (pm_ioctl_config_tcm_comb mode).
Proof.
  unfold pm_ioctl_get_rpu_oper_mode, pm_ioctl_set_rpu_oper_mode, pm_ioctl_config_boot_addr,
    pm_ioctl_config_tcm_comb. cbv zeta. split_and!; serve.
Qed.

Lemma tapdelay_bypass_served type value : served ioctl_trace v (pm_ioctl_set_tapdelay_bypass type value).
Proof. unfold pm_ioctl_set_tapdelay_bypass. serve. Qed.

Lemma sgmii_served nid value : served ioctl_trace v (pm_ioctl_set_sgmii_mode nid value).
Proof. unfold pm_ioctl_set_sgmii_mode. cbv zeta. serve. Qed.

Lemma sd_dll_rst_cases (P : option (Z * Z) -> Prop) nid :
  P (Some (ZYNQMP_SD0_DLL_RST_MASK, ZYNQMP_SD0_DLL_RST)) ->
  P (Some (ZYNQMP_SD1_DLL_RST_MASK, ZYNQMP_SD1_DLL_RST)) -> P None -> P (sd_dll_rst nid).
Proof. unfold sd_dll_rst. intros. by repeat if_case. Qed.

Lemma sd_dll_reset_served nid type : served ioctl_trace v (pm_ioctl_sd_dll_reset nid type).
Proof. unfold pm_ioctl_sd_dll_reset. apply sd_dll_rst_cases; serve. Qed.

Lemma sd_tap_served type value shift : shift = 0 \/ shift = ZYNQMP_SD_TAP_OFFSET ->
  served ioctl_trace v (sd_tap_writes type value shift).
Proof. unfold sd_tap_writes. intros [-> | ->]; serve. Qed.

Lemma sd_tapdelay_served nid type value : served ioctl_trace v (pm_ioctl_sd_set_tapdelay nid type value).
Proof.
  unfold pm_ioctl_sd_set_tapdelay.
  assert (Hshift : (if nid =? NODE_SD_0 then 0 else ZYNQMP_SD_TAP_OFFSET) = 0 \/
    (if nid =? NODE_SD_0 then 0 else ZYNQMP_SD_TAP_OFFSET) = ZYNQMP_SD_TAP_OFFSET)
    by (destruct (nid =? NODE_SD_0); tauto).
  apply sd_dll_rst_cases; cbv zeta; serve;
    lazymatch goal with
    | |- served _ _ (pm_ioctl_sd_dll_reset _ _) => apply sd_dll_reset_served
    | |- served _ _ (sd_tap_writes _ _ _) => by apply sd_tap_served
    end.
Qed.

Lemma pll_node_id_run pll x : exists r, (forall d l h,
  pm_clock_get_pll_node_id pll x (St d l h v) = (Ret r, St d l h v)) /\
  (r.1 = PM_RET_SUCCESS -> NODE_APLL <= r.2 <= NODE_IOPLL).
Proof.
  unfold pm_clock_get_pll_node_id. destruct (pm_clock_get_pll pll) as [i|] eqn:E; [|by eexists].
  apply get_pll_some in E as [Hi _].
  destruct i as [|[|[|[|[|]]]]]; try lia; (eexists; split; [intros; reflexivity|]; done).
Qed.

Lemma pll_frac_served pll data value :
  served ioctl_trace v (pm_ioctl_set_pll_frac_data pll data) /\
  served ioctl_trace v (pm_ioctl_get_pll_frac_data pll value).
Proof.
  destruct (pll_node_id_run pll (uninit 0)) as (r & Hr & Hn).
  unfold pm_ioctl_set_pll_frac_data, pm_ioctl_get_pll_frac_data.
  assert (Hq : forall w0, w0 = PM_PLL_SET_PARAMETER \/ w0 = PM_PLL_GET_PARAMETER ->
    NODE_APLL <= r.2 <= NODE_IOPLL -> ioctl_request (u32 w0) (u32 r.2) (u32 PM_PLL_PARAM_DATA)).
  { intros w0 Hw Hr2. unfold NODE_APLL, NODE_IOPLL in Hr2. right. right. left.
    rewrite (u32_small r.2) by lia. split; [destruct Hw as [-> | ->]; [by left|by right]|].
    by unfold NODE_APLL, NODE_IOPLL. }
  split; (eapply served_pure; [intros; apply Hr|]);
    (destruct (negb (r.1 =? PM_RET_SUCCESS)) eqn:E; [apply served_ret; apply _|]); zbool;
    specialize (Hn E); unfold pm_pll_set_parameter, pm_pll_get_parameter;
    apply served_if; [apply served_ret; apply _| |apply served_ret; apply _|];
    (apply served_if; [apply served_ret; apply _|]).
  - apply served_sync; [done|done|apply _| |simpl; lia].
    apply accepts_obeys; [by left|simpl; lia|]. apply Hq; tauto.
  - apply served_sync_out1; [done|done|apply _| |simpl; lia].
    apply accepts_obeys; [by left|simpl; lia|]. apply Hq; tauto.
Qed.
Lemma four_cases (P : Z -> Prop) i : P 0 -> P 1 -> P 2 -> P 3 -> 0 <= i < 4 -> P i.
Proof. intros ? ? ? ? Hi. assert (i = 0 \/ i = 1 \/ i = 2 \/ i = 3) by lia. naive_solver. Qed.

Lemma storage_served index value x : 0 <= index ->
  served ioctl_trace v (pm_ioctl_write_ggs index value) /\
  served ioctl_trace v (pm_ioctl_read_ggs index x) /\
  served ioctl_trace v (pm_ioctl_write_pggs index value) /\
  served ioctl_trace v (pm_ioctl_read_pggs index x).
Proof.
  intros Hi. unfold pm_ioctl_write_ggs, pm_ioctl_read_ggs, pm_ioctl_write_pggs, pm_ioctl_read_pggs.
  change GGS_NUM_REGS with 4. change PGGS_NUM_REGS with 4.
  destruct (4 <=? index) eqn:E; zbool; [split_and!; serve|].
  pattern index. apply four_cases; [..|lia]; split_and!; serve.
Qed.

Lemma afi_served index value : 0 <= index -> served ioctl_trace v (pm_ioctl_afi index value).
Proof.
  intros Hi. unfold pm_ioctl_afi. change (Z.of_nat (length regarr)) with 16.
  destruct (16 <=? index) eqn:E; zbool; [serve|]. cbv zeta.
  destruct (lookup_lt_is_Some_2 regarr (Z.to_nat index)) as [reg Hreg].
  { change (length regarr) with 16%nat. lia. }
  eapply served_pure; [intros; apply run_aread; [by apply Z.ltb_ge|exact Hreg]|].
  apply mmio_write_served; [done|done|].
  assert (Hall : forall i, (i < 16)%nat -> forall a, regarr !! i = Some a ->
    (u32 a, u32 (if Z.of_nat i <? AFIFM6_WRCTRL then FABRIC_WIDTH else 0xf00)) ∈ ioctl_writable).
  { intros i Hi'. do 16 (destruct i as [|i]; [intros a Ha; simpl in Ha; simplify_eq; member|]). lia. }
  specialize (Hall (Z.to_nat index) ltac:(lia) reg Hreg). by rewrite Z2Nat.id in Hall.
Qed.

Lemma feature_served id arg value x : id = IOCTL_SET_FEATURE_CONFIG \/ id = IOCTL_GET_FEATURE_CONFIG ->
  served ioctl_trace v (pm_feature_config id arg value x).
Proof.
  intros Hid. unfold pm_feature_config. cbv zeta.
  assert (Hacc : accepts_request ioctl_trace (PM_PACK_PAYLOAD [PM_IOCTL; 0; id; arg; value])).
  { apply accepts_obeys; [by left|simpl; lia|]. right. right. right.
    destruct Hid as [-> | ->]; (split; [done|]); (split; [done|]); [by left|by right]. }
  apply served_if; [apply served_sync_out1; [done|done|apply _|done|simpl; lia]|].
  apply served_if; [|apply served_ret; apply _].
  apply served_bind; [apply _| |intros; apply served_ret; apply _].
  apply served_sync; [done|done|apply _|done|simpl; lia].
Qed.

Lemma keep_served value (m : M V Z) : served ioctl_trace v m -> served ioctl_trace v (keep value m).
Proof. intros Hm. apply served_bind; [apply _|done|]. intros. apply served_ret. apply _. Qed.

Lemma ioctl_served nid ioctl_id arg1 arg2 value :
  length (pll_modes (sget v)) = 5%nat -> 0 <= arg1 -> ioctl_id <> IOCTL_SET_PLL_FRAC_MODE ->
  served ioctl_trace v (pm_api_ioctl nid ioctl_id arg1 arg2 value).
Proof.
  intros Hms Harg Hne. unfold pm_api_ioctl.
  destruct (rpu_served nid arg1 value) as (R1 & R2 & R3 & R4).
  destruct (pll_frac_served arg1 arg2 value) as (P1 & P2).
  destruct (storage_served arg1 arg2 value Harg) as (S1 & S2 & S3 & S4).
  rewrite (proj2 (Z.eqb_neq ioctl_id IOCTL_SET_PLL_FRAC_MODE)) by done.
  do 8 (apply served_if; [first [done|apply keep_served; done|apply keep_served;
    first [apply tapdelay_bypass_served|apply sgmii_served|apply sd_dll_reset_served|
           apply sd_tapdelay_served]]|]).
  apply served_if.
  { unfold pm_ioctl_get_pll_frac_mode, pm_clock_get_pll_mode.
    destruct (pm_clock_get_pll arg1) as [i|] eqn:E; [|apply served_ret; apply _].
    destruct (get_pll_some _ _ E) as [Hi _].
    destruct (lookup_lt_is_Some_2 (pll_modes (sget v)) i) as [m Hm]; [lia|].
    apply (served_pure _ _ _ _ m); [|apply served_ret; apply _]. intros d l h.
    destruct (pll_mode_run i d l h v) as (m' & Hm' & E'); [lia|]. rewrite E'. congruence. }
  do 9 (apply served_if; [first [done|apply keep_served; done|apply keep_served;
    first [solve [unfold pm_ioctl_ulpi_reset; serve]|
           solve [unfold pm_ioctl_set_boot_health_status; serve]|
           by apply afi_served]]|]).
  destruct ((ioctl_id =? IOCTL_SET_FEATURE_CONFIG) || (ioctl_id =? IOCTL_GET_FEATURE_CONFIG)) eqn:E;
    [|apply served_ret; apply _].
  apply feature_served. apply orb_true_iff in E as [E|E]; zbool; tauto.
Qed.

(** Every IOCTL returns; only a buffered PLL mode changes. *)
Lemma ioctl_run nid ioctl_id arg1 arg2 value d l h :
  length (pll_modes (sget v)) = 5%nat -> 0 <= arg1 -> pm_secure_lock ∉ h ->
  exists r d' new ms, pm_api_ioctl nid ioctl_id arg1 arg2 value (St d l h v) =
    (Ret r, St d' (new ++ l) h (sput (set_pll_modes ms (sget v)) v)) /\
    length ms = 5%nat /\ ioctl_trace new.
Proof.
  intros Hms Harg Hh. destruct (decide (ioctl_id = IOCTL_SET_PLL_FRAC_MODE)) as [->|Hne].
  - destruct (set_pll_mode_total arg1 arg2 d l h v Hms) as (r & ms & E & Hl).
    exists (r, value), d, [], ms. split; [|split; [done|split; constructor]].
    change (keep value (pm_ioctl_set_pll_frac_mode arg1 arg2) (St d l h v) =
      (Ret (r, value), St d l h (sput (set_pll_modes ms (sget v)) v))).
    unfold keep, pm_ioctl_set_pll_frac_mode. by rewrite (bind_run _ _ _ _ _ E).
  - destruct (ioctl_served nid ioctl_id arg1 arg2 value Hms Harg Hne d l h Hh)
      as (r & d' & new & E & F).
    exists r, d', new, (pll_modes (sget v)).
    assert (set_pll_modes (pll_modes (sget v)) (sget v) = sget v) as -> by
      (by destruct (sget (S := pm) v)).
    by rewrite sput_sget.
Qed.

(** An IOCTL of the normal world, whatever its arguments, returns; it
    leaves the locks and, except for a buffered PLL mode, the statics alone;
    the APU itself only touches the transport and the RPU control registers, and
    the PMU is only asked for the listed register accesses.  The heartbeat
    register of the watchdog and the restart-scope bits are not among them. *)
Theorem ioctl_reach nid ioctl_id arg1 arg2 value d l h :
  length (pll_modes (sget v)) = 5%nat -> 0 <= arg1 -> pm_secure_lock ∉ h ->
  (exists r d' new ms, pm_api_ioctl nid ioctl_id arg1 arg2 value (St d l h v) =
     (Ret r, St d' (new ++ l) h (sput (set_pll_modes ms (sget v)) v)) /\
     Forall ioctl_event new /\ Forall3 ioctl_request (sent 0 new) (sent 1 new) (sent 2 new)) /\
  (0xFF130048 ∉ map fst ioctl_writable) /\
  (forall mask, (PMU_GLOBAL_GEN_STORAGE4, mask) ∈ ioctl_writable -> mask .& 0x18 = 0).
Proof.
  intros Hms Harg Hh. split; [|split].
  - destruct (ioctl_run nid ioctl_id arg1 arg2 value d l h Hms Harg Hh)
      as (r & d' & new & ms & E & _ & F). by exists r, d', new, ms.
  - apply (bool_decide_unpack _). vm_compute. exact I.
  - assert (Hall : Forall (fun p => p.1 = PMU_GLOBAL_GEN_STORAGE4 -> p.2 .& 0x18 = 0) ioctl_writable)
      by (repeat constructor; discriminate).
    rewrite list.Forall_forall in Hall. intros mask Hin. by apply (Hall _ Hin).
Qed.

End Reach2.

(** The last AFI write-control register is the one whose index is the bound
    itself: it is not given the mask of the bus-width field. *)
Lemma afi_last_register : regarr !! Z.to_nat AFIFM6_WRCTRL = Some 0xFF9b0014 /\
  (0xFF9b0014, FABRIC_WIDTH) ∉ ioctl_writable.
Proof. split; [reflexivity|]. apply (bool_decide_unpack _). vm_compute. exact I. Qed.

Lemma ioctl_reach_witness :
  exists r d' new ms, pm_api_ioctl (H := quiet_board) 0 IOCTL_WRITE_GGS 2 0xABCD 0
      (St (H := quiet_board) tt [] [] (ipi_booted, pm_bss)) =
    (Ret r, St (H := quiet_board) d' (new ++ []) []
       (sput (set_pll_modes ms (sget (ipi_booted, pm_bss))) (ipi_booted, pm_bss))) /\
    Forall ioctl_event new /\ Forall3 ioctl_request (sent 0 new) (sent 1 new) (sent 2 new).
Proof.
  assert (Hup : ipi_up (sget (V := ipi * pm) (ipi_booted, pm_bss))) by reflexivity.
  destruct (ioctl_reach (H := quiet_board) (V := ipi * pm) (ipi_booted, pm_bss) Hup
    quiet_board_answers 0 IOCTL_WRITE_GGS 2 0xABCD 0 tt [] []) as [E _].
  - reflexivity.
  - easy.
  - apply not_elem_of_nil.
  - exact E.
Defined.

End PmIoctl.
