(* ===== verification/PmApi.v ===== *)
(** * Suspend, clock control and queries of the power-management service

    The functions of pm_service/pm_api_sys.c that do more than forward a
    request: suspend and abort, clock gating, state, dividers and parents, and
    the query dispatcher.  The wrappers of pm_api_sys.c that only rename a
    function of pm_api_clock.c, pm_api_pinctrl.c or pm_api_ioctl.c are the
    functions themselves here. *)

From S2P Require Import Prelude Machine Gic Ipi PmDefs PmIpi PmReq Paged ClockData PmClock PmPinctrl.
From S2P Require Import PmClient PmIoctl.
From Stdlib Require Import Ascii String.
From stdpp Require Import sets strings.
Import Ipi PmDefs PmIpi PmReq Paged ClockData PmClock PmPinctrl PmClient PmIoctl.
#[local] Open Scope Z_scope.
#[local] Open Scope c_scope.

Module PmApi.

(** ** Views of the answer buffer

    The four words of a query answer seen as bytes or half-words of a
    little-endian machine. *)
Definition bytes_of_word (w : Z) : list Z :=
  [u8 w; u8 (w .>> 8); u8 (w .>> 16); u8 (w .>> 24)].
Definition bytes_of_words (ws : list Z) : list Z := concat (map bytes_of_word ws).

Fixpoint words_of_bytes (bs : list Z) : list Z :=
  match bs with
  | a :: b :: c :: d :: bs' => (a + 2 ^ 8 * b + 2 ^ 16 * c + 2 ^ 24 * d) :: words_of_bytes bs'
  | _ => []
  end.

Definition halves_of_words (ws : list Z) : list Z :=
  concat (map (fun w => [u16 w; u16 (w .>> 16)]) ws).

Fixpoint words_of_halves (hs : list Z) : list Z :=
  match hs with
  | a :: b :: hs' => (a + 2 ^ 16 * b) :: words_of_halves hs'
  | _ => []
  end.

Section Ops.
Context `{Env} {V : Type} `{!Has ipi V} `{!Has pm V} `{!Has Gic.gic V}.

(** [mpidr_el1] is the register of the executing processor. *)
Definition pm_self_suspend (mpidr_el1 nid latency state address : Z) : M V Z :=
  proc <- deref (pm_get_proc (Gic.plat_my_core_pos mpidr_el1)) ;;
  pm_client_suspend proc state ;;
  r <- pm_ipi_send_sync proc
         (PM_PACK_PAYLOAD [PM_SELF_SUSPEND; node_id proc; latency; state; address; address .>> 32])
         0 0 ;;
  ret r.1.

Definition pm_abort_suspend (reason : Z) : M V Z :=
  pm_client_abort_suspend ;;
  sync (PM_PACK_PAYLOAD [PM_ABORT_SUSPEND; reason; node_id primary_proc]).

(** Failures for lack of permission are filtered. *)
Definition pm_clock_gate (clock_id : Z) (enable : bool) : M V Z :=
  let status := pm_clock_id_is_valid clock_id in
  if negb (status =? PM_RET_SUCCESS) then ret status
  else
    let api_id := if enable then PM_CLOCK_ENABLE else PM_CLOCK_DISABLE in
    status <- sync (PM_PACK_PAYLOAD [api_id; clock_id]) ;;
    ret (if status =? PM_RET_ERROR_ACCESS then PM_RET_SUCCESS else status).

Definition pm_clock_enable (clock_id : Z) : M V Z :=
  match pm_clock_get_pll clock_id with
  | Some i => pm_clock_pll_enable (Some i)
  | None => pm_clock_gate clock_id true
  end.

Definition pm_clock_disable (clock_id : Z) : M V Z :=
  match pm_clock_get_pll clock_id with
  | Some i => pm_clock_pll_disable (Some i)
  | None => pm_clock_gate clock_id false
  end.

Definition pm_clock_getstate (clock_id state : Z) : M V (Z * Z) :=
  match pm_clock_get_pll clock_id with
  | Some i => pm_clock_pll_get_state (Some i) state
  | None =>
      let status := pm_clock_id_is_valid clock_id in
      if negb (status =? PM_RET_SUCCESS) then ret (status, state)
      else sync_out1 (PM_PACK_PAYLOAD [PM_CLOCK_GETSTATE; clock_id]) state
  end.

Definition pm_clock_setdivider (clock_id divider : Z) : M V Z :=
  r <- pm_clock_get_pll_node_id clock_id (uninit 0) ;;
  if r.1 =? PM_RET_SUCCESS then pm_pll_set_parameter r.2 PM_PLL_PARAM_FBDIV divider
  else
    let status := pm_clock_id_is_valid clock_id in
    if negb (status =? PM_RET_SUCCESS) then ret status
    else
      let div0 := 0xFFFF0000 in
      let div1 := 0x0000FFFF in
      if div0 =? (divider .& div0) then
        sync (PM_PACK_PAYLOAD [PM_CLOCK_SETDIVIDER; clock_id; PM_CLOCK_DIV0_ID;
                               divider .& not32 div0])
      else if div1 =? (divider .& div1) then
        sync (PM_PACK_PAYLOAD [PM_CLOCK_SETDIVIDER; clock_id; PM_CLOCK_DIV1_ID;
                               (divider .& not32 div1) .>> 16])
      else ret PM_RET_ERROR_ARGS.

(** The second half: [*divider |= val << 16] for the second divider. *)
Definition getdivider_div1 (clock_id status divider : Z) : M V (Z * Z) :=
  has1 <- pm_clock_has_div clock_id PM_CLOCK_DIV1_ID ;;
  if truthy has1 then
    r <- sync_out1 (PM_PACK_PAYLOAD [PM_CLOCK_GETDIVIDER; clock_id; PM_CLOCK_DIV1_ID]) (uninit 0) ;;
    if negb (r.1 =? PM_RET_SUCCESS) then ret (r.1, divider)
    else ret (r.1, divider .| (r.2 .<< 16))
  else ret (status, divider).

Definition pm_clock_getdivider (clock_id divider : Z) : M V (Z * Z) :=
  r <- pm_clock_get_pll_node_id clock_id (uninit 0) ;;
  if r.1 =? PM_RET_SUCCESS then pm_pll_get_parameter r.2 PM_PLL_PARAM_FBDIV divider
  else
    let status := pm_clock_id_is_valid clock_id in
    if negb (status =? PM_RET_SUCCESS) then ret (status, divider)
    else
      has0 <- pm_clock_has_div clock_id PM_CLOCK_DIV0_ID ;;
      if truthy has0 then
        r <- sync_out1 (PM_PACK_PAYLOAD [PM_CLOCK_GETDIVIDER; clock_id; PM_CLOCK_DIV0_ID]) (uninit 0) ;;
        if negb (r.1 =? PM_RET_SUCCESS) then ret (r.1, divider)
        else getdivider_div1 clock_id r.1 r.2
      else getdivider_div1 clock_id status divider.

Definition pm_clock_setrate (clock_id rate : Z) : M V Z := ret PM_RET_ERROR_NOTSUPPORTED.
Definition pm_clock_getrate (clock_id rate : Z) : M V (Z * Z) :=
  ret (PM_RET_ERROR_NOTSUPPORTED, rate).

Definition pm_clock_setparent (clock_id parent_index : Z) : M V Z :=
  match pm_clock_get_pll_by_related_clk clock_id with
  | Some i => pm_clock_pll_set_parent (Some i) clock_id parent_index
  | None =>
      let status := pm_clock_id_is_valid clock_id in
      if negb (status =? PM_RET_SUCCESS) then ret status
      else sync (PM_PACK_PAYLOAD [PM_CLOCK_SETPARENT; clock_id; parent_index])
  end.

Definition pm_clock_getparent (clock_id parent_index : Z) : M V (Z * Z) :=
  match pm_clock_get_pll_by_related_clk clock_id with
  | Some i => pm_clock_pll_get_parent (Some i) clock_id parent_index
  | None =>
      let status := pm_clock_id_is_valid clock_id in
      if negb (status =? PM_RET_SUCCESS) then ret (status, parent_index)
      else sync_out1 (PM_PACK_PAYLOAD [PM_CLOCK_GETPARENT; clock_id]) parent_index
  end.

(** Answers into [data[1..3]], [data[1]] and the bytes of [data]. *)
Definition answer3 (data : list Z) (q : list Z -> M V (Z * list Z)) : M V (list Z) :=
  r <- q (drop 1 data) ;; ret (r.1 :: r.2).
Definition answer1 (data : list Z) (q : Z -> M V (Z * Z)) : M V (list Z) :=
  d1 <- aread data 1 ;; r <- q d1 ;; ret (r.1 :: r.2 :: drop 2 data).
Definition answer_name (data : list Z) (q : list Z -> M V (list Z)) : M V (list Z) :=
  b <- q (bytes_of_words data) ;; ret (words_of_bytes b).
Definition answer_groups (data : list Z) (q : list Z -> M V (Z * list Z)) : M V (list Z) :=
  r <- q (halves_of_words (drop 1 data)) ;; ret (r.1 :: words_of_halves r.2).

Definition pm_query_data (qid arg1 arg2 arg3 : Z) (data : list Z) : M V (list Z) :=
  if qid =? PM_QID_CLOCK_GET_NAME then answer_name data (pm_api_clock_get_name arg1)
  else if qid =? PM_QID_CLOCK_GET_TOPOLOGY then
    answer3 data (pm_api_clock_get_topology arg1 arg2)
  else if qid =? PM_QID_CLOCK_GET_FIXEDFACTOR_PARAMS then
    d1 <- aread data 1 ;;
    d2 <- aread data 2 ;;
    r <- pm_api_clock_get_fixedfactor_params arg1 d1 d2 ;;
    ret (r.1 :: r.2.1 :: r.2.2 :: drop 3 data)
  else if qid =? PM_QID_CLOCK_GET_PARENTS then answer3 data (pm_api_clock_get_parents arg1 arg2)
  else if qid =? PM_QID_CLOCK_GET_ATTRIBUTES then answer1 data (pm_api_clock_get_attributes arg1)
  else if qid =? PM_QID_PINCTRL_GET_NUM_PINS then answer1 data pm_api_pinctrl_get_num_pins
  else if qid =? PM_QID_PINCTRL_GET_NUM_FUNCTIONS then answer1 data pm_api_pinctrl_get_num_functions
  else if qid =? PM_QID_PINCTRL_GET_NUM_FUNCTION_GROUPS then
    answer1 data (pm_api_pinctrl_get_num_func_groups arg1)
  else if qid =? PM_QID_PINCTRL_GET_FUNCTION_NAME then
    answer_name data (pm_api_pinctrl_get_function_name arg1)
  else if qid =? PM_QID_PINCTRL_GET_FUNCTION_GROUPS then
    answer_groups data (pm_api_pinctrl_get_function_groups arg1 arg2)
  else if qid =? PM_QID_PINCTRL_GET_PIN_GROUPS then
    answer_groups data (pm_api_pinctrl_get_pin_groups arg1 arg2)
  else if qid =? PM_QID_CLOCK_GET_NUM_CLOCKS then answer1 data pm_api_clock_get_num_clocks
  else if qid =? PM_QID_CLOCK_GET_MAX_DIVISOR then
    answer1 data (pm_api_clock_get_max_divisor arg1 (u8 arg2))
  else ret (PM_RET_ERROR_ARGS :: drop 1 data).

End Ops.

(** ** Bytes and words of an answer *)

Lemma bytes_of_packed a b c e : is_u8 a -> is_u8 b -> is_u8 c -> is_u8 e ->
  bytes_of_word (a + 2 ^ 8 * b + 2 ^ 16 * c + 2 ^ 24 * e) = [a; b; c; e].
Proof.
  unfold is_u8, bytes_of_word, u8. intros Ha Hb Hc He. rewrite !Z.shiftr_div_pow2 by lia.
  f_equal; [|f_equal; [|f_equal; [|f_equal]]].
  - replace (a + 2 ^ 8 * b + 2 ^ 16 * c + 2 ^ 24 * e) with (a + (b + 2 ^ 8 * c + 2 ^ 16 * e) * 2 ^ 8) by lia.
    rewrite Z.mod_add by lia. by apply Z.mod_small.
  - replace ((a + 2 ^ 8 * b + 2 ^ 16 * c + 2 ^ 24 * e) / 2 ^ 8) with (b + (c + 2 ^ 8 * e) * 2 ^ 8)
      by (apply Z.div_unique with a; lia).
    rewrite Z.mod_add by lia. by apply Z.mod_small.
  - replace ((a + 2 ^ 8 * b + 2 ^ 16 * c + 2 ^ 24 * e) / 2 ^ 16) with (c + e * 2 ^ 8)
      by (apply Z.div_unique with (a + 2 ^ 8 * b); lia).
    rewrite Z.mod_add by lia. by apply Z.mod_small.
  - replace ((a + 2 ^ 8 * b + 2 ^ 16 * c + 2 ^ 24 * e) / 2 ^ 24) with e
      by (apply Z.div_unique with (a + 2 ^ 8 * b + 2 ^ 16 * c); lia).
    by apply Z.mod_small.
Qed.

Lemma bytes_words_roundtrip n bs : Forall is_u8 bs -> length bs = (4 * n)%nat ->
  bytes_of_words (words_of_bytes bs) = bs /\ length (words_of_bytes bs) = n.
Proof.
  revert bs. induction n as [|n IH]; intros bs Hb Hl; [by destruct bs|].
  do 4 (destruct bs as [|? bs]; [simpl in Hl; lia|]). rewrite !Forall_cons_iff in Hb.
  destruct Hb as (B0 & B1 & B2 & B3 & Hb).
  destruct (IH bs Hb) as [IH1 IH2]; [simpl in Hl; lia|].
  cbn [words_of_bytes length]. split; [|by rewrite IH2].
  unfold bytes_of_words in *. cbn [map concat]. rewrite bytes_of_packed by done. by rewrite IH1.
Qed.

Lemma chars_u8 x : Forall is_u8 (chars x).
Proof.
  unfold chars. apply list.Forall_forall. intros z Hz. apply list_elem_of_In, in_map_iff in Hz as (c & <- & _).
  unfold byte_of_ascii, is_u8. pose proof (N_ascii_bounded c). lia.
Qed.

Lemma char_array_u8 n x : Forall is_u8 (char_array n x).
Proof.
  unfold char_array. apply Forall_take, Forall_app. split; [apply chars_u8|].
  apply list.Forall_forall. intros z Hz. apply list_elem_of_In, repeat_spec in Hz as ->. easy.
Qed.

(** The name of a clock crosses the SMC interface unchanged.  For every
    valid output clock, the name query answers with four words whose sixteen
    bytes, in the byte order of the processor, are the characters of the name
    in the clock table, filled up with zeros; nothing else happens. *)
Theorem query_name_roundtrip `{Env} {V : Type} `{!Has ipi V} `{!Has pm V} i arg2 arg3 (s : st V) :
  0 <= i < CLK_MAX_OUTPUT_CLK -> pm_clock_valid i = true ->
  exists ws, pm_query_data PM_QID_CLOCK_GET_NAME i arg2 arg3 [0; 0; 0; 0] s = (Ret ws, s) /\
    length ws = 4%nat /\ bytes_of_words ws = name_of i ++ [0].
Proof.
  intros Hi Hv. unfold pm_query_data. rewrite Z.eqb_refl. unfold answer_name.
  change (bytes_of_words [0; 0; 0; 0]) with (repeat 0 16).
  rewrite (bind_run _ _ _ _ _ (get_name_output i (repeat 0 16) s Hi Hv ltac:(rewrite repeat_length; lia))).
  eexists. split; [reflexivity|]. change (drop 15 (repeat 0 16)) with [0].
  destruct (bytes_words_roundtrip 4 (name_of i ++ [0])) as [E1 E2]; [| |by split].
  - apply Forall_app. split; [|constructor; [easy|constructor]].
    unfold name_of. destruct (clocks !! Z.to_nat i) as [c|]; [apply char_array_u8|constructor].
  - unfold name_of. destruct (clock_entry i Hi) as (c & Hc & _). rewrite Hc, length_app, chars_length. easy.
Qed.

Lemma query_name_roundtrip_witness :
  exists ws, pm_query_data (H := quiet_board) (V := ipi * pm) PM_QID_CLOCK_GET_NAME CLK_ACPU 0 0
      [0; 0; 0; 0] (St (H := quiet_board) tt [] [] (ipi_booted, pm_bss)) =
    (Ret ws, St (H := quiet_board) tt [] [] (ipi_booted, pm_bss)) /\
    length ws = 4%nat /\ bytes_of_words ws = chars "acpu" ++ repeat 0 12.
Proof.
  destruct (query_name_roundtrip (H := quiet_board) (V := ipi * pm) CLK_ACPU 0 0
    (St (H := quiet_board) tt [] [] (ipi_booted, pm_bss))) as (ws & E & Hl & Hb).
  - easy.
  - reflexivity.
  - exists ws. split; [exact E|]. split; [exact Hl|]. rewrite Hb. vm_compute. reflexivity.
Defined.

End PmApi.
