(* ===== verification/PmRestart.v ===== *)
(** * The warm restart of BL31

    The part of pm_service/pm_svc_main.c under ZYNQMP_WDT_RESTART, with
    [pm_setup].  When the PMU sees a watchdog event it fires a TTC3 interrupt;
    its EL3 handler asks the PMU which processors are on, records their number
    and raises SGI 7 on each; the SGI handler counts down under [inc_lock], and
    the processor that finds the count at 0 asks the PMU for the reset.  All of
    them end in [wfi].  Console output is not modelled. *)

From S2P Require Import Prelude Machine Gic IntrMgmt Swdt Ipi PmDefs PmIpi PmReq.
From stdpp Require Import sets relations.
Import Gic IntrMgmt Swdt Ipi PmDefs PmIpi PmReq.
#[local] Open Scope Z_scope.
#[local] Open Scope c_scope.

Module PmRestart.

Definition BASE_GICD_BASE : Z := 0xF9010000.
Definition TTC3_BASE_ADDR : Z := 0xFF140000.
Definition TTC3_INTR_REGISTER_1 : Z := TTC3_BASE_ADDR + 0x54.
Definition TTC3_INTR_ENABLE_1 : Z := TTC3_BASE_ADDR + 0x60.
Definition RESTART_SCOPE_SHIFT : Z := 3.
Definition RESTART_SCOPE_MASK : Z := 0x3 .<< RESTART_SCOPE_SHIFT.

Section Ops.
Context `{Env} {V : Type} `{!Has ipi V} `{!Has pm V} `{!Has gic V} `{!Has intr_mgmt V} `{!Has swdt V}.

(** The first loop: [core_status] is not cleared between the turns. *)
Fixpoint probe_cores (cores : list Z) (core_status : list Z) (core_count target_cpu_list : Z)
    : M V (Z * Z) :=
  match cores with
  | [] => ret (core_count, target_cpu_list)
  | i :: cores' =>
      r <- pm_get_node_status (NODE_APU_0 + i) core_status ;;
      s <- aread r.2 0 ;;
      if s =? 1 then probe_cores cores' r.2 (u32 (core_count + 1)) (target_cpu_list .| (1 .<< i))
      else probe_cores cores' r.2 core_count target_cpu_list
  end.

(** The second loop, from the last processor to the first. *)
Definition raise_cores (target_cpu_list : Z) : M V unit :=
  for_each (rev (steps 0 PLATFORM_CORE_COUNT 1)) (fun i =>
    if truthy (target_cpu_list .& (1 .<< i)) then plat_ic_raise_el3_sgi ARM_IRQ_SEC_SGI_7 i
    else ret tt).

Definition trigger_wdt_restart : M V unit :=
  r <- probe_cores (steps 0 4 1) [uninit 0; uninit 1; uninit 2] 0 0 ;;
  lock inc_lock ;;
  mods (set_active_cores r.1) ;;
  unlock inc_lock ;;
  raise_cores r.2.

Definition ttc_fiq_handler (id flags : Z) : M V Z :=
  plat_ic_end_of_interrupt id ;;
  _ <- mmio_read_32 TTC3_INTR_REGISTER_1 ;;
  mmio_write_32 TTC3_INTR_ENABLE_1 0 ;;
  trigger_wdt_restart ;;
  ret 0.

(** The critical section of the SGI handler. *)
Definition sgi7_enter : M V unit :=
  lock inc_lock ;;
  mods (fun v => set_active_cores (active_cores v - 1) v) ;;
  for_each (steps 0 4 1) (fun i =>
    mmio_write_32 (BASE_GICD_BASE + GICD_CPENDSGIR + 4 * i) 0xffffffff) ;;
  barrier ;;
  unlock inc_lock.

(** The rest of it, with the lock released. *)
Definition sgi7_finish : M V Z :=
  n <- gets active_cores ;;
  (if n =? 0 then
     r <- pm_mmio_read PMU_GLOBAL_GEN_STORAGE4 (uninit 0) ;;
     let value := (r.2 .& RESTART_SCOPE_MASK) .>> RESTART_SCOPE_SHIFT in
     _ <- pm_system_shutdown PMF_SHUTDOWN_TYPE_RESET value ;;
     ret tt
   else ret tt) ;;
  park.

Definition zynqmp_sgi7_irq (id flags : Z) : M V Z :=
  sgi7_enter ;;
  sgi7_finish.

Definition pm_wdt_restart_setup : M V Z :=
  r <- request_intr_type_el3 ARM_IRQ_SEC_SGI_7 (Some zynqmp_sgi7_irq_ptr) ;;
  if truthy r then ret r
  else request_intr_type_el3 IRQ_TTC3_1 (Some ttc_fiq_handler_ptr).

Definition pm_setup : M V Z :=
  status <- pm_ipi_init primary_proc ;;
  ver <- gets api_version ;;
  r <- pm_get_api_version ver ;;
  mods (set_api_version r.2) ;;
  ver <- gets api_version ;;
  if ver <? PM_VERSION then ret (- EINVAL)
  else
    status <- pm_wdt_restart_setup ;;
    let result := if status >=? 0 then 0 else status in
    mods (set_pm_up (b2z (status =? 0))) ;;
    ret result.

End Ops.

(** ** Observations of a trace, oldest first *)

Definition observe (f : event -> option Z) (new : list event) : list Z := omap f (rev new).

Lemma observe_app f n1 n2 : observe f (n2 ++ n1) = observe f n1 ++ observe f n2.
Proof. unfold observe. by rewrite rev_app_distr, omap_app. Qed.

Lemma observe_none f new : Forall (fun e => f e = None) new -> observe f new = [].
Proof.
  induction 1 as [|e new He _ IH]; [done|].
  change (e :: new) with ([e] ++ new). rewrite observe_app, IH. unfold observe. simpl. by rewrite He.
Qed.

(** First response words of the PMU, and the SGIs raised. *)
Definition answer_of (e : event) : option Z :=
  match e with EvRd W32 a v => if a =? resp_buffer + 4 then Some v else None | _ => None end.
Definition sgi_of (e : event) : option Z :=
  match e with
  | EvWr W32 a v => if a =? PLAT_ARM_GICD_BASE + GICD_SGIR then Some v else None
  | _ => None
  end.

Abbreviation answers := (observe answer_of).
Abbreviation sgis := (observe sgi_of).

Section Proofs.
Context `{Env} {V : Type} `{!Has ipi V} `{!Has pm V} `{!Has gic V}.

(** Which processors the answers [sts] report as on, from the last to the
    first. *)
Definition cores_on (sts : list Z) : list nat :=
  rev (List.filter (fun i => nth i sts 0 =? 1) (seq 0 4)).

Lemma answers_obr waits : Forall obr_read waits -> answers waits = [].
Proof.
  intros Hw. apply observe_none. eapply Forall_impl; [exact Hw|].
  intros e. destruct e as [[]| | | | | | |]; simpl; try done. by intros ->.
Qed.

Lemma sgis_ipc new : Forall ipc_event new -> sgis new = [].
Proof.
  intros Hf. apply observe_none. eapply Forall_impl; [exact Hf|].
  intros e. destruct e as [[]|[] a v| | | | | |]; simpl; try done.
  unfold req_buffer, apu_base, IPI_TRIG_OFFSET, PLAT_ARM_GICD_BASE, GICD_SGIR. intros Ha.
  rewrite (proj2 (Z.eqb_neq _ _)) by lia. done.
Qed.

Lemma node_status_run nid buf d l h (v : V) :
  ipi_up (sget v) -> pmu_answers -> pm_secure_lock ∉ h -> length buf = 3%nat ->
  exists r s rest d' new,
    pm_get_node_status nid buf (St d l h v) = (Ret (r, s :: rest), St d' (new ++ l) h v) /\
    length (s :: rest) = 3%nat /\ answers new = [s] /\ sgis new = [].
Proof.
  intros Hv Ha Hh Hb. unfold pm_get_node_status, sync_out.
  change (PM_PACK_PAYLOAD [PM_GET_NODE_STATUS; nid]) with
    [u32 PM_GET_NODE_STATUS; u32 nid; u32 (uninit 2); u32 (uninit 3); u32 (uninit 4); u32 (uninit 5)].
  destruct (send_sync_run (u32 PM_GET_NODE_STATUS) (u32 nid) (u32 (uninit 2)) (u32 (uninit 3))
    (u32 (uninit 4)) (u32 (uninit 5)) (length buf) 3 d l h v Hv Ha Hh)
    as (r & ws & d' & waits & st & E & Hr & Hl & Hw & _); [lia|].
  rewrite (bind_run _ _ _ _ _ E).
  destruct ws as [|s [|w1 [|w2 [|]]]]; try (simpl in Hl; lia).
  set (req := request_trace _) in *.
  exists r, s, [w1; w2], d', (EvUnlock pm_secure_lock :: EvRd W32 resp_buffer st ::
    resp_trace resp_buffer 1 [s; w1; w2] ++ waits ++ req ++ [EvLock pm_secure_lock]).
  cbn [fst snd length]. split; [|split; [done|]].
  { rewrite run_ret. cbn [app length]. rewrite drop_ge by lia. do 2 f_equal.
    by rewrite <- !(assoc_L (++)). }
  change (EvUnlock pm_secure_lock :: EvRd W32 resp_buffer st :: resp_trace resp_buffer 1 [s; w1; w2] ++
    waits ++ req ++ [EvLock pm_secure_lock]) with
    ([EvUnlock pm_secure_lock; EvRd W32 resp_buffer st] ++ resp_trace resp_buffer 1 [s; w1; w2] ++
    waits ++ req ++ [EvLock pm_secure_lock]).
  split; [by rewrite !observe_app, (answers_obr waits Hw)|].
  rewrite !observe_app, (sgis_ipc waits) by (by apply obr_ipc). done.
Qed.

(** The number of processors found and their bits. *)
Definition core_total (sts : list Z) (n : Z) : Z :=
  fold_left (fun c s => if s =? 1 then u32 (c + 1) else c) sts n.
Definition core_bits (cores sts : list Z) (m : Z) : Z :=
  fold_left (fun c p => if p.2 =? 1 then c .| (1 .<< p.1) else c) (combine cores sts) m.

Lemma probe_run cores buf n m d l h (v : V) :
  ipi_up (sget v) -> pmu_answers -> pm_secure_lock ∉ h -> length buf = 3%nat ->
  exists sts d' new,
    probe_cores cores buf n m (St d l h v) =
      (Ret (core_total sts n, core_bits cores sts m), St d' (new ++ l) h v) /\
    length sts = length cores /\ answers new = sts /\ sgis new = [].
Proof.
  intros Hv Ha Hh. revert buf n m d l.
  induction cores as [|i cores IH]; intros buf n m d l Hb; cbn [probe_cores].
  { exists [], d, []. done. }
  destruct (node_status_run (NODE_APU_0 + i) buf d l h v Hv Ha Hh Hb)
    as (r & s & rest & d1 & n1 & E & Hl & A1 & S1).
  rewrite (bind_run _ _ _ _ _ E). cbn [snd].
  rewrite (run_bind_aread (s :: rest) 0 s _ _ eq_refl eq_refl).
  destruct (IH (s :: rest) (if s =? 1 then u32 (n + 1) else n)
    (if s =? 1 then m .| (1 .<< i) else m) d1 (n1 ++ l) Hl) as (sts & d2 & n2 & E2 & L2 & A2 & S2).
  exists (s :: sts), d2, (n2 ++ n1). rewrite !observe_app, A1, S1, A2, S2. cbn [length app]. rewrite L2.
  split; [|done]. rewrite <- (assoc_L (++)). unfold core_total, core_bits in *. simpl. revert E2. by destruct (s =? 1).
Qed.

(** ** Raising the SGIs *)

(** The driver is up, and SGI 7 of every processor is in Group 0. *)
Definition sgi_ready (masks : list Z) (v : V) : Prop :=
  driver_data (sget v) = Some arm_gic_data /\ target_mask_array (sget v) = masks /\
  length masks = 4%nat /\ Forall (fun m => m <> 0) masks.
Definition sgi7_group0 : Prop :=
  forall d, Z.testbit (u32 (hw_read W32 (PLAT_ARM_GICD_BASE + GICD_IGROUPR) d).1) 15 = false.

Definition sgir (masks : list Z) (i : nat) : Z :=
  u32 (GICV2_SGIR_VALUE 0 (nth i masks 0) ARM_IRQ_SEC_SGI_7).

Lemma sgi_ready_gic masks v : sgi_ready masks v -> ready PLAT_ARM_GICD_BASE arm_gic_data v.
Proof. by intros (Hp & _). Qed.

Lemma raise_sgi_run masks i d l h (v : V) :
  sgi_ready masks v -> sgi7_group0 -> (i < 4)%nat ->
  exists d' new,
    plat_ic_raise_el3_sgi ARM_IRQ_SEC_SGI_7 (Z.of_nat i) (St d l h v) =
      (Ret tt, St d' (new ++ l) h v) /\
    sgis new = [sgir masks i] /\ answers new = [].
Proof.
  intros Hr Hg Hi. unfold plat_ic_raise_el3_sgi, plat_ic_get_interrupt_type, gicv2_get_interrupt_group.
  assert (plat_core_pos_by_mpidr (Z.of_nat i) = Z.of_nat i) as ->.
  { do 4 (destruct i as [|i]; [reflexivity|]). lia. }
  rewrite (proj2 (Z.geb_le _ _)) by lia. rewrite run_bind_assert_true, !run_bind_assoc.
  rewrite (bind_run _ _ _ _ _ (with_gicd_run _ _ d l h v (sgi_ready_gic _ _ Hr))).
  unfold gicd_get_igroupr, gicd_read_igroupr. run.
  change (ARM_IRQ_SEC_SGI_7 .& ((1 .<< 5) - 1)) with 15.
  change (gicd_base arm_gic_data + GICD_IGROUPR + ((ARM_IRQ_SEC_SGI_7 .>> 5) .<< 2)) with
    (PLAT_ARM_GICD_BASE + GICD_IGROUPR).
  rewrite testbit_shr_land1, Hg by lia. change (b2z false =? GICV2_INTR_GROUP1) with false.
  change (INTR_TYPE_EL3 =? INTR_TYPE_EL3) with true. run.
  destruct Hr as (Hp & Hm & Hlen & Hne). unfold gicv2_raise_sgi, driver. run.
  rewrite Hp, bool_decide_eq_true_2 by done. run. unfold deref. run.
  rewrite (proj2 (Z.geb_le _ _)), (proj2 (Z.ltb_lt _ GICV2_MAX_TARGET_PE))
    by (unfold GICV2_MAX_TARGET_PE; lia). run.
  change (negb (gicd_base arm_gic_data =? 0)) with true.
  change (target_masks arm_gic_data) with true. change (target_masks_num arm_gic_data) with 4.
  rewrite (proj2 (Z.ltb_lt _ 4)) by lia. run. rewrite Hm.
  destruct (lookup_lt_is_Some_2 masks i) as [m Hmi]; [lia|].
  rewrite (run_bind_aread_nat _ _ m) by done.
  rewrite Forall_lookup in Hne. pose proof (Hne _ _ Hmi) as Hm0.
  rewrite (proj2 (Z.eqb_neq _ _)) by done. cbn [negb]. run. unfold gicd_write_sgir. run.
  eexists _, [_; _; _]. split; [reflexivity|]. unfold sgir. rewrite (nth_lookup_Some _ _ 0 _ Hmi).
  split; [|done]. unfold observe. simpl. by rewrite u32_u32.
Qed.

Lemma raise_loop_run masks m ks d l h (v : V) :
  sgi_ready masks v -> sgi7_group0 -> Forall (fun i => (i < 4)%nat) ks ->
  exists d' new,
    for_each (map Z.of_nat ks) (fun i =>
      if truthy (m .& (1 .<< i)) then plat_ic_raise_el3_sgi ARM_IRQ_SEC_SGI_7 i else ret tt)
      (St d l h v) = (Ret tt, St d' (new ++ l) h v) /\
    sgis new = map (sgir masks) (List.filter (fun i => truthy (m .& (1 .<< Z.of_nat i))) ks) /\
    answers new = [].
Proof.
  intros Hr Hg Hf. revert d l. induction Hf as [|i ks Hi _ IH]; intros d l; simpl.
  { exists d, []. done. }
  destruct (truthy _).
  - destruct (raise_sgi_run masks i d l h v Hr Hg Hi) as (d1 & n1 & E1 & S1 & A1).
    rewrite (bind_run _ _ _ _ _ E1). destruct (IH d1 (n1 ++ l)) as (d2 & n2 & E2 & S2 & A2).
    exists d2, (n2 ++ n1). rewrite !observe_app, S1, S2, A1, A2, E2, (assoc_L (++)). done.
  - run. destruct (IH d l) as (d2 & n2 & E2 & S2 & A2). by exists d2, n2.
Qed.

Context `{!Indep gic pm V} `{!Indep ipi pm V}.

(** What the two loops compute from the four answers. *)
Lemma probe_result s0 s1 s2 s3 :
  let sts := [s0; s1; s2; s3] in
  core_total sts 0 = Z.of_nat (length (cores_on sts)) /\
  List.filter (fun i => truthy (core_bits [0; 1; 2; 3] sts 0 .& (1 .<< Z.of_nat i)))
    [3; 2; 1; 0]%nat = cores_on sts.
Proof.
  unfold cores_on, core_total, core_bits. cbn [combine fold_left fst snd seq List.filter nth].
  destruct (s0 =? 1), (s1 =? 1), (s2 =? 1), (s3 =? 1); by vm_compute.
Qed.


End Proofs.

(** ** The count-down across the processors *)

(** Where a processor is in [zynqmp_sgi7_irq]. *)
Inductive core_pc := AtSgi | Cleaned | InWfi.

#[export] Instance core_pc_eq_dec : EqDecision core_pc.
Proof. solve_decision. Defined.

(** What a request to the PMU may be during the restart, and the number of
    shutdown requests. *)
Definition restart_request (w0 w1 w2 : Z) : Prop :=
  (w0 = PM_MMIO_READ /\ w1 = PMU_GLOBAL_GEN_STORAGE4) \/
  (w0 = PM_SYSTEM_SHUTDOWN /\ w1 = PMF_SHUTDOWN_TYPE_RESET /\ 0 <= w2 <= 3).
Definition restart_trace : list event -> Prop := obeys (fun _ => True) restart_request.
Definition shutdowns (new : list event) : nat :=
  length (List.filter (fun w => w =? PM_SYSTEM_SHUTDOWN) (sent 0 new)).

Lemma shutdowns_app n1 n2 : shutdowns (n2 ++ n1) = (shutdowns n1 + shutdowns n2)%nat.
Proof. unfold shutdowns. by rewrite sent_app, List.filter_app, length_app. Qed.

Fixpoint waiting (pcs : list core_pc) : nat :=
  match pcs with
  | [] => O
  | AtSgi :: pcs' => S (waiting pcs')
  | _ :: pcs' => waiting pcs'
  end.

(** Steps the processors have left. *)
Fixpoint steps_left (pcs : list core_pc) : nat :=
  match pcs with
  | [] => O
  | AtSgi :: pcs' => 2 + steps_left pcs'
  | Cleaned :: pcs' => 1 + steps_left pcs'
  | InWfi :: pcs' => steps_left pcs'
  end.

Lemma waiting_app l1 l2 : waiting (l1 ++ l2) = (waiting l1 + waiting l2)%nat.
Proof. induction l1 as [|[] l1 IH]; simpl; lia. Qed.
Lemma steps_left_app l1 l2 : steps_left (l1 ++ l2) = (steps_left l1 + steps_left l2)%nat.
Proof. induction l1 as [|[] l1 IH]; simpl; lia. Qed.

Lemma waiting_0 pcs : waiting pcs = O <-> AtSgi ∉ pcs.
Proof.
  induction pcs as [|[] pcs IH]; simpl; rewrite ?not_elem_of_cons.
  - split; [intros _; apply not_elem_of_nil|done].
  - naive_solver lia.
  - rewrite IH. naive_solver.
  - rewrite IH. naive_solver.
Qed.

Section Cluster.
Context `{Env} {V : Type} `{!Has ipi V} `{!Has pm V} `{!Indep ipi pm V}.

(** The processors share the device, the trace of it and the statics. *)
Record cluster := Cluster {
  cdev : Dev;
  clog : list event;
  cvars : V;
  pcs : list core_pc
}.

(** The critical section excludes other processors, so it is one step; so is
    the rest, which reads the shared count once. *)
Inductive cstep : cluster -> cluster -> Prop :=
| step_enter d l v l1 l2 d' l' h' v' :
    sgi7_enter (St d l [] v) = (Ret tt, St d' l' h' v') ->
    cstep (Cluster d l v (l1 ++ AtSgi :: l2)) (Cluster d' l' v' (l1 ++ Cleaned :: l2))
| step_finish d l v l1 l2 d' l' h' v' :
    sgi7_finish (St d l [] v) = (Halt Parked, St d' l' h' v') ->
    cstep (Cluster d l v (l1 ++ Cleaned :: l2)) (Cluster d' l' v' (l1 ++ InWfi :: l2)).

Lemma sgi7_enter_run d l h (v : V) : inc_lock ∉ h -> exists d' new,
  sgi7_enter (St d l h v) =
    (Ret tt, St d' (new ++ l) h (sput (set_active_cores (active_cores (sget v) - 1) (sget v)) v)) /\
  restart_trace new /\ shutdowns new = O.
Proof.
  intros Hh. unfold sgi7_enter. rewrite run_bind_lock, bool_decide_eq_false_2 by done. run.
  change (steps 0 4 1) with [0; 1; 2; 3]. cbn [for_each]. run. rewrite unlock_lock by done.
  eexists _, [_; _; _; _; _; _; _]. split; [reflexivity|].
  split; [|reflexivity]. split; [repeat constructor|]. constructor.
Qed.

Lemma scope_range z : 0 <= (z .& RESTART_SCOPE_MASK) .>> RESTART_SCOPE_SHIFT <= 3.
Proof.
  unfold RESTART_SCOPE_MASK, RESTART_SCOPE_SHIFT. change (0x3 .<< 3) with (Z.shiftl 3 3).
  rewrite Z.shiftr_land. change (Z.shiftl 3 3 .>> 3) with (2 ^ 2 - 1). rewrite land_low by lia.
  pose proof (Z.mod_pos_bound (z .>> 3) (2 ^ 2)). lia.
Qed.

(** Asking for the reset: the scope is read from the PMU first. *)
Lemma ask_reset_run d l h (v : V) : ipi_up (sget v) -> pmu_answers -> pm_secure_lock ∉ h ->
  exists d' new,
    (r <- pm_mmio_read PMU_GLOBAL_GEN_STORAGE4 (uninit 0) ;;
     let value := (r.2 .& RESTART_SCOPE_MASK) .>> RESTART_SCOPE_SHIFT in
     _ <- pm_system_shutdown PMF_SHUTDOWN_TYPE_RESET value ;;
     ret tt) (St d l h v) = (Ret tt, St d' (new ++ l) h v) /\
    restart_trace new /\ shutdowns new = 1%nat.
Proof.
  intros Hv Ha Hh. unfold pm_mmio_read, sync_out1, sync_out. rewrite !run_bind_assoc.
  destruct (send_sync_served (PM_PACK_PAYLOAD [PM_MMIO_READ; PMU_GLOBAL_GEN_STORAGE4]) 1 1 d l h v
    Hv Ha) as (r & ws & d1 & n1 & E1 & _ & _ & S1 & _);
    [by apply payload_length; simpl; lia|done|simpl; lia|lia|].
  cbn [length]. rewrite (bind_run _ _ _ _ _ E1). run. clear E1. cbv zeta.
  set (x := hd _ _). pose proof (scope_range x) as Hx.
  set (value := (x .& RESTART_SCOPE_MASK) .>> RESTART_SCOPE_SHIFT) in *.
  set (p := PM_PACK_PAYLOAD [PM_SYSTEM_SHUTDOWN; PMF_SHUTDOWN_TYPE_RESET; value]).
  destruct (served_send v Hv Ha (fun new => forall k, sent k new = sent k (request_trace p)) p false
    (fun new _ Hs => Hs)) with (d := d1) (l := n1 ++ l) (h := h)
    as (r2 & d2 & n2 & E2 & S2); [by apply payload_length; simpl; lia|done|].
  unfold pm_system_shutdown. change (PMF_SHUTDOWN_TYPE_RESET =? PMF_SHUTDOWN_TYPE_SETSCOPE_ONLY) with false.
  cbn match. fold p. rewrite (bind_run _ _ _ _ _ E2). run.
  exists d2, (n2 ++ n1). rewrite (assoc_L (++)). split; [reflexivity|]. split.
  - apply (trace_app (T := restart_trace)); (split; [by apply Forall_true|]).
    + rewrite !S1. repeat constructor.
    + rewrite !S2. constructor; [|constructor]. right. split; [done|]. split; [done|].
      change (0 <= u32 (u32 value) <= 3). rewrite u32_u32, u32_small; lia.
  - rewrite shutdowns_app. unfold shutdowns. by rewrite S1, S2.
Qed.

Lemma sgi7_finish_run d l h (v : V) : ipi_up (sget v) -> pmu_answers -> pm_secure_lock ∉ h ->
  exists d' new,
    sgi7_finish (St d l h v) = (Halt Parked, St d' (new ++ l) h v) /\ restart_trace new /\
    shutdowns new = if active_cores (sget v) =? 0 then 1%nat else O.
Proof.
  intros Hv Ha Hh. unfold sgi7_finish, park. run. destruct (active_cores (sget v) =? 0).
  - destruct (ask_reset_run d l h v Hv Ha Hh) as (d' & new & E & T & S).
    rewrite (bind_run _ _ _ _ _ E). run. exists d', ([EvWfi] ++ new). split; [reflexivity|].
    split; [|by rewrite shutdowns_app, S]. apply (trace_app (T := restart_trace) new [EvWfi] T).
    split; [repeat constructor|constructor].
  - run. exists d, [EvWfi]. split; [reflexivity|]. split; [|done]. split; [repeat constructor|constructor].
Qed.

(** What the reachable states of [n] processors satisfy after [k] steps. *)
Definition cluster_inv (n k : nat) (l : list event) (c : cluster) : Prop :=
  ipi_up (sget (cvars c)) /\ active_cores (sget (cvars c)) = Z.of_nat (waiting (pcs c)) /\
  (k + steps_left (pcs c) = 2 * n)%nat /\
  exists new, clog c = new ++ l /\ restart_trace new /\
    (waiting (pcs c) <> O -> shutdowns new = O) /\
    (waiting (pcs c) = O -> Cleaned ∈ pcs c \/ shutdowns new <> O).

Lemma cstep_inv n k l c c' : pmu_answers -> cluster_inv n k l c -> cstep c c' ->
  cluster_inv n (S k) l c'.
Proof.
  intros Ha (Hv & Hn & Hk & new & Hl & Ht & H1 & H2) Hs. destruct Hs as [d l0 v l1 l2 d' l' h' v' E|d l0 v l1 l2 d' l' h' v' E].
  - simpl in *. destruct (sgi7_enter_run d l0 [] v) as (d1 & n1 & E1 & T1 & S1); [apply not_elem_of_nil|].
    rewrite E1 in E. injection E as <- <- <- <-.
    rewrite waiting_app, steps_left_app in *. simpl in *.
    split; [simpl; by rewrite sget_indep|]. simpl. rewrite sget_sput, waiting_app, steps_left_app. simpl.
    split; [lia|]. split; [lia|]. exists (n1 ++ new). rewrite Hl, shutdowns_app, S1, (assoc_L (++)).
    split; [done|]. split; [by apply (trace_app (T := restart_trace))|].
    split; [intros _; rewrite H1 by lia; done|]. intros _. left. set_solver.
  - simpl in *. destruct (sgi7_finish_run d l0 [] v Hv Ha) as (d1 & n1 & E1 & T1 & S1);
      [apply not_elem_of_nil|].
    rewrite E1 in E. injection E as <- <- <- <-.
    rewrite waiting_app, steps_left_app in *. simpl in *.
    split; [done|]. simpl. rewrite waiting_app, steps_left_app. simpl.
    split; [lia|]. split; [lia|]. exists (n1 ++ new). rewrite Hl, shutdowns_app, S1, Hn, (assoc_L (++)).
    split; [done|]. split; [by apply (trace_app (T := restart_trace))|]. split; intros Hw.
    + rewrite H1, (proj2 (Z.eqb_neq _ _)) by lia. done.
    + right. rewrite (proj2 (Z.eqb_eq _ _)) by lia. lia.
Qed.

Lemma cluster_progress c : pmu_answers -> ipi_up (sget (cvars c)) ->
  Exists (fun pc => pc <> InWfi) (pcs c) -> exists c', cstep c c'.
Proof.
  intros Ha Hv He. apply Exists_exists in He as (pc & Hin & Hne).
  apply list_elem_of_split in Hin as (l1 & l2 & Hp). destruct c as [d l v ps]. simpl in *. subst ps.
  destruct pc; [| |done].
  - destruct (sgi7_enter_run d l [] v) as (d' & new & E & _); [apply not_elem_of_nil|].
    eexists. by eapply step_enter.
  - destruct (sgi7_finish_run d l [] v Hv Ha) as (d' & new & E & _); [apply not_elem_of_nil|].
    eexists. by eapply step_finish.
Qed.

Lemma cluster_reach n k d l v c : pmu_answers -> (0 < n)%nat -> ipi_up (sget v) ->
  active_cores (sget v) = Z.of_nat n ->
  nsteps cstep k (Cluster d l v (replicate n AtSgi)) c -> cluster_inv n k l c.
Proof.
  intros Ha Hn Hv Hc Hs.
  assert (H0 : cluster_inv n 0 l (Cluster d l v (replicate n AtSgi))).
  { assert (Hw : waiting (replicate n AtSgi) = n) by (clear; induction n; simpl; lia).
    assert (Hl : steps_left (replicate n AtSgi) = (2 * n)%nat) by (clear; induction n; simpl; lia).
    split; [done|]. simpl. rewrite Hw, Hl. split; [done|]. split; [done|]. exists [].
    split; [done|]. split; [apply trace_nil|]. split; [done|]. lia. }
  clear Hc. revert c Hs. induction k as [|k IH]; intros c Hs; [by inversion Hs|].
  apply nsteps_inv_r in Hs as (c1 & Hs & Hstep). by eapply cstep_inv; [|apply IH|].
Qed.

(** C13: the last processor resets the system.  Let [n] > 0 processors, counted
    in [active_cores], take SGI 7, in any interleaving of their critical
    sections and of what follows them.  Then at most 2n steps are possible; as
    long as a processor has not entered its critical section no shutdown is
    requested; a state in which some processor is not yet in [wfi] can always
    step; when all are in [wfi] a shutdown has been requested; and the PMU is
    asked for nothing but the restart scope and a reset with one of the four
    scopes. *)
Theorem last_core_resets n k d l v c :
  pmu_answers -> (0 < n)%nat -> ipi_up (sget v) -> active_cores (sget v) = Z.of_nat n ->
  nsteps cstep k (Cluster d l v (replicate n AtSgi)) c ->
  (k <= 2 * n)%nat /\
  (Exists (fun pc => pc <> InWfi) (pcs c) -> exists c', cstep c c') /\
  exists new, clog c = new ++ l /\
    Forall3 restart_request (sent 0 new) (sent 1 new) (sent 2 new) /\
    (AtSgi ∈ pcs c -> shutdowns new = O) /\
    (Forall (fun pc => pc = InWfi) (pcs c) -> (0 < shutdowns new)%nat).
Proof.
  intros Ha Hn Hv Hc Hs.
  destruct (cluster_reach n k d l v c Ha Hn Hv Hc Hs) as (Hv' & Hn' & Hk & new & Hl & Ht & H1 & H2).
  split; [lia|]. split.
  - intros He. by apply cluster_progress.
  - exists new. split; [done|]. split; [apply Ht|]. split.
    + intros Hin. apply H1. intros H0. by apply waiting_0 in H0.
    + intros Hall. destruct H2 as [Hcl|]; [|rewrite list.Forall_forall in Hall; by apply Hall in Hcl|lia].
      apply waiting_0. intros Hin. rewrite list.Forall_forall in Hall. by apply Hall in Hin.
Qed.

End Cluster.

(** ** Setup of the service *)

Section Setup.
Context `{Env} {V : Type} `{!Has ipi V} `{!Has pm V} `{!Has gic V} `{!Has intr_mgmt V} `{!Has swdt V}.
Context `{!Indep swdt pm V} `{!Indep pm swdt V}.

Lemma pm_ipi_init_run d l h (v : V) : ipi_up (sget v) -> exists d' new,
  pm_ipi_init primary_proc (St d l h v) = (Ret 0, St d' (new ++ l) h v) /\ answers new = [].
Proof.
  intros Hv. unfold pm_ipi_init, ipi_mb_open, ipi_poke, IPI_REG_BASE, IPI_BIT_MASK.
  cbn [proc_ipi primary_proc apu_ipi local_ipi_id remote_ipi_id].
  change IPI_ID_APU with 0. change IPI_ID_PMU0 with 3. rewrite !run_bind_assoc.
  rewrite (bind_run _ _ _ _ _ (entry_apu d l h v Hv)). run.
  rewrite (bind_run _ _ _ _ _ (entry_pmu0 _ _ _ v Hv)). run.
  rewrite (bind_run _ _ _ _ _ (entry_apu _ _ _ v Hv)). run.
  rewrite (bind_run _ _ _ _ _ (entry_pmu0 _ _ _ v Hv)). run.
  eexists _, [_; _]. split; reflexivity.
Qed.

(** A request for one word returns the word the PMU answers. *)
Lemma sync_out1_answer args value d l h (v : V) :
  ipi_up (sget v) -> pmu_answers -> pm_secure_lock ∉ h -> (length args <= 6)%nat ->
  exists r w d' new,
    sync_out1 (PM_PACK_PAYLOAD args) value (St d l h v) = (Ret (r, w), St d' (new ++ l) h v) /\
    answers new = [w].
Proof.
  intros Hv Ha Hh Hl. pose proof (payload_length args Hl) as Hp.
  destruct (PM_PACK_PAYLOAD args) as [|w0 [|w1 [|w2 [|w3 [|w4 [|w5 [|]]]]]]]; try discriminate.
  unfold sync_out1, sync_out. rewrite !run_bind_assoc.
  destruct (send_sync_run w0 w1 w2 w3 w4 w5 1 1 d l h v Hv Ha Hh)
    as (r & ws & d' & waits & st & E & _ & Hlen & Hw & _); [lia|].
  cbn [length]. rewrite (bind_run _ _ _ _ _ E). run. destruct ws as [|w [|]]; simpl in Hlen; try lia.
  exists r, w, d', ([EvUnlock pm_secure_lock; EvRd W32 resp_buffer st] ++
    resp_trace resp_buffer 1 [w] ++ waits ++ request_trace [w0; w1; w2; w3; w4; w5] ++
    [EvLock pm_secure_lock]).
  split; [|by rewrite !observe_app, (answers_obr waits Hw)].
  cbn [fst snd hd app]. do 2 f_equal. by rewrite <- !(assoc_L (++)).
Qed.

Lemma request_el3 id hd d l h (v : V) : table_ok (sget v) -> 0 <= id < MAX_INTR_EL3 ->
  exists v', request_intr_type_el3 id (Some hd) (St d l h v) =
    (Ret (if bool_decide (is_Some (lookup_el3 (sget v) id)) then - EALREADY else 0), St d l h v') /\
    table_ok (sget v') /\ sget (S := pm) v' = sget v /\
    forall id', lookup_el3 (sget v') id' =
      if (id' =? id) && negb (bool_decide (is_Some (lookup_el3 (sget v) id))) then Some hd
      else lookup_el3 (sget v) id'.
Proof.
  intros Hok Hid. pose proof (request_run id (Some hd) d l h v Hok (proj1 Hid)) as Hr.
  unfold request_code in Hr. rewrite bool_decide_eq_true_2 in Hr by done.
  rewrite (proj2 (Z.leb_gt _ _)) in Hr by lia. cbn [negb orb] in Hr.
  destruct (bool_decide (is_Some (lookup_el3 (sget v) id))); rewrite Hr.
  - exists v. split; [done|]. split; [done|]. split; [done|]. intros id'. by rewrite andb_false_r.
  - eexists. split; [reflexivity|]. change (0 =? 0) with true. cbn match.
    split; [rewrite sget_sput; unfold table_ok in *; simpl; by rewrite length_insert|].
    split; [by rewrite sget_indep|]. intros id'.
    rewrite sget_sput, lookup_el3_set, andb_true_r by done. done.
Qed.

(** Setting the service up.  With the transport up and a PMU that answers,
    the setup returns; it stores the version the PMU reports.  A version older
    than the one compiled in makes it fail with -EINVAL before any handler is
    registered, and the service stays down.  Otherwise SGI 7 and then the TTC3
    interrupt get their handlers unless their entries are taken; the service is
    up exactly when both were free. *)
Theorem pm_setup_contract d l h (v : V) :
  ipi_up (sget v) -> pmu_answers -> pm_secure_lock ∉ h -> table_ok (sget v) ->
  let taken id := bool_decide (is_Some (lookup_el3 (sget v) id)) in
  exists ver d' new v',
    pm_setup (St d l h v) =
      (Ret (if ver <? PM_VERSION then - EINVAL
            else if taken ARM_IRQ_SEC_SGI_7 || taken IRQ_TTC3_1 then - EALREADY else 0),
       St d' (new ++ l) h v') /\
    answers new = [ver] /\ api_version (sget v') = ver /\
    (if ver <? PM_VERSION then pm_up (sget v') = pm_up (sget v) /\ sget (S := swdt) v' = sget v
     else pm_up (sget v') = b2z (negb (taken ARM_IRQ_SEC_SGI_7 || taken IRQ_TTC3_1)) /\
       forall id, lookup_el3 (sget v') id =
         if (id =? ARM_IRQ_SEC_SGI_7) && negb (taken ARM_IRQ_SEC_SGI_7) then Some zynqmp_sgi7_irq_ptr
         else if (id =? IRQ_TTC3_1) && negb (taken ARM_IRQ_SEC_SGI_7 || taken IRQ_TTC3_1)
         then Some ttc_fiq_handler_ptr else lookup_el3 (sget v) id).
Proof.
  intros Hv Ha Hh Hok taken. unfold pm_setup.
  destruct (pm_ipi_init_run d l h v Hv) as (d1 & n1 & E1 & A1).
  rewrite (bind_run _ _ _ _ _ E1). run. unfold pm_get_api_version.
  destruct (sync_out1_answer [PM_GET_API_VERSION] (api_version (sget v)) d1 (n1 ++ l) h v Hv Ha Hh)
    as (r & ver & d2 & n2 & E2 & A2); [simpl; lia|].
  rewrite (bind_run _ _ _ _ _ E2). run. cbn [api_version set_api_version].
  set (v1 := sput _ v).
  assert (Hok1 : table_ok (sget v1)) by (unfold v1; by rewrite sget_indep).
  exists ver, d2, (n2 ++ n1). rewrite observe_app, A1, A2.
  destruct (ver <? PM_VERSION) eqn:Ev.
  { exists v1. unfold v1. rewrite <- (assoc_L (++)). run. done. }
  destruct (request_el3 ARM_IRQ_SEC_SGI_7 zynqmp_sgi7_irq_ptr d2 (n2 ++ n1 ++ l) h v1 Hok1)
    as (v2 & R1 & Hok2 & Hpm2 & L2); [done|].
  unfold pm_wdt_restart_setup. rewrite run_bind_assoc, (bind_run _ _ _ _ _ R1).
  assert (Hv1 : lookup_el3 (sget v1) = lookup_el3 (sget v)) by (unfold v1; by rewrite sget_indep).
  rewrite Hv1 in *. fold (taken ARM_IRQ_SEC_SGI_7) in *.
  destruct (taken ARM_IRQ_SEC_SGI_7) eqn:T1.
  - change (truthy (- EALREADY)) with true. cbn match. run.
    eexists. rewrite <- (assoc_L (++)). split; [reflexivity|]. run. cbn [api_version set_pm_up pm_up].
    rewrite Hpm2. unfold v1. run. split; [done|]. split; [done|]. split; [done|].
    intros id. rewrite L2. by rewrite !andb_false_r.
  - change (truthy 0) with false. cbn match.
    destruct (request_el3 IRQ_TTC3_1 ttc_fiq_handler_ptr d2 (n2 ++ n1 ++ l) h v2 Hok2)
      as (v3 & R2 & Hok3 & Hpm3 & L3); [done|].
    rewrite (bind_run _ _ _ _ _ R2). rewrite !L2 in *. cbn [negb] in *.
    change (IRQ_TTC3_1 =? ARM_IRQ_SEC_SGI_7) with false in *. cbn [andb] in *.
    fold (taken IRQ_TTC3_1) in *. run.
    assert (Hpm : forall x, sget (S := pm) (sput (set_pm_up x (sget v3)) v3) =
      set_pm_up x (set_api_version ver (sget v))).
    { intros x. rewrite sget_sput, Hpm3, Hpm2. unfold v1. by rewrite sget_sput. }
    destruct (taken IRQ_TTC3_1) eqn:T2; (eexists; rewrite <- (assoc_L (++)); split; [reflexivity|]);
      rewrite Hpm, sget_indep; (split; [done|]); (split; [done|]); (split; [done|]);
      intros id; rewrite L3, L2; cbn [orb negb]; rewrite ?andb_true_r, ?andb_false_r; [done|].
    destruct (id =? IRQ_TTC3_1) eqn:Ei; [|done]. zbool. by subst.
Qed.

End Setup.

(** ** The statics of BL31 *)

Record bl31_image := Bl31 {
  b_gic : gic;
  b_intr : intr_mgmt;
  b_swdt : swdt;
  b_ipi : ipi;
  b_pm : pm
}.

#[export] Instance bl31_has_gic : Has gic bl31_image := {
  sget := b_gic;
  sput x v := Bl31 x (b_intr v) (b_swdt v) (b_ipi v) (b_pm v);
  sget_sput _ _ := eq_refl;
  sput_sget v := match v with Bl31 _ _ _ _ _ => eq_refl end;
  sput_sput _ _ _ := eq_refl
}.
#[export] Instance bl31_has_intr_mgmt : Has intr_mgmt bl31_image := {
  sget := b_intr;
  sput x v := Bl31 (b_gic v) x (b_swdt v) (b_ipi v) (b_pm v);
  sget_sput _ _ := eq_refl;
  sput_sget v := match v with Bl31 _ _ _ _ _ => eq_refl end;
  sput_sput _ _ _ := eq_refl
}.
#[export] Instance bl31_has_swdt : Has swdt bl31_image := {
  sget := b_swdt;
  sput x v := Bl31 (b_gic v) (b_intr v) x (b_ipi v) (b_pm v);
  sget_sput _ _ := eq_refl;
  sput_sget v := match v with Bl31 _ _ _ _ _ => eq_refl end;
  sput_sput _ _ _ := eq_refl
}.
#[export] Instance bl31_has_ipi : Has ipi bl31_image := {
  sget := b_ipi;
  sput x v := Bl31 (b_gic v) (b_intr v) (b_swdt v) x (b_pm v);
  sget_sput _ _ := eq_refl;
  sput_sget v := match v with Bl31 _ _ _ _ _ => eq_refl end;
  sput_sput _ _ _ := eq_refl
}.
#[export] Instance bl31_has_pm : Has pm bl31_image := {
  sget := b_pm;
  sput x v := Bl31 (b_gic v) (b_intr v) (b_swdt v) (b_ipi v) x;
  sget_sput _ _ := eq_refl;
  sput_sget v := match v with Bl31 _ _ _ _ _ => eq_refl end;
  sput_sput _ _ _ := eq_refl
}.
#[export] Instance bl31_gic_pm : Indep gic pm bl31_image := fun _ _ => eq_refl.
#[export] Instance bl31_ipi_pm : Indep ipi pm bl31_image := fun _ _ => eq_refl.
#[export] Instance bl31_swdt_pm : Indep swdt pm bl31_image := fun _ _ => eq_refl.
#[export] Instance bl31_pm_swdt : Indep pm swdt bl31_image := fun _ _ => eq_refl.
#[export] Instance bl31_gic_swdt : Indep gic swdt bl31_image := fun _ _ => eq_refl.
#[export] Instance bl31_swdt_gic : Indep swdt gic bl31_image := fun _ _ => eq_refl.
#[export] Instance bl31_pm_gic : Indep pm gic bl31_image := fun _ _ => eq_refl.
#[export] Instance bl31_gic_intr_mgmt : Indep gic intr_mgmt bl31_image := fun _ _ => eq_refl.
#[export] Instance bl31_intr_mgmt_gic : Indep intr_mgmt gic bl31_image := fun _ _ => eq_refl.
#[export] Instance bl31_swdt_intr_mgmt : Indep swdt intr_mgmt bl31_image := fun _ _ => eq_refl.
#[export] Instance bl31_intr_mgmt_swdt : Indep intr_mgmt swdt bl31_image := fun _ _ => eq_refl.

(** The driver up with all target masks known, nothing registered. *)
Definition bl31_booted : bl31_image :=
  Bl31 (GicVars (Some arm_gic_data) [1; 2; 4; 8]) blank Swdt.bss ipi_booted pm_bss.

(** ** Witnesses: the PMU answers at once, with 1 as first word *)

Definition on_board (w : Z) : Env := {|
  Dev := unit;
  hw_read _ a d := (if a =? resp_buffer + 4 then w else 0, d);
  hw_write _ _ _ d := d;
  hw_call _ _ d := (0, d);
  poll_bound := 1;
  uninit k := Z.of_nat k
|}.

Lemma on_board_answers w : pmu_answers (H := on_board w).
Proof. intros []. by exists tt. Qed.


(** One processor takes the SGI and asks for the reset. *)
Lemma last_core_resets_witness :
  exists c : cluster (H := on_board 8) (V := bl31_image), pcs c = [InWfi] /\
    exists new, clog c = new ++ [] /\ (0 < shutdowns new)%nat.
Proof.
  pose (v := Bl31 (b_gic bl31_booted) blank Swdt.bss ipi_booted (set_active_cores 1 pm_bss)).
  assert (Hs : exists c, nsteps (cstep (H := on_board 8)) 2
      (Cluster (H := on_board 8) tt [] v (replicate 1 AtSgi)) c /\ pcs c = [InWfi]).
  { destruct (sgi7_enter_run (H := on_board 8) tt [] [] v) as (d1 & n1 & E1 & _);
      [apply not_elem_of_nil|].
    destruct (sgi7_finish_run (H := on_board 8) d1 (n1 ++ []) []
      (sput (set_active_cores (active_cores (sget v) - 1) (sget v)) v)) as (d2 & n2 & E2 & _);
      [reflexivity|apply on_board_answers|apply not_elem_of_nil|].
    exists (Cluster (H := on_board 8) d2 (n2 ++ n1 ++ [])
      (sput (set_active_cores (active_cores (sget v) - 1) (sget v)) v) [InWfi]). split; [|reflexivity].
    eapply nsteps_l; [exact (step_enter (H := on_board 8) _ _ _ [] [] _ _ _ _ E1)|].
    eapply nsteps_l; [exact (step_finish (H := on_board 8) _ _ _ [] [] _ _ _ _ E2)|apply nsteps_O]. }
  destruct Hs as (c & Hs & Hc). exists c. split; [exact Hc|].
  destruct (last_core_resets (H := on_board 8) 1 2 tt [] v c) as (_ & _ & new & Hl & _ & _ & Hsd).
  - apply on_board_answers.
  - lia.
  - reflexivity.
  - reflexivity.
  - exact Hs.
  - exists new. split; [exact Hl|]. apply Hsd. rewrite Hc. repeat constructor.
Defined.

Lemma pm_setup_contract_witness :
  exists d' new v',
    pm_setup (H := on_board PM_VERSION) (St (H := on_board PM_VERSION) tt [] [] bl31_booted) =
      (Ret 0, St (H := on_board PM_VERSION) d' (new ++ []) [] v') /\ pm_up (b_pm v') = 1.
Proof.
  destruct (pm_setup_contract (H := on_board PM_VERSION) (V := bl31_image) tt [] [] bl31_booted)
    as (ver & d' & new & v' & E & A & Hver & Hrest).
  - reflexivity.
  - apply on_board_answers.
  - apply not_elem_of_nil.
  - reflexivity.
  - assert (Hr : fst (pm_setup (H := on_board PM_VERSION)
      (St (H := on_board PM_VERSION) tt [] [] bl31_booted)) = Ret 0) by reflexivity.
    rewrite E in Hr. destruct (ver <? PM_VERSION); [discriminate Hr|].
    exists d', new, v'. split; [exact E|]. exact (proj1 Hrest).
Defined.

End PmRestart.
