(* ===== verification/PmSvc.v ===== *)
(** * The SMC handlers of the SiP service

    [pm_smc_handler] and [em_smc_handler] of pm_service/pm_svc_main.c and the
    top-level handler of plat/xilinx/zynqmp/sip_svc_setup.c.  A handler's result
    is the list of the caller's registers x0, x1, ... that the SMC_RETn macro
    writes.  Variables that C leaves uninitialised are [uninit].  The register
    MPIDR_EL1 of the executing processor is an argument. *)

From S2P Require Import Prelude Machine Gic IntrMgmt Swdt Ipi PmDefs PmIpi PmReq ClockData PmClock.
From S2P Require Import PmPinctrl PmClient PmIoctl PmApi PmRestart.
From stdpp Require Import sets.
Import Ipi PmDefs PmIpi PmReq ClockData PmClock PmPinctrl PmClient PmIoctl PmApi PmRestart.
#[local] Open Scope Z_scope.
#[local] Open Scope c_scope.

Module PmSvc.

Definition PM_GET_CALLBACK_DATA : Z := 0xa01.
Definition PM_SET_SUSPEND_MODE : Z := 0xa02.
Definition PM_GET_TRUSTZONE_VERSION : Z := 0xa03.
Definition ZYNQMP_TZ_VERSION_MAJOR : Z := 1.
Definition ZYNQMP_TZ_VERSION_MINOR : Z := 0.
Definition ZYNQMP_TZ_VERSION : Z := (ZYNQMP_TZ_VERSION_MAJOR .<< 16) .| ZYNQMP_TZ_VERSION_MINOR.
Definition FUNCID_NUM_MASK : Z := 0xffff.

Definition PM_FID_MASK : Z := 0xf000.
Definition PM_FID_VALUE : Z := 0.
Definition IPI_FID_VALUE : Z := 0x1000.
Definition EM_FID_MASK : Z := 0xf0000.
Definition EM_FID_VALUE : Z := 0xE0000.
Definition is_em_fid (fid : Z) : bool := (fid .& EM_FID_MASK) =? EM_FID_VALUE.
Definition is_pm_fid (fid : Z) : bool := (fid .& PM_FID_MASK) =? PM_FID_VALUE.
Definition is_ipi_fid (fid : Z) : bool := (fid .& PM_FID_MASK) =? IPI_FID_VALUE.

Definition ZYNQMP_SIP_SVC_CALL_COUNT : Z := 0x8200ff00.
Definition ZYNQMP_SIP_SVC_UID : Z := 0x8200ff01.
Definition ZYNQMP_SIP_SVC_VERSION : Z := 0x8200ff03.
Definition SIP_SVC_VERSION_MAJOR : Z := 0.
Definition SIP_SVC_VERSION_MINOR : Z := 1.

(** [uuid_t] as its sixteen bytes; the macro packs them big-endian, the answer
    is read back as four little-endian words. *)
Definition DEFINE_SVC_UUID2 (tl tm th cl ch n0 n1 n2 n3 n4 n5 : Z) : list Z :=
  [(tl .>> 24) .& 0xFF; (tl .>> 16) .& 0xFF; (tl .>> 8) .& 0xFF; tl .& 0xFF;
   (tm .>> 8) .& 0xFF; tm .& 0xFF; (th .>> 8) .& 0xFF; th .& 0xFF;
   cl; ch; n0; n1; n2; n3; n4; n5].
Definition smc_uuid_word (b0 b1 b2 b3 : Z) : Z :=
  b0 .| (b1 .<< 8) .| (b2 .<< 16) .| (b3 .<< 24).
Definition zynqmp_sip_uuid : list Z :=
  DEFINE_SVC_UUID2 0x5c9b1b2a 0x0586 0x2340 0xa6 0x1b 0xb9 0x25 0x82 0x2d 0xe3 0xa5.

Section Ops.
Context `{Env} {V : Type} `{!Has ipi V} `{!Has pm V} `{!Has Gic.gic V} `{!Has IntrMgmt.intr_mgmt V}
  `{!Has Swdt.swdt V}.

(** [SMC_RET1] and [SMC_RET2], and [SMC_RET1] of a status in x0 with a word above
    it. *)
Definition SMC_RET1 (x0 : Z) : M V (list Z) := ret [u64 x0].
Definition SMC_RET2 (x0 x1 : Z) : M V (list Z) := ret [u64 x0; u64 x1].
Definition ret_status (m : M V Z) : M V (list Z) := r <- m ;; SMC_RET1 r.
Definition ret_word (m : M V (Z * Z)) : M V (list Z) :=
  r <- m ;; SMC_RET1 (r.1 .| shl64 r.2 32).

(** The first word of an array beside the status, the others in x1. *)
Definition ret_two (m : M V (Z * list Z)) : M V (list Z) :=
  r <- m ;;
  a <- aread r.2 0 ;;
  b <- aread r.2 1 ;;
  SMC_RET2 (r.1 .| shl64 a 32) b.
Definition ret_four (m : M V (list Z)) : M V (list Z) :=
  r <- m ;;
  a <- aread r 0 ;;
  b <- aread r 1 ;;
  c <- aread r 2 ;;
  e <- aread r 3 ;;
  SMC_RET2 (a .| shl64 b 32) (c .| shl64 e 32).

Definition pm_smc_handler (mpidr_el1 smc_fid x1 x2 : Z) : M V (list Z) :=
  up <- gets pm_up ;;
  if negb (truthy up) then SMC_RET1 SMC_UNK
  else
    let a0 := u32 x1 in
    let a1 := u32 (x1 .>> 32) in
    let a2 := u32 x2 in
    let a3 := u32 (x2 .>> 32) in
    let f := smc_fid .& FUNCID_NUM_MASK in
    let unset := uninit 0 in
    if f =? PM_SELF_SUSPEND then ret_status (pm_self_suspend mpidr_el1 a0 a1 a2 a3)
    else if f =? PM_REQ_SUSPEND then ret_status (pm_req_suspend a0 a1 a2 a3)
    else if f =? PM_REQ_WAKEUP then
      let set_addr := a1 .& 0x1 in
      let address := shl64 a2 32 .| (a1 .& not32 0x1) in
      ret_status (pm_req_wakeup a0 set_addr address a3)
    else if f =? PM_FORCE_POWERDOWN then ret_status (pm_force_powerdown a0 a1)
    else if f =? PM_ABORT_SUSPEND then ret_status (pm_abort_suspend a0)
    else if f =? PM_SET_WAKEUP_SOURCE then ret_status (pm_set_wakeup_source a0 a1 a2)
    else if f =? PM_SYSTEM_SHUTDOWN then ret_status (pm_system_shutdown a0 a1)
    else if f =? PM_REQ_NODE then ret_status (pm_req_node a0 a1 a2 a3)
    else if f =? PM_RELEASE_NODE then ret_status (pm_release_node a0)
    else if f =? PM_SET_REQUIREMENT then ret_status (pm_set_requirement a0 a1 a2 a3)
    else if f =? PM_SET_MAX_LATENCY then ret_status (pm_set_max_latency a0 a1)
    else if f =? PM_GET_API_VERSION then
      ver <- gets api_version ;;
      if ver >=? PM_VERSION then
        flag <- gets ipi_irq_flag ;;
        (if negb (truthy flag) then
           pm_ipi_irq_enable primary_proc ;;
           mods (set_ipi_irq_flag 1)
         else ret tt) ;;
        ver <- gets api_version ;;
        SMC_RET1 (PM_RET_SUCCESS .| shl64 ver 32)
      else (* falls through into the next case *)
        ret_status (pm_set_configuration a0)
    else if f =? PM_SET_CONFIGURATION then ret_status (pm_set_configuration a0)
    else if f =? PM_INIT_FINALIZE then ret_status pm_init_finalize
    else if f =? PM_GET_NODE_STATUS then
      r <- pm_get_node_status a0 [uninit 0; uninit 1; uninit 2] ;;
      b0 <- aread r.2 0 ;;
      b1 <- aread r.2 1 ;;
      b2 <- aread r.2 2 ;;
      SMC_RET2 (r.1 .| shl64 b0 32) (b1 .| shl64 b2 32)
    else if f =? PM_GET_OP_CHARACTERISTIC then ret_word (pm_get_op_characteristic a0 a1 unset)
    else if f =? PM_REGISTER_NOTIFIER then ret_status (pm_register_notifier a0 a1 a2 a3)
    else if f =? PM_RESET_ASSERT then ret_status (pm_reset_assert a0 a1)
    else if f =? PM_RESET_GET_STATUS then ret_word (pm_reset_get_status a0 unset)
    else if f =? PM_MMIO_WRITE then ret_status (pm_mmio_write a0 a1 a2)
    else if f =? PM_MMIO_READ then ret_word (pm_mmio_read a0 unset)
    else if f =? PM_FPGA_LOAD then ret_status (pm_fpga_load a0 a1 a2 a3)
    else if f =? PM_FPGA_GET_STATUS then ret_word (pm_fpga_get_status unset)
    else if f =? PM_GET_CHIPID then ret_two (pm_get_chipid [uninit 0; uninit 1])
    else if f =? PM_SECURE_RSA_AES then ret_status (pm_secure_rsaaes a0 a1 a2 a3)
    else if f =? PM_GET_CALLBACK_DATA then ret_four (pm_get_callbackdata [0; 0; 0; 0] 4)
    else if f =? PM_PINCTRL_REQUEST then ret_status (pm_pinctrl_request a0)
    else if f =? PM_PINCTRL_RELEASE then ret_status (pm_pinctrl_release a0)
    else if f =? PM_PINCTRL_GET_FUNCTION then ret_word (pm_pinctrl_get_function a0 0)
    else if f =? PM_PINCTRL_SET_FUNCTION then ret_status (pm_pinctrl_set_function a0 a1)
    else if f =? PM_PINCTRL_CONFIG_PARAM_GET then ret_word (pm_pinctrl_get_config a0 a1 unset)
    else if f =? PM_PINCTRL_CONFIG_PARAM_SET then ret_status (pm_pinctrl_set_config a0 a1 a2)
    else if f =? PM_IOCTL then ret_word (pm_api_ioctl a0 a1 a2 a3 unset)
    else if f =? PM_QUERY_DATA then ret_four (pm_query_data a0 a1 a2 a3 [0; 0; 0; 0])
    else if f =? PM_CLOCK_ENABLE then ret_status (pm_clock_enable a0)
    else if f =? PM_CLOCK_DISABLE then ret_status (pm_clock_disable a0)
    else if f =? PM_CLOCK_GETSTATE then ret_word (pm_clock_getstate a0 unset)
    else if f =? PM_CLOCK_SETDIVIDER then ret_status (pm_clock_setdivider a0 a1)
    else if f =? PM_CLOCK_GETDIVIDER then ret_word (pm_clock_getdivider a0 unset)
    else if f =? PM_CLOCK_SETRATE then ret_status (pm_clock_setrate a0 (shl64 a2 32 .| a1))
    else if f =? PM_CLOCK_GETRATE then
      r <- pm_clock_getrate a0 (u64 unset) ;;
      SMC_RET2 (r.1 .| shl64 (r.2 .& 0xFFFFFFFF) 32) ((r.2 .>> 32) .& 0xFFFFFFFF)
    else if f =? PM_CLOCK_SETPARENT then ret_status (pm_clock_setparent a0 a1)
    else if f =? PM_CLOCK_GETPARENT then ret_word (pm_clock_getparent a0 unset)
    else if f =? PM_GET_TRUSTZONE_VERSION then
      SMC_RET1 (PM_RET_SUCCESS .| shl64 ZYNQMP_TZ_VERSION 32)
    else if f =? PM_SET_SUSPEND_MODE then ret_status (pm_set_suspend_mode a0)
    else if f =? PM_SECURE_SHA then ret_status (pm_sha_hash a0 a1 a2 a3)
    else if f =? PM_SECURE_RSA then ret_status (pm_rsa_core a0 a1 a2 a3)
    else if f =? PM_SECURE_IMAGE then ret_two (pm_secure_image a0 a1 a2 a3 [uninit 0; uninit 1])
    else if f =? PM_FPGA_READ then ret_word (pm_fpga_read a0 a1 a2 a3 unset)
    else if f =? PM_SECURE_AES then ret_word (pm_aes_engine a0 a1 unset)
    else if f =? PM_PLL_SET_PARAMETER then ret_status (pm_pll_set_parameter a0 a1 a2)
    else if f =? PM_PLL_GET_PARAMETER then ret_word (pm_pll_get_parameter a0 a1 unset)
    else if f =? PM_PLL_SET_MODE then ret_status (pm_pll_set_mode a0 a1)
    else if f =? PM_PLL_GET_MODE then ret_word (pm_pll_get_mode a0 unset)
    else if f =? PM_REGISTER_ACCESS then ret_word (pm_register_access a0 a1 a2 a3 unset)
    else if f =? PM_EFUSE_ACCESS then ret_word (pm_efuse_access a0 a1 unset)
    else SMC_RET1 SMC_UNK.

Definition em_smc_handler (smc_fid : Z) : M V (list Z) :=
  let f := smc_fid .& FUNCID_NUM_MASK in
  let unset := uninit 0 in
  if f =? EM_SET_ACTION then ret_word (em_set_action unset)
  else if f =? EM_REMOVE_ACTION then ret_word (em_remove_action unset)
  else if f =? EM_SEND_ERRORS then ret_word (em_send_errors unset)
  else SMC_RET1 SMC_UNK.

Definition sip_svc_setup : M V Z := pm_setup.

(** [SMC_UUID_RET] *)
Definition uuid_ret (uuid : list Z) : M V (list Z) :=
  let b i := nth i uuid 0 in
  ret [smc_uuid_word (b 0%nat) (b 1%nat) (b 2%nat) (b 3%nat);
       smc_uuid_word (b 4%nat) (b 5%nat) (b 6%nat) (b 7%nat);
       smc_uuid_word (b 8%nat) (b 9%nat) (b 10%nat) (b 11%nat);
       smc_uuid_word (b 12%nat) (b 13%nat) (b 14%nat) (b 15%nat)].

Definition sip_svc_smc_handler (mpidr_el1 smc_fid x1 x2 x3 : Z) : M V (list Z) :=
  if is_em_fid smc_fid then em_smc_handler smc_fid
  else if is_pm_fid smc_fid then pm_smc_handler mpidr_el1 smc_fid x1 x2
  else if is_ipi_fid smc_fid then ret_status (ipi_smc_handler smc_fid x1 x2 x3)
  else if smc_fid =? ZYNQMP_SIP_SVC_CALL_COUNT then SMC_RET1 (PM_API_MAX + 2)
  else if smc_fid =? ZYNQMP_SIP_SVC_UID then uuid_ret zynqmp_sip_uuid
  else if smc_fid =? ZYNQMP_SIP_SVC_VERSION then
    SMC_RET2 SIP_SVC_VERSION_MAJOR SIP_SVC_VERSION_MINOR
  else SMC_RET1 SMC_UNK.

End Ops.

(** ** A service that is not up *)

(** While the service is down (its setup failed or has not run) every SiP
    call other than the error-management and mailbox ones is answered without
    any effect: call count, UUID and version are reported, everything else,
    power management included, gets the unknown-function code. *)
Theorem sip_service_down `{Env} {V : Type} `{!Has ipi V} `{!Has pm V} `{!Has Gic.gic V}
    `{!Has IntrMgmt.intr_mgmt V} `{!Has Swdt.swdt V} mpidr fid x1 x2 x3 d l h (v : V) :
  pm_up (sget v) = 0 -> is_em_fid fid = false -> is_ipi_fid fid = false ->
  sip_svc_smc_handler mpidr fid x1 x2 x3 (St d l h v) =
  (Ret (if fid =? ZYNQMP_SIP_SVC_CALL_COUNT then [56]
        else if fid =? ZYNQMP_SIP_SVC_UID then [0x2a1b9b5c; 0x40238605; 0x25b91ba6; 0xa5e32d82]
        else if fid =? ZYNQMP_SIP_SVC_VERSION then [0; 1]
        else [2 ^ 64 - 1]), St d l h v).
Proof.
  intros Hup Hem Hipi. unfold sip_svc_smc_handler. rewrite Hem, Hipi.
  destruct (is_pm_fid fid) eqn:Hpm.
  - unfold pm_smc_handler. run. rewrite Hup. cbn [truthy Z.eqb negb].
    destruct (fid =? ZYNQMP_SIP_SVC_CALL_COUNT) eqn:E0; zbool; [by subst|].
    destruct (fid =? ZYNQMP_SIP_SVC_UID) eqn:E1; zbool; [by subst|].
    destruct (fid =? ZYNQMP_SIP_SVC_VERSION) eqn:E2; zbool; [by subst|]. reflexivity.
  - destruct (fid =? ZYNQMP_SIP_SVC_CALL_COUNT); [reflexivity|].
    destruct (fid =? ZYNQMP_SIP_SVC_UID); [reflexivity|].
    destruct (fid =? ZYNQMP_SIP_SVC_VERSION); reflexivity.
Qed.

(** A shutdown request before the setup. *)
Lemma sip_service_down_witness :
  sip_svc_smc_handler (H := on_board 0) (V := bl31_image) 0 0xC200000C 0x100000000 0 0
    (St (H := on_board 0) tt [] [] bl31_booted) =
  (Ret [2 ^ 64 - 1], St (H := on_board 0) tt [] [] bl31_booted).
Proof. apply (sip_service_down (H := on_board 0) (V := bl31_image)); reflexivity. Defined.

End PmSvc.
