(* ===== verification/PmTotal.v ===== *)
(** * No SMC of the normal world stops the firmware

    Total correctness of [PmSvc.pm_smc_handler]: from a booted image, with a PMU
    that answers (whatever it answers), every function id and all arguments give
    a return to the caller, with the locks released and the image still booted;
    the calls for which this fails are singled out. *)

From S2P Require Import Prelude Machine Gic IntrMgmt Swdt Ipi PmDefs PmIpi PmReq Paged ClockData.
From S2P Require Import PmClock PinctrlData PmPinctrl PmClient PmIoctl PmApi PmRestart PmSvc.
From stdpp Require Import sets.
Import Ipi PmDefs PmIpi PmReq Paged ClockData PmClock PinctrlData PmPinctrl PmClient PmIoctl PmApi
  PmRestart PmSvc.
#[local] Open Scope Z_scope.
#[local] Open Scope c_scope.

Module PmTotal.

(** No demands on the trace. *)
Definition any_trace (_ : list event) : Prop := True.

#[export] Instance TraceProp_any : TraceProp any_trace.
Proof. by split. Qed.

Lemma accepts_any p : accepts_request any_trace p.
Proof. done. Qed.

(** ** The wake-up sources, for every answer of the PMU *)

Section Wakeup.
Context `{Env} {V : Type} `{!Has ipi V} `{!Has pm V} (v : V).
Context (Hup : ipi_up (sget v)) (Hans : pmu_answers).

Definition nodes_array (a : list Z) : Prop := length a = Z.to_nat NODE_MAX.

Lemma wakeup_node_total node a d l h :
  nodes_array a -> 0 <= node < NODE_MAX -> pm_secure_lock ∉ h ->
  exists a' d' new, wakeup_node node a (St d l h v) = (Ret a', St d' (new ++ l) h v) /\ nodes_array a'.
Proof.
  intros Ha Hn Hh. unfold wakeup_node, nodes_array in *.
  destruct (node =? NODE_UNKNOWN); [by exists a, d, []|].
  destruct (lookup_lt_is_Some_2 a (Z.to_nat node)) as [x Hx]; [unfold NODE_MAX in *; lia|].
  rewrite (run_bind_aread _ _ _ _ _ (proj2 (Z.ltb_ge _ _) (proj1 Hn)) Hx).
  destruct (truthy x); [by exists a, d, []|].
  destruct (served_sync v Hup Hans any_trace [PM_SET_WAKEUP_SOURCE; NODE_APU; node; 1]
    (accepts_any _) ltac:(simpl; lia) d l h Hh) as (r & d' & new & E & _).
  unfold pm_set_wakeup_source. rewrite (bind_run _ _ _ _ _ E). unfold awrite.
  rewrite (proj2 (andb_true_iff _ _));
    [|split; [apply Z.leb_le; lia|apply Z.ltb_lt; unfold NODE_MAX in *; lia]].
  eexists _, d', new. split; [reflexivity|]. by rewrite length_insert.
Qed.

Lemma visit_total irqs a d l h :
  Forall (fun q => 0 <= q <= IRQ_MAX) irqs -> nodes_array a -> pm_secure_lock ∉ h ->
  exists a' d' new, visit irqs a (St d l h v) = (Ret a', St d' (new ++ l) h v) /\ nodes_array a'.
Proof.
  intros Hq. revert a d l. induction Hq as [|q irqs Hq _ IH]; intros a d l Ha Hh.
  { by exists a, d, []. }
  simpl. destruct (irq_to_pm_node_run q (St d l h v) Hq) as (node & Hnode & Er).
  rewrite (bind_run _ _ _ _ _ Er).
  destruct (wakeup_node_total node a d l h Ha (irq_node_range _ _ Hnode) Hh)
    as (a1 & d1 & n1 & E1 & Ha1). rewrite (bind_run _ _ _ _ _ E1).
  destruct (IH a1 d1 (n1 ++ l) Ha1 Hh) as (a2 & d2 & n2 & E2 & Ha2).
  exists a2, d2, (n2 ++ n1). by rewrite E2, (assoc_L (++)).
Qed.

Lemma wakeup_regs_total ks a d l h :
  Forall (fun k => k = 0 \/ k = 1 \/ k = 2) ks -> nodes_array a -> pm_secure_lock ∉ h ->
  exists d' new, wakeup_regs ks a (St d l h v) = (Ret tt, St d' (new ++ l) h v).
Proof.
  intros Hk. revert a d l. induction Hk as [|k ks Hk _ IH]; intros a d l Ha Hh.
  { by exists d, []. }
  simpl. set (r := u32 (hw_read W32 (isenabler k) d).1).
  destruct (visit_total (enabled_irqs (32 * k) r) a (hw_read W32 (isenabler k) d).2
    (EvRd W32 (isenabler k) r :: l) h) as (a1 & d1 & n1 & E1 & Ha1); [apply enabled_range; lia|done|done|].
  rewrite <- (wakeup_reg_visit v k a d l h Hk) in E1. rewrite (bind_run _ _ _ _ _ E1).
  destruct (IH a1 d1 (n1 ++ EvRd W32 (isenabler k) r :: l) Ha1 Hh) as (d2 & n2 & E2).
  exists d2, (n2 ++ n1 ++ [EvRd W32 (isenabler k) r]). rewrite E2. do 2 f_equal.
  by rewrite <- !(assoc_L (++)).
Qed.

Lemma wakeup_sources_served : served any_trace v pm_client_set_wakeup_sources.
Proof.
  unfold pm_client_set_wakeup_sources.
  apply (served_pure any_trace v _ _ (suspend_mode (sget v))); [done|].
  apply served_bind; [apply _| |].
  - apply served_if; [|by apply served_ret; apply _].
    apply served_bind; [apply _| |intros; apply served_ret; apply _].
    apply (served_sync v Hup Hans any_trace); [apply accepts_any|simpl; lia].
  - intros b. apply served_if; [apply served_ret; apply _|]. intros d l h Hh.
    change (steps 0 NUM_GICD_ISENABLER 1) with [0; 1; 2].
    destruct (wakeup_regs_total [0; 1; 2] (repeat 0 (Z.to_nat NODE_MAX)) d l h)
      as (d' & new & E); [repeat constructor; lia| |done|by exists tt, d', new].
    unfold nodes_array. apply repeat_length.
Qed.

End Wakeup.

(** ** Safe computations *)

Section Safe.
Context `{Env} {V : Type} `{!Has ipi V} `{!Has pm V} `{!Has Gic.gic V}
  `{!Has IntrMgmt.intr_mgmt V} `{!Has Swdt.swdt V}.
Context `{!Indep ipi pm V} `{!Indep Gic.gic pm V}.

(** The image is booted: channel table, driver and buffered PLL modes. *)
Definition image_up (v : V) : Prop :=
  ipi_up (sget v) /\ length (pll_modes (sget v)) = 5%nat /\
  Gic.ready Gic.PLAT_ARM_GICD_BASE Gic.arm_gic_data v.

Definition locks_free (h : list lock_id) : Prop :=
  (pm_secure_lock ∉ h) /\ (pm_client_secure_lock ∉ h).

(** From a booted image and with the locks free the computation returns a result
    that satisfies [Q], with the locks as they were and the image booted. *)
Definition safe {A} (Q : A -> Prop) (m : M V A) : Prop :=
  forall d l h v, image_up v -> locks_free h -> exists a d' new v',
    m (St d l h v) = (Ret a, St d' (new ++ l) h v') /\ image_up v' /\ Q a.

Abbreviation total := (safe (fun _ => True)).

Lemma safe_ret {A} (Q : A -> Prop) a : Q a -> safe Q (ret a).
Proof. intros HQ d l h v Hv _. by exists a, d, [], v. Qed.

Lemma safe_bind {A B} (Q : A -> Prop) (R : B -> Prop) m k :
  safe Q m -> (forall a, Q a -> safe R (k a)) -> safe R (bind m k).
Proof.
  intros Hm Hk d l h v Hv Hh. destruct (Hm d l h v Hv Hh) as (a & d1 & n1 & v1 & E1 & Hv1 & Ha).
  destruct (Hk a Ha d1 (n1 ++ l) h v1 Hv1 Hh) as (b & d2 & n2 & v2 & E2 & Hv2 & Hb).
  exists b, d2, (n2 ++ n1), v2. by rewrite (bind_run _ _ _ _ _ E1), E2, (assoc_L (++)).
Qed.

Lemma safe_mono {A} (Q R : A -> Prop) m : safe Q m -> (forall a, Q a -> R a) -> safe R m.
Proof.
  intros Hm HQ d l h v Hv Hh. destruct (Hm d l h v Hv Hh) as (a & d1 & n1 & v1 & E1 & Hv1 & Ha).
  exists a, d1, n1, v1. auto.
Qed.

Lemma safe_if {A} (Q : A -> Prop) (b : bool) m1 m2 :
  (b = true -> safe Q m1) -> (b = false -> safe Q m2) -> safe Q (if b then m1 else m2).
Proof. destruct b; auto. Qed.

Lemma safe_served {A} (m : M V A) :
  (forall v, image_up v -> served any_trace v m) -> total m.
Proof.
  intros Hm d l h v Hv [Hh _]. destruct (Hm v Hv d l h Hh) as (a & d' & new & E & _).
  by exists a, d', new, v.
Qed.

(** A computation without effects. *)
Lemma safe_pure {A} (Q : A -> Prop) (m : M V A) :
  (forall s, exists a, m s = (Ret a, s) /\ Q a) -> safe Q m.
Proof.
  intros Hm d l h v Hv _. destruct (Hm (St d l h v)) as (a & E & HQ). by exists a, d, [], v.
Qed.

Lemma safe_aread {A} (l : list A) i : 0 <= i < Z.of_nat (length l) -> total (aread l i).
Proof.
  intros Hi. apply safe_pure. intros s. destruct (lookup_lt_is_Some_2 l (Z.to_nat i)) as [x Hx]; [lia|].
  exists x. split; [|done]. apply run_aread; [apply Z.ltb_ge; lia|done].
Qed.

Lemma safe_gets {A} (f : pm -> A) : total (gets f).
Proof. intros d l h v Hv _. by exists (f (sget v)), d, [], v. Qed.

(** Updates of the service's statics that keep the number of PLLs. *)
Lemma safe_mods (f : pm -> pm) :
  (forall p, length (pll_modes p) = 5%nat -> length (pll_modes (f p)) = 5%nat) -> total (mods f).
Proof.
  intros Hf d l h v (Hi & Hm & Hg) _. exists tt, d, [], (sput (f (sget v)) v). split; [done|].
  split; [|done]. unfold image_up, Gic.ready.
  rewrite (sget_indep (S := ipi)), (sget_indep (S := Gic.gic)), sget_sput.
  split; [exact Hi|]. split; [by apply Hf|exact Hg].
Qed.

Context (Hans : pmu_answers).

Lemma safe_sync args : (length args <= 6)%nat -> total (sync (PM_PACK_PAYLOAD args)).
Proof.
  intros Hl. apply safe_served. intros v (Hi & _).
  by apply (served_sync v Hi Hans any_trace); [apply accepts_any|].
Qed.

Lemma safe_sync_out1 args value : (length args <= 6)%nat ->
  total (sync_out1 (PM_PACK_PAYLOAD args) value).
Proof.
  intros Hl. apply safe_served. intros v (Hi & _).
  by apply (served_sync_out1 v Hi Hans any_trace); [apply accepts_any|].
Qed.

Lemma safe_send_ack ack args : (length args <= 6)%nat -> total (send_ack ack (PM_PACK_PAYLOAD args)).
Proof.
  intros Hl. apply safe_served. intros v (Hi & _).
  by apply (served_send_ack v Hi Hans any_trace); [apply accepts_any|].
Qed.

Lemma safe_sync_out args value count :
  (length args <= 6)%nat -> 0 <= count <= Z.of_nat (length value) -> count <= 7 ->
  safe (fun r => length r.2 = length value) (sync_out (PM_PACK_PAYLOAD args) value count).
Proof.
  intros Hl Hc H7 d l h v Hv [Hh _].
  destruct (send_sync_served (PM_PACK_PAYLOAD args) (length value) count d l h v (proj1 Hv) Hans)
    as (r & ws & d' & new & E & Hlen & _); [by apply payload_length|done|done|done|].
  unfold sync_out. rewrite (bind_run _ _ _ _ _ E). eexists _, d', new, v. split; [reflexivity|].
  split; [done|]. simpl. rewrite length_app, length_drop. lia.
Qed.

End Safe.

(** Walks the body of a function that only sends requests. *)
Ltac safety :=
  repeat first
    [ apply safe_ret; exact I
    | apply safe_sync; [assumption|simpl; lia]
    | apply safe_sync_out1; [assumption|simpl; lia]
    | apply safe_send_ack; [assumption|simpl; lia]
    | apply safe_gets
    | apply safe_if; intros ?
    | eapply (safe_bind (fun _ => True)); [|intros ? _] ].

(** ** The operations that do more than send a request *)

Section Ops.
Context `{Env} {V : Type} `{!Has ipi V} `{!Has pm V} `{!Has Gic.gic V}
  `{!Has IntrMgmt.intr_mgmt V} `{!Has Swdt.swdt V}.
Context `{!Indep ipi pm V} `{!Indep Gic.gic pm V}.
Context (Hans : pmu_answers).

Abbreviation total := (safe (V := V) (fun _ => True)).

(** A computation that returns with the statics as they were. *)
Definition keeps {A} (Q : A -> Prop) (v : V) (m : M V A) : Prop :=
  forall d l h, locks_free h -> exists a d' new, m (St d l h v) = (Ret a, St d' (new ++ l) h v) /\ Q a.

Lemma keeps_bind {A B} (Q : A -> Prop) (R : B -> Prop) v m k :
  keeps Q v m -> (forall a, Q a -> keeps R v (k a)) -> keeps R v (bind m k).
Proof.
  intros Hm Hk d l h Hh. destruct (Hm d l h Hh) as (a & d1 & n1 & E1 & Ha).
  destruct (Hk a Ha d1 (n1 ++ l) h Hh) as (b & d2 & n2 & E2 & Hb). exists b, d2, (n2 ++ n1).
  by rewrite (bind_run _ _ _ _ _ E1), E2, (assoc_L (++)).
Qed.

Lemma keeps_ret {A} (Q : A -> Prop) v a : Q a -> keeps Q v (ret a).
Proof. intros Ha d l h _. by exists a, d, []. Qed.

Lemma keeps_served {A} v (m : M V A) : served any_trace v m -> keeps (fun _ => True) v m.
Proof. intros Hm d l h [Hh _]. destruct (Hm d l h Hh) as (a & d' & new & E & _). by exists a, d', new. Qed.

Lemma safe_keeps {A} (Q : A -> Prop) (m : M V A) : (forall v, image_up v -> keeps Q v m) -> safe Q m.
Proof.
  intros Hm d l h v Hv Hh. destruct (Hm v Hv d l h Hh) as (a & d' & new & E & Ha). by exists a, d', new, v.
Qed.

Lemma suspend_keeps proc state v : image_up v -> keeps (fun _ => True) v (pm_client_suspend proc state).
Proof.
  intros Hv d l h [Hh Hc]. unfold pm_client_suspend.
  rewrite run_bind_lock, bool_decide_eq_false_2 by done.
  assert (Hs : served any_trace v
    (if state =? PM_STATE_SUSPEND_TO_RAM then pm_client_set_wakeup_sources else ret tt)).
  { apply served_if; [apply wakeup_sources_served; [apply Hv|done]|apply served_ret; apply _]. }
  destruct (Hs d (EvLock pm_client_secure_lock :: l) (pm_client_secure_lock :: h))
    as ([] & d1 & n1 & E1 & _); [by apply not_elem_of_cons|].
  rewrite (bind_run _ _ _ _ _ E1). run. rewrite unlock_lock by done.
  eexists tt, _, ([_; _; _] ++ n1 ++ [_]). split; [|done]. do 2 f_equal. by rewrite <- !(assoc_L (++)).
Qed.

Lemma wakeup_keeps proc v : keeps (fun _ => True) v (pm_client_wakeup proc).
Proof.
  intros d l h [_ Hc]. unfold pm_client_wakeup. destruct (_ =? UNDEFINED_CPUID); [by exists tt, d, []|].
  rewrite run_bind_lock, bool_decide_eq_false_2 by done. run. rewrite unlock_lock by done.
  eexists tt, _, [_; _; _; _]. by split.
Qed.

Lemma self_suspend_keeps mpidr nid latency state address v :
  0 <= Gic.plat_my_core_pos mpidr < 4 -> image_up v ->
  keeps (fun _ => True) v (pm_self_suspend mpidr nid latency state address).
Proof.
  intros Hp Hv. unfold pm_self_suspend, pm_get_proc. change (Z.of_nat (length pm_procs_all)) with 4.
  rewrite (proj2 (Z.ltb_lt _ _)) by lia. set (n := Gic.plat_my_core_pos mpidr) in *.
  assert (Hproc : exists proc, pm_procs_all !! Z.to_nat n = Some proc /\ proc_ipi proc = apu_ipi).
  { assert (Hn : n = 0 \/ n = 1 \/ n = 2 \/ n = 3) by lia.
    destruct Hn as [-> |[-> |[-> | ->]]]; by eexists. }
  destruct Hproc as (proc & -> & Hipi). cbn [deref].
  eapply (keeps_bind (fun p => proc_ipi p = apu_ipi)); [by apply keeps_ret|]. intros q Hq.
  eapply (keeps_bind (fun _ => True)); [by apply suspend_keeps|intros _ _].
  eapply (keeps_bind (fun _ => True)); [|intros; by apply keeps_ret]. apply keeps_served.
  assert (forall p r c, pm_ipi_send_sync (V := V) q p r c = pm_ipi_send_sync primary_proc p r c) as ->.
  { intros p r c. unfold pm_ipi_send_sync, pm_ipi_send_common, pm_ipi_buff_read. by rewrite Hq. }
  apply (served_send_sync v (proj1 Hv) Hans any_trace);
    [apply accepts_any|apply payload_length; simpl; lia|simpl; lia|lia].
Qed.

Lemma self_suspend_total mpidr nid latency state address :
  0 <= Gic.plat_my_core_pos mpidr < 4 -> total (pm_self_suspend mpidr nid latency state address).
Proof. intros Hp. apply safe_keeps. intros v Hv. by apply self_suspend_keeps. Qed.

Lemma abort_suspend_total reason : total (pm_abort_suspend reason).
Proof.
  unfold pm_abort_suspend. eapply (safe_bind (fun _ => True)); [|intros _ _; safety].
  intros d l h v Hv [_ Hc]. unfold pm_client_abort_suspend, Gic.gicv2_cpuif_enable.
  rewrite run_bind_assoc, (bind_run _ _ _ _ _ (Gic.with_gicc_run _ _ d l h v (proj2 (proj2 Hv)))).
  unfold Gic.gicc_write_pmr, Gic.gicc_write_ctlr. run.
  rewrite run_bind_lock, bool_decide_eq_false_2 by done. run. rewrite unlock_lock by done.
  eexists tt, _, [_; _; _; _; _; _], v. split; [reflexivity|done].
Qed.

Lemma shutdown_total type subtype : total (pm_system_shutdown type subtype).
Proof.
  unfold pm_system_shutdown. apply safe_if; intros _.
  - eapply (safe_bind (fun _ => True)); [by apply safe_mods|intros; by apply safe_ret].
  - apply safe_served. intros v Hv.
    apply (served_send v (proj1 Hv) Hans any_trace _ false);
      [apply accepts_any|apply payload_length; simpl; lia].
Qed.

Lemma suspend_mode_total mode : total (pm_set_suspend_mode mode).
Proof.
  unfold pm_set_suspend_mode. apply safe_if; intros _; [by apply safe_ret|].
  eapply (safe_bind (fun _ => True)); [by apply safe_mods|intros; by apply safe_ret].
Qed.

Lemma irq_enable_total : total (pm_ipi_irq_enable primary_proc).
Proof.
  intros d l h v Hv _. unfold pm_ipi_irq_enable, ipi_mb_enable_irq, ipi_poke, IPI_REG_BASE, IPI_BIT_MASK.
  cbn [proc_ipi primary_proc apu_ipi local_ipi_id remote_ipi_id].
  change IPI_ID_APU with 0. change IPI_ID_PMU0 with 3. rewrite !run_bind_assoc.
  rewrite (bind_run _ _ _ _ _ (entry_apu d l h v (proj1 Hv))). run.
  rewrite (bind_run _ _ _ _ _ (entry_pmu0 _ _ _ v (proj1 Hv))). run.
  eexists tt, _, [_], v. split; [reflexivity|done].
Qed.

Lemma ioctl_total nid ioctl_id arg1 arg2 value : 0 <= arg1 ->
  total (pm_api_ioctl nid ioctl_id arg1 arg2 value).
Proof.
  intros Ha d l h v (Hi & Hm & Hg) [Hh _].
  destruct (ioctl_run v Hi Hans nid ioctl_id arg1 arg2 value d l h Hm Ha Hh)
    as (r & d' & new & ms & E & Hms & _).
  exists r, d', new, (sput (set_pll_modes ms (sget v)) v). split; [done|]. split; [|done].
  unfold image_up, Gic.ready. rewrite (sget_indep (S := ipi)), (sget_indep (S := Gic.gic)), sget_sput.
  split; [exact Hi|]. split; [exact Hms|exact Hg].
Qed.

(** ** Clocks *)

Lemma pll_of_total i : (i < 5)%nat -> total (pll_of i).
Proof.
  intros Hi. unfold pll_of. destruct (lookup_lt_is_Some_2 pm_plls i) as [p ->]; [exact Hi|].
  by apply safe_ret.
Qed.

Lemma find_pll_lt p i : find_pll p = Some i -> (i < 5)%nat.
Proof.
  unfold find_pll. intros Hf. apply fmap_Some in Hf as ([j q] & Hf & ->).
  apply list_find_Some in Hf as (Hj & _). by apply lookup_lt_Some in Hj.
Qed.

Lemma pll_mode_total i : (i < 5)%nat -> total (pll_mode i).
Proof.
  intros Hi d l h v Hv _. destruct (pll_mode_run i d l h v) as (m & _ & E).
  - destruct Hv as (_ & -> & _). exact Hi.
  - by exists m, d, [], v.
Qed.

Lemma pll_param_total nid id value :
  total (pm_pll_set_parameter nid id value) /\ total (pm_pll_get_parameter nid id value) /\
  total (pm_pll_set_mode nid id) /\ total (pm_pll_get_mode nid value).
Proof.
  unfold pm_pll_set_parameter, pm_pll_get_parameter, pm_pll_set_mode, pm_pll_get_mode.
  split_and!; safety.
Qed.

Lemma gate_total clock_id enable : total (pm_clock_gate clock_id enable).
Proof. unfold pm_clock_gate. safety. Qed.

Lemma enable_total clock_id : total (pm_clock_enable clock_id) /\ total (pm_clock_disable clock_id).
Proof.
  unfold pm_clock_enable, pm_clock_disable, pm_clock_get_pll.
  destruct (find_pll _) as [i|] eqn:E; [|split; apply gate_total].
  apply find_pll_lt in E. unfold pm_clock_pll_enable, pm_clock_pll_disable. split.
  - eapply (safe_bind (fun _ => True)); [by apply pll_of_total|intros p _].
    eapply (safe_bind (fun _ => True)); [by apply pll_mode_total|intros mode _].
    apply safe_if; intros _; apply pll_param_total; exact 0.
  - eapply (safe_bind (fun _ => True)); [by apply pll_of_total|intros p _].
    apply pll_param_total; exact 0.
Qed.

Lemma getstate_total clock_id state : total (pm_clock_getstate clock_id state).
Proof.
  unfold pm_clock_getstate, pm_clock_get_pll. destruct (find_pll _) as [i|] eqn:E; [|safety].
  apply find_pll_lt in E. unfold pm_clock_pll_get_state.
  eapply (safe_bind (fun _ => True)); [by apply pll_of_total|intros p _].
  eapply (safe_bind (fun _ => True)); [apply pll_param_total; exact 0|intros r _]. safety.
Qed.

Lemma pll_node_total clock_id x : total (pm_clock_get_pll_node_id clock_id x).
Proof.
  unfold pm_clock_get_pll_node_id, pm_clock_get_pll.
  destruct (find_pll _) as [i|] eqn:E; [|safety]. apply find_pll_lt in E.
  eapply (safe_bind (fun _ => True)); [by apply pll_of_total|intros; by apply safe_ret].
Qed.

Lemma has_div_total clock_id div_id : 0 <= clock_id -> total (pm_clock_has_div clock_id div_id).
Proof.
  intros Hid. apply safe_pure. intros s.
  destruct (clock_queries_total clock_id 0 div_id 0 0 0 0 s Hid) as (_ & _ & (r & E) & _). by exists r.
Qed.

Lemma divider_total clock_id x : 0 <= clock_id ->
  total (pm_clock_setdivider clock_id x) /\ total (pm_clock_getdivider clock_id x).
Proof.
  intros Hid. unfold pm_clock_setdivider, pm_clock_getdivider, getdivider_div1.
  split; (eapply (safe_bind (fun _ => True)); [apply pll_node_total|intros r _]);
    (apply safe_if; intros _; [apply pll_param_total; exact 0|]).
  - safety.
  - apply safe_if; intros _; [by apply safe_ret|].
    eapply (safe_bind (fun _ => True)); [by apply has_div_total|intros h0 _].
    assert (Hd1 : forall st dv, total
      (has1 <- pm_clock_has_div clock_id PM_CLOCK_DIV1_ID ;;
       if truthy has1 then
         r <- sync_out1 (PM_PACK_PAYLOAD [PM_CLOCK_GETDIVIDER; clock_id; PM_CLOCK_DIV1_ID]) (uninit 0) ;;
         if negb (r.1 =? PM_RET_SUCCESS) then ret (r.1, dv) else ret (r.1, dv .| (r.2 .<< 16))
       else ret (st, dv))).
    { intros st dv. eapply (safe_bind (fun _ => True)); [by apply has_div_total|intros h1 _]. safety. }
    apply safe_if; intros _; [|apply Hd1].
    eapply (safe_bind (fun _ => True)); [safety|intros r1 _].
    apply safe_if; intros _; [by apply safe_ret|apply Hd1].
Qed.

Lemma parent_total clock_id x :
  total (pm_clock_setparent clock_id x) /\ total (pm_clock_getparent clock_id x).
Proof.
  unfold pm_clock_setparent, pm_clock_getparent, pm_clock_get_pll_by_related_clk.
  destruct (find_pll _) as [i|] eqn:E; [|split; safety]. apply find_pll_lt in E.
  unfold pm_clock_pll_set_parent, pm_clock_pll_get_parent.
  split; (eapply (safe_bind (fun _ => True)); [by apply pll_of_total|intros p _]);
    repeat (apply safe_if; intros _; [first [by apply safe_ret|apply pll_param_total; exact 0]|]);
    by apply safe_ret.
Qed.

(** ** Queries *)

Abbreviation four := (fun r : list Z => length r = 4%nat).

Lemma words_of_bytes_16 bs : length bs = 16%nat -> length (words_of_bytes bs) = 4%nat.
Proof. intros Hl. do 16 (destruct bs as [|? bs]; [discriminate|]). by destruct bs. Qed.

Lemma words_of_halves_6 hs : length hs = 6%nat -> length (words_of_halves hs) = 3%nat.
Proof. intros Hl. do 6 (destruct hs as [|? hs]; [discriminate|]). by destruct hs. Qed.

Lemma answer_name_safe q : (forall s, exists b, q (repeat 0 16) s = (Ret b, s) /\ length b = 16%nat) ->
  safe four (answer_name (V := V) [0; 0; 0; 0] q).
Proof.
  intros Hq. unfold answer_name. change (bytes_of_words [0; 0; 0; 0]) with (repeat 0 16).
  eapply (safe_bind (fun b => length b = 16%nat)); [by apply safe_pure|].
  intros b Hb. apply safe_ret. by apply words_of_bytes_16.
Qed.

Lemma answer3_safe q : (forall s, exists r, q [0; 0; 0] s = (Ret r, s) /\ length r.2 = 3%nat) ->
  safe four (answer3 (V := V) [0; 0; 0; 0] q).
Proof.
  intros Hq. unfold answer3. cbn [drop].
  eapply (safe_bind (fun r => length r.2 = 3%nat)); [by apply safe_pure|].
  intros r Hr. apply safe_ret. simpl. by rewrite Hr.
Qed.

Lemma answer_groups_safe q :
  (forall s, exists r, q (repeat 0 6) s = (Ret r, s) /\ length r.2 = 6%nat) ->
  safe four (answer_groups (V := V) [0; 0; 0; 0] q).
Proof.
  intros Hq. unfold answer_groups. cbn [drop]. change (halves_of_words [0; 0; 0]) with (repeat 0 6).
  eapply (safe_bind (fun r => length r.2 = 6%nat)); [by apply safe_pure|].
  intros r Hr. apply safe_ret. simpl. by rewrite words_of_halves_6.
Qed.

Lemma answer1_safe q : (forall s, exists r, q 0 s = (Ret r, s)) ->
  safe four (answer1 (V := V) [0; 0; 0; 0] q).
Proof.
  intros Hq. unfold answer1. eapply (safe_bind (fun x => x = 0)).
  { apply safe_pure. intros s. by exists 0. }
  intros x ->. eapply (safe_bind (fun _ => True)); [|intros r _; by apply safe_ret].
  apply safe_pure. intros s. destruct (Hq s) as [r E]. by exists r.
Qed.

Lemma query_safe qid arg1 arg2 arg3 : 0 <= arg1 -> 0 <= arg2 ->
  ~ (qid = PM_QID_CLOCK_GET_NAME /\ CLK_MAX < arg1) ->
  safe four (pm_query_data (V := V) qid arg1 arg2 arg3 [0; 0; 0; 0]).
Proof.
  intros H1 H2 Hname. unfold pm_query_data.
  apply safe_if; intros Eq; zbool.
  { apply answer_name_safe. intros s. apply get_name_in_range; [|done]. lia. }
  apply safe_if; intros _.
  { apply answer3_safe. intros s. rewrite topology_run by done. eexists. split; [reflexivity|].
    repeat if_case; simpl; rewrite ?page_length; done. }
  apply safe_if; intros _.
  { eapply (safe_bind (fun _ => True)); [apply safe_aread; simpl; lia|intros d1 _].
    eapply (safe_bind (fun _ => True)); [apply safe_aread; simpl; lia|intros d2 _].
    eapply (safe_bind (fun _ => True)); [|intros r _; by apply safe_ret].
    apply safe_pure. intros s.
    destruct (clock_queries_total arg1 0 0 d1 d2 0 0 s H1) as ((r & E) & _). by exists r. }
  apply safe_if; intros _.
  { apply answer3_safe. intros s. rewrite parents_run by done. eexists. split; [reflexivity|].
    repeat if_case; simpl; rewrite ?page_length; done. }
  apply safe_if; intros _.
  { apply answer1_safe. intros s.
    by destruct (clock_queries_total arg1 0 0 0 0 0 0 s H1) as (_ & _ & _ & E). }
  apply safe_if; intros _; [apply answer1_safe; intros s; by eexists|].
  apply safe_if; intros _; [apply answer1_safe; intros s; by eexists|].
  apply safe_if; intros _.
  { apply answer1_safe. intros s. destruct (decide (arg1 < MAX_FUNCTION)) as [Hlt|Hge].
    - rewrite num_func_groups_run by lia. by eexists.
    - unfold pm_api_pinctrl_get_num_func_groups. rewrite (proj2 (Z.leb_le _ _)) by lia. by eexists. }
  apply safe_if; intros _.
  { apply answer_name_safe. intros s. by apply function_name_total. }
  apply safe_if; intros _.
  { apply answer_groups_safe. intros s. rewrite function_groups_run by done. eexists.
    split; [reflexivity|]. if_case; simpl; rewrite ?page_length; done. }
  apply safe_if; intros _.
  { apply answer_groups_safe. intros s. rewrite pin_groups_run by done. eexists.
    split; [reflexivity|]. if_case; simpl; rewrite ?page_length; done. }
  apply safe_if; intros _; [apply answer1_safe; intros s; by eexists|].
  apply safe_if; intros _; [|by apply safe_ret].
  apply answer1_safe. intros s.
  by destruct (clock_queries_total arg1 (u8 arg2) 0 0 0 0 0 s H1) as (_ & E & _).
Qed.

(** ** The handler *)

Abbreviation regs := (fun r : list Z => Forall (fun x => 0 <= x < 2 ^ 64) r).

Lemma u64_range z : 0 <= u64 z < 2 ^ 64.
Proof. unfold u64. apply Z.mod_pos_bound. lia. Qed.

Lemma ret1_safe x : safe regs (SMC_RET1 (V := V) x).
Proof. apply safe_ret. constructor; [apply u64_range|constructor]. Qed.

Lemma ret2_safe x y : safe regs (SMC_RET2 (V := V) x y).
Proof. apply safe_ret. repeat (constructor; [apply u64_range|]). constructor. Qed.

Lemma status_safe m : total m -> safe regs (ret_status m).
Proof. intros Hm. eapply safe_bind; [exact Hm|]. intros r _. apply ret1_safe. Qed.

Lemma word_safe m : total m -> safe regs (ret_word m).
Proof. intros Hm. eapply safe_bind; [exact Hm|]. intros r _. apply ret1_safe. Qed.

Lemma two_safe args value count : length value = 2%nat -> count = 2 -> (length args <= 6)%nat ->
  safe regs (ret_two (sync_out (V := V) (PM_PACK_PAYLOAD args) value count)).
Proof.
  intros Hv -> Hl. unfold ret_two.
  eapply safe_bind; [apply (safe_sync_out Hans); [done|lia|lia]|]. intros r Hr. rewrite Hv in Hr.
  do 2 (eapply safe_bind; [apply safe_aread; lia|intros ? _]). apply ret2_safe.
Qed.

Lemma four_safe m : safe four m -> safe regs (ret_four m).
Proof.
  intros Hm. eapply safe_bind; [exact Hm|]. intros r Hr. simpl in Hr.
  do 4 (eapply safe_bind; [apply safe_aread; lia|intros ? _]). apply ret2_safe.
Qed.

Lemma node_status_safe nid :
  safe regs
    (r <- pm_get_node_status (V := V) nid [uninit 0; uninit 1; uninit 2] ;;
     b0 <- aread r.2 0 ;;
     b1 <- aread r.2 1 ;;
     b2 <- aread r.2 2 ;;
     SMC_RET2 (r.1 .| shl64 b0 32) (b1 .| shl64 b2 32)).
Proof.
  eapply safe_bind; [apply (safe_sync_out Hans); simpl; lia|]. intros r Hr. simpl in Hr.
  do 3 (eapply safe_bind; [apply safe_aread; lia|intros ? _]). apply ret2_safe.
Qed.

Lemma api_version_safe phys_addr :
  safe regs
    (ver <- gets api_version ;;
     if ver >=? PM_VERSION then
       flag <- gets ipi_irq_flag ;;
       (if negb (truthy flag) then
          pm_ipi_irq_enable primary_proc ;;
          mods (set_ipi_irq_flag 1)
        else ret tt) ;;
       ver <- gets api_version ;;
       SMC_RET1 (PM_RET_SUCCESS .| shl64 ver 32)
     else ret_status (pm_set_configuration (V := V) phys_addr)).
Proof.
  eapply safe_bind; [apply safe_gets|intros ver _]. apply safe_if; intros _.
  - eapply safe_bind; [apply safe_gets|intros flag _].
    eapply (safe_bind (fun _ => True)).
    + apply safe_if; intros _; [|by apply safe_ret].
      eapply safe_bind; [apply irq_enable_total|intros _ _]. by apply safe_mods.
    + intros _ _. eapply safe_bind; [apply safe_gets|intros ver' _]. apply ret1_safe.
  - apply status_safe. unfold pm_set_configuration. safety.
Qed.

Lemma register_access_total id address mask value out :
  total (pm_register_access id address mask value out).
Proof. unfold pm_register_access, pm_mmio_write, pm_mmio_read. safety. Qed.

(** The calls that do not return: see [PmIpi.callback_read_overruns] and
    [PmClock.clock_name_bounds]. *)
Definition overruns (smc_fid x1 : Z) : Prop :=
  let f := smc_fid .& FUNCID_NUM_MASK in
  f = PM_GET_CALLBACK_DATA \/
  (f = PM_QUERY_DATA /\ u32 x1 = PM_QID_CLOCK_GET_NAME /\ CLK_MAX < u32 (x1 .>> 32)).

(** Requests without other effects. *)
Ltac request :=
  unfold pm_req_suspend, pm_req_wakeup, pm_force_powerdown, pm_set_wakeup_source, pm_req_node,
    pm_release_node, pm_set_requirement, pm_set_max_latency, pm_set_configuration, pm_init_finalize,
    pm_get_op_characteristic, pm_register_notifier, pm_reset_assert, pm_reset_get_status,
    pm_mmio_write, pm_mmio_read, pm_fpga_load, pm_fpga_get_status, pm_secure_rsaaes,
    pm_pinctrl_request, pm_pinctrl_release, pm_pinctrl_get_function, pm_pinctrl_set_function,
    pm_pinctrl_get_config, pm_pinctrl_set_config, pm_clock_setrate, pm_sha_hash, pm_rsa_core,
    pm_fpga_read, pm_aes_engine, pm_efuse_access; safety.

Ltac smc_op :=
  lazymatch goal with
  | |- safe _ (pm_system_shutdown _ _) => apply shutdown_total
  | |- safe _ (pm_abort_suspend _) => apply abort_suspend_total
  | |- safe _ (pm_self_suspend _ _ _ _ _) => apply self_suspend_total; assumption
  | |- safe _ (pm_set_suspend_mode _) => apply suspend_mode_total
  | |- safe _ (pm_clock_enable _) => apply enable_total
  | |- safe _ (pm_clock_disable _) => apply enable_total
  | |- safe _ (pm_clock_getstate _ _) => apply getstate_total
  | |- safe _ (pm_clock_setdivider _ _) => apply divider_total; apply u32_range
  | |- safe _ (pm_clock_getdivider _ _) => apply divider_total; apply u32_range
  | |- safe _ (pm_clock_setparent _ _) => apply parent_total
  | |- safe _ (pm_clock_getparent _ _) => apply parent_total
  | |- safe _ (pm_pll_set_parameter _ _ _) => apply pll_param_total
  | |- safe _ (pm_pll_get_parameter _ _ _) => apply pll_param_total
  | |- safe _ (pm_pll_set_mode _ _) => apply pll_param_total; exact 0
  | |- safe _ (pm_pll_get_mode _ _) => apply pll_param_total; exact 0
  | |- safe _ (pm_api_ioctl _ _ _ _ _) => apply ioctl_total; apply u32_range
  | |- safe _ (pm_register_access _ _ _ _ _) => apply register_access_total
  | |- _ => request
  end.

Ltac smc_case :=
  lazymatch goal with
  | |- safe _ (ret_status _) => apply status_safe; smc_op
  | |- safe _ (ret_word _) => apply word_safe; smc_op
  | |- safe _ (SMC_RET1 _) => apply ret1_safe
  | |- safe _ (ret_two (pm_get_chipid _)) =>
      unfold pm_get_chipid; apply two_safe; [reflexivity|reflexivity|simpl; lia]
  | |- safe _ (ret_two (pm_secure_image _ _ _ _ _)) =>
      unfold pm_secure_image; apply two_safe; [reflexivity|reflexivity|simpl; lia]
  | |- safe _ (bind (pm_get_node_status _ _) _) => apply node_status_safe
  | |- safe _ (bind (pm_clock_getrate _ _) _) =>
      eapply (safe_bind (fun _ => True)); [by apply safe_ret|intros ? _; apply ret2_safe]
  | |- safe _ (bind (gets api_version) _) => apply api_version_safe
  end.

(** C21: no SMC of the normal world stops EL3.  From a booted image with the
    service's locks free, on one of the four processors, and with a PMU that
    answers requests in whatever way, the power-management handler returns for
    every function id and all arguments, except the callback read and the clock
    name of an id past the table, which overrun a buffer: it neither trips an
    assertion nor waits for itself nor leaves an array, releases every lock it
    takes, leaves the image booted and the result in 64-bit registers. *)
Theorem pm_smc_total mpidr fid x1 x2 d l h (v : V) :
  image_up v -> locks_free h -> 0 <= Gic.plat_my_core_pos mpidr < 4 -> ~ overruns fid x1 ->
  exists r d' new v',
    pm_smc_handler mpidr fid x1 x2 (St d l h v) = (Ret r, St d' (new ++ l) h v') /\
    image_up v' /\ Forall (fun x => 0 <= x < 2 ^ 64) r.
Proof.
  intros Hv Hh Hp Hov.
  enough (Hs : safe regs (pm_smc_handler mpidr fid x1 x2)) by exact (Hs d l h v Hv Hh).
  clear d l h v Hv Hh. unfold pm_smc_handler, overruns in *. cbv zeta in *.
  set (f := fid .& FUNCID_NUM_MASK) in *.
  eapply safe_bind; [apply safe_gets|intros up _]. apply safe_if; intros _; [apply ret1_safe|].
  repeat (apply safe_if; intros ?Ef; [smc_case|]).
  apply safe_if; intros Ecb; [zbool; exfalso; apply Hov; by left|].
  repeat (apply safe_if; intros ?Ef; [smc_case|]).
  apply safe_if; intros Eq; [zbool; apply four_safe, query_safe; [apply u32_range|apply u32_range|tauto]|].
  repeat (apply safe_if; intros ?Ef; [smc_case|]). apply ret1_safe.
Qed.

End Ops.

(** ** Witness: a request for the clock tree, with the service up *)

Definition pm_running : bl31_image :=
  Bl31 (b_gic bl31_booted) (b_intr bl31_booted) (b_swdt bl31_booted) ipi_booted (set_pm_up 1 pm_bss).

Lemma pm_running_up : image_up pm_running.
Proof. split; [reflexivity|]. split; [reflexivity|]. repeat split; discriminate. Qed.

(** PM_QUERY_DATA, topology of clock CLK_DP_VIDEO_REF from node 2. *)
Lemma pm_smc_total_witness :
  let s := St (H := on_board 0) tt [] [] pm_running in
  let query := pm_smc_handler (H := on_board 0) (V := bl31_image) 0x80000000 0xC2000023
                 (CLK_DP_VIDEO_REF * 2 ^ 32 + PM_QID_CLOCK_GET_TOPOLOGY) 2 in
  (exists r d' new v',
    query s = (Ret r, St (H := on_board 0) d' (new ++ []) [] v') /\
    image_up v' /\ Forall (fun x => 0 <= x < 2 ^ 64) r) /\
  fst (query s) = Ret [0x500A41500000000; 0x2506].
Proof.
  split.
  - apply (pm_smc_total (H := on_board 0) (V := bl31_image) (on_board_answers 0)).
    + apply pm_running_up.
    + split; apply not_elem_of_nil.
    + split; [done|reflexivity].
    + intros [E|(_ & E & _)]; discriminate E.
  - vm_compute. reflexivity.
Defined.

End PmTotal.
