(* ===== verification/Trace.v ===== *)
(** * Results together with what was done to get them

    [yields P m Q]: whenever [m] starts with statics that satisfy [P] and
    returns [a], the events it has performed, in program order, and the statics
    it leaves satisfy [Q a].  Nothing is claimed of a run that does not return;
    that it returns is stated apart ([Machine.returns]).  One rule per
    combinator of the monad. *)

From S2P Require Import Prelude Machine.
From Stdlib Require Import String.
#[local] Open Scope Z_scope.
#[local] Open Scope c_scope.

Section Yields.
Context `{Env} {V : Type}.

Definition yields {A} (P : V -> Prop) (m : M V A) (Q : A -> list event -> V -> Prop) : Prop :=
  forall s a s', P (vars s) -> m s = (Ret a, s') ->
    exists tr, log s' = rev tr ++ log s /\ Q a tr (vars s').

Lemma yields_ret {A} (P : V -> Prop) (a : A) (Q : A -> list event -> V -> Prop) :
  (forall v, P v -> Q a [] v) -> yields P (ret a) Q.
Proof. intros HQ s b s' HP [= <- <-]. exists []. auto. Qed.

Lemma yields_stop {A} (P : V -> Prop) x (Q : A -> list event -> V -> Prop) : yields P (stop x) Q.
Proof. intros s b s' HP [=]. Qed.

Lemma yields_bind {A B} P (m : M V A) (k : A -> M V B) R (Q : B -> list event -> V -> Prop) :
  yields P m R ->
  (forall a tr, yields (R a tr) (k a) (fun b tr' => Q b (tr ++ tr'))) ->
  yields P (bind m k) Q.
Proof.
  intros Hm Hk s b s' HP Hr. unfold bind in Hr. destruct (m s) as [[a|x] s1] eqn:E; [|done].
  destruct (Hm s a s1 HP E) as (tr1 & Hl1 & HR).
  destruct (Hk a tr1 s1 b s' HR Hr) as (tr2 & Hl2 & HQ).
  exists (tr1 ++ tr2). by rewrite Hl2, Hl1, rev_app_distr, (assoc_L (++)).
Qed.

Lemma yields_conseq {A} (P P' : V -> Prop) (m : M V A) (Q Q' : A -> list event -> V -> Prop) :
  yields P' m Q' -> (forall v, P v -> P' v) -> (forall a tr v, Q' a tr v -> Q a tr v) ->
  yields P m Q.
Proof.
  intros Hm HP HQ s a s' Hs Hr. destruct (Hm s a s' (HP _ Hs) Hr) as (tr & Hl & Hq). eauto.
Qed.

Lemma yields_if {A} (b : bool) P (m1 m2 : M V A) (Q : A -> list event -> V -> Prop) :
  (b = true -> yields P m1 Q) -> (b = false -> yields P m2 Q) -> yields P (if b then m1 else m2) Q.
Proof. destruct b; auto. Qed.

(** A fact about the statics that does not depend on the run can be used. *)
Lemma yields_pure {A} (F : Prop) (P : V -> Prop) (m : M V A) (Q : A -> list event -> V -> Prop) :
  (F -> yields P m Q) -> yields (fun v => F /\ P v) m Q.
Proof. intros Hm s a s' [HF HP]. by apply Hm. Qed.

Lemma yields_pure_r {A} (F : Prop) (P : V -> Prop) (m : M V A) (Q : A -> list event -> V -> Prop) :
  (F -> yields P m Q) -> yields (fun v => P v /\ F) m Q.
Proof. intros Hm s a s' [HP HF]. by apply Hm. Qed.

(** One primitive, then the rest. *)
Lemma yields_read {B} P w a (k : Z -> M V B) (Q : B -> list event -> V -> Prop) :
  (forall z, yields P (k z) (fun b tr => Q b (EvRd w a z :: tr))) ->
  yields P (bind (mmio_read w a) k) Q.
Proof.
  intros Hk. apply yields_bind with (fun z tr v => tr = [EvRd w a z] /\ P v).
  - intros s z s' HP [= <- <-]. by eexists [_].
  - intros z tr. apply yields_pure. intros ->. apply Hk.
Qed.

Lemma yields_write {B} P w a z (k : unit -> M V B) (Q : B -> list event -> V -> Prop) :
  yields P (k tt) (fun b tr => Q b (EvWr w a (wtrunc w z) :: tr)) ->
  yields P (bind (mmio_write w a z) k) Q.
Proof.
  intros Hk. apply yields_bind with (fun _ tr v => tr = [EvWr w a (wtrunc w z)] /\ P v).
  - intros s [] s' HP [= <-]. by eexists [_].
  - intros [] tr. apply yields_pure. intros ->. apply Hk.
Qed.

Lemma yields_call {B} P f args (k : Z -> M V B) (Q : B -> list event -> V -> Prop) :
  (forall r, yields P (k r) (fun b tr => Q b (EvCall f args r :: tr))) ->
  yields P (bind (ext_call f args) k) Q.
Proof.
  intros Hk. apply yields_bind with (fun r tr v => tr = [EvCall f args r] /\ P v).
  - intros s r s' HP [= <- <-]. by eexists [_].
  - intros r tr. apply yields_pure. intros ->. apply Hk.
Qed.

(** A call whose contract is known, then the rest. *)
Lemma yields_seq {A B} P (m : M V A) (k : A -> M V B) (R : A -> list event -> Prop)
    (Q : B -> list event -> V -> Prop) :
  yields P m (fun a tr v => R a tr /\ P v) ->
  (forall a tr, R a tr -> yields P (k a) (fun b tr' => Q b (tr ++ tr'))) ->
  yields P (bind m k) Q.
Proof. intros Hm Hk. eapply yields_bind; [exact Hm|]. intros a tr. by apply yields_pure, Hk. Qed.

Lemma yields_do_while P n a again :
  yields P (do_while n (mmio_read_32 a) again)
    (fun z tr v => P v /\ again z = false /\
       exists zs, tr = map (EvRd W32 a) zs ++ [EvRd W32 a z] /\ Forall (fun y => again y = true) zs).
Proof.
  induction n as [|n IH]; simpl; [apply yields_stop|]. apply yields_read. intros y.
  apply yields_if; intros Hy.
  - eapply yields_conseq; [exact IH|done|]. intros z tr v (HP & Hz & zs & -> & Hzs).
    split; [done|]. split; [done|]. exists (y :: zs). auto.
  - apply yields_ret. intros v HP. split; [done|]. split; [done|]. by exists [].
Qed.

Lemma yields_assoc {A B C} P (m : M V A) (k : A -> M V B) (k' : B -> M V C)
    (Q : C -> list event -> V -> Prop) :
  yields P (bind m (fun a => bind (k a) k')) Q -> yields P (bind (bind m k) k') Q.
Proof. intros Hm s a s' HP Hr. rewrite bind_assoc in Hr. by apply (Hm s a s'). Qed.

Lemma yields_bind_ret {A B} P (a : A) (k : A -> M V B) (Q : B -> list event -> V -> Prop) :
  yields P (k a) Q -> yields P (bind (ret a) k) Q.
Proof. done. Qed.

Lemma yields_bind_stop {A B} P x (k : A -> M V B) (Q : B -> list event -> V -> Prop) :
  yields P (bind (stop x) k) Q.
Proof. intros s b s' HP [=]. Qed.

Lemma yields_bind_if {A B} (b : bool) P (m1 m2 : M V A) (k : A -> M V B)
    (Q : B -> list event -> V -> Prop) :
  (b = true -> yields P (bind m1 k) Q) -> (b = false -> yields P (bind m2 k) Q) ->
  yields P (bind (if b then m1 else m2) k) Q.
Proof. destruct b; auto. Qed.

(** A last step is a step before [ret]. *)
Lemma yields_last {A} P (m : M V A) (Q : A -> list event -> V -> Prop) :
  yields P (bind m ret) Q -> yields P m Q.
Proof.
  intros Hm s a s' HP Hr. apply (Hm s a s' HP). unfold bind. by rewrite Hr.
Qed.

(** What one run did, from a triple. *)
Lemma yields_elim {A} P (m : M V A) Q s a s' :
  yields P m Q -> P (vars s) -> m s = (Ret a, s') ->
  exists tr, log s' = rev tr ++ log s /\ Q a tr (vars s').
Proof. intros Hm. apply Hm. Qed.

(** From frame properties: the events are of one kind, the statics stay. *)
Lemma yields_emits {A} (P : V -> Prop) (F : event -> Prop) (m : M V A) :
  respects (grows F) m -> respects (on_vars eq) m -> yields P m (fun _ tr v => Forall F tr /\ P v).
Proof.
  intros He Hv s a s' HP Hr. destruct (He s) as (new & Hl & HF). specialize (Hv s). unfold on_vars in Hv.
  rewrite Hr in Hl, Hv. simpl in Hl, Hv. exists (rev new). rewrite rev_involutive.
  split; [done|]. split; [by apply Forall_rev|by rewrite <- Hv].
Qed.

End Yields.

Section YieldsStatics.
Context `{Env} {S V : Type} `{!Has S V}.

Lemma yields_gets {A B} P (f : S -> A) (k : A -> M V B) (Q : B -> list event -> V -> Prop) :
  (forall x, yields (fun v => f (sget v) = x /\ P v) (k x) Q) ->
  yields P (bind (gets f) k) Q.
Proof.
  intros Hk. apply yields_bind with (fun x tr v => tr = [] /\ f (sget v) = x /\ P v).
  - intros s x s' HP [= <- <-]. by exists [].
  - intros x tr. apply yields_pure. intros ->. apply Hk.
Qed.

(** A static whose value the precondition fixes. *)
Lemma yields_gets_is {A B} (P : V -> Prop) (f : S -> A) x (k : A -> M V B)
    (Q : B -> list event -> V -> Prop) :
  (forall v, P v -> f (sget v) = x) -> yields P (k x) Q -> yields P (bind (gets f) k) Q.
Proof.
  intros Hf Hk. apply yields_gets. intros y s a s' [Hy HP]. rewrite (Hf _ HP) in Hy. subst y.
  by apply Hk.
Qed.

Lemma yields_mods {B} (P : V -> Prop) (P' : V -> Prop) (f : S -> S) (k : unit -> M V B)
    (Q : B -> list event -> V -> Prop) :
  (forall v, P v -> P' (sput (f (sget v)) v)) -> yields P' (k tt) Q ->
  yields P (bind (mods f) k) Q.
Proof.
  intros Hf Hk. apply yields_bind with (fun _ tr v => tr = [] /\ P' v).
  - intros s [] s' HP [= <-]. exists []. simpl. auto.
  - intros [] tr. apply yields_pure. intros ->. apply Hk.
Qed.

End YieldsStatics.

(** ** Total correctness, one primitive at a time *)

Section ReturnsSteps.
Context `{Env} {V : Type}.
Implicit Types (d : Dev) (l : list event) (h : list lock_id) (v : V).

Lemma returns_gets {S A B} `{!Has S V} (f : S -> A) (k : A -> M V B) d l h v Q :
  returns (k (f (sget v))) (St d l h v) Q -> returns (bind (gets f) k) (St d l h v) Q.
Proof. done. Qed.

Lemma returns_mods {S B} `{!Has S V} (f : S -> S) (k : unit -> M V B) d l h v Q :
  returns (k tt) (St d l h (sput (f (sget v)) v)) Q -> returns (bind (mods f) k) (St d l h v) Q.
Proof. done. Qed.

Lemma returns_read {B} w a (k : Z -> M V B) d l h v Q :
  returns (k (wtrunc w (hw_read w a d).1))
    (St (hw_read w a d).2 (EvRd w a (wtrunc w (hw_read w a d).1) :: l) h v) Q ->
  returns (bind (mmio_read w a) k) (St d l h v) Q.
Proof. done. Qed.

Lemma returns_write {B} w a z (k : unit -> M V B) d l h v Q :
  returns (k tt) (St (hw_write w a (wtrunc w z) d) (EvWr w a (wtrunc w z) :: l) h v) Q ->
  returns (bind (mmio_write w a z) k) (St d l h v) Q.
Proof. done. Qed.

Lemma returns_assoc {A B C} (m : M V A) (k : A -> M V B) (k' : B -> M V C) s Q :
  returns (bind m (fun a => bind (k a) k')) s Q -> returns (bind (bind m k) k') s Q.
Proof. unfold returns. by rewrite bind_assoc. Qed.

(** A call that returns with statics and locks as they were, then the rest. *)
Lemma returns_same {A B} (m : M V A) (k : A -> M V B) d l h v Q :
  returns m (St d l h v) (fun _ s' => vars s' = v /\ held s' = h) ->
  (forall a d' l', returns (k a) (St d' l' h v) Q) -> returns (bind m k) (St d l h v) Q.
Proof.
  intros Hm Hk. apply returns_bind. eapply returns_mono; [exact Hm|].
  intros a [d' l' h' v'] [Hv Hh]. simpl in Hv, Hh. subst. apply Hk.
Qed.

End ReturnsSteps.

(** ** Every event, also of a run that does not return

    [under P F]: as long as the statics satisfy [P], they go on to do so and the
    events satisfy [F]; an instance of [Machine.respects]. *)

Section Under.
Context `{Env} {V : Type} (P : V -> Prop) (F : event -> Prop).

Definition under (s s' : st V) : Prop := P (vars s) -> P (vars s') /\ grows F s s'.

#[export] Instance under_preorder : PreOrder under.
Proof.
  split.
  - intros s HP. split; [done|reflexivity].
  - intros s1 s2 s3 H12 H23 HP. destruct (H12 HP) as [HP2 G12]. destruct (H23 HP2) as [HP3 G23].
    split; [done|]. by etrans.
Qed.

Lemma under_read w a : (forall z, F (EvRd w a z)) -> respects under (mmio_read w a).
Proof. intros HF s HP. split; [done|]. eapply grows_one; [done|apply HF]. Qed.

Lemma under_write w a z : F (EvWr w a (wtrunc w z)) -> respects under (mmio_write w a z).
Proof. intros HF s HP. split; [done|]. by eapply grows_one. Qed.

Lemma under_call f args : (forall r, F (EvCall f args r)) -> respects under (ext_call f args).
Proof. intros HF s HP. split; [done|]. eapply grows_one; [done|apply HF]. Qed.

Lemma under_gets_is {S A B} `{!Has S V} (f : S -> A) x (k : A -> M V B) :
  (forall v, P v -> f (sget v) = x) -> respects under (k x) -> respects under (bind (gets f) k).
Proof.
  intros Hf Hk s HP. unfold bind, gets, getv. rewrite (Hf _ HP). by apply Hk.
Qed.

Lemma under_mods {S} `{!Has S V} (f : S -> S) :
  (forall v, P v -> P (sput (f (sget v)) v)) -> respects under (mods f).
Proof. intros Hf s HP. split; [by apply Hf|]. by apply grows_same. Qed.

(** What one run did, in program order. *)
Lemma under_run {A} (m : M V A) s : respects under m -> P (vars s) ->
  exists tr, log (m s).2 = rev tr ++ log s /\ Forall F tr /\ P (vars (m s).2).
Proof.
  intros Hm HP. destruct (Hm s HP) as (HP' & new & Hl & HF). exists (rev new).
  rewrite rev_involutive. split; [done|]. split; [by apply Forall_rev|done].
Qed.

End Under.

(** Walk through straight-line code; calls with contracts of their own, loops and
    case distinctions are left to the caller. *)
Ltac yield_step :=
  lazymatch goal with
  | |- yields _ (bind (bind _ _) _) _ => apply yields_assoc
  | |- yields _ (bind (ret _) _) _ => apply yields_bind_ret
  | |- yields _ (bind (stop _) _) _ => apply yields_bind_stop
  | |- yields _ (bind (mmio_read _ _) _) _ => apply yields_read; intros ?
  | |- yields _ (bind (mmio_write _ _ _) _) _ => apply yields_write; cbn [wtrunc]
  | |- yields _ (bind (ext_call _ _) _) _ => apply yields_call; intros ?
  | |- yields _ (mmio_read _ _) _ => apply yields_last
  | |- yields _ (mmio_write _ _ _) _ => apply yields_last
  | |- yields _ (ext_call _ _) _ => apply yields_last
  | |- yields _ (stop _) _ => apply yields_stop
  end.
Ltac yield := run_unfold; repeat yield_step.

(** The same walk for [under]: what is left are the events, and the calls with
    lemmas of their own. *)
Ltac under_step :=
  lazymatch goal with
  | |- respects _ (bind (gets _) _) => fail
  | |- respects _ (bind _ _) => apply respects_bind; [apply _| |intros ?]
  | |- respects _ (match ?x with Some _ => _ | None => _ end) => destruct x
  | |- respects _ (if _ then _ else _) => apply respects_if
  | |- respects _ (ret _) => apply respects_ret; apply _
  | |- respects _ (stop _) => apply respects_stop; apply _
  | |- respects _ (mmio_read _ _) => apply under_read; intros ?
  | |- respects _ (mmio_write _ _ _) => apply under_write; cbn [wtrunc]
  | |- respects _ (ext_call _ _) => apply under_call; intros ?
  end.
Ltac under_walk := run_unfold; repeat under_step.

(** Case analysis on the first boolean test of the goal. *)
Ltac bool_case :=
  match goal with
  | |- context [if ?b then _ else _] => match type of b with bool => destruct b eqn:? end
  end.

(** ** Computations that return and leave statics and locks alone *)

Section Calm.
Context `{Env} {V : Type}.

Definition calm {A} (m : M V A) : Prop :=
  forall s, returns m s (fun _ s' => vars s' = vars s /\ held s' = held s).

Lemma calm_ret {A} (a : A) : calm (ret a).
Proof. by intros s. Qed.

Lemma calm_bind {A B} (m : M V A) (k : A -> M V B) : calm m -> (forall a, calm (k a)) -> calm (bind m k).
Proof.
  intros Hm Hk s. apply returns_bind. eapply returns_mono; [apply Hm|]. intros a s1 [Hv Hh].
  eapply returns_mono; [apply Hk|]. intros b s2 [Hv' Hh']. split; congruence.
Qed.

Lemma calm_if {A} (b : bool) (m1 m2 : M V A) : calm m1 -> calm m2 -> calm (if b then m1 else m2).
Proof. by destruct b. Qed.

Lemma calm_read w a : calm (mmio_read w a).
Proof. by intros s. Qed.

Lemma calm_write w a z : calm (mmio_write w a z).
Proof. by intros s. Qed.

Lemma calm_call f args : calm (ext_call f args).
Proof. by intros s. Qed.

Lemma calm_emit e : calm (emit e).
Proof. by intros s. Qed.

Lemma calm_gets {S A} `{!Has S V} (f : S -> A) : calm (gets f).
Proof. by intros s. Qed.

(** Documented behaviour of a status register: a wait without timeout ends within
    [n] reads. *)
Fixpoint stops_within (n : nat) (addr : Z) (again : Z -> bool) (d : Dev) : Prop :=
  match n with
  | O => False
  | S n' => let r := hw_read W32 addr d in
            again (u32 r.1) = false \/ stops_within n' addr again r.2
  end.

Lemma calm_do_while n addr again :
  (forall d, stops_within n addr again d) -> calm (do_while n (mmio_read_32 addr) again).
Proof.
  intros Hd s. specialize (Hd (dev s)). revert s Hd. induction n as [|n IH]; intros [d l h v] Hd; [done|].
  simpl in Hd. simpl. unfold returns. run. if_case; [|by run].
  destruct Hd as [Hd|Hd]; [congruence|]. apply (IH (St _ _ h v) Hd).
Qed.

End Calm.

Create HintDb calm discriminated.
#[export] Hint Resolve calm_ret calm_read calm_write calm_call calm_emit calm_gets : calm.

(** Walk through a function for [calm]; waits are left. *)
Ltac calm_step :=
  lazymatch goal with
  | |- calm (bind _ _) => apply calm_bind; [|intros ?]
  | |- calm (match ?x with Some _ => _ | None => _ end) => destruct x
  | |- calm (if _ then _ else _) => apply calm_if
  | |- _ => solve [auto with calm]
  end.
Ltac calm_walk := run_unfold; repeat calm_step.
