(* ===== verification/TeeMutex.v ===== *)
(** * Mutexes and condition variables of the trusted OS

    optee_os/core/kernel/mutex.c and wait_queue.c: a mutex that one writer or any
    number of readers hold, with a queue in which the threads that wait for it and
    those that wait for its condition variables stand.  A thread waits in the normal
    world until another one notifies it.  What [TaLocks] takes as a section under
    [tee_ta_mutex] runs between [mutex_lock] and [mutex_unlock] of such a mutex.

    Threads run concurrently; a step is what runs under a spin lock (of the mutex or
    of the queue), a notification, or its arrival.  A thread follows a script of
    operations on one mutex.  The link from a condition variable to its mutex is set
    by the first wait.  [cv_signal] reads that link before it goes through the queue, and
    [condvar_wait] sets it before its section: a link seen one step earlier or later
    changes nothing, because the thread that waits is not in the queue in between. *)

From S2P Require Import Prelude.
From stdpp Require Import list relations.
#[local] Open Scope Z_scope.
#[local] Open Scope c_scope.

Module TeeMutex.

(** The condition variable of an element, [None] for a thread that waits for the
    mutex itself. *)
Record wait_queue_elem := Wqe { handle : nat; done : bool; wait_read : bool; cv : option nat }.
Definition set_done (e : wait_queue_elem) : wait_queue_elem := Wqe (handle e) true (wait_read e) (cv e).
Definition unset_cv (e : wait_queue_elem) : wait_queue_elem := Wqe (handle e) (done e) (wait_read e) None.

(** [state] is -1 with a writer, else the number of readers; [linked] are the
    condition variables whose [m] is set, [sent] the notifications under way. *)
Record mutex := Mutex { state : Z; wq : list wait_queue_elem; linked : list nat; sent : list nat }.
Definition MUTEX_INITIALIZER : mutex := Mutex 0 [] [] [].
Definition set_state (x : Z) (m : mutex) : mutex := Mutex x (wq m) (linked m) (sent m).
Definition set_wq (q : list wait_queue_elem) (m : mutex) : mutex := Mutex (state m) q (linked m) (sent m).
Definition set_linked (x : list nat) (m : mutex) : mutex := Mutex (state m) (wq m) x (sent m).
Definition set_sent (x : list nat) (m : mutex) : mutex := Mutex (state m) (wq m) (linked m) x.

(** A short. *)
Definition s16 (z : Z) : Z := (z + 2 ^ 15) mod 2 ^ 16 - 2 ^ 15.

(** ** The queue *)

Definition slist_add_tail (q : list wait_queue_elem) (wqe : wait_queue_elem) : list wait_queue_elem := q ++ [wqe].

Definition wq_wait_init_condvar (me : nat) (c : option nat) (rd : bool) (m : mutex) : mutex :=
  set_wq (slist_add_tail (wq m) (Wqe me false rd c)) m.
Definition wq_wait_init (me : nat) (rd : bool) (m : mutex) : mutex := wq_wait_init_condvar me None rd m.

(** One round of the loop of [wq_wake_next]: [wake_read] is [None] until the type is
    assigned.  The thread to notify, its type, and the queue with its element done. *)
Fixpoint wake_round (wake_read : option bool) (q : list wait_queue_elem) : option (nat * bool * list wait_queue_elem) :=
  match q with
  | [] => None
  | e :: q' =>
      let pass wake_read := match wake_round wake_read q' with Some (h, r, q'') => Some (h, r, e :: q'') | None => None end in
      if bool_decide (cv e <> None) then pass wake_read
      else if done e then pass wake_read
      else
        let r := match wake_read with Some r => r | None => wait_read e end in
        if negb (Bool.eqb (wait_read e) r) then pass (Some r)
        else Some (handle e, r, set_done e :: q')
  end.

Fixpoint wq_promote_condvar (c : nat) (only_one : bool) (q : list wait_queue_elem) : list wait_queue_elem :=
  match q with
  | [] => []
  | e :: q' =>
      if bool_decide (cv e = Some c) then unset_cv e :: (if only_one then q' else wq_promote_condvar c only_one q')
      else e :: wq_promote_condvar c only_one q'
  end.

(** The element of this thread: whether it is done, and the queue without it. *)
Definition wqe_done (me : nat) (q : list wait_queue_elem) : bool := existsb (fun e => bool_decide (handle e = me) && done e) q.
Definition slist_remove (me : nat) (q : list wait_queue_elem) : list wait_queue_elem := filter (fun e => handle e <> me) q.

(** ** Threads *)

(** Where a thread is: before the section under the spin lock of a lock operation;
    in [wq_wait_final], waiting for a notification or looking at its element; inside
    the mutex; in a round of [wq_wake_next], or before the notification of the round;
    [back] says where [wq_wake_next] returns to. *)
Inductive back := Leave | Await (rd : bool).
Inductive place :=
| Outside
| Locking (rd : bool)
| Asleep (rd : bool)
| Checking (rd : bool)
| Holding (rd : bool)
| Waking (wake_read : option bool) (k : back)
| Notifying (h : nat) (wake_read : bool) (k : back)
| Panicked.

Definition return_to (k : back) : place := match k with Leave => Outside | Await rd => Asleep rd end.

(** What a thread does with the mutex; after a failed [mutex_trylock] it goes on with
    [other]. *)
Inductive script :=
| Done
| Lock (rd : bool) (k : script)
| Trylock (rd : bool) (k other : script)
| Unlock (k : script)
| Wait (c : nat) (k : script)
| Signal (c : nat) (k : script)
| Broadcast (c : nat) (k : script).
Record thread := Thread { at_ : place; todo : script }.

Section Thread.
Variable me : nat.

(** [mutex_lock], [mutex_read_lock]: the sections under the spin lock. *)
Definition mutex_lock (m : mutex) : mutex * place :=
  let can_lock := state m =? 0 in
  if negb can_lock then (wq_wait_init me false m, Asleep false) else (set_state (-1) m, Holding false).

Definition mutex_read_lock (m : mutex) : mutex * place :=
  let can_lock := negb (state m =? -1) in
  if negb can_lock then (wq_wait_init me true m, Asleep true) else (set_state (s16 (state m + 1)) m, Holding true).

Definition mutex_trylock (m : mutex) : mutex * bool :=
  let can_lock_write := state m =? 0 in
  (if can_lock_write then set_state (-1) m else m, can_lock_write).

Definition mutex_read_trylock (m : mutex) : mutex * bool :=
  let can_lock := negb (state m =? -1) in
  (if can_lock then set_state (s16 (state m + 1)) m else m, can_lock).

Definition mutex_unlock (m : mutex) : mutex * place :=
  if state m =? 0 then (m, Panicked) else (set_state 0 m, Waking None Leave).

Definition mutex_read_unlock (m : mutex) : mutex * place :=
  if state m <=? 0 then (m, Panicked)
  else
    let new_state := state m - 1 in
    (set_state new_state m, if new_state =? 0 then Waking None Leave else Outside).

Definition condvar_wait (c : nat) (m : mutex) : mutex * place :=
  let m := set_linked (c :: linked m) m in
  if state m =? 0 then (m, Panicked)
  else
    let old_state := state m in
    let m := wq_wait_init_condvar me (Some c) (0 <? state m) m in
    let new_state := if state m >? 1 then state m - 1 else 0 in
    (set_state new_state m, if new_state =? 0 then Waking None (Await (0 <? old_state)) else Asleep (0 <? old_state)).

Definition cv_signal (c : nat) (only_one : bool) (m : mutex) : mutex :=
  if bool_decide (c ∈ linked m) then set_wq (wq_promote_condvar c only_one (wq m)) m else m.

(** Whether [mutex_destroy] returns; it panics otherwise. *)
Definition wq_is_empty (q : list wait_queue_elem) : bool := match q with [] => true | _ => false end.
Definition mutex_destroy (m : mutex) : bool := (state m =? 0) && wq_is_empty (wq m).

(** The next step of a thread. *)
Definition run (m : mutex) (t : thread) : option (mutex * thread) :=
  match at_ t with
  | Outside =>
      match todo t with
      | Done => None
      | Lock rd k => Some (m, Thread (Locking rd) k)
      | Trylock rd k other =>
          let r := if rd then mutex_read_trylock m else mutex_trylock m in Some (r.1, if r.2 then Thread (Holding rd) k else Thread Outside other)
      | Signal c k => Some (cv_signal c true m, Thread Outside k)
      | Broadcast c k => Some (cv_signal c false m, Thread Outside k)
      | k => Some (m, Thread Panicked k)
      end
  | Locking rd => let r := if rd then mutex_read_lock m else mutex_lock m in Some (r.1, Thread r.2 (todo t))
  | Asleep rd =>
      if bool_decide (me ∈ sent m) then Some (set_sent (list_difference (sent m) [me]) m, Thread (Checking rd) (todo t)) else None
  | Checking rd =>
      if wqe_done me (wq m) then Some (set_wq (slist_remove me (wq m)) m, Thread (Locking rd) (todo t))
      else Some (m, Thread (Asleep rd) (todo t))
  | Holding rd =>
      match todo t with
      | Unlock k => let r := if rd then mutex_read_unlock m else mutex_unlock m in Some (r.1, Thread r.2 k)
      | Wait c k => let r := condvar_wait c m in Some (r.1, Thread r.2 k)
      | Signal c k => Some (cv_signal c true m, Thread (Holding rd) k)
      | Broadcast c k => Some (cv_signal c false m, Thread (Holding rd) k)
      | k => Some (m, Thread Panicked k)
      end
  | Waking wake_read k =>
      match wake_round wake_read (wq m) with
      | Some (h, r, q) => Some (set_wq q m, Thread (Notifying h r k) (todo t))
      | None => Some (m, Thread (return_to k) (todo t))
      end
  | Notifying h wake_read k =>
      Some (set_sent (sent m ++ [h]) m, Thread (if wake_read then Waking (Some true) k else return_to k) (todo t))
  | Panicked => None
  end.

End Thread.

Inductive step : mutex * list thread -> mutex * list thread -> Prop :=
| step_run m m' ts i t t' : ts !! i = Some t -> run i m t = Some (m', t') -> step (m, ts) (m', <[i := t']> ts).

(** A script that locks before it unlocks, waits or signals, and ends outside. *)
Fixpoint proper (held : bool) (ops : script) : bool :=
  match ops with
  | Done => negb held
  | Lock _ k => negb held && proper true k
  | Trylock _ k other => negb held && proper true k && proper false other
  | Unlock k => held && proper false k
  | Wait _ k | Signal _ k | Broadcast _ k => held && proper true k
  end.
Definition start (ops : script) : thread := Thread Outside ops.
Definition finished (t : thread) : Prop := at_ t = Outside /\ todo t = Done.

(** ** Counting *)

Definition count {A} (f : A -> bool) (l : list A) : nat := sum_list_with (fun x => Nat.b2n (f x)) l.

Lemma count_app {A} (f : A -> bool) l k : count f (l ++ k) = (count f l + count f k)%nat.
Proof. apply sum_list_with_app. Qed.
Lemma count_one {A} (f : A -> bool) x : count f [x] = Nat.b2n (f x).
Proof. unfold count. simpl. lia. Qed.
Lemma count_insert {A} (f : A -> bool) l i x y : l !! i = Some x ->
  (count f (<[i := y]> l) + Nat.b2n (f x) = count f l + Nat.b2n (f y))%nat.
Proof.
  unfold count. revert i. induction l as [|z l IH]; intros [|i] Hi; simplify_eq/=; [lia|]. specialize (IH i Hi). lia.
Qed.
Lemma count_pos {A} (f : A -> bool) l : (0 < count f l)%nat <-> exists i x, l !! i = Some x /\ f x = true.
Proof.
  unfold count. split.
  - induction l as [|z l IH]; simpl; [lia|]. intros Hc. destruct (f z) eqn:Hz; [by exists 0%nat, z|].
    destruct IH as (i & x & Hi & Hx); [simpl in Hc; lia|]. by exists (S i), x.
  - intros (i & x & Hi & Hx). revert i Hi. induction l as [|z l IH]; intros [|i] Hi; simplify_eq/=; [rewrite Hx; simpl; lia|].
    specialize (IH i Hi). lia.
Qed.
Lemma mx_count_le {A} (f : A -> bool) l : (count f l <= length l)%nat.
Proof. unfold count. induction l as [|z l IH]; simpl; [lia|]. destruct (f z); simpl; lia. Qed.
Lemma count_zero {A} (f : A -> bool) l : count f l = 0%nat -> forall i x, l !! i = Some x -> f x = false.
Proof.
  intros Hc i x Hi. destruct (f x) eqn:Hx; [|done]. assert (0 < count f l)%nat by (apply count_pos; eauto). lia.
Qed.

(** The elements of a thread, those that are done, and those that wait for the mutex
    without being woken. *)
Definition mine (h : nat) (e : wait_queue_elem) : bool := bool_decide (handle e = h).
Definition mine_done (h : nat) (e : wait_queue_elem) : bool := bool_decide (handle e = h) && done e.
Definition waiting (e : wait_queue_elem) : bool := bool_decide (cv e = None) && negb (done e).

Lemma round_some ty q h r q' : wake_round ty q = Some (h, r, q') ->
  (forall k, count (mine k) q' = count (mine k) q) /\
  (forall k, count (mine_done k) q' = (count (mine_done k) q + Nat.b2n (bool_decide (h = k)))%nat) /\
  (0 < count done q')%nat /\ (0 < count (mine h) q)%nat.
Proof.
  revert ty q' h r. induction q as [|e q IH]; intros ty q' h r; simpl; [done|].
  assert (Hpass : forall ty', match wake_round ty' q with Some (h0, r0, q0) => Some (h0, r0, e :: q0) | None => None end = Some (h, r, q') ->
    (forall k, count (mine k) q' = count (mine k) (e :: q)) /\
    (forall k, count (mine_done k) q' = (count (mine_done k) (e :: q) + Nat.b2n (bool_decide (h = k)))%nat) /\
    (0 < count done q')%nat /\ (0 < count (mine h) (e :: q))%nat).
  { intros ty' E. destruct (wake_round ty' q) as [[[h0 r0] q0]|] eqn:Er; [|done]. injection E as -> -> <-.
    destruct (IH _ _ _ _ Er) as (I1 & I2 & I3 & I4). unfold count in *. simpl. split; [intros k; by rewrite I1|].
    split; [intros k; rewrite I2; lia|]. split; lia. }
  repeat (case_match; [by apply Hpass|]). intros [= <- <- <-]. unfold count. simpl.
  assert (Hd : done e = false) by done. unfold mine, mine_done. rewrite Hd. simpl.
  split; [done|]. split; [intros k; rewrite andb_false_r, andb_true_r; simpl; lia|]. split; [lia|].
  rewrite bool_decide_eq_true_2 by done. simpl. lia.
Qed.

Lemma round_none q : wake_round None q = None -> count waiting q = 0%nat.
Proof.
  induction q as [|e q IH]; simpl; [done|]. unfold count. simpl. unfold waiting at 1.
  destruct (bool_decide (cv e <> None)) eqn:Hc.
  - apply bool_decide_eq_true in Hc. rewrite bool_decide_eq_false_2 by done. intros E. apply IH. by destruct (wake_round None q) as [[[] ]|].
  - destruct (done e); [rewrite andb_false_r; intros E; apply IH; by destruct (wake_round None q) as [[[] ]|]|].
    rewrite Bool.eqb_reflx. done.
Qed.

Lemma promote_counts c b q : (forall k, count (mine k) (wq_promote_condvar c b q) = count (mine k) q) /\
  (forall k, count (mine_done k) (wq_promote_condvar c b q) = count (mine_done k) q).
Proof.
  unfold count. induction q as [|e q [I1 I2]]; [done|]. simpl. destruct (bool_decide _); [destruct b|]; simpl; split; intros k; rewrite ?I1, ?I2; done.
Qed.

Lemma remove_counts me q : (forall k, count (mine k) (slist_remove me q) = if bool_decide (k = me) then 0%nat else count (mine k) q) /\
  (forall k, count (mine_done k) (slist_remove me q) = if bool_decide (k = me) then 0%nat else count (mine_done k) q).
Proof.
  unfold count, slist_remove. induction q as [|e q [I1 I2]]; [split; intros k; by case_bool_decide|].
  rewrite filter_cons. destruct (decide (handle e <> me)) as [Hn|Hn]; simpl; split; intros k; rewrite ?I1, ?I2; unfold mine, mine_done;
    repeat case_bool_decide; simplify_eq; simpl; try done; destruct Hn; congruence.
Qed.

Lemma done_count me q : wqe_done me q = true <-> (0 < count (mine_done me) q)%nat.
Proof.
  unfold wqe_done, count, mine_done. induction q as [|e q IH]; simpl; [split; [done|lia]|].
  destruct (bool_decide _ && done e); simpl; [split; [lia|done]|exact IH].
Qed.

(** Both kinds of a lock in one. *)
Definition can_lock (rd : bool) (m : mutex) : bool := if rd then negb (state m =? -1) else state m =? 0.
Definition locked (rd : bool) (m : mutex) : mutex := set_state (if rd then s16 (state m + 1) else -1) m.

Lemma lock_section me (rd : bool) m : (if rd then mutex_read_lock me m else mutex_lock me m) =
  if negb (can_lock rd m) then (wq_wait_init me rd m, Asleep rd) else (locked rd m, Holding rd).
Proof. by destruct rd. Qed.
Lemma trylock_section (rd : bool) m : (if rd then mutex_read_trylock m else mutex_trylock m) =
  (if can_lock rd m then locked rd m else m, can_lock rd m).
Proof. by destruct rd. Qed.

(** ** The invariant *)

Definition writer (t : thread) : bool := match at_ t with Holding false => true | _ => false end.
Definition reader (t : thread) : bool := match at_ t with Holding true => true | _ => false end.
Definition checking (t : thread) : bool := match at_ t with Checking _ => true | _ => false end.
Definition notifying (h : nat) (t : thread) : bool := match at_ t with Notifying h' _ _ => bool_decide (h' = h) | _ => false end.
(** In the queue. *)
Definition queued (t : thread) : bool :=
  match at_ t with Asleep _ | Checking _ | Waking _ (Await _) | Notifying _ _ (Await _) => true | _ => false end.
(** About to try the lock, or to wake the first thread that waits for it. *)
Definition wakeful (t : thread) : bool := match at_ t with Locking _ | Waking None _ => true | _ => false end.

Definition script_ok (t : thread) : Prop :=
  match at_ t with
  | Panicked => False
  | Outside | Waking _ Leave | Notifying _ _ Leave => proper false (todo t) = true
  | _ => proper true (todo t) = true
  end.

Record inv (m : mutex) (ts : list thread) : Prop := {
  n_state : state m = -1 /\ count writer ts = 1%nat /\ count reader ts = 0%nat \/
            state m = Z.of_nat (count reader ts) /\ count writer ts = 0%nat;
  n_elems : forall h t, ts !! h = Some t -> count (mine h) (wq m) = Nat.b2n (queued t);
  n_owned : forall h, (0 < count (mine h) (wq m))%nat -> (h < length ts)%nat;
  n_done : forall h t, ts !! h = Some t ->
    count (mine_done h) (wq m) = (count (fun x => bool_decide (x = h)) (sent m) + count (notifying h) ts + Nat.b2n (checking t))%nat;
  n_alive : state m = 0 -> (0 < count waiting (wq m))%nat -> (0 < count wakeful ts)%nat \/ (0 < count done (wq m))%nat;
  n_script : Forall script_ok ts
}.

Lemma done_le h q : (count (mine_done h) q <= count (mine h) q)%nat.
Proof. unfold count, mine_done, mine. induction q as [|e q IH]; simpl; [lia|]. destruct (bool_decide _), (done e); simpl; lia. Qed.
Lemma done_some h q : (0 < count (mine_done h) q)%nat -> (0 < count done q)%nat.
Proof. unfold count, mine_done. induction q as [|e q IH]; simpl; [lia|]. destruct (bool_decide _), (done e); simpl in *; lia. Qed.

Section Keep.
Context (m : mutex) (ts : list thread) (i : nat) (t : thread) (Hv : inv m ts) (Hi : ts !! i = Some t).
Context (Hroom : Z.of_nat (length ts) + 1 < 2 ^ 15).

(** What a step has to show. *)
Lemma inv_update m' t' :
  (state m' = -1 /\ count writer (<[i := t']> ts) = 1%nat /\ count reader (<[i := t']> ts) = 0%nat \/
   state m' = Z.of_nat (count reader (<[i := t']> ts)) /\ count writer (<[i := t']> ts) = 0%nat) ->
  count (mine i) (wq m') = Nat.b2n (queued t') ->
  (forall h, h <> i -> count (mine h) (wq m') = count (mine h) (wq m)) ->
  count (mine_done i) (wq m') = (count (fun x => bool_decide (x = i)) (sent m') + count (notifying i) (<[i := t']> ts) + Nat.b2n (checking t'))%nat ->
  (forall h, h <> i -> (count (mine_done h) (wq m') + count (fun x => bool_decide (x = h)) (sent m) + count (notifying h) ts =
     count (mine_done h) (wq m) + count (fun x => bool_decide (x = h)) (sent m') + count (notifying h) (<[i := t']> ts))%nat) ->
  (state m' = 0 -> (0 < count waiting (wq m'))%nat -> (0 < count wakeful (<[i := t']> ts))%nat \/ (0 < count done (wq m'))%nat) ->
  script_ok t' -> inv m' (<[i := t']> ts).
Proof.
  intros H1 H2 H2' H3 H3' H4 H5. pose proof (lookup_lt_Some _ _ _ Hi) as Hlt. split; [done| | | |done|by apply Forall_insert; [apply Hv|]].
  - intros h u Hu. apply list_lookup_insert_Some in Hu as [(<- & <- & _)|[Hne Hu]]; [done|].
    rewrite H2' by done. by apply Hv.
  - intros h Hh. rewrite length_insert. destruct (decide (h = i)) as [->|Hne]; [done|]. rewrite H2' in Hh by done. by apply (n_owned m ts Hv).
  - intros h u Hu. apply list_lookup_insert_Some in Hu as [(<- & <- & _)|[Hne Hu]]; [done|].
    pose proof (n_done m ts Hv h u Hu). specialize (H3' h ltac:(done)). lia.
Qed.

(** The counts over threads after the step of one. *)
Lemma counts_after t' f : (count f (<[i := t']> ts) + Nat.b2n (f t) = count f ts + Nat.b2n (f t'))%nat.
Proof. by apply count_insert. Qed.

Lemma counts_same t' f : f t' = f t -> count f (<[i := t']> ts) = count f ts.
Proof. intros E. pose proof (counts_after t' f) as Hc. rewrite E in Hc. lia. Qed.

Lemma script_at : script_ok t.
Proof. pose proof (n_script m ts Hv) as Hs. rewrite Forall_lookup in Hs. by apply (Hs i). Qed.

(** A thread that moves without touching the queue or the notifications. *)
Lemma move_inv m' t' : wq m' = wq m -> sent m' = sent m -> queued t' = queued t -> checking t' = checking t ->
  (forall h, notifying h t' = notifying h t) ->
  (state m' = -1 /\ count writer (<[i := t']> ts) = 1%nat /\ count reader (<[i := t']> ts) = 0%nat \/
   state m' = Z.of_nat (count reader (<[i := t']> ts)) /\ count writer (<[i := t']> ts) = 0%nat) ->
  (state m' = 0 -> (0 < count waiting (wq m))%nat -> wakeful t' = true \/ (0 < count done (wq m))%nat \/
     state m = 0 /\ wakeful t = false) -> script_ok t' ->
  inv m' (<[i := t']> ts).
Proof.
  intros Hq Hs Hqu Hch Hno Hst Hal Hsc. pose proof (counts_after t') as Hc.
  apply inv_update; rewrite ?Hq, ?Hs; try done.
  - rewrite Hqu. by apply (n_elems m ts Hv).
  - pose proof (Hc (notifying i)) as Hn. rewrite Hno in Hn. rewrite (n_done m ts Hv i t Hi), Hch. lia.
  - intros h Hne. pose proof (Hc (notifying h)) as Hn. rewrite Hno in Hn. lia.
  - intros H0 Hw. pose proof (Hc wakeful) as Hk. destruct (Hal H0 Hw) as [Hw'|[Hd|[Hz Hf]]]; [|by right|].
    + left. rewrite Hw' in Hk. apply count_pos. exists i, t'. split; [|done]. apply list_lookup_insert_eq. by eapply lookup_lt_Some.
    + rewrite Hf in Hk. destruct (n_alive m ts Hv Hz Hw) as [Ha|Ha]; [left|by right]. simpl in Hk. lia.
Qed.

(** *** Locking *)

(** Counts of the thread that moves. *)
Ltac tally t' :=
  pose proof (counts_after t' writer) as Hwr; pose proof (counts_after t' reader) as Hrd;
  pose proof (n_state m ts Hv) as Hst; unfold writer, reader in Hwr, Hrd;
  repeat match goal with Ha : at_ t = _ |- _ => rewrite Ha in Hwr, Hrd; clear Ha end; cbn [at_ Nat.b2n] in Hwr, Hrd;
  fold writer in Hwr; fold reader in Hrd.

(** A thread that takes the mutex. *)
Lemma acquire_inv (rd : bool) k : match at_ t with Locking _ | Outside => True | _ => False end ->
  can_lock rd m = true -> proper true k = true ->
  inv (locked rd m) (<[i := Thread (Holding rd) k]> ts).
Proof.
  intros Ha Ec Hk. unfold can_lock in Ec. unfold locked. assert (Hf : writer t = false /\ reader t = false /\ queued t = false /\ checking t = false /\ forall h, notifying h t = false)
    by (unfold writer, reader, queued, checking, notifying; by destruct (at_ t)).
  destruct Hf as (F1 & F2 & F3 & F4 & F5). pose proof (mx_count_le reader ts). pose proof (n_state m ts Hv) as Hst.
  apply move_inv; rewrite ?F3, ?F4; try done; cbn [set_state state].
  - pose proof (counts_after (Thread (Holding rd) k) writer) as Hwr. pose proof (counts_after (Thread (Holding rd) k) reader) as Hrd.
    rewrite F1 in Hwr. rewrite F2 in Hrd. destruct rd; simpl in Ec, Hwr, Hrd; zbool; [right|left; lia].
    split; [|lia]. unfold s16. rewrite Z.mod_small by lia. lia.
  - intros H0. exfalso. destruct rd; [|lia]. simpl in Ec. zbool. unfold s16 in H0. rewrite Z.mod_small in H0 by lia. lia.
Qed.

Lemma lock_inv rd : at_ t = Locking rd ->
  let r := if rd then mutex_read_lock i m else mutex_lock i m in inv r.1 (<[i := Thread r.2 (todo t)]> ts).
Proof.
  intros Ha. pose proof script_at as Hs. unfold script_ok in Hs. rewrite Ha in Hs. cbv zeta. rewrite lock_section.
  pose proof (n_elems m ts Hv i t Hi) as He. pose proof (n_done m ts Hv i t Hi) as Hd. unfold queued, checking in He, Hd. rewrite Ha in He, Hd.
  destruct (negb (can_lock rd m)) eqn:Ec; cbn [fst snd].
  - set (t' := Thread (Asleep rd) (todo t)). assert (Hno : forall h, count (notifying h) (<[i := t']> ts) = count (notifying h) ts)
      by (intros h; apply counts_same; unfold notifying; by rewrite Ha).
    assert (Hnz : state m <> 0) by (unfold can_lock in Ec; destruct rd; zbool; lia).
    apply inv_update; unfold wq_wait_init, wq_wait_init_condvar, slist_add_tail; cbn [set_wq state wq sent]; try done.
    + unfold t'. tally (Thread (Asleep rd) (todo t)). destruct rd; lia.
    + rewrite count_app, He, count_one. unfold mine. cbn [handle]. by rewrite bool_decide_eq_true_2.
    + intros h Hne. rewrite count_app, count_one. unfold mine. cbn [handle]. rewrite bool_decide_eq_false_2 by done. simpl. lia.
    + rewrite count_app, Hd, count_one, Hno. unfold mine_done. cbn [done]. rewrite andb_false_r. simpl. lia.
    + intros h Hne. rewrite count_app, count_one, Hno. unfold mine_done. cbn [done]. rewrite andb_false_r. simpl. lia.
  - by apply acquire_inv; [rewrite Ha|apply negb_false_iff|].
Qed.

Lemma trylock_inv rd k other : at_ t = Outside -> todo t = Trylock rd k other ->
  let r := if rd then mutex_read_trylock m else mutex_trylock m in inv r.1 (<[i := if r.2 then Thread (Holding rd) k else Thread Outside other]> ts).
Proof.
  intros Ha Ht. pose proof script_at as Hs. unfold script_ok in Hs. rewrite Ha, Ht in Hs. simpl in Hs. apply andb_prop in Hs as [Hk Ho].
  cbv zeta. rewrite trylock_section. cbn [fst snd]. destruct (can_lock rd m) eqn:Ec.
  - by apply acquire_inv; rewrite ?Ha, ?Ec.
  - apply move_inv; try done; unfold queued, checking, notifying; rewrite ?Ha; try done.
    + tally (Thread Outside other). lia.
    + intros H0 _. right. right. split; [done|]. unfold wakeful. by rewrite Ha.
Qed.

Lemma enter_inv rd k : at_ t = Outside -> todo t = Lock rd k -> inv m (<[i := Thread (Locking rd) k]> ts).
Proof.
  intros Ha Ht. pose proof script_at as Hs. unfold script_ok in Hs. rewrite Ha, Ht in Hs.
  apply move_inv; try done; unfold queued, checking, notifying; rewrite ?Ha; try done.
  - tally (Thread (Locking rd) k). lia.
  - intros _ _. by left.
Qed.

(** *** Waiting for the notification *)

Lemma count_diff h x l : count (fun y => bool_decide (y = h)) (list_difference l [x]) =
  if bool_decide (h = x) then 0%nat else count (fun y : nat => bool_decide (y = h)) l.
Proof.
  unfold count. induction l as [|y l IH]; simpl; [by case_bool_decide|].
  destruct (decide_rel _ y [x]) as [Hin|Hin].
  - apply list_elem_of_singleton in Hin as ->. rewrite IH. repeat case_bool_decide; simplify_eq; simpl; done.
  - simpl. rewrite IH. assert (y <> x) by (intros ->; apply Hin; by left). repeat case_bool_decide; simplify_eq; simpl; done.
Qed.

Lemma check_inv rd : at_ t = Asleep rd -> i ∈ sent m ->
  inv (set_sent (list_difference (sent m) [i]) m) (<[i := Thread (Checking rd) (todo t)]> ts).
Proof.
  intros Ha Hin. pose proof script_at as Hs. unfold script_ok in Hs. rewrite Ha in Hs.
  pose proof (n_elems m ts Hv i t Hi) as He. pose proof (n_done m ts Hv i t Hi) as Hd. unfold queued, checking in He, Hd. rewrite Ha in He, Hd.
  pose proof (done_le i (wq m)) as Hle. assert (Hone : (0 < count (fun x => bool_decide (x = i)) (sent m))%nat).
  { apply count_pos. apply list_elem_of_lookup in Hin as [j Hj]. exists j, i. split; [done|]. by apply bool_decide_eq_true. }
  set (t' := Thread (Checking rd) (todo t)). assert (Hno : forall h, count (notifying h) (<[i := t']> ts) = count (notifying h) ts)
      by (intros h; apply counts_same; unfold notifying; by rewrite Ha).
  apply inv_update; cbn [set_sent state wq sent]; try done.
  - unfold t'. tally (Thread (Checking rd) (todo t)). lia.
  - rewrite count_diff, bool_decide_eq_true_2 by done. rewrite Hno. simpl in *. lia.
  - intros h Hne. rewrite count_diff, bool_decide_eq_false_2 by done. rewrite Hno. simpl in *. lia.
  - intros H0 Hw. destruct (n_alive m ts Hv H0 Hw) as [Hk|Hk]; [left|by right].
    rewrite counts_same; [done|]. unfold wakeful. by rewrite Ha.
Qed.

Lemma checked rd : at_ t = Checking rd -> wqe_done i (wq m) = true /\
  inv (set_wq (slist_remove i (wq m)) m) (<[i := Thread (Locking rd) (todo t)]> ts).
Proof.
  intros Ha. pose proof script_at as Hs. unfold script_ok in Hs. rewrite Ha in Hs.
  pose proof (n_elems m ts Hv i t Hi) as He. pose proof (n_done m ts Hv i t Hi) as Hd. unfold queued, checking in He, Hd. rewrite Ha in He, Hd.
  pose proof (done_le i (wq m)) as Hle. simpl in He, Hd. split; [apply done_count; lia|].
  destruct (remove_counts i (wq m)) as [R1 R2].
  set (t' := Thread (Locking rd) (todo t)). assert (Hno : forall h, count (notifying h) (<[i := t']> ts) = count (notifying h) ts)
      by (intros h; apply counts_same; unfold notifying; by rewrite Ha).
  apply inv_update; cbn [set_wq state wq sent]; try done.
  - unfold t'. tally (Thread (Locking rd) (todo t)). lia.
  - by rewrite R1, bool_decide_eq_true_2.
  - intros h Hne. by rewrite R1, bool_decide_eq_false_2.
  - rewrite R2, bool_decide_eq_true_2 by done. rewrite Hno. simpl in *. lia.
  - intros h Hne. rewrite R2, bool_decide_eq_false_2 by done. rewrite Hno. simpl in *. lia.
  - intros _ _. left. apply count_pos. exists i, t'. split; [|done]. apply list_lookup_insert_eq. by eapply lookup_lt_Some.
Qed.

(** *** Releasing *)

Lemma holding_state rd : at_ t = Holding rd -> state m <> 0 /\ (rd = true <-> 0 < state m).
Proof.
  intros Ha. pose proof (n_state m ts Hv) as Hst.
  assert (Hp : (0 < count (if rd then reader else writer) ts)%nat).
  { apply count_pos. exists i, t. split; [done|]. unfold reader, writer. destruct rd; by rewrite Ha. }
  destruct rd; (split; [lia|split; intros; (done || lia)]).
Qed.

Lemma unlock_inv rd k : at_ t = Holding rd -> todo t = Unlock k ->
  let r := if rd then mutex_read_unlock m else mutex_unlock m in inv r.1 (<[i := Thread r.2 k]> ts).
Proof.
  intros Ha Ht. pose proof script_at as Hs. unfold script_ok in Hs. rewrite Ha, Ht in Hs. simpl in Hs.
  destruct (holding_state rd Ha) as [Hnz Hrd0]. destruct rd.
  - unfold mutex_read_unlock. rewrite (proj2 (Z.leb_gt _ _)) by (apply Hrd0; done). cbn [fst snd].
    set (t' := Thread _ k). assert (Hnh : writer t' = false /\ reader t' = false) by (unfold t', writer, reader; cbn [at_]; by destruct (_ =? 0)).
    apply move_inv; try done; unfold queued, checking, notifying, t'; cbn [at_]; rewrite ?Ha; try (intros; by destruct (_ =? 0)).
    + pose proof (counts_after t' writer) as Hwr. pose proof (counts_after t' reader) as Hrd. destruct Hnh as [-> ->] in Hwr, Hrd.
      assert (Hwt : writer t = false /\ reader t = true) by (unfold writer, reader; by rewrite Ha). destruct Hwt as [-> ->] in Hwr, Hrd.
      pose proof (n_state m ts Hv) as Hst. fold t'. cbn [Nat.b2n set_state state] in *. right. lia.
    + cbn [set_state state]. intros H0 _. left. unfold wakeful. cbn [at_]. by rewrite (proj2 (Z.eqb_eq _ _) H0).
  - unfold mutex_unlock. rewrite (proj2 (Z.eqb_neq _ _)) by done. cbn [fst snd].
    apply move_inv; try done; unfold queued, checking, notifying; rewrite ?Ha; try done.
    + tally (Thread (Waking None Leave) k). right. simpl. lia.
    + intros _ _. by left.
Qed.

Lemma wait_inv rd c k : at_ t = Holding rd -> todo t = Wait c k ->
  let r := condvar_wait i c m in inv r.1 (<[i := Thread r.2 k]> ts).
Proof.
  intros Ha Ht. pose proof script_at as Hs. unfold script_ok in Hs. rewrite Ha, Ht in Hs. simpl in Hs.
  pose proof (n_elems m ts Hv i t Hi) as He. pose proof (n_done m ts Hv i t Hi) as Hd. unfold queued, checking in He, Hd. rewrite Ha in He, Hd.
  destruct (holding_state rd Ha) as [Hnz Hrd0]. unfold condvar_wait. cbn [set_linked state]. rewrite (proj2 (Z.eqb_neq _ _)) by done.
  unfold wq_wait_init_condvar. cbn [set_wq set_linked state fst snd]. set (t' := Thread _ k).
  assert (Hp : writer t' = false /\ reader t' = false /\ queued t' = true /\ checking t' = false /\ (forall h, notifying h t' = false) /\ script_ok t').
  { unfold t', writer, reader, queued, checking, notifying, script_ok. cbn [at_ todo]. by destruct (_ =? 0). }
  destruct Hp as (P1 & P2 & P3 & P4 & P5 & P6).
  assert (Hno : forall h, count (notifying h) (<[i := t']> ts) = count (notifying h) ts)
    by (intros h; apply counts_same; rewrite P5; unfold notifying; by rewrite Ha).
  apply inv_update; unfold slist_add_tail; cbn [set_state set_wq set_linked state wq sent]; try done.
  - pose proof (counts_after t' writer) as Hwr. pose proof (counts_after t' reader) as Hrd. rewrite P1 in Hwr. rewrite P2 in Hrd.
    unfold writer in Hwr at 2. unfold reader in Hrd at 2. rewrite Ha in Hwr, Hrd. pose proof (n_state m ts Hv) as Hst. right.
    destruct rd; simpl in Hwr, Hrd; destruct (Z.gtb_spec (state m) 1); lia.
  - rewrite P3, count_app, He, count_one. unfold mine. cbn [handle]. by rewrite bool_decide_eq_true_2.
  - intros h Hne. rewrite count_app, count_one. unfold mine. cbn [handle]. rewrite bool_decide_eq_false_2 by done. simpl. lia.
  - rewrite P4, count_app, Hd, count_one, Hno. unfold mine_done. cbn [done]. rewrite andb_false_r. simpl. lia.
  - intros h Hne. rewrite count_app, count_one, Hno. unfold mine_done. cbn [done]. rewrite andb_false_r. simpl. lia.
  - intros H0 _. left. apply count_pos. exists i, t'. split; [apply list_lookup_insert_eq; by eapply lookup_lt_Some|].
    unfold t', wakeful. cbn [at_]. by rewrite (proj2 (Z.eqb_eq _ _) H0).
Qed.

Lemma signal_inv rd c b k : at_ t = Holding rd -> (todo t = Signal c k \/ todo t = Broadcast c k) ->
  inv (cv_signal c b m) (<[i := Thread (Holding rd) k]> ts).
Proof.
  intros Ha Ht. pose proof script_at as Hs. unfold script_ok in Hs. rewrite Ha in Hs.
  assert (Hp : proper true k = true) by (by destruct Ht as [Ht|Ht]; rewrite Ht in Hs).
  destruct (holding_state rd Ha) as [Hnz _]. destruct (promote_counts c b (wq m)) as [R1 R2].
  pose proof (n_elems m ts Hv i t Hi) as He. pose proof (n_done m ts Hv i t Hi) as Hd. unfold queued, checking in He, Hd. rewrite Ha in He, Hd.
  set (t' := Thread (Holding rd) k). assert (Hno : forall h, count (notifying h) (<[i := t']> ts) = count (notifying h) ts)
    by (intros h; apply counts_same; unfold notifying; by rewrite Ha).
  assert (Hsame : state (cv_signal c b m) = state m /\ sent (cv_signal c b m) = sent m /\
    (forall h, count (mine h) (wq (cv_signal c b m)) = count (mine h) (wq m)) /\
    (forall h, count (mine_done h) (wq (cv_signal c b m)) = count (mine_done h) (wq m))).
  { unfold cv_signal. by case_bool_decide. }
  destruct Hsame as (S1 & S2 & S3 & S4).
  apply inv_update; rewrite ?S1, ?S2, ?S3, ?S4; try done.
  - unfold t'. tally (Thread (Holding rd) k). destruct rd; lia.
  - rewrite Hd, Hno. done.
  - intros h Hne. rewrite S4, Hno. done.
Qed.

(** *** Waking *)

Lemma wake_inv ty k : at_ t = Waking ty k ->
  match wake_round ty (wq m) with
  | Some (h, r, q) => inv (set_wq q m) (<[i := Thread (Notifying h r k) (todo t)]> ts)
  | None => inv m (<[i := Thread (return_to k) (todo t)]> ts)
  end.
Proof.
  intros Ha. pose proof script_at as Hs. unfold script_ok in Hs. rewrite Ha in Hs.
  destruct (wake_round ty (wq m)) as [[[h r] q]|] eqn:Er.
  - destruct (round_some _ _ _ _ _ Er) as (R1 & R2 & R3 & _). set (t' := Thread (Notifying h r k) (todo t)).
    pose proof (n_elems m ts Hv i t Hi) as He. pose proof (n_done m ts Hv i t Hi) as Hd. unfold queued, checking in He, Hd. rewrite Ha in He, Hd.
    assert (Hno : forall j, count (notifying j) (<[i := t']> ts) = (count (notifying j) ts + Nat.b2n (bool_decide (h = j)))%nat).
    { intros j. pose proof (counts_after t' (notifying j)) as Hc. assert (E : notifying j t = false) by (unfold notifying; by rewrite Ha).
      rewrite E in Hc. change (notifying j t') with (bool_decide (h = j)) in Hc. simpl in Hc. lia. }
    apply inv_update; cbn [set_wq state wq sent]; try done.
    + unfold t'. tally (Thread (Notifying h r k) (todo t)). lia.
    + by rewrite R1, He.
    + rewrite R2, Hd, Hno. unfold t', checking. simpl. lia.
    + intros j Hne. rewrite R2, Hno. lia.
    + intros _ _. by right.
  - set (t' := Thread (return_to k) (todo t)).
    apply move_inv; try done; unfold queued, checking, notifying, t'; rewrite ?Ha; try (by destruct k).
    + rewrite !counts_same by (unfold writer, reader; rewrite Ha; by destruct k). apply Hv.
    + intros H0 Hw. destruct ty as [ty|]; [|rewrite (round_none _ Er) in Hw; lia]. right. right. split; [done|]. unfold wakeful. by rewrite Ha.
Qed.

Lemma notify_inv h r k : at_ t = Notifying h r k ->
  inv (set_sent (sent m ++ [h]) m) (<[i := Thread (if r then Waking (Some true) k else return_to k) (todo t)]> ts).
Proof.
  intros Ha. pose proof script_at as Hs. unfold script_ok in Hs. rewrite Ha in Hs.
  set (t' := Thread _ (todo t)).
  pose proof (n_elems m ts Hv i t Hi) as He. pose proof (n_done m ts Hv i t Hi) as Hd. unfold queued, checking in He, Hd. rewrite Ha in He, Hd.
  assert (Hp : writer t' = false /\ reader t' = false /\ queued t' = queued t /\ checking t' = false /\ (forall j, notifying j t' = false) /\
    wakeful t' = wakeful t /\ script_ok t').
  { unfold t', writer, reader, queued, checking, notifying, wakeful, script_ok. rewrite Ha. cbn [at_ todo]. by destruct r, k. }
  destruct Hp as (P1 & P2 & P3 & P4 & P5 & P6 & P7).
  assert (Hno : forall j, (count (notifying j) (<[i := t']> ts) + Nat.b2n (bool_decide (h = j)) = count (notifying j) ts)%nat).
  { intros j. pose proof (counts_after t' (notifying j)) as Hc. rewrite P5 in Hc.
    assert (E : notifying j t = bool_decide (h = j)) by (unfold notifying; by rewrite Ha). rewrite E in Hc. simpl in Hc. lia. }
  apply inv_update; cbn [set_sent state wq sent]; try done.
  - pose proof (counts_after t' writer) as Hwr. pose proof (counts_after t' reader) as Hrd. rewrite P1 in Hwr. rewrite P2 in Hrd.
    unfold writer in Hwr at 2. unfold reader in Hrd at 2. rewrite Ha in Hwr, Hrd. pose proof (n_state m ts Hv) as Hst. simpl in Hwr, Hrd. lia.
  - rewrite P3. unfold queued. rewrite Ha. done.
  - rewrite Hd, count_app, count_one, P4. specialize (Hno i). simpl. lia.
  - intros j Hne. rewrite count_app, count_one. specialize (Hno j). lia.
  - rewrite (counts_same t' wakeful P6). apply Hv.
Qed.

(** Every step. *)
Lemma mx_run_inv m' t' : run i m t = Some (m', t') -> inv m' (<[i := t']> ts).
Proof.
  pose proof script_at as Hs. unfold script_ok in Hs. unfold run. destruct (at_ t) eqn:Ha; intros Hr.
  - destruct (todo t) as [|rd k|rd k other|k|c k|c k|c k] eqn:Ht; simpl in Hs; try done; injection Hr as <- <-.
    + by apply enter_inv.
    + by apply (trylock_inv rd k other).
  - injection Hr as <- <-. by apply lock_inv.
  - case_bool_decide; [|done]. injection Hr as <- <-. by apply check_inv.
  - destruct (checked rd Ha) as [Hd Hc]. rewrite Hd in Hr. by injection Hr as <- <-.
  - destruct (todo t) as [|rd' k|rd' k other|k|c k|c k|c k] eqn:Ht; simpl in Hs; try done; injection Hr as <- <-.
    + by apply unlock_inv.
    + by apply (wait_inv rd).
    + apply (signal_inv rd); auto.
    + apply (signal_inv rd); auto.
  - pose proof (wake_inv _ _ Ha) as Hw. destruct (wake_round _ _) as [[[h r] q]|]; by injection Hr as <- <-.
  - injection Hr as <- <-. by apply notify_inv.
  - done.
Qed.

End Keep.

(** ** Executions *)

Section Runs.
Context (scripts : list script) (Hp : Forall (fun ops => proper false ops = true) scripts).
Context (Hroom : Z.of_nat (length scripts) + 1 < 2 ^ 15).

Lemma none_started (f : thread -> bool) : (forall ops, f (start ops) = false) -> count f (start <$> scripts) = 0%nat.
Proof.
  clear Hp Hroom. intros Hf. unfold count. induction scripts as [|ops l IH]; [done|]. simpl. rewrite Hf. exact IH.
Qed.

Lemma start_inv : inv MUTEX_INITIALIZER (start <$> scripts).
Proof.
  split; cbn.
  - right. by rewrite !none_started.
  - intros h t Ht. apply list_lookup_fmap_Some in Ht as (ops & -> & _). done.
  - intros h Hh. unfold count in Hh. simpl in Hh. lia.
  - intros h t Ht. rewrite none_started by done. apply list_lookup_fmap_Some in Ht as (ops & -> & _). done.
  - unfold count. simpl. lia.
  - apply Forall_fmap. eapply Forall_impl; [exact Hp|]. done.
Qed.

Lemma steps_inv m ts : rtc step (MUTEX_INITIALIZER, start <$> scripts) (m, ts) -> inv m ts /\ length ts = length scripts.
Proof.
  intros Hr. change (inv (m, ts).1 (m, ts).2 /\ length (m, ts).2 = length scripts). revert Hr. generalize (m, ts).
  apply (rtc_ind_r (fun s => inv s.1 s.2 /\ length s.2 = length scripts) (MUTEX_INITIALIZER, start <$> scripts)).
  - split; [apply start_inv|apply length_fmap].
  - intros y z _ Hs [Hv Hl]. destruct Hs as [m0 m1 us i t t' Hi Hr]. cbn in *. split; [|by rewrite length_insert].
    eapply mx_run_inv; [done|done| |done]. lia.
Qed.

End Runs.

(** Two threads inside are readers. *)
Lemma holders_read m ts i j t u rd rd' : inv m ts -> ts !! i = Some t -> ts !! j = Some u -> i <> j ->
  at_ t = Holding rd -> at_ u = Holding rd' -> rd = true /\ rd' = true.
Proof.
  intros Hv Hi Hj Hne Ht Hu. pose proof (n_state m ts Hv) as Hst.
  pose proof (count_insert writer ts i t (Thread Outside Done) Hi) as Hw. simpl in Hw.
  assert (Hj' : <[i := Thread Outside Done]> ts !! j = Some u) by (by rewrite list_lookup_insert_ne).
  assert (Hread : forall k x r, ts !! k = Some x -> at_ x = Holding r -> r = true -> (0 < count reader ts)%nat).
  { intros k x r Hk Hx ->. apply count_pos. exists k, x. split; [done|]. unfold reader. by rewrite Hx. }
  assert (Hwrite : forall l k x r, l !! k = Some x -> at_ x = Holding r -> r = false -> (0 < count writer l)%nat).
  { intros l k x r Hk Hx ->. apply count_pos. exists k, x. split; [done|]. unfold writer. by rewrite Hx. }
  assert (Ewt : writer t = negb rd) by (unfold writer; rewrite Ht; by destruct rd). rewrite Ewt in Hw.
  destruct rd, rd'; [done| | |]; exfalso.
  - specialize (Hread _ _ _ Hi Ht eq_refl). specialize (Hwrite _ _ _ _ Hj Hu eq_refl). lia.
  - specialize (Hread _ _ _ Hj Hu eq_refl). specialize (Hwrite _ _ _ _ Hi Ht eq_refl). lia.
  - specialize (Hwrite _ _ _ _ Hj' Hu eq_refl). simpl in Hw. lia.
Qed.

(** A thread that cannot move. *)
Lemma blocked_at m ts i t : inv m ts -> ts !! i = Some t -> run i m t = None ->
  finished t \/ exists rd, at_ t = Asleep rd /\ i ∉ sent m.
Proof.
  intros Hv Hi. pose proof (n_script m ts Hv) as Hs. rewrite Forall_lookup in Hs. specialize (Hs i t Hi).
  unfold script_ok in Hs. unfold run, finished. destruct (at_ t) as [|rd|rd|rd|rd|ty k|h r k|] eqn:Ha; try done.
  - destruct (todo t); try done. by left.
  - case_bool_decide; [done|]. eauto.
  - by destruct (wqe_done i (wq m)).
  - by destruct (todo t).
  - by destruct (wake_round ty (wq m)) as [[[]]|].
Qed.

(** Whom a stuck system leaves behind. *)
Definition unsignalled (m : mutex) (i : nat) (t : thread) : Prop :=
  exists rd e c, at_ t = Asleep rd /\ e ∈ wq m /\ handle e = i /\ done e = false /\ cv e = Some c.

(** With all threads finished, the mutex can be destroyed. *)
Lemma finished_queue m ts : inv m ts -> Forall finished ts -> wq m = [].
Proof.
  intros Hv Hf. destruct (wq m) as [|e q] eqn:E; [done|]. exfalso.
  assert (Hc : (0 < count (mine (handle e)) (wq m))%nat).
  { rewrite E. unfold count, mine. simpl. rewrite bool_decide_eq_true_2 by done. simpl. lia. }
  destruct (lookup_lt_is_Some_2 ts (handle e) (n_owned m ts Hv _ Hc)) as [t Ht].
  rewrite Forall_lookup in Hf. destruct (Hf _ _ Ht) as [Ha _]. rewrite (n_elems m ts Hv _ t Ht) in Hc. unfold queued in Hc. rewrite Ha in Hc.
  simpl in Hc. lia.
Qed.

Section Stuck.
Context (m : mutex) (ts : list thread) (Hv : inv m ts) (Hb : forall i t, ts !! i = Some t -> run i m t = None).

Lemma stuck_none f : (forall t, finished t -> f t = false) -> (forall t rd, at_ t = Asleep rd -> f t = false) -> count f ts = 0%nat.
Proof.
  intros Hf Hs. destruct (count f ts) as [|n] eqn:E; [done|]. destruct (proj1 (count_pos f ts)) as (i & t & Hi & Ht); [lia|].
  destruct (blocked_at m ts i t Hv Hi (Hb i t Hi)) as [Hd|(rd & Hd & _)]; [rewrite Hf in Ht by done|rewrite (Hs t rd) in Ht by done]; done.
Qed.

Ltac none := apply stuck_none; [by intros u [Hu _]; unfold writer, reader, wakeful, notifying; rewrite Hu|by intros u rd' Hu; unfold writer, reader, wakeful, notifying; rewrite Hu].

Lemma stuck_free : state m = 0.
Proof.
  assert (Hw : count writer ts = 0%nat) by none. assert (Hr : count reader ts = 0%nat) by none. pose proof (n_state m ts Hv). lia.
Qed.

Lemma stuck_done h : count (mine_done h) (wq m) = 0%nat.
Proof.
  destruct (count (mine_done h) (wq m)) as [|n] eqn:E; [done|]. exfalso. pose proof (done_le h (wq m)) as Hle.
  assert (Hlt : (h < length ts)%nat) by (apply (n_owned m ts Hv); lia). apply lookup_lt_is_Some in Hlt as [t Hh].
  pose proof (n_elems m ts Hv h t Hh) as He. pose proof (n_done m ts Hv h t Hh) as Hd.
  assert (Hn : count (notifying h) ts = 0%nat) by none.
  destruct (blocked_at m ts h t Hv Hh (Hb h t Hh)) as [[Hf _]|(rd & Ha & Hs)]; [unfold queued in He; rewrite Hf in He; simpl in He; lia|].
  rewrite E, Hn in Hd. unfold checking in Hd. rewrite Ha in Hd. simpl in Hd.
  destruct (proj1 (count_pos (fun x => bool_decide (x = h)) (sent m))) as (j & x & Hj & Hx); [lia|].
  apply bool_decide_eq_true in Hx as ->. apply Hs. by eapply list_elem_of_lookup_2.
Qed.

Lemma stuck_unwoken e : e ∈ wq m -> done e = false.
Proof.
  intros [j Hj]%list_elem_of_lookup. pose proof (count_zero _ _ (stuck_done (handle e)) j e Hj) as Hz. unfold mine_done in Hz.
  by rewrite bool_decide_eq_true_2 in Hz.
Qed.

Lemma stuck_waiter i t : ts !! i = Some t -> finished t \/ unsignalled m i t.
Proof.
  intros Hi. destruct (blocked_at m ts i t Hv Hi (Hb i t Hi)) as [Hf|(rd & Ha & Hs)]; [by left|right].
  pose proof (n_elems m ts Hv i t Hi) as He. unfold queued in He. rewrite Ha in He. simpl in He.
  destruct (proj1 (count_pos (mine i) (wq m))) as (j & e & Hj & Hm); [lia|]. apply bool_decide_eq_true in Hm.
  assert (Hin : e ∈ wq m) by (by eapply list_elem_of_lookup_2). pose proof (stuck_unwoken e Hin) as Hd.
  destruct (cv e) as [c|] eqn:Hc; [by exists rd, e, c|]. exfalso.
  assert (Hw : (0 < count waiting (wq m))%nat).
  { apply count_pos. exists j, e. split; [done|]. unfold waiting. by rewrite Hc, Hd, bool_decide_eq_true_2. }
  destruct (n_alive m ts Hv stuck_free Hw) as [Hk|Hk].
  - assert (E : count wakeful ts = 0%nat) by none. lia.
  - apply count_pos in Hk as (j' & e' & Hj' & Hd'). rewrite stuck_unwoken in Hd'; [done|]. by eapply list_elem_of_lookup_2.
Qed.

End Stuck.

(** The system after the steps of the named threads. *)
Fixpoint sched (who : list nat) (s : mutex * list thread) : option (mutex * list thread) :=
  match who with
  | [] => Some s
  | i :: who =>
      match s.2 !! i with
      | Some t => match run i s.1 t with Some (m, t') => sched who (m, <[i := t']> s.2) | None => None end
      | None => None
      end
  end.

Lemma sched_steps who s s' : sched who s = Some s' -> rtc step s s'.
Proof.
  revert s. induction who as [|i who IH]; intros [m ts] E; simpl in E; [by injection E as <-|].
  destruct (ts !! i) as [t|] eqn:Hi; [|done]. destruct (run i m t) as [[m' t']|] eqn:Hr; [|done].
  eapply rtc_l; [by econstructor|]. by apply IH.
Qed.





End TeeMutex.
