(* ===== verification/TaLocks.v ===== *)
(** * The locks of trusted applications (OP-TEE)

    The first part of optee_os/core/kernel/tee_ta_manager.c: a context (an instance
    of a trusted application) that is not flagged concurrent is entered by one
    thread at a time ([busy]), and one lock, which a thread may take repeatedly,
    serialises all single-instance contexts.  A thread that holds that lock does not
    wait for a busy context but gets a refusal.

    What runs under [tee_ta_mutex] is one step.  A section that waits for a condition
    variable gives the mutex up, sleeps until it is signalled, and starts again: it
    has written nothing before the wait ([try_set_busy_waits_clean]).  A signal wakes
    one sleeping thread, any one; a thread that is not signalled sleeps on.

    The system is any number of threads, each with a tree of calls: which contexts
    it enters, from which.  The theorems: the locks exclude, every run ends with all
    calls returned, unless a thread enters an instance in which it already is. *)

From S2P Require Import Prelude.
From stdpp Require Import list relations.
#[local] Open Scope Z_scope.
#[local] Open Scope c_scope.

Module TaLocks.

Definition TA_FLAG_SINGLE_INSTANCE : Z := 1 .<< 2.
Definition TA_FLAG_MULTI_SESSION : Z := 1 .<< 3.
Definition TA_FLAG_INSTANCE_KEEP_ALIVE : Z := 1 .<< 4.
Definition TA_FLAG_CONCURRENT : Z := 1 .<< 8.

(** The fields of a context that the locks use; a context is its index. *)
Record tee_ta_ctx := TaCtx { flags : Z; busy : bool }.
Definition set_busy (b : bool) (x : tee_ta_ctx) : tee_ta_ctx := TaCtx (flags x) b.

(** The statics; THREAD_ID_INVALID is [None]. *)
Record ta_locks := Locks {
  tee_ta_single_instance_thread : option nat;
  tee_ta_single_instance_count : Z;
  ctxes : list tee_ta_ctx
}.

Inductive condvar := tee_ta_cv | busy_cv (c : nat).
#[export] Instance condvar_eq_dec : EqDecision condvar.
Proof. solve_decision. Defined.

(** ** Sections under the mutex *)

(** A section ends with a result and the condition variables it has signalled, or
    waits for one, or fails an assertion. *)
Inductive outcome (A : Type) :=
| Done (a : A) (s : ta_locks) (sig : list condvar)
| WaitOn (cv : condvar) (s : ta_locks)
| Failed.
Arguments Done {A} _ _ _.
Arguments WaitOn {A} _ _.
Arguments Failed {A}.

Definition section (A : Type) : Type := ta_locks -> outcome A.
Definition sret {A} (a : A) : section A := fun s => Done a s [].
Definition sbind {A B} (m : section A) (k : A -> section B) : section B := fun s =>
  match m s with
  | Done a s1 sig1 => match k a s1 with
                      | Done b s2 sig2 => Done b s2 (sig1 ++ sig2)
                      | WaitOn cv s2 => WaitOn cv s2
                      | Failed => Failed
                      end
  | WaitOn cv s1 => WaitOn cv s1
  | Failed => Failed
  end.
Declare Scope section_scope.
Notation "x <- m ;; k" := (sbind m (fun x => k))
  (at level 100, m at next level, right associativity, format "x  <-  m ;;  '//' k") : section_scope.
Notation "m ;; k" := (sbind m (fun _ => k))
  (at level 100, right associativity, format "m ;;  '//' k") : section_scope.
#[local] Open Scope section_scope.

Definition sassert (b : bool) : section unit := fun s => if b then Done tt s [] else Failed.
Definition sget {A} (f : ta_locks -> A) : section A := fun s => Done (f s) s [].
Definition smod (f : ta_locks -> ta_locks) : section unit := fun s => Done tt (f s) [].
Definition condvar_wait {A} (cv : condvar) : section A := fun s => WaitOn cv s.
Definition condvar_signal (cv : condvar) : section unit := fun s => Done tt s [cv].

(** [*ctx]; there is no context at another index. *)
Definition ctx_at (c : nat) : section tee_ta_ctx :=
  fun s => match ctxes s !! c with Some x => Done x s [] | None => Failed end.
Definition ctx_busy (c : nat) (b : bool) : section unit :=
  smod (fun s => Locks (tee_ta_single_instance_thread s) (tee_ta_single_instance_count s) (alter (set_busy b) c (ctxes s))).

Section Thread.
Variable thread_get_id : nat.

Definition set_single (t : option nat) : section unit :=
  smod (fun s => Locks t (tee_ta_single_instance_count s) (ctxes s)).
Definition set_count (n : Z) : section unit :=
  smod (fun s => Locks (tee_ta_single_instance_thread s) n (ctxes s)).

Definition lock_single_instance : section unit :=
  t <- sget tee_ta_single_instance_thread ;;
  (if negb (bool_decide (t = Some thread_get_id)) then
     (match t with Some _ => condvar_wait tee_ta_cv | None => sret tt end) ;;
     set_single (Some thread_get_id) ;;
     n <- sget tee_ta_single_instance_count ;;
     sassert (n =? 0)
   else sret tt) ;;
  n <- sget tee_ta_single_instance_count ;;
  set_count (u64 (n + 1)).

Definition unlock_single_instance : section unit :=
  t <- sget tee_ta_single_instance_thread ;;
  sassert (bool_decide (t = Some thread_get_id)) ;;
  n <- sget tee_ta_single_instance_count ;;
  sassert (0 <? n) ;;
  set_count (u64 (n - 1)) ;;
  n <- sget tee_ta_single_instance_count ;;
  if n =? 0 then set_single None ;; condvar_signal tee_ta_cv else sret tt.

Definition has_single_instance_lock : section bool :=
  t <- sget tee_ta_single_instance_thread ;;
  sret (bool_decide (t = Some thread_get_id)).

Definition tee_ta_try_set_busy (c : nat) : section bool :=
  ctx <- ctx_at c ;;
  if truthy (flags ctx .& TA_FLAG_CONCURRENT) then sret true
  else
    (if truthy (flags ctx .& TA_FLAG_SINGLE_INSTANCE) then lock_single_instance else sret tt) ;;
    has <- has_single_instance_lock ;;
    ctx <- ctx_at c ;;
    rc <- (if (has : bool) then
             if busy ctx then
               (if truthy (flags ctx .& TA_FLAG_SINGLE_INSTANCE) then unlock_single_instance else sret tt) ;;
               sret false
             else sret true
           else
             (if busy ctx then condvar_wait (busy_cv c) else sret tt) ;;
             sret true) ;;
    ctx_busy c true ;;
    sret rc.

Definition tee_ta_clear_busy (c : nat) : section unit :=
  ctx <- ctx_at c ;;
  if truthy (flags ctx .& TA_FLAG_CONCURRENT) then sret tt
  else
    sassert (busy ctx) ;;
    ctx_busy c false ;;
    condvar_signal (busy_cv c) ;;
    if truthy (flags ctx .& TA_FLAG_SINGLE_INSTANCE) then unlock_single_instance else sret tt.

End Thread.

(** ** Threads *)

(** [Open] is a call of [tee_ta_open_session], which takes a refusal; [Enter] one of
    [tee_ta_invoke_command] or [tee_ta_close_session], which panics on it
    ([tee_ta_set_busy]).  [body] are the calls that the application makes before it
    returns. *)
Inductive entry := Open | Enter.
#[warnings="-register-all"]
Inductive call := Call (how : entry) (c : nat) (body : list call).

Inductive why := Panic | AssertFail.
Inductive phase := Ready | Waiting (cv : condvar) (woken : bool) | Stopped (w : why).
#[export] Instance why_eq_dec : EqDecision why.
Proof. solve_decision. Defined.
#[export] Instance phase_eq_dec : EqDecision phase.
Proof. solve_decision. Defined.

(** The contexts that the thread is in, innermost first, each with the calls that
    its caller still has to make; the calls of the innermost one. *)
Record thread := Thread { frames : list (nat * list call); calls : list call; doing : phase }.

(** A step of a thread: one call up to its entry, or one return.  An open that was
    refused closes its session, which enters the context. *)
Definition run (me : nat) (l : ta_locks) (t : thread) : option (ta_locks * thread * list condvar) :=
  match doing t with
  | Waiting _ false | Stopped _ => None
  | _ =>
      match calls t, frames t with
      | Call how c body :: k, fr =>
          match tee_ta_try_set_busy me c l with
          | Done true l' sig => Some (l', Thread ((c, k) :: fr) body Ready, sig)
          | Done false l' sig =>
              Some (l', match how with
                        | Open => Thread fr (Call Enter c [] :: k) Ready
                        | Enter => Thread fr (calls t) (Stopped Panic)
                        end, sig)
          | WaitOn cv l' => Some (l', Thread fr (calls t) (Waiting cv false), [])
          | Failed => Some (l, Thread fr (calls t) (Stopped AssertFail), [])
          end
      | [], (c, k) :: fr =>
          match tee_ta_clear_busy me c l with
          | Done _ l' sig => Some (l', Thread fr k Ready, sig)
          | _ => Some (l, Thread (frames t) [] (Stopped AssertFail), [])
          end
      | [], [] => None
      end
  end.

(** ** The system *)

Definition asleep (cv : condvar) (t : thread) : Prop := doing t = Waiting cv false.
Definition wake (cv : condvar) (t : thread) : thread := Thread (frames t) (calls t) (Waiting cv true).

(** A signal wakes one of the threads that sleep on it, if there is one. *)
Inductive signal (cv : condvar) : list thread -> list thread -> Prop :=
| signal_none ts : Forall (fun t => ~ asleep cv t) ts -> signal cv ts ts
| signal_one ts i t : ts !! i = Some t -> asleep cv t -> signal cv ts (<[i := wake cv t]> ts).

Inductive signals : list condvar -> list thread -> list thread -> Prop :=
| signals_nil ts : signals [] ts ts
| signals_cons cv sig ts1 ts2 ts3 : signal cv ts1 ts2 -> signals sig ts2 ts3 -> signals (cv :: sig) ts1 ts3.

Inductive step : ta_locks * list thread -> ta_locks * list thread -> Prop :=
| step_run l l' ts ts' i t t' sig : ts !! i = Some t -> run i l t = Some (l', t', sig) ->
    signals sig (<[i := t']> ts) ts' -> step (l, ts) (l', ts').

(** Nothing is running, nothing is held. *)
Definition idle (fl : list Z) : ta_locks := Locks None 0 ((fun f => TaCtx f false) <$> fl).
Definition start (cs : list call) : thread := Thread [] cs Ready.
Definition finished (t : thread) : Prop := frames t = [] /\ calls t = [].
#[export] Instance finished_dec t : Decision (finished t).
Proof. unfold finished. destruct (frames t), (calls t); [left; done|right; by intros []..]. Defined.

(** Running a section. *)
Lemma sbind_done {A B} (m : section A) (k : A -> section B) s a s1 : m s = Done a s1 [] -> sbind m k s = k a s1.
Proof. intros E. unfold sbind. rewrite E. by destruct (k a s1). Qed.
Lemma sbind_wait {A B} (m : section A) (k : A -> section B) s cv s1 : m s = WaitOn cv s1 -> sbind m k s = WaitOn cv s1.
Proof. intros E. unfold sbind. by rewrite E. Qed.

Section Run.
Context (me : nat) (l : ta_locks).
#[local] Abbreviation owner := (tee_ta_single_instance_thread l).
#[local] Abbreviation count := (tee_ta_single_instance_count l).

Lemma has_run : has_single_instance_lock me l = Done (bool_decide (owner = Some me)) l [].
Proof. done. Qed.
Lemma ta_lock_run : owner = Some me \/ owner = None /\ count = 0 ->
  lock_single_instance me l = Done tt (Locks (Some me) (u64 (count + 1)) (ctxes l)) [].
Proof.
  intros [E|[E E0]]; unfold lock_single_instance; rewrite (sbind_done _ _ _ owner l) by done; rewrite E.
  - rewrite bool_decide_eq_true_2 by done. unfold sbind, sget, set_count, smod, sret. simpl. by rewrite E.
  - rewrite bool_decide_eq_false_2 by done. unfold sbind, sget, set_single, set_count, smod, sret, sassert. simpl.
    by rewrite E0.
Qed.
Lemma lock_wait j : owner = Some j -> j <> me -> lock_single_instance me l = WaitOn tee_ta_cv l.
Proof.
  intros E Hj. unfold lock_single_instance. rewrite (sbind_done _ _ _ owner l) by done. rewrite E.
  by rewrite bool_decide_eq_false_2 by congruence.
Qed.
Lemma ta_unlock_run : owner = Some me -> 0 < count < 2 ^ 64 ->
  unlock_single_instance me l = Done tt (Locks (if count =? 1 then None else Some me) (count - 1) (ctxes l))
    (if count =? 1 then [tee_ta_cv] else []).
Proof.
  intros E Hn. unfold unlock_single_instance. rewrite (sbind_done _ _ _ owner l) by done.
  rewrite (sbind_done _ _ _ tt l) by (unfold sassert; by rewrite E, bool_decide_eq_true_2).
  rewrite (sbind_done _ _ _ count l) by done.
  rewrite (sbind_done _ _ _ tt l) by (unfold sassert; by rewrite (proj2 (Z.ltb_lt 0 count)) by lia).
  unfold u64. rewrite Z.mod_small by lia. erewrite sbind_done by reflexivity. erewrite sbind_done by reflexivity. simpl.
  rewrite E. destruct (Z.eqb_spec count 1) as [E1|E1]; [by rewrite E1|].
  by rewrite (proj2 (Z.eqb_neq (count - 1) 0)) by lia.
Qed.
End Run.

(** A section that waits has not written anything. *)
Lemma try_set_busy_waits_clean me c l cv l' : tee_ta_try_set_busy me c l = WaitOn cv l' -> l' = l.
Proof.
  unfold tee_ta_try_set_busy, sbind, ctx_at. destruct (ctxes l !! c) as [x|] eqn:Ex; [|done].
  destruct (truthy _); [done|]. destruct (truthy (flags x .& TA_FLAG_SINGLE_INSTANCE)) eqn:Es.
  - unfold lock_single_instance, sbind, sget, has_single_instance_lock, sret. destruct (bool_decide _) eqn:Eb; simpl.
    + rewrite Ex, Eb. destruct (busy x); [|done]. rewrite Es. unfold unlock_single_instance, sbind, sget, sassert. simpl.
      rewrite Eb. destruct (0 <? _); [|done]. simpl. destruct (_ =? 0); done.
    + destruct (tee_ta_single_instance_thread l); [by intros [= _ <-]|]. simpl. unfold sassert.
      destruct (_ =? 0); [|done]. simpl. rewrite bool_decide_eq_true_2 by done. simpl. rewrite Ex. destruct (busy x); [|done].
      rewrite Es. unfold unlock_single_instance, sbind, sget, sassert. simpl.
      rewrite bool_decide_eq_true_2 by done. destruct (0 <? _); [|done]. simpl. destruct (_ =? 0); done.
  - unfold has_single_instance_lock, sbind, sget, sret. rewrite Ex. destruct (bool_decide _).
    + destruct (busy x); [|done]. by rewrite Es.
    + destruct (busy x); [by intros [= _ <-]|done].
Qed.


(** ** Who may call whom *)

Section System.
Context (fl : list Z).

Definition flag_of (c : nat) (m : Z) : bool := match fl !! c with Some f => truthy (f .& m) | None => false end.
Definition concurrent (c : nat) : bool := flag_of c TA_FLAG_CONCURRENT.
Definition single (c : nat) : bool := negb (concurrent c) && flag_of c TA_FLAG_SINGLE_INSTANCE.
(** A context of its own for the one session that created it. *)
Definition private (c : nat) : bool := negb (concurrent c) && negb (flag_of c TA_FLAG_SINGLE_INSTANCE).

(** The context whose application opened the session of a private context; [None]
    for the normal world.  A session is found only in the list of the one who opened
    it, so only from there a private context is entered.  Applications that are
    flagged concurrent (pseudo applications) open none. *)
Context (creator : nat -> option nat).
Definition creators_ok : Prop := forall c p, private c = true -> creator c = Some p -> concurrent p = false.

(** [path] are the contexts around a call, innermost first; [strict] excludes calls
    into an instance from inside itself. *)
Context (strict : bool).
Fixpoint well_called (path : list nat) (x : call) : bool :=
  match x with
  | Call _ c body =>
      bool_decide (c < length fl)%nat && (negb (private c) || bool_decide (creator c = head path)) &&
      (negb strict || concurrent c || negb (bool_decide (c ∈ path))) && forallb (well_called (c :: path)) body
  end.

(** ** The invariant *)

Definition inside (t : thread) : list nat := fst <$> frames t.
Fixpoint framed (fr : list (nat * list call)) : Prop :=
  match fr with
  | [] => True
  | (c, k) :: fr' => (c < length fl)%nat /\ (private c = true -> creator c = head (fst <$> fr')) /\
      (strict = true -> concurrent c = false -> c ∉ fst <$> fr') /\
      forallb (well_called (fst <$> fr')) k = true /\ framed fr'
  end.
Definition formed (t : thread) : Prop := framed (frames t) /\ forallb (well_called (inside t)) (calls t) = true.

(** How often a thread is in a context, and in single-instance contexts. *)
Definition times (c : nat) (t : thread) : nat := length (filter (eq c) (inside t)).
Definition singles (t : thread) : nat := length (filter (fun c => single c = true) (inside t)).

(** No wake-up is lost: if a thread sleeps on [cv], a thread was woken. *)
Definition attended (cv : condvar) (ts : list thread) : Prop :=
  Exists (asleep cv) ts -> Exists (fun t => doing t = Waiting cv true) ts.

(** What a thread waits for. *)
Definition waits_for (t : thread) (cv : condvar) : Prop :=
  singles t = 0%nat /\ exists how c body k, calls t = Call how c body :: k /\
  match cv with tee_ta_cv => single c = true | busy_cv c' => c' = c /\ private c = true end.

(** A thread that has stopped called an instance in which it was. *)
Definition stopped_well (t : thread) (w : why) : Prop :=
  w = Panic /\ exists c body k, calls t = Call Enter c body :: k /\ c ∈ inside t /\ concurrent c = false.

(** What a sleeping thread waits for has come. *)
Definition available (cv : condvar) (l : ta_locks) : Prop :=
  match cv with
  | tee_ta_cv => tee_ta_single_instance_thread l = None
  | busy_cv c => exists x, ctxes l !! c = Some x /\ busy x = false
  end.

(** After the signals [sig], which are still to be given. *)
Record inv (sig : list condvar) (l : ta_locks) (ts : list thread) : Prop := {
  v_flags : flags <$> ctxes l = fl;
  v_formed : Forall formed ts;
  v_busy : forall c x, ctxes l !! c = Some x -> concurrent c = false -> sum_list (times c <$> ts) = if busy x then 1%nat else 0%nat;
  v_single : forall i t, ts !! i = Some t ->
    Z.of_nat (singles t) = if bool_decide (tee_ta_single_instance_thread l = Some i) then tee_ta_single_instance_count l else 0;
  v_owner : match tee_ta_single_instance_thread l with
            | Some i => (i < length ts)%nat /\ 0 < tee_ta_single_instance_count l
            | None => tee_ta_single_instance_count l = 0
            end;
  v_waits : forall i t cv b, ts !! i = Some t -> doing t = Waiting cv b -> waits_for t cv;
  v_stopped : forall i t w, ts !! i = Some t -> doing t = Stopped w -> stopped_well t w;
  v_wake : forall cv, available cv l -> cv ∈ sig \/ attended cv ts
}.

(** Sums over threads. *)
Lemma sum_insert {A} (f : A -> nat) ts i t t' : ts !! i = Some t ->
  (sum_list (f <$> <[i := t']> ts) + f t = sum_list (f <$> ts) + f t')%nat.
Proof.
  revert i. induction ts as [|u ts IH]; intros [|i] Hi; simplify_eq/=; [lia|].
  specialize (IH i Hi). unfold fmap in *. lia.
Qed.
Lemma sum_member {A} (f : A -> nat) ts i t : ts !! i = Some t -> (f t <= sum_list (f <$> ts))%nat.
Proof.
  revert i. induction ts as [|u ts IH]; intros [|i] Hi; simplify_eq/=; [unfold fmap; lia|].
  specialize (IH i Hi). unfold fmap in *. lia.
Qed.
Lemma sum_two {A} (f : A -> nat) ts i j t u : ts !! i = Some t -> ts !! j = Some u -> i <> j ->
  (f t + f u <= sum_list (f <$> ts))%nat.
Proof.
  revert i j. induction ts as [|w ts IH]; intros [|i] [|j] Hi Hj Hne; simplify_eq/=.
  - pose proof (sum_member f ts j u Hj). unfold fmap in *. lia.
  - pose proof (sum_member f ts i t Hi). unfold fmap in *. lia.
  - specialize (IH i j Hi Hj ltac:(congruence)). unfold fmap in *. lia.
Qed.

Lemma times_in c t : c ∈ inside t <-> (0 < times c t)%nat.
Proof.
  unfold times. split.
  - intros Hc. assert (Hf : c ∈ filter (eq c) (inside t)) by by apply list_elem_of_filter.
    destruct (filter _ _); [by apply not_elem_of_nil in Hf|simpl; lia].
  - destruct (filter (eq c) (inside t)) as [|y r] eqn:E; [simpl; lia|]. intros _.
    assert (Hy : y ∈ filter (eq c) (inside t)) by (rewrite E; by left).
    apply list_elem_of_filter in Hy as [-> ?]. done.
Qed.

Lemma singles_in c t : c ∈ inside t -> single c = true -> (0 < singles t)%nat.
Proof.
  intros Hc Hs. unfold singles.
  assert (Hf : c ∈ filter (fun c => single c = true) (inside t)) by by apply list_elem_of_filter.
  destruct (filter _ _); [by apply not_elem_of_nil in Hf|simpl; lia].
Qed.


(** ** The sections, case by case *)

Lemma flag_ctx l c x m : flags <$> ctxes l = fl -> ctxes l !! c = Some x -> truthy (flags x .& m) = flag_of c m.
Proof. intros Hl Hx. unfold flag_of. by rewrite <- Hl, list_lookup_fmap, Hx. Qed.

Lemma alter_busy l c x : ctxes l !! c = Some x -> busy x = true -> alter (set_busy true) c (ctxes l) = ctxes l.
Proof.
  intros Hx Hb. apply list_eq. intros j. destruct (decide (j = c)) as [->|Hne].
  - rewrite list_lookup_alter_eq, Hx. simpl. unfold set_busy. rewrite <- Hb. by destruct x.
  - by rewrite list_lookup_alter_ne.
Qed.

Section Sections.
Context (me c : nat) (l : ta_locks) (x : tee_ta_ctx).
Context (Hfl : flags <$> ctxes l = fl) (Hx : ctxes l !! c = Some x).
#[local] Abbreviation owner := (tee_ta_single_instance_thread l).
#[local] Abbreviation count := (tee_ta_single_instance_count l).

Lemma flags_conc : truthy (flags x .& TA_FLAG_CONCURRENT) = concurrent c.
Proof. by apply flag_ctx with l. Qed.
Lemma flags_single : concurrent c = false -> truthy (flags x .& TA_FLAG_SINGLE_INSTANCE) = single c.
Proof. intros Hc. unfold single. rewrite Hc. simpl. by apply flag_ctx with l. Qed.

Lemma try_concurrent : concurrent c = true -> tee_ta_try_set_busy me c l = Done true l [].
Proof. intros Hc. unfold tee_ta_try_set_busy, sbind, ctx_at. by rewrite Hx, flags_conc, Hc. Qed.

Lemma clear_concurrent : concurrent c = true -> tee_ta_clear_busy me c l = Done tt l [].
Proof. intros Hc. unfold tee_ta_clear_busy, sbind, ctx_at. by rewrite Hx, flags_conc, Hc. Qed.

(** The locks after an entry. *)
Definition entered : ta_locks :=
  Locks (if single c then Some me else owner) (if single c then count + 1 else count) (alter (set_busy true) c (ctxes l)).

Lemma try_free : concurrent c = false -> busy x = false -> 0 <= count -> count + 1 < 2 ^ 64 ->
  (single c = true -> owner = Some me \/ owner = None /\ count = 0) ->
  tee_ta_try_set_busy me c l = Done true entered [].
Proof.
  intros Hc Hb H0 Hn Ho. unfold tee_ta_try_set_busy. rewrite (sbind_done _ _ _ x l) by (unfold ctx_at; by rewrite Hx).
  rewrite flags_conc, Hc, flags_single by done. unfold entered. destruct (single c) eqn:Es.
  - erewrite sbind_done by (apply ta_lock_run; auto). unfold u64. rewrite Z.mod_small by lia.
    erewrite sbind_done by apply has_run. erewrite (sbind_done _ _ _ x) by (unfold ctx_at; simpl; by rewrite Hx).
    simpl. rewrite bool_decide_eq_true_2 by done. by rewrite Hb.
  - rewrite (sbind_done _ _ _ tt l) by done. erewrite sbind_done by apply has_run.
    erewrite (sbind_done _ _ _ x) by (unfold ctx_at; by rewrite Hx). rewrite Hb. by destruct (bool_decide _).
Qed.

Lemma try_refused : concurrent c = false -> busy x = true -> owner = Some me -> 0 < count -> count + 1 < 2 ^ 64 ->
  tee_ta_try_set_busy me c l = Done false l [].
Proof.
  intros Hc Hb Ho H0 Hn. pose proof (alter_busy l c x Hx Hb) as Ha.
  unfold tee_ta_try_set_busy. rewrite (sbind_done _ _ _ x l) by (unfold ctx_at; by rewrite Hx).
  rewrite flags_conc, Hc, flags_single by done. set (l1 := if single c then Locks (Some me) (count + 1) (ctxes l) else l).
  rewrite (sbind_done _ _ _ tt l1).
  2:{ unfold l1. destruct (single c); [|done]. erewrite ta_lock_run by auto. unfold u64. by rewrite Z.mod_small by lia. }
  erewrite sbind_done by apply has_run. rewrite (sbind_done _ _ _ x l1) by (unfold ctx_at, l1; by destruct (single c); simpl; rewrite Hx).
  rewrite bool_decide_eq_true_2 by (unfold l1; by destruct (single c)). rewrite Hb, flags_single by done.
  rewrite (sbind_done _ _ _ false l).
  - unfold sbind, ctx_busy, smod, sret. rewrite Ha. by destruct l.
  - unfold l1. destruct (single c); [|done]. erewrite sbind_done.
    2:{ rewrite ta_unlock_run; simpl; [|done|lia]. rewrite (proj2 (Z.eqb_neq (count + 1) 1)) by lia. reflexivity. }
    unfold sret. replace (count + 1 - 1) with count by lia. rewrite <- Ho. by destruct l.
Qed.

Lemma try_wait_single j : single c = true -> owner = Some j -> j <> me -> tee_ta_try_set_busy me c l = WaitOn tee_ta_cv l.
Proof.
  intros Hs Ho Hj. assert (Hc : concurrent c = false) by (unfold single in Hs; by destruct (concurrent c)).
  unfold tee_ta_try_set_busy. rewrite (sbind_done _ _ _ x l) by (unfold ctx_at; by rewrite Hx).
  rewrite flags_conc, Hc, flags_single, Hs by done. by apply sbind_wait, lock_wait with j.
Qed.

Lemma try_wait_busy : private c = true -> busy x = true -> owner <> Some me ->
  tee_ta_try_set_busy me c l = WaitOn (busy_cv c) l.
Proof.
  intros Hp Hb Ho. unfold private in Hp. apply andb_true_iff in Hp as [Hc Hs]. apply negb_true_iff in Hc, Hs.
  unfold tee_ta_try_set_busy. rewrite (sbind_done _ _ _ x l) by (unfold ctx_at; by rewrite Hx).
  rewrite flags_conc, Hc, flags_single by done. unfold single. rewrite Hc, Hs. rewrite (sbind_done _ _ _ tt l) by done.
  erewrite sbind_done by apply has_run. erewrite (sbind_done _ _ _ x) by (unfold ctx_at; by rewrite Hx).
  by rewrite bool_decide_eq_false_2, Hb by done.
Qed.

(** The locks after a return. *)
Definition released : bool := single c && (count =? 1).
Definition left_ctx : ta_locks :=
  Locks (if released then None else owner) (if single c then count - 1 else count) (alter (set_busy false) c (ctxes l)).

Lemma clear_run : concurrent c = false -> busy x = true -> (single c = true -> owner = Some me /\ 0 < count < 2 ^ 64) ->
  tee_ta_clear_busy me c l = Done tt left_ctx (busy_cv c :: if released then [tee_ta_cv] else []).
Proof.
  intros Hc Hb Ho. unfold tee_ta_clear_busy. rewrite (sbind_done _ _ _ x l) by (unfold ctx_at; by rewrite Hx).
  rewrite flags_conc, Hc, flags_single by done. rewrite (sbind_done _ _ _ tt l) by (unfold sassert; by rewrite Hb).
  erewrite sbind_done by reflexivity. unfold sbind at 1, condvar_signal at 1. unfold left_ctx, released.
  destruct (single c) eqn:Es; [|done]. destruct (Ho eq_refl) as [E H1]. rewrite ta_unlock_run by done. simpl. rewrite E.
  by destruct (count =? 1).
Qed.

End Sections.


(** ** The invariant is kept *)

Lemma sum_pos {A} (f : A -> nat) ts : (0 < sum_list (f <$> ts))%nat -> exists i t, ts !! i = Some t /\ (0 < f t)%nat.
Proof.
  induction ts as [|u ts IH]; simpl; [lia|]. intros Hs. destruct (decide (0 < f u)%nat) as [Hu|Hu]; [by exists 0%nat, u|].
  destruct IH as (i & t & Hi & Ht); [unfold fmap in *; lia|]. by exists (S i), t.
Qed.

Lemma attended_keep cv ts i t t' : ts !! i = Some t -> doing t <> Waiting cv true -> ~ asleep cv t' ->
  attended cv ts -> attended cv (<[i := t']> ts).
Proof.
  intros Hi Ht Ht' Ha Hex. apply Exists_exists in Hex as (u & Hu & Hs). apply list_elem_of_lookup in Hu as [j Hj].
  apply list_lookup_insert_Some in Hj as [(-> & -> & _)|[Hne Hj]]; [done|].
  assert (Hold : Exists (asleep cv) ts) by (apply Exists_exists; exists u; split; [by eapply list_elem_of_lookup_2|done]).
  apply Ha, Exists_exists in Hold as (w & Hw & Hd).
  apply list_elem_of_lookup in Hw as [m Hm]. apply Exists_exists. exists w. split; [|done].
  apply list_elem_of_lookup_2 with m. rewrite list_lookup_insert_ne; [done|]. intros ->. congruence.
Qed.

Lemma ta_inv_update sig l l' ts i t t' : inv [] l ts -> ts !! i = Some t ->
  flags <$> ctxes l' = fl -> formed t' ->
  (forall c x', ctxes l' !! c = Some x' -> concurrent c = false -> exists x, ctxes l !! c = Some x /\
     (Nat.b2n (busy x) + times c t' = Nat.b2n (busy x') + times c t)%nat) ->
  Z.of_nat (singles t') = (if bool_decide (tee_ta_single_instance_thread l' = Some i) then tee_ta_single_instance_count l' else 0) ->
  (forall j, j <> i -> (if bool_decide (tee_ta_single_instance_thread l' = Some j) then tee_ta_single_instance_count l' else 0) =
     (if bool_decide (tee_ta_single_instance_thread l = Some j) then tee_ta_single_instance_count l else 0)) ->
  match tee_ta_single_instance_thread l' with
  | Some j => (j < length ts)%nat /\ 0 < tee_ta_single_instance_count l'
  | None => tee_ta_single_instance_count l' = 0
  end ->
  (forall cv b, doing t' = Waiting cv b -> waits_for t' cv) ->
  (forall w, doing t' = Stopped w -> stopped_well t' w) ->
  (forall cv, cv ∉ sig -> available cv l' -> available cv l /\ doing t <> Waiting cv true /\ ~ asleep cv t') ->
  inv sig l' (<[i := t']> ts).
Proof.
  intros [H1 H2 H3 H4 H5 H6 H7 H8] Hi Hf Hfo Hb Hs Ho Hw Hwa Hst Hav. split.
  - done.
  - by apply Forall_insert.
  - intros c x' Hx' Hc. destruct (Hb c x' Hx' Hc) as (x & Hx & E). pose proof (sum_insert (times c) ts i t t' Hi) as Hsum.
    pose proof (H3 c x Hx Hc) as H3'. unfold Nat.b2n in E. destruct (busy x), (busy x'); lia.
  - intros j u Hj. apply list_lookup_insert_Some in Hj as [(<- & <- & _)|[Hne Hj]]; [done|].
    rewrite Ho by done. by apply H4.
  - by rewrite length_insert.
  - intros j u cv b Hj. apply list_lookup_insert_Some in Hj as [(<- & <- & _)|[Hne Hj]]; [apply Hwa|by apply (H6 j)].
  - intros j u w Hj. apply list_lookup_insert_Some in Hj as [(<- & <- & _)|[Hne Hj]]; [apply Hst|by apply (H7 j)].
  - intros cv Hcv. destruct (decide (cv ∈ sig)) as [|Hn]; [by left|]. right. destruct (Hav cv Hn Hcv) as (A1 & A2 & A3).
    destruct (H8 cv A1) as [Hx|Ha]; [by apply not_elem_of_nil in Hx|]. by apply attended_keep with t.
Qed.

(** A signal that is given. *)
Lemma ta_signal_inv cv sig l ts ts' : inv (cv :: sig) l ts -> signal cv ts ts' -> inv sig l ts'.
Proof.
  intros [H1 H2 H3 H4 H5 H6 H7 H8] Hs. inversion Hs as [? Hn|? i t Hi Ha]; subst.
  - split; try done. intros cv' Hcv. destruct (H8 cv' Hcv) as [[->|Hx]%elem_of_cons|Hx]; [right|by left|by right].
    intros Hex. apply Exists_exists in Hex as (u & Hu & Hs'). rewrite Forall_forall in Hn. by destruct (Hn u Hu).
  - assert (Hkeep : forall j u, <[i:=wake cv t]> ts !! j = Some u -> exists u0, ts !! j = Some u0 /\ frames u = frames u0 /\
      calls u = calls u0 /\ (u = u0 \/ doing u = Waiting cv true /\ doing u0 = Waiting cv false)).
    { intros j u Hj. apply list_lookup_insert_Some in Hj as [(<- & <- & _)|[Hne Hj]].
      - exists t. repeat (split; [done|]). by right.
      - exists u. repeat (split; [done|]). by left. }
    assert (Htimes : forall c, times c (wake cv t) = times c t) by done.
    split; try done.
    + apply Forall_insert; [done|]. rewrite Forall_forall in H2. apply (H2 t). by eapply list_elem_of_lookup_2.
    + intros c x Hx Hc. rewrite <- (H3 c x Hx Hc). pose proof (sum_insert (times c) ts i t (wake cv t) Hi). rewrite Htimes in *. lia.
    + intros j u Hj. destruct (Hkeep j u Hj) as (u0 & Hu0 & Hfr & _). rewrite <- (H4 j u0 Hu0). unfold singles, inside. by rewrite Hfr.
    + rewrite length_insert. done.
    + intros j u cv' b Hj Hd. destruct (Hkeep j u Hj) as (u0 & Hu0 & Hfr & Hca & Hor).
      assert (Hwf : exists b0, doing u0 = Waiting cv' b0) by (destruct Hor as [->|[E1 E2]]; [by exists b|exists false; congruence]).
      destruct Hwf as [b0 Hb0]. destruct (H6 j u0 cv' b0 Hu0 Hb0) as [W1 W2]. unfold waits_for, singles, inside in *. by rewrite Hfr, Hca.
    + intros j u w Hj Hd. destruct (Hkeep j u Hj) as (u0 & Hu0 & Hfr & Hca & [->|[E1 E2]]); [by apply (H7 j)|congruence].
    + intros cv' Hcv. destruct (H8 cv' Hcv) as [[->|Hx]%elem_of_cons|Hx]; [right|by left|right].
      * intros _. apply Exists_exists. exists (wake cv t). split; [|done]. apply list_elem_of_lookup_2 with i.
        apply list_lookup_insert_eq. by eapply lookup_lt_Some.
      * destruct (decide (cv' = cv)) as [->|Hne].
        -- intros _. apply Exists_exists. exists (wake cv t). split; [|done]. apply list_elem_of_lookup_2 with i.
           apply list_lookup_insert_eq. by eapply lookup_lt_Some.
        -- apply attended_keep with t; [done| | |done]; unfold asleep in *; simpl; congruence.
Qed.

Lemma signals_inv sig l ts ts' : inv sig l ts -> signals sig ts ts' -> inv [] l ts'.
Proof. intros Hv Hs. revert Hv. induction Hs; [done|]. intros Hv. apply IHHs. by apply ta_signal_inv with cv ts1. Qed.


(** ** What the invariant says *)

Section Facts.
Context (Hcr : creators_ok) (Hroom : Z.of_nat (length fl) + 1 < 2 ^ 64).
Context (l : ta_locks) (ts : list thread) (Hv : inv [] l ts).
#[local] Abbreviation owner := (tee_ta_single_instance_thread l).
#[local] Abbreviation count := (tee_ta_single_instance_count l).

Lemma ctx_exists c : (c < length fl)%nat -> exists x, ctxes l !! c = Some x.
Proof. intros Hc. apply lookup_lt_is_Some. rewrite <- (v_flags _ _ _ Hv), length_fmap in Hc. done. Qed.

Lemma formed_at i t : ts !! i = Some t -> formed t.
Proof. intros Hi. pose proof (v_formed _ _ _ Hv) as Hf. rewrite Forall_lookup in Hf. by apply (Hf i). Qed.

Lemma framed_bound fr c : framed fr -> c ∈ fst <$> fr -> (c < length fl)%nat.
Proof.
  induction fr as [|[c' k] fr IH]; simpl; [by intros _ ?%not_elem_of_nil|]. intros (Hc & _ & _ & _ & Hf) [->|Hin]%elem_of_cons; auto.
Qed.

(** Two threads are not in one context. *)
Lemma inside_unique i j t u c : ts !! i = Some t -> ts !! j = Some u -> concurrent c = false -> c ∈ inside t -> c ∈ inside u -> i = j.
Proof.
  intros Hi Hj Hc Ht Hu. destruct (decide (i = j)) as [|Hne]; [done|].
  destruct (ctx_exists c) as [x Hx]; [by apply framed_bound with (frames t); [apply (formed_at i)|]|].
  pose proof (v_busy _ _ _ Hv c x Hx Hc) as Hs. pose proof (sum_two (times c) ts i j t u Hi Hj Hne) as H2.
  apply times_in in Ht, Hu. destruct (busy x); lia.
Qed.

Lemma once i t c : ts !! i = Some t -> concurrent c = false -> (times c t <= 1)%nat.
Proof.
  intros Hi Hc. destruct (decide (0 < times c t)%nat) as [Hp|]; [|lia].
  destruct (ctx_exists c) as [x Hx]; [by apply framed_bound with (frames t); [apply (formed_at i)|apply times_in]|].
  pose proof (v_busy _ _ _ Hv c x Hx Hc) as Hs. pose proof (sum_member (times c) ts i t Hi). destruct (busy x); lia.
Qed.

Lemma holder c x : ctxes l !! c = Some x -> concurrent c = false -> busy x = true -> exists i t, ts !! i = Some t /\ c ∈ inside t.
Proof.
  intros Hx Hc Hb. pose proof (v_busy _ _ _ Hv c x Hx Hc) as Hs. rewrite Hb in Hs.
  destruct (sum_pos (times c) ts) as (i & t & Hi & Ht); [lia|]. exists i, t. split; [done|]. by apply times_in.
Qed.

Lemma owner_is i t : ts !! i = Some t -> (owner = Some i <-> (0 < singles t)%nat).
Proof.
  intros Hi. pose proof (v_single _ _ _ Hv i t Hi) as Hs. pose proof (v_owner _ _ _ Hv) as Ho.
  case_bool_decide as Hd; [|split; [done|lia]]. rewrite Hd in Ho. destruct Ho. split; [lia|done].
Qed.

Lemma filter_NoDup (P : nat -> Prop) `{!forall x, Decision (P x)} (xs : list nat) :
  (forall c, P c -> (length (filter (eq c) xs) <= 1)%nat) -> NoDup (filter P xs).
Proof.
  induction xs as [|y xs IH]; intros Hone; [constructor|]. rewrite filter_cons. 
  assert (IH' : NoDup (filter P xs)).
  { apply IH. intros c Hc. specialize (Hone c Hc). rewrite filter_cons in Hone. destruct (decide (c = y)); simpl in Hone; lia. }
  destruct (decide (P y)) as [Hy|]; [|done]. constructor; [|done].
  intros [_ Hin]%list_elem_of_filter. specialize (Hone y Hy). rewrite filter_cons, decide_True in Hone by done. simpl in Hone.
  assert (Hf : y ∈ filter (eq y) xs) by by apply list_elem_of_filter.
  destruct (filter (eq y) xs); [by apply not_elem_of_nil in Hf|simpl in Hone; lia].
Qed.

Lemma count_bound : 0 <= count <= Z.of_nat (length fl).
Proof.
  pose proof (v_owner _ _ _ Hv) as Ho. destruct owner as [i|] eqn:E; [|lia]. destruct Ho as [Hlt Hc].
  destruct (lookup_lt_is_Some_2 ts i Hlt) as [t Hi]. pose proof (v_single _ _ _ Hv i t Hi) as Hs.
  rewrite E, bool_decide_eq_true_2 in Hs by done. split; [lia|]. rewrite <- Hs. unfold singles.
  assert (Hnd : NoDup (filter (fun c => single c = true) (inside t))).
  { apply filter_NoDup. intros c Hc'. apply (once i); [done|]. unfold single in Hc'. by destruct (concurrent c). }
  rewrite <- (length_seq (length fl) 0). apply inj_le, NoDup_incl_length; [by apply NoDup_ListNoDup|].
  intros c Hin. apply list_elem_of_In, list_elem_of_filter in Hin as [_ Hin]. apply in_seq.
  pose proof (framed_bound (frames t) c (proj1 (formed_at i t Hi)) Hin). lia.
Qed.

(** The context around a private context is that of its creator. *)
Lemma framed_creator fr c p : framed fr -> c ∈ fst <$> fr -> private c = true -> creator c = Some p -> p ∈ fst <$> fr.
Proof.
  induction fr as [|[c' k] fr IH]; simpl; [by intros _ ?%not_elem_of_nil|].
  intros (_ & Hpr & _ & _ & Hf) [->|Hin]%elem_of_cons Hp Hcreator; [|right; by apply IH].
  specialize (Hpr Hp). rewrite Hcreator in Hpr. right. destruct fr as [|[p' k'] fr]; [done|]. injection Hpr as ->. by left.
Qed.

(** A busy context that a thread calls while it is inside another one is held by that
    thread itself, or is a single-instance one. *)
Lemma busy_mine i t how c body k x : ts !! i = Some t -> calls t = Call how c body :: k -> inside t <> [] ->
  ctxes l !! c = Some x -> busy x = true -> private c = true -> c ∈ inside t.
Proof.
  intros Hi Hca Hne Hx Hb Hp. destruct (formed_at i t Hi) as [Hfr Hw]. rewrite Hca in Hw. simpl in Hw.
  rewrite !andb_true_iff in Hw. destruct Hw as [[[[_ Hcreator] _] _] _]. rewrite Hp in Hcreator. apply bool_decide_eq_true in Hcreator.
  assert (Hc : concurrent c = false) by (unfold private in Hp; by destruct (concurrent c)).
  destruct (inside t) as [|p rest] eqn:Ein; [done|]. simpl in Hcreator.
  destruct (holder c x Hx Hc Hb) as (j & u & Hj & Hu).
  assert (Hpu : p ∈ inside u) by (apply framed_creator with c; [apply (formed_at j u Hj)|done..]).
  assert (Hpt : p ∈ inside t) by (rewrite Ein; by left).
  assert (Hpc : concurrent p = false) by by apply (Hcr c). pose proof (inside_unique i j t u p Hi Hj Hpc Hpt Hpu). subst j.
  rewrite <- Ein. congruence.
Qed.


(** *** Entering *)

Lemma awake_for i t cv how c body k : ts !! i = Some t -> doing t = Waiting cv true -> calls t = Call how c body :: k ->
  singles t = 0%nat /\ match cv with tee_ta_cv => single c = true | busy_cv c' => c' = c /\ private c = true end.
Proof.
  intros Hi Hd Hca. destruct (v_waits _ _ _ Hv i t cv true Hi Hd) as (H0 & how' & c' & body' & k' & Hca' & Hm).
  rewrite Hca in Hca'. injection Hca' as <- <- <- <-. done.
Qed.

Lemma called i t how c body k : ts !! i = Some t -> calls t = Call how c body :: k ->
  (c < length fl)%nat /\ (private c = true -> creator c = head (inside t)) /\
  (strict = true -> concurrent c = false -> c ∉ inside t) /\ forallb (well_called (c :: inside t)) body = true /\
  forallb (well_called (inside t)) k = true.
Proof.
  intros Hi Hca. destruct (formed_at i t Hi) as [_ Hw]. rewrite Hca in Hw. simpl in Hw. rewrite !andb_true_iff in Hw.
  destruct Hw as [[[[H1 H2] H3] H4] H5]. apply bool_decide_eq_true in H1. repeat split; try done.
  - intros Hp. rewrite Hp in H2. by apply bool_decide_eq_true in H2.
  - intros -> Hc. rewrite Hc in H3. by apply negb_true_iff, bool_decide_eq_false in H3.
Qed.

Lemma times_cons c' c k fr body d : times c' (Thread ((c, k) :: fr) body d) =
  (Nat.b2n (bool_decide (c' = c)) + times c' (Thread fr body d))%nat.
Proof.
  unfold times, inside. cbn [frames]. rewrite fmap_cons, filter_cons. cbn [fst].
  destruct (decide (c' = c)); [rewrite bool_decide_eq_true_2 by done|rewrite bool_decide_eq_false_2 by done]; done.
Qed.
Lemma singles_cons c k fr body d : singles (Thread ((c, k) :: fr) body d) =
  (Nat.b2n (single c) + singles (Thread fr body d))%nat.
Proof. unfold singles, inside. cbn [frames]. rewrite fmap_cons, filter_cons. cbn [fst]. by destruct (single c). Qed.
Lemma enter_formed i t how c body k : ts !! i = Some t -> calls t = Call how c body :: k ->
  formed (Thread ((c, k) :: frames t) body Ready).
Proof.
  intros Hi Hca. destruct (called i t how c body k Hi Hca) as (C1 & C2 & C3 & C4 & C5). split; [|exact C4].
  cbn [frames framed]. repeat (split; [done|]). apply (formed_at i t Hi).
Qed.

Lemma enter_concurrent i t how c body k : ts !! i = Some t -> calls t = Call how c body :: k -> concurrent c = true ->
  inv [] l (<[i := Thread ((c, k) :: frames t) body Ready]> ts).
Proof.
  intros Hi Hca Hc. assert (Hs : single c = false) by (unfold single; by rewrite Hc).
  eapply (ta_inv_update [] l l ts i t); [done|done|apply Hv|by eapply enter_formed| | |done|apply Hv|done|done|].
  - intros c' x Hx Hc'. exists x. split; [done|]. rewrite times_cons, bool_decide_eq_false_2 by congruence. done.
  - rewrite singles_cons, Hs. apply (v_single _ _ _ Hv i t Hi).
  - intros cv _ Hav. split; [done|]. split; [|done]. intros Hd.
    destruct (awake_for i t cv how c body k Hi Hd Hca) as [_ Hm]. unfold private in Hm. rewrite Hc in Hm.
    destruct cv; [congruence|by destruct Hm].
Qed.

Lemma enter_free i t how c body k x : ts !! i = Some t -> calls t = Call how c body :: k -> concurrent c = false ->
  ctxes l !! c = Some x -> busy x = false -> (single c = true -> owner = Some i \/ owner = None /\ count = 0) ->
  inv [] (entered i c l) (<[i := Thread ((c, k) :: frames t) body Ready]> ts).
Proof.
  intros Hi Hca Hc Hx Hb Ho. pose proof count_bound as Hcb.
  eapply (ta_inv_update [] l _ ts i t); [done|done| |by eapply enter_formed| | | | |done|done|].
  - unfold entered. cbn [ctxes]. rewrite <- (v_flags _ _ _ Hv). apply list_eq. intros j. rewrite !list_lookup_fmap.
    destruct (decide (j = c)) as [->|Hne]; [rewrite list_lookup_alter_eq, Hx; done|by rewrite list_lookup_alter_ne].
  - intros c' x' Hx' Hc'. unfold entered in Hx'. cbn [ctxes] in Hx'. rewrite times_cons. destruct (decide (c' = c)) as [->|Hne].
    + rewrite list_lookup_alter_eq, Hx in Hx'. injection Hx' as <-. exists x. split; [done|]. rewrite Hb, bool_decide_eq_true_2 by done.
      change (times c (Thread (frames t) body Ready)) with (times c t). cbn [Nat.b2n set_busy busy]. lia.
    + rewrite list_lookup_alter_ne in Hx' by done. exists x'. split; [done|]. rewrite bool_decide_eq_false_2 by done. done.
  - rewrite singles_cons. pose proof (v_single _ _ _ Hv i t Hi) as Hs. unfold entered. cbn [tee_ta_single_instance_thread tee_ta_single_instance_count].
    destruct (single c); [|exact Hs]. rewrite bool_decide_eq_true_2 by done. change (singles (Thread (frames t) body Ready)) with (singles t).
    destruct (Ho eq_refl) as [E|[E E0]]; rewrite E in Hs; [rewrite bool_decide_eq_true_2 in Hs by done|rewrite bool_decide_eq_false_2 in Hs by done];
      simpl; lia.
  - intros j Hj. unfold entered. cbn [tee_ta_single_instance_thread tee_ta_single_instance_count]. destruct (single c); [|done].
    rewrite bool_decide_eq_false_2 by congruence. destruct (Ho eq_refl) as [E|[E E0]]; rewrite E; by rewrite bool_decide_eq_false_2 by congruence.
  - unfold entered. cbn [tee_ta_single_instance_thread tee_ta_single_instance_count]. destruct (single c); [|apply Hv].
    split; [by eapply lookup_lt_Some|lia].
  - intros cv _ Hav. split; [|split; [|done]].
    + destruct cv as [|c']; simpl in Hav |- *; [by destruct (single c)|]. destruct Hav as (x' & Hx' & Hb').
      destruct (decide (c' = c)) as [->|Hne]; [by exists x|]. rewrite list_lookup_alter_ne in Hx' by done. by exists x'.
    + intros Hd. destruct (awake_for i t cv how c body k Hi Hd Hca) as [_ Hm]. destruct cv as [|c'].
      * simpl in Hav. by rewrite Hm in Hav.
      * destruct Hm as [-> Hp]. destruct Hav as (x' & Hx' & Hb'). unfold entered in Hx'. cbn [ctxes] in Hx'.
        rewrite list_lookup_alter_eq, Hx in Hx'. by injection Hx' as <-.
Qed.

(** Waiting, or being refused: the locks stay. *)
Lemma stay_inv i t t' how c body k : ts !! i = Some t -> calls t = Call how c body :: k -> frames t' = frames t -> formed t' ->
  (forall cv b, doing t' = Waiting cv b -> waits_for t' cv) -> (forall w, doing t' = Stopped w -> stopped_well t' w) ->
  (forall cv, available cv l -> doing t <> Waiting cv true /\ ~ asleep cv t') -> inv [] l (<[i := t']> ts).
Proof.
  intros Hi Hca Hfr Hfo Hwa Hst Hav. assert (Ht : forall c', times c' t' = times c' t) by (intros c'; unfold times, inside; by rewrite Hfr).
  eapply (ta_inv_update [] l l ts i t); [done|done|apply Hv|done| | |done|apply Hv|done|done|].
  - intros c' x Hx _. exists x. by rewrite Ht.
  - rewrite <- (v_single _ _ _ Hv i t Hi). unfold singles, inside. by rewrite Hfr.
  - intros cv _ Hc. split; [done|]. by apply Hav.
Qed.

Lemma ta_wait_inv i t how c body k cv : ts !! i = Some t -> calls t = Call how c body :: k -> ~ available cv l -> owner <> Some i ->
  match cv with tee_ta_cv => single c = true | busy_cv c' => c' = c /\ private c = true end ->
  inv [] l (<[i := Thread (frames t) (calls t) (Waiting cv false)]> ts).
Proof.
  intros Hi Hca Hna Ho Hcv. assert (H0 : singles t = 0%nat).
  { destruct (decide (0 < singles t)%nat) as [Hp|]; [|lia]. by apply (owner_is i t Hi) in Hp. }
  eapply stay_inv; [done|done|done|apply (formed_at i t Hi)| |done|].
  - simpl. intros cv' b [= <- <-]. split; [done|]. by exists how, c, body, k.
  - intros cv' Hav. split; [|intros [= ->]; done]. intros Hd.
    destruct (awake_for i t cv' how c body k Hi Hd Hca) as [_ Hm]. apply Hna.
    destruct cv, cv'; try done; destruct_and?; subst; try done; unfold single, private in *; destruct (concurrent c); simpl in *; try done;
      destruct (flag_of c TA_FLAG_SINGLE_INSTANCE); done.
Qed.

Lemma refused_inv i t how c body k : ts !! i = Some t -> calls t = Call how c body :: k -> owner = Some i -> concurrent c = false ->
  c ∈ inside t ->
  inv [] l (<[i := match how with
                   | Open => Thread (frames t) (Call Enter c [] :: k) Ready
                   | Enter => Thread (frames t) (calls t) (Stopped Panic)
                   end]> ts).
Proof.
  intros Hi Hca Ho Hc Hin. assert (Hpos : (0 < singles t)%nat) by by apply (owner_is i t Hi).
  destruct (formed_at i t Hi) as [Hfr Hw]. eapply stay_inv; [done|done|by destruct how| |by destruct how| |].
  - split; [by destruct how|]. destruct how; [|done]. rewrite Hca in Hw. simpl in Hw |- *. unfold inside in *. cbn [frames].
    rewrite !andb_true_iff in Hw |- *. tauto.
  - destruct how; [done|]. intros w [= <-]. split; [done|]. by exists c, body, k.
  - intros cv Hav. split; [|by destruct how]. intros Hd. destruct (awake_for i t cv how c body k Hi Hd Hca). lia.
Qed.

(** *** Leaving *)

Lemma leave_formed i t c k fr : ts !! i = Some t -> frames t = (c, k) :: fr -> formed (Thread fr k Ready).
Proof.
  intros Hi Hfr. destruct (formed_at i t Hi) as [Hf _]. rewrite Hfr in Hf. destruct Hf as (_ & _ & _ & Hk & Hf). by split.
Qed.

(** A thread that returns was not waiting. *)
Lemma leave_ready i t cv b : ts !! i = Some t -> calls t = [] -> doing t <> Waiting cv b.
Proof. intros Hi Hca Hd. destruct (v_waits _ _ _ Hv i t cv b Hi Hd) as (_ & ? & ? & ? & ? & E & _). congruence. Qed.

Lemma leave_times t c k fr c' : frames t = (c, k) :: fr ->
  times c' t = (Nat.b2n (bool_decide (c' = c)) + times c' (Thread fr k Ready))%nat /\
  singles t = (Nat.b2n (single c) + singles (Thread fr k Ready))%nat.
Proof.
  intros Hfr. destruct t as [fr' ca d]. cbn [frames] in Hfr. subst fr'.
  split; [exact (times_cons c' c k fr ca d)|exact (singles_cons c k fr ca d)].
Qed.

Lemma leave_concurrent i t c k fr : ts !! i = Some t -> calls t = [] -> frames t = (c, k) :: fr -> concurrent c = true ->
  inv [] l (<[i := Thread fr k Ready]> ts).
Proof.
  intros Hi Hca Hfr Hc. assert (Hs : single c = false) by (unfold single; by rewrite Hc).
  eapply (ta_inv_update [] l l ts i t); [done|done|apply Hv|by eapply leave_formed| | |done|apply Hv|done|done|].
  - intros c' x Hx Hc'. exists x. split; [done|]. destruct (leave_times t c k fr c' Hfr) as [Ht _].
    rewrite bool_decide_eq_false_2 in Ht by congruence. simpl in Ht. congruence.
  - destruct (leave_times t c k fr c Hfr) as [_ E]. rewrite Hs in E. simpl in E. rewrite <- E. apply (v_single _ _ _ Hv i t Hi).
  - intros cv _ Hav. split; [done|]. split; [by apply (leave_ready i)|done].
Qed.

Lemma leave_locked i t c k fr x : ts !! i = Some t -> calls t = [] -> frames t = (c, k) :: fr -> concurrent c = false ->
  ctxes l !! c = Some x ->
  busy x = true /\ (single c = true -> owner = Some i /\ 0 < count < 2 ^ 64) /\
  inv (busy_cv c :: if released c l then [tee_ta_cv] else []) (left_ctx c l) (<[i := Thread fr k Ready]> ts).
Proof.
  intros Hi Hca Hfr Hc Hx. pose proof count_bound as Hcb. destruct (leave_times t c k fr c Hfr) as [Htc Hsi].
  rewrite bool_decide_eq_true_2 in Htc by done.
  assert (Hb : busy x = true).
  { pose proof (v_busy _ _ _ Hv c x Hx Hc) as Hs. pose proof (sum_member (times c) ts i t Hi). destruct (busy x); [done|]. simpl in Htc. lia. }
  assert (Ho : single c = true -> owner = Some i /\ 0 < count < 2 ^ 64).
  { intros Hs. rewrite Hs in Hsi. assert (E : owner = Some i) by (apply (owner_is i t Hi); simpl in Hsi; lia). split; [done|].
    pose proof (v_owner _ _ _ Hv) as Hw. rewrite E in Hw. lia. }
  split; [done|]. split; [done|].
  pose proof (v_single _ _ _ Hv i t Hi) as Hst. pose proof (v_owner _ _ _ Hv) as Hw.
  eapply (ta_inv_update _ l _ ts i t); [done|done| |by eapply leave_formed| | | | |done|done|].
  - unfold left_ctx. cbn [ctxes]. rewrite <- (v_flags _ _ _ Hv). apply list_eq. intros j. rewrite !list_lookup_fmap.
    destruct (decide (j = c)) as [->|Hne]; [rewrite list_lookup_alter_eq, Hx; done|by rewrite list_lookup_alter_ne].
  - intros c' x' Hx' Hc'. unfold left_ctx in Hx'. cbn [ctxes] in Hx'. destruct (leave_times t c k fr c' Hfr) as [Ht _].
    destruct (decide (c' = c)) as [->|Hne].
    + rewrite list_lookup_alter_eq, Hx in Hx'. injection Hx' as <-. exists x. split; [done|]. rewrite Hb. cbn [Nat.b2n set_busy busy] in *. lia.
    + rewrite list_lookup_alter_ne in Hx' by done. exists x'. split; [done|]. rewrite bool_decide_eq_false_2 in Ht by done.
      simpl in Ht. lia.
  - unfold left_ctx, released. cbn [tee_ta_single_instance_thread tee_ta_single_instance_count].
    destruct (single c); [|simpl in Hsi |- *; rewrite <- Hsi; exact Hst]. destruct (Ho eq_refl) as [E Hn].
    rewrite E, bool_decide_eq_true_2 in Hst by done. cbn [Nat.b2n andb] in *. destruct (Z.eqb_spec count 1) as [E1|E1].
    + rewrite bool_decide_eq_false_2 by done. lia.
    + rewrite E, bool_decide_eq_true_2 by done. lia.
  - intros j Hj. unfold left_ctx, released. cbn [tee_ta_single_instance_thread tee_ta_single_instance_count]. destruct (single c); [|done].
    destruct (Ho eq_refl) as [E _]. rewrite E. rewrite (bool_decide_eq_false_2 (Some i = Some j)) by congruence. cbn [andb].
    destruct (count =? 1); by rewrite bool_decide_eq_false_2 by congruence.
  - unfold left_ctx, released. cbn [tee_ta_single_instance_thread tee_ta_single_instance_count]. destruct (single c); [|exact Hw].
    destruct (Ho eq_refl) as [E Hn]. rewrite E in Hw. cbn [andb]. destruct (Z.eqb_spec count 1); [lia|]. rewrite E. lia.
  - intros cv Hns Hav. split; [|split; [by apply (leave_ready i)|done]]. apply not_elem_of_cons in Hns as [Hn1 Hn2]. destruct cv as [|c'].
    + simpl in Hav. destruct (released c l); [by destruct Hn2; left|done].
    + destruct Hav as (x' & Hx' & Hb'). exists x'. split; [|done]. unfold left_ctx in Hx'. cbn [ctxes] in Hx'.
      by rewrite list_lookup_alter_ne in Hx' by congruence.
Qed.

(** *** Every step *)

Lemma ta_call_step i t how c body k : ts !! i = Some t -> calls t = Call how c body :: k ->
  (concurrent c = true /\ tee_ta_try_set_busy i c l = Done true l []) \/
  (exists x, concurrent c = false /\ ctxes l !! c = Some x /\ busy x = false /\
     (single c = true -> owner = Some i \/ owner = None /\ count = 0) /\ tee_ta_try_set_busy i c l = Done true (entered i c l) []) \/
  (concurrent c = false /\ c ∈ inside t /\ owner = Some i /\ tee_ta_try_set_busy i c l = Done false l []) \/
  (exists cv, owner <> Some i /\ ~ available cv l /\
     match cv with tee_ta_cv => single c = true | busy_cv c' => c' = c /\ private c = true end /\
     tee_ta_try_set_busy i c l = WaitOn cv l).
Proof.
  intros Hi Hca. destruct (called i t how c body k Hi Hca) as (C1 & _). destruct (ctx_exists c C1) as [x Hx].
  pose proof (v_flags _ _ _ Hv) as Hfl. pose proof count_bound as Hcb. pose proof (v_owner _ _ _ Hv) as Hw.
  destruct (concurrent c) eqn:Hc; [left; split; [done|by apply try_concurrent with x]|right].
  destruct (single c) eqn:Hs.
  - destruct owner as [j|] eqn:Eo; [destruct (decide (j = i)) as [->|Hne]|].
    + destruct (busy x) eqn:Hb; [right; left|left; exists x].
      * destruct (holder c x Hx Hc Hb) as (j & u & Hj & Hu).
        assert (E : owner = Some j) by (apply (owner_is j u Hj), singles_in with c; done). rewrite Eo in E. injection E as <-.
        assert (u = t) as -> by congruence. repeat (split; [done|]). apply try_refused with x; (done || lia).
      * repeat (split; [done|]). split; [by intros _; left|]. apply try_free with x; try done; try lia. by intros _; left.
    + right; right. exists tee_ta_cv. split; [congruence|]. split; [simpl; congruence|]. split; [done|]. by apply try_wait_single with x j.
    + left. exists x. assert (Hb : busy x = false).
      { destruct (busy x) eqn:Hb; [|done]. destruct (holder c x Hx Hc Hb) as (j & u & Hj & Hu).
        assert (E : owner = Some j) by (apply (owner_is j u Hj), singles_in with c; done). congruence. }
      repeat (split; [done|]). split; [by intros _; right|]. apply try_free with x; try done; try lia. by intros _; right.
  - assert (Hp : private c = true) by (unfold single, private in *; rewrite Hc in *; simpl in *; by rewrite Hs).
    destruct (busy x) eqn:Hb.
    + right. destruct (decide (owner = Some i)) as [Ho|Ho]; [left|right].
      * assert (Hpos : (0 < singles t)%nat) by by apply (owner_is i t Hi).
        assert (Hne : inside t <> []) by (unfold singles in Hpos; intros E; rewrite E in Hpos; simpl in Hpos; lia).
        pose proof (busy_mine i t how c body k x Hi Hca Hne Hx Hb Hp). rewrite Ho in Hw.
        repeat (split; [done|]). apply try_refused with x; (done || lia).
      * exists (busy_cv c). split; [done|]. split; [intros (x' & Hx' & Hb'); congruence|]. split; [done|]. by apply try_wait_busy with x.
    + left. exists x. repeat (split; [done|]). apply try_free with x; try done; try lia. intros E. congruence.
Qed.

Lemma ta_run_inv i t l' t' sig : ts !! i = Some t -> run i l t = Some (l', t', sig) -> inv sig l' (<[i := t']> ts).
Proof.
  intros Hi Hr. unfold run in Hr. assert (Hr' : (match calls t, frames t with
    | Call how c body :: k, fr => match tee_ta_try_set_busy i c l with
        | Done true l' sig => Some (l', Thread ((c, k) :: fr) body Ready, sig)
        | Done false l' sig => Some (l', match how with Open => Thread fr (Call Enter c [] :: k) Ready
                                         | Enter => Thread fr (calls t) (Stopped Panic) end, sig)
        | WaitOn cv l' => Some (l', Thread fr (calls t) (Waiting cv false), [])
        | Failed => Some (l, Thread fr (calls t) (Stopped AssertFail), []) end
    | [], (c, k) :: fr => match tee_ta_clear_busy i c l with
        | Done _ l' sig => Some (l', Thread fr k Ready, sig)
        | _ => Some (l, Thread (frames t) [] (Stopped AssertFail), []) end
    | [], [] => None end) = Some (l', t', sig)) by (destruct (doing t) as [|cv []|]; done). clear Hr.
  destruct (calls t) as [|[how c body] k] eqn:Hca.
  - destruct (frames t) as [|[c k] fr] eqn:Hfr; [done|].
    destruct (formed_at i t Hi) as [Hf _]. rewrite Hfr in Hf. destruct Hf as (Hc & _). destruct (ctx_exists c Hc) as [x Hx].
    pose proof (v_flags _ _ _ Hv) as Hfl. destruct (concurrent c) eqn:Hcc.
    + rewrite (clear_concurrent i c l x Hfl Hx Hcc) in Hr'. injection Hr' as <- <- <-. by eapply leave_concurrent.
    + destruct (leave_locked i t c k fr x Hi Hca Hfr Hcc Hx) as (Hb & Ho & Hinv).
      rewrite (clear_run i c l x Hfl Hx Hcc Hb Ho) in Hr'. by injection Hr' as <- <- <-.
  - rewrite <- Hca in Hr'.
    destruct (ta_call_step i t how c body k Hi Hca) as [[Hc E]|[(x & Hc & Hx & Hb & Ho & E)|[(Hc & Hin & Ho & E)|(cv & Ho & Hna & Hcv & E)]]];
      rewrite E in Hr'; injection Hr' as <- <- <-.
    + by eapply enter_concurrent.
    + by eapply enter_free.
    + by eapply refused_inv.
    + by eapply ta_wait_inv.
Qed.

(** ** Nobody is stuck *)

(** A thread in the middle of something has something to do. *)
Lemma run_some i t : (forall cv, doing t <> Waiting cv false) -> (forall w, doing t <> Stopped w) -> ~ finished t ->
  exists r, run i l t = Some r.
Proof.
  intros Ha Hs Hf. unfold run. destruct (doing t) as [|cv [|]|w]; try (by destruct (Ha cv)); try (by destruct (Hs w));
    (destruct (calls t) as [|[how c body] k] eqn:Hca;
      [destruct (frames t) as [|[c k] fr] eqn:Hfr; [by destruct Hf|destruct (tee_ta_clear_busy i c l); eauto]|
       destruct (tee_ta_try_set_busy i c l) as [[] ? ?| |]; eauto]).
Qed.

Lemma signals_exist sig us : exists us', signals sig us us'.
Proof.
  revert us. induction sig as [|cv sig IH]; intros us; [eexists; constructor|].
  assert (Hs : exists us1, signal cv us us1).
  { destruct (decide (Exists (fun t => doing t = Waiting cv false) us)) as [He|He].
    - apply Exists_exists in He as (t & Ht & Hd). apply list_elem_of_lookup in Ht as [j Hj]. eexists. by eapply signal_one.
    - exists us. apply signal_none. apply Forall_forall. intros t Ht Hd. apply He, Exists_exists. by exists t. }
  destruct Hs as [us1 H1]. destruct (IH us1) as [us2 H2]. exists us2. by econstructor.
Qed.

Context (Hnostep : forall s', ~ step (l, ts) s') (Hgo : forall i t w, ts !! i = Some t -> doing t <> Stopped w).

Lemma all_asleep i t : ts !! i = Some t -> ~ finished t -> exists cv, asleep cv t.
Proof.
  intros Hi Hf. destruct (doing t) as [|cv [|]|w] eqn:Hd.
  4: by destruct (Hgo i t w).
  3: by exists cv.
  all: destruct (run_some i t) as [[[l' t'] sig] Hr]; [congruence|congruence|done|];
    destruct (signals_exist sig (<[i:=t']> ts)) as [ts' Hs]; destruct (Hnostep (l', ts')); by eapply step_run.
Qed.

(** A thread sleeps for a reason. *)
Lemma asleep_reason i t cv : ts !! i = Some t -> asleep cv t -> waits_for t cv /\ ~ available cv l.
Proof.
  intros Hi Ha. split; [by apply (v_waits _ _ _ Hv i t cv false)|]. intros Hav.
  destruct (v_wake _ _ _ Hv cv Hav) as [Hx|Hat]; [by apply not_elem_of_nil in Hx|].
  assert (Hex : Exists (asleep cv) ts) by (apply Exists_exists; exists t; split; [by eapply list_elem_of_lookup_2|done]).
  apply Hat, Exists_exists in Hex as (u & Hu & Hd). apply list_elem_of_lookup in Hu as [j Hj].
  destruct (v_waits _ _ _ Hv j u cv true Hj Hd) as (_ & ? & ? & ? & ? & Hca & _).
  destruct (all_asleep j u Hj) as [cv' Ha']; [intros [_ E]; congruence|]. unfold asleep in Ha'. congruence.
Qed.

Lemma not_waiting_single i t : ts !! i = Some t -> ~ asleep tee_ta_cv t.
Proof.
  intros Hi Ha. destruct (asleep_reason i t tee_ta_cv Hi Ha) as [_ Hna]. simpl in Hna.
  pose proof (v_owner _ _ _ Hv) as Hw. destruct owner as [z|] eqn:Eo; [|done]. destruct Hw as [Hlt _].
  destruct (lookup_lt_is_Some_2 ts z Hlt) as [u Hz]. assert (Hp : (0 < singles u)%nat) by by apply (owner_is z u Hz).
  destruct (all_asleep z u Hz) as [cv Hu]; [intros [E _]; unfold singles, inside in Hp; rewrite E in Hp; simpl in Hp; lia|].
  destruct (asleep_reason z u cv Hz Hu) as [[H0 _] _]. lia.
Qed.

(** A private context is not entered from inside itself. *)
Lemma private_not_inside i t how d body k : ts !! i = Some t -> calls t = Call how d body :: k -> private d = true -> d ∉ inside t.
Proof.
  intros Hi Hca Hp Hin. destruct (called i t how d body k Hi Hca) as (_ & Hcreator & _). specialize (Hcreator Hp).
  destruct (formed_at i t Hi) as [Hf _]. unfold inside in *. destruct (frames t) as [|[p k'] fr] eqn:Hfr; [by apply not_elem_of_nil in Hin|].
  simpl in Hcreator. assert (Hpc : concurrent p = false) by by apply (Hcr d).
  assert (Htwice : p ∈ fst <$> fr).
  { destruct Hf as (_ & Hpr & _ & _ & Hf). apply elem_of_cons in Hin as [E|Hin]; [|by apply framed_creator with d].
    simpl in E. subst d. specialize (Hpr Hp). rewrite Hcreator in Hpr. destruct fr as [|[q k2] fr]; [done|]. injection Hpr as ->. by left. }
  pose proof (once i t p Hi Hpc) as Ho. destruct t as [fr0 ca dd]. cbn [frames] in Hfr. subst fr0.
  rewrite times_cons, bool_decide_eq_true_2 in Ho by done. assert (Ht : (0 < times p (Thread fr ca dd))%nat) by by apply times_in.
  simpl in Ho. lia.
Qed.

Lemma everyone_done : Forall finished ts.
Proof.
  apply Forall_lookup. intros i t Hi. destruct (decide (finished t)) as [|Hf]; [done|]. exfalso.
  destruct (all_asleep i t Hi Hf) as [[|c] Ha]; [by apply (not_waiting_single i t Hi)|].
  destruct (asleep_reason i t _ Hi Ha) as [(_ & how & c' & body & k & Hca & <- & Hp) Hna].
  destruct (called i t how c body k Hi Hca) as (Hc & _). destruct (ctx_exists c Hc) as [x Hx].
  assert (Hb : busy x = true) by (destruct (busy x) eqn:Hb; [done|]; destruct Hna; by exists x).
  assert (Hcc : concurrent c = false) by (unfold private in Hp; by destruct (concurrent c)).
  destruct (holder c x Hx Hcc Hb) as (j & u & Hj & Hu).
  assert (Hne : inside u <> []) by (intros E; rewrite E in Hu; by apply not_elem_of_nil in Hu).
  destruct (all_asleep j u Hj) as [[|d] Hd]; [intros [E _]; unfold inside in Hne; by rewrite E in Hne|by apply (not_waiting_single j u Hj)|].
  destruct (asleep_reason j u _ Hj Hd) as [(_ & how' & d' & body' & k' & Hca' & <- & Hp') Hna'].
  destruct (called j u how' d body' k' Hj Hca') as (Hdl & _). destruct (ctx_exists d Hdl) as [y Hy].
  assert (Hby : busy y = true) by (destruct (busy y) eqn:Hby; [done|]; destruct Hna'; by exists y).
  apply (private_not_inside j u how' d body' k' Hj Hca' Hp'). by apply (busy_mine j u how' d body' k' y).
Qed.

Lemma everything_free : owner = None /\ forall c x, ctxes l !! c = Some x -> concurrent c = false -> busy x = false.
Proof.
  pose proof everyone_done as Hd. rewrite Forall_lookup in Hd. split.
  - pose proof (v_owner _ _ _ Hv) as Hw. destruct owner as [z|] eqn:Eo; [|done]. destruct Hw as [Hlt _].
    destruct (lookup_lt_is_Some_2 ts z Hlt) as [u Hz]. assert (Hp : (0 < singles u)%nat) by by apply (owner_is z u Hz).
    destruct (Hd z u Hz) as [E _]. unfold singles, inside in Hp. rewrite E in Hp. simpl in Hp. lia.
  - intros c x Hx Hc. destruct (busy x) eqn:Hb; [|done]. destruct (holder c x Hx Hc Hb) as (j & u & Hj & Hu).
    destruct (Hd j u Hj) as [E _]. unfold inside in Hu. rewrite E in Hu. by apply not_elem_of_nil in Hu.
Qed.

End Facts.

(** ** Every run ends *)

(** A call costs its entry and its return, an open perhaps a close more; a step that
    does neither puts a thread to sleep, and a signal wakes one. *)
Fixpoint work (x : call) : nat :=
  match x with Call how _ body => (match how with Open => 3 | Enter => 2 end) + sum_list_with work body end.
Definition energy (p : phase) : nat := match p with Ready => 2 | Waiting _ true => 1 | _ => 0 end.
Definition weight (t : thread) : nat :=
  3 * (sum_list_with work (calls t) + sum_list_with (fun f => S (sum_list_with work f.2)) (frames t)) + energy (doing t).
Definition total (ts : list thread) : nat := sum_list (weight <$> ts).

Lemma run_weight i l ts t l' t' sig : creators_ok -> Z.of_nat (length fl) + 1 < 2 ^ 64 -> inv [] l ts -> ts !! i = Some t ->
  run i l t = Some (l', t', sig) -> (weight t' + length sig < weight t)%nat.
Proof.
  intros Hcr Hroom Hv Hi Hr. unfold run in Hr.
  assert (Hen : (1 <= energy (doing t) <= 2)%nat) by (destruct (doing t) as [|cv []|]; simpl in *; (done || lia)).
  destruct (doing t) as [|cv [|]|w] eqn:Hd; try done;
  (destruct (calls t) as [|[how c body] k] eqn:Hca;
   [destruct (frames t) as [|[c k] fr] eqn:Hfr; [done|];
    destruct (formed_at l ts Hv i t Hi) as [Hf _]; rewrite Hfr in Hf; destruct Hf as (Hc & _); destruct (ctx_exists l ts Hv c Hc) as [x Hx];
    destruct (concurrent c) eqn:Hcc;
    [rewrite (clear_concurrent i c l x (v_flags _ _ _ Hv) Hx Hcc) in Hr|
     destruct (leave_locked Hroom l ts Hv i t c k fr x Hi Hca Hfr Hcc Hx) as (Hb & Ho & _);
     rewrite (clear_run i c l x (v_flags _ _ _ Hv) Hx Hcc Hb Ho) in Hr];
    injection Hr as <- <- <-; unfold weight; rewrite Hd, Hca, Hfr; cbn [doing calls frames energy snd sum_list_with length]
   |destruct (ta_call_step Hcr Hroom l ts Hv i t how c body k Hi Hca) as [[_ E]|[(_ & _ & _ & _ & _ & E)|[(_ & _ & _ & E)|(cv' & _ & _ & _ & E)]]];
    rewrite E in Hr; injection Hr as <- <- <-; unfold weight; rewrite Hd, ?Hca;
    try destruct how; cbn [doing calls frames energy snd sum_list_with length work]]);
  try (destruct (released c l); cbn [length]); try lia.
  by destruct (leave_ready l ts Hv i t cv true Hi Hca).
Qed.

Lemma signals_weight sig ts ts' : signals sig ts ts' -> (total ts' <= total ts + length sig)%nat.
Proof.
  induction 1 as [|cv sig ts1 ts2 ts3 Hs _ IH]; [simpl; lia|].
  assert (H1 : (total ts2 <= total ts1 + 1)%nat); [|simpl; lia].
  destruct Hs as [us _|us j t Hj Ha]; [lia|]. pose proof (sum_insert weight us j t (wake cv t) Hj) as Hsum.
  unfold total, asleep in *. assert (weight (wake cv t) = S (weight t)) by (unfold weight; rewrite Ha; simpl; lia). lia.
Qed.

Section Runs.
Context (Hcr : creators_ok) (Hroom : Z.of_nat (length fl) + 1 < 2 ^ 64).

Lemma ta_step_inv l ts l' ts' : inv [] l ts -> step (l, ts) (l', ts') -> inv [] l' ts' /\ (total ts' < total ts)%nat.
Proof.
  intros Hv Hs. inversion Hs as [? ? ? ? i t t' sig Hi Hr Hsg]; subst. split.
  - eapply signals_inv; [|exact Hsg]. by eapply ta_run_inv.
  - pose proof (signals_weight _ _ _ Hsg). pose proof (run_weight i l ts t l' t' sig Hcr Hroom Hv Hi Hr).
    pose proof (sum_insert weight ts i t t' Hi). unfold total in *. lia.
Qed.

Lemma run_all n s s' : nsteps step n s s' -> inv [] s.1 s.2 -> inv [] s'.1 s'.2 /\ (n + total s'.2 <= total s.2)%nat.
Proof.
  induction 1 as [s|n [l1 ts1] [l2 ts2] s3 Hs _ IH]; [done|]. intros Hv.
  destruct (ta_step_inv _ _ _ _ Hv Hs) as [Hv2 Hlt]. destruct (IH Hv2) as [H1 H2]. split; [done|]. cbn [fst snd] in *. lia.
Qed.

Lemma ta_start_inv progs : Forall (fun cs => forallb (well_called []) cs = true) progs -> inv [] (idle fl) (start <$> progs).
Proof.
  intros Hp. assert (Hat : forall i t, (start <$> progs) !! i = Some t -> exists cs, t = start cs).
  { intros i t Hi. rewrite list_lookup_fmap in Hi. destruct (progs !! i) as [cs|]; [|done]. injection Hi as <-. by exists cs. }
  assert (Hrd : forall cv, attended cv (start <$> progs)).
  { intros cv Hex. apply Exists_exists in Hex as (t & Ht & Ha). apply list_elem_of_fmap in Ht as (cs & -> & _). done. }
  split.
  - unfold idle. cbn [ctxes]. rewrite <- list_fmap_compose. apply list_fmap_id.
  - apply Forall_fmap. eapply Forall_impl; [exact Hp|]. intros cs Hcs. by split.
  - intros c x Hx Hc. unfold idle in Hx. cbn [ctxes] in Hx. rewrite list_lookup_fmap in Hx. destruct (fl !! c); [|done].
    injection Hx as <-. cbn [busy]. clear. induction progs as [|cs progs IH]; [done|]. simpl. exact IH.
  - intros i t Hi. destruct (Hat i t Hi) as [cs ->]. done.
  - done.
  - intros i t cv b Hi. destruct (Hat i t Hi) as [cs ->]. done.
  - intros i t w Hi. destruct (Hat i t Hi) as [cs ->]. done.
  - intros cv _. right. apply Hrd.
Qed.

End Runs.
End System.

(** C19: The locks of trusted applications exclude.  Threads that call applications
    from the normal world and from other applications in any way, with a private
    context reached only from its creator: in every state of every interleaving a
    context that is not flagged concurrent has at most one thread in it, and that
    once; at most one thread is in single-instance contexts; no assertion fails; and
    a thread that panics was about to enter an instance in which it already was. *)
Theorem ta_locks_exclude (fl : list Z) (creator : nat -> option nat) (progs : list (list call)) l ts :
  creators_ok fl creator -> Z.of_nat (length fl) + 1 < 2 ^ 64 ->
  Forall (fun cs => forallb (well_called fl creator false []) cs = true) progs ->
  rtc step (idle fl, start <$> progs) (l, ts) ->
  (forall i j t u c, ts !! i = Some t -> ts !! j = Some u -> concurrent fl c = false -> c ∈ inside t -> c ∈ inside u ->
     i = j /\ times c t = 1%nat) /\
  (forall i j t u, ts !! i = Some t -> ts !! j = Some u -> (0 < singles fl t)%nat -> (0 < singles fl u)%nat -> i = j) /\
  (forall i t w, ts !! i = Some t -> doing t = Stopped w -> w = Panic /\
     exists c body k, calls t = Call Enter c body :: k /\ c ∈ inside t).
Proof.
  intros Hcr Hroom Hp [n Hn]%rtc_nsteps. destruct (run_all fl creator false Hcr Hroom n _ _ Hn) as [Hv _]; [by apply ta_start_inv|].
  cbn [fst snd] in Hv. split; [|split].
  - intros i j t u c Hi Hj Hc Ht Hu. split; [by eapply inside_unique|].
    pose proof (once fl creator false l ts Hv i t c Hi Hc). apply times_in in Ht. lia.
  - intros i j t u Hi Hj Ht Hu. apply (owner_is fl creator false l ts Hv i t Hi) in Ht.
    apply (owner_is fl creator false l ts Hv j u Hj) in Hu. congruence.
  - intros i t w Hi Hd. destruct (v_stopped _ _ _ _ _ _ Hv i t w Hi Hd) as (Hw & c & body & k & Hca & Hin & _).
    split; [done|]. by exists c, body, k.
Qed.

(** C20: Calls of trusted applications return.  If moreover no application calls into
    an instance in which its thread already is, every interleaving ends, after at
    most as many steps as the calls amount to; it ends only when every thread has
    returned from all its calls (nobody waits for ever, no wake-up is lost and
    nothing panics), and all locks are then free. *)
Theorem ta_calls_return (fl : list Z) (creator : nat -> option nat) (progs : list (list call)) n l ts :
  creators_ok fl creator -> Z.of_nat (length fl) + 1 < 2 ^ 64 ->
  Forall (fun cs => forallb (well_called fl creator true []) cs = true) progs ->
  nsteps step n (idle fl, start <$> progs) (l, ts) ->
  (n <= total (start <$> progs))%nat /\
  ((forall s', ~ step (l, ts) s') -> Forall finished ts /\ tee_ta_single_instance_thread l = None /\
     forall c x, ctxes l !! c = Some x -> concurrent fl c = false -> busy x = false).
Proof.
  intros Hcr Hroom Hp Hn. destruct (run_all fl creator true Hcr Hroom n _ _ Hn) as [Hv Hle]; [by apply ta_start_inv|].
  cbn [fst snd] in *. split; [lia|]. intros Hno.
  assert (Hgo : forall i t w, ts !! i = Some t -> doing t <> Stopped w).
  { intros i t w Hi Hd. destruct (v_stopped _ _ _ _ _ _ Hv i t w Hi Hd) as (_ & c & body & k & Hca & Hin & Hc).
    destruct (called fl creator true l ts Hv i t Enter c body k Hi Hca) as (_ & _ & Hs & _). by apply Hs. }
  split; [by eapply everyone_done|]. by eapply everything_free.
Qed.

(** ** A normal-world client, an application and the FPGA manager *)

(** Context 0 is a pseudo application with the default flags, context 1 an
    application of the normal world that opens a session with it and calls it while
    another thread calls it too. *)
Definition two_contexts : list Z := [TA_FLAG_SINGLE_INSTANCE .| TA_FLAG_MULTI_SESSION .| TA_FLAG_INSTANCE_KEEP_ALIVE; 0].
Definition two_threads : list (list call) := [[Call Enter 1 [Call Open 0 []; Call Enter 0 []]]; [Call Enter 0 []]].

Lemma two_creators : creators_ok two_contexts (fun _ => None).
Proof. by intros c p. Qed.

(** One step of thread [i]; a signal wakes thread 0 if it sleeps. *)
Ltac wakes := repeat (eapply signals_cons;
  [first [eapply (signal_one _ _ 0%nat); [reflexivity|reflexivity] | apply signal_none; repeat constructor; discriminate]|]);
  apply signals_nil.
Ltac one_step i := eapply (step_run _ _ _ _ i); [reflexivity|vm_compute; reflexivity|wakes].
Ltac turn i := eapply rtc_l; [one_step i|]; lazy [insert list_insert fmap list_fmap start two_threads].
Ltac nturn i := eapply nsteps_l; [one_step i|]; lazy [insert list_insert fmap list_fmap start two_threads].

(** Thread 1 is in context 0, thread 0 waits for it inside context 1. *)
Lemma ta_locks_exclude_witness : exists l t u,
  rtc step (idle two_contexts, start <$> two_threads) (l, [t; u]) /\ asleep tee_ta_cv t /\ 1%nat ∈ inside t /\
  0%nat ∈ inside u /\ times 0 u = 1%nat.
Proof.
  assert (Hr : exists l t u, rtc step (idle two_contexts, start <$> two_threads) (l, [t; u]) /\
    asleep tee_ta_cv t /\ inside t = [1%nat] /\ inside u = [0%nat]).
  { do 3 eexists. split; [turn 0%nat; turn 1%nat; turn 0%nat; reflexivity|]. by vm_compute. }
  destruct Hr as (l & t & u & Hr & Ha & Ht & Hu). exists l, t, u. split; [exact Hr|]. split; [exact Ha|].
  rewrite Ht, Hu. split; [by left|]. split; [by left|].
  destruct (ta_locks_exclude two_contexts (fun _ => None) two_threads l [t; u]) as (Hx & _).
  - apply two_creators.
  - vm_compute. reflexivity.
  - repeat constructor.
  - exact Hr.
  - apply (Hx 1%nat 1%nat u u 0%nat); try reflexivity; rewrite Hu; by left.
Defined.

(** The whole run, in nine steps: thread 0 is woken when thread 1 leaves. *)
Lemma ta_calls_return_witness : exists l ts,
  nsteps step 9 (idle two_contexts, start <$> two_threads) (l, ts) /\ (9 <= total (start <$> two_threads))%nat /\ Forall finished ts.
Proof.
  assert (Hr : exists l ts, nsteps step 9 (idle two_contexts, start <$> two_threads) (l, ts) /\ (forall s', ~ step (l, ts) s')).
  { do 2 eexists. split.
    - nturn 1%nat. nturn 0%nat. nturn 0%nat. nturn 1%nat. nturn 0%nat. nturn 0%nat. nturn 0%nat. nturn 0%nat. nturn 0%nat. constructor.
    - intros s' Hs. inversion Hs as [? ? ? ? i t t' sig Hi Hrun _]; subst.
      destruct i as [|[|i]]; [injection Hi as <-; done|injection Hi as <-; done|done]. }
  destruct Hr as (l & ts & Hr & Hno). exists l, ts. split; [exact Hr|].
  destruct (ta_calls_return two_contexts (fun _ => None) two_threads 9 l ts) as [H1 H2].
  - apply two_creators.
  - vm_compute. reflexivity.
  - repeat constructor.
  - exact Hr.
  - split; [exact H1|]. apply (H2 Hno).
Defined.

(** An application that opens a session with its own instance stops the core: the
    open is refused ("deadlock avoided"), and closing the session that was refused
    enters the busy context once more, which panics. *)
Lemma own_instance_panics : exists l t,
  rtc step (idle two_contexts, [start [Call Enter 0 [Call Open 0 []]]]) (l, [t]) /\ doing t = Stopped Panic.
Proof. do 2 eexists. split; [turn 0%nat; turn 0%nat; turn 0%nat; reflexivity|reflexivity]. Qed.

End TaLocks.
