(* ===== verification/TaCancel.v ===== *)
(** * Time-outs of calls of trusted applications (OP-TEE)

    The deadline that optee_os/core/kernel/tee_ta_manager.c gives to a call
    ([set_invoke_timeout]) and the test that the application makes against it
    ([tee_ta_session_is_cancelled]).  The clock is a parameter: the time it reports,
    [None] for an error. *)

From S2P Require Import Prelude.
#[local] Open Scope Z_scope.

Module TaCancel.

Definition UINT32_MAX : Z := 4294967295.
Definition TEE_TIMEOUT_INFINITE : Z := 0xFFFFFFFF.
Record TEE_Time := Time { seconds : Z; millis : Z }.
Record tee_ta_session := Session { cancel : bool; cancel_mask : bool; cancel_time : TEE_Time }.
Definition set_cancel_time (x : TEE_Time) (s : tee_ta_session) : tee_ta_session := Session (cancel s) (cancel_mask s) x.

(** ADD_OVERFLOW on 32-bit operands: [None] when the sum does not fit. *)
Definition ADD_OVERFLOW (a b : Z) : option Z := if a + b <=? UINT32_MAX then Some (a + b) else None.

Definition infinite (sess : tee_ta_session) : tee_ta_session := set_cancel_time (Time UINT32_MAX UINT32_MAX) sess.

Definition set_invoke_timeout (clock : option TEE_Time) (sess : tee_ta_session) (cancel_req_to : Z) : tee_ta_session :=
  if cancel_req_to =? TEE_TIMEOUT_INFINITE then infinite sess
  else
    match clock with
    | None => infinite sess
    | Some current_time =>
        match ADD_OVERFLOW (seconds current_time) (cancel_req_to / 1000) with
        | None => infinite sess
        | Some s =>
            let m := u32 (millis current_time + cancel_req_to mod 1000) in
            if 1000 <? m then
              match ADD_OVERFLOW (seconds current_time) 1 with
              | None => infinite sess
              | Some s => set_cancel_time (Time (u32 (s + 1)) (m - 1000)) sess
              end
            else set_cancel_time (Time s m) sess
        end
    end.

Definition tee_ta_session_is_cancelled (clock : option TEE_Time) (s : tee_ta_session) : bool :=
  if cancel_mask s then false
  else if cancel s then true
  else if seconds (cancel_time s) =? UINT32_MAX then false
  else
    match clock with
    | None => false
    | Some current_time =>
        (seconds (cancel_time s) <? seconds current_time) ||
        ((seconds current_time =? seconds (cancel_time s)) && (millis (cancel_time s) <=? millis current_time))
    end.

(** ** The deadline *)

(** A time of the clock, and its milliseconds. *)
Definition is_time (t : TEE_Time) : Prop := 0 <= seconds t /\ 0 <= millis t < 1000.
Definition instant (t : TEE_Time) : Z := 1000 * seconds t + millis t.

Definition open_session : tee_ta_session := Session false false (Time 0 0).

(** The test against a deadline of at most 1000 milliseconds past its second. *)
Lemma cancelled_from d t : is_time t -> 0 <= millis d <= 1000 -> seconds d < UINT32_MAX ->
  tee_ta_session_is_cancelled (Some t) (set_cancel_time d open_session) = (instant d <=? instant t).
Proof.
  intros [Ht Hm] Hd Hs. unfold tee_ta_session_is_cancelled, instant. cbn [cancel_mask cancel cancel_time set_cancel_time open_session].
  replace (seconds d =? UINT32_MAX) with false by lia. apply Bool.eq_iff_eq_true.
  rewrite orb_true_iff, andb_true_iff, Z.ltb_lt, Z.eqb_eq, !Z.leb_le. nia.
Qed.

Section Deadline.
Context (now : TEE_Time) (Hnow : is_time now) (req : Z) (Hreq : 0 <= req < TEE_TIMEOUT_INFINITE).

Lemma sum_small : u32 (millis now + req mod 1000) = millis now + req mod 1000.
Proof. destruct Hnow. pose proof (Z.mod_pos_bound req 1000). apply u32_small. lia. Qed.

(** As long as the milliseconds do not carry, the call is cancelled exactly when the
    requested time has passed; a sum of exactly 1000, which the code does not carry,
    is no exception. *)
Lemma timeout_exact t : is_time t -> seconds now + req / 1000 < UINT32_MAX -> millis now + req mod 1000 <= 1000 ->
  tee_ta_session_is_cancelled (Some t) (set_invoke_timeout (Some now) open_session req) = (instant now + req <=? instant t).
Proof.
  intros Ht Hs Hm. unfold set_invoke_timeout. replace (req =? TEE_TIMEOUT_INFINITE) with false by lia.
  pose proof (Z.mod_pos_bound req 1000). pose proof (Z.div_mod req 1000). destruct Hnow.
  unfold ADD_OVERFLOW at 1. replace (_ <=? UINT32_MAX) with true by lia. rewrite sum_small.
  replace (1000 <? _) with false by lia. rewrite cancelled_from; cbn [millis seconds]; [|done|lia|lia].
  unfold instant. cbn [millis seconds]. f_equal. lia.
Qed.

(** With a carry the requested seconds do not count: the call is cancelled one second
    and the requested milliseconds after it began. *)
Lemma timeout_carry_forgets t : is_time t -> seconds now + req / 1000 < UINT32_MAX -> seconds now + 2 < UINT32_MAX ->
  1000 < millis now + req mod 1000 ->
  tee_ta_session_is_cancelled (Some t) (set_invoke_timeout (Some now) open_session req) =
    (instant now + 1000 + req mod 1000 <=? instant t).
Proof.
  intros Ht Hs Hs' Hm. unfold set_invoke_timeout. replace (req =? TEE_TIMEOUT_INFINITE) with false by lia.
  pose proof (Z.mod_pos_bound req 1000). destruct Hnow. unfold ADD_OVERFLOW.
  replace (_ <=? UINT32_MAX) with true by lia. rewrite sum_small. replace (1000 <? _) with true by lia.
  replace (_ <=? UINT32_MAX) with true by lia. rewrite u32_small by (unfold UINT32_MAX in *; lia).
  rewrite cancelled_from; cbn [millis seconds]; [|done|lia|lia].
  unfold instant. cbn [millis seconds]. f_equal. lia.
Qed.

End Deadline.

(** A minute that is asked for at 0.9 s, with 200 ms more, ends after 1.2 s. *)
Example minute_lost : let s := set_invoke_timeout (Some (Time 0 900)) open_session 60200 in
  tee_ta_session_is_cancelled (Some (Time 2 99)) s = false /\ tee_ta_session_is_cancelled (Some (Time 2 100)) s = true.
Proof. by vm_compute. Qed.

End TaCancel.
