(* ===== verification/TeeCore.v ===== *)
(** * What the secure-world drivers use of OP-TEE's core

    Result codes (tee_api_defines.h), register accessors (core/include/io.h),
    timeouts (core/arch/arm/include/kernel/delay.h) and buffers.  The memory map
    is the class [CoreMmu]: a virtual address for a device region, 0 when the
    region is not mapped, the physical address of a virtual one, and the address
    the linker gave to a static object.  The counter and its frequency are
    system registers, read by [ext_call]; a wait that only a timeout ends is
    unfolded [poll_bound] times. *)

From S2P Require Import Prelude Machine Trace.
From Stdlib Require Import String.
From stdpp Require Import strings.
#[local] Open Scope Z_scope.
#[local] Open Scope c_scope.

Module TeeCore.

Definition TEE_SUCCESS : Z := 0.
Definition TEE_ERROR_GENERIC : Z := 0xFFFF0000.
Definition TEE_ERROR_BAD_FORMAT : Z := 0xFFFF0005.
Definition TEE_ERROR_BAD_PARAMETERS : Z := 0xFFFF0006.
Definition TEE_ERROR_BAD_STATE : Z := 0xFFFF0007.
Definition TEE_ERROR_NOT_IMPLEMENTED : Z := 0xFFFF0009.
Definition TEE_ERROR_BUSY : Z := 0xFFFF000D.
Definition TEE_ERROR_DEFER_DRIVER_INIT : Z := 0x80000000.

Definition TEE_PARAM_TYPE_NONE : Z := 0.
Definition TEE_PARAM_TYPE_VALUE_OUTPUT : Z := 2.
Definition TEE_PARAM_TYPE_MEMREF_INOUT : Z := 7.
Definition TEE_PARAM_TYPES (t0 t1 t2 t3 : Z) : Z :=
  t0 .| (t1 .<< 4) .| (t2 .<< 8) .| (t3 .<< 12).

(** platform_config.h *)
Definition CSUDMA_BASE : Z := 0xFFC80000.
Definition CSUDMA_SIZE : Z := 0x1000.
Definition CSU_BASE : Z := 0xFFCA0000.
Definition CSU_SIZE : Z := 0x5038.
Definition CRL_APB_BASE : Z := 0xFF5E0000.
Definition CRL_APB_SIZE : Z := 0x2B0.

(** [GENMASK_32(h, l)] and [IS_ALIGNED] *)
Definition GENMASK_32 (h l : Z) : Z := (not32 0 .<< l) .& (not32 0 .>> (32 - 1 - h)).
Definition IS_ALIGNED (x a : Z) : bool := (x .& (a - 1)) =? 0.

Class CoreMmu := {
  core_mmu_get_va : Z -> Z -> Z;
  virt_to_phys : Z -> Z;
  addr_of : string -> Z
}.

(** A buffer: its virtual address and its bytes. *)
Record buffer := Buffer { buf_va : Z; buf_bytes : list Z }.
Definition buf_len (b : buffer) : Z := Z.of_nat (length (buf_bytes b)).

(** The little-endian word at an offset of a list of bytes. *)
Definition le32 (bs : list Z) (off : nat) : Z :=
  nth off bs 0 + 2 ^ 8 * nth (off + 1) bs 0 + 2 ^ 16 * nth (off + 2) bs 0 + 2 ^ 24 * nth (off + 3) bs 0.

(** The device regions the drivers map, with their sizes. *)
Definition ZYNQMP_DFX_DECOUPLER_BASE : Z := 0xA0020000.
Definition ZYNQMP_DFX_DECOUPLER_SIZE : Z := 0x20000.
Definition io_regions : list (Z * Z) :=
  [(CSUDMA_BASE, CSUDMA_SIZE); (CSU_BASE, CSU_SIZE); (CRL_APB_BASE, CRL_APB_SIZE);
   (ZYNQMP_DFX_DECOUPLER_BASE, ZYNQMP_DFX_DECOUPLER_SIZE)].

(** Documented behaviour of the memory map after boot: registered regions are
    mapped, contiguously and without overlap. *)
Record io_mapped `{CoreMmu} : Prop := {
  io_nonnull : forall pa len, (pa, len) ∈ io_regions -> core_mmu_get_va pa len <> 0;
  io_csu : forall off len, 0 <= off -> 0 < len -> off + len <= CSU_SIZE ->
    core_mmu_get_va (CSU_BASE + off) len = core_mmu_get_va CSU_BASE CSU_SIZE + off /\
    core_mmu_get_va (CSU_BASE + off) len <> 0;
  io_apart : forall r1 r2 o1 o2, r1 ∈ io_regions -> r2 ∈ io_regions -> r1 <> r2 ->
    0 <= o1 < r1.2 -> 0 <= o2 < r2.2 ->
    core_mmu_get_va r1.1 r1.2 + o1 <> core_mmu_get_va r2.1 r2.2 + o2
}.

(** The map of a core that runs without MMU satisfies it. *)
Definition flat_mmu : CoreMmu := {|
  core_mmu_get_va pa _ := pa;
  virt_to_phys va := va;
  addr_of _ := 0x60000000
|}.

Lemma flat_mapped : @io_mapped flat_mmu.
Proof.
  split; simpl.
  - intros pa len Hin. unfold io_regions, CSUDMA_BASE, CSU_BASE, CRL_APB_BASE, ZYNQMP_DFX_DECOUPLER_BASE in Hin.
    repeat (apply elem_of_cons in Hin as [[= -> ->]|Hin]; [done|]). by apply not_elem_of_nil in Hin.
  - intros off len Ho Hl Hs. unfold CSU_BASE. lia.
  - intros r1 r2 o1 o2 H1 H2 Hne.
    unfold io_regions, CSUDMA_BASE, CSUDMA_SIZE, CSU_BASE, CSU_SIZE, CRL_APB_BASE, CRL_APB_SIZE,
      ZYNQMP_DFX_DECOUPLER_BASE, ZYNQMP_DFX_DECOUPLER_SIZE in H1, H2.
    repeat (apply elem_of_cons in H1 as [->|H1]); [..|by apply not_elem_of_nil in H1].
    all: repeat (apply elem_of_cons in H2 as [->|H2]); [..|by apply not_elem_of_nil in H2].
    all: simpl; first [congruence|lia].
Qed.

Lemma le32_nonneg bs off : Forall is_u8 bs -> 0 <= le32 bs off.
Proof.
  intros Hb. assert (Hn : forall k, 0 <= nth k bs 0).
  { intros k. destruct (nth_in_or_default k bs 0) as [Hin| ->]; [|lia].
    rewrite Forall_forall in Hb. apply list_elem_of_In, Hb in Hin. unfold is_u8 in Hin. lia. }
  unfold le32. pose proof (Hn off). pose proof (Hn (off + 1)%nat).
  pose proof (Hn (off + 2)%nat). pose proof (Hn (off + 3)%nat). lia.
Qed.

Section Core.
Context `{Env} {V : Type}.

Definition io_read32 : Z -> M V Z := mmio_read_32.
Definition io_write32 : Z -> Z -> M V unit := mmio_write_32.
Definition io_setbits32 (addr set_mask : Z) : M V unit :=
  x <- io_read32 addr ;; io_write32 addr (x .| set_mask).
Definition io_clrbits32 (addr clear_mask : Z) : M V unit :=
  x <- io_read32 addr ;; io_write32 addr (x .& not32 clear_mask).

(** A read of [n] bytes of a buffer: leaving it is [OutOfBounds]. *)
Definition buf_bounds (b : buffer) (off n : Z) : M V unit :=
  if (0 <=? off) && (off + n <=? buf_len b) then ret tt else stop OutOfBounds.
Definition buf_read32 (b : buffer) (off : Z) : M V Z :=
  buf_bounds b off 4 ;; ret (le32 (buf_bytes b) (Z.to_nat off)).
Definition buf_slice (b : buffer) (off n : Z) : M V (list Z) :=
  buf_bounds b off n ;; ret (take (Z.to_nat n) (drop (Z.to_nat off) (buf_bytes b))).

Definition barrier_read_counter_timer : M V Z :=
  t <- ext_call "read_cntpct" [] ;; ret (u64 t).
Definition arm_cnt_us2cnt (us : Z) : M V Z :=
  f <- ext_call "read_cntfrq" [] ;; ret (u64 (u32 us * u32 f) / 1000000).
Definition timeout_init_us (us : Z) : M V Z :=
  t <- barrier_read_counter_timer ;;
  c <- arm_cnt_us2cnt us ;;
  ret (u64 (t + c)).
Definition timeout_elapsed (expire : Z) : M V bool :=
  t <- barrier_read_counter_timer ;; ret (expire <? t).

(** [while (!timeout_elapsed(tref)) { status = io_read32(addr); if (good(status))
    return status; }]: the status that ended the loop, or [None] at the
    timeout. *)
Fixpoint poll_until (n : nat) (tref addr : Z) (good : Z -> bool) : M V (option Z) :=
  e <- timeout_elapsed tref ;;
  if e then ret None
  else
    status <- io_read32 addr ;;
    if good status then ret (Some status)
    else match n with O => stop StillPolling | S n' => poll_until n' tref addr good end.

(** ** The contract of the timed wait *)

Definition counter_read (e : event) : Prop := exists r, e = EvCall "read_cntpct" [] r.

(** One turn that does not end the wait. *)
Definition idle_turn (addr : Z) (good : Z -> bool) (tr : list event) : Prop :=
  exists c z, tr = [EvCall "read_cntpct" [] c; EvRd W32 addr z] /\ good z = false.

Definition poll_trace (addr : Z) (good : Z -> bool) (r : option Z) (tr : list event) : Prop :=
  exists turns c, Forall (idle_turn addr good) turns /\
    match r with
    | Some z => tr = concat turns ++ [EvCall "read_cntpct" [] c; EvRd W32 addr z] /\ good z = true
    | None => tr = concat turns ++ [EvCall "read_cntpct" [] c]
    end.

Lemma poll_until_yields P n tref addr good :
  yields P (poll_until n tref addr good) (fun r tr v => poll_trace addr good r tr /\ P v).
Proof.
  induction n as [|n IH]; simpl; unfold timeout_elapsed, barrier_read_counter_timer, io_read32; yield.
  all: apply yields_if; intros He; [apply yields_ret; intros v Hv; split; [|done]; by exists [], r|].
  all: yield; apply yields_if; intros Hg.
  1,3: apply yields_ret; intros v Hv; split; [|done]; by exists [], r.
  - yield.
  - eapply yields_conseq; [exact IH|done|]. intros a tr v [(turns & c & Ht & Htr) HP]. split; [|done].
    exists ([EvCall "read_cntpct" [] r; EvRd W32 addr z] :: turns), c.
    split; [constructor; [by exists r, z|done]|].
    destruct a as [w|]; [destruct Htr as [-> Hw]; split; [|done]|rewrite Htr]; done.
Qed.

(** Documented behaviour of a status register: from every state of the device it
    shows the awaited value within [n] turns of a wait. *)
Fixpoint ready_within (n : nat) (addr : Z) (good : Z -> bool) (d : Dev) : Prop :=
  let r := hw_read W32 addr (hw_call "read_cntpct" [] d).2 in
  good (u32 r.1) = true \/
  match n with O => False | S n' => ready_within n' addr good r.2 end.

Lemma poll_until_returns n tref addr good s :
  ready_within n addr good (dev s) ->
  returns (poll_until n tref addr good) s
    (fun r s' => vars s' = vars s /\ held s' = held s /\ forall z, r = Some z -> is_u32 z).
Proof.
  revert s. induction n as [|n IH]; intros [d l h v] Hr; simpl in Hr; simpl;
    unfold timeout_elapsed, barrier_read_counter_timer, io_read32; unfold returns; run; if_case; run.
  1,3: done.
  all: if_case; run.
  1,3: split; [done|]; split; [done|]; intros z [= <-]; apply u32_range.
  - destruct Hr as [Hr|[]]. congruence.
  - destruct Hr as [Hr|Hr]; [congruence|]. apply (IH (St _ _ h v) Hr).
Qed.

Lemma timeout_init_returns us s :
  returns (timeout_init_us us) s (fun _ s' => vars s' = vars s /\ held s' = held s).
Proof.
  destruct s as [d l h v]. unfold timeout_init_us, barrier_read_counter_timer, arm_cnt_us2cnt, returns.
  by run.
Qed.

Definition timer_read (e : event) : Prop :=
  counter_read e \/ exists r, e = EvCall "read_cntfrq" [] r.

Lemma timeout_init_yields P us :
  yields P (timeout_init_us us) (fun _ tr v => Forall timer_read tr /\ P v).
Proof.
  unfold timeout_init_us, barrier_read_counter_timer, arm_cnt_us2cnt. yield. apply yields_ret.
  intros v Hv. split; [|done].
  apply Forall_cons_2; [left; by eexists|]. apply Forall_cons_2; [right; by eexists|done].
Qed.

(** ** Waits are calm *)

Lemma calm_timeout us : calm (timeout_init_us us).
Proof. intros s. apply timeout_init_returns. Qed.

Lemma calm_poll tref addr good :
  (forall d, ready_within poll_bound addr good d) -> calm (poll_until poll_bound tref addr good).
Proof.
  intros Hr s. eapply returns_mono; [by apply poll_until_returns|]. by intros r s' (Hv & Hh & _).
Qed.

(** Waits only read their register and the timer. *)
Lemma timeout_init_respects R `{!PreOrder R} us :
  (forall f, respects R (ext_call (V := V) f [])) -> respects R (timeout_init_us us).
Proof.
  intros Hc. unfold timeout_init_us, barrier_read_counter_timer, arm_cnt_us2cnt.
  repeat (apply respects_bind; [done| |intros ?]); try apply respects_ret; auto.
  all: apply respects_bind; [done|apply Hc|]; intros ?; by apply respects_ret.
Qed.

Lemma poll_until_respects R `{!PreOrder R} n tref addr good :
  (forall f, respects R (ext_call (V := V) f [])) -> respects R (mmio_read (V := V) W32 addr) ->
  respects R (poll_until n tref addr good).
Proof.
  intros Hc Hr. induction n as [|n IH]; simpl; unfold timeout_elapsed, barrier_read_counter_timer.
  all: apply respects_bind; [done|apply respects_bind; [done| |intros ?; by apply respects_ret]|].
  1,3: apply respects_bind; [done|apply Hc|intros ?; by apply respects_ret].
  all: intros e; apply respects_if; [by apply respects_ret|].
  all: apply respects_bind; [done|exact Hr|]; intros z; apply respects_if; [by apply respects_ret|].
  - by apply respects_stop.
  - exact IH.
Qed.

End Core.

#[export] Hint Resolve calm_timeout : calm.

(** ** Two devices for examples

    Registers that always answer the same. *)
Definition steady (f : Z -> Z) (n : nat) : Env := {|
  Dev := unit;
  hw_read _ a d := (f a, d);
  hw_write _ _ _ d := d;
  hw_call _ _ d := (0, d);
  poll_bound := n;
  uninit _ := 0
|}.

(** A script: every register answers from its list, the last answer for ever;
    the counter stands still. *)
Definition script_read (w : width) (a : Z) (d : Z -> list Z) : Z * (Z -> list Z) :=
  match d a with
  | [] => (0, d)
  | [x] => (x, d)
  | x :: xs => (x, fun b => if b =? a then xs else d b)
  end.

Definition script (n : nat) : Env := {|
  Dev := Z -> list Z;
  hw_read := script_read;
  hw_write _ _ _ d := d;
  hw_call _ _ d := (0, d);
  poll_bound := n;
  uninit _ := 0
|}.

End TeeCore.
