(* ===== verification/Csudma.v ===== *)
(** * The CSU DMA driver of OP-TEE

    core/drivers/zynqmp_csudma.c and its header.  A channel moves words between
    memory and the secure stream switch of the configuration security unit.
    Cache maintenance is assembly: [cache_op_inner] is a call, [cache_op_outer]
    is empty on this platform. *)

From S2P Require Import Prelude Machine Trace TeeCore.
From Stdlib Require Import String.
From stdpp Require Import strings.
Import TeeCore.
#[local] Open Scope Z_scope.
#[local] Open Scope c_scope.

Module Csudma.

Definition CSUDMA_ADDR_OFFSET : Z := 0x00.
Definition CSUDMA_SIZE_OFFSET : Z := 0x04.
Definition CSUDMA_CTRL_OFFSET : Z := 0x0C.
Definition CSUDMA_CRC_OFFSET : Z := 0x10.
Definition CSUDMA_I_STS_OFFSET : Z := 0x14.
Definition CSUDMA_ADDR_MSB_OFFSET : Z := 0x28.
Definition CSUDMA_OFFSET_DIFF : Z := 0x0800.
Definition CSUDMA_ADDR_MASK : Z := GENMASK_32 31 2.
Definition CSUDMA_ADDR_MSB_SHIFT : Z := 32.
Definition CSUDMA_CTRL_ENDIAN_MASK : Z := BIT 23.
Definition CSUDMA_IXR_DONE_MASK : Z := BIT 1.
Definition CSUDMA_IXR_SRC_MASK : Z := GENMASK_32 6 0.
Definition CSUDMA_IXR_DST_MASK : Z := GENMASK_32 7 1.
Definition CSUDMA_DONE_TIMEOUT_USEC : Z := 3000000.
Definition ZYNQMP_CSUDMA_ALIGN : Z := 8.
Definition ZYNQMP_CSUDMA_MIN_SIZE : Z := 16.

Inductive zynqmp_csudma_channel := ZYNQMP_CSUDMA_SRC_CHANNEL | ZYNQMP_CSUDMA_DST_CHANNEL.
#[export] Instance channel_eq_dec : EqDecision zynqmp_csudma_channel.
Proof. solve_decision. Defined.

Definition DCACHE_AREA_CLEAN : Z := 1.
Definition DCACHE_AREA_INVALIDATE : Z := 3.

Section Ops.
Context `{E : Env} `{MM : CoreMmu} {V : Type}.

Definition csudma_va : Z := core_mmu_get_va CSUDMA_BASE CSUDMA_SIZE.

(** [if (channel == ZYNQMP_CSUDMA_DST_CHANNEL) dma += CSUDMA_OFFSET_DIFF] *)
Definition channel_base (channel : zynqmp_csudma_channel) : Z :=
  match channel with
  | ZYNQMP_CSUDMA_SRC_CHANNEL => csudma_va
  | ZYNQMP_CSUDMA_DST_CHANNEL => csudma_va + CSUDMA_OFFSET_DIFF
  end.

Definition csudma_clear_intr (channel : zynqmp_csudma_channel) (mask : Z) : M V unit :=
  let val := match channel with
             | ZYNQMP_CSUDMA_DST_CHANNEL => CSUDMA_IXR_DST_MASK
             | ZYNQMP_CSUDMA_SRC_CHANNEL => CSUDMA_IXR_SRC_MASK
             end in
  io_write32 (channel_base channel + CSUDMA_I_STS_OFFSET) (val .& mask).

Definition zynqmp_csudma_sync (channel : zynqmp_csudma_channel) : M V Z :=
  tref <- timeout_init_us CSUDMA_DONE_TIMEOUT_USEC ;;
  if csudma_va =? 0 then ret TEE_ERROR_GENERIC
  else
    let dma := channel_base channel in
    r <- poll_until poll_bound tref (dma + CSUDMA_I_STS_OFFSET)
           (fun status => (status .& CSUDMA_IXR_DONE_MASK) =? CSUDMA_IXR_DONE_MASK) ;;
    match r with
    | Some _ =>
        _ <- io_read32 (dma + CSUDMA_CRC_OFFSET) ;;
        csudma_clear_intr channel CSUDMA_IXR_DONE_MASK ;;
        ret TEE_SUCCESS
    | None => ret TEE_ERROR_GENERIC
    end.

Definition zynqmp_csudma_prepare (channel : zynqmp_csudma_channel) : M V Z :=
  if csudma_va =? 0 then ret TEE_ERROR_GENERIC
  else
    io_setbits32 (channel_base channel + CSUDMA_CTRL_OFFSET) CSUDMA_CTRL_ENDIAN_MASK ;;
    ret TEE_SUCCESS.

Definition zynqmp_csudma_unprepare (channel : zynqmp_csudma_channel) : M V Z :=
  if csudma_va =? 0 then ret TEE_ERROR_GENERIC
  else
    io_clrbits32 (channel_base channel + CSUDMA_CTRL_OFFSET) CSUDMA_CTRL_ENDIAN_MASK ;;
    ret TEE_SUCCESS.

Definition zynqmp_csudma_transfer (channel : zynqmp_csudma_channel) (addr len notify : Z) : M V Z :=
  let phys := virt_to_phys addr in
  if csudma_va =? 0 then ret TEE_ERROR_GENERIC
  else if negb (len mod 4 =? 0) then ret TEE_ERROR_BAD_PARAMETERS
  else if negb (IS_ALIGNED phys ZYNQMP_CSUDMA_ALIGN) then ret TEE_ERROR_BAD_PARAMETERS
  else
    let dma := channel_base channel in
    let op := match channel with
              | ZYNQMP_CSUDMA_DST_CHANNEL => DCACHE_AREA_INVALIDATE
              | ZYNQMP_CSUDMA_SRC_CHANNEL => DCACHE_AREA_CLEAN
              end in
    _ <- ext_call "cache_op_inner" [op; addr; len] ;;
    io_write32 (dma + CSUDMA_CRC_OFFSET) 0 ;;
    io_write32 (dma + CSUDMA_ADDR_OFFSET) (phys .& CSUDMA_ADDR_MASK) ;;
    io_write32 (dma + CSUDMA_ADDR_MSB_OFFSET) (u32 (phys .>> CSUDMA_ADDR_MSB_SHIFT)) ;;
    io_write32 (dma + CSUDMA_SIZE_OFFSET) (len .| u8 notify) ;;
    ret TEE_SUCCESS.

(** ** Contracts *)

(** What a transfer that is accepted does, in order. *)
Definition transfer_trace (channel : zynqmp_csudma_channel) (addr len notify : Z)
    (tr : list event) : Prop :=
  let dma := channel_base channel in
  exists op c, tr =
    [EvCall "cache_op_inner" [op; addr; len] c;
     EvWr W32 (dma + CSUDMA_CRC_OFFSET) 0;
     EvWr W32 (dma + CSUDMA_ADDR_OFFSET) (u32 (virt_to_phys addr .& CSUDMA_ADDR_MASK));
     EvWr W32 (dma + CSUDMA_ADDR_MSB_OFFSET) (u32 (u32 (virt_to_phys addr .>> 32)));
     EvWr W32 (dma + CSUDMA_SIZE_OFFSET) (u32 (len .| u8 notify))].

Definition transfer_code (addr len : Z) : Z :=
  if csudma_va =? 0 then TEE_ERROR_GENERIC
  else if (len mod 4 =? 0) && IS_ALIGNED (virt_to_phys addr) ZYNQMP_CSUDMA_ALIGN then TEE_SUCCESS
  else TEE_ERROR_BAD_PARAMETERS.

Lemma transfer_yields P channel addr len notify :
  yields P (zynqmp_csudma_transfer channel addr len notify) (fun r tr v =>
    (r = transfer_code addr len /\
     if r =? TEE_SUCCESS then transfer_trace channel addr len notify tr else tr = []) /\ P v).
Proof.
  unfold zynqmp_csudma_transfer, transfer_code, io_write32.
  apply yields_if; intros H0.
  { apply yields_ret. by rewrite H0. }
  apply yields_if; intros Hl; [apply yields_ret; intros v Hv; rewrite H0; apply negb_true_iff in Hl;
    by rewrite Hl|]. apply negb_false_iff in Hl.
  apply yields_if; intros Ha; [apply yields_ret; intros v Hv; rewrite H0, Hl; apply negb_true_iff in Ha;
    by rewrite Ha|]. apply negb_false_iff in Ha.
  yield. apply yields_ret. intros v Hv. rewrite H0, Hl, Ha. split; [|done]. split; [done|].
  by eexists _, _.
Qed.

(** Which status of the interrupt register ends a wait. *)
Definition dma_done (status : Z) : bool :=
  (status .& CSUDMA_IXR_DONE_MASK) =? CSUDMA_IXR_DONE_MASK.

(** A wait that has seen the transfer done, and acknowledged it. *)
Definition sync_trace (channel : zynqmp_csudma_channel) (tr : list event) : Prop :=
  let dma := channel_base channel in
  exists t0 t1 z c val, Forall timer_read t0 /\
    poll_trace (dma + CSUDMA_I_STS_OFFSET) dma_done (Some z) t1 /\
    tr = t0 ++ t1 ++ [EvRd W32 (dma + CSUDMA_CRC_OFFSET) c; EvWr W32 (dma + CSUDMA_I_STS_OFFSET) val].

Lemma sync_yields P channel :
  yields P (zynqmp_csudma_sync channel) (fun r tr v =>
    (r = TEE_SUCCESS \/ r = TEE_ERROR_GENERIC) /\ (r = TEE_SUCCESS -> sync_trace channel tr) /\ P v).
Proof.
  unfold zynqmp_csudma_sync, csudma_clear_intr, io_read32, io_write32.
  eapply yields_seq; [apply timeout_init_yields|]. intros tref t0 Ht0.
  apply yields_if; intros H0; [apply yields_ret; intros v Hv; split; [by right|done]|].
  eapply yields_seq; [apply poll_until_yields|]. intros [z|] t1 Ht1.
  - yield. apply yields_ret. intros v Hv. split; [by left|]. split; [|done]. intros _.
    by eexists t0, t1, z, _, _.
  - apply yields_ret. intros v Hv. split; [by right|done].
Qed.

(** ** The jobs the source channel is given *)

Definition job_reg (a : Z) : bool :=
  (a =? csudma_va + CSUDMA_ADDR_OFFSET) || (a =? csudma_va + CSUDMA_ADDR_MSB_OFFSET) ||
  (a =? csudma_va + CSUDMA_SIZE_OFFSET).
Definition job_write (e : event) : option (Z * Z) :=
  match e with EvWr W32 a z => if job_reg a then Some (a, z) else None | _ => None end.
Definition jobs (tr : list event) : list (Z * Z) := omap job_write tr.

(** The register writes of one job: address, its upper part, and the size, which
    starts it. *)
Definition job (addr len notify : Z) : list (Z * Z) :=
  [(csudma_va + CSUDMA_ADDR_OFFSET, u32 (virt_to_phys addr .& CSUDMA_ADDR_MASK));
   (csudma_va + CSUDMA_ADDR_MSB_OFFSET, u32 (u32 (virt_to_phys addr .>> 32)));
   (csudma_va + CSUDMA_SIZE_OFFSET, u32 (len .| u8 notify))].

Lemma jobs_app t1 t2 : jobs (t1 ++ t2) = jobs t1 ++ jobs t2.
Proof. apply omap_app. Qed.

(** Events that are no job. *)
Definition no_job (e : event) : Prop := job_write e = None.

Lemma jobs_none tr : Forall no_job tr -> jobs tr = [].
Proof. induction 1 as [|e tr He _ IH]; [done|]. simpl. by rewrite He. Qed.

Lemma timer_no_job e : timer_read e -> no_job e.
Proof. by intros [[r ->]|[r ->]]. Qed.

Lemma read_no_job w a z : no_job (EvRd w a z).
Proof. done. Qed.

Lemma write_no_job a z : job_reg a = false -> no_job (EvWr W32 a z).
Proof. unfold no_job. simpl. by intros ->. Qed.

Lemma poll_trace_forall (F : event -> Prop) addr good r tr :
  (forall c, F (EvCall "read_cntpct" [] c)) -> (forall z, F (EvRd W32 addr z)) ->
  poll_trace addr good r tr -> Forall F tr.
Proof.
  intros Hc Hr (turns & c & Ht & Htr).
  assert (HF : Forall F (concat turns)).
  { clear Htr. induction Ht as [|t ts (c' & z & -> & _) _ IH]; simpl; [constructor|].
    constructor; [apply Hc|]. constructor; [apply Hr|done]. }
  destruct r as [z|]; [destruct Htr as [-> _]|rewrite Htr]; apply Forall_app; split; try done.
  - constructor; [apply Hc|]. constructor; [apply Hr|done].
  - constructor; [apply Hc|done].
Qed.

Lemma sync_jobs tr : sync_trace ZYNQMP_CSUDMA_SRC_CHANNEL tr -> jobs tr = [].
Proof.
  intros (t0 & t1 & z & c & val & H0 & H1 & ->). apply jobs_none. apply Forall_app. split.
  { eapply Forall_impl; [exact H0|apply timer_no_job]. }
  apply Forall_app. split; [by eapply poll_trace_forall|].
  apply Forall_cons_2; [done|]. apply Forall_cons_2; [|done]. apply write_no_job.
  unfold job_reg, channel_base, CSUDMA_I_STS_OFFSET, CSUDMA_ADDR_OFFSET, CSUDMA_ADDR_MSB_OFFSET,
    CSUDMA_SIZE_OFFSET. rewrite !(proj2 (Z.eqb_neq _ _)) by lia. done.
Qed.

Lemma transfer_jobs addr len notify tr :
  transfer_trace ZYNQMP_CSUDMA_SRC_CHANNEL addr len notify tr -> jobs tr = job addr len notify.
Proof.
  intros (op & c & ->). unfold jobs, job, job_write, job_reg, channel_base, CSUDMA_CRC_OFFSET,
    CSUDMA_ADDR_OFFSET, CSUDMA_ADDR_MSB_OFFSET, CSUDMA_SIZE_OFFSET. cbn [omap list_omap].
  rewrite (proj2 (Z.eqb_neq (csudma_va + 16) (csudma_va + 0))),
    (proj2 (Z.eqb_neq (csudma_va + 16) (csudma_va + 40))),
    (proj2 (Z.eqb_neq (csudma_va + 16) (csudma_va + 4))) by lia.
  rewrite !Z.eqb_refl, !orb_true_r. done.
Qed.

(** The address registers together hold the address, and the size register the
    size with the flag. *)
Lemma job_address addr : 0 <= virt_to_phys addr < 2 ^ 64 ->
  IS_ALIGNED (virt_to_phys addr) ZYNQMP_CSUDMA_ALIGN = true ->
  u32 (virt_to_phys addr .& CSUDMA_ADDR_MASK) + 2 ^ 32 * u32 (u32 (virt_to_phys addr .>> 32)) =
  virt_to_phys addr.
Proof.
  generalize (virt_to_phys addr). intros a Ha Hal. unfold IS_ALIGNED, ZYNQMP_CSUDMA_ALIGN in Hal.
  apply Z.eqb_eq in Hal. change (8 - 1) with (2 ^ 3 - 1) in Hal. rewrite land_low in Hal by lia.
  assert (Hm : a .& CSUDMA_ADDR_MASK = a mod 2 ^ 32).
  { rewrite <- (land_low a 32) by lia. apply Z.bits_inj'. intros i Hi. rewrite !Z.land_spec.
    destruct (decide (i < 2)) as [Hlt|].
    - assert (Z.testbit a i = false) as ->; [|done].
      rewrite <- (Z.mod_pow2_bits_low a 3) by lia. rewrite Hal. apply Z.bits_0.
    - f_equal. change CSUDMA_ADDR_MASK with (Z.ldiff (2 ^ 32 - 1) 3). rewrite Z.ldiff_spec.
      change 3 with (Z.ones 2). rewrite Z.ones_spec_high by lia. apply andb_true_r. }
  rewrite Hm, shiftr_div, u32_u32 by lia. unfold u32. rewrite Z.mod_mod by lia.
  rewrite (Z.mod_small (a / 2 ^ 32)).
  - pose proof (Z.div_mod a (2 ^ 32)). lia.
  - split; [apply Z.div_pos; lia|]. apply Z.div_lt_upper_bound; lia.
Qed.

(** ** The driver returns *)

Lemma transfer_calm ch addr len notify : calm (V := V) (zynqmp_csudma_transfer ch addr len notify).
Proof. unfold zynqmp_csudma_transfer, io_write32. calm_walk. Qed.

Lemma prepare_calm ch : calm (V := V) (zynqmp_csudma_prepare ch).
Proof. unfold zynqmp_csudma_prepare, io_setbits32, io_read32, io_write32. calm_walk. Qed.

Lemma unprepare_calm ch : calm (V := V) (zynqmp_csudma_unprepare ch).
Proof. unfold zynqmp_csudma_unprepare, io_clrbits32, io_read32, io_write32. calm_walk. Qed.

Lemma sync_calm ch :
  (forall d, ready_within poll_bound (channel_base ch + CSUDMA_I_STS_OFFSET) dma_done d) ->
  calm (V := V) (zynqmp_csudma_sync ch).
Proof.
  intros Hr. unfold zynqmp_csudma_sync, csudma_clear_intr, io_read32, io_write32. calm_walk.
  by apply calm_poll.
Qed.

(** ** Every event of the driver is one of its registers

    [F] allows calls, reads and the writes to the region. *)
Section Events.
Context (P : V -> Prop) (F : event -> Prop).
Hypothesis HFc : forall f args r, F (EvCall f args r).
Hypothesis HFr : forall w a z, F (EvRd w a z).
Hypothesis HFw : forall off z, 0 <= off < CSUDMA_SIZE -> F (EvWr W32 (csudma_va + off) z).

Lemma channel_write ch off z : 0 <= off < CSUDMA_OFFSET_DIFF -> F (EvWr W32 (channel_base ch + off) z).
Proof.
  intros Ho. unfold channel_base. destruct ch; rewrite <- ?Z.add_assoc; apply HFw;
    unfold CSUDMA_SIZE, CSUDMA_OFFSET_DIFF in *; lia.
Qed.

Lemma transfer_under ch addr len notify :
  respects (under P F) (zynqmp_csudma_transfer ch addr len notify).
Proof.
  unfold zynqmp_csudma_transfer, io_write32. under_walk; [apply HFc|..]; by apply channel_write.
Qed.

Lemma sync_under ch : respects (under P F) (zynqmp_csudma_sync ch).
Proof.
  unfold zynqmp_csudma_sync, csudma_clear_intr, io_read32, io_write32. under_walk.
  - apply timeout_init_respects; [apply _|]. intros f. apply under_call, HFc.
  - apply poll_until_respects; [apply _|..]; [intros f; apply under_call, HFc|apply under_read, HFr].
  - apply HFr.
  - by apply channel_write.
Qed.

Lemma prepare_under ch : respects (under P F) (zynqmp_csudma_prepare ch).
Proof.
  unfold zynqmp_csudma_prepare, io_setbits32, io_read32, io_write32.
  under_walk; [apply HFr|by apply channel_write].
Qed.

Lemma unprepare_under ch : respects (under P F) (zynqmp_csudma_unprepare ch).
Proof.
  unfold zynqmp_csudma_unprepare, io_clrbits32, io_read32, io_write32.
  under_walk; [apply HFr|by apply channel_write].
Qed.

End Events.

End Ops.

End Csudma.
