(* ===== verification/CsuSecure.v ===== *)
(** * Decryption of one block by the configuration security unit

    core/drivers/zynqmp_csu_secure.c with the register layout of
    core/include/drivers/zynqmp_csu.h.  A block is pushed through the AES engine
    by DMA: the initialisation vector, the data, the secure header of the next
    block and the GCM tag. *)

From S2P Require Import Prelude Machine Trace TeeCore Csudma.
From Stdlib Require Import String.
From stdpp Require Import strings sets.
Import TeeCore Csudma.
#[local] Open Scope Z_scope.
#[local] Open Scope c_scope.

Module CsuSecure.

(** zynqmp_csu.h *)
Definition ZYNQMP_CSU_SSS_CFG_OFFSET : Z := 0x08.
Definition AES_STATUS_OFFSET : Z := 0x00.
Definition AES_KEY_SRC_OFFSET : Z := 0x04.
Definition AES_KEY_LOAD_OFFSET : Z := 0x08.
Definition AES_START_MSG_OFFSET : Z := 0x0c.
Definition AES_RESET_OFFSET : Z := 0x10.
Definition AES_KEY_CLEAR_OFFSET : Z := 0x14.
Definition AES_CFG_OFFSET : Z := 0x18.
Definition AES_KUP_WR_OFFSET : Z := 0x1C.
Definition AES_KUP0_OFFSET : Z := 0x20.
Definition AES_IV0_OFFSET : Z := 0x40.
Definition AES_IV3_OFFSET : Z := 0x4C.
Definition AES_KUP_WR : Z := BIT 0.
Definition AES_IV_WR : Z := BIT 1.
Definition AES_BLK_TYPE_SECURE_HEADER : Z := 0.
Definition AES_BLK_TYPE_DATA_BLOCK : Z := 1.
Definition SECURE_HDR_SIZE : Z := 48.
Definition ZYNQMP_CSU_SSS_DMA_STREAM_TO_PCAP : Z := 0x05.
Definition ZYNQMP_CSU_SSS_DMA_STREAM_TO_AES_TO_PCAP : Z := 0x50A.
Definition ZYNQMP_CSU_AES_BASE : Z := CSU_BASE + 0x1000.
Definition ZYNQMP_CSU_AES_SIZE : Z := 0x1000.
Definition ZYNQMP_CSU_PCAP_BASE : Z := CSU_BASE + 0x3000.
Definition ZYNQMP_CSU_PCAP_SIZE : Z := 0x1000.

(** zynqmp_csu_secure.h, zynqmp_csu_secure.c *)
Definition ZYNQMP_GCM_TAG_SIZE : Z := 16.
Definition AES_STS_OFFSET : Z := 0x00.
Definition AES_STS_AES_BUSY : Z := BIT 0.
Definition AES_STS_GCM_TAG_OK : Z := BIT 3.
Definition AES_START_MSG : Z := 1.
Definition SECURE_PCAP_STS_OFFSET : Z := 0x10.
Definition SECURE_CSU_PCAP_STATUS_PCAP_WR_IDLE_MASK : Z := 1.
Definition AES_TIMEOUT_USEC : Z := 2000000.

Section Ops.
Context `{E : Env} `{MM : CoreMmu} {V : Type}.

Definition aes_va : Z := core_mmu_get_va ZYNQMP_CSU_AES_BASE ZYNQMP_CSU_AES_SIZE.
Definition pcap_va : Z := core_mmu_get_va ZYNQMP_CSU_PCAP_BASE ZYNQMP_CSU_PCAP_SIZE.

Definition aes_event (event : Z) (set : bool) (status : Z) : bool :=
  let status := status .& event in
  (set && (status =? event)) || (negb set && negb (status =? event)).

Definition aes_wait (event : Z) (set : bool) : M V Z :=
  tref <- timeout_init_us AES_TIMEOUT_USEC ;;
  if aes_va =? 0 then ret TEE_ERROR_GENERIC
  else
    r <- poll_until poll_bound tref (aes_va + AES_STS_OFFSET) (aes_event event set) ;;
    match r with Some _ => ret TEE_SUCCESS | None => ret TEE_ERROR_GENERIC end.

(** The label [out] of [aes_transfer_dec]. *)
Definition dec_out (r : Z) : M V Z :=
  _ <- zynqmp_csudma_unprepare ZYNQMP_CSUDMA_SRC_CHANNEL ;; ret r.

(** Transfer, then wait for it; a failure of either goes to [out]. *)
Definition push (addr len notify : Z) (next : M V Z) : M V Z :=
  r <- zynqmp_csudma_transfer ZYNQMP_CSUDMA_SRC_CHANNEL addr len notify ;;
  if truthy r then dec_out r
  else
    r <- zynqmp_csudma_sync ZYNQMP_CSUDMA_SRC_CHANNEL ;;
    if truthy r then dec_out r else next.

(** [while ((io_read32(pcap + STS) & WR_IDLE) != WR_IDLE);] *)
Definition pcap_spin : M V Z :=
  do_while poll_bound (io_read32 (pcap_va + SECURE_PCAP_STS_OFFSET)) (fun st =>
    negb ((st .& SECURE_CSU_PCAP_STATUS_PCAP_WR_IDLE_MASK) =?
          SECURE_CSU_PCAP_STATUS_PCAP_WR_IDLE_MASK)).

(** From the secure header on. *)
Definition dec_header_and_tag (src len tag : Z) : M V Z :=
  io_write32 (aes_va + AES_KUP_WR_OFFSET) (AES_IV_WR .| AES_KUP_WR) ;;
  push (src + len) SECURE_HDR_SIZE 1 (
    io_write32 (aes_va + AES_KUP_WR_OFFSET) 0 ;;
    push tag ZYNQMP_GCM_TAG_SIZE 0 (
      st <- io_read32 (aes_va + AES_STS_OFFSET) ;;
      let gcm_status := st .& AES_STS_GCM_TAG_OK in
      dec_out (if negb (truthy gcm_status) then TEE_ERROR_GENERIC else TEE_SUCCESS))).

Definition aes_transfer_dec (src len tag iv block_type : Z) : M V Z :=
  if aes_va =? 0 then ret TEE_ERROR_GENERIC
  else
    io_write32 (aes_va + AES_START_MSG_OFFSET) AES_START_MSG ;;
    push iv ZYNQMP_CSUDMA_MIN_SIZE 0 (
      r <- zynqmp_csudma_prepare ZYNQMP_CSUDMA_SRC_CHANNEL ;;
      if truthy r then ret r
      else if negb (block_type =? AES_BLK_TYPE_SECURE_HEADER) then
        push src len 0 (
          _ <- pcap_spin ;;
          dec_header_and_tag src len tag)
      else dec_header_and_tag src len tag).

Definition zynqmp_csu_aes_decrypt_data (src src_len tag iv block_type : Z) : M V Z :=
  if (src =? 0) || (tag =? 0) || (iv =? 0) then ret TEE_ERROR_BAD_PARAMETERS
  else
    r <- aes_transfer_dec src src_len tag iv block_type ;;
    if truthy r then ret r
    else aes_wait AES_STS_AES_BUSY false.

(** ** The decryption returns when the devices answer *)

Definition pcap_busy (st : Z) : bool :=
  negb ((st .& SECURE_CSU_PCAP_STATUS_PCAP_WR_IDLE_MASK) =? SECURE_CSU_PCAP_STATUS_PCAP_WR_IDLE_MASK).

Section Total.
Hypothesis Hdma : forall d, ready_within poll_bound (csudma_va + CSUDMA_I_STS_OFFSET) dma_done d.
Hypothesis Haes : forall d, ready_within poll_bound (aes_va + AES_STS_OFFSET)
  (aes_event AES_STS_AES_BUSY false) d.
Hypothesis Hspin : forall d, stops_within poll_bound (pcap_va + SECURE_PCAP_STS_OFFSET) pcap_busy d.

Lemma push_calm addr len notify next : calm next -> calm (V := V) (push addr len notify next).
Proof.
  intros Hn. unfold push, dec_out. calm_walk; try apply unprepare_calm; try apply transfer_calm; try done.
  by apply sync_calm.
Qed.

Lemma header_and_tag_calm src len tag : calm (V := V) (dec_header_and_tag src len tag).
Proof.
  unfold dec_header_and_tag, io_write32, io_read32. calm_walk. apply push_calm. calm_walk.
  apply push_calm. unfold dec_out. calm_walk. apply unprepare_calm.
Qed.

Lemma decrypt_calm src len tag iv block_type :
  calm (V := V) (zynqmp_csu_aes_decrypt_data src len tag iv block_type).
Proof.
  unfold zynqmp_csu_aes_decrypt_data, aes_transfer_dec, aes_wait, io_write32. calm_walk.
  - apply push_calm. calm_walk; [apply prepare_calm| |apply header_and_tag_calm].
    apply push_calm. calm_walk; [by apply calm_do_while|apply header_and_tag_calm].
  - by apply calm_poll.
Qed.

End Total.

(** ** Every event is one of the engine or of the channel *)

Section Events.
Context (P : V -> Prop) (F : event -> Prop).
Hypothesis HFc : forall f args r, F (EvCall f args r).
Hypothesis HFr : forall w a z, F (EvRd w a z).
Hypothesis HFw : forall off z, 0 <= off < CSUDMA_SIZE -> F (EvWr W32 (csudma_va + off) z).
Hypothesis HFa : forall off z, 0 <= off < ZYNQMP_CSU_AES_SIZE -> F (EvWr W32 (aes_va + off) z).

Lemma dec_out_under r : respects (under P F) (dec_out r).
Proof. unfold dec_out. under_walk. by apply unprepare_under. Qed.

Lemma push_under addr len notify next :
  respects (under P F) next -> respects (under P F) (push addr len notify next).
Proof.
  intros Hn. unfold push. under_walk; try apply dec_out_under; try done.
  - by apply transfer_under.
  - by apply sync_under.
Qed.

Lemma header_and_tag_under src len tag : respects (under P F) (dec_header_and_tag src len tag).
Proof.
  unfold dec_header_and_tag, io_write32, io_read32. under_walk; [by apply HFa|].
  apply push_under. under_walk; [by apply HFa|]. apply push_under. under_walk; [apply HFr|].
  apply dec_out_under.
Qed.

Lemma aes_wait_under ev set : respects (under P F) (aes_wait ev set).
Proof.
  unfold aes_wait. under_walk.
  - apply timeout_init_respects; [apply _|]. intros f. apply under_call, HFc.
  - apply poll_until_respects; [apply _|..]; [intros f; apply under_call, HFc|apply under_read, HFr].
Qed.

Lemma decrypt_under src len tag iv block_type :
  respects (under P F) (zynqmp_csu_aes_decrypt_data src len tag iv block_type).
Proof.
  unfold zynqmp_csu_aes_decrypt_data, aes_transfer_dec, io_write32. under_walk.
  - by apply HFa.
  - apply push_under. under_walk.
    + by apply prepare_under.
    + apply push_under. under_walk; [|apply header_and_tag_under].
      apply respects_do_while; [apply _|]. apply under_read, HFr.
    + apply header_and_tag_under.
  - apply aes_wait_under.
Qed.

End Events.

(** ** What a successful decryption has done *)

Hypothesis (Hmap : io_mapped).

Lemma csu_apart_dma o1 o2 : 0 <= o1 < CSU_SIZE -> 0 <= o2 < CSUDMA_SIZE ->
  core_mmu_get_va CSU_BASE CSU_SIZE + o1 <> csudma_va + o2.
Proof.
  intros H1 H2. apply (io_apart Hmap (CSU_BASE, CSU_SIZE) (CSUDMA_BASE, CSUDMA_SIZE)); try done.
  - unfold io_regions. set_solver.
  - unfold io_regions. set_solver.
Qed.

Lemma csu_not_job off : 0 <= off < CSU_SIZE ->
  job_reg (core_mmu_get_va CSU_BASE CSU_SIZE + off) = false.
Proof.
  intros Ho. unfold job_reg, CSUDMA_ADDR_OFFSET, CSUDMA_ADDR_MSB_OFFSET, CSUDMA_SIZE_OFFSET.
  rewrite !(proj2 (Z.eqb_neq _ _)); [done|..]; apply csu_apart_dma; unfold CSUDMA_SIZE; lia.
Qed.

Lemma aes_not_job off : 0 <= off < ZYNQMP_CSU_AES_SIZE -> job_reg (aes_va + off) = false.
Proof.
  intros Ho. unfold aes_va, ZYNQMP_CSU_AES_BASE. unfold ZYNQMP_CSU_AES_SIZE in *.
  rewrite (proj1 (io_csu Hmap 0x1000 0x1000 ltac:(lia) ltac:(lia) ltac:(done))).
  rewrite <- Z.add_assoc. apply csu_not_job. unfold CSU_SIZE. lia.
Qed.

Lemma aes_write_no_job off z : 0 <= off < ZYNQMP_CSU_AES_SIZE -> no_job (EvWr W32 (aes_va + off) z).
Proof. intros Ho. by apply write_no_job, aes_not_job. Qed.

Lemma ctrl_no_job z : no_job (EvWr W32 (csudma_va + CSUDMA_CTRL_OFFSET) z).
Proof.
  apply write_no_job. unfold job_reg, CSUDMA_CTRL_OFFSET, CSUDMA_ADDR_OFFSET,
    CSUDMA_ADDR_MSB_OFFSET, CSUDMA_SIZE_OFFSET. by rewrite !(proj2 (Z.eqb_neq _ _)) by lia.
Qed.

(** Calls that give the engine no job. *)
Lemma unprepare_yields (P : V -> Prop) :
  yields P (zynqmp_csudma_unprepare ZYNQMP_CSUDMA_SRC_CHANNEL) (fun _ tr v => Forall no_job tr /\ P v).
Proof.
  unfold zynqmp_csudma_unprepare, io_clrbits32, io_read32, io_write32.
  apply yields_if; intros H0; [by apply yields_ret|]. yield. apply yields_ret. intros v Hv.
  split; [|done]. constructor; [done|]. constructor; [apply ctrl_no_job|done].
Qed.

Lemma prepare_yields (P : V -> Prop) :
  yields P (zynqmp_csudma_prepare ZYNQMP_CSUDMA_SRC_CHANNEL) (fun _ tr v => Forall no_job tr /\ P v).
Proof.
  unfold zynqmp_csudma_prepare, io_setbits32, io_read32, io_write32.
  apply yields_if; intros H0; [by apply yields_ret|]. yield. apply yields_ret. intros v Hv.
  split; [|done]. constructor; [done|]. constructor; [apply ctrl_no_job|done].
Qed.

Lemma dec_out_yields (P : V -> Prop) r0 :
  yields P (dec_out r0) (fun r tr v => (r = r0 /\ jobs tr = []) /\ P v).
Proof.
  eapply yields_seq; [apply unprepare_yields|]. intros r tr Htr. apply yields_ret. intros v Hv.
  rewrite app_nil_r. split; [|done]. split; [done|by apply jobs_none].
Qed.

(** If [push] succeeds, its job was given first and what follows succeeded. *)
Lemma push_yields (P : V -> Prop) addr len notify next (R : list event -> Prop) :
  yields P next (fun r tr v => (r = TEE_SUCCESS -> R tr) /\ P v) ->
  yields P (push addr len notify next) (fun r tr v =>
    (r = TEE_SUCCESS -> exists t1 t2, tr = t1 ++ t2 /\ jobs t1 = job addr len notify /\ R t2) /\ P v).
Proof.
  intros Hn. unfold push.
  eapply yields_seq; [apply transfer_yields|].
  intros r t1 [_ Ht1]. apply yields_if; intros Hr.
  { eapply yields_conseq; [apply dec_out_yields|done|]. intros r' tr v [[-> _] Hv]. split; [|done].
    intros ->. done. }
  apply negb_false_iff in Hr. unfold TEE_SUCCESS in Ht1. rewrite Hr in Ht1.
  eapply yields_seq with (R := fun r tr => r = TEE_SUCCESS -> sync_trace ZYNQMP_CSUDMA_SRC_CHANNEL tr).
  { eapply yields_conseq; [apply sync_yields|done|]. by intros r' tr v (_ & Hs & Hv). }
  intros r' t2 Ht2. apply yields_if; intros Hr'.
  { eapply yields_conseq; [apply dec_out_yields|done|]. intros r'' tr v [[-> _] Hv]. split; [|done].
    intros ->. done. }
  apply negb_false_iff, Z.eqb_eq in Hr'. specialize (Ht2 Hr').
  eapply yields_conseq; [exact Hn|done|]. intros a tr v [Ha Hv]. split; [|done]. intros Hs.
  exists (t1 ++ t2), tr. rewrite (assoc_L (++)). split; [done|]. split; [|by apply Ha].
  by rewrite jobs_app, (transfer_jobs _ _ _ _ Ht1), (sync_jobs _ Ht2), app_nil_r.
Qed.

(** The tag check: the status register is read after all jobs. *)
Definition tag_read (js : list (Z * Z)) (tr : list event) : Prop :=
  exists t1 z t2, tr = t1 ++ EvRd W32 (aes_va + AES_STS_OFFSET) z :: t2 /\
    jobs t1 = js /\ jobs t2 = [] /\ Z.testbit z 3 = true.

Lemma tag_read_cons js t0 tr : tag_read js tr -> tag_read (jobs t0 ++ js) (t0 ++ tr).
Proof.
  intros (t1 & z & t2 & -> & <- & H2 & Hz). exists (t0 ++ t1), z, t2.
  by rewrite <- (assoc_L (++)), jobs_app.
Qed.

Lemma tag_read_after off z js ja t1 t2 : 0 <= off < ZYNQMP_CSU_AES_SIZE ->
  jobs t1 = ja -> tag_read js t2 ->
  tag_read (ja ++ js) (EvWr W32 (aes_va + off) z :: t1 ++ t2).
Proof.
  intros Ho <- Ht. apply (tag_read_cons js (EvWr W32 (aes_va + off) z :: t1)) in Ht.
  change (EvWr W32 (aes_va + off) z :: t1) with ([EvWr W32 (aes_va + off) z] ++ t1) in Ht.
  rewrite jobs_app, (jobs_none [_]) in Ht; [done|]. constructor; [by apply aes_write_no_job|done].
Qed.

Lemma header_and_tag_yields (P : V -> Prop) src len tag :
  yields P (dec_header_and_tag src len tag) (fun r tr v =>
    (r = TEE_SUCCESS -> tag_read (job (src + len) SECURE_HDR_SIZE 1 ++ job tag ZYNQMP_GCM_TAG_SIZE 0) tr)
    /\ P v).
Proof.
  unfold dec_header_and_tag, io_read32, io_write32. yield.
  eapply yields_conseq;
    [apply push_yields with (R := tag_read (job tag ZYNQMP_GCM_TAG_SIZE 0))|done|].
  - yield. eapply yields_conseq; [apply push_yields with (R := tag_read [])|done|].
    + yield. eapply yields_conseq; [apply dec_out_yields|done|]. intros r tr v [[-> Hj] Hv].
      split; [|done]. intros Hz. exists [], z, tr. split; [done|]. split; [done|]. split; [done|].
      rewrite <- (land_bit z 3) by lia. by destruct (truthy _).
    + intros r tr v [Hr Hv]. split; [|done]. intros Hs. destruct (Hr Hs) as (t1 & t2 & -> & Hj & Ht).
      rewrite <- (app_nil_r (job tag _ _)). by apply tag_read_after.
  - intros r tr v [Hr Hv]. split; [|done]. intros Hs. destruct (Hr Hs) as (t1 & t2 & -> & Hj & Ht).
    by apply tag_read_after.
Qed.

(** The jobs of a block: the vector, the data unless it is the header block, the
    next secure header (the last word of a message), the tag. *)
Definition block_jobs (src len tag iv block_type : Z) : list (Z * Z) :=
  job iv ZYNQMP_CSUDMA_MIN_SIZE 0 ++
  (if block_type =? AES_BLK_TYPE_SECURE_HEADER then [] else job src len 0) ++
  job (src + len) SECURE_HDR_SIZE 1 ++ job tag ZYNQMP_GCM_TAG_SIZE 0.

Lemma spin_jobs (P : V -> Prop) :
  yields P pcap_spin (fun _ tr v => jobs tr = [] /\ P v).
Proof.
  eapply yields_conseq; [apply yields_do_while|done|]. intros z tr v (HP & _ & zs & -> & _).
  split; [|done]. apply jobs_none. apply Forall_app. split; [|by repeat constructor].
  apply Forall_map, Forall_true. done.
Qed.

Lemma transfer_dec_yields (P : V -> Prop) src len tag iv block_type :
  yields P (aes_transfer_dec src len tag iv block_type) (fun r tr v =>
    (r = TEE_SUCCESS -> tag_read (block_jobs src len tag iv block_type) tr) /\ P v).
Proof.
  unfold aes_transfer_dec, io_write32, block_jobs.
  set (rest := job (src + len) SECURE_HDR_SIZE 1 ++ job tag ZYNQMP_GCM_TAG_SIZE 0).
  apply yields_if; intros H0; [by apply yields_ret|]. yield.
  eapply yields_conseq; [apply push_yields with
    (R := tag_read ((if block_type =? AES_BLK_TYPE_SECURE_HEADER then [] else job src len 0) ++ rest))|done|].
  - eapply yields_seq; [apply prepare_yields|]. intros r t0 Ht0. apply jobs_none in Ht0.
    apply yields_if; intros Hr; [apply yields_ret; intros v Hv; split; [|done]; by intros ->|].
    apply yields_if; intros Hb.
    + apply negb_true_iff in Hb. rewrite Hb.
      eapply yields_conseq; [apply push_yields with (R := tag_read rest)|done|].
      * eapply yields_seq; [apply spin_jobs|]. intros y t1 Ht1.
        eapply yields_conseq; [apply header_and_tag_yields|done|]. intros a tr v [Ha Hv].
        split; [|done]. intros Hs. rewrite <- (app_nil_l rest), <- Ht1. by apply tag_read_cons, Ha.
      * intros a tr v [Ha Hv]. split; [|done]. intros Hs. destruct (Ha Hs) as (t1 & t2 & -> & Hj & Ht).
        rewrite <- Hj. rewrite <- (app_nil_l (jobs t1 ++ rest)), <- Ht0. by do 2 apply tag_read_cons.
    + apply negb_false_iff in Hb. rewrite Hb.
      eapply yields_conseq; [apply header_and_tag_yields|done|]. intros a tr v [Ha Hv].
      split; [|done]. intros Hs. rewrite <- Ht0. by apply tag_read_cons, Ha.
  - intros r tr v [Hr Hv]. split; [|done]. intros Hs. destruct (Hr Hs) as (t1 & t2 & -> & Hj & Ht).
    by apply tag_read_after.
Qed.

(** The engine is idle at the end. *)
Lemma aes_wait_yields (P : V -> Prop) :
  yields P (aes_wait AES_STS_AES_BUSY false) (fun r tr v =>
    (r = TEE_SUCCESS -> exists t w, tr = t ++ [EvRd W32 (aes_va + AES_STS_OFFSET) w] /\
       jobs t = [] /\ Z.testbit w 0 = false) /\ P v).
Proof.
  unfold aes_wait. eapply yields_seq; [apply timeout_init_yields|]. intros tref t0 Ht0.
  apply yields_if; intros H0; [by apply yields_ret|].
  eapply yields_seq; [apply poll_until_yields|]. intros [z|] t1 Ht1; [|by apply yields_ret].
  apply yields_ret. intros v Hv. split; [|done]. intros _.
  destruct Ht1 as (turns & c & Ht & -> & Hz).
  exists (t0 ++ concat turns ++ [EvCall "read_cntpct" [] c]), z. split.
  { by rewrite app_nil_r, <- !(assoc_L (++)). }
  split.
  - apply jobs_none. apply Forall_app. split.
    { eapply Forall_impl; [exact Ht0|apply timer_no_job]. }
    apply (poll_trace_forall no_job (aes_va + AES_STS_OFFSET) (aes_event AES_STS_AES_BUSY false) None);
      [done|done|]. by exists turns, c.
  - unfold aes_event in Hz. simpl in Hz. apply negb_true_iff in Hz.
    destruct (Z.testbit z 0) eqn:Hb; [|done]. exfalso. apply Z.eqb_neq in Hz. apply Hz.
    unfold AES_STS_AES_BUSY. change (BIT 0) with (Z.ones 1). rewrite Z.land_ones by lia.
    rewrite <- Z.bit0_mod, Hb. done.
Qed.

(** A block that was decrypted and authenticated. *)
Definition block_ok (src len tag iv block_type : Z) (tr : list event) : Prop :=
  exists t1 z t2 w,
    tr = t1 ++ EvRd W32 (aes_va + AES_STS_OFFSET) z :: t2 ++ [EvRd W32 (aes_va + AES_STS_OFFSET) w] /\
    jobs t1 = block_jobs src len tag iv block_type /\ jobs t2 = [] /\
    Z.testbit z 3 = true /\ Z.testbit w 0 = false.

Lemma decrypt_yields (P : V -> Prop) src len tag iv block_type :
  yields P (zynqmp_csu_aes_decrypt_data src len tag iv block_type) (fun r tr v =>
    (r = TEE_SUCCESS -> block_ok src len tag iv block_type tr) /\ P v).
Proof.
  unfold zynqmp_csu_aes_decrypt_data. apply yields_if; intros H0; [by apply yields_ret|].
  eapply yields_seq; [apply transfer_dec_yields|]. intros r t0 Ht0.
  apply yields_if; intros Hr; [apply yields_ret; intros v Hv; split; [|done]; by intros ->|].
  apply negb_false_iff, Z.eqb_eq in Hr. specialize (Ht0 Hr).
  eapply yields_conseq; [apply aes_wait_yields|done|]. intros a tr v [Ha Hv]. split; [|done].
  intros Hs. destruct (Ha Hs) as (t & w & -> & Hj & Hw). destruct Ht0 as (t1 & z & t2 & -> & Hj1 & Hj2 & Hz).
  exists t1, z, (t2 ++ t), w. rewrite <- !(assoc_L (++)). simpl. rewrite jobs_app, Hj2, Hj.
  done.
Qed.

End Ops.

End CsuSecure.
