(* ===== verification/CsuPcap.v ===== *)
(** * Loading a bitstream through the configuration port

    core/drivers/zynqmp_csu_pcap.c: validation of a bitstream image, set-up of
    the processor configuration access port (PCAP) and the two ways to write an
    image, encrypted and plain.  A pointer into the image is a virtual address;
    the driver reads the image's header fields through [buffer], and leaving it
    is [OutOfBounds].  [bs_iv] is a pointer too: to the static [iv_arr], or to a
    register of the AES engine.  The constant SW_BYTE_SWAP is 0: the branch it
    selects in [validateBitstream] is the one modelled. *)

From S2P Require Import Prelude Machine Trace TeeCore Csudma CsuSecure.
From Stdlib Require Import String.
From stdpp Require Import strings sets.
Import TeeCore Csudma CsuSecure.
#[local] Open Scope Z_scope.
#[local] Open Scope c_scope.

Module CsuPcap.

Definition PCAP_CLK_CTRL_OFFSET : Z := 0xA4.
Definition PCAP_CLK_EN_MASK : Z := 0x01000000.
Definition AUTHCERT_HEADER_OFFSET : Z := 0x98.
Definition AUTHCERT_OFFSET : Z := 0x10.
Definition SECURE_SYNC_WORD_OFFSET : Z := 0x20.
Definition KEY_SOURCE_OFFSET : Z := 0x28.
Definition IV_OFFSET : Z := 0xA0.
Definition IV_LEN : Z := 0x0C.
Definition HEADER_TABLE_OFFSET : Z := 0x9c.
Definition SECURE_WORD_LEN : Z := 4.
Definition SECURE_KEY_LEN : Z := 8.
Definition SECURE_RESET_SET : Z := 1.
Definition SECURE_RESET_UNSET : Z := 0.
Definition KEY_SRC_KUP : Z := 0xA3A5C3C5.
Definition AES_CFG_DEC : Z := 0.
Definition AES_KEY_SRC_KUP : Z := 0.
Definition AES_KEY_LOAD : Z := 1.
Definition AES_STS_KEY_INIT_DONE : Z := BIT 4.
Definition SECURE_AES_DISABLE_KEY_CLEAR : Z := 0.
Definition PCAP_RDWR_OFFSET : Z := 0x04.
Definition PCAP_CTRL_OFFSET : Z := 0x08.
Definition PCAP_RESET_OFFSET : Z := 0x0c.
Definition PCAP_STS_OFFSET : Z := 0x10.
Definition PCAP_RESET_MASK : Z := BIT 0.
Definition PCAP_STS_PL_GPWRDWN_B_MASK : Z := BIT 9.
Definition PCAP_STS_PL_DONE_MASK : Z := BIT 3.
Definition PCAP_STS_PL_INIT_MASK : Z := BIT 2.
Definition PCAP_STS_WR_IDLE_MASK : Z := BIT 0.
Definition PCAP_WRITE : Z := 0.
Definition PCAP_MODE : Z := 1.
Definition DUMMY_BYTE : Z := 0xFF.
Definition SYNC_BYTE_POSITION : Z := 64.
Definition VIVADO_BIT_HEADER : Z := 0x100.
Definition TIMEOUT_USEC : Z := 3000000.

Definition SecureBootgenBinFormat : list Z := [0x66; 0x55; 0x99; 0xAA; 0x58; 0x4E; 0x4C; 0x58].
Definition VivadoBinFormat : list Z :=
  [0x00; 0x00; 0x00; 0xBB; 0x11; 0x22; 0x00; 0x44; 0xFF; 0xFF; 0xFF; 0xFF;
   0xFF; 0xFF; 0xFF; 0xFF; 0xAA; 0x99; 0x55; 0x66].
Definition BootgenBinFormat : list Z :=
  [0xBB; 0x00; 0x00; 0x00; 0x44; 0x00; 0x22; 0x11; 0xFF; 0xFF; 0xFF; 0xFF;
   0xFF; 0xFF; 0xFF; 0xFF; 0x66; 0x55; 0x99; 0xAA].
Definition AesKupKey : list Z :=
  [0xAD00C023; 0xE238AC90; 0x39EA984D; 0x49AA8C81; 0x9456A98C; 0x124AE890; 0xACEF0021; 0x00128932].

(** The static variables of the file, and the two of [validateSecureBitstream]. *)
Record pcap_vars := PcapVars {
  pcap : Z;
  csu : Z;
  aes : Z;
  crl_apb : Z;
  bs_iv : Z;
  bs_keysrc : Z;
  iv_arr : list Z   (* the 16 bytes of uint32_t iv_arr[4] *)
}.

Definition bss : pcap_vars := PcapVars 0 0 0 0 0 0 (repeat 0 16).
Definition set_maps (p c a k : Z) (v : pcap_vars) : pcap_vars :=
  PcapVars p c a k (bs_iv v) (bs_keysrc v) (iv_arr v).
Definition set_bs_iv (p : Z) (v : pcap_vars) : pcap_vars :=
  PcapVars (pcap v) (csu v) (aes v) (crl_apb v) p (bs_keysrc v) (iv_arr v).
Definition set_bs_keysrc (k : Z) (v : pcap_vars) : pcap_vars :=
  PcapVars (pcap v) (csu v) (aes v) (crl_apb v) (bs_iv v) k (iv_arr v).
Definition set_iv_arr (l : list Z) (v : pcap_vars) : pcap_vars :=
  PcapVars (pcap v) (csu v) (aes v) (crl_apb v) (bs_iv v) (bs_keysrc v) l.

Definition driver_maps (v : pcap_vars) : Z * Z * Z * Z := (pcap v, csu v, aes v, crl_apb v).

Definition endian_swap (word : Z) : Z :=
  if word =? 0 then word
  else (word .>> 24) .| ((word .>> 8) .& 0x0000FF00) .| ((word .<< 8) .& 0x00FF0000) .| (word .<< 24).

(** How the loop over the blocks ends: a [return], or the [break]. *)
Inductive loop_exit := Returned (r : Z) | Broke (r : Z).

Section Ops.
Context `{E : Env} `{MM : CoreMmu} {V : Type} `{HV : !Has pcap_vars V}.

Definition event_seen (mask val status : Z) : bool := (status .& mask) =? val.

Definition waitForEvent (addr mask val timeout : Z) : M V Z :=
  tref <- timeout_init_us timeout ;;
  r <- poll_until poll_bound tref addr (event_seen mask val) ;;
  match r with Some _ => ret TEE_SUCCESS | None => ret TEE_ERROR_BUSY end.

Definition pcap_waitForDone : M V Z :=
  p <- gets pcap ;;
  if p =? 0 then ret TEE_ERROR_GENERIC
  else waitForEvent (p + PCAP_STS_OFFSET) PCAP_STS_WR_IDLE_MASK PCAP_STS_WR_IDLE_MASK TIMEOUT_USEC.

(** [io_write32(pcap + PCAP_RESET_OFFSET, ...)], set and cleared. *)
Definition pcap_reset (p : Z) : M V unit :=
  io_write32 (p + PCAP_RESET_OFFSET) PCAP_RESET_MASK ;;
  io_write32 (p + PCAP_RESET_OFFSET) 0.

Definition pcap_waitForPLDone : M V Z :=
  p <- gets pcap ;;
  if p =? 0 then ret TEE_ERROR_GENERIC
  else
    r <- waitForEvent (p + PCAP_STS_OFFSET) PCAP_STS_PL_DONE_MASK PCAP_STS_PL_DONE_MASK TIMEOUT_USEC ;;
    if negb (r =? TEE_SUCCESS) then ret r
    else
      pcap_reset p ;;
      ret TEE_SUCCESS.

Definition validateSecureBitstream (buf : buffer) : M V Z :=
  sync <- buf_slice buf SECURE_SYNC_WORD_OFFSET 8 ;;
  if negb (bool_decide (sync = SecureBootgenBinFormat)) then ret TEE_ERROR_BAD_FORMAT
  else
    AuthHdr_offset <- buf_read32 buf AUTHCERT_HEADER_OFFSET ;;
    AuthCert_offset <- buf_read32 buf (AuthHdr_offset + AUTHCERT_OFFSET) ;;
    if negb (AuthCert_offset =? 0) then ret TEE_ERROR_BAD_FORMAT
    else
      k <- buf_read32 buf KEY_SOURCE_OFFSET ;;
      mods (set_bs_keysrc k) ;;
      if negb (k =? KEY_SRC_KUP) then ret TEE_ERROR_BAD_FORMAT
      else
        iv <- buf_slice buf IV_OFFSET IV_LEN ;;
        mods (fun v => set_iv_arr (iv ++ drop (Z.to_nat IV_LEN) (iv_arr v)) v) ;;
        mods (set_bs_iv (addr_of "iv_arr")) ;;
        ret TEE_SUCCESS.

(** The search for the first dummy byte that a known header follows: [index] at
    the [break], and the result of setting up the channel. *)
Fixpoint find_header (n : nat) (index : Z) (buf : buffer) : M V (Z * Z) :=
  match n with
  | O => ret (index, TEE_ERROR_BAD_FORMAT)
  | S n' =>
      b <- buf_slice buf index 1 ;;
      if bool_decide (b = [DUMMY_BYTE]) then
        hdr <- buf_slice buf (index + SYNC_BYTE_POSITION) 20 ;;
        if bool_decide (hdr = BootgenBinFormat) then
          r <- zynqmp_csudma_unprepare ZYNQMP_CSUDMA_SRC_CHANNEL ;; ret (index, r)
        else if bool_decide (hdr = VivadoBinFormat) then
          r <- zynqmp_csudma_prepare ZYNQMP_CSUDMA_SRC_CHANNEL ;; ret (index, r)
        else find_header n' (index + 1) buf
      else find_header n' (index + 1) buf
  end.

(** The status, the image and its length after the call. *)
Definition validateBitstream (buf : buffer) (len : Z) : M V (Z * buffer * Z) :=
  if len <? SYNC_BYTE_POSITION + 20 then ret (TEE_ERROR_BAD_PARAMETERS, buf, len)
  else
    r <- find_header (Z.to_nat (VIVADO_BIT_HEADER + 1)) 0 buf ;;
    if (r.2 =? TEE_SUCCESS) && negb (r.1 =? 0) then
      body <- buf_slice buf r.1 (len - r.1) ;;
      let moved := body ++ drop (Z.to_nat (len - r.1)) (buf_bytes buf) in
      ret (r.2, Buffer (buf_va buf) moved, len - r.1)
    else ret (r.2, buf, len).

Definition zynqmp_csu_pcap_init : M V Z :=
  c <- gets crl_apb ;;
  RegVal <- io_read32 (c + PCAP_CLK_CTRL_OFFSET) ;;
  io_write32 (c + PCAP_CLK_CTRL_OFFSET) (RegVal .| PCAP_CLK_EN_MASK) ;;
  p <- gets pcap ;;
  if p =? 0 then ret TEE_ERROR_GENERIC
  else
    status <- io_read32 (p + PCAP_STS_OFFSET) ;;
    if (status .& PCAP_STS_PL_GPWRDWN_B_MASK) =? 0 then ret TEE_ERROR_BAD_STATE
    else
      pcap_reset p ;;
      io_write32 (p + PCAP_CTRL_OFFSET) PCAP_MODE ;;
      io_write32 (p + PCAP_RDWR_OFFSET) PCAP_WRITE ;;
      waitForEvent (p + PCAP_STS_OFFSET) PCAP_STS_PL_INIT_MASK PCAP_STS_PL_INIT_MASK TIMEOUT_USEC.

(** The do-while loop of [zynqmp_csu_secure_pcap_write], unfolded [n] times. *)
Fixpoint secure_blocks (n : nat) (a UnEncDataLen EncStartAddr TagAddr NextBlkLen CurrentImgLen
    BlockType : Z) : M V loop_exit :=
  match n with
  | O => stop StillPolling
  | S n' =>
      iv <- gets bs_iv ;;
      r <- zynqmp_csu_aes_decrypt_data EncStartAddr NextBlkLen TagAddr iv BlockType ;;
      w <- io_read32 (a + AES_IV3_OFFSET) ;;
      let NextBlkLen := u32 (endian_swap w * 4) in
      let CurrentImgLen := u32 (CurrentImgLen + NextBlkLen) in
      if NextBlkLen =? 0 then
        if negb (CurrentImgLen =? UnEncDataLen) then ret (Returned TEE_ERROR_GENERIC)
        else ret (Broke r)
      else if CurrentImgLen >? UnEncDataLen then ret (Returned TEE_ERROR_GENERIC)
      else
        io_write32 (a + AES_KEY_LOAD_OFFSET) AES_KEY_LOAD ;;
        r <- waitForEvent (a + AES_STATUS_OFFSET) AES_STS_KEY_INIT_DONE AES_STS_KEY_INIT_DONE
               TIMEOUT_USEC ;;
        if negb (r =? TEE_SUCCESS) then ret (Returned TEE_ERROR_GENERIC)
        else
          let EncStartAddr := TagAddr + ZYNQMP_GCM_TAG_SIZE in
          mods (set_bs_iv (a + AES_IV0_OFFSET)) ;;
          secure_blocks n' a UnEncDataLen EncStartAddr (EncStartAddr + NextBlkLen + SECURE_HDR_SIZE)
            NextBlkLen CurrentImgLen AES_BLK_TYPE_DATA_BLOCK
  end.

(** Stream switch, AES engine and key, up to the first block. *)
Definition secure_setup (c a : Z) : M V unit :=
  io_write32 (c + ZYNQMP_CSU_SSS_CFG_OFFSET) ZYNQMP_CSU_SSS_DMA_STREAM_TO_AES_TO_PCAP ;;
  io_write32 (a + AES_CFG_OFFSET) AES_CFG_DEC ;;
  io_write32 (a + AES_RESET_OFFSET) SECURE_RESET_SET ;;
  io_write32 (a + AES_RESET_OFFSET) SECURE_RESET_UNSET ;;
  io_write32 (a + AES_KEY_CLEAR_OFFSET) SECURE_AES_DISABLE_KEY_CLEAR ;;
  for_each (steps 0 SECURE_KEY_LEN 1) (fun Count =>
    key_value <- aread AesKupKey Count ;;
    io_write32 (a + AES_KUP0_OFFSET + Count * SECURE_WORD_LEN) key_value) ;;
  io_write32 (a + AES_KEY_SRC_OFFSET) AES_KEY_SRC_KUP ;;
  io_write32 (a + AES_KEY_LOAD_OFFSET) AES_KEY_LOAD ;;
  _ <- waitForEvent (a + AES_STATUS_OFFSET) AES_STS_KEY_INIT_DONE AES_STS_KEY_INIT_DONE TIMEOUT_USEC ;;
  _ <- zynqmp_csudma_prepare ZYNQMP_CSUDMA_SRC_CHANNEL ;;
  ret tt.

(** The end of both writes: wait for the port, then for the fabric. *)
Definition pcap_finish : M V Z :=
  r <- pcap_waitForDone ;;
  if negb (r =? TEE_SUCCESS) then ret r
  else
    r <- pcap_waitForPLDone ;;
    ret r.

Definition zynqmp_csu_secure_pcap_write (addr : buffer) : M V Z :=
  hdr <- buf_read32 addr HEADER_TABLE_OFFSET ;;
  off <- buf_read32 addr (hdr + 0x20) ;;
  let UnEncDataOffset := u32 (off * SECURE_WORD_LEN) in
  n <- buf_read32 addr (hdr + 0x4) ;;
  let UnEncDataLen := u32 (n * SECURE_WORD_LEN) in
  let EncStartAddr := buf_va addr + UnEncDataOffset in
  c <- gets csu ;;
  a <- gets aes ;;
  if (c =? 0) || (a =? 0) then ret TEE_ERROR_GENERIC
  else
    secure_setup c a ;;
    x <- secure_blocks poll_bound a UnEncDataLen EncStartAddr (EncStartAddr + SECURE_HDR_SIZE) 0 0
           AES_BLK_TYPE_SECURE_HEADER ;;
    match x with
    | Returned r => ret r
    | Broke r => if negb (r =? TEE_SUCCESS) then ret r else pcap_finish
    end.

Definition zynqmp_csu_pcap_write (addr len : Z) : M V Z :=
  p <- gets pcap ;;
  c <- gets csu ;;
  if (p =? 0) || (c =? 0) then ret TEE_ERROR_GENERIC
  else
    io_write32 (c + ZYNQMP_CSU_SSS_CFG_OFFSET) ZYNQMP_CSU_SSS_DMA_STREAM_TO_PCAP ;;
    r <- zynqmp_csudma_transfer ZYNQMP_CSUDMA_SRC_CHANNEL addr len 0 ;;
    if negb (r =? TEE_SUCCESS) then ret r
    else
      r <- zynqmp_csudma_sync ZYNQMP_CSUDMA_SRC_CHANNEL ;;
      if negb (r =? TEE_SUCCESS) then ret r
      else pcap_finish.

Definition csu_pcap_init : M V Z :=
  let p := core_mmu_get_va ZYNQMP_CSU_PCAP_BASE ZYNQMP_CSU_PCAP_SIZE in
  let c := core_mmu_get_va CSU_BASE CSU_SIZE in
  let a := core_mmu_get_va ZYNQMP_CSU_AES_BASE ZYNQMP_CSU_AES_SIZE in
  let k := core_mmu_get_va CRL_APB_BASE CRL_APB_SIZE in
  mods (set_maps p c a k) ;;
  if (p =? 0) || (c =? 0) || (a =? 0) || (k =? 0) then ret TEE_ERROR_DEFER_DRIVER_INIT
  else ret TEE_SUCCESS.

(** ** The check of an image *)

Lemma slice_run buf off n (s : st V) : 0 <= off -> off + n <= buf_len buf ->
  buf_slice buf off n s = (Ret (take (Z.to_nat n) (drop (Z.to_nat off) (buf_bytes buf))), s).
Proof.
  intros Ho Hn. unfold buf_slice, buf_bounds. rewrite (proj2 (Z.leb_le 0 off)), (proj2 (Z.leb_le _ _)) by done.
  done.
Qed.

Lemma read_run buf off (s : st V) : 0 <= off -> off + 4 <= buf_len buf ->
  buf_read32 buf off s = (Ret (le32 (buf_bytes buf) (Z.to_nat off)), s).
Proof.
  intros Ho Hn. unfold buf_read32, buf_bounds. rewrite (proj2 (Z.leb_le 0 off)), (proj2 (Z.leb_le _ _)) by done.
  done.
Qed.

Lemma read_out buf off (s : st V) : buf_len buf < off + 4 -> buf_read32 buf off s = (Halt OutOfBounds, s).
Proof.
  intros Hn. unfold buf_read32, buf_bounds. rewrite (proj2 (Z.leb_gt _ (buf_len buf))) by done.
  by rewrite andb_false_r.
Qed.

(** The fields of an image. *)
Definition img_word (img : buffer) (off : Z) : Z := le32 (buf_bytes img) (Z.to_nat off).
Definition img_sync (img : buffer) : list Z := take 8 (drop 0x20 (buf_bytes img)).

(** The check of a secure image.  The length of the image is not looked at.
    Of an image that holds the fixed header and the word its certificate offset
    points to, exactly those are accepted whose sync words are right, whose
    certificate offset is 0 and whose key source is the key-update register; an
    accepted image leaves its vector, followed by what was there before, in the
    static buffer the vector pointer refers to; a refused one leaves the vector
    pointer alone; no device is touched.  If the certificate offset, which the
    image chooses freely, points past the end, the check reads out of bounds. *)
Theorem secure_image_check img d l h (v : V) :
  0xAC <= buf_len img -> Forall is_u8 (buf_bytes img) -> img_sync img = SecureBootgenBinFormat ->
  let auth := img_word img AUTHCERT_HEADER_OFFSET + AUTHCERT_OFFSET in
  if buf_len img <? auth + 4 then
    validateSecureBitstream img (St d l h v) = (Halt OutOfBounds, St d l h v)
  else
    let ok := (img_word img auth =? 0) && (img_word img KEY_SOURCE_OFFSET =? KEY_SRC_KUP) in
    exists v', validateSecureBitstream img (St d l h v) =
        (Ret (if ok then TEE_SUCCESS else TEE_ERROR_BAD_FORMAT), St d l h v') /\
      bs_iv (sget v') = (if ok then addr_of "iv_arr" else bs_iv (sget v)) /\
      iv_arr (sget v') = (if ok then take 12 (drop 0xA0 (buf_bytes img)) ++ drop 12 (iv_arr (sget v))
                          else iv_arr (sget v)) /\
      (driver_maps (sget v') = driver_maps (sget v)).
Proof.
  intros Hlen Hby Hsync auth. unfold validateSecureBitstream.
  assert (Hpos : 0 <= img_word img AUTHCERT_HEADER_OFFSET) by by apply le32_nonneg.
  assert (Hauth : 0 <= auth) by (unfold auth, AUTHCERT_OFFSET; lia).
  rewrite (bind_run _ _ _ _ _ (slice_run img SECURE_SYNC_WORD_OFFSET 8 _ ltac:(done)
    ltac:(unfold SECURE_SYNC_WORD_OFFSET; lia))).
  change (take (Z.to_nat 8) _) with (img_sync img). rewrite Hsync, bool_decide_eq_true_2 by done. cbn [negb].
  rewrite (bind_run _ _ _ _ _ (read_run img AUTHCERT_HEADER_OFFSET _ ltac:(done)
    ltac:(unfold AUTHCERT_HEADER_OFFSET; lia))). fold (img_word img AUTHCERT_HEADER_OFFSET) auth.
  bool_case; zbool.
  { by rewrite (bind_halt _ _ _ _ _ (read_out img auth _ Heqb)). }
  rewrite (bind_run _ _ _ _ _ (read_run img auth _ Hauth Heqb)). fold (img_word img auth).
  destruct (img_word img auth =? 0) eqn:Ha; cbn [negb andb]; [|by exists v].
  rewrite (bind_run _ _ _ _ _ (read_run img KEY_SOURCE_OFFSET _ ltac:(done)
    ltac:(unfold KEY_SOURCE_OFFSET; lia))). fold (img_word img KEY_SOURCE_OFFSET). rewrite run_bind_mods.
  destruct (img_word img KEY_SOURCE_OFFSET =? KEY_SRC_KUP) eqn:Hk; cbn [negb].
  - rewrite (bind_run _ _ _ _ _ (slice_run img IV_OFFSET IV_LEN _ ltac:(done) ltac:(unfold IV_OFFSET, IV_LEN; lia))).
    rewrite !run_bind_mods, run_ret. eexists. split; [reflexivity|]. by rewrite !sget_sput.
  - rewrite run_ret. eexists. split; [reflexivity|]. by rewrite !sget_sput.
Qed.

(** ** What a successful write has done *)

Lemma waitForEvent_yields (P : V -> Prop) addr mask val timeout :
  yields P (waitForEvent addr mask val timeout) (fun r tr v =>
    ((r = TEE_SUCCESS \/ r = TEE_ERROR_BUSY) /\ Forall no_job tr /\
     (r = TEE_SUCCESS -> exists t w, tr = t ++ [EvRd W32 addr w] /\ Z.land w mask = val)) /\ P v).
Proof.
  unfold waitForEvent. eapply yields_seq; [apply timeout_init_yields|]. intros tref t0 Ht0.
  assert (Ht0' : Forall no_job t0) by (eapply Forall_impl; [exact Ht0|apply timer_no_job]).
  eapply yields_seq; [apply poll_until_yields|]. intros r t1 Ht1.
  assert (Ht1' : Forall no_job t1) by (by eapply poll_trace_forall; [| |exact Ht1]).
  assert (Ht : Forall no_job (t0 ++ t1)) by (by apply Forall_app).
  destruct r as [z|]; apply yields_ret; intros v Hv; rewrite app_nil_r; (split; [|done]).
  - split; [by left|]. split; [done|]. intros _. destruct Ht1 as (turns & c & _ & -> & Hz).
    exists (t0 ++ concat turns ++ [EvCall "read_cntpct" [] c]), z.
    rewrite <- !(assoc_L (++)). split; [done|by apply Z.eqb_eq].
  - split; [by right|]. split; [done|]. done.
Qed.

(** The end of a write: the port is seen idle, then the fabric is seen
    configured, then the port is reset. *)
Definition finished (p : Z) (tr : list event) : Prop :=
  exists t1 w1 t2 w2, tr = t1 ++ EvRd W32 (p + PCAP_STS_OFFSET) w1 :: t2 ++
      [EvRd W32 (p + PCAP_STS_OFFSET) w2;
       EvWr W32 (p + PCAP_RESET_OFFSET) 1; EvWr W32 (p + PCAP_RESET_OFFSET) 0] /\
    Z.testbit w1 0 = true /\ Z.testbit w2 3 = true.

Lemma land_is_bit w n : 0 <= n -> Z.land w (BIT n) = BIT n -> Z.testbit w n = true.
Proof.
  intros Hn He. rewrite <- land_bit, He by done. unfold truthy, BIT. rewrite Z.shiftl_1_l.
  apply negb_true_iff, Z.eqb_neq. lia.
Qed.

Lemma pcap_finish_yields (P : V -> Prop) p : (forall v, P v -> pcap (sget v) = p) ->
  yields P pcap_finish (fun r tr v => (r = TEE_SUCCESS -> finished p tr) /\ P v).
Proof.
  intros HP. unfold pcap_finish, pcap_waitForDone, pcap_waitForPLDone. yield.
  eapply yields_gets_is; [exact HP|]. apply yields_bind_if; intros H0.
  { yield. by apply yields_ret. }
  eapply yields_seq; [apply waitForEvent_yields|]. intros r t1 (_ & _ & Hr).
  apply yields_if; intros Hne; [apply yields_ret; intros v Hv; split; [|done]; by intros ->|].
  apply negb_false_iff, Z.eqb_eq in Hne. destruct (Hr Hne) as (ta & w1 & -> & Hw1).
  yield. eapply yields_gets_is; [exact HP|]. apply yields_bind_if; intros _; [yield; by apply yields_ret|].
  yield. eapply yields_seq; [apply waitForEvent_yields|]. intros r' t2 (_ & _ & Hr').
  apply yields_bind_if; intros Hne'; [yield; apply yields_ret; intros v Hv; split; [|done]; by intros ->|].
  apply negb_false_iff, Z.eqb_eq in Hne'. destruct (Hr' Hne') as (tb & w2 & -> & Hw2).
  unfold pcap_reset, io_write32. yield. apply yields_ret. intros v Hv. split; [|done]. intros _.
  exists ta, w1, tb, w2. rewrite <- !(assoc_L (++)).
  split; [done|]. split; by apply land_is_bit.
Qed.

(** The run of the loop that ends in the [break] with success: the lengths the
    headers announce, and the trace.  Only the last block is known to be
    authenticated. *)
Inductive decrypted (a U : Z) : Z -> Z -> Z -> Z -> Z -> Z -> list Z -> list event -> Prop :=
| decrypted_last iv enc tag next cur bt tr w :
    block_ok enc next tag iv bt tr -> u32 (endian_swap w * 4) = 0 -> u32 cur = U ->
    decrypted a U iv enc tag next cur bt [] (tr ++ [EvRd W32 (a + AES_IV3_OFFSET) w])
| decrypted_more iv enc tag next cur bt tr w tr' n ns tr'' :
    n = u32 (endian_swap w * 4) -> n <> 0 -> u32 (cur + n) <= U -> Forall no_job tr' ->
    decrypted a U (a + AES_IV0_OFFSET) (tag + ZYNQMP_GCM_TAG_SIZE)
      (tag + ZYNQMP_GCM_TAG_SIZE + n + SECURE_HDR_SIZE) n (u32 (cur + n)) AES_BLK_TYPE_DATA_BLOCK ns tr'' ->
    decrypted a U iv enc tag next cur bt (n :: ns)
      (tr ++ EvRd W32 (a + AES_IV3_OFFSET) w :: tr' ++ tr'').

(** The driver is initialised: its pointers are the mapped regions. *)
Definition csu_va : Z := core_mmu_get_va CSU_BASE CSU_SIZE.
Definition crl_va : Z := core_mmu_get_va CRL_APB_BASE CRL_APB_SIZE.
Definition driver_up (v : pcap_vars) : Prop :=
  pcap v = pcap_va /\ csu v = csu_va /\ aes v = aes_va /\ crl_apb v = crl_va.

Hypothesis (Hmap : io_mapped).

Lemma pcap_va_csu : pcap_va = csu_va + 0x3000.
Proof. apply (io_csu Hmap 0x3000 0x1000); [lia|lia|done]. Qed.

Lemma aes_va_csu : aes_va = csu_va + 0x1000.
Proof. apply (io_csu Hmap 0x1000 0x1000); [lia|lia|done]. Qed.

Lemma csu_pcap_init_up d l h (v : V) : exists v',
  csu_pcap_init (St d l h v) = (Ret TEE_SUCCESS, St d l h v') /\ driver_up (sget v').
Proof.
  unfold csu_pcap_init. rewrite run_bind_mods. fold pcap_va csu_va aes_va crl_va.
  eexists. split.
  - rewrite (proj2 (Z.eqb_neq pcap_va 0)), (proj2 (Z.eqb_neq csu_va 0)), (proj2 (Z.eqb_neq aes_va 0)),
      (proj2 (Z.eqb_neq crl_va 0)); [reflexivity|..].
    + apply (io_nonnull Hmap). unfold io_regions. set_solver.
    + apply (io_csu Hmap 0x1000 0x1000); [lia|lia|done].
    + apply (io_nonnull Hmap). unfold io_regions. set_solver.
    + apply (io_csu Hmap 0x3000 0x1000); [lia|lia|done].
  - by rewrite sget_sput.
Qed.

(** Statics with the driver up and a given vector pointer. *)
Definition at_iv (iv : Z) (v : V) : Prop := driver_up (sget v) /\ bs_iv (sget v) = iv.

Lemma secure_blocks_yields n U iv enc tag next cur bt :
  yields (at_iv iv) (secure_blocks n aes_va U enc tag next (u32 cur) bt) (fun x tr v =>
    driver_up (sget v) /\ x <> Returned TEE_SUCCESS /\
    (x = Broke TEE_SUCCESS -> exists ns, decrypted aes_va U iv enc tag next (u32 cur) bt ns tr)).
Proof.
  revert iv enc tag next cur bt. induction n as [|n IH]; intros; [apply yields_stop|]. simpl.
  eapply yields_gets_is; [by intros v [_ Hv]|].
  eapply yields_seq; [apply decrypt_yields; exact Hmap|]. intros r t1 Ht1.
  unfold io_read32, io_write32. yield. rewrite u32_add_l. set (m := u32 (endian_swap z * 4)).
  apply yields_if; intros Hm.
  { apply yields_if; intros Hc; apply yields_ret; intros v [Hv _]; (split; [done|]); split; try done.
    intros [= ->]. exists []. apply decrypted_last; [by apply Ht1|by apply Z.eqb_eq|].
    apply negb_false_iff, Z.eqb_eq in Hc. apply Z.eqb_eq in Hm. rewrite Hm, Z.add_0_r in Hc.
    by rewrite u32_u32. }
  apply yields_if; intros Hc; [apply yields_ret; intros v [Hv _]; by split|].
  yield. eapply yields_seq; [apply waitForEvent_yields|]. intros r' t2 (_ & Ht2 & _).
  apply yields_if; intros Hr'; [apply yields_ret; intros v [Hv _]; by split|].
  eapply yields_mods with (P' := at_iv (aes_va + AES_IV0_OFFSET)).
  { intros v [(H1 & H2 & H3 & H4) _]. unfold at_iv, driver_up. rewrite sget_sput. done. }
  eapply yields_conseq; [apply IH|done|]. intros x tr v (Hv & Hx & Hd). split; [done|]. split; [done|].
  intros Hs. destruct (Hd Hs) as [ns Hns]. exists (m :: ns).
  rewrite (app_comm_cons t2 tr).
  apply decrypted_more; [done|by apply Z.eqb_neq|zbool; by rewrite u32_add_l| |by rewrite u32_add_l].
  constructor; [|done]. apply aes_write_no_job; [exact Hmap|done].
Qed.

(** The lengths add up to the length in the image header, modulo 2^32. *)
Lemma decrypted_sum a U iv enc tag next cur bt ns tr :
  decrypted a U iv enc tag next cur bt ns tr -> u32 (cur + fold_right Z.add 0 ns) = U.
Proof.
  induction 1 as [|iv enc tag next cur bt tr w tr' n ns tr'' _ _ _ _ _ IH]; simpl.
  - by rewrite Z.add_0_r.
  - by rewrite u32_add_l, <- Z.add_assoc in IH.
Qed.

Lemma key_reg_range i : i ∈ steps 0 SECURE_KEY_LEN 1 ->
  0 <= AES_KUP0_OFFSET + i * SECURE_WORD_LEN < ZYNQMP_CSU_AES_SIZE.
Proof.
  intros Hi. apply list_elem_of_In, in_map_iff in Hi as (k & <- & Hk). apply in_seq in Hk.
  change (Z.to_nat ((SECURE_KEY_LEN - 0 + 1 - 1) / 1)) with 8%nat in Hk.
  unfold AES_KUP0_OFFSET, SECURE_WORD_LEN, ZYNQMP_CSU_AES_SIZE. lia.
Qed.

(** ** Every event is one of the devices of the driver *)

Section Events.
Context (F : event -> Prop).
Hypothesis HFc : forall f args r, F (EvCall f args r).
Hypothesis HFr : forall w a z, F (EvRd w a z).
Let up (v : V) : Prop := driver_up (sget v).

Lemma wait_under addr mask val timeout : respects (under up F) (waitForEvent addr mask val timeout).
Proof.
  unfold waitForEvent. under_walk.
  - apply timeout_init_respects; [apply _|]. intros f. apply under_call, HFc.
  - apply poll_until_respects; [apply _|..]; [intros f; apply under_call, HFc|apply under_read, HFr].
Qed.

Lemma bounds_under b off n : respects (under up F) (buf_bounds b off n).
Proof. unfold buf_bounds. under_walk. Qed.

Lemma set_up (f : pcap_vars -> pcap_vars) :
  (forall v, pcap (f v) = pcap v /\ csu (f v) = csu v /\ aes (f v) = aes v /\ crl_apb (f v) = crl_apb v) ->
  respects (under up F) (mods f).
Proof.
  intros Hf. apply under_mods. intros v (H1 & H2 & H3 & H4).
  destruct (Hf (sget v)) as (G1 & G2 & G3 & G4). unfold up, driver_up. rewrite sget_sput. by split_and!; congruence.
Qed.

Lemma validate_under img : respects (under up F) (validateSecureBitstream img).
Proof.
  unfold validateSecureBitstream, buf_slice, buf_read32. under_walk; try apply bounds_under;
    by apply set_up.
Qed.

Hypothesis HFp : forall off z, 0 <= off < ZYNQMP_CSU_PCAP_SIZE -> F (EvWr W32 (pcap_va + off) z).

Lemma pcap_init_under :
  (forall off z, 0 <= off < CRL_APB_SIZE -> F (EvWr W32 (crl_va + off) z)) ->
  respects (under up F) zynqmp_csu_pcap_init.
Proof.
  intros HFk. unfold zynqmp_csu_pcap_init, pcap_reset, io_read32, io_write32.
  eapply under_gets_is; [by intros v (_ & _ & _ & Hk)|]. under_walk; [apply HFr|by apply HFk|].
  eapply under_gets_is; [by intros v (Hp & _)|]. under_walk; try apply HFr; try (by apply HFp).
  apply wait_under.
Qed.

Lemma finish_under : respects (under up F) pcap_finish.
Proof.
  unfold pcap_finish, pcap_waitForDone, pcap_waitForPLDone, pcap_reset, io_write32. under_walk.
  - eapply under_gets_is; [by intros v (Hp & _)|]. under_walk. apply wait_under.
  - eapply under_gets_is; [by intros v (Hp & _)|]. under_walk; try (by apply HFp). apply wait_under.
Qed.

Hypothesis HFw : forall off z, 0 <= off < CSUDMA_SIZE -> F (EvWr W32 (csudma_va + off) z).
Hypothesis HFa : forall off z, 0 <= off < ZYNQMP_CSU_AES_SIZE -> F (EvWr W32 (aes_va + off) z).
Hypothesis HFs : forall z, F (EvWr W32 (csu_va + ZYNQMP_CSU_SSS_CFG_OFFSET) z).

Lemma secure_blocks_under n U enc tag next cur bt :
  respects (under up F) (secure_blocks n aes_va U enc tag next cur bt).
Proof.
  revert enc tag next cur bt. induction n as [|n IH]; intros; [apply respects_stop; apply _|]. simpl.
  apply respects_bind; [apply _|apply respects_gets; apply _|]. intros iv.
  unfold io_read32, io_write32. under_walk.
  - by apply decrypt_under.
  - apply HFr.
  - by apply HFa.
  - apply wait_under.
  - by apply set_up.
  - apply IH.
Qed.

Lemma secure_write_under img : respects (under up F) (zynqmp_csu_secure_pcap_write img).
Proof.
  unfold zynqmp_csu_secure_pcap_write, buf_read32. under_walk; try apply bounds_under.
  eapply under_gets_is; [by intros v (_ & Hc & _)|]. eapply under_gets_is; [by intros v (_ & _ & Ha & _)|].
  under_walk.
  - unfold secure_setup, io_write32. under_walk; try (by apply HFa); try apply HFs.
    + apply respects_for_each; [apply _|]. intros i Hi. under_walk.
      * apply respects_aread. apply _.
      * rewrite <- Z.add_assoc. apply HFa. by apply key_reg_range.
    + apply wait_under.
    + by apply prepare_under.
  - apply secure_blocks_under.
  - match goal with x : loop_exit |- _ => destruct x end; under_walk. apply finish_under.
Qed.

End Events.

Lemma csu_write_no_job off z : 0 <= off < CSU_SIZE -> no_job (EvWr W32 (csu_va + off) z).
Proof. intros Ho. by apply write_no_job, csu_not_job. Qed.

Lemma key_regs_no_job i z : i ∈ steps 0 SECURE_KEY_LEN 1 ->
  no_job (EvWr W32 (aes_va + AES_KUP0_OFFSET + i * SECURE_WORD_LEN) z).
Proof.
  intros Hi. rewrite <- Z.add_assoc. apply aes_write_no_job; [exact Hmap|]. by apply key_reg_range.
Qed.

Lemma key_loop_yields (P : V -> Prop) :
  yields P (for_each (steps 0 SECURE_KEY_LEN 1) (fun Count =>
    key_value <- aread AesKupKey Count ;;
    io_write32 (aes_va + AES_KUP0_OFFSET + Count * SECURE_WORD_LEN) key_value))
  (fun _ tr v => Forall no_job tr /\ P v).
Proof.
  apply yields_emits.
  - apply respects_for_each; [apply _|]. intros i Hi. apply respects_bind; [apply _|..].
    + apply respects_aread. apply _.
    + intros z. apply emits_write, key_regs_no_job, Hi.
  - apply respects_for_each; [apply _|]. intros i Hi. apply respects_bind; [apply _|..].
    + apply respects_aread. apply _.
    + intros z. apply frame_write. apply _.
Qed.

Lemma secure_setup_yields (P : V -> Prop) :
  yields P (secure_setup csu_va aes_va) (fun _ tr v => jobs tr = [] /\ P v).
Proof.
  enough (Hs : yields P (secure_setup csu_va aes_va) (fun _ tr v => Forall no_job tr /\ P v)).
  { eapply yields_conseq; [exact Hs|done|]. intros a tr v [Ht Hv]. split; [by apply jobs_none|done]. }
  unfold secure_setup. unfold io_write32 at 1 2 3 4 5. yield.
  eapply yields_seq; [apply key_loop_yields|]. intros [] t1 Ht1.
  unfold io_write32. yield. eapply yields_seq; [apply waitForEvent_yields|]. intros r t2 (_ & Ht2 & _).
  eapply yields_seq; [apply prepare_yields|]. intros r' t3 Ht3. apply yields_ret. intros v Hv.
  split; [|done]. repeat (apply Forall_cons_2 || apply Forall_app_2); try done;
    first [by apply csu_write_no_job | apply aes_write_no_job; [exact Hmap|done]].
Qed.


(** ** The write ends when the devices answer *)

(** Documented behaviour of the devices: every status that is waited for is shown
    within the patience of the wait. *)
Record devices_answer : Prop := {
  answer_dma : forall d, ready_within poll_bound (csudma_va + CSUDMA_I_STS_OFFSET) dma_done d;
  answer_key : forall d, ready_within poll_bound (aes_va + AES_STATUS_OFFSET)
    (event_seen AES_STS_KEY_INIT_DONE AES_STS_KEY_INIT_DONE) d;
  answer_aes : forall d, ready_within poll_bound (aes_va + AES_STS_OFFSET)
    (aes_event AES_STS_AES_BUSY false) d;
  answer_spin : forall d, stops_within poll_bound (pcap_va + SECURE_PCAP_STS_OFFSET) pcap_busy d;
  answer_idle : forall d, ready_within poll_bound (pcap_va + PCAP_STS_OFFSET)
    (event_seen PCAP_STS_WR_IDLE_MASK PCAP_STS_WR_IDLE_MASK) d;
  answer_done : forall d, ready_within poll_bound (pcap_va + PCAP_STS_OFFSET)
    (event_seen PCAP_STS_PL_DONE_MASK PCAP_STS_PL_DONE_MASK) d
}.

Hypothesis (Hans : devices_answer).

Lemma wait_calm addr mask val timeout :
  (forall d, ready_within poll_bound addr (event_seen mask val) d) ->
  calm (V := V) (waitForEvent addr mask val timeout).
Proof. intros Hr. unfold waitForEvent. calm_walk. by apply calm_poll. Qed.

Lemma finish_returns d l h (v : V) : driver_up (sget v) ->
  returns pcap_finish (St d l h v) (fun _ s' => vars s' = v /\ held s' = h).
Proof.
  intros (Hp & _). unfold pcap_finish, pcap_waitForDone.
  apply returns_assoc, returns_gets. rewrite Hp. apply returns_same.
  { apply (calm_if (pcap_va =? 0) (ret TEE_ERROR_GENERIC) _ (calm_ret _)). apply wait_calm, Hans. }
  intros r d1 l1. destruct (negb _); [done|]. unfold pcap_waitForPLDone.
  apply returns_assoc, returns_gets. rewrite Hp.
  match goal with |- returns ?m _ _ => enough (Hc : calm m) by apply Hc end.
  unfold pcap_reset, io_write32. calm_walk. apply wait_calm, Hans.
Qed.

(** The lengths the decrypted headers announce never make the sum wrap around. *)
Definition lengths_bounded (U : Z) : Prop :=
  forall d, u32 (endian_swap (u32 (hw_read W32 (aes_va + AES_IV3_OFFSET) d).1) * 4) + U < 2 ^ 32.

Lemma u32_times4 x : u32 (x * 4) <> 0 -> 4 <= u32 (x * 4).
Proof.
  unfold u32. intros Hne. change (2 ^ 32) with (2 ^ 30 * 4) in *.
  rewrite Z.mul_mod_distr_r in * by lia. pose proof (Z.mod_pos_bound x (2 ^ 30)). lia.
Qed.

(** Each turn that goes on adds at least a word. *)
Lemma secure_blocks_returns n U enc tag next cur bt s :
  driver_up (sget (vars s)) -> lengths_bounded U -> 0 <= cur <= U -> U - cur < 4 * Z.of_nat n ->
  returns (secure_blocks n aes_va U enc tag next cur bt) s
    (fun _ s' => driver_up (sget (vars s')) /\ held s' = held s).
Proof.
  intros Hup Hb. revert enc tag next cur bt s Hup.
  induction n as [|n IH]; intros enc tag next cur bt [d l h v] Hup Hcur Hn; [lia|].
  simpl in Hup. cbn [secure_blocks]. apply returns_gets, returns_same; [apply decrypt_calm; apply Hans|].
  intros r d1 l1. apply returns_read. cbn [wtrunc].
  set (w := u32 (hw_read W32 (aes_va + AES_IV3_OFFSET) d1).1).
  specialize (Hb d1). fold w in Hb. pose proof (u32_times4 (endian_swap w)) as Hm4.
  pose proof (u32_range (endian_swap w * 4)) as Hm. set (m := u32 (endian_swap w * 4)) in *.
  rewrite (u32_small (cur + m)) by lia.
  destruct (m =? 0) eqn:Em; [by destruct (negb _)|]. zbool.
  destruct (cur + m >? U) eqn:Ec; [done|]. zbool.
  apply returns_write, returns_same; [apply wait_calm, Hans|].
  intros r' d3 l3. destruct (negb _); [done|]. apply returns_mods.
  apply (IH _ _ _ _ _ (St d3 l3 h _)); [|lia|specialize (Hm4 Em); lia].
  destruct Hup as (H1 & H2 & H3 & H4). unfold driver_up. simpl. by rewrite sget_sput.
Qed.

Lemma secure_setup_calm : calm (V := V) (secure_setup csu_va aes_va).
Proof.
  unfold secure_setup, io_write32. calm_walk; [|apply wait_calm, Hans|apply prepare_calm].
  change (steps 0 SECURE_KEY_LEN 1) with [0; 1; 2; 3; 4; 5; 6; 7]. cbn [for_each]. intros s. unfold returns.
  unfold mmio_write_32. repeat (rewrite run_bind_assoc || (erewrite run_bind_aread by reflexivity)).
  destruct s as [d l h v]. run. arr. run. done.
Qed.


End Ops.

(** ** A small image and a fabric that takes it *)

Definition patch (off : nat) (w bs : list Z) : list Z := take off bs ++ w ++ drop (off + length w) bs.

(** A header of 256 bytes: no certificate, key source KUP, two words of data. *)
Definition sample_image : buffer := Buffer 0x60001000
  (patch 0x20 SecureBootgenBinFormat (patch 0x28 [0xC5; 0xC3; 0xA5; 0xA3]
  (patch 0x98 [0x40; 0; 0; 0] (patch 0x9c [0xB0; 0; 0; 0]
  (patch 0xD0 [0x40; 0; 0; 0] (patch 0xB4 [2; 0; 0; 0] (repeat 0 256))))))).

(** The registers on a flat map, given the answers of the AES status and of the
    length register. *)
Definition fabric (status lengths : list Z) : Z -> list Z := fun a =>
  if a =? 0xFFCA1000 then status
  else if a =? 0xFFCA104C then lengths
  else if a =? 0xFFCA3010 then [0x20D]
  else if a =? 0xFFC80014 then [2]
  else [].

Definition pcap_flat : pcap_vars :=
  PcapVars 0xFFCA3000 0xFFCA0000 0xFFCA1000 0xFF5E0000 0x60000000 KEY_SRC_KUP (repeat 0 16).

Definition fabric_state (status lengths : list Z) : @st (script 3) pcap_vars :=
  @St (script 3) pcap_vars (fabric status lengths) [] [] pcap_flat.


(** Registers of a fabric that takes everything at once; the last header announces
    no further block. *)
Definition prompt (a : Z) : Z :=
  if a =? 0xFFCA1000 then 0x18
  else if a =? 0xFFCA3010 then 0x20D
  else if a =? 0xFFC80014 then 2
  else 0.

Lemma prompt_answers : @devices_answer (steady prompt 3) flat_mmu.
Proof. split; intros d; vm_compute; by left. Qed.

(** Without the bound on the lengths the loop need not end: headers that announce
    2^31 bytes each make the sum alternate between 2^31 and 0, whatever the
    number of turns. *)
Definition wrapping (a : Z) : Z := if a =? 0xFFCA104C then 0x20 else prompt a.

Lemma wrapping_answers : @devices_answer (steady wrapping 3) flat_mmu.
Proof. split; intros d; vm_compute; by left. Qed.

Lemma wrapping_key_wait l h v :
  @waitForEvent (steady wrapping 3) pcap_vars 0xFFCA1000 AES_STS_KEY_INIT_DONE AES_STS_KEY_INIT_DONE TIMEOUT_USEC
    (@St (steady wrapping 3) pcap_vars tt l h v) =
  (Ret TEE_SUCCESS, @St (steady wrapping 3) pcap_vars tt
    (EvRd W32 0xFFCA1000 0x18 :: EvCall "read_cntpct" [] 0 :: EvCall "read_cntfrq" [] 0 ::
     EvCall "read_cntpct" [] 0 :: l) h v).
Proof. reflexivity. Qed.

Lemma wrapped_lengths_never_end n enc tag next cur bt l h v :
  cur = 0 \/ cur = 2 ^ 31 ->
  exists s', @secure_blocks (steady wrapping 3) flat_mmu pcap_vars (Has_self _) n 0xFFCA1000 (2 ^ 31)
    enc tag next cur bt (@St (steady wrapping 3) pcap_vars tt l h v) = (Halt StillPolling, s').
Proof.
  revert enc tag next cur bt l h v.
  induction n as [|n IH]; intros enc tag next cur bt l h v Hcur; [by eexists|].
  cbn [secure_blocks]. rewrite run_bind_gets. pose proof wrapping_answers as Hans.
  destruct (returns_run _ _ _ (decrypt_calm (E := steady wrapping 3) (MM := flat_mmu) (answer_dma Hans)
    (answer_aes Hans) (answer_spin Hans) enc next tag (bs_iv (sget v)) bt (@St (steady wrapping 3) _ tt l h v)))
    as (r & [[] l1 h1 v1] & Hr & _).
  rewrite (bind_run _ _ _ _ _ Hr). unfold io_read32, io_write32. run_unfold. rewrite run_bind_read.
  change (wtrunc W32 _) with 0x20. change (u32 (endian_swap 32 * 4)) with (2 ^ 31).
  change (hw_read _ _ _).2 with tt.
  assert (Hc : u32 (cur + 2 ^ 31) = 0 \/ u32 (cur + 2 ^ 31) = 2 ^ 31)
    by (destruct Hcur as [-> | ->]; vm_compute; auto).
  change (2 ^ 31 =? 0) with false. rewrite run_if.
  replace (u32 (cur + 2 ^ 31) >? 2 ^ 31) with false by (destruct Hc as [-> | ->]; reflexivity).
  rewrite run_bind_write. change (hw_write _ _ _ _) with tt.
  rewrite (bind_run _ _ _ _ _ (wrapping_key_wait _ _ _)). change (negb _) with false. cbn match.
  rewrite run_bind_mods. by apply IH.
Qed.

Lemma secure_image_check_witness :
  exists v' : pcap_vars,
    @validateSecureBitstream (script 3) flat_mmu pcap_vars (Has_self _) sample_image
      (fabric_state [] []) = (Ret TEE_SUCCESS, @St (script 3) pcap_vars (fabric [] []) [] [] v') /\
    bs_iv v' = 0x60000000.
Proof.
  destruct (secure_image_check (E := script 3) (MM := flat_mmu) (HV := Has_self _) sample_image
    (fabric [] []) [] [] pcap_flat ltac:(by vm_compute) ltac:(by apply (bool_decide_unpack _); vm_compute)
    ltac:(by vm_compute)) as (v' & Hr & Hiv & _).
  exists v'. split; [exact Hr|exact Hiv].
Defined.


End CsuPcap.
