(* ===== verification/FpgaMgr.v ===== *)
(** * The trusted application that reconfigures the fabric

    core/pta/zynqmp/fpga_mgr.c.  The two reconfigurable partitions share an
    interconnect with the static part of the fabric, where the watchdog is; the
    decouplers isolate them while a bitstream is loaded.  The parameter of the
    command is its first memory reference, a [buffer]; an address 0 is the null
    pointer. *)

From S2P Require Import Prelude Machine Trace TeeCore Csudma CsuSecure CsuPcap.
From Stdlib Require Import String.
From stdpp Require Import strings sets.
Import TeeCore Csudma CsuSecure CsuPcap.
#[local] Open Scope Z_scope.
#[local] Open Scope c_scope.

Module FpgaMgr.

Definition DFX_DECOUPLER_1_OFFSET : Z := 0x00000.
Definition DFX_DECOUPLER_0_OFFSET : Z := 0x10000.
Definition DFX_DECOUPLE : Z := 1.
Definition DFX_COUPLE : Z := 0.
Definition PTA_ZYNQMP_FPGA_MGR_CMD_WRITE : Z := 0.

Section Ops.
Context `{E : Env} `{MM : CoreMmu} {V : Type} `{HV : !Has pcap_vars V}.

Definition dfx_va : Z := core_mmu_get_va ZYNQMP_DFX_DECOUPLER_BASE ZYNQMP_DFX_DECOUPLER_SIZE.

Definition zynqmp_dfx_decouple (decouple : Z) : M V unit :=
  if dfx_va =? 0 then ret tt
  else
    io_write32 (dfx_va + DFX_DECOUPLER_1_OFFSET) decouple ;;
    io_write32 (dfx_va + DFX_DECOUPLER_0_OFFSET) decouple.

Definition pta_zynqmp_fpga_write (param_types : Z) (memref : buffer) : M V Z :=
  let exp_param_types := TEE_PARAM_TYPES TEE_PARAM_TYPE_MEMREF_INOUT TEE_PARAM_TYPE_NONE
                           TEE_PARAM_TYPE_NONE TEE_PARAM_TYPE_NONE in
  if negb (param_types =? exp_param_types) then ret TEE_ERROR_BAD_PARAMETERS
  else if (buf_va memref =? 0) || (buf_len memref =? 0) then ret TEE_ERROR_BAD_PARAMETERS
  else
    result <- validateSecureBitstream memref ;;
    if negb (result =? TEE_SUCCESS) then ret result
    else
      result <- zynqmp_csu_pcap_init ;;
      if negb (result =? TEE_SUCCESS) then ret TEE_ERROR_GENERIC
      else
        zynqmp_dfx_decouple DFX_DECOUPLE ;;
        result <- zynqmp_csu_secure_pcap_write memref ;;
        zynqmp_dfx_decouple DFX_COUPLE ;;
        ret result.

Definition invoke_command (cmd_id param_types : Z) (memref : buffer) : M V Z :=
  if cmd_id =? PTA_ZYNQMP_FPGA_MGR_CMD_WRITE then pta_zynqmp_fpga_write param_types memref
  else ret TEE_ERROR_BAD_PARAMETERS.

(** ** The partitions are isolated while they are written *)

Hypothesis (Hmap : io_mapped).

Definition dfx_write (e : event) : bool :=
  match e with
  | EvWr _ a _ => (a =? dfx_va + DFX_DECOUPLER_1_OFFSET) || (a =? dfx_va + DFX_DECOUPLER_0_OFFSET)
  | _ => false
  end.

(** Neither a change of the isolation nor a job for the port. *)
Definition quiet (e : event) : Prop := dfx_write e = false /\ no_job e.

Definition decouple_events (x : Z) : list event :=
  [EvWr W32 (dfx_va + DFX_DECOUPLER_1_OFFSET) x; EvWr W32 (dfx_va + DFX_DECOUPLER_0_OFFSET) x].

Lemma region_not_dfx pa len off z : (pa, len) ∈ io_regions -> pa <> ZYNQMP_DFX_DECOUPLER_BASE ->
  0 <= off < len -> dfx_write (EvWr W32 (core_mmu_get_va pa len + off) z) = false.
Proof.
  intros Hin Hne Ho. simpl.
  assert (Ha : forall o, 0 <= o < ZYNQMP_DFX_DECOUPLER_SIZE -> core_mmu_get_va pa len + off <> dfx_va + o).
  { intros o Ho'. apply (io_apart Hmap (pa, len) (ZYNQMP_DFX_DECOUPLER_BASE, ZYNQMP_DFX_DECOUPLER_SIZE));
      try done; [unfold io_regions; set_solver|congruence]. }
  unfold DFX_DECOUPLER_1_OFFSET, DFX_DECOUPLER_0_OFFSET, ZYNQMP_DFX_DECOUPLER_SIZE in *.
  rewrite !(proj2 (Z.eqb_neq _ _)); [done|apply Ha; lia|apply Ha; lia].
Qed.

Lemma csu_not_dfx off z : 0 <= off < CSU_SIZE -> dfx_write (EvWr W32 (csu_va + off) z) = false.
Proof. apply region_not_dfx; [unfold io_regions; set_solver|done]. Qed.

Lemma dma_not_dfx off z : 0 <= off < CSUDMA_SIZE -> dfx_write (EvWr W32 (csudma_va + off) z) = false.
Proof. apply region_not_dfx; [unfold io_regions; set_solver|done]. Qed.

Lemma aes_not_dfx off z : 0 <= off < ZYNQMP_CSU_AES_SIZE -> dfx_write (EvWr W32 (aes_va + off) z) = false.
Proof.
  intros Ho. rewrite (aes_va_csu Hmap), <- Z.add_assoc. apply csu_not_dfx.
  unfold ZYNQMP_CSU_AES_SIZE, CSU_SIZE in *. lia.
Qed.

Lemma pcap_not_dfx off z : 0 <= off < ZYNQMP_CSU_PCAP_SIZE -> dfx_write (EvWr W32 (pcap_va + off) z) = false.
Proof.
  intros Ho. rewrite (pcap_va_csu Hmap), <- Z.add_assoc. apply csu_not_dfx.
  unfold ZYNQMP_CSU_PCAP_SIZE, CSU_SIZE in *. lia.
Qed.

Lemma pcap_quiet off z : 0 <= off < ZYNQMP_CSU_PCAP_SIZE -> quiet (EvWr W32 (pcap_va + off) z).
Proof.
  intros Ho. split; [by apply pcap_not_dfx|]. rewrite (pcap_va_csu Hmap), <- Z.add_assoc.
  apply csu_write_no_job; [exact Hmap|]. unfold ZYNQMP_CSU_PCAP_SIZE, CSU_SIZE in *. lia.
Qed.

Lemma crl_quiet off z : 0 <= off < CRL_APB_SIZE -> quiet (EvWr W32 (crl_va + off) z).
Proof.
  intros Ho. split; [apply region_not_dfx; [unfold io_regions; set_solver|done|done]|].
  apply write_no_job. unfold job_reg.
  assert (Ha : forall o, 0 <= o < CSUDMA_SIZE -> crl_va + off <> csudma_va + o).
  { intros o Ho'. apply (io_apart Hmap (CRL_APB_BASE, CRL_APB_SIZE) (CSUDMA_BASE, CSUDMA_SIZE)); try done;
      unfold io_regions; set_solver. }
  unfold CSUDMA_ADDR_OFFSET, CSUDMA_ADDR_MSB_OFFSET, CSUDMA_SIZE_OFFSET, CSUDMA_SIZE in *.
  rewrite !(proj2 (Z.eqb_neq _ _)); [done|..]; apply Ha; lia.
Qed.

Lemma init_quiet :
  respects (under (fun v : V => driver_up (sget v)) quiet) zynqmp_csu_pcap_init.
Proof. apply pcap_init_under; [done|done|apply pcap_quiet|apply crl_quiet]. Qed.

Lemma write_not_dfx img :
  respects (under (fun v : V => driver_up (sget v)) (fun e => dfx_write e = false))
    (zynqmp_csu_secure_pcap_write img).
Proof.
  apply secure_write_under; [done|done|apply pcap_not_dfx|apply dma_not_dfx|apply aes_not_dfx|].
  intros z. by apply csu_not_dfx.
Qed.

Lemma decouple_run x d l h (v : V) : zynqmp_dfx_decouple x (St d l h v) =
  (Ret tt, St (hw_write W32 (dfx_va + DFX_DECOUPLER_0_OFFSET) (u32 x)
                (hw_write W32 (dfx_va + DFX_DECOUPLER_1_OFFSET) (u32 x) d))
              (rev (decouple_events (u32 x)) ++ l) h v).
Proof.
  unfold zynqmp_dfx_decouple, io_write32. rewrite (proj2 (Z.eqb_neq dfx_va 0)); [by run|].
  apply (io_nonnull Hmap). unfold io_regions. set_solver.
Qed.

(** C12: isolation during reconfiguration.  For every command, every image, all
    behaviour of the hardware and however the call ends: first nothing is sent
    to the configuration port and the isolation is not changed; if the call gets
    to the point of writing, both decouplers are closed before the first job;
    they stay closed until the write has ended; if the write ends, with
    success or with an error, they are opened again as the last action, and if
    it never ends they stay closed. *)
Theorem reconfiguration_isolated cmd types img s :
  driver_up (sget (vars s)) ->
  exists before, Forall quiet before /\
    let '(o, s') := invoke_command cmd types img s in
    (log s' = rev before ++ log s \/
     exists body, Forall (fun e => dfx_write e = false) body /\
       log s' = rev (before ++ decouple_events 1 ++ body ++
                     match o with Ret _ => decouple_events 0 | Halt _ => [] end) ++ log s).
Proof.
  intros Hup. unfold invoke_command, pta_zynqmp_fpga_write.
  bool_case; [|exists []; by split; [|left]].
  bool_case; [exists []; by split; [|left]|].
  bool_case; [exists []; by split; [|left]|].
  destruct (under_run _ quiet (validateSecureBitstream img) s (validate_under quiet img) Hup)
    as (t1 & Hl1 & Hq1 & Hup1).
  unfold bind at 1. destruct (validateSecureBitstream img s) as [[r1|x1] s1]; simpl in Hl1, Hup1;
    [|by exists t1; split; [|left]].
  bool_case; [by exists t1; split; [|left]|].
  destruct (under_run _ quiet zynqmp_csu_pcap_init s1 init_quiet Hup1) as (t2 & Hl2 & Hq2 & Hup2).
  exists (t1 ++ t2). split; [by apply Forall_app|].
  unfold bind at 1. destruct (zynqmp_csu_pcap_init s1) as [[r2|x2] [d2 l2 h2 v2]]; simpl in Hl2, Hup2.
  2: left; by rewrite rev_app_distr, <- (assoc_L (++)), <- Hl1.
  bool_case; [left; by rewrite rev_app_distr, <- (assoc_L (++)), <- Hl1|].
  rewrite (bind_run _ _ _ _ _ (decouple_run DFX_DECOUPLE d2 l2 h2 v2)).
  set (s3 := St _ _ _ _).
  destruct (under_run _ _ (zynqmp_csu_secure_pcap_write img) s3 (write_not_dfx img) Hup2)
    as (body & Hl3 & Hq3 & _).
  assert (Hl : forall ev, ev ++ rev body ++ log s3 =
    rev (t1 ++ t2 ++ decouple_events 1 ++ body ++ rev ev) ++ log s).
  { intros ev. rewrite !rev_app_distr, rev_involutive. unfold s3. cbn [log].
    rewrite Hl2, Hl1. by rewrite <- !(assoc_L (++)). }
  unfold bind at 1. destruct (zynqmp_csu_secure_pcap_write img s3) as [[r3|x3] [d3 l3 h3 v3]];
    simpl in Hl3.
  - rewrite (bind_run _ _ _ _ _ (decouple_run DFX_COUPLE d3 l3 h3 v3)). simpl. right. exists body. split; [done|].
    rewrite Hl3, <- (assoc_L (++)). apply (Hl (rev (decouple_events 0))).
  - right. exists body. split; [done|]. rewrite Hl3, <- (assoc_L (++)). apply (Hl []).
Qed.

End Ops.

(** ** What is not checked *)

Definition memref_types : Z := TEE_PARAM_TYPES TEE_PARAM_TYPE_MEMREF_INOUT 0 0 0.

Definition write_sample (status lengths : list Z) : outcome Z * @st (script 3) pcap_vars :=
  @invoke_command (script 3) flat_mmu pcap_vars (Has_self _) PTA_ZYNQMP_FPGA_MGR_CMD_WRITE memref_types
    sample_image (fabric_state status lengths).


Lemma reconfiguration_isolated_witness :
  (write_sample [0x18] [0x02000000; 0]).1 = Ret TEE_SUCCESS /\
  exists before, Forall (@quiet flat_mmu) before /\
    let '(o, s') := write_sample [0x18] [0x02000000; 0] in
    (log s' = rev before ++ [] \/
     exists body, Forall (fun e => @dfx_write flat_mmu e = false) body /\
       log s' = rev (before ++ @decouple_events flat_mmu 1 ++ body ++
                     match o with Ret _ => @decouple_events flat_mmu 0 | Halt _ => [] end) ++ []).
Proof.
  split; [by vm_compute|].
  apply (reconfiguration_isolated (E := script 3) (MM := flat_mmu) (HV := Has_self _) flat_mapped
    PTA_ZYNQMP_FPGA_MGR_CMD_WRITE memref_types sample_image (fabric_state [0x18] [0x02000000; 0])).
  by vm_compute.
Defined.

End FpgaMgr.
