(* ===== verification/BsDownloader.v ===== *)
(** * The trusted application that downloads a bitstream

    optee_examples/bs_downloader/ta/bs_downloader_ta.c.  The socket is the
    sequence of its answers: the k-th [recv] gives a result code, the length it
    stores through its pointer, and the bytes it has written.  The memory that
    [TEE_Malloc] returns is filled with 0; the model keeps the part of it before
    the write pointer.  A session is only compared with the null handle.  The
    command of the pseudo TA is [FpgaMgr.invoke_command], run on the memory
    reference. *)

From S2P Require Import Prelude Machine Trace TeeCore Csudma CsuSecure CsuPcap FpgaMgr.
From Stdlib Require Import String.
From stdpp Require Import strings sets.
Import TeeCore Csudma CsuSecure CsuPcap FpgaMgr.
#[local] Open Scope Z_scope.
#[local] Open Scope c_scope.

Module BsDownloader.

Definition REVC_BLOCK : Z := 1 .<< 16.
Definition BITSTREAM_SIZE : Z := 5000000.
Definition TA_BS_DOWNLOADER_CMD_DOWNLOAD : Z := 0.
Definition TEE_HANDLE_NULL : Z := 0.

Record ta_vars := TaVars {
  pta_zynqmp_fpga_mgr_session : Z;
  ta_param_types : Z
}.
Definition ta_bss : ta_vars := TaVars TEE_HANDLE_NULL 0.
Definition set_session (x : Z) (v : ta_vars) : ta_vars := TaVars x (ta_param_types v).
Definition set_types (x : Z) (v : ta_vars) : ta_vars := TaVars (pta_zynqmp_fpga_mgr_session v) x.

Section Ops.
Context `{E : Env} `{MM : CoreMmu} {V : Type} `{HV : !Has pcap_vars V} `{HT : !Has ta_vars V}.
Variable recv : nat -> Z * Z * list Z.

Definition TA_OpenSessionEntryPoint (param_types : Z) : M V Z :=
  if negb (param_types =? TEE_PARAM_TYPES 0 0 0 0) then ret TEE_ERROR_BAD_PARAMETERS
  else
    sess <- gets pta_zynqmp_fpga_mgr_session ;;
    res <- (if sess =? TEE_HANDLE_NULL then
              r <- ext_call "TEE_OpenTASession" [] ;;
              if negb (r =? TEE_SUCCESS) then ret r
              else mods (set_session 1) ;; ret TEE_SUCCESS
            else ret TEE_SUCCESS) ;;
    if negb (res =? TEE_SUCCESS) then ret res
    else
      mods (set_types (TEE_PARAM_TYPES TEE_PARAM_TYPE_MEMREF_INOUT TEE_PARAM_TYPE_NONE
                         TEE_PARAM_TYPE_NONE TEE_PARAM_TYPE_NONE)) ;;
      ret TEE_SUCCESS.

Definition tcp_connect : M V Z :=
  res <- ext_call "TEE_tcpSocket.open" [] ;;
  if negb (res =? TEE_SUCCESS) then ret res else ret TEE_SUCCESS.

(** The do-while loop, unfolded [n] times from the [k]-th answer on: the last
    result and the memory before the write pointer. *)
Fixpoint recv_loop (n k : nat) (data : list Z) : M V (Z * list Z) :=
  match n with
  | O => stop StillPolling
  | S n' =>
      let '(res, chunk, bytes) := recv k in
      if Z.of_nat (length data + length bytes) >? BITSTREAM_SIZE then stop OutOfBounds
      else
        let data := data ++ bytes ++ repeat 0 (Z.to_nat chunk - length bytes) in
        if chunk >? 0 then recv_loop n' (S k) data else ret (res, data)
  end.

(** The result, and the memory up to the size that is stored in [data_size]. *)
Definition socket_client : M V (Z * list Z) :=
  let fresh := repeat 0 (Z.to_nat BITSTREAM_SIZE) in
  res <- tcp_connect ;;
  if negb (res =? TEE_SUCCESS) then ret (TEE_ERROR_BAD_PARAMETERS, fresh)
  else
    r <- recv_loop poll_bound 0 [] ;;
    if negb (r.1 =? TEE_SUCCESS) then ret r
    else
      _ <- ext_call "TEE_tcpSocket.close" [] ;;
      ret r.

Definition TEE_InvokeTACommand (cmd types : Z) (memref : buffer) : M V Z :=
  sess <- gets pta_zynqmp_fpga_mgr_session ;;
  if sess =? TEE_HANDLE_NULL then stop Panic else invoke_command cmd types memref.

Definition downlaod_bs (param_types : Z) : M V Z :=
  if negb (param_types =? TEE_PARAM_TYPES TEE_PARAM_TYPE_VALUE_OUTPUT TEE_PARAM_TYPE_NONE
                            TEE_PARAM_TYPE_NONE TEE_PARAM_TYPE_NONE) then ret TEE_ERROR_BAD_PARAMETERS
  else
    ptr <- ext_call "TEE_Malloc" [BITSTREAM_SIZE] ;;
    if ptr =? 0 then ret TEE_ERROR_GENERIC
    else
      r <- socket_client ;;
      types <- gets ta_param_types ;;
      res <- TEE_InvokeTACommand PTA_ZYNQMP_FPGA_MGR_CMD_WRITE types (Buffer ptr r.2) ;;
      _ <- ext_call "TEE_Free" [ptr] ;;
      ret res.

Definition TA_InvokeCommandEntryPoint (cmd_id param_types : Z) : M V Z :=
  if cmd_id =? TA_BS_DOWNLOADER_CMD_DOWNLOAD then downlaod_bs param_types
  else ret TEE_ERROR_BAD_PARAMETERS.

(** ** What is received *)

(** A stream of [length cs] non-empty chunks of at most a block, then its end. *)
Definition streams (cs : list (list Z)) : Prop :=
  (forall k c, cs !! k = Some c -> recv k = (TEE_SUCCESS, Z.of_nat (length c), c) /\ c <> [] /\
     Z.of_nat (length c) <= REVC_BLOCK) /\
  recv (length cs) = (TEE_SUCCESS, 0, []).

Lemma recv_loop_run cs n k data (s : st V) : streams cs -> (k <= length cs)%nat ->
  (length cs < k + n)%nat -> data = concat (take k cs) ->
  Z.of_nat (length data) <= BITSTREAM_SIZE ->
  recv_loop n k data s =
    if Z.of_nat (length (concat cs)) >? BITSTREAM_SIZE then (Halt OutOfBounds, s)
    else (Ret (TEE_SUCCESS, concat cs), s).
Proof.
  intros [Hcs Hend]. revert k data. induction n as [|n IH]; intros k data Hk Hn -> Hd; [lia|].
  cbn [recv_loop]. destruct (decide (k = length cs)) as [->|Hne].
  - rewrite Hend, firstn_all, Nat.add_0_r in *. simpl.
    destruct (Z.of_nat (length (concat cs)) >? BITSTREAM_SIZE); [done|]. by rewrite !app_nil_r.
  - destruct (lookup_lt_is_Some_2 cs k ltac:(lia)) as [c Hc]. destruct (Hcs k c Hc) as (Hr & Hne' & Hlen).
    rewrite Hr. assert (Ht : concat (take (S k) cs) = concat (take k cs) ++ c).
    { rewrite (take_S_r cs k c Hc), concat_app. simpl. by rewrite app_nil_r. }
    destruct (Z.of_nat (length (concat (take k cs)) + length c) >? BITSTREAM_SIZE) eqn:Eo.
    + zbool. assert (Hle : (length (concat (take (S k) cs)) <= length (concat cs))%nat).
      { rewrite <- (take_drop (S k) cs) at 2. rewrite concat_app, length_app. lia. }
      rewrite Ht, length_app in Hle. rewrite (proj2 (Z.gtb_lt _ _)) by lia. done.
    + zbool. rewrite Nat2Z.id, Nat.sub_diag. cbn [repeat]. rewrite app_nil_r.
      destruct c as [|b c]; [done|]. rewrite (proj2 (Z.gtb_lt _ _)) by (simpl; lia).
      rewrite <- Ht. apply IH; [lia|lia|done|]. rewrite Ht, length_app. lia.
Qed.

(** The parameter types of the command, and of the memory reference. *)
Definition out_types : Z := TEE_PARAM_TYPES TEE_PARAM_TYPE_VALUE_OUTPUT 0 0 0.

(** A download delivers what the server sent.  With memory, a connection and
    an open session, a server that sends non-empty chunks of at most a block and
    then ends the stream: if they fit in the buffer, the command is the command
    of the pseudo TA on exactly their concatenation, followed by the release of
    the memory; if they do not fit, the application writes past its buffer. *)
Theorem download_delivers cs d l h (v : V) :
  streams cs -> (length cs < poll_bound)%nat ->
  (forall d, (hw_call "TEE_Malloc" [BITSTREAM_SIZE] d).1 <> 0) ->
  (forall d, (hw_call "TEE_tcpSocket.open" [] d).1 = TEE_SUCCESS) ->
  pta_zynqmp_fpga_mgr_session (sget v) <> TEE_HANDLE_NULL ->
  exists ptr d' calls, ptr <> 0 /\ Forall (fun e => exists f a r, e = EvCall f a r) calls /\
    TA_InvokeCommandEntryPoint TA_BS_DOWNLOADER_CMD_DOWNLOAD out_types (St d l h v) =
    if Z.of_nat (length (concat cs)) >? BITSTREAM_SIZE then (Halt OutOfBounds, St d' (calls ++ l) h v)
    else bind (invoke_command PTA_ZYNQMP_FPGA_MGR_CMD_WRITE (ta_param_types (sget v))
                 (Buffer ptr (concat cs)))
           (fun res => bind (ext_call "TEE_Free" [ptr]) (fun _ => ret res)) (St d' (calls ++ l) h v).
Proof.
  intros Hcs Hn Hm Ho Hs. unfold TA_InvokeCommandEntryPoint, downlaod_bs, socket_client, tcp_connect.
  change (TA_BS_DOWNLOADER_CMD_DOWNLOAD =? TA_BS_DOWNLOADER_CMD_DOWNLOAD) with true.
  change (out_types =? _) with true. cbn [negb]. rewrite run_bind_call.
  set (ptr := (hw_call "TEE_Malloc" [BITSTREAM_SIZE] d).1). set (d1 := (hw_call _ _ d).2).
  assert (Hptr : ptr <> 0) by apply Hm. rewrite (proj2 (Z.eqb_neq ptr 0)) by done.
  rewrite !run_bind_assoc, run_bind_call, Ho. change (negb (TEE_SUCCESS =? TEE_SUCCESS)) with false. cbn match.
  rewrite run_bind_ret. change (negb (TEE_SUCCESS =? TEE_SUCCESS)) with false. cbn match.
  set (d2 := (hw_call _ _ d1).2). exists ptr. rewrite run_bind_assoc.
  match goal with |- context [bind (recv_loop poll_bound 0 []) ?k ?s0] =>
    pose proof (recv_loop_run cs poll_bound 0 [] s0 Hcs (Nat.le_0_l _) Hn eq_refl ltac:(done)) as Hr end.
  destruct (Z.of_nat (length (concat cs)) >? BITSTREAM_SIZE).
  - rewrite (bind_halt _ _ _ _ _ Hr). eexists d2, [_; _]. split; [done|]. split; [|reflexivity].
    repeat (apply Forall_cons_2; [by eexists _, _, _|]). done.
  - rewrite (bind_run _ _ _ _ _ Hr). cbn [fst snd]. change (negb (TEE_SUCCESS =? TEE_SUCCESS)) with false. cbn match.
    rewrite run_bind_assoc, run_bind_call, run_bind_ret, run_bind_gets. unfold TEE_InvokeTACommand.
    rewrite run_bind_assoc, run_bind_gets, (proj2 (Z.eqb_neq _ TEE_HANDLE_NULL)) by done.
    eexists _, [_; _; _]. split; [done|]. split; [|reflexivity].
    repeat (apply Forall_cons_2; [by eexists _, _, _|]). done.
Qed.

Lemma fresh_sync va : img_sync (Buffer va (repeat 0 (Z.to_nat BITSTREAM_SIZE))) = repeat 0 8.
Proof.
  unfold img_sync. cbn [buf_bytes].
  assert (Hn : exists m, Z.to_nat BITSTREAM_SIZE = (32 + (8 + m))%nat).
  { exists (Z.to_nat (BITSTREAM_SIZE - 40)). unfold BITSTREAM_SIZE. lia. }
  destruct Hn as [m ->]. rewrite !repeat_app, drop_app_length' by done. by rewrite take_app_length'.
Qed.

Lemma fresh_refused img (s : st V) : 0x28 <= buf_len img -> img_sync img = repeat 0 8 ->
  validateSecureBitstream img s = (Ret TEE_ERROR_BAD_FORMAT, s).
Proof.
  intros Hlen Hs. unfold validateSecureBitstream.
  rewrite (bind_run _ _ _ _ _ (slice_run img SECURE_SYNC_WORD_OFFSET 8 s ltac:(done)
    ltac:(unfold SECURE_SYNC_WORD_OFFSET; lia))).
  change (take (Z.to_nat 8) _) with (img_sync img). by rewrite Hs.
Qed.

(** A connection that fails does not reach the fabric.  The application goes
    on after the failure and hands over its empty buffer, but the image check
    refuses it: the command fails with TEE_ERROR_BAD_FORMAT, no register is
    accessed and no static variable changes. *)
Theorem failed_connect_is_harmless d l h (v : V) :
  (forall d, (hw_call "TEE_Malloc" [BITSTREAM_SIZE] d).1 <> 0) ->
  (forall d, (hw_call "TEE_tcpSocket.open" [] d).1 <> TEE_SUCCESS) ->
  pta_zynqmp_fpga_mgr_session (sget v) <> TEE_HANDLE_NULL ->
  ta_param_types (sget v) = memref_types ->
  exists d' calls, Forall (fun e => exists f a r, e = EvCall f a r) calls /\
    TA_InvokeCommandEntryPoint TA_BS_DOWNLOADER_CMD_DOWNLOAD out_types (St d l h v) =
    (Ret TEE_ERROR_BAD_FORMAT, St d' (calls ++ l) h v).
Proof.
  intros Hm Ho Hs Ht. unfold TA_InvokeCommandEntryPoint, downlaod_bs, socket_client, tcp_connect.
  change (TA_BS_DOWNLOADER_CMD_DOWNLOAD =? TA_BS_DOWNLOADER_CMD_DOWNLOAD) with true.
  change (out_types =? _) with true. cbn [negb]. rewrite run_bind_call.
  set (ptr := (hw_call "TEE_Malloc" [BITSTREAM_SIZE] d).1). set (d1 := (hw_call _ _ d).2).
  assert (Hptr : ptr <> 0) by apply Hm. rewrite (proj2 (Z.eqb_neq ptr 0)) by done.
  rewrite !run_bind_assoc, run_bind_call, (proj2 (Z.eqb_neq _ TEE_SUCCESS)) by apply Ho. cbn [negb].
  rewrite run_bind_ret, (proj2 (Z.eqb_neq _ TEE_SUCCESS)) by apply Ho. cbn [negb].
  set (d2 := (hw_call _ _ d1).2). rewrite run_bind_ret, run_bind_gets, Ht. unfold TEE_InvokeTACommand.
  rewrite run_bind_assoc, run_bind_gets, (proj2 (Z.eqb_neq _ TEE_HANDLE_NULL)) by done. cbn [snd].
  pose proof (fresh_sync ptr) as Hsync.
  set (img := Buffer ptr _) in *.
  assert (Hlen : buf_len img = BITSTREAM_SIZE).
  { unfold buf_len, img. cbn [buf_bytes]. rewrite repeat_length. unfold BITSTREAM_SIZE. lia. }
  assert (Hva : buf_va img = ptr) by reflexivity. clearbody img.
  assert (Hr : forall s0 : st V, invoke_command PTA_ZYNQMP_FPGA_MGR_CMD_WRITE memref_types img s0 =
    (Ret TEE_ERROR_BAD_FORMAT, s0)).
  { intros s0. unfold invoke_command, pta_zynqmp_fpga_write.
    change (PTA_ZYNQMP_FPGA_MGR_CMD_WRITE =? PTA_ZYNQMP_FPGA_MGR_CMD_WRITE) with true.
    change (memref_types =? _) with true. cbn [negb]. rewrite Hlen, Hva.
    rewrite (proj2 (Z.eqb_neq ptr 0)) by done. change (BITSTREAM_SIZE =? 0) with false. cbn [orb].
    assert (H28 : 0x28 <= buf_len img) by (rewrite Hlen; done).
    rewrite (bind_run _ _ _ _ _ (fresh_refused img s0 H28 Hsync)). done. }
  rewrite (bind_run _ _ _ _ _ (Hr _)), run_bind_call, run_ret.
  eexists _, [_; _; _]. split; [|reflexivity].
  repeat (apply Forall_cons_2; [by eexists _, _, _|]). done.
Qed.

End Ops.

(** A core with memory, and a server that can or cannot be reached. *)
Definition network (open_code : Z) : Env := {|
  Dev := unit;
  hw_read _ _ d := (0, d);
  hw_write _ _ _ d := d;
  hw_call f _ d :=
    (if String.eqb f "TEE_Malloc" then 0x60001000
     else if String.eqb f "TEE_tcpSocket.open" then open_code else 0, d);
  poll_bound := 3;
  uninit _ := 0
|}.

Definition short_stream (k : nat) : Z * Z * list Z :=
  match k with O => (TEE_SUCCESS, 3, [1; 2; 3]) | _ => (TEE_SUCCESS, 0, []) end.

Definition ta_image : pcap_vars * ta_vars := (pcap_flat, TaVars 1 memref_types).

Lemma short_streams : streams short_stream [[1; 2; 3]].
Proof.
  split; [|done]. intros [|k] c Hc; [|done]. injection Hc as <-. by vm_compute.
Qed.

Lemma download_delivers_witness :
  exists ptr (d' : @Dev (network 0)) calls, ptr <> 0 /\
    @TA_InvokeCommandEntryPoint (network 0) flat_mmu _ (Has_fst _ _) (Has_snd _ _) short_stream
      TA_BS_DOWNLOADER_CMD_DOWNLOAD out_types (@St (network 0) _ tt [] [] ta_image) =
    bind (@invoke_command (network 0) flat_mmu _ (Has_fst _ _) PTA_ZYNQMP_FPGA_MGR_CMD_WRITE memref_types
            (Buffer ptr [1; 2; 3]))
      (fun res => bind (ext_call "TEE_Free" [ptr]) (fun _ => ret res))
      (@St (network 0) _ d' (calls ++ []) [] ta_image).
Proof.
  destruct (download_delivers (E := network 0) (MM := flat_mmu) (HV := Has_fst _ _) (HT := Has_snd _ _)
    short_stream [[1; 2; 3]] tt [] [] ta_image short_streams ltac:(simpl; lia) ltac:(done) ltac:(done) ltac:(done))
    as (ptr & d' & calls & Hp & _ & Hr).
  exists ptr, d', calls. split; [exact Hp|exact Hr].
Defined.

Lemma failed_connect_is_harmless_witness :
  exists (d' : @Dev (network 1)) calls,
    @TA_InvokeCommandEntryPoint (network 1) flat_mmu _ (Has_fst _ _) (Has_snd _ _) short_stream
      TA_BS_DOWNLOADER_CMD_DOWNLOAD out_types (@St (network 1) _ tt [] [] ta_image) =
    (Ret TEE_ERROR_BAD_FORMAT, @St (network 1) _ d' (calls ++ []) [] ta_image).
Proof.
  destruct (failed_connect_is_harmless (E := network 1) (MM := flat_mmu) (HV := Has_fst _ _) (HT := Has_snd _ _)
    short_stream tt [] [] ta_image ltac:(done) ltac:(done) ltac:(done) ltac:(done)) as (d' & calls & _ & Hr).
  exists d', calls. exact Hr.
Defined.

End BsDownloader.
