(* ===== verification/CtxMgmt.v ===== *)
(** * Saved contexts of the lower exception levels

    lib/el3_runtime/aarch64/context_mgmt.c and bl31/bl31_context_mgmt.c.  Every
    processor has one context per security state; the monitor returns to a lower
    exception level through it.  System registers are hardware: they are read and
    written by calls.  Saving and restoring the EL1 registers and the switch of
    the stack pointer are assembly: they are calls too.

    Build: HANDLE_EA_EL3_FIRST, CTX_INCLUDE_EL2_REGS, CTX_INCLUDE_PAUTH_REGS,
    CTX_INCLUDE_MTE_REGS, RAS and fault injection off, ENABLE_SPE_FOR_LOWER_ELS
    on. *)

From S2P Require Import Prelude Machine Gic CtxData IntrMgmt.
From Stdlib Require Import String.
From stdpp Require Import strings.
Import Gic IntrMgmt.
#[local] Open Scope Z_scope.
#[local] Open Scope c_scope.

Module CtxMgmt.
Export CtxData.

(** arch.h *)
Definition SCR_TWEDEL_SHIFT : Z := 30.
Definition SCR_TWEDEL_MASK : Z := 0xf.
Definition SCR_TWEDEn_BIT : Z := BIT 29.
Definition SCR_ECVEN_BIT : Z := BIT 28.
Definition SCR_FGTEN_BIT : Z := BIT 27.
Definition SCR_ATA_BIT : Z := BIT 26.
Definition SCR_EEL2_BIT : Z := BIT 18.
Definition SCR_API_BIT : Z := BIT 17.
Definition SCR_APK_BIT : Z := BIT 16.
Definition SCR_ST_BIT : Z := BIT 11.
Definition SCR_RW_BIT : Z := BIT 10.
Definition SCR_HCE_BIT : Z := BIT 8.
Definition SCR_EA_BIT : Z := BIT 3.
Definition SCR_FIQ_BIT : Z := BIT 2.
Definition SCR_IRQ_BIT : Z := BIT 1.
Definition SCR_NS_BIT : Z := BIT 0.
Definition SCTLR_EE_BIT : Z := BIT 25.
Definition SCTLR_NTWE_BIT : Z := BIT 18.
Definition SCTLR_NTWI_BIT : Z := BIT 16.
Definition SCTLR_CP15BEN_BIT : Z := BIT 5.
Definition SCTLR_EL2_RES1 : Z :=
  BIT 29 .| BIT 28 .| BIT 23 .| BIT 22 .| BIT 18 .| BIT 16 .| BIT 11 .| BIT 5 .| BIT 4.
Definition SCTLR_EL1_RES1 : Z := BIT 29 .| BIT 28 .| BIT 23 .| BIT 22 .| BIT 20 .| BIT 11.
Definition SCTLR_AARCH32_EL1_RES1 : Z := BIT 23 .| BIT 22 .| BIT 11 .| BIT 4 .| BIT 3.
Definition MODE_SP_ELX : Z := 1.
Definition MODE_RW_64 : Z := 0.
Definition MODE_RW_32 : Z := 1.
Definition MODE_EL2 : Z := 2.
Definition MODE_EL1 : Z := 1.
Definition MODE32_svc : Z := 0x3.
Definition MODE32_hyp : Z := 0xa.
Definition GET_RW (mode : Z) : Z := (mode .>> 4) .& 1.
Definition GET_EL (mode : Z) : Z := (mode .>> 2) .& 3.
Definition GET_M32 (mode : Z) : Z := (mode .>> 0) .& 0xf.
Definition DAIF_FIQ_BIT : Z := BIT 0.
Definition DAIF_IRQ_BIT : Z := BIT 1.
Definition DAIF_ABT_BIT : Z := BIT 2.
Definition DAIF_DBG_BIT : Z := BIT 3.
Definition DISABLE_ALL_EXCEPTIONS : Z := DAIF_FIQ_BIT .| DAIF_IRQ_BIT .| DAIF_ABT_BIT .| DAIF_DBG_BIT.

(** The argument of [SPSR_64] and [SPSR_MODE32] is a 64-bit mode; the result is
    stored in the 32-bit [spsr] of an entry point. *)
Definition SPSR_64 (el sp daif : Z) : Z :=
  u32 (((MODE_RW_64 .<< 4) .| ((el .& 3) .<< 2) .| ((sp .& 1) .<< 0) .| ((daif .& 0xf) .<< 6))
       .& Z.lnot (BIT 12)).
Definition SPSR_MODE32 (mode isa endian aif : Z) : Z :=
  u32 (((MODE_RW_32 .<< 4) .| ((mode .& 0xf) .<< 0) .| ((isa .& 1) .<< 5) .| ((endian .& 1) .<< 9)
        .| ((aif .& 0x7) .<< 6)) .& Z.lnot (BIT 23)).

(** ep_info.h *)
Definition EP_EE_BIG : Z := 0x2.
Definition EP_ST_DISABLE : Z := 0x0.
Definition EP_ST_ENABLE : Z := 0x4.
Definition EP_GET_EE (x : Z) : Z := x .& 0x2.
Definition EP_GET_ST (x : Z) : Z := x .& 0x4.
Definition GET_SECURITY_STATE (x : Z) : Z := x .& 0x1.

(** An entry point: its attributes, address, program status and x0 to x7. *)
Record entry_point_info := EpInfo {
  ep_attr : Z;
  ep_pc : Z;
  ep_spsr : Z;
  ep_args : list Z
}.

Section Ops.
Context `{Env} {V : Type} `{!Has gic V} `{!Has intr_mgmt V} `{!Has ctx_vars V}.

Definition read_sysreg (r : string) : M V Z := x <- ext_call r [] ;; ret (u64 x).
Definition write_sysreg (r : string) (x : Z) : M V unit := _ <- ext_call r [x] ;; ret tt.

(** arch_features.h, arch_helpers.h, spe.c *)
Definition get_armv8_5_mte_support : M V Z :=
  x <- read_sysreg "read_id_aa64pfr1_el1" ;; ret ((x .>> 8) .& 0xf).
Definition is_armv8_6_twed_present : M V bool :=
  x <- read_sysreg "read_id_aa64mmfr1_el1" ;; ret (((x .>> 32) .& 0xf) =? 1).
Definition is_armv8_6_fgt_present : M V bool :=
  x <- read_sysreg "read_id_aa64mmfr0_el1" ;; ret (((x .>> 56) .& 0xf) =? 1).
Definition get_armv8_6_ecv_support : M V Z :=
  x <- read_sysreg "read_id_aa64mmfr0_el1" ;; ret ((x .>> 60) .& 0xf).
Definition el_implemented (el : Z) : M V Z :=
  if el >? 3 then ret 0
  else x <- read_sysreg "read_id_aa64pfr0_el1" ;; ret ((x .>> (4 * el)) .& 0xf).
Definition plat_arm_set_twedel_scr_el3 : Z := 0xFFFFFFFF.
Definition TWED_DISABLED : Z := 0xFFFFFFFF.

Definition spe_supported : M V bool :=
  x <- read_sysreg "read_id_aa64dfr0_el1" ;; ret (((x .>> 32) .& 0xf) >? 0).
Definition spe_enable (el2_unused : bool) : M V unit :=
  b <- spe_supported ;;
  if negb b then ret tt
  else
    (if el2_unused then
       v <- read_sysreg "read_mdcr_el2" ;;
       write_sysreg "write_mdcr_el2" ((v .& u64 (Z.lnot (BIT 14))) .| Z.shiftl 3 12)
     else ret tt) ;;
    v <- read_sysreg "read_mdcr_el3" ;;
    write_sysreg "write_mdcr_el3" (v .| Z.shiftl 3 12).

(** SCR_EL3 bits for MTE *)
Definition scr_mte (security_state scr : Z) : M V Z :=
  mte <- get_armv8_5_mte_support ;;
  if mte =? 1 then ret (scr .| SCR_ATA_BIT)
  else if (mte =? 2) && (security_state =? NON_SECURE) then ret (scr .| SCR_ATA_BIT)
  else ret scr.

(** HVC and its companions, when the entry is at EL2 or in Hyp mode *)
Definition scr_el2 (spsr scr : Z) : M V Z :=
  if ((GET_RW spsr =? MODE_RW_64) && (GET_EL spsr =? MODE_EL2))
     || (negb (GET_RW spsr =? MODE_RW_64) && (GET_M32 spsr =? MODE32_hyp)) then
    let scr := scr .| SCR_HCE_BIT in
    fgt <- is_armv8_6_fgt_present ;;
    let scr := if (fgt : bool) then scr .| SCR_FGTEN_BIT else scr in
    ecv <- get_armv8_6_ecv_support ;;
    ret (if ecv =? 2 then scr .| SCR_ECVEN_BIT else scr)
  else ret scr.

Definition scr_twed (scr : Z) : M V Z :=
  twed <- is_armv8_6_twed_present ;;
  if (twed : bool) then
    let delay := plat_arm_set_twedel_scr_el3 in
    if negb (delay =? TWED_DISABLED) then
      c_assert ((delay .& u64 (Z.lnot SCR_TWEDEL_MASK)) =? 0) ;;
      ret ((scr .& u64 (Z.lnot (Z.shiftl SCR_TWEDEL_MASK SCR_TWEDEL_SHIFT)))
           .| Z.shiftl (delay .& SCR_TWEDEL_MASK) SCR_TWEDEL_SHIFT .| SCR_TWEDEn_BIT)
    else ret scr
  else ret scr.

Definition sctlr_of (ep : entry_point_info) : Z :=
  let sctlr := if truthy (EP_GET_EE (ep_attr ep)) then SCTLR_EE_BIT else 0 in
  if GET_RW (ep_spsr ep) =? MODE_RW_64 then sctlr .| SCTLR_EL1_RES1
  else sctlr .| SCTLR_AARCH32_EL1_RES1 .| SCTLR_CP15BEN_BIT .| SCTLR_NTWI_BIT .| SCTLR_NTWE_BIT.

(** The fields that the entry point and the security state decide. *)
Definition scr_base (ep : entry_point_info) (scr : Z) : Z :=
  let security_state := GET_SECURITY_STATE (ep_attr ep) in
  let scr := scr .& u64 (Z.lnot (SCR_NS_BIT .| SCR_RW_BIT .| SCR_FIQ_BIT .| SCR_IRQ_BIT
                                 .| SCR_ST_BIT .| SCR_HCE_BIT)) in
  let scr := if negb (security_state =? SECURE) then scr .| SCR_NS_BIT else scr in
  let scr := if GET_RW (ep_spsr ep) =? MODE_RW_64 then scr .| SCR_RW_BIT else scr in
  let scr := if truthy (EP_GET_ST (ep_attr ep)) then scr .| SCR_ST_BIT else scr in
  let scr := scr .& u64 (Z.lnot SCR_EA_BIT) in
  if security_state =? NON_SECURE then scr .| SCR_API_BIT .| SCR_APK_BIT else scr.

(** The context object is that of [cpu] and the security state of [ep]. *)
Definition cm_setup_context (cpu : Z) (ep : entry_point_info) : M V unit :=
  let security_state := GET_SECURITY_STATE (ep_attr ep) in
  cm_update cpu security_state (fun _ => zero_context) ;;
  scr <- read_sysreg "read_scr_el3" ;;
  scr <- scr_mte security_state (scr_base ep scr) ;;
  rm <- get_scr_el3_from_routing_model security_state ;;
  scr <- scr_el2 (ep_spsr ep) (scr .| rm) ;;
  scr <- (if (security_state =? SECURE) && (GET_EL (ep_spsr ep) =? MODE_EL2) then
            if negb (GET_RW (ep_spsr ep) =? MODE_RW_64) then stop Panic
            else ret (scr .| SCR_EEL2_BIT)
          else ret scr) ;;
  scr <- scr_twed scr ;;
  actlr <- read_sysreg "read_actlr_el1" ;;
  cm_update cpu security_state (fun c =>
    CpuContext (take 8 (ep_args ep) ++ drop 8 (gp_regs c)) scr (ep_pc ep) (ep_spsr ep)
               (sctlr_of ep) actlr).

Definition cm_init_context_by_index (cpu_idx : Z) (ep : entry_point_info) : M V unit :=
  cm_setup_context cpu_idx ep.
Definition cm_init_my_context (me : Z) (ep : entry_point_info) : M V unit :=
  cm_setup_context me ep.

Definition cm_el1_sysregs_context_save (me security_state : Z) : M V unit :=
  ctx <- cm_get_context_by_index me security_state ;;
  c_assert (bool_decide (is_Some ctx)) ;;
  write_sysreg "el1_sysregs_context_save" security_state.

Definition cm_el1_sysregs_context_restore (me security_state : Z) : M V unit :=
  ctx <- cm_get_context_by_index me security_state ;;
  c_assert (bool_decide (is_Some ctx)) ;;
  write_sysreg "el1_sysregs_context_restore" security_state ;;
  (* cm_entering_secure_world: spe_drain_buffers_hook *)
  if security_state =? SECURE then
    b <- spe_supported ;;
    if (b : bool) then write_sysreg "psb_csync" 0 ;; barrier else ret tt
  else ret tt.

Definition cm_set_next_eret_context (me security_state : Z) : M V unit :=
  ctx <- cm_get_context_by_index me security_state ;;
  c_assert (bool_decide (is_Some ctx)) ;;
  write_sysreg "cm_set_next_context" security_state.

Definition cm_set_elr_el3 (me security_state entrypoint : Z) : M V unit :=
  cm_update me security_state (set_elr entrypoint).

Definition cm_set_elr_spsr_el3 (me security_state entrypoint spsr : Z) : M V unit :=
  cm_update me security_state (fun c => set_spsr spsr (set_elr entrypoint c)).

(** EL2 is implemented and not used: its registers are set so that nothing
    traps there.  The masks are those of arch.h, all bits of the value 0 or as
    listed. *)
Definition disable_el2 (scr : Z) : M V unit :=
  let hcr_el2 := (if truthy (scr .& SCR_RW_BIT) then BIT 31 else 0) .| BIT 41 .| BIT 40 in
  write_sysreg "write_hcr_el2" hcr_el2 ;;
  write_sysreg "write_cptr_el2"
    ((BIT 13 .| BIT 12 .| 0x3ff) .& not32 (BIT 31 .| BIT 20 .| BIT 10)) ;;
  write_sysreg "write_cnthctl_el2" (0 .| BIT 1 .| BIT 0) ;;
  write_sysreg "write_cntvoff_el2" 0 ;;
  x <- read_sysreg "read_midr_el1" ;; write_sysreg "write_vpidr_el2" x ;;
  x <- read_sysreg "read_mpidr_el1" ;; write_sysreg "write_vmpidr_el2" x ;;
  write_sysreg "write_vttbr_el2" 0 ;;
  x <- read_sysreg "read_pmcr_el0" ;;
  write_sysreg "write_mdcr_el2"
    ((0 .| BIT 26 .| BIT 17 .| ((x .& Z.shiftl 0x1f 11) .>> 11))
     .& not32 (BIT 19 .| BIT 14 .| BIT 11 .| BIT 10 .| BIT 9 .| BIT 8 .| BIT 7 .| BIT 6 .| BIT 5)) ;;
  write_sysreg "write_hstr_el2" 0 ;;
  write_sysreg "write_cnthp_ctl_el2" 0.

Definition cm_prepare_el3_exit (me security_state : Z) : M V unit :=
  ctx <- cm_get_context_by_index me security_state ;;
  c_assert (bool_decide (is_Some ctx)) ;;
  (if security_state =? NON_SECURE then
     c <- deref ctx ;;
     let scr := ctx_scr_el3 c in
     el2_unused <-
       (if truthy (scr .& SCR_HCE_BIT) then
          write_sysreg "write_sctlr_el2" ((ctx_sctlr_el1 c .& SCTLR_EE_BIT) .| SCTLR_EL2_RES1) ;;
          ret false
        else
          el2 <- el_implemented 2 ;;
          if negb (el2 =? 0) then disable_el2 scr ;; ret true else ret false) ;;
     spe_enable el2_unused
   else ret tt) ;;
  cm_el1_sysregs_context_restore me security_state ;;
  cm_set_next_eret_context me security_state.

End Ops.
End CtxMgmt.
