(* ===== verification/Xlat.v ===== *)
(** * Translation tables of EL3

    lib/xlat_tables/xlat_tables_common.c and lib/xlat_tables/aarch64/xlat_tables.c
    with their headers, [setup_page_tables] of plat/common/plat_bl_common.c and the
    regions of this platform (zynqmp/aarch64/zynqmp_common.c).  Regions are collected
    in the array [mmap]; the tables are built from it once, and the MMU of the
    processor that boots is switched on.

    A pointer into [mmap] is the rest of the array from there on; a pointer to a
    table is the number of the table.  The addresses that the linker gives to the
    arrays are parameters.  This file holds the code, what the table walk of the
    architecture reads from such tables ([walk]) and the theorem on the collection
    of regions; [XlatWalk] shows that the walk gives what the regions say. *)

From S2P Require Import Prelude Machine CtxMgmt.
From Stdlib Require Import String.
From stdpp Require Import strings sorting.
Import CtxMgmt.
#[local] Open Scope Z_scope.
#[local] Open Scope c_scope.

Module Xlat.

(** ** Constants: xlat_tables_defs.h, xlat_tables.h, arch.h, platform_def.h *)

Definition INVALID_DESC : Z := 0x0.
Definition BLOCK_DESC : Z := 0x1.
Definition TABLE_DESC : Z := 0x3.
Definition PAGE_DESC : Z := 0x3.
Definition XN : Z := Z.shiftl 1 2.
Definition PXN : Z := Z.shiftl 1 1.
Definition UPPER_ATTRS (x : Z) : Z := Z.shiftl (x .& 0x7) 52.
Definition ACCESS_FLAG : Z := 1 .<< 8.
Definition OSH : Z := 0x2 .<< 6.
Definition ISH : Z := 0x3 .<< 6.
Definition TABLE_ADDR_MASK : Z := 0x0000FFFFFFFFF000.
Definition PAGE_SIZE_SHIFT : Z := 12.
Definition PAGE_SIZE : Z := Z.shiftl 1 PAGE_SIZE_SHIFT.
Definition PAGE_SIZE_MASK : Z := PAGE_SIZE - 1.
Definition IS_PAGE_ALIGNED (addr : Z) : bool := addr .& PAGE_SIZE_MASK =? 0.
Definition XLAT_TABLE_LEVEL_MIN : Z := 0.
Definition XLAT_TABLE_LEVEL_MAX : Z := 3.
Definition XLAT_TABLE_ENTRIES_SHIFT : Z := 9.
Definition XLAT_TABLE_ENTRIES : Z := 1 .<< XLAT_TABLE_ENTRIES_SHIFT.
Definition XLAT_TABLE_ENTRIES_MASK : Z := XLAT_TABLE_ENTRIES - 1.
Definition L0_XLAT_ADDRESS_SHIFT : Z := PAGE_SIZE_SHIFT + 3 * XLAT_TABLE_ENTRIES_SHIFT.
Definition XLAT_ADDR_SHIFT (level : Z) : Z := PAGE_SIZE_SHIFT + (XLAT_TABLE_LEVEL_MAX - level) * XLAT_TABLE_ENTRIES_SHIFT.
Definition XLAT_BLOCK_SIZE (level : Z) : Z := Z.shiftl 1 (XLAT_ADDR_SHIFT level).
Definition XLAT_BLOCK_MASK (level : Z) : Z := XLAT_BLOCK_SIZE level - 1.
Definition XLAT_TABLE_IDX (virtual_addr level : Z) : Z := (virtual_addr .>> XLAT_ADDR_SHIFT level) .& 0x1FF.
Definition AP_RO : Z := Z.shiftl 0x1 5.
Definition AP_RW : Z := Z.shiftl 0x0 5.
Definition AP_ONE_VA_RANGE_RES1 : Z := Z.shiftl 0x1 4.
Definition NS : Z := 0x1 .<< 3.
Definition ATTR_NON_CACHEABLE_INDEX : Z := 0x2.
Definition ATTR_DEVICE_INDEX : Z := 0x1.
Definition ATTR_IWBWA_OWBWA_NTR_INDEX : Z := 0x0.
Definition LOWER_ATTRS (x : Z) : Z := Z.shiftl (x .& 0xfff) 2.
Definition XLAT_BLOCK_LEVEL_MIN : Z := 1.

Definition MT_TYPE (attr : Z) : Z := attr .& 0x7.
Definition MT_DEVICE : Z := 0.
Definition MT_NON_CACHEABLE : Z := 1.
Definition MT_MEMORY : Z := 2.
Definition MT_RO : Z := 0 .<< 3.
Definition MT_RW : Z := 1 .<< 3.
Definition MT_SECURE : Z := 0 .<< 4.
Definition MT_NS : Z := 1 .<< 4.
Definition MT_EXECUTE : Z := 0 .<< 5.
Definition MT_EXECUTE_NEVER : Z := 1 .<< 5.
Definition MT_CODE : Z := MT_MEMORY .| MT_RO .| MT_EXECUTE.
Definition MT_RO_DATA : Z := MT_MEMORY .| MT_RO .| MT_EXECUTE_NEVER.

Definition PLAT_PHY_ADDR_SPACE_SIZE : Z := Z.shiftl 1 32.
Definition PLAT_VIRT_ADDR_SPACE_SIZE : Z := Z.shiftl 1 32.
Definition MAX_MMAP_REGIONS : nat := 7.
Definition MAX_XLAT_TABLES : Z := 5.
Definition MIN_VIRT_ADDR_SPACE_SIZE : Z := Z.shiftl 1 (64 - 39).
Definition MIN_VIRT_ADDR_SPACE_SIZE_TTST : Z := Z.shiftl 1 (64 - 48).
Definition MAX_VIRT_ADDR_SPACE_SIZE : Z := Z.shiftl 1 (64 - 16).
Definition IS_POWER_OF_TWO (x : Z) : bool := x .& (x - 1) =? 0.

Definition GET_XLAT_TABLE_LEVEL_BASE (sz : Z) : Z :=
  if sz >? Z.shiftl 1 L0_XLAT_ADDRESS_SHIFT then 0
  else if sz >? Z.shiftl 1 (PAGE_SIZE_SHIFT + 2 * XLAT_TABLE_ENTRIES_SHIFT) then 1
  else if sz >? Z.shiftl 1 (PAGE_SIZE_SHIFT + XLAT_TABLE_ENTRIES_SHIFT) then 2 else 3.
Definition XLAT_TABLE_LEVEL_BASE : Z := GET_XLAT_TABLE_LEVEL_BASE PLAT_VIRT_ADDR_SPACE_SIZE.
Definition NUM_BASE_LEVEL_ENTRIES : Z := PLAT_VIRT_ADDR_SPACE_SIZE .>> XLAT_ADDR_SHIFT XLAT_TABLE_LEVEL_BASE.

Definition TCR_PS_BITS_4GB : Z := 0x0.
Definition TCR_PS_BITS_64GB : Z := 0x1.
Definition TCR_PS_BITS_1TB : Z := 0x2.
Definition TCR_PS_BITS_4TB : Z := 0x3.
Definition TCR_PS_BITS_16TB : Z := 0x4.
Definition TCR_PS_BITS_256TB : Z := 0x5.
Definition TCR_EL3_RES1 : Z := Z.shiftl 1 31 .| Z.shiftl 1 23.
Definition TCR_EL3_PS_SHIFT : Z := 16.
Definition TCR_RGN_INNER_NC : Z := Z.shiftl 0x0 8.
Definition TCR_RGN_INNER_WBA : Z := Z.shiftl 0x1 8.
Definition TCR_RGN_OUTER_NC : Z := Z.shiftl 0x0 10.
Definition TCR_RGN_OUTER_WBA : Z := Z.shiftl 0x1 10.
Definition TCR_SH_NON_SHAREABLE : Z := Z.shiftl 0x0 12.
Definition TCR_SH_INNER_SHAREABLE : Z := Z.shiftl 0x3 12.
Definition SCTLR_M_BIT : Z := Z.shiftl 1 0.
Definition SCTLR_C_BIT : Z := Z.shiftl 1 2.
Definition SCTLR_WXN_BIT : Z := Z.shiftl 1 19.
Definition MAIR_ATTR_SET (attr index : Z) : Z := Z.shiftl attr (Z.shiftl index 3).
Definition ATTR_DEVICE : Z := 0x4.
Definition MAKE_MAIR_NORMAL_MEMORY (inner outer : Z) : Z := inner .| Z.shiftl outer 4.
Definition ATTR_IWBWA_OWBWA_NTR : Z := MAKE_MAIR_NORMAL_MEMORY 0xf 0xf.
Definition ATTR_NON_CACHEABLE : Z := MAKE_MAIR_NORMAL_MEMORY 0x4 0x4.
Definition DISABLE_DCACHE : Z := 1 .<< 0.
Definition XLAT_TABLE_NC : Z := 1 .<< 1.

(** Physical address ranges that ID_AA64MMFR0_EL1 encodes. *)
Definition pa_range_bits_arr : list Z := [32; 36; 40; 42; 44; 48; 52].

Definition UNSET_DESC : Z := 2 ^ 64 - 1.

(** ** Data *)

Record mmap_region := Region { base_pa : Z; base_va : Z; size : Z; attr : Z }.
Definition no_region : mmap_region := Region 0 0 0 0.

#[export] Instance mmap_region_eq_dec : EqDecision mmap_region.
Proof. solve_decision. Defined.

Definition MAP_REGION_FLAT (adr sz attr : Z) : mmap_region := Region adr adr sz attr.

(** The statics of the two files. *)
Record xlat := XlatVars {
  xlat_tables : list (list Z);
  next_xlat : Z;
  xlat_max_pa : Z;
  xlat_max_va : Z;
  execute_never_mask : Z;
  ap1_mask : Z;
  mmap : list mmap_region;
  base_xlation_table : list Z;
  tcr_ps_bits : Z
}.

Definition set_mmap l x := XlatVars (xlat_tables x) (next_xlat x) (xlat_max_pa x) (xlat_max_va x)
  (execute_never_mask x) (ap1_mask x) l (base_xlation_table x) (tcr_ps_bits x).
Definition set_max pa va x := XlatVars (xlat_tables x) (next_xlat x) pa va
  (execute_never_mask x) (ap1_mask x) (mmap x) (base_xlation_table x) (tcr_ps_bits x).
Definition set_masks xn ap1 x := XlatVars (xlat_tables x) (next_xlat x) (xlat_max_pa x) (xlat_max_va x)
  xn ap1 (mmap x) (base_xlation_table x) (tcr_ps_bits x).
Definition set_tables t x := XlatVars t (next_xlat x) (xlat_max_pa x) (xlat_max_va x)
  (execute_never_mask x) (ap1_mask x) (mmap x) (base_xlation_table x) (tcr_ps_bits x).
Definition set_next n x := XlatVars (xlat_tables x) n (xlat_max_pa x) (xlat_max_va x)
  (execute_never_mask x) (ap1_mask x) (mmap x) (base_xlation_table x) (tcr_ps_bits x).
Definition set_base t x := XlatVars (xlat_tables x) (next_xlat x) (xlat_max_pa x) (xlat_max_va x)
  (execute_never_mask x) (ap1_mask x) (mmap x) t (tcr_ps_bits x).
Definition set_ps b x := XlatVars (xlat_tables x) (next_xlat x) (xlat_max_pa x) (xlat_max_va x)
  (execute_never_mask x) (ap1_mask x) (mmap x) (base_xlation_table x) b.

(** Zeroed by the start-up code. *)
Definition xlat_zero : xlat :=
  XlatVars (repeat (repeat 0 (Z.to_nat XLAT_TABLE_ENTRIES)) (Z.to_nat MAX_XLAT_TABLES)) 0 0 0 0 0
    (replicate (S MAX_MMAP_REGIONS) no_region) (repeat 0 (Z.to_nat NUM_BASE_LEVEL_ENTRIES)) 0.

(** The tables that [table] can point to. *)
Inductive table_ptr := Base | Sub (k : Z).

(** ** xlat_tables_common.c *)

Section Ops.
Context `{Env} {V : Type} `{!Has xlat V}.
(** The addresses of [xlat_tables] and [base_xlation_table]. *)
Variables tables_at base_at : Z.

(** The assertions about the other regions of the map, up to the empty one. *)
Fixpoint check_overlaps (new : mmap_region) (mm : list mmap_region) : M V unit :=
  match mm with
  | [] => stop OutOfBounds
  | r :: mm' =>
      if size r =? 0 then ret tt
      else
        let end_pa := u64 (base_pa new + size new - 1) in
        let end_va := u64 (base_va new + size new - 1) in
        let mm_end_va := u64 (base_va r + size r - 1) in
        let fully_overlapped_va :=
          ((base_va r <=? base_va new) && (end_va <=? mm_end_va)) ||
          ((base_va new <=? base_va r) && (mm_end_va <=? end_va)) in
        (if fully_overlapped_va then
           c_assert (u64 (base_va r - base_pa r) =? u64 (base_va new - base_pa new)) ;;
           c_assert (negb (base_va new =? base_va r) || negb (size new =? size r))
         else
           let mm_end_pa := u64 (base_pa r + size r - 1) in
           let separated_pa := (end_pa <? base_pa r) || (mm_end_pa <? base_pa new) in
           let separated_va := (end_va <? base_va r) || (mm_end_va <? base_va new) in
           c_assert (separated_va && separated_pa)) ;;
        check_overlaps new mm'
  end.

(** [while ((mm->base_va < base_va) && (mm->size != 0U)) ++mm;], counting. *)
Fixpoint skip_lower (va : Z) (mm : list mmap_region) : M V nat :=
  match mm with
  | [] => stop OutOfBounds
  | r :: mm' => if (base_va r <? va) && negb (size r =? 0) then n <- skip_lower va mm' ;; ret (S n) else ret O
  end.

(** [while ((mm->base_va == base_va) && (mm->size > size)) ++mm;] *)
Fixpoint skip_outer (va sz : Z) (mm : list mmap_region) : M V nat :=
  match mm with
  | [] => stop OutOfBounds
  | r :: mm' => if (base_va r =? va) && (size r >? sz) then n <- skip_outer va sz mm' ;; ret (S n) else ret O
  end.

Definition mmap_add_region (pa va sz at_ : Z) : M V unit :=
  let end_pa := u64 (pa + sz - 1) in
  let end_va := u64 (va + sz - 1) in
  c_assert (IS_PAGE_ALIGNED pa) ;;
  c_assert (IS_PAGE_ALIGNED va) ;;
  c_assert (IS_PAGE_ALIGNED sz) ;;
  if sz =? 0 then ret tt
  else
    c_assert (pa <? end_pa) ;;
    c_assert (va <? end_va) ;;
    c_assert (u64 (va + sz - 1) <=? PLAT_VIRT_ADDR_SPACE_SIZE - 1) ;;
    c_assert (u64 (pa + sz - 1) <=? PLAT_PHY_ADDR_SPACE_SIZE - 1) ;;
    mm <- gets mmap ;;
    check_overlaps (Region pa va sz at_) mm ;;
    n <- skip_lower va mm ;;
    m <- skip_outer va sz (drop n mm) ;;
    let i := (n + m)%nat in
    (* memmove(mm + 1, mm, mm_last - mm) *)
    let moved := take (S i) mm ++ take (MAX_MMAP_REGIONS - i) (drop i mm) in
    mods (set_mmap moved) ;;
    last <- aread moved (Z.of_nat MAX_MMAP_REGIONS) ;;
    c_assert (size last =? 0) ;;
    new <- awrite moved (Z.of_nat i) (Region pa va sz at_) ;;
    mods (set_mmap new) ;;
    mods (fun x => set_max (if end_pa >? xlat_max_pa x then end_pa else xlat_max_pa x) (xlat_max_va x) x) ;;
    mods (fun x => set_max (xlat_max_pa x) (if end_va >? xlat_max_va x then end_va else xlat_max_va x) x).

(** The cursor stops at an entry without size and attributes. *)
Fixpoint mmap_add (mm : list mmap_region) : M V unit :=
  match mm with
  | [] => stop OutOfBounds
  | r :: mm' =>
      if negb (size r =? 0) || negb (attr r =? 0) then
        mmap_add_region (base_pa r) (base_va r) (size r) (attr r) ;; mmap_add mm'
      else ret tt
  end.

Definition mmap_desc (at_ addr_pa level : Z) : M V Z :=
  c_assert (addr_pa .& XLAT_BLOCK_MASK level =? 0) ;;
  x <- gets id ;;
  let desc := addr_pa in
  let desc := desc .| (if level =? XLAT_TABLE_LEVEL_MAX then PAGE_DESC else BLOCK_DESC) in
  let desc := desc .| (if truthy (at_ .& MT_NS) then LOWER_ATTRS NS else 0) in
  let desc := desc .| (if truthy (at_ .& MT_RW) then LOWER_ATTRS AP_RW else LOWER_ATTRS AP_RO) in
  let desc := desc .| LOWER_ATTRS ACCESS_FLAG in
  let desc := desc .| ap1_mask x in
  let mem_type := MT_TYPE at_ in
  if mem_type =? MT_DEVICE then
    let desc := desc .| LOWER_ATTRS (ATTR_DEVICE_INDEX .| OSH) in
    ret (desc .| execute_never_mask x)
  else
    let desc := if truthy (at_ .& MT_RW) || truthy (at_ .& MT_EXECUTE_NEVER) then desc .| execute_never_mask x else desc in
    if mem_type =? MT_MEMORY then ret (desc .| LOWER_ATTRS (ATTR_IWBWA_OWBWA_NTR_INDEX .| ISH))
    else
      c_assert (mem_type =? MT_NON_CACHEABLE) ;;
      ret (desc .| LOWER_ATTRS (ATTR_NON_CACHEABLE_INDEX .| OSH)).

(** [found] is [*attr] once [ret] is 0; the result [None] is MT_UNKNOWN. *)
Fixpoint mmap_region_attr (mm : list mmap_region) (va sz : Z) (found : option Z) : M V (option Z) :=
  match mm with
  | [] => stop OutOfBounds
  | r :: mm' =>
      if size r =? 0 then ret found
      else if base_va r >? u64 (va + sz - 1) then ret found
      else if u64 (base_va r + size r - 1) <? va then mmap_region_attr mm' va sz found
      else if bool_decide (found = Some (attr r)) then mmap_region_attr mm' va sz found
      else if (base_va r >? va) || (u64 (base_va r + size r - 1) <? u64 (va + sz - 1)) then ret None
      else mmap_region_attr mm' va sz (Some (attr r))
  end.

(** [*table = desc] at entry [i] of a table. *)
Definition store_desc (table : table_ptr) (i desc : Z) : M V unit :=
  x <- gets id ;;
  match table with
  | Base => t <- awrite (base_xlation_table x) i desc ;; mods (set_base t)
  | Sub k =>
      row <- aread (xlat_tables x) k ;;
      row' <- awrite row i desc ;;
      rows <- awrite (xlat_tables x) k row' ;;
      mods (set_tables rows)
  end.

Definition level_size_shift (level : Z) : Z := L0_XLAT_ADDRESS_SHIFT - level * XLAT_TABLE_ENTRIES_SHIFT.

(** The descriptor of an area without looking at finer tables. *)
Definition area_desc (mm : list mmap_region) (r : mmap_region) (va level level_size : Z) : M V Z :=
  let desc := if size r =? 0 then INVALID_DESC else UNSET_DESC in
  if base_va r >? u64 (va + level_size - 1) then ret INVALID_DESC
  else if level >=? XLAT_BLOCK_LEVEL_MIN then
    a <- mmap_region_attr mm va level_size None ;;
    match a with
    | Some at_ => mmap_desc at_ (u64 (va - base_va r + base_pa r)) level
    | None => ret desc
    end
  else ret desc.

(** The loop of [init_xlation_table_inner]; [inner] is the recursive call.  A
    [continue] goes to the condition of the loop. *)
Fixpoint table_loop (fuel : nat) (inner : list mmap_region -> Z -> table_ptr -> M V (list mmap_region))
    (level : Z) (table : table_ptr) (mm : list mmap_region) (va i : Z) : M V (list mmap_region) :=
  match fuel with
  | O => stop StillPolling
  | S fuel' =>
      let level_size := Z.shiftl 1 (level_size_shift level) in
      let level_index_mask := Z.shiftl XLAT_TABLE_ENTRIES_MASK (level_size_shift level) in
      let next mm va i :=
        if truthy (va .& level_index_mask) && (u64 (va - 1) <? PLAT_VIRT_ADDR_SPACE_SIZE - 1)
        then table_loop fuel' inner level table mm va i else ret mm in
      match mm with
      | [] => stop OutOfBounds
      | r :: mm' =>
          if negb (size r =? 0) && (u64 (base_va r + size r - 1) <? va) then next mm' va i
          else
            desc <- area_desc mm r va level level_size ;;
            if desc =? UNSET_DESC then
              n <- gets next_xlat ;;
              mods (set_next (u32 (n + 1))) ;;
              c_assert (u32 (n + 1) <=? MAX_XLAT_TABLES) ;;
              mm <- inner mm va (Sub n) ;;
              store_desc table i (TABLE_DESC .| u64 (tables_at + PAGE_SIZE * n)) ;;
              next mm (u64 (va + level_size)) (i + 1)
            else
              store_desc table i desc ;;
              next mm (u64 (va + level_size)) (i + 1)
      end
  end.

(** Turns of the loop: every turn writes an entry or passes a region. *)
Definition table_turns : nat := Z.to_nat XLAT_TABLE_ENTRIES + S MAX_MMAP_REGIONS.

Fixpoint init_xlation_table_inner (depth : nat) (mm : list mmap_region) (va : Z) (table : table_ptr) (level : Z) :
    M V (list mmap_region) :=
  c_assert ((XLAT_TABLE_LEVEL_MIN <=? level) && (level <=? XLAT_TABLE_LEVEL_MAX)) ;;
  match depth with
  | O => stop StillPolling
  | S depth' =>
      table_loop table_turns (fun mm va table => init_xlation_table_inner depth' mm va table (level + 1))
        level table mm va 0
  end.

Definition xlat_arch_current_el : M V Z :=
  el <- read_sysreg "read_CurrentEl" ;;
  c_assert (GET_EL el >? 0) ;;
  ret (GET_EL el).

Definition xlat_arch_get_xn_desc (el : Z) : M V Z :=
  if el =? 3 then ret (UPPER_ATTRS XN)
  else c_assert (el =? 1) ;; ret (UPPER_ATTRS PXN).

(** The calls are at most four deep: one per level from 0 to 3, and one at which the
    assertion about the level fails. *)
Definition init_xlation_table (va : Z) (table : table_ptr) (level : Z) : M V (Z * Z) :=
  el <- xlat_arch_current_el ;;
  xn <- xlat_arch_get_xn_desc el ;;
  mods (fun x => set_masks xn (ap1_mask x) x) ;;
  (if el =? 3 then mods (fun x => set_masks (execute_never_mask x) (LOWER_ATTRS AP_ONE_VA_RANGE_RES1) x)
   else c_assert (el =? 1) ;; mods (fun x => set_masks (execute_never_mask x) 0 x)) ;;
  mm <- gets mmap ;;
  _ <- init_xlation_table_inner 5 mm va table level ;;
  gets (fun x => (xlat_max_va x, xlat_max_pa x)).

(** ** aarch64/xlat_tables.c *)

Definition calc_physical_addr_size_bits (max_addr : Z) : M V Z :=
  c_assert (max_addr .& 0xFFFF000000000000 =? 0) ;;
  if truthy (max_addr .& 0x0000F00000000000) then ret TCR_PS_BITS_256TB
  else if truthy (max_addr .& 0x00000C0000000000) then ret TCR_PS_BITS_16TB
  else if truthy (max_addr .& 0x0000030000000000) then ret TCR_PS_BITS_4TB
  else if truthy (max_addr .& 0x000000F000000000) then ret TCR_PS_BITS_1TB
  else if truthy (max_addr .& 0x0000000F00000000) then ret TCR_PS_BITS_64GB
  else ret TCR_PS_BITS_4GB.

Definition get_max_supported_pa : M V Z :=
  mmfr0 <- read_sysreg "read_id_aa64mmfr0_el1" ;;
  let pa_range := mmfr0 .& 0xf in
  c_assert (pa_range <? Z.of_nat (length pa_range_bits_arr)) ;;
  bits <- aread pa_range_bits_arr pa_range ;;
  ret (u64 (Z.shiftl 1 bits - 1)).

Definition is_armv8_4_ttst_present : M V bool :=
  mmfr2 <- read_sysreg "read_id_aa64mmfr2_el1" ;; ret (((mmfr2 .>> 28) .& 0xf) =? 1).

Definition xlat_get_min_virt_addr_space_size : M V Z :=
  ttst <- is_armv8_4_ttst_present ;;
  ret (if (ttst : bool) then MIN_VIRT_ADDR_SPACE_SIZE_TTST else MIN_VIRT_ADDR_SPACE_SIZE).

Definition init_xlat_tables : M V unit :=
  min <- xlat_get_min_virt_addr_space_size ;;
  c_assert (PLAT_VIRT_ADDR_SPACE_SIZE >=? min - 1) ;;
  c_assert (PLAT_VIRT_ADDR_SPACE_SIZE <=? MAX_VIRT_ADDR_SPACE_SIZE) ;;
  c_assert (IS_POWER_OF_TWO PLAT_VIRT_ADDR_SPACE_SIZE) ;;
  let* (max_va, max_pa) := init_xlation_table 0 Base XLAT_TABLE_LEVEL_BASE in
  c_assert (max_va <=? PLAT_VIRT_ADDR_SPACE_SIZE - 1) ;;
  c_assert (max_pa <=? PLAT_PHY_ADDR_SPACE_SIZE - 1) ;;
  supported <- get_max_supported_pa ;;
  c_assert (PLAT_PHY_ADDR_SPACE_SIZE - 1 <=? supported) ;;
  bits <- calc_physical_addr_size_bits max_pa ;;
  mods (set_ps bits).

Definition enable_mmu_el3 (flags : Z) : M V unit :=
  el <- read_sysreg "read_CurrentEl" ;;
  c_assert (GET_EL el =? 3) ;;
  sctlr <- read_sysreg "read_sctlr_el3" ;;
  c_assert (sctlr .& SCTLR_M_BIT =? 0) ;;
  let mair := MAIR_ATTR_SET ATTR_DEVICE ATTR_DEVICE_INDEX in
  let mair := mair .| MAIR_ATTR_SET ATTR_IWBWA_OWBWA_NTR ATTR_IWBWA_OWBWA_NTR_INDEX in
  let mair := mair .| MAIR_ATTR_SET ATTR_NON_CACHEABLE ATTR_NON_CACHEABLE_INDEX in
  write_sysreg "write_mair_el3" mair ;;
  _ <- ext_call "tlbialle3" [] ;;
  ps <- gets tcr_ps_bits ;;
  let t0sz := 64 - 32 in
  let tcr := if truthy (flags .& XLAT_TABLE_NC)
             then TCR_SH_NON_SHAREABLE .| TCR_RGN_OUTER_NC .| TCR_RGN_INNER_NC .| t0sz
             else TCR_SH_INNER_SHAREABLE .| TCR_RGN_OUTER_WBA .| TCR_RGN_INNER_WBA .| t0sz in
  let tcr := tcr .| TCR_EL3_RES1 .| u64 (Z.shiftl ps TCR_EL3_PS_SHIFT) in
  write_sysreg "write_tcr_el3" tcr ;;
  write_sysreg "write_ttbr0_el3" base_at ;;
  barrier ;; barrier ;;
  sctlr <- read_sysreg "read_sctlr_el3" ;;
  let sctlr := u32 sctlr .| SCTLR_WXN_BIT .| SCTLR_M_BIT in
  let sctlr := if truthy (flags .& DISABLE_DCACHE) then sctlr .& not32 SCTLR_C_BIT else sctlr .| SCTLR_C_BIT in
  write_sysreg "write_sctlr_el3" sctlr ;;
  barrier.

(** ** plat/common/plat_bl_common.c *)

Definition setup_page_tables (bl_regions plat_regions : list mmap_region) : M V unit :=
  mmap_add bl_regions ;;
  mmap_add plat_regions ;;
  init_xlat_tables.

End Ops.

(** ** The processor

    It runs at EL3, encodes a physical address range that the architecture defines,
    and keeps SCTLR_EL3 until it is written. *)
Class El3Cpu `{Env} := {
  at_el3 : forall d, GET_EL (u64 (hw_call "read_CurrentEl" [] d).1) = 3;
  pa_range_known : forall d, u64 (hw_call "read_id_aa64mmfr0_el1" [] d).1 .& 0xf <= 6;
  sctlr_el3 : Dev -> Z;
  sctlr_read : forall d, (hw_call "read_sctlr_el3" [] d).1 = sctlr_el3 d;
  sctlr_keep_read : forall w a d, sctlr_el3 (hw_read w a d).2 = sctlr_el3 d;
  sctlr_keep_write : forall w a z d, sctlr_el3 (hw_write w a z d) = sctlr_el3 d;
  sctlr_keep_call : forall f args d, f <> "write_sctlr_el3" -> sctlr_el3 (hw_call f args d).2 = sctlr_el3 d
}.

(** ** The table walk of the architecture

    The translation of a 32-bit address of EL3 with 4 KB granules, as the Armv8-A
    manual defines it for the formats that xlat_tables_defs.h names. *)

(** What a leaf descriptor allows: AP[2], XN, NS, AttrIndx and SH. *)
Record access := Access {
  writable : bool; exec_never : bool; non_secure : bool; attr_index : Z; shareability : Z
}.

Definition access_of (desc : Z) : access :=
  Access (negb (Z.testbit desc 7)) (Z.testbit desc 54) (Z.testbit desc 5) ((desc .>> 2) .& 7) ((desc .>> 8) .& 3).

(** With SCTLR_EL3.WXN set, nothing writable can be executed. *)
Definition executable (a : access) : bool := negb (exec_never a) && negb (writable a).

(** A block or page: faults without the access flag. *)
Definition leaf (level desc va : Z) : option (Z * access) :=
  if Z.testbit desc 10
  then Some (Z.ldiff (desc .& TABLE_ADDR_MASK) (XLAT_BLOCK_MASK level) + va .& XLAT_BLOCK_MASK level, access_of desc)
  else None.

Section Walk.
Variable tables_at : Z.

(** The table at a physical address. *)
Definition table_at (x : xlat) (addr : Z) : option (list Z) :=
  if (addr - tables_at) mod PAGE_SIZE =? 0
  then if 0 <=? addr - tables_at then xlat_tables x !! Z.to_nat ((addr - tables_at) / PAGE_SIZE) else None
  else None.

Fixpoint walk_desc (depth : nat) (x : xlat) (level desc va : Z) : option (Z * access) :=
  if negb (Z.testbit desc 0) then None
  else if level =? XLAT_TABLE_LEVEL_MAX then (if Z.testbit desc 1 then leaf level desc va else None)
  else if Z.testbit desc 1 then
    match depth with
    | O => None
    | S depth' =>
        match table_at x (desc .& TABLE_ADDR_MASK) with
        | None => None
        | Some t =>
            match t !! Z.to_nat (XLAT_TABLE_IDX va (level + 1)) with
            | None => None
            | Some d => walk_desc depth' x (level + 1) d va
            end
        end
    end
  else leaf level desc va.

(** From the base table; addresses past the configured size fault. *)
Definition walk (x : xlat) (va : Z) : option (Z * access) :=
  if (0 <=? va) && (va <? PLAT_VIRT_ADDR_SPACE_SIZE) then
    match base_xlation_table x !! Z.to_nat (XLAT_TABLE_IDX va XLAT_TABLE_LEVEL_BASE) with
    | None => None
    | Some d => walk_desc 3 x XLAT_TABLE_LEVEL_BASE d va
    end
  else None.

End Walk.

(** ** The map of regions *)

Definition last_va (r : mmap_region) : Z := base_va r + size r - 1.
Definition last_pa (r : mmap_region) : Z := base_pa r + size r - 1.
Definition offset (r : mmap_region) : Z := base_va r - base_pa r.
Definition contains (r : mmap_region) (va : Z) : Prop := base_va r <= va <= last_va r.
#[export] Instance contains_dec r va : Decision (contains r va).
Proof. unfold contains. solve_decision. Defined.

Record region_ok (r : mmap_region) : Prop := {
  ok_pa : 0 <= base_pa r /\ base_pa r + size r <= 2 ^ 32;
  ok_va : 0 <= base_va r /\ base_va r + size r <= 2 ^ 32;
  ok_size : 0 < size r;
  ok_aligned : (4096 | base_pa r) /\ (4096 | base_va r) /\ (4096 | size r)
}.

(** Region [b] may follow [a] in the map: it is inside [a] with the same offset, and
    not the same area, or it is above [a] and their physical areas are apart. *)
Definition nested (a b : mmap_region) : Prop :=
  last_va b <= last_va a /\ offset a = offset b /\ (base_va a <> base_va b \/ size a <> size b).
Definition apart (a b : mmap_region) : Prop :=
  last_va a < base_va b /\ (last_pa a < base_pa b \/ last_pa b < base_pa a).
Definition before (a b : mmap_region) : Prop := base_va a <= base_va b /\ (nested a b \/ apart a b).
#[export] Instance before_dec a b : Decision (before a b).
Proof. unfold before, nested, apart. solve_decision. Defined.

(** The contents of the array for a list of regions. *)
Definition map_of (regs : list mmap_region) : list mmap_region :=
  regs ++ replicate (S MAX_MMAP_REGIONS - length regs) no_region.

Record well_mapped (regs : list mmap_region) (mm : list mmap_region) : Prop := {
  wm_array : mm = map_of regs;
  wm_room : (length regs <= MAX_MMAP_REGIONS)%nat;
  wm_ok : Forall region_ok regs;
  wm_sorted : StronglySorted before regs
}.

(** What the assertions ask of a new region. *)
Definition admissible (regs : list mmap_region) (new : mmap_region) : Prop :=
  region_ok new /\ Forall (fun r => before r new \/ before new r) regs.

Definition noted (new : mmap_region) (x : xlat) : xlat :=
  set_max (Z.max (last_pa new) (xlat_max_pa x)) (Z.max (last_va new) (xlat_max_va x)) x.

Lemma u64_small z : 0 <= z < 2 ^ 64 -> u64 z = z.
Proof. apply Z.mod_small. Qed.

Lemma aligned_spec a : IS_PAGE_ALIGNED a = true <-> (4096 | a).
Proof.
  unfold IS_PAGE_ALIGNED, PAGE_SIZE_MASK, PAGE_SIZE, PAGE_SIZE_SHIFT. change (Z.shiftl 1 12 - 1) with (Z.ones 12).
  rewrite Z.land_ones, Z.eqb_eq by lia. change (2 ^ 12) with 4096. apply Z.mod_divide. lia.
Qed.

(** The overlap of two good regions, as the code tests it. *)
Lemma overlap_test (r new : mmap_region) : region_ok r -> region_ok new ->
  let fully := ((base_va r <=? base_va new) && (last_va new <=? last_va r)) ||
               ((base_va new <=? base_va r) && (last_va r <=? last_va new)) in
  (before r new \/ before new r) <->
  if fully then u64 (base_va r - base_pa r) = u64 (base_va new - base_pa new) /\
                (base_va new <> base_va r \/ size new <> size r)
  else (last_va new < base_va r \/ last_va r < base_va new) /\ (last_pa new < base_pa r \/ last_pa r < base_pa new).
Proof.
  intros [[] [] ? _] [[] [] ? _]. cbv zeta.
  assert (Hoff : u64 (base_va r - base_pa r) = u64 (base_va new - base_pa new) <-> offset r = offset new).
  { unfold offset, u64. split; [|by intros ->]. intros He.
    pose proof (Z.div_mod (base_va r - base_pa r) (2 ^ 64) ltac:(lia)).
    pose proof (Z.div_mod (base_va new - base_pa new) (2 ^ 64) ltac:(lia)). nia. }
  match goal with |- context [if ?b then _ else _] => destruct b eqn:Hb end; [rewrite Hoff|];
    unfold before, nested, apart, last_va, last_pa, offset in *; lia.
Qed.

Section Insert.
Context `{Env} {V : Type} `{!Has xlat V}.
Implicit Types (d : Dev) (l : list event) (h : list lock_id) (v : V) (regs : list mmap_region).

Lemma run_assert_bool {B} (b : bool) (k : unit -> M V B) s :
  bind (c_assert b) k s = if b then k tt s else (Halt AssertFail, s).
Proof. by destruct b. Qed.

(** The comparison with the other regions. *)
Lemma check_overlaps_run new regs n (s : st V) : region_ok new -> Forall region_ok regs ->
  check_overlaps new (regs ++ no_region :: n) s =
  if bool_decide (Forall (fun r => before r new \/ before new r) regs) then (Ret tt, s) else (Halt AssertFail, s).
Proof.
  intros Hnew. induction regs as [|r regs IH]; intros Hok; simpl; [done|].
  apply Forall_cons in Hok as [Hr Hok]. specialize (IH Hok).
  pose proof (overlap_test r new Hr Hnew) as Ht. destruct Hr as [[] [] ? _], (Hnew) as [[] [] ? _].
  assert (Hs : (size r =? 0) = false) by lia. rewrite Hs.
  rewrite (u64_small (base_va r + size r - 1)), (u64_small (base_va new + size new - 1)) by lia.
  rewrite (u64_small (base_pa r + size r - 1)), (u64_small (base_pa new + size new - 1)) by lia.
  fold (last_va r) (last_va new) (last_pa r) (last_pa new). cbv zeta in Ht.
  rewrite (bool_decide_ext _ _ (Forall_cons _ _ _)), bool_decide_and.
  match goal with |- bind (if ?b then _ else _) _ _ = _ => destruct b end.
  - rewrite bind_assoc, run_assert_bool. rewrite (bool_decide_ext _ _ Ht), bool_decide_and.
    destruct (Z.eqb_spec (u64 (base_va r - base_pa r)) (u64 (base_va new - base_pa new))) as [He|He].
    2:{ rewrite (bool_decide_eq_false_2 _ He). done. }
    rewrite (bool_decide_eq_true_2 _ He), run_assert_bool, IH. simpl.
    match goal with |- (if ?b then _ else _) = _ => destruct b eqn:Hb end.
    + assert (Hx : base_va new <> base_va r \/ size new <> size r) by (clear Ht; lia). by rewrite (bool_decide_eq_true_2 _ Hx).
    + assert (Hx : ~ (base_va new <> base_va r \/ size new <> size r)) by (clear Ht; lia). by rewrite (bool_decide_eq_false_2 _ Hx).
  - rewrite run_assert_bool, (bool_decide_ext _ _ Ht), IH.
    match goal with |- (if ?b then _ else _) = _ => destruct b eqn:Hb end.
    + match goal with |- context [bool_decide (?A /\ ?B) && _] => assert (Hx : A /\ B) by (clear Ht; lia) end.
      by rewrite (bool_decide_eq_true_2 _ Hx).
    + match goal with |- context [bool_decide (?A /\ ?B) && _] => assert (Hx : ~ (A /\ B)) by (clear Ht; lia) end.
      by rewrite (bool_decide_eq_false_2 _ Hx).
Qed.

(** The two searches for the place. *)
Lemma skip_lower_run va regs n (s : st V) : Forall region_ok regs -> exists pre post, regs = pre ++ post /\
  skip_lower va (regs ++ no_region :: n) s = (Ret (length pre), s) /\
  Forall (fun r => base_va r < va) pre /\ (forall r, head post = Some r -> va <= base_va r).
Proof.
  induction regs as [|r regs IH]; intros Hok.
  { exists [], []. split; [done|]. split; [|done]. simpl. by rewrite andb_false_r. }
  apply Forall_cons in Hok as [[_ _ Hs _] Hok]. destruct (IH Hok) as (pre & post & -> & E & Hpre & Hpost).
  simpl. destruct (Z.ltb_spec (base_va r) va) as [Hlt|Hge].
  - exists (r :: pre), post. split; [done|]. split; [|by auto].
    assert ((size r =? 0) = false) as -> by lia. simpl. by rewrite (bind_run _ _ _ _ _ E).
  - exists [], (r :: pre ++ post). split; [done|]. split; [done|]. split; [done|]. by intros ? [= <-].
Qed.

Lemma skip_outer_run va sz regs n (s : st V) : 0 <= sz -> exists pre post, regs = pre ++ post /\
  skip_outer va sz (regs ++ no_region :: n) s = (Ret (length pre), s) /\
  Forall (fun r => base_va r = va /\ sz < size r) pre /\
  (forall r, head post = Some r -> base_va r = va -> size r <= sz).
Proof.
  intros Hsz. induction regs as [|r regs IH].
  { exists [], []. split; [done|]. split; [|done]. simpl. assert ((0 >? sz) = false) as -> by lia. by rewrite andb_false_r. }
  destruct IH as (pre & post & -> & E & Hpre & Hpost).
  simpl. destruct ((base_va r =? va) && (size r >? sz)) eqn:Hb.
  - exists (r :: pre), post. split; [done|]. split; [by rewrite (bind_run _ _ _ _ _ E)|].
    split; [constructor; [lia|done]|done].
  - exists [], (r :: pre ++ post). split; [done|]. split; [done|]. split; [done|]. intros ? [= <-]. lia.
Qed.

(** The place keeps the order. *)
Lemma insert_sorted pre post new :
  StronglySorted before (pre ++ post) -> Forall (fun r => before r new \/ before new r) (pre ++ post) ->
  Forall region_ok (pre ++ post) -> region_ok new ->
  Forall (fun r => base_va r < base_va new \/ base_va r = base_va new /\ size new < size r) pre ->
  (forall r, head post = Some r -> base_va new <= base_va r /\ (base_va r = base_va new -> size r <= size new)) ->
  StronglySorted before (pre ++ new :: post).
Proof.
  intros Hss Hc Hok [[] [] ? _] Hpre Hpost. apply StronglySorted_app in Hss as (Hcross & Hspre & Hspost).
  apply Forall_app in Hc as [Hc1 Hc2], Hok as [Hok1 Hok2]. rewrite Forall_forall in *.
  assert (Hall : forall r, r ∈ post -> base_va new <= base_va r /\ (base_va r = base_va new -> size r <= size new)).
  { intros r Hr. destruct post as [|q post]; [by apply not_elem_of_nil in Hr|]. specialize (Hpost q eq_refl).
    apply elem_of_cons in Hr as [->|Hr]; [done|]. apply StronglySorted_cons in Hspost as [Hq _].
    rewrite Forall_forall in Hq. specialize (Hq r Hr). destruct (Hok2 q) as [_ _ ? _]; [by left|].
    unfold before, nested, apart, last_va in Hq. lia. }
  apply StronglySorted_app. split; [|split; [done|]].
  - intros r q Hr [->|Hq]%elem_of_cons; [|by apply Hcross].
    specialize (Hpre r Hr). destruct (Hc1 r Hr) as [Hb|Hb]; [done|]. destruct (Hok1 r Hr) as [[] [] ? _].
    unfold before, nested, apart, last_va in *. lia.
  - apply StronglySorted_cons. split; [|done]. apply Forall_forall. intros q Hq.
    specialize (Hall q Hq). destruct (Hc2 q Hq) as [Hb|Hb]; [|done]. destruct (Hok2 q Hq) as [[] [] ? _].
    unfold before, nested, apart, last_va, last_pa, offset in *. lia.
Qed.

(** The move and the write put the region in its place, when there is room. *)
Lemma memmove_map pre post new : (length (pre ++ post) < MAX_MMAP_REGIONS)%nat ->
  let mm := map_of (pre ++ post) in let i := length pre in
  let moved := take (S i) mm ++ take (MAX_MMAP_REGIONS - i) (drop i mm) in
  moved !! MAX_MMAP_REGIONS = Some no_region /\ length moved = S MAX_MMAP_REGIONS /\
  <[i := new]> moved = map_of (pre ++ new :: post).
Proof.
  intros Hl mm i moved. rewrite length_app in Hl. unfold MAX_MMAP_REGIONS in *.
  assert (Hmoved : exists y, moved = pre ++ y :: post ++ replicate (7 - length pre - length post) no_region).
  { unfold moved, i, mm, map_of. rewrite <- app_assoc, drop_app_length, length_app. replace (S (length pre)) with (length pre + 1)%nat by lia.
    unfold MAX_MMAP_REGIONS.
    rewrite take_app_add, (take_app_ge post _ (7 - length pre)) by lia. rewrite take_replicate, Nat.min_l by lia.
    destruct (post ++ replicate (8 - (length pre + length post)) no_region) as [|y q] eqn:Hq.
    { apply (f_equal length) in Hq. rewrite length_app, length_replicate in Hq. simpl in Hq. lia. }
    exists y. simpl. by rewrite <- app_assoc. }
  destruct Hmoved as [y ->]. split; [|split].
  - rewrite lookup_app_r, lookup_cons_ne_0, lookup_app_r by lia. apply lookup_replicate. split; [done|lia].
  - rewrite length_app. simpl. rewrite length_app, length_replicate. lia.
  - unfold i, map_of. replace (length pre) with (length pre + 0)%nat at 1 by lia. rewrite insert_app_r. simpl.
    rewrite <- app_assoc, length_app. simpl. unfold MAX_MMAP_REGIONS. do 4 f_equal. lia.
Qed.

(** The assertions about the new region alone. *)
Lemma region_asserts new : 0 <= base_pa new < 2 ^ 64 -> 0 <= base_va new < 2 ^ 64 -> 0 < size new < 2 ^ 64 ->
  region_ok new <->
  IS_PAGE_ALIGNED (base_pa new) = true /\ IS_PAGE_ALIGNED (base_va new) = true /\ IS_PAGE_ALIGNED (size new) = true /\
  base_pa new < u64 (last_pa new) /\ base_va new < u64 (last_va new) /\
  u64 (last_va new) <= PLAT_VIRT_ADDR_SPACE_SIZE - 1 /\ u64 (last_pa new) <= PLAT_PHY_ADDR_SPACE_SIZE - 1.
Proof.
  intros Hpa Hva Hsz. change PLAT_VIRT_ADDR_SPACE_SIZE with (2 ^ 32). change PLAT_PHY_ADDR_SPACE_SIZE with (2 ^ 32).
  rewrite !aligned_spec. unfold last_va, last_pa. split.
  - intros [[] [] ? (? & ? & Ha)]. assert (4096 <= size new) by (by apply Z.divide_pos_le).
    rewrite !u64_small by lia. repeat split; try done; lia.
  - assert (Hw : forall b, 0 <= b < 2 ^ 64 -> b < u64 (b + size new - 1) -> u64 (b + size new - 1) = b + size new - 1).
    { intros b Hb Hlt. unfold u64 in *. pose proof (Z.div_mod (b + size new - 1) (2 ^ 64) ltac:(lia)).
      pose proof (Z.mod_pos_bound (b + size new - 1) (2 ^ 64) ltac:(lia)). nia. }
    intros (? & ? & ? & H1 & H2 & H3 & H4). pose proof (Hw _ Hpa H1). pose proof (Hw _ Hva H2).
    split; [lia|lia|lia|done].
Qed.

(** Adding a region, when there is room for one more.  A region is taken exactly when
    it lies in the 32-bit spaces, on page boundaries, and is nested in, around or
    apart from every other one. *)
Lemma mmap_add_region_run regs pa va sz at_ d l h v :
  well_mapped regs (mmap (sget v)) -> (length regs < MAX_MMAP_REGIONS)%nat ->
  0 <= pa < 2 ^ 64 -> 0 <= va < 2 ^ 64 -> 0 < sz < 2 ^ 64 ->
  let new := Region pa va sz at_ in
  (admissible regs new -> exists pre post, regs = pre ++ post /\
     well_mapped (pre ++ new :: post) (map_of (pre ++ new :: post)) /\
     mmap_add_region pa va sz at_ (St d l h v) =
       (Ret tt, St d l h (sput (noted new (set_mmap (map_of (pre ++ new :: post)) (sget v))) v))) /\
  (~ admissible regs new -> mmap_add_region pa va sz at_ (St d l h v) = (Halt AssertFail, St d l h v)).
Proof.
  intros [Hmm Hroom Hok Hss] Hl Hpa Hva Hsz new.
  pose proof (region_asserts new Hpa Hva Hsz) as Hasserts.
  assert (Hs0 : (sz =? 0) = false) by lia.
  assert (Hmap : map_of regs = regs ++ no_region :: replicate (MAX_MMAP_REGIONS - length regs) no_region).
  { unfold map_of. by replace (S MAX_MMAP_REGIONS - length regs)%nat with (S (MAX_MMAP_REGIONS - length regs)) by lia. }
  unfold mmap_add_region. change (u64 (pa + sz - 1)) with (u64 (last_pa new)). change (u64 (va + sz - 1)) with (u64 (last_va new)).
  split.
  - intros [Hnew Hc]. destruct (proj1 Hasserts Hnew) as (A1 & A2 & A3 & A4 & A5 & A6 & A7).
    apply Z.ltb_lt in A4, A5. apply Z.leb_le in A6, A7. cbn [base_pa base_va size new] in A1, A2, A3, A4, A5, A6, A7.
    rewrite A1, A2, A3, A4, A5, A6, A7, Hs0. run. rewrite Hmm, Hmap.
    set (zeros := replicate (MAX_MMAP_REGIONS - length regs) no_region).
    pose proof (check_overlaps_run new regs zeros (St d l h v) Hnew Hok) as E0.
    rewrite bool_decide_eq_true_2 in E0 by done. rewrite (bind_run _ _ _ _ _ E0).
    destruct (skip_lower_run va regs zeros (St d l h v) Hok) as (pre & post & Hregs & E1 & Hpre & Hpost).
    rewrite (bind_run _ _ _ _ _ E1).
    replace (drop (length pre) (regs ++ no_region :: zeros)) with (post ++ no_region :: zeros)
      by (by rewrite Hregs, <- app_assoc, drop_app_length).
    destruct (skip_outer_run va sz post zeros (St d l h v)) as (pre' & post' & Hpost'' & E2 & Hpre' & Hpost'); [lia|].
    rewrite (bind_run _ _ _ _ _ E2). unfold zeros. rewrite <- Hmap, <- length_app.
    subst post. rewrite app_assoc in Hregs.
    destruct (memmove_map (pre ++ pre') post' new) as (M1 & M2 & M3); [by rewrite <- Hregs|].
    rewrite <- Hregs in M1, M2, M3. run. unfold aread. change (Z.of_nat MAX_MMAP_REGIONS <? 0) with false.
    rewrite Nat2Z.id, M1. run. unfold awrite. fold new. rewrite Nat2Z.id, M2, M3.
    assert (Hin : (0 <=? Z.of_nat (length (pre ++ pre'))) && (Z.of_nat (length (pre ++ pre')) <? Z.of_nat (S MAX_MMAP_REGIONS)) = true).
    { assert (length regs = length (pre ++ pre') + length post')%nat by (by rewrite Hregs, length_app). 
      change (Z.of_nat (S MAX_MMAP_REGIONS)) with 8. unfold MAX_MMAP_REGIONS in Hl. lia. }
    rewrite Hin. run. destruct (Hnew) as [[] [] ? _].
    rewrite (u64_small (last_pa new)), (u64_small (last_va new)) by (unfold last_pa, last_va; lia).
    exists (pre ++ pre'), post'. split; [done|]. split; [split; [done| | |]|].
    + assert (length regs = length (pre ++ pre') + length post')%nat by (by rewrite Hregs, length_app).
      rewrite length_app. simpl. lia.
    + rewrite Hregs in Hok. apply Forall_app in Hok as [? ?]. apply Forall_app. by split; [|constructor].
    + rewrite Hregs in Hss, Hc, Hok. apply insert_sorted; try done.
      * apply Forall_app. split; [eapply Forall_impl; [exact Hpre|]; simpl; auto|eapply Forall_impl; [exact Hpre'|]; simpl; intuition lia].
      * intros r Hr. split; [|by apply Hpost'].
        destruct pre' as [|q pre']; [by apply Hpost|]. apply Forall_cons in Hpre' as [[<- _] _].
        rewrite <- app_assoc in Hss. apply StronglySorted_app_1_r in Hss. simpl in Hss. apply StronglySorted_cons in Hss as [Hq _].
        rewrite Forall_forall in Hq. destruct (Hq r) as [? _]; [|done]. apply elem_of_app. right.
        destruct post'; [done|]. injection Hr as ->. by left.
    + assert (Hm : forall a b, (if a >? b then a else b) = Z.max a b) by (intros a b; destruct (Z.gtb_spec a b); lia).
      rewrite !Hm. done.
  - intros Hn. repeat (rewrite run_assert_bool;
      match goal with |- (if ?b then _ else _) = _ => let Hb := fresh "A" in destruct b eqn:Hb; [|done] end; rewrite ?Hs0).
    assert (Hnew : region_ok new).
    { apply Hasserts. change (base_pa new) with pa. change (base_va new) with va. change (size new) with sz.
      repeat split; try done; lia. }
    run. rewrite Hmm, Hmap. erewrite bind_halt; [done|]. rewrite check_overlaps_run by done.
    rewrite bool_decide_eq_false_2; [done|]. intros Hc. by apply Hn.
Qed.

(** Adding a terminated list of regions that fit to each other and to the map. *)
Definition fits (a b : mmap_region) : Prop := before a b \/ before b a.

Lemma noted_set_mmap news m x :
  foldl (fun x n => noted n x) (set_mmap m x) news = set_mmap m (foldl (fun x n => noted n x) x news).
Proof. revert x. induction news as [|n news IH]; intros x; [done|]. simpl. by rewrite <- IH. Qed.

Lemma mmap_add_run news rest d l h : forall regs v,
  well_mapped regs (mmap (sget v)) -> (length regs + length news <= MAX_MMAP_REGIONS)%nat ->
  Forall region_ok news -> Forall (fun n => Forall (fun r => fits r n) regs) news -> ForallOrdPairs fits news ->
  exists regs', regs' ≡ₚ regs ++ news /\ well_mapped regs' (map_of regs') /\
    mmap_add (news ++ no_region :: rest) (St d l h v) =
    (Ret tt, St d l h (sput (set_mmap (map_of regs') (foldl (fun x n => noted n x) (sget v) news)) v)).
Proof.
  induction news as [|n news IH]; intros regs v Hw Hl Hok Hfit Hpairs.
  - exists regs. split; [by rewrite app_nil_r|]. destruct (Hw) as [Hmm ? ? ?]. split; [by split|].
    simpl. rewrite <- Hmm.
    replace (set_mmap (mmap (sget v)) (sget v)) with (sget v) by (by destruct (sget v)). by rewrite sput_sget.
  - apply Forall_cons in Hok as [Hn Hok], Hfit as [Hnf Hfit]. inversion Hpairs as [|? ? Hnn Hpairs']; subst.
    destruct (Hn) as [[] [] ? _]. simpl in Hl.
    destruct (mmap_add_region_run regs (base_pa n) (base_va n) (size n) (attr n) d l h v Hw) as [Hadd _]; try lia.
    replace (Region (base_pa n) (base_va n) (size n) (attr n)) with n in Hadd by (by destruct n).
    destruct (Hadd (conj Hn Hnf)) as (pre & post & -> & Hw' & E). clear Hadd.
    set (v' := sput _ v) in E.
    destruct (IH (pre ++ n :: post) v') as (regs' & Hp & Hw'' & E'); try done.
    + unfold v'. by rewrite sget_sput.
    + rewrite length_app in *. simpl. lia.
    + apply Forall_forall. intros m Hm. rewrite Forall_forall in Hfit, Hnn. specialize (Hfit m Hm). specialize (Hnn m Hm).
      apply Forall_app in Hfit as [? ?]. apply Forall_app. split; [done|]. by constructor.
    + exists regs'. split; [rewrite Hp; solve_Permutation|].
      split; [done|]. cbn [app mmap_add]. assert ((size n =? 0) = false) as -> by lia. simpl.
      rewrite (bind_run _ _ _ _ _ E), E'. unfold v'. rewrite sget_sput, sput_sput.
      change (noted n (set_mmap (map_of (pre ++ n :: post)) (sget v))) with (set_mmap (map_of (pre ++ n :: post)) (noted n (sget v))).
      by rewrite noted_set_mmap.
Qed.

End Insert.

(** C27: Collecting regions.  While there is room in the array, [mmap_add_region] takes
    a region exactly when it lies in the 32-bit address spaces on page boundaries and
    is inside, around (with the same offset) or wholly apart from every region of the
    map; it is put in its place, so that the map stays sorted with inner regions
    behind the ones around them, and the highest addresses are noted.  Any other
    region of non-zero size fails an assertion and leaves the map as it was. *)
Theorem mmap_add_exact `{Env} {V : Type} `{!Has xlat V} (regs : list mmap_region) (pa va sz at_ : Z) d l h (v : V) :
  well_mapped regs (mmap (sget v)) -> (length regs < MAX_MMAP_REGIONS)%nat ->
  0 <= pa < 2 ^ 64 -> 0 <= va < 2 ^ 64 -> 0 < sz < 2 ^ 64 ->
  let new := Region pa va sz at_ in
  (admissible regs new -> exists pre post, regs = pre ++ post /\
     well_mapped (pre ++ new :: post) (map_of (pre ++ new :: post)) /\
     mmap_add_region pa va sz at_ (St d l h v) =
       (Ret tt, St d l h (sput (noted new (set_mmap (map_of (pre ++ new :: post)) (sget v))) v))) /\
  (~ admissible regs new -> mmap_add_region pa va sz at_ (St d l h v) = (Halt AssertFail, St d l h v)).
Proof. intros Hw Hl H1 H2 H3 new. by apply mmap_add_region_run. Qed.

(** Memory with a page of code at its end, and a page that begins inside. *)
Definition with_code : list mmap_region := [Region 0x1000 0x1000 0x3000 (MT_MEMORY .| MT_RW); Region 0x3000 0x3000 0x1000 MT_CODE].

Lemma with_code_mapped : well_mapped with_code (map_of with_code).
Proof.
  split; [done|simpl; unfold MAX_MMAP_REGIONS; lia| |].
  - repeat constructor; simpl; try lia; by (exists 1 + exists 3).
  - repeat constructor; simpl; unfold nested, last_va, offset; simpl; lia.
Qed.

Lemma high_ok : region_ok (Region 0x8000 0x8000 0x2000 0).
Proof. split; simpl; try lia. by split; [exists 8|split; [exists 8|exists 2]]. Qed.

Lemma mmap_add_exact_witness : let s := St (H := board 0 1) (fun _ => 0) [] [] (set_mmap (map_of with_code) xlat_zero) in
  (mmap_add_region (H := board 0 1) 0x3000 0x3000 0x2000 0 s).1 = Halt AssertFail /\
  exists s', mmap_add_region (H := board 0 1) 0x8000 0x8000 0x2000 0 s = (Ret tt, s').
Proof.
  intros s. split.
  - unfold s. rewrite (proj2 (mmap_add_exact (H := board 0 1) (Has0 := Has_self xlat) with_code 0x3000 0x3000 0x2000 0 (fun _ => 0) [] []
      (set_mmap (map_of with_code) xlat_zero) with_code_mapped ltac:(vm_compute; lia) ltac:(lia) ltac:(lia) ltac:(lia))); [reflexivity|].
    intros [_ [Hb _]%Forall_cons]. unfold before, nested, apart, last_va, offset in Hb. simpl in Hb. lia.
  - destruct (proj1 (mmap_add_exact (H := board 0 1) (Has0 := Has_self xlat) with_code 0x8000 0x8000 0x2000 0 (fun _ => 0) [] []
      (set_mmap (map_of with_code) xlat_zero) with_code_mapped ltac:(vm_compute; lia) ltac:(lia) ltac:(lia) ltac:(lia)))
      as (pre & post & _ & _ & E).
    + split; [apply high_ok|]. repeat apply Forall_cons_2; try apply Forall_nil_2; left; unfold before, apart, last_va, last_pa; simpl; lia.
    + eexists. exact E.
Defined.

(** The capacity check fails to see a region that goes to the end of a full map: the
    entry that terminates the array is overwritten, and the next search runs past
    the array. *)
Definition full : list mmap_region := (fun k => Region (0x1000 * k) (0x1000 * k) 0x1000 0) <$> [1; 2; 3; 4; 5; 6; 7].

Lemma mmap_overrun `{Env} d :
  let r := mmap_add_region (V := xlat) 0x8000 0x8000 0x1000 0 (St d [] [] (set_mmap (map_of full) xlat_zero)) in
  r.1 = Ret tt /\ Forall (fun r => (size r =? 0) = false) (mmap (vars r.2)) /\
  (mmap_add_region (V := xlat) 0x9000 0x9000 0x1000 0 r.2).1 = Halt OutOfBounds.
Proof. split; [vm_compute; reflexivity|]. split; [vm_compute; repeat constructor|vm_compute; reflexivity]. Qed.

End Xlat.
