(* ===== verification/XlatWalk.v ===== *)
(** * What the translation tables of EL3 translate

    The tables that [Xlat.init_xlation_table] builds from a map of regions, read by
    the table walk of the architecture: every address goes where the innermost region
    that contains it sends it, with that region's attributes, and faults when no
    region contains it.  The number of tables needed is bounded by the areas that a
    region begins or ends in, and on this platform the five tables are enough. *)

From S2P Require Import Prelude Machine CtxMgmt Xlat.
From Stdlib Require Import String.
From stdpp Require Import strings sorting.
Import CtxMgmt Xlat.
#[local] Open Scope Z_scope.
#[local] Open Scope c_scope.

Module XlatWalk.

(** ** The specification *)

(** The innermost region that contains an address: the last one of the map. *)
Definition lookup_region (regs : list mmap_region) (va : Z) : option mmap_region :=
  foldl (fun o r => if decide (contains r va) then Some r else o) None regs.

Definition region_access (at_ : Z) : access :=
  let rw := truthy (at_ .& MT_RW) in
  let device := MT_TYPE at_ =? MT_DEVICE in
  Access rw (device || rw || truthy (at_ .& MT_EXECUTE_NEVER)) (truthy (at_ .& MT_NS))
    (if device then ATTR_DEVICE_INDEX else if MT_TYPE at_ =? MT_MEMORY then ATTR_IWBWA_OWBWA_NTR_INDEX else ATTR_NON_CACHEABLE_INDEX)
    (if MT_TYPE at_ =? MT_MEMORY then 3 else 2).

Definition translation (regs : list mmap_region) (va : Z) : option (Z * access) :=
  match lookup_region regs va with
  | Some r => Some (va - offset r, region_access (attr r))
  | None => None
  end.

(** Memory types that the library knows. *)
Definition known_type (r : mmap_region) : Prop := MT_TYPE (attr r) <= MT_MEMORY.

(** A region begins or ends inside the area. *)
Definition crossed (regs : list mmap_region) (b sz : Z) : bool :=
  existsb (fun r => ((b <? base_va r) && (base_va r <? b + sz)) || ((b <? last_va r + 1) && (last_va r + 1 <? b + sz))) regs.

(** Finer tables for [n] areas of a table, from the [i]-th on: one for every area that
    is crossed, and what that table needs. *)
Fixpoint tables_needed (depth : nat) (regs : list mmap_region) (level b : Z) (i n : nat) : nat :=
  match depth with
  | O => 0
  | S depth' =>
      sum_list ((fun j => let a := b + Z.of_nat j * XLAT_BLOCK_SIZE level in
        if crossed regs a (XLAT_BLOCK_SIZE level) then S (tables_needed depth' regs (level + 1) a 0 512) else 0%nat) <$> seq i n)
  end.

(** ** Descriptors *)

Definition is_level (level : Z) : Prop := level = 1 \/ level = 2 \/ level = 3.

Lemma block_size level : is_level level -> XLAT_BLOCK_SIZE level = 2 ^ XLAT_ADDR_SHIFT level /\
  XLAT_BLOCK_MASK level = Z.ones (XLAT_ADDR_SHIFT level) /\ 12 <= XLAT_ADDR_SHIFT level <= 30.
Proof. by intros [-> | [-> | ->]]. Qed.

Section Desc.
Context (pa s : Z) (Hs : 12 <= s <= 30) (Hpa : 0 <= pa < 2 ^ 48) (Hal : (2 ^ s | pa)).

Lemma pa_low n : n < s -> Z.testbit pa n = false.
Proof.
  intros Hn. destruct (Z.lt_ge_cases n 0); [by apply Z.testbit_neg_r|].
  destruct Hal as [k ->]. rewrite Z.mul_pow2_bits_low by lia. done.
Qed.

Lemma pa_high n : 48 <= n -> Z.testbit pa n = false.
Proof. intros Hn. rewrite <- (Z.mod_small pa (2 ^ 48)) by lia. apply Z.mod_pow2_bits_high. lia. Qed.

Lemma pa_field k m : 0 <= k -> 0 <= m -> k + m <= 12 -> Z.shiftr pa k .& Z.ones m = 0.
Proof.
  intros Hk Hm Hkm. apply Z.bits_inj'. intros n Hn. rewrite Z.land_spec, Z.shiftr_spec, Z.bits_0 by lia.
  destruct (Z.lt_ge_cases n m); [rewrite pa_low by lia; done|]. rewrite Z.ones_spec_high by lia. apply andb_false_r.
Qed.

Lemma pa_masked : Z.ldiff (pa .& TABLE_ADDR_MASK) (Z.ones s) = pa.
Proof.
  apply Z.bits_inj'. intros n Hn. rewrite Z.ldiff_spec, Z.land_spec.
  change TABLE_ADDR_MASK with (Z.ldiff (Z.ones 48) (Z.ones 12)). rewrite Z.ldiff_spec.
  destruct (Z.lt_ge_cases n s); [rewrite pa_low by lia; done|].
  rewrite (Z.ones_spec_high s) by lia. rewrite (Z.ones_spec_high 12) by lia.
  destruct (Z.lt_ge_cases n 48); [rewrite (Z.ones_spec_low 48) by lia|rewrite pa_high by lia; done].
  by rewrite !andb_true_r.
Qed.

(** The address part and the rest of a descriptor do not meet. *)
Lemma lor_access bits : access_of (pa .| bits) = access_of bits.
Proof.
  unfold access_of. rewrite !Z.lor_spec, !Z.shiftr_lor, !Z.land_lor_distr_l.
  rewrite (pa_low 7), (pa_low 5), (pa_high 54) by lia. change 3 with (Z.ones 2). change 7 with (Z.ones 3). rewrite !pa_field by lia. done.
Qed.

Lemma lor_bit n bits : n < 12 -> Z.testbit (pa .| bits) n = Z.testbit bits n.
Proof. intros Hn. rewrite Z.lor_spec, pa_low by lia. done. Qed.

Lemma lor_addr bits : bits .& TABLE_ADDR_MASK = 0 -> Z.ldiff ((pa .| bits) .& TABLE_ADDR_MASK) (Z.ones s) = pa.
Proof. intros Hb. rewrite Z.land_lor_distr_l, Hb, Z.lor_0_r. apply pa_masked. Qed.

End Desc.

(** The masks of EL3. *)
Definition el3_masks (x : xlat) : Prop :=
  execute_never_mask x = UPPER_ATTRS XN /\ ap1_mask x = LOWER_ATTRS AP_ONE_VA_RANGE_RES1.

Section Leaf.
Context `{Env} {V : Type} `{!Has xlat V}.
Implicit Types (d : Dev) (l : list event) (h : list lock_id) (v : V).

Lemma land_block_mask level a : is_level level -> a .& XLAT_BLOCK_MASK level = a mod XLAT_BLOCK_SIZE level.
Proof. intros Hl. destruct (block_size level Hl) as (-> & -> & ?). apply Z.land_ones. lia. Qed.

(** Decide the comparisons of a memory type. *)
Ltac mem_types :=
  change (0 =? MT_DEVICE) with true; change (1 =? MT_DEVICE) with false; change (2 =? MT_DEVICE) with false;
  change (1 =? MT_MEMORY) with false; change (2 =? MT_MEMORY) with true; change (1 =? MT_NON_CACHEABLE) with true;
  cbn [orb].

(** A leaf sends its area where it should, with the attributes of the region. *)
Lemma mmap_desc_run at_ pa level d l h v : is_level level -> el3_masks (sget v) ->
  MT_TYPE at_ <= MT_MEMORY -> 0 <= pa < 2 ^ 48 -> (XLAT_BLOCK_SIZE level | pa) ->
  exists desc, mmap_desc at_ pa level (St d l h v) = (Ret desc, St d l h v) /\ (desc =? UNSET_DESC) = false /\
    forall depth tables_at x va, walk_desc tables_at (S depth) x level desc va =
      Some (pa + va mod XLAT_BLOCK_SIZE level, region_access at_).
Proof.
  intros Hl [Hxn Hap] Ht Hpa Hal. unfold mmap_desc. rewrite land_block_mask by done.
  rewrite (proj2 (Z.mod_divide pa (XLAT_BLOCK_SIZE level) ltac:(by destruct Hl as [-> | [-> | ->]])) Hal). run. unfold id. rewrite Hxn, Hap.
  assert (Ht' : MT_TYPE at_ = 0 \/ MT_TYPE at_ = 1 \/ MT_TYPE at_ = 2).
  { assert (0 <= MT_TYPE at_) by (apply Z.land_nonneg; lia). unfold MT_MEMORY in Ht. lia. }
  destruct (block_size level Hl) as (Hsz & Hmask & Hshift).
  assert (Hleaf : forall bits, bits .& TABLE_ADDR_MASK = 0 -> Z.testbit bits 0 = true ->
    Z.testbit bits 1 = (level =? 3) -> Z.testbit bits 10 = true -> Z.testbit bits 55 = false -> access_of bits = region_access at_ ->
    (pa .| bits =? UNSET_DESC) = false /\
    forall depth tables_at x va, walk_desc tables_at (S depth) x level (pa .| bits) va =
      Some (pa + va mod XLAT_BLOCK_SIZE level, region_access at_)).
  { intros bits Hb H0 H1 H10 H55 Ha. rewrite Hsz in Hal. split.
    - apply Z.eqb_neq. intros He. apply (f_equal (fun z => Z.testbit z 55)) in He.
      rewrite Z.lor_spec, (pa_high pa 0 Hpa), H55 in He by lia. done.
    - intros depth tables_at x va. cbn [walk_desc]. unfold leaf.
      rewrite !(lor_bit pa _ Hshift Hpa Hal) by lia. rewrite H0, H1, H10, Hmask.
      rewrite (lor_addr pa _ Hshift Hpa Hal), (lor_access pa _ Hshift Hpa Hal), Ha, <- Hmask, land_block_mask by done.
      unfold XLAT_TABLE_LEVEL_MAX. by destruct (level =? 3). }
  rewrite <- !Z.lor_assoc. revert Hleaf. unfold region_access.
  assert (Hk : (level =? 3) = false \/ (level =? 3) = true) by (destruct (level =? 3); auto).
  destruct (truthy (at_ .& MT_NS)), (truthy (at_ .& MT_RW)), (truthy (at_ .& MT_EXECUTE_NEVER)), Ht' as [-> | [-> | ->]], Hk as [Hk | Hk];
    unfold XLAT_TABLE_LEVEL_MAX; rewrite Hk; intros Hleaf; mem_types; run;
    (eexists; split; [reflexivity|]; rewrite <- ?Z.lor_assoc; apply Hleaf; vm_compute; reflexivity).
Qed.

(** ** The attributes of an area *)

Lemma lookup_app pre post va :
  lookup_region (pre ++ post) va = foldl (fun o r => if decide (contains r va) then Some r else o) (lookup_region pre va) post.
Proof. apply foldl_app. Qed.

Lemma lookup_snoc pre r va :
  lookup_region (pre ++ [r]) va = if decide (contains r va) then Some r else lookup_region pre va.
Proof. by rewrite lookup_app. Qed.

Lemma lookup_outside pre post va : (forall r, r ∈ post -> ~ contains r va) ->
  lookup_region (pre ++ post) va = lookup_region pre va.
Proof.
  induction post as [|r post IH] using rev_ind; intros Ho; [by rewrite app_nil_r|].
  rewrite app_assoc, lookup_snoc, decide_False by (apply Ho, elem_of_app; right; by left).
  apply IH. intros q Hq. apply Ho, elem_of_app. by left.
Qed.

Lemma lookup_some regs va r : lookup_region regs va = Some r -> r ∈ regs /\ contains r va.
Proof.
  induction regs as [|q regs IH] using rev_ind; [done|]. rewrite lookup_snoc, elem_of_app. case_decide.
  - intros [= <-]. split; [right; by left|done].
  - intros [? ?]%IH. auto.
Qed.

(** The area from [b] on, of size [sz]. *)
Context (b sz : Z) (Hb : 0 <= b) (Hsz : 0 < sz) (Hend : b + sz <= 2 ^ 32).

(** [found] is the attribute of the innermost region so far, for all of the area. *)
Definition attr_of_area (regs : list mmap_region) (found : option Z) : Prop :=
  forall va, b <= va < b + sz -> attr <$> lookup_region regs va = found.

Lemma later_outside r rest va : StronglySorted before (r :: rest) -> va < base_va r -> forall q, q ∈ r :: rest -> ~ contains q va.
Proof.
  intros [Hr _]%StronglySorted_cons Hlt q [->|Hq]%elem_of_cons; unfold contains; [lia|].
  rewrite Forall_forall in Hr. destruct (Hr q Hq) as [? _]. lia.
Qed.

Lemma region_attr_run rest zeros (s : st V) : forall pre found,
  Forall region_ok rest -> StronglySorted before rest -> attr_of_area pre found ->
  exists res, mmap_region_attr (rest ++ no_region :: zeros) b sz found s = (Ret res, s) /\
    (is_Some res -> attr_of_area (pre ++ rest) res) /\
    (crossed rest b sz = false -> is_Some found -> is_Some res).
Proof.
  induction rest as [|r rest IH]; intros pre found Hok Hss Hf.
  { exists found. split; [done|]. rewrite app_nil_r. auto. }
  pose proof Hss as Hss'. apply StronglySorted_cons in Hss' as [_ Hss'].
  apply Forall_cons in Hok as [[_ [Hv0 Hv1] Hrs _] Hok]. cbn [app mmap_region_attr crossed existsb].
  assert ((size r =? 0) = false) as -> by lia.
  rewrite (u64_small (b + sz - 1)), (u64_small (base_va r + size r - 1)) by lia. fold (last_va r). unfold last_va in *.
  destruct (Z.gtb_spec (base_va r) (b + sz - 1)) as [Hgt|Hle].
  { exists found. split; [done|]. split; [|auto]. intros _ va Hva.
    rewrite lookup_outside; [by apply Hf|]. apply later_outside; [done|lia]. }
  destruct (Z.ltb_spec (base_va r + size r - 1) b) as [Hlt|Hge].
  { destruct (IH (pre ++ [r]) found) as (res & E & H1 & H2); [done|done| |].
    { intros va Hva. rewrite lookup_snoc, decide_False by (unfold contains, last_va; lia). by apply Hf. }
    exists res. split; [done|]. rewrite <- app_assoc in H1. split; [done|]. intros [_ Hc]%orb_false_iff. by apply H2. }
  case_bool_decide as Heq.
  { destruct (IH (pre ++ [r]) found) as (res & E & H1 & H2); [done|done| |].
    { intros va Hva. rewrite lookup_snoc. case_decide; [by rewrite Heq|by apply Hf]. }
    exists res. split; [done|]. rewrite <- app_assoc in H1. split; [done|]. intros [_ Hc]%orb_false_iff. by apply H2. }
  destruct ((base_va r >? b) || (base_va r + size r - 1 <? b + sz - 1)) eqn:Hcov.
  { exists None. split; [done|]. split; [by intros [? ?]|]. intros [Hc _]%orb_false_iff. lia. }
  destruct (IH (pre ++ [r]) (Some (attr r))) as (res & E & H1 & H2); [done|done| |].
  { intros va Hva. rewrite lookup_snoc, decide_True by (unfold contains, last_va; lia). done. }
  exists res. split; [done|]. rewrite <- app_assoc in H1. split; [done|]. intros [_ Hc]%orb_false_iff _. by apply H2.
Qed.

Lemma crossed_app regs regs' : crossed (regs ++ regs') b sz = crossed regs b sz || crossed regs' b sz.
Proof. apply existsb_app. Qed.

(** The attributes that the loop asks for when the cursor is at [r], which reaches
    into the area: they are those of all of the area, or it is crossed. *)
Lemma area_attr_run passed r rest zeros (s : st V) :
  let regs := passed ++ r :: rest in
  Forall region_ok regs -> StronglySorted before regs -> Forall known_type regs ->
  Forall (fun q => last_va q < b) passed -> b <= last_va r -> base_va r < b + sz ->
  exists res, mmap_region_attr ((r :: rest) ++ no_region :: zeros) b sz None s = (Ret res, s) /\
    match res with
    | Some a => contains r b /\ MT_TYPE a <= MT_MEMORY /\
        forall va, b <= va < b + sz -> translation regs va = Some (va - offset r, region_access a)
    | None => crossed regs b sz = true
    end.
Proof.
  intros regs Hok Hss Hty Hpass Hlo Hhi. pose proof Hok as Hok'. apply Forall_app in Hok' as [_ [[_ [Hv0 Hv1] Hrs _] Hok']%Forall_cons].
  pose proof (StronglySorted_app_1_r _ _ _ Hss) as Hss'. pose proof Hss' as [Hafter Hss'']%StronglySorted_cons.
  cbn [app mmap_region_attr]. assert ((size r =? 0) = false) as -> by lia. unfold last_va in Hlo.
  rewrite (u64_small (b + sz - 1)), (u64_small (base_va r + size r - 1)) by lia.
  assert ((base_va r >? b + sz - 1) = false) as -> by lia. assert ((base_va r + size r - 1 <? b) = false) as -> by lia. cbn [bool_decide].
  rewrite bool_decide_eq_false_2 by done.
  destruct ((base_va r >? b) || (base_va r + size r - 1 <? b + sz - 1)) eqn:Hcov.
  { exists None. split; [done|]. unfold regs. rewrite crossed_app. cbn [crossed existsb]. unfold last_va. lia. }
  assert (Hnp : forall va q, b <= va < b + sz -> q ∈ passed -> ~ contains q va).
  { intros va q Hva Hq. rewrite Forall_forall in Hpass. specialize (Hpass q Hq). unfold contains. lia. }
  destruct (region_attr_run rest zeros s (passed ++ [r]) (Some (attr r)) Hok' Hss'') as (res & E & H1 & H2).
  { intros va Hva. rewrite lookup_snoc, decide_True by (unfold contains, last_va; lia). done. }
  exists res. split; [exact E|]. rewrite <- app_assoc in H1. cbn [app] in H1. fold regs in H1. destruct res as [a|].
  - specialize (H1 ltac:(done)).
    assert (Hq : forall va, b <= va < b + sz -> exists q, lookup_region regs va = Some q /\ attr q = a).
    { intros va Hva. specialize (H1 va Hva). destruct (lookup_region regs va) as [q|]; [|done]. exists q. by simplify_eq/=. }
    split; [unfold contains, last_va; lia|]. split.
    + destruct (Hq b ltac:(lia)) as (q & Hlq & <-). rewrite Forall_forall in Hty. apply (Hty q), (lookup_some _ _ _ Hlq).
    + intros va Hva. destruct (Hq va Hva) as (q & Hlq & <-). unfold translation. rewrite Hlq. do 2 f_equal. f_equal.
      destruct (lookup_some _ _ _ Hlq) as [Hin Hc]. apply elem_of_app in Hin as [Hin|Hin]; [by destruct (Hnp va q)|].
      apply elem_of_cons in Hin as [->|Hin]; [done|]. rewrite Forall_forall in Hafter.
      destruct (Hafter q Hin) as [_ [(_ & -> & _)|[Hap _]]]; [done|]. unfold contains, last_va in *. lia.
  - apply not_false_iff_true. intros Hc. unfold regs in Hc. rewrite crossed_app in Hc. apply orb_false_iff in Hc as [_ Hc].
    apply orb_false_iff in Hc as [_ Hc]. by destruct (H2 Hc ltac:(done)).
Qed.

(** ** The descriptor of an area *)

(** Where the cursor stands: everything before it ends below the area. *)
Record cursor (regs passed rest : list mmap_region) (va : Z) : Prop := {
  cu_split : regs = passed ++ rest;
  cu_passed : Forall (fun q => last_va q < va) passed
}.

(** A map that the tables are built from: collected by [mmap_add_region], of known
    memory types, and with offsets that allow blocks of any size. *)
Record buildable (regs : list mmap_region) : Prop := {
  bd_ok : Forall region_ok regs;
  bd_sorted : StronglySorted before regs;
  bd_type : Forall known_type regs;
  bd_offset : Forall (fun r => (2 ^ 30 | offset r)) regs
}.

Lemma block_divides level : is_level level -> (XLAT_BLOCK_SIZE level | 2 ^ 30) /\ (4096 | XLAT_BLOCK_SIZE level) /\ 0 < XLAT_BLOCK_SIZE level.
Proof.
  intros [-> | [-> | ->]]; (split; [|split; [|reflexivity]]).
  - by exists 1.
  - by exists (2 ^ 18).
  - by exists (2 ^ 9).
  - by exists (2 ^ 9).
  - by exists (2 ^ 18).
  - by exists 1.
Qed.

Lemma unmapped regs passed rest : cursor regs passed rest b ->
  StronglySorted before regs -> (forall q, head rest = Some q -> b + sz <= base_va q) ->
  forall va, b <= va < b + sz -> translation regs va = None.
Proof.
  intros [-> Hpass] Hss Hhead va Hva. unfold translation.
  change (passed ++ rest) with ([] ++ passed ++ rest). rewrite lookup_outside; [done|].
  intros q [Hq|Hq]%elem_of_app; [rewrite Forall_forall in Hpass; specialize (Hpass q Hq); unfold contains; lia|].
  destruct rest as [|r rest]; [by apply not_elem_of_nil in Hq|]. specialize (Hhead r eq_refl).
  apply StronglySorted_app_1_r in Hss. by apply (later_outside r rest); [|lia|].
Qed.

Lemma area_desc_run regs passed rest zeros level d l h v : buildable regs -> cursor regs passed rest b ->
  is_level level -> sz = XLAT_BLOCK_SIZE level -> (sz | b) -> el3_masks (sget v) ->
  (forall q, head rest = Some q -> b <= last_va q) ->
  let mm := rest ++ no_region :: zeros in
  exists desc, area_desc mm (default no_region (head mm)) b level sz (St d l h v) = (Ret desc, St d l h v) /\
    if desc =? UNSET_DESC then crossed regs b sz = true /\ rest <> []
    else forall depth tables_at x va, b <= va < b + sz -> walk_desc tables_at (S depth) x level desc va = translation regs va.
Proof.
  intros [Hok Hss Hty Hoff] Hcur Hl Hlsz Hal Hmasks Hact mm.
  assert (Hlev : (level >=? XLAT_BLOCK_LEVEL_MIN) = true) by (by destruct Hl as [-> | [-> | ->]]).
  unfold area_desc. rewrite Hlev. destruct rest as [|r rest].
  { exists INVALID_DESC. assert ((0 >? u64 (b + sz - 1)) = false) as Hz by (rewrite u64_small; lia).
    change (default no_region (head mm)) with no_region. change (base_va no_region) with 0. rewrite Hz. split; [done|]. change (INVALID_DESC =? UNSET_DESC) with false.
    intros depth tables_at x va Hva. symmetry. by apply (unmapped regs passed []). }
  change (default no_region (head mm)) with r. destruct Hcur as [-> Hpass]. specialize (Hact r eq_refl).
  pose proof Hok as [_ [[[Hp0 Hp1] [Hv0 Hv1] Hrs _] _]%Forall_cons]%Forall_app.
  assert ((size r =? 0) = false) as -> by lia. rewrite u64_small by lia.
  destruct (Z.gtb_spec (base_va r) (b + sz - 1)) as [Hgt|Hle].
  { exists INVALID_DESC. split; [done|]. change (INVALID_DESC =? UNSET_DESC) with false.
    intros depth tables_at x va Hva. symmetry. apply (unmapped _ passed (r :: rest)); [done|done| |done]. intros q [= <-]. lia. }
  destruct (area_attr_run passed r rest zeros (St d l h v) Hok Hss Hty Hpass Hact) as (res & E & Hres); [lia|].
  fold mm in E. rewrite (bind_run _ _ _ _ _ E). destruct res as [a|].
  2:{ exists UNSET_DESC. split; [done|]. change (UNSET_DESC =? UNSET_DESC) with true. done. }
  destruct Hres as (Hc & Ht & Htr). pose proof Hoff as [_ [Hor _]%Forall_cons]%Forall_app.
  destruct (block_divides level Hl) as (Hd & _ & _). rewrite <- Hlsz in Hd. unfold contains, last_va, offset in *.
  rewrite u64_small by lia.
  destruct (mmap_desc_run a (b - base_va r + base_pa r) level d l h v Hl Hmasks Ht) as (desc & E' & Hne & Hw); [lia| |].
  { rewrite <- Hlsz. replace (b - base_va r + base_pa r) with (b - (base_va r - base_pa r)) by lia.
    apply Z.divide_sub_r; [done|]. by etrans. }
  exists desc. rewrite Hne. split; [done|]. intros depth tables_at x va Hva. rewrite Hw, Htr by done. do 2 f_equal. rewrite <- Hlsz.
  destruct Hal as [k ->]. replace va with (va - k * sz + k * sz) at 1 by lia. rewrite Z.mod_add, Z.mod_small by lia. lia.
Qed.

End Leaf.

(** ** The tables while they are built *)

Definition row (x : xlat) (t : table_ptr) : option (list Z) :=
  match t with Base => Some (base_xlation_table x) | Sub k => xlat_tables x !! Z.to_nat k end.
Definition entry (x : xlat) (t : table_ptr) (j : nat) : option Z := row x t ≫= (.!! j).
Definition capacity (t : table_ptr) : nat := match t with Base => 4 | Sub _ => 512 end.

Record shaped (x : xlat) : Prop := {
  sh_base : length (base_xlation_table x) = 4%nat;
  sh_tables : length (xlat_tables x) = 5%nat;
  sh_rows : Forall (fun t => length t = 512%nat) (xlat_tables x);
  sh_next : 0 <= next_xlat x;
  sh_masks : el3_masks x
}.

(** A table that is in use. *)
Definition in_use (x : xlat) (t : table_ptr) : Prop :=
  match t with Base => True | Sub k => 0 <= k < next_xlat x /\ k < MAX_XLAT_TABLES end.

Definition others (x : xlat) := (mmap x, xlat_max_pa x, xlat_max_va x, tcr_ps_bits x).

(** Filling the table [t] from entry [i] on, and tables from [lo] on, changes nothing
    else. *)
Record touches (t : table_ptr) (i : nat) (lo : Z) (x x' : xlat) : Prop := {
  tc_shape : shaped x';
  tc_others : others x' = others x;
  tc_next : next_xlat x <= next_xlat x';
  tc_base : t <> Base -> row x' Base = row x Base;
  tc_rows : forall k, 0 <= k < lo -> Sub k <> t -> row x' (Sub k) = row x (Sub k);
  tc_row : forall j, (j < i)%nat -> entry x' t j = entry x t j
}.

Definition same (lo hi : Z) (x x' : xlat) : Prop := forall k, lo <= k < hi -> row x (Sub k) = row x' (Sub k).

Lemma touches_trans t i i' lo lo' x x' x'' : (i <= i')%nat -> lo <= lo' ->
  touches t i lo x x' -> touches t i' lo' x' x'' -> touches t i lo x x''.
Proof.
  intros Hi Hlo [A1 A2 A3 A4 A5 A6] [B1 B2 B3 B4 B5 B6]. split; [done|congruence|lia| | |].
  - intros Ht. rewrite B4, A4; done.
  - intros k Hk Ht. rewrite B5, A5; (done || lia).
  - intros j Hj. rewrite B6, A6; (done || lia).
Qed.

(** A finer table is filled. *)
Lemma touches_sub t i n x x' : in_use x t -> n = next_xlat x -> n < MAX_XLAT_TABLES ->
  touches (Sub n) 0 (n + 1) (set_next (n + 1) x) x' -> touches t i n x x'.
Proof.
  intros Ht -> Hn [A1 A2 A3 A4 A5 A6]. cbn [next_xlat set_next] in A3.
  assert (Hrow : forall k, 0 <= k < next_xlat x -> row x' (Sub k) = row x (Sub k)).
  { intros k Hk. rewrite A5; [done|lia|]. intros [= ->]. lia. }
  split; [done|done|lia| | |].
  - intros _. by rewrite A4.
  - intros k Hk _. by apply Hrow.
  - intros j _. unfold entry. destruct t as [|k]; [by rewrite A4|]. rewrite Hrow; [done|]. apply Ht.
Qed.

Section Store.
Context `{Env} {V : Type} `{!Has xlat V}.
Implicit Types (d : Dev) (l : list event) (h : list lock_id) (v : V).

Lemma store_desc_run t i desc d l h v : shaped (sget v) -> in_use (sget v) t -> (i < capacity t)%nat ->
  exists x', store_desc t (Z.of_nat i) desc (St d l h v) = (Ret tt, St d l h (sput x' v)) /\
    touches t i (next_xlat (sget v)) (sget v) x' /\ next_xlat x' = next_xlat (sget v) /\ entry x' t i = Some desc /\
    forall k, Sub k <> t -> 0 <= k -> row x' (Sub k) = row (sget v) (Sub k).
Proof.
  intros [S1 S2 S3 S4 S5] Ht Hi. unfold store_desc. run. unfold id. destruct t as [|k]; cbn [capacity] in Hi.
  - unfold awrite. rewrite S1, Nat2Z.id. assert ((0 <=? Z.of_nat i) && (Z.of_nat i <? Z.of_nat 4) = true) as -> by (change (Z.of_nat 4) with 4; lia).
    run. eexists. split; [done|]. split; [|split; [done|]; split; [|done]].
    + split; [|done|done|done|done|].
      * split; [|done|done|done|done]. simpl. by rewrite length_insert.
      * intros j Hj. unfold entry. simpl. apply list_lookup_insert_ne. lia.
    + unfold entry. simpl. apply list_lookup_insert_eq. lia.
  - destruct Ht as [Hk Hk5]. change MAX_XLAT_TABLES with 5 in Hk5.
    destruct (lookup_lt_is_Some_2 (xlat_tables (sget v)) (Z.to_nat k)) as [t Ht]; [lia|].
    assert (Hlen : length t = 512%nat) by (by eapply (Forall_lookup_1 _ _ _ _ S3)).
    unfold aread, awrite. assert ((k <? 0) = false) as -> by lia. rewrite Ht. run. rewrite Hlen, Nat2Z.id.
    assert ((0 <=? Z.of_nat i) && (Z.of_nat i <? Z.of_nat 512) = true) as -> by (change (Z.of_nat 512) with 512; lia). run.
    rewrite S2. assert ((0 <=? k) && (k <? Z.of_nat 5) = true) as -> by (change (Z.of_nat 5) with 5; lia). run.
    eexists. split; [done|]. split; [|split; [done|]; split].
    + split; [|done|done|done| |].
      * split; [done|by simpl; rewrite length_insert| |done|done]. simpl. apply Forall_insert; [done|]. by rewrite length_insert.
      * intros k' Hk' Hne. simpl. apply list_lookup_insert_ne. intros He. apply Hne. f_equal. lia.
      * intros j Hj. unfold entry. simpl. rewrite list_lookup_insert_eq by lia. rewrite Ht. simpl. apply list_lookup_insert_ne. lia.
    + unfold entry. simpl. rewrite list_lookup_insert_eq by lia. simpl. apply list_lookup_insert_eq. lia.
    + intros k' Hne Hk'. simpl. apply list_lookup_insert_ne. intros He. apply Hne. f_equal. lia.
Qed.

End Store.

(** ** Addresses *)

Lemma shift_level level : level_size_shift level = XLAT_ADDR_SHIFT level.
Proof. unfold level_size_shift, XLAT_ADDR_SHIFT, L0_XLAT_ADDRESS_SHIFT, XLAT_TABLE_LEVEL_MAX, XLAT_TABLE_ENTRIES_SHIFT. lia. Qed.

(** The entry of an address in a table at [b]. *)
Lemma index_of level b va : is_level level -> (512 * XLAT_BLOCK_SIZE level | b) ->
  b <= va < b + 512 * XLAT_BLOCK_SIZE level ->
  let j := XLAT_TABLE_IDX va level in
  0 <= j < 512 /\ b + j * XLAT_BLOCK_SIZE level <= va < b + (j + 1) * XLAT_BLOCK_SIZE level.
Proof.
  intros Hl [q ->] Hva. destruct (block_size level Hl) as (Hsz & _ & Hs). unfold XLAT_TABLE_IDX.
  change 0x1FF with (Z.ones 9). rewrite Z.land_ones, Z.shiftr_div_pow2, <- Hsz by lia. change (2 ^ 9) with 512.
  set (sz := XLAT_BLOCK_SIZE level) in *. assert (Hpos : 0 < sz) by (rewrite Hsz; lia).
  assert (Hdiv : va / sz = (va - q * (512 * sz)) / sz + q * 512).
  { replace va with (va - q * (512 * sz) + (q * 512) * sz) at 1 by lia. by rewrite Z.div_add by lia. }
  set (o := va - q * (512 * sz)) in *. assert (Ho : 0 <= o / sz < 512) by (split; [apply Z.div_pos; lia|apply Z.div_lt_upper_bound; lia]).
  rewrite Hdiv, Z.mod_add, Z.mod_small by lia.
  pose proof (Z.div_mod o sz ltac:(lia)). pose proof (Z.mod_pos_bound o sz ltac:(lia)). split; [done|]. unfold o in *. nia.
Qed.

(** The condition of the loop, at the [i]-th of [n] areas. *)
Lemma loop_cond level b (i n : nat) : is_level level -> 0 <= b -> (512 * XLAT_BLOCK_SIZE level | b) ->
  (1 <= i <= n)%nat -> b + Z.of_nat n * XLAT_BLOCK_SIZE level <= 2 ^ 32 ->
  (n = 512%nat \/ (n < 512)%nat /\ b + Z.of_nat n * XLAT_BLOCK_SIZE level = 2 ^ 32) ->
  let va := b + Z.of_nat i * XLAT_BLOCK_SIZE level in
  truthy (va .& Z.shiftl XLAT_TABLE_ENTRIES_MASK (level_size_shift level)) && (u64 (va - 1) <? PLAT_VIRT_ADDR_SPACE_SIZE - 1)
  = (i <? n)%nat.
Proof.
  intros Hl Hb0 [q ->] Hi Hend Hn va. destruct (block_size level Hl) as (Hsz & _ & Hs). rewrite shift_level.
  change PLAT_VIRT_ADDR_SPACE_SIZE with (2 ^ 32). change XLAT_TABLE_ENTRIES_MASK with (Z.ones 9).
  set (s := XLAT_ADDR_SHIFT level) in *. set (sz := XLAT_BLOCK_SIZE level) in *. assert (Hpos : 0 < sz) by (rewrite Hsz; lia).
  assert (Hland : va .& Z.shiftl (Z.ones 9) s = (Z.of_nat i mod 512) * sz).
  { replace va with (Z.shiftl (Z.of_nat i + q * 512) s) by (rewrite Z.shiftl_mul_pow2, <- Hsz by lia; unfold va; lia).
    rewrite <- Z.shiftl_land, Z.land_ones, Z.shiftl_mul_pow2, <- Hsz, Z.mod_add by lia. done. }
  rewrite Hland, u64_small by (unfold va; nia). unfold truthy.
  destruct (Nat.ltb_spec i n) as [Hlt|Hge].
  - rewrite Z.mod_small by lia. assert ((Z.of_nat i * sz =? 0) = false) as -> by (apply Z.eqb_neq; nia).
    apply Z.ltb_lt. unfold va. nia.
  - assert (i = n) as -> by lia. destruct Hn as [->|[Hn1 Hn2]]; [done|].
    assert ((va - 1 <? 2 ^ 32 - 1) = false) as -> by (apply Z.ltb_ge; unfold va; lia). apply andb_false_r.
Qed.

Lemma land_table_mask a : 0 <= a < 2 ^ 48 -> (4096 | a) -> a .& TABLE_ADDR_MASK = a.
Proof.
  intros Ha Hal. transitivity (Z.ldiff (a .& TABLE_ADDR_MASK) (Z.ones 12)); [|by apply pa_masked].
  apply Z.bits_inj'. intros n Hn. rewrite Z.ldiff_spec. destruct (Z.lt_ge_cases n 12).
  - rewrite Z.land_spec, (pa_low a 12) by (done || lia). done.
  - rewrite Z.ones_spec_high by lia. by rewrite andb_true_r.
Qed.

(** ** Walks through a table *)

Section Build.
Context (regs : list mmap_region) (Hbd : buildable regs) (Hfew : (length regs <= MAX_MMAP_REGIONS)%nat).
Context (tables_at : Z) (Hta : (4096 | tables_at)) (Hta0 : 0 <= tables_at) (Hta1 : tables_at + 5 * 4096 <= 2 ^ 48).

(** The entry [desc] of the area at [b] translates it, whatever happens outside the
    tables [lo] to [hi]. *)
Definition good (depth : nat) (level lo hi : Z) (x : xlat) (desc b : Z) : Prop :=
  forall x', same lo hi x x' -> forall va, b <= va < b + XLAT_BLOCK_SIZE level ->
    walk_desc tables_at depth x' level desc va = translation regs va.

Lemma good_mono depth level lo hi lo' hi' x x' desc b : lo' <= lo -> hi <= hi' -> same lo hi x x' ->
  good depth level lo hi x desc b -> good depth level lo' hi' x' desc b.
Proof.
  intros H1 H2 Hs Hg x'' Hs'. apply Hg. intros k Hk. rewrite Hs by done. apply Hs'. lia.
Qed.

Definition table_desc (n : Z) : Z := TABLE_DESC .| u64 (tables_at + PAGE_SIZE * n).

Lemma table_desc_set n : 0 <= n < 5 -> (table_desc n =? UNSET_DESC) = false.
Proof.
  intros Hn. unfold table_desc. change PAGE_SIZE with 4096. rewrite u64_small by lia. apply Z.eqb_neq. intros He.
  apply (f_equal (fun z => Z.testbit z 55)) in He. rewrite Z.lor_spec, (pa_high (tables_at + 4096 * n) 12) in He by lia. done.
Qed.

(** The walk goes through a table descriptor into the finer table. *)
Lemma walk_table depth x level n va : level = 1 \/ level = 2 -> 0 <= n < 5 ->
  walk_desc tables_at (S depth) x level (table_desc n) va =
  match entry x (Sub n) (Z.to_nat (XLAT_TABLE_IDX va (level + 1))) with
  | Some desc => walk_desc tables_at depth x (level + 1) desc va
  | None => None
  end.
Proof.
  intros Hl Hn. unfold table_desc. change PAGE_SIZE with 4096. rewrite u64_small by lia.
  set (a := tables_at + 4096 * n). assert (Ha : 0 <= a < 2 ^ 48) by lia.
  assert (Hal : (4096 | a)) by (apply Z.divide_add_r; [done|apply Z.divide_factor_l]).
  cbn [walk_desc]. rewrite Z.lor_comm, !(lor_bit a 12) by (done || lia).
  assert ((level =? XLAT_TABLE_LEVEL_MAX) = false) as -> by (by destruct Hl as [-> | ->]).
  rewrite Z.land_lor_distr_l, land_table_mask by done. change (TABLE_DESC .& TABLE_ADDR_MASK) with 0. rewrite Z.lor_0_r.
  change (Z.testbit TABLE_DESC 0) with true. change (Z.testbit TABLE_DESC 1) with true. cbn [negb].
  unfold table_at. replace (a - tables_at) with (n * PAGE_SIZE) by (unfold a; change PAGE_SIZE with 4096; lia).
  rewrite Z.mod_mul, Z.div_mul by done. change (0 =? 0) with true.
  assert ((0 <=? n * PAGE_SIZE) = true) as -> by (change PAGE_SIZE with 4096; lia).
  unfold entry. simpl. by destruct (xlat_tables x !! Z.to_nat n).
Qed.

(** A filled finer table makes its descriptor good. *)
Lemma good_table depth x level n lo hi b : level = 1 \/ level = 2 -> 0 <= n < 5 -> lo = n -> n + 1 <= hi ->
  (XLAT_BLOCK_SIZE level | b) ->
  (forall j, (j < 512)%nat -> exists desc, entry x (Sub n) j = Some desc /\
     good depth (level + 1) (n + 1) hi x desc (b + Z.of_nat j * XLAT_BLOCK_SIZE (level + 1))) ->
  good (S depth) level lo hi x (table_desc n) b.
Proof.
  intros Hl Hn -> Hhi Hal Hsub x' Hs va Hva. rewrite walk_table by done.
  assert (Hl' : is_level (level + 1)) by (unfold is_level; lia).
  assert (Hsz : XLAT_BLOCK_SIZE level = 512 * XLAT_BLOCK_SIZE (level + 1)) by (by destruct Hl as [-> | ->]).
  rewrite Hsz in Hal, Hva. destruct (index_of (level + 1) b va Hl' Hal Hva) as [Hj Hjva].
  set (j := XLAT_TABLE_IDX va (level + 1)) in *. destruct (Hsub (Z.to_nat j)) as (desc & He & Hg); [lia|].
  unfold entry in *. rewrite <- (Hs n) by lia. rewrite He. rewrite Z2Nat.id in Hg by lia.
  apply Hg; [intros k Hk; apply Hs; lia|]. lia.
Qed.

(** ** The loop *)

Context `{Env} {V : Type} `{!Has xlat V}.
Implicit Types (d : Dev) (l : list event) (h : list lock_id) (v : V).

(** The entries from [i] up to [n] of the table [t] at [b] are filled. *)
Definition built (depth : nat) (level : Z) (t : table_ptr) (b : Z) (i n : nat) (x x' : xlat) : Prop :=
  touches t i (next_xlat x) x x' /\
  forall j, (i <= j < n)%nat -> exists desc, entry x' t j = Some desc /\
    good depth level (next_xlat x) (next_xlat x') x' desc (b + Z.of_nat j * XLAT_BLOCK_SIZE level).

(** [m] fills them, with at most [need] further tables, and moves the cursor on. *)
Definition fills (m : M V (list mmap_region)) (depth : nat) (level : Z) (t : table_ptr) (b : Z) (i n need : nat)
    (rest zeros : list mmap_region) d l h (x : xlat) v : Prop :=
  exists passed' rest' x', m (St d l h v) = (Ret (rest' ++ no_region :: zeros), St d l h (sput x' v)) /\
    cursor regs passed' rest' (b + Z.of_nat n * XLAT_BLOCK_SIZE level) /\ (length rest' <= length rest)%nat /\
    built depth level t b i n x x' /\ next_xlat x' <= next_xlat (sget v) + Z.of_nat need.

Lemma touches_refl t i lo x : shaped x -> touches t i lo x x.
Proof. intros Hs. by split. Qed.

Lemma in_use_mono x x' t : next_xlat x <= next_xlat x' -> in_use x t -> in_use x' t.
Proof. destruct t as [|k]; simpl; [done|lia]. Qed.

(** Storing a good descriptor and filling the rest. *)
Lemma store_then depth level t b i n need desc cont x rest rest' zeros d l h v :
  0 <= next_xlat x -> touches t i (next_xlat x) x (sget v) -> in_use x t -> (i < n <= capacity t)%nat ->
  good depth level (next_xlat x) (next_xlat (sget v)) (sget v) desc (b + Z.of_nat i * XLAT_BLOCK_SIZE level) ->
  (length rest' <= length rest)%nat ->
  (forall v', shaped (sget v') -> in_use (sget v') t -> next_xlat (sget v') = next_xlat (sget v) ->
     fills cont depth level t b (S i) n need rest' zeros d l h (sget v') v') ->
  fills (store_desc t (Z.of_nat i) desc ;; cont) depth level t b i n need rest zeros d l h x v.
Proof.
  intros Hx0 Ht Hu Hi Hg Hlen Hcont. pose proof (tc_next _ _ _ _ _ Ht) as Hnx.
  destruct (store_desc_run t i desc d l h v) as (x1 & E1 & Ht1 & Hn1 & He1 & Hr1);
    [apply Ht|by apply (in_use_mono x)|lia|].
  destruct (Hcont (sput x1 v)) as (passed' & rest'' & x2 & E2 & Hc2 & Hl2 & [Ht2 Hb2] & Hn2); rewrite ?sget_sput in *.
  { apply Ht1. }
  { apply (in_use_mono x); [lia|done]. }
  { done. }
  exists passed', rest'', x2. split; [rewrite (bind_run _ _ _ _ _ E1), E2; by rewrite sput_sput|].
  split; [done|]. split; [lia|]. split; [|lia].
  pose proof (tc_next _ _ _ _ _ Ht2) as Hnx2.
  assert (Ht1' : touches t i (next_xlat x) x x1) by (by apply (touches_trans t i i (next_xlat x) (next_xlat (sget v)) x (sget v))).
  split; [eapply (touches_trans t i (S i) (next_xlat x) (next_xlat x1)); [lia|lia|done|done]|].
  intros j Hj. destruct (decide (j = i)) as [->|Hne].
  - exists desc. split; [by rewrite (tc_row _ _ _ _ _ Ht2) by lia|].
    apply (good_mono depth level (next_xlat x) (next_xlat (sget v)) _ _ (sget v)); [lia|lia| |done].
    intros k Hk. assert (Hkt : Sub k <> t) by (intros <-; simpl in Hu; lia).
    rewrite (tc_rows _ _ _ _ _ Ht2 k) by (done || lia). rewrite Hr1 by (done || lia). done.
  - destruct (Hb2 j) as (desc' & He & Hg'); [lia|]. exists desc'. split; [done|].
    apply (good_mono depth level (next_xlat x1) (next_xlat x2) _ _ x2); [lia|lia|done|done].
Qed.

Lemma needed_step depth level b i m :
  tables_needed (S depth) regs level b i (S m) =
  ((if crossed regs (b + Z.of_nat i * XLAT_BLOCK_SIZE level) (XLAT_BLOCK_SIZE level)
    then S (tables_needed depth regs (level + 1) (b + Z.of_nat i * XLAT_BLOCK_SIZE level) 0 512) else 0) +
   tables_needed (S depth) regs level b (S i) m)%nat.
Proof. done. Qed.

(** A page is never crossed. *)
Lemma page_whole b : (4096 | b) -> crossed regs b (XLAT_BLOCK_SIZE 3) = false.
Proof.
  intros [k ->]. change (XLAT_BLOCK_SIZE 3) with 4096. apply not_true_iff_false. intros Hc.
  apply existsb_exists in Hc as (r & Hr & Hc). apply list_elem_of_In in Hr.
  pose proof (bd_ok _ Hbd) as Hok. rewrite Forall_forall in Hok. destruct (Hok r Hr) as [_ _ _ (_ & [p Hp] & [q Hq])].
  unfold last_va in Hc. lia.
Qed.

(** The recursive call at the next level does its work. *)
Definition inner_fills (inner : list mmap_region -> Z -> table_ptr -> M V (list mmap_region)) (depth : nat) (level : Z) : Prop :=
  forall passed rest zeros va k d l h v, shaped (sget v) -> in_use (sget v) (Sub k) -> cursor regs passed rest va ->
    (forall q, head rest = Some q -> va <= last_va q) ->
    0 <= va -> (512 * XLAT_BLOCK_SIZE level | va) -> va + 512 * XLAT_BLOCK_SIZE level <= 2 ^ 32 ->
    let need := tables_needed (pred depth) regs level va 0 512 in
    next_xlat (sget v) + Z.of_nat need <= MAX_XLAT_TABLES ->
    fills (inner (rest ++ no_region :: zeros) va (Sub k)) depth level (Sub k) va 0 512 need rest zeros d l h (sget v) v.

Section Loop.
Context (inner : list mmap_region -> Z -> table_ptr -> M V (list mmap_region)).
Context (depth : nat) (level : Z) (Hl : is_level level) (Hdepth : Z.of_nat depth = 4 - level).
Context (Hinner : level < 3 -> inner_fills inner (pred depth) (level + 1)).
Context (t : table_ptr) (b : Z) (n : nat) (zeros : list mmap_region).
#[local] Abbreviation sz := (XLAT_BLOCK_SIZE level).
Context (Hb : 0 <= b) (Hal : (512 * sz | b)) (Hend : b + Z.of_nat n * sz <= 2 ^ 32) (Hcap : (n <= capacity t)%nat).
Context (Hn : n = 512%nat \/ (n < 512)%nat /\ b + Z.of_nat n * sz = 2 ^ 32).

#[local] Abbreviation area i := (b + Z.of_nat i * sz).
#[local] Abbreviation needed i := (tables_needed (pred depth) regs level b i (n - i)).

(** What the induction on the turns gives. *)
Definition loop_fills (fuel : nat) : Prop := forall passed rest i d l h v,
  shaped (sget v) -> in_use (sget v) t -> (i < n)%nat -> cursor regs passed rest (area i) ->
  (i = 0%nat -> forall q, head rest = Some q -> b <= last_va q) ->
  next_xlat (sget v) + Z.of_nat (needed i) <= MAX_XLAT_TABLES -> (n - i + length rest <= fuel)%nat ->
  fills (table_loop tables_at fuel inner level t (rest ++ no_region :: zeros) (area i) (Z.of_nat i))
    depth level t b i n (needed i) rest zeros d l h (sget v) v.

Definition continue fuel mm (i : nat) : M V (list mmap_region) :=
  if truthy (area i .& Z.shiftl XLAT_TABLE_ENTRIES_MASK (level_size_shift level)) && (u64 (area i - 1) <? PLAT_VIRT_ADDR_SPACE_SIZE - 1)
  then table_loop tables_at fuel inner level t mm (area i) (Z.of_nat i) else ret mm.

Lemma continue_fills fuel passed rest i d l h v : loop_fills fuel ->
  shaped (sget v) -> in_use (sget v) t -> (1 <= i <= n)%nat -> cursor regs passed rest (area i) ->
  next_xlat (sget v) + Z.of_nat (needed i) <= MAX_XLAT_TABLES -> (n - i + length rest <= fuel)%nat ->
  fills (continue fuel (rest ++ no_region :: zeros) i) depth level t b i n (needed i) rest zeros d l h (sget v) v.
Proof.
  intros IH Hs Hu Hi Hcur Hneed Hfuel. unfold continue. rewrite (loop_cond level b i n) by done.
  destruct (Nat.ltb_spec i n) as [Hlt|Hge]; [apply (IH passed); (done || lia)|].
  assert (i = n) as -> by lia. exists passed, rest, (sget v). rewrite sput_sget. split; [done|]. split; [done|]. split; [done|].
  split; [|lia]. split; [by apply touches_refl|]. intros j Hj. lia.
Qed.

Lemma next_area i : (i < n)%nat -> u64 (area i + sz) = area (S i).
Proof. intros Hi. destruct (block_divides level Hl) as (_ & _ & Hsz). rewrite u64_small by nia. lia. Qed.

(** One turn that does not pass a region. *)
Lemma turn_active fuel rest i (s : st V) : (i < n)%nat -> (forall q, head rest = Some q -> area i <= last_va q) -> Forall region_ok rest ->
  let mm := rest ++ no_region :: zeros in
  table_loop tables_at (S fuel) inner level t mm (area i) (Z.of_nat i) s =
  (desc <- area_desc mm (default no_region (head mm)) (area i) level sz ;;
   if desc =? UNSET_DESC then
     n <- gets next_xlat ;;
     mods (set_next (u32 (n + 1))) ;;
     c_assert (u32 (n + 1) <=? MAX_XLAT_TABLES) ;;
     mm <- inner mm (area i) (Sub n) ;;
     store_desc t (Z.of_nat i) (table_desc n) ;;
     continue fuel mm (S i)
   else store_desc t (Z.of_nat i) desc ;; continue fuel mm (S i)) s.
Proof.
  intros Hi Hact Hok mm.
  assert (Hstop : negb (size (default no_region (head mm)) =? 0) &&
    (u64 (base_va (default no_region (head mm)) + size (default no_region (head mm)) - 1) <? area i) = false).
  { destruct rest as [|r rest]; [done|]. cbn. specialize (Hact r eq_refl). apply Forall_cons in Hok as [[_ [] ? _] _].
    unfold last_va in Hact. rewrite (u64_small (base_va r + size r - 1)) by lia. lia. }
  unfold continue. rewrite <- next_area by done. replace (Z.of_nat (S i)) with (Z.of_nat i + 1) by lia.
  destruct mm as [|r mm'] eqn:Hmm; [by destruct rest|]. cbn [head default from_option id] in Hstop.
  cbn [table_loop]. rewrite Hstop, shift_level. reflexivity.
Qed.

Lemma area_range i : (i < n)%nat -> 0 <= area i /\ 0 < sz /\ area i + sz <= 2 ^ 32 /\ (sz | area i).
Proof.
  intros Hi. destruct (block_divides level Hl) as (_ & _ & Hsz). split; [nia|]. split; [done|]. split; [nia|].
  apply Z.divide_add_r; [|apply Z.divide_factor_r]. etrans; [apply (Z.divide_factor_r sz 512)|done].
Qed.

Lemma cursor_next i passed rest : cursor regs passed rest (area i) -> cursor regs passed rest (area (S i)).
Proof.
  intros [H1 H2]. split; [done|]. eapply Forall_impl; [exact H2|]. simpl. intros q Hq.
  destruct (block_divides level Hl) as (_ & _ & ?). lia.
Qed.

(** What the next areas need is part of what this one and they need. *)
Lemma needed_split i : (i < n)%nat ->
  needed i = ((if crossed regs (area i) sz then match pred depth with O => 0 | S depth' => S (tables_needed depth' regs (level + 1) (area i) 0 512) end else 0) +
              needed (S i))%nat.
Proof.
  intros Hi. replace (n - i)%nat with (S (n - S i)) by lia. destruct (pred depth); [by destruct (crossed _ _ _)|]. apply needed_step.
Qed.

(** An area that needs a finer table. *)
Lemma turn_split fuel passed rest i d l h v : loop_fills fuel -> shaped (sget v) -> in_use (sget v) t -> (i < n)%nat ->
  cursor regs passed rest (area i) -> (forall q, head rest = Some q -> area i <= last_va q) ->
  next_xlat (sget v) + Z.of_nat (needed i) <= MAX_XLAT_TABLES -> (n - i + length rest <= S fuel)%nat ->
  crossed regs (area i) sz = true ->
  let mm := rest ++ no_region :: zeros in
  fills (n <- gets next_xlat ;;
     mods (set_next (u32 (n + 1))) ;;
     c_assert (u32 (n + 1) <=? MAX_XLAT_TABLES) ;;
     mm <- inner mm (area i) (Sub n) ;;
     store_desc t (Z.of_nat i) (table_desc n) ;;
     continue fuel mm (S i)) depth level t b i n (needed i) rest zeros d l h (sget v) v.
Proof.
  intros IH Hs Hu Hi Hcur Hact Hneed Hfuel Hc mm. rewrite (needed_split i Hi), Hc in *.
  destruct (area_range i Hi) as (Ha0 & Hsz & Ha1 & Haal).
  assert (Hl3 : level < 3).
  { destruct Hl as [-> | [-> | ->]]; [lia..|]. rewrite page_whole in Hc by done. done. }
  set (sub := tables_needed (pred (pred depth)) regs (level + 1) (area i) 0 512).
  assert (Hm : match pred depth with O => 0%nat | S depth' => S (tables_needed depth' regs (level + 1) (area i) 0 512) end = S sub).
  { unfold sub. destruct (pred depth) as [|depth'] eqn:Hpd; [lia|done]. }
  rewrite Hm in *.
  assert (Hsub : 512 * XLAT_BLOCK_SIZE (level + 1) = sz) by (destruct Hl as [-> | [-> | ->]]; [done|done|lia]).
  set (k := next_xlat (sget v)) in *. pose proof (sh_next _ Hs) as Hk. fold k in Hk. unfold MAX_XLAT_TABLES in *.
  set (x1 := set_next (k + 1) (sget v)).
  assert (Hs1 : shaped x1) by (destruct Hs; split; try done; simpl; lia).
  destruct (Hinner Hl3 passed rest zeros (area i) k d l h (sput x1 v)) as (passed' & rest' & x2 & E & Hcur' & Hlen & [Ht2 Hb2] & Hn2);
    rewrite ?sget_sput; try done.
  { cbn [in_use x1 set_next next_xlat]. unfold MAX_XLAT_TABLES. lia. }
  { by rewrite Hsub. }
  { by rewrite Hsub. }
  { fold sub. cbn [x1 set_next next_xlat]. unfold MAX_XLAT_TABLES. lia. }
  rewrite sget_sput in Ht2, Hb2, Hn2. fold sub in Hn2. change (next_xlat x1) with (k + 1) in *. pose proof (tc_next _ _ _ _ _ Ht2) as Hn2'.
  change (next_xlat x1) with (k + 1) in Hn2'.
  assert (Ht2' : touches t i k (sget v) x2) by (apply (touches_sub t i k); (done || unfold MAX_XLAT_TABLES; lia)).
  destruct (store_then depth level t b i n (needed (S i)) (table_desc k) (continue fuel (rest' ++ no_region :: zeros) (S i))
    (sget v) rest rest' zeros d l h (sput x2 v)) as (passed'' & rest'' & x3 & E3 & Hcur3 & Hlen3 & Hb3 & Hn3);
    rewrite ?sget_sput; try done.
  { replace depth with (S (pred depth)) by lia. apply good_table; [unfold is_level in Hl; lia|lia|done|lia|done|].
    intros j Hj. apply Hb2. lia. }
  { intros v' Hs' Hu' Hn'. apply (continue_fills fuel passed'); try done; [lia| |unfold MAX_XLAT_TABLES; lia|lia].
    replace (area (S i)) with (area i + Z.of_nat 512 * XLAT_BLOCK_SIZE (level + 1)); [done|].
    change (Z.of_nat 512) with 512. rewrite Hsub. lia. }
  exists passed'', rest'', x3. split.
  - run. fold k. unfold u32. rewrite Z.mod_small by lia. fold x1. assert ((k + 1 <=? 5) = true) as -> by lia. run.
    rewrite (bind_run _ _ _ _ _ E), sput_sput, E3. by rewrite sput_sput.
  - split; [done|]. split; [done|]. split; [done|]. rewrite sget_sput in Hn3. lia.
Qed.

(** An area with a descriptor of its own. *)
Lemma turn_leaf fuel passed rest i desc d l h v : loop_fills fuel -> shaped (sget v) -> in_use (sget v) t -> (i < n)%nat ->
  cursor regs passed rest (area i) ->
  next_xlat (sget v) + Z.of_nat (needed i) <= MAX_XLAT_TABLES -> (n - i + length rest <= S fuel)%nat ->
  (forall depth' x va, area i <= va < area i + sz -> walk_desc tables_at (S depth') x level desc va = translation regs va) ->
  fills (store_desc t (Z.of_nat i) desc ;; continue fuel (rest ++ no_region :: zeros) (S i))
    depth level t b i n (needed i) rest zeros d l h (sget v) v.
Proof.
  intros IH Hs Hu Hi Hcur Hneed Hfuel Hw. rewrite (needed_split i Hi) in *.
  destruct (store_then depth level t b i n (needed (S i)) desc (continue fuel (rest ++ no_region :: zeros) (S i))
    (sget v) rest rest zeros d l h v) as (passed' & rest' & x' & E & Hcur' & Hlen' & Hb' & Hn'); try done.
  - apply Hs.
  - intros x' _ va Hva. replace depth with (S (pred depth)) by (destruct Hl as [-> | [-> | ->]]; lia). by apply Hw.
  - intros v' Hs' Hu' Hn'. apply (continue_fills fuel passed); try done; [lia|by apply cursor_next|lia|lia].
  - exists passed', rest', x'. split; [done|]. split; [done|]. split; [done|]. split; [done|]. lia.
Qed.

(** A region that ends below the area. *)
Lemma turn_pass fuel passed r rest i d l h v : loop_fills fuel -> shaped (sget v) -> in_use (sget v) t -> (0 < i < n)%nat ->
  cursor regs passed (r :: rest) (area i) -> last_va r < area i ->
  next_xlat (sget v) + Z.of_nat (needed i) <= MAX_XLAT_TABLES -> (n - i + length (r :: rest) <= S fuel)%nat ->
  fills (table_loop tables_at (S fuel) inner level t ((r :: rest) ++ no_region :: zeros) (area i) (Z.of_nat i))
    depth level t b i n (needed i) (r :: rest) zeros d l h (sget v) v.
Proof.
  intros IH Hs Hu Hi [Hsplit Hpass] Hlast Hneed Hfuel.
  pose proof (bd_ok _ Hbd) as Hok. rewrite Hsplit in Hok. apply Forall_app in Hok as [_ [[_ [] ? _] _]%Forall_cons].
  destruct (continue_fills fuel (passed ++ [r]) rest i d l h v) as (passed' & rest' & x' & E & Hcur' & Hlen' & Hb'); try done.
  - lia.
  - split; [by rewrite Hsplit, <- app_assoc|]. apply Forall_app. split; [done|]. by constructor.
  - simpl in Hfuel. lia.
  - exists passed', rest', x'. split; [|simpl; split; [done|]; split; [lia|done]].
    rewrite <- E. unfold continue. cbn [app table_loop]. unfold last_va in Hlast. rewrite (u64_small (base_va r + size r - 1)) by lia.
    assert ((size r =? 0) = false) as -> by lia. assert ((base_va r + size r - 1 <? area i) = true) as -> by lia. reflexivity.
Qed.

Lemma table_loop_run fuel : loop_fills fuel.
Proof.
  induction fuel as [|fuel IH]; intros passed rest i d l h v Hs Hu Hi Hcur Hfirst Hneed Hfuel; [lia|].
  assert (Hcase : (exists r rest', rest = r :: rest' /\ last_va r < area i) \/ forall q, head rest = Some q -> area i <= last_va q).
  { destruct rest as [|r rest]; [by right|]. destruct (Z.lt_ge_cases (last_va r) (area i)); [left; eauto|right].
    by intros q [= <-]. }
  destruct Hcase as [(r & rest' & -> & Hlast)|Hact].
  { apply (turn_pass fuel passed); try done. destruct i as [|i]; [|lia]. specialize (Hfirst eq_refl r eq_refl). lia. }
  destruct (area_range i Hi) as (Ha0 & Hsz & Ha1 & Haal). pose proof (cu_split _ _ _ _ Hcur) as Hsplit.
  destruct (area_desc_run (area i) sz Ha0 Hsz Ha1 regs passed rest zeros level d l h v) as (desc & E & Hd); try done.
  { apply Hs. }
  assert (Hstep : fills (if desc =? UNSET_DESC then
     n <- gets next_xlat ;;
     mods (set_next (u32 (n + 1))) ;;
     c_assert (u32 (n + 1) <=? MAX_XLAT_TABLES) ;;
     mm <- inner (rest ++ no_region :: zeros) (area i) (Sub n) ;;
     store_desc t (Z.of_nat i) (table_desc n) ;;
     continue fuel mm (S i)
   else store_desc t (Z.of_nat i) desc ;; continue fuel (rest ++ no_region :: zeros) (S i))
     depth level t b i n (needed i) rest zeros d l h (sget v) v).
  { destruct (desc =? UNSET_DESC); [destruct Hd as [Hd _]; apply (turn_split fuel passed); done|]. apply (turn_leaf fuel passed); try done. intros depth' x va. apply Hd. }
  destruct Hstep as (passed' & rest' & x' & E' & Hpost). exists passed', rest', x'. split; [|done].
  rewrite turn_active; [|done|done|pose proof (bd_ok _ Hbd) as Hok; rewrite Hsplit in Hok; by apply Forall_app in Hok as [_ ?]].
  by rewrite (bind_run _ _ _ _ _ E).
Qed.

End Loop.

Lemma init_inner_step depth mm va t level (s : st V) : is_level level ->
  init_xlation_table_inner tables_at (S depth) mm va t level s =
  table_loop tables_at table_turns (fun mm va table => init_xlation_table_inner tables_at depth mm va table (level + 1)) level t mm va 0 s.
Proof. by intros [-> | [-> | ->]]. Qed.

Lemma rest_few passed rest va : cursor regs passed rest va -> (length rest <= 7)%nat.
Proof. intros [-> _]. rewrite length_app in Hfew. unfold MAX_MMAP_REGIONS in Hfew. lia. Qed.

Lemma inner_run depth : forall level, is_level level -> Z.of_nat depth = 4 - level ->
  inner_fills (fun mm va t => init_xlation_table_inner tables_at (S (S depth)) mm va t level) depth level.
Proof.
  induction depth as [|depth IH]; intros level Hl Hd; [unfold is_level in Hl; lia|].
  intros passed rest zeros va k d l h v Hs Hu Hcur Hact Hva Hal Hend need Hneed.
  assert (Hinner : level < 3 -> inner_fills (fun mm va t => init_xlation_table_inner tables_at (S (S depth)) mm va t (level + 1)) depth (level + 1)).
  { intros Hlt. apply IH; [unfold is_level in *; lia|lia]. }
  pose proof (table_loop_run _ (S depth) level Hl Hd Hinner (Sub k) va 512 zeros Hva Hal) as Hloop.
  destruct (Hloop ltac:(change (Z.of_nat 512) with 512; lia) (le_n _) ltac:(by left) table_turns passed rest 0%nat d l h v Hs Hu)
    as (passed' & rest' & x' & E & Hpost); try done.
  - lia.
  - by rewrite Z.add_0_r.
  - pose proof (rest_few _ _ _ Hcur). unfold table_turns, MAX_MMAP_REGIONS. change (Z.to_nat XLAT_TABLE_ENTRIES) with 512%nat. lia.
  - exists passed', rest', x'. split; [|done]. rewrite init_inner_step by done. rewrite <- E. by rewrite Z.add_0_r.
Qed.

(** Addresses outside the 32-bit space are in no region. *)
Lemma translation_bound va : ~ 0 <= va < 2 ^ 32 -> translation regs va = None.
Proof.
  intros Hva. unfold translation. destruct (lookup_region regs va) as [r|] eqn:Hr; [|done].
  destruct (lookup_some _ _ _ Hr) as [Hin Hc]. pose proof (bd_ok _ Hbd) as Hok. rewrite Forall_forall in Hok.
  destruct (Hok r Hin) as [_ [] _ _]. unfold contains, last_va in Hc. lia.
Qed.

(** The whole of the tables. *)
Lemma init_inner_base d l h v : shaped (sget v) ->
  next_xlat (sget v) + Z.of_nat (tables_needed 2 regs 1 0 0 4) <= MAX_XLAT_TABLES ->
  exists mm x', init_xlation_table_inner tables_at 5 (map_of regs) 0 Base 1 (St d l h v) = (Ret mm, St d l h (sput x' v)) /\
    shaped x' /\ others x' = others (sget v) /\ forall va, walk tables_at x' va = translation regs va.
Proof.
  intros Hs Hneed. assert (Hl : is_level 1) by (by left).
  assert (Hinner : 1 < 3 -> inner_fills (fun mm va t => init_xlation_table_inner tables_at 4 mm va t (1 + 1)) 2 (1 + 1)).
  { intros _. apply inner_run; [right; by left|done]. }
  set (zeros := replicate (MAX_MMAP_REGIONS - length regs) no_region).
  assert (Hmap : map_of regs = regs ++ no_region :: zeros).
  { unfold map_of, zeros. by replace (S MAX_MMAP_REGIONS - length regs)%nat with (S (MAX_MMAP_REGIONS - length regs)) by lia. }
  assert (Hcur : cursor regs [] regs 0) by (by split).
  pose proof (table_loop_run _ 3 1 Hl eq_refl Hinner Base 0 4 zeros (Z.le_refl 0) (Z.divide_0_r _)) as Hloop.
  destruct (Hloop ltac:(done) (le_n _) ltac:(right; split; [lia|done]) table_turns [] regs 0%nat d l h v Hs I)
    as (passed' & rest' & x' & E & _ & _ & [Ht Hb] & _); try done.
  - lia.
  - intros _ q Hq. pose proof (bd_ok _ Hbd) as Hok. destruct regs as [|r rs]; [done|]. injection Hq as ->.
    apply Forall_cons in Hok as [[_ [] ? _] _]. unfold last_va. lia.
  - pose proof (rest_few _ _ _ Hcur). unfold table_turns, MAX_MMAP_REGIONS. change (Z.to_nat XLAT_TABLE_ENTRIES) with 512%nat. lia.
  - exists (rest' ++ no_region :: zeros), x'. split; [rewrite Hmap, init_inner_step by done; exact E|].
    split; [apply Ht|]. split; [apply Ht|]. intros va. unfold walk. change PLAT_VIRT_ADDR_SPACE_SIZE with (2 ^ 32).
    destruct ((0 <=? va) && (va <? 2 ^ 32)) eqn:Hva; [|symmetry; apply translation_bound; lia].
    change XLAT_TABLE_LEVEL_BASE with 1. destruct (index_of 1 0 va Hl) as [Hj Hjva];
      [apply Z.divide_0_r|change (XLAT_BLOCK_SIZE 1) with (2 ^ 30); lia|].
    change (XLAT_BLOCK_SIZE 1) with (2 ^ 30) in Hjva. set (j := XLAT_TABLE_IDX va 1) in *.
    destruct (Hb (Z.to_nat j)) as (desc & He & Hg); [lia|]. change (base_xlation_table x' !! Z.to_nat j = Some desc) in He. rewrite He.
    apply Hg; [done|]. change (XLAT_BLOCK_SIZE 1) with (2 ^ 30). rewrite Z2Nat.id by lia. lia.
Qed.

(** ** From the regions to the MMU *)

Context `{CPU : !El3Cpu}.

(** The statics before the tables are built. *)
Record collected (x : xlat) : Prop := {
  co_base : length (base_xlation_table x) = 4%nat;
  co_tables : length (xlat_tables x) = 5%nat;
  co_rows : Forall (fun t => length t = 512%nat) (xlat_tables x);
  co_next : next_xlat x = 0;
  co_mmap : mmap x = map_of regs;
  co_max : 0 <= xlat_max_pa x < 2 ^ 32 /\ 0 <= xlat_max_va x < 2 ^ 32
}.

Lemma land_above a m : 0 <= a < 2 ^ 32 -> Z.ones 32 .& m = 0 -> a .& m = 0.
Proof.
  intros Ha Hm. rewrite <- (Z.mod_small a (2 ^ 32)) by done. rewrite <- Z.land_ones by lia.
  by rewrite <- Z.land_assoc, Hm, Z.land_0_r.
Qed.

Lemma physical_bits_run max_pa (s : st V) : 0 <= max_pa < 2 ^ 32 ->
  calc_physical_addr_size_bits max_pa s = (Ret TCR_PS_BITS_4GB, s).
Proof. intros Hm. unfold calc_physical_addr_size_bits. by rewrite !land_above by done. Qed.

Lemma max_supported_run d l h v : exists d' l' pa, get_max_supported_pa (St d l h v) = (Ret pa, St d' l' h v) /\
  2 ^ 32 - 1 <= pa /\ sctlr_el3 d' = sctlr_el3 d.
Proof.
  unfold get_max_supported_pa, read_sysreg. run. set (r := _ .& 0xf).
  assert (Hr : 0 <= r <= 6) by (split; [apply Z.land_nonneg; lia|apply pa_range_known]). clearbody r.
  change (Z.of_nat (length pa_range_bits_arr)) with 7. assert ((r <? 7) = true) as -> by lia. run.
  assert (Hc : r = 0 \/ r = 1 \/ r = 2 \/ r = 3 \/ r = 4 \/ r = 5 \/ r = 6) by lia.
  destruct Hc as [-> | [-> | [-> | [-> | [-> | [-> | ->]]]]]]; do 3 eexists; (split; [reflexivity|]); (split; [vm_compute; discriminate|]);
    by apply sctlr_keep_call.
Qed.

Lemma min_space_run d l h v : exists d' l' sz, xlat_get_min_virt_addr_space_size (St d l h v) = (Ret sz, St d' l' h v) /\
  (PLAT_VIRT_ADDR_SPACE_SIZE >=? sz - 1) = true /\ sctlr_el3 d' = sctlr_el3 d.
Proof.
  unfold xlat_get_min_virt_addr_space_size, is_armv8_4_ttst_present, read_sysreg. run. do 3 eexists. split; [reflexivity|].
  split; [by destruct (_ =? 1)|]. by apply sctlr_keep_call.
Qed.

Lemma init_table_run d l h v : collected (sget v) ->
  Z.of_nat (tables_needed 2 regs 1 0 0 4) <= MAX_XLAT_TABLES ->
  exists d' l' x', init_xlation_table tables_at 0 Base 1 (St d l h v) =
      (Ret (xlat_max_va (sget v), xlat_max_pa (sget v)), St d' l' h (sput x' v)) /\
    sctlr_el3 d' = sctlr_el3 d /\ others x' = others (sget v) /\ forall va, walk tables_at x' va = translation regs va.
Proof.
  intros [C1 C2 C3 C4 C5 C6] Hneed. unfold init_xlation_table, xlat_arch_current_el, read_sysreg. run. rewrite at_el3. run.
  change (3 >? 0) with true. run. change (xlat_arch_get_xn_desc 3) with (ret (V := V) (UPPER_ATTRS XN)). run.
  change (3 =? 3) with true. cbn match. run. unfold set_masks. cbn [execute_never_mask mmap]. rewrite C5.
  set (x1 := XlatVars _ _ _ _ _ _ _ _ _). set (d1 := (hw_call _ _ d).2). set (l1 := _ :: l).
  destruct (init_inner_base d1 l1 h (sput x1 v)) as (mm & x2 & E & _ & Ho & Hw); rewrite ?sget_sput.
  - split; try done. cbn [x1 next_xlat]. lia.
  - cbn [x1 next_xlat]. rewrite C4. exact Hneed.
  - rewrite (bind_run _ _ _ _ _ E), sput_sput. rewrite sget_sput in Ho. run. exists d1, l1, x2.
    assert (Ho1 : others x1 = others (sget v)) by (unfold others; by rewrite C5).
    assert (Hmax : (xlat_max_va x2, xlat_max_pa x2) = (xlat_max_va (sget v), xlat_max_pa (sget v)))
      by exact (f_equal (fun o => (o.1.2, o.1.1.2)) (eq_trans Ho Ho1)).
    rewrite Hmax. split; [done|]. split; [by apply sctlr_keep_call|]. split; [congruence|done].
Qed.

Lemma init_xlat_tables_run d l h v : collected (sget v) ->
  Z.of_nat (tables_needed 2 regs 1 0 0 4) <= MAX_XLAT_TABLES ->
  exists d' l' x', init_xlat_tables tables_at (St d l h v) = (Ret tt, St d' l' h (sput x' v)) /\
    sctlr_el3 d' = sctlr_el3 d /\ forall va, walk tables_at x' va = translation regs va.
Proof.
  intros Hc Hneed. unfold init_xlat_tables. destruct (min_space_run d l h v) as (d1 & l1 & sz & E1 & Hsz & Hs1).
  rewrite (bind_run _ _ _ _ _ E1), Hsz. run.
  change (PLAT_VIRT_ADDR_SPACE_SIZE <=? MAX_VIRT_ADDR_SPACE_SIZE) with true. change (IS_POWER_OF_TWO PLAT_VIRT_ADDR_SPACE_SIZE) with true. run.
  destruct (init_table_run d1 l1 h v Hc Hneed) as (d2 & l2 & x2 & E2 & Hs2 & Ho & Hw). change XLAT_TABLE_LEVEL_BASE with 1.
  rewrite (bind_run _ _ _ _ _ E2). destruct (co_max _ Hc) as [Hpa Hva].
  change PLAT_VIRT_ADDR_SPACE_SIZE with (2 ^ 32). change PLAT_PHY_ADDR_SPACE_SIZE with (2 ^ 32).
  assert ((xlat_max_va (sget v) <=? 2 ^ 32 - 1) = true) as -> by lia. assert ((xlat_max_pa (sget v) <=? 2 ^ 32 - 1) = true) as -> by lia.
  run. destruct (max_supported_run d2 l2 h (sput x2 v)) as (d3 & l3 & pa & E3 & Hpa3 & Hs3). rewrite (bind_run _ _ _ _ _ E3).
  assert ((2 ^ 32 - 1 <=? pa) = true) as -> by lia. run. rewrite (bind_run _ _ _ _ _ (physical_bits_run _ _ Hpa)). run.
  do 3 eexists. split; [reflexivity|]. split; [congruence|]. exact Hw.
Qed.

(** Switching the MMU on, while it is off. *)
Definition mmu_off d : Prop := u64 (sctlr_el3 d) .& SCTLR_M_BIT = 0.

Lemma enable_mmu_run base_at flags d l h v : mmu_off d ->
  exists d' l', enable_mmu_el3 base_at flags (St d l h v) = (Ret tt, St d' l' h v).
Proof.
  intros Hoff. unfold enable_mmu_el3, read_sysreg, write_sysreg. run. rewrite at_el3. change (3 =? 3) with true. run.
  rewrite sctlr_read, sctlr_keep_call by done. rewrite Hoff. change (0 =? 0) with true. run.
  by do 2 eexists.
Qed.

End Build.

(** The innermost region, whatever the order of the map: it contains the address and
    lies in every other region that does. *)
Lemma lookup_innermost regs va r : StronglySorted before regs -> r ∈ regs -> contains r va ->
  (forall q, q ∈ regs -> contains q va -> base_va q <= base_va r /\ last_va r <= last_va q) ->
  lookup_region regs va = Some r.
Proof.
  induction regs as [|q regs IH] using rev_ind; [by intros _ ?%not_elem_of_nil|].
  intros Hss Hr Hc Hin. rewrite lookup_snoc. apply StronglySorted_app in Hss as (Hcross & Hss & _). case_decide as Hq.
  - apply elem_of_app in Hr as [Hr|Hr%list_elem_of_singleton]; [|by subst]. exfalso.
    destruct (Hin q) as [H1 H2]; [apply elem_of_app; right; by left|done|].
    destruct (Hcross r q Hr ltac:(by left)) as [Hb [(Hn & _ & Hne)|[Hap _]]]; unfold contains, last_va in *; lia.
  - apply elem_of_app in Hr as [Hr|Hr%list_elem_of_singleton]; [|by subst].
    apply IH; [done|done|done|]. intros q' Hq'. apply Hin, elem_of_app. by left.
Qed.

Lemma lookup_none regs va : (forall q, q ∈ regs -> ~ contains q va) -> lookup_region regs va = None.
Proof. intros Hn. change regs with ([] ++ regs). by rewrite lookup_outside. Qed.

(** C14: The translation tables say what the regions say.  For every map that
    [mmap_add_region] can collect, with known memory types, offsets that are multiples
    of 1 GB, and no more than five areas to split: building the tables returns, and
    the table walk of the architecture sends every address where the innermost region
    that contains it says, with its permissions and memory type, and faults on every
    address that is in no region. *)
Theorem xlat_walk_exact `{Env} `{!El3Cpu} {V : Type} `{!Has xlat V} (regs : list mmap_region) (tables_at : Z)
    d l h (v : V) :
  buildable regs -> (length regs <= MAX_MMAP_REGIONS)%nat -> collected regs (sget v) ->
  (4096 | tables_at) -> 0 <= tables_at -> tables_at + 5 * 4096 <= 2 ^ 48 ->
  Z.of_nat (tables_needed 2 regs 1 0 0 4) <= MAX_XLAT_TABLES ->
  exists d' l' x', init_xlat_tables tables_at (St d l h v) = (Ret tt, St d' l' h (sput x' v)) /\
    forall va, walk tables_at x' va = translation regs va.
Proof.
  intros Hb Hf Hc H1 H2 H3 Hn.
  destruct (init_xlat_tables_run regs Hb Hf tables_at H1 H2 H3 d l h v Hc Hn) as (d' & l' & x' & E & _ & Hw). by exists d', l', x'.
Qed.

(** A processor: at EL3, 40-bit physical addresses, MMU off. *)
Definition el3_board : Env := {|
  Dev := unit;
  hw_read _ _ d := (0, d);
  hw_write _ _ _ d := d;
  hw_call f _ d := (if bool_decide (f = "read_CurrentEl"%string) then 12
                    else if bool_decide (f = "read_id_aa64mmfr0_el1"%string) then 2 else 0, d);
  poll_bound := 1;
  uninit _ := 0
|}.
#[export] Instance el3_board_cpu : El3Cpu (H := el3_board).
Proof.
  refine {| sctlr_el3 := (fun _ : Dev (Env := el3_board) => 0) |}.
  - done.
  - by intros [].
  - done.
  - done.
  - done.
  - done.
Defined.

(** Two pages of memory, of which the second is read-only code. *)
Definition two_pages : list mmap_region := [Region 0x1000 0x1000 0x2000 (MT_MEMORY .| MT_RW); Region 0x2000 0x2000 0x1000 MT_CODE].
Definition two_pages_map : xlat := set_mmap (map_of two_pages) (set_max 0x2fff 0x2fff xlat_zero).

Lemma two_pages_buildable : buildable two_pages.
Proof.
  split.
  - repeat constructor; simpl; try lia; by (exists 1 + exists 2).
  - repeat constructor; simpl; unfold nested, last_va, offset; simpl; lia.
  - repeat constructor; by vm_compute.
  - repeat constructor; by exists 0.
Qed.

Lemma xlat_walk_exact_witness : exists x',
  walk 0x10000 x' 0x1008 = Some (0x1008, Access true true false 0 3) /\
  walk 0x10000 x' 0x2008 = Some (0x2008, Access false false false 0 3) /\ walk 0x10000 x' 0x3008 = None.
Proof.
  destruct (xlat_walk_exact (H := el3_board) (V := xlat) two_pages 0x10000 tt [] [] two_pages_map) as (d' & l' & x' & _ & Hw).
  - apply two_pages_buildable.
  - vm_compute. lia.
  - split; try done. repeat constructor.
  - by exists 16.
  - lia.
  - lia.
  - vm_compute. discriminate.
  - exists x'. by rewrite !Hw.
Defined.

End XlatWalk.
