(* ===== verification/Psci.v ===== *)
(** * Power state coordination: data and common operations

    lib/psci/psci_common.c, the types of include/lib/psci/psci.h and
    lib/psci/psci_private.h, and [plat_get_target_pwr_state] of
    plat/common/plat_psci_common.c.  The statics are the power-domain tree, the
    states the processors have requested for the domains above them, and the
    per-processor data.  [mpidr_el1] is the register of the executing processor.

    What PSCI asks of the platform and of the secure payload's dispatcher is an
    interface: the classes [PlatOps] and [SpdOps] hold the tables of hooks, a
    hook that is NULL being [None].

    Build: PSCI_EXTENDED_STATE_ID and WARMBOOT_ENABLE_DCACHE_EARLY on,
    ENABLE_PSCI_STAT, ENABLE_RUNTIME_INSTRUMENTATION, HW_ASSISTED_COHERENCY off.
    Cache maintenance has no effect in the model. *)

From S2P Require Import Prelude Machine Gic IntrMgmt CtxMgmt.
From Stdlib Require Import String.
From stdpp Require Import strings.
Import Gic IntrMgmt CtxMgmt.
#[local] Open Scope Z_scope.
#[local] Open Scope c_scope.

Module Psci.

(** platform_def.h *)
Definition PLAT_MAX_PWR_LVL : Z := 1.
Definition PLAT_MAX_RET_STATE : Z := 1.
Definition PLAT_MAX_OFF_STATE : Z := 2.

(** psci.h *)
Definition PSCI_NUM_PWR_DOMAINS : Z := 2 * PLATFORM_CORE_COUNT.
Definition PSCI_NUM_NON_CPU_PWR_DOMAINS : Z := PSCI_NUM_PWR_DOMAINS - PLATFORM_CORE_COUNT.
Definition PSCI_CPU_PWR_LVL : Z := 0.
Definition PSCI_INVALID_PWR_LVL : Z := PLAT_MAX_PWR_LVL + 1.
Definition PSCI_LOCAL_STATE_RUN : Z := 0.
Definition PSCI_INVALID_MPIDR : Z := 2 ^ 64 - 1.
Definition PSCI_VERSION : Z := 0x84000000.
Definition PSCI_CPU_SUSPEND_AARCH32 : Z := 0x84000001.
Definition PSCI_CPU_SUSPEND_AARCH64 : Z := 0xc4000001.
Definition PSCI_CPU_OFF : Z := 0x84000002.
Definition PSCI_CPU_ON_AARCH32 : Z := 0x84000003.
Definition PSCI_CPU_ON_AARCH64 : Z := 0xc4000003.
Definition PSCI_AFFINITY_INFO_AARCH32 : Z := 0x84000004.
Definition PSCI_AFFINITY_INFO_AARCH64 : Z := 0xc4000004.
Definition PSCI_MIG_AARCH32 : Z := 0x84000005.
Definition PSCI_MIG_AARCH64 : Z := 0xc4000005.
Definition PSCI_MIG_INFO_TYPE : Z := 0x84000006.
Definition PSCI_MIG_INFO_UP_CPU_AARCH32 : Z := 0x84000007.
Definition PSCI_MIG_INFO_UP_CPU_AARCH64 : Z := 0xc4000007.
Definition PSCI_SYSTEM_OFF : Z := 0x84000008.
Definition PSCI_SYSTEM_RESET : Z := 0x84000009.
Definition PSCI_FEATURES : Z := 0x8400000A.
Definition PSCI_NODE_HW_STATE_AARCH32 : Z := 0x8400000d.
Definition PSCI_NODE_HW_STATE_AARCH64 : Z := 0xc400000d.
Definition PSCI_SYSTEM_SUSPEND_AARCH32 : Z := 0x8400000E.
Definition PSCI_SYSTEM_SUSPEND_AARCH64 : Z := 0xc400000E.
Definition PSCI_STAT_RESIDENCY_AARCH64 : Z := 0xc4000010.
Definition PSCI_STAT_COUNT_AARCH64 : Z := 0xc4000011.
Definition PSCI_SYSTEM_RESET2_AARCH32 : Z := 0x84000012.
Definition PSCI_SYSTEM_RESET2_AARCH64 : Z := 0xc4000012.
Definition PSCI_MEM_PROTECT : Z := 0x84000013.
Definition PSCI_MEM_CHK_RANGE_AARCH32 : Z := 0x84000014.
Definition PSCI_MEM_CHK_RANGE_AARCH64 : Z := 0xc4000014.
Definition PSCI_TOS_UP_MIG_CAP : Z := 0.
Definition PSCI_TOS_NOT_UP_MIG_CAP : Z := 1.
Definition PSCI_TOS_NOT_PRESENT_MP : Z := 2.
Definition PSTATE_VALID_MASK : Z := 0xB0000000.
Definition PSTATE_TYPE_SHIFT : Z := 30.
Definition PSTATE_ID_MASK : Z := 0xfffffff.
Definition PSTATE_ID_SHIFT : Z := 0.
Definition PSTATE_TYPE_STANDBY : Z := 0x0.
Definition PSTATE_TYPE_POWERDOWN : Z := 0x1.
Definition PSTATE_TYPE_MASK : Z := 0x1.
Definition PSCI_E_SUCCESS : Z := 0.
Definition PSCI_E_NOT_SUPPORTED : Z := -1.
Definition PSCI_E_INVALID_PARAMS : Z := -2.
Definition PSCI_E_DENIED : Z := -3.
Definition PSCI_E_ALREADY_ON : Z := -4.
Definition PSCI_E_ON_PENDING : Z := -5.
Definition PSCI_E_INTERN_FAIL : Z := -6.
Definition PSCI_E_NOT_PRESENT : Z := -7.
Definition PSCI_E_INVALID_ADDRESS : Z := -9.

Definition define_psci_cap (x : Z) : Z := 1 .<< (x .& 0x1f).
Definition psci_get_pstate_id (power_state : Z) : Z := (power_state .>> PSTATE_ID_SHIFT) .& PSTATE_ID_MASK.
Definition psci_get_pstate_type (power_state : Z) : Z := (power_state .>> PSTATE_TYPE_SHIFT) .& PSTATE_TYPE_MASK.
Definition psci_check_power_state (power_state : Z) : Z := power_state .& PSTATE_VALID_MASK.

Inductive aff_info_state_t := AFF_STATE_ON | AFF_STATE_OFF | AFF_STATE_ON_PENDING.
#[export] Instance aff_eq_dec : EqDecision aff_info_state_t.
Proof. solve_decision. Defined.
Definition aff_value (a : aff_info_state_t) : Z :=
  match a with AFF_STATE_ON => 0 | AFF_STATE_OFF => 1 | AFF_STATE_ON_PENDING => 2 end.

Definition is_local_state_run (s : Z) : bool := s =? PSCI_LOCAL_STATE_RUN.
Definition is_local_state_off (s : Z) : bool := (s >? PLAT_MAX_RET_STATE) && (s <=? PLAT_MAX_OFF_STATE).
Definition is_cpu_standby_req (is_power_down_state retn_lvl : Z) : bool :=
  (is_power_down_state =? 0) && (retn_lvl =? 0).

(** [psci_power_state_t]: the array [pwr_domain_state], of PLAT_MAX_PWR_LVL + 1
    entries. *)
Definition psci_power_state : Type := list Z.
Definition pwr_domain_state (s : psci_power_state) (lvl : Z) : Z := nth (Z.to_nat lvl) s 0.

Record psci_cpu_data := PsciCpuData {
  aff_info_state : aff_info_state_t;
  target_pwrlvl : Z;
  local_state : Z
}.
Definition set_aff (x : aff_info_state_t) (c : psci_cpu_data) : psci_cpu_data :=
  PsciCpuData x (target_pwrlvl c) (local_state c).
Definition set_target_pwrlvl (x : Z) (c : psci_cpu_data) : psci_cpu_data :=
  PsciCpuData (aff_info_state c) x (local_state c).
Definition set_local_state (x : Z) (c : psci_cpu_data) : psci_cpu_data :=
  PsciCpuData (aff_info_state c) (target_pwrlvl c) x.

Record non_cpu_pd_node := NonCpuNode {
  cpu_start_idx : Z;
  ncpus : Z;
  parent_node : Z;
  node_state : Z;
  level : Z;
  lock_index : Z
}.
Definition set_node_state (x : Z) (n : non_cpu_pd_node) : non_cpu_pd_node :=
  NonCpuNode (cpu_start_idx n) (ncpus n) (parent_node n) x (level n) (lock_index n).

(** The lock of a processor's node is [Machine.cpu_lock]. *)
Record cpu_pd_node := CpuNode { node_mpidr : Z; cpu_parent : Z }.

(** [psci_plat_pm_ops] and [psci_spd_pm] are pointers to the tables: here
    whether they are set. *)
Record psci := PsciVars {
  psci_req_local_pwr_states : list (list Z);
  psci_plat_core_count : Z;
  psci_non_cpu_pd_nodes : list non_cpu_pd_node;
  psci_cpu_pd_nodes : list cpu_pd_node;
  psci_svc_cpu_data : list psci_cpu_data;
  psci_caps : Z;
  psci_plat_pm_ops : bool;
  psci_spd_pm : bool
}.

Definition set_req (x : list (list Z)) (v : psci) : psci :=
  PsciVars x (psci_plat_core_count v) (psci_non_cpu_pd_nodes v) (psci_cpu_pd_nodes v)
    (psci_svc_cpu_data v) (psci_caps v) (psci_plat_pm_ops v) (psci_spd_pm v).
Definition set_core_count (x : Z) (v : psci) : psci :=
  PsciVars (psci_req_local_pwr_states v) x (psci_non_cpu_pd_nodes v) (psci_cpu_pd_nodes v)
    (psci_svc_cpu_data v) (psci_caps v) (psci_plat_pm_ops v) (psci_spd_pm v).
Definition set_nodes (x : list non_cpu_pd_node) (v : psci) : psci :=
  PsciVars (psci_req_local_pwr_states v) (psci_plat_core_count v) x (psci_cpu_pd_nodes v)
    (psci_svc_cpu_data v) (psci_caps v) (psci_plat_pm_ops v) (psci_spd_pm v).
Definition set_cpu_nodes (x : list cpu_pd_node) (v : psci) : psci :=
  PsciVars (psci_req_local_pwr_states v) (psci_plat_core_count v) (psci_non_cpu_pd_nodes v) x
    (psci_svc_cpu_data v) (psci_caps v) (psci_plat_pm_ops v) (psci_spd_pm v).
Definition set_cpu_data (x : list psci_cpu_data) (v : psci) : psci :=
  PsciVars (psci_req_local_pwr_states v) (psci_plat_core_count v) (psci_non_cpu_pd_nodes v)
    (psci_cpu_pd_nodes v) x (psci_caps v) (psci_plat_pm_ops v) (psci_spd_pm v).
Definition set_caps (x : Z) (v : psci) : psci :=
  PsciVars (psci_req_local_pwr_states v) (psci_plat_core_count v) (psci_non_cpu_pd_nodes v)
    (psci_cpu_pd_nodes v) (psci_svc_cpu_data v) x (psci_plat_pm_ops v) (psci_spd_pm v).
Definition set_plat_pm_ops (x : bool) (v : psci) : psci :=
  PsciVars (psci_req_local_pwr_states v) (psci_plat_core_count v) (psci_non_cpu_pd_nodes v)
    (psci_cpu_pd_nodes v) (psci_svc_cpu_data v) (psci_caps v) x (psci_spd_pm v).
Definition set_spd_pm (x : bool) (v : psci) : psci :=
  PsciVars (psci_req_local_pwr_states v) (psci_plat_core_count v) (psci_non_cpu_pd_nodes v)
    (psci_cpu_pd_nodes v) (psci_svc_cpu_data v) (psci_caps v) (psci_plat_pm_ops v) x.

(** ** The hooks *)

Section Tables.
Context `{Env}.

Record plat_psci_ops {V : Type} := PlatPsciOps {
  cpu_standby : option (Z -> M V unit);
  pwr_domain_on : option (Z -> M V Z);
  pwr_domain_off : option (psci_power_state -> M V unit);
  pwr_domain_suspend_pwrdown_early : option (psci_power_state -> M V unit);
  pwr_domain_suspend : option (psci_power_state -> M V unit);
  pwr_domain_on_finish : option (psci_power_state -> M V unit);
  pwr_domain_on_finish_late : option (psci_power_state -> M V unit);
  pwr_domain_suspend_finish : option (psci_power_state -> M V unit);
  pwr_domain_pwr_down_wfi : option (psci_power_state -> M V unit);
  system_off : option (M V unit);
  system_reset : option (M V unit);
  validate_power_state : option (Z -> psci_power_state -> M V (Z * psci_power_state));
  validate_ns_entrypoint : option (Z -> M V Z);
  get_sys_suspend_power_state : option (psci_power_state -> M V psci_power_state);
  get_node_hw_state : option (Z -> Z -> M V Z);
  mem_protect_chk : option (Z -> Z -> M V Z);
  read_mem_protect : option (M V (Z * Z));
  write_mem_protect : option (Z -> M V Z);
  system_reset2 : option (Z -> Z -> Z -> M V Z)
}.

Record spd_pm_ops {V : Type} := SpdPmOps {
  svc_on : option (Z -> M V unit);
  svc_off : option (Z -> M V Z);
  svc_suspend : option (Z -> M V unit);
  svc_on_finish : option (Z -> M V unit);
  svc_suspend_finish : option (Z -> M V unit);
  svc_migrate : option (Z -> Z -> M V Z);
  svc_migrate_info : option (M V (Z * Z));
  svc_system_off : option (M V unit);
  svc_system_reset : option (M V unit)
}.

(** The tables as the processor with MPIDR [mpidr_el1] calls them, and the other
    functions PSCI calls in the platform. *)
Class PlatOps (V : Type) := {
  plat_ops : Z -> plat_psci_ops (V := V);
  plat_get_power_domain_tree_desc : list Z;
  plat_get_syscnt_freq2 : M V Z;
  plat_setup_psci_ops : Z -> M V Z
}.
Class SpdOps (V : Type) := { spd_ops : Z -> spd_pm_ops (V := V) }.

End Tables.
Arguments plat_psci_ops {_} V.
Arguments spd_pm_ops {_} V.

(** ** psci_common.c *)

Section Common.
Context `{E : Env} {V : Type} `{!Has gic V} `{!Has intr_mgmt V} `{!Has ctx_vars V} `{!Has psci V}.
Context `{PO : !PlatOps V} `{SO : !SpdOps V}.
Variable mpidr_el1 : Z.
#[local] Abbreviation me := (plat_my_core_pos mpidr_el1).

(** [f != NULL] *)
Definition is_set {A} (f : option A) : bool := bool_decide (is_Some f).

(** A table through its pointer, a hook through the table. *)
Definition pm_ops : M V (plat_psci_ops V) :=
  p <- gets psci_plat_pm_ops ;; if (p : bool) then ret (plat_ops mpidr_el1) else stop NullDeref.
Definition spd_hook {A} (f : spd_pm_ops V -> option A) : M V (option A) :=
  p <- gets psci_spd_pm ;; ret (if (p : bool) then f (spd_ops mpidr_el1) else None).

(** psci_private.h: the per-processor data *)
Definition cpu_data_by_index (idx : Z) : M V psci_cpu_data :=
  l <- gets psci_svc_cpu_data ;; aread l idx.
Definition upd_cpu_data (idx : Z) (f : psci_cpu_data -> psci_cpu_data) : M V unit :=
  l <- gets psci_svc_cpu_data ;; x <- aread l idx ;; l' <- awrite l idx (f x) ;; mods (set_cpu_data l').
Definition psci_get_aff_info_state_by_idx (idx : Z) : M V aff_info_state_t :=
  x <- cpu_data_by_index idx ;; ret (aff_info_state x).
Definition psci_set_aff_info_state_by_idx (idx : Z) (a : aff_info_state_t) : M V unit :=
  upd_cpu_data idx (set_aff a).
Definition psci_get_aff_info_state : M V aff_info_state_t := psci_get_aff_info_state_by_idx me.
Definition psci_set_aff_info_state (a : aff_info_state_t) : M V unit := psci_set_aff_info_state_by_idx me a.
Definition psci_get_suspend_pwrlvl : M V Z := x <- cpu_data_by_index me ;; ret (target_pwrlvl x).
Definition psci_set_suspend_pwrlvl (lvl : Z) : M V unit := upd_cpu_data me (set_target_pwrlvl lvl).
Definition psci_set_cpu_local_state (s : Z) : M V unit := upd_cpu_data me (set_local_state s).
Definition psci_get_cpu_local_state : M V Z := x <- cpu_data_by_index me ;; ret (local_state x).

Definition pd_node (idx : Z) : M V non_cpu_pd_node :=
  l <- gets psci_non_cpu_pd_nodes ;; aread l idx.
Definition upd_pd_node (idx : Z) (f : non_cpu_pd_node -> non_cpu_pd_node) : M V unit :=
  l <- gets psci_non_cpu_pd_nodes ;; n <- aread l idx ;; l' <- awrite l idx (f n) ;; mods (set_nodes l').
Definition cpu_node (idx : Z) : M V cpu_pd_node := l <- gets psci_cpu_pd_nodes ;; aread l idx.

Definition find_local_state_type (state : Z) : Z :=
  if negb (state =? 0) then if state >? PLAT_MAX_RET_STATE then 2 else 1 else 0.

Definition psci_validate_power_state (power_state : Z) (state_info : psci_power_state)
    : M V (Z * psci_power_state) :=
  if negb (psci_check_power_state power_state =? 0) then ret (PSCI_E_INVALID_PARAMS, state_info)
  else
    ops <- pm_ops ;;
    c_assert (is_set (validate_power_state ops)) ;;
    f <- deref (validate_power_state ops) ;;
    f power_state state_info.

Definition psci_query_sys_suspend_pwrstate (state_info : psci_power_state) : M V psci_power_state :=
  ops <- pm_ops ;;
  c_assert (is_set (get_sys_suspend_power_state ops)) ;;
  f <- deref (get_sys_suspend_power_state ops) ;;
  f state_info.

Fixpoint last_on_loop (cpus : list Z) : M V bool :=
  match cpus with
  | [] => ret true
  | cpu_idx :: cpus' =>
      if cpu_idx =? me then
        a <- psci_get_aff_info_state ;;
        c_assert (bool_decide (a = AFF_STATE_ON)) ;;
        last_on_loop cpus'
      else
        a <- psci_get_aff_info_state_by_idx cpu_idx ;;
        if bool_decide (a = AFF_STATE_OFF) then last_on_loop cpus' else ret false
  end.

Definition psci_is_last_on_cpu : M V bool :=
  n <- gets psci_plat_core_count ;; last_on_loop (steps 0 n 1).

Definition get_power_on_target_pwrlvl : M V Z :=
  pwrlvl <- psci_get_suspend_pwrlvl ;;
  let pwrlvl := if pwrlvl =? PSCI_INVALID_PWR_LVL then PLAT_MAX_PWR_LVL else pwrlvl in
  c_assert (pwrlvl <? PSCI_INVALID_PWR_LVL) ;;
  ret pwrlvl.

Definition psci_set_req_local_pwr_state (pwrlvl cpu_idx req_pwr_state : Z) : M V unit :=
  c_assert (pwrlvl >? PSCI_CPU_PWR_LVL) ;;
  n <- gets psci_plat_core_count ;;
  if (pwrlvl >? PSCI_CPU_PWR_LVL) && (pwrlvl <=? PLAT_MAX_PWR_LVL) && (cpu_idx <? n) then
    t <- gets psci_req_local_pwr_states ;;
    row <- aread t (pwrlvl - 1) ;;
    row' <- awrite row cpu_idx req_pwr_state ;;
    t' <- awrite t (pwrlvl - 1) row' ;;
    mods (set_req t')
  else ret tt.

Definition psci_init_req_local_pwr_states : M V unit :=
  n <- gets psci_plat_core_count ;;
  for_each (steps 0 PLAT_MAX_PWR_LVL 1) (fun pwrlvl =>
    for_each (steps 0 n 1) (fun core =>
      t <- gets psci_req_local_pwr_states ;;
      row <- aread t pwrlvl ;;
      row' <- awrite row core PLAT_MAX_OFF_STATE ;;
      t' <- awrite t pwrlvl row' ;;
      mods (set_req t'))).

(** The pointer [&psci_req_local_pwr_states[pwrlvl - 1][cpu_idx]] is the rest of
    the row from there; [None] is NULL. *)
Definition psci_get_req_local_pwr_states (pwrlvl cpu_idx : Z) : M V (option (list Z)) :=
  c_assert (pwrlvl >? PSCI_CPU_PWR_LVL) ;;
  n <- gets psci_plat_core_count ;;
  if (pwrlvl >? PSCI_CPU_PWR_LVL) && (pwrlvl <=? PLAT_MAX_PWR_LVL) && (cpu_idx <? n) then
    t <- gets psci_req_local_pwr_states ;;
    row <- aread t (pwrlvl - 1) ;;
    ret (Some (drop (Z.to_nat cpu_idx) row))
  else ret None.

Definition get_non_cpu_pd_node_local_state (parent_idx : Z) : M V Z :=
  n <- pd_node parent_idx ;; ret (node_state n).
Definition set_non_cpu_pd_node_local_state (parent_idx state : Z) : M V unit :=
  upd_pd_node parent_idx (set_node_state state).

Fixpoint copy_from_nodes (lvls : list Z) (parent_idx : Z) (pd_state : psci_power_state)
    : M V psci_power_state :=
  match lvls with
  | [] => ret pd_state
  | lvl :: lvls' =>
      x <- get_non_cpu_pd_node_local_state parent_idx ;;
      pd_state <- awrite pd_state lvl x ;;
      n <- pd_node parent_idx ;;
      copy_from_nodes lvls' (parent_node n) pd_state
  end.

Fixpoint fill_run (lvls : list Z) (pd_state : psci_power_state) : M V psci_power_state :=
  match lvls with
  | [] => ret pd_state
  | lvl :: lvls' => pd_state <- awrite pd_state lvl PSCI_LOCAL_STATE_RUN ;; fill_run lvls' pd_state
  end.

Definition psci_get_target_local_pwr_states (end_pwrlvl : Z) (target_state : psci_power_state)
    : M V psci_power_state :=
  x <- psci_get_cpu_local_state ;;
  pd_state <- awrite target_state PSCI_CPU_PWR_LVL x ;;
  c <- cpu_node me ;;
  pd_state <- copy_from_nodes (steps (PSCI_CPU_PWR_LVL + 1) (end_pwrlvl + 1) 1) (cpu_parent c) pd_state ;;
  fill_run (steps (Z.max (PSCI_CPU_PWR_LVL + 1) (end_pwrlvl + 1)) (PLAT_MAX_PWR_LVL + 1) 1) pd_state.

Fixpoint copy_to_nodes (lvls : list Z) (parent_idx : Z) (pd_state : psci_power_state) : M V unit :=
  match lvls with
  | [] => ret tt
  | lvl :: lvls' =>
      set_non_cpu_pd_node_local_state parent_idx (pwr_domain_state pd_state lvl) ;;
      n <- pd_node parent_idx ;;
      copy_to_nodes lvls' (parent_node n) pd_state
  end.

Definition psci_set_target_local_pwr_states (end_pwrlvl : Z) (target_state : psci_power_state)
    : M V unit :=
  psci_set_cpu_local_state (pwr_domain_state target_state PSCI_CPU_PWR_LVL) ;;
  c <- cpu_node me ;;
  copy_to_nodes (steps 1 (end_pwrlvl + 1) 1) (cpu_parent c) target_state.

Fixpoint parents_loop (lvls : list Z) (parent : Z) (node_index : list Z) : M V (list Z) :=
  match lvls with
  | [] => ret node_index
  | i :: lvls' =>
      node_index <- awrite node_index (i - 1) parent ;;
      n <- pd_node parent ;;
      parents_loop lvls' (parent_node n) node_index
  end.

Definition psci_get_parent_pwr_domain_nodes (cpu_idx end_lvl : Z) (node_index : list Z)
    : M V (list Z) :=
  c <- cpu_node cpu_idx ;;
  parents_loop (steps (PSCI_CPU_PWR_LVL + 1) (end_lvl + 1) 1) (cpu_parent c) node_index.

Fixpoint run_loop (cpu_idx : Z) (lvls : list Z) (parent_idx : Z) : M V unit :=
  match lvls with
  | [] => ret tt
  | lvl :: lvls' =>
      set_non_cpu_pd_node_local_state parent_idx PSCI_LOCAL_STATE_RUN ;;
      psci_set_req_local_pwr_state lvl cpu_idx PSCI_LOCAL_STATE_RUN ;;
      n <- pd_node parent_idx ;;
      run_loop cpu_idx lvls' (parent_node n)
  end.

Definition psci_set_pwr_domains_to_run (end_pwrlvl : Z) : M V unit :=
  c <- cpu_node me ;;
  run_loop me (steps (PSCI_CPU_PWR_LVL + 1) (end_pwrlvl + 1) 1) (cpu_parent c) ;;
  psci_set_aff_info_state AFF_STATE_ON ;;
  psci_set_cpu_local_state PSCI_LOCAL_STATE_RUN.

(** plat_psci_common.c: the shallowest of the requested states *)
Fixpoint min_state (n : nat) (states : list Z) (target : Z) : M V Z :=
  match n with
  | O => ret target
  | S n' =>
      match states with
      | [] => stop OutOfBounds
      | temp :: states' => min_state n' states' (if temp <? target then temp else target)
      end
  end.

Definition plat_get_target_pwr_state (lvl : Z) (states : option (list Z)) (ncpu : Z) : M V Z :=
  c_assert (ncpu >? 0) ;;
  st <- deref states ;;
  min_state (Z.to_nat ncpu) st PLAT_MAX_OFF_STATE.

(** The levels up to the first one whose negotiated state is RUN; the levels
    after it are returned. *)
Fixpoint coordinate (lvls : list Z) (parent_idx : Z) (state_info : psci_power_state)
    : M V (psci_power_state * list Z) :=
  match lvls with
  | [] => ret (state_info, [])
  | lvl :: lvls' =>
      psci_set_req_local_pwr_state lvl me (pwr_domain_state state_info lvl) ;;
      n <- pd_node parent_idx ;;
      req_states <- psci_get_req_local_pwr_states lvl (cpu_start_idx n) ;;
      target_state <- plat_get_target_pwr_state lvl req_states (ncpus n) ;;
      state_info <- awrite state_info lvl target_state ;;
      if is_local_state_run target_state then ret (state_info, lvls')
      else coordinate lvls' (parent_node n) state_info
  end.

Fixpoint request_rest (lvls : list Z) (state_info : psci_power_state) : M V psci_power_state :=
  match lvls with
  | [] => ret state_info
  | lvl :: lvls' =>
      psci_set_req_local_pwr_state lvl me (pwr_domain_state state_info lvl) ;;
      state_info <- awrite state_info lvl PSCI_LOCAL_STATE_RUN ;;
      request_rest lvls' state_info
  end.

Definition psci_do_state_coordination (end_pwrlvl : Z) (state_info : psci_power_state)
    : M V psci_power_state :=
  c_assert (end_pwrlvl <=? PLAT_MAX_PWR_LVL) ;;
  c <- cpu_node me ;;
  let* (state_info, rest) :=
    coordinate (steps (PSCI_CPU_PWR_LVL + 1) (end_pwrlvl + 1) 1) (cpu_parent c) state_info in
  state_info <- request_rest rest state_info ;;
  psci_set_target_local_pwr_states end_pwrlvl state_info ;;
  ret state_info.

Definition levels_down (from : Z) : list Z := rev (steps PSCI_CPU_PWR_LVL (from + 1) 1).

Definition psci_find_max_off_lvl (state_info : psci_power_state) : Z :=
  default PSCI_INVALID_PWR_LVL
    (List.find (fun i => is_local_state_off (pwr_domain_state state_info i)) (levels_down PLAT_MAX_PWR_LVL)).

Definition psci_find_target_suspend_lvl (state_info : psci_power_state) : Z :=
  default PSCI_INVALID_PWR_LVL
    (List.find (fun i => negb (is_local_state_run (pwr_domain_state state_info i))) (levels_down PLAT_MAX_PWR_LVL)).

Fixpoint deepening (state_info : psci_power_state) (lvls : list Z) (deepest : Z) : bool :=
  match lvls with
  | [] => true
  | i :: lvls' =>
      let req := find_local_state_type (pwr_domain_state state_info i) in
      if req <? deepest then false else deepening state_info lvls' req
  end.

Definition psci_validate_suspend_req (state_info : psci_power_state) (is_power_down_state : Z) : Z :=
  let target_lvl := psci_find_target_suspend_lvl state_info in
  if target_lvl =? PSCI_INVALID_PWR_LVL then PSCI_E_INVALID_PARAMS
  else if negb (deepening state_info (levels_down target_lvl) 0) then PSCI_E_INVALID_PARAMS
  else
    let max_off_lvl := psci_find_max_off_lvl state_info in
    let max_retn_lvl := if negb (target_lvl =? max_off_lvl) then target_lvl else PSCI_INVALID_PWR_LVL in
    if (is_power_down_state =? 0) &&
       (negb (max_off_lvl =? PSCI_INVALID_PWR_LVL) || (max_retn_lvl =? PSCI_INVALID_PWR_LVL))
    then PSCI_E_INVALID_PARAMS else PSCI_E_SUCCESS.

Definition psci_acquire_pwr_domain_locks (end_pwrlvl : Z) (parent_nodes : list Z) : M V unit :=
  for_each (steps (PSCI_CPU_PWR_LVL + 1) (end_pwrlvl + 1) 1) (fun level =>
    parent_idx <- aread parent_nodes (level - 1) ;;
    n <- pd_node parent_idx ;;
    lock (psci_locks (lock_index n))).

Definition psci_release_pwr_domain_locks (end_pwrlvl : Z) (parent_nodes : list Z) : M V unit :=
  for_each (rev (steps (PSCI_CPU_PWR_LVL + 1) (end_pwrlvl + 1) 1)) (fun level =>
    parent_idx <- aread parent_nodes (level - 1) ;;
    n <- pd_node parent_idx ;;
    unlock (psci_locks (lock_index n))).

Definition psci_validate_mpidr (mpidr : Z) : Z :=
  if plat_core_pos_by_mpidr mpidr <? 0 then PSCI_E_INVALID_PARAMS else PSCI_E_SUCCESS.

(** The entry point is meaningful when the result is PSCI_E_SUCCESS. *)
Definition psci_get_ns_ep_info (entrypoint context_id : Z) : M V (Z * entry_point_info) :=
  ns_scr_el3 <- read_sysreg "read_scr_el3" ;;
  ns_sctlr_el1 <- read_sysreg "read_sctlr_el1" ;;
  sctlr <- (if truthy (ns_scr_el3 .& SCR_HCE_BIT) then read_sysreg "read_sctlr_el2"
            else ret ns_sctlr_el1) ;;
  let big := truthy (sctlr .& SCTLR_EE_BIT) in
  let ep_attr := (NON_SECURE .| EP_ST_DISABLE) .| (if big then EP_EE_BIG else 0) in
  let ee := b2z big in
  let ep spsr := EpInfo ep_attr entrypoint spsr (context_id :: repeat 0 7) in
  if truthy (ns_scr_el3 .& SCR_RW_BIT) then
    if truthy (entrypoint .& 1) then ret (PSCI_E_INVALID_ADDRESS, ep 0)
    else
      let mode := if truthy (ns_scr_el3 .& SCR_HCE_BIT) then MODE_EL2 else MODE_EL1 in
      ret (PSCI_E_SUCCESS, ep (SPSR_64 mode MODE_SP_ELX DISABLE_ALL_EXCEPTIONS))
  else
    let mode := if truthy (ns_scr_el3 .& SCR_HCE_BIT) then MODE32_hyp else MODE32_svc in
    let daif := DAIF_ABT_BIT .| DAIF_IRQ_BIT .| DAIF_FIQ_BIT in
    ret (PSCI_E_SUCCESS, ep (SPSR_MODE32 mode (entrypoint .& 1) ee daif)).

Definition psci_validate_entry_point (entrypoint context_id : Z) : M V (Z * entry_point_info) :=
  ops <- pm_ops ;;
  rc <- match validate_ns_entrypoint ops with
        | Some f => rc <- f entrypoint ;; ret (rc =? PSCI_E_SUCCESS)
        | None => ret true
        end ;;
  if negb rc then ret (PSCI_E_INVALID_ADDRESS, EpInfo 0 0 0 [])
  else psci_get_ns_ep_info entrypoint context_id.

Definition psci_register_spd_pm_hook : M V unit :=
  mods (set_spd_pm true) ;;
  let pm := spd_ops mpidr_el1 in
  (if is_set (svc_migrate pm) then
     mods (fun v => set_caps (psci_caps v .| define_psci_cap PSCI_MIG_AARCH64) v)
   else ret tt) ;;
  (if is_set (svc_migrate_info pm) then
     mods (fun v => set_caps (psci_caps v .| (define_psci_cap PSCI_MIG_INFO_UP_CPU_AARCH64
                                             .| define_psci_cap PSCI_MIG_INFO_TYPE)) v)
   else ret tt).

(** The result and the resident processor. *)
Definition psci_spd_migrate_info : M V (Z * Z) :=
  h <- spd_hook svc_migrate_info ;;
  match h with
  | None => ret (PSCI_E_NOT_SUPPORTED, uninit 0)
  | Some f =>
      r <- f ;;
      c_assert ((r.1 =? PSCI_TOS_UP_MIG_CAP) || (r.1 =? PSCI_TOS_NOT_UP_MIG_CAP) ||
                (r.1 =? PSCI_TOS_NOT_PRESENT_MP) || (r.1 =? PSCI_E_NOT_SUPPORTED)) ;;
      ret r
  end.

Definition psci_secondaries_brought_up : M V Z :=
  l <- gets psci_cpu_pd_nodes ;;
  let n_valid := length (List.filter (fun c => negb (node_mpidr c =? PSCI_INVALID_MPIDR)) l) in
  c_assert (0 <? Z.of_nat n_valid) ;;
  ret (if 1 <? Z.of_nat n_valid then 1 else 0).

Definition psci_do_pwrdown_sequence (power_level : Z) : M V unit :=
  _ <- ext_call "psci_do_pwrdown_cache_maintenance" [power_level] ;; ret tt.

(** [while ((wait_ms-- != 0U) && (psci_is_last_on_cpu() != 0U)) mdelay(1U);] *)
Fixpoint stop_wait (wait_ms : nat) : M V unit :=
  match wait_ms with
  | O => ret tt
  | S n =>
      b <- psci_is_last_on_cpu ;;
      if (b : bool) then mdelay 1 ;; stop_wait n else ret tt
  end.

Definition psci_stop_other_cores (wait_ms : Z) (stop_func : Z -> M V unit) : M V Z :=
  n <- gets psci_plat_core_count ;;
  for_each (steps 0 n 1) (fun idx =>
    if idx =? me then ret tt
    else
      a <- psci_get_aff_info_state_by_idx idx ;;
      if bool_decide (a = AFF_STATE_ON) then c <- cpu_node idx ;; stop_func (node_mpidr c)
      else ret tt) ;;
  if negb (wait_ms =? 0) then
    stop_wait (Z.to_nat wait_ms) ;;
    b <- psci_is_last_on_cpu ;;
    ret (if (b : bool) then PSCI_E_DENIED else PSCI_E_SUCCESS)
  else ret PSCI_E_SUCCESS.

End Common.
End Psci.
