(* ===== verification/PsciOps.v ===== *)
(** * PSCI operations

    lib/psci/psci_setup.c, psci_on.c, psci_off.c, psci_suspend.c,
    psci_system_off.c, psci_mem_protect.c and the front end psci_main.c, with
    [psci_warmboot_entrypoint] of psci_common.c and the PSCI part of
    services/std_svc/std_svc_setup.c.  An [int] result of a call becomes the
    64-bit register it is returned in. *)

From S2P Require Import Prelude Machine Gic IntrMgmt CtxMgmt Psci.
From Stdlib Require Import String.
From stdpp Require Import strings.
Import Gic IntrMgmt CtxMgmt Psci.
#[local] Open Scope Z_scope.
#[local] Open Scope c_scope.

Module PsciOps.

Definition MPIDR_AFFINITY_MASK : Z := 0xff00ffffff.
Definition SMC_UNK : Z := -1.
Definition SMCCC_VERSION : Z := 0x80000000.
Definition PSCI_MAJOR_VER : Z := 1 .<< 16.
Definition PSCI_MINOR_VER : Z := 0x1.
Definition FF_PSTATE : Z := 1.
Definition FF_PSTATE_SHIFT : Z := 1.
Definition FF_SUPPORTS_OS_INIT_MODE : Z := 1.
Definition FF_MODE_SUPPORT_SHIFT : Z := 0.
Definition HW_ON : Z := 0.
Definition HW_STANDBY : Z := 2.
Definition PSCI_RESET2_TYPE_VENDOR_SHIFT : Z := 31.
Definition PSCI_RESET2_SYSTEM_WARM_RESET : Z := 0.
Definition SMC_32 : Z := 0.
Definition SMC_64 : Z := 1.
Definition GET_SMC_CC (id : Z) : Z := (id .>> 30) .& 1.
Definition GET_SMC_TYPE (id : Z) : Z := (id .>> 31) .& 1.
Definition GET_SMC_OEN (id : Z) : Z := (id .>> 24) .& 0x3f.
Definition is_std_svc_call (fid : Z) : bool := GET_SMC_OEN fid =? 4.
Definition is_valid_fast_smc (fid : Z) : bool :=
  (((fid .>> 16) .& 0xff) =? 0) && (GET_SMC_TYPE fid =? 1).
Definition is_psci_fid (fid : Z) : bool := (fid .& 0xffe0) =? 0.
Definition is_caller_secure (flags : Z) : bool := (flags .& 1) =? 0.

Definition PSCI_GENERIC_CAP : Z :=
  define_psci_cap PSCI_VERSION .| define_psci_cap PSCI_AFFINITY_INFO_AARCH64
  .| define_psci_cap PSCI_FEATURES.
Definition PSCI_CAP_64BIT_MASK : Z :=
  define_psci_cap PSCI_CPU_SUSPEND_AARCH64 .| define_psci_cap PSCI_CPU_ON_AARCH64
  .| define_psci_cap PSCI_AFFINITY_INFO_AARCH64 .| define_psci_cap PSCI_MIG_AARCH64
  .| define_psci_cap PSCI_MIG_INFO_UP_CPU_AARCH64 .| define_psci_cap PSCI_NODE_HW_STATE_AARCH64
  .| define_psci_cap PSCI_SYSTEM_SUSPEND_AARCH64 .| define_psci_cap PSCI_STAT_RESIDENCY_AARCH64
  .| define_psci_cap PSCI_STAT_COUNT_AARCH64 .| define_psci_cap PSCI_SYSTEM_RESET2_AARCH64
  .| define_psci_cap PSCI_MEM_CHK_RANGE_AARCH64.

Section Ops.
Context `{E : Env} {V : Type} `{!Has gic V} `{!Has intr_mgmt V} `{!Has ctx_vars V} `{!Has psci V}.
Context `{PO : !PlatOps V} `{SO : !SpdOps V}.
Variable mpidr_el1 : Z.
#[local] Abbreviation me := (plat_my_core_pos mpidr_el1).

(** ** psci_setup.c *)

Definition psci_arch_setup : M V unit :=
  freq <- plat_get_syscnt_freq2 ;;
  write_sysreg "write_cntfrq_el0" freq ;;
  write_sysreg "init_cpu_ops" 0.

Definition psci_init_pwr_domain_node (node_idx parent_idx level : Z) : M V unit :=
  if level >? PSCI_CPU_PWR_LVL then
    upd_pd_node node_idx (fun n =>
      NonCpuNode (cpu_start_idx n) (ncpus n) parent_idx PLAT_MAX_OFF_STATE level node_idx)
  else
    l <- gets psci_cpu_pd_nodes ;;
    l' <- awrite l node_idx (CpuNode PSCI_INVALID_MPIDR parent_idx) ;;
    mods (set_cpu_nodes l') ;;
    upd_cpu_data node_idx (fun _ =>
      PsciCpuData AFF_STATE_OFF PSCI_INVALID_PWR_LVL PLAT_MAX_OFF_STATE) ;;
    cm_set_context_by_index node_idx NON_SECURE.

(** One entry of the topology, that is, one parent, after the other.  The result
    is the next free node and the number of nodes at the next level. *)
Fixpoint populate_level (topology : list Z) (level : Z) (parents : nat)
    (parent_node_index node_index num_nodes_at_next_lvl : Z) : M V (Z * Z * Z) :=
  match parents with
  | O => ret (parent_node_index, node_index, num_nodes_at_next_lvl)
  | S n =>
      c_assert (parent_node_index <=? PSCI_NUM_NON_CPU_PWR_DOMAINS) ;;
      num_children <- aread topology parent_node_index ;;
      for_each (steps node_index (node_index + num_children) 1) (fun j =>
        psci_init_pwr_domain_node (u8 j) (u32 (parent_node_index - 1)) (u8 level)) ;;
      populate_level topology level n (parent_node_index + 1) (node_index + num_children)
        (num_nodes_at_next_lvl + num_children)
  end.

Fixpoint populate_levels (topology : list Z) (levels : list Z)
    (num_nodes_at_lvl parent_node_index node_index j : Z) : M V Z :=
  match levels with
  | [] => ret j
  | level :: levels' =>
      let* (p, j, next) :=
        populate_level topology level (Z.to_nat num_nodes_at_lvl) parent_node_index node_index 0 in
      populate_levels topology levels' next p (if level - 1 =? PSCI_CPU_PWR_LVL then 0 else j) j
  end.

Definition populate_power_domain_tree (topology : list Z) : M V Z :=
  j <- populate_levels topology (levels_down PLAT_MAX_PWR_LVL) 1 0 0 0 ;;
  c_assert (j <=? PLATFORM_CORE_COUNT) ;;
  ret j.

(** The inner loop of [psci_update_pwrlvl_limits], from the highest level down. *)
Fixpoint limits_of_cpu (cpu_idx : Z) (temp_index : list Z) (js : list Z) (nodes_idx : list Z)
    : M V (list Z) :=
  match js with
  | [] => ret nodes_idx
  | j :: js' =>
      t <- aread temp_index j ;;
      x <- aread nodes_idx j ;;
      nodes_idx <-
        (if negb (t =? x) then
           nodes_idx <- awrite nodes_idx j t ;;
           upd_pd_node t (fun n =>
             NonCpuNode cpu_idx (ncpus n) (parent_node n) (node_state n) (level n) (lock_index n)) ;;
           ret nodes_idx
         else ret nodes_idx) ;;
      x <- aread nodes_idx j ;;
      upd_pd_node x (fun n =>
        NonCpuNode (cpu_start_idx n) (u32 (ncpus n + 1)) (parent_node n) (node_state n) (level n)
          (lock_index n)) ;;
      limits_of_cpu cpu_idx temp_index js' nodes_idx
  end.

Fixpoint limits_loop (cpus : list Z) (nodes_idx : list Z) : M V unit :=
  match cpus with
  | [] => ret tt
  | cpu_idx :: cpus' =>
      temp_index <- psci_get_parent_pwr_domain_nodes cpu_idx PLAT_MAX_PWR_LVL
                      (repeat (uninit 0) (Z.to_nat PLAT_MAX_PWR_LVL)) ;;
      nodes_idx <- limits_of_cpu cpu_idx temp_index (rev (steps 0 PLAT_MAX_PWR_LVL 1)) nodes_idx ;;
      limits_loop cpus' nodes_idx
  end.

Definition psci_update_pwrlvl_limits : M V unit :=
  n <- gets psci_plat_core_count ;;
  limits_loop (steps 0 n 1) (repeat 0 (Z.to_nat PLAT_MAX_PWR_LVL)).

Definition set_node_mpidr (idx : Z) : M V unit :=
  l <- gets psci_cpu_pd_nodes ;;
  c <- aread l idx ;;
  l' <- awrite l idx (CpuNode (mpidr_el1 .& MPIDR_AFFINITY_MASK) (cpu_parent c)) ;;
  mods (set_cpu_nodes l').

Definition add_cap (b : bool) (fid : Z) : M V unit :=
  if b then mods (fun v => set_caps (psci_caps v .| define_psci_cap fid) v) else ret tt.

Definition psci_setup (mailbox_ep : Z) : M V Z :=
  psci_arch_setup ;;
  n <- populate_power_domain_tree plat_get_power_domain_tree_desc ;;
  mods (set_core_count n) ;;
  psci_update_pwrlvl_limits ;;
  set_node_mpidr me ;;
  psci_init_req_local_pwr_states ;;
  psci_set_pwr_domains_to_run mpidr_el1 PLAT_MAX_PWR_LVL ;;
  _ <- plat_setup_psci_ops mailbox_ep ;;
  mods (set_plat_pm_ops true) ;;
  mods (set_caps PSCI_GENERIC_CAP) ;;
  ops <- pm_ops mpidr_el1 ;;
  add_cap (is_set (pwr_domain_off ops)) PSCI_CPU_OFF ;;
  add_cap (is_set (pwr_domain_on ops) && is_set (pwr_domain_on_finish ops)) PSCI_CPU_ON_AARCH64 ;;
  add_cap (is_set (pwr_domain_suspend ops) && is_set (pwr_domain_suspend_finish ops)) PSCI_CPU_SUSPEND_AARCH64 ;;
  add_cap (is_set (pwr_domain_suspend ops) && is_set (pwr_domain_suspend_finish ops)
           && is_set (get_sys_suspend_power_state ops)) PSCI_SYSTEM_SUSPEND_AARCH64 ;;
  add_cap (is_set (system_off ops)) PSCI_SYSTEM_OFF ;;
  add_cap (is_set (system_reset ops)) PSCI_SYSTEM_RESET ;;
  add_cap (is_set (get_node_hw_state ops)) PSCI_NODE_HW_STATE_AARCH64 ;;
  add_cap (is_set (read_mem_protect ops) && is_set (write_mem_protect ops)) PSCI_MEM_PROTECT ;;
  add_cap (is_set (mem_protect_chk ops)) PSCI_MEM_CHK_RANGE_AARCH64 ;;
  add_cap (is_set (system_reset2 ops)) PSCI_SYSTEM_RESET2_AARCH64 ;;
  ret 0.

(** ** psci_on.c *)

Definition cpu_on_validate_state (aff_state : aff_info_state_t) : M V Z :=
  if bool_decide (aff_state = AFF_STATE_ON) then ret PSCI_E_ALREADY_ON
  else if bool_decide (aff_state = AFF_STATE_ON_PENDING) then ret PSCI_E_ON_PENDING
  else c_assert (bool_decide (aff_state = AFF_STATE_OFF)) ;; ret PSCI_E_SUCCESS.

(** A hook that is called when the dispatcher and the hook are there. *)
Definition call_spd (f : spd_pm_ops V -> option (Z -> M V unit)) (x : Z) : M V unit :=
  h <- spd_hook mpidr_el1 f ;;
  match h with Some g => g x | None => ret tt end.

Definition mark_on_pending (target_idx : Z) : M V unit :=
  psci_set_aff_info_state_by_idx target_idx AFF_STATE_ON_PENDING ;;
  a <- psci_get_aff_info_state_by_idx target_idx ;;
  if negb (bool_decide (a = AFF_STATE_ON_PENDING)) then
    c_assert (bool_decide (a = AFF_STATE_OFF)) ;;
    psci_set_aff_info_state_by_idx target_idx AFF_STATE_ON_PENDING ;;
    a <- psci_get_aff_info_state_by_idx target_idx ;;
    c_assert (bool_decide (a = AFF_STATE_ON_PENDING))
  else ret tt.

Definition psci_cpu_on_start (target_cpu : Z) (ep : entry_point_info) : M V Z :=
  let pos := plat_core_pos_by_mpidr target_cpu in
  let target_idx := u32 pos in
  c_assert (0 <=? pos) ;;
  ops <- pm_ops mpidr_el1 ;;
  c_assert (is_set (pwr_domain_on ops) && is_set (pwr_domain_on_finish ops)) ;;
  lock (cpu_lock target_idx) ;;
  a <- psci_get_aff_info_state_by_idx target_idx ;;
  rc <- cpu_on_validate_state a ;;
  rc <-
    (if negb (rc =? PSCI_E_SUCCESS) then ret rc
     else
       call_spd svc_on target_cpu ;;
       mark_on_pending target_idx ;;
       f <- deref (pwr_domain_on ops) ;;
       rc <- f target_cpu ;;
       c_assert ((rc =? PSCI_E_SUCCESS) || (rc =? PSCI_E_INTERN_FAIL)) ;;
       (if rc =? PSCI_E_SUCCESS then cm_init_context_by_index target_idx ep
        else psci_set_aff_info_state_by_idx target_idx AFF_STATE_OFF) ;;
       ret rc) ;;
  unlock (cpu_lock target_idx) ;;
  ret rc.

Definition psci_cpu_on_finish (cpu_idx : Z) (state_info : psci_power_state) : M V unit :=
  ops <- pm_ops mpidr_el1 ;;
  f <- deref (pwr_domain_on_finish ops) ;;
  f state_info ;;
  match pwr_domain_on_finish_late ops with Some g => g state_info | None => ret tt end ;;
  psci_arch_setup ;;
  lock (cpu_lock cpu_idx) ;;
  unlock (cpu_lock cpu_idx) ;;
  a <- psci_get_aff_info_state mpidr_el1 ;;
  c_assert (bool_decide (a = AFF_STATE_ON_PENDING)) ;;
  call_spd svc_on_finish 0 ;;
  set_node_mpidr cpu_idx ;;
  cm_prepare_el3_exit me NON_SECURE.

(** ** psci_off.c *)

Definition psci_set_power_off_state : psci_power_state :=
  map (fun _ => PLAT_MAX_OFF_STATE) (steps PSCI_CPU_PWR_LVL (PLAT_MAX_PWR_LVL + 1) 1).

(** [dsb(); wfi();], from which the processor does not come back. *)
Definition psci_power_down_wfi {A} : M V A := barrier ;; park.

Definition no_parents : list Z := repeat 0 (Z.to_nat PLAT_MAX_PWR_LVL).

(** The final wait for the power controller. *)
Definition power_down (ops : plat_psci_ops V) (state_info : psci_power_state) : M V unit :=
  match pwr_domain_pwr_down_wfi ops with
  | Some f => f state_info
  | None => psci_power_down_wfi
  end.

Definition psci_do_cpu_off (end_pwrlvl : Z) : M V Z :=
  ops <- pm_ops mpidr_el1 ;;
  c_assert (is_set (pwr_domain_off ops)) ;;
  let state_info := psci_set_power_off_state in
  parent_nodes <- psci_get_parent_pwr_domain_nodes me end_pwrlvl no_parents ;;
  psci_acquire_pwr_domain_locks end_pwrlvl parent_nodes ;;
  h <- spd_hook mpidr_el1 svc_off ;;
  rc <- match h with Some f => f 0 | None => ret PSCI_E_SUCCESS end ;;
  state_info <-
    (if negb (rc =? 0) then ret state_info
     else
       state_info <- psci_do_state_coordination mpidr_el1 end_pwrlvl state_info ;;
       psci_do_pwrdown_sequence (psci_find_max_off_lvl state_info) ;;
       f <- deref (pwr_domain_off ops) ;;
       f state_info ;;
       ret state_info) ;;
  psci_release_pwr_domain_locks end_pwrlvl parent_nodes ;;
  (if rc =? PSCI_E_SUCCESS then
     psci_set_aff_info_state mpidr_el1 AFF_STATE_OFF ;;
     power_down ops state_info
   else ret tt) ;;
  ret rc.

(** ** psci_suspend.c *)

Definition psci_suspend_to_standby_finisher (cpu_idx end_pwrlvl : Z) : M V unit :=
  parent_nodes <- psci_get_parent_pwr_domain_nodes cpu_idx end_pwrlvl no_parents ;;
  psci_acquire_pwr_domain_locks end_pwrlvl parent_nodes ;;
  state_info <- psci_get_target_local_pwr_states mpidr_el1 end_pwrlvl
                  (repeat (uninit 0) (Z.to_nat (PLAT_MAX_PWR_LVL + 1))) ;;
  ops <- pm_ops mpidr_el1 ;;
  f <- deref (pwr_domain_suspend_finish ops) ;;
  f state_info ;;
  psci_set_pwr_domains_to_run mpidr_el1 end_pwrlvl ;;
  psci_release_pwr_domain_locks end_pwrlvl parent_nodes.

Definition psci_suspend_to_pwrdown_start (end_pwrlvl : Z) (ep : entry_point_info)
    (state_info : psci_power_state) : M V unit :=
  let max_off_lvl := psci_find_max_off_lvl state_info in
  psci_set_suspend_pwrlvl mpidr_el1 end_pwrlvl ;;
  call_spd svc_suspend max_off_lvl ;;
  ops <- pm_ops mpidr_el1 ;;
  match pwr_domain_suspend_pwrdown_early ops with Some f => f state_info | None => ret tt end ;;
  cm_init_my_context me ep ;;
  psci_do_pwrdown_sequence max_off_lvl.

Definition psci_cpu_suspend_start (ep : entry_point_info) (end_pwrlvl : Z)
    (state_info : psci_power_state) (is_power_down_state : Z) : M V unit :=
  ops <- pm_ops mpidr_el1 ;;
  c_assert (is_set (pwr_domain_suspend ops) && is_set (pwr_domain_suspend_finish ops)) ;;
  parent_nodes <- psci_get_parent_pwr_domain_nodes me end_pwrlvl no_parents ;;
  psci_acquire_pwr_domain_locks end_pwrlvl parent_nodes ;;
  isr <- read_sysreg "read_isr_el1" ;;
  if negb (isr =? 0) then psci_release_pwr_domain_locks end_pwrlvl parent_nodes
  else
    state_info <- psci_do_state_coordination mpidr_el1 end_pwrlvl state_info ;;
    (if negb (is_power_down_state =? 0) then psci_suspend_to_pwrdown_start end_pwrlvl ep state_info
     else ret tt) ;;
    f <- deref (pwr_domain_suspend ops) ;;
    f state_info ;;
    psci_release_pwr_domain_locks end_pwrlvl parent_nodes ;;
    (if negb (is_power_down_state =? 0) then power_down ops state_info else ret tt) ;;
    emit EvWfi ;;
    psci_suspend_to_standby_finisher me end_pwrlvl.

Definition psci_cpu_suspend_finish (cpu_idx : Z) (state_info : psci_power_state) : M V unit :=
  a <- psci_get_aff_info_state mpidr_el1 ;;
  c_assert (bool_decide (a = AFF_STATE_ON)
            && is_local_state_off (pwr_domain_state state_info PSCI_CPU_PWR_LVL)) ;;
  ops <- pm_ops mpidr_el1 ;;
  f <- deref (pwr_domain_suspend_finish ops) ;;
  f state_info ;;
  counter_freq <- plat_get_syscnt_freq2 ;;
  write_sysreg "write_cntfrq_el0" counter_freq ;;
  h <- spd_hook mpidr_el1 svc_suspend_finish ;;
  match h with
  | Some g =>
      let max_off_lvl := psci_find_max_off_lvl state_info in
      c_assert (negb (max_off_lvl =? PSCI_INVALID_PWR_LVL)) ;;
      g max_off_lvl
  | None => ret tt
  end ;;
  psci_set_suspend_pwrlvl mpidr_el1 PSCI_INVALID_PWR_LVL ;;
  cm_prepare_el3_exit me NON_SECURE.

Definition psci_warmboot_entrypoint : M V unit :=
  a <- psci_get_aff_info_state mpidr_el1 ;;
  if bool_decide (a = AFF_STATE_OFF) then stop Panic
  else
    end_pwrlvl <- get_power_on_target_pwrlvl mpidr_el1 ;;
    parent_nodes <- psci_get_parent_pwr_domain_nodes me end_pwrlvl no_parents ;;
    psci_acquire_pwr_domain_locks end_pwrlvl parent_nodes ;;
    state_info <- psci_get_target_local_pwr_states mpidr_el1 end_pwrlvl
                    (repeat PSCI_LOCAL_STATE_RUN (Z.to_nat (PLAT_MAX_PWR_LVL + 1))) ;;
    a <- psci_get_aff_info_state mpidr_el1 ;;
    (if bool_decide (a = AFF_STATE_ON_PENDING) then psci_cpu_on_finish me state_info
     else psci_cpu_suspend_finish me state_info) ;;
    psci_set_pwr_domains_to_run mpidr_el1 end_pwrlvl ;;
    psci_release_pwr_domain_locks end_pwrlvl parent_nodes.

(** ** psci_system_off.c, psci_mem_protect.c *)

Definition notify_spd (f : spd_pm_ops V -> option (M V unit)) : M V unit :=
  h <- spd_hook mpidr_el1 f ;;
  match h with Some g => g | None => ret tt end.

Definition psci_system_off : M V unit :=
  ops <- pm_ops mpidr_el1 ;;
  c_assert (is_set (system_off ops)) ;;
  notify_spd svc_system_off ;;
  f <- deref (system_off ops) ;; f.

Definition psci_system_reset : M V unit :=
  ops <- pm_ops mpidr_el1 ;;
  c_assert (is_set (system_reset ops)) ;;
  notify_spd svc_system_reset ;;
  f <- deref (system_reset ops) ;; f.

Definition psci_system_reset2 (reset_type cookie : Z) : M V Z :=
  ops <- pm_ops mpidr_el1 ;;
  c_assert (is_set (system_reset2 ops)) ;;
  let is_vendor := (reset_type .>> PSCI_RESET2_TYPE_VENDOR_SHIFT) .& 1 in
  let go :=
    notify_spd svc_system_reset ;;
    f <- deref (system_reset2 ops) ;;
    f is_vendor reset_type cookie in
  if is_vendor =? 0 then
    if negb (reset_type =? PSCI_RESET2_SYSTEM_WARM_RESET) then ret PSCI_E_INVALID_PARAMS
    else
      bad <- match write_mem_protect ops with
             | Some w => r <- w 0 ;; ret (r <? 0)
             | None => ret false
             end ;;
      if (bad : bool) then ret PSCI_E_NOT_SUPPORTED else go
  else go.

Definition psci_mem_protect (enable : Z) : M V Z :=
  ops <- pm_ops mpidr_el1 ;;
  c_assert (is_set (read_mem_protect ops)) ;;
  c_assert (is_set (write_mem_protect ops)) ;;
  f <- deref (read_mem_protect ops) ;;
  r <- f ;;
  if r.1 <? 0 then ret PSCI_E_NOT_SUPPORTED
  else
    w <- deref (write_mem_protect ops) ;;
    r' <- w enable ;;
    if r' <? 0 then ret PSCI_E_NOT_SUPPORTED else ret (if negb (r.2 =? 0) then 1 else 0).

Definition psci_mem_chk_range (base length : Z) : M V Z :=
  ops <- pm_ops mpidr_el1 ;;
  c_assert (is_set (mem_protect_chk ops)) ;;
  if (length =? 0) || (base + (length - 1) >=? 2 ^ 64) then ret PSCI_E_DENIED
  else
    f <- deref (mem_protect_chk ops) ;;
    r <- f base length ;;
    ret (if r <? 0 then PSCI_E_DENIED else PSCI_E_SUCCESS).

(** ** psci_main.c *)

Definition psci_cpu_on (target_cpu entrypoint context_id : Z) : M V Z :=
  if negb (psci_validate_mpidr target_cpu =? PSCI_E_SUCCESS) then ret PSCI_E_INVALID_PARAMS
  else
    let* (rc, ep) := psci_validate_entry_point mpidr_el1 entrypoint context_id in
    if negb (rc =? PSCI_E_SUCCESS) then ret rc else psci_cpu_on_start target_cpu ep.

Definition psci_version : Z := PSCI_MAJOR_VER .| PSCI_MINOR_VER.

Definition psci_cpu_suspend (power_state entrypoint context_id : Z) : M V Z :=
  let* (rc, state_info) := psci_validate_power_state mpidr_el1 power_state
      (repeat PSCI_LOCAL_STATE_RUN (Z.to_nat (PLAT_MAX_PWR_LVL + 1))) in
  if negb (rc =? PSCI_E_SUCCESS) then c_assert (rc =? PSCI_E_INVALID_PARAMS) ;; ret rc
  else
    let is_power_down_state := psci_get_pstate_type power_state in
    c_assert (psci_validate_suspend_req state_info is_power_down_state =? PSCI_E_SUCCESS) ;;
    let target_pwrlvl := psci_find_target_suspend_lvl state_info in
    if target_pwrlvl =? PSCI_INVALID_PWR_LVL then stop Panic
    else if is_cpu_standby_req is_power_down_state target_pwrlvl then
      ops <- pm_ops mpidr_el1 ;;
      match cpu_standby ops with
      | None => ret PSCI_E_INVALID_PARAMS
      | Some f =>
          let cpu_pd_state := pwr_domain_state state_info PSCI_CPU_PWR_LVL in
          psci_set_cpu_local_state mpidr_el1 cpu_pd_state ;;
          f cpu_pd_state ;;
          psci_set_cpu_local_state mpidr_el1 PSCI_LOCAL_STATE_RUN ;;
          ret PSCI_E_SUCCESS
      end
    else
      let* (rc, ep) :=
        (if negb (is_power_down_state =? 0) then psci_validate_entry_point mpidr_el1 entrypoint context_id
         else ret (PSCI_E_SUCCESS, EpInfo (uninit 0) (uninit 1) (uninit 2) [])) in
      if negb (rc =? PSCI_E_SUCCESS) then ret rc
      else
        psci_cpu_suspend_start ep target_pwrlvl state_info is_power_down_state ;;
        ret PSCI_E_SUCCESS.

Definition psci_system_suspend (entrypoint context_id : Z) : M V Z :=
  last <- psci_is_last_on_cpu mpidr_el1 ;;
  if negb last then ret PSCI_E_DENIED
  else
    let* (rc, ep) := psci_validate_entry_point mpidr_el1 entrypoint context_id in
    if negb (rc =? PSCI_E_SUCCESS) then ret rc
    else
      state_info <- psci_query_sys_suspend_pwrstate mpidr_el1
                      (repeat (uninit 0) (Z.to_nat (PLAT_MAX_PWR_LVL + 1))) ;;
      if psci_find_target_suspend_lvl state_info <? PLAT_MAX_PWR_LVL then ret PSCI_E_DENIED
      else
        c_assert (psci_validate_suspend_req state_info PSTATE_TYPE_POWERDOWN =? PSCI_E_SUCCESS) ;;
        c_assert (is_local_state_off (pwr_domain_state state_info PLAT_MAX_PWR_LVL)) ;;
        psci_cpu_suspend_start ep PLAT_MAX_PWR_LVL state_info PSTATE_TYPE_POWERDOWN ;;
        ret PSCI_E_SUCCESS.

Definition psci_cpu_off : M V Z :=
  rc <- psci_do_cpu_off PLAT_MAX_PWR_LVL ;;
  c_assert (rc =? PSCI_E_DENIED) ;;
  ret rc.

Definition psci_affinity_info (target_affinity lowest_affinity_level : Z) : M V Z :=
  if lowest_affinity_level >? PSCI_CPU_PWR_LVL then ret PSCI_E_INVALID_PARAMS
  else
    let pos := plat_core_pos_by_mpidr target_affinity in
    if pos =? -1 then ret PSCI_E_INVALID_PARAMS
    else a <- psci_get_aff_info_state_by_idx (u32 pos) ;; ret (aff_value a).

Definition psci_migrate (target_cpu : Z) : M V Z :=
  let* (rc, resident) := psci_spd_migrate_info mpidr_el1 in
  if negb (rc =? PSCI_TOS_UP_MIG_CAP) then
    ret (if rc =? PSCI_TOS_NOT_UP_MIG_CAP then PSCI_E_DENIED else PSCI_E_NOT_SUPPORTED)
  else if negb (resident =? mpidr_el1) then ret PSCI_E_NOT_PRESENT
  else if negb (psci_validate_mpidr target_cpu =? PSCI_E_SUCCESS) then ret PSCI_E_INVALID_PARAMS
  else
    h <- spd_hook mpidr_el1 svc_migrate ;;
    c_assert (is_set h) ;;
    f <- deref h ;;
    rc <- f mpidr_el1 target_cpu ;;
    c_assert ((rc =? PSCI_E_SUCCESS) || (rc =? PSCI_E_INTERN_FAIL)) ;;
    ret rc.

Definition psci_migrate_info_type : M V Z := r <- psci_spd_migrate_info mpidr_el1 ;; ret r.1.

Definition psci_migrate_info_up_cpu : M V Z :=
  let* (rc, resident) := psci_spd_migrate_info mpidr_el1 in
  ret (if negb (rc =? PSCI_TOS_NOT_UP_MIG_CAP) && negb (rc =? PSCI_TOS_UP_MIG_CAP)
       then PSCI_E_INVALID_PARAMS else resident).

Definition psci_node_hw_state (target_cpu power_level : Z) : M V Z :=
  if negb (psci_validate_mpidr target_cpu =? PSCI_E_SUCCESS) then ret PSCI_E_INVALID_PARAMS
  else if power_level >? PLAT_MAX_PWR_LVL then ret PSCI_E_INVALID_PARAMS
  else
    ops <- pm_ops mpidr_el1 ;;
    c_assert (is_set (get_node_hw_state ops)) ;;
    f <- deref (get_node_hw_state ops) ;;
    rc <- f target_cpu power_level ;;
    c_assert (((HW_ON <=? rc) && (rc <=? HW_STANDBY)) || (rc =? PSCI_E_NOT_SUPPORTED)
              || (rc =? PSCI_E_INVALID_PARAMS)) ;;
    ret rc.

Definition psci_features (psci_fid : Z) : M V Z :=
  caps <- gets psci_caps ;;
  if psci_fid =? SMCCC_VERSION then ret PSCI_E_SUCCESS
  else
    let local_caps := if GET_SMC_CC psci_fid =? SMC_64 then caps .& PSCI_CAP_64BIT_MASK else caps in
    if negb (is_std_svc_call psci_fid && is_valid_fast_smc psci_fid && is_psci_fid psci_fid)
    then ret PSCI_E_NOT_SUPPORTED
    else if (local_caps .& define_psci_cap psci_fid) =? 0 then ret PSCI_E_NOT_SUPPORTED
    else if (psci_fid =? PSCI_CPU_SUSPEND_AARCH32) || (psci_fid =? PSCI_CPU_SUSPEND_AARCH64) then
      ret ((FF_PSTATE .<< FF_PSTATE_SHIFT)
           .| ((if FF_SUPPORTS_OS_INIT_MODE =? 1 then 0 else 1) .<< FF_MODE_SUPPORT_SHIFT))
    else ret PSCI_E_SUCCESS.

(** [ret] is left as it was by the calls that do not return. *)
Definition no_return (m : M V unit) : M V Z := m ;; ret (uninit 0).

Definition psci_smc32 (smc_fid r1 r2 r3 : Z) : M V Z :=
  if smc_fid =? PSCI_VERSION then ret psci_version
  else if smc_fid =? PSCI_CPU_OFF then psci_cpu_off
  else if smc_fid =? PSCI_CPU_SUSPEND_AARCH32 then psci_cpu_suspend r1 r2 r3
  else if smc_fid =? PSCI_CPU_ON_AARCH32 then psci_cpu_on r1 r2 r3
  else if smc_fid =? PSCI_AFFINITY_INFO_AARCH32 then psci_affinity_info r1 r2
  else if smc_fid =? PSCI_MIG_AARCH32 then psci_migrate r1
  else if smc_fid =? PSCI_MIG_INFO_TYPE then psci_migrate_info_type
  else if smc_fid =? PSCI_MIG_INFO_UP_CPU_AARCH32 then psci_migrate_info_up_cpu
  else if smc_fid =? PSCI_NODE_HW_STATE_AARCH32 then psci_node_hw_state r1 r2
  else if smc_fid =? PSCI_SYSTEM_SUSPEND_AARCH32 then psci_system_suspend r1 r2
  else if smc_fid =? PSCI_SYSTEM_OFF then no_return psci_system_off
  else if smc_fid =? PSCI_SYSTEM_RESET then no_return psci_system_reset
  else if smc_fid =? PSCI_FEATURES then psci_features r1
  else if smc_fid =? PSCI_MEM_PROTECT then psci_mem_protect r1
  else if smc_fid =? PSCI_MEM_CHK_RANGE_AARCH32 then psci_mem_chk_range r1 r2
  else if smc_fid =? PSCI_SYSTEM_RESET2_AARCH32 then psci_system_reset2 r1 r2
  else ret SMC_UNK.

Definition psci_smc64 (smc_fid x1 x2 x3 : Z) : M V Z :=
  if smc_fid =? PSCI_CPU_SUSPEND_AARCH64 then psci_cpu_suspend (u32 x1) x2 x3
  else if smc_fid =? PSCI_CPU_ON_AARCH64 then psci_cpu_on x1 x2 x3
  else if smc_fid =? PSCI_AFFINITY_INFO_AARCH64 then psci_affinity_info x1 (u32 x2)
  else if smc_fid =? PSCI_MIG_AARCH64 then psci_migrate x1
  else if smc_fid =? PSCI_MIG_INFO_UP_CPU_AARCH64 then psci_migrate_info_up_cpu
  else if smc_fid =? PSCI_NODE_HW_STATE_AARCH64 then psci_node_hw_state x1 (u32 x2)
  else if smc_fid =? PSCI_SYSTEM_SUSPEND_AARCH64 then psci_system_suspend x1 x2
  else if smc_fid =? PSCI_MEM_CHK_RANGE_AARCH64 then psci_mem_chk_range x1 x2
  else if smc_fid =? PSCI_SYSTEM_RESET2_AARCH64 then psci_system_reset2 (u32 x1) x2
  else ret SMC_UNK.

Definition psci_smc_handler (smc_fid x1 x2 x3 flags : Z) : M V Z :=
  if is_caller_secure flags then ret (u64 SMC_UNK)
  else
    caps <- gets psci_caps ;;
    if (caps .& define_psci_cap smc_fid) =? 0 then ret (u64 SMC_UNK)
    else
      r <- (if GET_SMC_CC smc_fid =? SMC_32 then psci_smc32 smc_fid (u32 x1) (u32 x2) (u32 x3)
            else psci_smc64 smc_fid x1 x2 x3) ;;
      ret (u64 r).

End Ops.
End PsciOps.
