(* ===== verification/Cci.v ===== *)
(** * The cache-coherent interconnect

    drivers/arm/cci/cci.c and plat/arm/common/arm_cci.c, in a build with
    assertions.  Every master is connected to a slave interface of the
    interconnect; a cluster takes part in coherency while snoops and DVM messages
    are enabled on its interface. *)

From S2P Require Import Prelude Machine Trace.
#[local] Open Scope Z_scope.
#[local] Open Scope c_scope.

Module Cci.

Definition CCI_PART_LO_MASK : Z := 0xff.
Definition CCI_PART_HI_MASK : Z := 0xf.
Definition CCI400_PART_NUM : Z := 0x420.
Definition CCI500_PART_NUM : Z := 0x422.
Definition CCI550_PART_NUM : Z := 0x423.
Definition CCI400_SLAVE_PORTS : Z := 5.
Definition CCI500_SLAVE_PORTS : Z := 7.
Definition CCI550_SLAVE_PORTS : Z := 7.
Definition MAKE_CCI_PART_NUMBER (hi lo : Z) : Z := (hi .<< 8) .| lo.
Definition SLAVE_IFACE0_OFFSET : Z := 0x1000.
Definition SLAVE_IFACE_OFFSET (index : Z) : Z := SLAVE_IFACE0_OFFSET + 0x1000 * index.
Definition STATUS_REG : Z := 0xc.
Definition PERIPHERAL_ID0 : Z := 0xFE0.
Definition PERIPHERAL_ID1 : Z := 0xFE4.
Definition SNOOP_CTRL_REG : Z := 0x0.
Definition DVM_EN_BIT : Z := BIT 1.
Definition SNOOP_EN_BIT : Z := BIT 0.
Definition CHANGE_PENDING_BIT : Z := BIT 0.
Definition PLAT_ARM_CCI_BASE : Z := 0xFD6E0000.
Definition cci_map : list Z := [3; 4].
Definition MPIDR_AFFLVL1_VAL (mpidr : Z) : Z := (mpidr .>> 8) .& 0xff.

(** The statics; a map that is not set is [None]. *)
Record cci := CciVars {
  cci_base : Z;
  cci_slave_if_map : option (list Z);
  max_master_id : Z;
  cci_num_slave_ports : Z
}.

Section Ops.
Context `{Env} {V : Type} `{!Has cci V}.

(** The loop of [validate_cci_map]; the result is the set of interfaces in use. *)
Fixpoint validate_loop (ports : Z) (map : list Z) (masters : list Z) (valid_cci_map : Z) : M V (option Z) :=
  match masters with
  | [] => ret (Some valid_cci_map)
  | i :: masters' =>
      slave_if_id <- aread map i ;;
      if slave_if_id <? 0 then validate_loop ports map masters' valid_cci_map
      else if slave_if_id >=? ports then ret None
      else if negb ((valid_cci_map .& shl64 1 slave_if_id) =? 0) then ret None
      else validate_loop ports map masters' (u32 (valid_cci_map .| shl64 1 slave_if_id))
  end.

Definition validate_cci_map (map : list Z) : M V bool :=
  m <- gets max_master_id ;;
  ports <- gets cci_num_slave_ports ;;
  r <- validate_loop ports map (steps 0 (m + 1) 1) 0 ;;
  ret (match r with Some valid => negb (valid =? 0) | None => false end).

Definition read_cci_part_number (base : Z) : M V Z :=
  lo <- mmio_read_32 (base + PERIPHERAL_ID0) ;;
  hi <- mmio_read_32 (base + PERIPHERAL_ID1) ;;
  ret (MAKE_CCI_PART_NUMBER (hi .& CCI_PART_HI_MASK) (lo .& CCI_PART_LO_MASK)).

Definition get_slave_ports (part_num : Z) : Z :=
  if part_num =? CCI400_PART_NUM then CCI400_SLAVE_PORTS
  else if part_num =? CCI500_PART_NUM then CCI500_SLAVE_PORTS
  else if part_num =? CCI550_PART_NUM then CCI550_SLAVE_PORTS
  else -1.

Definition cci_init (base : Z) (map : list Z) (num_cci_masters : Z) : M V unit :=
  c_assert (negb (base =? 0)) ;;
  mods (fun v => CciVars base (Some map) (max_master_id v) (cci_num_slave_ports v)) ;;
  mods (fun v => CciVars (cci_base v) (cci_slave_if_map v) (u32 (num_cci_masters - 1)) (cci_num_slave_ports v)) ;;
  part <- read_cci_part_number base ;;
  mods (fun v => CciVars (cci_base v) (cci_slave_if_map v) (max_master_id v) (get_slave_ports part)) ;;
  ports <- gets cci_num_slave_ports ;;
  c_assert (0 <=? ports) ;;
  ok <- validate_cci_map map ;;
  c_assert ok.

(** Both functions write the snoop control register of the master's interface
    and wait until the change has taken effect. *)
Definition set_snoop (master_id value : Z) : M V unit :=
  p <- gets cci_slave_if_map ;;
  map <- deref p ;;
  slave_if_id <- aread map master_id ;;
  m <- gets max_master_id ;;
  c_assert (master_id <=? m) ;;
  ports <- gets cci_num_slave_ports ;;
  c_assert ((slave_if_id <? ports) && (0 <=? slave_if_id)) ;;
  base <- gets cci_base ;;
  c_assert (negb (base =? 0)) ;;
  mmio_write_32 (base + SLAVE_IFACE_OFFSET slave_if_id + SNOOP_CTRL_REG) value ;;
  barrier ;;
  _ <- do_while poll_bound (mmio_read_32 (base + STATUS_REG))
         (fun st => negb ((st .& CHANGE_PENDING_BIT) =? 0)) ;;
  ret tt.

Definition cci_enable_snoop_dvm_reqs (master_id : Z) : M V unit :=
  set_snoop master_id (DVM_EN_BIT .| SNOOP_EN_BIT).
Definition cci_disable_snoop_dvm_reqs (master_id : Z) : M V unit :=
  set_snoop master_id (not32 (DVM_EN_BIT .| SNOOP_EN_BIT)).

Definition plat_arm_interconnect_init : M V unit :=
  cci_init PLAT_ARM_CCI_BASE cci_map (Z.of_nat (length cci_map)).
Definition plat_arm_interconnect_enter_coherency (mpidr_el1 : Z) : M V unit :=
  cci_enable_snoop_dvm_reqs (MPIDR_AFFLVL1_VAL mpidr_el1).
Definition plat_arm_interconnect_exit_coherency (mpidr_el1 : Z) : M V unit :=
  cci_disable_snoop_dvm_reqs (MPIDR_AFFLVL1_VAL mpidr_el1).

End Ops.

(** ** The driver as the platform sets it up *)

Definition cci_ready (v : cci) : Prop :=
  cci_base v = PLAT_ARM_CCI_BASE /\ cci_slave_if_map v = Some cci_map /\
  max_master_id v = 1 /\ 5 <= cci_num_slave_ports v.

Section Ready.
Context `{Env} {V : Type} `{!Has cci V}.

(** Documented behaviour of the interconnect: a change of the snoop control is
    finished within the polling bound. *)
Definition cci_answers : Prop := forall d, stops_within poll_bound (PLAT_ARM_CCI_BASE + STATUS_REG)
  (fun st => negb ((st .& CHANGE_PENDING_BIT) =? 0)) d.

Lemma status_wait_run n addr again d l h (v : V) : stops_within n addr again d -> exists z d' new,
  do_while n (mmio_read_32 addr) again (St d l h v) = (Ret z, St d' (new ++ l) h v).
Proof.
  revert d l. induction n as [|n IH]; intros d l; [done|]. simpl. intros Hd. run.
  destruct (again _) eqn:Hagain.
  - destruct Hd as [Hd|Hd]; [congruence|]. destruct (IH _ (EvRd W32 addr (u32 (hw_read W32 addr d).1) :: l) Hd)
      as (z & d' & new & E'). exists z, d', (new ++ [EvRd W32 addr (u32 (hw_read W32 addr d).1)]).
    by rewrite <- app_assoc.
  - run. eexists _, _, [_]. reflexivity.
Qed.

(** Snoops of the first cluster are switched on and off. *)
Lemma snoop_run value d l h (v : V) : cci_answers -> cci_ready (sget v) -> exists d' new,
  set_snoop 0 value (St d l h v) = (Ret tt, St d' (new ++ l) h v).
Proof.
  intros Ha (Hb & Hm & Hid & Hp). unfold set_snoop. run. rewrite Hm. cbn [deref]. run.
  rewrite (run_bind_aread cci_map 0 3) by done. run. rewrite Hid. change (0 <=? 1) with true. run.
  rewrite (proj2 (Z.ltb_lt 3 _)) by lia. run. rewrite Hb. change (negb (PLAT_ARM_CCI_BASE =? 0)) with true. run.
  match goal with |- context [bind (do_while _ _ _) _ (St ?d1 (?e0 :: ?e1 :: l) _ _)] =>
    destruct (status_wait_run _ _ _ d1 (e0 :: e1 :: l) h v (Ha d1)) as (z & d2 & new & E2);
    rewrite (bind_run _ _ _ _ _ E2); exists d2, (new ++ [e0; e1]) end. run. by rewrite <- app_assoc.
Qed.

End Ready.
End Cci.
