(* ===== verification/PsciTree.v ===== *)
(** * The power-domain tree of the platform

    The shape of the PSCI statics after setup ([tree]), and what the common
    operations do on it: state coordination computes the shallowest request, and
    every operation keeps the shape. *)

From S2P Require Import Prelude Machine Trace Gic IntrMgmt CtxMgmt Psci PsciOps.
From Stdlib Require Import String.
From stdpp Require Import strings.
Import Gic IntrMgmt CtxMgmt Psci PsciOps.
#[local] Open Scope Z_scope.
#[local] Open Scope c_scope.

Module PsciTree.

(** One cluster of four processors: the requests of the processors for the
    cluster, the cluster's state, and the data of the processors. *)
Definition NO_PARENT : Z := 0xFFFFFFFF.
Definition cluster_node (st : Z) : non_cpu_pd_node := NonCpuNode 0 4 NO_PARENT st 1 0.
Definition tree (row : list Z) (st : Z) (rest : list non_cpu_pd_node) (mps : list Z)
    (data : list psci_cpu_data) (caps : Z) (spd : bool) : psci :=
  PsciVars [row] 4 (cluster_node st :: rest) (map (fun m => CpuNode m 0) mps) data caps true spd.

Definition a_state (z : Z) : Prop := 0 <= z <= PLAT_MAX_OFF_STATE.
Definition data_ok (c : psci_cpu_data) : Prop :=
  a_state (local_state c) /\ 0 <= target_pwrlvl c <= PSCI_INVALID_PWR_LVL.

(** Run, and read the fields of the tree. *)
Ltac prun := run; cbn [tree psci_req_local_pwr_states psci_plat_core_count psci_non_cpu_pd_nodes
  psci_cpu_pd_nodes psci_svc_cpu_data psci_caps psci_plat_pm_ops psci_spd_pm].

(** The shallowest of a list of states. *)
Definition shallowest (row : list Z) : Z := foldr Z.min PLAT_MAX_OFF_STATE row.

Section Runs.
Context `{E : Env} {V : Type} `{!Has gic V} `{!Has intr_mgmt V} `{!Has ctx_vars V} `{!Has psci V}.
Context `{PO : !PlatOps V} `{SO : !SpdOps V}.
Implicit Types (d : Dev) (l : list event) (h : list lock_id) (v : V).

Lemma min_fold (ys : list Z) : forall a b, foldr Z.min (Z.min a b) ys = Z.min a (foldr Z.min b ys).
Proof. induction ys as [|y ys IH]; intros a b; simpl; [done|]. rewrite IH. lia. Qed.

Lemma min_state_run (row : list Z) : forall t s,
  min_state (V := V) (length row) row t s = (Ret (foldr Z.min t row), s).
Proof.
  induction row as [|x row IH]; intros t s; [done|]. simpl. rewrite IH. do 2 f_equal.
  assert ((if x <? t then x else t) = Z.min x t) as -> by (destruct (Z.ltb_spec x t); lia).
  apply min_fold.
Qed.

Context (mpidr : Z) (i : nat).
Hypothesis Hme : plat_my_core_pos mpidr = Z.of_nat i.
Hypothesis Hi : (i < 4)%nat.

Lemma cpu_data_run {B} (k : psci_cpu_data -> M V B) j c d l h v :
  psci_svc_cpu_data (sget v) !! j = Some c ->
  bind (cpu_data_by_index (Z.of_nat j)) k (St d l h v) = k c (St d l h v).
Proof. intros Hc. unfold cpu_data_by_index. run. by rewrite (run_bind_aread_nat _ _ _ _ _ Hc). Qed.

Lemma upd_cpu_data_run {B} (k : unit -> M V B) f j c d l h v :
  psci_svc_cpu_data (sget v) !! j = Some c ->
  bind (upd_cpu_data (Z.of_nat j) f) k (St d l h v) =
  k tt (St d l h (sput (set_cpu_data (<[j := f c]> (psci_svc_cpu_data (sget v))) (sget v)) v)).
Proof.
  intros Hc. unfold upd_cpu_data. run. rewrite (run_bind_aread_nat _ _ _ _ _ Hc). run.
  rewrite run_bind_awrite_nat by by eapply lookup_lt_Some. by run.
Qed.

(** ** On the tree *)

Variables (row : list Z) (st : Z) (rest : list non_cpu_pd_node) (mps : list Z)
  (data : list psci_cpu_data) (caps : Z) (spd : bool) (c : psci_cpu_data) (m : Z).
Hypothesis Hrow : length row = 4%nat.
Hypothesis Hmps : length mps = 4%nat.
Hypothesis Hdata : length data = 4%nat.
Hypothesis Hc : data !! i = Some c.
Hypothesis Hm : mps !! i = Some m.

#[local] Abbreviation img := (tree row st rest mps data caps spd).

Lemma cpu_node_run {B} (k : cpu_pd_node -> M V B) j x row' st' data' d l h v : mps !! j = Some x ->
  bind (cpu_node (Z.of_nat j)) k (St d l h (sput (tree row' st' rest mps data' caps spd) v)) =
  k (CpuNode x 0) (St d l h (sput (tree row' st' rest mps data' caps spd) v)).
Proof.
  intros Hx. unfold cpu_node. prun.
  by rewrite (run_bind_aread_nat _ _ (CpuNode x 0)) by by rewrite list_lookup_fmap, Hx.
Qed.

Lemma pd_node_run {B} (k : non_cpu_pd_node -> M V B) row' st' data' d l h v :
  bind (pd_node 0) k (St d l h (sput (tree row' st' rest mps data' caps spd) v)) =
  k (cluster_node st') (St d l h (sput (tree row' st' rest mps data' caps spd) v)).
Proof. unfold pd_node. run. reflexivity. Qed.

Lemma set_node_run {B} (k : unit -> M V B) x row' st' data' d l h v :
  bind (set_non_cpu_pd_node_local_state 0 x) k (St d l h (sput (tree row' st' rest mps data' caps spd) v)) =
  k tt (St d l h (sput (tree row' x rest mps data' caps spd) v)).
Proof.
  unfold set_non_cpu_pd_node_local_state, upd_pd_node. run. cbn [tree psci_non_cpu_pd_nodes].
  rewrite (run_bind_aread _ _ (cluster_node st')) by done. run. rewrite run_bind_awrite by done. run.
  reflexivity.
Qed.

Lemma set_req_run {B} (k : unit -> M V B) x row' st' data' d l h v : length row' = 4%nat ->
  bind (psci_set_req_local_pwr_state 1 (Z.of_nat i) x) k
    (St d l h (sput (tree row' st' rest mps data' caps spd) v)) =
  k tt (St d l h (sput (tree (<[i := x]> row') st' rest mps data' caps spd) v)).
Proof.
  clear Hrow Hdata Hc Hmps. intros Hr. unfold psci_set_req_local_pwr_state.
  change (1 >? PSCI_CPU_PWR_LVL) with true. change (1 <=? PLAT_MAX_PWR_LVL) with true. run.
  cbn [tree psci_plat_core_count psci_req_local_pwr_states].
  rewrite (proj2 (Z.ltb_lt (Z.of_nat i) 4)) by lia. cbn [andb]. run. cbn [tree psci_req_local_pwr_states]. rewrite (run_bind_aread _ _ row') by done.
  run. rewrite run_bind_awrite_nat by lia. run. rewrite run_bind_awrite by done. run. reflexivity.
Qed.

(** The data of this processor. *)
Lemma my_data_run {B} (k : psci_cpu_data -> M V B) row' st' data' x d l h v : data' !! i = Some x ->
  bind (cpu_data_by_index (plat_my_core_pos mpidr)) k
    (St d l h (sput (tree row' st' rest mps data' caps spd) v)) =
  k x (St d l h (sput (tree row' st' rest mps data' caps spd) v)).
Proof. intros Hx. rewrite Hme. apply cpu_data_run. by prun. Qed.

Lemma data_upd_run {B} (k : unit -> M V B) f j row' st' data' x d l h v : data' !! j = Some x ->
  bind (upd_cpu_data (Z.of_nat j) f) k (St d l h (sput (tree row' st' rest mps data' caps spd) v)) =
  k tt (St d l h (sput (tree row' st' rest mps (<[j := f x]> data') caps spd) v)).
Proof. intros Hx. rewrite (upd_cpu_data_run _ _ _ x) by by prun. by prun. Qed.

Lemma my_upd_run {B} (k : unit -> M V B) f row' st' data' x d l h v : data' !! i = Some x ->
  bind (upd_cpu_data (plat_my_core_pos mpidr) f) k
    (St d l h (sput (tree row' st' rest mps data' caps spd) v)) =
  k tt (St d l h (sput (tree row' st' rest mps (<[i := f x]> data') caps spd) v)).
Proof. rewrite Hme. apply data_upd_run. Qed.

Lemma my_node_run {B} (k : cpu_pd_node -> M V B) row' st' data' d l h v :
  bind (cpu_node (plat_my_core_pos mpidr)) k (St d l h (sput (tree row' st' rest mps data' caps spd) v)) =
  k (CpuNode m 0) (St d l h (sput (tree row' st' rest mps data' caps spd) v)).
Proof. rewrite Hme. by apply cpu_node_run. Qed.

Lemma get_req_run {B} (k : option (list Z) -> M V B) row' st' data' d l h v :
  bind (psci_get_req_local_pwr_states 1 0) k (St d l h (sput (tree row' st' rest mps data' caps spd) v)) =
  k (Some row') (St d l h (sput (tree row' st' rest mps data' caps spd) v)).
Proof.
  unfold psci_get_req_local_pwr_states.
  change (1 >? PSCI_CPU_PWR_LVL) with true. change (1 <=? PLAT_MAX_PWR_LVL) with true. prun.
  change (0 <? 4) with true. cbn [andb]. prun. rewrite (run_bind_aread _ _ row') by done. run.
  by rewrite drop_0.
Qed.

Lemma target_run {B} (k : Z -> M V B) row' s : length row' = 4%nat ->
  bind (plat_get_target_pwr_state 1 (Some row') 4) k s = k (shallowest row') s.
Proof.
  intros Hr. unfold plat_get_target_pwr_state. change (4 >? 0) with true. cbn [deref]. run.
  change (Z.to_nat 4) with 4%nat. rewrite <- Hr.
  by rewrite (bind_run _ _ _ _ _ (min_state_run row' PLAT_MAX_OFF_STATE _)).
Qed.

(** The cluster's state becomes the shallowest request, with this processor's
    request in its place. *)
Lemma coordination_run (s0 s1 : Z) d l h v :
  psci_do_state_coordination mpidr 1 [s0; s1] (St d l h (sput img v)) =
  (Ret [s0; shallowest (<[i := s1]> row)],
   St d l h (sput (tree (<[i := s1]> row) (shallowest (<[i := s1]> row)) rest mps
                     (<[i := set_local_state s0 c]> data) caps spd) v)).
Proof.
  unfold psci_do_state_coordination. change (1 <=? PLAT_MAX_PWR_LVL) with true. run.
  rewrite my_node_run. change (steps (PSCI_CPU_PWR_LVL + 1) (1 + 1) 1) with [1].
  cbn [coordinate cpu_parent]. change (pwr_domain_state [s0; s1] 1) with s1. rewrite Hme. run.
  rewrite set_req_run by done. run. rewrite pd_node_run. cbn [cluster_node cpu_start_idx ncpus]. run.
  rewrite get_req_run. run. rewrite target_run by by rewrite length_insert. run. set (t := shallowest _).
  rewrite run_bind_awrite by done. change (<[Z.to_nat 1 := t]> [s0; s1]) with [s0; t].
  assert (Hend : forall rest',  rest' = [] -> (state_info <- request_rest mpidr rest' [s0; t] ;;
    psci_set_target_local_pwr_states mpidr 1 state_info ;; ret state_info)
    (St d l h (sput (tree (<[i := s1]> row) st rest mps data caps spd) v)) =
    (Ret [s0; t], St d l h (sput (tree (<[i := s1]> row) t rest mps
                     (<[i := set_local_state s0 c]> data) caps spd) v))).
  { intros rest' ->. cbn [request_rest]. unfold psci_set_target_local_pwr_states, psci_set_cpu_local_state.
    run. rewrite (my_upd_run _ _ _ _ _ c) by done. run. rewrite my_node_run.
    change (steps 1 (1 + 1) 1) with [1]. cbn [copy_to_nodes cpu_parent]. run.
    rewrite set_node_run. run. rewrite pd_node_run. by run. }
  destruct (is_local_state_run t); run; by apply Hend.
Qed.

(** The states a processor wakes up from. *)
Lemma get_target_run {B} (k : psci_power_state -> M V B) (x0 x1 : Z) d l h v :
  bind (psci_get_target_local_pwr_states mpidr 1 [x0; x1]) k (St d l h (sput img v)) =
  k [local_state c; st] (St d l h (sput img v)).
Proof.
  unfold psci_get_target_local_pwr_states, psci_get_cpu_local_state. run.
  rewrite (my_data_run _ _ _ _ c) by done. run. rewrite run_bind_awrite by done. run.
  rewrite my_node_run. change (steps (PSCI_CPU_PWR_LVL + 1) (1 + 1) 1) with [1].
  cbn [copy_from_nodes cpu_parent]. unfold get_non_cpu_pd_node_local_state. run.
  rewrite pd_node_run. run. rewrite run_bind_awrite by done. run. rewrite pd_node_run. by run.
Qed.

(** A processor that runs keeps its cluster running. *)
Lemma to_run_run {B} (k : unit -> M V B) row' st' data' x d l h v :
  length row' = 4%nat -> data' !! i = Some x -> length data' = 4%nat ->
  bind (psci_set_pwr_domains_to_run mpidr 1) k (St d l h (sput (tree row' st' rest mps data' caps spd) v)) =
  k tt (St d l h (sput (tree (<[i := 0]> row') 0 rest mps
     (<[i := PsciCpuData AFF_STATE_ON (target_pwrlvl x) 0]> data') caps spd) v)).
Proof.
  clear Hrow Hdata Hc. intros Hr Hx Hl. unfold psci_set_pwr_domains_to_run. run. rewrite my_node_run.
  change (steps (PSCI_CPU_PWR_LVL + 1) (1 + 1) 1) with [1]. cbn [run_loop cpu_parent]. rewrite Hme. run.
  rewrite set_node_run. run. rewrite set_req_run by done. run. rewrite pd_node_run. run.
  unfold psci_set_aff_info_state, psci_set_aff_info_state_by_idx, psci_set_cpu_local_state.
  rewrite (my_upd_run _ _ _ _ _ x) by done. run.
  rewrite (my_upd_run _ _ _ _ _ (set_aff AFF_STATE_ON x)) by (apply list_lookup_insert_eq; lia).
  by rewrite list_insert_insert_eq.
Qed.

(** The processor's node learns its MPIDR. *)
Lemma node_mpidr_run {B} (k : unit -> M V B) row' st' data' d l h v :
  bind (set_node_mpidr mpidr (plat_my_core_pos mpidr)) k
    (St d l h (sput (tree row' st' rest mps data' caps spd) v)) =
  k tt (St d l h (sput (tree row' st' rest (<[i := mpidr .& MPIDR_AFFINITY_MASK]> mps) data' caps spd) v)).
Proof.
  clear Hrow Hdata Hc. unfold set_node_mpidr. rewrite Hme. prun.
  rewrite (run_bind_aread_nat _ _ (CpuNode m 0)) by by rewrite list_lookup_fmap, Hm.
  prun. rewrite run_bind_awrite_nat by (rewrite length_map; lia). prun.
  unfold set_cpu_nodes. prun. unfold tree. by rewrite list_fmap_insert.
Qed.

(** The lock of the cluster. *)
Lemma parent_nodes_run {B} (k : list Z -> M V B) row' st' data' d l h v :
  bind (psci_get_parent_pwr_domain_nodes (plat_my_core_pos mpidr) 1 no_parents) k
    (St d l h (sput (tree row' st' rest mps data' caps spd) v)) =
  k [0] (St d l h (sput (tree row' st' rest mps data' caps spd) v)).
Proof.
  unfold psci_get_parent_pwr_domain_nodes. run. rewrite my_node_run.
  change (steps (PSCI_CPU_PWR_LVL + 1) (1 + 1) 1) with [1]. cbn [parents_loop cpu_parent].
  run. rewrite run_bind_awrite by done. run. rewrite pd_node_run. by run.
Qed.

Lemma acquire_run {B} (k : unit -> M V B) row' st' data' d l h v : psci_locks 0 ∉ h ->
  bind (psci_acquire_pwr_domain_locks 1 [0]) k (St d l h (sput (tree row' st' rest mps data' caps spd) v)) =
  k tt (St d (EvLock (psci_locks 0) :: l) (psci_locks 0 :: h)
          (sput (tree row' st' rest mps data' caps spd) v)).
Proof.
  intros Hh. unfold psci_acquire_pwr_domain_locks.
  change (steps (PSCI_CPU_PWR_LVL + 1) (1 + 1) 1) with [1]. cbn [for_each]. run.
  rewrite (run_bind_aread _ _ 0) by done. run. rewrite pd_node_run. cbn [cluster_node lock_index].
  by rewrite run_bind_lock, bool_decide_eq_false_2 by done.
Qed.

Lemma release_run {B} (k : unit -> M V B) row' st' data' d l h v : psci_locks 0 ∉ h ->
  bind (psci_release_pwr_domain_locks 1 [0]) k
    (St d l (psci_locks 0 :: h) (sput (tree row' st' rest mps data' caps spd) v)) =
  k tt (St d (EvUnlock (psci_locks 0) :: l) h (sput (tree row' st' rest mps data' caps spd) v)).
Proof.
  intros Hh. unfold psci_release_pwr_domain_locks.
  change (rev (steps (PSCI_CPU_PWR_LVL + 1) (1 + 1) 1)) with [1]. cbn [for_each]. run.
  rewrite (run_bind_aread _ _ 0) by done. run. rewrite pd_node_run. cbn [cluster_node lock_index].
  run. by rewrite unlock_lock by done.
Qed.

End Runs.

(** ** Coordination *)

Lemma shallowest_spec (row : list Z) : row <> [] -> Forall a_state row ->
  shallowest row ∈ row /\ Forall (fun r => shallowest row <= r) row.
Proof.
  intros Hne Hrow. induction Hrow as [|r row Hr Hrow IH]; [done|]. simpl.
  destruct row as [|r' row].
  - unfold a_state in Hr. simpl. replace (r `min` PLAT_MAX_OFF_STATE) with r by lia.
    split; [by left|]. by constructor.
  - destruct IH as [Hin Hle]; [done|]. set (t := shallowest (r' :: row)) in *. change (foldr Z.min PLAT_MAX_OFF_STATE (r' :: row)) with t. split.
    + destruct (Z.min_spec r t) as [[_ ->]|[_ ->]]; [by left|by right].
    + constructor; [lia|]. eapply Forall_impl; [exact Hle|]. simpl. lia.
Qed.

(** C28: state coordination.  When processor [i] asks for the state [s1] of its
    cluster, the cluster goes to a state that some processor has asked for and
    that is not deeper than any request, [i]'s new one included; the caller
    learns that state, its own state [s0] is recorded, and nothing else of the
    tree changes. *)
Theorem coordination_shallowest `{E : Env} {V : Type} `{!Has psci V} (mpidr : Z) (i : nat)
    (row : list Z) (st : Z) rest (mps : list Z) data caps spd (s0 s1 : Z) d l h (v : V) :
  plat_my_core_pos mpidr = Z.of_nat i -> (i < 4)%nat ->
  length row = 4%nat -> length mps = 4%nat -> length data = 4%nat ->
  Forall a_state row -> a_state s1 ->
  exists t c, data !! i = Some c /\
    psci_do_state_coordination mpidr PLAT_MAX_PWR_LVL [s0; s1]
      (St d l h (sput (tree row st rest mps data caps spd) v)) =
    (Ret [s0; t], St d l h (sput (tree (<[i := s1]> row) t rest mps
                     (<[i := set_local_state s0 c]> data) caps spd) v)) /\
    t ∈ <[i := s1]> row /\ Forall (fun r => t <= r) (<[i := s1]> row).
Proof.
  intros Hme Hi Hrow Hmps Hdata Hst Hs1.
  destruct (lookup_lt_is_Some_2 data i) as [c Hc]; [lia|].
  destruct (lookup_lt_is_Some_2 mps i) as [m Hm]; [lia|].
  exists (shallowest (<[i := s1]> row)), c. split; [done|]. split.
  - by apply (coordination_run mpidr i Hme Hi) with (m := m).
  - apply shallowest_spec; [|by apply Forall_insert]. intros Hn. apply (f_equal length) in Hn.
    rewrite length_insert, Hrow in Hn. done.
Qed.

(** The last processor that runs asks for OFF: so does the cluster. *)
Lemma coordination_shallowest_witness : exists t c,
  repeat (PsciCpuData AFF_STATE_ON 2 0) 4 !! 1%nat = Some c /\
  psci_do_state_coordination (E := board 0 0) (V := psci) 1 PLAT_MAX_PWR_LVL [2; 2]
    (St (H := board 0 0) (fun _ => 0) [] []
       (tree [2; 0; 2; 2] 0 [] [0; 1; 2; 3] (repeat (PsciCpuData AFF_STATE_ON 2 0) 4) 0 false)) =
  (Ret [2; t], St (H := board 0 0) (fun _ => 0) [] []
     (tree (<[1%nat := 2]> [2; 0; 2; 2]) t [] [0; 1; 2; 3]
        (<[1%nat := set_local_state 2 c]> (repeat (PsciCpuData AFF_STATE_ON 2 0) 4)) 0 false)) /\
  t ∈ <[1%nat := 2]> [2; 0; 2; 2] /\ Forall (fun r => t <= r) (<[1%nat := 2]> [2; 0; 2; 2]).
Proof.
  destruct (coordination_shallowest (E := board 0 0) (V := psci) 1 1 [2; 0; 2; 2] 0 [] [0; 1; 2; 3]
    (repeat (PsciCpuData AFF_STATE_ON 2 0) 4) 0 false 2 2 (fun _ => 0) [] []
    (tree [2; 0; 2; 2] 0 [] [0; 1; 2; 3] (repeat (PsciCpuData AFF_STATE_ON 2 0) 4) 0 false))
    as (t & c & Hc & Hr & Hs); [reflexivity|lia|done|done|done| | |].
  - unfold a_state, PLAT_MAX_OFF_STATE. repeat constructor; lia.
  - unfold a_state, PLAT_MAX_OFF_STATE. lia.
  - exists t, c. split; [exact Hc|]. split; [exact Hr|exact Hs].
Defined.

End PsciTree.
