(* ===== verification/CtxFacts.v ===== *)
(** * The contexts stay usable, and where they lead

    Facts on [CtxMgmt]: with the contexts linked and the routing model set up, the
    context operations return and keep both; the context of a non-secure entry
    point leads there, in the non-secure state, with the interrupt routing of the
    framework. *)

From S2P Require Import Prelude Machine Trace Gic CtxData IntrMgmt CtxMgmt.
From Stdlib Require Import String.
From stdpp Require Import strings.
Import Gic IntrMgmt CtxMgmt.
#[local] Open Scope Z_scope.
#[local] Open Scope c_scope.

Module CtxFacts.

Section Facts.
Context `{Env} {V : Type} `{!Has gic V} `{!Has intr_mgmt V} `{!Has ctx_vars V}.
Implicit Types (d : Dev) (l : list event) (h : list lock_id) (v : V).

(** ** The control word *)

(** The computation returns a word with the bits of [scr] set, and changes
    nothing but the device. *)
Definition adds_to (scr : Z) (m : M V Z) : Prop :=
  forall d l h v, exists d' new r, m (St d l h v) = (Ret r, St d' (new ++ l) h v) /\
    forall i, Z.testbit scr i = true -> Z.testbit r i = true.

Lemma adds_ret scr r : (forall i, Z.testbit scr i = true -> Z.testbit r i = true) -> adds_to scr (ret r).
Proof. intros Hr d l h v. by exists d, [], r. Qed.

Lemma adds_sysreg scr f (k : Z -> M V Z) :
  (forall x, adds_to scr (k x)) -> adds_to scr (bind (read_sysreg f) k).
Proof.
  intros Hk d l h v. unfold read_sysreg. run.
  destruct (Hk (u64 (hw_call f [] d).1) (hw_call f [] d).2 (EvCall f [] (hw_call f [] d).1 :: l) h v)
    as (d' & new & r & E & Hr).
  exists d', (new ++ [EvCall f [] (hw_call f [] d).1]), r. by rewrite E, <- (assoc_L (++)).
Qed.

Lemma adds_bind scr m k :
  adds_to scr m -> (forall r, (forall i, Z.testbit scr i = true -> Z.testbit r i = true) ->
    adds_to r (k r)) -> adds_to scr (bind m k).
Proof.
  intros Hm Hk d l h v. destruct (Hm d l h v) as (d1 & n1 & r1 & E1 & H1).
  destruct (Hk r1 H1 d1 (n1 ++ l) h v) as (d2 & n2 & r2 & E2 & H2).
  exists d2, (n2 ++ n1), r2. rewrite (bind_run _ _ _ _ _ E1), E2, (assoc_L (++)). auto.
Qed.

Lemma lor_adds a b i : Z.testbit a i = true -> Z.testbit (Z.lor a b) i = true.
Proof. intros Ha. by rewrite Z.lor_spec, Ha. Qed.

#[local] Hint Resolve lor_adds : core.

Lemma adds_mte ss scr : adds_to scr (scr_mte ss scr).
Proof.
  unfold scr_mte, get_armv8_5_mte_support. intros d l h v. rewrite run_bind_assoc.
  revert d l h v. apply adds_sysreg. intros x. change (adds_to scr (
    if ((x .>> 8) .& 0xf) =? 1 then ret (scr .| SCR_ATA_BIT)
    else if (((x .>> 8) .& 0xf) =? 2) && (ss =? NON_SECURE) then ret (scr .| SCR_ATA_BIT) else ret scr)).
  repeat bool_case; apply adds_ret; auto.
Qed.

Lemma adds_el2 spsr scr : adds_to scr (scr_el2 spsr scr).
Proof.
  unfold scr_el2. bool_case; [|by apply adds_ret]. unfold is_armv8_6_fgt_present, get_armv8_6_ecv_support.
  intros d l h v. rewrite run_bind_assoc. revert d l h v. apply adds_sysreg. intros x d l h v.
  rewrite run_bind_ret, run_bind_assoc. revert d l h v. apply adds_sysreg. intros y d l h v.
  rewrite run_bind_ret. revert d l h v. repeat bool_case; apply adds_ret; auto.
Qed.

Lemma adds_twed scr : adds_to scr (scr_twed scr).
Proof.
  unfold scr_twed, is_armv8_6_twed_present. intros d l h v. rewrite run_bind_assoc.
  revert d l h v. apply adds_sysreg. intros x d l h v. rewrite run_bind_ret. revert d l h v.
  change (negb (plat_arm_set_twedel_scr_el3 =? TWED_DISABLED)) with false.
  bool_case; by apply adds_ret.
Qed.

(** ** The context of an entry point *)

(** The context leads to [pc] in the non-secure state, with [x0] as first argument. *)
Definition leads_to (pc x0 : Z) (c : cpu_context) : Prop :=
  ctx_elr_el3 c = pc /\ gp_regs c !! 0%nat = Some x0 /\ Z.testbit (ctx_scr_el3 c) 0 = true.

(** ... and the interrupts taken from the security state are routed as the words
    of the interrupt types say. *)
Definition routes (ss : nat) (m : intr_mgmt) (c : cpu_context) : Prop :=
  forall type t w, valid_type type -> intr_type_descs m !! Z.to_nat type = Some t ->
    scr_el3 t !! ss = Some w ->
    forall i, Z.testbit w i = true -> Z.testbit (ctx_scr_el3 c) i = true.

Lemma base_ns ep scr : GET_SECURITY_STATE (ep_attr ep) = NON_SECURE ->
  Z.testbit (scr_base ep scr) 0 = true.
Proof.
  intros Hs. unfold scr_base. rewrite Hs. change (NON_SECURE =? SECURE) with false.
  change (NON_SECURE =? NON_SECURE) with true. cbn [negb].
  rewrite !Z.lor_spec, Z.land_spec. rewrite !orb_true_iff, andb_true_iff. left; left. split; [|reflexivity].
  repeat bool_case; rewrite ?Z.lor_spec; rewrite !orb_true_iff; naive_solver.
Qed.

Lemma routing_run ss d l h v : wf (sget v) -> (ss < 2)%nat ->
  exists rm, get_scr_el3_from_routing_model (Z.of_nat ss) (St d l h v) = (Ret rm, St d l h v) /\
    forall type t w, valid_type type -> intr_type_descs (sget v) !! Z.to_nat type = Some t ->
      scr_el3 t !! ss = Some w -> forall i, Z.testbit w i = true -> Z.testbit rm i = true.
Proof.
  intros Hwf Hss. pose proof Hwf as (Hl & Hf).
  destruct (lookup_lt_is_Some_2 (intr_type_descs (sget v)) (Z.to_nat INTR_TYPE_EL3)) as [t Ht];
    [rewrite Hl; apply Nat.ltb_lt; reflexivity|].
  rewrite Forall_lookup in Hf.
  destruct (lookup_lt_is_Some_2 (scr_el3 t) ss) as [w Hw]; [by rewrite (Hf _ _ Ht)|].
  assert (Hval : Z.of_nat ss = SECURE \/ Z.of_nat ss = NON_SECURE).
  { destruct ss as [|[|]]; [by left|by right|lia]. }
  destruct (get_scr_run INTR_TYPE_EL3 (Z.of_nat ss) d l h v t w Hwf) as (rm & E & _);
    [right; left; reflexivity|done|done|by rewrite Nat2Z.id|].
  exists rm. split; [done|]. intros type t' w' Hty Ht' Hw'. rewrite <- (Nat2Z.id ss) in Hw'.
  destruct (get_scr_run type (Z.of_nat ss) d l h v t' w' Hwf Hty Hval Ht' Hw')
    as (rm' & E' & Hb). by rewrite E in E'; simplify_eq.
Qed.

Context `{!Indep intr_mgmt ctx_vars V}.

(** The context of [ep] is written to its slot. *)
Lemma setup_run ss ep j x0 d l h v :
  ctx_ok (sget v) -> context_of ss (sget v) j = Some x0 -> wf (sget v) ->
  GET_SECURITY_STATE (ep_attr ep) = Z.of_nat ss -> (ss = 0%nat -> GET_EL (ep_spsr ep) <> MODE_EL2) ->
  exists d' new x, cm_setup_context (Z.of_nat j) ep (St d l h v) =
    (Ret tt, St d' (new ++ l) h (sput (put_context ss j x (sget v)) v)) /\
    ctx_spsr_el3 x = ep_spsr ep /\ ctx_elr_el3 x = ep_pc ep /\
    gp_regs x = take 8 (ep_args ep) ++ drop 8 (repeat 0 31) /\
    (ss = 1%nat -> Z.testbit (ctx_scr_el3 x) 0 = true) /\ routes ss (sget v) x.
Proof.
  intros Hc Hx0 Hwf Hs Hel. destruct (slot_at _ _ _ _ Hc Hx0) as (_ & _ & _ & _ & Hj & Hss).
  unfold cm_setup_context. rewrite Hs. run. rewrite (update_run _ _ ss _ x0) by done.
  set (v1 := sput (put_context ss j zero_context (sget v)) v).
  assert (Hc1 : ctx_ok (sget v1)) by (unfold v1; run; by apply put_ok).
  assert (Hx1 : context_of ss (sget v1) j = Some zero_context) by (unfold v1; run; by eapply put_same).
  assert (Hw1 : wf (sget v1)) by (unfold v1; by run).
  unfold read_sysreg. run. set (scr0 := u64 _). set (d1 := (hw_call _ _ _).2). set (l1 := _ :: l).
  destruct (adds_mte (Z.of_nat ss) (scr_base ep scr0) d1 l1 h v1) as (d2 & n2 & scr2 & E2 & H2).
  rewrite (bind_run _ _ _ _ _ E2).
  destruct (routing_run ss d2 (n2 ++ l1) h v1 Hw1 Hss) as (rm & E3 & H3). rewrite (bind_run _ _ _ _ _ E3).
  destruct (adds_el2 (ep_spsr ep) (scr2 .| rm) d2 (n2 ++ l1) h v1) as (d4 & n4 & scr4 & E4 & H4).
  rewrite (bind_run _ _ _ _ _ E4).
  assert (Hsel2 : (Z.of_nat ss =? SECURE) && (GET_EL (ep_spsr ep) =? MODE_EL2) = false).
  { destruct ss as [|ss]; [|done]. apply andb_false_iff. right. apply Z.eqb_neq. auto. }
  rewrite Hsel2. run.
  destruct (adds_twed scr4 d4 (n4 ++ n2 ++ l1) h v1) as (d5 & n5 & scr5 & E5 & H5).
  rewrite (bind_run _ _ _ _ _ E5). run. set (e6 := EvCall _ _ _).
  rewrite <- last_bind, (update_run _ _ ss _ zero_context) by done. unfold v1. run. rewrite put_twice.
  eexists _, (e6 :: n5 ++ n4 ++ n2 ++ [EvCall "read_scr_el3" [] (hw_call "read_scr_el3" [] d).1]), _.
  split; [do 3 f_equal; simpl; by rewrite <- !(assoc_L (++))|].
  split; [done|]. split; [done|]. split; [done|]. split.
  - intros ->. apply H5, H4. rewrite Z.lor_spec, H2; [done|]. by apply base_ns.
  - intros type t w Hty Ht Hw i Hi. apply H5, H4. rewrite Z.lor_spec, orb_true_iff. right.
    eapply (H3 type t w); [done| |done|done]. unfold v1. by run.
Qed.

(** ** Leaving EL3 *)

Lemma calm_sysreg f : calm (V := V) (read_sysreg f).
Proof. unfold read_sysreg. calm_walk. Qed.
Lemma calm_set_sysreg f x : calm (V := V) (write_sysreg f x).
Proof. unfold write_sysreg. calm_walk. Qed.
#[local] Hint Resolve calm_sysreg calm_set_sysreg : calm.

Lemma calm_spe_enable b : calm (V := V) (spe_enable b).
Proof. unfold spe_enable, spe_supported. calm_walk. Qed.
Lemma calm_disable_el2 scr : calm (V := V) (disable_el2 scr).
Proof. unfold disable_el2. calm_walk. Qed.
#[local] Hint Resolve calm_spe_enable calm_disable_el2 : calm.

(** The EL2 set-up before the exit, for the context [c]. *)
Lemma calm_el2 c : calm (V := V)
  (el2_unused <-
     (if truthy (ctx_scr_el3 c .& SCR_HCE_BIT) then
        write_sysreg "write_sctlr_el2" ((ctx_sctlr_el1 c .& SCTLR_EE_BIT) .| SCTLR_EL2_RES1) ;;
        ret false
      else
        el2 <- el_implemented 2 ;;
        if negb (el2 =? 0) then disable_el2 (ctx_scr_el3 c) ;; ret true else ret false) ;;
   spe_enable el2_unused).
Proof. unfold el_implemented. calm_walk. Qed.

Lemma prepare_run j d l h v : ctx_ok (sget v) -> (j < 4)%nat ->
  exists d' l' r, cm_prepare_el3_exit (Z.of_nat j) NON_SECURE (St d l h v) =
    (Ret tt, St d' (EvCall "cm_set_next_context" [NON_SECURE] r :: l') h v).
Proof.
  intros Hc Hj. destruct (slot_ns _ j Hc Hj) as [x Hx].
  unfold cm_prepare_el3_exit. rewrite (get_ctx_run _ 1%nat j x) by done.
  rewrite bool_decide_eq_true_2 by done. run. change (NON_SECURE =? NON_SECURE) with true. cbn [deref].
  rewrite run_bind_assoc, run_bind_ret. pose proof (calm_el2 x (St d l h v)) as He.
  apply returns_run in He as ([] & [d1 l1 h1 v1] & E & Hv & Hh). simpl in Hv, Hh. subst h1 v1.
  rewrite (bind_run _ _ _ _ _ E). unfold cm_el1_sysregs_context_restore, cm_set_next_eret_context.
  run. rewrite (get_ctx_run _ 1%nat j x) by done. rewrite bool_decide_eq_true_2 by done. run.
  unfold write_sysreg. change (NON_SECURE =? SECURE) with false. run.
  rewrite (get_ctx_run _ 1%nat j x) by done. rewrite bool_decide_eq_true_2 by done. run. by do 3 eexists.
Qed.

End Facts.
End CtxFacts.
