(* ===== verification/Hotplug.v ===== *)
(** * Processor hotplug

    What CPU_ON, CPU_OFF, AFFINITY_INFO, the suspends and the warm boot do together.
    The abstract view is one mode per processor; [spec] says what a call may do with
    the modes.  The suspends are in [Suspend].  The code refines it as long as the hooks of the platform and of
    the dispatcher keep the contract [Hooks]; the proofs use nothing else of
    them. *)

From S2P Require Import Prelude Machine Trace Gic IntrMgmt CtxMgmt Psci PsciOps PsciTree CtxFacts.
From Stdlib Require Import String.
From stdpp Require Import strings sets.
Import Gic IntrMgmt CtxMgmt Psci PsciOps PsciTree CtxFacts.
#[local] Open Scope Z_scope.
#[local] Open Scope c_scope.

Module Hotplug.

(** ** The contract of the hooks *)

(** The locks that PSCI holds while it calls a hook. *)
Definition psci_lock (x : lock_id) : Prop :=
  match x with psci_locks _ | cpu_lock _ => True | _ => False end.

Section Contract.
Context `{E : Env} {V : Type} `{!Has gic V} `{!Has intr_mgmt V} `{!Has ctx_vars V} `{!Has psci V}.
Context `{PO : !PlatOps V} `{SO : !SpdOps V}.

(** What a hook leaves alone: the statics of the interrupt framework and the
    non-secure contexts, and the statics of PSCI. *)
Definition still (v v' : V) : Prop :=
  sget (S := intr_mgmt) v' = sget v /\ (ctx_ok (sget v) -> ctx_ok (sget v')) /\
  forall j, ns_context (sget v') j = ns_context (sget v) j.
Definition quiet (v v' : V) : Prop := sget (S := psci) v' = sget v /\ still v v'.

(** From [pre] and [up] the computation returns, is quiet, keeps [up] and the
    locks, and ends with [post]. *)
Definition settles {A} (up pre : V -> Prop) (m : M V A) (post : A -> V -> V -> Prop) : Prop :=
  forall d l h v, up v -> Forall psci_lock h -> pre v ->
    returns m (St d l h v) (fun a s' =>
      held s' = h /\ up (vars s') /\ quiet v (vars s') /\ post a v (vars s')).

(** An optional hook keeps a contract when it is there. *)
Definition hook {F} (f : option F) (absent : Prop) (present : F -> Prop) : Prop :=
  match f with None => absent | Some g => present g end.

(** The dispatcher's trusted OS on one processor. *)
Inductive tos_state := TosOn | TosOff | TosSuspended.

Definition unaffected (payload : nat -> tos_state -> V -> Prop) (v v' : V) : Prop :=
  forall j b, payload j b v -> payload j b v'.

(** A hook of the platform: it settles and does not affect the dispatcher. *)
Definition settled {A} (up : V -> Prop) (payload : nat -> tos_state -> V -> Prop) (m : M V A)
    (Q : A -> Prop) : Prop :=
  settles up (fun _ => True) m (fun a v v' => Q a /\ unaffected payload v v').

(** A hook of the dispatcher on processor [i]: it takes the trusted OS from [b] to
    [b'] there and leaves the other processors. *)
Definition transfers {A} (up : V -> Prop) (payload : nat -> tos_state -> V -> Prop) (i : nat)
    (b b' : tos_state) (m : M V A) (Q : A -> Prop) : Prop :=
  settles up (payload i b) m (fun a v v' => Q a /\ payload i b' v' /\
    forall j c, j <> i -> payload j c v -> payload j c v').

(** [up]: what the platform needs of the statics.  [payload i b]: the trusted OS
    on processor [i] is in state [b].  [entry_ok], [power_ok]: the entry points and
    the power states that the platform accepts.  A power state asks for a state of
    the processor only, the state of a system suspend for OFF on both levels. *)
Class Hooks (up : V -> Prop) (payload : nat -> tos_state -> V -> Prop) (entry_ok power_ok : Z -> bool) : Prop := {
  up_psci : forall (p : psci) v, up v -> up (sput p v);
  up_ctx : forall (c : ctx_vars) v, up v -> up (sput c v);
  payload_psci : forall i b (p : psci) v, payload i b v -> payload i b (sput p v);
  payload_ctx : forall i b j x v, payload i b v -> payload i b (sput (put_ns j x (sget v)) v);
  freq_law : settled up payload plat_get_syscnt_freq2 (fun _ => True);
  on_law : forall i mpidr, plat_my_core_pos mpidr = Z.of_nat i -> (i < 4)%nat ->
    hook (pwr_domain_on (plat_ops mpidr)) False (fun f => forall target,
      settled up payload (f target) (fun rc => rc = PSCI_E_SUCCESS \/ rc = PSCI_E_INTERN_FAIL));
  off_law : forall i mpidr, plat_my_core_pos mpidr = Z.of_nat i -> (i < 4)%nat ->
    hook (pwr_domain_off (plat_ops mpidr)) False (fun f => forall state, settled up payload (f state) (fun _ => True));
  on_finish_law : forall i mpidr, plat_my_core_pos mpidr = Z.of_nat i -> (i < 4)%nat ->
    hook (pwr_domain_on_finish (plat_ops mpidr)) False (fun f => forall state, settled up payload (f state) (fun _ => True));
  on_late_law : forall i mpidr, plat_my_core_pos mpidr = Z.of_nat i -> (i < 4)%nat ->
    hook (pwr_domain_on_finish_late (plat_ops mpidr)) True (fun f => forall state, settled up payload (f state) (fun _ => True));
  standby_law : forall i mpidr, plat_my_core_pos mpidr = Z.of_nat i -> (i < 4)%nat ->
    hook (cpu_standby (plat_ops mpidr)) False (fun f => forall state, settled up payload (f state) (fun _ => True));
  early_law : forall i mpidr, plat_my_core_pos mpidr = Z.of_nat i -> (i < 4)%nat ->
    hook (pwr_domain_suspend_pwrdown_early (plat_ops mpidr)) True (fun f => forall state,
      settled up payload (f state) (fun _ => True));
  suspend_law : forall i mpidr, plat_my_core_pos mpidr = Z.of_nat i -> (i < 4)%nat ->
    hook (pwr_domain_suspend (plat_ops mpidr)) False (fun f => forall state, settled up payload (f state) (fun _ => True));
  suspend_finish_law : forall i mpidr, plat_my_core_pos mpidr = Z.of_nat i -> (i < 4)%nat ->
    hook (pwr_domain_suspend_finish (plat_ops mpidr)) False (fun f => forall state,
      settled up payload (f state) (fun _ => True));
  power_law : forall i mpidr, plat_my_core_pos mpidr = Z.of_nat i -> (i < 4)%nat ->
    hook (validate_power_state (plat_ops mpidr)) False (fun f => forall ps,
      settled up payload (f ps [PSCI_LOCAL_STATE_RUN; PSCI_LOCAL_STATE_RUN]) (fun r =>
        if power_ok ps
        then r = (PSCI_E_SUCCESS, [if psci_get_pstate_type ps =? PSTATE_TYPE_STANDBY then PLAT_MAX_RET_STATE
                                   else PLAT_MAX_OFF_STATE; PSCI_LOCAL_STATE_RUN])
        else r.1 = PSCI_E_INVALID_PARAMS));
  system_law : forall i mpidr, plat_my_core_pos mpidr = Z.of_nat i -> (i < 4)%nat ->
    hook (get_sys_suspend_power_state (plat_ops mpidr)) False (fun f => forall s0 s1,
      settled up payload (f [s0; s1]) (fun r => r = [PLAT_MAX_OFF_STATE; PLAT_MAX_OFF_STATE]));
  down_law : forall i mpidr, plat_my_core_pos mpidr = Z.of_nat i -> (i < 4)%nat ->
    hook (pwr_domain_pwr_down_wfi (plat_ops mpidr)) True (fun f => forall state d l h v,
      exists d' l', f state (St d l h v) = (Halt Parked, St d' l' h v));
  entry_law : forall i mpidr, plat_my_core_pos mpidr = Z.of_nat i -> (i < 4)%nat ->
    hook (validate_ns_entrypoint (plat_ops mpidr)) (forall ep, entry_ok ep = true) (fun f => forall ep,
      settled up payload (f ep) (fun rc => (rc =? PSCI_E_SUCCESS) = entry_ok ep));
  spd_on_law : forall i mpidr, plat_my_core_pos mpidr = Z.of_nat i -> (i < 4)%nat ->
    hook (svc_on (spd_ops mpidr)) True (fun f => forall x, settled up payload (f x) (fun _ => True));
  spd_off_law : forall i mpidr, plat_my_core_pos mpidr = Z.of_nat i -> (i < 4)%nat ->
    hook (svc_off (spd_ops mpidr)) (forall v, payload i TosOn v -> payload i TosOff v) (fun f => forall x,
      transfers up payload i TosOn TosOff (f x) (fun rc => rc = 0));
  spd_finish_law : forall i mpidr, plat_my_core_pos mpidr = Z.of_nat i -> (i < 4)%nat ->
    hook (svc_on_finish (spd_ops mpidr)) (forall v, payload i TosOff v -> payload i TosOn v) (fun f => forall x,
      transfers up payload i TosOff TosOn (f x) (fun _ => True));
  spd_suspend_law : forall i mpidr, plat_my_core_pos mpidr = Z.of_nat i -> (i < 4)%nat ->
    hook (svc_suspend (spd_ops mpidr)) (forall v, payload i TosOn v -> payload i TosSuspended v) (fun f => forall x,
      transfers up payload i TosOn TosSuspended (f x) (fun _ => True));
  spd_resume_law : forall i mpidr, plat_my_core_pos mpidr = Z.of_nat i -> (i < 4)%nat ->
    hook (svc_suspend_finish (spd_ops mpidr)) (forall v, payload i TosSuspended v -> payload i TosOn v)
      (fun f => forall x, transfers up payload i TosSuspended TosOn (f x) (fun _ => True))
}.

End Contract.

(** ** The abstract view *)

(** A processor runs, is powered down, has been started and is to enter [pc] with
    [x0], or is suspended and is to resume there; [deep] when its cluster was
    suspended with it. *)
Inductive mode := Run | Down | Waking (pc x0 : Z) | Asleep (deep : bool) (pc x0 : Z).
#[export] Instance mode_eq_dec : EqDecision mode.
Proof. solve_decision. Defined.

Definition is_run (m : mode) : bool := match m with Run => true | _ => false end.
Definition aff_of (m : mode) : aff_info_state_t :=
  match m with
  | Run | Asleep _ _ _ => AFF_STATE_ON
  | Down => AFF_STATE_OFF
  | Waking _ _ => AFF_STATE_ON_PENDING
  end.

(** The state a processor asks for its cluster, its own state, the level of its
    suspend, and where it continues. *)
Definition state_of (m : mode) : Z :=
  match m with
  | Run | Asleep false _ _ => PSCI_LOCAL_STATE_RUN
  | Down | Waking _ _ | Asleep true _ _ => PLAT_MAX_OFF_STATE
  end.
Definition local_of (m : mode) : Z := if is_run m then PSCI_LOCAL_STATE_RUN else PLAT_MAX_OFF_STATE.
Definition level_of (m : mode) : Z :=
  match m with Asleep deep _ _ => b2z deep | _ => PSCI_INVALID_PWR_LVL end.
Definition resumes_at (m : mode) : option (Z * Z) :=
  match m with Waking pc x0 | Asleep _ pc x0 => Some (pc, x0) | _ => None end.
Definition data_of (m : mode) : psci_cpu_data := PsciCpuData (aff_of m) (level_of m) (local_of m).
Definition tos_of (m : mode) : tos_state :=
  match m with Run => TosOn | Down | Waking _ _ => TosOff | Asleep _ _ _ => TosSuspended end.

(** All other processors are off. *)
Definition alone (ms : list mode) (i : nat) : Prop :=
  forall j m, j <> i -> ms !! j = Some m -> m = Down.

Inductive call :=
| CpuOn (target_cpu entrypoint context_id : Z)
| CpuOff
| AffinityInfo (target_affinity lowest_affinity_level : Z)
| CpuSuspend (power_state entrypoint context_id : Z)
| SystemSuspend (entrypoint context_id : Z).

(** An accepted power state: the reserved bits are clear and the platform knows
    it. *)
Definition power_valid (power_ok : Z -> bool) (ps : Z) : bool :=
  (psci_check_power_state ps =? 0) && power_ok ps.
Definition powers_down (power_ok : Z -> bool) (ps : Z) : bool :=
  power_valid power_ok ps && negb (psci_get_pstate_type ps =? PSTATE_TYPE_STANDBY).

(** The result and the modes after a call of processor [i].  [entry_ok] and
    [power_ok] are the entry points and power states that the platform accepts.  A
    suspend returns at once when an interrupt is pending. *)
Inductive spec (entry_ok power_ok : Z -> bool) (ms : list mode) (i : nat)
    : call -> outcome Z -> list mode -> Prop :=
| spec_no_cpu t e x : plat_core_pos_by_mpidr t < 0 ->
    spec entry_ok power_ok ms i (CpuOn t e x) (Ret (u64 PSCI_E_INVALID_PARAMS)) ms
| spec_bad_entry c e x : (exists t, c = CpuOn t e x) \/
      (exists ps, c = CpuSuspend ps e x /\ powers_down power_ok (u32 ps) = true) \/
      (c = SystemSuspend e x /\ alone ms i) ->
    entry_ok e = false \/ truthy (e .& 1) = true ->
    spec entry_ok power_ok ms i c (Ret (u64 PSCI_E_INVALID_ADDRESS)) ms
| spec_already t e x n m : plat_core_pos_by_mpidr t = Z.of_nat n -> ms !! n = Some m ->
    aff_of m = AFF_STATE_ON ->
    spec entry_ok power_ok ms i (CpuOn t e x) (Ret (u64 PSCI_E_ALREADY_ON)) ms
| spec_pending t e x n pc x0 : plat_core_pos_by_mpidr t = Z.of_nat n -> ms !! n = Some (Waking pc x0) ->
    spec entry_ok power_ok ms i (CpuOn t e x) (Ret (u64 PSCI_E_ON_PENDING)) ms
| spec_refused t e x n : plat_core_pos_by_mpidr t = Z.of_nat n -> ms !! n = Some Down ->
    spec entry_ok power_ok ms i (CpuOn t e x) (Ret (u64 PSCI_E_INTERN_FAIL)) ms
| spec_started t e x n : plat_core_pos_by_mpidr t = Z.of_nat n -> ms !! n = Some Down -> entry_ok e = true ->
    spec entry_ok power_ok ms i (CpuOn t e x) (Ret (u64 PSCI_E_SUCCESS)) (<[n := Waking e x]> ms)
| spec_off : spec entry_ok power_ok ms i CpuOff (Halt Parked) (<[i := Down]> ms)
| spec_info t lvl n m : plat_core_pos_by_mpidr t = Z.of_nat n -> ms !! n = Some m -> u32 lvl = 0 ->
    spec entry_ok power_ok ms i (AffinityInfo t lvl) (Ret (aff_value (aff_of m))) ms
| spec_no_info t lvl : plat_core_pos_by_mpidr t < 0 \/ 0 < u32 lvl ->
    spec entry_ok power_ok ms i (AffinityInfo t lvl) (Ret (u64 PSCI_E_INVALID_PARAMS)) ms
| spec_bad_power ps e x : power_valid power_ok (u32 ps) = false ->
    spec entry_ok power_ok ms i (CpuSuspend ps e x) (Ret (u64 PSCI_E_INVALID_PARAMS)) ms
| spec_standby ps e x : power_valid power_ok (u32 ps) = true ->
    psci_get_pstate_type (u32 ps) = PSTATE_TYPE_STANDBY ->
    spec entry_ok power_ok ms i (CpuSuspend ps e x) (Ret (u64 PSCI_E_SUCCESS)) ms
| spec_interrupted c ps e x : c = CpuSuspend ps e x /\ powers_down power_ok (u32 ps) = true \/
      c = SystemSuspend e x /\ alone ms i -> entry_ok e = true ->
    spec entry_ok power_ok ms i c (Ret (u64 PSCI_E_SUCCESS)) ms
| spec_suspended ps e x : powers_down power_ok (u32 ps) = true -> entry_ok e = true ->
    spec entry_ok power_ok ms i (CpuSuspend ps e x) (Halt Parked) (<[i := Asleep false e x]> ms)
| spec_not_last e x : ~ alone ms i ->
    spec entry_ok power_ok ms i (SystemSuspend e x) (Ret (u64 PSCI_E_DENIED)) ms
| spec_system e x : alone ms i -> entry_ok e = true ->
    spec entry_ok power_ok ms i (SystemSuspend e x) (Halt Parked) (<[i := Asleep true e x]> ms).

(** The word of [psci_caps] has the functions of hotplug. *)
Definition caps_ok (caps : Z) : Prop :=
  forall f, f ∈ [PSCI_CPU_OFF; PSCI_CPU_ON_AARCH64; PSCI_AFFINITY_INFO_AARCH64; PSCI_CPU_SUSPEND_AARCH64;
                 PSCI_SYSTEM_SUSPEND_AARCH64] ->
    (caps .& define_psci_cap f) <> 0.

Lemma core_pos t : plat_core_pos_by_mpidr t = -1 \/
  exists n, (n < 4)%nat /\ plat_core_pos_by_mpidr t = Z.of_nat n.
Proof.
  unfold plat_core_pos_by_mpidr, zynqmp_calc_core_pos. bool_case; [by left|].
  destruct (Z.geb_spec (t .& MPIDR_CPU_MASK) PLATFORM_CORE_COUNT) as [|Hlt]; [by left|].
  right. assert (H0 : (t .& MPIDR_CLUSTER_MASK) = 0).
  { unfold truthy in *. destruct (Z.eqb_spec (t .& MPIDR_CLUSTER_MASK) 0); [done|]. by simpl in *. }
  rewrite H0. assert (Hn : 0 <= (t .& MPIDR_CPU_MASK)) by (apply Z.land_nonneg; right; done).
  unfold PLATFORM_CORE_COUNT in Hlt. exists (Z.to_nat (t .& MPIDR_CPU_MASK)). rewrite Z.shiftr_0_l. lia.
Qed.

Lemma state_insert ms j m : map state_of (<[j := m]> ms) = <[j := state_of m]> (map state_of ms).
Proof. apply list_fmap_insert. Qed.

Lemma data_insert ms j m : map data_of (<[j := m]> ms) = <[j := data_of m]> (map data_of ms).
Proof. apply list_fmap_insert. Qed.

Lemma data_lookup ms j m : ms !! j = Some m -> map data_of ms !! j = Some (data_of m).
Proof. intros Hj. by rewrite list_lookup_fmap, Hj. Qed.

Lemma shallowest_run ms j m : ms !! j = Some m -> state_of m = PSCI_LOCAL_STATE_RUN ->
  shallowest (map state_of ms) = PSCI_LOCAL_STATE_RUN.
Proof.
  assert (Hpos : forall ns, 0 <= shallowest (map state_of ns) /\
    forall n, n ∈ ns -> shallowest (map state_of ns) <= state_of n).
  { induction ns as [|n ns [IH1 IH2]]; simpl; [split; [done|by intros n Hn%not_elem_of_nil]|].
    assert (0 <= state_of n) by by destruct n as [| | |[]]. split; [lia|].
    intros n' [-> |Hn]%elem_of_cons; [lia|]. specialize (IH2 _ Hn). lia. }
  intros Hj%list_elem_of_lookup_2 Hm. destruct (Hpos ms) as [H0 H1]. specialize (H1 _ Hj).
  rewrite Hm in H1. unfold PSCI_LOCAL_STATE_RUN in *. lia.
Qed.

(** The cluster is kept running by a processor that runs or is suspended alone. *)
Lemma shallowest_is_run ms : shallowest (map state_of ms) = PSCI_LOCAL_STATE_RUN <->
  exists m, m ∈ ms /\ state_of m = PSCI_LOCAL_STATE_RUN.
Proof.
  split.
  - unfold shallowest. induction ms as [|m ms IH]; simpl; [done|]. intros Hs.
    destruct (decide (state_of m = PSCI_LOCAL_STATE_RUN)) as [Hr|Hr]; [exists m; split; [by left|done]|].
    destruct IH as (m' & Hin & Hm'); [|exists m'; split; [by right|done]].
    assert (Hm : state_of m = 2) by by destruct m as [| | |[]]. rewrite Hm in Hs.
    unfold PSCI_LOCAL_STATE_RUN in *. lia.
  - intros (m & [j Hj]%list_elem_of_lookup & Hm). by eapply shallowest_run.
Qed.

(** Alone, a processor decides for its cluster. *)
Lemma shallowest_alone ms i m : alone ms i -> ms !! i = Some m ->
  shallowest (<[i := PLAT_MAX_OFF_STATE]> (map state_of ms)) = PLAT_MAX_OFF_STATE.
Proof.
  intros Ha Hm. assert (Hall : forall x, x ∈ <[i := PLAT_MAX_OFF_STATE]> (map state_of ms) -> x = PLAT_MAX_OFF_STATE).
  { intros x [j Hj]%list_elem_of_lookup. destruct (decide (j = i)) as [->|Hne].
    - apply list_lookup_insert_Some in Hj. naive_solver.
    - rewrite list_lookup_insert_ne, list_lookup_fmap in Hj by done.
      destruct (ms !! j) as [n|] eqn:En; [|done]. rewrite (Ha j n Hne En) in Hj. by simplify_eq/=. }
  revert Hall. generalize (<[i := PLAT_MAX_OFF_STATE]> (map state_of ms)). intros row.
  induction row as [|x row IH]; [done|]. intros Hall. simpl. fold (shallowest row).
  rewrite IH by (intros y Hy; apply Hall; by right). rewrite (Hall x) by by left. apply Z.min_id.
Qed.

(** ** The code keeps to the modes *)

Section Refinement.
Context `{E : Env} {V : Type} `{!Has gic V} `{!Has intr_mgmt V} `{!Has ctx_vars V} `{!Has psci V}.
Context `{PO : !PlatOps V} `{SO : !SpdOps V}.
Context `{!Indep psci ctx_vars V} `{!Indep ctx_vars psci V}.
Context `{!Indep intr_mgmt ctx_vars V} `{!Indep intr_mgmt psci V}.
Context (up : V -> Prop) (payload : nat -> tos_state -> V -> Prop) (entry_ok power_ok : Z -> bool).
Context `{HK : !Hooks up payload entry_ok power_ok}.
Context (caps : Z) (spd : bool).
Hypothesis Hcaps : caps_ok caps.
Implicit Types (d : Dev) (l : list event) (h : list lock_id) (v : V) (ms : list mode).

(** The tree of the modes: the requests are those of the modes, and the cluster is
    in the shallowest state that is asked for. *)
Definition tree_of (ms : list mode) (rest : list non_cpu_pd_node) (mps : list Z) : psci :=
  tree (map state_of ms) (shallowest (map state_of ms)) rest mps (map data_of ms) caps spd.

Lemma tree_runs ms rest mps j m : ms !! j = Some m -> state_of m = PSCI_LOCAL_STATE_RUN ->
  tree (map state_of ms) 0 rest mps (map data_of ms) caps spd = tree_of ms rest mps.
Proof. intros Hj Hm. unfold tree_of. by rewrite (shallowest_run ms j m). Qed.

Record consistent (ms : list mode) (v : V) : Prop := {
  con_length : length ms = 4%nat;
  con_tree : exists rest mps, length mps = 4%nat /\ sget v = tree_of ms rest mps;
  con_ctx : ctx_ok (sget v);
  con_intr : wf (sget v);
  con_up : up v;
  con_payload : spd = true -> forall j m, ms !! j = Some m -> payload j (tos_of m) v;
  con_entry : forall j m pc x0, ms !! j = Some m -> resumes_at m = Some (pc, x0) -> exists x,
    ns_context (sget v) j = Some x /\ leads_to pc x0 x /\ routes 1 (sget v) x
}.

(** A hook that settles, as an equation. *)
Lemma settles_run {A} (pre : V -> Prop) (m : M V A) post d l h v :
  settles up pre m post -> up v -> Forall psci_lock h -> pre v ->
  exists a d' l' v', m (St d l h v) = (Ret a, St d' l' h v') /\ up v' /\ quiet v v' /\ post a v v'.
Proof.
  intros Hm Hv Hh Hp. specialize (Hm d l h v Hv Hh Hp).
  apply returns_run in Hm as (a & [d' l' h' v'] & Er & <- & Hup & Hq & Hpost).
  by exists a, d', l', v'.
Qed.

Lemma as_tree v (p : psci) : sget v = p -> v = sput p v.
Proof. intros <-. by rewrite sput_sget. Qed.

Lemma quiet_tree v v' (p : psci) : quiet v v' -> sget v = p -> v' = sput p v'.
Proof. intros (Hp & _) Hv. apply as_tree. congruence. Qed.

#[export] Instance still_preorder : PreOrder still.
Proof.
  split; [done|]. intros v1 v2 v3 (I1 & C1 & N1) (I2 & C2 & N2).
  split; [congruence|]. split; [auto|]. intros j. by rewrite N2.
Qed.

#[export] Instance unaffected_preorder : PreOrder (unaffected payload).
Proof. split; [by intros v j b|]. intros v1 v2 v3 H1 H2 j b Hb. auto. Qed.

Lemma still_psci v (p : psci) : still v (sput p v) /\ still (sput p v) v.
Proof. unfold still. by run. Qed.

Lemma quiet_up v v' (p : psci) : quiet (sput p v) v' -> still v v' /\ v' = sput p v'.
Proof.
  intros Hq. split; [|by apply (quiet_tree _ _ _ Hq), sget_sput].
  etrans; [apply (still_psci v p)|apply Hq].
Qed.

(** Nothing but the tree and the dispatcher's state has changed. *)
Lemma con_psci ms ms' rest mps v v' : length ms' = 4%nat -> length mps = 4%nat ->
  still v v' -> up v' -> consistent ms v ->
  (spd = true -> forall j m, ms' !! j = Some m -> payload j (tos_of m) v') ->
  (forall j m e, ms' !! j = Some m -> resumes_at m = Some e ->
     exists m0, ms !! j = Some m0 /\ resumes_at m0 = Some e) ->
  consistent ms' (sput (tree_of ms' rest mps) v').
Proof.
  intros Hl Hmps (HI & HC & HN) Hup [] Hpl Hw. split; run; rewrite ?HI; auto.
  - exists rest, mps. done.
  - by apply up_psci.
  - intros Hs j m Hj. apply payload_psci. eauto.
  - intros j m pc x0 Hj Hm. rewrite HN. destruct (Hw _ _ _ Hj Hm) as (m0 & Hj0 & Hm0). eauto.
Qed.

Context (mpidr : Z) (i : nat).
Hypothesis Hme : plat_my_core_pos mpidr = Z.of_nat i.
Hypothesis Hi : (i < 4)%nat.

Lemma pm_ops_run {B} (k : plat_psci_ops V -> M V B) row st rest mps data d l h v :
  bind (pm_ops mpidr) k (St d l h (sput (tree row st rest mps data caps spd) v)) =
  k (plat_ops mpidr) (St d l h (sput (tree row st rest mps data caps spd) v)).
Proof. unfold pm_ops. by prun. Qed.

Lemma spd_hook_run {A B} (f : spd_pm_ops V -> option A) (k : option A -> M V B)
    row st rest mps data d l h v :
  bind (spd_hook mpidr f) k (St d l h (sput (tree row st rest mps data caps spd) v)) =
  k (if spd then f (spd_ops mpidr) else None)
    (St d l h (sput (tree row st rest mps data caps spd) v)).
Proof. unfold spd_hook. by prun. Qed.

(** The trusted OS of this processor goes to [b]; the other processors' stay. *)
Definition hands_over (b : tos_state) (v v' : V) : Prop :=
  payload i b v' /\ forall j c, j <> i -> payload j c v -> payload j c v'.

(** A hook of the dispatcher, when there is one; [none] is the result when there
    is not. *)
Lemma tos_run {A} (b b' : tos_state) (f : spd_pm_ops V -> option (Z -> M V A)) (none : A) (Q : A -> Prop) x d l h v :
  hook (f (spd_ops mpidr)) (forall v, payload i b v -> payload i b' v)
    (fun g => forall x, transfers up payload i b b' (g x) Q) -> Q none ->
  up v -> Forall psci_lock h -> (spd = true -> payload i b v) ->
  exists a d' l' v',
    match (if spd then f (spd_ops mpidr) else None) with Some g => g x | None => ret none end
      (St d l h v) = (Ret a, St d' l' h v') /\ Q a /\
    up v' /\ quiet v v' /\ (spd = true -> hands_over b' v v').
Proof.
  intros Hlaw Hnone Hup Hh Hp. destruct spd.
  2:{ exists none, d, l, v. split; [done|]. split; [done|]. split; [done|]. by split. }
  unfold hook in Hlaw. destruct (f (spd_ops mpidr)) as [g|].
  - destruct (settles_run _ _ _ d l h v (Hlaw x) Hup Hh (Hp eq_refl))
      as (a & d' & l' & v' & Er & Hup' & Hq & HQ & Hf & Ho). by exists a, d', l', v'.
  - exists none, d, l, v. split; [done|]. split; [done|]. split; [done|]. split; [by split|]. intros _. split; auto.
Qed.

(** The same through the table, with the statics [T] of PSCI. *)
Lemma call_tos_run (b b' : tos_state) (f : spd_pm_ops V -> option (Z -> M V unit)) x (T : psci) d l h v :
  hook (f (spd_ops mpidr)) (forall v, payload i b v -> payload i b' v)
    (fun g => forall x, transfers up payload i b b' (g x) (fun _ => True)) ->
  psci_spd_pm T = spd -> up v -> Forall psci_lock h -> (spd = true -> payload i b v) ->
  exists d' l' v', call_spd mpidr f x (St d l h (sput T v)) = (Ret tt, St d' l' h (sput T v')) /\
    up v' /\ still v v' /\ (spd = true -> hands_over b' v v').
Proof.
  intros Hlaw HT Hup Hh Hp. unfold call_spd, spd_hook. run. rewrite HT. run.
  destruct (tos_run b b' f tt (fun _ => True) x d l h (sput T v) Hlaw I) as ([] & d' & l' & v' & E1 & _ & Hup' & Hq & Hf);
    [by apply up_psci|done|intros Hs; by apply payload_psci, Hp|].
  destruct (quiet_up _ _ _ Hq) as [Hst Hv]. exists d', l', v'. rewrite <- Hv. split; [exact E1|].
  split; [done|]. split; [done|]. intros Hs. destruct (Hf Hs) as [Hb Ho]. split; [done|].
  intros j c Hj Hc. apply Ho; [done|]. by apply payload_psci.
Qed.

(** A hook of the platform, called with the statics [p] of PSCI. *)
Lemma hook_run {A} (m : M V A) (Q : A -> Prop) (p : psci) d l h v :
  settled up payload m Q -> up v -> Forall psci_lock h ->
  exists a d' l' v', m (St d l h (sput p v)) = (Ret a, St d' l' h (sput p v')) /\
    up v' /\ still v v' /\ unaffected payload v v' /\ Q a.
Proof.
  intros Hm Hup Hh. destruct (settles_run _ m _ d l h (sput p v) Hm)
    as (a & d' & l' & v' & Er & Hup' & Hq & HQ & Hu); [by apply up_psci|done|done|].
  destruct (quiet_up _ _ _ Hq) as [Hs Hv]. exists a, d', l', v'. rewrite <- Hv.
  repeat (split; [done|]). split; [|done]. intros j b Hb. by apply Hu, payload_psci.
Qed.

(** ** CPU_OFF *)

Lemma power_down_run state d l h v :
  exists d' l', power_down (plat_ops mpidr) state (St d l h v) = (Halt Parked, St d' l' h v).
Proof.
  unfold power_down. pose proof (down_law i mpidr Hme Hi) as Hlaw. unfold hook in Hlaw.
  destruct (pwr_domain_pwr_down_wfi (plat_ops mpidr)) as [f|]; [apply Hlaw|].
  unfold psci_power_down_wfi, park. run. by do 2 eexists.
Qed.

Lemma mode_payload ms v v' b m : ms !! i = Some m ->
  (spd = true -> forall j m, ms !! j = Some m -> payload j (tos_of m) v) ->
  (spd = true -> hands_over b v v') -> forall m', tos_of m' = b ->
  spd = true -> forall j n, <[i := m']> ms !! j = Some n -> payload j (tos_of n) v'.
Proof.
  intros Hm Hp Hh m' <- Hs j n Hj. destruct (Hh Hs) as [Hb Ho].
  destruct (decide (j = i)) as [->|Hne].
  - rewrite list_lookup_insert_eq in Hj by by eapply lookup_lt_Some. by simplify_eq.
  - rewrite list_lookup_insert_ne in Hj by done. apply Ho; [done|]. by apply Hp.
Qed.

Lemma entry_insert ms m' : resumes_at m' = None -> forall j m e,
  <[i := m']> ms !! j = Some m -> resumes_at m = Some e -> exists m0, ms !! j = Some m0 /\ resumes_at m0 = Some e.
Proof.
  intros Hn j m e Hj Hm. destruct (decide (j = i)) as [->|Hne].
  - apply list_lookup_insert_Some in Hj. naive_solver.
  - rewrite list_lookup_insert_ne in Hj by done. eauto.
Qed.

(** The request of this processor becomes OFF; the cluster follows. *)
Lemma off_coordination ms rest mps m d l h v :
  length ms = 4%nat -> length mps = 4%nat -> ms !! i = Some Run -> mps !! i = Some m ->
  let row := map state_of (<[i := Down]> ms) in
  psci_do_state_coordination mpidr PLAT_MAX_PWR_LVL psci_set_power_off_state
    (St d l h (sput (tree_of ms rest mps) v)) =
  (Ret [2; shallowest row], St d l h (sput (tree row (shallowest row) rest mps
     (<[i := set_local_state 2 (data_of Run)]> (map data_of ms)) caps spd) v)).
Proof.
  intros Hl Hmps Hrun Hm row. unfold row. rewrite state_insert.
  apply (coordination_run mpidr i Hme Hi) with (m := m); rewrite ?length_map; try done.
  by apply data_lookup.
Qed.

Lemma do_cpu_off_run ms d l v : consistent ms v -> ms !! i = Some Run ->
  exists d' l' v', psci_do_cpu_off mpidr PLAT_MAX_PWR_LVL (St d l [] v) = (Halt Parked, St d' l' [] v') /\
    consistent (<[i := Down]> ms) v'.
Proof.
  intros Hcon Hrun. pose proof Hcon as [Hl (rest & mps & Hmps & Ht) Hc Hw Hup Hpl Hen].
  destruct (lookup_lt_is_Some_2 mps i) as [m Hm]; [lia|].
  rewrite (as_tree v _ Ht). unfold tree_of, psci_do_cpu_off. rewrite pm_ops_run.
  pose proof (off_law i mpidr Hme Hi) as Hoff. unfold hook in Hoff. cbn zeta.
  destruct (pwr_domain_off (plat_ops mpidr)) as [f|]; [|done]. unfold is_set.
  rewrite bool_decide_eq_true_2 by done. prun.
  rewrite (parent_nodes_run _ _ Hme) with (m := m) by done. prun.
  rewrite acquire_run by apply not_elem_of_nil. prun. rewrite spd_hook_run.
  set (T := tree _ _ _ _ _ _ _). assert (Hh : Forall psci_lock [psci_locks 0]) by by repeat constructor.
  destruct (tos_run TosOn TosOff svc_off PSCI_E_SUCCESS _ 0 d (EvLock (psci_locks 0) :: l) [psci_locks 0]
      (sput T v) (spd_off_law i mpidr Hme Hi)) as (a & d1 & l1 & v1 & E1 & -> & Hup1 & Hq1 & Hp1);
    [done|by apply up_psci|done|intros Hs; apply payload_psci; by apply (Hpl Hs i Run)|].
  rewrite (bind_run _ _ _ _ _ E1). destruct (quiet_up _ _ _ Hq1) as [Hs1 Hv1]. rewrite Hv1.
  change (negb (0 =? 0)) with false. cbn match. prun.
  rewrite (bind_run _ _ _ _ _ (off_coordination ms rest mps m d1 l1 _ v1 Hl Hmps Hrun Hm)).
  set (row := map state_of (<[i := Down]> ms)). set (data := <[i := _]> (map data_of ms)).
  unfold psci_do_pwrdown_sequence. run. cbn [deref]. run. set (d2 := (hw_call _ _ _).2). set (l2 := _ :: l1).
  destruct (hook_run (f [2; shallowest row]) _ (tree row (shallowest row) rest mps data caps spd)
    d2 l2 [psci_locks 0] v1 (Hoff _) Hup1 Hh) as ([] & d3 & l3 & v3 & E3 & Hup3 & Hs3 & Hp3 & _).
  rewrite (bind_run _ _ _ _ _ E3).
  prun. rewrite release_run by apply not_elem_of_nil. change (0 =? PSCI_E_SUCCESS) with true. prun.
  unfold psci_set_aff_info_state, psci_set_aff_info_state_by_idx.
  rewrite (my_upd_run mpidr i Hme) with (x := set_local_state 2 (data_of Run))
    by (apply list_lookup_insert_eq; rewrite length_map; lia).
  unfold data. rewrite list_insert_insert_eq.
  change (set_aff AFF_STATE_OFF (set_local_state 2 (data_of Run))) with (data_of Down).
  rewrite <- data_insert.
  destruct (power_down_run [2; shallowest (map state_of (<[i:=Down]> ms))] d3 (EvUnlock (psci_locks 0) :: l3)
    [] (sput (tree_of (<[i:=Down]> ms) rest mps) v3)) as (d4 & l4 & E4).
  rewrite (bind_halt _ _ _ _ _ E4). do 3 eexists. split; [done|].
  apply con_psci with (ms := ms) (v := v); [by rewrite length_insert|done|by etrans|done|done| |].
  - eapply mode_payload; [done|exact Hpl| |done]. intros Hs. destruct (Hp1 Hs) as [Hb Ho].
    split; [by apply Hp3|]. intros j c Hj Hpj. by apply Hp3, Ho, payload_psci.
  - by apply entry_insert.
Qed.

(** ** The warm boot *)

Lemma arch_setup_run (p : psci) d l h v : up v -> Forall psci_lock h ->
  exists d' l' v', psci_arch_setup (St d l h (sput p v)) = (Ret tt, St d' l' h (sput p v')) /\
    up v' /\ still v v' /\ unaffected payload v v'.
Proof.
  intros Hup Hh. unfold psci_arch_setup, write_sysreg.
  destruct (hook_run _ _ p d l h v freq_law Hup Hh) as (f & d1 & l1 & v1 & E1 & Hup1 & Hs1 & Hp1 & _).
  rewrite (bind_run _ _ _ _ _ E1). run. by do 3 eexists.
Qed.

(** A hook of the platform that may be absent. *)
Lemma maybe_hook_run (f : option (psci_power_state -> M V unit)) state (p : psci) d l h v :
  hook f True (fun g => forall state, settled up payload (g state) (fun _ => True)) -> up v -> Forall psci_lock h ->
  exists d' l' v', match f with Some g => g state | None => ret tt end (St d l h (sput p v)) =
      (Ret tt, St d' l' h (sput p v')) /\
    up v' /\ still v v' /\ unaffected payload v v'.
Proof.
  intros Hf Hup Hh. unfold hook in Hf. destruct f as [g|]; [|by exists d, l, v].
  destruct (hook_run (g state) _ p d l h v (Hf _) Hup Hh) as ([] & d1 & l1 & v1 & E1 & Hup1 & Hs1 & Hp1 & _).
  by exists d1, l1, v1.
Qed.

(** The hooks at the start of [psci_cpu_on_finish]. *)
Lemma finish_hooks_run {B} (k : unit -> M V B) state (p : psci) d l h v : up v -> Forall psci_lock h ->
  exists d' l' v',
    bind (f <- deref (pwr_domain_on_finish (plat_ops mpidr)) ;; f state) (fun _ =>
      bind (match pwr_domain_on_finish_late (plat_ops mpidr) with Some g => g state | None => ret tt end) k)
      (St d l h (sput p v)) = k tt (St d' l' h (sput p v')) /\
    up v' /\ still v v' /\ unaffected payload v v'.
Proof.
  intros Hup Hh. pose proof (on_finish_law i mpidr Hme Hi) as Hf. unfold hook in Hf.
  destruct (pwr_domain_on_finish (plat_ops mpidr)) as [f|]; [|done]. cbn [deref]. run.
  destruct (hook_run (f state) _ p d l h v (Hf _) Hup Hh) as ([] & d1 & l1 & v1 & E1 & Hup1 & Hs1 & Hp1 & _).
  rewrite (bind_run _ _ _ _ _ E1).
  destruct (maybe_hook_run _ state p d1 l1 h v1 (on_late_law i mpidr Hme Hi) Hup1 Hh)
    as (d2 & l2 & v2 & E2 & Hup2 & Hs2 & Hp2).
  rewrite (bind_run _ _ _ _ _ E2). exists d2, l2, v2. split; [done|]. split; [done|].
  split; by etrans.
Qed.

Lemma my_aff_run {B} (k : aff_info_state_t -> M V B) ms rest mps n d l h v : ms !! i = Some n ->
  bind (psci_get_aff_info_state mpidr) k (St d l h (sput (tree_of ms rest mps) v)) =
  k (aff_of n) (St d l h (sput (tree_of ms rest mps) v)).
Proof.
  intros Hn. unfold psci_get_aff_info_state, psci_get_aff_info_state_by_idx, tree_of. rewrite run_bind_assoc.
  by rewrite (my_data_run mpidr i Hme) with (x := data_of n) by by apply data_lookup.
Qed.

Lemma on_finish_run ms rest mps pc x0 d l v : length ms = 4%nat -> length mps = 4%nat ->
  ms !! i = Some (Waking pc x0) -> ctx_ok (sget v) -> up v -> (spd = true -> payload i TosOff v) ->
  exists d' l' v' mps', length mps' = 4%nat /\
    psci_cpu_on_finish mpidr (Z.of_nat i) [2; shallowest (map state_of ms)]
      (St d l [psci_locks 0] (sput (tree_of ms rest mps) v)) =
      (Ret tt, St d' l' [psci_locks 0] (sput (tree_of ms rest mps') v')) /\
    up v' /\ still v v' /\ (spd = true -> hands_over TosOn v v').
Proof.
  intros Hl Hmps Hn Hc Hup Hpl. assert (Hh : Forall psci_lock [psci_locks 0]) by by repeat constructor.
  destruct (lookup_lt_is_Some_2 mps i) as [m Hm]; [lia|]. set (T := tree_of ms rest mps).
  unfold psci_cpu_on_finish. unfold T at 1, tree_of. rewrite pm_ops_run. fold (tree_of ms rest mps). fold T.
  rewrite <- run_bind_assoc.
  match goal with |- context [bind _ (fun _ => bind _ ?K)] =>
    destruct (finish_hooks_run K [2; shallowest (map state_of ms)] T d l _ v Hup Hh)
      as (d1 & l1 & v1 & E1 & Hup1 & Hs1 & Hp1) end. rewrite E1. clear E1.
  destruct (arch_setup_run T d1 l1 _ v1 Hup1 Hh) as (d2 & l2 & v2 & E2 & Hup2 & Hs2 & Hp2).
  rewrite (bind_run _ _ _ _ _ E2). rewrite run_bind_lock, bool_decide_eq_false_2 by by rewrite list_elem_of_singleton.
  run. rewrite unlock_lock by by rewrite list_elem_of_singleton. unfold T at 1.
  rewrite (my_aff_run _ ms rest mps _ _ _ _ _ Hn). cbn [aff_of]. rewrite bool_decide_eq_true_2 by done. run.
  destruct (call_tos_run TosOff TosOn svc_on_finish 0 (tree_of ms rest mps) d2 (EvUnlock (cpu_lock (Z.of_nat i)) ::
    EvLock (cpu_lock (Z.of_nat i)) :: l2) _ v2 (spd_finish_law i mpidr Hme Hi) eq_refl Hup2 Hh)
    as (d3 & l3 & v3 & E3 & Hup3 & Hs3 & Hp3); [auto|].
  rewrite (bind_run _ _ _ _ _ E3). unfold tree_of. rewrite <- Hme.
  rewrite (node_mpidr_run mpidr i Hme) with (m := m) by done. rewrite Hme.
  set (mps' := <[i := _]> mps). fold (tree_of ms rest mps').
  destruct (prepare_run i d3 l3 [psci_locks 0] (sput (tree_of ms rest mps') v3)) as (d4 & l4 & r & E4);
    [run; by apply Hs3, Hs2, Hs1|done|].
  exists d4, (EvCall "cm_set_next_context" [NON_SECURE] r :: l4), v3, mps'. rewrite E4.
  split; [by unfold mps'; rewrite length_insert|]. split; [done|]. split; [done|].
  split; [etrans; [|exact Hs3]; by etrans|]. intros Hs. destruct (Hp3 Hs) as [Hb Ho]. split; [done|]. auto.
Qed.

(** A processor that has been started comes up where it was told to. *)
Lemma warmboot_run ms pc x0 d l v : consistent ms v -> ms !! i = Some (Waking pc x0) ->
  exists d' l' v', psci_warmboot_entrypoint mpidr (St d l [] v) = (Ret tt, St d' l' [] v') /\
    consistent (<[i := Run]> ms) v' /\
    exists x, ns_context (sget v') i = Some x /\ leads_to pc x0 x /\ routes 1 (sget v') x.
Proof.
  intros Hcon Hn. pose proof Hcon as [Hl (rest & mps & Hmps & Ht) Hc Hw Hup Hpl Hen].
  destruct (lookup_lt_is_Some_2 mps i) as [m Hm]; [lia|]. rewrite (as_tree v _ Ht).
  unfold psci_warmboot_entrypoint. rewrite (my_aff_run _ ms rest mps _ _ _ _ _ Hn).
  cbn [aff_of]. rewrite bool_decide_eq_false_2 by done. unfold get_power_on_target_pwrlvl, psci_get_suspend_pwrlvl, tree_of.
  run. rewrite (my_data_run mpidr i Hme) with (x := data_of (Waking pc x0)) by by apply data_lookup.
  cbn [data_of target_pwrlvl]. change (PSCI_INVALID_PWR_LVL =? PSCI_INVALID_PWR_LVL) with true. cbn match.
  change (PLAT_MAX_PWR_LVL <? PSCI_INVALID_PWR_LVL) with true. run.
  rewrite (parent_nodes_run _ _ Hme) with (m := m) by done. run. rewrite acquire_run by apply not_elem_of_nil. run.
  change (repeat PSCI_LOCAL_STATE_RUN (Z.to_nat (PLAT_MAX_PWR_LVL + 1))) with [0; 0].
  rewrite (get_target_run mpidr i Hme) with (c := data_of (Waking pc x0)) (m := m); [|by apply data_lookup|done].
  fold (tree_of ms rest mps). rewrite (my_aff_run _ ms rest mps _ _ _ _ _ Hn). cbn [aff_of].
  rewrite bool_decide_eq_true_2 by done. rewrite Hme.
  destruct (on_finish_run ms rest mps pc x0 d (EvLock (psci_locks 0) :: l) v Hl Hmps Hn Hc Hup)
    as (d1 & l1 & v1 & mps' & Hmps' & E1 & Hup1 & Hs1 & Hp1); [by intros Hs; apply (Hpl Hs i _ Hn)|].
  rewrite (bind_run _ _ _ _ _ E1).
  destruct (lookup_lt_is_Some_2 mps' i) as [m' Hm']; [lia|]. unfold tree_of.
  rewrite (to_run_run mpidr i Hme Hi) with (m := m') (x := data_of (Waking pc x0));
    [|by rewrite ?length_map..|by apply data_lookup|by rewrite length_map].
  rewrite <- (last_bind (psci_release_pwr_domain_locks PLAT_MAX_PWR_LVL [0])).
  rewrite release_run by apply not_elem_of_nil.
  change (PsciCpuData AFF_STATE_ON (target_pwrlvl (data_of (Waking pc x0))) 0) with (data_of Run).
  assert (Hrow : <[i := 0]> (map state_of ms) = map state_of (<[i := Run]> ms)) by by rewrite state_insert.
  rewrite Hrow, <- data_insert.
  rewrite (tree_runs (<[i := Run]> ms) _ _ i Run) by first [done|apply list_lookup_insert_eq; lia].
  do 3 eexists. split; [done|].
  assert (Hfin : consistent (<[i := Run]> ms) (sput (tree_of (<[i := Run]> ms) rest mps') v1)).
  { apply con_psci with (ms := ms) (v := v); [by rewrite length_insert|done..| |].
    - by eapply mode_payload.
    - by apply entry_insert. }
  split; [done|]. destruct (Hen _ _ _ _ Hn eq_refl) as (x & Hx & Hlead & Hr). destruct Hs1 as (HI & _ & HN).
  exists x. run. by rewrite HN, HI.
Qed.

(** ** CPU_ON *)

(** A non-secure entry point at [e] with [x] as its argument. *)
Definition ns_entry (e x : Z) (ep : entry_point_info) : Prop :=
  ep_pc ep = e /\ ep_args ep = x :: repeat 0 7 /\ GET_SECURITY_STATE (ep_attr ep) = NON_SECURE.

Lemma ns_ep_run e x d l h v : exists rc ep d' l',
  psci_get_ns_ep_info e x (St d l h v) = (Ret (rc, ep), St d' l' h v) /\
  (rc = PSCI_E_SUCCESS /\ ns_entry e x ep \/ rc = PSCI_E_INVALID_ADDRESS /\ truthy (e .& 1) = true).
Proof.
  unfold psci_get_ns_ep_info, read_sysreg. run.
  assert (Hattr : forall big : bool,
    GET_SECURITY_STATE ((NON_SECURE .| EP_ST_DISABLE) .| (if big then EP_EE_BIG else 0)) = NON_SECURE)
    by by intros [].
  repeat (bool_case; run); do 4 eexists; (split; [reflexivity|]); first [by right; split; auto|left];
    split; try done; split; try done; split; try done; apply Hattr.
Qed.

(** What checking the entry point gives. *)
Definition checked (e x rc : Z) (ep : entry_point_info) : Prop :=
  rc = PSCI_E_SUCCESS /\ ns_entry e x ep /\ entry_ok e = true \/
  rc = PSCI_E_INVALID_ADDRESS /\ (entry_ok e = false \/ truthy (e .& 1) = true).

Lemma validate_entry_run e x (T : psci) d l h v : psci_plat_pm_ops T = true -> up v -> Forall psci_lock h ->
  exists rc ep d' l' v', psci_validate_entry_point mpidr e x (St d l h (sput T v)) =
      (Ret (rc, ep), St d' l' h (sput T v')) /\
    up v' /\ still v v' /\ unaffected payload v v' /\ checked e x rc ep.
Proof.
  intros Hops Hup Hh. unfold psci_validate_entry_point, pm_ops. run. rewrite Hops. run.
  pose proof (entry_law i mpidr Hme Hi) as Hlaw. unfold hook in Hlaw. unfold checked.
  destruct (validate_ns_entrypoint (plat_ops mpidr)) as [f|]; run.
  - destruct (hook_run (f e) _ T d l h v (Hlaw e) Hup Hh) as (r & d1 & l1 & v1 & E1 & Hup1 & Hs1 & Hp1 & He).
    rewrite (bind_run _ _ _ _ _ E1). run. rewrite He.
    destruct (entry_ok e) eqn:Hok; cbn [negb]; run.
    + destruct (ns_ep_run e x d1 l1 h (sput T v1)) as (rc & ep & d2 & l2 & -> & Hr).
      exists rc, ep, d2, l2, v1. naive_solver.
    + do 5 eexists. split; [reflexivity|]. naive_solver.
  - cbn [negb]. run. destruct (ns_ep_run e x d l h (sput T v)) as (rc & ep & d2 & l2 & -> & Hr).
    exists rc, ep, d2, l2, v. split; [done|]. split; [done|]. split; [done|]. split; [done|]. naive_solver.
Qed.

Lemma aff_run {B} (k : aff_info_state_t -> M V B) ms rest mps j n d l h v : ms !! j = Some n ->
  bind (psci_get_aff_info_state_by_idx (Z.of_nat j)) k (St d l h (sput (tree_of ms rest mps) v)) =
  k (aff_of n) (St d l h (sput (tree_of ms rest mps) v)).
Proof.
  intros Hn. unfold psci_get_aff_info_state_by_idx. run.
  rewrite (cpu_data_run _ _ (data_of n)); [done|]. unfold tree_of. prun. by apply data_lookup.
Qed.

(** The target is marked; the rest of the tree stays. *)
Definition marked ms rest mps (j : nat) : psci :=
  tree (map state_of ms) (shallowest (map state_of ms)) rest mps
    (<[j := set_aff AFF_STATE_ON_PENDING (data_of Down)]> (map data_of ms)) caps spd.

Lemma mark_run {B} (k : unit -> M V B) ms rest mps j d l h v : length ms = 4%nat -> ms !! j = Some Down ->
  bind (mark_on_pending (Z.of_nat j)) k (St d l h (sput (tree_of ms rest mps) v)) =
  k tt (St d l h (sput (marked ms rest mps j) v)).
Proof.
  intros Hl Hn. unfold mark_on_pending, psci_set_aff_info_state_by_idx, tree_of. run.
  rewrite (data_upd_run _ _ _ _ _ _ _ _ _ _ (data_of Down)) by by apply data_lookup.
  fold (marked ms rest mps j). unfold psci_get_aff_info_state_by_idx. run.
  rewrite (cpu_data_run _ _ (set_aff AFF_STATE_ON_PENDING (data_of Down))).
  2:{ unfold marked. prun. apply list_lookup_insert_eq. rewrite length_map. by eapply lookup_lt_Some. }
  by run.
Qed.

Lemma marked_tree ms rest mps j pc x0 : ms !! j = Some Down ->
  marked ms rest mps j = tree_of (<[j := Waking pc x0]> ms) rest mps.
Proof.
  intros Hj. unfold marked, tree_of. rewrite state_insert, data_insert.
  rewrite (list_insert_id (map state_of ms)); [done|]. by rewrite list_lookup_fmap, Hj.
Qed.

Lemma unmarked ms rest mps j : ms !! j = Some Down ->
  forall (f : psci_cpu_data -> psci_cpu_data), f (set_aff AFF_STATE_ON_PENDING (data_of Down)) = data_of Down ->
  forall {B} (k : unit -> M V B) d l h v,
  bind (upd_cpu_data (Z.of_nat j) f) k (St d l h (sput (marked ms rest mps j) v)) =
  k tt (St d l h (sput (tree_of ms rest mps) v)).
Proof.
  intros Hj f Hf B k d l h v. unfold marked.
  rewrite (data_upd_run _ _ _ _ _ _ _ _ _ _ (set_aff AFF_STATE_ON_PENDING (data_of Down)))
    by (apply list_lookup_insert_eq; rewrite length_map; by eapply lookup_lt_Some).
  rewrite Hf, list_insert_insert_eq, list_insert_id by by apply data_lookup. done.
Qed.

Lemma call_on_run t ms rest mps d l h v : up v -> Forall psci_lock h ->
  exists d' l' v', call_spd mpidr svc_on t (St d l h (sput (tree_of ms rest mps) v)) =
      (Ret tt, St d' l' h (sput (tree_of ms rest mps) v')) /\
    up v' /\ still v v' /\ unaffected payload v v'.
Proof.
  intros Hup Hh. unfold call_spd, tree_of. rewrite spd_hook_run. fold (tree_of ms rest mps).
  pose proof (spd_on_law i mpidr Hme Hi) as Hlaw. unfold hook in Hlaw.
  destruct spd; [destruct (svc_on (spd_ops mpidr)) as [f|]|]; [|by exists d, l, v..].
  destruct (hook_run (f t) _ (tree_of ms rest mps) d l h v (Hlaw t) Hup Hh)
    as ([] & d1 & l1 & v1 & -> & Hup1 & Hs1 & Hp1 & _). by exists d1, l1, v1.
Qed.

(** The target is to come up with the context that has been written for it. *)
Lemma con_started ms ms' rest mps j m pc x0 c v v' : length mps = 4%nat ->
  consistent ms v -> still v v' -> up v' -> ms' = <[j := m]> ms ->
  (spd = true -> forall k n, ms' !! k = Some n -> payload k (tos_of n) v') ->
  (j < 4)%nat -> resumes_at m = Some (pc, x0) -> leads_to pc x0 c -> routes 1 (sget v) c ->
  consistent ms' (sput (put_ns j c (sget v')) (sput (tree_of ms' rest mps) v')).
Proof.
  intros Hmps [] (HI & HC & HN) Hup -> Hp Hj Hm Hlead Hr.
  split; run; rewrite ?HI; auto using put_ok.
  - by rewrite length_insert.
  - by exists rest, mps.
  - by apply up_ctx, up_psci.
  - intros Hs k n Hk.
    pose proof (payload_ctx _ _ j c _ (payload_psci _ _ (tree_of (<[j := m]> ms) rest mps) _ (Hp Hs _ _ Hk)))
      as Hput. by autorewrite with run in Hput.
  - intros k n pc' x0' Hk Hn. destruct (decide (k = j)) as [->|Hne].
    + rewrite list_lookup_insert_eq in Hk by lia. simplify_eq. exists c.
      destruct (slot_ns (sget v') j) as [y Hy]; [auto|done|]. by rewrite (put_same _ _ _ _ y), ?HI by auto.
    + rewrite list_lookup_insert_ne in Hk by done. destruct (con_entry0 _ _ _ _ Hk Hn) as (y & Hy & Hy').
      exists y. by rewrite put_other, HN, ?HI by auto.
Qed.

(** What starting processor [n] may do. *)
Definition on_result ms (n : nat) (e x : Z) (rc : Z) ms' : Prop :=
  match ms !! n with
  | Some Run | Some (Asleep _ _ _) => rc = PSCI_E_ALREADY_ON /\ ms' = ms
  | Some (Waking _ _) => rc = PSCI_E_ON_PENDING /\ ms' = ms
  | Some Down => rc = PSCI_E_INTERN_FAIL /\ ms' = ms \/ rc = PSCI_E_SUCCESS /\ ms' = <[n := Waking e x]> ms
  | None => False
  end.

(** Nothing has changed for PSCI. *)
Lemma con_same ms rest mps v v' : length mps = 4%nat -> consistent ms v -> still v v' -> up v' ->
  unaffected payload v v' -> consistent ms (sput (tree_of ms rest mps) v').
Proof.
  intros Hmps Hcon Hs Hup Hp. apply con_psci with (ms := ms) (v := v); try done; [apply Hcon| |eauto].
  intros Hspd j m Hj. apply Hp. by apply (con_payload _ _ Hcon).
Qed.

Lemma leads_of_entry e x ep c : ns_entry e x ep -> ctx_elr_el3 c = ep_pc ep ->
  gp_regs c = take 8 (ep_args ep) ++ drop 8 (repeat 0 31) -> Z.testbit (ctx_scr_el3 c) 0 = true ->
  leads_to e x c.
Proof. intros (Hpc & Ha & _) He Hg Hb. split; [congruence|]. split; [|done]. by rewrite Hg, Ha. Qed.

(** The part of [psci_cpu_on_start] for a target that is off, with its lock held. *)
Lemma start_down_run ms rest mps t n e x ep f d l v :
  consistent ms v -> length mps = 4%nat -> ms !! n = Some Down -> ns_entry e x ep ->
  pwr_domain_on (plat_ops mpidr) = Some f ->
  exists rc d' l' v' ms',
    (call_spd mpidr svc_on t ;;
     mark_on_pending (Z.of_nat n) ;;
     f <- deref (Some f) ;;
     rc <- f t ;;
     c_assert ((rc =? PSCI_E_SUCCESS) || (rc =? PSCI_E_INTERN_FAIL)) ;;
     (if rc =? PSCI_E_SUCCESS then cm_init_context_by_index (Z.of_nat n) ep
      else psci_set_aff_info_state_by_idx (Z.of_nat n) AFF_STATE_OFF) ;;
     ret rc) (St d l [cpu_lock (Z.of_nat n)] (sput (tree_of ms rest mps) v)) =
      (Ret rc, St d' l' [cpu_lock (Z.of_nat n)] v') /\
    consistent ms' v' /\ on_result ms n e x rc ms'.
Proof.
  intros Hcon Hmps Hn Hep Hf. pose proof Hcon as [Hl _ Hc Hw Hup Hpl Hen].
  assert (Hh : Forall psci_lock [cpu_lock (Z.of_nat n)]) by by repeat constructor.
  assert (Hn4 : (n < 4)%nat) by (rewrite <- Hl; by eapply lookup_lt_Some).
  destruct (call_on_run t ms rest mps d l _ v Hup Hh) as (d1 & l1 & v1 & E1 & Hup1 & Hs1 & Hp1).
  rewrite (bind_run _ _ _ _ _ E1), mark_run by done. cbn [deref]. run.
  pose proof (on_law i mpidr Hme Hi) as Hlaw. unfold hook in Hlaw. rewrite Hf in Hlaw.
  destruct (hook_run (f t) _ (marked ms rest mps n) d1 l1 _ v1 (Hlaw t) Hup1 Hh)
    as (rc & d2 & l2 & v2 & E2 & Hup2 & Hs2 & Hp2 & Hrc). rewrite (bind_run _ _ _ _ _ E2).
  assert (Hst : still v v2) by by etrans.
  assert (Hpp : unaffected payload v v2) by by etrans.
  unfold on_result. rewrite Hn. destruct Hrc as [-> | ->]; cbn [Z.eqb orb]; run.
  - change (PSCI_E_SUCCESS =? PSCI_E_SUCCESS) with true. cbn match. rewrite (marked_tree ms rest mps n e x Hn).
    destruct (slot_ns (sget v) n Hc Hn4) as [y Hy].
    destruct (setup_run 1 ep n y d2 l2 [cpu_lock (Z.of_nat n)]
      (sput (tree_of (<[n := Waking e x]> ms) rest mps) v2)) as (d3 & new & c & E3 & _ & He & Hg & Hb & Hr);
      [run; by apply Hst|run; by rewrite (proj2 (proj2 Hst))|run; by rewrite (proj1 Hst)|apply Hep|done|].
    unfold cm_init_context_by_index. cbn [orb]. run. rewrite (bind_run _ _ _ _ _ E3). run. do 5 eexists. split; [reflexivity|].
    split; [|by right]. revert Hr. run. rewrite (proj1 Hst). intros Hr.
    eapply con_started; [done|exact Hcon|done|done|done| |done|done|by eapply leads_of_entry; eauto|done].
    intros Hs k m Hk. apply Hpp. destruct (decide (k = n)) as [->|Hne].
    + rewrite list_lookup_insert_eq in Hk by lia. simplify_eq. by apply (Hpl Hs _ _ Hn).
    + rewrite list_lookup_insert_ne in Hk by done. by apply Hpl.
  - change (PSCI_E_INTERN_FAIL =? PSCI_E_SUCCESS) with false. cbn [orb].
    change (PSCI_E_INTERN_FAIL =? PSCI_E_INTERN_FAIL) with true. run.
    unfold psci_set_aff_info_state_by_idx. rewrite (unmarked ms rest mps n Hn) by done. run.
    do 5 eexists. split; [reflexivity|]. split; [|by left]. by eapply con_same.
Qed.

Lemma on_set : exists f, pwr_domain_on (plat_ops mpidr) = Some f /\
  is_set (Some f) && is_set (pwr_domain_on_finish (plat_ops mpidr)) = true.
Proof.
  pose proof (on_law i mpidr Hme Hi) as H1. pose proof (on_finish_law i mpidr Hme Hi) as H2.
  unfold hook in H1, H2. destruct (pwr_domain_on (plat_ops mpidr)) as [f|]; [|done].
  destruct (pwr_domain_on_finish (plat_ops mpidr)); [|done]. exists f. split; [done|].
  unfold is_set. by rewrite !bool_decide_eq_true_2.
Qed.

Lemma cpu_on_start_run ms t n e x ep d l v :
  consistent ms v -> (n < 4)%nat -> plat_core_pos_by_mpidr t = Z.of_nat n -> ns_entry e x ep ->
  exists rc d' l' v' ms', psci_cpu_on_start mpidr t ep (St d l [] v) = (Ret rc, St d' l' [] v') /\
    consistent ms' v' /\ on_result ms n e x rc ms'.
Proof.
  intros Hcon Hn4 Hpos Hep. pose proof Hcon as [Hl (rest & mps & Hmps & Ht) _ _ _ _ _].
  destruct (lookup_lt_is_Some_2 ms n) as [m Hm]; [lia|]. destruct on_set as (f & Hf & Hset).
  unfold psci_cpu_on_start. rewrite Hpos. assert (u32 (Z.of_nat n) = Z.of_nat n) as -> by (apply u32_small; lia).
  rewrite (proj2 (Z.leb_le 0 (Z.of_nat n))) by lia. run.
  rewrite (as_tree v _ Ht). unfold tree_of. rewrite pm_ops_run. fold (tree_of ms rest mps). rewrite Hf, Hset. run.
  rewrite run_bind_lock, bool_decide_eq_false_2 by apply not_elem_of_nil.
  rewrite (aff_run _ ms rest mps n m) by done. unfold cpu_on_validate_state.
  assert (Hsame : consistent ms (sput (tree_of ms rest mps) v)) by by rewrite <- (as_tree v _ Ht).
  unfold on_result. rewrite Hm. destruct m as [| |pc x0|deep pc x0]; cbn [aff_of].
  - rewrite bool_decide_eq_true_2 by done. run. change (negb (PSCI_E_ALREADY_ON =? PSCI_E_SUCCESS)) with true.
    run. rewrite unlock_lock by apply not_elem_of_nil. by do 5 eexists.
  - rewrite !bool_decide_eq_false_2, bool_decide_eq_true_2 by done. run.
    change (negb (PSCI_E_SUCCESS =? PSCI_E_SUCCESS)) with false.
    destruct (start_down_run ms rest mps t n e x ep f d (EvLock (cpu_lock (Z.of_nat n)) :: l) v Hcon Hmps Hm Hep Hf)
      as (rc & d1 & l1 & v1 & ms' & E1 & Hc1 & Hr). cbn match. rewrite (bind_run _ _ _ _ _ E1). run.
    rewrite unlock_lock by apply not_elem_of_nil. do 5 eexists. split; [reflexivity|]. split; [done|].
    unfold on_result in Hr. by rewrite Hm in Hr.
  - rewrite bool_decide_eq_false_2, bool_decide_eq_true_2 by done. run.
    change (negb (PSCI_E_ON_PENDING =? PSCI_E_SUCCESS)) with true.
    run. rewrite unlock_lock by apply not_elem_of_nil. by do 5 eexists.
  - rewrite bool_decide_eq_true_2 by done. run. change (negb (PSCI_E_ALREADY_ON =? PSCI_E_SUCCESS)) with true.
    run. rewrite unlock_lock by apply not_elem_of_nil. by do 5 eexists.
Qed.

(** ** The calls *)

(** A call of the normal world on the processor with MPIDR [mpidr]. *)
Definition smc (c : call) : M V Z :=
  match c with
  | CpuOn t e x => psci_smc_handler mpidr PSCI_CPU_ON_AARCH64 t e x 1
  | CpuOff => psci_smc_handler mpidr PSCI_CPU_OFF 0 0 0 1
  | AffinityInfo t lvl => psci_smc_handler mpidr PSCI_AFFINITY_INFO_AARCH64 t lvl 0 1
  | CpuSuspend ps e x => psci_smc_handler mpidr PSCI_CPU_SUSPEND_AARCH64 ps e x 1
  | SystemSuspend e x => psci_smc_handler mpidr PSCI_SYSTEM_SUSPEND_AARCH64 e x 0 1
  end.

Lemma handler_run f x1 x2 x3 ms rest mps d l h v :
  f ∈ [PSCI_CPU_OFF; PSCI_CPU_ON_AARCH64; PSCI_AFFINITY_INFO_AARCH64; PSCI_CPU_SUSPEND_AARCH64;
       PSCI_SYSTEM_SUSPEND_AARCH64] ->
  psci_smc_handler mpidr f x1 x2 x3 1 (St d l h (sput (tree_of ms rest mps) v)) =
  bind (if GET_SMC_CC f =? SMC_32 then psci_smc32 mpidr f (u32 x1) (u32 x2) (u32 x3)
        else psci_smc64 mpidr f x1 x2 x3) (fun r => ret (u64 r))
    (St d l h (sput (tree_of ms rest mps) v)).
Proof.
  intros Hf. unfold psci_smc_handler. change (is_caller_secure 1) with false. unfold tree_of. prun.
  rewrite (proj2 (Z.eqb_neq _ _)) by by apply Hcaps. done.
Qed.

Lemma cpu_on_call ms t e x d l v : consistent ms v ->
  exists o d' l' v' ms', smc (CpuOn t e x) (St d l [] v) = (o, St d' l' [] v') /\
    consistent ms' v' /\ spec entry_ok power_ok ms i (CpuOn t e x) o ms'.
Proof.
  intros Hcon. pose proof Hcon as [Hl (rest & mps & Hmps & Ht) _ _ Hup _ _].
  cbn [smc]. rewrite (as_tree v _ Ht), handler_run by set_solver.
  change (psci_smc64 mpidr PSCI_CPU_ON_AARCH64 t e x) with (psci_cpu_on mpidr t e x).
  change (GET_SMC_CC PSCI_CPU_ON_AARCH64 =? SMC_32) with false. cbn match. unfold psci_cpu_on, psci_validate_mpidr.
  assert (Hsame : consistent ms (sput (tree_of ms rest mps) v)) by by rewrite <- (as_tree v _ Ht).
  destruct (core_pos t) as [Hp|(n & Hn & Hp)]; rewrite Hp.
  { change (-1 <? 0) with true. run. do 5 eexists. split; [reflexivity|]. split; [done|].
    apply spec_no_cpu. lia. }
  rewrite (proj2 (Z.ltb_ge (Z.of_nat n) 0)) by lia. change (negb (PSCI_E_SUCCESS =? PSCI_E_SUCCESS)) with false. run.
  destruct (validate_entry_run e x (tree_of ms rest mps) d l [] v eq_refl Hup (List.Forall_nil _))
    as (rc & ep & d1 & l1 & v1 & E1 & Hup1 & Hs1 & Hp1 & Hr). rewrite (bind_run _ _ _ _ _ E1).
  assert (Hc1 : consistent ms (sput (tree_of ms rest mps) v1)) by (apply con_same with (v := v); done).
  destruct Hr as [(-> & Hep & Hok)|[-> Hbad]].
  - change (negb (PSCI_E_SUCCESS =? PSCI_E_SUCCESS)) with false. cbn match.
    destruct (cpu_on_start_run ms t n e x ep d1 l1 _ Hc1 Hn Hp Hep) as (rc & d2 & l2 & v2 & ms' & E2 & Hc2 & Hr).
    rewrite (bind_run _ _ _ _ _ E2). run. do 5 eexists. split; [reflexivity|]. split; [exact Hc2|].
    unfold on_result in Hr. destruct (ms !! n) as [[| |pc x0|deep pc x0]|] eqn:Hm; [..|done].
    + destruct Hr as [-> ->]. by eapply spec_already.
    + destruct Hr as [[-> ->]|[-> ->]]; [by eapply spec_refused|by eapply spec_started].
    + destruct Hr as [-> ->]. by eapply spec_pending.
    + destruct Hr as [-> ->]. by eapply spec_already.
  - change (negb (PSCI_E_INVALID_ADDRESS =? PSCI_E_SUCCESS)) with true. run.
    do 5 eexists. split; [reflexivity|]. split; [done|]. apply (spec_bad_entry _ _ _ _ _ e x); eauto.
Qed.

Lemma info_call ms t lvl d l v : consistent ms v ->
  exists o d' l' v' ms', smc (AffinityInfo t lvl) (St d l [] v) = (o, St d' l' [] v') /\
    consistent ms' v' /\ spec entry_ok power_ok ms i (AffinityInfo t lvl) o ms'.
Proof.
  intros Hcon. pose proof Hcon as [Hl (rest & mps & Hmps & Ht) _ _ _ _ _]. cbn [smc].
  assert (Hsame : consistent ms (sput (tree_of ms rest mps) v)) by by rewrite <- (as_tree v _ Ht).
  rewrite (as_tree v _ Ht), handler_run by set_solver.
  change (psci_smc64 mpidr PSCI_AFFINITY_INFO_AARCH64 t lvl 0) with (psci_affinity_info (V := V) t (u32 lvl)).
  change (GET_SMC_CC PSCI_AFFINITY_INFO_AARCH64 =? SMC_32) with false. cbn match. unfold psci_affinity_info.
  unfold PSCI_CPU_PWR_LVL. pose proof (u32_range lvl) as Hr.
  destruct (Z.gtb_spec (u32 lvl) 0) as [Hlvl|Hlvl].
  { run. do 5 eexists. split; [reflexivity|]. split; [done|]. apply spec_no_info. lia. }
  destruct (core_pos t) as [Hp|(n & Hn & Hp)]; rewrite Hp.
  { change (-1 =? -1) with true. run. do 5 eexists. split; [reflexivity|]. split; [done|].
    apply spec_no_info. lia. }
  rewrite (proj2 (Z.eqb_neq (Z.of_nat n) (-1))) by lia.
  assert (u32 (Z.of_nat n) = Z.of_nat n) as -> by (apply u32_small; lia).
  destruct (lookup_lt_is_Some_2 ms n) as [m Hm]; [lia|]. run. rewrite (aff_run _ ms rest mps n m) by done.
  run. do 5 eexists. split; [reflexivity|]. split; [done|].
  assert (u64 (aff_value (aff_of m)) = aff_value (aff_of m)) as -> by by destruct m.
  eapply spec_info; [done|done|lia].
Qed.

Lemma off_call ms d l v : consistent ms v -> ms !! i = Some Run ->
  exists o d' l' v' ms', smc CpuOff (St d l [] v) = (o, St d' l' [] v') /\
    consistent ms' v' /\ spec entry_ok power_ok ms i CpuOff o ms'.
Proof.
  intros Hcon Hrun. pose proof Hcon as [Hl (rest & mps & Hmps & Ht) _ _ _ _ _]. cbn [smc].
  destruct (do_cpu_off_run ms d l v Hcon Hrun) as (d1 & l1 & v1 & E1 & Hc1).
  assert (Er : smc CpuOff (St d l [] v) = (Halt Parked, St d1 l1 [] v1)).
  { cbn [smc]. rewrite (as_tree v _ Ht), handler_run by set_solver. rewrite <- (as_tree v _ Ht).
    change (GET_SMC_CC PSCI_CPU_OFF =? SMC_32) with true. cbn match.
    change (psci_smc32 mpidr PSCI_CPU_OFF (u32 0) (u32 0) (u32 0)) with (psci_cpu_off mpidr).
    unfold psci_cpu_off. rewrite run_bind_assoc. by apply bind_halt. }
  do 5 eexists. split; [exact Er|]. split; [exact Hc1|]. apply spec_off.
Qed.

End Refinement.
End Hotplug.
