(* ===== verification/Suspend.v ===== *)
(** * Suspending processors

    CPU_SUSPEND, SYSTEM_SUSPEND and the warm boot of a processor that resumes, on
    the modes of [Hotplug] and against the same contract [Hooks].  On this platform
    a power state concerns the processor alone; a system suspend, which only the
    last processor that is on may ask for, takes the cluster down as well ([deep]). *)

From S2P Require Import Prelude Machine Trace Gic IntrMgmt CtxMgmt Psci PsciOps PsciTree CtxFacts Hotplug.
From Stdlib Require Import String.
From stdpp Require Import strings sets.
Import Gic IntrMgmt CtxMgmt Psci PsciOps PsciTree CtxFacts Hotplug.
#[local] Open Scope Z_scope.
#[local] Open Scope c_scope.

Module Suspend.

Section Refinement.
Context `{E : Env} {V : Type} `{!Has gic V} `{!Has intr_mgmt V} `{!Has ctx_vars V} `{!Has psci V}.
Context `{PO : !PlatOps V} `{SO : !SpdOps V}.
Context `{!Indep psci ctx_vars V} `{!Indep ctx_vars psci V}.
Context `{!Indep intr_mgmt ctx_vars V} `{!Indep intr_mgmt psci V}.
Context (up : V -> Prop) (payload : nat -> tos_state -> V -> Prop) (entry_ok power_ok : Z -> bool).
Context `{HK : !Hooks up payload entry_ok power_ok}.
Context (caps : Z) (spd : bool).
Hypothesis Hcaps : caps_ok caps.
Context (mpidr : Z) (i : nat).
Hypothesis Hme : plat_my_core_pos mpidr = Z.of_nat i.
Hypothesis Hi : (i < 4)%nat.
Implicit Types (d : Dev) (l : list event) (h : list lock_id) (v : V) (ms : list mode) (deep : bool).

#[local] Abbreviation consistent := (consistent up payload caps spd).
#[local] Abbreviation tree_of := (tree_of caps spd).
#[local] Abbreviation hands_over := (hands_over payload i).

(** ** One level, or two *)

(** The states that are asked for, the nodes above the processor up to the level
    of the suspend, and their locks. *)
Definition states deep : psci_power_state :=
  [PLAT_MAX_OFF_STATE; if deep then PLAT_MAX_OFF_STATE else PSCI_LOCAL_STATE_RUN].
Definition nodes deep : list Z := if deep then [0] else no_parents.
Definition locks deep : list lock_id := if deep then [psci_locks 0] else [].

Lemma locks_psci deep : Forall psci_lock (locks deep).
Proof. destruct deep; by repeat constructor. Qed.

Lemma nodes_run {B} (k : list Z -> M V B) deep ms rest mps d l h v : length mps = 4%nat ->
  bind (psci_get_parent_pwr_domain_nodes (plat_my_core_pos mpidr) (b2z deep) no_parents) k
    (St d l h (sput (tree_of ms rest mps) v)) = k (nodes deep) (St d l h (sput (tree_of ms rest mps) v)).
Proof.
  intros Hmps. destruct (lookup_lt_is_Some_2 mps i) as [m Hm]; [lia|]. destruct deep; unfold tree_of.
  - by rewrite (parent_nodes_run _ _ Hme) with (m := m).
  - unfold psci_get_parent_pwr_domain_nodes. run. by rewrite (my_node_run mpidr i Hme) with (m := m).
Qed.

Lemma lock_run {B} (k : unit -> M V B) deep ms rest mps d l v : exists l',
  bind (psci_acquire_pwr_domain_locks (b2z deep) (nodes deep)) k (St d l [] (sput (tree_of ms rest mps) v)) =
  k tt (St d l' (locks deep) (sput (tree_of ms rest mps) v)).
Proof.
  destruct deep; eexists; [|reflexivity]. unfold tree_of. by rewrite acquire_run by apply not_elem_of_nil.
Qed.

Lemma unlock_run {B} (k : unit -> M V B) deep ms rest mps d l v : exists l',
  bind (psci_release_pwr_domain_locks (b2z deep) (nodes deep)) k
    (St d l (locks deep) (sput (tree_of ms rest mps) v)) =
  k tt (St d l' [] (sput (tree_of ms rest mps) v)).
Proof.
  destruct deep; eexists; [|reflexivity]. unfold tree_of. cbn [locks nodes b2z]. by rewrite release_run by apply not_elem_of_nil.
Qed.

(** The request goes into the tree; what is granted is what was asked for. *)
Lemma coordinate_run deep pc x0 ms rest mps d l h v : length ms = 4%nat -> length mps = 4%nat ->
  ms !! i = Some Run -> (deep = true -> alone ms i) ->
  let row := map state_of (<[i := Asleep deep pc x0]> ms) in
  psci_do_state_coordination mpidr (b2z deep) (states deep) (St d l h (sput (tree_of ms rest mps) v)) =
  (Ret (states deep), St d l h (sput (tree row (shallowest row) rest mps
     (<[i := set_local_state PLAT_MAX_OFF_STATE (data_of Run)]> (map data_of ms)) caps spd) v)).
Proof.
  intros Hl Hmps Hrun Ha row. destruct (lookup_lt_is_Some_2 mps i) as [m Hm]; [lia|].
  assert (Hd : map data_of ms !! i = Some (data_of Run)) by by apply data_lookup.
  unfold row. rewrite state_insert. unfold tree_of. destruct deep; cbn [state_of].
  - pose proof (shallowest_alone ms i Run (Ha eq_refl) Hrun) as Hs.
    unfold states. cbn [b2z]. rewrite (coordination_run mpidr i Hme Hi) with (m := m) (c := data_of Run); rewrite ?length_map; try done.
    by rewrite Hs.
  - rewrite (list_insert_id (map state_of ms)) by by rewrite list_lookup_fmap, Hrun.
    unfold psci_do_state_coordination, psci_set_target_local_pwr_states, psci_set_cpu_local_state.
    change (b2z false <=? PLAT_MAX_PWR_LVL) with true. run.
    rewrite (my_node_run mpidr i Hme) with (m := m) by done.
    change (steps (PSCI_CPU_PWR_LVL + 1) (b2z false + 1) 1) with (@nil Z). cbn [coordinate request_rest]. run.
    cbn [request_rest]. run.
    rewrite (my_upd_run mpidr i Hme) with (x := data_of Run) by done. run.
    by rewrite (my_node_run mpidr i Hme) with (m := m).
Qed.

(** ** Going to sleep *)

Lemma off_level deep : psci_find_max_off_lvl (states deep) = b2z deep.
Proof. by destruct deep. Qed.

(** The part of a suspend that prepares the power-down: the level is recorded, the
    trusted OS suspended and the context of the resume written. *)
Lemma pwrdown_start_run deep ms rest mps pc x0 ep d l v : consistent ms v -> length mps = 4%nat ->
  ms !! i = Some Run -> ns_entry pc x0 ep ->
  let ms' := <[i := Asleep deep pc x0]> ms in
  let row := map state_of ms' in
  exists d' l' v', psci_suspend_to_pwrdown_start mpidr (b2z deep) ep (states deep)
    (St d l (locks deep) (sput (tree row (shallowest row) rest mps
       (<[i := set_local_state PLAT_MAX_OFF_STATE (data_of Run)]> (map data_of ms)) caps spd) v)) =
    (Ret tt, St d' l' (locks deep) v') /\ consistent ms' v' /\ sget v' = tree_of ms' rest mps.
Proof.
  intros Hcon Hmps Hrun Hep ms' row. pose proof Hcon as [Hl _ Hc Hw Hup Hpl Hen].
  unfold psci_suspend_to_pwrdown_start, psci_set_suspend_pwrlvl. rewrite off_level.
  rewrite (my_upd_run mpidr i Hme) with (x := set_local_state PLAT_MAX_OFF_STATE (data_of Run))
    by (apply list_lookup_insert_eq; rewrite length_map; lia).
  rewrite list_insert_insert_eq.
  change (set_target_pwrlvl (b2z deep) (set_local_state PLAT_MAX_OFF_STATE (data_of Run)))
    with (data_of (Asleep deep pc x0)).
  rewrite <- data_insert. fold ms'. change (tree row _ _ _ _ _ _) with (tree_of ms' rest mps).
  destruct (call_tos_run up payload entry_ok power_ok spd mpidr i TosOn TosSuspended svc_suspend (b2z deep)
    (tree_of ms' rest mps) d l (locks deep) v (spd_suspend_law i mpidr Hme Hi) eq_refl Hup (locks_psci deep))
    as (d1 & l1 & v1 & E1 & Hup1 & Hs1 & Hp1); [intros Hs; by apply (Hpl Hs i Run)|].
  rewrite (bind_run _ _ _ _ _ E1). unfold tree_of at 1. rewrite pm_ops_run. fold (tree_of ms' rest mps).
  destruct (maybe_hook_run up payload entry_ok power_ok _ (states deep) (tree_of ms' rest mps) d1 l1 (locks deep) v1
    (early_law i mpidr Hme Hi) Hup1 (locks_psci deep)) as (d2 & l2 & v2 & E2 & Hup2 & Hs2 & Hp2).
  rewrite (bind_run _ _ _ _ _ E2).
  assert (Hst : still v v2) by (etrans; [exact Hs1|exact Hs2]). pose proof Hst as (HI & HC & HN).
  destruct (slot_ns (sget v) i Hc Hi) as [y Hy]. unfold cm_init_my_context. rewrite Hme.
  destruct (setup_run 1 ep i y d2 l2 (locks deep) (sput (tree_of ms' rest mps) v2))
    as (d3 & new & c & E3 & _ & He & Hg & Hb & Hr);
    [run; auto|run; by rewrite HN|run; by rewrite HI|apply Hep|done|].
  rewrite (bind_run _ _ _ _ _ E3). unfold psci_do_pwrdown_sequence. run. do 3 eexists. split; [reflexivity|].
  split; [|by run]. revert Hr. run. rewrite HI. intros Hr.
  eapply (con_started up payload entry_ok power_ok caps spd i Hi ms ms' rest mps i (Asleep deep pc x0) pc x0 c v v2);
    [done|exact Hcon|done|done|done| |done|done|by eapply leads_of_entry; eauto|done].
  eapply mode_payload; [done|exact Hpl| |done]. intros Hs. destruct (Hp1 Hs) as [Hb1 Ho1].
  split; [by apply Hp2|]. intros j b Hj Hpj. by apply Hp2, Ho1.
Qed.

(** Either an interrupt is pending and nothing happens, or the processor is powered
    down. *)
Lemma suspend_start_run deep ms pc x0 ep d l v : consistent ms v -> ms !! i = Some Run ->
  (deep = true -> alone ms i) -> ns_entry pc x0 ep ->
  exists o d' l' v' ms',
    psci_cpu_suspend_start mpidr ep (b2z deep) (states deep) 1 (St d l [] v) = (o, St d' l' [] v') /\
    consistent ms' v' /\
    (o = Ret tt /\ ms' = ms \/ o = Halt Parked /\ ms' = <[i := Asleep deep pc x0]> ms).
Proof.
  intros Hcon Hrun Ha Hep. pose proof Hcon as [Hl (rest & mps & Hmps & Ht) _ _ _ _ _].
  assert (Hsame : consistent ms (sput (tree_of ms rest mps) v)) by by rewrite <- (as_tree v _ Ht).
  rewrite (as_tree v _ Ht). unfold psci_cpu_suspend_start. unfold tree_of at 1. rewrite pm_ops_run.
  fold (tree_of ms rest mps). pose proof (suspend_law i mpidr Hme Hi) as Hf.
  pose proof (suspend_finish_law i mpidr Hme Hi) as Hg. unfold hook in Hf, Hg.
  destruct (pwr_domain_suspend (plat_ops mpidr)) as [f|]; [|done].
  destruct (pwr_domain_suspend_finish (plat_ops mpidr)) as [g|]; [|done].
  unfold is_set. rewrite !bool_decide_eq_true_2 by done. run. rewrite nodes_run by done. run.
  match goal with |- context [bind (psci_acquire_pwr_domain_locks _ _) ?k] =>
    destruct (lock_run k deep ms rest mps d l v) as [l1 E1] end. rewrite E1. clear E1.
  unfold read_sysreg. run. set (isr := u64 _). set (d1 := (hw_call _ _ _).2). set (l2 := _ :: l1).
  change (negb (1 =? 0)) with true. destruct (negb (isr =? 0)); cbn match.
  { rewrite <- (last_bind (psci_release_pwr_domain_locks _ _)).
    match goal with |- context [bind (psci_release_pwr_domain_locks _ _) ?k] =>
      destruct (unlock_run k deep ms rest mps d1 l2 v) as [l3 E3] end. rewrite E3.
    do 5 eexists. split; [reflexivity|]. split; [exact Hsame|]. by left. }
  rewrite (bind_run _ _ _ _ _ (coordinate_run deep pc x0 ms rest mps d1 l2 _ v Hl Hmps Hrun Ha)).
  destruct (pwrdown_start_run deep ms rest mps pc x0 ep d1 l2 v Hcon Hmps Hrun Hep)
    as (d2 & l3 & v2 & E2 & Hc2 & Ht2). rewrite (bind_run _ _ _ _ _ E2). cbn [deref]. run.
  rewrite (as_tree v2 _ Ht2).
  destruct (hook_run up payload entry_ok power_ok (f (states deep)) _ (tree_of (<[i := Asleep deep pc x0]> ms) rest mps)
    d2 l3 (locks deep) v2 (Hf _) (con_up _ _ _ _ _ _ Hc2) (locks_psci deep))
    as ([] & d3 & l4 & v3 & E3 & Hup3 & Hs3 & Hp3 & _). rewrite (bind_run _ _ _ _ _ E3).
  match goal with |- context [bind (psci_release_pwr_domain_locks _ _) ?k] =>
    destruct (unlock_run k deep (<[i := Asleep deep pc x0]> ms) rest mps d3 l4 v3) as [l5 E5] end. rewrite E5. clear E5.
  destruct (power_down_run up payload entry_ok power_ok mpidr i Hme Hi (states deep) d3 l5 []
    (sput (tree_of (<[i := Asleep deep pc x0]> ms) rest mps) v3)) as (d6 & l6 & E6).
  rewrite (bind_halt _ _ _ _ _ E6). do 5 eexists. split; [reflexivity|]. split; [|by right].
  by eapply con_same.
Qed.

(** ** CPU_SUSPEND *)

Lemma pstate_type ps : psci_get_pstate_type ps = PSTATE_TYPE_STANDBY \/ psci_get_pstate_type ps = PSTATE_TYPE_POWERDOWN.
Proof.
  unfold psci_get_pstate_type, PSTATE_TYPE_MASK, PSTATE_TYPE_STANDBY, PSTATE_TYPE_POWERDOWN.
  change 1 with (Z.ones 1). rewrite Z.land_ones by lia.
  pose proof (Z.mod_pos_bound (ps .>> PSTATE_TYPE_SHIFT) (2 ^ 1) ltac:(lia)). change (Z.ones 1) with 1. lia.
Qed.

(** The power state is checked; the states asked for are its. *)
Lemma validate_power_run ps ms rest mps d l v : up v ->
  exists rc si d' l' v', psci_validate_power_state mpidr ps [PSCI_LOCAL_STATE_RUN; PSCI_LOCAL_STATE_RUN]
      (St d l [] (sput (tree_of ms rest mps) v)) = (Ret (rc, si), St d' l' [] (sput (tree_of ms rest mps) v')) /\
    up v' /\ still v v' /\ unaffected payload v v' /\
    (power_valid power_ok ps = true /\ rc = PSCI_E_SUCCESS /\
       si = [if psci_get_pstate_type ps =? PSTATE_TYPE_STANDBY then PLAT_MAX_RET_STATE else PLAT_MAX_OFF_STATE;
             PSCI_LOCAL_STATE_RUN] \/
     power_valid power_ok ps = false /\ rc = PSCI_E_INVALID_PARAMS).
Proof.
  intros Hup. unfold psci_validate_power_state, power_valid. destruct (psci_check_power_state ps =? 0); cbn [negb].
  2:{ do 5 eexists. split; [reflexivity|]. split; [done|]. split; [done|]. split; [done|]. by right. }
  unfold tree_of at 1. rewrite pm_ops_run. fold (tree_of ms rest mps).
  pose proof (power_law i mpidr Hme Hi) as Hf. unfold hook in Hf.
  destruct (validate_power_state (plat_ops mpidr)) as [f|]; [|done].
  unfold is_set. rewrite bool_decide_eq_true_2 by done. cbn [deref]. run.
  destruct (hook_run up payload entry_ok power_ok _ _ (tree_of ms rest mps) d l [] v (Hf ps) Hup (List.Forall_nil _))
    as ([rc si] & d1 & l1 & v1 & -> & Hup1 & Hs1 & Hp1 & HQ). do 5 eexists. split; [reflexivity|].
  split; [done|]. split; [done|]. split; [done|]. cbn [andb].
  destruct (power_ok ps).
  - left. pose proof (f_equal fst HQ) as Hrc. pose proof (f_equal snd HQ) as Hsi. cbn [fst snd] in Hrc, Hsi.
    split; [reflexivity|]. split; [exact Hrc|exact Hsi].
  - right. split; [reflexivity|exact HQ].
Qed.

(** Standby: the processor waits for an interrupt and goes on. *)
Lemma standby_run ms rest mps f d l v : consistent ms v -> length mps = 4%nat -> ms !! i = Some Run ->
  cpu_standby (plat_ops mpidr) = Some f -> exists d' l' v',
    (psci_set_cpu_local_state mpidr PLAT_MAX_RET_STATE ;;
     f PLAT_MAX_RET_STATE ;;
     psci_set_cpu_local_state mpidr PSCI_LOCAL_STATE_RUN ;;
     ret PSCI_E_SUCCESS) (St d l [] (sput (tree_of ms rest mps) v)) =
      (Ret PSCI_E_SUCCESS, St d' l' [] (sput (tree_of ms rest mps) v')) /\
    consistent ms (sput (tree_of ms rest mps) v').
Proof.
  intros Hcon Hmps Hrun Hf. pose proof Hcon as [Hl _ _ _ Hup _ _].
  assert (Hd : map data_of ms !! i = Some (data_of Run)) by by apply data_lookup.
  unfold psci_set_cpu_local_state, tree_of. rewrite (my_upd_run mpidr i Hme) with (x := data_of Run) by done.
  pose proof (standby_law i mpidr Hme Hi) as Hlaw. unfold hook in Hlaw. rewrite Hf in Hlaw.
  match goal with |- context [sput ?T v] => destruct (hook_run up payload entry_ok power_ok _ _ T d l [] v
    (Hlaw PLAT_MAX_RET_STATE) Hup (List.Forall_nil _)) as ([] & d1 & l1 & v1 & E1 & Hup1 & Hs1 & Hp1 & _) end.
  rewrite (bind_run _ _ _ _ _ E1).
  rewrite (my_upd_run mpidr i Hme) with (x := set_local_state PLAT_MAX_RET_STATE (data_of Run))
    by (apply list_lookup_insert_eq; rewrite length_map; lia).
  rewrite list_insert_insert_eq.
  change (set_local_state PSCI_LOCAL_STATE_RUN (set_local_state PLAT_MAX_RET_STATE (data_of Run))) with (data_of Run).
  rewrite list_insert_id by done. run. do 3 eexists. split; [reflexivity|]. by eapply con_same.
Qed.

Lemma cpu_suspend_run ms ps e x d l v : consistent ms v -> ms !! i = Some Run ->
  exists o d' l' v' ms', psci_cpu_suspend mpidr (u32 ps) e x (St d l [] v) = (o, St d' l' [] v') /\
    consistent ms' v' /\
    spec entry_ok power_ok ms i (CpuSuspend ps e x)
      (match o with Ret r => Ret (u64 r) | Halt y => Halt y end) ms'.
Proof.
  intros Hcon Hrun. pose proof Hcon as [Hl (rest & mps & Hmps & Ht) _ _ Hup _ _].
  rewrite (as_tree v _ Ht). unfold psci_cpu_suspend.
  change (repeat PSCI_LOCAL_STATE_RUN _) with [PSCI_LOCAL_STATE_RUN; PSCI_LOCAL_STATE_RUN].
  destruct (validate_power_run (u32 ps) ms rest mps d l v Hup)
    as (rc & si & d1 & l1 & v1 & E1 & Hup1 & Hs1 & Hp1 & Hr). rewrite (bind_run _ _ _ _ _ E1). clear E1.
  assert (Hc1 : consistent ms (sput (tree_of ms rest mps) v1)) by by eapply con_same.
  destruct Hr as [(Hv & -> & ->)|(Hv & ->)].
  2:{ change (negb (PSCI_E_INVALID_PARAMS =? PSCI_E_SUCCESS)) with true. run.
      do 5 eexists. split; [reflexivity|]. split; [exact Hc1|]. by apply spec_bad_power. }
  change (negb (PSCI_E_SUCCESS =? PSCI_E_SUCCESS)) with false. cbn match.
  destruct (pstate_type (u32 ps)) as [Hty|Hty]; rewrite Hty.
  - change (PSTATE_TYPE_STANDBY =? PSTATE_TYPE_STANDBY) with true. cbn match.
    change (psci_validate_suspend_req _ _ =? PSCI_E_SUCCESS) with true. run.
    change (psci_find_target_suspend_lvl _) with 0. change (0 =? PSCI_INVALID_PWR_LVL) with false.
    change (is_cpu_standby_req PSTATE_TYPE_STANDBY 0) with true. cbn match.
    unfold tree_of at 1. rewrite pm_ops_run. fold (tree_of ms rest mps).
    destruct (cpu_standby (plat_ops mpidr)) as [f|] eqn:Hf.
    2:{ pose proof (standby_law i mpidr Hme Hi) as Hlaw. unfold hook in Hlaw. by rewrite Hf in Hlaw. }
    change (pwr_domain_state _ PSCI_CPU_PWR_LVL) with PLAT_MAX_RET_STATE.
    destruct (standby_run ms rest mps f d1 l1 _ Hc1 Hmps Hrun Hf) as (d2 & l2 & v2 & E2 & Hc2).
    rewrite sput_sput in E2. rewrite E2. do 5 eexists. split; [reflexivity|]. split; [exact Hc2|]. by apply spec_standby.
  - change (PSTATE_TYPE_POWERDOWN =? PSTATE_TYPE_STANDBY) with false. cbn match.
    assert (Hpd : powers_down power_ok (u32 ps) = true) by (unfold powers_down; by rewrite Hv, Hty).
    change (psci_validate_suspend_req _ _ =? PSCI_E_SUCCESS) with true. run.
    change (psci_find_target_suspend_lvl _) with (b2z false). change (b2z false =? PSCI_INVALID_PWR_LVL) with false.
    change (is_cpu_standby_req PSTATE_TYPE_POWERDOWN (b2z false)) with false. cbn match.
    change (negb (PSTATE_TYPE_POWERDOWN =? 0)) with true. cbn match.
    destruct (validate_entry_run up payload entry_ok power_ok mpidr i Hme Hi e x (tree_of ms rest mps) d1 l1 [] v1
      eq_refl Hup1 (List.Forall_nil _)) as (rc & ep & d2 & l2 & v2 & E2 & Hup2 & Hs2 & Hp2 & Hr).
    rewrite (bind_run _ _ _ _ _ E2). clear E2.
    assert (Hc2 : consistent ms (sput (tree_of ms rest mps) v2)).
    { eapply (con_same up payload entry_ok power_ok); [done|exact Hcon|by etrans|done|by etrans]. }
    destruct Hr as [(-> & Hep & Hok)|[-> Hbad]].
    + change (negb (PSCI_E_SUCCESS =? PSCI_E_SUCCESS)) with false. cbn match.
      destruct (suspend_start_run false ms e x ep d2 l2 _ Hc2 Hrun ltac:(done) Hep)
        as (o & d3 & l3 & v3 & ms' & E3 & Hc3 & [[-> ->]|[-> ->]]).
      * rewrite (bind_run _ _ _ _ _ E3). do 5 eexists. split; [reflexivity|]. split; [exact Hc3|].
        apply (spec_interrupted _ _ _ _ _ ps e x); auto.
      * rewrite (bind_halt _ _ _ _ _ E3). do 5 eexists. split; [reflexivity|]. split; [exact Hc3|]. by apply spec_suspended.
    + change (negb (PSCI_E_INVALID_ADDRESS =? PSCI_E_SUCCESS)) with true. run.
      do 5 eexists. split; [reflexivity|]. split; [exact Hc2|]. apply (spec_bad_entry _ _ _ _ _ e x); eauto.
Qed.

(** ** SYSTEM_SUSPEND *)

Lemma last_loop_run ms rest mps js d l h v : ms !! i = Some Run -> Forall (fun j => (j < length ms)%nat) js ->
  exists b : bool, last_on_loop mpidr (map Z.of_nat js) (St d l h (sput (tree_of ms rest mps) v)) =
      (Ret b, St d l h (sput (tree_of ms rest mps) v)) /\
    (b = true <-> forall j m, j ∈ js -> j <> i -> ms !! j = Some m -> m = Down).
Proof.
  intros Hrun Hjs. induction Hjs as [|j js Hj _ IH]; simpl.
  { exists true. split; [done|]. split; [|done]. intros _ j m Hj. by apply not_elem_of_nil in Hj. }
  destruct IH as (b & E1 & Hb). rewrite Hme. destruct (Z.eqb_spec (Z.of_nat j) (Z.of_nat i)) as [Heq|Hne].
  - rewrite (my_aff_run caps spd mpidr i Hme _ ms rest mps Run) by done. cbn [aff_of].
    rewrite bool_decide_eq_true_2 by done. run. exists b. split; [exact E1|]. rewrite Hb.
    split; [intros H1 k m [->|Hk]%elem_of_cons Hki; [lia|eauto]|intros H1 k m Hk; apply H1; by right].
  - destruct (lookup_lt_is_Some_2 ms j Hj) as [m Hm].
    rewrite (aff_run caps spd _ ms rest mps j m) by done. destruct (decide (m = Down)) as [->|Hd].
    + rewrite bool_decide_eq_true_2 by done. exists b. split; [exact E1|]. rewrite Hb. split.
      * intros H1 k n [->|Hk]%elem_of_cons Hki Hn; [by simplify_eq|eauto].
      * intros H1 k n Hk. apply H1. by right.
    + rewrite bool_decide_eq_false_2 by by destruct m. exists false. split; [done|]. split; [done|].
      intros H1. destruct Hd. eapply H1; [by left|lia|done].
Qed.

Lemma last_on_run {B} (k : bool -> M V B) ms rest mps d l h v : length ms = 4%nat -> ms !! i = Some Run ->
  exists b, bind (psci_is_last_on_cpu mpidr) k (St d l h (sput (tree_of ms rest mps) v)) =
      k b (St d l h (sput (tree_of ms rest mps) v)) /\ (b = true <-> alone ms i).
Proof.
  intros Hl Hrun. unfold psci_is_last_on_cpu. prun.
  destruct (last_loop_run ms rest mps [0; 1; 2; 3]%nat d l h v Hrun) as (b & E1 & Hb).
  { rewrite Hl. repeat constructor; lia. }
  exists b. split.
  - rewrite <- (bind_run _ k _ _ _ E1). reflexivity.
  - rewrite Hb. unfold alone. split; [|naive_solver]. intros H1 j m Hji Hj. eapply H1; [|done..].
    apply lookup_lt_Some in Hj. destruct j as [|[|[|[|]]]]; [set_solver..|lia].
Qed.

Lemma system_suspend_run ms e x d l v : consistent ms v -> ms !! i = Some Run ->
  exists o d' l' v' ms', psci_system_suspend mpidr e x (St d l [] v) = (o, St d' l' [] v') /\
    consistent ms' v' /\
    spec entry_ok power_ok ms i (SystemSuspend e x)
      (match o with Ret r => Ret (u64 r) | Halt y => Halt y end) ms'.
Proof.
  intros Hcon Hrun. pose proof Hcon as [Hl (rest & mps & Hmps & Ht) _ _ Hup _ _].
  assert (Hsame : consistent ms (sput (tree_of ms rest mps) v)) by by rewrite <- (as_tree v _ Ht).
  rewrite (as_tree v _ Ht). unfold psci_system_suspend.
  match goal with |- context [bind (psci_is_last_on_cpu mpidr) ?k] =>
    destruct (last_on_run k ms rest mps d l [] v Hl Hrun) as (b & E1 & Hb) end. rewrite E1. clear E1.
  destruct b; cbn [negb].
  2:{ do 5 eexists. split; [reflexivity|]. split; [exact Hsame|]. apply spec_not_last. rewrite <- Hb. done. }
  assert (Ha : alone ms i) by by apply Hb.
  destruct (validate_entry_run up payload entry_ok power_ok mpidr i Hme Hi e x (tree_of ms rest mps) d l [] v
    eq_refl Hup (List.Forall_nil _)) as (rc & ep & d2 & l2 & v2 & E2 & Hup2 & Hs2 & Hp2 & Hr).
  rewrite (bind_run _ _ _ _ _ E2). clear E2.
  assert (Hc2 : consistent ms (sput (tree_of ms rest mps) v2)) 
    by (eapply (con_same up payload entry_ok power_ok); [done|exact Hcon|done..]).
  destruct Hr as [(-> & Hep & Hok)|[-> Hbad]].
  2:{ change (negb (PSCI_E_INVALID_ADDRESS =? PSCI_E_SUCCESS)) with true. run.
      do 5 eexists. split; [reflexivity|]. split; [exact Hc2|]. apply (spec_bad_entry _ _ _ _ _ e x); eauto. }
  change (negb (PSCI_E_SUCCESS =? PSCI_E_SUCCESS)) with false. cbn match.
  unfold psci_query_sys_suspend_pwrstate. rewrite run_bind_assoc. unfold tree_of at 1. rewrite pm_ops_run.
  fold (tree_of ms rest mps). pose proof (system_law i mpidr Hme Hi) as Hf. unfold hook in Hf.
  destruct (get_sys_suspend_power_state (plat_ops mpidr)) as [f|]; [|done].
  unfold is_set. rewrite bool_decide_eq_true_2 by done. cbn [deref]. run.
  change (repeat (uninit 0) _) with [uninit 0; uninit 0].
  destruct (hook_run up payload entry_ok power_ok _ _ (tree_of ms rest mps) d2 l2 [] v2 (Hf (uninit 0) (uninit 0)) Hup2
    (List.Forall_nil _)) as (si & d3 & l3 & v3 & E3 & Hup3 & Hs3 & Hp3 & ->). rewrite (bind_run _ _ _ _ _ E3).
  change (psci_find_target_suspend_lvl _ <? PLAT_MAX_PWR_LVL) with false. cbn match.
  change (psci_validate_suspend_req _ _ =? PSCI_E_SUCCESS) with true.
  change (is_local_state_off (pwr_domain_state _ PLAT_MAX_PWR_LVL)) with true. run.
  assert (Hc3 : consistent ms (sput (tree_of ms rest mps) v3)).
  { eapply (con_same up payload entry_ok power_ok); [done|exact Hcon|by etrans|done|by etrans]. }
  destruct (suspend_start_run true ms e x ep d3 l3 _ Hc3 Hrun ltac:(done) Hep)
    as (o & d4 & l4 & v4 & ms' & E4 & Hc4 & [[-> ->]|[-> ->]]).
  - change PLAT_MAX_PWR_LVL with (b2z true). change [PLAT_MAX_OFF_STATE; PLAT_MAX_OFF_STATE] with (states true).
    change PSTATE_TYPE_POWERDOWN with 1. rewrite (bind_run _ _ _ _ _ E4).
    do 5 eexists. split; [reflexivity|]. split; [exact Hc4|]. apply (spec_interrupted _ _ _ _ _ 0 e x); auto.
  - change PLAT_MAX_PWR_LVL with (b2z true). change [PLAT_MAX_OFF_STATE; PLAT_MAX_OFF_STATE] with (states true).
    change PSTATE_TYPE_POWERDOWN with 1. rewrite (bind_halt _ _ _ _ _ E4).
    do 5 eexists. split; [reflexivity|]. split; [exact Hc4|]. by apply spec_system.
Qed.

(** ** Waking up *)

(** The states that the tree holds for the processor. *)
Lemma target_states_run {B} (k : psci_power_state -> M V B) deep pc x0 ms rest mps d l h v : length mps = 4%nat ->
  ms !! i = Some (Asleep deep pc x0) -> exists s1,
  bind (psci_get_target_local_pwr_states mpidr (b2z deep) [PSCI_LOCAL_STATE_RUN; PSCI_LOCAL_STATE_RUN]) k
    (St d l h (sput (tree_of ms rest mps) v)) =
  k [PLAT_MAX_OFF_STATE; s1] (St d l h (sput (tree_of ms rest mps) v)).
Proof.
  intros Hmps Hn. destruct (lookup_lt_is_Some_2 mps i) as [m Hm]; [lia|].
  assert (Hd : map data_of ms !! i = Some (data_of (Asleep deep pc x0))) by by apply data_lookup.
  unfold tree_of. destruct deep; cbn [b2z].
  - eexists. by rewrite (get_target_run mpidr i Hme) with (c := data_of (Asleep true pc x0)) (m := m).
  - unfold psci_get_target_local_pwr_states, psci_get_cpu_local_state. run.
    rewrite (my_data_run mpidr i Hme) with (x := data_of (Asleep false pc x0)) by done. run.
    rewrite run_bind_awrite by done. run. rewrite (my_node_run mpidr i Hme) with (m := m) by done.
    change (steps (PSCI_CPU_PWR_LVL + 1) (0 + 1) 1) with (@nil Z). cbn [copy_from_nodes]. run.
    change (steps (Z.max (PSCI_CPU_PWR_LVL + 1) (0 + 1)) (PLAT_MAX_PWR_LVL + 1) 1) with [1]. cbn [fill_run]. run.
    rewrite run_bind_awrite by done. run. eexists. reflexivity.
Qed.

Lemma resume_level s1 : psci_find_max_off_lvl [PLAT_MAX_OFF_STATE; s1] <> PSCI_INVALID_PWR_LVL.
Proof.
  unfold psci_find_max_off_lvl. change (levels_down PLAT_MAX_PWR_LVL) with [1; 0]. cbn [List.find].
  change (pwr_domain_state [PLAT_MAX_OFF_STATE; s1] 1) with s1. by destruct (is_local_state_off s1).
Qed.

(** What is left of the suspend when the processor is back: no level. *)
Definition resumed : psci_cpu_data := PsciCpuData AFF_STATE_ON PSCI_INVALID_PWR_LVL PLAT_MAX_OFF_STATE.

Lemma suspend_finish_run deep ms rest mps pc x0 s1 d l v : length ms = 4%nat -> length mps = 4%nat ->
  ms !! i = Some (Asleep deep pc x0) -> ctx_ok (sget v) -> up v -> (spd = true -> payload i TosSuspended v) ->
  exists d' l' v',
    psci_cpu_suspend_finish mpidr (Z.of_nat i) [PLAT_MAX_OFF_STATE; s1]
      (St d l (locks deep) (sput (tree_of ms rest mps) v)) =
      (Ret tt, St d' l' (locks deep) (sput (tree (map state_of ms) (shallowest (map state_of ms)) rest mps
         (<[i := resumed]> (map data_of ms)) caps spd) v')) /\
    up v' /\ still v v' /\ (spd = true -> hands_over TosOn v v').
Proof.
  intros Hl Hmps Hn Hc Hup Hpl. set (T := tree_of ms rest mps).
  assert (Hd : map data_of ms !! i = Some (data_of (Asleep deep pc x0))) by by apply data_lookup.
  unfold psci_cpu_suspend_finish. unfold T at 1.
  rewrite (my_aff_run caps spd mpidr i Hme _ ms rest mps _ _ _ _ _ Hn). cbn [aff_of].
  rewrite bool_decide_eq_true_2 by done.
  change (is_local_state_off (pwr_domain_state [PLAT_MAX_OFF_STATE; s1] PSCI_CPU_PWR_LVL)) with true. run.
  unfold tree_of at 1. rewrite pm_ops_run. fold (tree_of ms rest mps). fold T.
  pose proof (suspend_finish_law i mpidr Hme Hi) as Hf. unfold hook in Hf.
  destruct (pwr_domain_suspend_finish (plat_ops mpidr)) as [f|]; [|done]. cbn [deref]. run.
  destruct (hook_run up payload entry_ok power_ok _ _ T d l _ v (Hf [PLAT_MAX_OFF_STATE; s1]) Hup (locks_psci deep))
    as ([] & d1 & l1 & v1 & E1 & Hup1 & Hs1 & Hp1 & _). rewrite (bind_run _ _ _ _ _ E1).
  destruct (hook_run up payload entry_ok power_ok _ _ T d1 l1 _ v1 freq_law Hup1 (locks_psci deep))
    as (fr & d2 & l2 & v2 & E2 & Hup2 & Hs2 & Hp2 & _). rewrite (bind_run _ _ _ _ _ E2).
  unfold write_sysreg. run. set (d3 := (hw_call _ _ _).2). set (l3 := _ :: l2).
  unfold T at 1, tree_of at 1. rewrite spd_hook_run. fold (tree_of ms rest mps). fold T.
  destruct (tos_run up payload spd mpidr i TosSuspended TosOn svc_suspend_finish tt (fun _ => True)
    (psci_find_max_off_lvl [PLAT_MAX_OFF_STATE; s1]) d3 l3 (locks deep) (sput T v2) (spd_resume_law i mpidr Hme Hi) I)
    as ([] & d4 & l4 & v4 & E4 & _ & Hup4 & Hq4 & Hp4);
    [by apply up_psci|apply locks_psci|intros Hs; by apply payload_psci, Hp2, Hp1, Hpl|].
  rewrite (proj2 (Z.eqb_neq _ _) (resume_level s1)).
  assert (Ha : forall o : option (Z -> M V unit),
    (match o with Some g => (c_assert (negb false) ;; g (psci_find_max_off_lvl [PLAT_MAX_OFF_STATE; s1]))
     | None => ret tt end) (St d3 l3 (locks deep) (sput T v2)) =
    (match o with Some g => g (psci_find_max_off_lvl [PLAT_MAX_OFF_STATE; s1]) | None => ret tt end)
      (St d3 l3 (locks deep) (sput T v2))) by (intros [g|]; by run).
  rewrite (bind_run _ _ _ _ _ (eq_trans (Ha _) E4)). destruct (quiet_up _ _ _ Hq4) as [Hs4 Hv4]. rewrite Hv4.
  unfold psci_set_suspend_pwrlvl, T, tree_of.
  rewrite (my_upd_run mpidr i Hme) with (x := data_of (Asleep deep pc x0)) by done.
  change (set_target_pwrlvl PSCI_INVALID_PWR_LVL (data_of (Asleep deep pc x0))) with resumed.
  match goal with |- context [sput ?T' v4] =>
    destruct (prepare_run i d4 l4 (locks deep) (sput T' v4)) as (d5 & l5 & r & E5) end.
  { run. by apply Hs4, Hs2, Hs1. }
  { done. }
  rewrite Hme, E5. do 3 eexists. split; [reflexivity|]. split; [done|].
  split; [etrans; [exact Hs1|]; etrans; [exact Hs2|exact Hs4]|].
  intros Hs. destruct (Hp4 Hs) as [Hb Ho]. split; [done|]. intros j b Hj Hpj.
  by apply Ho, payload_psci, Hp2, Hp1.
Qed.

(** Back to the run state, up to the level of the suspend. *)
Lemma back_to_run {B} (k : unit -> M V B) deep ms rest mps pc x0 d l h v : length ms = 4%nat -> length mps = 4%nat ->
  ms !! i = Some (Asleep deep pc x0) ->
  bind (psci_set_pwr_domains_to_run mpidr (b2z deep)) k
    (St d l h (sput (tree (map state_of ms) (shallowest (map state_of ms)) rest mps
       (<[i := resumed]> (map data_of ms)) caps spd) v)) =
  k tt (St d l h (sput (tree_of (<[i := Run]> ms) rest mps) v)).
Proof.
  intros Hl Hmps Hn. destruct (lookup_lt_is_Some_2 mps i) as [m Hm]; [lia|].
  assert (Hd : <[i := resumed]> (map data_of ms) !! i = Some resumed)
    by (apply list_lookup_insert_eq; rewrite length_map; lia).
  assert (Hrun : <[i := Run]> ms !! i = Some Run) by (apply list_lookup_insert_eq; lia).
  rewrite <- (tree_runs caps spd (<[i := Run]> ms) rest mps i Run Hrun eq_refl). destruct deep; cbn [b2z].
  - rewrite (to_run_run mpidr i Hme Hi) with (m := m) (x := resumed); rewrite ?length_insert, ?length_map; try done.
    rewrite list_insert_insert_eq. change (PsciCpuData AFF_STATE_ON (target_pwrlvl resumed) 0) with (data_of Run).
    by rewrite <- data_insert, state_insert.
  - assert (Hrow : map state_of ms !! i = Some PSCI_LOCAL_STATE_RUN) by by rewrite list_lookup_fmap, Hn.
    rewrite (shallowest_run ms i (Asleep false pc x0)) by done.
    unfold psci_set_pwr_domains_to_run, psci_set_aff_info_state, psci_set_aff_info_state_by_idx, psci_set_cpu_local_state.
    run. rewrite (my_node_run mpidr i Hme) with (m := m) by done.
    change (steps (PSCI_CPU_PWR_LVL + 1) (0 + 1) 1) with (@nil Z). cbn [run_loop]. run.
    rewrite (my_upd_run mpidr i Hme) with (x := resumed) by done.
    rewrite (my_upd_run mpidr i Hme) with (x := set_aff AFF_STATE_ON resumed)
      by (apply list_lookup_insert_eq; rewrite length_insert, length_map; lia).
    rewrite !list_insert_insert_eq.
    change (set_local_state PSCI_LOCAL_STATE_RUN (set_aff AFF_STATE_ON resumed)) with (data_of Run).
    rewrite <- data_insert, state_insert. by rewrite (list_insert_id (map state_of ms)).
Qed.

(** The warm boot goes up to the level of the suspend. *)
Lemma level_run {B} (k : Z -> M V B) deep pc x0 ms rest mps d l h v : ms !! i = Some (Asleep deep pc x0) ->
  bind (get_power_on_target_pwrlvl mpidr) k (St d l h (sput (tree_of ms rest mps) v)) =
  k (b2z deep) (St d l h (sput (tree_of ms rest mps) v)).
Proof.
  intros Hn. unfold get_power_on_target_pwrlvl, psci_get_suspend_pwrlvl, tree_of. run.
  rewrite (my_data_run mpidr i Hme) with (x := data_of (Asleep deep pc x0)) by by apply data_lookup.
  by destruct deep.
Qed.

(** A suspended processor that is woken resumes where it was told to. *)
Lemma resume_run deep ms pc x0 d l v : consistent ms v -> ms !! i = Some (Asleep deep pc x0) ->
  exists d' l' v', psci_warmboot_entrypoint mpidr (St d l [] v) = (Ret tt, St d' l' [] v') /\
    consistent (<[i := Run]> ms) v' /\
    exists x, ns_context (sget v') i = Some x /\ leads_to pc x0 x /\ routes 1 (sget v') x.
Proof.
  intros Hcon Hn. pose proof Hcon as [Hl (rest & mps & Hmps & Ht) Hc Hw Hup Hpl Hen]. rewrite (as_tree v _ Ht).
  assert (Hd : map data_of ms !! i = Some (data_of (Asleep deep pc x0))) by by apply data_lookup.
  unfold psci_warmboot_entrypoint. rewrite (my_aff_run caps spd mpidr i Hme _ ms rest mps _ _ _ _ _ Hn).
  cbn [aff_of]. rewrite bool_decide_eq_false_2 by done.
  rewrite (level_run _ deep pc x0) by done.
  rewrite nodes_run by done. run.
  match goal with |- context [bind (psci_acquire_pwr_domain_locks _ _) ?k] =>
    destruct (lock_run k deep ms rest mps d l v) as [l1 E1] end. rewrite E1. clear E1.
  change (repeat PSCI_LOCAL_STATE_RUN _) with [PSCI_LOCAL_STATE_RUN; PSCI_LOCAL_STATE_RUN].
  match goal with |- context [bind (psci_get_target_local_pwr_states _ _ _) ?k] =>
    destruct (target_states_run k deep pc x0 ms rest mps d l1 (locks deep) v Hmps Hn) as [s1 E1] end. rewrite E1. clear E1.
  rewrite (my_aff_run caps spd mpidr i Hme _ ms rest mps _ _ _ _ _ Hn). cbn [aff_of].
  rewrite bool_decide_eq_false_2 by done. rewrite Hme.
  destruct (suspend_finish_run deep ms rest mps pc x0 s1 d l1 v Hl Hmps Hn Hc Hup)
    as (d2 & l2 & v2 & E2 & Hup2 & Hs2 & Hp2); [by intros Hs; apply (Hpl Hs i _ Hn)|].
  rewrite (bind_run _ _ _ _ _ E2). rewrite (back_to_run _ deep ms rest mps pc x0) by done.
  rewrite <- (last_bind (psci_release_pwr_domain_locks _ _)).
  match goal with |- context [bind (psci_release_pwr_domain_locks _ _) ?k] =>
    destruct (unlock_run k deep (<[i := Run]> ms) rest mps d2 l2 v2) as [l3 E3] end. rewrite E3.
  do 3 eexists. split; [reflexivity|].
  split.
  { apply (con_psci up payload entry_ok power_ok caps spd ms) with (v := v); [by rewrite length_insert|done..| |].
    - by eapply mode_payload.
    - by apply entry_insert. }
  destruct (Hen _ _ _ _ Hn eq_refl) as (x & Hx & Hlead & Hr). destruct Hs2 as (HI & _ & HN).
  exists x. run. by rewrite HN, HI.
Qed.

(** ** The calls *)

Lemma suspend_call ms ps e x d l v : consistent ms v -> ms !! i = Some Run ->
  exists o d' l' v' ms', smc mpidr (CpuSuspend ps e x) (St d l [] v) = (o, St d' l' [] v') /\
    consistent ms' v' /\ spec entry_ok power_ok ms i (CpuSuspend ps e x) o ms'.
Proof.
  intros Hcon Hrun. pose proof Hcon as [_ (rest & mps & _ & Ht) _ _ _ _ _].
  destruct (cpu_suspend_run ms ps e x d l v Hcon Hrun) as (o & d1 & l1 & v1 & ms' & E1 & Hc1 & Hspec).
  do 5 eexists. split; [|split; [exact Hc1|exact Hspec]]. cbn [smc].
  rewrite (as_tree v _ Ht), (handler_run caps spd Hcaps) by set_solver. rewrite <- (as_tree v _ Ht).
  change (psci_smc64 mpidr PSCI_CPU_SUSPEND_AARCH64 ps e x) with (psci_cpu_suspend mpidr (u32 ps) e x).
  change (GET_SMC_CC PSCI_CPU_SUSPEND_AARCH64 =? SMC_32) with false. cbn match.
  destruct o; [by rewrite (bind_run _ _ _ _ _ E1)|by apply bind_halt].
Qed.

Lemma system_call ms e x d l v : consistent ms v -> ms !! i = Some Run ->
  exists o d' l' v' ms', smc mpidr (SystemSuspend e x) (St d l [] v) = (o, St d' l' [] v') /\
    consistent ms' v' /\ spec entry_ok power_ok ms i (SystemSuspend e x) o ms'.
Proof.
  intros Hcon Hrun. pose proof Hcon as [_ (rest & mps & _ & Ht) _ _ _ _ _].
  destruct (system_suspend_run ms e x d l v Hcon Hrun) as (o & d1 & l1 & v1 & ms' & E1 & Hc1 & Hspec).
  do 5 eexists. split; [|split; [exact Hc1|exact Hspec]]. cbn [smc].
  rewrite (as_tree v _ Ht), (handler_run caps spd Hcaps) by set_solver. rewrite <- (as_tree v _ Ht).
  change (psci_smc64 mpidr PSCI_SYSTEM_SUSPEND_AARCH64 e x 0) with (psci_system_suspend mpidr e x).
  change (GET_SMC_CC PSCI_SYSTEM_SUSPEND_AARCH64 =? SMC_32) with false. cbn match.
  destruct o; [by rewrite (bind_run _ _ _ _ _ E1)|by apply bind_halt].
Qed.

End Refinement.
End Suspend.
