(* ===== verification/PsciPlat.v ===== *)
(** * The platform's side of PSCI

    plat/xilinx/zynqmp/plat_psci.c, plat_topology.c and the functions of
    aarch64/zynqmp_common.c that PSCI uses.  Powering a processor up or down is a
    request to the PMU; these hooks are the table [plat_psci_ops] of this
    platform. *)

From S2P Require Import Prelude Machine Trace Gic IntrMgmt Swdt Ipi PmDefs PmIpi PmReq PmClient PmApi.
From S2P Require Import CtxMgmt Psci Cci.
Import Gic IntrMgmt Ipi PmDefs PmIpi PmReq PmClient PmApi CtxMgmt Psci Cci.
#[local] Open Scope Z_scope.
#[local] Open Scope c_scope.

Module PsciPlat.

Definition PM_PROC_STATE_SUSPENDING : Z := 3.
Definition ZYNQMP_CSU_BASEADDR : Z := 0xFFCA0000.
Definition ZYNQMP_CSU_VERSION_OFFSET : Z := 0x44.
Definition ZYNQMP_SILICON_VER_MASK : Z := 0xF000.
Definition ZYNQMP_SILICON_VER_SHIFT : Z := 12.
Definition ZYNQMP_CSU_VERSION_QEMU : Z := 3.
Definition IOU_SCNTRS_BASEFREQ : Z := 0xFF260020.

(** plat_topology.c: one cluster of four processors *)
Definition plat_power_domain_tree_desc : list Z := [1; 4].

(** [zynqmp_sec_entry] of plat_psci.c and the static [ver] of
    [zynqmp_get_silicon_ver]. *)
Record plat_vars := PlatVars { zynqmp_sec_entry : Z; silicon_ver : Z }.

Section Ops.
Context `{Env} {V : Type} `{!Has ipi V} `{!Has pm V} `{!Has gic V} `{!Has intr_mgmt V}
  `{!Has Swdt.swdt V} `{!Has cci V} `{!Has ctx_vars V} `{!Has psci V} `{!Has plat_vars V}.

Definition zynqmp_get_silicon_ver : M V Z :=
  ver <- gets silicon_ver ;;
  (if ver =? 0 then
     ver <- mmio_read_32 (ZYNQMP_CSU_BASEADDR + ZYNQMP_CSU_VERSION_OFFSET) ;;
     mods (fun v => PlatVars (zynqmp_sec_entry v)
       ((ver .& ZYNQMP_SILICON_VER_MASK) .>> ZYNQMP_SILICON_VER_SHIFT))
   else ret tt) ;;
  gets silicon_ver.

Definition zynqmp_get_uart_clk : M V Z :=
  ver <- zynqmp_get_silicon_ver ;;
  ret (if ver =? ZYNQMP_CSU_VERSION_QEMU then 133000000 else 100000000).

Definition zynqmp_get_syscnt_freq2 : M V Z :=
  ver <- zynqmp_get_silicon_ver ;;
  if ver =? ZYNQMP_CSU_VERSION_QEMU then ret 65000000 else mmio_read_32 IOU_SCNTRS_BASEFREQ.

Definition zynqmp_cpu_standby (cpu_state : Z) : M V unit := barrier ;; emit EvWfi.

Definition zynqmp_pwr_domain_on (mpidr : Z) : M V Z :=
  let cpu_id := u32 (plat_core_pos_by_mpidr mpidr) in
  if cpu_id =? u32 (-1) then ret PSCI_E_INTERN_FAIL
  else
    let proc := pm_get_proc cpu_id in
    p <- deref proc ;;
    let* (r, buff) := pm_get_node_status (node_id p) [uninit 0; uninit 1; uninit 2] in
    status <- aread buff 0 ;;
    if negb (r =? PM_RET_SUCCESS) || (status =? PM_PROC_STATE_SUSPENDING) then ret PSCI_E_INTERN_FAIL
    else
      pm_client_wakeup p ;;
      entry <- gets zynqmp_sec_entry ;;
      _ <- pm_req_wakeup (node_id p) 1 entry REQ_ACK_BLOCKING ;;
      ret PSCI_E_SUCCESS.

Definition zynqmp_pwr_domain_off (mpidr_el1 : Z) (target_state : psci_power_state) : M V unit :=
  let proc := pm_get_proc (plat_my_core_pos mpidr_el1) in
  gicv2_cpuif_disable ;;
  p <- deref proc ;;
  _ <- pm_self_suspend mpidr_el1 (node_id p) MAX_LATENCY PM_STATE_CPU_IDLE 0 ;;
  ret tt.

Definition zynqmp_pwr_domain_suspend (mpidr_el1 : Z) (target_state : psci_power_state) : M V unit :=
  let proc := pm_get_proc (plat_my_core_pos mpidr_el1) in
  let off := pwr_domain_state target_state 1 >? PLAT_MAX_RET_STATE in
  let state := if off then PM_STATE_SUSPEND_TO_RAM else PM_STATE_CPU_IDLE in
  p <- deref proc ;;
  entry <- gets zynqmp_sec_entry ;;
  _ <- pm_self_suspend mpidr_el1 (node_id p) MAX_LATENCY state entry ;;
  if off then plat_arm_interconnect_exit_coherency mpidr_el1 else ret tt.

Definition zynqmp_pwr_domain_on_finish (mpidr_el1 : Z) (target_state : psci_power_state) : M V unit :=
  plat_arm_gic_pcpu_init mpidr_el1 ;;
  gicv2_cpuif_enable.

Definition zynqmp_pwr_domain_suspend_finish (mpidr_el1 : Z) (target_state : psci_power_state)
    : M V unit :=
  let proc := pm_get_proc (plat_my_core_pos mpidr_el1) in
  p <- deref proc ;;
  pm_client_wakeup p ;;
  plat_arm_interconnect_enter_coherency mpidr_el1 ;;
  if pwr_domain_state target_state 1 >? PLAT_MAX_RET_STATE then plat_arm_gic_init mpidr_el1
  else gicv2_cpuif_enable ;; gicv2_pcpu_distif_init.

Definition zynqmp_system_off (mpidr_el1 : Z) : M V unit :=
  plat_arm_interconnect_exit_coherency mpidr_el1 ;;
  scope <- pm_get_shutdown_scope ;;
  _ <- pm_system_shutdown PMF_SHUTDOWN_TYPE_SHUTDOWN scope ;;
  park.

Definition zynqmp_system_reset (mpidr_el1 : Z) : M V unit :=
  plat_arm_interconnect_exit_coherency mpidr_el1 ;;
  scope <- pm_get_shutdown_scope ;;
  _ <- pm_system_shutdown PMF_SHUTDOWN_TYPE_RESET scope ;;
  park.

(** The array of states is written also when the request is refused. *)
Definition zynqmp_validate_power_state (power_state : Z) (req_state : psci_power_state)
    : M V (Z * psci_power_state) :=
  let pstate := psci_get_pstate_type power_state in
  req_state <- awrite req_state 0
    (if pstate =? PSTATE_TYPE_STANDBY then PLAT_MAX_RET_STATE else PLAT_MAX_OFF_STATE) ;;
  ret (if truthy (psci_get_pstate_id power_state) then PSCI_E_INVALID_PARAMS else PSCI_E_SUCCESS,
       req_state).

Definition zynqmp_validate_ns_entrypoint (ns_entrypoint : Z) : M V Z := ret PSCI_E_SUCCESS.

Definition zynqmp_get_sys_suspend_power_state (req_state : psci_power_state) : M V psci_power_state :=
  req_state <- awrite req_state PSCI_CPU_PWR_LVL PLAT_MAX_OFF_STATE ;;
  awrite req_state 1 PLAT_MAX_OFF_STATE.

Definition zynqmp_psci_ops (mpidr_el1 : Z) : plat_psci_ops V := {|
  cpu_standby := Some zynqmp_cpu_standby;
  pwr_domain_on := Some zynqmp_pwr_domain_on;
  pwr_domain_off := Some (zynqmp_pwr_domain_off mpidr_el1);
  pwr_domain_suspend_pwrdown_early := None;
  pwr_domain_suspend := Some (zynqmp_pwr_domain_suspend mpidr_el1);
  pwr_domain_on_finish := Some (zynqmp_pwr_domain_on_finish mpidr_el1);
  pwr_domain_on_finish_late := None;
  pwr_domain_suspend_finish := Some (zynqmp_pwr_domain_suspend_finish mpidr_el1);
  pwr_domain_pwr_down_wfi := None;
  system_off := Some (zynqmp_system_off mpidr_el1);
  system_reset := Some (zynqmp_system_reset mpidr_el1);
  validate_power_state := Some zynqmp_validate_power_state;
  validate_ns_entrypoint := Some zynqmp_validate_ns_entrypoint;
  get_sys_suspend_power_state := Some zynqmp_get_sys_suspend_power_state;
  get_node_hw_state := None;
  mem_protect_chk := None;
  read_mem_protect := None;
  write_mem_protect := None;
  system_reset2 := None
|}.

Definition zynqmp_setup_psci_ops (sec_entrypoint : Z) : M V Z :=
  mods (fun v => PlatVars sec_entrypoint (silicon_ver v)) ;;
  ret 0.

#[export] Instance zynqmp_plat : PlatOps V := {
  plat_ops := zynqmp_psci_ops;
  plat_get_power_domain_tree_desc := plat_power_domain_tree_desc;
  plat_get_syscnt_freq2 := zynqmp_get_syscnt_freq2;
  plat_setup_psci_ops := zynqmp_setup_psci_ops
}.

End Ops.
End PsciPlat.
