(* ===== verification/PsciLaws.v ===== *)
(** * The platform keeps PSCI's contract

    The hooks of [PsciPlat] satisfy [Hotplug.Hooks], whatever the PMU answers,
    when the interconnect finishes the changes of its snoop control: on a booted
    image they return, leave PSCI's statics and the contexts alone, and keep the
    image booted. *)

From S2P Require Import Prelude Machine Trace Gic IntrMgmt Swdt Ipi PmDefs PmIpi PmReq PmClient PmApi PmTotal.
From S2P Require Import CtxMgmt Psci Cci CtxFacts Hotplug PsciPlat.
Import Gic IntrMgmt Ipi PmDefs PmIpi PmReq PmClient PmApi PmTotal CtxMgmt Psci Cci CtxFacts Hotplug PsciPlat.
#[local] Open Scope Z_scope.
#[local] Open Scope c_scope.

Module PsciLaws.

Section Laws.
Context `{Env} {V : Type} `{!Has ipi V} `{!Has pm V} `{!Has gic V} `{!Has intr_mgmt V}
  `{!Has Swdt.swdt V} `{!Has cci V} `{!Has ctx_vars V} `{!Has psci V} `{!Has plat_vars V}.
Context `{!Indep ipi psci V} `{!Indep pm psci V} `{!Indep gic psci V}.
Context `{!Indep ipi ctx_vars V} `{!Indep pm ctx_vars V} `{!Indep gic ctx_vars V}.
Context `{!Indep ipi plat_vars V} `{!Indep pm plat_vars V} `{!Indep gic plat_vars V}
  `{!Indep psci plat_vars V} `{!Indep intr_mgmt plat_vars V} `{!Indep ctx_vars plat_vars V}.
Context `{!Indep ipi gic V} `{!Indep pm gic V} `{!Indep psci gic V} `{!Indep intr_mgmt gic V}
  `{!Indep ctx_vars gic V}.
Context `{!Indep cci psci V} `{!Indep cci ctx_vars V} `{!Indep cci plat_vars V} `{!Indep cci gic V}.
Context (Hans : pmu_answers) (Hcci : cci_answers).
Implicit Types (d : Dev) (l : list event) (h : list lock_id) (v : V).

(** The interrupt controller is set up and its table of processor masks has its
    entries. *)
Definition gic_up (v : V) : Prop :=
  ready PLAT_ARM_GICD_BASE arm_gic_data v /\ 4 <= Z.of_nat (length (target_mask_array (sget v))).

(** The image is booted, with its interrupt controller and its interconnect. *)
Definition plat_up (v : V) : Prop := image_up v /\ gic_up v /\ cci_ready (sget v).

Lemma psci_locks_free h : Forall psci_lock h -> locks_free h.
Proof. intros Hh. rewrite Forall_forall in Hh. split; intros Hin%list_elem_of_In; apply (Hh _ Hin). Qed.

Lemma quiet_refl v : quiet v v.
Proof. by split. Qed.

(** Computations that leave the statics as they are. *)
Lemma settles_keeps {A} (Q : A -> Prop) (m : M V A) (post : A -> V -> V -> Prop) :
  (forall v, plat_up v -> keeps Q v m) -> (forall a v, Q a -> post a v v) ->
  settles plat_up (fun _ => True) m post.
Proof.
  intros Hm HQ d l h v Hv Hh _. destruct (Hm v Hv d l h (psci_locks_free h Hh)) as (a & d' & new & E & Ha).
  unfold returns. rewrite E. simpl. split; [done|]. split; [done|]. split; [apply quiet_refl|auto].
Qed.

Lemma keeps_calm {A} (m : M V A) v : calm m -> respects (grows (fun _ => True)) m -> keeps (fun _ => True) v m.
Proof.
  intros Hm Hg d l h _. specialize (Hm (St d l h v)). specialize (Hg (St d l h v)).
  apply returns_run in Hm as (a & [d' l' h' v'] & E & Hv & Hh). simpl in Hv, Hh. subst.
  destruct Hg as (new & Hl & _). rewrite E in Hl. simpl in Hl. subst. by exists a, d', new.
Qed.

Lemma node_status_keeps nid buff v : image_up v -> length buff = 3%nat ->
  keeps (fun r => length r.2 = 3%nat) v (pm_get_node_status nid buff).
Proof.
  intros (Hi & _) Hb d l h [Hh _]. unfold pm_get_node_status, sync_out.
  destruct (send_sync_served (PM_PACK_PAYLOAD [PM_GET_NODE_STATUS; nid]) (length buff) 3 d l h v Hi Hans)
    as (r & ws & d' & new & E & Hlen & _); [apply payload_length; simpl; lia|done|lia|lia|].
  rewrite (bind_run _ _ _ _ _ E). eexists _, d', new. split; [reflexivity|].
  simpl. rewrite length_app, length_drop. lia.
Qed.

Lemma on_keeps target v : plat_up v ->
  keeps (fun rc => rc = PSCI_E_SUCCESS \/ rc = PSCI_E_INTERN_FAIL) v (zynqmp_pwr_domain_on target).
Proof.
  intros (Hv & _). unfold zynqmp_pwr_domain_on. destruct (core_pos target) as [->|(n & Hn & ->)].
  { apply keeps_ret. by right. }
  assert (u32 (Z.of_nat n) = Z.of_nat n) as -> by (apply u32_small; lia).
  rewrite (proj2 (Z.eqb_neq (Z.of_nat n) (u32 (-1)))) by (change (u32 (-1)) with 0xFFFFFFFF; lia).
  unfold pm_get_proc. change (Z.of_nat (length pm_procs_all)) with 4.
  rewrite (proj2 (Z.ltb_lt (Z.of_nat n) 4)) by lia. rewrite Nat2Z.id.
  destruct (lookup_lt_is_Some_2 pm_procs_all n) as [p ->]; [exact Hn|]. cbn [deref].
  eapply (keeps_bind (fun _ => True)); [by apply keeps_ret|intros q _].
  eapply keeps_bind; [by apply node_status_keeps|]. intros [r buff] Hb. simpl in Hb.
  destruct buff as [|status buff]; [done|].
  eapply (keeps_bind (fun _ => True)); [by apply keeps_ret|intros x _].
  bool_case; [apply keeps_ret; by right|].
  eapply (keeps_bind (fun _ => True)); [apply wakeup_keeps|intros _ _].
  intros d l h Hh. rewrite run_bind_gets. revert d l h Hh.
  eapply (keeps_bind (fun _ => True)); [|intros _ _; apply keeps_ret; by left].
  apply keeps_served. by apply (served_send_ack v (proj1 Hv) Hans any_trace); [apply accepts_any|simpl; lia].
Qed.

Lemma my_proc i mpidr : plat_my_core_pos mpidr = Z.of_nat i -> (i < 4)%nat ->
  exists p, pm_get_proc (plat_my_core_pos mpidr) = Some p.
Proof.
  intros Hme Hi. unfold pm_get_proc. rewrite Hme. change (Z.of_nat (length pm_procs_all)) with 4.
  rewrite (proj2 (Z.ltb_lt (Z.of_nat i) 4)) by lia. rewrite Nat2Z.id.
  destruct (lookup_lt_is_Some_2 pm_procs_all i) as [p ->]; [exact Hi|]. by exists p.
Qed.

Lemma off_keeps i mpidr state v : plat_my_core_pos mpidr = Z.of_nat i -> (i < 4)%nat -> plat_up v ->
  keeps (fun _ => True) v (zynqmp_pwr_domain_off mpidr state).
Proof.
  intros Hme Hi (Hv & _). unfold zynqmp_pwr_domain_off.
  eapply (keeps_bind (fun _ => True)).
  { intros d l h _. unfold gicv2_cpuif_disable.
    rewrite (bind_run _ _ _ _ _ (with_gicc_run _ _ d l h v (proj2 (proj2 Hv)))).
    unfold gicc_read_ctlr, gicc_write_ctlr. run. eexists tt, _, [_; _]. by split. }
  intros _ _. destruct (my_proc i mpidr Hme Hi) as [p ->]. cbn [deref].
  eapply (keeps_bind (fun _ => True)); [by apply keeps_ret|intros q _].
  eapply (keeps_bind (fun _ => True)); [|intros _ _; by apply keeps_ret].
  apply self_suspend_keeps; [done|rewrite Hme; lia|done].
Qed.

(** ** The interrupt controller of a processor that comes up *)

Lemma calm_run {A} (m : M V A) d l h v : calm m -> exists a d' l', m (St d l h v) = (Ret a, St d' l' h v).
Proof.
  intros Hm. destruct (returns_run _ _ _ (Hm (St d l h v))) as (a & [d1 l1 h1 v1] & E1 & Hv & Hh).
  simpl in Hv, Hh. subst. by exists a, d1, l1.
Qed.

Lemma bind_split {A B} (m : M V A) (k : A -> M V B) s b s' :
  bind m k s = (Ret b, s') <-> exists a s1, m s = (Ret a, s1) /\ k a s1 = (Ret b, s').
Proof.
  unfold bind. destruct (m s) as [[a|x] s1]; split.
  - intros Hk. by exists a, s1.
  - by intros (a' & s1' & [= <- <-] & Hk).
  - done.
  - by intros (a' & s1' & ? & _).
Qed.

Lemma calm_for_each {A} (xs : list A) (body : A -> M V unit) :
  (forall x, calm (body x)) -> calm (for_each xs body).
Proof. intros Hb. induction xs; simpl; [apply calm_ret|by apply calm_bind]. Qed.

Lemma calm_assert b : b = true -> calm (V := V) (c_assert b).
Proof. intros ->. apply calm_ret. Qed.

Lemma calm_pure {A B} (m : M V A) (k : A -> M V B) a :
  (forall s, m s = (Ret a, s)) -> calm (k a) -> calm (bind m k).
Proof. intros Hm Hk s. unfold returns. rewrite (bind_run _ _ _ _ _ (Hm s)). apply Hk. Qed.

Lemma calm_priority base id pri : calm (V := V) (gicd_set_ipriorityr base id pri).
Proof. unfold gicd_set_ipriorityr. calm_walk. Qed.
Lemma calm_icfgr base id cfg : calm (V := V) (gicd_set_icfgr base id cfg).
Proof. unfold gicd_set_icfgr, gicd_read_icfgr, gicd_write_icfgr. calm_walk. Qed.

Lemma calm_ppi_loop base ps : Forall (fun q => intr_grp q = GICV2_INTR_GROUP0) ps -> forall mask,
  calm (V := V) (sec_ppi_sgi_loop base ps mask).
Proof.
  intros Hps. induction Hps as [|q ps Hq _ IH]; intros mask; simpl; [apply calm_ret|].
  apply calm_if; [apply IH|]. apply calm_bind; [apply calm_assert; by rewrite Hq|intros _].
  apply calm_bind; [apply calm_if; [apply calm_icfgr|apply calm_ret]|intros _].
  apply calm_bind; [apply calm_priority|intros _]. apply IH.
Qed.

Lemma calm_ppi_setup : calm (V := V)
  (gicv2_secure_ppi_sgi_setup_props PLAT_ARM_GICD_BASE (Some arm_interrupt_props) 10).
Proof.
  unfold gicv2_secure_ppi_sgi_setup_props.
  apply (calm_pure (props_of (Some arm_interrupt_props) 10) _ arm_interrupt_props); [reflexivity|].
  apply calm_bind; [unfold gicd_write_icenabler; calm_walk|intros _].
  apply calm_bind; [apply calm_for_each; intros x; unfold gicd_write_ipriorityr; calm_walk|intros _].
  apply calm_bind; [apply calm_ppi_loop; by repeat constructor|intros mask].
  unfold gicd_write_igroupr, gicd_write_isenabler. calm_walk.
Qed.

(** Of the statics only the table of masks changes. *)
Definition new_masks v v' : Prop :=
  exists masks, 4 <= Z.of_nat (length masks) /\ v' = sput (set_target_mask_array masks (sget v)) v.

Lemma new_masks_gic v v' : gic_up v -> new_masks v v' -> gic_up v'.
Proof.
  intros [Hg _] (masks & Hl & ->). unfold gic_up, ready in *. autorewrite with run. by split.
Qed.

Lemma new_masks_ok v v' : plat_up v -> new_masks v v' -> plat_up v' /\ quiet v v'.
Proof.
  intros ((Hi & Hm & Hg) & Hg' & Hc) Hn. pose proof (new_masks_gic v v' Hg' Hn) as Hg2. destruct Hn as (masks & Hl & ->).
  split; [|by unfold quiet, still; autorewrite with run]. split; [|split; [done|by autorewrite with run]].
  split; [by autorewrite with run|]. split; [by autorewrite with run|apply Hg2].
Qed.

(** The part of the distributor that each processor has. *)
Lemma pcpu_distif_run d l h v : gic_up v -> exists d' l',
  gicv2_pcpu_distif_init (St d l h v) = (Ret tt, St d' l' h v).
Proof.
  intros [Hg _]. unfold gicv2_pcpu_distif_init. rewrite (bind_run _ _ _ _ _ (with_gicd_run _ _ d l h v Hg)). run.
  destruct (calm_run _ d l h v calm_ppi_setup) as ([] & d1 & l1 & E1).
  cbn [arm_gic_data gicd_base interrupt_props interrupt_props_num].
  rewrite (bind_run _ _ _ _ _ E1). unfold gicd_read_ctlr, gicd_write_ctlr. run. bool_case; run; by do 2 eexists.
Qed.

Lemma target_mask_run i mpidr d l h v : plat_my_core_pos mpidr = Z.of_nat i -> (i < 4)%nat -> gic_up v ->
  exists d' l' v', gicv2_set_pe_target_mask (plat_my_core_pos mpidr) (St d l h v) = (Ret tt, St d' l' h v') /\
    new_masks v v'.
Proof.
  intros Hme Hi [Hg Hm]. unfold gicv2_set_pe_target_mask.
  rewrite (bind_run _ _ _ _ _ (with_gicd_run _ _ d l h v Hg)), Hme.
  cbn [arm_gic_data target_masks target_masks_num gicd_base].
  rewrite (proj2 (Z.ltb_lt (Z.of_nat i) GICV2_MAX_TARGET_PE)) by (unfold GICV2_MAX_TARGET_PE; lia).
  rewrite (proj2 (Z.ltb_lt (Z.of_nat i) 4)) by lia. run.
  destruct (lookup_lt_is_Some_2 (target_mask_array (sget v)) i) as [mask Hmask]; [lia|].
  rewrite (run_bind_aread_nat _ _ mask) by done. bool_case.
  - run. do 3 eexists. split; [reflexivity|]. exists (target_mask_array (sget v)). split; [done|].
    destruct (sget (S := gic) v) as [dd ta] eqn:Es. unfold set_target_mask_array. simpl. by rewrite <- Es, sput_sget.
  - unfold gicv2_get_cpuif_id, gicd_read_itargetsr. run.
    rewrite run_bind_awrite_nat by lia. run. do 3 eexists. split; [reflexivity|]. eexists. split; [|reflexivity].
    by rewrite length_insert.
Qed.

Lemma gicc_on_run d l h v : gic_up v -> exists d' l', gicv2_cpuif_enable (St d l h v) = (Ret tt, St d' l' h v).
Proof.
  intros [Hg _]. unfold gicv2_cpuif_enable. rewrite (bind_run _ _ _ _ _ (with_gicc_run _ _ _ _ _ _ Hg)).
  unfold gicc_write_pmr, gicc_write_ctlr. run. by do 2 eexists.
Qed.

Lemma on_finish_settles i mpidr state (post : unit -> V -> V -> Prop) :
  plat_my_core_pos mpidr = Z.of_nat i -> (i < 4)%nat -> (forall v v', new_masks v v' -> post tt v v') ->
  settles plat_up (fun _ => True) (zynqmp_pwr_domain_on_finish mpidr state) post.
Proof.
  intros Hme Hi Hpost d l h v Hv _ _. unfold zynqmp_pwr_domain_on_finish, plat_arm_gic_pcpu_init, returns.
  destruct (pcpu_distif_run d l h v (proj1 (proj2 Hv))) as (d1 & l1 & E1).
  rewrite run_bind_assoc, (bind_run _ _ _ _ _ E1).
  destruct (target_mask_run i mpidr d1 l1 h v Hme Hi (proj1 (proj2 Hv))) as (d2 & l2 & v2 & E2 & Hn).
  destruct (new_masks_ok v v2 Hv Hn) as [Hup Hq]. rewrite (bind_run _ _ _ _ _ E2).
  destruct (gicc_on_run d2 l2 h v2 (proj1 (proj2 Hup))) as (d3 & l3 & ->). simpl. auto.
Qed.

(** ** The whole controller, for the processor that boots and after a suspend *)

(** The configuration of the distributor touches no statics. *)
Lemma calm_spis ps : Forall (fun q => intr_grp q = GICV2_INTR_GROUP0) ps ->
  calm (V := V) (for_each ps (fun q =>
    if intr_num q <? MIN_SPI_ID then ret tt
    else
      c_assert (intr_grp q =? GICV2_INTR_GROUP0) ;;
      gicd_clr_igroupr PLAT_ARM_GICD_BASE (intr_num q) ;;
      gicd_set_ipriorityr PLAT_ARM_GICD_BASE (intr_num q) (intr_pri q) ;;
      me <- gicv2_get_cpuif_id PLAT_ARM_GICD_BASE ;;
      gicd_set_itargetsr PLAT_ARM_GICD_BASE (intr_num q) me ;;
      gicd_set_icfgr PLAT_ARM_GICD_BASE (intr_num q) (intr_cfg q) ;;
      gicd_set_isenabler PLAT_ARM_GICD_BASE (intr_num q))).
Proof.
  induction 1 as [|q ps Hq _ IH]; simpl; [apply calm_ret|]. apply calm_bind; [|intros _; exact IH].
  apply calm_if; [apply calm_ret|]. apply calm_bind; [apply calm_assert; by rewrite Hq|intros _].
  unfold gicd_clr_igroupr, gicd_read_igroupr, gicd_write_igroupr, gicv2_get_cpuif_id, gicd_read_itargetsr,
    gicd_set_itargetsr, gicd_set_isenabler, gicd_write_isenabler.
  repeat (apply calm_bind; [first [apply calm_priority|apply calm_icfgr|calm_walk]|intros ?]). calm_walk.
Qed.

Lemma calm_dist : calm (V := V)
  (gicv2_spis_configure_defaults PLAT_ARM_GICD_BASE ;;
   gicv2_secure_spis_configure_props PLAT_ARM_GICD_BASE (Some arm_interrupt_props) 10).
Proof.
  apply calm_bind; [|intros _].
  - unfold gicv2_spis_configure_defaults, gicd_read_typer, gicd_write_igroupr, gicd_write_ipriorityr, gicd_write_icfgr.
    apply calm_bind; [calm_walk|intros n]. cbv zeta.
    repeat (apply calm_bind; [apply calm_for_each; intros x; calm_walk|intros _]).
    apply calm_for_each. intros x. calm_walk.
  - unfold gicv2_secure_spis_configure_props.
    apply (calm_pure (props_of (Some arm_interrupt_props) 10) _ arm_interrupt_props); [reflexivity|].
    apply calm_spis. by repeat constructor.
Qed.

Lemma distif_run d l h v : gic_up v -> exists d' l', gicv2_distif_init (St d l h v) = (Ret tt, St d' l' h v).
Proof.
  intros [Hg _]. unfold gicv2_distif_init. rewrite (bind_run _ _ _ _ _ (with_gicd_run _ _ _ _ h v Hg)).
  unfold gicd_read_ctlr, gicd_write_ctlr. run.
  match goal with |- context [bind (gicv2_spis_configure_defaults _) _ (St ?d1 ?l1 _ _)] =>
    destruct (calm_run _ d1 l1 h v calm_dist) as ([] & d2 & l2 & E2) end.
  apply bind_split in E2. destruct E2 as ([] & s1 & E1 & E2).
  change (gicd_base arm_gic_data) with PLAT_ARM_GICD_BASE.
  change (interrupt_props arm_gic_data) with (Some arm_interrupt_props).
  change (interrupt_props_num arm_gic_data) with 10.
  rewrite (bind_run _ _ _ _ _ E1), (bind_run _ _ _ _ _ E2). run. by do 2 eexists.
Qed.

Lemma gic_init_run i mpidr d l h v : plat_my_core_pos mpidr = Z.of_nat i -> (i < 4)%nat -> gic_up v ->
  exists d' l' v', plat_arm_gic_init mpidr (St d l h v) = (Ret tt, St d' l' h v') /\ new_masks v v'.
Proof.
  intros Hme Hi Hup. unfold plat_arm_gic_init.
  destruct (distif_run d l h v Hup) as (d1 & l1 & E1). rewrite (bind_run _ _ _ _ _ E1).
  destruct (pcpu_distif_run d1 l1 h v Hup) as (d2 & l2 & E2). rewrite (bind_run _ _ _ _ _ E2).
  destruct (target_mask_run i mpidr d2 l2 h v Hme Hi Hup) as (d3 & l3 & v3 & E3 & Hn).
  rewrite (bind_run _ _ _ _ _ E3).
  destruct (gicc_on_run d3 l3 h v3 (new_masks_gic v v3 Hup Hn)) as (d4 & l4 & ->).
  exists d4, l4, v3. by split.
Qed.

(** ** Suspend *)

(** The processors are in one cluster. *)
Lemma aff1_zero i mpidr : plat_my_core_pos mpidr = Z.of_nat i -> (i < 4)%nat -> MPIDR_AFFLVL1_VAL mpidr = 0.
Proof.
  clear Hans Hcci. unfold plat_my_core_pos, zynqmp_calc_core_pos, MPIDR_CPU_MASK, MPIDR_CLUSTER_MASK. intros Hme Hi.
  assert (Hb : (mpidr .& 0xff00) = Z.shiftl (MPIDR_AFFLVL1_VAL mpidr) 8).
  { unfold MPIDR_AFFLVL1_VAL. change 0xff00 with (Z.shiftl 0xff 8). apply Z.bits_inj'. intros n Hn.
    rewrite Z.land_spec. destruct (decide (n < 8)).
    - by rewrite !Z.shiftl_spec_low, andb_false_r by lia.
    - rewrite !Z.shiftl_spec, Z.land_spec, Z.shiftr_spec by lia. by replace (n - 8 + 8) with n by lia. }
  rewrite Hb, Z.shiftr_shiftl_l in Hme by lia. rewrite Z.shiftl_mul_pow2 in Hme by lia. change (2 ^ (8 - 6)) with 4 in Hme.
  assert (0 <= (mpidr .& 0xff)) by (apply Z.land_nonneg; lia).
  assert (0 <= MPIDR_AFFLVL1_VAL mpidr) by (apply Z.land_nonneg; lia). lia.
Qed.

Lemma snoop_keeps value v : plat_up v -> keeps (fun _ => True) v (set_snoop 0 value).
Proof.
  intros (_ & _ & Hc) d l h _. destruct (snoop_run value d l h v Hcci Hc) as (d' & new & Er). by exists tt, d', new.
Qed.

Lemma plat_suspend_keeps i mpidr state v : plat_my_core_pos mpidr = Z.of_nat i -> (i < 4)%nat -> plat_up v ->
  keeps (fun _ => True) v (zynqmp_pwr_domain_suspend mpidr state).
Proof.
  intros Hme Hi Hv. unfold zynqmp_pwr_domain_suspend. destruct (my_proc i mpidr Hme Hi) as [p ->]. cbn [deref].
  eapply (keeps_bind (fun _ => True)); [by apply keeps_ret|intros q _].
  intros d l h Hh. rewrite run_bind_gets. revert d l h Hh.
  eapply (keeps_bind (fun _ => True)); [apply self_suspend_keeps; [done|rewrite Hme; lia|apply Hv]|intros _ _].
  bool_case; [|by apply keeps_ret]. unfold plat_arm_interconnect_exit_coherency, cci_disable_snoop_dvm_reqs.
  rewrite (aff1_zero i mpidr Hme Hi). by apply snoop_keeps.
Qed.

(** The processor is back: the request to sleep is withdrawn and the cluster is
    coherent again. *)
Lemma settles_seq {A B} (m : M V A) (k : A -> M V B) post :
  (forall v, plat_up v -> keeps (fun _ => True) v m) -> (forall a, settles plat_up (fun _ => True) (k a) post) ->
  settles plat_up (fun _ => True) (bind m k) post.
Proof.
  intros Hm Hk d l h v Hv Hh _. destruct (Hm v Hv d l h (psci_locks_free h Hh)) as (a & d' & new & E1 & _).
  unfold returns. rewrite (bind_run _ _ _ _ _ E1). by apply Hk.
Qed.

Lemma suspend_finish_settles i mpidr state (post : unit -> V -> V -> Prop) :
  plat_my_core_pos mpidr = Z.of_nat i -> (i < 4)%nat -> (forall v, post tt v v) ->
  (forall v v', new_masks v v' -> post tt v v') ->
  settles plat_up (fun _ => True) (zynqmp_pwr_domain_suspend_finish mpidr state) post.
Proof.
  intros Hme Hi Hpost0 Hpost. unfold zynqmp_pwr_domain_suspend_finish.
  destruct (my_proc i mpidr Hme Hi) as [p ->]. cbn [deref].
  apply settles_seq; [intros v _; by apply keeps_ret|]. intros q. apply settles_seq; [intros v _; apply wakeup_keeps|intros _].
  apply settles_seq.
  { intros v Hv. unfold plat_arm_interconnect_enter_coherency, cci_enable_snoop_dvm_reqs.
    rewrite (aff1_zero i mpidr Hme Hi). by apply snoop_keeps. }
  intros _ d l h v Hv _ _. unfold returns. pose proof Hv as (_ & Hg & _). bool_case.
  - destruct (gic_init_run i mpidr d l h v Hme Hi Hg) as (d1 & l1 & v1 & -> & Hn). simpl.
    destruct (new_masks_ok v v1 Hv Hn). auto.
  - destruct (gicc_on_run d l h v Hg) as (d1 & l1 & E1). rewrite (bind_run _ _ _ _ _ E1).
    destruct (pcpu_distif_run d1 l1 h v Hg) as (d2 & l2 & ->). simpl. auto using quiet_refl.
Qed.

(** ** The contract *)

Lemma freq_settles (post : Z -> V -> V -> Prop) :
  (forall a v, post a v v) -> (forall a v (p : plat_vars), post a v (sput p v)) ->
  settles plat_up (fun _ => True) zynqmp_get_syscnt_freq2 post.
Proof.
  intros Hpost0 Hpost d l h v ((Hi & Hm & Hg) & Hg' & Hc) _ _. unfold zynqmp_get_syscnt_freq2, zynqmp_get_silicon_ver, returns.
  assert (Hq : forall p : plat_vars, plat_up (sput p v) /\ quiet v (sput p v)).
  { intros p. unfold plat_up, gic_up, image_up, ready, quiet, still in *. autorewrite with run. auto 10. }
  assert (Hq0 : plat_up v /\ quiet v v) by (split; [done|apply quiet_refl]).
  run. bool_case; run; bool_case; run; simpl; (split; [done|]);
    (split; [first [apply Hq0|apply Hq]|]); (split; [first [apply Hq0|apply Hq]|]);
    first [apply Hpost0|apply Hpost].
Qed.

(** The power states that this platform knows: those without an id. *)
Definition power_known (ps : Z) : bool := negb (truthy (psci_get_pstate_id ps)).

Lemma power_keeps ps v : keeps (fun r =>
    if power_known ps
    then r = (PSCI_E_SUCCESS, [if psci_get_pstate_type ps =? PSTATE_TYPE_STANDBY then PLAT_MAX_RET_STATE
                               else PLAT_MAX_OFF_STATE; PSCI_LOCAL_STATE_RUN])
    else r.1 = PSCI_E_INVALID_PARAMS) v
  (zynqmp_validate_power_state ps [PSCI_LOCAL_STATE_RUN; PSCI_LOCAL_STATE_RUN]).
Proof.
  intros d l h _. unfold zynqmp_validate_power_state, power_known. rewrite run_bind_awrite by done. run.
  eexists _, d, []. split; [reflexivity|]. by destruct (truthy _).
Qed.


(** The hooks keep the contract, with any dispatcher state that does not depend on
    the platform's statics. *)
Section Dispatcher.
Context (payload : nat -> tos_state -> V -> Prop) `{SO : !SpdOps V}.
Hypothesis payload_psci : forall i b (p : psci) v, payload i b v -> payload i b (sput p v).
Hypothesis payload_ctx : forall i b j x v, payload i b v -> payload i b (sput (put_ns j x (sget v)) v).
Hypothesis payload_plat : forall i b (p : plat_vars) v, payload i b v -> payload i b (sput p v).
Hypothesis payload_gic : forall i b (p : gic) v, payload i b v -> payload i b (sput p v).
Hypothesis spd_on_settles : forall i mpidr, plat_my_core_pos mpidr = Z.of_nat i -> (i < 4)%nat ->
  hook (svc_on (spd_ops mpidr)) True (fun f => forall x, settled plat_up payload (f x) (fun _ => True)).
Hypothesis spd_off_transfers : forall i mpidr, plat_my_core_pos mpidr = Z.of_nat i -> (i < 4)%nat ->
  hook (svc_off (spd_ops mpidr)) (forall v, payload i TosOn v -> payload i TosOff v) (fun f => forall x,
    transfers plat_up payload i TosOn TosOff (f x) (fun rc => rc = 0)).
Hypothesis spd_finish_transfers : forall i mpidr, plat_my_core_pos mpidr = Z.of_nat i -> (i < 4)%nat ->
  hook (svc_on_finish (spd_ops mpidr)) (forall v, payload i TosOff v -> payload i TosOn v) (fun f => forall x,
    transfers plat_up payload i TosOff TosOn (f x) (fun _ => True)).
Hypothesis spd_suspend_transfers : forall i mpidr, plat_my_core_pos mpidr = Z.of_nat i -> (i < 4)%nat ->
  hook (svc_suspend (spd_ops mpidr)) (forall v, payload i TosOn v -> payload i TosSuspended v) (fun f => forall x,
    transfers plat_up payload i TosOn TosSuspended (f x) (fun _ => True)).
Hypothesis spd_resume_transfers : forall i mpidr, plat_my_core_pos mpidr = Z.of_nat i -> (i < 4)%nat ->
  hook (svc_suspend_finish (spd_ops mpidr)) (forall v, payload i TosSuspended v -> payload i TosOn v)
    (fun f => forall x, transfers plat_up payload i TosSuspended TosOn (f x) (fun _ => True)).

Lemma settled_keeps {A} (Q : A -> Prop) (m : M V A) :
  (forall v, plat_up v -> keeps Q v m) -> settled plat_up payload m Q.
Proof. intros Hm. eapply settles_keeps; [exact Hm|]. intros a v Ha. split; [done|]. by intros j b. Qed.

Lemma masks_unaffected v v' : new_masks v v' -> unaffected payload v v'.
Proof. intros (masks & _ & ->) j b. auto. Qed.

Lemma zynqmp_keeps_contract : Hooks plat_up payload (fun _ => true) power_known.
Proof.
  split; try done.
  - intros p v ((Hi & Hm & Hg) & Hg' & Hc). unfold plat_up, gic_up, image_up, ready in *. by autorewrite with run.
  - intros c v ((Hi & Hm & Hg) & Hg' & Hc). unfold plat_up, gic_up, image_up, ready in *. by autorewrite with run.
  - apply freq_settles; intros; (split; [done|]); intros j b; auto.
  - intros i mpidr Hme Hi target. apply settled_keeps. intros v. apply on_keeps.
  - intros i mpidr Hme Hi state. apply settled_keeps. intros v. by eapply off_keeps.
  - intros i mpidr Hme Hi state. eapply on_finish_settles; [done|done|]. auto using masks_unaffected.
  - intros i mpidr Hme Hi state. apply settled_keeps. intros v. by eapply plat_suspend_keeps.
  - intros i mpidr Hme Hi state. eapply suspend_finish_settles; [done|done| |auto using masks_unaffected].
    intros v. split; [done|]. by intros j b.
  - intros i mpidr Hme Hi ps. apply settled_keeps. intros v _. apply power_keeps.
Qed.

End Dispatcher.
End Laws.
End PsciLaws.
