(* ===== verification/DelayTimer.v ===== *)
(** * The delay timer

    drivers/delay_timer/generic_delay_timer.c and delay_timer.c: busy waits on the
    architectural counter, which the set-up of BL31 configures and the stop of
    other processors in PSCI uses. *)

From S2P Require Import Prelude Machine.
From Stdlib Require Import String.
From stdpp Require Import strings.
#[local] Open Scope Z_scope.
#[local] Open Scope c_scope.

Module DelayTimer.

Definition MHZ_TICKS_PER_SEC : Z := 1000000.
Definition UINT32_MAX : Z := 2 ^ 32 - 1.
Definition UINT64_MAX : Z := 2 ^ 64 - 1.

(** [div_round_up] on [uint64_t] *)
Definition div_round_up (val div : Z) : Z := u64 (val + div - 1) / div.

(** [timer_ops] of delay_timer.c is NULL or points to [ops] of
    generic_delay_timer.c, whose [get_timer_value] is always the function below. *)
Record timer := TimerVars { timer_ops : bool; clk_mult : Z; clk_div : Z }.

(** The loop that drops common factors of ten. *)
Fixpoint reduce (fuel : nat) (mult div : Z) : Z * Z :=
  match fuel with
  | O => (mult, div)
  | S fuel' => if (mult mod 10 =? 0) && (div mod 10 =? 0) then reduce fuel' (mult / 10) (div / 10)
               else (mult, div)
  end.

Section Ops.
Context `{Env} {V : Type} `{!Has timer V}.

Definition get_timer_value : M V Z :=
  x <- ext_call "read_cntpct_el0" [] ;; ret (u32 (Z.lnot (u64 x))).

Definition timer_init : M V unit :=
  mult <- gets clk_mult ;;
  div <- gets clk_div ;;
  c_assert (negb (mult =? 0) && negb (div =? 0)) ;;
  mods (fun v => TimerVars true (clk_mult v) (clk_div v)).

Definition generic_delay_timer_init_args (mult div : Z) : M V unit :=
  mods (fun v => TimerVars (timer_ops v) mult div) ;;
  timer_init.

(** [is_armv7_gentimer_present] is the constant true on this architecture. *)
Definition generic_delay_timer_init (plat_get_syscnt_freq2 : M V Z) : M V unit :=
  c_assert true ;;
  div <- plat_get_syscnt_freq2 ;;
  let* (mult, div) := ret (reduce 7 MHZ_TICKS_PER_SEC div) in
  generic_delay_timer_init_args mult div.

Definition udelay (usec : Z) : M V unit :=
  ok <- gets timer_ops ;;
  mult <- gets clk_mult ;;
  div <- gets clk_div ;;
  c_assert (ok && negb (mult =? 0) && negb (div =? 0)) ;;
  c_assert (usec <? UINT64_MAX / div) ;;
  start <- get_timer_value ;;
  let total_delta := u64 (div_round_up (u64 (usec * div)) mult + 1) in
  c_assert (total_delta <? UINT32_MAX - 1000) ;;
  _ <- do_while poll_bound (t <- get_timer_value ;; ret (u32 (start - t)))
         (fun delta => delta <? total_delta) ;;
  ret tt.

Definition mdelay (msec : Z) : M V unit :=
  c_assert (u64 (msec * 1000) <? UINT32_MAX) ;;
  udelay (u32 (msec * 1000)).

End Ops.

(** ** The factors *)

(** The ratio is kept, and seven turns are enough: the loop ends because the
    multiplier, which starts at 10^6, or the divider has no factor left. *)
Lemma reduce_ratio n mult div m' d' : reduce n mult div = (m', d') -> m' * div = d' * mult.
Proof.
  revert mult div. induction n as [|n IH]; intros mult div; simpl; [intros [= -> ->]; lia|].
  destruct (_ && _) eqn:E; [|intros [= -> ->]; lia].
  intros Hr. apply IH in Hr. apply andb_true_iff in E as [E1 E2]. zbool.
  pose proof (Z.div_mod mult 10 ltac:(lia)). pose proof (Z.div_mod div 10 ltac:(lia)). nia.
Qed.

Lemma reduce_pos n mult div m' d' : 0 < mult -> 0 < div -> reduce n mult div = (m', d') -> 0 < m' /\ 0 < d'.
Proof.
  revert mult div. induction n as [|n IH]; intros mult div Hm Hd; simpl; [by intros [= -> ->]|].
  destruct (_ && _) eqn:E; [|by intros [= -> ->]].
  apply andb_true_iff in E as [E1 E2]. zbool.
  pose proof (Z.div_mod mult 10 ltac:(lia)). pose proof (Z.div_mod div 10 ltac:(lia)).
  apply IH; lia.
Qed.

Lemma reduce_le n mult div m' d' : 0 < mult -> 0 < div -> reduce n mult div = (m', d') -> m' <= mult /\ d' <= div.
Proof.
  revert mult div. induction n as [|n IH]; intros mult div Hm Hd; simpl; [by intros [= -> ->]|].
  destruct (_ && _) eqn:E; [|by intros [= -> ->]].
  apply andb_true_iff in E as [E1 E2]. zbool.
  pose proof (Z.div_mod mult 10 ltac:(lia)). pose proof (Z.div_mod div 10 ltac:(lia)).
  intros Hr. apply IH in Hr; lia.
Qed.

(** More turns change nothing. *)
Lemma reduce_ends n div : reduce (7 + n) MHZ_TICKS_PER_SEC div = reduce 7 MHZ_TICKS_PER_SEC div.
Proof.
  unfold MHZ_TICKS_PER_SEC. simpl.
  repeat match goal with |- (if ?b then _ else _) = _ => destruct b; [|done] end. done.
Qed.

Section Proofs.
Context `{Env} {V : Type} `{!Has timer V}.
Implicit Types (d : Dev) (l : list event) (h : list lock_id) (v : V).

(** The timer is set up for a counter of [freq] ticks per second. *)
Definition timer_for (freq : Z) (t : timer) : Prop :=
  timer_ops t = true /\ 0 < clk_mult t <= MHZ_TICKS_PER_SEC /\ 0 < clk_div t <= freq /\
  clk_mult t * freq = clk_div t * MHZ_TICKS_PER_SEC.

Lemma init_run (freq_of : M V Z) freq d l h v d1 l1 v1 :
  freq_of (St d l h v) = (Ret freq, St d1 l1 h v1) -> 0 < freq ->
  exists t, generic_delay_timer_init freq_of (St d l h v) = (Ret tt, St d1 l1 h (sput t v1)) /\ timer_for freq t.
Proof.
  intros Hf Hp. unfold generic_delay_timer_init. run. rewrite (bind_run _ _ _ _ _ Hf). run.
  destruct (reduce 7 MHZ_TICKS_PER_SEC freq) as [mult div] eqn:Er.
  destruct (reduce_pos 7 MHZ_TICKS_PER_SEC freq mult div) as [Hm Hd]; [done..|].
  destruct (reduce_le 7 MHZ_TICKS_PER_SEC freq mult div) as [Hm' Hd']; [done..|].
  pose proof (reduce_ratio _ _ _ _ _ Er) as Hr.
  unfold generic_delay_timer_init_args, timer_init. run. cbn [clk_mult clk_div].
  rewrite (proj2 (Z.eqb_neq mult 0)), (proj2 (Z.eqb_neq div 0)) by lia. run. cbn [clk_mult clk_div].
  exists (TimerVars true mult div). split; [done|]. done.
Qed.

(** The architectural counter: [count] ticks so far, of which the register shows
    64 bits; between two reads pass at least one and at most 1000 ticks, the
    margin that the code allows for. *)
Class Clock := {
  count : Dev -> Z;
  count_read : forall d, u64 (hw_call "read_cntpct_el0" [] d).1 = u64 (count d);
  count_step : forall d, count d < count (hw_call "read_cntpct_el0" [] d).2 <= count d + 1000
}.

Context `{C : !Clock}.

Lemma value_run d l h v : exists r, get_timer_value (St d l h v) =
  (Ret (u32 (- 1 - count d)), St (hw_call "read_cntpct_el0" [] d).2 (EvCall "read_cntpct_el0" [] r :: l) h v).
Proof.
  unfold get_timer_value. run. eexists. rewrite count_read.
  assert (u32 (Z.lnot (u64 (count d))) = u32 (-1 - count d)) as ->; [|done].
  unfold u32, u64, Z.lnot. pose proof (Z.div_mod (count d) (2 ^ 64) ltac:(lia)) as Hc.
  replace (Z.pred (- (count d mod 2 ^ 64)))
    with (- 1 - count d + (count d / 2 ^ 64 * 2 ^ 32) * 2 ^ 32) by lia.
  by apply Z.mod_add.
Qed.

Lemma delta_of a b : u32 (u32 (- 1 - a) - u32 (- 1 - b)) = u32 (b - a).
Proof. unfold u32. rewrite <- Zminus_mod. f_equal. lia. Qed.

(** The wait, [count d - c0] ticks after its start. *)
Lemma wait_run n total c0 d l h v :
  0 <= count d - c0 <= total + 999 -> total + 1000 < 2 ^ 32 ->
  Z.max 0 (total - (count d - c0)) < Z.of_nat n ->
  exists a d' new c1,
    do_while n (t <- get_timer_value ;; ret (u32 (u32 (- 1 - c0) - t))) (fun delta => delta <? total)
      (St d l h v) = (Ret a, St d' (new ++ l) h v) /\
    total <= c1 - c0 <= total + 999 /\ c1 < count d' <= c1 + 1000.
Proof.
  revert d l. induction n as [|n IH]; intros d l He Ht Hn; simpl; [lia|].
  destruct (value_run d l h v) as [r Er]. rewrite run_bind_assoc, (bind_run _ _ _ _ _ Er), run_bind_ret.
  rewrite delta_of, u32_small by lia. pose proof (count_step d) as Hs.
  destruct (Z.ltb_spec (count d - c0) total) as [Hlt|Hge].
  - destruct (IH (hw_call "read_cntpct_el0" [] d).2 (EvCall "read_cntpct_el0" [] r :: l)) as (a & d' & new & c1 & E & Hc); [lia..|].
    eexists a, d', (new ++ [_]), c1. rewrite <- (assoc_L (++)). split; [exact E|exact Hc].
  - eexists _, (hw_call "read_cntpct_el0" [] d).2, [_], (count d). split; [reflexivity|]. lia.
Qed.

(** The number of ticks the code waits for. *)
Lemma ticks_for freq usec t : timer_for freq t -> 0 <= usec < 2 ^ 32 -> freq < 2 ^ 32 ->
  let total := u64 (div_round_up (u64 (usec * clk_div t)) (clk_mult t) + 1) in
  usec * freq < MHZ_TICKS_PER_SEC * total < usec * freq + 2 * MHZ_TICKS_PER_SEC + 1.
Proof.
  intros (_ & Hm & Hd & Hr) Hu Hf total. unfold total, div_round_up, MHZ_TICKS_PER_SEC in *.
  set (m := clk_mult t) in *. set (k := clk_div t) in *.
  assert (Hp : 0 <= usec * k <= (2 ^ 32 - 1) * (2 ^ 32 - 1)) by nia.
  assert (E1 : u64 (usec * k) = usec * k) by (apply Z.mod_small; lia).
  assert (E2 : u64 (usec * k + m - 1) = usec * k + m - 1) by (apply Z.mod_small; lia).
  rewrite E1, E2. pose proof (Z.div_mod (usec * k + m - 1) m ltac:(lia)) as Hq.
  pose proof (Z.mod_pos_bound (usec * k + m - 1) m ltac:(lia)) as Hb.
  set (q := (usec * k + m - 1) / m) in *.
  assert (Hq0 : 0 <= q <= usec * k + m - 1) by nia.
  assert (E3 : u64 (q + 1) = q + 1) by (apply Z.mod_small; lia). rewrite E3.
  (* m q - usec k is between 0 and m - 1; scale by freq / k = 10^6 / m *)
  assert (Hlo : usec * k <= m * q) by lia. assert (Hhi : m * q <= usec * k + m - 1) by lia.
  clear Hq Hb E1 E2 E3 Hp. clearbody q m k.
  assert (Hk : k * (1000000 * q) = m * q * freq) by (replace (k * (1000000 * q)) with (k * 1000000 * q) by lia; rewrite <- Hr; lia).
  split.
  - apply (Z.mul_lt_mono_pos_l k); [lia|]. nia.
  - apply (Z.mul_lt_mono_pos_l k); [lia|]. nia.
Qed.

(** A delay is not shorter than asked for and not much longer.  With the timer set
    up for the counter's frequency and a request whose number of ticks fits the
    32-bit difference the code computes with, [udelay] returns, reads nothing but
    the counter, and the ticks that have passed are more than the microseconds
    asked for and at most about two polling margins (2000 ticks) more; wrap-around
    of the 32-bit and 64-bit values included. *)
Theorem udelay_waits freq usec d l h (v : V) :
  timer_for freq (sget v) -> 0 <= usec < 2 ^ 32 -> freq < 2 ^ 32 ->
  usec * freq <= MHZ_TICKS_PER_SEC * (2 ^ 32 - 1004) ->
  usec * freq + 2 * MHZ_TICKS_PER_SEC < MHZ_TICKS_PER_SEC * Z.of_nat poll_bound ->
  exists d' new, udelay usec (St d l h v) = (Ret tt, St d' (new ++ l) h v) /\
    usec * freq < MHZ_TICKS_PER_SEC * (count d' - count d) <=
      usec * freq + 2001 * MHZ_TICKS_PER_SEC.
Proof.
  intros Ht Hu Hf Hfit Hpoll. pose proof (ticks_for freq usec _ Ht Hu Hf) as Htot. cbv zeta in Htot.
  unfold udelay. run. set (t := sget v) in *. set (total := u64 (_ + 1)) in *.
  pose proof Ht as (Hok & Hm & Hd & _). rewrite Hok.
  rewrite (proj2 (Z.eqb_neq (clk_mult t) 0)), (proj2 (Z.eqb_neq (clk_div t) 0)) by lia. run.
  assert (Hdiv : 2 ^ 32 <= UINT64_MAX / clk_div t).
  { apply Z.div_le_lower_bound; [lia|]. unfold UINT64_MAX. nia. }
  rewrite (proj2 (Z.ltb_lt usec _)) by lia. run.
  destruct (value_run d l h v) as [r Er]. rewrite (bind_run _ _ _ _ _ Er).
  unfold MHZ_TICKS_PER_SEC in *. rewrite (proj2 (Z.ltb_lt total _)) by (unfold UINT32_MAX; lia). run.
  pose proof (count_step d) as Hs. assert (0 <= usec * freq) by nia. assert (1 <= total) by lia.
  destruct (wait_run poll_bound total (count d) (hw_call "read_cntpct_el0" [] d).2 (EvCall "read_cntpct_el0" [] r :: l) h v)
    as (a & d' & new & c1 & E & Hc1 & Hc'); [lia..|].
  rewrite (bind_run _ _ _ _ _ E). run. eexists d', (new ++ [_]). rewrite <- (assoc_L (++)).
  split; [reflexivity|]. lia.
Qed.

End Proofs.

(** A counter that advances by 100 ticks between reads. *)
Definition clock_board : Env := {|
  Dev := Z;
  hw_read _ _ d := (0, d);
  hw_write _ _ _ d := d;
  hw_call f _ d := if bool_decide (f = "read_cntpct_el0"%string) then (d, d + 100) else (0, d);
  poll_bound := 200;
  uninit _ := 0
|}.
#[export] Instance clock_board_clock : @Clock clock_board.
Proof.
  refine {| count := (fun d => d) : @Dev clock_board -> Z |}.
  - intros d. done.
  - intros d. simpl. lia.
Defined.

(** 100 us of a 1 MHz counter that is about to wrap. *)
Lemma udelay_waits_witness : exists d' new,
  udelay (H := clock_board) 100 (St (H := clock_board) (2 ^ 64 - 50) [] [] (TimerVars true 1 1)) =
    (Ret tt, St (H := clock_board) d' (new ++ []) [] (TimerVars true 1 1)) /\
  100 * 1000000 < MHZ_TICKS_PER_SEC * (d' - (2 ^ 64 - 50)) <= 100 * 1000000 + 2001 * MHZ_TICKS_PER_SEC.
Proof.
  apply (udelay_waits (H := clock_board) (C := clock_board_clock) 1000000 100 (2 ^ 64 - 50) [] [] (TimerVars true 1 1)).
  - unfold timer_for. cbn [sget Has_self timer_ops clk_mult clk_div]. unfold MHZ_TICKS_PER_SEC. lia.
  - lia.
  - lia.
  - unfold MHZ_TICKS_PER_SEC. lia.
  - unfold MHZ_TICKS_PER_SEC. cbn [poll_bound clock_board]. lia.
Defined.

End DelayTimer.
