(* ===== verification/PlatStartup.v ===== *)
(** * The images that BL31 hands over to

    plat/xilinx/common/plat_startup.c (the hand-off structure of the first stage
    boot loader, FSBL), the early set-up of zynqmp/bl31_zynqmp_setup.c and the boot
    mode and configuration of zynqmp/aarch64/zynqmp_common.c.  The result is one
    entry point per world: [bl32_image_ep_info] (OP-TEE) and [bl33_image_ep_info]
    (the normal world's boot loader).

    The structure lies in memory at the address that the FSBL leaves in a register
    of the PMU; its fields are read as memory accesses.  The end of the image
    [__BL31_END__] is the linker's. *)

From S2P Require Import Prelude Machine Trace Gic IntrMgmt Ipi PmDefs PmIpi PmReq PmTotal CtxMgmt Psci PsciPlat DelayTimer.
From Stdlib Require Import String.
From stdpp Require Import strings.
Import Gic IntrMgmt Ipi PmDefs PmIpi PmReq PmTotal CtxMgmt Psci PsciPlat DelayTimer.
#[local] Open Scope Z_scope.
#[local] Open Scope c_scope.

Module PlatStartup.

Definition FSBL_FLAGS_ESTATE_SHIFT : Z := 0.
Definition FSBL_FLAGS_ESTATE_MASK : Z := 1 .<< FSBL_FLAGS_ESTATE_SHIFT.
Definition FSBL_FLAGS_ESTATE_A32 : Z := 1.
Definition FSBL_FLAGS_ENDIAN_SHIFT : Z := 1.
Definition FSBL_FLAGS_ENDIAN_MASK : Z := 1 .<< FSBL_FLAGS_ENDIAN_SHIFT.
Definition FSBL_FLAGS_ENDIAN_BE : Z := 1.
Definition FSBL_FLAGS_TZ_SHIFT : Z := 2.
Definition FSBL_FLAGS_TZ_MASK : Z := 1 .<< FSBL_FLAGS_TZ_SHIFT.
Definition FSBL_FLAGS_SECURE : Z := 1.
Definition FSBL_FLAGS_EL_SHIFT : Z := 3.
Definition FSBL_FLAGS_EL_MASK : Z := 3 .<< FSBL_FLAGS_EL_SHIFT.
Definition FSBL_FLAGS_EL0 : Z := 0.
Definition FSBL_FLAGS_EL2 : Z := 2.
Definition FSBL_FLAGS_EL3 : Z := 3.
Definition FSBL_FLAGS_CPU_SHIFT : Z := 5.
Definition FSBL_FLAGS_CPU_MASK : Z := 3 .<< FSBL_FLAGS_CPU_SHIFT.
Definition FSBL_FLAGS_A53_0 : Z := 0.
Definition FSBL_MAX_PARTITIONS : Z := 8.

(** arch.h, ep_info.h *)
Definition SPSR_E_LITTLE : Z := 0.
Definition SPSR_E_BIG : Z := 1.
Definition SPSR_T_ARM : Z := 0.
Definition MODE32_sys : Z := 0xf.
Definition EP_EE_LITTLE : Z := 0.
Definition EP_SET_EE (x ee : Z) : Z := (x .& not32 0x2) .| ee.
Definition SET_SECURITY_STATE (x security : Z) : Z := (x .& not32 0x1) .| security.

(** platform_def.h, for a build with a dispatcher *)
Definition BL31_BASE : Z := 0x1000.
Definition BL32_BASE : Z := 0x60000000.
Definition PLAT_ARM_NS_IMAGE_BASE : Z := 0x8000000.
Definition PMU_GLOBAL_GEN_STORAGE6 : Z := 0xFFD80048.
Definition CRL_APB_BOOT_MODE_USER : Z := 0xFF5E0200.
Definition CRL_APB_BOOT_MODE_MASK : Z := 0xf.
Definition ZYNQMP_BOOTMODE_JTAG : Z := 0.
Definition ZYNQMP_DEFAULT_COUNTER_FREQ : Z := 0.
Definition ZYNQMP_UART_BASE : Z := 0xFF000000.
Definition ZYNQMP_UART_BAUDRATE : Z := 115200.
Definition CONSOLE_FLAG_BOOT : Z := BIT 0.
Definition CONSOLE_FLAG_RUNTIME : Z := BIT 1.

Inductive fsbl_handoff :=
| FSBL_HANDOFF_SUCCESS
| FSBL_HANDOFF_NO_STRUCT
| FSBL_HANDOFF_INVAL_STRUCT
| FSBL_HANDOFF_TOO_MANY_PARTS.

(** ** Partitions *)

(** The argument is [partition->flags]. *)
Definition get_fsbl_cpu (flags : Z) : Z := (flags .& FSBL_FLAGS_CPU_MASK) .>> FSBL_FLAGS_CPU_SHIFT.
Definition get_fsbl_el (flags : Z) : Z := (flags .& FSBL_FLAGS_EL_MASK) .>> FSBL_FLAGS_EL_SHIFT.
Definition get_fsbl_ss (flags : Z) : Z := (flags .& FSBL_FLAGS_TZ_MASK) .>> FSBL_FLAGS_TZ_SHIFT.
Definition get_fsbl_endian (flags : Z) : Z :=
  if ((flags .& FSBL_FLAGS_ENDIAN_MASK) .>> FSBL_FLAGS_ENDIAN_SHIFT) =? FSBL_FLAGS_ENDIAN_BE
  then SPSR_E_BIG else SPSR_E_LITTLE.
Definition get_fsbl_estate (flags : Z) : Z :=
  (flags .& FSBL_FLAGS_ESTATE_MASK) .>> FSBL_FLAGS_ESTATE_SHIFT.

Record xfsbl_partition := Partition { entry_point : Z; flags : Z }.

(** The two statics of bl31_zynqmp_setup.c. *)
Record images := Images { bl32_image_ep_info : entry_point_info; bl33_image_ep_info : entry_point_info }.

Definition set_pc (x : Z) (ep : entry_point_info) : entry_point_info :=
  EpInfo (ep_attr ep) x (ep_spsr ep) (ep_args ep).
Definition set_ep_spsr (x : Z) (ep : entry_point_info) : entry_point_info :=
  EpInfo (ep_attr ep) (ep_pc ep) x (ep_args ep).
Definition set_attr (x : Z) (ep : entry_point_info) : entry_point_info :=
  EpInfo x (ep_pc ep) (ep_spsr ep) (ep_args ep).

(** The program status a partition asks for, by world, execution state and level. *)
Definition bl32_spsr (f : Z) : Z :=
  if get_fsbl_estate f =? FSBL_FLAGS_ESTATE_A32
  then SPSR_MODE32 MODE32_svc SPSR_T_ARM (get_fsbl_endian f) DISABLE_ALL_EXCEPTIONS
  else SPSR_64 MODE_EL1 MODE_SP_ELX DISABLE_ALL_EXCEPTIONS.
Definition bl33_spsr (f : Z) : Z :=
  if get_fsbl_estate f =? FSBL_FLAGS_ESTATE_A32
  then SPSR_MODE32 (if get_fsbl_el f =? FSBL_FLAGS_EL2 then MODE32_hyp else MODE32_sys)
         SPSR_T_ARM (get_fsbl_endian f) DISABLE_ALL_EXCEPTIONS
  else SPSR_64 (if get_fsbl_el f =? FSBL_FLAGS_EL2 then MODE_EL2 else MODE_EL1)
         MODE_SP_ELX DISABLE_ALL_EXCEPTIONS.

(** The three checks that end a turn of the loop early. *)
Definition skipped (f : Z) : bool :=
  if negb (get_fsbl_cpu f =? FSBL_FLAGS_A53_0) then true
  else if (get_fsbl_el f =? FSBL_FLAGS_EL3) || (get_fsbl_el f =? FSBL_FLAGS_EL0) then true
  else (get_fsbl_ss f =? FSBL_FLAGS_SECURE) && (get_fsbl_el f =? FSBL_FLAGS_EL2).

(** [image->pc] and the endianness of [image->h.attr] *)
Definition set_entry (p : xfsbl_partition) (image : entry_point_info) : entry_point_info :=
  let image := set_pc (entry_point p) image in
  set_attr (EP_SET_EE (ep_attr image)
              (if get_fsbl_endian (flags p) =? SPSR_E_BIG then EP_EE_BIG else EP_EE_LITTLE)) image.

(** The rest of the turn. *)
Definition hand_over (p : xfsbl_partition) (im : images) : images :=
  if get_fsbl_ss (flags p) =? FSBL_FLAGS_SECURE
  then Images (set_entry p (set_ep_spsr (bl32_spsr (flags p)) (bl32_image_ep_info im))) (bl33_image_ep_info im)
  else Images (bl32_image_ep_info im) (set_entry p (set_ep_spsr (bl33_spsr (flags p)) (bl33_image_ep_info im))).

Section Ops.
Context `{Env} {V : Type} `{!Has ipi V} `{!Has pm V} `{!Has plat_vars V} `{!Has timer V} `{!Has images V}.
Variable bl31_end : Z.

(** Fields of the structure at [addr]. *)
Definition read_magic (addr i : Z) : M V Z := mmio_read W8 (addr + i).
Definition read_num_entries (addr : Z) : M V Z := mmio_read W32 (addr + 4).
Definition read_flags (addr i : Z) : M V Z := mmio_read W64 (addr + 8 + 16 * i + 8).
Definition read_entry_point (addr i : Z) : M V Z := mmio_read W64 (addr + 8 + 16 * i).

(** [for (i = 0; i < num_entries; i++)]: the bound and the fields are read from
    memory where the code needs them; a further read of the flags of the same turn
    is taken to give the same value. *)
Fixpoint partitions (fuel : nat) (addr i : Z) : M V unit :=
  match fuel with
  | O => stop StillPolling
  | S fuel' =>
      n <- read_num_entries addr ;;
      if i <? n then
        if i <? FSBL_MAX_PARTITIONS then
          f <- read_flags addr i ;;
          (if skipped f then ret tt
           else e <- read_entry_point addr i ;; mods (hand_over (Partition e f))) ;;
          partitions fuel' addr (i + 1)
        else stop OutOfBounds
      else ret tt
  end.

(** [magic[0] != 'X' || magic[1] != 'L' || ...] *)
Fixpoint magic_differs (addr i : Z) (magic : list Z) : M V bool :=
  match magic with
  | [] => ret false
  | m :: magic' => x <- read_magic addr i ;;
                   if negb (x =? m) then ret true else magic_differs addr (i + 1) magic'
  end.
Definition XLNX : list Z := [0x58; 0x4c; 0x4e; 0x58].

Definition fsbl_atf_handover (atf_handoff_addr : Z) : M V fsbl_handoff :=
  c_assert ((atf_handoff_addr <? BL31_BASE) || (atf_handoff_addr >? bl31_end)) ;;
  if atf_handoff_addr =? 0 then ret FSBL_HANDOFF_NO_STRUCT
  else
    bad <- magic_differs atf_handoff_addr 0 XLNX ;;
    if (bad : bool) then ret FSBL_HANDOFF_INVAL_STRUCT
    else
      n <- read_num_entries atf_handoff_addr ;;
      if n >? FSBL_MAX_PARTITIONS then
        _ <- read_num_entries atf_handoff_addr ;; (* printed *)
        ret FSBL_HANDOFF_TOO_MANY_PARTS
      else
        partitions 9 atf_handoff_addr 0 ;;
        ret FSBL_HANDOFF_SUCCESS.

(** ** zynqmp_common.c *)

Definition zynqmp_get_rtl_ver : M V Z :=
  ver <- mmio_read_32 (ZYNQMP_CSU_BASEADDR + ZYNQMP_CSU_VERSION_OFFSET) ;;
  ret ((ver .& 0xFF0) .>> 4).

(** For LOG_LEVEL from NOTICE to INFO: the line itself is not printed. *)
Definition zynqmp_print_platform_name : M V unit :=
  _ <- zynqmp_get_silicon_ver ;;
  _ <- zynqmp_get_rtl_ver ;;
  ret tt.

(** [r] is uninitialised when the request fails before the answer is read. *)
Definition zynqmp_get_bootmode : M V Z :=
  let* (res, r) := pm_mmio_read CRL_APB_BOOT_MODE_USER (uninit 0) in
  r <- (if negb (res =? PM_RET_SUCCESS) then mmio_read_32 CRL_APB_BOOT_MODE_USER else ret r) ;;
  ret (r .& CRL_APB_BOOT_MODE_MASK).

Definition zynqmp_config_setup : M V unit :=
  zynqmp_ipi_config_table_init ;;
  zynqmp_print_platform_name ;;
  counter_freq <- ext_call "read_cntfrq_el0" [] ;;
  (if u64 counter_freq =? ZYNQMP_DEFAULT_COUNTER_FREQ then
     f <- zynqmp_get_syscnt_freq2 ;;
     _ <- ext_call "write_cntfrq_el0" [f] ;;
     ret tt
   else ret tt) ;;
  generic_delay_timer_init zynqmp_get_syscnt_freq2.

(** ** bl31_zynqmp_setup.c *)

(** The pointer to an image is the function that reads the object. *)
Definition bl31_plat_get_next_image_ep_info (type : Z) : M V entry_point_info :=
  c_assert (sec_state_is_valid type) ;;
  if type =? NON_SECURE then gets bl33_image_ep_info else gets bl32_image_ep_info.

(** [arm_get_spsr_for_bl32_entry] is 0. *)
Definition bl31_set_default_config : M V unit :=
  mods (fun im =>
    Images (set_ep_spsr 0 (set_pc BL32_BASE (bl32_image_ep_info im)))
           (set_ep_spsr (SPSR_64 MODE_EL2 MODE_SP_ELX DISABLE_ALL_EXCEPTIONS)
             (set_pc PLAT_ARM_NS_IMAGE_BASE (bl33_image_ep_info im)))).

Definition bl31_early_platform_setup2 (arg0 arg1 : Z) : M V unit :=
  clk <- zynqmp_get_uart_clk ;;
  _ <- ext_call "console_cdns_register" [ZYNQMP_UART_BASE; clk; ZYNQMP_UART_BAUDRATE] ;;
  _ <- ext_call "console_set_scope" [CONSOLE_FLAG_RUNTIME .| CONSOLE_FLAG_BOOT] ;;
  zynqmp_config_setup ;;
  c_assert (arg0 =? 0) ;;
  c_assert (arg1 =? 0) ;;
  mods (fun im =>
    Images (set_attr (SET_SECURITY_STATE 0 SECURE) (bl32_image_ep_info im))
           (set_attr (SET_SECURITY_STATE 0 NON_SECURE) (bl33_image_ep_info im))) ;;
  atf_handoff_addr <- mmio_read_32 PMU_GLOBAL_GEN_STORAGE6 ;;
  bootmode <- zynqmp_get_bootmode ;;
  if bootmode =? ZYNQMP_BOOTMODE_JTAG then bl31_set_default_config
  else
    r <- fsbl_atf_handover atf_handoff_addr ;;
    match r with
    | FSBL_HANDOFF_NO_STRUCT => bl31_set_default_config
    | FSBL_HANDOFF_SUCCESS => ret tt
    | _ => stop Panic
    end.

End Ops.

(** ** Which partition is used *)

(** The reference reads the flags as the FSBL lays them out: bit 0 AArch32, bit 1
    big endian, bit 2 secure, bits 4:3 the exception level, bits 6:5 the target
    processor.  A partition counts for a world when it is for processor 0 and for
    EL1, or for EL2 of the normal world. *)
Definition applies (secure : bool) (p : xfsbl_partition) : bool :=
  let f := flags p in
  Bool.eqb (Z.testbit f 2) secure && (f / 32 mod 4 =? 0) &&
  ((f / 8 mod 4 =? 1) || (f / 8 mod 4 =? 2) && negb secure).

(** The program status for it, all interrupts masked. *)
Definition wanted_spsr (secure : bool) (f : Z) : Z :=
  if Z.testbit f 0
  then 0x1c0 + (if Z.testbit f 1 then 2 ^ 9 else 0) +
       (if secure then 0x13 else if Z.testbit f 4 then 0x1a else 0x1f)
  else if negb secure && Z.testbit f 4 then 0x3c9 else 0x3c5.

Definition entry_for (secure : bool) (p : xfsbl_partition) (image : entry_point_info) : entry_point_info :=
  EpInfo ((ep_attr image .& not32 0x2) .| (if Z.testbit (flags p) 1 then EP_EE_BIG else EP_EE_LITTLE))
    (entry_point p) (wanted_spsr secure (flags p)) (ep_args image).

(** The last partition that applies, or the entry as it was. *)
Definition chosen (secure : bool) (ps : list xfsbl_partition) (image : entry_point_info) : entry_point_info :=
  match last (List.filter (applies secure) ps) with
  | Some p => entry_for secure p image
  | None => image
  end.

(** Only seven bits of the flags count, so a claim on them holds if it holds for
    128 values. *)
Lemma low_flags (P : Z -> bool) f : (forall x, P x = P (x mod 128)) ->
  forallb (fun n => P (Z.of_nat n)) (seq 0 128) = true -> P f = true.
Proof.
  intros Hlow Hall. rewrite Hlow. pose proof (Z.mod_pos_bound f 128 ltac:(lia)) as Hb.
  rewrite forallb_forall in Hall. rewrite <- (Z2Nat.id (f mod 128)) by lia.
  apply Hall, in_seq. lia.
Qed.

Ltac by_flags f :=
  match goal with |- ?b = true =>
    let b' := eval pattern f in b in
    match b' with ?P _ => apply (low_flags P f) end
  end.

Lemma land_low7 f m : (m .& 127) = m -> (f .& m) = ((f mod 128) .& m).
Proof.
  intros Hm. change 128 with (2 ^ 7).
  rewrite <- Z.land_ones, <- Z.land_assoc, (Z.land_comm (Z.ones 7)) by lia. change (Z.ones 7) with 127. by rewrite Hm.
Qed.

Lemma div_low7 f a : 0 <= a <= 5 -> f / 2 ^ a mod 4 = f mod 128 / 2 ^ a mod 4.
Proof.
  intros Ha. change 128 with (2 ^ 7). change 4 with (2 ^ 2).
  rewrite <- !Z.shiftr_div_pow2, <- !Z.land_ones by lia. apply Z.bits_inj'. intros n Hn.
  rewrite !Z.land_spec, !Z.shiftr_spec, Z.land_spec by lia.
  destruct (Z.ltb_spec n 2); [rewrite (Z.testbit_ones_nonneg 7) by lia|rewrite (Z.testbit_ones_nonneg 2) by lia].
  - rewrite (proj2 (Z.ltb_lt _ _)) by lia. by rewrite andb_true_r.
  - rewrite (proj2 (Z.ltb_ge _ _)) by lia. by rewrite !andb_false_r.
Qed.

Lemma fields_low f : get_fsbl_cpu f = get_fsbl_cpu (f mod 128) /\ get_fsbl_el f = get_fsbl_el (f mod 128) /\
  get_fsbl_ss f = get_fsbl_ss (f mod 128) /\ get_fsbl_endian f = get_fsbl_endian (f mod 128) /\
  get_fsbl_estate f = get_fsbl_estate (f mod 128).
Proof.
  unfold get_fsbl_cpu, get_fsbl_el, get_fsbl_ss, get_fsbl_endian, get_fsbl_estate.
  by repeat split; rewrite <- land_low7 by done.
Qed.

Lemma wanted_low secure f : wanted_spsr secure f = wanted_spsr secure (f mod 128).
Proof. unfold wanted_spsr. change 128 with (2 ^ 7). by rewrite !Z.mod_pow2_bits_low by lia. Qed.

Lemma applies_code secure p :
  applies secure p = negb (skipped (flags p)) && Bool.eqb (get_fsbl_ss (flags p) =? FSBL_FLAGS_SECURE) secure.
Proof.
  destruct p as [e f]. unfold applies. cbn [flags]. apply eqb_prop.
  by_flags f; [|by destruct secure; vm_compute].
  intros x. unfold skipped. pose proof (fields_low x) as (<- & <- & <- & _).
  change 32 with (2 ^ 5). change 8 with (2 ^ 3).
  rewrite <- !(div_low7 x) by lia. change 128 with (2 ^ 7). by rewrite Z.mod_pow2_bits_low by lia.
Qed.

Lemma spsr_code secure p : applies secure p = true ->
  (if secure then bl32_spsr else bl33_spsr) (flags p) = wanted_spsr secure (flags p).
Proof.
  rewrite applies_code. destruct p as [e f]. cbn [flags]. intros Ha.
  enough (Hf : implb (negb (skipped f) && Bool.eqb (get_fsbl_ss f =? FSBL_FLAGS_SECURE) secure)
    ((if secure then bl32_spsr else bl33_spsr) f =? wanted_spsr secure f) = true).
  { rewrite Ha in Hf. by apply Z.eqb_eq. }
  clear Ha. by_flags f; [|by destruct secure; vm_compute].
  intros x. rewrite (wanted_low secure x). unfold skipped, bl32_spsr, bl33_spsr.
  pose proof (fields_low x) as (Hc & He & Hs & Hn & Hx). destruct secure; by rewrite Hc, He, Hs, Hn, Hx.
Qed.

Lemma entry_code secure p image : applies secure p = true -> entry_for secure p image =
  set_entry p (set_ep_spsr ((if secure then bl32_spsr else bl33_spsr) (flags p)) image).
Proof.
  intros Ha. rewrite spsr_code by done. unfold entry_for, set_entry, set_pc, set_ep_spsr, set_attr, EP_SET_EE.
  cbn [ep_attr ep_pc ep_spsr ep_args]. f_equal. f_equal.
  enough (Hf : Bool.eqb (Z.testbit (flags p) 1) (get_fsbl_endian (flags p) =? SPSR_E_BIG) = true)
    by by apply eqb_prop in Hf as ->.
  by_flags (flags p); [|by vm_compute]. intros x.
  pose proof (fields_low x) as (_ & _ & _ & <- & _). change 128 with (2 ^ 7). by rewrite Z.mod_pow2_bits_low by lia.
Qed.

Lemma set_ee_twice x a b : a = EP_EE_BIG \/ a = EP_EE_LITTLE -> EP_SET_EE (EP_SET_EE x a) b = EP_SET_EE x b.
Proof.
  intros Ha. unfold EP_SET_EE. rewrite Z.land_lor_distr_l, <- Z.land_assoc, Z.land_diag.
  assert ((a .& not32 0x2) = 0) as -> by by destruct Ha as [-> | ->]. by rewrite Z.lor_0_r.
Qed.

Lemma set_ee_security x a : a = EP_EE_BIG \/ a = EP_EE_LITTLE ->
  GET_SECURITY_STATE (EP_SET_EE x a) = GET_SECURITY_STATE x.
Proof.
  intros Ha. unfold EP_SET_EE, GET_SECURITY_STATE. rewrite Z.land_lor_distr_l, <- Z.land_assoc.
  change (not32 0x2 .& 0x1) with 0x1.
  assert ((a .& 0x1) = 0) as -> by by destruct Ha as [-> | ->]. by rewrite Z.lor_0_r.
Qed.

Lemma ee_cases (b : bool) : (if b then EP_EE_BIG else EP_EE_LITTLE) = EP_EE_BIG \/
  (if b then EP_EE_BIG else EP_EE_LITTLE) = EP_EE_LITTLE.
Proof. destruct b; auto. Qed.

(** A later partition overwrites what an earlier one has left. *)
Lemma chosen_over secure ps p spsr image :
  set_entry p (set_ep_spsr spsr (chosen secure ps image)) = set_entry p (set_ep_spsr spsr image).
Proof.
  unfold chosen. destruct (last _) as [q|]; [|done].
  unfold entry_for, set_entry, set_pc, set_ep_spsr, set_attr. cbn [ep_attr ep_pc ep_spsr ep_args].
  by rewrite <- (set_ee_twice (ep_attr image) (if Z.testbit (flags q) 1 then EP_EE_BIG else EP_EE_LITTLE))
    by apply ee_cases.
Qed.

Definition turn (im : images) (p : xfsbl_partition) : images :=
  if skipped (flags p) then im else hand_over p im.

Lemma turns_chosen ps im : foldl turn im ps =
  Images (chosen true ps (bl32_image_ep_info im)) (chosen false ps (bl33_image_ep_info im)).
Proof.
  induction ps as [|p ps IH] using rev_ind; [by destruct im|].
  rewrite foldl_app. simpl. rewrite IH. unfold turn, hand_over.
  assert (Hc : forall secure image, chosen secure (ps ++ [p]) image =
    if applies secure p
    then set_entry p (set_ep_spsr ((if secure then bl32_spsr else bl33_spsr) (flags p)) image)
    else chosen secure ps image).
  { intros secure image. unfold chosen. rewrite List.filter_app. simpl.
    destruct (applies secure p) eqn:Ha; [|by rewrite app_nil_r]. by rewrite last_snoc, entry_code. }
  rewrite !Hc, !applies_code. destruct (skipped (flags p)); [done|].
  destruct (get_fsbl_ss (flags p) =? FSBL_FLAGS_SECURE); simpl; by rewrite chosen_over.
Qed.

(** ** The hand-off *)

Section Proofs.
Context `{Env} {V : Type} `{!Has ipi V} `{!Has pm V} `{!Has plat_vars V} `{!Has timer V} `{!Has images V}.
Context (bl31_end : Z).
Implicit Types (d : Dev) (l : list event) (h : list lock_id) (v : V).

(** Memory holds the structure. *)
Definition in_memory (addr : Z) (ps : list xfsbl_partition) : Prop :=
  (forall d i m, XLNX !! i = Some m -> u8 (hw_read W8 (addr + Z.of_nat i) d).1 = m) /\
  (forall d, u32 (hw_read W32 (addr + 4) d).1 = Z.of_nat (length ps)) /\
  (forall d i p, ps !! i = Some p ->
     u64 (hw_read W64 (addr + 8 + 16 * Z.of_nat i + 8) d).1 = flags p /\
     u64 (hw_read W64 (addr + 8 + 16 * Z.of_nat i) d).1 = entry_point p).

Lemma magic_run addr ps d l h v : in_memory addr ps -> exists d' l',
  magic_differs addr 0 XLNX (St d l h v) = (Ret false, St d' l' h v).
Proof.
  intros (Hm & _). unfold XLNX, magic_differs, read_magic. run.
  change 0 with (Z.of_nat 0) at 1. rewrite (Hm _ 0%nat 0x58) by done. cbn [Z.eqb Pos.eqb negb]. run.
  change (0 + 1) with (Z.of_nat 1). rewrite (Hm _ 1%nat 0x4c) by done. cbn [Z.eqb Pos.eqb negb]. run.
  change (Z.of_nat 1 + 1) with (Z.of_nat 2). rewrite (Hm _ 2%nat 0x4e) by done. cbn [Z.eqb Pos.eqb negb]. run.
  change (Z.of_nat 2 + 1) with (Z.of_nat 3). rewrite (Hm _ 3%nat 0x58) by done. cbn [Z.eqb Pos.eqb negb]. run.
  by do 2 eexists.
Qed.

Lemma partitions_run addr ps d l h v : in_memory addr ps -> Z.of_nat (length ps) <= FSBL_MAX_PARTITIONS ->
  exists d' l', partitions 9 addr 0 (St d l h v) = (Ret tt, St d' l' h (sput (foldl turn (sget v) ps) v)).
Proof.
  intros (_ & Hn & Hp) Hlen. unfold FSBL_MAX_PARTITIONS in *.
  enough (Hgen : forall post pre fuel d l v, ps = pre ++ post -> (length post < fuel)%nat -> exists d' l',
    partitions fuel addr (Z.of_nat (length pre)) (St d l h v) =
    (Ret tt, St d' l' h (sput (foldl turn (sget v) post) v))) by (apply (Hgen ps []); [done|lia]).
  clear d l v. induction post as [|p post IH]; intros pre [|fuel] d l v Hps Hf; simpl in *; try lia.
  - unfold read_num_entries. run. rewrite Hn, Hps, app_nil_r, Z.ltb_irrefl. run.
    rewrite sput_sget. by do 2 eexists.
  - assert (Hlt : (length pre < length ps)%nat) by (rewrite Hps, length_app; simpl; lia).
    assert (Hi : ps !! length pre = Some p) by (rewrite Hps; by apply list_lookup_middle).
    unfold read_num_entries, read_flags, read_entry_point. run.
    rewrite Hn, !(proj2 (Z.ltb_lt _ _)) by (unfold FSBL_MAX_PARTITIONS; lia). run.
    rewrite (proj1 (Hp _ _ _ Hi)).
    replace (Z.of_nat (length pre) + 1) with (Z.of_nat (length (pre ++ [p]))) by (rewrite length_app; simpl; lia).
    rewrite run_bind_if. unfold turn at 2.
    destruct (skipped (flags p)); run.
    + apply (IH (pre ++ [p])); [by rewrite <- (assoc_L (++))|lia].
    + rewrite (proj2 (Hp _ _ _ Hi)). destruct p as [e f]. cbn [entry_point flags].
      edestruct (IH (pre ++ [Partition e f]) fuel) as (d' & l' & E);
        [by rewrite <- (assoc_L (++))|lia|]. rewrite E.
      do 2 eexists. by rewrite sget_sput, sput_sput.
Qed.

Lemma handover_run addr ps d l h v :
  addr < BL31_BASE \/ bl31_end < addr -> addr <> 0 ->
  in_memory addr ps -> Z.of_nat (length ps) <= FSBL_MAX_PARTITIONS ->
  exists d' l', fsbl_atf_handover bl31_end addr (St d l h v) =
    (Ret FSBL_HANDOFF_SUCCESS, St d' l' h
      (sput (Images (chosen true ps (bl32_image_ep_info (sget v)))
                    (chosen false ps (bl33_image_ep_info (sget v)))) v)).
Proof.
  intros Hout Hne Hmem Hlen. unfold fsbl_atf_handover.
  assert ((addr <? BL31_BASE) || (addr >? bl31_end) = true) as ->.
  { apply orb_true_iff. rewrite Z.gtb_ltb, !Z.ltb_lt. lia. }
  rewrite (proj2 (Z.eqb_neq _ _) Hne). run.
  destruct (magic_run addr ps d l h v Hmem) as (d1 & l1 & E1). rewrite (bind_run _ _ _ _ _ E1).
  pose proof Hmem as (_ & Hn & _). unfold read_num_entries. run. rewrite Hn, Z.gtb_ltb.
  rewrite (proj2 (Z.ltb_ge _ _) Hlen). edestruct partitions_run as (d2 & l2 & E2); [done..|].
  rewrite (bind_run _ _ _ _ _ E2), turns_chosen. run. by do 2 eexists.
Qed.

Lemma chosen_security secure ps image :
  GET_SECURITY_STATE (ep_attr (chosen secure ps image)) = GET_SECURITY_STATE (ep_attr image).
Proof. unfold chosen. destruct (last _); [|done]. apply set_ee_security, ee_cases. Qed.

(** The hand-off of the FSBL.  With a well-formed structure of at most
    eight partitions in memory the hand-off succeeds, and each of the two entry
    points is that of the last partition that applies to its world (for the first
    processor, at EL1 or EL2, not secure EL2), with the state and endianness the
    partition asks for, or is left as it was when there is none; the security bits
    of the two images are not changed. *)
Theorem handover_last_wins addr ps d l h v :
  addr < BL31_BASE \/ bl31_end < addr -> addr <> 0 ->
  in_memory addr ps -> Z.of_nat (length ps) <= FSBL_MAX_PARTITIONS ->
  exists d' l',
    fsbl_atf_handover bl31_end addr (St d l h v) =
      (Ret FSBL_HANDOFF_SUCCESS, St d' l' h
        (sput (Images (chosen true ps (bl32_image_ep_info (sget v)))
                      (chosen false ps (bl33_image_ep_info (sget v)))) v)) /\
    forall secure image,
      GET_SECURITY_STATE (ep_attr (chosen secure ps image)) = GET_SECURITY_STATE (ep_attr image).
Proof.
  intros Hout Hne Hmem Hlen. destruct (handover_run addr ps d l h v Hout Hne Hmem Hlen) as (d' & l' & Er).
  exists d', l'. split; [done|]. intros secure image. apply chosen_security.
Qed.

(** ** Which levels can be entered *)

(** Monitor mode is entered by neither image, and EL2 or Hyp mode not by the
    secure one. *)
Definition MODE32_mon : Z := 0x6.
Definition level_ok (secure : bool) (spsr : Z) : bool :=
  if GET_RW spsr =? MODE_RW_64 then GET_EL spsr <? (if secure then MODE_EL2 else 3)
  else negb (GET_M32 spsr =? MODE32_mon) && negb (secure && (GET_M32 spsr =? MODE32_hyp)).

Definition safe_images (im : images) : Prop :=
  GET_SECURITY_STATE (ep_attr (bl32_image_ep_info im)) = SECURE /\
  GET_SECURITY_STATE (ep_attr (bl33_image_ep_info im)) = NON_SECURE /\
  level_ok true (ep_spsr (bl32_image_ep_info im)) = true /\
  level_ok false (ep_spsr (bl33_image_ep_info im)) = true.

Lemma hand_over_safe p im : safe_images im -> safe_images (hand_over p im).
Proof.
  intros (H1 & H2 & H3 & H4). unfold hand_over. bool_case; unfold safe_images;
    cbn [bl32_image_ep_info bl33_image_ep_info set_entry set_ep_spsr set_pc set_attr ep_attr ep_spsr];
    rewrite set_ee_security by apply ee_cases; (split; [done|]); (split; [done|]).
  - split; [|done]. unfold bl32_spsr, get_fsbl_endian. repeat bool_case; reflexivity.
  - split; [done|]. unfold bl33_spsr, get_fsbl_endian. repeat bool_case; reflexivity.
Qed.

Definition keeps_safe (v v' : V) : Prop := safe_images (sget v) -> safe_images (sget v').
#[local] Instance keeps_safe_preorder : PreOrder keeps_safe.
Proof. split; unfold keeps_safe; [by intros v|intros v1 v2 v3 H1 H2 H3; auto]. Qed.

Lemma safe_partitions fuel addr i : respects (on_vars keeps_safe) (partitions fuel addr i).
Proof.
  revert i. induction fuel as [|fuel IH]; intros i; simpl; [apply respects_stop, _|].
  apply respects_bind; [apply _|apply frame_read, _|]. intros n.
  repeat (apply respects_if; auto with respects).
  apply respects_bind; [apply _|apply frame_read, _|]. intros f. apply respects_bind; [apply _| |auto].
  apply respects_if; [apply respects_ret, _|].
  apply respects_bind; [apply _|apply frame_read, _|]. intros e. apply frame_modv. intros v.
  unfold keeps_safe. rewrite sget_sput. apply hand_over_safe.
Qed.

Lemma safe_magic addr i magic : respects (on_vars keeps_safe) (magic_differs addr i magic).
Proof.
  revert i. induction magic as [|m magic IH]; intros i; simpl; [apply respects_ret, _|].
  apply respects_bind; [apply _|apply frame_read, _|]. intros x. apply respects_if; [apply respects_ret, _|auto].
Qed.

Lemma safe_handover addr : respects (on_vars keeps_safe) (fsbl_atf_handover bl31_end addr).
Proof.
  unfold fsbl_atf_handover. apply respects_bind; [apply _|apply respects_assert, _|]. intros [].
  apply respects_if; [apply respects_ret, _|]. apply respects_bind; [apply _|apply safe_magic|]. intros bad.
  apply respects_if; [apply respects_ret, _|]. apply respects_bind; [apply _|apply frame_read, _|]. intros n.
  apply respects_if.
  - apply respects_bind; [apply _|apply frame_read, _|]. intros _. apply respects_ret, _.
  - apply respects_bind; [apply _|apply safe_partitions|]. intros _. apply respects_ret, _.
Qed.

(** ** The early set-up *)

Context `{!Indep images ipi V} `{!Indep images plat_vars V} `{!Indep images timer V}.
Context `{!Indep ipi plat_vars V} `{!Indep ipi timer V} `{!Indep ipi images V}.
Context `{!Indep timer images V}.

(** The silicon version is read once and kept. *)
Lemma silicon_run d l h v : exists r d' l' (p : plat_vars),
  zynqmp_get_silicon_ver (St d l h v) = (Ret r, St d' l' h (sput p v)) /\
  (zynqmp_sec_entry p = zynqmp_sec_entry (sget v)).
Proof.
  unfold zynqmp_get_silicon_ver. run. bool_case; run.
  - by do 4 eexists.
  - exists (silicon_ver (sget v)), d, l, (sget v). by rewrite sput_sget.
Qed.

(** The frequency register, which the FSBL sets up, is not 0. *)
Definition freq_set : Prop := forall d, 0 < u32 (hw_read W32 IOU_SCNTRS_BASEFREQ d).1.

Lemma freq_run_pos d l h v : freq_set -> exists r d' l' (p : plat_vars),
  zynqmp_get_syscnt_freq2 (St d l h v) = (Ret r, St d' l' h (sput p v)) /\ 0 < r < 2 ^ 32.
Proof.
  intros Hf. unfold zynqmp_get_syscnt_freq2.
  destruct (silicon_run d l h v) as (ver & d1 & l1 & p & E1 & _). rewrite (bind_run _ _ _ _ _ E1).
  bool_case; run; do 3 eexists; exists p; (split; [reflexivity|]); [lia|].
  split; [apply Hf|apply u32_range].
Qed.

(** Nothing but the IPI table, the platform's statics, the timer and the images
    has changed. *)
Definition only_early (v v' : V) : Prop :=
  forall (S : Type) (HS : Has S V), Indep S ipi V -> Indep S plat_vars V -> Indep S timer V ->
    Indep S images V -> sget (S := S) v' = sget v.

(** What the early set-up leaves. *)
Definition early (im : images) (v v' : V) : Prop :=
  sget v' = im /\ ipi_up (sget v') /\ (exists f, timer_for f (sget v') /\ 0 < f < 2 ^ 32) /\ only_early v v'.

Lemma config_run d l h v : freq_set -> exists d' l' f (t : timer) (p : plat_vars),
  zynqmp_config_setup (St d l h v) = (Ret tt, St d' l' h (sput t (sput p (sput ipi_booted v)))) /\
  timer_for f t /\ 0 < f < 2 ^ 32.
Proof.
  intros Hf. unfold zynqmp_config_setup, zynqmp_ipi_config_table_init, ipi_config_table_init,
    zynqmp_print_platform_name, zynqmp_get_rtl_ver. run.
  change (IpiVars _ _) with ipi_booted. set (v0 := sput ipi_booted v).
  destruct (silicon_run d l h v0) as (r1 & d1 & l1 & p1 & E1 & _). rewrite (bind_run _ _ _ _ _ E1). run.
  match goal with |- context [if ?b then _ else _] => destruct b end; run.
  - match goal with |- context [bind zynqmp_get_syscnt_freq2 _ (St ?d2 ?l2 _ _)] =>
      destruct (freq_run_pos d2 l2 h (sput p1 v0) Hf) as (f2 & d3 & l3 & p3 & E3 & _) end.
    rewrite (bind_run _ _ _ _ _ E3). run.
    match goal with |- context [generic_delay_timer_init _ (St ?d4 ?l4 _ ?v4)] =>
      destruct (freq_run_pos d4 l4 h v4 Hf) as (f & d5 & l5 & p5 & E5 & Hp) end.
    destruct (init_run _ f _ _ _ _ _ _ _ E5) as (t & E6 & Ht); [lia|].
    exists d5, l5, f, t, p5. rewrite E6. by rewrite !sput_sput.
  - match goal with |- context [generic_delay_timer_init _ (St ?d4 ?l4 _ ?v4)] =>
      destruct (freq_run_pos d4 l4 h v4 Hf) as (f & d5 & l5 & p5 & E5 & Hp) end.
    destruct (init_run _ f _ _ _ _ _ _ _ E5) as (t & E6 & Ht); [lia|].
    exists d5, l5, f, t, p5. rewrite E6. by rewrite !sput_sput.
Qed.

Lemma bootmode_run d l h v : ipi_up (sget v) -> pmu_answers -> pm_secure_lock ∉ h -> exists r d' l',
  zynqmp_get_bootmode (St d l h v) = (Ret r, St d' l' h v).
Proof.
  intros Hup Hans Hh. unfold zynqmp_get_bootmode, pm_mmio_read.
  destruct (served_sync_out1 v Hup Hans any_trace [PM_MMIO_READ; CRL_APB_BOOT_MODE_USER] (uninit 0)
    (accepts_any _) ltac:(simpl; lia) d l h Hh) as ([res r] & d1 & n1 & E1 & _).
  rewrite (bind_run _ _ _ _ _ E1). cbn match. bool_case; run; by do 3 eexists.
Qed.

(** The images before any of them is set, and the build-time defaults. *)
Definition heads (im : images) : images :=
  Images (set_attr (SET_SECURITY_STATE 0 SECURE) (bl32_image_ep_info im))
         (set_attr (SET_SECURITY_STATE 0 NON_SECURE) (bl33_image_ep_info im)).
Definition defaults (im : images) : images :=
  Images (set_ep_spsr 0 (set_pc BL32_BASE (bl32_image_ep_info im)))
         (set_ep_spsr (SPSR_64 MODE_EL2 MODE_SP_ELX DISABLE_ALL_EXCEPTIONS)
           (set_pc PLAT_ARM_NS_IMAGE_BASE (bl33_image_ep_info im))).
Definition handed (ps : list xfsbl_partition) (im : images) : images :=
  Images (chosen true ps (bl32_image_ep_info im)) (chosen false ps (bl33_image_ep_info im)).

Lemma early_run addr ps d l h v :
  freq_set -> pmu_answers -> pm_secure_lock ∉ h ->
  (forall d, u32 (hw_read W32 PMU_GLOBAL_GEN_STORAGE6 d).1 = addr) ->
  addr < BL31_BASE \/ bl31_end < addr ->
  addr = 0 \/ in_memory addr ps /\ Z.of_nat (length ps) <= FSBL_MAX_PARTITIONS ->
  exists d' l' v' im, bl31_early_platform_setup2 bl31_end 0 0 (St d l h v) = (Ret tt, St d' l' h v') /\
    early im v v' /\
    (im = defaults (heads (sget v)) \/ addr <> 0 /\ im = handed ps (heads (sget v))).
Proof.
  intros Hf Hans Hh Haddr Hout Hmem. unfold bl31_early_platform_setup2, zynqmp_get_uart_clk. run.
  destruct (silicon_run d l h v) as (r0 & d0 & l0 & p0 & E0 & _). rewrite (bind_run _ _ _ _ _ E0). run.
  match goal with |- context [bind zynqmp_config_setup _ (St ?d1 ?l1 _ ?v1)] =>
    destruct (config_run d1 l1 h v1 Hf) as (d2 & l2 & f & t & p & E2 & Ht & Hr) end.
  rewrite (bind_run _ _ _ _ _ E2). cbn [Z.eqb]. run. fold (heads (sget v)).
  set (v2 := sput (heads (sget v)) _).
  assert (Hup2 : ipi_up (sget v2)) by (unfold v2, ipi_up; by autorewrite with run).
  assert (He : forall im, early im v (sput im v2)).
  { intros im. unfold early, v2. rewrite sput_sput. autorewrite with run. split; [done|]. split; [done|].
    split; [by exists f|]. intros S HS H1 H2 H3 H4. by autorewrite with run. }
  match goal with |- context [bind zynqmp_get_bootmode _ (St ?d1 ?l1 _ _)] =>
    destruct (bootmode_run d1 l1 h v2 Hup2 Hans Hh) as (mode & d3 & l3 & E3) end.
  rewrite (bind_run _ _ _ _ _ E3), Haddr.
  assert (Hdef : exists d' l' v' im, bl31_set_default_config (St d3 l3 h v2) = (Ret tt, St d' l' h v') /\
    early im v v' /\ (im = defaults (heads (sget v)) \/ addr <> 0 /\ im = handed ps (heads (sget v)))).
  { unfold bl31_set_default_config. run. do 4 eexists. split; [reflexivity|].
    split; [apply He|]. left. unfold v2. by rewrite sget_sput. }
  destruct (mode =? ZYNQMP_BOOTMODE_JTAG); [exact Hdef|].
  destruct (decide (addr = 0)) as [Hz|Hz].
  - assert (E4 : fsbl_atf_handover bl31_end addr (St d3 l3 h v2) = (Ret FSBL_HANDOFF_NO_STRUCT, St d3 l3 h v2))
      by (rewrite Hz; reflexivity).
    rewrite (bind_run _ _ _ _ _ E4). exact Hdef.
  - destruct Hmem as [|[Hmem Hlen]]; [done|].
    destruct (handover_run addr ps d3 l3 h v2 Hout Hz Hmem Hlen) as (d4 & l4 & E4).
    rewrite (bind_run _ _ _ _ _ E4). run. do 4 eexists. split; [reflexivity|]. split; [apply He|].
    right. split; [done|]. unfold handed, v2. by rewrite !sget_sput.
Qed.

(** Only the images are at stake: what comes before their heads are written does
    not touch them. *)
Abbreviation same_images := (on_vars (fun v v' : V => sget (S := images) v = sget v')).
#[local] Instance same_images_preorder : PreOrder (fun v v' : V => sget (S := images) v = sget v').
Proof. split; [by intros v|intros v1 v2 v3 H1 H2; congruence]. Qed.

Ltac same_images :=
  repeat first
    [ solve [unfold mmio_read_32; auto with respects]
    | apply respects_if
    | apply respects_bind; [apply _| |intros ?]
    | match goal with |- respects _ (let (_, _) := ?x in _) => destruct x end ].

Lemma same_clock : respects same_images zynqmp_get_uart_clk.
Proof. unfold zynqmp_get_uart_clk, zynqmp_get_silicon_ver. same_images. Qed.
Lemma same_config : respects same_images zynqmp_config_setup.
Proof.
  unfold zynqmp_config_setup, zynqmp_ipi_config_table_init, ipi_config_table_init, zynqmp_print_platform_name,
    zynqmp_get_rtl_ver, generic_delay_timer_init, generic_delay_timer_init_args, timer_init,
    zynqmp_get_syscnt_freq2, zynqmp_get_silicon_ver.
  same_images.
Qed.

Lemma bind_inv {A B} (m : M V A) (k : A -> M V B) s b s' :
  bind m k s = (Ret b, s') -> exists a s1, m s = (Ret a, s1) /\ k a s1 = (Ret b, s').
Proof. unfold bind. destruct (m s) as [[a|x] s1]; [|done]. by exists a, s1. Qed.

Lemma respects_inv {A} (R : st V -> st V -> Prop) (m : M V A) s a s' :
  respects R m -> m s = (Ret a, s') -> R s s'.
Proof. intros Hm E. specialize (Hm s). by rewrite E in Hm. Qed.

(** The request for the boot mode leaves the statics alone. *)
Lemma same_words base first n room : respects same_images (read_words base first n room).
Proof.
  revert first room. induction n as [|n IH]; intros first room; simpl; [auto with respects|].
  apply respects_bind; [apply _|apply frame_read, _|]. intros w. destruct room; [auto with respects|].
  apply respects_bind; [apply _|apply IH|]. intros ws. auto with respects.
Qed.
Lemma same_bootmode : respects same_images zynqmp_get_bootmode.
Proof.
  unfold zynqmp_get_bootmode, pm_mmio_read, sync_out1, sync_out, pm_ipi_send_sync, pm_ipi_send_common,
    ipi_mb_notify, ipi_poke, IPI_REG_BASE, IPI_BIT_MASK, ipi_entry, pm_ipi_buff_read, mmio_write_32.
  same_images; try apply same_words.
Qed.

Lemma safe_heads im : level_ok true (ep_spsr (bl32_image_ep_info im)) = true ->
  level_ok false (ep_spsr (bl33_image_ep_info im)) = true -> safe_images (heads im).
Proof. done. Qed.

Lemma safe_defaults im : safe_images im -> safe_images (defaults im).
Proof. intros (H1 & H2 & _). done. Qed.

(** C25: The early set-up never prepares an entry at EL3 or across worlds.  Whatever
    the hand-off structure holds (also if it changes while it is read), whatever
    the boot mode and whatever the PMU and the registers answer: when the early
    set-up of BL31 returns, the image for the normal world is marked non-secure,
    the one for OP-TEE secure, neither is entered at EL3 or in monitor mode, and
    the secure one not at EL2; from zeroed statics. *)
Theorem early_setup_safe arg0 arg1 s s' :
  bl31_early_platform_setup2 bl31_end arg0 arg1 s = (Ret tt, s') ->
  level_ok true (ep_spsr (bl32_image_ep_info (sget (vars s)))) = true ->
  level_ok false (ep_spsr (bl33_image_ep_info (sget (vars s)))) = true ->
  safe_images (sget (vars s')).
Proof.
  intros Hr H32 H33. unfold bl31_early_platform_setup2 in Hr.
  apply bind_inv in Hr as (clk & s1 & E1 & Hr). apply (respects_inv _ _ _ _ _ same_clock) in E1.
  apply bind_inv in Hr as (c1 & s2 & E2 & Hr). apply (respects_inv same_images) in E2; [|auto with respects].
  apply bind_inv in Hr as (c2 & s3 & E3 & Hr). apply (respects_inv same_images) in E3; [|auto with respects].
  apply bind_inv in Hr as ([] & s4 & E4 & Hr). apply (respects_inv _ _ _ _ _ same_config) in E4.
  apply bind_inv in Hr as ([] & s5 & E5 & Hr). apply (respects_inv same_images) in E5; [|auto with respects].
  apply bind_inv in Hr as ([] & s6 & E6 & Hr). apply (respects_inv same_images) in E6; [|auto with respects].
  apply bind_inv in Hr as ([] & s7 & E7 & Hr). destruct s6 as [d6 l6 h6 v6]. rewrite run_mods in E7.
  injection E7 as <-. fold (heads (sget v6)) in Hr.
  assert (Hs7 : safe_images (sget (vars (St d6 l6 h6 (sput (heads (sget v6)) v6))))).
  { simpl. rewrite sget_sput. unfold on_vars in *. apply safe_heads; simpl in E6; congruence. }
  apply bind_inv in Hr as (addr & s8 & E8 & Hr). apply (respects_inv same_images) in E8; [|apply frame_read, _].
  apply bind_inv in Hr as (mode & s9 & E9 & Hr). apply (respects_inv _ _ _ _ _ same_bootmode) in E9.
  assert (Hs9 : safe_images (sget (vars s9))) by (unfold on_vars in *; rewrite E8, E9 in Hs7; exact Hs7).
  assert (Hdef : forall s0, safe_images (sget (vars s0)) -> bl31_set_default_config s0 = (Ret tt, s') ->
    safe_images (sget (vars s'))).
  { intros [d0 l0 h0 v0] Hs0 Ed. unfold bl31_set_default_config in Ed. rewrite run_mods in Ed.
    injection Ed as <-. simpl in *. rewrite sget_sput. by apply safe_defaults in Hs0. }
  destruct (mode =? ZYNQMP_BOOTMODE_JTAG); [by eapply Hdef|].
  apply bind_inv in Hr as (r & s10 & E10 & Hr). apply (respects_inv _ _ _ _ _ (safe_handover addr)) in E10.
  assert (Hs10 : safe_images (sget (vars s10))) by by apply E10.
  destruct r; try (by injection Hr); [by injection Hr as <-|by eapply Hdef].
Qed.

End Proofs.

(** ** A board with a hand-off structure

    At 0x80000: a 64-bit OP-TEE for S-EL1 (entry 0x60000000), then two partitions
    for the normal world, of which the second (0x8000000, EL2) is used.  The boot
    mode is not JTAG. *)
Definition board_parts : list xfsbl_partition :=
  [Partition 0x60000000 0x0c; Partition 0x1000 0x08; Partition 0x8000000 0x10; Partition 0x2000 0x38].
Definition images_bss : images := Images (EpInfo 0 0 0 (repeat 0 8)) (EpInfo 0 0 0 (repeat 0 8)).

Definition struct_at (addr : Z) (ps : list xfsbl_partition) (w : width) (a : Z) : Z :=
  match w with
  | W8 => nth (Z.to_nat (a - addr)) XLNX 0
  | W32 => Z.of_nat (length ps)
  | W64 => match ps !! Z.to_nat ((a - addr - 8) / 16) with
           | Some p => if (a - addr - 8) mod 16 =? 0 then entry_point p else flags p
           | None => 0
           end
  end.

Definition handoff_board : Env := {|
  Dev := unit;
  hw_read w a d :=
    (if (0x80000 <=? a) && (a <? 0x80100) then struct_at 0x80000 board_parts w a
     else if a =? PMU_GLOBAL_GEN_STORAGE6 then 0x80000
     else if a =? IOU_SCNTRS_BASEFREQ then 100000000
     else if a =? resp_buffer + 4 then 2 else 0, d);
  hw_write _ _ _ d := d;
  hw_call _ _ d := (0, d);
  poll_bound := 1;
  uninit k := Z.of_nat k
|}.

Lemma board_in_memory : in_memory (H := handoff_board) 0x80000 board_parts.
Proof.
  split; [|split].
  - intros [] i m Hm. destruct i as [|[|[|[|]]]]; simplify_eq/=; reflexivity.
  - intros []. reflexivity.
  - intros [] i p Hp. destruct i as [|[|[|[|]]]]; simplify_eq/=; split; reflexivity.
Qed.

Lemma handover_last_wins_witness : exists d' l',
  fsbl_atf_handover (H := handoff_board) 0x7ffff 0x80000 (St (H := handoff_board) tt [] [] images_bss) =
    (Ret FSBL_HANDOFF_SUCCESS, St (H := handoff_board) d' l' []
      (Images (EpInfo 0 0x60000000 (SPSR_64 MODE_EL1 MODE_SP_ELX DISABLE_ALL_EXCEPTIONS) (repeat 0 8))
              (EpInfo 0 0x8000000 (SPSR_64 MODE_EL2 MODE_SP_ELX DISABLE_ALL_EXCEPTIONS) (repeat 0 8)))).
Proof.
  destruct (handover_last_wins (H := handoff_board) 0x7ffff 0x80000 board_parts tt [] [] images_bss)
    as (d' & l' & Er & _).
  - right. reflexivity.
  - discriminate.
  - apply board_in_memory.
  - discriminate.
  - exists d', l'. exact Er.
Defined.

(** The statics of the early set-up alone. *)
Record early_image := EarlyImage {
  ei_ipi : ipi; ei_pm : pm; ei_plat : plat_vars; ei_timer : timer; ei_images : images }.
#[export] Instance ei_has_ipi : Has ipi early_image := {
  sget := ei_ipi; sput x v := EarlyImage x (ei_pm v) (ei_plat v) (ei_timer v) (ei_images v);
  sget_sput _ _ := eq_refl; sput_sget v := match v with EarlyImage _ _ _ _ _ => eq_refl end;
  sput_sput _ _ _ := eq_refl }.
#[export] Instance ei_has_pm : Has pm early_image := {
  sget := ei_pm; sput x v := EarlyImage (ei_ipi v) x (ei_plat v) (ei_timer v) (ei_images v);
  sget_sput _ _ := eq_refl; sput_sget v := match v with EarlyImage _ _ _ _ _ => eq_refl end;
  sput_sput _ _ _ := eq_refl }.
#[export] Instance ei_has_plat : Has plat_vars early_image := {
  sget := ei_plat; sput x v := EarlyImage (ei_ipi v) (ei_pm v) x (ei_timer v) (ei_images v);
  sget_sput _ _ := eq_refl; sput_sget v := match v with EarlyImage _ _ _ _ _ => eq_refl end;
  sput_sput _ _ _ := eq_refl }.
#[export] Instance ei_has_timer : Has timer early_image := {
  sget := ei_timer; sput x v := EarlyImage (ei_ipi v) (ei_pm v) (ei_plat v) x (ei_images v);
  sget_sput _ _ := eq_refl; sput_sget v := match v with EarlyImage _ _ _ _ _ => eq_refl end;
  sput_sput _ _ _ := eq_refl }.
#[export] Instance ei_has_images : Has images early_image := {
  sget := ei_images; sput x v := EarlyImage (ei_ipi v) (ei_pm v) (ei_plat v) (ei_timer v) x;
  sget_sput _ _ := eq_refl; sput_sget v := match v with EarlyImage _ _ _ _ _ => eq_refl end;
  sput_sput _ _ _ := eq_refl }.
#[export] Hint Extern 1 (Indep _ _ early_image) => (intros ? ?; reflexivity) : typeclass_instances.

Definition early_bss : early_image :=
  EarlyImage (IpiVars None 0) pm_bss (PlatVars 0 0) (TimerVars false 0 0) images_bss.

Lemma early_setup_safe_witness :
  let r := bl31_early_platform_setup2 (H := handoff_board) 0x7ffff 0 0
             (St (H := handoff_board) tt [] [] early_bss) in
  r.1 = Ret tt /\ safe_images (ei_images (vars r.2)).
Proof.
  cbv zeta.
  assert (E1 : (bl31_early_platform_setup2 (H := handoff_board) 0x7ffff 0 0
    (St (H := handoff_board) tt [] [] early_bss)).1 = Ret tt) by (vm_compute; reflexivity).
  destruct (bl31_early_platform_setup2 (H := handoff_board) 0x7ffff 0 0
    (St (H := handoff_board) tt [] [] early_bss)) as [o s'] eqn:E. cbn [fst snd] in *. subst o.
  split; [reflexivity|].
  apply (early_setup_safe (H := handoff_board) (V := early_image) 0x7ffff 0 0 _ _ E); reflexivity.
Defined.

End PlatStartup.
