(* ===== verification/XlatPlat.v ===== *)
(** * The address space of the monitor

    The regions that [bl31_plat_arch_setup] of zynqmp/bl31_zynqmp_setup.c maps: the
    sections of BL31, as bl31/bl31.ld.S lays them out, and the three windows of
    registers of zynqmp/aarch64/zynqmp_common.c.  For every layout that the linker
    script allows, the tables that [Xlat.setup_page_tables] builds fit into the five
    that are reserved, and give exactly the address space [address_space]. *)

From S2P Require Import Prelude Machine Gic Swdt PmDefs PmIpi PmClient PmRestart CtxMgmt Cci PsciPlat PlatStartup Xlat XlatWalk.
From Stdlib Require Import String.
From stdpp Require Import strings sorting.
Import CtxMgmt PlatStartup Xlat XlatWalk.
#[local] Open Scope Z_scope.
#[local] Open Scope c_scope.

Module XlatPlat.

(** ** The regions *)

Definition BL31_LIMIT : Z := 0x7ffff.
Definition DEVICE0_BASE : Z := 0xFF000000.
Definition DEVICE0_SIZE : Z := 0x00E00000.
Definition DEVICE1_BASE : Z := 0xF9000000.
Definition DEVICE1_SIZE : Z := 0x00800000.
Definition CRF_APB_BASE : Z := 0xFD1A0000.
Definition CRF_APB_SIZE : Z := 0x00600000.

(** What the linker decides: the sections of the image, and where the tables are. *)
Record layout := Layout {
  BL_CODE_BASE : Z; BL_CODE_END : Z;
  BL_RO_DATA_BASE : Z; BL_RO_DATA_END : Z;
  BL_COHERENT_RAM_BASE : Z; BL_COHERENT_RAM_END : Z;
  BL31_END : Z;
  xlat_tables_at : Z; base_table_at : Z
}.

Definition bl_regions (ld : layout) : list mmap_region :=
  [MAP_REGION_FLAT BL31_BASE (BL31_END ld - BL31_BASE) (MT_MEMORY .| MT_RW .| MT_SECURE);
   MAP_REGION_FLAT (BL_CODE_BASE ld) (BL_CODE_END ld - BL_CODE_BASE ld) (MT_CODE .| MT_SECURE);
   MAP_REGION_FLAT (BL_RO_DATA_BASE ld) (BL_RO_DATA_END ld - BL_RO_DATA_BASE ld) (MT_RO_DATA .| MT_SECURE);
   MAP_REGION_FLAT (BL_COHERENT_RAM_BASE ld) (BL_COHERENT_RAM_END ld - BL_COHERENT_RAM_BASE ld) (MT_DEVICE .| MT_RW .| MT_SECURE);
   no_region].

Definition plat_arm_mmap : list mmap_region :=
  [Region DEVICE0_BASE DEVICE0_BASE DEVICE0_SIZE (MT_DEVICE .| MT_RW .| MT_SECURE);
   Region DEVICE1_BASE DEVICE1_BASE DEVICE1_SIZE (MT_DEVICE .| MT_RW .| MT_SECURE);
   Region CRF_APB_BASE CRF_APB_BASE CRF_APB_SIZE (MT_DEVICE .| MT_RW .| MT_SECURE);
   no_region].
Definition plat_arm_get_mmap : list mmap_region := plat_arm_mmap.

(** The part of [bl31_plat_arch_setup] after the interconnect. *)
Definition map_el3 `{Env} {V} `{!Has xlat V} (ld : layout) : M V unit :=
  setup_page_tables (xlat_tables_at ld) (bl_regions ld) plat_arm_get_mmap ;;
  enable_mmu_el3 (base_table_at ld) 0.

(** ** The layouts of the linker script

    Text from BL31_BASE on, then read-only data, and the coherent memory at the end,
    each on page boundaries; the image ends at or below its limit. *)
Record linked (ld : layout) : Prop := {
  ld_code : BL_CODE_BASE ld = BL31_BASE;
  ld_order : BL31_BASE < BL_CODE_END ld /\ BL_CODE_END ld <= BL_RO_DATA_BASE ld /\ BL_RO_DATA_BASE ld < BL_RO_DATA_END ld /\
    BL_RO_DATA_END ld <= BL_COHERENT_RAM_BASE ld /\ BL_COHERENT_RAM_BASE ld < BL_COHERENT_RAM_END ld /\
    BL_COHERENT_RAM_END ld <= BL31_END ld /\ BL31_END ld <= BL31_LIMIT;
  ld_pages : Forall (fun a => (4096 | a)) [BL_CODE_END ld; BL_RO_DATA_BASE ld; BL_RO_DATA_END ld;
    BL_COHERENT_RAM_BASE ld; BL_COHERENT_RAM_END ld; BL31_END ld; xlat_tables_at ld];
  ld_tables : 0 <= xlat_tables_at ld /\ xlat_tables_at ld + 5 * 4096 <= 2 ^ 48
}.

(** ** The address space *)

Definition device : access := Access true true false ATTR_DEVICE_INDEX 2.
Definition code : access := Access false false false ATTR_IWBWA_OWBWA_NTR_INDEX 3.
Definition ro_data : access := Access false true false ATTR_IWBWA_OWBWA_NTR_INDEX 3.
Definition rw_data : access := Access true true false ATTR_IWBWA_OWBWA_NTR_INDEX 3.

Definition within (va lo hi : Z) : bool := (lo <=? va) && (va <? hi).

Definition address_space (ld : layout) (va : Z) : option access :=
  if within va (BL_CODE_BASE ld) (BL_CODE_END ld) then Some code
  else if within va (BL_RO_DATA_BASE ld) (BL_RO_DATA_END ld) then Some ro_data
  else if within va (BL_COHERENT_RAM_BASE ld) (BL_COHERENT_RAM_END ld) then Some device
  else if within va BL31_BASE (BL31_END ld) then Some rw_data
  else if within va DEVICE0_BASE (DEVICE0_BASE + DEVICE0_SIZE) || within va DEVICE1_BASE (DEVICE1_BASE + DEVICE1_SIZE) ||
          within va CRF_APB_BASE (CRF_APB_BASE + CRF_APB_SIZE) then Some device
  else None.

(** A register of every block that the code of the monitor uses. *)
Definition monitor_registers : list Z :=
  [Gic.PLAT_ARM_GICD_BASE; Gic.PLAT_ARM_GICC_BASE; Swdt.TTC2_BASE_ADDR; Swdt.HEARTBEAT; PmRestart.TTC3_BASE_ADDR;
   PmIpi.apu_base; PmIpi.req_buffer; PmIpi.resp_buffer; Cci.PLAT_ARM_CCI_BASE; PmClient.APU_PWRCTL; PmDefs.CRL_APB_BASE;
   PmDefs.PMU_GLOBAL_BASE; PmDefs.ZYNQMP_CSU_BASEADDR; PmDefs.ZYNQMP_RPU_GLBL_CNTL; PmDefs.IOU_TAPDLY_BYPASS;
   PmDefs.ZYNQMP_SD_DLL_CTRL; PmDefs.GGS_BASEADDR; PmDefs.PGGS_BASEADDR; PsciPlat.IOU_SCNTRS_BASEFREQ;
   PlatStartup.PMU_GLOBAL_GEN_STORAGE6; PlatStartup.CRL_APB_BOOT_MODE_USER; PlatStartup.ZYNQMP_UART_BASE].

(** ** The map is good *)

Section Layout.
Context (ld : layout) (Hld : linked ld).

Definition image_regions : list mmap_region := take 4 (bl_regions ld).
Definition windows : list mmap_region := take 3 plat_arm_mmap.
Definition all_regions : list mmap_region := image_regions ++ windows.

(** The layout as inequalities. *)
Ltac layout :=
  destruct Hld as [Hcode (H1 & H2 & H3 & H4 & H5 & H6 & H7) Hpages _];
  unfold BL31_BASE, BL31_LIMIT in *; rewrite ?Forall_cons in Hpages;
  destruct Hpages as (Hp1 & Hp2 & Hp3 & Hp4 & Hp5 & Hp6 & _);
  assert (Hp0 : (4096 | 0x1000)) by (by exists 1).

Lemma flat_ok a s at_ : 0 <= a -> 0 < s -> a + s <= 2 ^ 32 -> (4096 | a) -> (4096 | s) -> region_ok (MAP_REGION_FLAT a s at_).
Proof. intros H1 H2 H3 H4 H5. by split. Qed.

Lemma windows_ok : Forall region_ok windows.
Proof. repeat constructor; simpl; try done; (by apply Z.mod_divide). Qed.

Lemma image_ok : Forall region_ok image_regions.
Proof.
  layout. unfold image_regions, bl_regions, BL31_BASE. simpl. rewrite Hcode.
  repeat apply Forall_cons_2; [apply flat_ok; (lia || done || by apply Z.divide_sub_r)..|apply Forall_nil_2].
Qed.

Ltac pairs := repeat first [apply FOP_nil | apply FOP_cons | apply Forall_nil_2 | apply Forall_cons_2].
Ltac fits := unfold fits, before, nested, apart, last_va, last_pa, offset; cbn [base_va base_pa size MAP_REGION_FLAT]; lia.

Lemma image_fits : ForallOrdPairs fits image_regions.
Proof. layout. unfold image_regions, bl_regions, BL31_BASE. simpl. rewrite Hcode. pairs; fits. Qed.

Lemma windows_fit : ForallOrdPairs fits windows.
Proof.
  unfold windows, plat_arm_mmap, DEVICE0_BASE, DEVICE0_SIZE, DEVICE1_BASE, DEVICE1_SIZE, CRF_APB_BASE, CRF_APB_SIZE.
  simpl. pairs; fits.
Qed.

Lemma windows_apart : Forall (fun n => Forall (fun r => fits r n) image_regions) windows.
Proof.
  layout. unfold windows, plat_arm_mmap, DEVICE0_BASE, DEVICE0_SIZE, DEVICE1_BASE, DEVICE1_SIZE, CRF_APB_BASE, CRF_APB_SIZE.
  unfold image_regions, bl_regions, BL31_BASE. simpl. rewrite Hcode. pairs; fits.
Qed.

(** ** Five tables are enough *)

Lemma count_le (P : nat -> bool) (few : list nat) i n : (forall j, (j < i + n)%nat -> P j = true -> j ∈ few) ->
  (sum_list ((fun j => if P j then 1 else 0) <$> seq i n) <= length few)%nat.
Proof.
  intros Hfew. assert (Heq : sum_list ((fun j => if P j then 1 else 0) <$> seq i n)%nat = length (List.filter P (seq i n))).
  { generalize (seq i n). induction l as [|j l IH]; [done|]. simpl. destruct (P j); simpl; [f_equal|]; apply IH. }
  rewrite Heq. apply NoDup_incl_length; [apply List.NoDup_filter, List.seq_NoDup|].
  intros j [Hr%in_seq Hj]%List.filter_In. apply list_elem_of_In, Hfew; [lia|done].
Qed.

(** A crossed area has a boundary of one of the regions inside. *)
Definition boundaries : list Z :=
  [0x1000; BL_CODE_END ld; BL_RO_DATA_BASE ld; BL_RO_DATA_END ld; BL_COHERENT_RAM_BASE ld; BL_COHERENT_RAM_END ld; BL31_END ld;
   0xFF000000; 0xFFE00000; 0xF9000000; 0xF9800000; 0xFD1A0000; 0xFD7A0000].

Lemma crossed_boundary regs a sz : regs ≡ₚ all_regions -> crossed regs a sz = true ->
  exists y, y ∈ boundaries /\ a < y < a + sz.
Proof.
  intros Hperm (r & Hr & Hc)%existsb_exists. apply list_elem_of_In in Hr. rewrite Hperm in Hr.
  assert (Hy : exists y, (y = base_va r \/ y = last_va r + 1) /\ a < y < a + sz).
  { apply orb_true_iff in Hc as [Hc|Hc]; apply andb_true_iff in Hc; [exists (base_va r)|exists (last_va r + 1)]; (split; [auto|lia]). }
  destruct Hy as (y & Hy & Hay). exists y. split; [|done]. destruct Hld as [Hcode _ _ _].
  assert (Hb : Forall (fun r => base_va r ∈ boundaries /\ last_va r + 1 ∈ boundaries) all_regions).
  { unfold all_regions, image_regions, windows, bl_regions, last_va. simpl. rewrite Hcode.
    unfold boundaries, BL31_BASE, DEVICE0_BASE, DEVICE0_SIZE, DEVICE1_BASE, DEVICE1_SIZE, CRF_APB_BASE, CRF_APB_SIZE.
    repeat apply Forall_cons_2; try apply Forall_nil_2; cbn [base_va size MAP_REGION_FLAT]; rewrite !list_elem_of_In;
      cbn [List.In]; lia. }
  rewrite Forall_forall in Hb. destruct (Hb r Hr). by destruct Hy as [-> | ->].
Qed.

Lemma tables_enough regs : regs ≡ₚ all_regions -> (tables_needed 2 regs 1 0 0 4 <= 5)%nat.
Proof.
  intros Hperm. pose proof (crossed_boundary regs) as Hcb.
  assert (Hblocks : forall g few, (forall j, (j < 512)%nat -> crossed regs (g + Z.of_nat j * 2 ^ 21) (2 ^ 21) = true -> j ∈ few) ->
    (tables_needed 1 regs 2 g 0 512 <= length few)%nat).
  { intros g few Hfew. apply (count_le (fun j => crossed regs (g + Z.of_nat j * 2 ^ 21) (2 ^ 21))), Hfew. }
  assert (Hin : forall g j, (j < 512)%nat -> crossed regs (g + Z.of_nat j * 2 ^ 21) (2 ^ 21) = true ->
     (g = 0 -> j = 0%nat) /\ (g = 3 * 2 ^ 30 -> j = 488%nat \/ j = 491%nat)).
  { intros g j Hj Hc. destruct (Hcb _ _ Hperm Hc) as (y & Hy & Hay). layout.
    unfold boundaries in Hy. rewrite list_elem_of_In in Hy. cbn [List.In] in Hy. clear Hcb Hblocks Hp0 Hp1 Hp2 Hp3 Hp4 Hp5 Hp6. lia. }
  assert (Hgb : crossed regs (2 ^ 30) (2 ^ 30) = false /\ crossed regs (2 * 2 ^ 30) (2 ^ 30) = false).
  { split; apply not_true_iff_false; intros Hc; destruct (Hcb _ _ Hperm Hc) as (y & Hy & Hay); layout;
      unfold boundaries in Hy; rewrite list_elem_of_In in Hy; cbn [List.In] in Hy; clear Hcb Hblocks Hp0 Hp1 Hp2 Hp3 Hp4 Hp5 Hp6; lia. }
  pose proof (Hblocks 0 [0%nat] ltac:(intros j Hj Hc; apply list_elem_of_singleton; by apply (Hin 0 j))) as B0.
  pose proof (Hblocks (3 * 2 ^ 30) [488; 491]%nat) as B3.
  assert (B3' : (tables_needed 1 regs 2 (3 * 2 ^ 30) 0 512 <= 2)%nat).
  { apply B3. intros j Hj Hc. destruct (Hin (3 * 2 ^ 30) j) as [_ H]; [done|done|]. rewrite !elem_of_cons. destruct (H eq_refl); auto. }
  clear B3 Hblocks Hin. destruct Hgb as [G1 G2].
  change (tables_needed 2 regs 1 0 0 4) with
    ((if crossed regs 0 (2 ^ 30) then S (tables_needed 1 regs 2 0 0 512) else 0) +
     ((if crossed regs (2 ^ 30) (2 ^ 30) then S (tables_needed 1 regs 2 (2 ^ 30) 0 512) else 0) +
      ((if crossed regs (2 * 2 ^ 30) (2 ^ 30) then S (tables_needed 1 regs 2 (2 * 2 ^ 30) 0 512) else 0) +
       ((if crossed regs (3 * 2 ^ 30) (2 ^ 30) then S (tables_needed 1 regs 2 (3 * 2 ^ 30) 0 512) else 0) + 0))))%nat.
  rewrite G1, G2. destruct (crossed regs 0 (2 ^ 30)), (crossed regs (3 * 2 ^ 30) (2 ^ 30)); simpl length in B0; lia.
Qed.

(** ** The translation *)

Lemma pick regs va r a : regs ≡ₚ all_regions -> StronglySorted before regs -> r ∈ all_regions -> contains r va ->
  Forall (fun q => contains q va -> base_va q <= base_va r /\ last_va r <= last_va q) all_regions ->
  offset r = 0 -> region_access (attr r) = a -> translation regs va = Some (va, a).
Proof.
  intros Hperm Hss Hr Hc Hall Hoff <-. unfold translation. rewrite (lookup_innermost regs va r); [|done|by rewrite Hperm|done|].
  - by rewrite Hoff, Z.sub_0_r.
  - intros q Hq. rewrite Hperm in Hq. rewrite Forall_forall in Hall. by apply Hall.
Qed.

Ltac regions := unfold all_regions, image_regions, windows, bl_regions, plat_arm_mmap; simpl take; cbn [app].
Ltac numbers := unfold contains, last_va; cbn [base_va base_pa size MAP_REGION_FLAT];
  unfold BL31_BASE, DEVICE0_BASE, DEVICE0_SIZE, DEVICE1_BASE, DEVICE1_SIZE, CRF_APB_BASE, CRF_APB_SIZE in *.

(** The region [r] is the innermost one. *)
Ltac choose_region Hperm Hss r mem :=
  eapply (pick _ _ r); [exact Hperm|exact Hss|regions; mem|numbers; lia|
    regions; repeat apply Forall_cons_2; try apply Forall_nil_2; numbers; lia|apply Z.sub_diag|reflexivity].

Lemma space_exact regs va : regs ≡ₚ all_regions -> StronglySorted before regs ->
  translation regs va = (fun a => (va, a)) <$> address_space ld va.
Proof.
  intros Hperm Hss. layout. clear Hp0 Hp1 Hp2 Hp3 Hp4 Hp5 Hp6. unfold address_space, within.
  destruct ((BL_CODE_BASE ld <=? va) && (va <? BL_CODE_END ld)) eqn:E1.
  { choose_region Hperm Hss (MAP_REGION_FLAT (BL_CODE_BASE ld) (BL_CODE_END ld - BL_CODE_BASE ld) (MT_CODE .| MT_SECURE)) ltac:(do 1 right; by left). }
  destruct ((BL_RO_DATA_BASE ld <=? va) && (va <? BL_RO_DATA_END ld)) eqn:E2.
  { choose_region Hperm Hss (MAP_REGION_FLAT (BL_RO_DATA_BASE ld) (BL_RO_DATA_END ld - BL_RO_DATA_BASE ld) (MT_RO_DATA .| MT_SECURE)) ltac:(do 2 right; by left). }
  destruct ((BL_COHERENT_RAM_BASE ld <=? va) && (va <? BL_COHERENT_RAM_END ld)) eqn:E3.
  { choose_region Hperm Hss (MAP_REGION_FLAT (BL_COHERENT_RAM_BASE ld) (BL_COHERENT_RAM_END ld - BL_COHERENT_RAM_BASE ld) (MT_DEVICE .| MT_RW .| MT_SECURE)) ltac:(do 3 right; by left). }
  destruct ((BL31_BASE <=? va) && (va <? BL31_END ld)) eqn:E4.
  { choose_region Hperm Hss (MAP_REGION_FLAT BL31_BASE (BL31_END ld - BL31_BASE) (MT_MEMORY .| MT_RW .| MT_SECURE)) ltac:(by left). }
  destruct ((DEVICE0_BASE <=? va) && (va <? DEVICE0_BASE + DEVICE0_SIZE)) eqn:E5; cbn [orb].
  { choose_region Hperm Hss (Region DEVICE0_BASE DEVICE0_BASE DEVICE0_SIZE (MT_DEVICE .| MT_RW .| MT_SECURE)) ltac:(do 4 right; by left). }
  destruct ((DEVICE1_BASE <=? va) && (va <? DEVICE1_BASE + DEVICE1_SIZE)) eqn:E6; cbn [orb].
  { choose_region Hperm Hss (Region DEVICE1_BASE DEVICE1_BASE DEVICE1_SIZE (MT_DEVICE .| MT_RW .| MT_SECURE)) ltac:(do 5 right; by left). }
  destruct ((CRF_APB_BASE <=? va) && (va <? CRF_APB_BASE + CRF_APB_SIZE)) eqn:E7.
  { choose_region Hperm Hss (Region CRF_APB_BASE CRF_APB_BASE CRF_APB_SIZE (MT_DEVICE .| MT_RW .| MT_SECURE)) ltac:(do 6 right; by left). }
  unfold translation. rewrite lookup_none; [done|]. intros q Hq. rewrite Hperm in Hq. revert q Hq. apply Forall_forall.
  regions. repeat apply Forall_cons_2; try apply Forall_nil_2; numbers; lia.
Qed.

(** ** Collecting and building *)

Lemma noted_kept news x : Forall region_ok news ->
  let x' := foldl (fun x n => noted n x) x news in
  xlat_tables x' = xlat_tables x /\ base_xlation_table x' = base_xlation_table x /\ next_xlat x' = next_xlat x /\
  (0 <= xlat_max_pa x < 2 ^ 32 -> 0 <= xlat_max_pa x' < 2 ^ 32) /\ (0 <= xlat_max_va x < 2 ^ 32 -> 0 <= xlat_max_va x' < 2 ^ 32).
Proof.
  revert x. induction news as [|n news IH]; intros x Hok; [done|]. apply Forall_cons in Hok as [[[] [] ? _] Hok].
  simpl. destruct (IH (noted n x) Hok) as (I1 & I2 & I3 & I4 & I5). unfold noted, last_pa, last_va in *. cbn [xlat_max_pa xlat_max_va set_max] in *.
  repeat split; (done || (intros Hx; (apply I4 || apply I5); lia) || idtac); intros; (apply I4 || apply I5); lia.
Qed.

Context `{Env} `{CPU : !El3Cpu} {V : Type} `{!Has xlat V}.
Implicit Types (d : Dev) (l : list event) (h : list lock_id) (v : V).

(** The regions are collected. *)
Lemma collect_run d l h v : sget v = xlat_zero -> exists regs x,
  (forall k : M V unit, bind (mmap_add (bl_regions ld)) (fun _ => bind (mmap_add plat_arm_get_mmap) (fun _ => k)) (St d l h v) =
    k (St d l h (sput x v))) /\
  regs ≡ₚ all_regions /\ well_mapped regs (map_of regs) /\ collected regs x.
Proof.
  intros Hz. destruct (mmap_add_run image_regions [] d l h [] v) as (regs1 & Hp1 & Hw1 & E1).
  { rewrite Hz. split; [done|unfold MAX_MMAP_REGIONS; simpl; lia|constructor|constructor]. }
  { simpl. unfold MAX_MMAP_REGIONS. lia. }
  { apply image_ok. }
  { by apply Forall_forall. }
  { apply image_fits. }
  rewrite app_nil_l in Hp1. set (x1 := set_mmap _ _) in E1.
  destruct (mmap_add_run windows [] d l h regs1 (sput x1 v)) as (regs2 & Hp2 & Hw2 & E2); rewrite ?sget_sput.
  { exact Hw1. }
  { rewrite Hp1. simpl. unfold MAX_MMAP_REGIONS. lia. }
  { apply windows_ok. }
  { pose proof windows_apart as Ha. eapply Forall_impl; [exact Ha|]. simpl. intros n Hn. by rewrite Hp1. }
  { apply windows_fit. }
  rewrite sput_sput, sget_sput in E2. set (x2 := set_mmap _ _) in E2. rewrite Hp1 in Hp2. exists regs2, x2.
  split; [|split; [done|split; [done|]]].
  - intros k. change (bl_regions ld) with (image_regions ++ [no_region]). rewrite (bind_run _ _ _ _ _ E1).
    change plat_arm_get_mmap with (windows ++ [no_region]). by rewrite (bind_run _ _ _ _ _ E2).
  - destruct (noted_kept image_regions (sget v) image_ok) as (K1 & K2 & K3 & K4 & K5).
    destruct (noted_kept windows x1 windows_ok) as (L1 & L2 & L3 & L4 & L5).
    split; unfold x2; cbn [set_mmap base_xlation_table xlat_tables next_xlat mmap xlat_max_pa xlat_max_va].
    + rewrite L2. unfold x1. cbn [set_mmap base_xlation_table]. by rewrite K2, Hz.
    + rewrite L1. unfold x1. cbn [set_mmap xlat_tables]. by rewrite K1, Hz.
    + rewrite L1. unfold x1. cbn [set_mmap xlat_tables]. rewrite K1, Hz. repeat constructor.
    + rewrite L3. unfold x1. cbn [set_mmap next_xlat]. by rewrite K3, Hz.
    + done.
    + split; [apply L4, K4|apply L5, K5]; by rewrite Hz.
Qed.

Lemma map_buildable regs : regs ≡ₚ all_regions -> StronglySorted before regs -> buildable regs.
Proof.
  intros Hp Hss. split; [|done| |]; rewrite Hp.
  - apply Forall_app_2; [apply image_ok|apply windows_ok].
  - by repeat constructor.
  - repeat constructor; exists 0; apply Z.sub_diag.
Qed.

Lemma map_el3_run d l h v : sget v = xlat_zero -> mmu_off d -> exists d' l' x',
  map_el3 ld (St d l h v) = (Ret tt, St d' l' h (sput x' v)) /\
  forall va, walk (xlat_tables_at ld) x' va = (fun a => (va, a)) <$> address_space ld va.
Proof.
  intros Hz Hoff. unfold map_el3.
  destruct (collect_run d l h v Hz) as (regs & x & E & Hp & Hw & Hc).
  pose proof (map_buildable regs Hp (wm_sorted _ _ Hw)) as Hbd.
  destruct Hld as [_ _ Hpages [Ht0 Ht1]]. rewrite Forall_forall in Hpages.
  assert (Hta : (4096 | xlat_tables_at ld)) by (apply Hpages; do 6 right; by left).
  destruct (init_xlat_tables_run regs Hbd (wm_room _ _ Hw) (xlat_tables_at ld) Hta Ht0 Ht1 d l h (sput x v))
    as (d1 & l1 & x1 & E1 & Hs1 & Hwalk).
  { by rewrite sget_sput. }
  { pose proof (tables_enough regs Hp). unfold MAX_XLAT_TABLES. lia. }
  destruct (enable_mmu_run (base_table_at ld) 0 d1 l1 h (sput x1 v)) as (d2 & l2 & E2); [unfold mmu_off; by rewrite Hs1|].
  exists d2, l2, x1. split.
  - assert (E0 : setup_page_tables (xlat_tables_at ld) (bl_regions ld) plat_arm_get_mmap (St d l h v) = (Ret tt, St d1 l1 h (sput x1 v))).
    { unfold setup_page_tables. rewrite E, E1. by rewrite sput_sput. }
    rewrite (bind_run _ _ _ _ _ E0). exact E2.
  - intros va. rewrite Hwalk. apply space_exact; [done|apply Hw].
Qed.

(** What the address space protects. *)
Lemma space_sound va a : address_space ld va = Some a -> writable a = true -> exec_never a = true.
Proof. unfold address_space. repeat (case_match; [by intros [= <-]|]). done. Qed.

Lemma space_registers : Forall (fun a => address_space ld a = Some device) monitor_registers.
Proof.
  layout. clear Hp0 Hp1 Hp2 Hp3 Hp4 Hp5 Hp6. apply Forall_forall. intros a Ha.
  assert (Hhigh : 0xF9000000 <= a) by (revert a Ha; apply Forall_forall; vm_compute; repeat constructor; discriminate).
  unfold address_space, within. rewrite !(proj2 (Z.ltb_ge _ _)), !andb_false_r by (unfold BL31_BASE; lia).
  clear Hhigh. revert a Ha. apply Forall_forall. unfold monitor_registers.
  repeat (apply Forall_cons_2; [reflexivity|]). apply Forall_nil_2.
Qed.

End Layout.


(** An image of 512 KB less its last page. *)
Definition sample : layout := Layout 0x1000 0x12000 0x12000 0x18000 0x7e000 0x7f000 0x7f000 0x40000 0x3f000.

Lemma sample_linked : linked sample.
Proof.
  split; [done|unfold BL31_BASE, BL31_LIMIT; simpl; lia| |simpl; lia].
  repeat apply Forall_cons_2; try apply Forall_nil_2; by apply Z.mod_divide.
Qed.


End XlatPlat.
