(* ===== verification/MmuOff.v ===== *)
(** * The MMU stays off until the tables are built

    [enable_mmu_el3] asserts that the MMU of EL3 is off.  What
    [bl31_plat_arch_setup] runs before it, from the early set-up of the platform
    ([PlatStartup]) to the interconnect ([Cci]), does not write SCTLR_EL3. *)

From S2P Require Import Prelude Machine Trace Gic IntrMgmt Ipi PmDefs PmIpi PmReq PmTotal CtxMgmt Xlat XlatWalk Psci Cci PsciPlat.
From S2P Require Import DelayTimer PlatStartup.
From Stdlib Require Import String.
From stdpp Require Import strings.
Import Gic IntrMgmt Ipi PmDefs PmIpi PmReq PmTotal CtxMgmt Xlat XlatWalk Psci Cci PsciPlat DelayTimer PlatStartup.
#[local] Open Scope Z_scope.
#[local] Open Scope c_scope.

Module MmuOff.

Section Frame.
Context `{Env} `{CPU : !El3Cpu} {V : Type}.

Definition same_sctlr (s s' : st V) : Prop := sctlr_el3 (dev s') = sctlr_el3 (dev s).
#[export] Instance same_sctlr_preorder : PreOrder same_sctlr.
Proof. unfold same_sctlr. split; [by intros s|intros s1 s2 s3 H1 H2; congruence]. Qed.

Lemma sctlr_emit e : respects same_sctlr (emit e).
Proof. by intros s. Qed.
Lemma sctlr_modv f : respects same_sctlr (modv f).
Proof. by intros s. Qed.
Lemma sctlr_rd w a : respects same_sctlr (mmio_read w a).
Proof. intros s. apply sctlr_keep_read. Qed.
Lemma sctlr_wr w a z : respects same_sctlr (mmio_write w a z).
Proof. intros s. apply sctlr_keep_write. Qed.
Lemma sctlr_call f args : f <> "write_sctlr_el3"%string -> respects same_sctlr (ext_call f args).
Proof. intros Hf s. by apply sctlr_keep_call. Qed.
Lemma sctlr_lock k : respects same_sctlr (lock k).
Proof. intros s. unfold lock. by case_bool_decide. Qed.
Lemma sctlr_unlock k : respects same_sctlr (unlock k).
Proof. by intros s. Qed.

(** A computation that respects the relation leaves the MMU off. *)
Lemma mmu_off_kept {A} (m : M V A) d l h v a d' l' h' v' : respects same_sctlr m ->
  m (St d l h v) = (Ret a, St d' l' h' v') -> mmu_off d -> mmu_off d'.
Proof. intros Hm E Hd. specialize (Hm (St d l h v)). rewrite E in Hm. unfold same_sctlr in Hm. simpl in Hm. unfold mmu_off. by rewrite Hm. Qed.

End Frame.

#[export] Hint Resolve sctlr_emit sctlr_modv sctlr_rd sctlr_wr sctlr_lock sctlr_unlock : respects.
#[export] Hint Extern 1 (respects same_sctlr (ext_call _ _)) => (apply sctlr_call; discriminate) : respects.

(** Walks a body: the hints, else a split. *)
Ltac keep_sctlr :=
  repeat first
    [ progress intros
    | solve [unfold mmio_read_32, mmio_write_32, barrier, gets, mods; auto with respects]
    | apply respects_if
    | apply respects_bind; [apply _| |]
    | apply respects_do_while; [apply _|]
    | match goal with
      | |- respects _ (let (_, _) := ?x in _) => destruct x
      | |- respects _ (match ?x with _ => _ end) => destruct x
      end ].

Section Setup.
Context `{Env} `{CPU : !El3Cpu} {V : Type} `{!Has ipi V} `{!Has pm V} `{!Has plat_vars V} `{!Has timer V} `{!Has images V}
  `{!Has cci V}.

Lemma sctlr_clock : respects (V := V) same_sctlr zynqmp_get_uart_clk.
Proof. unfold zynqmp_get_uart_clk, zynqmp_get_silicon_ver. keep_sctlr. Qed.

Lemma sctlr_config : respects (V := V) same_sctlr zynqmp_config_setup.
Proof.
  unfold zynqmp_config_setup, zynqmp_ipi_config_table_init, ipi_config_table_init, zynqmp_print_platform_name,
    zynqmp_get_rtl_ver, generic_delay_timer_init, generic_delay_timer_init_args, timer_init,
    zynqmp_get_syscnt_freq2, zynqmp_get_silicon_ver.
  keep_sctlr.
Qed.

Lemma sctlr_words base first n room : respects (V := V) same_sctlr (read_words base first n room).
Proof. revert first room. induction n as [|n IH]; intros first room; simpl; keep_sctlr; apply IH. Qed.

Lemma sctlr_bootmode : respects (V := V) same_sctlr zynqmp_get_bootmode.
Proof.
  unfold zynqmp_get_bootmode, pm_mmio_read, sync_out1, sync_out, pm_ipi_send_sync, pm_ipi_send_common,
    ipi_mb_notify, ipi_poke, IPI_REG_BASE, IPI_BIT_MASK, ipi_entry, pm_ipi_buff_read.
  keep_sctlr; apply sctlr_words.
Qed.

Lemma sctlr_partitions fuel addr i : respects (V := V) same_sctlr (partitions fuel addr i).
Proof.
  revert i. induction fuel as [|fuel IH]; intros i; simpl; unfold read_num_entries, read_flags, read_entry_point;
    keep_sctlr; apply IH.
Qed.

Lemma sctlr_magic addr i magic : respects (V := V) same_sctlr (magic_differs addr i magic).
Proof. revert i. induction magic as [|m magic IH]; intros i; simpl; unfold read_magic; keep_sctlr; apply IH. Qed.

#[local] Hint Resolve sctlr_clock sctlr_config sctlr_bootmode sctlr_partitions sctlr_magic : respects.

Lemma sctlr_early bl31_end arg0 arg1 : respects (V := V) same_sctlr (bl31_early_platform_setup2 bl31_end arg0 arg1).
Proof.
  unfold bl31_early_platform_setup2, fsbl_atf_handover, bl31_set_default_config, read_num_entries.
  keep_sctlr.
Qed.

Lemma sctlr_validate ports map masters valid : respects (V := V) same_sctlr (validate_loop ports map masters valid).
Proof. revert valid. induction masters as [|i masters IH]; intros valid; simpl; keep_sctlr; apply IH. Qed.

Lemma sctlr_interconnect : respects (V := V) same_sctlr plat_arm_interconnect_init.
Proof.
  unfold plat_arm_interconnect_init, cci_init, read_cci_part_number, validate_cci_map. keep_sctlr; apply sctlr_validate.
Qed.

Lemma sctlr_coherency mpidr : respects (V := V) same_sctlr (plat_arm_interconnect_enter_coherency mpidr).
Proof. unfold plat_arm_interconnect_enter_coherency, cci_enable_snoop_dvm_reqs, set_snoop. keep_sctlr. Qed.

End Setup.
End MmuOff.
