(* ===== verification/RuntimeSvc.v ===== *)
(** * The runtime services of BL31

    common/runtime_svc.c with include/common/runtime_svc.h, and the part of
    bl31/aarch64/runtime_exceptions.S that finds the handler of an SMC.  The
    descriptors that the services place in a linker section are the parameter
    [descs]; the table [rt_svc_descs_indices] maps the owning entity and the type
    of a call to a descriptor. *)

From S2P Require Import Prelude Machine Trace Gic IntrMgmt PmIpi CtxMgmt Psci PsciOps.
From Stdlib Require Import String.
From stdpp Require Import strings.
Import Gic IntrMgmt CtxMgmt Psci PsciOps.
#[local] Open Scope Z_scope.
#[local] Open Scope c_scope.

Module RuntimeSvc.

Definition MAX_RT_SVCS : Z := 128.
Definition OEN_LIMIT : Z := 64.
Definition SMC_TYPE_FAST : Z := 1.
Definition SMC_TYPE_YIELD : Z := 0.
Definition FUNCID_TYPE_MASK : Z := 0x1.
Definition FUNCID_OEN_MASK : Z := 0x3f.
Definition FUNCID_OEN_WIDTH : Z := 6.
Definition FUNCID_CC_SHIFT : Z := 30.

Definition get_unique_oen (oen call_type : Z) : Z :=
  ((call_type .& FUNCID_TYPE_MASK) .<< FUNCID_OEN_WIDTH) .| (oen .& FUNCID_OEN_MASK).
Definition get_unique_oen_from_smc_fid (fid : Z) : Z := get_unique_oen (GET_SMC_OEN fid) (GET_SMC_TYPE fid).

(** How an SMC handler leaves: through the context of a security state, or back
    to the C code of the monitor that had entered the trusted OS. *)
Inductive smc_exit := ToContext (security_state : Z) | ToCaller (rc : Z).

Section Types.
Context `{Env}.

(** The handler gets the function id, x1 to x4 and the flags; [handle] is the
    saved context of the caller, whose security state is bit 0 of the flags. *)
Record rt_svc_desc (V : Type) := RtSvcDesc {
  start_oen : Z;
  end_oen : Z;
  call_type : Z;
  svc_name : string;
  svc_init : option (M V Z);
  svc_handle : option (Z -> Z -> Z -> Z -> Z -> Z -> M V smc_exit)
}.
End Types.
Arguments RtSvcDesc {_ V} _ _ _ _ _ _.
Arguments start_oen {_ V} _.
Arguments end_oen {_ V} _.
Arguments call_type {_ V} _.
Arguments svc_name {_ V} _.
Arguments svc_init {_ V} _.
Arguments svc_handle {_ V} _.

Record rt_svc := RtVars { rt_svc_descs_indices : list Z }.

(** ** Registers of a saved context *)

(** [write_ctx_reg] of general registers, from x[first] on *)
Fixpoint put_regs (first : nat) (xs : list Z) (regs : list Z) : list Z :=
  match xs with [] => regs | x :: xs' => put_regs (S first) xs' (<[first := x]> regs) end.

Section Ops.
Context `{Env} {V : Type} `{!Has ctx_vars V} `{!Has rt_svc V}.
Variable me : Z.
Variable descs : list (rt_svc_desc V).

Definition write_gp_regs (security_state : Z) (first : nat) (xs : list Z) : M V unit :=
  cm_update me security_state (fun c => set_gp_regs (put_regs first xs (gp_regs c)) c).

(** [SMC_RETn(handle, x0, ..., xn)] *)
Definition smc_ret (flags : Z) (xs : list Z) : M V smc_exit :=
  write_gp_regs (flags .& 1) 0 (map u64 xs) ;; ret (ToContext (flags .& 1)).

Definition RT_SVC_DECS_NUM : Z := Z.of_nat (length descs).

(** ** Set-up *)

Definition validate_rt_svc_desc (desc : rt_svc_desc V) : Z :=
  if start_oen desc >? end_oen desc then - EINVAL
  else if end_oen desc >=? OEN_LIMIT then - EINVAL
  else if negb (call_type desc =? SMC_TYPE_FAST) && negb (call_type desc =? SMC_TYPE_YIELD) then - EINVAL
  else if negb (bool_decide (is_Some (svc_init desc))) && negb (bool_decide (is_Some (svc_handle desc)))
  then - EINVAL
  else 0.

(** [for (; start_idx <= end_idx; start_idx++) rt_svc_descs_indices[start_idx] = index;] *)
Definition fill_indices (index start_idx end_idx : Z) : M V unit :=
  for_each (steps start_idx (end_idx + 1) 1) (fun i =>
    l <- gets rt_svc_descs_indices ;;
    l' <- awrite l i index ;;
    mods (fun _ => RtVars l')).

(** One turn of the loop of [runtime_svc_init]. *)
Definition init_service (index : Z) (service : rt_svc_desc V) : M V unit :=
  if negb (validate_rt_svc_desc service =? 0) then stop Panic
  else
    rc <- match svc_init service with Some f => f | None => ret 0 end ;;
    if negb (rc =? 0) then ret tt
    else
      let start_idx := u8 (get_unique_oen (start_oen service) (call_type service)) in
      let end_idx := u8 (get_unique_oen (end_oen service) (call_type service)) in
      c_assert (start_idx <=? end_idx) ;;
      c_assert (end_idx <? MAX_RT_SVCS) ;;
      fill_indices index start_idx end_idx.

Fixpoint init_services (index : Z) (services : list (rt_svc_desc V)) : M V unit :=
  match services with
  | [] => ret tt
  | service :: services' => init_service index service ;; init_services (u8 (index + 1)) services'
  end.

Definition runtime_svc_init : M V unit :=
  c_assert (RT_SVC_DECS_NUM <? MAX_RT_SVCS) ;;
  if RT_SVC_DECS_NUM =? 0 then ret tt
  else
    mods (fun _ => RtVars (repeat 0xff 128)) ;;
    init_services 0 descs.

(** ** An SMC *)

(** The C function, which the AArch32 monitor uses. *)
Definition handle_runtime_svc (smc_fid flags : Z) : M V smc_exit :=
  let idx := get_unique_oen_from_smc_fid smc_fid in
  c_assert (idx <? MAX_RT_SVCS) ;;
  l <- gets rt_svc_descs_indices ;;
  index <- aread l idx ;;
  if index >=? RT_SVC_DECS_NUM then smc_ret flags [SMC_UNK]
  else
    handle <- cm_get_context_by_index me (flags .& 1) ;;
    c <- deref handle ;;
    let x i := nth i (gp_regs c) 0 in
    service <- aread descs index ;;
    f <- deref (svc_handle service) ;;
    f smc_fid (x 1%nat) (x 2%nat) (x 3%nat) (x 4%nat) flags.

(** [smc_handler64], for x0 to x4 and the caller's security state: bit 7 of the
    index decides. *)
Definition smc_dispatch (x0 x1 x2 x3 x4 flags : Z) : M V smc_exit :=
  l <- gets rt_svc_descs_indices ;;
  index <- aread l (get_unique_oen_from_smc_fid (u32 x0)) ;;
  if Z.testbit index 7 then smc_ret flags [SMC_UNK]
  else
    service <- aread descs index ;;
    f <- deref (svc_handle service) ;;
    f (u32 x0) x1 x2 x3 x4 flags.

(** The whole entry: the general registers and the EL3 state of the caller go to
    its context; an SMC64 from AArch32 is refused before anything is saved. *)
Definition smc_handler (aarch32 : bool) (regs : list Z) (spsr elr scr : Z) : M V smc_exit :=
  let x i := nth i regs 0 in
  let flags := scr .& 1 in
  if aarch32 && Z.testbit (x 0%nat) FUNCID_CC_SHIFT then smc_ret flags [SMC_UNK]
  else
    cm_update me flags (fun c =>
      CpuContext regs scr elr spsr (ctx_sctlr_el1 c) (ctx_actlr_el1 c)) ;;
    smc_dispatch (x 0%nat) (x 1%nat) (x 2%nat) (x 3%nat) (x 4%nat) flags.

End Ops.

(** ** The table *)

(** The range of the table that a service covers. *)
Definition first_idx `{Env} {V} (svc : rt_svc_desc V) : Z := get_unique_oen (start_oen svc) (call_type svc).
Definition last_idx `{Env} {V} (svc : rt_svc_desc V) : Z := get_unique_oen (end_oen svc) (call_type svc).
Definition covers `{Env} {V} (svc : rt_svc_desc V) (idx : Z) : bool :=
  (first_idx svc <=? idx) && (idx <=? last_idx svc).

Definition filled (index a b : Z) (l : list Z) : list Z :=
  foldl (fun l i => <[Z.to_nat i := index]> l) l (steps a (b + 1) 1).

Lemma steps_one a b : a <= b -> steps a (b + 1) 1 = map (fun k => a + Z.of_nat k) (seq 0 (Z.to_nat (b + 1 - a))).
Proof.
  intros Hab. unfold steps. replace ((b + 1 - a + 1 - 1) / 1) with (b + 1 - a) by (rewrite Z.div_1_r; lia).
  apply map_ext. intros k. lia.
Qed.

Lemma filled_length index a b l : length (filled index a b l) = length l.
Proof.
  unfold filled. generalize (steps a (b + 1) 1). intros ks. revert l.
  induction ks as [|k ks IH]; intros l; simpl; [done|]. by rewrite IH, length_insert.
Qed.

Lemma fill_lookup (index a : Z) n (l : list Z) k : 0 <= a -> (k < length l)%nat ->
  foldl (fun (l : list Z) i => <[Z.to_nat i := index]> l) l (map (fun j => a + Z.of_nat j) (seq 0 n)) !! k =
  if (a <=? Z.of_nat k) && (Z.of_nat k <? a + Z.of_nat n) then Some index else l !! k.
Proof.
  intros Ha Hk. induction n as [|n IH].
  - simpl. bool_case; [|done]. zbool. lia.
  - rewrite seq_S, map_app, foldl_app. cbn [map foldl].
    destruct (decide (k = Z.to_nat (a + Z.of_nat n))) as [->|Hne].
    + rewrite list_lookup_insert_eq.
      * rewrite (proj2 (Z.leb_le _ _)), (proj2 (Z.ltb_lt _ _)) by lia. done.
      * clear IH. generalize (map (fun j => a + Z.of_nat j) (seq 0 n)). intros ks. revert l Hk.
        induction ks as [|x ks IH]; intros l Hk; simpl; [lia|]. apply IH. by rewrite length_insert.
    + rewrite list_lookup_insert_ne, IH by done.
      replace (Z.of_nat k <? a + Z.of_nat (S n)) with (Z.of_nat k <? a + Z.of_nat n); [done|].
      apply eq_true_iff_eq. rewrite !Z.ltb_lt. lia.
Qed.

Lemma filled_lookup index a b l k : 0 <= a <= b -> (k < length l)%nat ->
  filled index a b l !! k = if (a <=? Z.of_nat k) && (Z.of_nat k <=? b) then Some index else l !! k.
Proof.
  intros Hab Hk. unfold filled. rewrite steps_one, fill_lookup by lia.
  replace (Z.of_nat k <? a + Z.of_nat (Z.to_nat (b + 1 - a))) with (Z.of_nat k <=? b); [done|].
  apply eq_true_iff_eq. rewrite Z.ltb_lt, Z.leb_le. lia.
Qed.

Lemma unique_oen_value oen ty : 0 <= oen < OEN_LIMIT -> ty = SMC_TYPE_FAST \/ ty = SMC_TYPE_YIELD ->
  get_unique_oen oen ty = 64 * ty + oen.
Proof.
  intros Ho Ht. unfold OEN_LIMIT in Ho.
  assert (Hall : forallb (fun n => get_unique_oen (Z.of_nat n) ty =? 64 * ty + Z.of_nat n) (seq 0 64) = true)
    by (destruct Ht as [-> | ->]; reflexivity).
  rewrite forallb_forall in Hall. specialize (Hall (Z.to_nat oen)). rewrite Z2Nat.id in Hall by lia.
  apply Z.eqb_eq, Hall, in_seq. lia.
Qed.

Lemma fid_oen_range fid : 0 <= GET_SMC_OEN fid < OEN_LIMIT /\
  (GET_SMC_TYPE fid = SMC_TYPE_FAST \/ GET_SMC_TYPE fid = SMC_TYPE_YIELD).
Proof.
  unfold GET_SMC_OEN, GET_SMC_TYPE, OEN_LIMIT, SMC_TYPE_FAST, SMC_TYPE_YIELD. split.
  - change 0x3f with (Z.ones 6). rewrite Z.land_ones by lia. apply Z.mod_pos_bound. lia.
  - pose proof (Z.land_ones (fid .>> 31) 1 ltac:(lia)) as Hl. change (Z.ones 1) with 1 in Hl. rewrite Hl.
    pose proof (Z.mod_pos_bound (fid .>> 31) (2 ^ 1) ltac:(lia)). lia.
Qed.

Lemma fid_idx_range fid : 0 <= get_unique_oen_from_smc_fid fid < MAX_RT_SVCS.
Proof.
  unfold get_unique_oen_from_smc_fid, MAX_RT_SVCS. destruct (fid_oen_range fid) as [Ho Ht].
  rewrite unique_oen_value by done. unfold OEN_LIMIT, SMC_TYPE_FAST, SMC_TYPE_YIELD in *. lia.
Qed.

(** Bit 7 of an index below 128. *)
Lemma small_index i : (i < 128)%nat -> Z.testbit (Z.of_nat i) 7 = false.
Proof.
  intros Hi. apply Z.bits_above_log2; [lia|]. destruct (decide (i = 0%nat)) as [->|]; [done|].
  apply Z.log2_lt_pow2; lia.
Qed.

(** A well-formed descriptor. *)
Definition svc_ok `{Env} {V} (svc : rt_svc_desc V) : Prop :=
  0 <= start_oen svc <= end_oen svc /\ end_oen svc < OEN_LIMIT /\
  (call_type svc = SMC_TYPE_FAST \/ call_type svc = SMC_TYPE_YIELD) /\
  (is_Some (svc_init svc) \/ is_Some (svc_handle svc)).

Section Proofs.
Context `{Env} {V : Type} `{!Has ctx_vars V} `{!Has rt_svc V}.
Implicit Types (d : Dev) (l : list event) (h : list lock_id) (v : V) (svc : rt_svc_desc V).

Lemma svc_ok_valid svc : svc_ok svc -> validate_rt_svc_desc svc = 0.
Proof.
  intros (H1 & H2 & H3 & H4). unfold validate_rt_svc_desc. rewrite Z.gtb_ltb, Z.geb_leb.
  rewrite (proj2 (Z.ltb_ge _ _)), (proj2 (Z.leb_gt _ _)) by lia.
  destruct H3 as [-> | ->]; cbn [Z.eqb negb andb SMC_TYPE_FAST SMC_TYPE_YIELD]; simpl;
    destruct H4 as [H4|H4]; rewrite (bool_decide_eq_true_2 _ H4); simpl; rewrite ?andb_false_r; done.
Qed.

Lemma svc_ok_idx svc : svc_ok svc -> 0 <= first_idx svc <= last_idx svc /\ last_idx svc < MAX_RT_SVCS.
Proof.
  intros (H1 & H2 & H3 & _). unfold first_idx, last_idx, MAX_RT_SVCS, OEN_LIMIT in *.
  rewrite !unique_oen_value by (done || unfold OEN_LIMIT; lia).
  unfold SMC_TYPE_FAST, SMC_TYPE_YIELD in *. lia.
Qed.

Definition indices_wf (t : rt_svc) : Prop := length (rt_svc_descs_indices t) = 128%nat.

Lemma fill_run index a b d l h v : 0 <= a -> b < MAX_RT_SVCS -> indices_wf (sget v) ->
  fill_indices index a b (St d l h v) =
  (Ret tt, St d l h (sput (RtVars (filled index a b (rt_svc_descs_indices (sget v)))) v)).
Proof.
  intros Ha Hb Hw. unfold fill_indices, filled, MAX_RT_SVCS in *.
  assert (Hks : Forall (fun k => 0 <= k < 128) (steps a (b + 1) 1)).
  { destruct (decide (a <= b)).
    - rewrite steps_one by lia. apply Forall_forall. intros k Hk. apply list_elem_of_In, in_map_iff in Hk as (j & <- & Hj).
      apply in_seq in Hj. lia.
    - unfold steps. replace (Z.to_nat _) with 0%nat; [constructor|]. rewrite Z.div_1_r. lia. }
  revert v Hw. induction Hks as [|k ks Hk _ IH]; intros v Hw; simpl.
  - run. destruct (sget v) as [t] eqn:E. simpl. by rewrite <- E, sput_sget.
  - unfold indices_wf in Hw. run. rewrite run_bind_awrite
      by (apply andb_true_iff; rewrite Z.leb_le, Z.ltb_lt; lia).
    run. rewrite IH by (unfold indices_wf; rewrite sget_sput; simpl; by rewrite length_insert).
    rewrite sget_sput, sput_sput. done.
Qed.

(** One service: its range is filled when its initialisation succeeds. *)
Lemma init_service_run index svc rc d l h v d' l' v' : svc_ok svc ->
  match svc_init svc with Some f => f | None => ret 0 end (St d l h v) = (Ret rc, St d' l' h v') ->
  indices_wf (sget v') ->
  init_service index svc (St d l h v) = (Ret tt, St d' l' h
    (if rc =? 0 then sput (RtVars (filled index (first_idx svc) (last_idx svc)
                             (rt_svc_descs_indices (sget v')))) v' else v')).
Proof.
  intros Hok Hi Hw. unfold init_service. rewrite (svc_ok_valid _ Hok). cbn [Z.eqb negb].
  rewrite (bind_run _ _ _ _ _ Hi). destruct (rc =? 0); [|done]. cbn [negb].
  fold (first_idx svc) (last_idx svc). destruct (svc_ok_idx svc Hok) as [H1 H2]. unfold MAX_RT_SVCS in *.
  assert (Hu : forall z, 0 <= z < 128 -> u8 z = z) by (intros z Hz; apply Z.mod_small; lia).
  rewrite !Hu by lia. rewrite (proj2 (Z.leb_le _ _)), (proj2 (Z.ltb_lt _ _)) by lia. run.
  apply fill_run; unfold MAX_RT_SVCS; lia || done.
Qed.

(** ** The whole set-up *)

(** Service [i] has registered (of the codes [rcs] that the initialisations have
    returned so far, its is 0) and covers the entry. *)
Definition owns (descs : list (rt_svc_desc V)) (rcs : list Z) (i : nat) (idx : Z) : Prop :=
  exists svc, descs !! i = Some svc /\ rcs !! i = Some 0 /\ covers svc idx = true.

(** The entry that the services leave: the last of them that owns it, or 0xff when
    there is none. *)
Definition entry_of (descs : list (rt_svc_desc V)) (rcs : list Z) (idx x : Z) : Prop :=
  (x = 0xff /\ forall i, ~ owns descs rcs i idx) \/
  (exists i, x = Z.of_nat i /\ owns descs rcs i idx /\ forall j, (i < j)%nat -> ~ owns descs rcs j idx).

Definition table_of (descs : list (rt_svc_desc V)) (rcs : list Z) (t : rt_svc) : Prop :=
  indices_wf t /\ forall k x, rt_svc_descs_indices t !! k = Some x -> entry_of descs rcs (Z.of_nat k) x.

Lemma table_start descs : table_of descs [] (RtVars (repeat 0xff 128)).
Proof.
  split; [done|]. intros k x Hx. left. split.
  - by apply list_elem_of_lookup_2, list_elem_of_In, repeat_spec in Hx.
  - intros i (svc & _ & Hr & _). done.
Qed.

(** What the next service owns. *)
Lemma owns_snoc descs rcs r i idx : owns descs (rcs ++ [r]) i idx <->
  owns descs rcs i idx \/
  (i = length rcs /\ r = 0 /\ exists svc, descs !! i = Some svc /\ covers svc idx = true).
Proof.
  unfold owns. split.
  - intros (svc & Hs & Hr & Hc). apply lookup_app_Some in Hr as [Hr|[Hl Hr]]; [left; eauto|right].
    apply list_lookup_singleton_Some in Hr as [Hi <-]. split; [lia|]. eauto.
  - intros [(svc & Hs & Hr & Hc)|(-> & -> & svc & Hs & Hc)]; exists svc; (split; [done|]); (split; [|done]).
    + by apply lookup_app_l_Some.
    + by rewrite lookup_app_r, Nat.sub_diag by lia.
Qed.

Lemma owns_lt descs rcs i idx : owns descs rcs i idx -> (i < length rcs)%nat.
Proof. intros (svc & _ & Hr & _). by eapply lookup_lt_Some. Qed.

Lemma table_step descs rcs r svc t : descs !! length rcs = Some svc -> svc_ok svc -> table_of descs rcs t ->
  table_of descs (rcs ++ [r])
    (if r =? 0 then RtVars (filled (Z.of_nat (length rcs)) (first_idx svc) (last_idx svc) (rt_svc_descs_indices t))
     else t).
Proof.
  intros Hn Hok [Hw Ht]. destruct (svc_ok_idx svc Hok) as [Hr _].
  assert (Hold : forall idx x, r <> 0 \/ covers svc idx = false ->
    entry_of descs rcs idx x -> entry_of descs (rcs ++ [r]) idx x).
  { intros idx x Hno He. assert (Hsame : forall i, owns descs (rcs ++ [r]) i idx <-> owns descs rcs i idx).
    { intros i. rewrite owns_snoc. split; [|auto]. intros [|(-> & -> & svc' & Hs & Hc)]; [done|].
      rewrite Hn in Hs. simplify_eq. destruct Hno as [|Hno]; [done|congruence]. }
    destruct He as [[-> H0]|(i & -> & Ho & Hl)]; [left|right; exists i]; rewrite ?Hsame.
    - split; [done|]. intros i. by rewrite Hsame.
    - split; [done|]. split; [done|]. intros j. rewrite Hsame. auto. }
  destruct (r =? 0) eqn:Erc; zbool; [|split; [done|]; intros k x Hx; apply Hold; auto].
  split; [unfold indices_wf; simpl; by rewrite filled_length|]. simpl. intros k x Hx.
  assert (Hk : (k < length (rt_svc_descs_indices t))%nat)
    by (rewrite <- (filled_length (Z.of_nat (length rcs)) (first_idx svc) (last_idx svc)); by eapply lookup_lt_Some).
  rewrite filled_lookup in Hx by done. fold (covers svc (Z.of_nat k)) in Hx.
  destruct (covers svc (Z.of_nat k)) eqn:Ec; [|apply Hold; auto].
  injection Hx as <-. right. exists (length rcs). split; [done|]. split.
  - rewrite owns_snoc. right. eauto 10.
  - intros j Hj Ho. apply owns_lt in Ho. rewrite length_app in Ho. simpl in Ho. lia.
Qed.

Context (descs : list (rt_svc_desc V)) (P : list Z -> V -> Prop) (h : list lock_id).

(** What the framework needs of the services: descriptors are well formed, and
    every initialisation returns from a state in which the previous ones have
    returned [rcs], and leaves the table alone. *)
Record services : Prop := {
  sv_few : (length descs < 128)%nat;
  sv_some : descs <> [];
  sv_ok : Forall svc_ok descs;
  sv_table : forall rcs (t : rt_svc) v, P rcs v -> P rcs (sput t v);
  sv_init : forall rcs svc d l v, descs !! length rcs = Some svc -> P rcs v -> exists r d' l' v',
    match svc_init svc with Some f => f | None => ret 0 end (St d l h v) = (Ret r, St d' l' h v') /\
    P (rcs ++ [r]) v' /\ sget (S := rt_svc) v' = sget v
}.

Lemma init_services_run (HS : services) post pre rcs d l v : descs = pre ++ post ->
  length rcs = length pre -> P rcs v -> table_of descs rcs (sget v) -> exists rcs' d' l' v',
  init_services (Z.of_nat (length pre)) post (St d l h v) = (Ret tt, St d' l' h v') /\
  length rcs' = length descs /\ P rcs' v' /\ table_of descs rcs' (sget v').
Proof.
  revert pre rcs d l v. induction post as [|svc post IH]; intros pre rcs d l v Hd Hl HP Ht; simpl.
  - rewrite app_nil_r in Hd. subst pre. run. by exists rcs, d, l, v.
  - assert (Hn : descs !! length rcs = Some svc) by (rewrite Hd, Hl; by apply list_lookup_middle).
    pose proof (sv_ok HS) as Hok. rewrite Forall_lookup in Hok. specialize (Hok _ _ Hn).
    destruct (sv_init HS rcs svc d l v Hn HP) as (r & d1 & l1 & v1 & E1 & HP1 & Hs1).
    rewrite <- Hs1 in Ht. pose proof Ht as [Hw _].
    rewrite (bind_run _ _ _ _ _ (init_service_run _ _ _ _ _ _ _ _ _ _ Hok E1 Hw)).
    pose proof (table_step descs rcs r svc _ Hn Hok Ht) as Ht1. rewrite Hl in Ht1.
    assert (Hlen : length (pre ++ [svc]) = S (length pre)) by (rewrite length_app; simpl; lia).
    replace (u8 (Z.of_nat (length pre) + 1)) with (Z.of_nat (length (pre ++ [svc]))).
    2: { rewrite Hlen. symmetry. unfold u8. rewrite Z.mod_small; [lia|].
         apply lookup_lt_Some in Hn. pose proof (sv_few HS). lia. }
    apply (IH _ (rcs ++ [r])); [by rewrite <- (assoc_L (++))|rewrite Hlen, length_app; simpl; lia| |].
    + destruct (r =? 0); [by apply (sv_table HS)|done].
    + destruct (r =? 0); [|done]. by rewrite sget_sput.
Qed.

Lemma runtime_svc_init_run (HS : services) d l v : P [] v -> exists rcs d' l' v',
  runtime_svc_init descs (St d l h v) = (Ret tt, St d' l' h v') /\
  length rcs = length descs /\ P rcs v' /\ table_of descs rcs (sget v').
Proof.
  intros HP. unfold runtime_svc_init, RT_SVC_DECS_NUM, MAX_RT_SVCS. pose proof (sv_few HS).
  rewrite (proj2 (Z.ltb_lt _ _)) by lia.
  assert (Hne : length descs <> 0%nat) by (rewrite length_zero_iff_nil; apply (sv_some HS)).
  rewrite (proj2 (Z.eqb_neq _ _)) by lia. run.
  apply (init_services_run HS descs [] [] d l); [done|done|by apply (sv_table HS)|].
  rewrite sget_sput. apply table_start.
Qed.

(** An SMC goes to the handler of the service that owns it. *)
Lemma dispatch_run rcs me t fid x1 x2 x3 x4 flags d l hl v : table_of descs rcs t ->
  (length descs < 128)%nat -> sget v = t ->
  let idx := get_unique_oen_from_smc_fid (u32 fid) in
  (forall i, ~ owns descs rcs i idx) /\
    smc_dispatch me descs fid x1 x2 x3 x4 flags (St d l hl v) = smc_ret me flags [SMC_UNK] (St d l hl v) \/
  exists i svc, descs !! i = Some svc /\ rcs !! i = Some 0 /\ covers svc idx = true /\
    (forall j, (i < j)%nat -> ~ owns descs rcs j idx) /\
    smc_dispatch me descs fid x1 x2 x3 x4 flags (St d l hl v) =
      bind (deref (svc_handle svc)) (fun f => f (u32 fid) x1 x2 x3 x4 flags) (St d l hl v).
Proof.
  intros [Hw Ht] Hfew Hv idx. unfold smc_dispatch. pose proof (fid_idx_range (u32 fid)) as Hidx. fold idx in Hidx.
  unfold MAX_RT_SVCS, indices_wf in *.
  destruct (lookup_lt_is_Some_2 (rt_svc_descs_indices t) (Z.to_nat idx)) as [x Hx]; [lia|].
  run. rewrite Hv. fold idx. rewrite (run_bind_aread _ _ x) by (done || apply Z.ltb_ge; lia).
  specialize (Ht _ _ Hx). rewrite Z2Nat.id in Ht by lia.
  destruct Ht as [[-> Hno]|(i & -> & (svc & Hs & Hrc & Hc) & Hlast)]; [by left|].
  right. exists i, svc. split; [done|]. split; [done|]. split; [done|]. split; [done|].
  pose proof (lookup_lt_Some _ _ _ Hs). rewrite small_index by lia. by rewrite (run_bind_aread_nat _ _ svc).
Qed.

(** C24: The runtime services.  With fewer than 128 well-formed descriptors
    whose initialisations return (with success or an error), the set-up returns,
    and from then on, as long as the table is kept, an SMC with any 64-bit x0 is
    handled by the last service that has registered for its owning entity and call
    type, with the caller's x1 to x4, and is answered with SMC_UNK when there is
    none. *)
Theorem runtime_svc_dispatch (HS : services) d l v : P [] v -> exists rcs d' l' v',
  runtime_svc_init descs (St d l h v) = (Ret tt, St d' l' h v') /\
  length rcs = length descs /\ P rcs v' /\
  forall me x0 x1 x2 x3 x4 flags d2 l2 h2 (v2 : V), sget (S := rt_svc) v2 = sget v' ->
    let idx := get_unique_oen_from_smc_fid (u32 x0) in
    (forall i, ~ owns descs rcs i idx) /\
      smc_dispatch me descs x0 x1 x2 x3 x4 flags (St d2 l2 h2 v2) = smc_ret me flags [SMC_UNK] (St d2 l2 h2 v2) \/
    exists i svc, descs !! i = Some svc /\ rcs !! i = Some 0 /\ covers svc idx = true /\
      (forall j, (i < j)%nat -> ~ owns descs rcs j idx) /\
      smc_dispatch me descs x0 x1 x2 x3 x4 flags (St d2 l2 h2 v2) =
        bind (deref (svc_handle svc)) (fun f => f (u32 x0) x1 x2 x3 x4 flags) (St d2 l2 h2 v2).
Proof.
  intros HP. destruct (runtime_svc_init_run HS d l v HP) as (rcs & d' & l' & v' & E & Hl & HP' & Ht).
  exists rcs, d', l', v'. split; [done|]. split; [done|]. split; [done|].
  intros me x0 x1 x2 x3 x4 flags d2 l2 h2 v2 Hv idx.
  apply (dispatch_run rcs me (sget v')); [done|apply (sv_few HS)|done].
Qed.

(** The assembly dispatcher and the C function agree.  With a table that the
    set-up has made, and the caller's registers saved in its context, the search
    by bit 7 of the index ([smc_handler64]) does for every function id what the
    comparison with the number of services ([handle_runtime_svc]) does. *)
Theorem dispatchers_agree rcs (me : nat) (ss : nat) c d l hl v :
  table_of descs rcs (sget v) -> (length descs < 128)%nat ->
  ctx_ok (sget v) -> context_of ss (sget v) me = Some c ->
  let x i := nth i (gp_regs c) 0 in
  handle_runtime_svc (Z.of_nat me) descs (u32 (x 0%nat)) (Z.of_nat ss) (St d l hl v) =
  smc_dispatch (Z.of_nat me) descs (x 0%nat) (x 1%nat) (x 2%nat) (x 3%nat) (x 4%nat) (Z.of_nat ss) (St d l hl v).
Proof.
  intros [Hw Ht] Hfew Hc Hx x. unfold handle_runtime_svc, smc_dispatch, RT_SVC_DECS_NUM.
  set (idx := get_unique_oen_from_smc_fid (u32 (x 0%nat))).
  pose proof (fid_idx_range (u32 (x 0%nat)) : 0 <= idx < _) as Hidx. unfold MAX_RT_SVCS, indices_wf in *.
  rewrite (proj2 (Z.ltb_lt _ _)) by lia. run.
  destruct (lookup_lt_is_Some_2 (rt_svc_descs_indices (sget v)) (Z.to_nat idx)) as [y Hy]; [lia|].
  rewrite !(run_bind_aread _ _ y) by (done || apply Z.ltb_ge; lia).
  destruct (Ht _ _ Hy) as [[-> _]|(i & -> & (svc & Hs & _) & _)]; rewrite Z.geb_leb.
  - rewrite (proj2 (Z.leb_le _ _)) by lia. done.
  - apply lookup_lt_Some in Hs. rewrite (proj2 (Z.leb_gt _ _)), small_index by lia.
    assert (Hss : (ss < 2)%nat) by (destruct (slot_at _ _ _ _ Hc Hx) as (_ & _ & _ & _ & _ & ?); done).
    assert ((Z.of_nat ss .& 1) = Z.of_nat ss) as -> by (by destruct ss as [|[|]]; [..|lia]).
    by rewrite (get_ctx_run _ ss me c).
Qed.

End Proofs.

(** ** Three services: one that fails, one without initialisation, one of 14 owners *)

Abbreviation svc_image := (ctx_vars * rt_svc)%type.
Definition demo_handler `{Env} (tag : Z) (fid x1 x2 x3 x4 flags : Z) : M svc_image smc_exit :=
  smc_ret 0 flags [tag; x1].
Definition demo_svcs `{Env} : list (rt_svc_desc svc_image) :=
  [RtSvcDesc 2 2 SMC_TYPE_FAST "failing" (Some (ret 1)) (Some (demo_handler 7));
   RtSvcDesc 0 0 SMC_TYPE_FAST "plain" None (Some (demo_handler 8));
   RtSvcDesc 50 63 SMC_TYPE_YIELD "wide" (Some (ret 0)) (Some (demo_handler 9))].
Definition demo_ctx : ctx_vars := CtxVars (repeat (repeat (Slot true zero_context) 2) 4).

Lemma demo_ctx_ok : ctx_ok demo_ctx.
Proof.
  split; [done|]. unfold demo_ctx. cbn [cpu_contexts repeat].
  repeat (apply Forall_cons_2; [by exists (Slot true zero_context), (Slot true zero_context)|]).
  apply Forall_nil_2.
Qed.

Lemma demo_services : services (H := PmIpi.quiet_board) demo_svcs (fun _ _ => True) [].
Proof.
  split.
  - simpl. lia.
  - done.
  - repeat constructor; simpl; try done; try (by left); try (by right); by eexists.
  - done.
  - intros rcs svc d l v Hn _. destruct rcs as [|r0 [|r1 [|r2 rcs]]]; simplify_eq/=;
      do 2 eexists; exists l, v; done.
Qed.

(** A yielding call of owner 50 reaches the third service, SiP calls nobody. *)
Lemma runtime_svc_dispatch_witness : exists (rcs : list Z) d' l' v',
  runtime_svc_init (H := PmIpi.quiet_board) demo_svcs
    (St (H := PmIpi.quiet_board) tt [] [] (demo_ctx, RtVars (repeat 0 128))) =
    (Ret tt, St (H := PmIpi.quiet_board) d' l' [] v') /\ length rcs = 3%nat /\
  (smc_dispatch (H := PmIpi.quiet_board) 0 demo_svcs 0x32000004 5 0 0 0 1 (St (H := PmIpi.quiet_board) d' l' [] v')).1 =
    Ret (ToContext 1).
Proof.
  destruct (runtime_svc_dispatch (H := PmIpi.quiet_board) demo_svcs (fun _ _ => True) [] demo_services
    tt [] (demo_ctx, RtVars (repeat 0 128)) I) as (rcs & d' & l' & v' & E & Hl & _ & Hd).
  exists rcs, d', l', v'. split; [exact E|]. split; [exact Hl|].
  assert (Hs : (runtime_svc_init (H := PmIpi.quiet_board) demo_svcs
    (St (H := PmIpi.quiet_board) tt [] [] (demo_ctx, RtVars (repeat 0 128)))).2 =
    St (H := PmIpi.quiet_board) d' l' [] v') by by rewrite E.
  rewrite <- Hs. vm_compute. reflexivity.
Defined.

Lemma dispatchers_agree_witness :
  let v := (runtime_svc_init (H := PmIpi.quiet_board) demo_svcs
             (St (H := PmIpi.quiet_board) tt [] [] (demo_ctx, RtVars (repeat 0 128)))).2 in
  handle_runtime_svc (H := PmIpi.quiet_board) 0 demo_svcs 0 1 v =
  smc_dispatch (H := PmIpi.quiet_board) 0 demo_svcs 0 0 0 0 0 1 v.
Proof.
  destruct (runtime_svc_init_run (H := PmIpi.quiet_board) demo_svcs (fun _ _ => True) [] demo_services
    tt [] (demo_ctx, RtVars (repeat 0 128)) I) as (rcs & d' & l' & v' & E & _ & _ & Ht).
  assert (Hv : (vars (runtime_svc_init (H := PmIpi.quiet_board) demo_svcs
    (St (H := PmIpi.quiet_board) tt [] [] (demo_ctx, RtVars (repeat 0 128)))).2).1 = demo_ctx) by reflexivity.
  cbv zeta. rewrite E in *. cbn [snd vars] in *.
  apply (dispatchers_agree (H := PmIpi.quiet_board) demo_svcs rcs 0 1 zero_context d' l' [] v');
    [exact Ht|simpl; lia| |]; simpl; rewrite Hv; [|reflexivity].
  apply demo_ctx_ok.
Defined.

End RuntimeSvc.
