(* ===== verification/Bl31.v ===== *)
(** * The main function of BL31

    bl31/bl31_main.c and the architectural set-up of zynqmp/bl31_zynqmp_setup.c: the
    order in which the monitor is brought up on the processor that boots.  The
    runtime services and the function behind the pointer [bl32_init] are
    parameters; [ColdBoot] supplies those of this image.

    Build: CTX_INCLUDE_AARCH32_REGS on, EL3_EXCEPTION_HANDLING and the pointer
    authentication of the lower levels off. *)

From S2P Require Import Prelude Machine Trace Gic IntrMgmt Swdt Ipi PmDefs PmIpi CtxMgmt Psci Cci PsciPlat.
From S2P Require Import DelayTimer PlatStartup Xlat XlatPlat RuntimeSvc.
From Stdlib Require Import String.
From stdpp Require Import strings.
Import Gic IntrMgmt Ipi PmDefs PmIpi CtxMgmt Psci Cci PsciPlat DelayTimer PlatStartup Xlat XlatPlat RuntimeSvc.
#[local] Open Scope Z_scope.
#[local] Open Scope c_scope.

Module Bl31.

Definition EL_IMPL_A64ONLY : Z := 1.
Definition PSCI_FID_MASK : Z := 0xffe0.

(** [bl32_init] is the pointer to the one function that is ever registered, or
    NULL. *)
Record bl31 := Bl31Vars { bl32_init : bool; next_image_type : Z }.

Section Ops.
Context `{Env} {V : Type} `{!Has gic V} `{!Has intr_mgmt V} `{!Has Swdt.swdt V} `{!Has ipi V} `{!Has pm V}
  `{!Has cci V} `{!Has ctx_vars V} `{!Has plat_vars V} `{!Has timer V} `{!Has images V} `{!Has rt_svc V}
  `{!Has bl31 V} `{!Has xlat V}.
Variable mpidr_el1 : Z.
#[local] Abbreviation me := (plat_my_core_pos mpidr_el1).

(** The address of [bl31_warm_entrypoint]; the other fields of the arguments are
    constants. *)
Definition get_arm_std_svc_args (bl31_warm_entrypoint svc_mask : Z) : M V Z :=
  c_assert (svc_mask =? PSCI_FID_MASK) ;;
  ret bl31_warm_entrypoint.

Definition bl31_set_next_image_type (security_state : Z) : M V unit :=
  c_assert (sec_state_is_valid security_state) ;;
  mods (fun v => Bl31Vars (bl32_init v) security_state).
Definition bl31_get_next_image_type : M V Z := gets next_image_type.

Definition bl31_register_bl32_init : M V unit := mods (fun v => Bl31Vars true (next_image_type v)).

(** [cm_init] has nothing to do: the statics are zeroed. *)
Definition bl31_lib_init : M V unit := ret tt.

Definition bl31_plat_arch_setup (ld : layout) : M V unit :=
  plat_arm_interconnect_init ;;
  plat_arm_interconnect_enter_coherency mpidr_el1 ;;
  map_el3 ld.

Definition bl31_setup (ld : layout) (arg0 arg1 : Z) : M V unit :=
  bl31_early_platform_setup2 (BL31_END ld) arg0 arg1 ;;
  bl31_plat_arch_setup ld.

Definition bl31_prepare_next_image_entry : M V unit :=
  el1 <- el_implemented 1 ;;
  if el1 =? EL_IMPL_A64ONLY then stop Panic
  else
    image_type <- bl31_get_next_image_type ;;
    next_image_info <- bl31_plat_get_next_image_ep_info image_type ;;
    c_assert (image_type =? GET_SECURITY_STATE (ep_attr next_image_info)) ;;
    cm_init_my_context me next_image_info ;;
    cm_prepare_el3_exit me image_type.

Definition bl31_main (info : bool) (descs : list (rt_svc_desc V)) (bl32_init_fn : M V Z) : M V unit :=
  Swdt.bl31_platform_setup mpidr_el1 ;;
  bl31_lib_init ;;
  runtime_svc_init descs ;;
  registered <- gets bl32_init ;;
  (if (registered : bool) then _ <- bl32_init_fn ;; ret tt else ret tt) ;;
  bl31_prepare_next_image_entry ;;
  Swdt.bl31_plat_runtime_setup info mpidr_el1.

End Ops.
End Bl31.
