(* ===== verification/StdSvc.v ===== *)
(** * The standard and architecture services

    services/std_svc/std_svc_setup.c, services/arm_arch_svc/arm_arch_svc_setup.c and
    the weak hooks of plat/common/plat_bl_common.c that they call.

    Build: PSCI is the only standard service; WORKAROUND_CVE_2017_5715 is off,
    WORKAROUND_CVE_2018_3639 is on without the dynamic form, as platform.mk and
    cpu-ops.mk have it. *)

From S2P Require Import Prelude Machine Trace Gic IntrMgmt PmIpi PmSvc CtxMgmt Psci PsciOps RuntimeSvc PsciPlat Bl31.
From S2P Require Import Ipi PmDefs Swdt Cci.
From Stdlib Require Import String.
From stdpp Require Import strings.
Import Gic IntrMgmt CtxMgmt Psci PsciOps RuntimeSvc PsciPlat Bl31 Ipi PmDefs Cci.
#[local] Open Scope Z_scope.
#[local] Open Scope c_scope.

Module StdSvc.

(** std_svc.h, psci.h *)
Definition ARM_STD_SVC_CALL_COUNT : Z := 0x8400ff00.
Definition ARM_STD_SVC_UID : Z := 0x8400ff01.
Definition ARM_STD_SVC_VERSION : Z := 0x8400ff03.
Definition STD_SVC_VERSION_MAJOR : Z := 0x0.
Definition STD_SVC_VERSION_MINOR : Z := 0x1.
Definition PSCI_NUM_CALLS : Z := 18.

(** arm_arch_svc.h, smccc.h *)
Definition SMCCC_ARCH_FEATURES : Z := 0x80000001.
Definition SMCCC_ARCH_SOC_ID : Z := 0x80000002.
Definition SMCCC_ARCH_WORKAROUND_2 : Z := 0x80007FFF.
Definition SMCCC_GET_SOC_VERSION : Z := 0.
Definition SMCCC_GET_SOC_REVISION : Z := 1.
Definition SMC_ARCH_CALL_SUCCESS : Z := 0.
Definition SMC_ARCH_CALL_NOT_SUPPORTED : Z := -1.
Definition SMC_ARCH_CALL_NOT_REQUIRED : Z := -2.
Definition SMC_ARCH_CALL_INVAL_PARAM : Z := -3.
Definition MAKE_SMCCC_VERSION (major minor : Z) : Z :=
  shl32 (u32 major .& 0x7FFF) 16 .| shl32 (u32 minor .& 0xFFFF) 0.
Definition SMCCC_MAJOR_VERSION : Z := 1.
Definition SMCCC_MINOR_VERSION : Z := 2.

Definition arm_svc_uid : list Z :=
  [0x5b; 0x90; 0x8d; 0x10; 0x63; 0xf8; 0xe8; 0x47; 0xae; 0x2d; 0xc0; 0xfb; 0x56; 0x41; 0xf6; 0xe2].

(** [SMC_UUID_RET] *)
Definition uuid_words (uuid : list Z) : list Z :=
  let b i := nth i uuid 0 in
  let w i := PmSvc.smc_uuid_word (b i) (b (i + 1)%nat) (b (i + 2)%nat) (b (i + 3)%nat) in
  [w 0%nat; w 4%nat; w 8%nat; w 12%nat].

(** ** The hooks of the platform, not redefined by this one *)

Definition plat_get_soc_version : Z := SMC_ARCH_CALL_NOT_SUPPORTED.
Definition plat_get_soc_revision : Z := SMC_ARCH_CALL_NOT_SUPPORTED.
Definition plat_is_smccc_feature_available (fid : Z) : Z := SMC_ARCH_CALL_NOT_SUPPORTED.

(** ** arm_arch_svc_setup.c *)

Definition smccc_version : Z := MAKE_SMCCC_VERSION SMCCC_MAJOR_VERSION SMCCC_MINOR_VERSION.

Definition smccc_arch_features (arg1 : Z) : Z :=
  if (arg1 =? SMCCC_VERSION) || (arg1 =? SMCCC_ARCH_FEATURES) then SMC_ARCH_CALL_SUCCESS
  else if arg1 =? SMCCC_ARCH_SOC_ID then plat_is_smccc_feature_available arg1
  else if arg1 =? SMCCC_ARCH_WORKAROUND_2 then SMC_ARCH_CALL_NOT_REQUIRED
  else SMC_UNK.

Definition smccc_arch_id (arg1 : Z) : Z :=
  if arg1 =? SMCCC_GET_SOC_REVISION then plat_get_soc_revision
  else if arg1 =? SMCCC_GET_SOC_VERSION then plat_get_soc_version
  else SMC_ARCH_CALL_INVAL_PARAM.

Section Arch.
Context `{Env} {V : Type} `{!Has ctx_vars V}.
Variable me : Z.

(** [SMC_RET0]: the registers of the caller stay. *)
Definition arm_arch_svc_smc_handler (smc_fid x1 x2 x3 x4 flags : Z) : M V smc_exit :=
  if smc_fid =? SMCCC_VERSION then smc_ret me flags [smccc_version]
  else if smc_fid =? SMCCC_ARCH_FEATURES then smc_ret me flags [smccc_arch_features x1]
  else if smc_fid =? SMCCC_ARCH_SOC_ID then smc_ret me flags [smccc_arch_id x1]
  else if smc_fid =? SMCCC_ARCH_WORKAROUND_2 then ret (ToContext (flags .& 1))
  else smc_ret me flags [SMC_UNK].

End Arch.

(** ** std_svc_setup.c *)

Section Std.
Context `{E : Env} {V : Type} `{!Has gic V} `{!Has intr_mgmt V} `{!Has ctx_vars V} `{!Has psci V}.
Context `{PO : !PlatOps V} `{SO : !SpdOps V}.
Variable mpidr_el1 : Z.
#[local] Abbreviation me := (plat_my_core_pos mpidr_el1).

(** The argument block is an object of BL31: its address is not 0. *)
Definition std_svc_setup (bl31_warm_entrypoint : Z) : M V Z :=
  mailbox_ep <- get_arm_std_svc_args bl31_warm_entrypoint PSCI_FID_MASK ;;
  r <- psci_setup mpidr_el1 mailbox_ep ;;
  ret (if negb (r =? PSCI_E_SUCCESS) then 1 else 0).

Definition std_svc_smc_handler (smc_fid x1 x2 x3 x4 flags : Z) : M V smc_exit :=
  if is_psci_fid smc_fid then
    r <- psci_smc_handler mpidr_el1 smc_fid x1 x2 x3 flags ;;
    smc_ret me flags [r]
  else if smc_fid =? ARM_STD_SVC_CALL_COUNT then smc_ret me flags [PSCI_NUM_CALLS]
  else if smc_fid =? ARM_STD_SVC_UID then smc_ret me flags (uuid_words arm_svc_uid)
  else if smc_fid =? ARM_STD_SVC_VERSION then smc_ret me flags [STD_SVC_VERSION_MAJOR; STD_SVC_VERSION_MINOR]
  else smc_ret me flags [SMC_UNK].

End Std.

(** The words that the UID call answers. *)
Example arm_uid_words : uuid_words arm_svc_uid = [0x108d905b; 0x47e8f863; 0xfbc02dae; 0xe2f64156].
Proof. reflexivity. Qed.
Example smccc_version_1_2 : smccc_version = 0x10002.
Proof. reflexivity. Qed.

End StdSvc.
