(* ===== verification/Opteed.v ===== *)
(** * The OP-TEE dispatcher

    services/spd/opteed: opteed_main.c, opteed_common.c and opteed_pm.c, in a
    build with assertions.  OP-TEE is entered synchronously (the power management
    handlers and the initialisation: control comes back to the C code that
    entered it) or by leaving EL3 through its context (SMCs and interrupts of the
    normal world).

    OP-TEE itself runs at S-EL1 and is a parameter: when it is entered, at the
    address in its context, it runs until it executes an SMC; the registers of
    that moment are read by calls ["optee_register"], ["optee_elr"] and
    ["optee_spsr"], whose last argument is that address, and are saved to the
    secure context as the exception vector does.  [opteed_enter_sp] and
    [opteed_exit_sp] are assembly: the first saves the C context on the stack and
    leaves EL3, the second goes back to it. *)

From S2P Require Import Prelude Machine Gic IntrMgmt CtxMgmt Psci PsciOps PlatStartup RuntimeSvc Bl31.
From Stdlib Require Import String.
From stdpp Require Import strings.
Import Gic IntrMgmt CtxMgmt Psci PsciOps PlatStartup RuntimeSvc Bl31.
#[local] Open Scope Z_scope.
#[local] Open Scope c_scope.

Module Opteed.

Definition OPTEE_PSTATE_OFF : Z := 0.
Definition OPTEE_PSTATE_ON : Z := 1.
Definition OPTEE_PSTATE_SUSPEND : Z := 2.
Definition OPTEE_PSTATE_SHIFT : Z := 0.
Definition OPTEE_PSTATE_MASK : Z := 0x3.
Definition get_optee_pstate (state : Z) : Z := (state .>> OPTEE_PSTATE_SHIFT) .& OPTEE_PSTATE_MASK.
Definition set_optee_pstate (st pst : Z) : Z :=
  (st .& not32 (OPTEE_PSTATE_MASK .<< OPTEE_PSTATE_SHIFT))
  .| ((pst .& OPTEE_PSTATE_MASK) .<< OPTEE_PSTATE_SHIFT).
Definition OPTEE_AARCH64 : Z := MODE_RW_64.
Definition OPTEE_MIGRATE_INFO : Z := PSCI_TOS_NOT_PRESENT_MP.

(** [TEESMC_OPTEED_RV], and the calls that OP-TEE returns with *)
Definition TEESMC_OPTEED_RV (func_num : Z) : Z :=
  (1 .<< 31) .| (0 .<< 30) .| (62 .<< 24) .| (func_num .& 0xffff).
Definition TEESMC_OPTEED_RETURN_ENTRY_DONE : Z := TEESMC_OPTEED_RV 0.
Definition TEESMC_OPTEED_RETURN_ON_DONE : Z := TEESMC_OPTEED_RV 1.
Definition TEESMC_OPTEED_RETURN_OFF_DONE : Z := TEESMC_OPTEED_RV 2.
Definition TEESMC_OPTEED_RETURN_SUSPEND_DONE : Z := TEESMC_OPTEED_RV 3.
Definition TEESMC_OPTEED_RETURN_RESUME_DONE : Z := TEESMC_OPTEED_RV 4.
Definition TEESMC_OPTEED_RETURN_CALL_DONE : Z := TEESMC_OPTEED_RV 5.
Definition TEESMC_OPTEED_RETURN_FIQ_DONE : Z := TEESMC_OPTEED_RV 6.
Definition TEESMC_OPTEED_RETURN_SYSTEM_OFF_DONE : Z := TEESMC_OPTEED_RV 7.
Definition TEESMC_OPTEED_RETURN_SYSTEM_RESET_DONE : Z := TEESMC_OPTEED_RV 8.

(** The entries of [optee_vectors_t], of four bytes each. *)
Definition yield_smc_entry (table : Z) : Z := table + 0.
Definition fast_smc_entry (table : Z) : Z := table + 4.
Definition cpu_on_entry (table : Z) : Z := table + 8.
Definition cpu_off_entry (table : Z) : Z := table + 12.
Definition cpu_resume_entry (table : Z) : Z := table + 16.
Definition cpu_suspend_entry (table : Z) : Z := table + 20.
Definition fiq_entry (table : Z) : Z := table + 24.
Definition system_off_entry (table : Z) : Z := table + 28.
Definition system_reset_entry (table : Z) : Z := table + 32.

(** [cpu_ctx] of an [optee_context_t] is the object of the secure slot of
    [CtxMgmt.cpu_contexts]. *)
Record optee_context := OpteeContext { optee_state : Z; optee_mpidr : Z; c_rt_ctx : Z }.

Record opteed := OpteedVars {
  optee_vector_table : Z;
  opteed_sp_context : list optee_context;
  opteed_rw : Z
}.
Definition set_vector_table (x : Z) (v : opteed) : opteed :=
  OpteedVars x (opteed_sp_context v) (opteed_rw v).
Definition set_sp_context (x : list optee_context) (v : opteed) : opteed :=
  OpteedVars (optee_vector_table v) x (opteed_rw v).
Definition set_opteed_rw (x : Z) (v : opteed) : opteed :=
  OpteedVars (optee_vector_table v) (opteed_sp_context v) x.

Section Ops.
Context `{E : Env} {V : Type} `{!Has gic V} `{!Has intr_mgmt V} `{!Has ctx_vars V} `{!Has psci V}
  `{!Has images V} `{!Has bl31 V} `{!Has opteed V}.
Variable mpidr_el1 : Z.
#[local] Abbreviation me := (plat_my_core_pos mpidr_el1).

Definition optee_ctx : M V optee_context := l <- gets opteed_sp_context ;; aread l me.
Definition upd_optee_ctx (f : optee_context -> optee_context) : M V unit :=
  l <- gets opteed_sp_context ;; x <- aread l me ;; l' <- awrite l me (f x) ;; mods (set_sp_context l').
Definition set_pstate (pst : Z) : M V unit :=
  upd_optee_ctx (fun c => OpteeContext (set_optee_pstate (optee_state c) pst) (optee_mpidr c) (c_rt_ctx c)).
Definition set_c_rt_ctx (x : Z) : M V unit :=
  upd_optee_ctx (fun c => OpteeContext (optee_state c) (optee_mpidr c) x).

(** [assert(cm_get_context(security_state) == ...)]: the pointer of the slot is
    set, to the only object it can hold. *)
Definition assert_context (security_state : Z) : M V cpu_context :=
  ctx <- cm_get_context_by_index me security_state ;;
  c_assert (bool_decide (is_Some ctx)) ;;
  deref ctx.

(** ** opteed_common.c *)

Definition opteed_init_optee_ep_state (rw pc pageable_part mem_limit dt_addr : Z)
    : M V entry_point_info :=
  c_assert (negb (pc =? 0)) ;;
  upd_optee_ctx (fun c =>
    OpteeContext (set_optee_pstate 0 OPTEE_PSTATE_OFF) mpidr_el1 (c_rt_ctx c)) ;;
  cm_set_context_by_index me SECURE ;;
  sctlr <- read_sysreg "read_sctlr_el3" ;;
  let ep_attr := SECURE .| EP_ST_ENABLE in
  let ep_attr := if truthy (sctlr .& SCTLR_EE_BIT) then ep_attr .| EP_EE_BIG else ep_attr in
  ret (EpInfo ep_attr pc
    (if rw =? OPTEE_AARCH64 then SPSR_64 MODE_EL1 MODE_SP_ELX DISABLE_ALL_EXCEPTIONS
     else SPSR_MODE32 MODE32_svc 0 0 (DAIF_FIQ_BIT .| DAIF_IRQ_BIT .| DAIF_ABT_BIT))
    (pageable_part :: mem_limit :: dt_addr :: repeat 0 5)).

Definition opteed_synchronous_sp_exit (rc : Z) : M V smc_exit :=
  _ <- assert_context SECURE ;;
  cm_el1_sysregs_context_save me SECURE ;;
  c <- optee_ctx ;;
  c_assert (negb (c_rt_ctx c =? 0)) ;;
  ret (ToCaller rc).

(** ** opteed_main.c: SMCs *)

(** From the normal world.  [handle] is the non-secure context. *)
Definition opteed_smc_from_ns (smc_fid x1 x2 x3 : Z) : M V smc_exit :=
  _ <- assert_context NON_SECURE ;;
  cm_el1_sysregs_context_save me NON_SECURE ;;
  _ <- assert_context SECURE ;;
  table <- gets optee_vector_table ;;
  cm_set_elr_el3 me SECURE
    (if GET_SMC_TYPE smc_fid =? 1 then fast_smc_entry table else yield_smc_entry table) ;;
  cm_el1_sysregs_context_restore me SECURE ;;
  cm_set_next_eret_context me SECURE ;;
  ns <- assert_context NON_SECURE ;;
  write_gp_regs me SECURE 4 (take 4 (drop 4 (gp_regs ns))) ;;
  write_gp_regs me SECURE 0 [smc_fid; x1; x2; x3] ;;
  ret (ToContext SECURE).

(** [psci_register_spd_pm_hook(&opteed_pm)]: the table has no [svc_migrate] and
    has [svc_migrate_info]. *)
Definition register_opteed_pm : M V unit :=
  mods (set_spd_pm true) ;;
  mods (fun v => set_caps (psci_caps v .| (define_psci_cap PSCI_MIG_INFO_UP_CPU_AARCH64
                                           .| define_psci_cap PSCI_MIG_INFO_TYPE)) v).

Definition entry_done (x1 : Z) : M V smc_exit :=
  t <- gets optee_vector_table ;;
  c_assert (t =? 0) ;;
  mods (set_vector_table x1) ;;
  (if negb (x1 =? 0) then
     set_pstate OPTEE_PSTATE_ON ;;
     register_opteed_pm ;;
     rc <- register_interrupt_type_handler me INTR_TYPE_S_EL1 (Some opteed_sel1_interrupt_handler_ptr)
             (set_interrupt_rm_flag 0 NON_SECURE) ;;
     if negb (rc =? 0) then stop Panic else ret tt
   else ret tt) ;;
  opteed_synchronous_sp_exit x1.

(** From OP-TEE. *)
Definition opteed_smc_from_optee (smc_fid x1 x2 x3 x4 : Z) : M V smc_exit :=
  if smc_fid =? TEESMC_OPTEED_RETURN_ENTRY_DONE then entry_done x1
  else if (smc_fid =? TEESMC_OPTEED_RETURN_ON_DONE) || (smc_fid =? TEESMC_OPTEED_RETURN_RESUME_DONE)
       || (smc_fid =? TEESMC_OPTEED_RETURN_OFF_DONE) || (smc_fid =? TEESMC_OPTEED_RETURN_SUSPEND_DONE)
       || (smc_fid =? TEESMC_OPTEED_RETURN_SYSTEM_OFF_DONE)
       || (smc_fid =? TEESMC_OPTEED_RETURN_SYSTEM_RESET_DONE)
  then opteed_synchronous_sp_exit x1
  else if smc_fid =? TEESMC_OPTEED_RETURN_CALL_DONE then
    _ <- assert_context SECURE ;;
    cm_el1_sysregs_context_save me SECURE ;;
    _ <- assert_context NON_SECURE ;;
    cm_el1_sysregs_context_restore me NON_SECURE ;;
    cm_set_next_eret_context me NON_SECURE ;;
    write_gp_regs me NON_SECURE 0 [x1; x2; x3; x4] ;;
    ret (ToContext NON_SECURE)
  else if smc_fid =? TEESMC_OPTEED_RETURN_FIQ_DONE then
    _ <- assert_context NON_SECURE ;;
    cm_el1_sysregs_context_restore me NON_SECURE ;;
    cm_set_next_eret_context me NON_SECURE ;;
    ret (ToContext NON_SECURE)
  else stop Panic.

Definition opteed_smc_handler (smc_fid x1 x2 x3 x4 flags : Z) : M V smc_exit :=
  if negb (is_caller_secure flags) then opteed_smc_from_ns smc_fid x1 x2 x3
  else opteed_smc_from_optee smc_fid x1 x2 x3 x4.

(** ** The synchronous entry *)

Definition read_regs (f : string) (args : list Z) : M V Z := x <- ext_call f args ;; ret (u64 x).
Fixpoint optee_registers (entry : Z) (ids : list Z) : M V (list Z) :=
  match ids with
  | [] => ret []
  | i :: ids' => x <- read_regs "optee_register" [i; entry] ;; xs <- optee_registers entry ids' ;; ret (x :: xs)
  end.

(** OP-TEE runs until its next SMC, which is handled. *)
Definition opteed_enter_sp : M V Z :=
  sp <- read_regs "read_sp" [] ;;
  set_c_rt_ctx sp ;;
  ctx <- cm_get_context_by_index me SECURE ;;
  c <- deref ctx ;;
  let entry := ctx_elr_el3 c in
  regs <- optee_registers entry (steps 0 31 1) ;;
  elr <- read_regs "optee_elr" [entry] ;;
  spsr <- read_regs "optee_spsr" [entry] ;;
  cm_update me SECURE (fun c => set_spsr spsr (set_elr elr (set_gp_regs regs c))) ;;
  let x i := nth i regs 0 in
  e <- opteed_smc_handler (u32 (x 0%nat)) (x 1%nat) (x 2%nat) (x 3%nat) (x 4%nat) 0 ;;
  match e with ToCaller rc => ret rc | ToContext _ => stop Gone end.

Definition opteed_synchronous_sp_entry : M V Z :=
  c <- optee_ctx ;;
  c_assert (c_rt_ctx c =? 0) ;;
  _ <- assert_context SECURE ;;
  cm_el1_sysregs_context_restore me SECURE ;;
  cm_set_next_eret_context me SECURE ;;
  rc <- opteed_enter_sp ;;
  set_c_rt_ctx 0 ;;
  ret rc.

(** ** opteed_main.c: set-up and interrupts *)

Definition opteed_setup : M V Z :=
  ep <- bl31_plat_get_next_image_ep_info SECURE ;;
  if ep_pc ep =? 0 then ret 1
  else
    let arg n := nth n (ep_args ep) 0 in
    mods (set_opteed_rw (u32 (arg 0%nat))) ;;
    rw <- gets opteed_rw ;;
    ep' <- opteed_init_optee_ep_state rw (ep_pc ep) (arg 1%nat) (arg 2%nat) (arg 3%nat) ;;
    mods (fun im => Images ep' (bl33_image_ep_info im)) ;;
    bl31_register_bl32_init ;;
    ret 0.

Definition opteed_init : M V Z :=
  ep <- bl31_plat_get_next_image_ep_info SECURE ;;
  cm_init_my_context me ep ;;
  rc <- opteed_synchronous_sp_entry ;;
  c_assert (negb (rc =? 0)) ;;
  ret (u32 rc).

Definition opteed_sel1_interrupt_handler (flags : Z) : M V smc_exit :=
  c_assert ((flags .& 1) =? NON_SECURE) ;;
  _ <- assert_context NON_SECURE ;;
  cm_el1_sysregs_context_save me NON_SECURE ;;
  _ <- assert_context SECURE ;;
  table <- gets optee_vector_table ;;
  cm_set_elr_el3 me SECURE (fiq_entry table) ;;
  cm_el1_sysregs_context_restore me SECURE ;;
  cm_set_next_eret_context me SECURE ;;
  elr <- read_sysreg "read_elr_el3" ;;
  write_gp_regs me SECURE 0 [elr] ;;
  ret (ToContext SECURE).

(** ** opteed_pm.c *)

(** The asserts at the head of every handler. *)
Definition assert_pstate (pst : Z) : M V Z :=
  table <- gets optee_vector_table ;;
  c_assert (negb (table =? 0)) ;;
  c <- optee_ctx ;;
  c_assert (get_optee_pstate (optee_state c) =? pst) ;;
  ret table.

(** [rc] is an [int32_t]. *)
Definition enter_or_panic : M V unit :=
  rc <- opteed_synchronous_sp_entry ;;
  if negb (u32 rc =? 0) then stop Panic else ret tt.

Definition opteed_cpu_on_handler (target_cpu : Z) : M V unit := ret tt.

Definition opteed_cpu_off_handler (unused : Z) : M V Z :=
  table <- assert_pstate OPTEE_PSTATE_ON ;;
  cm_set_elr_el3 me SECURE (cpu_off_entry table) ;;
  enter_or_panic ;;
  set_pstate OPTEE_PSTATE_OFF ;;
  ret 0.

Definition opteed_cpu_suspend_handler (max_off_pwrlvl : Z) : M V unit :=
  table <- assert_pstate OPTEE_PSTATE_ON ;;
  write_gp_regs me SECURE 0 [max_off_pwrlvl] ;;
  cm_set_elr_el3 me SECURE (cpu_suspend_entry table) ;;
  enter_or_panic ;;
  set_pstate OPTEE_PSTATE_SUSPEND.

Definition opteed_cpu_on_finish_handler (unused : Z) : M V unit :=
  table <- assert_pstate OPTEE_PSTATE_OFF ;;
  rw <- gets opteed_rw ;;
  ep <- opteed_init_optee_ep_state rw (cpu_on_entry table) 0 0 0 ;;
  cm_init_my_context me ep ;;
  enter_or_panic ;;
  set_pstate OPTEE_PSTATE_ON.

Definition opteed_cpu_suspend_finish_handler (max_off_pwrlvl : Z) : M V unit :=
  table <- assert_pstate OPTEE_PSTATE_SUSPEND ;;
  write_gp_regs me SECURE 0 [max_off_pwrlvl] ;;
  cm_set_elr_el3 me SECURE (cpu_resume_entry table) ;;
  enter_or_panic ;;
  set_pstate OPTEE_PSTATE_ON.

(** [resident_cpu] is not written. *)
Definition opteed_cpu_migrate_info : M V (Z * Z) := ret (OPTEE_MIGRATE_INFO, uninit 0).

Definition opteed_system_off : M V unit :=
  table <- assert_pstate OPTEE_PSTATE_ON ;;
  cm_set_elr_el3 me SECURE (system_off_entry table) ;;
  _ <- opteed_synchronous_sp_entry ;;
  ret tt.

Definition opteed_system_reset : M V unit :=
  table <- assert_pstate OPTEE_PSTATE_ON ;;
  cm_set_elr_el3 me SECURE (system_reset_entry table) ;;
  _ <- opteed_synchronous_sp_entry ;;
  ret tt.

Definition opteed_pm : spd_pm_ops V := {|
  svc_on := Some opteed_cpu_on_handler;
  svc_off := Some opteed_cpu_off_handler;
  svc_suspend := Some opteed_cpu_suspend_handler;
  svc_on_finish := Some opteed_cpu_on_finish_handler;
  svc_suspend_finish := Some opteed_cpu_suspend_finish_handler;
  svc_migrate := None;
  svc_migrate_info := Some opteed_cpu_migrate_info;
  svc_system_off := Some opteed_system_off;
  svc_system_reset := Some opteed_system_reset
|}.

End Ops.

#[export] Instance opteed_spd `{E : Env} {V : Type} `{!Has gic V} `{!Has intr_mgmt V} `{!Has ctx_vars V}
  `{!Has psci V} `{!Has images V} `{!Has bl31 V} `{!Has opteed V} : SpdOps V := { spd_ops := opteed_pm }.

End Opteed.
