(* ===== verification/OpteedLaws.v ===== *)
(** * The dispatcher keeps PSCI's contract

    The handlers of opteed_pm.c satisfy the part of [Hotplug.Hooks] that PSCI
    asks of a dispatcher: a processor goes down or to sleep with OP-TEE's state ON,
    comes up with it OFF and wakes with it SUSPEND, neither assertion nor [panic]
    is reached, and the non-secure contexts are not touched.  What is relied on is
    the protocol of teesmc_opteed.h: entered at its boot address OP-TEE answers ENTRY_DONE with
    the address of its vector table, and entered at a power management vector it
    answers with one of the DONE calls and the result 0. *)

From S2P Require Import Prelude Machine Trace Gic IntrMgmt CtxMgmt Psci PsciOps CtxFacts Hotplug.
From S2P Require Import PlatStartup RuntimeSvc Bl31 Opteed.
From Stdlib Require Import String.
From stdpp Require Import strings sets.
Import Gic IntrMgmt CtxMgmt Psci PsciOps CtxFacts Hotplug PlatStartup RuntimeSvc Bl31 Opteed.
#[local] Open Scope Z_scope.
#[local] Open Scope c_scope.

Module OpteedLaws.

(** The calls that end a synchronous entry of the power management. *)
Definition done_fids : list Z :=
  [TEESMC_OPTEED_RETURN_ON_DONE; TEESMC_OPTEED_RETURN_RESUME_DONE; TEESMC_OPTEED_RETURN_OFF_DONE;
   TEESMC_OPTEED_RETURN_SUSPEND_DONE; TEESMC_OPTEED_RETURN_SYSTEM_OFF_DONE;
   TEESMC_OPTEED_RETURN_SYSTEM_RESET_DONE].

(** The power management vectors of a table. *)
Definition pm_entries (table : Z) : list Z :=
  [cpu_on_entry table; cpu_off_entry table; cpu_resume_entry table; cpu_suspend_entry table;
   system_off_entry table; system_reset_entry table].

(** The protocol, for an OP-TEE with the given boot address and vector table; the
    stack of the monitor is not at 0. *)
Class OpteeComplies `{Env} := {
  optee_boot : Z;
  optee_table : Z;
  table_range : 0 < optee_table < 2 ^ 64;
  boot_fid : forall d, u32 (u64 (hw_call "optee_register" [0; optee_boot] d).1) = TEESMC_OPTEED_RETURN_ENTRY_DONE;
  boot_table : forall d, u64 (hw_call "optee_register" [1; optee_boot] d).1 = optee_table;
  done_fid : forall e d, e ∈ pm_entries optee_table ->
    u32 (u64 (hw_call "optee_register" [0; e] d).1) ∈ done_fids;
  done_ok : forall e d, e ∈ pm_entries optee_table -> u64 (hw_call "optee_register" [1; e] d).1 = 0;
  sp_set : forall d, u64 (hw_call "read_sp" [] d).1 <> 0
}.

Section Laws.
Context `{E : Env} {V : Type} `{!Has gic V} `{!Has intr_mgmt V} `{!Has ctx_vars V} `{!Has psci V}
  `{!Has images V} `{!Has bl31 V} `{!Has opteed V}.
Context `{!Indep ctx_vars opteed V} `{!Indep opteed ctx_vars V} `{!Indep intr_mgmt ctx_vars V}
  `{!Indep intr_mgmt opteed V} `{!Indep psci ctx_vars V} `{!Indep psci opteed V}.
Context `{OC : !OpteeComplies}.
Implicit Types (d : Dev) (l : list event) (h : list lock_id) (v : V).

(** OP-TEE's state on processor [i]; unless it is OFF its context is linked. *)
Definition pstate_in (b : tos_state) : Z :=
  match b with TosOn => OPTEE_PSTATE_ON | TosOff => OPTEE_PSTATE_OFF | TosSuspended => OPTEE_PSTATE_SUSPEND end.
Definition optee_in (i : nat) (b : tos_state) (v : V) : Prop :=
  optee_vector_table (sget v) = optee_table /\ length (opteed_sp_context (sget v)) = 4%nat /\
  ctx_ok (sget v) /\ wf (sget v) /\
  exists c, opteed_sp_context (sget v) !! i = Some c /\ c_rt_ctx c = 0 /\
    get_optee_pstate (optee_state c) = pstate_in b /\
    (b <> TosOff -> exists x, s_context (sget v) i = Some x).

Context (mpidr : Z) (i : nat).
Hypothesis Hme : plat_my_core_pos mpidr = Z.of_nat i.
Hypothesis Hi : (i < 4)%nat.

Lemma optee_ctx_run {B} (k : optee_context -> M V B) c d l h v :
  opteed_sp_context (sget v) !! i = Some c -> bind (optee_ctx mpidr) k (St d l h v) = k c (St d l h v).
Proof. intros Hc. unfold optee_ctx. rewrite Hme. run. by rewrite (run_bind_aread_nat _ _ c). Qed.

(** The entry of this processor becomes [f c]. *)
Definition with_ctx (c : optee_context) (v : V) : V :=
  sput (set_sp_context (<[i := c]> (opteed_sp_context (sget v))) (sget v)) v.

Lemma upd_ctx_run {B} (k : unit -> M V B) f c d l h v :
  opteed_sp_context (sget v) !! i = Some c ->
  bind (upd_optee_ctx mpidr f) k (St d l h v) = k tt (St d l h (with_ctx (f c) v)).
Proof.
  intros Hc. unfold upd_optee_ctx. rewrite Hme. run. rewrite (run_bind_aread_nat _ _ c) by done. run.
  rewrite run_bind_awrite_nat by by eapply lookup_lt_Some. by run.
Qed.

Lemma with_ctx_lookup c c' v : opteed_sp_context (sget v) !! i = Some c ->
  opteed_sp_context (sget (with_ctx c' v)) !! i = Some c'.
Proof.
  intros Hc. unfold with_ctx. run. simpl. apply list_lookup_insert_eq. by eapply lookup_lt_Some.
Qed.

Lemma assert_context_run {B} (k : cpu_context -> M V B) ss x d l h v :
  ctx_ok (sget v) -> context_of ss (sget v) i = Some x ->
  bind (assert_context mpidr (Z.of_nat ss)) k (St d l h v) = k x (St d l h v).
Proof.
  intros Hc Hx. unfold assert_context. rewrite Hme. run. rewrite (get_ctx_run _ ss i x) by done.
  rewrite bool_decide_eq_true_2 by done. by run.
Qed.

(** Saving and restoring only touches the device. *)
Lemma sysregs_run ss x d l h v : ctx_ok (sget v) -> context_of ss (sget v) i = Some x ->
  (exists d' l', cm_el1_sysregs_context_save (Z.of_nat i) (Z.of_nat ss) (St d l h v) = (Ret tt, St d' l' h v)) /\
  (exists d' l', cm_el1_sysregs_context_restore (Z.of_nat i) (Z.of_nat ss) (St d l h v) = (Ret tt, St d' l' h v)) /\
  (exists d' l', cm_set_next_eret_context (Z.of_nat i) (Z.of_nat ss) (St d l h v) = (Ret tt, St d' l' h v)).
Proof.
  intros Hc Hx. unfold cm_el1_sysregs_context_save, cm_el1_sysregs_context_restore, cm_set_next_eret_context,
    write_sysreg, spe_supported, read_sysreg.
  rewrite !(get_ctx_run _ ss i x) by done. rewrite !bool_decide_eq_true_2 by done. run.
  split; [by do 2 eexists|]. split; [|by do 2 eexists].
  bool_case; run; [|by do 2 eexists]. bool_case; run; by do 2 eexists.
Qed.

Lemma registers_run entry ids d l h v : exists d' l' regs,
  optee_registers entry ids (St d l h v) = (Ret regs, St d' l' h v) /\
  Forall2 (fun id y => exists d, y = u64 (hw_call "optee_register" [id; entry] d).1) ids regs.
Proof.
  revert d l. induction ids as [|id ids IH]; intros d l; simpl; [by exists d, l, []|].
  unfold read_regs. run.
  destruct (IH (hw_call "optee_register" [id; entry] d).2
    (EvCall "optee_register" [id; entry] (hw_call "optee_register" [id; entry] d).1 :: l)) as (d' & l' & regs & E' & HF).
  rewrite (bind_run _ _ _ _ _ E'). run. do 3 eexists. split; [reflexivity|]. constructor; [by exists d|done].
Qed.

(** OP-TEE's answer goes back to the caller. *)
Lemma exit_run fid x1 x2 x3 x4 c x d l h v : fid ∈ done_fids ->
  ctx_ok (sget v) -> s_context (sget v) i = Some x ->
  opteed_sp_context (sget v) !! i = Some c -> c_rt_ctx c <> 0 ->
  exists d' l', opteed_smc_handler mpidr fid x1 x2 x3 x4 0 (St d l h v) =
    (Ret (ToCaller x1), St d' l' h v).
Proof.
  intros Hf Hc Hx Ho Hrt. unfold opteed_smc_handler. change (negb (is_caller_secure 0)) with false. cbn match.
  assert (Hexit : exists d' l', opteed_synchronous_sp_exit mpidr x1 (St d l h v) = (Ret (ToCaller x1), St d' l' h v)).
  { unfold opteed_synchronous_sp_exit. change SECURE with (Z.of_nat 0).
    rewrite (assert_context_run _ 0 x) by done. rewrite Hme.
    destruct (sysregs_run 0 x d l h v Hc Hx) as ((d1 & l1 & E1) & _). rewrite (bind_run _ _ _ _ _ E1).
    rewrite (optee_ctx_run _ c) by done. rewrite (proj2 (Z.eqb_neq _ _) Hrt). run. by do 2 eexists. }
  unfold opteed_smc_from_optee. unfold done_fids in Hf.
  repeat (apply elem_of_cons in Hf as [->|Hf]; [exact Hexit|]). by apply not_elem_of_nil in Hf.
Qed.

(** What the handlers need of the rest of the image, and what they change. *)
Context (up : V -> Prop).
Hypothesis up_ctx : forall (c : ctx_vars) v, up v -> up (sput c v).
Hypothesis up_opteed : forall (o : opteed) v, up v -> up (sput o v).

(** The image is as before up to the two given components. *)
Definition becomes (v v' : V) (c : ctx_vars) (o : opteed) : Prop :=
  sget v' = c /\ sget v' = o /\ sget (S := psci) v' = sget v /\ sget (S := intr_mgmt) v' = sget v /\
  (up v -> up v').

Lemma becomes_ctx v v' c o c' : becomes v v' c o -> becomes v (sput c' v') c' o.
Proof. intros (Hc & Ho & Hp & Hin & Hu). unfold becomes. autorewrite with run. auto 10. Qed.

Lemma becomes_opteed v v' c o o' : becomes v v' c o -> becomes v (sput o' v') c o'.
Proof. intros (Hc & Ho & Hp & Hin & Hu). unfold becomes. autorewrite with run. auto 10. Qed.

Lemma becomes_refl v : becomes v v (sget v) (sget v).
Proof. by unfold becomes. Qed.

(** OP-TEE runs, and its SMC is handled with its registers saved. *)
Lemma enter_sp_smc c x d l h v : ctx_ok (sget v) -> s_context (sget v) i = Some x ->
  opteed_sp_context (sget v) !! i = Some c ->
  exists d' l' v' x' sp dr0 dr1 x2 x3 x4,
    let r j dr := u64 (hw_call "optee_register" [j; ctx_elr_el3 x] dr).1 in
    opteed_enter_sp mpidr (St d l h v) =
      bind (opteed_smc_handler mpidr (u32 (r 0 dr0)) (r 1 dr1) x2 x3 x4 0)
        (fun e => match e with ToCaller rc => ret rc | ToContext _ => stop Gone end) (St d' l' h v') /\
    sp <> 0 /\
    becomes v v' (put_s i x' (sget v))
      (set_sp_context (<[i := OpteeContext (optee_state c) (optee_mpidr c) sp]>
        (opteed_sp_context (sget v))) (sget v)).
Proof.
  intros Hc Hx Ho. unfold opteed_enter_sp, set_c_rt_ctx, read_regs. run. rewrite (upd_ctx_run _ _ c) by done.
  set (sp := u64 _). set (c1 := OpteeContext _ _ sp). set (v1 := with_ctx c1 v).
  set (d3 := (hw_call "read_sp" [] d).2). set (l3 := _ :: l).
  assert (Hc1 : sget (S := ctx_vars) v1 = sget v) by (unfold v1, with_ctx; by run).
  rewrite Hme. change SECURE with (Z.of_nat 0). rewrite (get_ctx_run _ 0 i x) by by rewrite Hc1. cbn [deref]. run.
  destruct (registers_run (ctx_elr_el3 x) (steps 0 31 1) d3 l3 h v1) as (d4 & l4 & regs & E4 & HF).
  rewrite (bind_run _ _ _ _ _ E4). run.
  rewrite (update_run _ _ 0 _ x) by by rewrite Hc1. rewrite Hc1.
  set (x' := set_spsr _ _). set (v2 := sput (put_s i x' (sget v)) v1).
  change (steps 0 31 1) with (0 :: 1 :: map Z.of_nat (seq 2 29)) in HF.
  apply Forall2_cons_inv_l in HF as (r0 & regs0 & (dr0 & ->) & HF & ->).
  apply Forall2_cons_inv_l in HF as (r1 & regs1 & (dr1 & ->) & _ & ->). cbn [nth].
  eexists _, _, v2, x', sp, dr0, dr1, _, _, _. cbv zeta. split; [reflexivity|]. split; [apply sp_set|].
  eapply becomes_ctx, becomes_opteed, becomes_refl.
Qed.

(** ... at a power management vector. *)
Lemma enter_sp_run c x d l h v : ctx_ok (sget v) -> s_context (sget v) i = Some x ->
  ctx_elr_el3 x ∈ pm_entries optee_table -> opteed_sp_context (sget v) !! i = Some c ->
  exists d' l' v' x' sp, opteed_enter_sp mpidr (St d l h v) = (Ret 0, St d' l' h v') /\
    becomes v v' (put_s i x' (sget v))
      (set_sp_context (<[i := OpteeContext (optee_state c) (optee_mpidr c) sp]>
        (opteed_sp_context (sget v))) (sget v)).
Proof.
  intros Hc Hx He Ho. destruct (enter_sp_smc c x d l h v Hc Hx Ho)
    as (d5 & l5 & v2 & x' & sp & dr0 & dr1 & x2 & x3 & x4 & E1 & Hsp & Hb).
  rewrite E1, (done_ok _ dr1 He). pose proof Hb as (C2 & O2 & _).
  destruct (exit_run _ 0 x2 x3 x4 (OpteeContext (optee_state c) (optee_mpidr c) sp) x' d5 l5 h v2
    (done_fid _ dr0 He)) as (d6 & l6 & E6).
  - rewrite C2. by apply put_ok.
  - rewrite C2. by eapply put_same.
  - rewrite O2. simpl. apply list_lookup_insert_eq. by eapply lookup_lt_Some.
  - done.
  - rewrite (bind_run _ _ _ _ _ E6). run. by exists d6, l6, v2, x', sp.
Qed.

Lemma set_back (o : opteed) c c1 : opteed_sp_context o !! i = Some c ->
  let o1 := set_sp_context (<[i := c1]> (opteed_sp_context o)) o in
  set_sp_context (<[i := c]> (opteed_sp_context o1)) o1 = o.
Proof.
  destruct o as [t cs rw]. unfold set_sp_context. simpl. intros Hc.
  by rewrite list_insert_insert_eq, list_insert_id.
Qed.

(** The synchronous entry up to the assembly. *)
Lemma sp_entry_start c x d l h v : ctx_ok (sget v) -> s_context (sget v) i = Some x ->
  opteed_sp_context (sget v) !! i = Some c -> c_rt_ctx c = 0 ->
  exists d' l', opteed_synchronous_sp_entry mpidr (St d l h v) =
    (rc <- opteed_enter_sp mpidr ;; set_c_rt_ctx mpidr 0 ;; ret rc) (St d' l' h v).
Proof.
  intros Hc Hx Ho Hrt. unfold opteed_synchronous_sp_entry. rewrite (optee_ctx_run _ c) by done.
  rewrite Hrt. run. change SECURE with (Z.of_nat 0). rewrite (assert_context_run _ 0 x) by done. rewrite Hme.
  destruct (sysregs_run 0 x d l h v Hc Hx) as (_ & (d1 & l1 & E1) & _). rewrite (bind_run _ _ _ _ _ E1).
  destruct (sysregs_run 0 x d1 l1 h v Hc Hx) as (_ & _ & (d2 & l2 & E2)). rewrite (bind_run _ _ _ _ _ E2).
  by exists d2, l2.
Qed.

(** ... and its end: the stack pointer is cleared. *)
Lemma sp_entry_end (rc : Z) c c1 d l h v : opteed_sp_context (sget v) !! i = Some c1 ->
  optee_state c = optee_state c1 -> optee_mpidr c = optee_mpidr c1 -> c_rt_ctx c = 0 ->
  (set_c_rt_ctx mpidr 0 ;; ret rc) (St d l h v) = (Ret rc, St d l h (with_ctx c v)).
Proof.
  intros Hc1 Hs Hm Hrt. unfold set_c_rt_ctx. rewrite (upd_ctx_run _ _ c1) by done. run.
  assert (OpteeContext (optee_state c1) (optee_mpidr c1) 0 = c) as ->; [|done].
  destruct c. simpl in *. by subst.
Qed.

Lemma sp_entry_run c x d l h v : ctx_ok (sget v) -> s_context (sget v) i = Some x ->
  ctx_elr_el3 x ∈ pm_entries optee_table -> opteed_sp_context (sget v) !! i = Some c -> c_rt_ctx c = 0 ->
  exists d' l' v' x', opteed_synchronous_sp_entry mpidr (St d l h v) = (Ret 0, St d' l' h v') /\
    becomes v v' (put_s i x' (sget v)) (sget v).
Proof.
  intros Hc Hx He Ho Hrt. destruct (sp_entry_start c x d l h v Hc Hx Ho Hrt) as (d2 & l2 & E2). rewrite E2.
  destruct (enter_sp_run c x d2 l2 h v Hc Hx He Ho) as (d3 & l3 & v3 & x' & sp & E3 & Hb).
  rewrite (bind_run _ _ _ _ _ E3). pose proof Hb as (_ & Ho3 & _).
  rewrite (sp_entry_end 0 c (OpteeContext (optee_state c) (optee_mpidr c) sp));
    [|rewrite Ho3; simpl; apply list_lookup_insert_eq; by eapply lookup_lt_Some|done|done|done].
  exists d3, l3. eexists. exists x'. split; [reflexivity|].
  unfold with_ctx. rewrite Ho3, set_back by done. by eapply becomes_opteed.
Qed.

Lemma becomes_trans v1 v2 v3 c1 o1 c2 o2 : becomes v1 v2 c1 o1 -> becomes v2 v3 c2 o2 -> becomes v1 v3 c2 o2.
Proof.
  intros (_ & _ & P1 & I1 & U1) (C2 & O2 & P2 & I2 & U2). unfold becomes.
  split; [done|]. split; [done|]. split; [congruence|]. split; [congruence|auto].
Qed.

(** The handlers change the secure context and the entry of this processor. *)
Definition handled (v v' : V) (x : cpu_context) (c : optee_context) : Prop :=
  becomes v v' (put_s i x (sget v)) (set_sp_context (<[i := c]> (opteed_sp_context (sget v))) (sget v)).

Lemma handled_quiet v v' x c : handled v v' x c -> quiet v v'.
Proof.
  intros (Hc & _ & Hp & Hin & _). split; [done|]. split; [done|]. rewrite Hc. split; [apply put_ok|].
  intros j. apply put_other. by left.
Qed.

(** ... also when the secure context has been prepared first. *)
Lemma handled_after v v1 v' x1 x c : becomes v v1 (put_s i x1 (sget v)) (sget v) -> handled v1 v' x c ->
  handled v v' x c.
Proof.
  intros Hb1 Hb. pose proof Hb1 as (C1 & O1 & _). unfold handled in *. rewrite C1, O1, put_twice in Hb.
  by eapply becomes_trans.
Qed.

Lemma handled_other v v' x c j b : handled v v' x c -> j <> i -> optee_in j b v -> optee_in j b v'.
Proof.
  intros (Hc & Ho & _ & Hin & _) Hj (Ht & Hl & Hk & Hw & c0 & Hc0 & Hrt & Hps & Hs).
  unfold optee_in. rewrite Hc, Ho, Hin. cbn [set_sp_context optee_vector_table opteed_sp_context].
  rewrite length_insert. split; [done|]. split; [done|]. split; [by apply put_ok|]. split; [done|].
  exists c0. rewrite list_lookup_insert_ne by done. split; [done|]. split; [done|]. split; [done|].
  intros Hb. destruct (Hs Hb) as [y Hy]. exists y. rewrite put_other; [done|]. by right.
Qed.

Lemma handled_mine v v' x c (b0 b : tos_state) : handled v v' x c -> optee_in i b0 v -> c_rt_ctx c = 0 ->
  get_optee_pstate (optee_state c) = pstate_in b -> optee_in i b v'.
Proof.
  intros (Hc & Ho & _ & Hin & _) (Ht & Hl & Hk & Hw & c0 & Hc0 & _) Hrt Hps.
  unfold optee_in. rewrite Hc, Ho, Hin. cbn [set_sp_context optee_vector_table opteed_sp_context].
  rewrite length_insert. split; [done|]. split; [done|]. split; [by apply put_ok|]. split; [done|].
  exists c. rewrite list_lookup_insert_eq by lia. split; [done|]. split; [done|]. split; [done|].
  intros _. exists x. apply put_new; [done|done|lia].
Qed.

(** The asserts at the head of a handler hold. *)
Lemma assert_pstate_run {B} (k : Z -> M V B) (b : tos_state) c d l h v : optee_vector_table (sget v) = optee_table ->
  opteed_sp_context (sget v) !! i = Some c -> get_optee_pstate (optee_state c) = pstate_in b ->
  bind (assert_pstate mpidr (pstate_in b)) k (St d l h v) = k optee_table (St d l h v).
Proof.
  intros Ht Hc Hps. unfold assert_pstate. run. rewrite Ht. pose proof table_range.
  rewrite (proj2 (Z.eqb_neq optee_table 0)) by lia. run.
  rewrite (optee_ctx_run _ c) by done. rewrite Hps, Z.eqb_refl. by run.
Qed.

Lemma pstate_of (st pst : Z) : 0 <= pst <= 2 -> get_optee_pstate (set_optee_pstate st pst) = pst.
Proof.
  intros Hp. assert (Hst : get_optee_pstate (set_optee_pstate st pst) =
    (((st .& not32 3) .| pst) .& 3)).
  { unfold get_optee_pstate, set_optee_pstate. assert (pst = 0 \/ pst = 1 \/ pst = 2) as [-> |[-> | ->]] by lia;
      by rewrite Z.shiftr_0_r. }
  rewrite Hst, Z.land_lor_distr_l, <- Z.land_assoc. change (not32 3 .& 3) with 0. rewrite Z.land_0_r.
  by assert (pst = 0 \/ pst = 1 \/ pst = 2) as [-> |[-> | ->]] by lia.
Qed.

(** OP-TEE handles what it is told at the vector in its context, and its state
    becomes [b]. *)
Lemma enter_set_run (b : tos_state) c x d l h v : ctx_ok (sget v) ->
  s_context (sget v) i = Some x -> ctx_elr_el3 x ∈ pm_entries optee_table ->
  opteed_sp_context (sget v) !! i = Some c -> c_rt_ctx c = 0 ->
  exists d' l' v' x', (enter_or_panic mpidr ;; set_pstate mpidr (pstate_in b)) (St d l h v) = (Ret tt, St d' l' h v') /\
    handled v v' x' (OpteeContext (set_optee_pstate (optee_state c) (pstate_in b)) (optee_mpidr c) 0).
Proof.
  intros Hk Hx He Hc Hrt. destruct (sp_entry_run c x d l h v Hk Hx He Hc Hrt) as (d2 & l2 & v2 & x2 & E2 & Hb2).
  unfold enter_or_panic. run. rewrite (bind_run _ _ _ _ _ E2). run. change (negb (u32 0 =? 0)) with false. run.
  pose proof Hb2 as (_ & O2 & _). unfold set_pstate.
  rewrite <- last_bind, (upd_ctx_run _ _ c) by by rewrite O2. rewrite Hrt. run. do 2 eexists. eexists. exists x2. split; [reflexivity|]. unfold handled, with_ctx. rewrite O2. by eapply becomes_opteed.
Qed.

(** What a handler has to show for the transfer from [b] to [b']. *)
Lemma handled_transfers {A} (Q : A -> Prop) (a : A) (b b' : tos_state) v v' x c : optee_in i b v -> up v -> Q a ->
  handled v v' x (OpteeContext (set_optee_pstate (optee_state c) (pstate_in b')) (optee_mpidr c) 0) ->
  up v' /\ quiet v v' /\ Q a /\ optee_in i b' v' /\ forall j e, j <> i -> optee_in j e v -> optee_in j e v'.
Proof.
  intros Hin Hup Ha Hb. split; [by apply Hb|]. split; [by eapply handled_quiet|]. split; [done|]. split.
  - eapply handled_mine; [exact Hb|exact Hin|done|]. apply pstate_of. by destruct b'.
  - intros j e Hj. by eapply handled_other.
Qed.

Lemma off_handler_transfers unused :
  transfers up optee_in i TosOn TosOff (opteed_cpu_off_handler mpidr unused) (fun rc => rc = 0).
Proof.
  intros d l h v Hup _ Hin. pose proof Hin as (Ht & Hl & Hk & Hw & c & Hc & Hrt & Hps & Hs).
  destruct (Hs ltac:(done)) as [x Hx]. unfold opteed_cpu_off_handler, returns.
  change OPTEE_PSTATE_ON with (pstate_in TosOn). rewrite (assert_pstate_run _ TosOn c) by done.
  unfold cm_set_elr_el3. rewrite Hme. change SECURE with (Z.of_nat 0).
  rewrite (update_run _ _ 0 _ x) by done. set (x1 := set_elr _ x). set (v1 := sput _ v).
  assert (Hb1 : becomes v v1 (put_s i x1 (sget v)) (sget v)) by eapply becomes_ctx, becomes_refl.
  change OPTEE_PSTATE_OFF with (pstate_in TosOff).
  destruct (enter_set_run TosOff c x1 d l h v1) as (d2 & l2 & v2 & x2 & E2 & Hb2);
    [rewrite (proj1 Hb1); by apply put_ok|rewrite (proj1 Hb1); by eapply put_same|right; by left|
     by rewrite (proj1 (proj2 Hb1))|done|].
  pose proof (bind_run _ (fun _ => ret 0) _ _ _ E2) as E3. rewrite run_bind_assoc in E3. rewrite E3. simpl. split; [done|].
  eapply handled_transfers; [done|done|done|]. by eapply handled_after.
Qed.

(** Suspend and resume are told the level in x0. *)
Lemma told_run {B} (k : unit -> M V B) lvl (pc : Z) x d l h v : ctx_ok (sget v) -> s_context (sget v) i = Some x ->
  exists v1 x1, bind (write_gp_regs (plat_my_core_pos mpidr) SECURE 0 [lvl]) (fun _ =>
      bind (cm_set_elr_el3 (plat_my_core_pos mpidr) SECURE pc) k) (St d l h v) = k tt (St d l h v1) /\
    ctx_elr_el3 x1 = pc /\ becomes v v1 (put_s i x1 (sget v)) (sget v).
Proof.
  intros Hk Hx. unfold write_gp_regs, cm_set_elr_el3. rewrite Hme. change SECURE with (Z.of_nat 0).
  rewrite (update_run _ _ 0 _ x) by done. set (x1 := set_gp_regs _ x). set (v1 := sput _ v).
  assert (Hb1 : becomes v v1 (put_s i x1 (sget v)) (sget v)) by eapply becomes_ctx, becomes_refl.
  rewrite (update_run _ _ 0 _ x1); [|rewrite (proj1 Hb1); by apply put_ok|rewrite (proj1 Hb1); by eapply put_same].
  do 2 eexists. split; [reflexivity|]. split; [|rewrite (proj1 Hb1), put_twice; eapply becomes_ctx; exact Hb1]. done.
Qed.

Lemma told_transfers lvl (b b' : tos_state) (entry : Z -> Z) : b <> TosOff -> entry optee_table ∈ pm_entries optee_table ->
  transfers up optee_in i b b'
    (table <- assert_pstate mpidr (pstate_in b) ;;
     write_gp_regs (plat_my_core_pos mpidr) SECURE 0 [lvl] ;;
     cm_set_elr_el3 (plat_my_core_pos mpidr) SECURE (entry table) ;;
     enter_or_panic mpidr ;;
     set_pstate mpidr (pstate_in b')) (fun _ => True).
Proof.
  intros Hoff He d l h v Hup _ Hin. pose proof Hin as (Ht & Hl & Hk & Hw & c & Hc & Hrt & Hps & Hs).
  destruct (Hs Hoff) as [x Hx]. unfold returns. rewrite (assert_pstate_run _ b c) by done.
  match goal with |- context [bind (write_gp_regs _ _ _ _) (fun _ => bind (cm_set_elr_el3 _ _ ?pc) ?k)] =>
    destruct (told_run k lvl pc x d l h v Hk Hx) as (v1 & x1 & E1 & He1 & Hb1) end. rewrite E1. clear E1.
  destruct (enter_set_run b' c x1 d l h v1) as (d2 & l2 & v2 & x2 & E2 & Hb2);
    [rewrite (proj1 Hb1); by apply put_ok|rewrite (proj1 Hb1); by eapply put_same|by rewrite He1|
     by rewrite (proj1 (proj2 Hb1))|done|]. rewrite E2. simpl. split; [done|].
  eapply (handled_transfers (fun _ => True) tt); [done|done|done|]. by eapply handled_after.
Qed.

Lemma suspend_handler_transfers lvl :
  transfers up optee_in i TosOn TosSuspended (opteed_cpu_suspend_handler mpidr lvl) (fun _ => True).
Proof. apply (told_transfers lvl TosOn TosSuspended cpu_suspend_entry); [done|set_solver]. Qed.

Lemma resume_handler_transfers lvl :
  transfers up optee_in i TosSuspended TosOn (opteed_cpu_suspend_finish_handler mpidr lvl) (fun _ => True).
Proof. apply (told_transfers lvl TosSuspended TosOn cpu_resume_entry); [done|set_solver]. Qed.

(** The entry point of OP-TEE on a processor that comes up. *)
Lemma ep_state_run rw pc pageable limit dt c d l h v : pc <> 0 -> ctx_ok (sget v) -> opteed_sp_context (sget v) !! i = Some c ->
  exists ep d' l' v' x, opteed_init_optee_ep_state mpidr rw pc pageable limit dt (St d l h v) = (Ret ep, St d' l' h v') /\
    handled v v' x (OpteeContext (set_optee_pstate 0 OPTEE_PSTATE_OFF) mpidr (c_rt_ctx c)) /\
    GET_SECURITY_STATE (ep_attr ep) = SECURE /\ GET_EL (ep_spsr ep) <> MODE_EL2 /\ ep_pc ep = pc.
Proof.
  intros Hpc Hk Hc. unfold opteed_init_optee_ep_state. rewrite (proj2 (Z.eqb_neq _ _) Hpc). run.
  rewrite (upd_ctx_run _ _ c) by done. set (c1 := OpteeContext _ _ _). rewrite Hme. change SECURE with (Z.of_nat 0) at 1.
  set (v1 := with_ctx c1 v). assert (C1 : sget (S := ctx_vars) v1 = sget v) by (unfold v1, with_ctx; by run).
  assert (Hb1 : becomes v v1 (sget v) (set_sp_context (<[i := c1]> (opteed_sp_context (sget v))) (sget v)))
    by eapply becomes_opteed, becomes_refl.
  match goal with |- context [bind (cm_set_context_by_index _ _) ?k] =>
    destruct (link_run k 0 i d l h v1) as [x Ex]; [by rewrite C1|done|lia|] end.
  rewrite Ex. unfold read_sysreg. run. do 5 eexists. split; [reflexivity|]. rewrite C1.
  split; [eapply becomes_ctx; exact Hb1|]. cbn [ep_attr ep_spsr].
  split; [bool_case; done|]. split; [bool_case; done|done].
Qed.

Lemma finish_handler_transfers unused :
  transfers up optee_in i TosOff TosOn (opteed_cpu_on_finish_handler mpidr unused) (fun _ => True).
Proof.
  intros d l h v Hup _ Hin. pose proof Hin as (Ht & Hl & Hk & Hw & c & Hc & Hrt & Hps & _).
  unfold opteed_cpu_on_finish_handler, returns. change OPTEE_PSTATE_OFF with (pstate_in TosOff).
  rewrite (assert_pstate_run _ TosOff c) by done. run.
  pose proof table_range. destruct (ep_state_run (opteed_rw (sget v)) (cpu_on_entry optee_table) 0 0 0 c d l h v)
    as (ep & d1 & l1 & v1 & x1 & E1 & Hb1 & Hep & Hel & Hpc); [unfold cpu_on_entry; lia|done|done|].
  rewrite (bind_run _ _ _ _ _ E1). pose proof Hb1 as (C1 & O1 & _ & I1 & _). unfold cm_init_my_context. rewrite Hme.
  set (c1 := OpteeContext _ _ (c_rt_ctx c)) in *.
  assert (Hk1 : ctx_ok (sget v1)) by (rewrite C1; by apply put_ok).
  destruct (setup_run 0 ep i x1 d1 l1 h v1) as (d2 & n2 & x2 & E2 & _ & Helr & _);
    [done|rewrite C1; apply put_new; [done|done|lia]|by rewrite I1|done|done|].
  rewrite (bind_run _ _ _ _ _ E2). set (v2 := sput _ v1).
  assert (Hb2 : becomes v1 v2 (put_s i x2 (sget v1)) (sget v1)) by eapply becomes_ctx, becomes_refl.
  pose proof Hb2 as (C2 & O2 & _).
  assert (Hc2 : opteed_sp_context (sget v2) !! i = Some c1).
  { rewrite O2, O1. simpl. apply list_lookup_insert_eq. lia. }
  change OPTEE_PSTATE_ON with (pstate_in TosOn).
  destruct (enter_set_run TosOn c1 x2 d2 (n2 ++ l1) h v2) as (d3 & l3 & v3 & x3 & E3 & Hb3);
    [rewrite C2; by apply put_ok|rewrite C2; apply put_new; [done|done|lia]|rewrite Helr, Hpc; by left|done|done|].
  rewrite E3. simpl. split; [done|]. eapply (handled_transfers (fun _ => True) tt TosOff TosOn v v3 x3 c1); [done|done|done|].
  unfold handled in *. rewrite C2, O2, put_twice, C1, O1, put_twice in Hb3. cbn [set_sp_context opteed_sp_context] in Hb3.
  rewrite list_insert_insert_eq in Hb3.
  eapply becomes_trans; [exact Hb1|]. eapply becomes_trans; [exact Hb2|exact Hb3].
Qed.

End Laws.
End OpteedLaws.
