(* ===== verification/PsciSystem.v ===== *)
(** * PSCI on this platform, with OP-TEE

    The statics of the monitor as one record, the hooks of the platform and of the
    dispatcher plugged into PSCI, and the theorems about the whole: PSCI's
    setup, hotplug and suspend, and what can be reached from there. *)

From S2P Require Import Prelude Machine Trace Gic IntrMgmt Swdt Ipi PmDefs PmIpi PmReq PmClient PmApi PmTotal.
From S2P Require Import CtxMgmt Psci PsciOps Cci PsciTree CtxFacts Hotplug Suspend PsciPlat PsciLaws.
From S2P Require Import DelayTimer PlatStartup Xlat RuntimeSvc Bl31 Opteed OpteedLaws.
From Stdlib Require Import String.
From stdpp Require Import strings sets relations.
Import Gic IntrMgmt Ipi PmDefs PmIpi PmReq PmClient PmApi PmTotal CtxMgmt Psci PsciOps Cci PsciTree CtxFacts.
Import Hotplug Suspend PsciPlat PsciLaws DelayTimer PlatStartup RuntimeSvc Bl31 Opteed OpteedLaws.
#[local] Open Scope Z_scope.
#[local] Open Scope c_scope.

Module PsciSystem.

(** The statics of BL31 that the modelled sources declare. *)
Record el3_statics := El3 {
  s_gic : gic;
  s_intr : intr_mgmt;
  s_swdt : Swdt.swdt;
  s_ipi : ipi;
  s_pm : pm;
  s_cci : cci;
  s_ctx : ctx_vars;
  s_psci : psci;
  s_plat : plat_vars;
  s_opteed : opteed;
  s_timer : timer;
  s_images : images;
  s_rt : rt_svc;
  s_bl31 : bl31;
  s_xlat : Xlat.xlat
}.

#[export] Instance el3_has_gic : Has gic el3_statics := {
  sget := s_gic;
  sput x v := El3 x (s_intr v) (s_swdt v) (s_ipi v) (s_pm v) (s_cci v) (s_ctx v) (s_psci v) (s_plat v) (s_opteed v) (s_timer v) (s_images v) (s_rt v) (s_bl31 v) (s_xlat v);
  sget_sput _ _ := eq_refl;
  sput_sget v := match v with El3 _ _ _ _ _ _ _ _ _ _ _ _ _ _ _ => eq_refl end;
  sput_sput _ _ _ := eq_refl
}.
#[export] Instance el3_has_intr_mgmt : Has intr_mgmt el3_statics := {
  sget := s_intr;
  sput x v := El3 (s_gic v) x (s_swdt v) (s_ipi v) (s_pm v) (s_cci v) (s_ctx v) (s_psci v) (s_plat v) (s_opteed v) (s_timer v) (s_images v) (s_rt v) (s_bl31 v) (s_xlat v);
  sget_sput _ _ := eq_refl;
  sput_sget v := match v with El3 _ _ _ _ _ _ _ _ _ _ _ _ _ _ _ => eq_refl end;
  sput_sput _ _ _ := eq_refl
}.
#[export] Instance el3_has_swdt : Has Swdt.swdt el3_statics := {
  sget := s_swdt;
  sput x v := El3 (s_gic v) (s_intr v) x (s_ipi v) (s_pm v) (s_cci v) (s_ctx v) (s_psci v) (s_plat v) (s_opteed v) (s_timer v) (s_images v) (s_rt v) (s_bl31 v) (s_xlat v);
  sget_sput _ _ := eq_refl;
  sput_sget v := match v with El3 _ _ _ _ _ _ _ _ _ _ _ _ _ _ _ => eq_refl end;
  sput_sput _ _ _ := eq_refl
}.
#[export] Instance el3_has_ipi : Has ipi el3_statics := {
  sget := s_ipi;
  sput x v := El3 (s_gic v) (s_intr v) (s_swdt v) x (s_pm v) (s_cci v) (s_ctx v) (s_psci v) (s_plat v) (s_opteed v) (s_timer v) (s_images v) (s_rt v) (s_bl31 v) (s_xlat v);
  sget_sput _ _ := eq_refl;
  sput_sget v := match v with El3 _ _ _ _ _ _ _ _ _ _ _ _ _ _ _ => eq_refl end;
  sput_sput _ _ _ := eq_refl
}.
#[export] Instance el3_has_pm : Has pm el3_statics := {
  sget := s_pm;
  sput x v := El3 (s_gic v) (s_intr v) (s_swdt v) (s_ipi v) x (s_cci v) (s_ctx v) (s_psci v) (s_plat v) (s_opteed v) (s_timer v) (s_images v) (s_rt v) (s_bl31 v) (s_xlat v);
  sget_sput _ _ := eq_refl;
  sput_sget v := match v with El3 _ _ _ _ _ _ _ _ _ _ _ _ _ _ _ => eq_refl end;
  sput_sput _ _ _ := eq_refl
}.
#[export] Instance el3_has_cci : Has cci el3_statics := {
  sget := s_cci;
  sput x v := El3 (s_gic v) (s_intr v) (s_swdt v) (s_ipi v) (s_pm v) x (s_ctx v) (s_psci v) (s_plat v) (s_opteed v) (s_timer v) (s_images v) (s_rt v) (s_bl31 v) (s_xlat v);
  sget_sput _ _ := eq_refl;
  sput_sget v := match v with El3 _ _ _ _ _ _ _ _ _ _ _ _ _ _ _ => eq_refl end;
  sput_sput _ _ _ := eq_refl
}.
#[export] Instance el3_has_ctx_vars : Has ctx_vars el3_statics := {
  sget := s_ctx;
  sput x v := El3 (s_gic v) (s_intr v) (s_swdt v) (s_ipi v) (s_pm v) (s_cci v) x (s_psci v) (s_plat v) (s_opteed v) (s_timer v) (s_images v) (s_rt v) (s_bl31 v) (s_xlat v);
  sget_sput _ _ := eq_refl;
  sput_sget v := match v with El3 _ _ _ _ _ _ _ _ _ _ _ _ _ _ _ => eq_refl end;
  sput_sput _ _ _ := eq_refl
}.
#[export] Instance el3_has_psci : Has psci el3_statics := {
  sget := s_psci;
  sput x v := El3 (s_gic v) (s_intr v) (s_swdt v) (s_ipi v) (s_pm v) (s_cci v) (s_ctx v) x (s_plat v) (s_opteed v) (s_timer v) (s_images v) (s_rt v) (s_bl31 v) (s_xlat v);
  sget_sput _ _ := eq_refl;
  sput_sget v := match v with El3 _ _ _ _ _ _ _ _ _ _ _ _ _ _ _ => eq_refl end;
  sput_sput _ _ _ := eq_refl
}.
#[export] Instance el3_has_plat_vars : Has plat_vars el3_statics := {
  sget := s_plat;
  sput x v := El3 (s_gic v) (s_intr v) (s_swdt v) (s_ipi v) (s_pm v) (s_cci v) (s_ctx v) (s_psci v) x (s_opteed v) (s_timer v) (s_images v) (s_rt v) (s_bl31 v) (s_xlat v);
  sget_sput _ _ := eq_refl;
  sput_sget v := match v with El3 _ _ _ _ _ _ _ _ _ _ _ _ _ _ _ => eq_refl end;
  sput_sput _ _ _ := eq_refl
}.
#[export] Instance el3_has_opteed : Has opteed el3_statics := {
  sget := s_opteed;
  sput x v := El3 (s_gic v) (s_intr v) (s_swdt v) (s_ipi v) (s_pm v) (s_cci v) (s_ctx v) (s_psci v) (s_plat v) x (s_timer v) (s_images v) (s_rt v) (s_bl31 v) (s_xlat v);
  sget_sput _ _ := eq_refl;
  sput_sget v := match v with El3 _ _ _ _ _ _ _ _ _ _ _ _ _ _ _ => eq_refl end;
  sput_sput _ _ _ := eq_refl
}.
#[export] Instance el3_has_timer : Has timer el3_statics := {
  sget := s_timer;
  sput x v := El3 (s_gic v) (s_intr v) (s_swdt v) (s_ipi v) (s_pm v) (s_cci v) (s_ctx v) (s_psci v) (s_plat v) (s_opteed v) x (s_images v) (s_rt v) (s_bl31 v) (s_xlat v);
  sget_sput _ _ := eq_refl;
  sput_sget v := match v with El3 _ _ _ _ _ _ _ _ _ _ _ _ _ _ _ => eq_refl end;
  sput_sput _ _ _ := eq_refl
}.
#[export] Instance el3_has_images : Has images el3_statics := {
  sget := s_images;
  sput x v := El3 (s_gic v) (s_intr v) (s_swdt v) (s_ipi v) (s_pm v) (s_cci v) (s_ctx v) (s_psci v) (s_plat v) (s_opteed v) (s_timer v) x (s_rt v) (s_bl31 v) (s_xlat v);
  sget_sput _ _ := eq_refl;
  sput_sget v := match v with El3 _ _ _ _ _ _ _ _ _ _ _ _ _ _ _ => eq_refl end;
  sput_sput _ _ _ := eq_refl
}.
#[export] Instance el3_has_rt_svc : Has rt_svc el3_statics := {
  sget := s_rt;
  sput x v := El3 (s_gic v) (s_intr v) (s_swdt v) (s_ipi v) (s_pm v) (s_cci v) (s_ctx v) (s_psci v) (s_plat v) (s_opteed v) (s_timer v) (s_images v) x (s_bl31 v) (s_xlat v);
  sget_sput _ _ := eq_refl;
  sput_sget v := match v with El3 _ _ _ _ _ _ _ _ _ _ _ _ _ _ _ => eq_refl end;
  sput_sput _ _ _ := eq_refl
}.
#[export] Instance el3_has_bl31 : Has bl31 el3_statics := {
  sget := s_bl31;
  sput x v := El3 (s_gic v) (s_intr v) (s_swdt v) (s_ipi v) (s_pm v) (s_cci v) (s_ctx v) (s_psci v) (s_plat v) (s_opteed v) (s_timer v) (s_images v) (s_rt v) x (s_xlat v);
  sget_sput _ _ := eq_refl;
  sput_sget v := match v with El3 _ _ _ _ _ _ _ _ _ _ _ _ _ _ _ => eq_refl end;
  sput_sput _ _ _ := eq_refl
}.
#[export] Instance el3_has_xlat : Has Xlat.xlat el3_statics := {
  sget := s_xlat;
  sput x v := El3 (s_gic v) (s_intr v) (s_swdt v) (s_ipi v) (s_pm v) (s_cci v) (s_ctx v) (s_psci v) (s_plat v) (s_opteed v) (s_timer v) (s_images v) (s_rt v) (s_bl31 v) x;
  sget_sput _ _ := eq_refl;
  sput_sget v := match v with El3 _ _ _ _ _ _ _ _ _ _ _ _ _ _ _ => eq_refl end;
  sput_sput _ _ _ := eq_refl
}.
#[export] Hint Extern 1 (Indep _ _ el3_statics) => (intros ? ?; reflexivity) : typeclass_instances.

Section System.
Context `{E : Env} (Hans : pmu_answers) (Hcci : cci_answers) `{OC : !OpteeComplies}.

Lemma optee_in_put_ns i b j x (v : el3_statics) :
  optee_in i b v -> optee_in i b (sput (put_ns j x (sget v)) v).
Proof.
  intros (Ht & Hl & Hk & Hw & c & Hc & Hrt & Hps & Hs). split; [done|]. split; [done|].
  split; [by apply put_ok|]. split; [done|]. exists c. split; [done|]. split; [done|]. split; [done|].
  intros Hb. destruct (Hs Hb) as [y Hy]. exists y. simpl. rewrite put_other; [done|]. by left.
Qed.

(** The hooks of this image keep the contract. *)
Lemma el3_hooks : Hooks (V := el3_statics) plat_up optee_in (fun _ => true) power_known.
Proof.
  apply zynqmp_keeps_contract; try done.
  - intros i b j x v. apply optee_in_put_ns.
  - intros i mpidr Hme Hi x. by apply off_handler_transfers.
  - intros i mpidr Hme Hi x. by apply finish_handler_transfers.
  - intros i mpidr Hme Hi x. by apply suspend_handler_transfers.
  - intros i mpidr Hme Hi x. by apply resume_handler_transfers.
Qed.

(** ** Hotplug and suspend as a system of four processors *)

(** What a call does to the processors: CPU_ON that returns SUCCESS has made the
    PMU start the target, CPU_OFF and the suspends that do not return have powered
    the caller down. *)
Definition effect (ms : list mode) (i : nat) (c : call) (o : outcome Z) : list mode :=
  match c, o with
  | CpuOn t e x, Ret r =>
      if r =? u64 PSCI_E_SUCCESS then <[Z.to_nat (plat_core_pos_by_mpidr t) := Waking e x]> ms else ms
  | CpuOff, Halt _ => <[i := Down]> ms
  | CpuSuspend _ e x, Halt _ => <[i := Asleep false e x]> ms
  | SystemSuspend e x, Halt _ => <[i := Asleep true e x]> ms
  | _, _ => ms
  end.

(** One call of a processor that runs, or one warm boot of a processor that has been
    started or sleeps. *)
Inductive step : list mode * st el3_statics -> list mode * st el3_statics -> Prop :=
| step_call i mpidr c ms s o s' :
    plat_my_core_pos mpidr = Z.of_nat i -> ms !! i = Some Run ->
    smc mpidr c s = (o, s') -> step (ms, s) (effect ms i c o, s')
| step_boot i mpidr m pc x0 ms s o s' :
    plat_my_core_pos mpidr = Z.of_nat i -> ms !! i = Some m -> resumes_at m = Some (pc, x0) ->
    psci_warmboot_entrypoint mpidr s = (o, s') ->
    step (ms, s) (match o with Ret _ => <[i := Run]> ms | Halt _ => ms end, s').

Lemma call_step i mpidr c ms s ms' : plat_my_core_pos mpidr = Z.of_nat i -> ms !! i = Some Run ->
  effect ms i c (smc mpidr c s).1 = ms' -> step (ms, s) (ms', (smc mpidr c s).2).
Proof. intros Hme Hr <-. apply (step_call i mpidr); [done|done|]. apply surjective_pairing. Qed.

Lemma boot_step i mpidr m pc x0 ms s ms' : plat_my_core_pos mpidr = Z.of_nat i ->
  ms !! i = Some m -> resumes_at m = Some (pc, x0) ->
  match (psci_warmboot_entrypoint mpidr s).1 with Ret _ => <[i := Run]> ms | Halt _ => ms end = ms' ->
  step (ms, s) (ms', (psci_warmboot_entrypoint mpidr s).2).
Proof. intros Hme Hr Hm <-. apply (step_boot i mpidr m pc x0); [done|done|done|]. apply surjective_pairing. Qed.

Lemma spec_effect ms i c o ms' : spec (fun _ => true) power_known ms i c o ms' -> effect ms i c o = ms'.
Proof.
  intros Hs. destruct Hs as [| ? ? ? Hc | | | |? ? ? ? Hp | | | | | |? ? ? ? Hc | | | ]; try done.
  - by destruct Hc as [[t ->]|[(ps & -> & _)|[-> _]]].
  - simpl. by rewrite Hp, Nat2Z.id.
  - by destruct Hc as [[-> _]|[-> _]].
Qed.

End System.

(** ** The calls on this image *)

Section Theorems.
Context `{E : Env} (Hans : pmu_answers) (Hcci : cci_answers) `{OC : !OpteeComplies}.
Context (caps : Z) (Hcaps : caps_ok caps) (spd : bool).
#[local] Abbreviation consistent := (consistent (V := el3_statics) plat_up optee_in caps spd).

Lemma call_refines ms v i mpidr c d l : consistent ms v -> (i < 4)%nat ->
  plat_my_core_pos mpidr = Z.of_nat i -> ms !! i = Some Run -> exists o d' l' v' ms',
    smc mpidr c (St d l [] v) = (o, St d' l' [] v') /\ consistent ms' v' /\
    spec (fun _ => true) power_known ms i c o ms'.
Proof.
  intros Hcon Hi Hme Hrun. pose proof (el3_hooks Hans Hcci) as HK. destruct c as [t e x| |t lvl|ps e x|e x].
  - by apply (cpu_on_call plat_up optee_in _ power_known caps spd Hcaps mpidr i Hme Hi).
  - by apply (off_call plat_up optee_in _ power_known caps spd Hcaps mpidr i Hme Hi).
  - by apply (info_call plat_up optee_in _ power_known caps spd Hcaps mpidr i Hme Hi).
  - by apply (suspend_call plat_up optee_in _ power_known caps spd Hcaps mpidr i Hme Hi).
  - by apply (system_call plat_up optee_in _ power_known caps spd Hcaps mpidr i Hme Hi).
Qed.

Lemma boot_refines ms v i mpidr m pc x0 d l : consistent ms v -> (i < 4)%nat ->
  plat_my_core_pos mpidr = Z.of_nat i -> ms !! i = Some m -> resumes_at m = Some (pc, x0) -> exists d' l' v',
    psci_warmboot_entrypoint mpidr (St d l [] v) = (Ret tt, St d' l' [] v') /\
    consistent (<[i := Run]> ms) v' /\
    exists x, ns_context (sget v') i = Some x /\ leads_to pc x0 x /\ routes 1 (sget v') x.
Proof.
  intros Hcon Hi Hme Hm He. pose proof (el3_hooks Hans Hcci) as HK. destruct m as [| |pc1 x1|deep pc1 x1];
    cbn in He; simplify_eq.
  - by apply (warmboot_run plat_up optee_in (fun _ => true) power_known caps spd mpidr i Hme Hi ms pc x0).
  - by apply (resume_run plat_up optee_in (fun _ => true) power_known caps spd mpidr i Hme Hi deep ms pc x0).
Qed.

Lemma step_consistent ms s ms' s' : step (ms, s) (ms', s') -> held s = [] -> consistent ms (vars s) ->
  held s' = [] /\ consistent ms' (vars s').
Proof.
  destruct s as [d l h v]. simpl. intros Hs -> Hcon.
  assert (Hi4 : forall i m, ms !! i = Some m -> (i < 4)%nat).
  { intros i m Hm. rewrite <- (con_length _ _ _ _ _ _ Hcon). by eapply lookup_lt_Some. }
  inversion Hs; subst.
  - destruct (call_refines ms v i mpidr c d l Hcon) as (o1 & d1 & l1 & v1 & ms1 & Er & Hc1 & Hsp); [eauto..|].
    match goal with Hx : smc _ _ _ = (_, ?t) |- held ?t = _ /\ _ => rewrite Er in Hx; simplify_eq end.
    rewrite (spec_effect _ _ _ _ _ Hsp). auto.
  - destruct (boot_refines ms v i mpidr m pc x0 d l Hcon) as (d1 & l1 & v1 & Er & Hc1 & _); [eauto..|].
    match goal with Hx : psci_warmboot_entrypoint _ _ = (_, ?t) |- held ?t = _ /\ _ =>
      rewrite Er in Hx; simplify_eq end. auto.
Qed.

Lemma steps_consistent a b : rtc step a b -> held a.2 = [] -> consistent a.1 (vars a.2) ->
  held b.2 = [] /\ consistent b.1 (vars b.2).
Proof.
  induction 1 as [|[ms s] [ms1 s1] b Hs _ IH]; [done|]. intros Hh Hc.
  destruct (step_consistent _ _ _ _ Hs Hh Hc). auto.
Qed.

End Theorems.
(** ** Setting up PSCI *)

(** The statics in .bss. *)
Definition psci_bss : psci :=
  PsciVars [[0; 0; 0; 0]] 0 (repeat (NonCpuNode 0 0 0 0 0 0) 4) (repeat (CpuNode 0 0) 4)
    (repeat (PsciCpuData AFF_STATE_ON 0 0) 4) 0 false false.
Definition ctx_bss : ctx_vars := CtxVars (repeat (repeat (Slot false zero_context) 2) 4).

(** The functions that this platform has: VERSION, AFFINITY_INFO, FEATURES, and
    what the hooks give, in the order of [psci_setup]. *)
Definition zynqmp_caps : Z :=
  foldl (fun caps f => caps .| define_psci_cap f) PSCI_GENERIC_CAP
    [PSCI_CPU_OFF; PSCI_CPU_ON_AARCH64; PSCI_CPU_SUSPEND_AARCH64; PSCI_SYSTEM_SUSPEND_AARCH64;
     PSCI_SYSTEM_OFF; PSCI_SYSTEM_RESET].

Section Setup.
Context `{E : Env}.
Implicit Types (d : Dev) (l : list event) (h : list lock_id) (v : el3_statics).

(** The power-domain tree, and the contexts that get linked with it. *)
Definition nodes_made : psci :=
  PsciVars [[0; 0; 0; 0]] 0
    (NonCpuNode 0 0 NO_PARENT PLAT_MAX_OFF_STATE 1 0 :: repeat (NonCpuNode 0 0 0 0 0 0) 3)
    (repeat (CpuNode PSCI_INVALID_MPIDR 0) 4)
    (repeat (PsciCpuData AFF_STATE_OFF PSCI_INVALID_PWR_LVL PLAT_MAX_OFF_STATE) 4) 0 false false.
Definition ctx_linked : ctx_vars := CtxVars (repeat [Slot false zero_context; Slot true zero_context] 4).

Lemma populate_run d l h g ig sw ip p c pl o tm im rt bm xl :
  populate_power_domain_tree [1; 4] (St d l h (El3 g ig sw ip p c ctx_bss psci_bss pl o tm im rt bm xl)) =
  (Ret 4, St d l h (El3 g ig sw ip p c ctx_linked nodes_made pl o tm im rt bm xl)).
Proof. vm_compute. reflexivity. Qed.

Lemma limits_run d l h g ig sw ip p c cx pl o tm im rt bm xl :
  psci_update_pwrlvl_limits (St d l h (El3 g ig sw ip p c cx (set_core_count 4 nodes_made) pl o tm im rt bm xl)) =
  (Ret tt, St d l h (El3 g ig sw ip p c cx
    (PsciVars [[0; 0; 0; 0]] 4 (cluster_node PLAT_MAX_OFF_STATE :: repeat (NonCpuNode 0 0 0 0 0 0) 3)
      (repeat (CpuNode PSCI_INVALID_MPIDR 0) 4)
      (repeat (PsciCpuData AFF_STATE_OFF PSCI_INVALID_PWR_LVL PLAT_MAX_OFF_STATE) 4) 0 false false) pl o tm im rt bm xl)).
Proof. vm_compute. reflexivity. Qed.

Lemma init_req_run d l h g ig sw ip p c cx pl o tm im rt bm xl rest nodes data caps ops spd :
  psci_init_req_local_pwr_states (St d l h (El3 g ig sw ip p c cx
    (PsciVars [[0; 0; 0; 0]] 4 rest nodes data caps ops spd) pl o tm im rt bm xl)) =
  (Ret tt, St d l h (El3 g ig sw ip p c cx
    (PsciVars [[2; 2; 2; 2]] 4 rest nodes data caps ops spd) pl o tm im rt bm xl)).
Proof. vm_compute. reflexivity. Qed.

(** [plat_get_syscnt_freq2] may read the version once. *)
Lemma freq_run d l h v : exists r d' l' (p : plat_vars),
  zynqmp_get_syscnt_freq2 (St d l h v) = (Ret r, St d' l' h (sput p v)).
Proof.
  unfold zynqmp_get_syscnt_freq2, zynqmp_get_silicon_ver. run.
  bool_case; run; bool_case; run; do 3 eexists; try (eexists; reflexivity);
    exists (sget v); by rewrite sput_sget.
Qed.

(** The processor that boots. *)
Definition boot_modes (i : nat) : list mode := <[i := Run]> (repeat Down 4).
Definition boot_mps (i : nat) (mpidr : Z) : list Z :=
  <[i := mpidr .& MPIDR_AFFINITY_MASK]> (repeat PSCI_INVALID_MPIDR 4).

Lemma boot_cpu_run mpidr i d l h g ig sw ip p c cx pl o tm im rt bm xl :
  plat_my_core_pos mpidr = Z.of_nat i -> (i < 4)%nat ->
  (set_node_mpidr mpidr (plat_my_core_pos mpidr) ;;
   psci_init_req_local_pwr_states ;;
   psci_set_pwr_domains_to_run mpidr PLAT_MAX_PWR_LVL) (St d l h (El3 g ig sw ip p c cx
    (PsciVars [[0; 0; 0; 0]] 4 (cluster_node PLAT_MAX_OFF_STATE :: repeat (NonCpuNode 0 0 0 0 0 0) 3)
      (repeat (CpuNode PSCI_INVALID_MPIDR 0) 4)
      (repeat (PsciCpuData AFF_STATE_OFF PSCI_INVALID_PWR_LVL PLAT_MAX_OFF_STATE) 4) 0 false false) pl o tm im rt bm xl)) =
  (Ret tt, St d l h (El3 g ig sw ip p c cx
    (PsciVars [map state_of (boot_modes i)] 4 (cluster_node 0 :: repeat (NonCpuNode 0 0 0 0 0 0) 3)
      (map (fun m => CpuNode m 0) (boot_mps i mpidr)) (map data_of (boot_modes i)) 0 false false) pl o tm im rt bm xl)).
Proof.
  intros Hme Hi. unfold set_node_mpidr, psci_set_pwr_domains_to_run, psci_set_aff_info_state,
    psci_set_cpu_local_state, boot_mps. rewrite !Hme.
  generalize (mpidr .& MPIDR_AFFINITY_MASK). intros m. clear Hme.
  destruct i as [|[|[|[|]]]]; [..|lia]; vm_compute; reflexivity.
Qed.

(** The word of capabilities that the hooks give. *)
Lemma caps_run mpidr d l h g ig sw ip p c cx req n rest nodes data pl o tm im rt bm xl :
  (mods (set_plat_pm_ops true) ;;
   mods (set_caps PSCI_GENERIC_CAP) ;;
   ops <- pm_ops mpidr ;;
   add_cap (is_set (pwr_domain_off ops)) PSCI_CPU_OFF ;;
   add_cap (is_set (pwr_domain_on ops) && is_set (pwr_domain_on_finish ops)) PSCI_CPU_ON_AARCH64 ;;
   add_cap (is_set (pwr_domain_suspend ops) && is_set (pwr_domain_suspend_finish ops)) PSCI_CPU_SUSPEND_AARCH64 ;;
   add_cap (is_set (pwr_domain_suspend ops) && is_set (pwr_domain_suspend_finish ops)
            && is_set (get_sys_suspend_power_state ops)) PSCI_SYSTEM_SUSPEND_AARCH64 ;;
   add_cap (is_set (system_off ops)) PSCI_SYSTEM_OFF ;;
   add_cap (is_set (system_reset ops)) PSCI_SYSTEM_RESET ;;
   add_cap (is_set (get_node_hw_state ops)) PSCI_NODE_HW_STATE_AARCH64 ;;
   add_cap (is_set (read_mem_protect ops) && is_set (write_mem_protect ops)) PSCI_MEM_PROTECT ;;
   add_cap (is_set (mem_protect_chk ops)) PSCI_MEM_CHK_RANGE_AARCH64 ;;
   add_cap (is_set (system_reset2 ops)) PSCI_SYSTEM_RESET2_AARCH64 ;;
   ret 0) (St d l h (El3 g ig sw ip p c cx (PsciVars req n rest nodes data 0 false false) pl o tm im rt bm xl)) =
  (Ret 0, St d l h (El3 g ig sw ip p c cx (PsciVars req n rest nodes data zynqmp_caps true false) pl o tm im rt bm xl)).
Proof. reflexivity. Qed.

Lemma seq3_run {A B C D} (m1 : M el3_statics A) (m2 : M el3_statics B) (m3 : M el3_statics C)
    (k : C -> M el3_statics D) s a s' :
  (m1 ;; m2 ;; m3) s = (Ret a, s') -> (m1 ;; m2 ;; x <- m3 ;; k x) s = k a s'.
Proof.
  intros Hs. rewrite <- (bind_run _ k _ _ _ Hs). unfold bind.
  destruct (m1 s) as [[]?]; [|done]. by destruct (m2 _) as [[]?].
Qed.

Lemma setup_all_run mpidr i mailbox d l h v :
  plat_my_core_pos mpidr = Z.of_nat i -> (i < 4)%nat -> s_psci v = psci_bss -> s_ctx v = ctx_bss ->
  exists d' l' (p : plat_vars), psci_setup mpidr mailbox (St d l h v) =
    (Ret 0, St d' l' h (sput p (sput ctx_linked
      (sput (tree_of zynqmp_caps false (boot_modes i) (repeat (NonCpuNode 0 0 0 0 0 0) 3) (boot_mps i mpidr)) v)))).
Proof.
  intros Hme Hi Hp Hc. unfold psci_setup, psci_arch_setup, write_sysreg.
  destruct (freq_run d l h v) as (r & d1 & l1 & pl & E1). run. rewrite (bind_run _ _ _ _ _ E1). run.
  destruct v as [g ig sw ip pmv c cx ps pl0 o tm im rt bm xl]. simpl in Hp, Hc. subst ps cx.
  cbn [sput el3_has_plat_vars s_gic s_intr s_swdt s_ipi s_pm s_cci s_ctx s_psci s_plat s_opteed s_timer s_images s_rt s_bl31 s_xlat].
  change plat_get_power_domain_tree_desc with [1; 4].
  rewrite (bind_run _ _ _ _ _ (populate_run _ _ _ _ _ _ _ _ _ _ _ _ _ _ _ _)), run_bind_mods.
  set (d2 := (hw_call "init_cpu_ops" _ _).2). set (l2 := _ :: _ :: l1).
  change (sput (set_core_count 4 _) _) with
    (El3 g ig sw ip pmv c ctx_linked (set_core_count 4 nodes_made) pl o tm im rt bm xl).
  rewrite (bind_run _ _ _ _ _ (limits_run _ _ _ _ _ _ _ _ _ _ _ _ _ _ _ _ _)).
  pose proof (boot_cpu_run mpidr i d2 l2 h g ig sw ip pmv c ctx_linked pl o tm im rt bm xl Hme Hi) as E2.
  rewrite (seq3_run _ _ _ _ _ _ _ E2).
  cbn [plat_setup_psci_ops zynqmp_plat]. unfold zynqmp_setup_psci_ops.
  rewrite run_bind_assoc, run_bind_mods, run_bind_ret.
  change (sput (PlatVars mailbox _) _) with (El3 g ig sw ip pmv c ctx_linked
    (PsciVars [map state_of (boot_modes i)] 4 (cluster_node 0 :: repeat (NonCpuNode 0 0 0 0 0 0) 3)
      (map (fun m => CpuNode m 0) (boot_mps i mpidr)) (map data_of (boot_modes i)) 0 false false)
    (PlatVars mailbox (silicon_ver pl)) o tm im rt bm xl).
  exists d2, l2, (PlatVars mailbox (silicon_ver pl)).
  pose proof (caps_run mpidr d2 l2 h g ig sw ip pmv c ctx_linked [map state_of (boot_modes i)] 4
    (cluster_node 0 :: repeat (NonCpuNode 0 0 0 0 0 0) 3) (map (fun m => CpuNode m 0) (boot_mps i mpidr))
    (map data_of (boot_modes i)) (PlatVars mailbox (silicon_ver pl)) o tm im rt bm xl) as E3.

  unfold tree_of. rewrite (shallowest_run (boot_modes i) i Run) by (unfold boot_modes; by rewrite ?list_lookup_insert_eq).
  rewrite E3. reflexivity.
Qed.

End Setup.
(** ** The properties *)

(** A board whose PMU answers every request with success and whose OP-TEE, entered
    at 0x60000000, reports its vectors at 0x60000100 and answers every power
    management request with ON_DONE and 0. *)
Definition tee_board : Env := {|
  Dev := unit;
  hw_read _ _ d := (0, d);
  hw_write _ _ _ d := d;
  hw_call f args d :=
    (if bool_decide (f = "optee_register"%string) then
       if bool_decide (args = [0; 0x60000000]) then TEESMC_OPTEED_RETURN_ENTRY_DONE
       else if bool_decide (args = [1; 0x60000000]) then 0x60000100
       else if bool_decide (take 1 args = [0]) then TEESMC_OPTEED_RETURN_ON_DONE else 0
     else if bool_decide (f = "read_sp"%string) then 0x1000 else 0, d);
  poll_bound := 1;
  uninit k := Z.of_nat k
|}.

Lemma tee_board_cci : cci_answers (H := tee_board).
Proof. intros []. by left. Qed.
Lemma tee_board_answers : pmu_answers (H := tee_board).
Proof. intros []. by exists tt. Qed.
#[export] Instance tee_board_complies : OpteeComplies (H := tee_board).
Proof.
  refine (Build_OpteeComplies tee_board 0x60000000 0x60000100 _ _ _ _ _ _).
  - lia.
  - by intros [].
  - by intros [].
  - intros e [] He. repeat (apply elem_of_cons in He as [->|He]; [by left|]). by apply not_elem_of_nil in He.
  - intros e [] He. repeat (apply elem_of_cons in He as [->|He]; [reflexivity|]). by apply not_elem_of_nil in He.
  - intros []. discriminate.
Defined.

(** The interconnect of this chip, a CCI-400, as the driver sets it up. *)
Definition cci_booted : cci := CciVars PLAT_ARM_CCI_BASE (Some cci_map) 1 5.

(** The image when PSCI is set up, and later with OP-TEE running on processor 0. *)
Definition before_setup : el3_statics :=
  El3 (GicVars (Some arm_gic_data) [1; 0; 0; 0]) blank Swdt.bss ipi_booted pm_bss
    cci_booted ctx_bss psci_bss (PlatVars 0 0)
    (OpteedVars 0 (repeat (OpteeContext 0 0 0) 4) 0) (TimerVars false 0 0) images_bss
    (RtVars (repeat 0 128)) (Bl31Vars false NON_SECURE) Xlat.xlat_zero.
Definition with_optee : el3_statics :=
  El3 (GicVars (Some arm_gic_data) [1; 0; 0; 0]) blank Swdt.bss ipi_booted pm_bss
    cci_booted
    (CtxVars ([Slot true zero_context; Slot true zero_context] ::
              repeat [Slot false zero_context; Slot true zero_context] 3))
    (tree_of zynqmp_caps true (boot_modes 0) (repeat (NonCpuNode 0 0 0 0 0 0) 3) (boot_mps 0 0))
    (PlatVars 0xFFFEA000 0)
    (OpteedVars 0x60000100 (OpteeContext 1 0 0 :: repeat (OpteeContext 0 0 0) 3) 0)
    (TimerVars true 1 100) images_bss (RtVars (repeat 0xff 128)) (Bl31Vars true NON_SECURE) Xlat.xlat_zero.

Lemma zynqmp_caps_ok : caps_ok zynqmp_caps.
Proof.
  intros f Hf. repeat (apply elem_of_cons in Hf as [->|Hf]; [vm_compute; discriminate|]).
  by apply not_elem_of_nil in Hf.
Qed.

Lemma board_up (v : el3_statics) : s_gic v = GicVars (Some arm_gic_data) [1; 0; 0; 0] ->
  s_ipi v = ipi_booted -> s_pm v = pm_bss -> s_cci v = cci_booted -> plat_up v.
Proof.
  intros Hg Hi Hp Hc. unfold plat_up, gic_up, image_up, ready. simpl. rewrite Hg, Hi, Hp, Hc.
  split; [|split; [|done]]; [|split; [|simpl; lia]].
  - split; [reflexivity|]. split; [reflexivity|]. repeat split; discriminate.
  - repeat split; discriminate.
Qed.

Lemma ctx_linked_ok : ctx_ok ctx_linked.
Proof. split; [done|]. repeat constructor; by do 2 eexists. Qed.

Lemma blank_wf : wf blank.
Proof. repeat constructor. Qed.

Lemma with_optee_consistent :
  consistent (V := el3_statics) plat_up (optee_in (OC := tee_board_complies)) zynqmp_caps true (boot_modes 0) with_optee.
Proof.
  assert (Hctx : ctx_ok (s_ctx with_optee)) by (split; [done|]; repeat constructor; by do 2 eexists).
  split.
  - done.
  - by exists (repeat (NonCpuNode 0 0 0 0 0 0) 3), (boot_mps 0 0).
  - done.
  - apply blank_wf.
  - by apply board_up.
  - intros _ j m Hj. split; [done|]. split; [done|]. split; [done|]. split; [apply blank_wf|].
    destruct j as [|[|[|[|]]]]; simplify_eq/=; eexists; (split; [reflexivity|]); (split; [done|]);
      (split; [reflexivity|]); try done. intros _. by eexists.
  - intros j m pc x0 Hj. by destruct j as [|[|[|[|]]]]; simplify_eq/=.
Qed.

(** C26: PSCI's setup.  On any of the four processors, from zeroed statics,
    [psci_setup] returns success and leaves a well-formed image: the tree of one
    cluster over four processors with the booting processor on and the others
    off, every non-secure context linked, and in [psci_caps] exactly the functions
    for which this platform has hooks. *)
Theorem psci_setup_wellformed `{E : Env} `{OC : !OpteeComplies} (mpidr : Z) (i : nat) (mailbox : Z) d l h (v : el3_statics) :
  plat_my_core_pos mpidr = Z.of_nat i -> (i < 4)%nat -> s_psci v = psci_bss -> s_ctx v = ctx_bss ->
  plat_up v -> wf (s_intr v) ->
  exists d' l' v', psci_setup mpidr mailbox (St d l h v) = (Ret 0, St d' l' h v') /\
    consistent plat_up optee_in zynqmp_caps false (boot_modes i) v' /\
    psci_caps (s_psci v') = zynqmp_caps.
Proof.
  intros Hme Hi Hp Hc Hup Hw. destruct (setup_all_run mpidr i mailbox d l h v Hme Hi Hp Hc) as (d' & l' & p & Er).
  do 3 eexists. split; [exact Er|]. split; [|done]. split.
  - unfold boot_modes. by rewrite length_insert.
  - do 2 eexists. split; [|reflexivity]. unfold boot_mps. by rewrite length_insert.
  - apply ctx_linked_ok.
  - done.
  - exact Hup.
  - done.
  - intros j m pc x0 Hj Hm. unfold boot_modes in Hj. apply list_lookup_insert_Some in Hj as [(_ & <- & _)|[_ Hj]]; [done|].
    apply list_elem_of_lookup_2, list_elem_of_In, repeat_spec in Hj. by subst m.
Qed.

Lemma psci_setup_wellformed_witness : exists d' l' v',
  psci_setup (E := tee_board) 0x80000000 0xFFFEA000 (St (H := tee_board) tt [] [] before_setup) =
    (Ret 0, St (H := tee_board) d' l' [] v') /\
  consistent plat_up (optee_in (OC := tee_board_complies)) zynqmp_caps false (boot_modes 0) v' /\ psci_caps (s_psci v') = zynqmp_caps.
Proof.
  apply (psci_setup_wellformed (E := tee_board) 0x80000000 0 0xFFFEA000 tt [] [] before_setup);
    [reflexivity|lia|reflexivity|reflexivity|by apply board_up|apply blank_wf].
Defined.



(** C11: what can be reached.  From a consistent image, after any interleaving of
    calls (suspends included) and warm boots of the four processors: no lock is
    held, AFFINITY_INFO's state of every processor is its mode, the cluster is in
    the run state exactly when some processor runs or sleeps without it, and every
    processor that has been started or suspended and is not yet up has a context
    that leads to the entry point it was given. *)
Theorem hotplug_reachable `{E : Env} `{OC : !OpteeComplies} (caps : Z) (spd : bool)
    (ms ms' : list mode) (s s' : st el3_statics) :
  pmu_answers -> cci_answers -> caps_ok caps -> consistent plat_up optee_in caps spd ms (vars s) -> held s = [] ->
  rtc step (ms, s) (ms', s') ->
  held s' = [] /\
  (forall j m, ms' !! j = Some m -> exists c, psci_svc_cpu_data (s_psci (vars s')) !! j = Some c /\
     aff_info_state c = aff_of m) /\
  (exists n, psci_non_cpu_pd_nodes (s_psci (vars s')) !! 0%nat = Some n /\
     (node_state n = PSCI_LOCAL_STATE_RUN <-> exists m, m ∈ ms' /\ state_of m = PSCI_LOCAL_STATE_RUN)) /\
  (forall j m pc x0, ms' !! j = Some m -> resumes_at m = Some (pc, x0) -> exists x,
     ns_context (s_ctx (vars s')) j = Some x /\ leads_to pc x0 x).
Proof.
  intros Hans Hcci Hcaps Hcon Hh Hsteps.
  destruct (steps_consistent Hans Hcci caps Hcaps spd _ _ Hsteps Hh Hcon) as [Hh' Hc]. simpl in *.
  destruct Hc as [Hl (rest & mps & _ & Ht) _ _ _ _ Hen]. simpl in Ht. split; [done|].
  rewrite Ht. split; [|split].
  - intros j m Hj. exists (data_of m). split; [|done]. by apply data_lookup.
  - eexists. split; [reflexivity|]. apply shallowest_is_run.
  - intros j m pc x0 Hj Hm. destruct (Hen _ _ _ _ Hj Hm) as (x & Hx & Hlead & _). eauto.
Qed.

(** Processor 0 starts processor 2, which boots; then processor 0 goes down, and
    processor 2, now alone, suspends the system. *)
Definition started := smc (E := tee_board) 0 (CpuOn 2 0x80000 7) (St (H := tee_board) tt [] [] with_optee).
Definition booted2 := psci_warmboot_entrypoint (E := tee_board) 2 started.2.
Definition gone0 := smc (E := tee_board) 0 CpuOff booted2.2.
Definition asleep2 := smc (E := tee_board) 2 (SystemSuspend 0x90000 9) gone0.2.

Lemma hotplug_reachable_witness :
  let s' := asleep2.2 in
  let ms' := [Down; Down; Asleep true 0x90000 9; Down] in
  held s' = [] /\
  (forall j m, ms' !! j = Some m -> exists c, psci_svc_cpu_data (s_psci (vars s')) !! j = Some c /\
     aff_info_state c = aff_of m) /\
  (exists n, psci_non_cpu_pd_nodes (s_psci (vars s')) !! 0%nat = Some n /\
     (node_state n = PSCI_LOCAL_STATE_RUN <-> exists m, m ∈ ms' /\ state_of m = PSCI_LOCAL_STATE_RUN)) /\
  (forall j m pc x0, ms' !! j = Some m -> resumes_at m = Some (pc, x0) -> exists x,
     ns_context (s_ctx (vars s')) j = Some x /\ leads_to pc x0 x).
Proof.
  apply (hotplug_reachable (E := tee_board) zynqmp_caps true (boot_modes 0) [Down; Down; Asleep true 0x90000 9; Down]
    (St (H := tee_board) tt [] [] with_optee) asleep2.2).
  - apply tee_board_answers.
  - apply tee_board_cci.
  - apply zynqmp_caps_ok.
  - apply with_optee_consistent.
  - reflexivity.
  - apply rtc_l with (y := ([Run; Down; Waking 0x80000 7; Down], started.2)).
    { apply (call_step (E := tee_board) 0 0 (CpuOn 2 0x80000 7)); [reflexivity|reflexivity|].
      vm_compute. reflexivity. }
    apply rtc_l with (y := ([Run; Down; Run; Down], booted2.2)).
    { apply (boot_step (E := tee_board) 2 2 (Waking 0x80000 7) 0x80000 7); [reflexivity|reflexivity|reflexivity|].
      vm_compute. reflexivity. }
    apply rtc_l with (y := ([Down; Down; Run; Down], gone0.2)).
    { apply (call_step (E := tee_board) 0 0 CpuOff); [reflexivity|reflexivity|]. vm_compute. reflexivity. }
    apply rtc_once. apply (call_step (E := tee_board) 2 2 (SystemSuspend 0x90000 9)); [reflexivity|reflexivity|].
    vm_compute. reflexivity.
Defined.

(** C29: the contract between PSCI and its hooks.  The power management hooks of
    this platform and of the OP-TEE dispatcher return from every booted image, with
    any answers of the PMU, leave PSCI's statics, the interrupt framework and the
    non-secure contexts alone, accept exactly the power states without an id, and
    keep OP-TEE's state in step: ON when a processor can go down or to sleep, OFF
    when it can come up, SUSPEND when it can wake. *)
Theorem hooks_keep_contract `{E : Env} `{OC : !OpteeComplies} :
  pmu_answers -> cci_answers -> Hooks (V := el3_statics) plat_up optee_in (fun _ => true) power_known.
Proof. intros Hans Hcci. by apply el3_hooks. Qed.

Lemma hooks_keep_contract_witness :
  Hooks (E := tee_board) (V := el3_statics) plat_up (optee_in (OC := tee_board_complies)) (fun _ => true) power_known.
Proof. apply (hooks_keep_contract (E := tee_board)); [apply tee_board_answers|apply tee_board_cci]. Defined.

(** ** Advertised functions *)

(** The functions that are there: those of the platform, and with the dispatcher
    the migration queries. *)
Definition functions (spd : bool) : list Z :=
  [PSCI_VERSION; PSCI_CPU_SUSPEND_AARCH32; PSCI_CPU_SUSPEND_AARCH64; PSCI_CPU_OFF; PSCI_CPU_ON_AARCH32;
   PSCI_CPU_ON_AARCH64; PSCI_AFFINITY_INFO_AARCH32; PSCI_AFFINITY_INFO_AARCH64; PSCI_SYSTEM_OFF;
   PSCI_SYSTEM_RESET; PSCI_FEATURES; PSCI_SYSTEM_SUSPEND_AARCH32; PSCI_SYSTEM_SUSPEND_AARCH64] ++
  (if spd then [PSCI_MIG_INFO_TYPE; PSCI_MIG_INFO_UP_CPU_AARCH32; PSCI_MIG_INFO_UP_CPU_AARCH64] else []).

(** [psci_caps] after setup, and after the dispatcher has registered its table. *)
Definition caps_with (spd : bool) : Z :=
  if spd then zynqmp_caps .| (define_psci_cap PSCI_MIG_INFO_UP_CPU_AARCH64
                              .| define_psci_cap PSCI_MIG_INFO_TYPE)
  else zynqmp_caps.

(** The ids that pass the checks of [psci_features] are determined by the calling
    convention and the function number. *)
Lemma psci_ids fid : 0 <= fid < 2 ^ 32 ->
  is_std_svc_call fid && is_valid_fast_smc fid && is_psci_fid fid = true ->
  exists n b, (n < 32)%nat /\ (b < 2)%nat /\ fid = 0x84000000 + 2 ^ 30 * Z.of_nat b + Z.of_nat n.
Proof.
  intros Hr Hf. unfold is_std_svc_call, is_valid_fast_smc, is_psci_fid, GET_SMC_OEN, GET_SMC_TYPE in Hf.
  rewrite !andb_true_iff, !Z.eqb_eq in Hf. destruct Hf as [[H1 [H2 H3]] H4].
  assert (Hlow : (fid .& 0xffff) < 32).
  { assert (Hx : (fid .& 0xffff) = (fid .& 0x1f)).
    { change 0xffff with (Z.lor 0x1f 0xffe0). by rewrite Z.land_lor_distr_r, H4, Z.lor_0_r. }
    rewrite Hx. change 0x1f with (Z.ones 5). rewrite Z.land_ones by lia. apply Z.mod_pos_bound. lia. }
  revert H1 H2 H3 Hlow. rewrite !Z.shiftr_div_pow2 by lia.
  change 0x3f with (Z.ones 6). change 0xffff with (Z.ones 16). change 0xff with (Z.ones 8).
  change 1 with (Z.ones 1) at 1 2. rewrite !Z.land_ones by lia.
  intros H1 H2 H3 Hlow. exists (Z.to_nat (fid mod 2 ^ 16)), (Z.to_nat (fid / 2 ^ 30 mod 2)).
  assert (0 <= fid mod 2 ^ 16) by (apply Z.mod_pos_bound; lia).
  assert (0 <= fid / 2 ^ 30 mod 2 < 2) by (apply Z.mod_pos_bound; lia).
  split; [lia|]. split; [lia|]. rewrite !Z2Nat.id by lia. revert H1 H2 H3.
  change (Z.ones 1) with 1. Z.div_mod_to_equations. lia.
Qed.

Section Features.
Context `{E : Env} (mpidr : Z).

(** The answer of [psci_features] to the ids that pass its checks, by enumeration. *)
Lemma features_table (spd : bool) n b : (n < 32)%nat -> (b < 2)%nat ->
  let fid := 0x84000000 + 2 ^ 30 * Z.of_nat b + Z.of_nat n in
  let local_caps := if GET_SMC_CC fid =? SMC_64 then caps_with spd .& PSCI_CAP_64BIT_MASK else caps_with spd in
  ((local_caps .& define_psci_cap fid) =? 0) = negb (bool_decide (fid ∈ functions spd)).
Proof.
  intros Hn Hb. assert (Hall : forallb (fun p : nat * nat =>
    let fid := 0x84000000 + 2 ^ 30 * Z.of_nat p.1 + Z.of_nat p.2 in
    let local_caps := if GET_SMC_CC fid =? SMC_64 then caps_with spd .& PSCI_CAP_64BIT_MASK else caps_with spd in
    Bool.eqb ((local_caps .& define_psci_cap fid) =? 0) (negb (bool_decide (fid ∈ functions spd))))
    (list_prod (seq 0 2) (seq 0 32)) = true) by (destruct spd; vm_compute; reflexivity).
  rewrite forallb_forall in Hall. apply Bool.eqb_prop, (Hall (b, n)). apply in_prod; apply in_seq; lia.
Qed.

(** All of them pass the checks. *)
Lemma functions_pass (spd : bool) fid : fid ∈ functions spd ->
  is_std_svc_call fid && is_valid_fast_smc fid && is_psci_fid fid = true /\ fid <> SMCCC_VERSION.
Proof.
  intros Hf. assert (Hall : forallb (fun fid =>
    is_std_svc_call fid && is_valid_fast_smc fid && is_psci_fid fid && negb (fid =? SMCCC_VERSION))
    (functions spd) = true) by (destruct spd; vm_compute; reflexivity).
  rewrite forallb_forall in Hall. apply list_elem_of_In, Hall in Hf.
  apply andb_true_iff in Hf as [Hv Hne]. split; [done|]. intros ->. done.
Qed.

Lemma features_run (spd : bool) fid d l h (v : el3_statics) :
  psci_caps (s_psci v) = caps_with spd -> 0 <= fid < 2 ^ 32 ->
  exists r, psci_features fid (St d l h v) = (Ret r, St d l h v) /\
    (r <> PSCI_E_NOT_SUPPORTED <-> fid = SMCCC_VERSION \/ fid ∈ functions spd).
Proof.
  intros Hc Hr. unfold psci_features. run. change (sget (S := psci) v) with (s_psci v). rewrite Hc.
  destruct (Z.eqb_spec fid SMCCC_VERSION) as [->|Hne]; [eexists; split; [reflexivity|]; split; auto; done|].
  destruct (is_std_svc_call fid && is_valid_fast_smc fid && is_psci_fid fid) eqn:Hv; cbn [negb].
  - destruct (psci_ids fid Hr Hv) as (n & b & Hn & Hb & Hfid).
    pose proof (features_table spd n b Hn Hb) as Ht. cbn zeta in Ht. rewrite <- Hfid in Ht. rewrite Ht.
    case_bool_decide as Hin; cbn [negb].
    + bool_case; eexists; (split; [reflexivity|]); split; auto; intros _; vm_compute; discriminate.
    + eexists. split; [reflexivity|]. split; [done|]. by intros [].
  - eexists. split; [reflexivity|]. split; [done|]. intros [|Hin]; [done|].
    destruct (functions_pass spd fid Hin) as [Hp _]. congruence.
Qed.

(** No other id is dispatched: it is not known to the front end, or its bit of
    [psci_caps] is clear. *)
Lemma unknown_run (spd : bool) fid x1 x2 x3 flags d l h (v : el3_statics) :
  psci_caps (s_psci v) = caps_with spd -> fid ∉ functions spd ->
  psci_smc_handler mpidr fid x1 x2 x3 flags (St d l h v) = (Ret (u64 SMC_UNK), St d l h v).
Proof.
  intros Hc Hf. unfold psci_smc_handler. bool_case; [by run|]. run.
  change (sget (S := psci) v) with (s_psci v). rewrite Hc.
  destruct (Z.eqb_spec (caps_with spd .& define_psci_cap fid) 0) as [|Hcap]; [by run|].
  assert (Hnot : forall f, bool_decide (f ∈ functions spd) || ((caps_with spd .& define_psci_cap f) =? 0) = true ->
    (fid =? f) = false).
  { intros f [Hin|H0]%orb_true_iff; apply Z.eqb_neq; intros ->.
    - by apply bool_decide_eq_true in Hin.
    - by apply Z.eqb_eq in H0. }
  unfold psci_smc32, psci_smc64.
  repeat match goal with |- context [fid =? ?f] =>
    rewrite (Hnot f) by (destruct spd; vm_compute; reflexivity) end.
  bool_case; by run.
Qed.

End Features.

(** PSCI_FEATURES tells the truth.  For every 32-bit id its answer is other
    than NOT_SUPPORTED exactly for SMCCC_VERSION and the functions of the platform
    (with the dispatcher registered, also the migration queries), and a call with
    any other id is answered SMC_UNK without effect. *)
Theorem features_exact `{E : Env} (mpidr : Z) (spd : bool) (fid : Z) d l h (v : el3_statics) :
  psci_caps (s_psci v) = caps_with spd -> 0 <= fid < 2 ^ 32 ->
  (exists r, psci_features fid (St d l h v) = (Ret r, St d l h v) /\
     (r <> PSCI_E_NOT_SUPPORTED <-> fid = SMCCC_VERSION \/ fid ∈ functions spd)) /\
  (fid ∉ functions spd -> forall x1 x2 x3 flags,
     psci_smc_handler mpidr fid x1 x2 x3 flags (St d l h v) = (Ret (u64 SMC_UNK), St d l h v)).
Proof.
  intros Hc Hr. split; [by apply features_run|]. intros Hf x1 x2 x3 flags. by apply (unknown_run mpidr spd).
Qed.

(** MEM_PROTECT: this platform has no hook for it. *)
Lemma features_exact_witness :
  (PSCI_MEM_PROTECT ∉ functions false) /\
  forall x1 x2 x3 flags, psci_smc_handler (E := tee_board) 0 PSCI_MEM_PROTECT x1 x2 x3 flags
    (St (H := tee_board) tt [] [] with_optee) = (Ret (u64 SMC_UNK), St (H := tee_board) tt [] [] with_optee).
Proof.
  assert (Hf : PSCI_MEM_PROTECT ∉ functions false) 
    by (apply (bool_decide_eq_false_1 (PSCI_MEM_PROTECT ∈ functions false)); vm_compute; reflexivity).
  split; [exact Hf|].
  apply (features_exact (E := tee_board) 0 false PSCI_MEM_PROTECT tt [] [] with_optee);
    [reflexivity|unfold PSCI_MEM_PROTECT; lia|exact Hf].
Defined.

(** ** Two flaws *)

(** [psci_stop_other_cores] waits while the caller is the last processor that is
    on, which is when it should go on, and then denies: with nobody else on, a
    wait of 3 ms is spent and DENIED is returned. *)
Lemma stop_other_cores_denies :
  let r := psci_stop_other_cores (E := tee_board) (V := el3_statics) 0 3 (fun _ => ret tt)
             (St (H := tee_board) tt [] [] with_optee) in
  r.1 = Ret PSCI_E_DENIED /\ log r.2 = repeat (EvDelay 1000) 3.
Proof. vm_compute. split; reflexivity. Qed.

(** ... and with another processor on, nobody waits and SUCCESS is returned. *)
Lemma stop_other_cores_succeeds :
  let r := psci_stop_other_cores (E := tee_board) (V := el3_statics) 0 3 (fun _ => ret tt) booted2.2 in
  r.1 = Ret PSCI_E_SUCCESS /\ (EvDelay 1000 ∉ log r.2).
Proof.
  split; [vm_compute; reflexivity|]. apply (bool_decide_eq_false_1 (EvDelay 1000 ∈ log _)).
  vm_compute. reflexivity.
Qed.

(** A PMU that refuses the wake-up request and grants all others: the device is
    the function id of the last request. *)
Definition refusing_pmu : Env := {|
  Dev := Z;
  hw_read _ a d := (if (a =? resp_buffer) && (d =? PM_REQ_WAKEUP) then PM_RET_ERROR_INTERNAL else 0, d);
  hw_write _ a z d := if a =? req_buffer then z else d;
  hw_call _ _ d := (0, d);
  poll_bound := 1;
  uninit k := Z.of_nat k
|}.

(** [zynqmp_pwr_domain_on] ignores the result of [pm_req_wakeup]: CPU_ON returns
    SUCCESS although the answer read from the PMU is an error; the target stays in
    ON_PENDING, and every further CPU_ON for it fails. *)
Lemma refused_wakeup_is_hidden :
  let r1 := smc (E := refusing_pmu) 0 (CpuOn 2 0x80000 7) (St (H := refusing_pmu) 0 [] [] with_optee) in
  let r2 := smc (E := refusing_pmu) 0 (CpuOn 2 0x80000 7) r1.2 in
  r1.1 = Ret (u64 PSCI_E_SUCCESS) /\ (EvRd W32 resp_buffer PM_RET_ERROR_INTERNAL ∈ log r1.2) /\
  r2.1 = Ret (u64 PSCI_E_ON_PENDING).
Proof.
  split; [vm_compute; reflexivity|]. split; [|vm_compute; reflexivity].
  apply (bool_decide_eq_true_1 (EvRd W32 resp_buffer PM_RET_ERROR_INTERNAL ∈ log _)). vm_compute. reflexivity.
Qed.

End PsciSystem.
