(* ===== verification/OpteedCalls.v ===== *)
(** * Calls and interrupts through the dispatcher

    What the normal world sees of OP-TEE: a call goes there and comes back
    ([opteed_smc_handler] on both sides), and a secure interrupt that arrives while
    the normal world runs is served without the normal world noticing
    ([opteed_sel1_interrupt_handler] and FIQ_DONE).  OP-TEE's own registers between
    the two steps are arbitrary. *)

From S2P Require Import Prelude Machine Trace Gic IntrMgmt CtxMgmt Psci PsciOps CtxFacts Hotplug.
From S2P Require Import PlatStartup RuntimeSvc Bl31 Opteed OpteedLaws PsciSystem.
From Stdlib Require Import String.
From stdpp Require Import strings.
Import Gic IntrMgmt CtxMgmt Psci PsciOps CtxFacts Hotplug PlatStartup RuntimeSvc Bl31 Opteed OpteedLaws PsciSystem.
#[local] Open Scope Z_scope.
#[local] Open Scope c_scope.

Module OpteedCalls.

(** Only the first [n] general registers differ. *)
Definition same_but_first (n : nat) (x y : cpu_context) : Prop :=
  drop n (gp_regs y) = drop n (gp_regs x) /\ ctx_scr_el3 y = ctx_scr_el3 x /\ ctx_elr_el3 y = ctx_elr_el3 x /\
  ctx_spsr_el3 y = ctx_spsr_el3 x /\ ctx_sctlr_el1 y = ctx_sctlr_el1 x /\ ctx_actlr_el1 y = ctx_actlr_el1 x.

Section Calls.
Context `{E : Env} {V : Type} `{!Has gic V} `{!Has intr_mgmt V} `{!Has ctx_vars V} `{!Has psci V}
  `{!Has images V} `{!Has bl31 V} `{!Has opteed V}.
Context `{!Indep ctx_vars opteed V} `{!Indep opteed ctx_vars V}.
Context (mpidr : Z) (i : nat) (Hme : plat_my_core_pos mpidr = Z.of_nat i).
Implicit Types (d : Dev) (l : list event) (h : list lock_id) (v : V) (n s : cpu_context).

(** Both contexts of this processor are linked; registers are 31 words. *)
Definition worlds n s v : Prop :=
  ctx_ok (sget v) /\ ns_context (sget v) i = Some n /\ s_context (sget v) i = Some s /\
  length (gp_regs n) = 31%nat /\ length (gp_regs s) = 31%nat.

(** The secure context is replaced. *)
Lemma to_secure n s s' v : ctx_ok (sget v) -> ns_context (sget v) i = Some n -> s_context (sget v) i = Some s ->
  let v' := sput (put_s i s' (sget v)) v in
  ctx_ok (sget v') /\ ns_context (sget v') i = Some n /\ s_context (sget v') i = Some s'.
Proof.
  intros Hk Hn Hs v'. unfold v'. rewrite sget_sput. split; [by apply put_ok|]. split.
  - by rewrite put_other by by left.
  - by eapply put_same.
Qed.

(** Where a call enters OP-TEE. *)
Definition call_entry (fid table : Z) : Z :=
  if GET_SMC_TYPE fid =? 1 then fast_smc_entry table else yield_smc_entry table.

Lemma to_optee_run fid x1 x2 x3 x4 n s d l h v : worlds n s v -> exists d' l' s',
  opteed_smc_handler mpidr fid x1 x2 x3 x4 1 (St d l h v) =
    (Ret (ToContext SECURE), St d' l' h (sput (put_s i s' (sget v)) v)) /\
  take 8 (gp_regs s') = [fid; x1; x2; x3] ++ take 4 (drop 4 (gp_regs n)) /\
  ctx_elr_el3 s' = call_entry fid (optee_vector_table (sget v)) /\ ctx_spsr_el3 s' = ctx_spsr_el3 s.
Proof.
  intros (Hk & Hn & Hs & Ln & Ls). unfold opteed_smc_handler, opteed_smc_from_ns.
  change (negb (is_caller_secure 1)) with true. cbn match. change NON_SECURE with (Z.of_nat 1). change SECURE with (Z.of_nat 0).
  rewrite (assert_context_run mpidr i Hme _ 1 n) by done. rewrite Hme.
  destruct (sysregs_run i 1 n d l h v Hk Hn) as ((d1 & l1 & E1) & _). rewrite (bind_run _ _ _ _ _ E1).
  rewrite (assert_context_run mpidr i Hme _ 0 s) by done. run. unfold cm_set_elr_el3.
  rewrite (update_run _ _ 0 _ s) by done. fold (call_entry fid (optee_vector_table (sget v))).
  set (s1 := set_elr _ s). set (v1 := sput _ v). destruct (to_secure n s s1 v) as (Hk1 & Hn1 & Hs1); [done..|].
  destruct (sysregs_run i 0 s1 d1 l1 h v1 Hk1 Hs1) as (_ & (d2 & l2 & E2) & _). rewrite (bind_run _ _ _ _ _ E2).
  destruct (sysregs_run i 0 s1 d2 l2 h v1 Hk1 Hs1) as (_ & _ & (d3 & l3 & E3)). rewrite (bind_run _ _ _ _ _ E3).
  rewrite (assert_context_run mpidr i Hme _ 1 n) by done. unfold write_gp_regs.
  rewrite (update_run _ _ 0 _ s1) by done. set (s2 := set_gp_regs _ s1). set (v2 := sput _ v1).
  destruct (to_secure n s1 s2 v1) as (Hk2 & Hn2 & Hs2); [done..|].
  rewrite (update_run _ _ 0 _ s2) by done. run. unfold v2, v1. rewrite !sget_sput, !put_twice, !sput_sput.
  do 3 eexists. split; [reflexivity|]. split; [|done].
  destruct (gp_regs n) as [|n0 [|n1 [|n2 [|n3 [|n4 [|n5 [|n6 [|n7 ns]]]]]]]]; try done.
  destruct (gp_regs s) as [|r0 [|r1 [|r2 [|r3 [|r4 [|r5 [|r6 [|r7 rs]]]]]]]] eqn:Es; try done.
  unfold s2, s1. simpl. by rewrite Es.
Qed.

(** CALL_DONE goes back, with the results in x0 to x3. *)
Lemma call_done_run y1 y2 y3 y4 n s d l h v : worlds n s v -> exists d' l' n',
  opteed_smc_handler mpidr TEESMC_OPTEED_RETURN_CALL_DONE y1 y2 y3 y4 0 (St d l h v) =
    (Ret (ToContext NON_SECURE), St d' l' h (sput (put_ns i n' (sget v)) v)) /\
  take 4 (gp_regs n') = [y1; y2; y3; y4] /\ same_but_first 4 n n'.
Proof.
  intros (Hk & Hn & Hs & Ln & Ls). unfold opteed_smc_handler. change (negb (is_caller_secure 0)) with false. cbn match.
  unfold opteed_smc_from_optee.
  repeat match goal with |- context [if ?b then _ else _] =>
    let c := eval vm_compute in b in change b with c; cbn match end.
  change NON_SECURE with (Z.of_nat 1). change SECURE with (Z.of_nat 0). rewrite Hme.
  rewrite (assert_context_run mpidr i Hme _ 0 s) by done.
  destruct (sysregs_run i 0 s d l h v Hk Hs) as ((d1 & l1 & E1) & _). rewrite (bind_run _ _ _ _ _ E1).
  rewrite (assert_context_run mpidr i Hme _ 1 n) by done.
  destruct (sysregs_run i 1 n d1 l1 h v Hk Hn) as (_ & (d2 & l2 & E2) & _). rewrite (bind_run _ _ _ _ _ E2).
  destruct (sysregs_run i 1 n d2 l2 h v Hk Hn) as (_ & _ & (d3 & l3 & E3)). rewrite (bind_run _ _ _ _ _ E3).
  unfold write_gp_regs. rewrite (update_run _ _ 1 _ n) by done. run. do 3 eexists. split; [reflexivity|].
  unfold same_but_first. destruct n as [rs c1 c2 c3 c4 c5]. simpl in *.
  destruct rs as [|r0 [|r1 [|r2 [|r3 rs]]]]; done.
Qed.

(** A secure interrupt: OP-TEE is entered at its interrupt vector, with the
    interrupted address in x0. *)
Lemma interrupt_run n s d l h v : worlds n s v -> exists d' l' s',
  opteed_sel1_interrupt_handler mpidr 1 (St d l h v) =
    (Ret (ToContext SECURE), St d' l' h (sput (put_s i s' (sget v)) v)) /\
  ctx_elr_el3 s' = fiq_entry (optee_vector_table (sget v)).
Proof.
  intros (Hk & Hn & Hs & Ln & Ls). unfold opteed_sel1_interrupt_handler. change ((1 .& 1) =? NON_SECURE) with true. run.
  change NON_SECURE with (Z.of_nat 1). change SECURE with (Z.of_nat 0).
  rewrite (assert_context_run mpidr i Hme _ 1 n) by done. rewrite Hme.
  destruct (sysregs_run i 1 n d l h v Hk Hn) as ((d1 & l1 & E1) & _). rewrite (bind_run _ _ _ _ _ E1).
  rewrite (assert_context_run mpidr i Hme _ 0 s) by done. run. unfold cm_set_elr_el3.
  rewrite (update_run _ _ 0 _ s) by done. set (s1 := set_elr _ s). set (v1 := sput _ v).
  destruct (to_secure n s s1 v) as (Hk1 & Hn1 & Hs1); [done..|].
  destruct (sysregs_run i 0 s1 d1 l1 h v1 Hk1 Hs1) as (_ & (d2 & l2 & E2) & _). rewrite (bind_run _ _ _ _ _ E2).
  destruct (sysregs_run i 0 s1 d2 l2 h v1 Hk1 Hs1) as (_ & _ & (d3 & l3 & E3)). rewrite (bind_run _ _ _ _ _ E3).
  unfold read_sysreg, write_gp_regs. run. rewrite (update_run _ _ 0 _ s1) by done. run.
  unfold v1. rewrite !sget_sput, !put_twice, !sput_sput. do 3 eexists. split; [reflexivity|done].
Qed.

(** FIQ_DONE goes back and changes nothing. *)
Lemma fiq_done_run y1 y2 y3 y4 n s d l h v : worlds n s v -> exists d' l',
  opteed_smc_handler mpidr TEESMC_OPTEED_RETURN_FIQ_DONE y1 y2 y3 y4 0 (St d l h v) =
    (Ret (ToContext NON_SECURE), St d' l' h v).
Proof.
  intros (Hk & Hn & Hs & Ln & Ls). unfold opteed_smc_handler. change (negb (is_caller_secure 0)) with false. cbn match.
  unfold opteed_smc_from_optee.
  repeat match goal with |- context [if ?b then _ else _] =>
    let c := eval vm_compute in b in change b with c; cbn match end.
  change NON_SECURE with (Z.of_nat 1). rewrite Hme. rewrite (assert_context_run mpidr i Hme _ 1 n) by done.
  destruct (sysregs_run i 1 n d l h v Hk Hn) as (_ & (d2 & l2 & E2) & _). rewrite (bind_run _ _ _ _ _ E2).
  destruct (sysregs_run i 1 n d2 l2 h v Hk Hn) as (_ & _ & (d3 & l3 & E3)). rewrite (bind_run _ _ _ _ _ E3).
  run. by do 2 eexists.
Qed.

(** OP-TEE has run: its context holds other registers, the normal world's does not
    change. *)
Lemma worlds_secure n s s' v : worlds n s v -> length (gp_regs s') = 31%nat ->
  worlds n s' (sput (put_s i s' (sget v)) v).
Proof.
  intros (Hk & Hn & Hs & Ln & Ls) L. destruct (to_secure n s s' v Hk Hn Hs) as (H1 & H2 & H3). by unfold worlds.
Qed.



End Calls.

(** Processor 0 with OP-TEE running calls it, and is interrupted. *)
Lemma with_optee_worlds : worlds (V := el3_statics) 0 zero_context zero_context with_optee.
Proof.
  split; [|done]. split; [done|]. unfold with_optee. simpl.
  repeat (apply Forall_cons_2; [by do 2 eexists|]). apply Forall_nil_2.
Qed.



End OpteedCalls.
