(* ===== verification/ColdBoot.v ===== *)
(** * The cold boot of the monitor

    What bl31_entrypoint.S calls on the processor that boots: [bl31_setup] and
    [bl31_main] ([Bl31]), with the runtime services of this image in the order in
    which they are linked and [opteed_init] behind the pointer [bl32_init].  The
    theorems compose the components: from the zeroed statics of the image to the
    consistent state from which the theorems of [PsciSystem] start, with OP-TEE
    running, the interrupts routed, the heartbeat armed and the address space of
    the platform mapped. *)

From S2P Require Import Prelude Machine Trace Gic CtxData IntrMgmt Swdt Ipi PmDefs PmIpi PmReq PmClient PmApi PmRestart PmSvc PmTotal.
From S2P Require Import CtxMgmt Xlat XlatWalk Psci PsciOps Cci PsciTree CtxFacts Hotplug PsciPlat PsciLaws.
From S2P Require Import DelayTimer PlatStartup XlatPlat MmuOff RuntimeSvc Bl31 StdSvc Opteed OpteedLaws PsciSystem.
From Stdlib Require Import String.
From stdpp Require Import strings sets relations.
Import Gic CtxData IntrMgmt Ipi PmDefs PmIpi PmReq PmClient PmApi PmTotal CtxMgmt Psci PsciOps Cci PsciTree CtxFacts.
Import XlatWalk MmuOff Hotplug PsciPlat PsciLaws DelayTimer PlatStartup RuntimeSvc Bl31 StdSvc Opteed OpteedLaws PsciSystem.
#[local] Open Scope Z_scope.
#[local] Open Scope c_scope.

Module ColdBoot.

(** ** The services of this image *)

Definition OEN_ARM_START : Z := 0.
Definition OEN_ARM_END : Z := 0.
Definition OEN_SIP_START : Z := 2.
Definition OEN_SIP_END : Z := 2.
Definition OEN_STD_START : Z := 4.
Definition OEN_STD_END : Z := 4.
Definition OEN_TOS_START : Z := 50.
Definition OEN_TOS_END : Z := 63.

Section Image.
Context `{E : Env}.
Variable mpidr_el1 : Z.
Variable bl31_warm_entrypoint : Z.
#[local] Abbreviation me := (plat_my_core_pos mpidr_el1).

(** The SiP handler's registers are written to the caller's context. *)
Definition sip_svc : rt_svc_desc el3_statics :=
  RtSvcDesc OEN_SIP_START OEN_SIP_END SMC_TYPE_FAST "sip_svc" (Some PmSvc.sip_svc_setup)
    (Some (fun smc_fid x1 x2 x3 x4 flags =>
      xs <- PmSvc.sip_svc_smc_handler mpidr_el1 smc_fid x1 x2 x3 ;; smc_ret me flags xs)).

Definition arm_arch_svc : rt_svc_desc el3_statics :=
  RtSvcDesc OEN_ARM_START OEN_ARM_END SMC_TYPE_FAST "arm_arch_svc" None
    (Some (arm_arch_svc_smc_handler me)).

Definition std_svc : rt_svc_desc el3_statics :=
  RtSvcDesc OEN_STD_START OEN_STD_END SMC_TYPE_FAST "std_svc"
    (Some (std_svc_setup mpidr_el1 bl31_warm_entrypoint)) (Some (std_svc_smc_handler mpidr_el1)).

Definition opteed_fast : rt_svc_desc el3_statics :=
  RtSvcDesc OEN_TOS_START OEN_TOS_END SMC_TYPE_FAST "opteed_fast"
    (Some (opteed_setup mpidr_el1)) (Some (opteed_smc_handler mpidr_el1)).

Definition opteed_std : rt_svc_desc el3_statics :=
  RtSvcDesc OEN_TOS_START OEN_TOS_END SMC_TYPE_YIELD "opteed_std" None (Some (opteed_smc_handler mpidr_el1)).

Definition rt_svc_descs : list (rt_svc_desc el3_statics) :=
  [sip_svc; arm_arch_svc; std_svc; opteed_fast; opteed_std].

(** The two calls of bl31_entrypoint.S. *)
Definition bl31_entrypoint (ld : XlatPlat.layout) (info : bool) (arg0 arg1 : Z) : M el3_statics unit :=
  bl31_setup mpidr_el1 ld arg0 arg1 ;;
  bl31_main mpidr_el1 info rt_svc_descs (opteed_init mpidr_el1).

End Image.

(** ** What the hardware has to be *)

(** The interrupt controller identifies as GICv1 or GICv2, its CPU interface keeps
    FIQEn, which the driver sets; the interconnect is a CCI-400 that finishes
    changes of its snoop control within the polling bound; EL1 is not AArch64 only. *)
Class Board `{Env} := {
  gic_ident : forall d, let ver := (u32 (hw_read W32 (PLAT_ARM_GICD_BASE + GICD_PIDR2_GICV2) d).1 .>> 4) .& 0xf in
    ver = 1 \/ ver = 2;
  fiq_kept : forall d, Z.testbit (u32 (hw_read W32 (PLAT_ARM_GICC_BASE + GICC_CTLR) d).1) FIQ_EN_SHIFT = true;
  cci_lo : forall d, (u32 (hw_read W32 (PLAT_ARM_CCI_BASE + PERIPHERAL_ID0) d).1 .& CCI_PART_LO_MASK) = 0x20;
  cci_hi : forall d, (u32 (hw_read W32 (PLAT_ARM_CCI_BASE + PERIPHERAL_ID1) d).1 .& CCI_PART_HI_MASK) = 0x4;
  cci_settles : cci_answers;
  el1_both : forall d, (u64 (hw_call "read_id_aa64pfr0_el1" [] d).1 .>> 4) .& 0xf <> EL_IMPL_A64ONLY
}.

(** ** The platform *)

Section Platform.
Context `{E : Env} `{BD : !Board} `{CPU : !Xlat.El3Cpu} (Hans : pmu_answers).
Context (mpidr : Z) (i : nat) (Hme : plat_my_core_pos mpidr = Z.of_nat i) (Hi : (i < 4)%nat).
Implicit Types (d : Dev) (l : list event) (h : list lock_id) (v : el3_statics).

(** The interrupt controller: the driver is bound to the platform's data. *)
Lemma driver_init_run d l h v : exists d' l',
  plat_arm_gic_driver_init (St d l h v) =
    (Ret tt, St d' l' h (sput (set_driver_data (Some arm_gic_data) (s_gic v)) v)).
Proof.
  unfold plat_arm_gic_driver_init, gicv2_driver_init, gicd_read_pidr2.
  rewrite bool_decide_eq_true_2 by done. run. cbn [deref]. run.
  change (gicd_base arm_gic_data) with PLAT_ARM_GICD_BASE.
  assert (Hid : forall ver, ver = 1 \/ ver = 2 -> (ver =? 2) || (ver =? 1) = true) by by intros ver [-> | ->].
  rewrite Hid by apply gic_ident. run. by do 2 eexists.
Qed.

Lemma gic_setup_run d l h v : length (target_mask_array (s_gic v)) = 4%nat -> exists d' l' masks,
  Swdt.bl31_platform_setup mpidr (St d l h v) =
    (Ret tt, St d' l' h (sput (GicVars (Some arm_gic_data) masks) v)) /\ (4 <= length masks)%nat.
Proof.
  intros Hm. unfold Swdt.bl31_platform_setup.
  destruct (driver_init_run d l h v) as (d1 & l1 & E1). rewrite (bind_run _ _ _ _ _ E1).
  set (v1 := sput _ v).
  assert (Hup : gic_up v1) by (split; [repeat split; discriminate|simpl; lia]).
  destruct (gic_init_run i mpidr d1 l1 h v1 Hme Hi Hup) as (d2 & l2 & v2 & E2 & masks & Hl & ->). exists d2, l2, masks.
  split; [exact E2|lia].
Qed.

(** The interconnect: a CCI-400, with snoops on for this cluster. *)
Lemma interconnect_run d l h v : exists d' l',
  plat_arm_interconnect_init (St d l h v) = (Ret tt, St d' l' h (sput cci_booted v)).
Proof.
  unfold plat_arm_interconnect_init, cci_init, read_cci_part_number. run.
  change (negb (PLAT_ARM_CCI_BASE =? 0)) with true. run. rewrite cci_lo, cci_hi.
  match goal with |- context [sput ?c v] => change (sput c v) with (sput cci_booted v) end.
  set (v1 := sput cci_booted v). match goal with |- context [c_assert (0 <=? ?p)] => change (0 <=? p) with true end. run.
  match goal with |- context [bind (validate_cci_map cci_map) _ (St ?d1 ?l1 _ _)] =>
    assert (Ev : validate_cci_map cci_map (St d1 l1 h v1) = (Ret true, St d1 l1 h v1)) by reflexivity end.
  rewrite (bind_run _ _ _ _ _ Ev). run. by do 2 eexists.
Qed.

Lemma coherency_run d l h v : exists d' l',
  plat_arm_interconnect_enter_coherency mpidr (St d l h (sput cci_booted v)) = (Ret tt, St d' l' h (sput cci_booted v)).
Proof.
  unfold plat_arm_interconnect_enter_coherency, cci_enable_snoop_dvm_reqs. rewrite (aff1_zero i mpidr Hme Hi).
  destruct (snoop_run (DVM_EN_BIT .| SNOOP_EN_BIT) d l h (sput cci_booted v) cci_settles) as (d2 & l2 & E2); [done|].
  by eexists d2, _.
Qed.

(** Then the address space, and the MMU. *)
Lemma plat_arch_setup_run ld d l h v : XlatPlat.linked ld -> s_xlat v = Xlat.xlat_zero -> mmu_off d -> exists d' l' x,
  bl31_plat_arch_setup mpidr ld (St d l h v) = (Ret tt, St d' l' h (sput (x : Xlat.xlat) (sput cci_booted v))) /\
  forall va, Xlat.walk (XlatPlat.xlat_tables_at ld) x va = (fun a => (va, a)) <$> XlatPlat.address_space ld va.
Proof.
  intros Hld Hx Hoff. unfold bl31_plat_arch_setup.
  destruct (interconnect_run d l h v) as (d1 & l1 & E1). rewrite (bind_run _ _ _ _ _ E1).
  apply (mmu_off_kept _ _ _ _ _ _ _ _ _ _ sctlr_interconnect E1) in Hoff.
  destruct (coherency_run d1 l1 h v) as (d2 & l2 & E2). rewrite (bind_run _ _ _ _ _ E2).
  apply (mmu_off_kept _ _ _ _ _ _ _ _ _ _ (sctlr_coherency _) E2) in Hoff.
  exact (XlatPlat.map_el3_run ld Hld d2 l2 h (sput cci_booted v) Hx Hoff).
Qed.

End Platform.

(** ** The services register *)

Lemma lookup_four {A} (x : A) j : (j < 4)%nat -> repeat x 4 !! j = Some x.
Proof. destruct j as [|[|[|[|]]]]; (done || lia). Qed.

Section Services.
Context `{E : Env} (Hans : pmu_answers) `{OC : !OpteeComplies}.
Context (mpidr : Z) (i : nat) (Hme : plat_my_core_pos mpidr = Z.of_nat i) (Hi : (i < 4)%nat).
Context (warm : Z) (g : gic) (xl : Xlat.xlat) (im : images).
Implicit Types (d : Dev) (l : list event) (h : list lock_id) (v : el3_statics).

(** What stays while the services are set up: controller, interconnect, mailbox, no
    interrupt type registered, room for the heartbeat's handler. *)
Definition basis v : Prop :=
  s_gic v = g /\ s_cci v = cci_booted /\ s_intr v = blank /\ s_ipi v = ipi_booted /\ length (pll_modes (s_pm v)) = 5%nat /\
  Swdt.table_ok (s_swdt v) /\ Swdt.lookup_el3 (s_swdt v) Swdt.IRQ_TTC2_0 = None /\ s_xlat v = xl.

Lemma request_room id hd d l h v : 0 <= id < Swdt.MAX_INTR_EL3 -> id <> Swdt.IRQ_TTC2_0 ->
  basis v -> exists r (w : Swdt.swdt),
  Swdt.request_intr_type_el3 id (Some hd) (St d l h v) = (Ret r, St d l h (sput w v)) /\ basis (sput w v).
Proof.
  intros Hid Hne (H1 & H0 & H2 & H3 & H4 & H5 & H6 & H7). unfold Swdt.MAX_INTR_EL3 in Hid.
  rewrite Swdt.request_run by (done || lia).
  set (rc := Swdt.request_code _ _ _). destruct (rc =? 0) eqn:Erc.
  - do 2 eexists. split; [reflexivity|]. repeat (split; [done|]). split.
    + unfold Swdt.table_ok in *. simpl. by rewrite length_insert.
    + simpl.
      rewrite Swdt.lookup_el3_set by (done || unfold Swdt.MAX_INTR_EL3; lia).
      rewrite (proj2 (Z.eqb_neq _ _)) by done. done.
  - exists rc, (s_swdt v). change (s_swdt v) with (sget (S := Swdt.swdt) v). rewrite sput_sget. done.
Qed.

Lemma restart_room d l h v : basis v -> exists r (w : Swdt.swdt),
  PmRestart.pm_wdt_restart_setup (St d l h v) = (Ret r, St d l h (sput w v)) /\ basis (sput w v).
Proof.
  intros Hb. unfold PmRestart.pm_wdt_restart_setup.
  destruct (request_room ARM_IRQ_SEC_SGI_7 zynqmp_sgi7_irq_ptr d l h v) as (r & w & E1 & Hb1); [done..|].
  rewrite (bind_run _ _ _ _ _ E1). destruct (truthy r); [by exists r, w|].
  destruct (request_room IRQ_TTC3_1 ttc_fiq_handler_ptr d l h (sput w v)) as (r2 & w2 & E2 & Hb2); [done..|].
  exists r2, w2. by rewrite E2.
Qed.

Lemma sip_setup_run d l h v : pm_secure_lock ∉ h -> basis v -> exists r d' l' (p : pm) (w : Swdt.swdt),
  PmSvc.sip_svc_setup (St d l h v) = (Ret r, St d' l' h (sput p (sput w v))) /\ basis (sput p (sput w v)).
Proof.
  intros Hh Hb. pose proof Hb as (H1 & H0 & H2 & H3 & H4 & H5 & H6 & H7).
  assert (Hip : ipi_up (sget v)) by exact H3. unfold PmSvc.sip_svc_setup, PmRestart.pm_setup.
  destruct (PmRestart.pm_ipi_init_run d l h v Hip) as (d1 & n1 & E1 & _). rewrite (bind_run _ _ _ _ _ E1). run.
  unfold pm_get_api_version.
  destruct (PmRestart.sync_out1_answer [PM_GET_API_VERSION] (api_version (sget v)) d1 (n1 ++ l) h v Hip Hans Hh)
    as (r & ver & d2 & n2 & E2 & _); [simpl; lia|]. rewrite (bind_run _ _ _ _ _ E2). run.
  set (v1 := sput _ v). assert (Hb1 : basis v1) by done. cbn [snd set_api_version api_version].
  destruct (ver <? PM_VERSION).
  { run. exists (- EINVAL), d2, (n2 ++ n1 ++ l), (set_api_version ver (s_pm v)), (s_swdt v). done. }
  destruct (restart_room d2 (n2 ++ n1 ++ l) h v1 Hb1) as (st & w & E3 & Hb3). rewrite (bind_run _ _ _ _ _ E3). run.
  eexists _, d2, _, (set_pm_up (b2z (st =? 0)) (s_pm v1)), w. split; [reflexivity|]. exact Hb3.
Qed.

(** *** The dispatcher's set-up *)

Definition opteed_bss : opteed := OpteedVars 0 (repeat (OpteeContext 0 0 0) 4) 0.
#[local] Abbreviation pc32 := (ep_pc (bl32_image_ep_info im)).

(** Of the image only the contexts and the dispatcher's statics differ from [v0]. *)
Definition but_tos v0 v : Prop := v = sput (s_ctx v) (sput (s_opteed v) v0).

Lemma becomes_eq v0 v v' c o : but_tos v0 v -> becomes (but_tos v0) v v' c o -> v' = sput c (sput o v0).
Proof. intros Hv (Hc & Ho & _ & _ & Hup). rewrite (Hup Hv). simpl in Hc, Ho. by rewrite Hc, Ho. Qed.

Lemma but_tos_refl v : but_tos v v.
Proof. unfold but_tos. by destruct v. Qed.
Lemma but_tos_ctx v0 (c : ctx_vars) v : but_tos v0 v -> but_tos v0 (sput c v).
Proof. unfold but_tos. intros Hv. rewrite Hv. done. Qed.
Lemma but_tos_opteed v0 (o : opteed) v : but_tos v0 v -> but_tos v0 (sput o v).
Proof. unfold but_tos. intros Hv. rewrite Hv. done. Qed.

(** OP-TEE's entry on the booting processor, with the given state and stack. *)
Definition tos_entry (st sp : Z) : list optee_context :=
  <[i := OpteeContext st mpidr sp]> (repeat (OpteeContext 0 0 0) 4).

(** The image that the set-up leaves when there is an OP-TEE. *)
Definition tos_ready v v' : Prop := exists ep x rw,
  v' = sput (Bl31Vars true NON_SECURE) (sput (Images ep (bl33_image_ep_info im))
         (sput (put_s i x ctx_linked) (sput (OpteedVars 0 (tos_entry 0 0) rw) v))) /\
  GET_SECURITY_STATE (ep_attr ep) = SECURE /\ GET_EL (ep_spsr ep) <> MODE_EL2 /\ ep_pc ep = pc32.

Lemma tos_setup_run d l h v : s_ctx v = ctx_linked -> s_opteed v = opteed_bss -> s_images v = im ->
  s_bl31 v = Bl31Vars false NON_SECURE -> exists d' l' v',
  opteed_setup mpidr (St d l h v) = (Ret (if pc32 =? 0 then 1 else 0), St d' l' h v') /\
  (if pc32 =? 0 then v' = v else tos_ready v v').
Proof.
  intros Hc Ho Him Hb. unfold opteed_setup, bl31_plat_get_next_image_ep_info. run.
  change (SECURE =? NON_SECURE) with false. cbn match. run.
  assert (Him' : sget v = im) by exact Him. rewrite !Him'. 
  destruct (Z.eqb_spec pc32 0) as [Hz|Hz]; [run; by exists d, l, v|]. run.
  set (v1 := sput _ v). cbn [set_opteed_rw opteed_rw].
  match goal with |- context [bind (opteed_init_optee_ep_state _ ?rw _ ?p ?li ?dt) _ (St ?d1 ?l1 _ _)] =>
    destruct (ep_state_run mpidr i Hme Hi (but_tos v1) (but_tos_ctx v1) (but_tos_opteed v1) rw pc32 p li dt
      (OpteeContext 0 0 0) d1 l1 h v1) as (ep & d2 & l2 & v2 & x & E1 & Hb1 & Hss & Hel & Hpc) end;
    [exact Hz|simpl; rewrite Hc; apply ctx_linked_ok|unfold v1; simpl; rewrite Ho; simpl; by apply lookup_four|].
  rewrite (bind_run _ _ _ _ _ E1). run. apply (becomes_eq v1) in Hb1; [|apply but_tos_refl]. subst v2.
  unfold bl31_register_bl32_init. run. do 3 eexists. split; [reflexivity|]. exists ep, x.
  eexists. split; [|done]. unfold v1. simpl. rewrite Hc, Ho, Him, Hb. reflexivity.
Qed.

(** *** The five services *)

(** PSCI's statics and the contexts, set up for the booting processor or not. *)
Definition psci_made : psci :=
  tree_of zynqmp_caps false (boot_modes i) (repeat (NonCpuNode 0 0 0 0 0 0) 3) (boot_mps i mpidr).
Definition psci_at (done : bool) v : Prop :=
  if done then s_psci v = psci_made /\ s_ctx v = ctx_linked else s_psci v = psci_bss /\ s_ctx v = ctx_bss.
Definition tos_before v : Prop :=
  s_opteed v = opteed_bss /\ s_images v = im /\ s_bl31 v = Bl31Vars false NON_SECURE.

(** After [n] services. *)
Definition at_stage (n : nat) v : Prop :=
  if (n <? 3)%nat then psci_at false v /\ tos_before v
  else if (n =? 3)%nat || (pc32 =? 0) then psci_at true v /\ tos_before v
  else exists v0, psci_at true v0 /\ tos_before v0 /\ tos_ready v0 v.

(** What the initialisations return; that of the SiP service depends on the PMU. *)
Definition code (n : nat) : Z := if (n =? 3)%nat && (pc32 =? 0) then 1 else 0.
Definition registering (rcs : list Z) v : Prop :=
  basis v /\ at_stage (length rcs) v /\ forall n r, rcs !! n = Some r -> n <> 0%nat -> r = code n.

Lemma registering_next rcs r v v' : registering rcs v -> basis v' -> at_stage (S (length rcs)) v' ->
  (rcs = [] \/ r = code (length rcs)) -> registering (rcs ++ [r]) v'.
Proof.
  intros (_ & _ & Hr) Hb Hs Hc. split; [done|]. rewrite length_app, Nat.add_1_r. split; [done|].
  intros n x Hx Hn. apply lookup_app_Some in Hx as [Hx|[Hl Hx]]; [by apply Hr|].
  apply list_lookup_singleton_Some in Hx as [Hn0 <-].
  assert (n = length rcs) as -> by lia. destruct Hc as [->|Hc]; done.
Qed.

Lemma at_stage_table n (t : rt_svc) v : at_stage n v -> at_stage n (sput t v).
Proof.
  unfold at_stage. destruct (n <? 3)%nat; [done|]. destruct (_ || _); [done|].
  intros (v0 & Hp & Ht & ep & x & rw & -> & Hep). exists (sput t v0). split; [exact Hp|]. split; [exact Ht|].
  by exists ep, x, rw.
Qed.

Lemma std_setup_run d l h v : at_stage 2 v -> basis v -> exists d' l' v',
  std_svc_setup mpidr warm (St d l h v) = (Ret 0, St d' l' h v') /\ at_stage 3 v' /\ basis v' /\ s_rt v' = s_rt v.
Proof.
  intros [[Hp Hc] Ht] Hb. unfold std_svc_setup, get_arm_std_svc_args. run.
  destruct (setup_all_run mpidr i warm d l h v Hme Hi Hp Hc) as (d1 & l1 & pl & E1).
  rewrite (bind_run _ _ _ _ _ E1). run. do 3 eexists. split; [reflexivity|]. split; [done|]. done.
Qed.

Lemma tos_stage_run d l h v : at_stage 3 v -> basis v -> exists d' l' v',
  opteed_setup mpidr (St d l h v) = (Ret (code 3), St d' l' h v') /\ at_stage 4 v' /\ basis v' /\ s_rt v' = s_rt v.
Proof.
  intros [[Hp Hc] (Ho & Him & Hbl)] Hb.
  destruct (tos_setup_run d l h v Hc Ho Him Hbl) as (d1 & l1 & v1 & E1 & Hv1).
  exists d1, l1, v1. unfold code, at_stage. split; [done|]. cbn [Nat.ltb Nat.leb Nat.eqb orb].
  destruct (pc32 =? 0); [by subst v1|]. split; [by exists v|].
  destruct Hv1 as (ep & x & rw & -> & _). done.
Qed.

Lemma services_ok : services (rt_svc_descs mpidr warm) registering [].
Proof.
  split.
  - simpl. lia.
  - done.
  - repeat constructor; simpl; try done; try (by left); try (by right); (left; by eexists) || (right; by eexists).
  - intros rcs t v (Hb & Hs & Hc). split; [exact Hb|]. split; [by apply at_stage_table|exact Hc].
  - intros rcs svc d l v Hn HP. pose proof HP as (Hb & Hs & Hc).
    destruct rcs as [|r0 [|r1 [|r2 [|r3 [|r4 rcs]]]]]; simplify_eq/=.
    + destruct (sip_setup_run d l [] v) as (r & d' & l' & p & w & E1 & Hb1); [set_solver|done|].
      do 4 eexists. split; [exact E1|]. split; [|done]. eapply (registering_next [] r v); [done|done|exact Hs|by left].
    + exists 0, d, l, v. split; [done|]. split; [|done]. apply (registering_next [r0] 0 v); [done|done|exact Hs|by right].
    + destruct (std_setup_run d l [] v Hs Hb) as (d' & l' & v' & E1 & Hs1 & Hb1 & Hr).
      exists 0, d', l', v'. split; [done|]. split; [|exact Hr]. apply (registering_next [r0; r1] 0 v); auto.
    + destruct (tos_stage_run d l [] v Hs Hb) as (d' & l' & v' & E1 & Hs1 & Hb1 & Hr).
      exists (code 3), d', l', v'. split; [done|]. split; [|exact Hr]. apply (registering_next [r0; r1; r2] _ v); auto.
    + exists 0, d, l, v. split; [done|]. split; [|done]. apply (registering_next [r0; r1; r2; r3] 0 v); auto.
Qed.

(** The image when [bl31_main] starts. *)
Record starting (v : el3_statics) : Prop := {
  st_ipi : s_ipi v = ipi_booted;
  st_pm : length (pll_modes (s_pm v)) = 5%nat;
  st_intr : s_intr v = blank;
  st_swdt : s_swdt v = Swdt.bss;
  st_psci : s_psci v = psci_bss;
  st_ctx : s_ctx v = ctx_bss;
  st_opteed : s_opteed v = opteed_bss;
  st_images : s_images v = im;
  st_bl31 : s_bl31 v = Bl31Vars false NON_SECURE;
  st_cci : s_cci v = cci_booted
}.

Lemma services_done d l v : starting v -> g = s_gic v -> xl = s_xlat v -> exists r d' l' v',
  runtime_svc_init (rt_svc_descs mpidr warm) (St d l [] v) = (Ret tt, St d' l' [] v') /\
  table_of (rt_svc_descs mpidr warm) [r; 0; 0; code 3; 0] (s_rt v') /\ basis v' /\ at_stage 5 v'.
Proof.
  intros HS Hg Hxl. destruct HS.
  destruct (runtime_svc_init_run _ _ _ services_ok d l v) as (rcs & d1 & l1 & v1 & E1 & Hl & (Hb & Hs & Hc) & Ht).
  { split; [unfold basis; rewrite st_swdt0; done|]. split; [done|]. intros n r Hr. done. }
  destruct rcs as [|r [|r1 [|r2 [|r3 [|r4 [|]]]]]]; try done.
  pose proof (Hc 1%nat r1 eq_refl ltac:(done)) as ->. pose proof (Hc 2%nat r2 eq_refl ltac:(done)) as ->.
  pose proof (Hc 3%nat r3 eq_refl ltac:(done)) as ->. pose proof (Hc 4%nat r4 eq_refl ltac:(done)) as ->.
  by exists r, d1, l1, v1.
Qed.

End Services.

(** ** OP-TEE boots *)

(** Compute the components of an image. *)
Ltac el3 := cbn [sget sput el3_has_gic el3_has_intr_mgmt el3_has_swdt el3_has_ipi el3_has_pm el3_has_cci
  el3_has_ctx_vars el3_has_psci el3_has_plat_vars el3_has_opteed el3_has_timer el3_has_images el3_has_rt_svc
  el3_has_bl31 el3_has_xlat s_gic s_intr s_swdt s_ipi s_pm s_cci s_ctx s_psci s_plat s_opteed s_timer s_images s_rt s_bl31 s_xlat].

Lemma only_routing_eq (v v' : el3_statics) : only_routing v v' -> v' = sput (s_intr v') (sput (s_ctx v') v).
Proof.
  intros Ho. pose proof (Ho gic _ _ _) as H1. pose proof (Ho Swdt.swdt _ _ _) as H2.
  pose proof (Ho ipi _ _ _) as H3. pose proof (Ho pm _ _ _) as H4. pose proof (Ho cci _ _ _) as H5.
  pose proof (Ho psci _ _ _) as H6. pose proof (Ho plat_vars _ _ _) as H7. pose proof (Ho opteed _ _ _) as H8.
  pose proof (Ho timer _ _ _) as H9. pose proof (Ho images _ _ _) as H10. pose proof (Ho rt_svc _ _ _) as H11.
  pose proof (Ho bl31 _ _ _) as H12. pose proof (Ho Xlat.xlat _ _ _) as H13. destruct v, v'. simpl in *. by subst.
Qed.

(** Routing keeps the contexts usable, up to their control words. *)
Definition same_entry (x y : cpu_context) : Prop :=
  gp_regs y = gp_regs x /\ ctx_elr_el3 y = ctx_elr_el3 x /\ ctx_spsr_el3 y = ctx_spsr_el3 x /\
  Z.testbit (ctx_scr_el3 y) 0 = Z.testbit (ctx_scr_el3 x) 0.

Lemma put_bit_ns z type b : b = 0 \/ b = 1 -> Z.testbit (put_bit z (line_of type) b) 0 = Z.testbit z 0.
Proof.
  intros Hb. unfold put_bit. rewrite Z.lor_spec, Z.land_spec.
  assert (Z.testbit (u64 (Z.lnot (shl64 1 (line_of type)))) 0 = true) as ->
    by (unfold line_of; by destruct (type =? INTR_TYPE_NS)).
  assert (Z.testbit (shl64 b (line_of type)) 0 = false) as ->
    by (unfold line_of; by destruct Hb as [-> | ->], (type =? INTR_TYPE_NS)).
  by rewrite andb_true_r, orb_false_r.
Qed.

Lemma reroute_keeps type flags ss j c : ctx_ok c -> ctx_ok (reroute type flags ss j c) /\
  forall ss' k x, context_of ss' c k = Some x -> exists y,
    context_of ss' (reroute type flags ss j c) k = Some y /\ same_entry x y.
Proof.
  intros Hc. unfold reroute, upd_scr. destruct (context_of ss c j) as [z|] eqn:Ez.
  - split; [by apply put_ok|]. intros ss' k x Hx. destruct (decide (ss = ss' /\ j = k)) as [[<- <-]|Hne].
    + rewrite Ez in Hx. injection Hx as ->. eexists. split; [by eapply put_same|].
      split; [done|]. split; [done|]. split; [done|]. apply put_bit_ns, rm_flag_cases. lia.
    + exists x. rewrite put_other by (destruct (decide (ss = ss')); [right|left]; naive_solver). done.
  - split; [done|]. intros ss' k x Hx. by exists x.
Qed.

Lemma rerouted_keeps type flags j c : ctx_ok c -> ctx_ok (rerouted type flags j c) /\
  forall ss k x, context_of ss c k = Some x -> exists y,
    context_of ss (rerouted type flags j c) k = Some y /\ same_entry x y.
Proof.
  intros Hc. destruct (reroute_keeps type flags 0 j c Hc) as [Hc1 H1].
  destruct (reroute_keeps type flags 1 j _ Hc1) as [Hc2 H2]. split; [exact Hc2|]. intros ss k x Hx.
  destruct (H1 ss k x Hx) as (y & Hy & Ha1 & Ha2 & Ha3 & Ha4).
  destruct (H2 ss k y Hy) as (z & Hz & Hb1 & Hb2 & Hb3 & Hb4).
  exists z. split; [exact Hz|]. split; [congruence|]. split; [congruence|]. split; congruence.
Qed.

Section Boot.
Context `{E : Env} `{BD : !Board} (Hans : pmu_answers) `{OC : !OpteeComplies}.
Context (mpidr : Z) (i : nat) (Hme : plat_my_core_pos mpidr = Z.of_nat i) (Hi : (i < 4)%nat).
Implicit Types (d : Dev) (l : list event) (h : list lock_id) (v : el3_statics).

(** The interrupt framework after OP-TEE, and later the platform, have registered. *)
Definition intr_tos : intr_mgmt :=
  registered INTR_TYPE_S_EL1 opteed_sel1_interrupt_handler_ptr 2 blank.
Definition intr_all : intr_mgmt := registered INTR_TYPE_EL3 rdo_el3_interrupt_handler_ptr 3 intr_tos.
Definition psci_tos : psci :=
  tree_of (caps_with true) true (boot_modes i) (repeat (NonCpuNode 0 0 0 0 0 0) 3) (boot_mps i mpidr).

(** ENTRY_DONE: the table is kept, the hooks of PSCI and the handler of S-EL1
    interrupts are registered, and control goes back to [opteed_init]. *)
Lemma entry_done_run masks sp rw x d l h v :
  s_gic v = GicVars (Some arm_gic_data) masks -> s_intr v = blank -> s_psci v = psci_made mpidr i ->
  ctx_ok (s_ctx v) -> s_context (s_ctx v) i = Some x ->
  s_opteed v = OpteedVars 0 (tos_entry mpidr i 0 sp) rw -> sp <> 0 ->
  exists d' l', entry_done mpidr optee_table (St d l h v) = (Ret (ToCaller optee_table), St d' l' h
    (sput intr_tos (sput (rerouted INTR_TYPE_S_EL1 2 i (s_ctx v))
      (sput psci_tos (sput (OpteedVars optee_table (tos_entry mpidr i 1 sp) rw) v))))).
Proof.
  destruct v as [g ig sw ip p c cx ps pl o tm im rt bm]. simpl. intros -> -> -> Hk Hx -> Hsp.
  unfold entry_done, register_opteed_pm, set_pstate. run. el3. cbn [optee_vector_table set_vector_table opteed_sp_context opteed_rw Z.eqb]. run.
  pose proof table_range. rewrite (proj2 (Z.eqb_neq optee_table 0)) by lia. cbn [negb]. run.
  assert (Hent : forall a b, tos_entry mpidr i a b !! i = Some (OpteeContext a mpidr b))
    by (intros; apply list_lookup_insert_eq; simpl; lia).
  rewrite (upd_ctx_run mpidr i Hme _ _ (OpteeContext 0 mpidr sp)) by apply Hent.
  unfold with_ctx. el3. cbn [opteed_sp_context optee_state optee_mpidr c_rt_ctx set_sp_context optee_vector_table opteed_rw].
  change (set_optee_pstate 0 OPTEE_PSTATE_ON) with 1. run. el3.
  assert (Hset : <[i := OpteeContext 1 mpidr sp]> (tos_entry mpidr i 0 sp) = tos_entry mpidr i 1 sp)
    by apply list_insert_insert_eq.
  match goal with |- context [set_caps ?a ?b] => change (set_caps a b) with psci_tos end.
  match goal with |- context [set_sp_context ?a ?b] =>
    change (set_sp_context a b) with (OpteedVars optee_table (<[i := OpteeContext 1 mpidr sp]> (tos_entry mpidr i 0 sp)) rw) end.
  rewrite Hset, Hme. change (set_interrupt_rm_flag 0 NON_SECURE) with 2. set (v1 := El3 _ _ _ _ _ _ _ _ _ _ _ _ _ _ _).
  destruct (register_run (V := el3_statics) PLAT_ARM_GICD_BASE arm_gic_data i Hi fiq_kept INTR_TYPE_S_EL1
    (Some opteed_sel1_interrupt_handler_ptr) 2 d l h v1) as (d2 & l2 & v2 & E2 & Hor & Hv2);
    [repeat split; discriminate|by left|by apply ok_shape|apply blank_wf|].
  rewrite (bind_run _ _ _ _ _ E2). change (register_code _ _ _ _) with 0 in Hv2 |- *. destruct Hv2 as [I2 C2]. run.
  apply only_routing_eq in Hor. simpl in I2, C2. rewrite I2, C2 in Hor. fold intr_tos in Hor. subst v2.
  unfold opteed_synchronous_sp_exit. change SECURE with (Z.of_nat 0).
  destruct (rerouted_keeps INTR_TYPE_S_EL1 2 i cx Hk) as [Hk2 Hl2]. destruct (Hl2 0%nat i x Hx) as (y & Hy & _).
  rewrite (assert_context_run mpidr i Hme _ 0 y) by done. rewrite Hme.
  set (v3 := sput intr_tos _).
  assert (Hk3 : ctx_ok (sget v3)) by exact Hk2. assert (Hy3 : s_context (sget v3) i = Some y) by exact Hy.
  destruct (sysregs_run i 0 y d2 l2 h v3 Hk3 Hy3) as ((d3 & l3 & E3) & _).
  rewrite (bind_run _ _ _ _ _ E3). rewrite (optee_ctx_run mpidr i Hme _ (OpteeContext 1 mpidr sp)) by apply Hent.
  cbn [c_rt_ctx]. rewrite (proj2 (Z.eqb_neq _ _) Hsp). run. by do 2 eexists.
Qed.

Lemma tos_init_run masks ep x rw d l h v :
  s_gic v = GicVars (Some arm_gic_data) masks -> s_intr v = blank -> s_psci v = psci_made mpidr i ->
  s_ctx v = put_s i x ctx_linked -> s_opteed v = OpteedVars 0 (tos_entry mpidr i 0 0) rw ->
  bl32_image_ep_info (s_images v) = ep ->
  GET_SECURITY_STATE (ep_attr ep) = SECURE -> GET_EL (ep_spsr ep) <> MODE_EL2 -> ep_pc ep = optee_boot ->
  exists r d' l' y, opteed_init mpidr (St d l h v) = (Ret r, St d' l' h
    (sput intr_tos (sput (rerouted INTR_TYPE_S_EL1 2 i (put_s i y ctx_linked))
      (sput psci_tos (sput (OpteedVars optee_table (tos_entry mpidr i 1 0) rw) v))))).
Proof.
  intros Hg Hin Hps Hc Ho Hep Hss Hel Hpc. unfold opteed_init, bl31_plat_get_next_image_ep_info. run.
  change (SECURE =? NON_SECURE) with false. cbn match. run.
  assert (Hep' : bl32_image_ep_info (sget v) = ep) by exact Hep. rewrite Hep'.
  pose proof ctx_linked_ok as Hlk. assert (Hk0 : ctx_ok (put_s i x ctx_linked)) by by apply put_ok.
  unfold cm_init_my_context. rewrite Hme.
  destruct (setup_run 0 ep i x d l h v) as (d1 & n1 & x1 & E1 & _ & Helr & _);
    [simpl; by rewrite Hc|simpl; rewrite Hc; apply put_new; [done|done|lia]|simpl; rewrite Hin; apply blank_wf|done|done|].
  rewrite (bind_run _ _ _ _ _ E1). simpl sget. rewrite Hc, put_twice. set (v1 := sput _ v).
  assert (Hk1 : ctx_ok (sget v1)) by by apply put_ok.
  assert (Hx1 : s_context (sget v1) i = Some x1) by (apply put_new; [done|done|lia]).
  assert (Hent : forall a b, tos_entry mpidr i a b !! i = Some (OpteeContext a mpidr b))
    by (intros; apply list_lookup_insert_eq; simpl; lia).
  assert (Ho1 : opteed_sp_context (sget v1) !! i = Some (OpteeContext 0 mpidr 0)) by (simpl; rewrite Ho; apply Hent).
  destruct (sp_entry_start mpidr i Hme (OpteeContext 0 mpidr 0) x1 d1 (n1 ++ l) h v1 Hk1 Hx1 Ho1 eq_refl) as (d2 & l2 & E2).
  destruct (enter_sp_smc mpidr i Hme (but_tos v1) (but_tos_ctx v1) (but_tos_opteed v1)
    (OpteeContext 0 mpidr 0) x1 d2 l2 h v1 Hk1 Hx1 Ho1)
    as (d3 & l3 & v3 & x3 & sp & dr0 & dr1 & y2 & y3 & y4 & E3 & Hsp & Hb3).
  apply becomes_eq in Hb3; [|apply but_tos_refl]. rewrite Helr, Hpc, boot_fid, boot_table in E3.
  assert (Hv3 : v3 = sput (put_s i x3 ctx_linked) (sput (OpteedVars 0 (tos_entry mpidr i 0 sp) rw) v)).
  { rewrite Hb3. unfold v1. simpl. rewrite Ho, put_twice. unfold set_sp_context. cbn [opteed_sp_context optee_vector_table opteed_rw].
    unfold tos_entry. by rewrite list_insert_insert_eq. }
  rewrite Hv3 in E3. clear Hb3 Hv3 v3.
  change (opteed_smc_handler mpidr TEESMC_OPTEED_RETURN_ENTRY_DONE optee_table y2 y3 y4 0) with
    (entry_done (V := el3_statics) mpidr optee_table) in E3. set (v4 := sput _ _) in E3.
  destruct (entry_done_run masks sp rw x3 d3 l3 h v4) as (d5 & l5 & E5);
    [done|done|done|by apply put_ok|apply put_new; [done|done|lia]|done|done|].
  rewrite (bind_run _ _ _ _ _ E5) in E3. rewrite run_ret in E3. set (v5 := sput intr_tos _) in E3.
  assert (E6 : opteed_synchronous_sp_entry mpidr (St d1 (n1 ++ l) h v1) = (Ret optee_table, St d5 l5 h
    (with_ctx i (OpteeContext 1 mpidr 0) v5))).
  { rewrite E2, (bind_run _ _ _ _ _ E3).
    apply (sp_entry_end mpidr i Hme _ _ (OpteeContext 1 mpidr sp)); [apply Hent|done|done|done]. }
  rewrite (bind_run _ _ _ _ _ E6). pose proof table_range. rewrite (proj2 (Z.eqb_neq optee_table 0)) by lia.
  cbn [negb]. run. do 3 eexists. exists x3. do 2 f_equal. unfold with_ctx, v5, v4. simpl.
  unfold set_sp_context, tos_entry. simpl. by rewrite list_insert_insert_eq.
Qed.

(** ** The normal world is prepared *)

Lemma prepare_next_run ep b d l h v : s_bl31 v = Bl31Vars b NON_SECURE -> bl33_image_ep_info (s_images v) = ep ->
  GET_SECURITY_STATE (ep_attr ep) = NON_SECURE -> ctx_ok (s_ctx v) -> wf (s_intr v) ->
  exists d' l' x, bl31_prepare_next_image_entry mpidr (St d l h v) =
    (Ret tt, St d' l' h (sput (put_ns i x (s_ctx v)) v)) /\
    ctx_elr_el3 x = ep_pc ep /\ ctx_spsr_el3 x = ep_spsr ep /\
    gp_regs x = take 8 (ep_args ep) ++ drop 8 (repeat 0 31) /\
    Z.testbit (ctx_scr_el3 x) 0 = true /\ routes 1 (s_intr v) x.
Proof.
  intros Hb Hep Hss Hk Hw. unfold bl31_prepare_next_image_entry, el_implemented, read_sysreg. cbn [Z.gtb Z.compare Pos.compare Pos.compare_cont].
  run. rewrite (proj2 (Z.eqb_neq _ _)) by apply el1_both. unfold bl31_get_next_image_type, bl31_plat_get_next_image_ep_info. run.
  assert (Hb' : next_image_type (sget v) = NON_SECURE) by (simpl; by rewrite Hb). rewrite Hb'.
  change (sec_state_is_valid NON_SECURE) with true. change (NON_SECURE =? NON_SECURE) with true. cbn match. run.
  assert (Hep' : bl33_image_ep_info (sget v) = ep) by exact Hep. rewrite Hep', Hss.
  change (NON_SECURE =? NON_SECURE) with true. run. unfold cm_init_my_context. rewrite Hme.
  destruct (slot_ns _ i Hk Hi) as [x0 Hx0].
  match goal with |- context [bind (cm_setup_context _ _) _ (St ?d1 ?l1 _ _)] =>
    destruct (setup_run 1 ep i x0 d1 l1 h v) as (d2 & n2 & x & E2 & Hsp & Helr & Hgp & Hns & Hr) end; [done..|].
  rewrite (bind_run _ _ _ _ _ E2). set (v1 := sput _ v).
  assert (Hk1 : ctx_ok (sget v1)) by by apply put_ok.
  match goal with |- context [cm_prepare_el3_exit _ _ (St ?d3 ?l3 _ _)] =>
    destruct (prepare_run i d3 l3 h v1 Hk1 Hi) as (d4 & l4 & r & E4) end.
  rewrite E4. do 3 eexists. split; [reflexivity|]. auto 10.
Qed.

(** ** The whole *)

Context (warm : Z) (im : images).
#[local] Abbreviation bl33 := (bl33_image_ep_info im).
#[local] Abbreviation descs := (rt_svc_descs mpidr warm).

(** What the monitor has become when it leaves for the normal world. *)
Record booted (rcs : list Z) (tr : list event) (v : el3_statics) : Prop := {
  bt_consistent : consistent plat_up optee_in (caps_with true) true (boot_modes i) v;
  bt_services : table_of descs rcs (s_rt v) /\ exists r, rcs = [r; 0; 0; 0; 0];
  bt_normal : exists x, ns_context (s_ctx v) i = Some x /\ leads_to (ep_pc bl33) 0 x /\
    ctx_spsr_el3 x = ep_spsr bl33;
  bt_fiq : forall ss, (ss < 2)%nat -> exists x, context_of ss (s_ctx v) i = Some x /\
    Z.testbit (ctx_scr_el3 x) SCR_FIQ_POS = true;
  bt_handlers : s_intr v = intr_all;
  bt_heartbeat : Swdt.lookup_el3 (s_swdt v) Swdt.IRQ_TTC2_0 = Some ttc2_fiq_handler_ptr /\
    exists reads isr rd pre, tr = reads ++ Swdt.ttc2_trace isr ++ Swdt.gic_trace rd ++ pre /\
      Forall Swdt.is_read reads
}.

(** After the services. *)
Lemma services_run d l v : starting im v -> ep_pc (bl32_image_ep_info im) <> 0 ->
  exists r d' l' v0 v', runtime_svc_init descs (St d l [] v) = (Ret tt, St d' l' [] v') /\
    table_of descs [r; 0; 0; 0; 0] (s_rt v') /\ basis (s_gic v) (s_xlat v) v' /\
    psci_at mpidr i true v0 /\ tos_before im v0 /\ tos_ready mpidr i im v0 v'.
Proof.
  intros HS Hpc.
  destruct (services_done Hans mpidr i Hme Hi warm (s_gic v) (s_xlat v) im d l v HS eq_refl eq_refl) as (r & d1 & l1 & v1 & E1 & Ht & Hb & Hs).
  unfold code, at_stage in *. apply Z.eqb_neq in Hpc. rewrite Hpc in *. cbn [Nat.eqb Nat.ltb Nat.leb orb andb] in *.
  destruct Hs as (v0 & Hp & Hbf & Hr). by exists r, d1, l1, v0, v1.
Qed.

Lemma up_ready v masks : s_gic v = GicVars (Some arm_gic_data) masks -> ready PLAT_ARM_GICD_BASE arm_gic_data v.
Proof. intros Hg. unfold ready. simpl. rewrite Hg. by repeat split. Qed.

(** The last image, in terms of its parts. *)
Definition final_ctx (y x : cpu_context) : ctx_vars :=
  rerouted INTR_TYPE_EL3 3 i (put_ns i x (rerouted INTR_TYPE_S_EL1 2 i (put_s i y ctx_linked))).

Lemma main_run info d l v : starting im v -> length (target_mask_array (s_gic v)) = 4%nat ->
  ep_pc (bl32_image_ep_info im) = optee_boot -> optee_boot <> 0 ->
  GET_SECURITY_STATE (ep_attr bl33) = NON_SECURE ->
  exists r d' reads isr rd pre masks y x w v0 rw v',
    bl31_main mpidr info descs (opteed_init mpidr) (St d l [] v) =
      (Ret tt, St d' (reads ++ Swdt.ttc2_trace isr ++ Swdt.gic_trace rd ++ pre) [] v') /\
    Forall Swdt.is_read reads /\ (4 <= length masks)%nat /\
    s_gic v' = GicVars (Some arm_gic_data) masks /\ s_cci v' = cci_booted /\ s_xlat v' = s_xlat v /\ s_intr v' = intr_all /\ s_ipi v' = ipi_booted /\
    length (pll_modes (s_pm v')) = 5%nat /\ s_psci v' = psci_tos /\ s_ctx v' = final_ctx y x /\
    s_opteed v' = OpteedVars optee_table (tos_entry mpidr i 1 0) rw /\ s_rt v' = s_rt v0 /\
    table_of descs [r; 0; 0; 0; 0] (s_rt v0) /\
    s_swdt v' = Swdt.set_table (<[Z.to_nat Swdt.IRQ_TTC2_0 := Some ttc2_fiq_handler_ptr]>
                  (Swdt.type_el3_interrupt_table w)) w /\ Swdt.table_ok w /\
    ctx_elr_el3 x = ep_pc bl33 /\ ctx_spsr_el3 x = ep_spsr bl33 /\
    gp_regs x = take 8 (ep_args bl33) ++ drop 8 (repeat 0 31) /\ Z.testbit (ctx_scr_el3 x) 0 = true.
Proof.
  intros HS Hma Hpc Hnz Hns. unfold bl31_main. pose proof HS as [].
  destruct (gic_setup_run mpidr i Hme Hi d l [] v) as (d1 & l1 & masks & E1 & Hm); [done..|].
  rewrite (bind_run _ _ _ _ _ E1). unfold bl31_lib_init. run. set (v1 := sput _ v).
  destruct (services_run d1 l1 v1) as (r & d2 & l2 & v0 & v2 & E2 & Ht & (B1 & B0 & B2 & B3 & B4 & B5 & B6 & B7) & [P1 P2] &
    (T1 & T2 & T3) & ep & x0 & rw & Hv2 & Hss & Hel & Hep); [by destruct HS|by rewrite Hpc|].
  rewrite (bind_run _ _ _ _ _ E2). run.
  assert (Hreg : bl32_init (sget v2) = true) by by rewrite Hv2. rewrite Hreg. run. subst v2.
  set (v2 := sput (Bl31Vars true NON_SECURE) _) in *.
  destruct (tos_init_run masks ep x0 rw d2 l2 [] v2) as (rc & d3 & l3 & y & E3);
    [done|done|done|done|done|done|done|done|by rewrite Hep|].
  rewrite (bind_run _ _ _ _ _ E3). run. set (v3 := sput intr_tos _).
  pose proof ctx_linked_ok as Hlk. assert (Hk0 : ctx_ok (put_s i y ctx_linked)) by by apply put_ok.
  destruct (rerouted_keeps INTR_TYPE_S_EL1 2 i _ Hk0) as [Hk3 _].
  assert (Hw3 : wf intr_tos) by apply (registered_wf _ _ _ _ blank_wf).
  destruct (prepare_next_run bl33 true d3 l3 [] v3) as (d4 & l4 & x & E4 & X1 & X2 & X3 & X4 & _);
    [done|done|done|done|done|].
  rewrite (bind_run _ _ _ _ _ E4). set (v4 := sput _ v3).
  assert (Hk4 : ctx_ok (put_ns i x (s_ctx v3))) by by apply put_ok.
  destruct (Swdt.runtime_setup_run info mpidr i arm_gic_data d4 l4 [] v4) as
    (d5 & v5 & v6 & rd & isr & reads & pre & E5 & Hf & Hor & I5 & C5 & Hv6);
    [done|done|apply fiq_kept|by apply (up_ready v4 masks)|by repeat split|set_solver|by apply ok_shape|done|done|done|done|].
  rewrite E5. apply only_routing_eq in Hor. simpl in I5, C5. rewrite I5, C5 in Hor. rewrite Hor in Hv6. clear I5 C5 Hor.
  exists r, d5, reads, isr, rd, pre, masks, y, x, (s_swdt v4), v2, rw, v6. split; [done|]. split; [done|].
  split; [done|]. subst v6. repeat (split; [done|]). done.
Qed.

Lemma final_ctx_ok y x : ctx_ok (final_ctx y x) /\
  (exists z, s_context (final_ctx y x) i = Some z) /\
  (exists z, ns_context (final_ctx y x) i = Some z /\ same_entry x z) /\
  forall ss z, (ss < 2)%nat -> context_of ss (final_ctx y x) i = Some z ->
    Z.testbit (ctx_scr_el3 z) SCR_FIQ_POS = true.
Proof.
  pose proof ctx_linked_ok as Hlk. assert (Hk0 : ctx_ok (put_s i y ctx_linked)) by by apply put_ok.
  destruct (rerouted_keeps INTR_TYPE_S_EL1 2 i _ Hk0) as [Hk1 H1]. set (c1 := rerouted _ 2 i _) in *.
  assert (Hk2 : ctx_ok (put_ns i x c1)) by by apply put_ok.
  destruct (rerouted_keeps INTR_TYPE_EL3 3 i _ Hk2) as [Hk3 H3]. split; [exact Hk3|]. split; [|split].
  - destruct (H1 0%nat i y) as (z & Hz & _); [apply put_new; [done|done|lia]|].
    destruct (H3 0%nat i z) as (z' & Hz' & _); [rewrite put_other; [done|by left]|]. eauto.
  - destruct (H3 1%nat i x) as (z & Hz & Hse); [apply put_new; [done|done|lia]|]. eauto.
  - intros ss z Hss Hz. change SCR_FIQ_POS with (line_of INTR_TYPE_EL3).
    rewrite (rerouted_bit i Hi INTR_TYPE_EL3 3 ss (put_ns i x c1) z); [|by apply ok_shape|done|done].
    by destruct ss as [|[|]]; [..|lia].
Qed.

(** OP-TEE is ON on the booting processor and OFF on the others. *)
Lemma payload_booted y x rw v j m : s_opteed v = OpteedVars optee_table (tos_entry mpidr i 1 0) rw ->
  s_ctx v = final_ctx y x -> s_intr v = intr_all -> boot_modes i !! j = Some m -> optee_in j (tos_of m) v.
Proof.
  intros Ho Hc Hin Hj. destruct (final_ctx_ok y x) as (K1 & [z Kz] & _).
  unfold optee_in. simpl. rewrite Ho, Hc, Hin. split; [done|].
  split; [unfold tos_entry; simpl; by rewrite length_insert|]. split; [done|].
  split; [apply (registered_wf _ _ _ _ (registered_wf _ _ _ _ blank_wf))|].
  unfold boot_modes in Hj. apply list_lookup_insert_Some in Hj as [(<- & <- & _)|[Hne Hj]].
  - exists (OpteeContext 1 mpidr 0). split; [apply list_lookup_insert_eq; simpl; lia|]. eauto.
  - exists (OpteeContext 0 0 0). pose proof (lookup_lt_Some _ _ _ Hj) as Hlt. simpl in Hlt.
    apply list_elem_of_lookup_2, list_elem_of_In, repeat_spec in Hj. subst m.
    split; [unfold tos_entry; simpl; rewrite list_lookup_insert_ne by done; by apply lookup_four|]. done.
Qed.

Lemma main_booted info d l v : starting im v -> length (target_mask_array (s_gic v)) = 4%nat ->
  ep_pc (bl32_image_ep_info im) = optee_boot -> optee_boot <> 0 ->
  GET_SECURITY_STATE (ep_attr bl33) = NON_SECURE -> ep_args bl33 = repeat 0 8 ->
  exists rcs d' l' v', bl31_main mpidr info descs (opteed_init mpidr) (St d l [] v) = (Ret tt, St d' l' [] v') /\
    booted rcs l' v' /\ s_xlat v' = s_xlat v.
Proof.
  intros HS Hma Hpc Hnz Hns Hargs.
  destruct (main_run info d l v HS Hma Hpc Hnz Hns) as (r & d' & reads & isr & rd & pre & masks & y & x & w & v0 & rw & v' &
    E1 & Hf & Hm & F1 & F0 & Fx & F2 & F3 & F4 & F5 & F6 & F7 & F8 & F9 & F10 & F11 & X1 & X2 & X3 & X4).
  destruct (final_ctx_ok y x) as (K1 & [z Kz] & (n & Kn & N1 & N2 & N3 & N4) & K4).
  assert (Hwf : wf intr_all) by apply (registered_wf _ _ _ _ (registered_wf _ _ _ _ blank_wf)).
  eexists [r; 0; 0; 0; 0], d', _, v'. split; [exact E1|]. split; [|exact Fx]. split.
  - split.
    + unfold boot_modes. by rewrite length_insert.
    + exists (repeat (NonCpuNode 0 0 0 0 0 0) 3), (boot_mps i mpidr). unfold boot_mps. by rewrite length_insert.
    + simpl. by rewrite F6.
    + simpl. by rewrite F2.
    + split; [|split; [|simpl; by rewrite F0]].
      * split; [exact F3|]. split; [exact F4|]. by apply (up_ready v' masks).
      * split; [by apply (up_ready v' masks)|]. simpl. rewrite F1. simpl. lia.
    + intros _ j m Hj. eapply payload_booted; eauto.
    + intros j m pc x0 Hj. unfold boot_modes in Hj. apply list_lookup_insert_Some in Hj as [(_ & <- & _)|[_ Hj]]; [done|].
      apply list_elem_of_lookup_2, list_elem_of_In, repeat_spec in Hj. by subst m.
  - rewrite F8. split; [exact F9|]. by exists r.
  - exists n. rewrite F6. split; [exact Kn|]. split; [|congruence]. split; [congruence|].
    split; [|congruence]. by rewrite N1, X3, Hargs.
  - intros ss Hss. rewrite F6. destruct ss as [|[|]]; [| |lia]; eauto.
  - exact F2.
  - rewrite F10. split; [|by exists reads, isr, rd, pre].
    rewrite Swdt.lookup_el3_set by (done || by vm_compute). by rewrite Z.eqb_refl.
Qed.

End Boot.

(** ** From reset *)

(** The statics as the loader leaves them. *)
Definition el3_bss : el3_statics :=
  El3 (GicVars None [0; 0; 0; 0]) blank Swdt.bss (IpiVars None 0) pm_bss (CciVars 0 None 0 0) ctx_bss psci_bss
    (PlatVars 0 0) opteed_bss (TimerVars false 0 0) images_bss (RtVars (repeat 0 128)) (Bl31Vars false NON_SECURE) Xlat.xlat_zero.

(** What the FSBL leaves: the address of its structure in a register of the PMU
    (0 without one), and if there is one, partitions of which the last secure one
    is OP-TEE, at the address the build expects. *)
Definition fsbl_left `{Env} (bl31_end addr : Z) (ps : list xfsbl_partition) : Prop :=
  freq_set /\
  (forall d, u32 (hw_read W32 PMU_GLOBAL_GEN_STORAGE6 d).1 = addr) /\
  (addr < BL31_BASE \/ bl31_end < addr) /\
  (addr = 0 \/ in_memory addr ps /\ Z.of_nat (length ps) <= FSBL_MAX_PARTITIONS /\
     ep_pc (bl32_image_ep_info (handed ps (heads images_bss))) = BL32_BASE).

(** The images that the early set-up may choose. *)
Definition choice (addr : Z) (ps : list xfsbl_partition) (im : images) : Prop :=
  im = defaults (heads images_bss) \/ addr <> 0 /\ im = handed ps (heads images_bss).

Lemma chosen_args secure ps image : ep_args (chosen secure ps image) = ep_args image.
Proof. unfold chosen. by destruct (last _). Qed.

Lemma choice_ok addr ps im : choice addr ps im ->
  (addr = 0 \/ ep_pc (bl32_image_ep_info (handed ps (heads images_bss))) = BL32_BASE) ->
  ep_pc (bl32_image_ep_info im) = BL32_BASE /\
  GET_SECURITY_STATE (ep_attr (bl33_image_ep_info im)) = NON_SECURE /\
  ep_args (bl33_image_ep_info im) = repeat 0 8.
Proof.
  intros [-> |[Hz ->]] Hpc; [done|]. destruct Hpc as [|Hpc]; [done|]. split; [exact Hpc|].
  unfold handed. cbn [bl33_image_ep_info]. by rewrite chosen_security, chosen_args.
Qed.

Lemma caps_with_ok : caps_ok (caps_with true).
Proof.
  intros f Hf. repeat (apply elem_of_cons in Hf as [->|Hf]; [vm_compute; discriminate|]).
  by apply not_elem_of_nil in Hf.
Qed.

(** The address space of the tables is that of the platform. *)
Definition mapped (ld : XlatPlat.layout) (v : el3_statics) : Prop :=
  forall va, Xlat.walk (XlatPlat.xlat_tables_at ld) (s_xlat v) va = (fun a => (va, a)) <$> XlatPlat.address_space ld va.

Section Reset.
Context `{E : Env} `{BD : !Board} `{CPU : !Xlat.El3Cpu} (Hans : pmu_answers) `{OC : !OpteeComplies} (Hboot : optee_boot = BL32_BASE).
Context (mpidr : Z) (i : nat) (Hme : plat_my_core_pos mpidr = Z.of_nat i) (Hi : (i < 4)%nat).
Context (warm addr : Z) (ld : XlatPlat.layout) (Hld : XlatPlat.linked ld).
Context (ps : list xfsbl_partition) (Hfsbl : fsbl_left (XlatPlat.BL31_END ld) addr ps).

Lemma reset_run info d l : mmu_off d -> exists im rcs d' l' v',
  bl31_entrypoint mpidr warm ld info 0 0 (St d l [] el3_bss) = (Ret tt, St d' l' [] v') /\
  choice addr ps im /\ booted mpidr i warm im rcs l' v' /\ mapped ld v'.
Proof.
  intros Hoff. destruct Hfsbl as (Hf & Haddr & Hout & Hmem). unfold bl31_entrypoint, bl31_setup.
  destruct (early_run (XlatPlat.BL31_END ld) addr ps d l [] el3_bss Hf Hans) as (d1 & l1 & v1 & im & E1 & He & Hch);
    [set_solver|done|done|destruct Hmem as [|(? & ? & _)]; auto|].
  rewrite run_bind_assoc, (bind_run _ _ _ _ _ E1).
  apply (mmu_off_kept _ _ _ _ _ _ _ _ _ _ (sctlr_early _ _ _) E1) in Hoff.
  destruct (choice_ok addr ps im Hch) as (C1 & C2 & C3); [destruct Hmem as [|(_ & _ & ?)]; auto|].
  destruct He as (He1 & He2 & _ & Ho).
  destruct (plat_arch_setup_run mpidr i Hme Hi ld d1 l1 [] v1 Hld) as (d2 & l2 & x & E2 & Hwalk);
    [exact (Ho Xlat.xlat _ _ _ _ _)|done|].
  rewrite (bind_run _ _ _ _ _ E2). set (v2 := sput x _) in *.
  assert (HS : starting im v2).
  { split; [exact He2|..]; try exact He1.
    - pose proof (Ho pm _ _ _ _ _) as Hx. simpl in Hx |- *. by rewrite Hx.
    - exact (Ho intr_mgmt _ _ _ _ _).
    - exact (Ho Swdt.swdt _ _ _ _ _).
    - exact (Ho psci _ _ _ _ _).
    - exact (Ho ctx_vars _ _ _ _ _).
    - exact (Ho opteed _ _ _ _ _).
    - exact (Ho bl31 _ _ _ _ _).
    - reflexivity. }
  assert (Hma : length (target_mask_array (s_gic v2)) = 4%nat).
  { pose proof (Ho gic _ _ _ _ _) as Hx. simpl in Hx |- *. by rewrite Hx. }
  destruct (main_booted Hans mpidr i Hme Hi warm im info d2 l2 _ HS Hma) as (rcs & d3 & l3 & v3 & E3 & Hb & Hx);
    [congruence|by rewrite Hboot|done|done|].
  exists im, rcs, d3, l3, v3. repeat (split; [done|]). intros va. rewrite Hx. apply Hwalk.
Qed.

End Reset.


(** ** Who owns a call *)

Section Owners.
Context `{E : Env} (mpidr warm : Z).
#[local] Abbreviation descs := (rt_svc_descs mpidr warm).

(** The entry of a call in the table of services. *)
Lemma idx_value fid : get_unique_oen_from_smc_fid fid = 64 * GET_SMC_TYPE fid + GET_SMC_OEN fid.
Proof. unfold get_unique_oen_from_smc_fid. apply unique_oen_value; apply fid_oen_range. Qed.

(** The ranges of the five services. *)
Lemma owner_range j svc idx : descs !! j = Some svc -> covers svc idx = true ->
  (j = 0%nat /\ idx = 66) \/ (j = 1%nat /\ idx = 64) \/ (j = 2%nat /\ idx = 68) \/
  (j = 3%nat /\ 114 <= idx <= 127) \/ (j = 4%nat /\ 50 <= idx <= 63).
Proof.
  intros Hj Hc. unfold covers in Hc. apply andb_true_iff in Hc. rewrite !Z.leb_le in Hc.
  destruct j as [|[|[|[|[|]]]]]; simplify_eq/=;
    match goal with Hx : first_idx ?s <= _ /\ _ <= last_idx ?s |- _ =>
      let a := eval vm_compute in (first_idx s) in let b := eval vm_compute in (last_idx s) in
      change (first_idx s) with a in Hx; change (last_idx s) with b in Hx end; lia.
Qed.

End Owners.

(** *** Without OP-TEE *)

Section Absent.
Context `{E : Env} (Hans : pmu_answers).
Context (mpidr : Z) (i : nat) (Hme : plat_my_core_pos mpidr = Z.of_nat i) (Hi : (i < 4)%nat).
Context (warm : Z) (im : images).
#[local] Abbreviation descs := (rt_svc_descs mpidr warm).

Lemma absent_run d l v : starting im v -> ep_pc (bl32_image_ep_info im) = 0 -> exists r d' l' v',
  runtime_svc_init descs (St d l [] v) = (Ret tt, St d' l' [] v') /\
  table_of descs [r; 0; 0; 1; 0] (s_rt v') /\ s_ctx v' = ctx_linked /\ bl32_init (s_bl31 v') = false.
Proof.
  intros HS Hpc.
  destruct (services_done Hans mpidr i Hme Hi warm (s_gic v) (s_xlat v) im d l v HS eq_refl eq_refl) as (r & d1 & l1 & v1 & E1 & Ht & _ & Hs).
  unfold code, at_stage in *. rewrite Hpc in *. cbn [Z.eqb Nat.eqb Nat.ltb Nat.leb orb andb] in *.
  destruct Hs as ((_ & Hctx) & _ & _ & Hbl). exists r, d1, l1, v1. by rewrite Hbl.
Qed.

(** A call of the normal world into the dispatcher fails its assertion when OP-TEE
    has no context. *)
Lemma absent_call_asserts fid x1 x2 x3 x4 d l h (v : el3_statics) : s_ctx v = ctx_linked ->
  (opteed_smc_handler mpidr fid x1 x2 x3 x4 1 (St d l h v)).1 = Halt AssertFail.
Proof.
  intros Hc. unfold opteed_smc_handler, opteed_smc_from_ns. change (negb (is_caller_secure 1)) with true. cbn match.
  assert (Hk : ctx_ok (sget v)) by (simpl; rewrite Hc; apply ctx_linked_ok).
  destruct (slot_ns _ i Hk Hi) as [x Hx]. change NON_SECURE with (Z.of_nat 1).
  rewrite (assert_context_run mpidr i Hme _ 1 x) by done. rewrite Hme.
  destruct (sysregs_run i 1 x d l h v Hk Hx) as ((d1 & l1 & E1) & _). rewrite (bind_run _ _ _ _ _ E1).
  unfold assert_context. rewrite Hme. unfold bind at 1. change SECURE with (Z.of_nat 0).
  assert (Hnone : cm_get_context_by_index (Z.of_nat i) (Z.of_nat 0) (St d1 l1 h v) = (Ret None, St d1 l1 h v)).
  { unfold cm_get_context_by_index, cm_get_slot. run. change (sec_state_is_valid (Z.of_nat 0)) with true. run.
    simpl sget. rewrite Hc. rewrite (run_bind_aread_nat _ _ [Slot false zero_context; Slot true zero_context])
      by by apply lookup_four. done. }
  unfold bind at 1. rewrite Hnone. done.
Qed.

End Absent.

(** C38: Without OP-TEE.  When the FSBL has handed over no secure image, the set-up of
    the services returns, OP-TEE is not started, and fast calls for a trusted OS
    are answered with SMC_UNK; but the dispatcher is registered for yielding calls
    all the same, and every such call of the normal world fails an assertion of
    the monitor. *)
Theorem absent_tos_asserts `{E : Env} (mpidr : Z) (i : nat) (warm : Z) (im : images) d l v :
  pmu_answers -> plat_my_core_pos mpidr = Z.of_nat i -> (i < 4)%nat ->
  starting im v -> ep_pc (bl32_image_ep_info im) = 0 ->
  let descs := rt_svc_descs mpidr warm in
  exists d' l' v', runtime_svc_init descs (St d l [] v) = (Ret tt, St d' l' [] v') /\
    bl32_init (s_bl31 v') = false /\
    forall fid x1 x2 x3 x4, OEN_TOS_START <= GET_SMC_OEN (u32 fid) <= OEN_TOS_END ->
      (GET_SMC_TYPE (u32 fid) = SMC_TYPE_FAST -> smc_dispatch (Z.of_nat i) descs fid x1 x2 x3 x4 1 (St d' l' [] v') =
         smc_ret (Z.of_nat i) 1 [SMC_UNK] (St d' l' [] v')) /\
      (GET_SMC_TYPE (u32 fid) = SMC_TYPE_YIELD ->
         (smc_dispatch (Z.of_nat i) descs fid x1 x2 x3 x4 1 (St d' l' [] v')).1 = Halt AssertFail).
Proof.
  intros Hans Hme Hi HS Hpc descs.
  destruct (absent_run Hans mpidr i Hme Hi warm im d l v HS Hpc) as (r & d' & l' & v' & E1 & Ht & Hc & Hb).
  exists d', l', v'. split; [done|]. split; [done|]. intros fid x1 x2 x3 x4 Ho.
  unfold OEN_TOS_START, OEN_TOS_END, SMC_TYPE_FAST, SMC_TYPE_YIELD in *.
  pose proof (idx_value (u32 fid)) as Hidx.
  destruct (dispatch_run descs [r; 0; 0; 1; 0] (Z.of_nat i) (s_rt v') fid x1 x2 x3 x4 1 d' l' [] v' Ht)
    as [[Hno Hd]|(j & svc & Hj & Hrc & Hcov & _ & Hd)]; [simpl; lia|done|..]; rewrite Hd; split; intros Hty; try done.
  - exfalso. apply (Hno 4%nat). exists (opteed_std mpidr). split; [done|]. split; [done|].
    unfold covers. apply andb_true_iff. rewrite !Z.leb_le, Hidx.
    change (first_idx (opteed_std mpidr)) with 50. change (last_idx (opteed_std mpidr)) with 63. lia.
  - exfalso. apply (owner_range mpidr warm j svc _ Hj) in Hcov. rewrite Hidx in Hcov.
    destruct Hcov as [[-> ?]|[[-> ?]|[[-> ?]|[[-> ?]|[-> ?]]]]]; try lia. done.
  - apply (owner_range mpidr warm j svc _ Hj) in Hcov. rewrite Hidx in Hcov.
    destruct Hcov as [[-> ?]|[[-> ?]|[[-> ?]|[[-> ?]|[-> ?]]]]]; try lia. injection Hj as <-.
    by apply absent_call_asserts with i.
Qed.

(** ** A board that boots *)

(** The FSBL's structure is at 0x80000, the PMU answers every request with
    0x10001 (boot mode 1, version 1.1), OP-TEE answers as on [tee_board]. *)
Definition boot_board : Env := {|
  Dev := unit;
  hw_read w a d :=
    (if (0x80000 <=? a) && (a <? 0x80100) then struct_at 0x80000 board_parts w a
     else if a =? PMU_GLOBAL_GEN_STORAGE6 then 0x80000
     else if a =? IOU_SCNTRS_BASEFREQ then 100000000
     else if a =? resp_buffer + 4 then 0x10001
     else if a =? PLAT_ARM_GICD_BASE + GICD_PIDR2_GICV2 then 0x20
     else if a =? PLAT_ARM_GICC_BASE + GICC_CTLR then 0x9
     else if a =? PLAT_ARM_CCI_BASE + PERIPHERAL_ID0 then 0x20
     else if a =? PLAT_ARM_CCI_BASE + PERIPHERAL_ID1 then 0x4
     else 0, d);
  hw_write _ _ _ d := d;
  hw_call f args d := if bool_decide (f = "read_CurrentEl"%string) then (12, d) else hw_call (Env := tee_board) f args d;
  poll_bound := 1;
  uninit k := Z.of_nat k
|}.

Lemma boot_board_answers : pmu_answers (H := boot_board).
Proof. intros []. by exists tt. Qed.
#[export] Instance boot_board_ok : Board (H := boot_board).
Proof. split; intros []; [by right|done|done|done|by left|done]. Defined.
#[export] Instance boot_board_complies : OpteeComplies (H := boot_board).
Proof.
  refine (Build_OpteeComplies boot_board 0x60000000 0x60000100 _ _ _ _ _ _).
  - lia.
  - by intros [].
  - by intros [].
  - intros e [] He. repeat (apply elem_of_cons in He as [->|He]; [by left|]). by apply not_elem_of_nil in He.
  - intros e [] He. repeat (apply elem_of_cons in He as [->|He]; [reflexivity|]). by apply not_elem_of_nil in He.
  - intros []. discriminate.
Defined.

#[export] Instance boot_board_cpu : Xlat.El3Cpu (H := boot_board).
Proof.
  refine {| Xlat.sctlr_el3 := (fun _ : Dev (Env := boot_board) => 0) |}; try done.
Defined.

Lemma boot_board_fsbl : fsbl_left (H := boot_board) 0x7f000 0x80000 board_parts.
Proof.
  split; [intros []; reflexivity|]. split; [intros []; reflexivity|]. split; [right; reflexivity|]. right.
  split; [|split; [discriminate|reflexivity]]. split; [|split].
  - intros [] i m Hm. destruct i as [|[|[|[|]]]]; simplify_eq/=; reflexivity.
  - intros []. reflexivity.
  - intros [] i p Hp. destruct i as [|[|[|[|]]]]; simplify_eq/=; split; reflexivity.
Qed.


(** A board without a secure image: a yielding call of owner 50 after the set-up. *)
Definition no_tos : images := Images (EpInfo 0 0 0 (repeat 0 8)) (EpInfo 1 0x8000000 0x3c9 (repeat 0 8)).
Definition no_tos_image : el3_statics :=
  sput (GicVars (Some arm_gic_data) [1; 0; 0; 0]) (sput ipi_booted (sput cci_booted (sput no_tos el3_bss))).

Lemma absent_tos_asserts_witness : exists d' l' v',
  runtime_svc_init (rt_svc_descs (E := boot_board) 0 0) (St (H := boot_board) tt [] [] no_tos_image) =
    (Ret tt, St (H := boot_board) d' l' [] v') /\
  (smc_dispatch 0 (rt_svc_descs (E := boot_board) 0 0) 0x32000004 0 0 0 0 1 (St (H := boot_board) d' l' [] v')).1 =
    Halt AssertFail.
Proof.
  destruct (absent_tos_asserts (E := boot_board) 0 0 0 no_tos tt [] no_tos_image) as (d' & l' & v' & E1 & _ & Hd).
  - apply boot_board_answers.
  - reflexivity.
  - lia.
  - split; reflexivity.
  - reflexivity.
  - exists d', l', v'. split; [exact E1|]. apply (Hd 0x32000004 0 0 0 0); [split; discriminate|reflexivity].
Defined.

End ColdBoot.
